(* ===== verification/_CoqProject ===== *)
-Q . S2P
Prelude.v
Cstr.v
Funstr.v
Funtime.v
Trace.v
Kernel.v
Funsock.v
Funmsq.v
Funipc.v
Funfile.v
Sunda.v
Tuxmem.v
Registry.v
Tuxcall.v
Tuxcmd.v
Governor.v
Taskline.v
Invariant.v
Manager.v
Config.v
Clients.v
Commserver.v
Gateway.v
Exchange.v
Testclients.v
Roundtrip.v
Tools.v
C001.v
C002.v
Mxmlentity.v
Mxmlprivate.v
Mxmltree.v
Mxmlset.v
Xml.v
Xmlpath.v
Xmldoc.v
Mxmlsave.v
Mxmlload.v
Mxmltext.v
Mxmlread.v
Mxmlwalk.v
Mxmlindex.v
Mxmlsafe.v
Mxmlstream.v
Mxmlfile.v
Mxmlfd.v
Mxmlutf8.v
Xmltransfer.v
