(* ===== verification/Prelude.v ===== *)
(** * Sunda: a model of the transaction middleware under [src/dev]

    Sunda runs application servers on one machine.  Requests come in over sockets, travel
    through System V message queues to server processes, and the replies travel back.  A
    manager starts and restarts the servers; management tools send it commands.  This
    library models the C sources, file by file, and proves what the parts promise.

    ** The parts and how they interact

    - The processes share a memory segment with a control block and the tables of
      servers, processes and services, and a request and a reply queue; a semaphore guards
      the tables.  [tuxmgr.c] creates, attaches and searches them and sends messages
      between processes.
    - [Governor.c], the manager, reads the configuration ([tsk.task], [sd.svc] lines),
      registers servers, forks their processes, restarts those that die and executes the
      commands of the tools ([tmstart], [tmexit], [tmfresh], [tmdown], [tmlook],
      [tmclear]).
    - A server process is [main] of [tuxmain.c]: it registers itself, advertises its
      services and dispatches requests to service functions in a loop ([tux_service]).
    - [commserver.c] owns the sockets of the clients: reading threads turn frames into
      requests, a writing thread turns replies into frames.  [C001.c] and [C002.c] are the
      gateways with a process per connection and with one long connection.
    - Applications may exchange XML documents as data: [xml.c] on top of a copy of
      Mini-XML.

    ** Files

    A file models the source file its first comment names; definitions keep the names of
    the C functions, loops and branches that have a name of their own are cut out of them.

    - [Prelude]: machine integers, outcomes and the state monad [prog], programs that keep
      an invariant ([keeps]) or do the same ([sim]), lists.
      [Cstr]: bytes, buffers and C strings.
    - [Funstr], [Funtime], [Trace] (the log files), [Kernel], [Funsock], [Funmsq],
      [Funipc], [Funfile]: the helpers of [pubfun/common] and the operating system.
    - [Sunda]: the structures of [include] and the state of a process ([world]): tables,
      message head, dispatcher globals, heap, kernel.
    - [Tuxmem], [Registry], [Tuxcall]: the three parts of [tuxmgr.c].  [Tuxcmd]:
      [tuxcmd.c] and [tuxmain.c].
    - [Governor]: [Governor.c].  [Taskline] (configuration lines), [Invariant] (tables stay
      well formed), [Manager] and [Config] (what the manager does) are theorems.
    - [Clients], [Commserver]: [commserver.c].  [Gateway] (its abstract state), [Exchange]
      (bytes to messages and back), [Roundtrip] (client to server and back) are theorems.
      [Testclients]: [client.c] and [simu.c].
    - [Tools], [C001], [C002]: the tools and the gateways.
    - [Mxmlentity], [Mxmlprivate] (globals and callbacks), [Mxmltree], [Mxmlset],
      [Mxmlindex], [Mxmlsave], [Mxmlload]: Mini-XML;
      [Mxmlstream] (characters and loading) and [Mxmlfd] (saving): its files and
      descriptors; [Mxmlutf8]: the readers of its second copy.  [Xml]: [xml.c].
      [Mxmlwalk] (searching in document order), [Xmlpath], [Xmldoc] (what a document
      means), [Mxmltext], [Mxmlread], [Mxmlsafe], [Mxmlfile] (loading from any source),
      [Xmltransfer] (a document saved and loaded) are theorems.

    ** State and operations

    An operation is a [prog S A]: from a state to an [outcome], which is a result with the
    new state, a [longjmp], an [exit], a process that waits for ever, undefined behaviour
    ([Fault]) or exhausted fuel ([Spin]).  [S] is the part of the state the file touches:
    [world] for a process of the system, [comm] for the communication server, [xml] for
    a process with a document; smaller states are lifted into larger ones.  Each table,
    buffer and pointer access is checked: outside of its object it is a [Fault].  Integers
    are [Z] with [i32], [u32], [i64], [u64] where the C type wraps.  Processes that run at
    the same time appear as the events of [o_sched] and of the environments; each call that
    can block consumes them.  Threads of the communication server appear as pieces that
    interleave ([Gateway.gateway_step]): a piece ends where the lock is taken or released,
    and where a function without the lock has looked at the table and not yet changed it.  Pointers are addresses into byte objects ([Tuxmem]), indices
    into tables ([Registry]), words of memory ([Clients]) or keys of a heap of nodes
    ([Mxmltree]), as the code needs.

    ** Theorems

    - Whole paths: [Roundtrip.request_answered] (a request is answered by the service's
      data), [Roundtrip.client_answered] (the same with the test client at its end),
      [Exchange.request_forwarded], [Exchange.reply_delivered], [Tools.exit_command], [Manager.new_server_process] (the command line the manager
      builds is what the server's [main] reads back).
    - Invariants and refinement: [Invariant.system_invariant] for all operations of the
      system; [Gateway.gateway_refines]: the connection table is a list of connections, as
      long as no other thread takes the lock inside the two functions of the main thread
      that change it without the lock;
      [Xmldoc.writes_refine], [reads_correct]: a document is a finite map.
    - Operations: the calls of [tuxmgr.c] on every branch ([Tuxcall], [Registry],
      [Tuxmem]), the manager's ([Manager], [Config]), sockets and queues ([Funsock],
      [Funmsq]), dates against a closed form ([Funtime]).
    - XML: the tree is freed exactly ([Mxmltree.mxmlRelease_correct]), what is written
      ([Mxmltext.XmlSaveString_correct]), the loader on any input while no allocation fails
      ([Mxmlsafe.XmlLoadString_safe]), a document read back by another process
      ([Xmltransfer.XmlString_transfers]), files, descriptors and strings loaded alike
      ([Mxmlfile.loads_agree]) and saved alike ([Mxmlfd.mxmlSaveFd_correct]), UTF-8 read
      back by the second copy ([Mxmlutf8.utf8_read_back]), and the quicksort and the bisection of an index
      against a search through the whole tree ([Mxmlindex.index_search]).
    - Logs: no log grows beyond its bound ([Trace.logs_bounded]).
    - Defects: theorems that state what the code does where it is not what it means to do,
      such as [Gateway.lost_request], [Gateway.accept_race], [Gateway.timeout_race],
      [C002.request_crashes_server], [Xmldoc.XmlInit_dangling],
      [Mxmlsafe.XmlLoadString_frees_twice], [Trace.SysTrace_overruns],
      [Testclients.client_main_killed], [Funipc.sem_connect_unlocks].

    ** Fuel

    Loops that are not structural take fuel.  It is computed from the state where the loop
    starts: bytes left plus one or two for readers ([Funfile], [Funsock], [Mxmlload]),
    nodes plus one for walks in a tree, entries plus one for searches and sorting, events
    plus one for loops of processes, which block when the events are used up.  The
    theorems that an operation returns show that it is enough.

    ** Not modelled

    - The calls of the log functions by the other files, [printfIPC], messages on the
      terminal but the listings of [tmlook]: nothing reads them back.
    - [sighold], [sigrelse], [setsid], the alarms around [WriteSocket] in [C001.c] and [C002.c]
      (those of the test clients are in [Testclients]: a [write] does not wait here), and
      [time_out] of [commserver.c], which is never installed.
    - The program that [execvp] starts and the application's [tux_svrinit],
      [tux_svrdone], service functions and signal handlers: variables of the sections.
    - Of Mini-XML what the program does not reach: the replacements for functions of the C
      library, type, SAX and custom callbacks (the handlers are stored, [Mxmlprivate]); the rest of [mxml-file-utf8.c], a copy of
      [mxml-file.c] that is not compiled.  The number format [%f] is a variable. *)

From Stdlib Require Import ZArith Lia Bool List Ascii String.
From stdpp Require Import base list strings gmap.

#[global] Open Scope Z_scope.
#[global] Open Scope list_scope.

(** ** Machine integers (LP64: [int] 32 bits, [long] 64 bits) *)

Definition i32 (z : Z) : Z := (z + 2 ^ 31) mod 2 ^ 32 - 2 ^ 31.
Definition u32 (z : Z) : Z := z mod 2 ^ 32.
Definition i64 (z : Z) : Z := (z + 2 ^ 63) mod 2 ^ 64 - 2 ^ 63.
Definition u64 (z : Z) : Z := z mod 2 ^ 64.

Definition INT_MIN : Z := - 2 ^ 31.
Definition INT_MAX : Z := 2 ^ 31 - 1.
Definition LONG_MIN : Z := - 2 ^ 63.
Definition LONG_MAX : Z := 2 ^ 63 - 1.

Create Rewrite HintDb cint.

Lemma i32_id z : - 2 ^ 31 <= z < 2 ^ 31 -> i32 z = z.
Proof. intros. unfold i32. rewrite Z.mod_small; lia. Qed.

Lemma i32_range z : - 2 ^ 31 <= i32 z < 2 ^ 31.
Proof. unfold i32. pose proof (Z.mod_pos_bound (z + 2 ^ 31) (2 ^ 32)). lia. Qed.

Lemma u32_id z : 0 <= z < 2 ^ 32 -> u32 z = z.
Proof. intros. unfold u32. now rewrite Z.mod_small. Qed.

Lemma u32_range z : 0 <= u32 z < 2 ^ 32.
Proof. apply Z.mod_pos_bound. lia. Qed.

Lemma i64_id z : - 2 ^ 63 <= z < 2 ^ 63 -> i64 z = z.
Proof. intros. unfold i64. rewrite Z.mod_small; lia. Qed.

Lemma u64_id z : 0 <= z < 2 ^ 64 -> u64 z = z.
Proof. intros. unfold u64. now rewrite Z.mod_small. Qed.

#[export] Hint Rewrite i32_id u32_id i64_id u64_id using lia : cint.

(** [cint] normalises wrap-arounds whose argument is in range. *)
Ltac cint := autorewrite with cint.

(** ** Outcomes of a C function

    A call ends by returning ([Ret]), by [longjmp] to the dispatcher's jump
    buffer ([Jump]), by [exit] ([Exit]), by waiting in the kernel with no event
    left that could wake it ([Block]), or by undefined behaviour: an access
    outside an array, a null pointer, a write past a buffer ([Fault]).  [Spin]
    is the result of a loop whose fuel ran out; the termination theorems show
    that it does not occur at the fuel the definitions choose. *)

Inductive outcome (S A : Type) : Type :=
  | Ret (a : A) (s : S)
  | Jump (v : Z) (s : S)
  | Exit (v : Z) (s : S)
  | Block (s : S)
  | Spin
  | Fault.
Arguments Ret {S A} a s.
Arguments Jump {S A} v s.
Arguments Exit {S A} v s.
Arguments Block {S A} s.
Arguments Spin {S A}.
Arguments Fault {S A}.

Definition prog (S A : Type) : Type := S -> outcome S A.

Definition ret {S A} (a : A) : prog S A := fun s => Ret a s.

Definition obind {S A B} (o : outcome S A) (k : A -> S -> outcome S B) : outcome S B :=
  match o with
  | Ret a s => k a s
  | Jump v s => Jump v s
  | Exit v s => Exit v s
  | Block s => Block s
  | Spin => Spin
  | Fault => Fault
  end.

Definition bind {S A B} (m : prog S A) (k : A -> prog S B) : prog S B :=
  fun s => obind (m s) k.

Definition fault {S A} : prog S A := fun _ => Fault.
Definition spin {S A} : prog S A := fun _ => Spin.
Definition exit_ {S A} (v : Z) : prog S A := fun s => Exit v s.
Definition get {S A} (f : S -> A) : prog S A := fun s => Ret (f s) s.
Definition modify {S} (f : S -> S) : prog S unit := fun s => Ret tt (f s).

Declare Scope prog_scope.
Delimit Scope prog_scope with prog.
Bind Scope prog_scope with prog.

Notation "'let*' x ':=' c 'in' k" := (bind c (fun x => k))
  (at level 10, x pattern, c at level 100, k at level 200,
   format "'[v' 'let*'  x  ':='  c  'in' '/' k ']'") : prog_scope.
Notation "c ';;;' k" := (bind c (fun _ => k))
  (at level 199, right associativity, format "'[v' c  ';;;' '/' k ']'") : prog_scope.
#[global] Open Scope prog_scope.

(** An array access or a pointer that must be valid. *)
Definition deref {S A} (o : option A) : prog S A :=
  match o with Some a => ret a | None => fault end.

Definition when {S} (b : bool) (m : prog S unit) : prog S unit :=
  if b then m else ret tt.

(** [for_each l body]: the body runs on the elements in order. *)
Fixpoint for_each {S A} (l : list A) (body : A -> prog S unit) : prog S unit :=
  match l with
  | [] => ret tt
  | a :: l => body a ;;; for_each l body
  end.

Lemma bind_ret_l {S A B} (a : A) (k : A -> prog S B) s : bind (ret a) k s = k a s.
Proof. reflexivity. Qed.

Lemma bind_Ret {S A B} (m : prog S A) (k : A -> prog S B) s a s' :
  m s = Ret a s' -> bind m k s = k a s'.
Proof. unfold bind. now intros ->. Qed.

Lemma bind_assoc {S A B C} (m : prog S A) (f : A -> prog S B) (g : B -> prog S C) s :
  bind (bind m f) g s = bind m (fun a => bind (f a) g) s.
Proof. unfold bind. now destruct (m s). Qed.

Lemma bind_Ret_inv {S A B} (m : prog S A) (k : A -> prog S B) s b s' :
  bind m k s = Ret b s' -> exists a s1, m s = Ret a s1 /\ k a s1 = Ret b s'.
Proof. unfold bind. destruct (m s); cbn; intros; try discriminate. eauto. Qed.

(** ** Invariants of programs

    [keeps I m]: wherever [m] stops, normally or not, [I] still holds if it held
    at the start (a [Fault] has no state to speak of). *)

Section Keeps.
Context {S : Type} (I : S -> Prop).

Definition holds {A} (o : outcome S A) : Prop :=
  match o with
  | Ret _ s | Jump _ s | Exit _ s | Block s => I s
  | Spin | Fault => True
  end.

Definition keeps {A} (m : prog S A) : Prop := forall s, I s -> holds (m s).

Lemma keeps_ret {A} (a : A) : keeps (ret a).
Proof. easy. Qed.

Lemma keeps_bind {A B} (m : prog S A) (k : A -> prog S B) :
  keeps m -> (forall a, keeps (k a)) -> keeps (bind m k).
Proof.
  intros Hm Hk s Hs. specialize (Hm s Hs). unfold bind.
  destruct (m s); cbn in *; auto. now apply Hk.
Qed.

Lemma keeps_ext {A} (m m' : prog S A) : (forall s, m s = m' s) -> keeps m' -> keeps m.
Proof. intros H Hm s Hs. rewrite H. now apply Hm. Qed.

Lemma keeps_get {A} (f : S -> A) : keeps (get f).
Proof. easy. Qed.

Lemma keeps_modify (f : S -> S) : (forall s, I s -> I (f s)) -> keeps (modify f).
Proof. easy. Qed.

Lemma keeps_fault {A} : keeps (A := A) fault.
Proof. easy. Qed.

Lemma keeps_spin {A} : keeps (A := A) spin.
Proof. easy. Qed.

Lemma keeps_exit {A} v : keeps (A := A) (exit_ v).
Proof. easy. Qed.

Lemma keeps_deref {A} (o : option A) : keeps (deref o).
Proof. now destruct o. Qed.

Lemma keeps_if {A} (b : bool) (m n : prog S A) :
  keeps m -> keeps n -> keeps (if b then m else n).
Proof. now destruct b. Qed.

Lemma keeps_when (b : bool) (m : prog S unit) : keeps m -> keeps (when b m).
Proof. intros. now apply keeps_if. Qed.

Lemma keeps_option {A B} (o : option A) (f : A -> prog S B) (m : prog S B) :
  (forall a, keeps (f a)) -> keeps m ->
  keeps (match o with Some a => f a | None => m end).
Proof. destruct o; auto. Qed.

Lemma keeps_for_each {A} (l : list A) (body : A -> prog S unit) :
  (forall a, keeps (body a)) -> keeps (for_each l body).
Proof.
  intros H. induction l as [|a l IH]; cbn; [easy|]. now apply keeps_bind.
Qed.
End Keeps.

Create HintDb keeps discriminated.
#[export] Hint Constants Opaque : keeps.
#[export] Hint Resolve keeps_ret keeps_get keeps_modify keeps_fault keeps_spin
  keeps_exit keeps_deref : keeps.

(** [keeps_tac] decomposes a program along its binds and branches; the database [keeps]
    closes the primitive steps. *)
Ltac keeps_tac :=
  repeat match goal with
    | |- forall _, _ => intro
    | |- keeps _ (bind _ _) => apply keeps_bind
    | |- keeps _ (when _ _) => apply keeps_when
    | |- keeps _ (for_each _ _) => apply keeps_for_each
    | |- keeps _ (if _ then _ else _) => apply keeps_if
    | |- keeps _ (match ?o with _ => _ end) => destruct o
    | |- keeps _ _ => solve [auto with keeps nocore]
    end.

(** ** Programs that do the same

    [sim R m1 m2]: from related states the programs do the same and end in related states. *)

Section Sim.
Context {S1 S2 : Type} (R : S1 -> S2 -> Prop).

Definition same {A} (o1 : outcome S1 A) (o2 : outcome S2 A) : Prop :=
  match o1, o2 with
  | Ret a s, Ret b t => a = b /\ R s t
  | Jump v s, Jump w t | Exit v s, Exit w t => v = w /\ R s t
  | Block s, Block t => R s t
  | Spin, Spin | Fault, Fault => True
  | _, _ => False
  end.

Definition sim {A} (m1 : prog S1 A) (m2 : prog S2 A) : Prop := forall s t, R s t -> same (m1 s) (m2 t).

Lemma sim_ret {A} (a : A) : sim (ret a) (ret a).
Proof. easy. Qed.

Lemma sim_bind {A B} (m1 : prog S1 A) m2 (k1 : A -> prog S1 B) k2 :
  sim m1 m2 -> (forall a, sim (k1 a) (k2 a)) -> sim (bind m1 k1) (bind m2 k2).
Proof.
  intros Hm Hk s t H. specialize (Hm s t H). unfold bind. destruct (m1 s), (m2 t); cbn in *; try done.
  destruct Hm as [-> Hm]. now apply Hk.
Qed.

Lemma sim_deref {A} (o : option A) : sim (deref o) (deref o).
Proof. now destruct o. Qed.

Lemma sim_fault {A} : sim (A := A) fault fault.
Proof. easy. Qed.

Lemma sim_spin {A} : sim (A := A) spin spin.
Proof. easy. Qed.

Lemma sim_when b m1 m2 : sim m1 m2 -> sim (when b m1) (when b m2).
Proof. intros H. now destruct b. Qed.
End Sim.

Create HintDb sim discriminated.
#[export] Hint Constants Opaque : sim.
#[export] Hint Resolve sim_ret sim_deref sim_fault sim_spin : sim.

(** [sim_tac] follows the structure that two programs share. *)
Ltac sim_tac :=
  repeat match goal with
    | |- forall _, _ => intro
    | |- sim _ (bind _ _) _ => apply sim_bind
    | |- sim _ (when _ _) _ => apply sim_when
    | |- sim _ (if ?b then _ else _) _ => destruct b
    | |- sim _ (match ?o with _ => _ end) _ => destruct o
    | |- sim _ _ _ => solve [auto with sim nocore]
    end.

(** ** Lists as C arrays *)

Definition znth {A} (l : list A) (i : Z) : option A :=
  if i <? 0 then None else l !! Z.to_nat i.

Definition zupd {A} (i : Z) (f : A -> A) (l : list A) : list A :=
  if i <? 0 then l else alter f (Z.to_nat i) l.

Definition inb {A} (l : list A) (i : Z) : bool := (0 <=? i) && (i <? Z.of_nat (length l)).

(** A for loop that returns the first index whose element satisfies [P], or -1. *)
Fixpoint scan {A} (P : A -> bool) (l : list A) (i : Z) : Z :=
  match l with
  | [] => -1
  | x :: l => if P x then i else scan P l (i + 1)
  end.

Lemma length_zupd {A} i f (l : list A) : length (zupd i f l) = length l.
Proof. unfold zupd. destruct (i <? 0); [done|]. apply length_alter. Qed.

Lemma znth_in {A} (l : list A) i : inb l i = true <-> is_Some (znth l i).
Proof.
  unfold inb, znth. destruct (Z.ltb_spec i 0).
  - rewrite andb_true_iff, Z.leb_le. split; [lia|]. intros [? [=]].
  - rewrite andb_true_iff, Z.leb_le, Z.ltb_lt, lookup_lt_is_Some. lia.
Qed.

Lemma znth_zupd_eq {A} i f (l : list A) x :
  znth l i = Some x -> znth (zupd i f l) i = Some (f x).
Proof.
  unfold znth, zupd. destruct (i <? 0); [done|]. intros H.
  rewrite list_lookup_alter_eq, H. done.
Qed.

Lemma znth_zupd_ne {A} i j f (l : list A) :
  i <> j -> znth (zupd i f l) j = znth l j.
Proof.
  unfold znth, zupd. destruct (Z.ltb_spec i 0), (Z.ltb_spec j 0); try done.
  intros. apply list_lookup_alter_ne. lia.
Qed.

Lemma znth_range {A} (l : list A) i x :
  znth l i = Some x -> 0 <= i < Z.of_nat (length l).
Proof.
  unfold znth. destruct (Z.ltb_spec i 0); [done|]. intros ?%lookup_lt_Some. lia.
Qed.

Lemma znth_app_r {A} (l1 l2 : list A) i :
  Z.of_nat (length l1) <= i -> znth (l1 ++ l2) i = znth l2 (i - Z.of_nat (length l1)).
Proof.
  intros. unfold znth. destruct (Z.ltb_spec i 0), (Z.ltb_spec (i - Z.of_nat (length l1)) 0);
    try lia. rewrite lookup_app_r by lia. f_equal. lia.
Qed.

Lemma Forall_zupd {A} (P : A -> Prop) i f (l : list A) :
  Forall P l -> (forall x, P x -> P (f x)) -> Forall P (zupd i f l).
Proof.
  intros Hl Hf. unfold zupd. destruct (i <? 0); [done|].
  apply Forall_alter; [done|]. auto.
Qed.

(** What a scanning loop finds: the least index, or nothing anywhere. *)
Lemma scan_spec {A} (P : A -> bool) (l : list A) i :
  0 <= i ->
  (scan P l i = -1 /\ Forall (fun x => P x = false) l)
  \/ exists k x, scan P l i = i + Z.of_nat k /\ l !! k = Some x /\ P x = true
               /\ Forall (fun x => P x = false) (take k l).
Proof.
  revert i. induction l as [|a l IH]; intros i Hi; cbn.
  - left. done.
  - destruct (P a) eqn:Pa.
    + right. exists 0%nat, a. rewrite Z.add_0_r. done.
    + destruct (IH (i + 1) ltac:(lia)) as [[-> H]|(k & x & -> & Hk & Px & H)].
      * left. auto.
      * right. exists (S k), x. repeat split; try done; [lia|].
        cbn. constructor; done.
Qed.

Lemma scan_range {A} (P : A -> bool) (l : list A) i :
  0 <= i -> scan P l i = -1 \/ i <= scan P l i < i + Z.of_nat (length l).
Proof.
  intros Hi. destruct (scan_spec P l i Hi) as [[-> _]|(k & x & -> & Hk%lookup_lt_Some & _)]; lia.
Qed.

Lemma scan_none {A} (P : A -> bool) (l : list A) i :
  Forall (fun x => P x = false) l -> scan P l i = -1.
Proof. intros H. revert i. induction H as [|x l Hx _ IH]; intros; cbn; [done|]. now rewrite Hx. Qed.

(** The least index is found: the first element satisfying [P]. *)
Lemma scan_app {A} (P : A -> bool) (l1 l2 : list A) x i :
  Forall (fun x => P x = false) l1 -> P x = true ->
  scan P (l1 ++ x :: l2) i = i + Z.of_nat (length l1).
Proof.
  intros H Px. revert i. induction H as [|y l1 Hy _ IH]; intros i; cbn [app scan length].
  - rewrite Px. lia.
  - rewrite Hy, IH. lia.
Qed.

Lemma scan_eq {A} (P : A -> bool) (l : list A) i k :
  0 <= i -> scan P l i = k -> 0 <= k ->
  exists x, znth l (k - i) = Some x /\ P x = true
    /\ Forall (fun x => P x = false) (take (Z.to_nat (k - i)) l).
Proof.
  intros Hi Hs Hk. destruct (scan_spec P l i Hi) as [[E _]|(n & x & E & Hx & Px & Hf)]; [lia|].
  exists x. replace (k - i) with (Z.of_nat n) by lia. unfold znth.
  destruct (Z.ltb_spec (Z.of_nat n) 0); [lia|]. rewrite Nat2Z.id. done.
Qed.

Lemma scan_neg {A} (P : A -> bool) (l : list A) i :
  0 <= i -> scan P l i < 0 -> scan P l i = -1 /\ Forall (fun x => P x = false) l.
Proof. intros Hi Hs. destruct (scan_spec P l i Hi) as [H|(n & x & E & _)]; [done|lia]. Qed.

(** The number of elements that satisfy a test. *)
Definition count {A} (P : A -> bool) (l : list A) : nat := length (List.filter P l).

Lemma count_app {A} (P : A -> bool) (l1 l2 : list A) : count P (l1 ++ l2) = (count P l1 + count P l2)%nat.
Proof. unfold count. now rewrite List.filter_app, length_app. Qed.

Lemma count_zupd {A} (P : A -> bool) (l : list A) i x f :
  znth l i = Some x ->
  (count P (zupd i f l) + Nat.b2n (P x) = count P l + Nat.b2n (P (f x)))%nat.
Proof.
  intros H. pose proof (znth_range _ _ _ H) as R. revert H. unfold znth, zupd.
  destruct (Z.ltb_spec i 0); [lia|]. generalize (Z.to_nat i). clear R H i.
  intros n. revert l. induction n as [|n IH]; intros [|y l]; cbn; try done.
  - intros [= ->]. unfold count. cbn [List.filter]. destruct (P x), (P (f x)); cbn [length Nat.b2n]; lia.
  - intros H%IH. unfold count in *. cbn [List.filter]. destruct (P y); cbn [length]; lia.
Qed.

Lemma count_0 {A} (P : A -> bool) (l : list A) :
  count P l = 0%nat <-> Forall (fun x => P x = false) l.
Proof.
  unfold count. induction l as [|x l IH]; cbn [List.filter length]; [done|].
  rewrite Forall_cons. destruct (P x); cbn [length]; rewrite <- ?IH; intuition lia.
Qed.

(** Tests that differ on the updated element only by a value they reject before and after. *)
Lemma scan_zupd_first {A} (P : A -> bool) (l : list A) k f :
  0 <= k -> Forall (fun x => P x = false) (take (Z.to_nat k) l) ->
  (forall x, znth l k = Some x -> P (f x) = true) -> is_Some (znth l k) ->
  scan P (zupd k f l) 0 = k.
Proof.
  intros Hk Hf Hp [x Hx]. pose proof (znth_range _ _ _ Hx) as R.
  assert (Hx' := Hx). unfold znth in Hx'. destruct (Z.ltb_spec k 0); [lia|].
  apply list_elem_of_split_length in Hx' as (l1 & l2 & -> & L).
  rewrite (take_app_length' l1) in Hf by done.
  unfold zupd. destruct (Z.ltb_spec k 0); [lia|].
  rewrite L, alter_app_r_alt, Nat.sub_diag by lia. cbn [alter list_alter].
  rewrite scan_app; [lia|done|now apply Hp].
Qed.

Lemma zupd_zupd {A} i (f g : A -> A) (l : list A) : zupd i g (zupd i f l) = zupd i (fun x => g (f x)) l.
Proof.
  unfold zupd. destruct (i <? 0); [done|]. generalize (Z.to_nat i). clear i.
  induction l as [|x l IH]; intros [|n]; cbn; try done. f_equal. apply IH.
Qed.

(** *** Searching a list *)

Lemma find_app {A} (f : A -> bool) a b :
  List.find f (a ++ b) = match List.find f a with Some x => Some x | None => List.find f b end.
Proof. induction a as [|x a IH]; [done|]. cbn [app List.find]. now destruct (f x). Qed.

Lemma find_split {A} (f : A -> bool) l x : List.find f l = Some x -> exists a b, l = a ++ x :: b /\ List.find f a = None /\ f x = true.
Proof.
  induction l as [|y l IH]; [done|]. cbn [List.find]. destruct (f y) eqn:E.
  - intros [= ->]. now exists [], l.
  - intros (a & b & -> & Ha & Hx)%IH. exists (y :: a), b. cbn [List.find]. now rewrite E.
Qed.
