(* ===== verification/Cstr.v ===== *)
(** * C memory and C strings

    Bytes, fixed-size buffers and NUL-terminated strings, with the functions of
    the C library that the sources under [src/dev/src] use on them: [memcpy] and
    [memset] as loads and stores at an offset, [strlen], [strcmp], [strncmp],
    [strtok], [atoi]/[atol] and the [%d], [%0*d], [%8ld] and [%02x] conversions of
    [sprintf].  Integers in memory are little-endian. *)

From Stdlib Require Import ZArith Lia Bool List Ascii String.
From stdpp Require Import base list strings.
From S2P Require Import Prelude.

Abbreviation bytes := (list ascii).

Definition NUL : ascii := Ascii.zero.
Definition SP : ascii := " "%char.
Definition TAB : ascii := "009"%char.
Definition CR : ascii := "013"%char.
Definition LF : ascii := "010"%char.
Definition QUOTE : ascii := "034"%char.

(** String literals of the sources. *)
Definition str (s : string) : bytes := list_ascii_of_string s.
Arguments str s%_string_scope.

(** The value of a byte as [unsigned char] and as the (signed) [char]. *)
Definition uchar (c : ascii) : Z := Z.of_N (N_of_ascii c).
Definition schar (c : ascii) : Z := let u := uchar c in if u <? 128 then u else u - 256.
Definition to_char (z : Z) : ascii := ascii_of_N (Z.to_N (z mod 256)).

Definition ceqb (a b : ascii) : bool := Ascii.eqb a b.

Lemma ceqb_eq a b : ceqb a b = true <-> a = b.
Proof. apply Ascii.eqb_eq. Qed.

Lemma ceqb_neq a b : ceqb a b = false <-> a <> b.
Proof. apply Ascii.eqb_neq. Qed.

Lemma ceqb_refl a : ceqb a a = true.
Proof. now apply ceqb_eq. Qed.

Lemma uchar_range c : 0 <= uchar c < 256.
Proof. unfold uchar. pose proof (N_ascii_bounded c). lia. Qed.

Lemma uchar_to_char z : uchar (to_char z) = z mod 256.
Proof.
  unfold uchar, to_char. pose proof (Z.mod_pos_bound z 256 eq_refl).
  rewrite N_ascii_embedding by lia. lia.
Qed.

Lemma to_char_uchar c : to_char (uchar c) = c.
Proof.
  unfold to_char. rewrite Z.mod_small by apply uchar_range.
  unfold uchar. rewrite N2Z.id. apply ascii_N_embedding.
Qed.

(** ** Buffers: loads, stores, zeroed memory *)

Definition zeros (n : Z) : bytes := replicate (Z.to_nat n) NUL.

(** [ld off n b]: the [n] bytes at offset [off], when they lie inside [b]. *)
Definition ld (off n : Z) (b : bytes) : option bytes :=
  if (0 <=? off) && (0 <=? n) && (off + n <=? Z.of_nat (length b))
  then Some (take (Z.to_nat n) (drop (Z.to_nat off) b)) else None.

(** [st off bs b]: [memcpy(b + off, bs, length bs)], when it stays inside [b]. *)
Definition st (off : Z) (bs b : bytes) : option bytes :=
  if (0 <=? off) && (off + Z.of_nat (length bs) <=? Z.of_nat (length b))
  then Some (take (Z.to_nat off) b ++ bs ++ drop (Z.to_nat off + length bs) b) else None.

Lemma length_zeros n : 0 <= n -> Z.of_nat (length (zeros n)) = n.
Proof. intros. unfold zeros. rewrite length_replicate. lia. Qed.

Lemma ld_length off n b bs : ld off n b = Some bs -> Z.of_nat (length bs) = n.
Proof.
  unfold ld. destruct (_ && _) eqn:E; [|done]. intros [= <-].
  rewrite !andb_true_iff, !Z.leb_le in E.
  rewrite length_take, length_drop. lia.
Qed.

Lemma st_length off bs b b' : st off bs b = Some b' -> length b' = length b.
Proof.
  unfold st. destruct (_ && _) eqn:E; [|done]. intros [= <-].
  rewrite !andb_true_iff, !Z.leb_le in E.
  rewrite !length_app, length_take, length_drop. lia.
Qed.

Lemma st_Some off bs b :
  0 <= off -> off + Z.of_nat (length bs) <= Z.of_nat (length b) -> is_Some (st off bs b).
Proof.
  intros. unfold st. rewrite (proj2 (Z.leb_le 0 off)), (proj2 (Z.leb_le _ _)) by lia. eauto.
Qed.

Lemma ld_st_eq off bs b b' :
  st off bs b = Some b' -> ld off (Z.of_nat (length bs)) b' = Some bs.
Proof.
  intros H. pose proof (st_length _ _ _ _ H) as L. revert H. unfold st, ld.
  destruct (_ && _) eqn:E; [|done]. intros [= <-].
  rewrite !andb_true_iff, !Z.leb_le in E. rewrite L.
  rewrite (proj2 (Z.leb_le 0 off)), (proj2 (Z.leb_le 0 _)), (proj2 (Z.leb_le _ _)) by lia.
  cbn [andb]. f_equal. rewrite Nat2Z.id.
  rewrite drop_app_length' by (rewrite length_take; lia). apply take_app_length.
Qed.

Lemma ld_st_before off bs b b' o n :
  st off bs b = Some b' -> 0 <= o -> 0 <= n -> o + n <= off -> ld o n b' = ld o n b.
Proof.
  intros H Ho Hn Hlt. pose proof (st_length _ _ _ _ H) as L. revert H. unfold st, ld.
  destruct (_ && _) eqn:E; [|done]. intros [= <-].
  rewrite !andb_true_iff, !Z.leb_le in E. rewrite L.
  destruct (_ && _); [|done]. f_equal.
  rewrite drop_app_le, take_app_le by (rewrite ?length_drop, ?length_take; lia).
  rewrite skipn_firstn_comm, take_take. f_equal. lia.
Qed.

Lemma ld_st_after off bs b b' o n :
  st off bs b = Some b' -> off + Z.of_nat (length bs) <= o -> ld o n b' = ld o n b.
Proof.
  intros H Hlt. pose proof (st_length _ _ _ _ H) as L. revert H. unfold st, ld.
  destruct (_ && _) eqn:E; [|done]. intros [= <-].
  rewrite !andb_true_iff, !Z.leb_le in E. rewrite L.
  destruct (_ && _); [|done]. do 2 f_equal.
  rewrite drop_app_ge, drop_app_ge, drop_drop by (rewrite ?length_take; lia).
  f_equal. rewrite length_take. lia.
Qed.

Lemma zeros_add a b : 0 <= a -> 0 <= b -> zeros (a + b) = zeros a ++ zeros b.
Proof. intros. unfold zeros. rewrite <- replicate_add. f_equal. lia. Qed.

(** A buffer of [n] zero bytes with [bs] at its start. *)
Lemma st_zeros_start bs n :
  Z.of_nat (length bs) <= n -> st 0 bs (zeros n) = Some (bs ++ zeros (n - Z.of_nat (length bs))).
Proof.
  intros H. unfold st. rewrite length_zeros by lia.
  rewrite (proj2 (Z.leb_le 0 0)), (proj2 (Z.leb_le _ n)) by lia. cbn [andb].
  change (Z.to_nat 0) with 0%nat. rewrite take_0. cbn [app Nat.add]. do 2 f_equal.
  unfold zeros. rewrite drop_replicate. f_equal. lia.
Qed.

(** A store over the whole buffer. *)
Lemma st_whole bs b : length bs = length b -> st 0 bs b = Some bs.
Proof.
  intros L. unfold st. rewrite L, (proj2 (Z.leb_le 0 0)), (proj2 (Z.leb_le (0 + _) _)) by lia. cbn [andb].
  change (Z.to_nat 0) with 0%nat. rewrite take_0, drop_ge by lia. cbn [app]. now rewrite app_nil_r.
Qed.

Lemma ld_zeros off n m : 0 <= off -> 0 <= n -> off + n <= m -> ld off n (zeros m) = Some (zeros n).
Proof.
  intros. unfold ld. rewrite length_zeros by lia.
  rewrite (proj2 (Z.leb_le 0 off)), (proj2 (Z.leb_le 0 n)), (proj2 (Z.leb_le _ _)) by lia.
  cbn [andb]. f_equal. unfold zeros. rewrite drop_replicate, take_replicate. f_equal. lia.
Qed.

(** ** Little-endian integers *)

Fixpoint enc (n : nat) (z : Z) : bytes :=
  match n with
  | O => []
  | S n => to_char z :: enc n (z / 256)
  end.

Fixpoint dec (bs : bytes) : Z :=
  match bs with
  | [] => 0
  | c :: bs => uchar c + 256 * dec bs
  end.

Lemma length_enc n z : length (enc n z) = n.
Proof. revert z. induction n; intros; cbn; auto. Qed.

Lemma dec_enc n z : dec (enc n z) = z mod 256 ^ Z.of_nat n.
Proof.
  revert z. induction n as [|n IH]; intros z; cbn [enc dec].
  - now rewrite Z.mod_1_r.
  - rewrite uchar_to_char, IH, Nat2Z.inj_succ, Z.pow_succ_r by lia.
    rewrite Z.rem_mul_r by lia. lia.
Qed.

Lemma dec_range bs : 0 <= dec bs < 256 ^ Z.of_nat (length bs).
Proof.
  induction bs as [|c bs IH]; cbn [dec length]; [lia|].
  rewrite Nat2Z.inj_succ, Z.pow_succ_r by lia.
  pose proof (uchar_range c). nia.
Qed.

Lemma enc_dec bs : enc (length bs) (dec bs) = bs.
Proof.
  induction bs as [|c bs IH]; cbn [dec length enc]; [done|].
  pose proof (uchar_range c).
  replace ((uchar c + 256 * dec bs) / 256) with (dec bs)
    by (rewrite (Z.mul_comm 256), Z.div_add, Z.div_small by lia; lia).
  rewrite IH. f_equal. rewrite <- (to_char_uchar c) at 2. unfold to_char. do 2 f_equal.
  rewrite Z.mul_comm, Z.mod_add by lia. reflexivity.
Qed.

Definition le32 (z : Z) : bytes := enc 4 z.
Definition le64 (z : Z) : bytes := enc 8 z.
Definition get_i32 (bs : bytes) : Z := i32 (dec bs).
Definition get_u32 (bs : bytes) : Z := dec bs.
Definition get_i64 (bs : bytes) : Z := i64 (dec bs).

Lemma i32_mod z : i32 (z mod 2 ^ 32) = i32 z.
Proof. unfold i32. now rewrite Zplus_mod_idemp_l. Qed.

Lemma i64_mod z : i64 (z mod 2 ^ 64) = i64 z.
Proof. unfold i64. now rewrite Zplus_mod_idemp_l. Qed.

Lemma get_i32_le32 z : get_i32 (le32 z) = i32 z.
Proof. unfold get_i32, le32. rewrite dec_enc. apply i32_mod. Qed.

Lemma get_u32_le32 z : get_u32 (le32 z) = u32 z.
Proof. unfold get_u32, le32. now rewrite dec_enc. Qed.

Lemma get_i64_le64 z : get_i64 (le64 z) = i64 z.
Proof. unfold get_i64, le64. rewrite dec_enc. apply i64_mod. Qed.

(** ** Strings *)

(** The string held by a buffer: its bytes before the first NUL. *)
Fixpoint cstr (b : bytes) : bytes :=
  match b with
  | [] => []
  | c :: b => if ceqb c NUL then [] else c :: cstr b
  end.

(** A buffer holds a string only when a NUL ends it; reading on is undefined. *)
Definition terminated (b : bytes) : bool := existsb (ceqb NUL) b.

Definition nonul (s : bytes) : Prop := Forall (fun c => c <> NUL) s.

#[export] Instance nonul_dec s : Decision (nonul s).
Proof. unfold nonul. apply _. Defined.

Lemma cstr_nonul b : nonul (cstr b).
Proof.
  induction b as [|c b IH]; cbn; [constructor|].
  destruct (ceqb c NUL) eqn:E; [constructor|]. constructor; [now apply ceqb_neq|done].
Qed.

Lemma cstr_id s : nonul s -> cstr s = s.
Proof.
  induction 1 as [|c s Hc _ IH]; cbn; [done|].
  now rewrite (proj2 (ceqb_neq _ _) Hc), IH.
Qed.

Lemma cstr_app_nul s t : nonul s -> cstr (s ++ NUL :: t) = s.
Proof.
  induction 1 as [|c s Hc _ IH]; cbn; [done|].
  now rewrite (proj2 (ceqb_neq _ _) Hc), IH.
Qed.

Lemma length_cstr b : (length (cstr b) <= length b)%nat.
Proof. induction b as [|c b IH]; cbn; [lia|]. destruct (ceqb c NUL); cbn; lia. Qed.

(** A terminated buffer is its string, a NUL and the bytes behind it. *)
Lemma terminated_split b :
  terminated b = true -> exists t, b = cstr b ++ NUL :: t.
Proof.
  induction b as [|c b IH]; [done|]. unfold terminated. cbn [existsb cstr].
  destruct (ceqb c NUL) eqn:E.
  - apply ceqb_eq in E. subst. eauto.
  - replace (ceqb NUL c) with false
      by (symmetry; apply ceqb_neq; apply ceqb_neq in E; congruence).
    intros [t ->]%IH. exists t. cbn. do 2 f_equal.
    now rewrite cstr_app_nul by apply cstr_nonul.
Qed.

Lemma terminated_app s t : terminated (s ++ NUL :: t) = true.
Proof. induction s as [|c s IH]; cbn; [done|]. apply orb_true_iff. auto. Qed.

(** [strncmp]; the bytes behind the end of a string read as its NUL. *)
Fixpoint strncmp (n : nat) (a b : bytes) : Z :=
  match n with
  | O => 0
  | S n =>
      let ca := List.hd NUL a in
      let cb := List.hd NUL b in
      if ceqb ca cb then if ceqb ca NUL then 0 else strncmp n (tl a) (tl b)
      else uchar ca - uchar cb
  end.

Definition strcmp (a b : bytes) : Z := strncmp (S (length a)) a b.
Definition streq (a b : bytes) : bool := strcmp a b =? 0.
Definition strneq (n : nat) (a b : bytes) : bool := strncmp n a b =? 0.

Lemma uchar_inj a b : uchar a = uchar b -> a = b.
Proof. intros H. rewrite <- (to_char_uchar a), H. apply to_char_uchar. Qed.

Lemma strncmp_eq n a b :
  nonul a -> nonul b -> strncmp n a b = 0 <-> take n a = take n b.
Proof.
  revert a b. induction n as [|n IH]; intros a b Ha Hb; [done|]. cbn [strncmp].
  destruct Ha as [|x a Hx Ha], Hb as [|y b Hy Hb]; cbn [List.hd tl take].
  - done.
  - rewrite (proj2 (ceqb_neq NUL y)) by congruence. split; [|done].
    intros H. destruct Hy. apply uchar_inj. lia.
  - rewrite (proj2 (ceqb_neq x NUL)) by congruence. split; [|done].
    intros H. destruct Hx. apply uchar_inj. lia.
  - destruct (ceqb x y) eqn:E.
    + apply ceqb_eq in E. subst y. rewrite (proj2 (ceqb_neq _ _) Hx), IH by done.
      split; [congruence|]. now intros [= ].
    + apply ceqb_neq in E. split.
      * intros H. destruct E. apply uchar_inj. lia.
      * intros [= ]. done.
Qed.

Lemma strneq_eq n a b :
  nonul a -> nonul b -> strneq n a b = true <-> take n a = take n b.
Proof. intros. unfold strneq. rewrite Z.eqb_eq. now apply strncmp_eq. Qed.

(** Behind the NUL of a string nothing counts. *)
Lemma hd_cstr a : List.hd NUL (cstr a) = List.hd NUL a.
Proof. destruct a as [|c a]; [done|]. cbn [cstr]. destruct (ceqb c NUL) eqn:E; [|done]. apply ceqb_eq in E. now subst. Qed.

Lemma strncmp_cstr n a b : strncmp n (cstr a) (cstr b) = strncmp n a b.
Proof.
  revert a b. induction n as [|n IH]; intros a b; [done|]. cbn [strncmp]. rewrite !hd_cstr.
  destruct (ceqb (List.hd NUL a) (List.hd NUL b)) eqn:E; [|done]. destruct (ceqb (List.hd NUL a) NUL) eqn:E0; [done|].
  apply ceqb_eq in E. destruct a as [|x a]; [done|]. destruct b as [|y b]; [cbn in E; subst; done|]. cbn [List.hd] in *. subst y.
  cbn [cstr]. rewrite E0. apply IH.
Qed.

Lemma streq_cstr a b : streq a b = true <-> cstr a = cstr b.
Proof.
  pose proof (length_cstr a) as L. unfold streq, strcmp.
  rewrite Z.eqb_eq, <- strncmp_cstr, strncmp_eq by apply cstr_nonul.
  rewrite (take_ge (cstr a)) by lia. split; [|intros <-; now rewrite take_ge by lia].
  intros H. destruct (le_lt_dec (length (cstr b)) (S (length a))).
  - now rewrite take_ge in H by lia.
  - apply (f_equal length) in H. rewrite length_take in H. lia.
Qed.

Lemma streq_eq a b : nonul a -> nonul b -> streq a b = true <-> a = b.
Proof. intros Ha Hb. rewrite streq_cstr. now rewrite !cstr_id. Qed.

(** ** Character classes, numbers *)

Definition isdigit (c : ascii) : bool := (48 <=? uchar c) && (uchar c <=? 57).
Definition isspace (c : ascii) : bool :=
  (uchar c =? 32) || ((9 <=? uchar c) && (uchar c <=? 13)).

Definition digit (d : Z) : ascii := to_char (48 + d).

(** The order of [strcmp]. *)
Lemma strcmp_cons x a y b :
  x <> NUL -> y <> NUL -> strcmp (x :: a) (y :: b) = if ceqb x y then strcmp a b else uchar x - uchar y.
Proof.
  intros Hx _. unfold strcmp. cbn [length strncmp List.hd tl]. destruct (ceqb x y) eqn:E; [|done]. now rewrite (proj2 (ceqb_neq _ _) Hx).
Qed.

Lemma strcmp_nil_l y b : y <> NUL -> strcmp [] (y :: b) < 0.
Proof.
  intros Hy. unfold strcmp. cbn [length strncmp List.hd tl]. rewrite (proj2 (ceqb_neq _ _)) by congruence.
  pose proof (uchar_range y). assert (uchar y <> uchar NUL) by (intros E; apply Hy; now apply uchar_inj). change (uchar NUL) with 0 in *. lia.
Qed.

Lemma strcmp_nil_r x a : x <> NUL -> 0 < strcmp (x :: a) [].
Proof.
  intros Hx. unfold strcmp. cbn [length strncmp List.hd tl]. rewrite (proj2 (ceqb_neq _ _)) by congruence.
  pose proof (uchar_range x). assert (uchar x <> uchar NUL) by (intros E; apply Hx; now apply uchar_inj). change (uchar NUL) with 0 in *. lia.
Qed.

Lemma strcmp_trans a b c : nonul a -> nonul b -> nonul c -> strcmp a b < 0 -> strcmp b c < 0 -> strcmp a c < 0.
Proof.
  intros Ha. revert b c. induction Ha as [|x a Hx Ha IH]; intros b c Hb Hc.
  - destruct Hb as [|y b Hy Hb]; [done|]. destruct Hc as [|z c Hz Hc]; [pose proof (strcmp_nil_r y b Hy); lia|]. intros. now apply strcmp_nil_l.
  - destruct Hb as [|y b Hy Hb]; [pose proof (strcmp_nil_r x a Hx); lia|].
    destruct Hc as [|z c Hz Hc]; [pose proof (strcmp_nil_r y b Hy); lia|].
    rewrite !strcmp_cons by done. destruct (ceqb x y) eqn:E1, (ceqb y z) eqn:E2; rewrite ?ceqb_eq in *; subst; rewrite ?ceqb_refl.
    + now apply IH.
    + now rewrite E2.
    + now rewrite E1.
    + destruct (ceqb x z) eqn:E3; [apply ceqb_eq in E3; subst; lia|lia].
Qed.

Lemma strcmp_antisym a b : nonul a -> nonul b -> strcmp a b < 0 -> 0 < strcmp b a.
Proof.
  intros Ha. revert b. induction Ha as [|x a Hx Ha IH]; intros b Hb; destruct Hb as [|y b Hy Hb].
  - done.
  - intros _. now apply strcmp_nil_r.
  - pose proof (strcmp_nil_r x a Hx). lia.
  - rewrite !strcmp_cons by done. destruct (ceqb x y) eqn:E.
    + apply ceqb_eq in E as ->. rewrite ceqb_refl. now apply IH.
    + apply ceqb_neq in E. rewrite (proj2 (ceqb_neq y x)) by congruence. lia.
Qed.

Lemma uchar_digit d : 0 <= d < 10 -> uchar (digit d) = 48 + d.
Proof. intros. unfold digit. rewrite uchar_to_char, Z.mod_small; lia. Qed.

Lemma isdigit_digit d : 0 <= d < 10 -> isdigit (digit d) = true.
Proof. intros. unfold isdigit. rewrite uchar_digit by lia. lia. Qed.

(** The decimal digits of [z]; twenty of them hold any 64-bit value. *)
Fixpoint udec (fuel : nat) (z : Z) : bytes :=
  match fuel with
  | O => []
  | S fuel => if z <? 10 then [digit z] else udec fuel (z / 10) ++ [digit (z mod 10)]
  end.

(** [%d] and [%ld]. *)
Definition fmt_d (z : Z) : bytes :=
  if z <? 0 then "-"%char :: udec 20 (- z) else udec 20 z.

Definition pad_left (c : ascii) (w : Z) (s : bytes) : bytes :=
  replicate (Z.to_nat w - length s) c ++ s.

(** [%0*d]: zero padding goes after the sign. *)
Definition fmt_0d (w z : Z) : bytes :=
  if z <? 0 then "-"%char :: pad_left "0"%char (w - 1) (udec 20 (- z))
  else pad_left "0"%char w (udec 20 z).

(** [%8ld]: blank padding. *)
Definition fmt_w (w z : Z) : bytes := pad_left SP w (fmt_d z).

Definition hexdigit (d : Z) : ascii := to_char (if d <? 10 then 48 + d else 87 + d).

(** [%02x] of a [char] argument: a negative [char] is promoted to [int] and
    printed as the 32-bit pattern. *)
Definition fmt_02x (c : ascii) : bytes :=
  let u := u32 (schar c) in
  if u <? 256 then [hexdigit (u / 16); hexdigit (u mod 16)]
  else map (fun k => hexdigit (Z.shiftr u (4 * k) mod 16)) [7; 6; 5; 4; 3; 2; 1; 0].

(** The value of the leading decimal digits, continuing from [acc]. *)
Fixpoint digits (acc : Z) (s : bytes) : Z :=
  match s with
  | c :: s => if isdigit c then digits (10 * acc + (uchar c - 48)) s else acc
  | [] => acc
  end.

Fixpoint skip_space (s : bytes) : bytes :=
  match s with
  | c :: s' => if isspace c then skip_space s' else s
  | [] => []
  end.

Definition clamp_long (z : Z) : Z := Z.max LONG_MIN (Z.min LONG_MAX z).

(** [atol] is [strtol] in base ten, which saturates; [atoi] truncates it. *)
Definition atol (s : bytes) : Z :=
  match skip_space s with
  | c :: s' =>
      if ceqb c "-"%char then clamp_long (- digits 0 s')
      else if ceqb c "+"%char then clamp_long (digits 0 s')
      else clamp_long (digits 0 (c :: s'))
  | [] => 0
  end.

Definition atoi (s : bytes) : Z := i32 (atol s).

Lemma digits_app_digits acc s t :
  Forall (fun c => isdigit c = true) s -> digits acc (s ++ t) = digits (digits acc s) t.
Proof.
  intros H. revert acc. induction H as [|c s Hc _ IH]; intros acc; cbn; [done|].
  now rewrite Hc.
Qed.

Lemma udec_digits f z : 0 <= z -> Forall (fun c => isdigit c = true) (udec f z).
Proof.
  revert z. induction f as [|f IH]; intros z Hz; cbn; [constructor|].
  destruct (Z.ltb_spec z 10).
  - constructor; [|constructor]. apply isdigit_digit. lia.
  - apply Forall_app. split; [apply IH, Z.div_pos; lia|].
    constructor; [|constructor]. apply isdigit_digit, Z.mod_pos_bound. lia.
Qed.

Lemma digits_udec f z : 0 <= z < 10 ^ Z.of_nat f -> digits 0 (udec f z) = z.
Proof.
  revert z. induction f as [|f IH]; intros z Hz; cbn [udec].
  - cbn in Hz. cbn. lia.
  - destruct (Z.ltb_spec z 10) as [Hlt|Hge].
    + cbn. rewrite isdigit_digit, uchar_digit by lia. lia.
    + rewrite Nat2Z.inj_succ, Z.pow_succ_r in Hz by lia.
      rewrite digits_app_digits by (apply udec_digits, Z.div_pos; lia).
      rewrite IH by (split; [apply Z.div_pos; lia | apply Z.div_lt_upper_bound; lia]).
      pose proof (Z.mod_pos_bound z 10 eq_refl).
      cbn. rewrite isdigit_digit, uchar_digit by lia.
      pose proof (Z.div_mod z 10). lia.
Qed.

Lemma udec_cons f z : 0 <= z -> exists c s, udec (S f) z = c :: s /\ isdigit c = true.
Proof.
  intros Hz. pose proof (udec_digits (S f) z Hz) as H. cbn [udec] in *.
  destruct (z <? 10); [inversion H; eauto|].
  destruct (udec f (z / 10)) as [|c s]; cbn [app] in *; inversion H; eauto.
Qed.

Lemma isdigit_not_space c : isdigit c = true -> isspace c = false.
Proof. unfold isdigit, isspace. lia. Qed.

Lemma isdigit_not_sign c :
  isdigit c = true -> ceqb c "-"%char = false /\ ceqb c "+"%char = false.
Proof.
  intros H. split; apply ceqb_neq; intros ->; vm_compute in H; discriminate.
Qed.

Lemma atol_digits c s : isdigit c = true -> atol (c :: s) = clamp_long (digits 0 (c :: s)).
Proof.
  intros H. unfold atol. cbn [skip_space]. rewrite (isdigit_not_space _ H).
  destruct (isdigit_not_sign _ H) as [-> ->]. done.
Qed.

(** Printing a [long] and reading it back. *)
Lemma atol_fmt_d z : LONG_MIN <= z <= LONG_MAX -> atol (fmt_d z) = z.
Proof.
  unfold LONG_MIN, LONG_MAX. intros Hz. unfold fmt_d.
  assert (H20 : 10 ^ Z.of_nat 20 = 100000000000000000000) by reflexivity.
  destruct (Z.ltb_spec z 0).
  - unfold atol. cbn [skip_space]. change (isspace "-"%char) with false.
    cbn match. change (ceqb "-"%char "-"%char) with true. cbn match.
    rewrite digits_udec by lia. unfold clamp_long, LONG_MIN, LONG_MAX. lia.
  - destruct (udec_cons 19 z) as (c & s & E & Hc); [lia|]. rewrite E, atol_digits by done.
    rewrite <- E, digits_udec by lia. unfold clamp_long, LONG_MIN, LONG_MAX. lia.
Qed.

Lemma atoi_fmt_d z : INT_MIN <= z <= INT_MAX -> atoi (fmt_d z) = z.
Proof.
  unfold INT_MIN, INT_MAX. intros. unfold atoi.
  rewrite atol_fmt_d by (unfold LONG_MIN, LONG_MAX; lia). apply i32_id. lia.
Qed.

Lemma digits_lt s acc : 0 <= acc -> Forall (fun c => isdigit c = true) s -> digits acc s < (acc + 1) * 10 ^ Z.of_nat (length s).
Proof.
  intros H F. revert acc H. induction F as [|c s Hc F IH]; intros acc H; cbn [digits length]; [lia|].
  rewrite Hc, Nat2Z.inj_succ, Z.pow_succ_r by lia. unfold isdigit in Hc. apply andb_prop in Hc as [H1 H2].
  apply Z.leb_le in H1, H2. specialize (IH (10 * acc + (uchar c - 48)) ltac:(lia)).
  assert (0 < 10 ^ Z.of_nat (length s)) by (apply Z.pow_pos_nonneg; lia). nia.
Qed.

Lemma length_udec f z : (length (udec f z) <= f)%nat.
Proof.
  revert z. induction f as [|f IH]; intros z; cbn [udec]; [done|].
  destruct (z <? 10); [cbn; lia|]. rewrite length_app. specialize (IH (z / 10)). cbn. lia.
Qed.

(** A printed number is digits and perhaps a sign, at least one of them. *)
Lemma fmt_d_chars z :
  fmt_d z <> [] /\ Forall (fun c => isdigit c || ceqb c "-"%char = true) (fmt_d z)
  /\ (length (fmt_d z) <= 21)%nat.
Proof.
  assert (D : forall n, 0 <= n -> Forall (fun c => isdigit c || ceqb c "-"%char = true) (udec 20 n)).
  { intros n Hn. eapply Forall_impl; [apply (udec_digits 20 n Hn)|]. cbn. intros c ->. done. }
  unfold fmt_d. destruct (Z.ltb_spec z 0).
  - pose proof (length_udec 20 (- z)). split; [done|]. split; [|cbn [length]; lia].
    constructor; [done|]. apply D. lia.
  - pose proof (length_udec 20 z). destruct (udec_cons 19 z) as (c & s & E & _); [lia|].
    split; [rewrite E; discriminate|]. split; [apply D|]; lia.
Qed.

Lemma length_udec_le f z k : 0 <= z < 10 ^ Z.of_nat k -> (1 <= k)%nat -> (length (udec f z) <= k)%nat.
Proof.
  revert z k. induction f as [|f IH]; intros z k Hz Hk; cbn [udec length]; [lia|].
  destruct (Z.ltb_spec z 10); [cbn; lia|]. rewrite length_app. cbn [length].
  destruct k as [|[|k]]; [lia|cbn in Hz; lia|].
  rewrite (Nat2Z.inj_succ (S k)), Z.pow_succ_r in Hz by lia.
  specialize (IH (z / 10) (S k)). rewrite Nat.add_comm. cbn. apply le_n_S, IH; [|lia].
  split; [apply Z.div_pos; lia|apply Z.div_lt_upper_bound; lia].
Qed.

Lemma digits_pad n s : digits 0 (replicate n "0"%char ++ s) = digits 0 s.
Proof. induction n as [|n IH]; [done|]. cbn [replicate app digits]. exact IH. Qed.

(** A number printed with leading zeros and read back. *)
Lemma fmt_0d_spec w z :
  0 <= z < 10 ^ w -> 1 <= w <= 18 -> Z.of_nat (length (fmt_0d w z)) = w /\ atol (fmt_0d w z) = z.
Proof.
  intros Hz Hw. unfold fmt_0d. destruct (Z.ltb_spec z 0); [lia|]. unfold pad_left.
  pose proof (length_udec_le 20 z (Z.to_nat w)) as L. rewrite Z2Nat.id in L by lia.
  specialize (L Hz ltac:(lia)). split.
  - rewrite length_app, length_replicate. lia.
  - assert (P : 10 ^ w <= 10 ^ 18) by (apply Z.pow_le_mono_r; lia).
    assert (H18 : 10 ^ 18 = 1000000000000000000) by reflexivity.
    assert (D : digits 0 (udec 20 z) = z) by (apply digits_udec; change (10 ^ Z.of_nat 20) with 100000000000000000000; lia).
    assert (C : z <= 10 ^ 18) by lia.
    destruct (udec_cons 19 z) as (c & s & E & Hc); [lia|].
    destruct (Z.to_nat w - length (udec 20 z))%nat as [|k] eqn:K.
    + cbn [replicate app]. rewrite E, atol_digits by done. rewrite <- E, D.
      unfold clamp_long, LONG_MIN, LONG_MAX. lia.
    + cbn [replicate app]. rewrite atol_digits by reflexivity.
      change (digits 0 ("0"%char :: replicate k "0"%char ++ udec 20 z)) with (digits 0 (replicate k "0"%char ++ udec 20 z)).
      rewrite digits_pad, D. unfold clamp_long, LONG_MIN, LONG_MAX. lia.
Qed.

(** ** strtok *)

Definition memc (c : ascii) (delim : bytes) : bool := existsb (ceqb c) delim.

(** The number of leading bytes of a string that are, are not, delimiters. *)
Fixpoint strspn (delim s : bytes) : nat :=
  match s with
  | c :: s => if memc c delim then S (strspn delim s) else O
  | [] => O
  end.

Fixpoint strcspn (delim s : bytes) : nat :=
  match s with
  | c :: s => if memc c delim then O else S (strcspn delim s)
  | [] => O
  end.

(** One call on the buffer [b] from offset [pos]: the token's offset, the buffer
    with the delimiter that ends the token overwritten, the saved position. *)
Definition strtok (delim : bytes) (b : bytes) (pos : nat) : option nat * bytes * nat :=
  let s := cstr (drop pos b) in
  let k := strspn delim s in
  let t := strcspn delim (drop k s) in
  if bool_decide (drop k s = []) then (None, b, (pos + k)%nat)
  else if bool_decide (drop (k + t) s = []) then (Some (pos + k)%nat, b, (pos + k + t)%nat)
  else (Some (pos + k)%nat,
        take (pos + k + t) b ++ NUL :: drop (pos + k + t + 1) b, (pos + k + t + 1)%nat).

Lemma strspn_le delim s : (strspn delim s <= length s)%nat.
Proof. induction s as [|c s IH]; cbn; [lia|]. destruct (memc c delim); lia. Qed.

Lemma strcspn_le delim s : (strcspn delim s <= length s)%nat.
Proof. induction s as [|c s IH]; cbn; [lia|]. destruct (memc c delim); lia. Qed.

Lemma strcspn_app delim s t :
  Forall (fun c => memc c delim = false) s ->
  strcspn delim (s ++ t) = (length s + strcspn delim t)%nat.
Proof. induction 1 as [|c s Hc _ IH]; cbn; [done|]. now rewrite Hc, IH. Qed.

Lemma strspn_split delim s :
  exists a r, s = a ++ r /\ length a = strspn delim s
    /\ Forall (fun c => memc c delim = true) a
    /\ (r = [] \/ exists c r', r = c :: r' /\ memc c delim = false).
Proof.
  induction s as [|c s (a & r & -> & L & H & Hr)]; cbn [strspn].
  - exists [], []. cbn. auto.
  - destruct (memc c delim) eqn:E.
    + exists (c :: a), r. cbn. rewrite L. auto.
    + exists [], (c :: a ++ r). cbn. repeat split; [constructor|]. right. eauto.
Qed.

Lemma strcspn_split delim s :
  exists a r, s = a ++ r /\ length a = strcspn delim s
    /\ Forall (fun c => memc c delim = false) a
    /\ (r = [] \/ exists c r', r = c :: r' /\ memc c delim = true).
Proof.
  induction s as [|c s (a & r & -> & L & H & Hr)]; cbn [strcspn].
  - exists [], []. cbn. auto.
  - destruct (memc c delim) eqn:E.
    + exists [], (c :: a ++ r). cbn. repeat split; [constructor|]. right. eauto.
    + exists (c :: a), r. cbn. rewrite L. auto.
Qed.

(** What [strtok] does on a string [s] of the buffer: nothing but delimiters, or a
    token, which a NUL ends afterwards. *)
Lemma strtok_spec delim pre s t0 :
  nonul s ->
  let b := pre ++ s ++ NUL :: t0 in
  match strtok delim b (length pre) with
  | (None, _, _) => Forall (fun c => memc c delim = true) s
  | (Some p, b', pos') => exists sp tk rest,
      s = sp ++ tk ++ rest /\ Forall (fun c => memc c delim = true) sp
      /\ tk <> [] /\ Forall (fun c => memc c delim = false) tk
      /\ p = (length pre + length sp)%nat
      /\ ((rest = [] /\ b' = b /\ pos' = (p + length tk)%nat)
          \/ exists c rest', rest = c :: rest' /\ memc c delim = true
             /\ b' = (pre ++ sp ++ tk ++ [NUL]) ++ rest' ++ NUL :: t0
             /\ pos' = length (pre ++ sp ++ tk ++ [NUL]))
  end.
Proof.
  intros Hs b. unfold strtok, b. rewrite drop_app_length, cstr_app_nul by done.
  destruct (strspn_split delim s) as (sp & r & Es & L & Hsp & Hr).
  rewrite Es, <- L in *. rewrite drop_app_length.
  destruct (strcspn_split delim r) as (tk & rest & Er & Lt & Htk & Hrest).
  rewrite Er, <- Lt in *.
  destruct Hr as [Hr|(c0 & r' & Hr & Hc0)].
  { apply app_eq_nil in Hr as [-> ->]. cbn. now rewrite app_nil_r. }
  rewrite bool_decide_false by (rewrite Hr; done).
  assert (Htk0 : tk <> []).
  { intros ->. destruct Hrest as [->|(c & r'' & -> & Hc)]; cbn in Hr; [done|].
    injection Hr as -> _. congruence. }
  replace (drop (length sp + length tk) (sp ++ tk ++ rest)) with rest
    by (rewrite app_assoc, <- length_app, drop_app_length; done).
  destruct Hrest as [->|(c & rest' & -> & Hc)].
  - rewrite bool_decide_true by done. exists sp, tk, []. rewrite !app_nil_r. repeat split; auto.
  - rewrite bool_decide_false by done. exists sp, tk, (c :: rest'). repeat split; auto. right.
    exists c, rest'. split; [done|]. split; [done|].
    replace (length pre + length sp + length tk)%nat with (length (pre ++ sp ++ tk))
      by (rewrite !length_app; lia).
    replace (pre ++ (sp ++ tk ++ c :: rest') ++ NUL :: t0)
      with ((pre ++ sp ++ tk) ++ c :: rest' ++ NUL :: t0) by (rewrite <- !app_assoc; done).
    rewrite take_app_length, drop_app_add. cbn [drop]. split; [rewrite <- !app_assoc; done|].
    rewrite !length_app. cbn. lia.
Qed.

(** The tokens of a string. *)
Fixpoint words_from (delim cur s : bytes) : list bytes :=
  match s with
  | [] => match cur with [] => [] | _ => [cur] end
  | c :: s =>
      if memc c delim
      then match cur with [] => words_from delim [] s | _ => cur :: words_from delim [] s end
      else words_from delim (cur ++ [c]) s
  end.

Definition words (delim s : bytes) : list bytes := words_from delim [] s.

(** The [n]-th token of the string at [pos], by successive calls of [strtok]. *)
Fixpoint token (delim : bytes) (n : nat) (buf : bytes) (pos : nat) : option bytes :=
  match strtok delim buf pos with
  | (None, _, _) => None
  | (Some p, buf, pos) =>
      match n with O => Some (cstr (drop p buf)) | S n => token delim n buf pos end
  end.

Lemma words_skip delim sp s :
  Forall (fun c => memc c delim = true) sp -> words delim (sp ++ s) = words delim s.
Proof.
  unfold words. induction 1 as [|c sp Hc _ IH]; cbn [app words_from]; [done|]. now rewrite Hc.
Qed.

Lemma words_from_app delim cur tk s :
  Forall (fun c => memc c delim = false) tk ->
  words_from delim cur (tk ++ s) = words_from delim (cur ++ tk) s.
Proof.
  intros H. revert cur. induction H as [|c tk Hc _ IH]; intros cur; cbn [app words_from].
  - now rewrite app_nil_r.
  - rewrite Hc, IH, <- app_assoc. done.
Qed.

Lemma words_token delim tk rest :
  tk <> [] -> Forall (fun c => memc c delim = false) tk ->
  (rest = [] \/ exists c r, rest = c :: r /\ memc c delim = true) ->
  words delim (tk ++ rest) = tk :: words delim (tl rest).
Proof.
  intros Hne Htk Hr. unfold words. rewrite words_from_app by done. cbn [app].
  destruct tk as [|c0 tk]; [done|]. destruct Hr as [->|(c & r & -> & Hc)]; cbn [words_from tl].
  - done.
  - now rewrite Hc.
Qed.

Lemma words_nil delim s : Forall (fun c => memc c delim = true) s -> words delim s = [].
Proof. intros. rewrite <- (app_nil_r s). now rewrite words_skip. Qed.

Lemma token_words delim n pre s t0 :
  nonul s -> token delim n (pre ++ s ++ NUL :: t0) (length pre) = nth_error (words delim s) n.
Proof.
  revert pre s. induction n as [|n IH]; intros pre s Hs; cbn [token];
    pose proof (strtok_spec delim pre s t0 Hs) as H; cbn zeta in H;
    destruct (strtok delim _ _) as [[[p|] b'] pos'].
  - destruct H as (sp & tk & rest & -> & Hsp & Hne & Htk & -> & Hc).
    apply Forall_app in Hs as [_ Hs]. apply Forall_app in Hs as [Hnt _].
    rewrite words_skip by done. destruct Hc as [(-> & -> & _)|(c & r & -> & Hc & -> & _)].
    + rewrite words_token by auto. cbn [nth_error]. f_equal.
      rewrite app_nil_r. replace (pre ++ (sp ++ tk) ++ NUL :: t0) with ((pre ++ sp) ++ tk ++ NUL :: t0)
        by (rewrite <- !app_assoc; done).
      rewrite <- length_app, drop_app_length. now apply cstr_app_nul.
    + rewrite words_token by eauto. cbn [nth_error]. f_equal.
      replace ((pre ++ sp ++ tk ++ [NUL]) ++ r ++ NUL :: t0)
        with ((pre ++ sp) ++ tk ++ NUL :: r ++ NUL :: t0) by (rewrite <- !app_assoc; done).
      rewrite <- length_app, drop_app_length. now apply cstr_app_nul.
  - now rewrite words_nil.
  - destruct H as (sp & tk & rest & -> & Hsp & Hne & Htk & -> & Hc).
    rewrite words_skip by done. destruct Hc as [(-> & -> & ->)|(c & r & -> & Hc & -> & ->)].
    + rewrite words_token by auto. cbn [nth_error tl].
      rewrite app_nil_r. replace (pre ++ (sp ++ tk) ++ NUL :: t0) with ((pre ++ sp ++ tk) ++ [] ++ NUL :: t0)
        by (rewrite <- !app_assoc; done).
      replace (length pre + length sp + length tk)%nat with (length (pre ++ sp ++ tk))
        by (rewrite !length_app; lia).
      rewrite IH by constructor. now destruct n.
    + rewrite words_token by eauto. cbn [nth_error tl]. apply IH.
      apply Forall_app in Hs as [_ Hs]. apply Forall_app in Hs as [_ Hs]. now inversion Hs.
  - now rewrite words_nil.
Qed.

Lemma strspn_app delim sp s :
  Forall (fun c => memc c delim = true) sp ->
  match s with c :: _ => memc c delim = false | [] => True end ->
  strspn delim (sp ++ s) = length sp.
Proof.
  intros H Hs. induction H as [|c sp Hc _ IH]; cbn [app strspn length].
  - destruct s as [|c s]; cbn [strspn]; [done|]. now rewrite Hs.
  - now rewrite Hc, IH.
Qed.

Lemma strcspn_stop delim tk s :
  Forall (fun c => memc c delim = false) tk ->
  match s with c :: _ => memc c delim = true | [] => True end ->
  strcspn delim (tk ++ s) = length tk.
Proof.
  intros H Hs. rewrite strcspn_app by done. destruct s as [|c s]; cbn [strcspn]; [lia|].
  rewrite Hs. lia.
Qed.

Definition is_token (delim tk : bytes) : Prop :=
  tk <> [] /\ Forall (fun c => memc c delim = false) tk /\ nonul tk.

(** [strtok] finds a given token: one that a delimiter ends, and one that the string's
    end does. *)
Lemma strtok_token delim pre sp tk c rest :
  Forall (fun c => memc c delim = true) sp -> nonul sp -> is_token delim tk ->
  memc c delim = true -> c <> NUL ->
  strtok delim (pre ++ sp ++ tk ++ c :: rest) (length pre)
  = (Some (length pre + length sp)%nat, (pre ++ sp ++ tk ++ [NUL]) ++ rest,
     length (pre ++ sp ++ tk ++ [NUL])).
Proof.
  intros Hsp Nsp (Hne & Htk & Ntk) Hc Hc0. unfold strtok. rewrite drop_app_length.
  assert (E : cstr (sp ++ tk ++ c :: rest) = sp ++ tk ++ c :: cstr rest).
  { clear -Nsp Ntk Hc0. induction Nsp as [|x sp Hx _ IH]; cbn [app cstr].
    - induction Ntk as [|x tk Hx _ IH]; cbn [app cstr].
      + now rewrite (proj2 (ceqb_neq _ _) Hc0).
      + now rewrite (proj2 (ceqb_neq _ _) Hx), IH.
    - now rewrite (proj2 (ceqb_neq _ _) Hx), IH. }
  rewrite E, strspn_app by (first [done | destruct tk; [done|now inversion Htk]]).
  rewrite drop_app_length, strcspn_stop by done.
  rewrite bool_decide_false by (now destruct tk).
  replace (drop (length sp + length tk) (sp ++ tk ++ c :: cstr rest)) with (c :: cstr rest)
    by (rewrite app_assoc, <- length_app, drop_app_length; done).
  rewrite bool_decide_false by done.
  replace (length pre + length sp + length tk)%nat with (length (pre ++ sp ++ tk))
    by (rewrite !length_app; lia).
  replace (pre ++ sp ++ tk ++ c :: rest) with ((pre ++ sp ++ tk) ++ c :: rest) by (now rewrite <- !app_assoc).
  rewrite take_app_length, drop_app_add. cbn [drop].
  f_equal; [|rewrite !length_app; cbn; lia]. f_equal. now rewrite <- !app_assoc.
Qed.

Lemma strtok_last delim pre sp tk t0 :
  Forall (fun c => memc c delim = true) sp -> nonul sp -> is_token delim tk ->
  strtok delim (pre ++ sp ++ tk ++ NUL :: t0) (length pre)
  = (Some (length pre + length sp)%nat, pre ++ sp ++ tk ++ NUL :: t0,
     (length pre + length sp + length tk)%nat).
Proof.
  intros Hsp Nsp (Hne & Htk & Ntk). unfold strtok. rewrite drop_app_length.
  replace (sp ++ tk ++ NUL :: t0) with ((sp ++ tk) ++ NUL :: t0) by (now rewrite <- app_assoc).
  rewrite cstr_app_nul by (apply Forall_app; done).
  rewrite strspn_app by (first [done | destruct tk; [done|now inversion Htk]]).
  rewrite drop_app_length.
  replace (strcspn delim tk) with (length tk)
    by (pose proof (strcspn_stop delim tk [] Htk I) as H; now rewrite app_nil_r in H).
  rewrite bool_decide_false by (now destruct tk).
  now rewrite <- length_app, drop_all, bool_decide_true.
Qed.

(** ** [getopt] *)

(** The calls of [getopt] for options that all take an argument: over the words behind the
    program's name, the options in order, each with its argument; [None] is [?].  Other
    words are passed over, and [--] ends the options. *)
Fixpoint getopt (opts : bytes) (fuel : nat) (args : list bytes) : list (option (ascii * bytes)) :=
  match fuel, args with
  | S fuel, (c0 :: c :: rest) :: args =>
      if negb (ceqb c0 "-") then getopt opts fuel args
      else if ceqb c "-" && bool_decide (rest = []) then []
      else if existsb (ceqb c) opts then
        match rest, args with
        | [], [] => [None]
        | [], a :: args => Some (c, a) :: getopt opts fuel args
        | _, _ => Some (c, rest) :: getopt opts fuel args
        end
      else None :: getopt opts fuel (match rest with [] => args | _ => (c0 :: rest) :: args end)
  | S fuel, _ :: args => getopt opts fuel args
  | _, _ => []
  end.

Definition getopt_all (opts : bytes) (args : list bytes) : list (option (ascii * bytes)) :=
  getopt opts (length (List.concat args) + length args) args.
