(* ===== verification/Funstr.v ===== *)
(** * String helpers: [src/dev/src/pubfun/common/funstr.c]

    [RightTrim], [LeftTrim], [AllTrim] rewrite a buffer in place; [IsDigitBuf]
    tests a prefix of one.  The operations act on the whole buffer as the code
    does, and the theorems relate the string it holds afterwards to the trimmed
    string.  [None] stands for an access outside the buffer. *)

From Stdlib Require Import ZArith Lia Bool List Ascii String.
From stdpp Require Import base list.
From S2P Require Import Prelude Cstr.

(** The characters the trimming loops of [RightTrim] and [LeftTrim] test. *)
Definition isblank (c : ascii) : bool :=
  ceqb c SP || ceqb c TAB || ceqb c CR || ceqb c LF.

Definition issp (c : ascii) : bool := ceqb c SP.

(** The scan from the end: one past the last byte among the first [n] that the
    loop does not skip. *)
Fixpoint back_scan (P : ascii -> bool) (b : bytes) (n : nat) : nat :=
  match n with
  | O => O
  | S m => match b !! m with
           | Some c => if P c then back_scan P b m else n
           | None => n
           end
  end.

(** The scan from the start. *)
Fixpoint front_scan (P : ascii -> bool) (s : bytes) : nat :=
  match s with
  | c :: s => if P c then S (front_scan P s) else O
  | [] => O
  end.

Definition put_nul (i : nat) (b : bytes) : option bytes := st (Z.of_nat i) [NUL] b.

Definition RightTrim (sBuf : bytes) : option bytes :=
  if terminated sBuf
  then put_nul (back_scan isblank sBuf (length (cstr sBuf))) sBuf
  else None.

Definition LeftTrim (b : bytes) : option bytes :=
  if terminated b then
    let s := front_scan isblank (cstr b) in
    if (0 <? s)%nat then st 0 (cstr (drop s b) ++ [NUL]) b else Some b
  else None.

(** [for (k = 0; k <= j - i; k++) str[k] = str[k + i]], [n] rounds from [k]. *)
Fixpoint shift_loop (n k i : nat) (b : bytes) : bytes :=
  match n with
  | O => b
  | S n => shift_loop n (S k) i (<[k := List.nth (k + i) b NUL]> b)
  end.

(** [j] is kept as [j + 1].  The last test of the second loop reads [str[-1]] when
    nothing but blanks is left; it stops there whatever that byte is. *)
Definition AllTrim (b : bytes) : option bytes :=
  if terminated b then
    let i := front_scan issp (cstr b) in
    let j1 := back_scan issp b (length (cstr b)) in
    let n := (j1 - i)%nat in
    put_nul n (shift_loop n 0 i b)
  else None.

Definition IsDigitBuf (sBuf : bytes) (nLen : Z) : option Z :=
  if nLen =? 0 then Some 1
  else match ld 0 (Z.max 0 nLen) sBuf with
       | Some p => Some (if forallb isdigit p then 1 else 0)
       | None => None
       end.

(** ** Trimming, as a function on strings *)

Definition ltrim (P : ascii -> bool) (s : bytes) : bytes := drop (front_scan P s) s.
Definition rtrim (P : ascii -> bool) (s : bytes) : bytes := take (back_scan P s (length s)) s.

Definition first_ok (P : ascii -> bool) (s : bytes) : Prop :=
  match s with [] => True | c :: _ => P c = false end.

Lemma front_scan_le P s : (front_scan P s <= length s)%nat.
Proof. induction s as [|c s IH]; cbn; [lia|]. destruct (P c); lia. Qed.

Lemma back_scan_le P b n : (back_scan P b n <= n)%nat.
Proof.
  induction n as [|n IH]; cbn; [lia|]. destruct (b !! n) as [c|]; [|lia].
  destruct (P c); lia.
Qed.

Lemma back_scan_agree P b b' n :
  (forall m, (m < n)%nat -> b !! m = b' !! m) -> back_scan P b n = back_scan P b' n.
Proof.
  induction n as [|n IH]; intros H; cbn; [done|].
  rewrite (H n) by lia. rewrite IH by (intros; apply H; lia). done.
Qed.

Lemma back_scan_prefix P s t : back_scan P (s ++ t) (length s) = back_scan P s (length s).
Proof. apply back_scan_agree. intros. now rewrite lookup_app_l. Qed.

(** The last byte kept is not skipped, every byte after it is. *)
Lemma back_scan_spec P (s : bytes) n :
  (n <= length s)%nat ->
  let m := back_scan P s n in
  Forall (fun c => P c = true) (drop m (take n s))
  /\ (m = 0%nat \/ exists c, s !! pred m = Some c /\ P c = false).
Proof.
  induction n as [|n IH]; intros Hn; cbn [back_scan].
  - split; [|auto]. rewrite take_0. constructor.
  - destruct (lookup_lt_is_Some_2 s n ltac:(lia)) as [c Hc]. rewrite Hc.
    destruct (P c) eqn:Pc.
    + destruct (IH ltac:(lia)) as [H1 H2]. split; [|done].
      rewrite (take_S_r _ _ _ Hc).
      pose proof (back_scan_le P s n).
      rewrite drop_app_le by (rewrite length_take; lia).
      apply Forall_app. auto.
    + split.
      * rewrite drop_ge by (rewrite length_take; lia). constructor.
      * right. exists c. auto.
Qed.

Lemma ltrim_split P s :
  s = take (front_scan P s) s ++ ltrim P s
  /\ Forall (fun c => P c = true) (take (front_scan P s) s)
  /\ first_ok P (ltrim P s).
Proof.
  unfold ltrim. split; [now rewrite take_drop|].
  induction s as [|c s [IH1 IH2]]; cbn; [done|].
  destruct (P c) eqn:E; cbn; auto.
Qed.

Lemma rtrim_split P s :
  exists t, s = rtrim P s ++ t /\ Forall (fun c => P c = true) t
  /\ (rtrim P s = [] \/ exists c r, rtrim P s = r ++ [c] /\ P c = false).
Proof.
  unfold rtrim. set (m := back_scan P s (length s)).
  destruct (back_scan_spec P s (length s) ltac:(lia)) as [H1 H2]. fold m in H1, H2.
  exists (drop m s). split; [now rewrite take_drop|].
  split; [now rewrite firstn_all in H1|].
  destruct H2 as [->|(c & Hc & Pc)]; [auto|].
  destruct m as [|m]; [auto|]. right. exists c, (take m s). split; [|done].
  cbn in Hc. now rewrite (take_S_r _ _ _ Hc).
Qed.

Lemma nonul_take n s : nonul s -> nonul (take n s).
Proof. apply Forall_take. Qed.

Lemma nonul_drop n s : nonul s -> nonul (drop n s).
Proof. apply Forall_drop. Qed.

#[export] Hint Resolve nonul_take nonul_drop cstr_nonul : core.

Lemma put_nul_cstr i b :
  (i < length b)%nat -> nonul (take i b) ->
  exists b', put_nul i b = Some b' /\ cstr b' = take i b /\ length b' = length b
    /\ terminated b' = true.
Proof.
  intros Hi Hn. unfold put_nul.
  destruct (st_Some (Z.of_nat i) [NUL] b) as [b' E]; [lia|cbn; lia|].
  exists b'. split; [done|]. pose proof (st_length _ _ _ _ E).
  revert E. unfold st. destruct (_ && _); [|done]. intros [= <-].
  rewrite Nat2Z.id in *. split; [now apply cstr_app_nul|]. split; [done|apply terminated_app].
Qed.

Lemma terminated_cstr_lt b : terminated b = true -> (length (cstr b) < length b)%nat.
Proof. intros [t Ht]%terminated_split. rewrite Ht at 2. rewrite length_app. cbn. lia. Qed.

Lemma back_scan_cstr P b :
  terminated b = true ->
  back_scan P b (length (cstr b)) = back_scan P (cstr b) (length (cstr b)).
Proof. intros [t Ht]%terminated_split. rewrite Ht at 1. apply back_scan_prefix. Qed.

Lemma take_cstr n b : (n <= length (cstr b))%nat -> terminated b = true -> take n b = take n (cstr b).
Proof.
  intros Hn [t Ht]%terminated_split. rewrite Ht at 1. now rewrite take_app_le.
Qed.

Lemma RightTrim_spec b :
  terminated b = true ->
  exists b', RightTrim b = Some b' /\ cstr b' = rtrim isblank (cstr b) /\ length b' = length b
    /\ terminated b' = true.
Proof.
  intros T. unfold RightTrim. rewrite T, back_scan_cstr by done.
  pose proof (back_scan_le isblank (cstr b) (length (cstr b))).
  pose proof (terminated_cstr_lt b T).
  destruct (put_nul_cstr (back_scan isblank (cstr b) (length (cstr b))) b)
    as (b' & -> & E & L & T'); [lia| |].
  - rewrite take_cstr by done. auto.
  - exists b'. rewrite E, take_cstr by done. done.
Qed.

Lemma LeftTrim_spec b :
  terminated b = true ->
  exists b', LeftTrim b = Some b' /\ cstr b' = ltrim isblank (cstr b) /\ length b' = length b
    /\ terminated b' = true.
Proof.
  intros T. unfold LeftTrim. rewrite T. unfold ltrim.
  set (s := front_scan isblank (cstr b)).
  destruct (Nat.ltb_spec 0 s) as [Hs|Hs].
  - pose proof (front_scan_le isblank (cstr b)) as Hle. fold s in Hle.
    assert (E : cstr (drop s b) = drop s (cstr b)).
    { destruct (terminated_split b T) as [t Ht]. rewrite Ht at 1.
      rewrite drop_app_le by done. apply cstr_app_nul. auto. }
    rewrite E. pose proof (terminated_cstr_lt b T).
    destruct (st_Some 0 (drop s (cstr b) ++ [NUL]) b) as [b' Hb']; [lia| |].
    { rewrite length_app, length_drop. cbn. lia. }
    exists b'. split; [done|]. pose proof (st_length _ _ _ _ Hb').
    revert Hb'. unfold st. destruct (_ && _); [|done]. intros [= <-].
    rewrite <- app_assoc in *. cbn [app] in *.
    split; [apply cstr_app_nul; auto|]. split; [done|apply terminated_app].
  - replace s with 0%nat by lia. exists b. done.
Qed.

(** The copying loop of [AllTrim] moves the kept bytes to the front although it
    overwrites what it has already read. *)
Lemma shift_loop_lookup n k i b m :
  (k + n + i <= length b)%nat ->
  shift_loop n k i b !! m =
  if decide (k <= m < k + n)%nat then b !! (m + i)%nat else b !! m.
Proof.
  revert k b. induction n as [|n IH]; intros k b H; cbn [shift_loop].
  - rewrite decide_False by lia. done.
  - rewrite IH by (rewrite length_insert; lia).
    destruct (lookup_lt_is_Some_2 b (k + i) ltac:(lia)) as [c Hc].
    rewrite (nth_lookup_Some _ _ _ _ Hc).
    destruct (decide (S k <= m < S k + n)%nat), (decide (k <= m < k + S n)%nat); try lia.
    + rewrite list_lookup_insert_ne by lia. done.
    + assert (m = k) as -> by lia. rewrite list_lookup_insert_eq by lia. done.
    + rewrite list_lookup_insert_ne by lia. done.
Qed.

Lemma length_shift_loop n k i b : length (shift_loop n k i b) = length b.
Proof. revert k b. induction n; intros; cbn; [done|]. now rewrite IHn, length_insert. Qed.

Lemma take_shift_loop n i b :
  (n + i <= length b)%nat -> take n (shift_loop n 0 i b) = take n (drop i b).
Proof.
  intros H. apply list_eq. intros m. destruct (decide (m < n)%nat).
  - rewrite !lookup_take_lt, shift_loop_lookup, decide_True, lookup_drop by lia. f_equal. lia.
  - rewrite !lookup_take_ge by lia. done.
Qed.

Definition alltrim (s : bytes) : bytes :=
  let i := front_scan issp s in
  take (back_scan issp s (length s) - i) (drop i s).

Lemma AllTrim_spec b :
  terminated b = true ->
  exists b', AllTrim b = Some b' /\ cstr b' = alltrim (cstr b) /\ length b' = length b
    /\ terminated b' = true.
Proof.
  intros T. unfold AllTrim. rewrite T, back_scan_cstr by done. unfold alltrim.
  set (i := front_scan issp (cstr b)).
  set (j := back_scan issp (cstr b) (length (cstr b))).
  pose proof (front_scan_le issp (cstr b)) as Hi. fold i in Hi.
  pose proof (back_scan_le issp (cstr b) (length (cstr b))) as Hj. fold j in Hj.
  pose proof (terminated_cstr_lt b T) as Hlt.
  assert (E : take (j - i) (drop i b) = take (j - i) (drop i (cstr b))).
  { destruct (terminated_split b T) as [t Ht]. rewrite Ht at 1.
    rewrite drop_app_le, take_app_le by (rewrite ?length_drop; lia). done. }
  destruct (put_nul_cstr (j - i) (shift_loop (j - i) 0 i b)) as (b' & -> & Hb & L & T').
  - rewrite length_shift_loop. lia.
  - destruct (le_lt_dec j i).
    + replace (j - i)%nat with 0%nat by lia. rewrite take_0. constructor.
    + rewrite take_shift_loop, E by lia. auto.
  - rewrite length_shift_loop in L. exists b'. split; [done|]. split; [|done].
    rewrite Hb. destruct (le_lt_dec j i).
    + replace (j - i)%nat with 0%nat by lia. done.
    + now rewrite take_shift_loop by lia.
Qed.

Lemma back_scan_front P s :
  first_ok P (ltrim P s) ->
  (front_scan P s <= back_scan P s (length s))%nat \/ front_scan P s = length s.
Proof.
  intros _. destruct (ltrim_split P s) as (Es & _ & Hf).
  destruct (ltrim P s) as [|c t] eqn:E.
  - right. unfold ltrim in E. apply (f_equal length) in E. rewrite length_drop in E.
    pose proof (front_scan_le P s). cbn in E. lia.
  - left. destruct (back_scan_spec P s (length s) ltac:(lia)) as [Hd _].
    rewrite firstn_all in Hd.
    destruct (le_lt_dec (front_scan P s) (back_scan P s (length s))) as [|Hlt]; [done|].
    assert (Hc : s !! front_scan P s = Some c).
    { unfold ltrim in E. rewrite <- (Nat.add_0_r (front_scan P s)), <- lookup_drop, E. done. }
    assert (P c = true).
    { rewrite Forall_lookup in Hd.
      apply (Hd (front_scan P s - back_scan P s (length s))%nat).
      rewrite lookup_drop. rewrite <- Hc. f_equal. lia. }
    cbn in Hf. congruence.
Qed.

(** [alltrim s] is [s] without its blanks at both ends. *)
Lemma alltrim_split s :
  exists pre post, s = pre ++ alltrim s ++ post
  /\ Forall (fun c => issp c = true) pre /\ Forall (fun c => issp c = true) post
  /\ first_ok issp (alltrim s) /\ first_ok issp (rev (alltrim s)).
Proof.
  unfold alltrim. set (i := front_scan issp s). set (j := back_scan issp s (length s)).
  destruct (ltrim_split issp s) as (Es & Hpre & Hf).
  destruct (back_scan_spec issp s (length s) ltac:(lia)) as [Hpost Hlast].
  rewrite firstn_all in Hpost. fold j in Hpost, Hlast.
  exists (take i s), (drop (j - i) (drop i s)).
  rewrite take_drop, take_drop. split; [done|]. split; [done|].
  destruct (back_scan_front issp s Hf) as [Hij|Hi]; fold i in Hij || fold i in Hi.
  - fold j in Hij. rewrite drop_drop. replace (i + (j - i))%nat with j by lia.
    split; [done|]. unfold ltrim in Hf. fold i in Hf. split.
    + destruct (drop i s), (j - i)%nat; cbn; done.
    + destruct Hlast as [->|(c & Hc & Pc)].
      { rewrite take_0. done. }
      destruct (decide (i = j)) as [->|]; [rewrite Nat.sub_diag, take_0; done|].
      replace (j - i)%nat with (S (pred j - i)) by lia.
      rewrite (take_S_r _ _ c), rev_app_distr; [done|].
      rewrite lookup_drop, <- Hc. f_equal. lia.
  - rewrite (drop_ge s i) by lia. rewrite take_nil, drop_nil. repeat split; constructor.
Qed.

(** A string that a byte other than a blank ends keeps its tail. *)
Lemma alltrim_snoc s c : issp c = false -> alltrim (s ++ [c]) = ltrim issp s ++ [c].
Proof.
  intros Hc. unfold alltrim, ltrim.
  assert (Ef : front_scan issp (s ++ [c]) = front_scan issp s).
  { induction s as [|x s IH]; cbn; [now rewrite Hc|]. destruct (issp x); [now rewrite IH|done]. }
  assert (Eb : back_scan issp (s ++ [c]) (length (s ++ [c])) = length (s ++ [c])).
  { rewrite length_app, Nat.add_comm. cbn [length Nat.add back_scan].
    rewrite lookup_app_r, Nat.sub_diag by lia. cbn. now rewrite Hc. }
  rewrite Ef, Eb. pose proof (front_scan_le issp s).
  rewrite take_ge by (rewrite length_drop; lia). now rewrite drop_app_le.
Qed.

Lemma rtrim_app P s c t : P c = false -> rtrim P (s ++ c :: t) = s ++ c :: rtrim P t.
Proof.
  intros Hc. unfold rtrim. rewrite length_app. cbn [length].
  assert (E : forall n, (n <= length t)%nat ->
    back_scan P (s ++ c :: t) (length s + S n) = (length s + S (back_scan P t n))%nat).
  { induction n as [|n IH]; intros Hn.
    - rewrite Nat.add_comm. cbn [Nat.add back_scan].
      rewrite lookup_app_r, Nat.sub_diag by lia. cbn. rewrite Hc. lia.
    - replace (length s + S (S n))%nat with (S (length s + S n)) by lia. cbn [back_scan].
      rewrite lookup_app_r by lia. replace (length s + S n - length s)%nat with (S n) by lia.
      change ((c :: t) !! S n) with (t !! n).
      destruct (lookup_lt_is_Some_2 t n ltac:(lia)) as [x Hx]. rewrite !Hx. destruct (P x); [apply IH; lia|lia]. }
  rewrite E, take_app_add by lia. cbn [take]. done.
Qed.

(** ** Properties *)

(** [AllTrim] leaves the string without its leading and trailing blanks: the
    original is blanks, the result, blanks, and the result neither starts nor ends
    with a blank; the buffer keeps its size. *)
Theorem AllTrim_correct b :
  terminated b = true ->
  exists b' pre post,
    AllTrim b = Some b' /\ length b' = length b
    /\ cstr b = pre ++ cstr b' ++ post
    /\ Forall (fun c => c = SP) pre /\ Forall (fun c => c = SP) post
    /\ first_ok issp (cstr b') /\ first_ok issp (rev (cstr b')).
Proof.
  intros T. destruct (AllTrim_spec b T) as (b' & E & Hs & L & _).
  destruct (alltrim_split (cstr b)) as (pre & post & Es & H1 & H2 & H3 & H4).
  rewrite <- Hs in *. exists b', pre, post. repeat split; try done.
  - eapply Forall_impl; [exact H1|]. intros c. apply ceqb_eq.
  - eapply Forall_impl; [exact H2|]. intros c. apply ceqb_eq.
Qed.

Definition demo_line : bytes := str "  ab c " ++ zeros 3.

Lemma AllTrim_correct_witness :
  terminated demo_line = true
  /\ exists b' pre post,
    AllTrim demo_line = Some b' /\ length b' = length demo_line
    /\ cstr demo_line = pre ++ cstr b' ++ post
    /\ Forall (fun c => c = SP) pre /\ Forall (fun c => c = SP) post
    /\ first_ok issp (cstr b') /\ first_ok issp (rev (cstr b')).
Proof. split; [reflexivity | apply (AllTrim_correct demo_line); reflexivity]. Defined.
