(* ===== verification/Funtime.v ===== *)
(** * Dates: [src/dev/src/pubfun/common/funtime.c]

    The calendar test [checkdate], the day counter [CountDate], the day difference
    [DiffDate] and their string front ends.  The reference is the day number of a
    date in the proleptic Gregorian calendar, counted in closed form. *)

From Stdlib Require Import ZArith Lia Bool List Ascii String.
From stdpp Require Import base list.
From S2P Require Import Prelude Cstr.

(** C's [/] and [%] truncate towards zero. *)
Infix "÷" := Z.quot (at level 40, left associativity) : Z_scope.
Infix "%%" := Z.rem (at level 40, left associativity) : Z_scope.

(** ** The code *)

Definition IsLeapYear (n : Z) : bool :=
  ((n %% 4 =? 0) && negb (n %% 100 =? 0)) || (n %% 400 =? 0).

Definition YEARDAYS (a : Z) : Z := if IsLeapYear a then 366 else 365.
Definition MON2DAYS (a : Z) : Z := if IsLeapYear a then 29 else 28.

Definition RMONTHDAYS (a b : Z) : Z :=
  if a =? 2 then MON2DAYS b
  else if ((a <? 8) && (a %% 2 =? 0)) || ((8 <=? a) && negb (a %% 2 =? 0)) then 30 else 31.

Definition bad_day (iDay last : Z) : bool := (iDay <=? 0) || (last <? iDay).

Definition checkdate (iYear iMonth iDay : Z) : Z :=
  if (iYear <? 0) || (9999 <? iYear) then -1
  else if existsb (Z.eqb iMonth) [1; 3; 5; 7; 8; 10; 12]
  then if bad_day iDay 31 then -3 else 0
  else if existsb (Z.eqb iMonth) [4; 6; 9; 11]
  then if bad_day iDay 30 then -3 else 0
  else if iMonth =? 2
  then if IsLeapYear iYear
       then if bad_day iDay 29 then -3 else 0
       else if bad_day iDay 28 then -3 else 0
  else -2.

Definition CheckDate (sDate : bytes) : Z :=
  if negb (Z.of_nat (length sDate) =? 8) then -1
  else
    let sYear := take 4 sDate in
    let sMonth := take 2 (drop 4 sDate) in
    let sDay := take 2 (drop 6 sDate) in
    let iRet := checkdate (atoi sYear) (atoi sMonth) (atoi sDay) in
    if negb (iRet =? 0) then -1 else 0.

(** The same code under another name. *)
Definition CheckStrDate (sDate : bytes) : Z :=
  if negb (Z.of_nat (length sDate) =? 8) then -1
  else
    let sYear := take 4 sDate in
    let sMonth := take 2 (drop 4 sDate) in
    let sDay := take 2 (drop 6 sDate) in
    let iRet := checkdate (atoi sYear) (atoi sMonth) (atoi sDay) in
    if negb (iRet =? 0) then -1 else 0.

Record date := mkDate { iYear : Z; iMonth : Z; iDays : Z }.

(** The three fields of a date written as the decimal number YYYYMMDD. *)
Definition split_date (l : Z) : date :=
  mkDate (i32 (l ÷ 10000)) (i32 ((l %% 10000) ÷ 100)) (i32 (l %% 100)).

Definition join_date (d : date) : Z := iYear d * 10000 + iMonth d * 100 + iDays d.

(** One round of the loop of [CountDate]. *)
Definition count_step (step : Z) (d : date) : date :=
  let days := iDays d + step in
  if (days <=? 0) || (RMONTHDAYS (iMonth d) (iYear d) <? days) then
    let m := iMonth d + step in
    let '(y, m) :=
      if m <=? 0 then (iYear d + step, 12)
      else if 12 <? m then (iYear d + step, 1)
      else (iYear d, m) in
    mkDate y m (if days <=? 0 then RMONTHDAYS m y else 1)
  else mkDate (iYear d) (iMonth d) days.

Fixpoint count_loop (n : nat) (step : Z) (d : date) : date :=
  match n with
  | O => d
  | S n => count_loop n step (count_step step d)
  end.

(** The return value and, on success, the string written to [sResultDate]. *)
Definition CountDate (sStartDate : bytes) (iOffset : Z) : Z * option bytes :=
  let d := split_date (atol sStartDate) in
  if negb (checkdate (iYear d) (iMonth d) (iDays d) =? 0) then (-1, None)
  else
    let step := if 0 <=? iOffset then 1 else -1 in
    let d' := count_loop (Z.to_nat (i32 (Z.abs iOffset))) step d in
    (0, Some (fmt_w 8 (i32 (join_date d')))).

(** [for (i = a; i < a + n; i++) acc += f(i)] *)
Fixpoint sum_loop (f : Z -> Z) (a : Z) (n : nat) (acc : Z) : Z :=
  match n with
  | O => acc
  | S n => sum_loop f (a + 1) n (acc + f a)
  end.

(** [DiffDate]: -1, or 0 and the [long] stored through [piDiffDays]. *)
Definition DiffDate (lStartDate lEndDate : Z) : Z * option Z :=
  let '(lStartDate, lEndDate, flag) :=
    if lEndDate <? lStartDate then (lEndDate, lStartDate, -1)
    else (lStartDate, lEndDate, 1) in
  let s := split_date lStartDate in
  let e := split_date lEndDate in
  if negb (checkdate (iYear s) (iMonth s) (iDays s) =? 0)
     || negb (checkdate (iYear e) (iMonth e) (iDays e) =? 0) then (-1, None)
  else
    let Days := sum_loop YEARDAYS (iYear s) (Z.to_nat (iYear e - iYear s)) 0 in
    let Days := sum_loop (fun i => RMONTHDAYS i (iYear e)) 1 (Z.to_nat (iMonth e - 1)) Days in
    let Days := Days + iDays e in
    let Days := sum_loop (fun i => - RMONTHDAYS i (iYear s)) 1 (Z.to_nat (iMonth s - 1)) Days in
    let Days := Days - iDays s in
    (0, Some (flag * Days)).

(** [GetDateDiff] hands its [int *] to [DiffDate], which stores a [long] there:
    [out] is the object the caller passes. *)
Definition GetDateDiff (sStartDate sEndDate : bytes) (out : bytes) : outcome bytes Z :=
  match DiffDate (atol sStartDate) (atol sEndDate) with
  | (iRet, Some days) =>
      match st 0 (le64 days) out with
      | Some out' => if negb (iRet =? 0) then Ret (-1) out' else Ret 0 out'
      | None => Fault
      end
  | (iRet, None) => if negb (iRet =? 0) then Ret (-1) out else Ret 0 out
  end.

(** The fields of [struct tm] that are printed. *)
Record tm := mkTm { tm_year : Z; tm_mon : Z; tm_mday : Z; tm_hour : Z; tm_min : Z; tm_sec : Z }.

(** [%.nd]: at least [n] digits. *)
Definition fmt_prec (n z : Z) : bytes :=
  if z <? 0 then "-"%char :: pad_left "0"%char n (udec 20 (- z))
  else pad_left "0"%char n (udec 20 z).

(** [sprintf] into a buffer: the text and its NUL. *)
Definition sprintf (s : bytes) (buff : bytes) : option bytes := st 0 (s ++ [NUL]) buff.

Definition GetDate (now : tm) (buff : bytes) : option bytes :=
  sprintf (fmt_prec 4 (tm_year now + 1900) ++ fmt_prec 2 (tm_mon now + 1) ++ fmt_prec 2 (tm_mday now)) buff.

Definition GetCurrentTime (now : tm) (sCurrentTime : bytes) : option bytes :=
  sprintf (fmt_w 4 (tm_year now + 1900) ++ fmt_0d 2 (tm_mon now + 1) ++ fmt_0d 2 (tm_mday now)
           ++ fmt_0d 2 (tm_hour now) ++ fmt_0d 2 (tm_min now) ++ fmt_0d 2 (tm_sec now))
          sCurrentTime.

(** ** The calendar *)

Definition days_in_month (m y : Z) : Z :=
  if m =? 2 then (if ((y mod 4 =? 0) && negb (y mod 100 =? 0)) || (y mod 400 =? 0) then 29 else 28)
  else if existsb (Z.eqb m) [4; 6; 9; 11] then 30 else 31.

Definition valid (d : date) : Prop :=
  1 <= iMonth d <= 12 /\ 1 <= iDays d <= days_in_month (iMonth d) (iYear d).

(** Days before the first of January of year [y], and before month [m] in it. *)
Definition days_before_year (y : Z) : Z := 365 * y + (y + 3) / 4 - (y + 99) / 100 + (y + 399) / 400.
Definition days_before_month (m y : Z) : Z := sum_loop (fun i => days_in_month i y) 1 (Z.to_nat (m - 1)) 0.
Definition daynum (d : date) : Z :=
  days_before_year (iYear d) + days_before_month (iMonth d) (iYear d) + iDays d.

Lemma rem_eq0 n k : 0 < k -> (n %% k =? 0) = (n mod k =? 0).
Proof.
  intros Hk. apply eq_true_iff_eq. rewrite !Z.eqb_eq.
  rewrite Z.rem_divide, Z.mod_divide by lia. done.
Qed.

Lemma IsLeapYear_mod y :
  IsLeapYear y = ((y mod 4 =? 0) && negb (y mod 100 =? 0)) || (y mod 400 =? 0).
Proof. unfold IsLeapYear. now rewrite !rem_eq0 by lia. Qed.

(** The twelve months, one at a time. *)
Lemma month_cases m (P : Z -> Prop) :
  1 <= m <= 12 ->
  P 1 -> P 2 -> P 3 -> P 4 -> P 5 -> P 6 -> P 7 -> P 8 -> P 9 -> P 10 -> P 11 -> P 12 -> P m.
Proof.
  intros H. assert (m = 1 \/ m = 2 \/ m = 3 \/ m = 4 \/ m = 5 \/ m = 6 \/ m = 7 \/ m = 8
    \/ m = 9 \/ m = 10 \/ m = 11 \/ m = 12) as D by lia.
  intros. repeat destruct D as [->|D]; try done. now subst.
Qed.

Lemma RMONTHDAYS_spec m y : 1 <= m <= 12 -> RMONTHDAYS m y = days_in_month m y.
Proof.
  intros H. unfold RMONTHDAYS, days_in_month, MON2DAYS. rewrite IsLeapYear_mod.
  pattern m. apply month_cases; [done|..]; reflexivity.
Qed.

Lemma days_in_month_range m y : 28 <= days_in_month m y <= 31.
Proof. unfold days_in_month. repeat case_match; lia. Qed.

Lemma sum_loop_acc f a n acc : sum_loop f a n acc = acc + sum_loop f a n 0.
Proof.
  revert a acc. induction n as [|n IH]; intros a acc; cbn [sum_loop]; [lia|].
  rewrite IH, (IH _ (0 + f a)). lia.
Qed.

Lemma sum_loop_S f a n acc : sum_loop f a (S n) acc = sum_loop f a n acc + f (a + Z.of_nat n).
Proof.
  revert a acc. induction n as [|n IH]; intros a acc.
  - cbn [sum_loop]. do 2 f_equal. lia.
  - cbn [sum_loop] in *. rewrite IH. do 2 f_equal. lia.
Qed.

Lemma sum_loop_ext f g a n acc :
  (forall i, a <= i < a + Z.of_nat n -> f i = g i) -> sum_loop f a n acc = sum_loop g a n acc.
Proof.
  revert a acc. induction n as [|n IH]; intros a acc H; cbn [sum_loop]; [done|].
  rewrite H by lia. apply IH. intros. apply H. lia.
Qed.

Lemma sum_loop_neg f a n acc : sum_loop (fun i => - f i) a n acc = acc - sum_loop f a n 0.
Proof.
  revert a acc. induction n as [|n IH]; intros a acc; cbn [sum_loop]; [lia|].
  rewrite IH, (sum_loop_acc f (a + 1) n (0 + f a)). lia.
Qed.

Lemma days_before_month_succ m y :
  1 <= m -> days_before_month (m + 1) y = days_before_month m y + days_in_month m y.
Proof.
  intros H. unfold days_before_month.
  replace (Z.to_nat (m + 1 - 1)) with (S (Z.to_nat (m - 1))) by lia.
  rewrite sum_loop_S. do 2 f_equal. lia.
Qed.

Lemma YEARDAYS_spec y : YEARDAYS y = days_before_year (y + 1) - days_before_year y.
Proof.
  unfold YEARDAYS, days_before_year. rewrite IsLeapYear_mod.
  destruct (Z.eqb_spec (y mod 4) 0), (Z.eqb_spec (y mod 100) 0), (Z.eqb_spec (y mod 400) 0);
    cbn [andb orb negb]; Z.to_euclidean_division_equations; lia.
Qed.

Lemma YEARDAYS_months y : days_before_month 12 y + days_in_month 12 y = YEARDAYS y.
Proof.
  unfold days_before_month, YEARDAYS, days_in_month. rewrite IsLeapYear_mod.
  change (Z.to_nat (12 - 1)) with 11%nat. cbn [sum_loop].
  destruct (_ || _); reflexivity.
Qed.

Lemma days_before_month_range m y :
  1 <= m <= 12 -> 0 <= days_before_month m y
  /\ days_before_month m y + days_in_month m y <= YEARDAYS y.
Proof.
  intros H. rewrite <- YEARDAYS_months.
  unfold days_before_month, days_in_month.
  destruct (((y mod 4 =? 0) && negb (y mod 100 =? 0)) || (y mod 400 =? 0));
    pattern m; apply month_cases; (done || (vm_compute; split; congruence)).
Qed.

(** A date lies inside its year. *)
Lemma daynum_year d :
  valid d -> days_before_year (iYear d) < daynum d <= days_before_year (iYear d + 1).
Proof.
  intros [Hm Hd]. pose proof (days_before_month_range _ (iYear d) Hm).
  rewrite YEARDAYS_spec in *. unfold daynum. lia.
Qed.

Lemma days_before_year_mono x y : x <= y -> days_before_year x <= days_before_year y.
Proof. unfold days_before_year. intros. Z.to_euclidean_division_equations; lia. Qed.

Lemma daynum_in_range d lo hi :
  valid d -> days_before_year lo < daynum d <= days_before_year (hi + 1) -> lo <= iYear d <= hi.
Proof.
  intros V H. pose proof (daynum_year d V). split.
  - destruct (Z_lt_ge_dec (iYear d) lo) as [Hlt|]; [|lia].
    pose proof (days_before_year_mono (iYear d + 1) lo ltac:(lia)). lia.
  - destruct (Z_lt_ge_dec hi (iYear d)) as [Hlt|]; [|lia].
    pose proof (days_before_year_mono (hi + 1) (iYear d) ltac:(lia)). lia.
Qed.

Lemma checkdate_0 y m d : checkdate y m d = 0 <-> 0 <= y <= 9999 /\ valid (mkDate y m d).
Proof.
  unfold checkdate, valid. cbn [iYear iMonth iDays].
  destruct (Z.ltb_spec y 0); cbn [orb]; [lia|].
  destruct (Z.ltb_spec 9999 y); [lia|].
  destruct (Z_lt_ge_dec m 1) as [|H1].
  { unfold existsb. repeat case_match; lia. }
  destruct (Z_lt_ge_dec 12 m) as [|H2].
  { unfold existsb. repeat case_match; lia. }
  assert (Hm : 1 <= m <= 12) by lia. clear H1 H2.
  unfold days_in_month, bad_day. rewrite IsLeapYear_mod.
  pattern m. apply month_cases; [done|..];
    cbn [existsb Z.eqb Pos.eqb orb]; repeat case_match; lia.
Qed.

Lemma count_step_daynum step d :
  step = 1 \/ step = -1 -> valid d ->
  valid (count_step step d) /\ daynum (count_step step d) = daynum d + step.
Proof.
  intros Hs [Hm Hd]. destruct d as [y m n]. cbn [iYear iMonth iDays] in *.
  unfold count_step. cbn [iYear iMonth iDays].
  rewrite (RMONTHDAYS_spec m) by done.
  pose proof (days_in_month_range m y) as R.
  destruct (Z.leb_spec (n + step) 0) as [H1|H1]; cbn [orb].
  - assert (step = -1) as -> by lia. assert (n = 1) as -> by lia.
    destruct (Z.leb_spec (m + -1) 0) as [H2|H2].
    + assert (m = 1) as -> by lia. rewrite RMONTHDAYS_spec by lia.
      pose proof (YEARDAYS_months (y + -1)). rewrite YEARDAYS_spec in *.
      replace (y + -1 + 1) with y in * by lia. pose proof (days_in_month_range 12 (y + -1)).
      unfold valid, daynum. cbn [iYear iMonth iDays].
      change (days_before_month 1 y) with 0. lia.
    + destruct (Z.ltb_spec 12 (m + -1)); [lia|]. rewrite RMONTHDAYS_spec by lia.
      pose proof (days_before_month_succ (m + -1) y ltac:(lia)) as E.
      replace (m + -1 + 1) with m in E by lia.
      pose proof (days_in_month_range (m + -1) y).
      unfold valid, daynum. cbn [iYear iMonth iDays]. lia.
  - destruct (Z.ltb_spec (days_in_month m y) (n + step)) as [H2|H2].
    + assert (step = 1) as -> by lia.
      destruct (Z.leb_spec (m + 1) 0); [lia|].
      destruct (Z.ltb_spec 12 (m + 1)) as [H3|H3].
      * assert (m = 12) as -> by lia. pose proof (YEARDAYS_months y).
        rewrite YEARDAYS_spec in *. unfold valid, daynum. cbn [iYear iMonth iDays].
        pose proof (days_in_month_range 1 (y + 1)).
        change (days_before_month 1 (y + 1)) with 0. lia.
      * pose proof (days_before_month_succ m y ltac:(lia)).
        pose proof (days_in_month_range (m + 1) y).
        unfold valid, daynum. cbn [iYear iMonth iDays]. lia.
    + unfold valid, daynum. cbn [iYear iMonth iDays]. lia.
Qed.

Lemma count_loop_daynum n step d :
  step = 1 \/ step = -1 -> valid d ->
  valid (count_loop n step d) /\ daynum (count_loop n step d) = daynum d + Z.of_nat n * step.
Proof.
  intros Hs. revert d. induction n as [|n IH]; intros d V; cbn [count_loop].
  - split; [done|lia].
  - destruct (count_step_daynum step d Hs V) as [V' E].
    destruct (IH _ V') as [V'' E']. split; [done|]. lia.
Qed.

Lemma join_range d :
  valid d -> 0 <= iYear d <= 9999 -> iYear d * 10000 < join_date d < (iYear d + 1) * 10000.
Proof.
  intros [Hm Hd] Hy. pose proof (days_in_month_range (iMonth d) (iYear d)).
  unfold join_date. lia.
Qed.

Lemma split_join d : valid d -> 0 <= iYear d <= 9999 -> split_date (join_date d) = d.
Proof.
  intros V Hy. pose proof (join_range d V Hy) as R. destruct V as [Hm Hd].
  pose proof (days_in_month_range (iMonth d) (iYear d)).
  unfold split_date. destruct d as [y m n]. cbn [iYear iMonth iDays] in *. unfold join_date in *.
  cbn [iYear iMonth iDays] in *.
  assert (E1 : (y * 10000 + m * 100 + n) ÷ 10000 = y)
    by (rewrite Z.quot_div_nonneg by lia; symmetry; apply (Z.div_unique _ _ _ (m * 100 + n)); lia).
  assert (E2 : (y * 10000 + m * 100 + n) %% 10000 = m * 100 + n)
    by (rewrite Z.rem_mod_nonneg by lia; symmetry; apply (Z.mod_unique _ _ y); lia).
  assert (E3 : (y * 10000 + m * 100 + n) %% 100 = n)
    by (rewrite Z.rem_mod_nonneg by lia; symmetry; apply (Z.mod_unique _ _ (y * 100 + m)); lia).
  assert (E4 : (m * 100 + n) ÷ 100 = m)
    by (rewrite Z.quot_div_nonneg by lia; symmetry; apply (Z.div_unique _ _ _ n); lia).
  rewrite E1, E2, E3, E4, !i32_id by lia. done.
Qed.

Lemma sum_years y n : sum_loop YEARDAYS y n 0 = days_before_year (y + Z.of_nat n) - days_before_year y.
Proof.
  induction n as [|n IH].
  - cbn [sum_loop]. rewrite Z.add_0_r. lia.
  - rewrite sum_loop_S, IH, YEARDAYS_spec, Nat2Z.inj_succ.
    replace (y + Z.succ (Z.of_nat n)) with (y + Z.of_nat n + 1) by lia. lia.
Qed.

Lemma sum_months m y :
  1 <= m <= 12 ->
  sum_loop (fun i => RMONTHDAYS i y) 1 (Z.to_nat (m - 1)) 0 = days_before_month m y.
Proof. intros. apply sum_loop_ext. intros. apply RMONTHDAYS_spec. lia. Qed.

(** [DiffDate] on dates in order. *)
Lemma DiffDate_le s e :
  valid s -> valid e -> 0 <= iYear s <= 9999 -> 0 <= iYear e <= 9999 ->
  join_date s <= join_date e ->
  sum_loop (fun i => - RMONTHDAYS i (iYear s)) 1 (Z.to_nat (iMonth s - 1))
    (sum_loop (fun i => RMONTHDAYS i (iYear e)) 1 (Z.to_nat (iMonth e - 1))
       (sum_loop YEARDAYS (iYear s) (Z.to_nat (iYear e - iYear s)) 0) + iDays e) - iDays s
  = daynum e - daynum s.
Proof.
  intros Vs Ve Hs He Hle.
  pose proof (join_range s Vs Hs). pose proof (join_range e Ve He).
  destruct Vs as [Hms _], Ve as [Hme _].
  rewrite sum_loop_neg, (sum_loop_acc _ _ _ (sum_loop YEARDAYS _ _ _)), !sum_months by done.
  rewrite sum_years, Z2Nat.id by lia.
  replace (iYear s + (iYear e - iYear s)) with (iYear e) by lia. unfold daynum. lia.
Qed.

Lemma checkdate_valid d :
  valid d -> 0 <= iYear d <= 9999 -> checkdate (iYear d) (iMonth d) (iDays d) = 0.
Proof. intros. apply checkdate_0. destruct d. done. Qed.

Lemma atol_pad n s : atol (replicate n SP ++ s) = atol s.
Proof. unfold atol. induction n as [|n IH]; cbn [replicate app skip_space]; [done|]. exact IH. Qed.

Lemma atol_fmt_w w z : LONG_MIN <= z <= LONG_MAX -> atol (fmt_w w z) = z.
Proof. intros. unfold fmt_w, pad_left. rewrite atol_pad. now apply atol_fmt_d. Qed.

Lemma CountDate_computes d k :
  valid d -> 0 <= iYear d <= 9999 -> Z.abs k <= INT_MAX ->
  days_before_year 0 < daynum d + k <= days_before_year 10000 ->
  exists d', CountDate (fmt_w 8 (join_date d)) k = (0, Some (fmt_w 8 (join_date d')))
    /\ valid d' /\ 0 <= iYear d' <= 9999 /\ daynum d' = daynum d + k.
Proof.
  intros V Hy Hk Hr. unfold INT_MAX in *. pose proof (join_range d V Hy).
  unfold CountDate. rewrite atol_fmt_w by (unfold LONG_MIN, LONG_MAX; lia).
  rewrite split_join, checkdate_valid by done. cbn [negb Z.eqb]. rewrite (i32_id (Z.abs k)) by lia.
  set (step := if 0 <=? k then 1 else -1).
  destruct (count_loop_daynum (Z.to_nat (Z.abs k)) step d) as [V' E]; [|done|].
  { subst step. case_match; auto. }
  set (d' := count_loop _ _ _) in *. exists d'.
  assert (E' : daynum d' = daynum d + k).
  { rewrite E, Z2Nat.id by lia. subst step. destruct (Z.leb_spec 0 k); lia. }
  assert (Hy' : 0 <= iYear d' <= 9999) by (apply daynum_in_range; [done|]; rewrite E'; done).
  pose proof (join_range d' V' Hy'). rewrite i32_id by lia. auto.
Qed.

Lemma DiffDate_dates s e :
  valid s -> valid e -> 0 <= iYear s <= 9999 -> 0 <= iYear e <= 9999 ->
  DiffDate (join_date s) (join_date e) = (0, Some (daynum e - daynum s)).
Proof.
  intros Vs Ve Hs He. unfold DiffDate.
  destruct (Z.ltb_spec (join_date e) (join_date s));
    rewrite !split_join, !checkdate_valid by done; cbn [negb orb Z.eqb];
    rewrite DiffDate_le by (done || lia); do 2 f_equal; lia.
Qed.

(** ** Properties *)

(** [checkdate] is 0 exactly on the dates of the Gregorian calendar with a year of
    at most four digits, and its other results name what is wrong: -1 the year, -2
    the month, -3 the day. *)
Theorem checkdate_correct y m d :
  (checkdate y m d = 0 <-> 0 <= y <= 9999 /\ 1 <= m <= 12 /\ 1 <= d <= days_in_month m y)
  /\ (checkdate y m d = -1 <-> ~ 0 <= y <= 9999)
  /\ (checkdate y m d = -2 <-> 0 <= y <= 9999 /\ ~ 1 <= m <= 12)
  /\ (checkdate y m d = -3 <->
      0 <= y <= 9999 /\ 1 <= m <= 12 /\ ~ 1 <= d <= days_in_month m y).
Proof.
  split; [apply checkdate_0|].
  unfold checkdate.
  destruct (Z.ltb_spec y 0); cbn [orb]; [lia|].
  destruct (Z.ltb_spec 9999 y); [lia|].
  destruct (Z_lt_ge_dec m 1); [unfold existsb; repeat case_match; lia|].
  destruct (Z_lt_ge_dec 12 m); [unfold existsb; repeat case_match; lia|].
  assert (Hm : 1 <= m <= 12) by lia.
  unfold days_in_month, bad_day. rewrite IsLeapYear_mod. pattern m. apply month_cases; [done|..];
    cbn [existsb Z.eqb Pos.eqb orb]; repeat case_match; lia.
Qed.

(** C31: [CountDate] is day arithmetic: from a valid date, the date it prints for an
    offset of [k] days is a valid date whose day number is [k] more, as long as that
    day lies in the years 0 to 9999. *)
Theorem CountDate_correct d k :
  valid d -> 0 <= iYear d <= 9999 -> Z.abs k <= INT_MAX ->
  days_before_year 0 < daynum d + k <= days_before_year 10000 ->
  exists d', CountDate (fmt_w 8 (join_date d)) k = (0, Some (fmt_w 8 (join_date d')))
    /\ valid d' /\ 0 <= iYear d' <= 9999 /\ daynum d' = daynum d + k.
Proof. exact (CountDate_computes d k). Qed.

(** [DiffDate] of two valid dates is the difference of their day numbers, whichever
    of them is the later one. *)
Theorem DiffDate_correct s e :
  valid s -> valid e -> 0 <= iYear s <= 9999 -> 0 <= iYear e <= 9999 ->
  DiffDate (join_date s) (join_date e) = (0, Some (daynum e - daynum s)).
Proof. exact (DiffDate_dates s e). Qed.

(** counting [k] days from a date and taking the difference gives [k] back. *)
Theorem CountDate_DiffDate d k :
  valid d -> 0 <= iYear d <= 9999 -> Z.abs k <= INT_MAX ->
  days_before_year 0 < daynum d + k <= days_before_year 10000 ->
  exists r, CountDate (fmt_w 8 (join_date d)) k = (0, Some r)
    /\ DiffDate (join_date d) (atol r) = (0, Some k).
Proof.
  intros V Hy Hk Hr.
  destruct (CountDate_computes d k V Hy Hk Hr) as (d' & -> & V' & Hy' & E).
  exists (fmt_w 8 (join_date d')). split; [done|].
  pose proof (join_range d' V' Hy').
  rewrite atol_fmt_w by (unfold LONG_MIN, LONG_MAX; lia).
  rewrite DiffDate_dates by done. do 2 f_equal. lia.
Qed.

Definition feb28 : date := mkDate 2012 2 28.

Lemma CountDate_correct_witness :
  exists d', CountDate (fmt_w 8 (join_date feb28)) 2 = (0, Some (fmt_w 8 (join_date d')))
    /\ valid d' /\ 0 <= iYear d' <= 9999 /\ daynum d' = daynum feb28 + 2.
Proof. apply (CountDate_correct feb28 2); vm_compute; intuition congruence. Defined.

Lemma DiffDate_correct_witness :
  DiffDate (join_date feb28) (join_date (mkDate 2011 12 31)) =
  (0, Some (daynum (mkDate 2011 12 31) - daynum feb28)).
Proof. apply (DiffDate_correct feb28 (mkDate 2011 12 31)); vm_compute; intuition congruence. Defined.

Lemma CountDate_DiffDate_witness :
  exists r, CountDate (fmt_w 8 (join_date feb28)) 2 = (0, Some r)
    /\ DiffDate (join_date feb28) (atol r) = (0, Some 2).
Proof. apply (CountDate_DiffDate feb28 2); vm_compute; intuition congruence. Defined.

(** [GetDateDiff] never completes on the [int] its header declares: whenever the
    dates are valid it stores eight bytes through a pointer to four. *)
Theorem GetDateDiff_overruns s e out :
  valid s -> valid e -> 0 <= iYear s <= 9999 -> 0 <= iYear e <= 9999 ->
  length out = 4%nat ->
  GetDateDiff (fmt_w 8 (join_date s)) (fmt_w 8 (join_date e)) out = Fault.
Proof.
  intros Vs Ve Hs He Hout. pose proof (join_range s Vs Hs). pose proof (join_range e Ve He).
  unfold GetDateDiff. rewrite !atol_fmt_w by (unfold LONG_MIN, LONG_MAX; lia).
  rewrite DiffDate_dates by done. unfold st, le64. rewrite length_enc, Hout. done.
Qed.

Lemma GetDateDiff_overruns_witness :
  GetDateDiff (str "20120228") (str "20120301") (zeros 4) = Fault.
Proof.
  apply (GetDateDiff_overruns feb28 (mkDate 2012 3 1) (zeros 4)); vm_compute; intuition congruence.
Defined.
