(* ===== verification/Trace.v ===== *)
(** * Logs: [src/dev/src/pubfun/common/funtrace.c]

    [SysLog] appends a line to the log of the day, after it has put aside a log that has
    grown to five million bytes; [SysTrace] appends a dump of a buffer to the messages of
    the day.  The file system is the set of the directories and the contents of the files,
    by their paths; access rights are not modelled.  All paths start with [HOME], so that
    [chdir] has no effect.  A message appears as the formatted text. *)

From Stdlib Require Import ZArith Lia Bool List Ascii String.
From stdpp Require Import base list strings gmap.
From S2P Require Import Prelude Cstr Funtime.

Record trace := mkTrace {
  t_home : option bytes;      (* getenv("HOME") *)
  t_log_mode : option bytes;  (* getenv("LOG_MODE") *)
  t_pid : Z;
  t_now : tm;
  gsLogFile : bytes;          (* char[41] *)
  gsMsgFile : bytes;
  t_dirs : gset bytes;
  t_files : gmap bytes bytes;
}.

Definition set_t_dirs (d : gset bytes) (t : trace) : trace :=
  mkTrace (t_home t) (t_log_mode t) (t_pid t) (t_now t) (gsLogFile t) (gsMsgFile t) d (t_files t).
Definition set_t_files (f : gmap bytes bytes) (t : trace) : trace :=
  mkTrace (t_home t) (t_log_mode t) (t_pid t) (t_now t) (gsLogFile t) (gsMsgFile t) (t_dirs t) f.

(** ** Files *)

Definition SLASH : ascii := "/"%char.

(** What is in front of the last slash. *)
Fixpoint dir_of (path : bytes) : bytes :=
  match path with
  | [] => []
  | c :: s => if existsb (ceqb SLASH) s then c :: dir_of s else []
  end.

Definition mkdir (path : bytes) : prog trace unit :=
  modify (fun t =>
    if bool_decide (dir_of path ∈ t_dirs t /\ t_files t !! path = None) then set_t_dirs ({[path]} ∪ t_dirs t) t else t).

(** The size, when there is such a file. *)
Definition stat (path : bytes) : prog trace (option Z) := get (fun t => Z.of_nat ∘ length <$> t_files t !! path).

(** Over an existing file, but not over a directory. *)
Definition rename (old new : bytes) : prog trace unit :=
  modify (fun t =>
    match t_files t !! old with
    | Some c => if bool_decide (new ∈ t_dirs t) then t else set_t_files (<[new := c]> (delete old (t_files t))) t
    | None => t
    end).

(** [fopen(path, "a+")]: whether the file is open. *)
Definition fopen (path : bytes) : prog trace bool := fun t =>
  if bool_decide (dir_of path ∈ t_dirs t /\ path ∉ t_dirs t) then
    Ret true (set_t_files (<[path := default [] (t_files t !! path)]> (t_files t)) t)
  else Ret false t.

Definition fprintf (path text : bytes) : prog trace unit :=
  modify (fun t => set_t_files (<[path := default [] (t_files t !! path) ++ text]> (t_files t)) t).

(** ** Strings *)

Definition strcat (s buf : bytes) : option bytes :=
  if terminated buf then st (Z.of_nat (length (cstr buf))) (s ++ [NUL]) buf else None.

(** [%s] of a null pointer is undefined. *)
Definition getenv_home : prog trace bytes := let* h := get t_home in deref h.

(** [atoi(getenv("LOG_MODE"))], or what holds without it. *)
Definition log_level (without : Z) : prog trace Z :=
  let* m := get t_log_mode in ret (match m with Some m => atoi m | None => without end).

(** ** The names of the files *)

Definition LOG_SIZE_UNIT : Z := 1000000.

(** [/], the date and the directory; then [/] and the name. *)
Definition dated_name (sFileName sDateTime file : bytes) : prog trace bytes :=
  let* sFileName := deref (strcat [SLASH] sFileName) in
  let* sFileName := deref (strcat (cstr sDateTime) sFileName) in
  mkdir (cstr sFileName) ;;;
  let* sFileName := deref (strcat [SLASH] sFileName) in
  deref (strcat (cstr file) sFileName).

Definition GetTraceFileName (sFileName : bytes) : prog trace bytes :=
  let* now := get t_now in
  let* sDateTime := deref (GetDate now (zeros 15)) in
  let* home := getenv_home in
  let* sFileName := deref (sprintf (home ++ str "/log") sFileName) in
  let* file := get gsLogFile in
  let* sFileName := dated_name sFileName sDateTime file in
  let* size := stat (cstr sFileName) in
  match size with
  | Some st_size =>
      when (LOG_SIZE_UNIT * 5 <=? st_size)
        (let* sDateTime := deref (GetCurrentTime now sDateTime) in
         let* sNewFileName := deref (sprintf (cstr sFileName ++ str "." ++ pad_left SP 4 (take 4 (cstr (drop 8 sDateTime)))) (zeros 129)) in
         rename (cstr sFileName) (cstr sNewFileName))
  | None => ret tt
  end ;;;
  ret sFileName.

Definition GetMsgFileName (sFileName : bytes) : prog trace bytes :=
  let* now := get t_now in
  let* sDateTime := deref (GetDate now (zeros 15)) in
  let* home := getenv_home in
  let* sFileName := deref (sprintf home sFileName) in
  let* file := get gsMsgFile in
  dated_name sFileName sDateTime file.

(** ** Logging *)

(** [%15.15s] *)
Definition fmt_s15 (s : bytes) : bytes := pad_left SP 15 (take 15 s).

Definition log_line (pid : Z) (sCurrTime file : bytes) (line : Z) (sMessage : bytes) : bytes :=
  str "[" ++ fmt_0d 6 pid ++ str "][" ++ sCurrTime ++ str "][" ++ fmt_s15 file ++ str "][" ++ fmt_0d 5 line ++ str "] " ++ sMessage ++ [LF].

(** The message is formatted before the level is looked at. *)
Definition SysLog (nLevel : Z) (file : bytes) (line : Z) (message : bytes) : prog trace Z :=
  let* sMessage := deref (sprintf message (zeros 10241)) in
  let* nSysLevel := log_level 9 in
  if nLevel =? 0 then ret 0
  else if nSysLevel <? nLevel then ret 0
  else
    let* sFileName := GetTraceFileName (zeros 129) in
    let* fp := fopen (cstr sFileName) in
    if (fp : bool) then
      let* now := get t_now in
      let* sCurrTime := deref (GetCurrentTime now (zeros 15)) in
      let* pid := get t_pid in
      fprintf (cstr sFileName) (log_line pid (cstr sCurrTime) file line (cstr sMessage)) ;;;
      ret 0
    else ret 0.

(** ** Dumping *)

Definition HEXDIGIT (d : Z) : ascii := to_char (if d <? 10 then 48 + d else 55 + d).

(** [%02X ] *)
Definition hex2 (c : ascii) : bytes := [HEXDIGIT (uchar c / 16); HEXDIGIT (uchar c mod 16); SP].

Definition isprint (c : ascii) : bool := (32 <=? uchar c) && (uchar c <=? 126).
Definition shown (c : ascii) : ascii := if isprint c then c else "."%char.

(** [(j>7)] *)
Definition gap (j : Z) : Z := if 7 <? j then 1 else 0.

(** [sprintf(Temp, ...)] and [memcpy(&s[off], Temp, n)]. *)
Definition put_text (off n : Z) (text Temp s : bytes) : option (bytes * bytes) :=
  match sprintf text Temp with
  | Some Temp =>
      match ld 0 n Temp with
      | Some t => match st off t s with Some s => Some (Temp, s) | None => None end
      | None => None
      end
  | None => None
  end.

(** One byte: the buffers and the column behind it. *)
Definition dump_byte (i j : Z) (c : ascii) (Temp s : bytes) : prog trace (bytes * bytes) :=
  let* (Temp, s) :=
    if j =? 0 then
      let* (Temp, s) := deref (put_text 0 5 (fmt_0d 4 i ++ str ":") Temp (replicate 100 SP)) in
      deref (put_text 72 5 (str ":" ++ fmt_0d 4 (i + 15)) Temp s)
    else ret (Temp, s) in
  let* (Temp, s) := deref (put_text (j * 3 + 5 + gap j) 3 (hex2 c) Temp s) in
  let* s := deref (st (j + 55 + gap j) [shown c] s) in
  ret (Temp, s).

(** [s[77]=0; fprintf(fp, "%s\n", s)] *)
Definition put_line (path s : bytes) : prog trace unit :=
  let* s := deref (st 77 [NUL] s) in fprintf path (cstr s ++ [LF]).

(** [n] bytes from [sBuf[i]] on. *)
Fixpoint dump_loop (n : nat) (path sBuf : bytes) (i j : Z) (Temp s : bytes) : prog trace unit :=
  match n with
  | O => when (negb (j =? 0)) (put_line path s)
  | S n =>
      let* c := deref (znth sBuf i) in
      let* (Temp, s) := dump_byte i j c Temp s in
      if j + 1 =? 16 then put_line path s ;;; dump_loop n path sBuf (i + 1) 0 Temp s
      else dump_loop n path sBuf (i + 1) (j + 1) Temp s
  end.

Definition ruler : bytes := replicate 80 "-"%char ++ [LF].

(** [SysTrace] with arrays [sCurrTime] and [Temp] of the sizes given. *)
Definition trace_with (curr_size temp_size nLevel : Z) (sFileName : bytes) (nLine : Z) (sBuf : bytes) (nLen : Z) : prog trace Z :=
  let* nSysLevel := log_level 0 in
  if nLevel =? 0 then ret 0
  else if nSysLevel <? nLevel then ret 0
  else
    let* sTraceFileName := GetMsgFileName (zeros 129) in
    let path := cstr sTraceFileName in
    let* fp := fopen path in
    if negb fp then ret 0
    else
      let* now := get t_now in
      let* sCurrTime := deref (GetCurrentTime now (zeros curr_size)) in
      let* pid := get t_pid in
      fprintf path (str "(" ++ fmt_0d 6 pid ++ str ")[" ++ cstr sCurrTime ++ str "][" ++ sFileName ++ str "][" ++ fmt_d nLine ++ str "]" ++ [LF]) ;;;
      fprintf path ruler ;;;
      dump_loop (Z.to_nat nLen) path sBuf 0 0 (zeros temp_size) (zeros 100) ;;;
      fprintf path ruler ;;;
      ret 0.

Definition SysTrace : Z -> bytes -> Z -> bytes -> Z -> prog trace Z := trace_with 7 5.

(** ** Numbers and buffers *)

Definition plain (c : ascii) : bool := isdigit c || ceqb c "-"%char.

Lemma plain_nonul s : Forall (fun c => plain c = true) s -> nonul s.
Proof. intros H. eapply Forall_impl; [exact H|]. intros c Hc ->. discriminate Hc. Qed.

Lemma length_pad_left c n s : Z.of_nat (length (pad_left c n s)) = Z.max n (Z.of_nat (length s)).
Proof. unfold pad_left. rewrite length_app, length_replicate. lia. Qed.

Lemma plain_udec f z : 0 <= z -> Forall (fun c => plain c = true) (udec f z).
Proof. intros Hz. eapply Forall_impl; [now apply udec_digits|]. intros c. unfold plain. now intros ->. Qed.

Lemma plain_pad n s : Forall (fun c => plain c = true) s -> Forall (fun c => plain c = true) (pad_left "0"%char n s).
Proof. intros. unfold pad_left. apply Forall_app. split; [now apply Forall_replicate|done]. Qed.

Lemma fmt_prec_spec n z : Forall (fun c => plain c = true) (fmt_prec n z) /\ n <= Z.of_nat (length (fmt_prec n z)).
Proof.
  unfold fmt_prec. destruct (Z.ltb_spec z 0); (split; [|cbn [length]; rewrite ?Nat2Z.inj_succ, length_pad_left; lia]).
  - constructor; [done|]. apply plain_pad, plain_udec. lia.
  - now apply plain_pad, plain_udec.
Qed.

Lemma length_fmt_0d w z : w <= Z.of_nat (length (fmt_0d w z)).
Proof. unfold fmt_0d. destruct (z <? 0); cbn [length]; rewrite ?Nat2Z.inj_succ, length_pad_left; lia. Qed.

(** A number of type [int] in a field of at most ten digits. *)
Lemma length_fmt_0d_int w z : - 2 ^ 31 <= z < 2 ^ 31 -> w <= 10 -> Z.of_nat (length (fmt_0d w z)) <= 11.
Proof.
  intros Hz Hw. unfold fmt_0d. destruct (Z.ltb_spec z 0); cbn [length]; rewrite ?Nat2Z.inj_succ, length_pad_left.
  - pose proof (length_udec_le 20 (- z) 10). lia.
  - pose proof (length_udec_le 20 z 10). lia.
Qed.

Lemma sprintf_fits s buff b : sprintf s buff = Some b -> Z.of_nat (length s) < Z.of_nat (length buff) /\ length b = length buff.
Proof.
  intros H. split; [|exact (st_length _ _ _ _ H)]. revert H. unfold sprintf, st. destruct (_ && _) eqn:E; [|done].
  rewrite andb_true_iff, !Z.leb_le, length_app in E. cbn [length] in E. lia.
Qed.

Lemma sprintf_cstr s buff b : sprintf s buff = Some b -> cstr b = cstr s.
Proof.
  unfold sprintf, st. destruct (_ && _); [|done]. intros [= <-]. change (Z.to_nat 0) with 0%nat. cbn [take app Nat.add]. rewrite <- app_assoc. cbn [app]. generalize (drop (length (s ++ [NUL])) buff) as r. intros r.
  induction s as [|c s IH]; cbn [app cstr]; [now rewrite ceqb_refl|]. destruct (ceqb c NUL); [done|]. now rewrite IH.
Qed.

Lemma sprintf_short s n b : 0 <= n -> sprintf s (zeros n) = Some b -> Z.of_nat (length (cstr b)) < n.
Proof.
  intros Hn H. rewrite (sprintf_cstr _ _ _ H). apply sprintf_fits in H as [H _]. rewrite length_zeros in H by done.
  pose proof (length_cstr s). lia.
Qed.

(** [GetCurrentTime] stores fifteen bytes at least. *)
Lemma GetCurrentTime_overflow now n : 0 <= n < 15 -> GetCurrentTime now (zeros n) = None.
Proof.
  intros Hn. unfold GetCurrentTime. destruct (sprintf _ _) as [b|] eqn:E; [|done]. apply sprintf_fits in E as [E _].
  rewrite length_zeros, !length_app in E by lia. unfold fmt_w in E. rewrite !Nat2Z.inj_add, length_pad_left in E.
  pose proof (length_fmt_0d 2 (tm_mon now + 1)). pose proof (length_fmt_0d 2 (tm_mday now)). pose proof (length_fmt_0d 2 (tm_hour now)).
  pose proof (length_fmt_0d 2 (tm_min now)). pose proof (length_fmt_0d 2 (tm_sec now)). lia.
Qed.

(** ** The dump of a buffer *)

(** A line: the offset, two groups of eight bytes in hexadecimal, the same as characters,
    the offset of the sixteenth byte. *)
Definition pad_right (w : nat) (s : bytes) : bytes := s ++ replicate (w - length s) SP.

Definition dump_line (i : Z) (chunk : bytes) : bytes :=
  fmt_0d 4 i ++ str ":"
  ++ pad_right 24 (List.concat (map hex2 (take 8 chunk))) ++ [SP]
  ++ pad_right 24 (List.concat (map hex2 (drop 8 chunk))) ++ [SP]
  ++ pad_right 8 (map shown (take 8 chunk)) ++ [SP]
  ++ pad_right 8 (map shown (drop 8 chunk))
  ++ str ":" ++ fmt_0d 4 (i + 15).

Fixpoint dump_from (fuel : nat) (i : Z) (data : bytes) : bytes :=
  match fuel, data with
  | S fuel, _ :: _ => dump_line i (take 16 data) ++ [LF] ++ dump_from fuel (i + 16) (drop 16 data)
  | _, _ => []
  end.

(** The buffer [s] after the bytes of [chunk]. *)
Definition image (i : Z) (chunk : bytes) : bytes := dump_line i chunk ++ replicate 23 SP.

Lemma four_digits z : 0 <= z <= 9999 -> exists a b c d, fmt_0d 4 z = [a; b; c; d].
Proof.
  intros Hz. destruct (fmt_0d_spec 4 z) as [L _]; [lia|lia|]. destruct (fmt_0d 4 z) as [|a [|b [|c [|d [|? ?]]]]]; cbn [length] in L; try lia.
  now exists a, b, c, d.
Qed.

(** A text that fits in [Temp] with its NUL ends up in the line. *)
Lemma put_text_eq off n text Temp s s' :
  Z.of_nat (length text) = n -> n < Z.of_nat (length Temp) -> st off text s = Some s' ->
  exists t, put_text off n text Temp s = Some (t, s') /\ length t = length Temp.
Proof.
  intros Hn Hf Hs. unfold put_text, sprintf.
  destruct (st_Some 0 (text ++ [NUL]) Temp) as [t Ht]; [lia|rewrite length_app; cbn [length]; lia|].
  exists t. rewrite Ht. split; [|exact (st_length _ _ _ _ Ht)].
  replace (ld 0 n t) with (Some text); [now rewrite Hs|].
  revert Ht. unfold st. destruct (_ && _); [|done]. intros [= <-]. change (Z.to_nat 0) with 0%nat. cbn [take app]. rewrite <- app_assoc.
  unfold ld. rewrite (proj2 (Z.leb_le 0 0)), (proj2 (Z.leb_le 0 n)), (proj2 (Z.leb_le _ _)) by (rewrite ?length_app; lia). cbn [andb].
  change (Z.to_nat 0) with 0%nat. rewrite drop_0, take_app_length' by lia. done.
Qed.

(** The byte [c] at column [j] of a line. *)
Definition place (j : Z) (c : ascii) (s : bytes) : option bytes :=
  match st (j * 3 + 5 + gap j) (hex2 c) s with Some s => st (j + 55 + gap j) [shown c] s | None => None end.

Lemma place_image i chunk c :
  0 <= i <= 9984 -> (length chunk < 16)%nat -> place (Z.of_nat (length chunk)) c (image i chunk) = Some (image i (chunk ++ [c])).
Proof.
  intros Hi Hl. destruct (four_digits i) as (d0 & d1 & d2 & d3 & E); [lia|]. destruct (four_digits (i + 15)) as (e0 & e1 & e2 & e3 & E'); [lia|].
  unfold image, dump_line. rewrite E, E'. clear E E' Hi.
  do 16 (destruct chunk as [|? chunk]; [reflexivity|]). cbn [length] in Hl. lia.
Qed.

Lemma first_image i :
  0 <= i <= 9984 ->
  exists s, st 0 (fmt_0d 4 i ++ str ":") (replicate 100 SP) = Some s /\ st 72 (str ":" ++ fmt_0d 4 (i + 15)) s = Some (image i []).
Proof.
  intros Hi. unfold image, dump_line. destruct (four_digits i) as (d0 & d1 & d2 & d3 & ->); [lia|].
  destruct (four_digits (i + 15)) as (e0 & e1 & e2 & e3 & ->); [lia|]. eexists. split; reflexivity.
Qed.

Lemma last_image i chunk : 0 <= i <= 9984 -> (length chunk <= 16)%nat -> exists t, st 77 [NUL] (image i chunk) = Some (dump_line i chunk ++ NUL :: t).
Proof.
  intros Hi Hl. exists (replicate 22 SP). unfold image, dump_line.
  destruct (four_digits i) as (d0 & d1 & d2 & d3 & ->); [lia|]. destruct (four_digits (i + 15)) as (e0 & e1 & e2 & e3 & ->); [lia|].
  do 17 (destruct chunk as [|? chunk]; [reflexivity|]). cbn [length] in Hl. lia.
Qed.

Lemma HEXDIGIT_nonul d : 0 <= d < 16 -> HEXDIGIT d <> NUL.
Proof.
  intros Hd E. apply (f_equal uchar) in E. unfold HEXDIGIT in E. rewrite uchar_to_char in E. change (uchar NUL) with 0 in E.
  destruct (d <? 10); rewrite Z.mod_small in E; lia.
Qed.

Lemma nonul_hex2 c : nonul (hex2 c).
Proof.
  pose proof (uchar_range c). repeat constructor; try discriminate; apply HEXDIGIT_nonul;
    [split; [apply Z.div_pos|apply Z.div_lt_upper_bound]|apply Z.mod_pos_bound]; lia.
Qed.

Lemma shown_nonul c : shown c <> NUL.
Proof. unfold shown. destruct (isprint c) eqn:E; [|discriminate]. intros ->. discriminate E. Qed.

Lemma nonul_pad_right w s : nonul s -> nonul (pad_right w s).
Proof. intros. apply Forall_app. split; [done|]. now apply Forall_replicate. Qed.

Lemma nonul_hexes l : nonul (List.concat (map hex2 l)).
Proof. induction l as [|c l IH]; [constructor|]. cbn [map List.concat]. apply Forall_app. split; [apply nonul_hex2|done]. Qed.

Lemma nonul_shown l : nonul (map shown l).
Proof. induction l; constructor; [apply shown_nonul|done]. Qed.

Lemma nonul_fmt_0d w z : nonul (fmt_0d w z).
Proof.
  apply plain_nonul. unfold fmt_0d. destruct (Z.ltb_spec z 0); [constructor; [done|]|]; apply plain_pad, plain_udec; lia.
Qed.

Lemma nonul_dump_line i chunk : nonul (dump_line i chunk).
Proof.
  unfold dump_line, nonul. rewrite !Forall_app. repeat apply conj;
    first [apply nonul_fmt_0d | apply nonul_pad_right, nonul_hexes | apply nonul_pad_right, nonul_shown | by repeat constructor].
Qed.

(** The contents [f] of a file replaced. *)
Definition with_file (path f : bytes) (t : trace) : trace := set_t_files (<[path := f]> (t_files t)) t.

Lemma with_file_id path f t : t_files t !! path = Some f -> with_file path f t = t.
Proof. intros H. unfold with_file. rewrite insert_id by done. now destruct t. Qed.

Lemma with_file_twice path f g t : with_file path g (with_file path f t) = with_file path g t.
Proof. unfold with_file, set_t_files. cbn. now rewrite insert_insert_eq. Qed.

Lemma with_file_lookup path f t : t_files (with_file path f t) !! path = Some f.
Proof. apply lookup_insert_eq. Qed.

Lemma fprintf_eq path text f t : t_files t !! path = Some f -> fprintf path text t = Ret tt (with_file path (f ++ text) t).
Proof. intros H. unfold fprintf, modify, with_file. now rewrite H. Qed.

Lemma put_line_eq path i chunk f t :
  0 <= i <= 9984 -> (length chunk <= 16)%nat -> t_files t !! path = Some f ->
  put_line path (image i chunk) t = Ret tt (with_file path (f ++ dump_line i chunk ++ [LF]) t).
Proof.
  intros Hi Hl Hf. destruct (last_image i chunk Hi Hl) as [r E]. unfold put_line. rewrite E. cbn [deref]. rewrite bind_ret_l.
  rewrite cstr_app_nul by apply nonul_dump_line. now apply fprintf_eq.
Qed.

Lemma dump_byte_eq i c chunk Temp s t :
  0 <= i <= 9984 -> (length chunk < 16)%nat -> (6 <= length Temp)%nat -> (chunk <> [] -> s = image i chunk) ->
  exists Temp', length Temp' = length Temp
    /\ dump_byte (i + Z.of_nat (length chunk)) (Z.of_nat (length chunk)) c Temp s t = Ret (Temp', image i (chunk ++ [c])) t.
Proof.
  intros Hi Hl HT Hs.
  assert (H : exists Temp1, length Temp1 = length Temp /\
    (if Z.of_nat (length chunk) =? 0 then
       let* (Temp, s) := deref (put_text 0 5 (fmt_0d 4 (i + Z.of_nat (length chunk)) ++ str ":") Temp (replicate 100 SP)) in
       deref (put_text 72 5 (str ":" ++ fmt_0d 4 (i + Z.of_nat (length chunk) + 15)) Temp s)
     else ret (Temp, s)) t = Ret (Temp1, image i chunk) t).
  { destruct chunk as [|c0 chunk]; [|exists Temp; rewrite (Hs ltac:(done)); done].
    cbn [length]. change (Z.of_nat 0 =? 0) with true. cbn match. rewrite !Z.add_0_r.
    destruct (first_image i Hi) as (s1 & E1 & E2).
    destruct (fmt_0d_spec 4 i) as [L1 _]; [lia|lia|]. destruct (fmt_0d_spec 4 (i + 15)) as [L2 _]; [lia|lia|].
    destruct (put_text_eq 0 5 (fmt_0d 4 i ++ str ":") Temp (replicate 100 SP) s1) as (T1 & -> & HT1); [rewrite length_app; cbn [length str list_ascii_of_string]; lia|lia|done|].
    destruct (put_text_eq 72 5 (str ":" ++ fmt_0d 4 (i + 15)) T1 s1 (image i [])) as (T2 & E & HT2);
      [rewrite length_app; cbn [length str list_ascii_of_string]; lia|lia|done|].
    exists T2. split; [lia|]. cbn [deref]. rewrite bind_ret_l, E. done. }
  destruct H as (T1 & HT1 & E). pose proof (place_image i chunk c Hi Hl) as P. unfold place in P.
  destruct (st _ (hex2 c) _) as [s1|] eqn:E1; [|done].
  destruct (put_text_eq _ 3 (hex2 c) T1 _ _ eq_refl ltac:(lia) E1) as (T2 & E2 & HT2).
  exists T2. split; [lia|]. unfold dump_byte. rewrite (bind_Ret _ _ _ _ _ E). cbn match. rewrite E2. cbn [deref]. rewrite bind_ret_l. rewrite P. done.
Qed.

Lemma dump_loop_eq path sBuf data : forall i chunk Temp s t f fuel,
  0 <= i -> i mod 16 = 0 -> (length chunk < 16)%nat -> i + Z.of_nat (length (chunk ++ data)) <= 10000 ->
  (6 <= length Temp)%nat -> (chunk <> [] -> s = image i chunk) -> t_files t !! path = Some f ->
  (forall k c, data !! k = Some c -> znth sBuf (i + Z.of_nat (length chunk) + Z.of_nat k) = Some c) ->
  (length (chunk ++ data) <= fuel)%nat ->
  dump_loop (length data) path sBuf (i + Z.of_nat (length chunk)) (Z.of_nat (length chunk)) Temp s t
  = Ret tt (with_file path (f ++ dump_from fuel i (chunk ++ data)) t).
Proof.
  induction data as [|c data IH]; intros i chunk Temp s t f fuel Hi0 Hi16 Hl Hn HT Hs Hf Hd HF; cbn [length dump_loop];
    rewrite length_app in *; cbn [length] in *; pose proof (Z.div_mod i 16).
  - destruct chunk as [|c chunk].
    + cbn [app length]. destruct fuel; cbn [dump_from]; rewrite app_nil_r, with_file_id by done; done.
    + rewrite (Hs ltac:(done)), app_nil_r, (proj2 (Z.eqb_neq _ 0)) by (cbn [length]; lia). cbn [negb when] in *.
      destruct fuel as [|fuel]; [cbn [length] in HF; lia|]. unfold dump_from; fold dump_from.
      rewrite take_ge, drop_ge by lia. rewrite (put_line_eq path i _ f) by (cbn [length] in *; try done; lia).
      destruct fuel; done.
  - pose proof (Hd 0%nat c eq_refl) as E0. rewrite Z.add_0_r in E0. rewrite E0. cbn [deref]. rewrite bind_ret_l.
    destruct (dump_byte_eq i c chunk Temp s t) as (T1 & HT1 & E); [lia|done|done|done|]. rewrite (bind_Ret _ _ _ _ _ E).
    destruct (Z.eqb_spec (Z.of_nat (length chunk) + 1) 16) as [H16|H16].
    + rewrite (bind_Ret _ _ _ _ _ (put_line_eq path i (chunk ++ [c]) f t ltac:(lia) ltac:(rewrite length_app; cbn [length]; lia) Hf)).
      destruct fuel as [|fuel]; [lia|].
      replace (i + Z.of_nat (length chunk) + 1) with (i + 16 + Z.of_nat (length (A := ascii) [])) by (cbn [length]; lia).
      change (dump_loop (length data) path sBuf (i + 16 + Z.of_nat (length (A := ascii) [])) 0) with (dump_loop (length data) path sBuf (i + 16 + Z.of_nat (length (A := ascii) [])) (Z.of_nat (length (A := ascii) []))).
      rewrite (IH (i + 16) [] T1 (image i (chunk ++ [c])) _ (f ++ dump_line i (chunk ++ [c]) ++ [LF]) fuel); cbn [length app]; try done; try lia.
      * rewrite with_file_twice. replace (chunk ++ c :: data) with ((chunk ++ [c]) ++ data) by (now rewrite <- app_assoc).
        assert (L : length (chunk ++ [c]) = 16%nat) by (rewrite length_app; cbn [length]; lia).
        destruct (chunk ++ [c]) as [|x ch]; [done|].
        change (dump_from (S fuel) i ((x :: ch) ++ data)) with
          (dump_line i (take 16 ((x :: ch) ++ data)) ++ [LF] ++ dump_from fuel (i + 16) (drop 16 ((x :: ch) ++ data))).
        rewrite take_app_length', drop_app_length' by done. now rewrite <- !app_assoc.
      * rewrite <- Hi16. rewrite <- Z.add_mod_idemp_r by lia. now rewrite Z.add_0_r.
      * apply with_file_lookup.
      * intros k x Hk. rewrite <- (Hd (S k) x Hk). f_equal. lia.
    + replace (i + Z.of_nat (length chunk) + 1) with (i + Z.of_nat (length (chunk ++ [c]))) by (rewrite length_app; cbn [length]; lia).
      replace (Z.of_nat (length chunk) + 1) with (Z.of_nat (length (chunk ++ [c]))) by (rewrite length_app; cbn [length]; lia).
      rewrite (IH i (chunk ++ [c]) T1 (image i (chunk ++ [c])) t f fuel); rewrite ?length_app; cbn [length]; try done; try lia.
      * now rewrite <- app_assoc.
      * intros k x Hk. rewrite <- (Hd (S k) x Hk). f_equal. lia.
Qed.

(** ** The names of the files *)

(** A clock that four digits of the year are enough for. *)
Definition clock_ok (now : tm) : Prop :=
  0 <= tm_year now + 1900 <= 9999 /\ 0 <= tm_mon now <= 11 /\ 1 <= tm_mday now <= 31
  /\ 0 <= tm_hour now <= 23 /\ 0 <= tm_min now <= 59 /\ 0 <= tm_sec now <= 61.

Definition day (now : tm) : bytes := fmt_prec 4 (tm_year now + 1900) ++ fmt_prec 2 (tm_mon now + 1) ++ fmt_prec 2 (tm_mday now).
Definition hhmm (now : tm) : bytes := fmt_0d 2 (tm_hour now) ++ fmt_0d 2 (tm_min now).
Definition stamp (now : tm) : bytes :=
  (fmt_w 4 (tm_year now + 1900) ++ fmt_0d 2 (tm_mon now + 1) ++ fmt_0d 2 (tm_mday now)) ++ hhmm now ++ fmt_0d 2 (tm_sec now).

Lemma fmt_prec_0d n z : 0 <= z -> fmt_prec n z = fmt_0d n z.
Proof. intros Hz. unfold fmt_prec, fmt_0d. destruct (Z.ltb_spec z 0); [lia|done]. Qed.

Lemma length_two z : 0 <= z <= 99 -> length (fmt_0d 2 z) = 2%nat.
Proof. intros. destruct (fmt_0d_spec 2 z); lia. Qed.

Lemma length_four z : 0 <= z <= 9999 -> length (fmt_0d 4 z) = 4%nat /\ length (fmt_w 4 z) = 4%nat.
Proof.
  intros Hz. destruct (fmt_0d_spec 4 z); [lia|lia|]. split; [lia|]. unfold fmt_w, fmt_d. destruct (Z.ltb_spec z 0); [lia|].
  pose proof (length_pad_left SP 4 (udec 20 z)). pose proof (length_udec_le 20 z 4). lia.
Qed.

Lemma plain_day now : Forall (fun c => plain c = true) (day now).
Proof. unfold day. rewrite !Forall_app. repeat apply conj; apply fmt_prec_spec. Qed.

Lemma length_day now : clock_ok now -> length (day now) = 8%nat.
Proof.
  intros (Hy & Hm & Hd & _). unfold day. rewrite !fmt_prec_0d by lia.
  rewrite !length_app, !(length_two _) by lia. destruct (length_four (tm_year now + 1900)); lia.
Qed.

Lemma length_day_ge now : (8 <= length (day now))%nat.
Proof.
  unfold day. rewrite !length_app. pose proof (fmt_prec_spec 4 (tm_year now + 1900)).
  pose proof (fmt_prec_spec 2 (tm_mon now + 1)). pose proof (fmt_prec_spec 2 (tm_mday now)). lia.
Qed.

Lemma length_stamp now : clock_ok now ->
  length (fmt_w 4 (tm_year now + 1900) ++ fmt_0d 2 (tm_mon now + 1) ++ fmt_0d 2 (tm_mday now)) = 8%nat
  /\ length (hhmm now) = 4%nat /\ length (stamp now) = 14%nat.
Proof.
  intros (Hy & Hm & Hd & Hh & Hi & Hs). unfold stamp, hhmm. rewrite !length_app, !(length_two _) by lia.
  destruct (length_four (tm_year now + 1900)); lia.
Qed.

Lemma nonul_stamp now : clock_ok now -> nonul (stamp now).
Proof.
  intros (Hy & _). unfold stamp, hhmm, nonul. rewrite !Forall_app. repeat apply conj; try apply nonul_fmt_0d.
  unfold fmt_w, pad_left. apply Forall_app. split; [now apply Forall_replicate|]. unfold fmt_d.
  destruct (Z.ltb_spec (tm_year now + 1900) 0); [lia|]. apply plain_nonul, plain_udec. lia.
Qed.

Lemma GetDate_eq now : clock_ok now -> GetDate now (zeros 15) = Some (day now ++ zeros 7).
Proof.
  intros Hc. pose proof (length_day now Hc) as L. unfold GetDate, sprintf. fold (day now).
  rewrite st_zeros_start by (rewrite length_app; cbn [length]; lia). rewrite length_app, L, <- app_assoc. done.
Qed.

Lemma GetCurrentTime_eq now b : clock_ok now -> length b = 15%nat -> GetCurrentTime now b = Some (stamp now ++ [NUL]).
Proof.
  intros Hc Hb. destruct (length_stamp now Hc) as (_ & _ & L). unfold GetCurrentTime, sprintf.
  replace (fmt_w 4 (tm_year now + 1900) ++ fmt_0d 2 (tm_mon now + 1) ++ fmt_0d 2 (tm_mday now) ++ fmt_0d 2 (tm_hour now) ++ fmt_0d 2 (tm_min now) ++ fmt_0d 2 (tm_sec now))
    with (stamp now) by (unfold stamp, hhmm; now rewrite <- !app_assoc).
  apply st_whole. rewrite length_app, L, Hb. done.
Qed.

Lemma GetCurrentTime_wide now n : clock_ok now -> 15 <= n -> GetCurrentTime now (zeros n) = Some (stamp now ++ zeros (n - 14)).
Proof.
  intros Hc Hn. destruct (length_stamp now Hc) as (_ & _ & L). unfold GetCurrentTime, sprintf.
  replace (fmt_w 4 (tm_year now + 1900) ++ fmt_0d 2 (tm_mon now + 1) ++ fmt_0d 2 (tm_mday now) ++ fmt_0d 2 (tm_hour now) ++ fmt_0d 2 (tm_min now) ++ fmt_0d 2 (tm_sec now))
    with (stamp now) by (unfold stamp, hhmm; now rewrite <- !app_assoc).
  rewrite st_zeros_start by (rewrite length_app, L; cbn [length]; lia). rewrite <- app_assoc. do 2 f_equal.
  replace (n - 14) with (1 + (n - 15)) by lia. rewrite zeros_add by lia. rewrite length_app, L. done.
Qed.

Lemma cstr_app_zeros s k : nonul s -> 0 < k -> cstr (s ++ zeros k) = s.
Proof.
  intros Hs Hk. replace k with (1 + (k - 1)) by lia. rewrite zeros_add by lia. now apply cstr_app_nul.
Qed.

Lemma terminated_then_zeros s k : 0 < k -> terminated (s ++ zeros k) = true.
Proof. intros Hk. replace k with (1 + (k - 1)) by lia. rewrite zeros_add by lia. apply terminated_app. Qed.

Lemma strcat_eq s0 s k :
  nonul s0 -> Z.of_nat (length s) < k -> strcat s (s0 ++ zeros k) = Some ((s0 ++ s) ++ zeros (k - Z.of_nat (length s))).
Proof.
  intros H0 Hk. unfold strcat. rewrite terminated_then_zeros, cstr_app_zeros by (done || lia).
  unfold st. rewrite !length_app. cbn [length]. rewrite (proj2 (Z.leb_le 0 _)) by lia.
  pose proof (length_zeros k). rewrite (proj2 (Z.leb_le _ _)) by lia. cbn [andb]. rewrite Nat2Z.id, take_app_length, drop_app_add. f_equal.
  unfold zeros. rewrite drop_replicate, <- !app_assoc. do 2 f_equal. replace (Z.to_nat (k - Z.of_nat (length s))) with (S (Z.to_nat k - (length s + 1))) by lia. done.
Qed.

(** The state behind [mkdir]. *)
Definition made (path : bytes) (t : trace) : trace :=
  if bool_decide (dir_of path ∈ t_dirs t /\ t_files t !! path = None) then set_t_dirs ({[path]} ∪ t_dirs t) t else t.

Lemma dated_name_eq base k d r file t :
  nonul base -> nonul d -> cstr r = d -> Z.of_nat (length d + length (cstr file)) + 2 < k ->
  dated_name (base ++ zeros k) r file t
  = Ret ((base ++ SLASH :: d ++ SLASH :: cstr file) ++ zeros (k - (Z.of_nat (length d + length (cstr file)) + 2))) (made (base ++ SLASH :: d) t).
Proof.
  intros Hb Hd Hr Hk. unfold dated_name. rewrite Hr.
  assert (N1 : nonul (base ++ [SLASH])) by (apply Forall_app; split; [done|by repeat constructor]).
  assert (N2 : nonul ((base ++ [SLASH]) ++ d)) by (apply Forall_app; done).
  assert (N3 : nonul (((base ++ [SLASH]) ++ d) ++ [SLASH])) by (apply Forall_app; split; [done|by repeat constructor]).
  rewrite strcat_eq by (try done; cbn [length]; lia). cbn [deref]. rewrite bind_ret_l.
  rewrite strcat_eq by (try done; cbn [length]; lia). cbn [deref]. rewrite bind_ret_l.
  rewrite cstr_app_zeros by (try done; cbn [length]; lia).
  unfold bind at 1. unfold mkdir, modify, obind. fold (made ((base ++ [SLASH]) ++ d) t).
  rewrite strcat_eq by (try done; cbn [length]; lia). cbn [deref]. rewrite bind_ret_l.
  rewrite strcat_eq by (try done; cbn [length]; lia). cbn [deref]. unfold ret.
  f_equal; [|now rewrite <- app_assoc].
  match goal with |- _ ++ zeros ?a = _ ++ zeros ?b => replace a with b by (cbn [length]; lia) end. repeat (rewrite <- ?app_assoc; cbn [app]). done.
Qed.

(** ** Logging a message *)

Definition log_dir (home : bytes) (now : tm) : bytes := (home ++ str "/log") ++ SLASH :: day now.
Definition log_name (home : bytes) (now : tm) (file : bytes) : bytes := (home ++ str "/log") ++ SLASH :: day now ++ SLASH :: cstr file.
Definition backup_name (name : bytes) (now : tm) : bytes := name ++ str "." ++ hhmm now.

(** A log of five million bytes gets another name. *)
Definition put_aside (name backup : bytes) (t : trace) : trace :=
  match t_files t !! name with
  | Some c =>
      if 5000000 <=? Z.of_nat (length c) then
        if bool_decide (backup ∈ t_dirs t) then t else set_t_files (<[backup := c]> (delete name (t_files t))) t
      else t
  | None => t
  end.

(** Where the names fit: [HOME] and the name of the log have 109 bytes together. *)
Definition names_fit (home : bytes) (t : trace) : Prop :=
  t_home t = Some home /\ nonul home /\ (length home + length (cstr (gsLogFile t)) <= 109)%nat /\ clock_ok (t_now t).

Lemma made_same path t : t_home (made path t) = t_home t /\ t_now (made path t) = t_now t /\ gsLogFile (made path t) = gsLogFile t
  /\ gsMsgFile (made path t) = gsMsgFile t /\ t_log_mode (made path t) = t_log_mode t /\ t_pid (made path t) = t_pid t /\ t_files (made path t) = t_files t.
Proof. unfold made. now destruct (bool_decide _). Qed.

Lemma put_aside_same name backup t : t_home (put_aside name backup t) = t_home t /\ t_now (put_aside name backup t) = t_now t
  /\ t_pid (put_aside name backup t) = t_pid t /\ t_dirs (put_aside name backup t) = t_dirs t.
Proof. unfold put_aside. destruct (t_files t !! name); [|done]. destruct (_ <=? _); [|done]. now destruct (bool_decide _). Qed.

Lemma nonul_day now : nonul (day now).
Proof. apply plain_nonul, plain_day. Qed.

Lemma nonul_log_name home now file : nonul home -> nonul (log_name home now file).
Proof.
  intros Hh. unfold log_name, nonul. rewrite !Forall_app, Forall_cons, Forall_app, Forall_cons.
  repeat apply conj; try done; try by repeat constructor. { apply nonul_day. } apply cstr_nonul.
Qed.

Lemma GetTraceFileName_eq home t :
  names_fit home t ->
  exists k, 0 < k /\ GetTraceFileName (zeros 129) t
  = Ret (log_name home (t_now t) (gsLogFile t) ++ zeros k)
      (put_aside (log_name home (t_now t) (gsLogFile t)) (backup_name (log_name home (t_now t) (gsLogFile t)) (t_now t)) (made (log_dir home (t_now t)) t)).
Proof.
  intros (Hh & Nh & Hl & Hc). pose proof (length_day _ Hc) as Ld. pose proof (length_stamp _ Hc) as (L8 & L4 & _).
  assert (Nb : nonul (home ++ str "/log")) by (apply Forall_app; split; [done|by repeat constructor]).
  unfold GetTraceFileName. unfold get at 1. unfold bind at 1. cbn [obind]. rewrite GetDate_eq by done. cbn [deref]. rewrite bind_ret_l.
  unfold bind at 1. unfold getenv_home, get at 1, bind at 1. cbn [obind]. rewrite Hh. cbn [deref ret obind].
  unfold sprintf at 1. rewrite st_zeros_start by (rewrite !length_app; cbn [length str list_ascii_of_string]; lia). cbn [deref]. rewrite bind_ret_l.
  unfold get at 1. unfold bind at 1. cbn [obind]. set (k := 129 - _).
  assert (Hk : k = 124 - Z.of_nat (length home)) by (unfold k; rewrite !length_app; cbn [length str list_ascii_of_string]; lia).
  assert (E1 : ((home ++ str "/log") ++ [NUL]) ++ zeros k = (home ++ str "/log") ++ zeros (k + 1))
    by (rewrite <- (app_assoc (home ++ str "/log")); f_equal; rewrite (Z.add_comm k 1), zeros_add by lia; done).
  rewrite E1. unfold bind at 1. rewrite (dated_name_eq _ _ (day (t_now t))); [|done|apply nonul_day|apply cstr_app_zeros; [apply nonul_day|lia]|lia].
  cbn [obind]. fold (log_dir home (t_now t)). fold (log_name home (t_now t) (gsLogFile t)).
  set (k' := k + 1 - _). set (name := log_name home (t_now t) (gsLogFile t)). exists k'. split; [unfold k'; lia|].
  assert (C : cstr (name ++ zeros k') = name) by (apply cstr_app_zeros; [now apply nonul_log_name|unfold k'; lia]).
  rewrite C. unfold bind at 1. unfold stat, get. cbn [obind]. unfold put_aside.
  destruct (t_files (made (log_dir home (t_now t)) t) !! name) as [c|] eqn:Ef; cbn; [|done].
  unfold compose, LOG_SIZE_UNIT. change (1000000 * 5) with 5000000. destruct (5000000 <=? Z.of_nat (length c)); cbn [when]; [|done].
  rewrite GetCurrentTime_eq by (done || (rewrite length_app, Ld; done)). cbn [deref]. unfold bind at 1 2. unfold ret at 1. cbn [obind].
  assert (D : pad_left SP 4 (take 4 (cstr (drop 8 (stamp (t_now t) ++ [NUL])))) = hhmm (t_now t)).
  { unfold stamp. rewrite <- app_assoc, <- L8, drop_app_length, <- app_assoc.
    rewrite app_assoc, cstr_app_nul by (apply Forall_app; split; [|apply nonul_fmt_0d]; apply Forall_app; split; apply nonul_fmt_0d).
    rewrite take_app_length' by done. unfold pad_left. rewrite L4. done. }
  rewrite D. unfold sprintf. rewrite st_zeros_start.
  2:{ unfold name, log_name. rewrite !length_app. cbn [length]. rewrite length_app. cbn [length str list_ascii_of_string]. rewrite Ld, L4. lia. }
  cbn [deref ret obind]. rewrite bind_ret_l, <- (app_assoc _ [NUL]). cbn [app]. unfold rename, modify. cbn [obind]. rewrite cstr_app_nul. 2:{
    unfold nonul. rewrite Forall_app. split; [now apply nonul_log_name|]. constructor; [done|]. apply Forall_app; split; apply nonul_fmt_0d. }
  rewrite Ef. now destruct (bool_decide _).
Qed.

Lemma sprintf_zeros s n : Z.of_nat (length s) < n -> sprintf s (zeros n) = Some (s ++ zeros (n - Z.of_nat (length s))).
Proof.
  intros Hn. unfold sprintf. rewrite st_zeros_start by (rewrite length_app; cbn [length]; lia). rewrite <- app_assoc. do 2 f_equal.
  rewrite length_app. cbn [length]. replace (n - Z.of_nat (length s)) with (1 + (n - Z.of_nat (length s + 1))) by lia.
  now rewrite zeros_add by lia.
Qed.

Definition enabled (nLevel without : Z) (t : trace) : bool :=
  negb (nLevel =? 0) && (nLevel <=? match t_log_mode t with Some m => atoi m | None => without end).

(** The state when the line is written: the directory of the day is there and a long log
    is put aside. *)
Definition log_ready (home : bytes) (t : trace) : trace :=
  put_aside (log_name home (t_now t) (gsLogFile t)) (backup_name (log_name home (t_now t) (gsLogFile t)) (t_now t)) (made (log_dir home (t_now t)) t).

Definition openable (name : bytes) (t : trace) : bool := bool_decide (dir_of name ∈ t_dirs t /\ name ∉ t_dirs t).

(** C33: [SysLog] writes the line at the end of the log of the day, which it creates, and
    renames first when it has five million bytes; it does nothing for a level that is off. *)
Theorem SysLog_correct nLevel file line message home t :
  names_fit home t -> nonul message -> Z.of_nat (length message) <= 10240 ->
  let name := log_name home (t_now t) (gsLogFile t) in
  let t' := log_ready home t in
  SysLog nLevel file line message t
  = Ret 0 (if enabled nLevel 9 t then
             if openable name t' then
               with_file name (default [] (t_files t' !! name) ++ log_line (t_pid t) (stamp (t_now t)) file line message) t'
             else t'
           else t).
Proof.
  intros Hn Nm Hm name t'. pose proof Hn as (_ & Nh & _ & Hc). unfold SysLog. rewrite sprintf_zeros by lia. cbn [deref]. rewrite bind_ret_l.
  unfold log_level at 1. unfold get at 1. unfold bind at 1 2. cbn [obind ret]. unfold enabled.
  destruct (nLevel =? 0); [done|]. cbn [negb andb]. set (lv := match t_log_mode t with Some m => atoi m | None => 9 end).
  destruct (Z.ltb_spec lv nLevel).
  { rewrite (proj2 (Z.leb_gt _ _)) by lia. done. }
  rewrite (proj2 (Z.leb_le _ _)) by lia.
  destruct (GetTraceFileName_eq home t Hn) as (k & Hk & E). rewrite (bind_Ret _ _ _ _ _ E). fold (log_ready home t). fold t'. fold name.
  rewrite cstr_app_zeros by (done || now apply nonul_log_name).
  unfold bind at 1. unfold fopen. unfold openable. destruct (bool_decide _); cbn [obind]; [|done].
  destruct (put_aside_same name (backup_name name (t_now t)) (made (log_dir home (t_now t)) t)) as (_ & En & Ep & _).
  destruct (made_same (log_dir home (t_now t)) t) as (_ & En' & _ & _ & _ & Ep' & _).
  unfold get, bind at 1. cbn [obind t_now set_t_files]. unfold t', log_ready. fold name. rewrite En, En'.
  rewrite GetCurrentTime_eq by done. cbn [deref]. rewrite bind_ret_l. unfold bind at 1. cbn [obind]. cbn [t_pid set_t_files]. rewrite Ep, Ep'.
  rewrite cstr_app_nul by now apply nonul_stamp. rewrite cstr_app_zeros by (done || lia).
  unfold bind, fprintf, modify. cbn [obind ret]. do 2 f_equal. unfold with_file, set_t_files. cbn. f_equal. rewrite lookup_insert_eq, insert_insert_eq. done.
Qed.

(** ** Logs do not grow beyond a bound *)

Definition LINE_MAX : Z := 10301.

(** Files stay below the bound, and no directory has the name of a log put aside. *)
Definition bounded (t : trace) : Prop :=
  (forall p c, t_files t !! p = Some c -> Z.of_nat (length c) < 5 * LOG_SIZE_UNIT + LINE_MAX)
  /\ (forall p s, p ++ str "." ++ s ∈ t_dirs t -> length s <> 4%nat)
  /\ - 2 ^ 31 <= t_pid t < 2 ^ 31.

Lemma length_log_line pid now file line message :
  - 2 ^ 31 <= pid < 2 ^ 31 -> - 2 ^ 31 <= line < 2 ^ 31 -> (length now <= 14)%nat -> Z.of_nat (length message) <= 10240 ->
  Z.of_nat (length (log_line pid now file line message)) <= LINE_MAX.
Proof.
  intros Hp Hl Hn Hm. unfold log_line. rewrite !length_app.
  pose proof (length_fmt_0d_int 6 pid Hp ltac:(lia)). pose proof (length_fmt_0d_int 5 line Hl ltac:(lia)).
  pose proof (length_pad_left SP 15 (take 15 file)) as L. rewrite length_take in L. fold (fmt_s15 file) in L.
  cbn [length str list_ascii_of_string]. unfold LINE_MAX. lia.
Qed.

(** [gives P m Q]: from a state with [P], [m] ends in one with [Q], or is undefined. *)
Definition gives {S A} (P : S -> Prop) (m : prog S A) (Q : A -> S -> Prop) : Prop :=
  forall s, P s -> match m s with Ret a s' => Q a s' | Fault => True | _ => False end.

Section Gives.
Context {S : Type}.

Lemma gives_ret {A} (P : S -> Prop) (a : A) (Q : A -> S -> Prop) : (forall s, P s -> Q a s) -> gives P (ret a) Q.
Proof. easy. Qed.

Lemma gives_bind {A B} (P : S -> Prop) (m : prog S A) R (k : A -> prog S B) Q :
  gives P m R -> (forall a, gives (R a) (k a) Q) -> gives P (bind m k) Q.
Proof. intros Hm Hk s Hs. specialize (Hm s Hs). unfold bind. destruct (m s); cbn [obind] in *; try easy. now apply Hk. Qed.

(** A value of the state, of which nothing need be known. *)
Lemma gives_get {A B} (P : S -> Prop) (f : S -> A) (k : A -> prog S B) Q :
  (forall a, gives P (k a) Q) -> gives P (bind (get f) k) Q.
Proof. intros H s Hs. now apply H. Qed.

Lemma gives_deref {A B} (P : S -> Prop) (o : option A) (k : A -> prog S B) Q :
  (forall a, o = Some a -> gives P (k a) Q) -> gives P (bind (deref o) k) Q.
Proof. intros H. destruct o as [a|]; [|easy]. intros s Hs. now apply (H a eq_refl). Qed.

Lemma gives_if {A} (P : S -> Prop) (b : bool) (m n : prog S A) Q : gives P m Q -> gives P n Q -> gives P (if b then m else n) Q.
Proof. now destruct b. Qed.

Lemma gives_for_each {A} (P : S -> Prop) (l : list A) (body : A -> prog S unit) :
  Forall (fun a => gives P (body a) (fun _ => P)) l -> gives P (for_each l body) (fun _ => P).
Proof. induction 1 as [|a l Ha _ IH]; cbn [for_each]; [now apply gives_ret|]. eapply gives_bind; [exact Ha|]. now intros. Qed.
End Gives.

(** [gives_step] passes a call that leaves the state as it is. *)
Ltac gives_step :=
  first [apply gives_get; let a := fresh "a" in intros a
        | apply gives_deref; let a := fresh "a" in let E := fresh "E" in intros a E].

Lemma strcat_cstr s buf b : nonul s -> strcat s buf = Some b -> cstr b = cstr buf ++ s.
Proof.
  intros Hs. unfold strcat. destruct (terminated buf) eqn:T; [|done]. apply terminated_split in T as [r Hr]. unfold st.
  destruct (_ && _); [|done]. intros [= <-]. revert Hr. generalize (cstr_nonul buf). generalize (cstr buf) as c. intros c Hc ->.
  rewrite Nat2Z.id, take_app_length, <- (app_assoc s), (app_assoc c). cbn [app]. apply cstr_app_nul. now apply Forall_app.
Qed.

Lemma not_backup x now p s : x ++ day now = p ++ str "." ++ s -> length s <> 4%nat.
Proof.
  intros E L. pose proof (length_day_ge now) as Ld. pose proof (plain_day now) as Hp.
  pose proof (f_equal length E) as El. rewrite !length_app in El. cbn [length str list_ascii_of_string] in El.
  apply (f_equal (fun l => l !! length p)) in E. cbn [app str list_ascii_of_string] in E.
  rewrite (lookup_app_r x), list_lookup_middle in E by (done || lia).
  now apply (Forall_lookup_1 _ _ _ _ Hp) in E.
Qed.

Lemma bounded_made x now t : bounded t -> bounded (made (x ++ day now) t).
Proof.
  intros (Hf & Hd & Hp). destruct (made_same (x ++ day now) t) as (_ & _ & _ & _ & _ & Ep & Ef). unfold bounded. rewrite Ep, Ef.
  split; [done|]. split; [|done]. intros p s. unfold made. destruct (bool_decide _); [|exact (Hd p s)]. cbn [t_dirs set_t_dirs].
  rewrite elem_of_union, elem_of_singleton. intros [E|E]; [|exact (Hd p s E)]. exact (not_backup _ _ _ _ (eq_sym E)).
Qed.

Lemma gives_made x now :
  gives bounded (mkdir (x ++ day now)) (fun _ => bounded).
Proof. intros t Ht. exact (bounded_made x now t Ht). Qed.

Lemma gives_dated_name sFileName r now file : cstr r = day now -> gives bounded (dated_name sFileName r file) (fun _ => bounded).
Proof.
  intros Hr. unfold dated_name. repeat gives_step. apply strcat_cstr in E0; [|apply cstr_nonul]. rewrite E0, Hr.
  eapply gives_bind; [apply gives_made|]. intros []. gives_step. intros t Ht. now destruct (strcat (cstr file) _).
Qed.

Lemma GetDate_cstr now n b : GetDate now (zeros n) = Some b -> cstr b = day now.
Proof. intros E. apply sprintf_cstr in E. rewrite E. apply cstr_id, nonul_day. Qed.

Lemma length_hhmm b : length (pad_left SP 4 (take 4 (cstr b))) = 4%nat /\ nonul (pad_left SP 4 (take 4 (cstr b))).
Proof.
  pose proof (length_pad_left SP 4 (take 4 (cstr b))) as L. rewrite length_take in L. split; [lia|].
  apply Forall_app. split; [now apply Forall_replicate|]. apply Forall_take, cstr_nonul.
Qed.

(** Where a long log is renamed. *)
Lemma rename_bounded name s4 t c :
  length s4 = 4%nat -> bounded t -> t_files t !! name = Some c ->
  exists t', rename name (name ++ str "." ++ s4) t = Ret tt t' /\ bounded t' /\ t_files t' !! name = None.
Proof.
  intros L (Hf & Hd & Hp) Ef. unfold rename, modify. rewrite Ef. rewrite bool_decide_false by (intros H; now apply Hd in H).
  eexists. split; [done|]. cbn [t_files set_t_files]. split.
  - split; [|done]. intros p d. cbn [t_files set_t_files]. destruct (decide (name ++ str "." ++ s4 = p)) as [<-|Hn].
    + rewrite lookup_insert_eq. intros [= <-]. now apply Hf in Ef.
    + rewrite lookup_insert_ne by done. intros [_ H]%lookup_delete_Some. now apply Hf in H.
  - rewrite lookup_insert_ne, lookup_delete_eq; [done|]. intros E. apply (f_equal length) in E. rewrite !length_app in E. cbn in E. lia.
Qed.

(** A file that is about to be written is shorter than five million bytes. *)
Lemma gives_GetTraceFileName sFileName :
  gives bounded (GetTraceFileName sFileName)
    (fun name t => bounded t /\ forall c, t_files t !! cstr name = Some c -> Z.of_nat (length c) < 5 * LOG_SIZE_UNIT).
Proof.
  unfold GetTraceFileName. repeat gives_step. apply GetDate_cstr in E.
  apply (gives_bind _ _ (fun _ => bounded)); [intros t Ht; unfold getenv_home, bind, get; cbn [obind]; now destruct (t_home t)|].
  intros home. repeat gives_step. eapply gives_bind; [eapply gives_dated_name; exact E|]. intros name t Ht. cbn beta in Ht.
  unfold bind at 1. unfold bind at 1. unfold stat, get. cbn [obind].
  destruct (t_files t !! cstr name) as [c|] eqn:Ef; cbn [fmap option_fmap option_map]; [|split; [exact Ht|now rewrite Ef]].
  destruct (Z.leb_spec (LOG_SIZE_UNIT * 5) ((Z.of_nat ∘ length) c)) as [Hc|Hc]; cbn [when]; unfold compose in Hc.
  2:{ split; [exact Ht|]. rewrite Ef. intros ? [= <-]. lia. }
  destruct (GetCurrentTime a a0) as [b|]; [|exact I]. cbn [deref]. rewrite bind_ret_l.
  destruct (length_hhmm (drop 8 b)) as [L4 N4].
  destruct (sprintf _ (zeros 129)) as [n|] eqn:En; [|exact I]. cbn [deref]. rewrite bind_ret_l. apply sprintf_cstr in En. rewrite En.
  rewrite (cstr_id (cstr name ++ _)) by (apply Forall_app; split; [apply cstr_nonul|]; constructor; done).
  destruct (rename_bounded (cstr name) _ t c L4 Ht Ef) as (t' & -> & Ht' & E'). cbn [obind ret]. split; [done|]. now rewrite E'.
Qed.

Lemma gives_SysLog nLevel file line message :
  - 2 ^ 31 <= line < 2 ^ 31 -> gives bounded (SysLog nLevel file line message) (fun _ => bounded).
Proof.
  intros Hl. unfold SysLog. gives_step. unfold log_level.
  apply (gives_bind _ _ (fun _ => bounded)); [gives_step; now apply gives_ret|]. intros nSysLevel.
  apply gives_if; [now apply gives_ret|]. apply gives_if; [now apply gives_ret|].
  eapply gives_bind; [apply gives_GetTraceFileName|]. intros name t [Ht Hn]. unfold bind at 1. unfold fopen.
  destruct (bool_decide _); cbn [obind]; [|exact Ht]. unfold get, bind at 1. cbn [obind].
  destruct (GetCurrentTime _ (zeros 15)) as [b|] eqn:Eb; [|exact I]. cbn [deref]. rewrite bind_ret_l. unfold bind at 1. cbn [obind].
  unfold bind, fprintf, modify. cbn [obind ret]. destruct Ht as (Hf & Hd & Hp). cbn [t_pid set_t_files]. split; [|done].
  intros p c. cbn [t_files set_t_files]. rewrite lookup_insert_eq, insert_insert_eq. cbn [default].
  destruct (decide (cstr name = p)) as [<-|Hne]; [|rewrite lookup_insert_ne by done; apply Hf].
  rewrite lookup_insert_eq. intros [= <-]. cbn [default from_option id]. rewrite length_app, Nat2Z.inj_add.
  assert (L : Z.of_nat (length (default [] (t_files t !! cstr name))) < 5 * LOG_SIZE_UNIT)
    by (destruct (t_files t !! cstr name) as [d|]; [now apply Hn|done]).
  apply sprintf_short in Eb, E; [|done|done].
  pose proof (length_log_line (t_pid t) (cstr b) file line (cstr a) Hp Hl ltac:(lia) ltac:(lia)). lia.
Qed.

Definition set_t_now (now : tm) (t : trace) : trace :=
  mkTrace (t_home t) (t_log_mode t) (t_pid t) now (gsLogFile t) (gsMsgFile t) (t_dirs t) (t_files t).

(** A call of [SysLog] at some time. *)
Record log_call := mkCall { c_now : tm; c_level : Z; c_file : bytes; c_line : Z; c_message : bytes }.

Definition run_call (c : log_call) : prog trace unit :=
  modify (set_t_now (c_now c)) ;;; let* _ := SysLog (c_level c) (c_file c) (c_line c) (c_message c) in ret tt.

(** C32: whatever a process logs and whenever, no log grows beyond five million bytes and
    one line: a log that has reached five million bytes is put aside before the next line. *)
Theorem logs_bounded calls t :
  Forall (fun c => - 2 ^ 31 <= c_line c < 2 ^ 31) calls -> bounded t ->
  match for_each calls run_call t with Ret _ t' => bounded t' | Fault => True | _ => False end.
Proof.
  intros Hc Ht. apply (gives_for_each bounded calls run_call); [|done].
  eapply Forall_impl; [exact Hc|]. intros c Hl. unfold run_call.
  apply (gives_bind _ _ (fun _ => bounded)); [easy|]. intros _.
  eapply gives_bind; [now apply gives_SysLog|]. intros. now apply gives_ret.
Qed.

(** ** Tracing a buffer *)

Definition same_files (F : gmap bytes bytes) (t : trace) : Prop := t_files t = F.

Lemma gives_dated_name_files F sFileName r file : gives (same_files F) (dated_name sFileName r file) (fun _ => same_files F).
Proof.
  unfold dated_name. repeat gives_step. apply (gives_bind _ _ (fun _ => same_files F)).
  - intros t Ht. cbn. unfold same_files. rewrite <- Ht. now destruct (bool_decide _).
  - intros []. gives_step. intros t Ht. now destruct (strcat (cstr file) _).
Qed.

Lemma gives_GetMsgFileName F sFileName : gives (same_files F) (GetMsgFileName sFileName) (fun _ => same_files F).
Proof.
  unfold GetMsgFileName. repeat gives_step. unfold getenv_home.
  apply (gives_bind _ _ (fun _ => same_files F)); [gives_step; intros t Ht; now destruct a1|]. intros home. do 2 gives_step.
  apply gives_dated_name_files.
Qed.

Lemma nonul_path home now file : nonul home -> nonul (home ++ SLASH :: day now ++ SLASH :: cstr file).
Proof.
  intros Nh. unfold nonul. rewrite Forall_app, Forall_cons, Forall_app, Forall_cons. split; [done|]. split; [done|].
  split; [apply nonul_day|]. split; [done|apply cstr_nonul].
Qed.

Lemma GetMsgFileName_eq home t :
  t_home t = Some home -> nonul home -> (length home + length (cstr (gsMsgFile t)) <= 117)%nat -> clock_ok (t_now t) ->
  exists k, 0 < k /\ GetMsgFileName (zeros 129) t
  = Ret ((home ++ SLASH :: day (t_now t) ++ SLASH :: cstr (gsMsgFile t)) ++ zeros k) (made (home ++ SLASH :: day (t_now t)) t).
Proof.
  intros Hh Nh Hl Hc. pose proof (length_day _ Hc) as Ld. unfold GetMsgFileName. unfold get at 1. unfold bind at 1. cbn [obind].
  rewrite GetDate_eq by done. cbn [deref]. rewrite bind_ret_l.
  unfold bind at 1. unfold getenv_home, get at 1, bind at 1. cbn [obind]. rewrite Hh. cbn [deref ret obind].
  rewrite sprintf_zeros by lia. cbn [deref]. rewrite bind_ret_l. unfold get. unfold bind at 1. cbn [obind].
  eexists. split; [|apply dated_name_eq; [done|apply nonul_day|apply cstr_app_zeros; [apply nonul_day|lia]|lia]]. lia.
Qed.

Definition trace_head (pid : Z) (now sFileName : bytes) (nLine : Z) : bytes :=
  str "(" ++ fmt_0d 6 pid ++ str ")[" ++ now ++ str "][" ++ sFileName ++ str "][" ++ fmt_d nLine ++ str "]" ++ [LF].

(** The test of the level. *)
Lemma SysTrace_start nLevel sFileName nLine sBuf nLen t :
  SysTrace nLevel sFileName nLine sBuf nLen t
  = if enabled nLevel 0 t then
      (let* sTraceFileName := GetMsgFileName (zeros 129) in
       let* fp := fopen (cstr sTraceFileName) in
       if negb fp then ret 0
       else
         let* now := get t_now in
         let* sCurrTime := deref (GetCurrentTime now (zeros 7)) in
         let* pid := get t_pid in
         fprintf (cstr sTraceFileName) (trace_head pid (cstr sCurrTime) sFileName nLine) ;;;
         fprintf (cstr sTraceFileName) ruler ;;;
         dump_loop (Z.to_nat nLen) (cstr sTraceFileName) sBuf 0 0 (zeros 5) (zeros 100) ;;;
         fprintf (cstr sTraceFileName) ruler ;;;
         ret 0) t
    else Ret 0 t.
Proof.
  unfold SysTrace, trace_with, log_level, enabled. unfold get at 1. unfold bind at 1 2. cbn [obind ret].
  rewrite Z.leb_antisym. destruct (nLevel =? 0); [reflexivity|]. now destruct (_ <? nLevel).
Qed.

(** C37: [SysTrace] cannot trace.  With the level on, a path that fits and a file that can
    be opened it overruns its array [sCurrTime[7]], in which [GetCurrentTime] stores fifteen
    bytes, whatever the buffer; with the level off nothing happens, and with a file that
    cannot be opened only the directory of the day is made.  In no state does a call that
    returns have written to a file. *)
Theorem SysTrace_overruns nLevel sFileName nLine sBuf nLen t :
  (forall home, t_home t = Some home -> nonul home -> (length home + length (cstr (gsMsgFile t)) <= 117)%nat ->
     clock_ok (t_now t) ->
     let name := home ++ SLASH :: day (t_now t) ++ SLASH :: cstr (gsMsgFile t) in
     let t' := made (home ++ SLASH :: day (t_now t)) t in
     SysTrace nLevel sFileName nLine sBuf nLen t
     = if enabled nLevel 0 t then if openable name t' then Fault else Ret 0 t' else Ret 0 t)
  /\ match SysTrace nLevel sFileName nLine sBuf nLen t with
     | Ret r t' => r = 0 /\ t_files t' = t_files t
     | Fault => enabled nLevel 0 t = true
     | _ => False
     end.
Proof.
  rewrite SysTrace_start. destruct (enabled nLevel 0 t); [|done]. split.
  - intros home Hh Nh Hl Hc name t'. destruct (GetMsgFileName_eq home t Hh Nh Hl Hc) as (k & Hk & E).
    rewrite (bind_Ret _ _ _ _ _ E). fold name t'. rewrite cstr_app_zeros by (done || apply nonul_path; done).
    unfold bind at 1. unfold fopen. fold (openable name t'). destruct (openable name t'); cbn [obind negb]; [|done].
    unfold get at 1. unfold bind at 1. cbn [obind]. now rewrite GetCurrentTime_overflow by lia.
  - pose proof (gives_GetMsgFileName (t_files t) (zeros 129) t eq_refl) as G. unfold bind at 1.
    destruct (GetMsgFileName (zeros 129) t) as [b t1| | | | |]; try done. cbn [obind]. unfold bind at 1. unfold fopen.
    destruct (bool_decide _); cbn [obind negb]; [|done]. unfold get at 1. unfold bind at 1. cbn [obind].
    now rewrite GetCurrentTime_overflow by lia.
Qed.

(** With room for the time of day and for five characters and a NUL, [SysTrace] would
    write the dump of the buffer, sixteen bytes a line, between two rulers. *)
Theorem trace_with_dumps curr_size temp_size nLevel sFileName nLine sBuf nLen home t :
  15 <= curr_size -> 6 <= temp_size -> enabled nLevel 0 t = true ->
  t_home t = Some home -> nonul home -> (length home + length (cstr (gsMsgFile t)) <= 117)%nat -> clock_ok (t_now t) ->
  0 <= nLen <= 10000 -> nLen <= Z.of_nat (length sBuf) ->
  let name := home ++ SLASH :: day (t_now t) ++ SLASH :: cstr (gsMsgFile t) in
  let t' := made (home ++ SLASH :: day (t_now t)) t in
  openable name t' = true ->
  trace_with curr_size temp_size nLevel sFileName nLine sBuf nLen t
  = Ret 0 (with_file name (default [] (t_files t !! name) ++ trace_head (t_pid t) (stamp (t_now t)) sFileName nLine
             ++ ruler ++ dump_from (Z.to_nat nLen) 0 (take (Z.to_nat nLen) sBuf) ++ ruler) t').
Proof.
  intros Hcs Hts He Hh Nh Hl Hc Hn Hb name t' Ho. apply andb_true_iff in He as [He1 He2]. apply negb_true_iff in He1. apply Z.leb_le in He2.
  destruct (made_same (home ++ SLASH :: day (t_now t)) t) as (_ & En & _ & _ & _ & Ep & Ef). fold t' in En, Ep, Ef.
  unfold trace_with, log_level. unfold get at 1. unfold bind at 1 2. cbn [obind ret]. rewrite He1.
  destruct (Z.ltb_spec (match t_log_mode t with Some m => atoi m | None => 0 end) nLevel); [lia|].
  destruct (GetMsgFileName_eq home t Hh Nh Hl Hc) as (k & Hk & E). rewrite (bind_Ret _ _ _ _ _ E). fold name. fold t'.
  assert (Nn : nonul name) by now apply nonul_path.
  rewrite cstr_app_zeros by done. unfold bind at 1. unfold fopen. unfold openable in Ho. rewrite Ho. cbn [obind negb].
  unfold get at 1. unfold bind at 1. cbn [obind t_now set_t_files]. rewrite En, GetCurrentTime_wide by done. cbn [deref]. rewrite bind_ret_l.
  unfold get at 1. unfold bind at 1. cbn [obind t_pid set_t_files]. rewrite Ep, cstr_app_zeros by (lia || now apply nonul_stamp).
  fold (with_file name (default [] (t_files t' !! name)) t'). rewrite Ef.
  do 2 (erewrite bind_Ret; [|apply fprintf_eq, with_file_lookup]).
  pose proof (take_drop (Z.to_nat nLen) sBuf) as Hs. set (data := take (Z.to_nat nLen) sBuf) in *.
  assert (Ldata : length data = Z.to_nat nLen) by (unfold data; rewrite length_take; lia).
  pose proof (dump_loop_eq name sBuf data 0 [] (zeros temp_size) (zeros 100)) as D. cbn [length app] in D. rewrite Ldata in D.
  erewrite bind_Ret; [|eapply (fun t0 f1 => D t0 f1 (Z.to_nat nLen)); first [apply with_file_lookup | done | (pose proof (length_zeros temp_size); lia) | lia | idtac]].
  2:{ intros j c Hj. unfold znth. destruct (Z.ltb_spec (0 + Z.of_nat 0 + Z.of_nat j) 0); [lia|]. rewrite <- Hs, lookup_app_l by (apply lookup_lt_Some in Hj; lia).
      rewrite <- Hj. f_equal. lia. }
  erewrite bind_Ret; [|apply fprintf_eq, with_file_lookup]. unfold ret. f_equal.
  rewrite !with_file_twice. unfold trace_head. f_equal. now rewrite <- !app_assoc.
Qed.

(** ** Witnesses *)

Definition t_example : trace :=
  mkTrace (Some (str "/h")) (Some (str "5")) 321 (mkTm 112 2 17 9 30 5) (str "a.log" ++ zeros 36) (str "a.msg" ++ zeros 36)
    (list_to_set [str "/h"; str "/h/log"]) ∅.

Lemma SysLog_correct_witness :
  names_fit (str "/h") t_example /\ nonul (str "started") /\ Z.of_nat (length (str "started")) <= 10240
  /\ SysLog 1 (str "tuxmain.c") 42 (str "started") t_example
     = Ret 0 (with_file (str "/h/log/20120317/a.log") (str "[000321][20120317093005][      tuxmain.c][00042] started" ++ [LF])
               (set_t_dirs ({[str "/h/log/20120317"]} ∪ t_dirs t_example) t_example)).
Proof.
  assert (H1 : names_fit (str "/h") t_example) by (repeat split; try (vm_compute; lia); vm_compute; repeat constructor; discriminate).
  assert (H2 : nonul (str "started")) by (repeat constructor; discriminate).
  assert (H3 : Z.of_nat (length (str "started")) <= 10240) by (vm_compute; discriminate).
  split; [exact H1|]. split; [exact H2|]. split; [exact H3|].
  rewrite (SysLog_correct 1 (str "tuxmain.c") 42 (str "started") (str "/h") t_example H1 H2 H3). vm_compute. reflexivity.
Defined.

Lemma logs_bounded_witness :
  Forall (fun c => - 2 ^ 31 <= c_line c < 2 ^ 31) [mkCall (mkTm 112 2 17 9 30 5) 1 (str "tuxmain.c") 42 (str "started")] /\ bounded t_example
  /\ exists t', for_each [mkCall (mkTm 112 2 17 9 30 5) 1 (str "tuxmain.c") 42 (str "started")] run_call t_example = Ret tt t' /\ bounded t'.
Proof.
  set (calls := [mkCall (mkTm 112 2 17 9 30 5) 1 (str "tuxmain.c") 42 (str "started")]).
  assert (H1 : Forall (fun c => - 2 ^ 31 <= c_line c < 2 ^ 31) calls) by (repeat constructor; vm_compute; discriminate).
  assert (H2 : bounded t_example).
  { split; [intros p c H; unfold t_example in H; cbn [t_files] in H; now rewrite lookup_empty in H|]. split; [|split; vm_compute; congruence].
    intros p s H. assert (Hd : "."%char ∈ p ++ str "." ++ s) by (apply elem_of_app; right; apply elem_of_app; left; now apply list_elem_of_singleton).
    exfalso. unfold t_example in H. cbn [t_dirs] in H. rewrite elem_of_list_to_set in H.
    apply list_elem_of_In in H as [E|[E|[]]]; rewrite <- E in Hd; apply list_elem_of_In in Hd; cbn in Hd; intuition discriminate. }
  split; [exact H1|]. split; [exact H2|]. pose proof (logs_bounded calls t_example H1 H2) as P.
  assert (E : exists t', for_each calls run_call t_example = Ret tt t') by (eexists; vm_compute; reflexivity).
  destruct E as (t' & E). exists t'. rewrite E in P. split; [exact E|exact P].
Defined.

Lemma SysTrace_overruns_witness :
  enabled 1 0 t_example = true /\ SysTrace 1 (str "x.c") 7 (str "AB") 2 t_example = Fault
  /\ SysTrace 9 (str "x.c") 7 (str "AB") 2 t_example = Ret 0 t_example.
Proof.
  assert (H1 : nonul (str "/h")) by (repeat constructor; discriminate).
  assert (H2 : (length (str "/h") + length (cstr (gsMsgFile t_example)) <= 117)%nat) by (vm_compute; lia).
  assert (H3 : clock_ok (t_now t_example)) by (repeat split; vm_compute; discriminate).
  split; [reflexivity|]. split.
  - exact (proj1 (SysTrace_overruns 1 (str "x.c") 7 (str "AB") 2 t_example) (str "/h") eq_refl H1 H2 H3).
  - exact (proj1 (SysTrace_overruns 9 (str "x.c") 7 (str "AB") 2 t_example) (str "/h") eq_refl H1 H2 H3).
Defined.

Lemma trace_with_dumps_witness :
  15 <= 15 /\ 6 <= 6 /\ enabled 1 0 t_example = true /\ t_home t_example = Some (str "/h") /\ nonul (str "/h")
  /\ (length (str "/h") + length (cstr (gsMsgFile t_example)) <= 117)%nat /\ clock_ok (t_now t_example)
  /\ 0 <= 3 <= 10000 /\ 3 <= Z.of_nat (length (str "AB" ++ [LF]))
  /\ exists t', trace_with 15 6 1 (str "x.c") 7 (str "AB" ++ [LF]) 3 t_example = Ret 0 t'
     /\ t_files t' !! str "/h/20120317/a.msg"
        = Some (str "(000321)[20120317093005][x.c][7]" ++ [LF] ++ ruler
                ++ pad_right 55 (str "0000:41 42 0A") ++ pad_right 17 (str "AB.") ++ str ":0015" ++ [LF] ++ ruler).
Proof.
  assert (H4 : t_home t_example = Some (str "/h")) by reflexivity.
  assert (H5 : nonul (str "/h")) by (repeat constructor; discriminate).
  assert (H6 : (length (str "/h") + length (cstr (gsMsgFile t_example)) <= 117)%nat) by (vm_compute; lia).
  assert (H7 : clock_ok (t_now t_example)) by (repeat split; vm_compute; discriminate).
  assert (H8 : 0 <= 3 <= 10000) by lia. assert (H9 : 3 <= Z.of_nat (length (str "AB" ++ [LF]))) by (vm_compute; discriminate).
  split; [lia|]. split; [lia|]. split; [reflexivity|]. split; [exact H4|]. split; [exact H5|]. split; [exact H6|]. split; [exact H7|].
  split; [exact H8|]. split; [exact H9|].
  eexists. split; [apply (trace_with_dumps 15 6 1 (str "x.c") 7 (str "AB" ++ [LF]) 3 (str "/h") t_example); [lia|lia|reflexivity|exact H4|exact H5|exact H6|exact H7|exact H8|exact H9|reflexivity]|].
  vm_compute. reflexivity.
Defined.
