(* ===== verification/Kernel.v ===== *)
(** * The operating system as the code sees it

    System V message queues, semaphores and shared-memory keys with the behaviour
    their manual pages give, and the per-process environment the sources read:
    [errno], the clock, [getpid], the results of [fork] and [waitpid], the
    signals sent with [kill], the configuration file, [HOME] and the executables.

    While a process waits in the kernel, other processes act and signals arrive.
    [o_sched] is that interleaving, as a list of events; a call that must wait
    consumes events until it can go on, and blocks for good when none is left. *)

From Stdlib Require Import ZArith Lia Bool List Ascii String.
From stdpp Require Import base list gmap.
From S2P Require Import Prelude Cstr.

Definition ENOENT : Z := 2.
Definition EINTR : Z := 4.
Definition E2BIG : Z := 7.
Definition EAGAIN : Z := 11.
Definition EINVAL : Z := 22.
Definition ENOMSG : Z := 42.
Definition EIDRM : Z := 43.
Definition SIGALRM : Z := 14.
Definition SIGTERM : Z := 15.

(** System limits of a stock Linux: the largest message and the bytes of a queue. *)
Definition MSGMAX : Z := 8192.
Definition MSGMNB : Z := 16384.

(** ** Message queues *)

Record kmsg := mkMsg { m_type : Z; m_text : bytes }.
Record kqueue := mkQueue { q_key : Z; q_msgs : list kmsg; q_qbytes : Z }.

(** A semaphore set and the size of a shared-memory segment, with their keys. *)
Record ksem := mkSem { s_key : Z; s_vals : list Z }.
Record kshm := mkShm { h_key : Z; h_size : Z }.

Record kernel := mkKernel {
  k_msq : gmap Z kqueue;
  k_nextid : Z;
  k_sem : gmap Z ksem;
  k_shm : gmap Z kshm;
}.

Inductive event :=
  | EvSend (qid : Z) (m : kmsg)     (* another process queues a message *)
  | EvRecv (qid : Z) (typ : Z)      (* another process takes one *)
  | EvRmid (qid : Z)                (* a queue is removed *)
  | EvSem (sid num d : Z)           (* another process changes a semaphore by d *)
  | EvSignal (sig : Z).             (* a caught signal arrives here *)

Record os := mkOs {
  o_kern : kernel;
  o_errno : Z;
  o_sched : list event;
  o_caught : list Z;          (* signals whose handler is due, oldest first *)
  o_time : Z;
  o_pid : Z;
  o_forks : list Z;           (* what the next calls of fork() return here *)
  o_waits : list Z;           (* what the next calls of waitpid() return *)
  o_kills : list (Z * Z);     (* signals sent, latest first *)
  o_cfg : option bytes;       (* the file named by SYS_PARAM_CFG *)
  o_home : bytes;
  o_files : list bytes;       (* paths for which access(F_OK) succeeds *)
  o_region : option bytes;    (* the environment variable IPCREGION *)
}.

Definition set_kern (k : kernel) (o : os) : os :=
  mkOs k (o_errno o) (o_sched o) (o_caught o) (o_time o) (o_pid o) (o_forks o)
       (o_waits o) (o_kills o) (o_cfg o) (o_home o) (o_files o) (o_region o).
Definition set_errno (e : Z) (o : os) : os :=
  mkOs (o_kern o) e (o_sched o) (o_caught o) (o_time o) (o_pid o) (o_forks o)
       (o_waits o) (o_kills o) (o_cfg o) (o_home o) (o_files o) (o_region o).
Definition set_sched (l : list event) (o : os) : os :=
  mkOs (o_kern o) (o_errno o) l (o_caught o) (o_time o) (o_pid o) (o_forks o)
       (o_waits o) (o_kills o) (o_cfg o) (o_home o) (o_files o) (o_region o).
Definition set_caught (l : list Z) (o : os) : os :=
  mkOs (o_kern o) (o_errno o) (o_sched o) l (o_time o) (o_pid o) (o_forks o)
       (o_waits o) (o_kills o) (o_cfg o) (o_home o) (o_files o) (o_region o).
Definition set_forks (l : list Z) (o : os) : os :=
  mkOs (o_kern o) (o_errno o) (o_sched o) (o_caught o) (o_time o) (o_pid o) l
       (o_waits o) (o_kills o) (o_cfg o) (o_home o) (o_files o) (o_region o).
Definition set_waits (l : list Z) (o : os) : os :=
  mkOs (o_kern o) (o_errno o) (o_sched o) (o_caught o) (o_time o) (o_pid o) (o_forks o)
       l (o_kills o) (o_cfg o) (o_home o) (o_files o) (o_region o).
Definition set_kills (l : list (Z * Z)) (o : os) : os :=
  mkOs (o_kern o) (o_errno o) (o_sched o) (o_caught o) (o_time o) (o_pid o) (o_forks o)
       (o_waits o) l (o_cfg o) (o_home o) (o_files o) (o_region o).

Definition set_msq (q : gmap Z kqueue) (k : kernel) : kernel :=
  mkKernel q (k_nextid k) (k_sem k) (k_shm k).
Definition set_sem (m : gmap Z ksem) (k : kernel) : kernel :=
  mkKernel (k_msq k) (k_nextid k) m (k_shm k).
Definition set_shm (m : gmap Z kshm) (k : kernel) : kernel :=
  mkKernel (k_msq k) (k_nextid k) (k_sem k) m.
Definition next_id (k : kernel) : kernel :=
  mkKernel (k_msq k) (k_nextid k + 1) (k_sem k) (k_shm k).

(** Systems that differ in the kernel and [errno] only. *)
Lemma os_eq k e k' e' o : k = k' -> e = e' -> set_errno e (set_kern k o) = set_errno e' (set_kern k' o).
Proof. now intros -> ->. Qed.

(** The message [msgrcv] picks: any for type 0, the first of a positive type, the
    first of the lowest type up to [- typ] for a negative one. *)
Definition lowest_type (bound : Z) (l : list kmsg) : Z :=
  fold_right (fun m acc => if m_type m <=? bound then Z.min (m_type m) acc else acc) (bound + 1) l.

Definition msg_match (typ : Z) (l : list kmsg) (m : kmsg) : bool :=
  if typ =? 0 then true
  else if 0 <? typ then m_type m =? typ
  else m_type m =? lowest_type (- typ) l.

Fixpoint pick (P : kmsg -> bool) (l : list kmsg) : option (kmsg * list kmsg) :=
  match l with
  | [] => None
  | m :: l => if P m then Some (m, l)
              else match pick P l with
                   | Some (m', l') => Some (m', m :: l')
                   | None => None
                   end
  end.

Definition set_msgs (l : list kmsg) (q : kqueue) : kqueue := mkQueue (q_key q) l (q_qbytes q).

Definition cbytes (l : list kmsg) : Z :=
  fold_right (fun m acc => Z.of_nat (length (m_text m)) + acc) 0 l.

Definition fits (m : kmsg) (q : kqueue) : bool :=
  (Z.of_nat (length (m_text m)) + cbytes (q_msgs q) <=? q_qbytes q)
  && (1 + Z.of_nat (length (q_msgs q)) <=? q_qbytes q).

Definition enqueue (m : kmsg) (q : kqueue) : kqueue := set_msgs (q_msgs q ++ [m]) q.

Definition set_queue (qid : Z) (q : kqueue) (o : os) : os :=
  set_kern (set_msq (<[qid := q]> (k_msq (o_kern o))) (o_kern o)) o.

Definition queue (qid : Z) (o : os) : option kqueue := k_msq (o_kern o) !! qid.

Definition sem_upd (sid num : Z) (f : Z -> Z) (k : kernel) : kernel :=
  match k_sem k !! sid with
  | Some s => set_sem (<[sid := mkSem (s_key s) (zupd num f (s_vals s))]> (k_sem k)) k
  | None => k
  end.

(** What another process does to the kernel. *)
Definition apply_event (e : event) (k : kernel) : kernel :=
  match e with
  | EvSend qid m =>
      match k_msq k !! qid with
      | Some q => if fits m q then set_msq (<[qid := enqueue m q]> (k_msq k)) k else k
      | None => k
      end
  | EvRecv qid typ =>
      match k_msq k !! qid with
      | Some q => match pick (msg_match typ (q_msgs q)) (q_msgs q) with
                  | Some (_, l) => set_msq (<[qid := set_msgs l q]> (k_msq k)) k
                  | None => k
                  end
      | None => k
      end
  | EvRmid qid => set_msq (delete qid (k_msq k)) k
  | EvSem sid num d => sem_upd sid num (fun v => v + d) k
  | EvSignal _ => k
  end.

Definition fail {A} (e : Z) (a : A) : prog os A := modify (set_errno e) ;;; ret a.

(** Wait for the next event, then go on with [again]; a signal interrupts. *)
Definition on_event {A} (intr : A) (e : event) (again : prog os A) : prog os A :=
  match e with
  | EvSignal sig =>
      modify (fun o => set_errno EINTR (set_caught (o_caught o ++ [sig]) o)) ;;; ret intr
  | _ => modify (fun o => set_kern (apply_event e (o_kern o)) o) ;;; again
  end.

(** [msgrcv]: the length received, or -1, and the text. *)
Definition try_rcv (qid size typ : Z) (gone : Z) (wait : prog os (Z * bytes)) : prog os (Z * bytes) :=
  let* o := get id in
  match queue qid o with
  | None => fail gone (-1, [])
  | Some q =>
      match pick (msg_match typ (q_msgs q)) (q_msgs q) with
      | Some (m, l) =>
          if size <? Z.of_nat (length (m_text m)) then fail E2BIG (-1, [])
          else modify (set_queue qid (set_msgs l q)) ;;;
               ret (Z.of_nat (length (m_text m)), m_text m)
      | None => wait
      end
  end.

Fixpoint rcv_wait (evs : list event) (qid size typ : Z) : prog os (Z * bytes) :=
  match evs with
  | [] => fun o => Block (set_sched [] o)
  | e :: evs =>
      modify (set_sched evs) ;;;
      on_event (-1, []) e (try_rcv qid size typ EIDRM (rcv_wait evs qid size typ))
  end.

Definition msgrcv (qid size typ : Z) (nowait : bool) : prog os (Z * bytes) :=
  let* evs := get o_sched in
  try_rcv qid size typ EINVAL
    (if nowait then fail ENOMSG (-1, []) else rcv_wait evs qid size typ).

(** [msgsnd]: 0 or -1. *)
Definition try_snd (qid : Z) (m : kmsg) (gone : Z) (wait : prog os Z) : prog os Z :=
  let* o := get id in
  match queue qid o with
  | None => fail gone (-1)
  | Some q => if fits m q then modify (set_queue qid (enqueue m q)) ;;; ret 0 else wait
  end.

Fixpoint snd_wait (evs : list event) (qid : Z) (m : kmsg) : prog os Z :=
  match evs with
  | [] => fun o => Block (set_sched [] o)
  | e :: evs =>
      modify (set_sched evs) ;;;
      on_event (-1) e (try_snd qid m EIDRM (snd_wait evs qid m))
  end.

Definition msgsnd (qid : Z) (m : kmsg) (nowait : bool) : prog os Z :=
  if (m_type m <? 1) || (MSGMAX <? Z.of_nat (length (m_text m))) then fail EINVAL (-1)
  else
    let* evs := get o_sched in
    try_snd qid m EINVAL (if nowait then fail EAGAIN (-1) else snd_wait evs qid m).

(** [msgctl(IPC_STAT)]: the number of messages; [msgctl(IPC_RMID)]. *)
Definition msgctl_stat (qid : Z) : prog os (option Z) :=
  let* o := get id in
  match queue qid o with
  | Some q => ret (Some (Z.of_nat (length (q_msgs q))))
  | None => fail EINVAL None
  end.

Definition msgctl_rmid (qid : Z) : prog os Z :=
  let* o := get id in
  match queue qid o with
  | Some _ => modify (fun o => set_kern (set_msq (delete qid (k_msq (o_kern o))) (o_kern o)) o) ;;; ret 0
  | None => fail EINVAL (-1)
  end.

Definition find_key {A} (key_of : A -> Z) (key : Z) (m : gmap Z A) : option Z :=
  if key =? 0 then None
  else fst <$> List.find (fun '(_, a) => key_of a =? key) (map_to_list m).
Arguments find_key : simpl never.

(** The three [get] calls: the id that has the key, a new one with [IPC_CREAT] or for
    the key [IPC_PRIVATE], otherwise [ENOENT]. *)
Definition ipc_get {A} (key_of : A -> Z) (objs : kernel -> gmap Z A)
    (set : gmap Z A -> kernel -> kernel) (new : A) (key : Z) (creat : bool) : prog os Z :=
  let* k := get o_kern in
  match find_key key_of key (objs k) with
  | Some id => ret id
  | None =>
      if creat || (key =? 0) then
        modify (set_kern (next_id (set (<[k_nextid k := new]> (objs k)) k))) ;;;
        ret (k_nextid k)
      else fail ENOENT (-1)
  end.

Definition msgget (key : Z) (creat : bool) : prog os Z :=
  ipc_get q_key k_msq set_msq (mkQueue key [] MSGMNB) key creat.
Definition semget (key n : Z) (creat : bool) : prog os Z :=
  ipc_get s_key k_sem set_sem (mkSem key (replicate (Z.to_nat n) 0)) key creat.
Definition shmget (key size : Z) (creat : bool) : prog os Z :=
  ipc_get h_key k_shm set_shm (mkShm key size) key creat.

(** [semctl(SETVAL)], [semctl(IPC_RMID)], [shmctl(IPC_RMID)]. *)
Definition semctl_setval (sid num v : Z) : prog os Z :=
  let* k := get o_kern in
  match s ← k_sem k !! sid; znth (s_vals s) num with
  | Some _ => modify (set_kern (sem_upd sid num (fun _ => v) k)) ;;; ret 0
  | None => fail EINVAL (-1)
  end.

Definition semctl_rmid (sid : Z) : prog os Z :=
  let* k := get o_kern in
  match k_sem k !! sid with
  | Some _ => modify (set_kern (set_sem (delete sid (k_sem k)) k)) ;;; ret 0
  | None => fail EINVAL (-1)
  end.

Definition shmctl_rmid (hid : Z) : prog os Z :=
  let* k := get o_kern in
  match k_shm k !! hid with
  | Some _ => modify (set_kern (set_shm (delete hid (k_shm k)) k)) ;;; ret 0
  | None => fail EINVAL (-1)
  end.

(** [semop] with one operation: a decrement waits until the value allows it. *)
Definition try_sem (sid num op : Z) (gone : Z) (wait : prog os Z) : prog os Z :=
  let* k := get o_kern in
  match s ← k_sem k !! sid; znth (s_vals s) num with
  | Some v =>
      if 0 <=? v + op then modify (set_kern (sem_upd sid num (fun v => v + op) k)) ;;; ret 0
      else wait
  | None => fail gone (-1)
  end.

Fixpoint sem_wait (evs : list event) (sid num op : Z) : prog os Z :=
  match evs with
  | [] => fun o => Block (set_sched [] o)
  | e :: evs =>
      modify (set_sched evs) ;;;
      on_event (-1) e (try_sem sid num op EIDRM (sem_wait evs sid num op))
  end.

Definition semop (sid num op : Z) : prog os Z :=
  let* evs := get o_sched in
  try_sem sid num op EINVAL (sem_wait evs sid num op).

(** The calls that read the environment.  [fork], [waitpid] and [kill] take their
    results from it; with nothing listed, [fork] fails and [waitpid] finds no child. *)
Definition time_ : prog os Z := get o_time.
Definition getpid : prog os Z := get o_pid.

Definition fork : prog os Z :=
  let* l := get o_forks in
  match l with
  | p :: l => modify (set_forks l) ;;; ret p
  | [] => fail EAGAIN (-1)
  end.

Definition waitpid : prog os Z :=
  let* l := get o_waits in
  match l with
  | p :: l => modify (set_waits l) ;;; ret p
  | [] => ret 0
  end.

Definition kill (pid sig : Z) : prog os Z :=
  modify (fun o => set_kills ((pid, sig) :: o_kills o) o) ;;; ret 0.

(** ** What the calls do *)

Lemma pick_spec P l m l' :
  pick P l = Some (m, l') ->
  exists l1 l2, l = l1 ++ m :: l2 /\ l' = l1 ++ l2 /\ P m = true
    /\ Forall (fun x => P x = false) l1.
Proof.
  revert l'. induction l as [|x l IH]; cbn; intros l' H; [done|].
  destruct (P x) eqn:Px.
  - inversion H; subst. exists [], l'. auto.
  - destruct (pick P l) as [[m' r]|]; [|done]. inversion H; subst.
    destruct (IH r eq_refl) as (l1 & l2 & -> & -> & Hm & Hf).
    exists (x :: l1), l2. auto.
Qed.

Lemma pick_app P l1 m l2 :
  Forall (fun x => P x = false) l1 -> P m = true -> pick P (l1 ++ m :: l2) = Some (m, l1 ++ l2).
Proof.
  intros H Pm. induction H as [|x l1 Hx _ IH]; cbn; [now rewrite Pm|]. now rewrite Hx, IH.
Qed.

Lemma pick_none P l : Forall (fun x => P x = false) l -> pick P l = None.
Proof. induction 1 as [|x l Hx _ IH]; cbn; [done|]. now rewrite Hx, IH. Qed.

Lemma pick_None_inv P l : pick P l = None -> Forall (fun x => P x = false) l.
Proof.
  induction l as [|x l IH]; cbn; [constructor|]. destruct (P x) eqn:E; [done|].
  destruct (pick P l) as [[? ?]|]; [done|]. auto.
Qed.

Lemma msg_match_pos typ l m : 0 < typ -> msg_match typ l m = (m_type m =? typ).
Proof.
  intros. unfold msg_match. destruct (Z.eqb_spec typ 0); [lia|].
  destruct (Z.ltb_spec 0 typ); [done|lia].
Qed.

Lemma pick_ext P Q l : (forall m, P m = Q m) -> pick P l = pick Q l.
Proof. intros H. induction l as [|x l IH]; cbn; [done|]. now rewrite H, IH. Qed.

(** The messages of a positive type, in the order they were queued. *)
Definition of_type (t : Z) (l : list kmsg) : list kmsg :=
  List.filter (fun m => m_type m =? t) l.

Lemma of_type_none t l :
  Forall (fun m => (m_type m =? t) = false) l <-> of_type t l = [].
Proof.
  unfold of_type. induction l as [|m l IH]; cbn [List.filter]; [done|].
  destruct (m_type m =? t) eqn:E.
  - split; [|done]. intros H. inversion H. congruence.
  - rewrite <- IH. split; intros H; [now inversion H|]. constructor; done.
Qed.

Lemma of_type_app t l1 l2 : of_type t (l1 ++ l2) = of_type t l1 ++ of_type t l2.
Proof. apply List.filter_app. Qed.

Lemma pick_type t l m r :
  of_type t l = m :: r ->
  exists l', pick (fun m => m_type m =? t) l = Some (m, l') /\ of_type t l' = r
    /\ (forall u, u <> t -> of_type u l' = of_type u l)
    /\ length l = S (length l').
Proof.
  unfold of_type. induction l as [|x l IH]; cbn [List.filter pick]; [done|].
  destruct (m_type x =? t) eqn:E.
  - intros [= -> <-]. exists l. split; [done|]. split; [done|]. split; [|done].
    intros u Hu. apply Z.eqb_eq in E. destruct (Z.eqb_spec (m_type m) u); [lia|done].
  - intros H. destruct (IH H) as (l' & -> & Hr & Ho & Hl). exists (x :: l').
    cbn [List.filter length]. rewrite E. split; [done|]. split; [done|]. split; [|lia].
    intros u Hu. now rewrite (Ho u Hu).
Qed.

Lemma queue_set_eq qid q o : queue qid (set_queue qid q o) = Some q.
Proof. apply lookup_insert_eq. Qed.

Lemma queue_set_ne qid qid' q o : qid <> qid' -> queue qid' (set_queue qid q o) = queue qid' o.
Proof. intros. now apply lookup_insert_ne. Qed.

Lemma queue_errno qid e o : queue qid (set_errno e o) = queue qid o.
Proof. done. Qed.

#[export] Hint Rewrite queue_set_eq queue_errno : cint.

(** ** Creating and finding objects *)

Lemma find_key_empty {A} (key_of : A -> Z) key : find_key key_of key (∅ : gmap Z A) = None.
Proof. unfold find_key. now destruct (key =? 0). Qed.

Lemma find_key_singleton {A} (key_of : A -> Z) key id (a : A) :
  key <> 0 -> find_key key_of key {[ id := a ]} = if key_of a =? key then Some id else None.
Proof.
  intros Hk. unfold find_key. destruct (Z.eqb_spec key 0); [done|].
  rewrite map_to_list_singleton. cbn. now destruct (key_of a =? key).
Qed.

Section IpcGet.
Context {A : Type} (key_of : A -> Z) (objs : kernel -> gmap Z A)
  (set : gmap Z A -> kernel -> kernel) (new : A) (key : Z).

Lemma ipc_get_found creat o id :
  find_key key_of key (objs (o_kern o)) = Some id ->
  ipc_get key_of objs set new key creat o = Ret id o.
Proof. unfold ipc_get, bind, get. cbn. now intros ->. Qed.

Lemma ipc_get_absent o :
  find_key key_of key (objs (o_kern o)) = None -> key <> 0 ->
  ipc_get key_of objs set new key false o = Ret (-1) (set_errno ENOENT o).
Proof.
  unfold ipc_get, bind, get. cbn. intros -> Hk. destruct (Z.eqb_spec key 0); [done|]. done.
Qed.

Lemma ipc_get_new o :
  find_key key_of key (objs (o_kern o)) = None ->
  ipc_get key_of objs set new key true o
  = Ret (k_nextid (o_kern o))
      (set_kern (next_id (set (<[k_nextid (o_kern o) := new]> (objs (o_kern o))) (o_kern o))) o).
Proof. unfold ipc_get, bind, get. cbn. now intros ->. Qed.
End IpcGet.
