(* ===== verification/Funsock.v ===== *)
(** * Sockets: [src/dev/src/pubfun/common/funsock.c]

    A connected socket is what its peer sends and what has been sent to the peer.  The
    bytes arrive in pieces: a [read] gets at most one piece, and [write] may take only
    part of what it is given.  The results of [socket], [bind], [listen], [connect] and
    [accept] come from the environment.  The action of [SIGALRM] and the timer are part of
    the state ([sigs]): an alarm goes off only where a [read] or a [connect] would wait for
    ever.  [sleep] and [shutdown] change nothing here.  [setnonblocking] has no return statement: its value is [n_eax]. *)

From Stdlib Require Import ZArith Lia Bool List Ascii String.
From stdpp Require Import base list gmap.
From S2P Require Import Prelude Cstr Kernel.

(** ** Sockets *)

Inductive sockopt : Type :=
  | SO_LINGER (l_onoff l_linger : Z)
  | SO_KEEPALIVE (v : Z)
  | SO_REUSEADDR (v : Z).

Record sock := mkSock {
  s_in : list bytes;      (* the pieces that reads will find *)
  s_eof : bool;           (* the peer has closed its side *)
  s_block : bool;         (* reads wait *)
  s_out : bytes;          (* sent so far *)
  s_room : list Z;        (* how much the next writes take; then all of it *)
  s_opts : list sockopt;  (* the options set *)
}.

(** What becomes of a [connect]; [Silent]: no answer comes. *)
Inductive attempt : Type := Connected | Refused | Silent.

(** The action of [SIGALRM]: the default one ends the process; [IOTimeOut] is the handler of
    this file; [time_out] stands for a program's own, which sets [giTimeOut]. *)
Inductive sigaction : Type := SIG_DFL | On_IOTimeOut | On_time_out.

Record sigs := mkSigs {
  g_action : sigaction;
  g_armed : bool;        (* alarm() has been called and not taken back *)
  g_giTimeOut : Z;
  g_restart : bool;      (* signal() asks for interrupted reads to be restarted *)
}.

(** At the start of a program, with the C library's usual [signal]. *)
Definition no_alarm : sigs := mkSigs SIG_DFL false 0 true.

Record net := mkNet {
  n_socks : gmap Z sock;
  n_errno : Z;
  n_socket : list Z;             (* results of socket() *)
  n_bind : list Z;
  n_connect : list attempt;
  n_accept : list (Z * Z);       (* results of accept() with errno *)
  n_eax : Z;
  n_timeout : Z;                 (* the variable Timeout *)
  n_sig : sigs;
}.

Definition set_socks (m : gmap Z sock) (n : net) : net :=
  mkNet m (n_errno n) (n_socket n) (n_bind n) (n_connect n) (n_accept n) (n_eax n) (n_timeout n) (n_sig n).
Definition set_n_errno (e : Z) (n : net) : net :=
  mkNet (n_socks n) e (n_socket n) (n_bind n) (n_connect n) (n_accept n) (n_eax n) (n_timeout n) (n_sig n).
Definition set_n_socket (l : list Z) (n : net) : net :=
  mkNet (n_socks n) (n_errno n) l (n_bind n) (n_connect n) (n_accept n) (n_eax n) (n_timeout n) (n_sig n).
Definition set_n_bind (l : list Z) (n : net) : net :=
  mkNet (n_socks n) (n_errno n) (n_socket n) l (n_connect n) (n_accept n) (n_eax n) (n_timeout n) (n_sig n).
Definition set_n_connect (l : list attempt) (n : net) : net :=
  mkNet (n_socks n) (n_errno n) (n_socket n) (n_bind n) l (n_accept n) (n_eax n) (n_timeout n) (n_sig n).
Definition set_n_accept (l : list (Z * Z)) (n : net) : net :=
  mkNet (n_socks n) (n_errno n) (n_socket n) (n_bind n) (n_connect n) l (n_eax n) (n_timeout n) (n_sig n).
Definition set_n_timeout (t : Z) (n : net) : net :=
  mkNet (n_socks n) (n_errno n) (n_socket n) (n_bind n) (n_connect n) (n_accept n) (n_eax n) t (n_sig n).
Definition set_n_sig (g : sigs) (n : net) : net :=
  mkNet (n_socks n) (n_errno n) (n_socket n) (n_bind n) (n_connect n) (n_accept n) (n_eax n) (n_timeout n) g.

Definition EBADF : Z := 9.

Definition set_sock (fd : Z) (s : sock) (n : net) : net := set_socks (<[fd := s]> (n_socks n)) n.

Definition set_in (l : list bytes) (s : sock) : sock := mkSock l (s_eof s) (s_block s) (s_out s) (s_room s) (s_opts s).
Definition set_out (b : bytes) (l : list Z) (s : sock) : sock := mkSock (s_in s) (s_eof s) (s_block s) b l (s_opts s).
Definition set_block (b : bool) (s : sock) : sock := mkSock (s_in s) (s_eof s) b (s_out s) (s_room s) (s_opts s).

Definition set_opts (o : list sockopt) (s : sock) : sock :=
  mkSock (s_in s) (s_eof s) (s_block s) (s_out s) (s_room s) o.

Definition fails {A} (e : Z) (r : A) : prog net A := fun n => Ret r (set_n_errno e n).

(** ** System calls *)

(** [signal(SIGALRM, a)]. *)
Definition signal_alarm (a : sigaction) : prog net unit :=
  modify (fun n => let g := n_sig n in set_n_sig (mkSigs a (g_armed g) (g_giTimeOut g) (g_restart g)) n).

Definition alarm (sec : Z) : prog net unit :=
  modify (fun n => let g := n_sig n in set_n_sig (mkSigs (g_action g) (negb (sec =? 0)) (g_giTimeOut g) (g_restart g)) n).

(** The alarm has gone off and [time_out] has run. *)
Definition timed_out (n : net) : net :=
  let g := n_sig n in set_n_sig (mkSigs (g_action g) false 1 (g_restart g)) n.

(** A call that waits for ever, unless the alarm goes off.  The default action ends the
    process, with the status that a shell shows; [IOTimeOut] would jump into an
    [OpenSocket] that has returned; after [time_out] the call goes on, or fails with
    [interrupted]. *)
Definition waits {A} (interrupted : A) : prog net A := fun n =>
  if g_armed (n_sig n) then
    match g_action (n_sig n) with
    | SIG_DFL => Exit (128 + SIGALRM) n
    | On_IOTimeOut => Fault
    | On_time_out => if g_restart (n_sig n) then Block (timed_out n) else fails EINTR interrupted (timed_out n)
    end
  else Block n.

(** [read]: at most [len] bytes of the first piece; 0 at the end of the stream. *)
Definition read (fd len : Z) : prog net (Z * bytes) := fun n =>
  match n_socks n !! fd with
  | None => fails EBADF (-1, []) n
  | Some s =>
      match s_in s with
      | [] =>
          if s_eof s then Ret (0, []) n
          else if s_block s then waits (-1, []) n
          else fails EAGAIN (-1, []) n
      | p :: l =>
          let k := Z.to_nat len in
          let rest := drop k p in
          let s' := set_in (if bool_decide (rest = []) then l else rest :: l) s in
          Ret (Z.of_nat (length (take k p)), take k p) (set_sock fd s' n)
      end
  end.

(** [write]. *)
Definition write (fd : Z) (bs : bytes) : prog net Z := fun n =>
  match n_socks n !! fd with
  | None => fails EBADF (-1) n
  | Some s =>
      match s_room s with
      | [] => Ret (Z.of_nat (length bs)) (set_sock fd (set_out (s_out s ++ bs) [] s) n)
      | k :: l =>
          if k <=? 0 then fails EAGAIN (-1) (set_sock fd (set_out (s_out s) l s) n)
          else
            let d := take (Z.to_nat k) bs in
            Ret (Z.of_nat (length d)) (set_sock fd (set_out (s_out s ++ d) l s) n)
      end
  end.

Definition closed_sock : sock := mkSock [] false true [] [] [].

(** [socket]; with nothing listed it fails. *)
Definition socket : prog net Z := fun n =>
  match n_socket n with
  | [] => Ret (-1) n
  | fd :: l =>
      let n := set_n_socket l n in
      Ret fd (if fd <? 0 then n else set_sock fd closed_sock n)
  end.

Definition bind_ : prog net Z := fun n =>
  match n_bind n with [] => Ret 0 n | r :: l => Ret r (set_n_bind l n) end.

(** [fcntl(fd, F_SETFL, ...)] with and without [O_NONBLOCK]. *)
Definition set_fl (fd : Z) (block : bool) : prog net Z := fun n =>
  match n_socks n !! fd with
  | None => fails EBADF (-1) n
  | Some s => Ret 0 (set_sock fd (set_block block s) n)
  end.

Definition setsockopt (fd : Z) (o : sockopt) : prog net Z := fun n =>
  match n_socks n !! fd with
  | None => fails EBADF (-1) n
  | Some s => Ret 0 (set_sock fd (set_opts (s_opts s ++ [o]) s) n)
  end.

Definition close (fd : Z) : prog net unit := modify (fun n => set_socks (delete fd (n_socks n)) n).

(** ** The code *)

Definition sock_set_block (sockid on : Z) : prog net Z :=
  let* rv := set_fl sockid (negb (on =? 0)) in
  if rv =? 0 then ret 0 else get n_errno.

Definition setnonblocking (sockid : Z) : prog net Z := set_fl sockid false ;;; get n_eax.

Definition CloseSocket (nSocket : Z) : prog net Z :=
  let* rc := set_fl nSocket false in
  if rc <? 0 then ret 1 else close nSocket ;;; ret 0.

Definition Setsokopt (nSocket : Z) : prog net Z :=
  let* rc := setsockopt nSocket (SO_LINGER 1 0) in
  if rc =? -1 then ret (-1)
  else
    let* rc := setsockopt nSocket (SO_KEEPALIVE 1) in
    if rc =? -1 then ret (-1)
    else
      let* rc := setsockopt nSocket (SO_REUSEADDR 1) in
      if rc =? -1 then ret (-1) else ret 0.

(** The two retry loops: [nRetryNum-- <= 0] gives up. *)
Fixpoint retry_socket (fuel : nat) (nRetryNum : Z) : prog net (option Z) :=
  match fuel with
  | O => spin
  | S fuel =>
      let* fd := socket in
      if 0 <=? fd then ret (Some fd)
      else if nRetryNum <=? 0 then ret None else retry_socket fuel (nRetryNum - 1)
  end.

Fixpoint retry_bind (fuel : nat) (nRetryNum : Z) : prog net bool :=
  match fuel with
  | O => spin
  | S fuel =>
      let* rc := bind_ in
      if 0 <=? rc then ret true
      else if nRetryNum <=? 0 then ret false else retry_bind fuel (nRetryNum - 1)
  end.

(** The result, and [*nSocket]. *)
Definition CreateSocket (nRetryNum nBlock : Z) : prog net (Z * Z) :=
  let fuel := S (Z.to_nat nRetryNum) in
  let* fd := retry_socket fuel nRetryNum in
  match fd with
  | None => ret (-1, -1)
  | Some fd =>
      Setsokopt fd ;;;
      let* ok := retry_bind fuel nRetryNum in
      if negb ok then CloseSocket fd ;;; ret (-2, fd)
      else if nBlock =? 1 then
        let* iRet := setnonblocking fd in
        if negb (iRet =? 0) then CloseSocket fd ;;; ret (-3, fd) else ret (0, fd)
      else ret (0, fd)
  end.

(** [read(nSocket, sBuf + nReadLen, nLen - nReadLen)] until [nLen] bytes are there. *)
Fixpoint read_loop (fuel : nat) (nSocket : Z) (sBuf : bytes) (nLen nReadLen : Z) : prog net (Z * bytes) :=
  match fuel with
  | O => spin
  | S fuel =>
      let* (nNum, data) := read nSocket (nLen - nReadLen) in
      if nNum <=? 0 then ret (-1, sBuf)
      else
        let* sBuf := deref (st nReadLen data sBuf) in
        let nReadLen := nReadLen + nNum in
        if nReadLen <? nLen then read_loop fuel nSocket sBuf nLen nReadLen else ret (0, sBuf)
  end.

(** The result and the buffer. *)
Definition ReadSocket (nSocket : Z) (sBuf : bytes) (nLen : Z) : prog net (Z * bytes) :=
  if nLen <=? 0 then ret (-1, sBuf) else read_loop (Z.to_nat nLen) nSocket sBuf nLen 0.

Fixpoint write_loop (fuel : nat) (nSocket : Z) (sBuf : bytes) (nLen nWriteLen : Z) : prog net Z :=
  match fuel with
  | O => spin
  | S fuel =>
      let* data := deref (ld nWriteLen (nLen - nWriteLen) sBuf) in
      let* nNum := write nSocket data in
      if nNum <=? 0 then ret (-1)
      else
        let nWriteLen := nWriteLen + nNum in
        if nLen <=? nWriteLen then ret 0 else write_loop fuel nSocket sBuf nLen nWriteLen
  end.

Definition WriteSocket (nSocket : Z) (sBuf : bytes) (nLen : Z) : prog net Z :=
  if nLen <=? 0 then ret (-1) else write_loop (Z.to_nat nLen) nSocket sBuf nLen 0.

(** [accept] until it gives a socket; with nothing listed it waits for ever. *)
Fixpoint accept_loop (l : list (Z * Z)) : prog net Z :=
  match l with
  | [] => fun n => Block n
  | (fd, e) :: l =>
      modify (fun n => set_n_accept l (set_n_errno e n)) ;;;
      if 0 <=? fd then modify (set_sock fd closed_sock) ;;; ret fd else accept_loop l
  end.

Definition AcceptSocket : prog net (Z * Z) :=
  let* l := get n_accept in
  let* fd := accept_loop l in
  ret (0, fd).

(** Its [siglongjmp] leads to the test of [Timeout] in [OpenSocket], the last branch of
    [open_loop]. *)
Definition IOTimeOut : prog net unit := modify (set_n_timeout 1).

(** [connect]: 0 or -1, or nothing when [IOTimeOut] ends the wait. *)
Definition connect : prog net (option Z) := fun n =>
  match n_connect n with
  | Connected :: l => Ret (Some 0) (set_n_connect l n)
  | Refused :: l => Ret (Some (-1)) (set_n_connect l n)
  | l =>
      let n := set_n_connect (tl l) n in
      match g_action (n_sig n) with
      | On_IOTimeOut => if g_armed (n_sig n) then Ret None n else Block n
      | _ => waits (Some (-1)) n
      end
  end.

(** The loop of [OpenSocket]. *)
Fixpoint open_loop (fuel : nat) (nRetrys : Z) : prog net (Z * Z) :=
  match fuel with
  | O => spin
  | S fuel =>
      if nRetrys =? 0 then alarm 0 ;;; signal_alarm SIG_DFL ;;; ret (-1, -1)
      else
        let* fd := socket in
        if fd <? 0 then
          if 0 <? nRetrys then open_loop fuel (nRetrys - 1)
          else alarm 0 ;;; signal_alarm SIG_DFL ;;; ret (-2, fd)
        else
          let* rc := connect in
          match rc with
          | Some rc =>
              if rc <? 0 then
                CloseSocket fd ;;;
                if 0 <? nRetrys then open_loop fuel (nRetrys - 1)
                else alarm 0 ;;; signal_alarm SIG_DFL ;;; ret (-3, fd)
              else alarm 0 ;;; Setsokopt fd ;;; signal_alarm SIG_DFL ;;; ret (0, fd)
          | None => IOTimeOut ;;; alarm 0 ;;; CloseSocket fd ;;; signal_alarm SIG_DFL ;;; ret (-1, fd)
          end
  end.

(** The result and [*nSocket] (its old value is not tracked: -1 stands for it). *)
Definition OpenSocket (nRetrys nTimeOut : Z) : prog net (Z * Z) :=
  modify (set_n_timeout 0) ;;;
  signal_alarm On_IOTimeOut ;;;
  alarm nTimeOut ;;;
  open_loop (S (Z.to_nat nRetrys)) nRetrys.

(** The result, [sSrcBuf] and [*iBufLen]. *)
Definition RcvTxnMsg (iSocketId iHeadLen : Z) (sSrcBuf : bytes) (iBufLen : Z) : prog net (Z * bytes * Z) :=
  let* (iRet, sMsgLen) := ReadSocket iSocketId (zeros 129) iHeadLen in
  if negb (iRet =? 0) then ret (-1, sSrcBuf, iBufLen)
  else
    if negb (terminated sMsgLen) then fault
    else
    let iMsgInLen := atoi (cstr sMsgLen) in
    if iMsgInLen <=? 0 then ret (1, sSrcBuf, iBufLen)
    else
      let* (iRet, sMsgInBuf) := ReadSocket iSocketId (zeros 10241) iMsgInLen in
      if negb (iRet =? 0) then ret (-1, sSrcBuf, iBufLen)
      else
        let* head := deref (ld 0 iHeadLen sMsgLen) in
        let* sSrcBuf := deref (st 0 head sSrcBuf) in
        let* body := deref (ld 0 iMsgInLen sMsgInBuf) in
        let* sSrcBuf := deref (st iHeadLen body sSrcBuf) in
        ret (0, sSrcBuf, iHeadLen + iMsgInLen).

(** ** Reading *)

Lemma st_bounds off bs b b' : st off bs b = Some b' -> 0 <= off /\ off + Z.of_nat (length bs) <= Z.of_nat (length b).
Proof. unfold st. destruct (_ && _) eqn:E; [|done]. rewrite andb_true_iff, !Z.leb_le in E. done. Qed.

Lemma st_append off a b buf buf' :
  st off a buf = Some buf' -> st (off + Z.of_nat (length a)) b buf' = st off (a ++ b) buf.
Proof.
  intros H. pose proof (st_length _ _ _ _ H) as L. unfold st in *. rewrite L, length_app.
  destruct (_ && _) eqn:E in H; [|done]. injection H as <-. rewrite andb_true_iff, !Z.leb_le in E.
  rewrite (proj2 (Z.leb_le 0 off)), (proj2 (Z.leb_le 0 (off + _))) by lia. cbn [andb].
  replace (off + Z.of_nat (length a + length b)) with (off + Z.of_nat (length a) + Z.of_nat (length b)) by lia.
  destruct (_ <=? _); [|done]. f_equal.
  assert (Lx : length (take (Z.to_nat off) buf ++ a) = Z.to_nat (off + Z.of_nat (length a)))
    by (rewrite length_app, length_take; lia).
  rewrite (app_assoc (take (Z.to_nat off) buf) a), <- Lx, take_app_length, drop_app_add.
  rewrite <- !app_assoc, drop_drop. do 4 f_equal. lia.
Qed.

Definition pieces_ok (ps : list bytes) : Prop := Forall (fun p => p <> []) ps.

(** The net after bytes of the socket [fd] have been read. *)
Definition left_over (fd : Z) (s : sock) (ps : list bytes) (n : net) : net := set_sock fd (set_in ps s) n.

Lemma set_sock_twice fd s s' n : set_sock fd s (set_sock fd s' n) = set_sock fd s n.
Proof. unfold set_sock, set_socks. cbn. now rewrite insert_insert_eq. Qed.

Lemma set_sock_same fd s n : n_socks n !! fd = Some s -> set_sock fd s n = n.
Proof. intros H. unfold set_sock, set_socks. rewrite insert_id by done. now destruct n. Qed.

Lemma set_in_same s : set_in (s_in s) s = s.
Proof. now destruct s. Qed.

(** One [read] takes the head of the stream. *)
Lemma read_some fd s n len p l :
  n_socks n !! fd = Some s -> s_in s = p :: l -> p <> [] -> pieces_ok l -> 0 < len ->
  exists d ps, read fd len n = Ret (Z.of_nat (length d), d) (left_over fd s ps n)
    /\ d <> [] /\ Z.of_nat (length d) <= len /\ List.concat (p :: l) = d ++ List.concat ps /\ pieces_ok ps.
Proof.
  intros Hs Hi Hp Hl Hlen. unfold read. rewrite Hs, Hi.
  exists (take (Z.to_nat len) p). eexists. split; [reflexivity|].
  assert (N : take (Z.to_nat len) p <> []).
  { destruct p; [done|]. destruct (Z.to_nat len) eqn:E; [lia|done]. }
  split; [exact N|]. split; [rewrite length_take; lia|].
  cbn [List.concat]. case_bool_decide as E.
  - split; [|done]. rewrite <- (take_drop (Z.to_nat len) p) at 1. now rewrite E, app_nil_r.
  - split; [|now constructor]. cbn [List.concat]. now rewrite app_assoc, take_drop.
Qed.

(** What a read of [len] bytes does when the stream ends before: the end of the stream,
    an error of a socket that does not wait, or waiting (until an alarm). *)
Definition short_read (fd : Z) (s : sock) (sBuf : bytes) (n : net) (o : outcome net (Z * bytes)) : Prop :=
  if s_eof s then o = Ret (-1, sBuf) (left_over fd s [] n)
  else if s_block s then o = waits (-1, sBuf) (left_over fd s [] n)
  else o = Ret (-1, sBuf) (set_n_errno EAGAIN (left_over fd s [] n)).

Lemma read_loop_eq fuel fd s n sBuf nLen off ps :
  n_socks n !! fd = Some s -> s_in s = ps -> pieces_ok ps -> 0 <= off < nLen ->
  nLen <= Z.of_nat (length sBuf) -> nLen - off <= Z.of_nat fuel ->
  let data := List.concat ps in
  let want := Z.to_nat (nLen - off) in
  if (want <=? length data)%nat then
    exists b ps', st off (take want data) sBuf = Some b
      /\ read_loop fuel fd sBuf nLen off n = Ret (0, b) (left_over fd s ps' n)
      /\ List.concat ps' = drop want data /\ pieces_ok ps'
  else exists b, st off data sBuf = Some b /\ short_read fd s b n (read_loop fuel fd sBuf nLen off n).
Proof.
  revert s n sBuf off ps. induction fuel as [|fuel IH]; intros s n sBuf off ps Hs Hi Hps Ho Hb Hf; [lia|].
  cbn zeta. cbn [read_loop]. destruct ps as [|p l].
  - cbn [List.concat length]. destruct (Nat.leb_spec (Z.to_nat (nLen - off)) 0); [lia|].
    exists sBuf. split.
    { unfold st. cbn [length]. rewrite (proj2 (Z.leb_le 0 off)), (proj2 (Z.leb_le _ _)) by (cbn; lia).
      cbn [andb app]. rewrite Nat.add_0_r. f_equal. apply take_drop. }
    assert (E : left_over fd s [] n = n) by (unfold left_over; rewrite <- Hi, set_in_same; now apply set_sock_same).
    unfold short_read. rewrite E. unfold bind, read. rewrite Hs, Hi.
    destruct (s_eof s); [reflexivity|]. destruct (s_block s); [|reflexivity].
    unfold waits. destruct (g_armed _); [|reflexivity]. destruct (g_action _); [reflexivity..|]. now destruct (g_restart _).
  - apply Forall_cons in Hps as [Hp Hl].
    destruct (read_some fd s n (nLen - off) p l Hs Hi Hp Hl ltac:(lia)) as (d & ps & E & Hd & Ld & Ed & Hps).
    rewrite (bind_Ret _ _ _ _ _ E), Ed. assert (0 < Z.of_nat (length d)) by (destruct d; [done|cbn; lia]).
    destruct (Z.leb_spec (Z.of_nat (length d)) 0); [lia|].
    destruct (st_Some off d sBuf) as [b Eb]; [lia|lia|]. rewrite Eb. erewrite bind_Ret by reflexivity.
    pose proof (st_length _ _ _ _ Eb) as Lb. rewrite length_app.
    destruct (Z.ltb_spec (off + Z.of_nat (length d)) nLen) as [M|M].
    + specialize (IH (set_in ps s) (left_over fd s ps n) b (off + Z.of_nat (length d)) ps).
      cbn zeta in IH. replace (Z.to_nat (nLen - (off + Z.of_nat (length d))))
        with (Z.to_nat (nLen - off) - length d)%nat in IH by lia.
      assert (Hs' : n_socks (left_over fd s ps n) !! fd = Some (set_in ps s)) by apply lookup_insert_eq.
      specialize (IH Hs' eq_refl Hps ltac:(lia) ltac:(lia) ltac:(lia)).
      assert (T : forall q, left_over fd (set_in ps s) q (left_over fd s ps n) = left_over fd s q n)
        by (intros q; apply set_sock_twice).
      destruct (Nat.leb_spec (Z.to_nat (nLen - off) - length d) (length (List.concat ps)));
        destruct (Nat.leb_spec (Z.to_nat (nLen - off)) (length d + length (List.concat ps))); try lia.
      * destruct IH as (b' & ps' & E1 & E2 & E3 & E4). rewrite (st_append _ _ _ _ _ Eb) in E1. exists b', ps'.
        rewrite take_app_ge, drop_app_ge, E2, T by lia. done.
      * destruct IH as (b' & E1 & E2). rewrite (st_append _ _ _ _ _ Eb) in E1. exists b'. split; [done|].
        unfold short_read in *. rewrite T in E2. exact E2.
    + assert (Ew : Z.to_nat (nLen - off) = length d) by lia. rewrite Ew.
      destruct (Nat.leb_spec (length d) (length d + length (List.concat ps))); [|lia].
      exists b, ps. rewrite take_app_length, drop_app_length. done.
Qed.

(** ** Writing *)

Lemma write_loop_eq fuel fd s n sBuf nLen off :
  n_socks n !! fd = Some s -> 0 <= off < nLen -> nLen <= Z.of_nat (length sBuf) -> nLen - off <= Z.of_nat fuel ->
  let data := take (Z.to_nat (nLen - off)) (drop (Z.to_nat off) sBuf) in
  exists r m ks n', write_loop fuel fd sBuf nLen off n = Ret r n'
    /\ n_socks n' !! fd = Some (set_out (s_out s ++ take m data) ks s)
    /\ (forall fd', fd' <> fd -> n_socks n' !! fd' = n_socks n !! fd')
    /\ ((r = 0 /\ m = length data)
        \/ (r = -1 /\ (m < length data)%nat /\ Exists (fun k => k <= 0) (s_room s))).
Proof.
  revert s n off. induction fuel as [|fuel IH]; intros s n off Hs Ho Hb Hf; [lia|]. intros data.
  cbn [write_loop]. unfold ld. rewrite (proj2 (Z.leb_le 0 off)), (proj2 (Z.leb_le 0 (nLen - off))),
    (proj2 (Z.leb_le (off + (nLen - off)) _)) by lia. cbn [andb]. fold data.
  erewrite bind_Ret by reflexivity.
  assert (Ld : length data = Z.to_nat (nLen - off)) by (unfold data; rewrite length_take, length_drop; lia).
  destruct (s_room s) as [|k l] eqn:Er.
  - erewrite bind_Ret by (unfold write; rewrite Hs, Er; reflexivity).
    destruct (Z.leb_spec (Z.of_nat (length data)) 0); [lia|].
    destruct (Z.leb_spec nLen (off + Z.of_nat (length data))); [|lia].
    exists 0, (length data), []. eexists. split; [reflexivity|]. rewrite take_ge by lia.
    split; [apply lookup_insert_eq|]. split; [intros; now apply lookup_insert_ne|]. auto.
  - destruct (Z.leb_spec k 0) as [K|K].
    + erewrite bind_Ret by (unfold write; rewrite Hs, Er, (proj2 (Z.leb_le k 0)) by lia; reflexivity).
      cbn [Z.leb Z.compare]. exists (-1), 0%nat, l. eexists. split; [reflexivity|].
      rewrite take_0, app_nil_r. split; [apply lookup_insert_eq|].
      split; [intros; now apply lookup_insert_ne|]. right. split; [done|]. split; [lia|now left].
    + erewrite bind_Ret by (unfold write; rewrite Hs, Er, (proj2 (Z.leb_gt k 0)) by lia; reflexivity).
      set (d := take (Z.to_nat k) data). set (n1 := set_sock fd _ n).
      assert (Hd : (0 < length d)%nat) by (unfold d; rewrite length_take; lia).
      destruct (Z.leb_spec (Z.of_nat (length d)) 0); [lia|].
      destruct (Z.leb_spec nLen (off + Z.of_nat (length d))) as [M|M].
      * assert (Ed : d = data) by (unfold d in *; rewrite length_take in M; apply take_ge; lia).
        exists 0, (length data), l, n1. split; [reflexivity|]. rewrite take_ge by lia. rewrite <- Ed.
        split; [apply lookup_insert_eq|]. split; [intros; now apply lookup_insert_ne|]. left. done.
      * assert (Lk : length d = Z.to_nat k) by (unfold d in *; rewrite length_take in M |- *; lia).
        destruct (IH (set_out (s_out s ++ d) l s) n1 (off + Z.of_nat (length d)))
          as (r & m & ks & n' & E & Hn & Ho' & C); [apply lookup_insert_eq|lia|lia|lia|].
        assert (Edat : data = d ++ take (Z.to_nat (nLen - (off + Z.of_nat (length d))))
                                     (drop (Z.to_nat (off + Z.of_nat (length d))) sBuf)).
        { unfold d at 1. rewrite <- (take_drop (Z.to_nat k) data) at 1. f_equal. unfold data.
          rewrite skipn_firstn_comm, drop_drop. f_equal; [lia|]. f_equal. lia. }
        exists r, (length d + m)%nat, ks, n'. split; [exact E|]. rewrite Edat, take_app_add, app_assoc.
        split; [exact Hn|]. split; [intros fd' Hne; rewrite (Ho' fd' Hne); now apply lookup_insert_ne|].
        rewrite length_app. destruct C as [[-> ->]|(-> & Hm & Hx)]; [auto|].
        right. split; [done|]. split; [lia|now right].
Qed.

(** ** Frames *)

(** A message on the wire: its length in four digits, then the message. *)
Definition frame (body : bytes) : bytes := fmt_0d 4 (Z.of_nat (length body)) ++ body.

Lemma ReadSocket_enough fd s n sBuf nLen :
  n_socks n !! fd = Some s -> pieces_ok (s_in s) -> 0 < nLen <= Z.of_nat (length sBuf) ->
  nLen <= Z.of_nat (length (List.concat (s_in s))) ->
  exists b ps, ReadSocket fd sBuf nLen n = Ret (0, b) (left_over fd s ps n)
    /\ st 0 (take (Z.to_nat nLen) (List.concat (s_in s))) sBuf = Some b
    /\ List.concat ps = drop (Z.to_nat nLen) (List.concat (s_in s)) /\ pieces_ok ps.
Proof.
  intros Hs Hp Hn Hd. unfold ReadSocket. destruct (Z.leb_spec nLen 0); [lia|].
  pose proof (read_loop_eq (Z.to_nat nLen) fd s n sBuf nLen 0 (s_in s) Hs eq_refl Hp ltac:(lia) ltac:(lia) ltac:(lia)) as H1.
  cbn zeta in H1. rewrite Z.sub_0_r in H1. destruct (Nat.leb_spec (Z.to_nat nLen) (length (List.concat (s_in s)))); [|lia].
  destruct H1 as (b & ps & E1 & E2 & E3 & E4). exists b, ps. done.
Qed.

(** What a buffer of zeros holds after bytes were stored at its start. *)
Lemma st_zeros_prefix bs m b :
  st 0 bs (zeros m) = Some b -> 0 <= m -> b = bs ++ zeros (m - Z.of_nat (length bs)).
Proof.
  intros H Hm. unfold st in H. rewrite length_zeros in H by done.
  destruct (_ && _) eqn:E; [|done]. injection H as <-. rewrite andb_true_iff, !Z.leb_le in E.
  change (Z.to_nat 0) with 0%nat. cbn [take app Nat.add]. f_equal.
  unfold zeros. rewrite drop_replicate. f_equal. lia.
Qed.

Lemma ld_prefix bs t : ld 0 (Z.of_nat (length bs)) (bs ++ t) = Some bs.
Proof.
  unfold ld. rewrite length_app, (proj2 (Z.leb_le 0 _)), (proj2 (Z.leb_le _ _)) by lia.
  cbn [Z.leb Z.compare andb]. rewrite Nat2Z.id. change (Z.to_nat 0) with 0%nat.
  destruct (Z.leb_spec (0 + Z.of_nat (length bs)) (Z.of_nat (length bs + length t))); [|lia].
  now rewrite drop_0, take_app_length.
Qed.

Lemma header_chars z : 0 <= z <= 9999 ->
  length (fmt_0d 4 z) = 4%nat /\ nonul (fmt_0d 4 z) /\ atoi (fmt_0d 4 z) = z.
Proof.
  intros Hz. destruct (fmt_0d_spec 4 z) as [L A]; [cbn; lia|lia|]. split; [lia|]. split.
  - unfold fmt_0d. destruct (Z.ltb_spec z 0); [lia|]. apply Forall_app. split.
    + apply Forall_replicate. discriminate.
    + eapply Forall_impl; [apply udec_digits; lia|]. intros c Hc ->. discriminate Hc.
  - unfold atoi. rewrite A. apply i32_id. lia.
Qed.

(** The two reads of [RcvTxnMsg], and the copies that are left. *)
Lemma RcvTxnMsg_reads fd s n buf old body rest :
  n_socks n !! fd = Some s -> pieces_ok (s_in s) ->
  List.concat (s_in s) = frame body ++ rest -> 1 <= Z.of_nat (length body) <= 9999 ->
  exists ps, RcvTxnMsg fd 4 buf old n
      = (let* b := deref (st 0 (fmt_0d 4 (Z.of_nat (length body))) buf) in
         let* b := deref (st 4 body b) in
         ret (0, b, 4 + Z.of_nat (length body))) (left_over fd s ps n)
    /\ List.concat ps = rest /\ pieces_ok ps.
Proof.
  intros Hs Hp Hc Hl. destruct (header_chars (Z.of_nat (length body)) ltac:(lia)) as (L4 & N4 & A4).
  set (h := fmt_0d 4 (Z.of_nat (length body))) in *. unfold frame in *. fold h in Hc |- *. rewrite <- app_assoc in Hc.
  destruct (ReadSocket_enough fd s n (zeros 129) 4 Hs Hp) as (b1 & ps1 & E1 & S1 & C1 & P1);
    [rewrite length_zeros; lia|rewrite Hc, length_app; lia|].
  change (Z.to_nat 4) with 4%nat in S1, C1. rewrite Hc, <- L4 in S1, C1.
  rewrite take_app_length in S1. rewrite drop_app_length in C1. apply st_zeros_prefix in S1; [|lia].
  destruct (ReadSocket_enough fd (set_in ps1 s) (left_over fd s ps1 n) (zeros 10241) (Z.of_nat (length body))
    ltac:(apply lookup_insert_eq) P1) as (b2 & ps2 & E2 & S2 & C2 & P2);
    [rewrite length_zeros; lia|cbn [s_in set_in]; rewrite C1, length_app; lia|].
  cbn [s_in set_in] in S2, C2. rewrite Nat2Z.id, C1 in S2, C2. rewrite take_app_length in S2.
  rewrite drop_app_length in C2. apply st_zeros_prefix in S2; [|lia].
  assert (T : b1 = h ++ NUL :: zeros 124) by (rewrite S1, L4; done).
  exists ps2. split; [|done]. unfold RcvTxnMsg. rewrite (bind_Ret _ _ _ _ _ E1). cbn [negb Z.eqb].
  assert (Tb : terminated b1 = true) by (rewrite T; apply terminated_app).
  assert (Cb : cstr b1 = h) by (rewrite T; now apply cstr_app_nul).
  rewrite Tb, Cb, A4. cbn [negb]. destruct (Z.leb_spec (Z.of_nat (length body)) 0); [lia|].
  rewrite (bind_Ret _ _ _ _ _ E2). cbn [negb Z.eqb].
  assert (D1 : ld 0 4 b1 = Some h) by (rewrite S1; replace 4 with (Z.of_nat (length h)) by lia; apply ld_prefix).
  rewrite D1. erewrite bind_Ret by reflexivity.
  assert (D2 : ld 0 (Z.of_nat (length body)) b2 = Some body) by (rewrite S2; apply ld_prefix).
  rewrite D2. replace (left_over fd (set_in ps1 s) ps2 (left_over fd s ps1 n)) with (left_over fd s ps2 n)
    by (symmetry; apply set_sock_twice).
  unfold bind, deref. destruct (st 0 h buf); reflexivity.
Qed.

(** A frame that fits in the caller's buffer. *)
Lemma RcvTxnMsg_frame fd s n buf old body rest b :
  n_socks n !! fd = Some s -> pieces_ok (s_in s) ->
  List.concat (s_in s) = frame body ++ rest -> 1 <= Z.of_nat (length body) <= 9999 ->
  st 0 (frame body) buf = Some b ->
  exists ps, RcvTxnMsg fd 4 buf old n = Ret (0, b, 4 + Z.of_nat (length body)) (left_over fd s ps n)
    /\ List.concat ps = rest /\ pieces_ok ps.
Proof.
  intros Hs Hp Hc Hl Hb. destruct (RcvTxnMsg_reads fd s n buf old body rest Hs Hp Hc Hl) as (ps & E & R).
  exists ps. split; [|exact R]. rewrite E. destruct (header_chars (Z.of_nat (length body)) ltac:(lia)) as (L4 & _).
  destruct (st_Some 0 (fmt_0d 4 (Z.of_nat (length body))) buf) as [b1 S1];
    [lia|apply st_bounds in Hb; unfold frame in Hb; rewrite length_app in Hb; lia|].
  rewrite S1. erewrite bind_Ret by reflexivity. pose proof (st_append 0 _ body buf b1 S1) as SA.
  rewrite L4 in SA. change (0 + Z.of_nat 4) with 4 in SA. rewrite SA. fold (frame body). rewrite Hb. reflexivity.
Qed.

(** Fewer bytes than the header, or than it announces, on a socket that does not wait. *)
Definition incomplete (data : bytes) : Prop :=
  (length data < 4)%nat
  \/ exists n part, data = fmt_0d 4 n ++ part /\ Z.of_nat (length part) < n <= 9999.

Lemma ReadSocket_short fd s n sBuf nLen :
  n_socks n !! fd = Some s -> pieces_ok (s_in s) -> s_block s = false -> 0 < nLen <= Z.of_nat (length sBuf) ->
  Z.of_nat (length (List.concat (s_in s))) < nLen ->
  exists b n', ReadSocket fd sBuf nLen n = Ret (-1, b) n'
    /\ is_Some (n_socks n' !! fd) /\ (forall y, y <> fd -> n_socks n' !! y = n_socks n !! y).
Proof.
  intros Hs Hp Hb Hn Hd. unfold ReadSocket. destruct (Z.leb_spec nLen 0); [lia|].
  pose proof (read_loop_eq (Z.to_nat nLen) fd s n sBuf nLen 0 (s_in s) Hs eq_refl Hp ltac:(lia) ltac:(lia) ltac:(lia)) as H1.
  cbn zeta in H1. rewrite Z.sub_0_r in H1.
  destruct (Nat.leb_spec (Z.to_nat nLen) (length (List.concat (s_in s)))); [lia|].
  destruct H1 as (b & _ & H1). unfold short_read in H1. rewrite Hb in H1.
  assert (F : is_Some (n_socks (left_over fd s [] n) !! fd)
    /\ forall y, y <> fd -> n_socks (left_over fd s [] n) !! y = n_socks n !! y).
  { split; [cbn; rewrite lookup_insert_eq; eauto|]. intros y Hy. now apply lookup_insert_ne. }
  destruct (s_eof s); eexists _, _; (split; [exact H1|exact F]).
Qed.

Lemma RcvTxnMsg_short fd s n buf old :
  n_socks n !! fd = Some s -> pieces_ok (s_in s) -> s_block s = false -> incomplete (List.concat (s_in s)) ->
  exists n', RcvTxnMsg fd 4 buf old n = Ret (-1, buf, old) n'
    /\ is_Some (n_socks n' !! fd) /\ (forall y, y <> fd -> n_socks n' !! y = n_socks n !! y).
Proof.
  intros Hs Hp Hb [Hd|(z & part & Hd & Hz)].
  - destruct (ReadSocket_short fd s n (zeros 129) 4 Hs Hp Hb) as (b & n' & E & R); [rewrite length_zeros; lia|lia|].
    exists n'. split; [|exact R]. unfold RcvTxnMsg. now rewrite (bind_Ret _ _ _ _ _ E).
  - destruct (header_chars z ltac:(lia)) as (L4 & N4 & A4).
    destruct (ReadSocket_enough fd s n (zeros 129) 4 Hs Hp) as (b1 & ps1 & E1 & S1 & C1 & P1);
      [rewrite length_zeros; lia|rewrite Hd, length_app; lia|].
    change (Z.to_nat 4) with 4%nat in S1, C1. rewrite Hd, <- L4 in S1, C1.
    rewrite take_app_length in S1. rewrite drop_app_length in C1. apply st_zeros_prefix in S1; [|lia].
    destruct (ReadSocket_short fd (set_in ps1 s) (left_over fd s ps1 n) (zeros 10241) z
      ltac:(apply lookup_insert_eq) P1 Hb) as (b2 & n' & E2 & R1 & R2);
      [rewrite length_zeros; lia|cbn [s_in set_in]; rewrite C1; lia|].
    exists n'. split; [|split; [exact R1|]].
    + assert (T : b1 = fmt_0d 4 z ++ NUL :: zeros 124) by (rewrite S1, L4; done).
      unfold RcvTxnMsg. rewrite (bind_Ret _ _ _ _ _ E1). cbn [negb Z.eqb].
      rewrite T, terminated_app, cstr_app_nul, A4 by done. cbn [negb].
      destruct (Z.leb_spec z 0); [lia|]. now rewrite (bind_Ret _ _ _ _ _ E2).
    + intros y Hy. rewrite R2 by done. now apply lookup_insert_ne.
Qed.

(** ** Properties *)

(** [ReadSocket] is independent of the pieces in which the bytes arrive: with at least
    [nLen] bytes on the way it returns 0, stores the first [nLen] of them and leaves the
    others for the next call.  With fewer, it stores those and fails at the end of the
    stream, but also on a socket that does not wait: the bytes are then lost for the
    caller. *)
Theorem ReadSocket_correct fd s n sBuf nLen :
  n_socks n !! fd = Some s -> pieces_ok (s_in s) -> 0 < nLen <= Z.of_nat (length sBuf) ->
  let data := List.concat (s_in s) in
  if nLen <=? Z.of_nat (length data) then
    exists b ps, ReadSocket fd sBuf nLen n = Ret (0, b) (left_over fd s ps n)
      /\ st 0 (take (Z.to_nat nLen) data) sBuf = Some b
      /\ List.concat ps = drop (Z.to_nat nLen) data /\ pieces_ok ps
  else exists b, st 0 data sBuf = Some b /\ short_read fd s b n (ReadSocket fd sBuf nLen n).
Proof.
  intros Hs Hp Hn data. unfold ReadSocket. destruct (Z.leb_spec nLen 0); [lia|].
  pose proof (read_loop_eq (Z.to_nat nLen) fd s n sBuf nLen 0 (s_in s) Hs eq_refl Hp ltac:(lia) ltac:(lia) ltac:(lia)) as H1.
  cbn zeta in H1. rewrite Z.sub_0_r in H1. fold data in H1.
  destruct (Z.leb_spec nLen (Z.of_nat (length data))); destruct (Nat.leb_spec (Z.to_nat nLen) (length data)); try lia.
  - destruct H1 as (b & ps & E1 & E2 & E3 & E4). exists b, ps. done.
  - exact H1.
Qed.

(** [WriteSocket] sends the first [nLen] bytes of the buffer, in order and once, however
    few of them each [write] takes; it fails only when a [write] does, after a proper
    part of them.  Other sockets are not touched. *)
Theorem WriteSocket_correct fd s n sBuf nLen :
  n_socks n !! fd = Some s -> 0 < nLen <= Z.of_nat (length sBuf) ->
  exists r m ks n', WriteSocket fd sBuf nLen n = Ret r n'
    /\ n_socks n' !! fd = Some (set_out (s_out s ++ take m sBuf) ks s)
    /\ (forall fd', fd' <> fd -> n_socks n' !! fd' = n_socks n !! fd')
    /\ ((r = 0 /\ Z.of_nat m = nLen)
        \/ (r = -1 /\ Z.of_nat m < nLen /\ Exists (fun k => k <= 0) (s_room s))).
Proof.
  intros Hs Hn. unfold WriteSocket. destruct (Z.leb_spec nLen 0); [lia|].
  destruct (write_loop_eq (Z.to_nat nLen) fd s n sBuf nLen 0 Hs ltac:(lia) ltac:(lia) ltac:(lia))
    as (r & m & ks & n' & E & H1 & H2 & C).
  rewrite Z.sub_0_r, drop_0 in H1, C. rewrite length_take in C.
  exists r, m, ks, n'. split; [exact E|].
  rewrite take_take in H1. replace (m `min` Z.to_nat nLen)%nat with m in H1 by lia.
  split; [exact H1|]. split; [exact H2|]. destruct C as [[-> ->]|(-> & Hm & Hx)]; [left; lia|right]. split; [done|]. split; [lia|done].
Qed.

(** C30: [RcvTxnMsg] takes one frame off the stream, in whatever pieces it arrives: a message
    of 1 to 9999 bytes behind its length in four digits.  It stores the frame at the
    start of the caller's buffer, reports its length and leaves what follows for the next
    call.  The caller's buffer is not checked: when it is smaller than the frame, the
    copy runs over its end. *)
Theorem RcvTxnMsg_correct fd s n buf old body rest :
  n_socks n !! fd = Some s -> pieces_ok (s_in s) ->
  List.concat (s_in s) = frame body ++ rest -> 1 <= Z.of_nat (length body) <= 9999 ->
  match st 0 (frame body) buf with
  | Some b => exists ps, RcvTxnMsg fd 4 buf old n
      = Ret (0, b, 4 + Z.of_nat (length body)) (left_over fd s ps n)
      /\ List.concat ps = rest /\ pieces_ok ps
  | None => RcvTxnMsg fd 4 buf old n = Fault
  end.
Proof.
  intros Hs Hp Hc Hl. destruct (st 0 (frame body) buf) as [b|] eqn:Hb.
  - now apply (RcvTxnMsg_frame fd s n buf old body rest).
  - destruct (RcvTxnMsg_reads fd s n buf old body rest Hs Hp Hc Hl) as (ps & -> & _).
    destruct (header_chars (Z.of_nat (length body)) ltac:(lia)) as (L4 & _).
    destruct (st 0 (fmt_0d 4 _) buf) as [b1|] eqn:S1; [|reflexivity].
    pose proof (st_append 0 _ body buf b1 S1) as SA. rewrite L4 in SA. change (0 + Z.of_nat 4) with 4 in SA.
    fold (frame body) in SA. rewrite Hb in SA. erewrite bind_Ret by reflexivity. now rewrite SA.
Qed.

(** *** Witnesses *)

Definition demo_sock : sock :=
  mkSock [str "00"; str "05he"; str "llo0001x"] true false [] [2; 3] [].

Definition demo_net : net := mkNet {[ 5 := demo_sock ]} 0 [] [] [] [] 0 0 no_alarm.

Lemma demo_net_sock : n_socks demo_net !! 5 = Some demo_sock.
Proof. apply lookup_singleton_eq. Qed.

Lemma demo_pieces : pieces_ok (s_in demo_sock).
Proof. repeat constructor; discriminate. Qed.

Lemma ReadSocket_correct_witness :
  exists b ps, ReadSocket 5 (zeros 8) 6 demo_net = Ret (0, b) (left_over 5 demo_sock ps demo_net)
    /\ st 0 (str "0005he") (zeros 8) = Some b /\ List.concat ps = str "llo0001x".
Proof.
  destruct (ReadSocket_correct 5 demo_sock demo_net (zeros 8) 6 demo_net_sock demo_pieces
    ltac:(rewrite length_zeros; lia))
    as (b & ps & E & S & C & _).
  exists b, ps. refine (conj E (conj S C)).
Defined.

Lemma WriteSocket_correct_witness :
  exists n', WriteSocket 5 (str "0005hello") 9 demo_net = Ret 0 n'
    /\ exists s, n_socks n' !! 5 = Some s /\ s_out s = str "0005hello".
Proof.
  destruct (WriteSocket_correct 5 demo_sock demo_net (str "0005hello") 9 demo_net_sock ltac:(cbn; lia))
    as (r & m & ks & n' & E & S & _ & C).
  exists n'. destruct C as [[-> Hm]|(_ & _ & X)].
  - split; [exact E|]. eexists. split; [exact S|]. replace m with 9%nat by lia. reflexivity.
  - exfalso. cbn [s_room demo_sock] in X. rewrite !Exists_cons, Exists_nil in X. lia.
Defined.

Lemma RcvTxnMsg_correct_witness :
  exists ps, RcvTxnMsg 5 4 (zeros 20) 0 demo_net
    = Ret (0, str "0005hello" ++ zeros 11, 9) (left_over 5 demo_sock ps demo_net)
    /\ List.concat ps = str "0001x".
Proof.
  destruct (RcvTxnMsg_correct 5 demo_sock demo_net (zeros 20) 0 (str "hello") (str "0001x") demo_net_sock
    demo_pieces eq_refl ltac:(cbn; lia)) as (ps & E & C & _).
  exists ps. refine (conj E C).
Defined.
