(* ===== verification/Funmsq.v ===== *)
(** * Message queues: [src/dev/src/pubfun/common/funmsq.c]

    The wrappers every component exchanges messages through.  A message in user
    memory is an [IPCQueMsg]; what crosses the kernel is its [nMsgSource] and the
    used part of [sBuf]. *)

From Stdlib Require Import ZArith Lia Bool List Ascii String.
From stdpp Require Import base list gmap.
From S2P Require Import Prelude Cstr Kernel.

Definition MSQ_CHK_YES : Z := 1.
Definition MSQ_CHK_NO : Z := 0.
Definition BUS_MAX_MSG_LEN : Z := 4060.
Definition MSQ_MAX_NUM : Z := 1024.
Definition MSQ_MODE_BLOCK : Z := 1.
Definition MSQ_MODE_NONBLOCK : Z := 2.
Definition SIZEOF_LONG : Z := 8.

Record IPCChkMsq := mkChk { nChkFlag : Z; nMsqMaxNum : Z; nWaitFlag : Z }.

Record IPCQueMsg := mkQueMsg { nMsgType : Z; nMsgSource : Z; sBuf : bytes }.

(** [IPCQueMsg m = {0}] and [IPCChkMsq c = {0}]. *)
Definition zero_msg : IPCQueMsg := mkQueMsg 0 0 (zeros BUS_MAX_MSG_LEN).
Definition zero_chk : IPCChkMsq := mkChk 0 0 0.
Definition chk_yes : IPCChkMsq := mkChk MSQ_CHK_YES 0 0.

Definition wf_msg (m : IPCQueMsg) : Prop := Z.of_nat (length (sBuf m)) = BUS_MAX_MSG_LEN.

(** The message text in memory, from [nMsgSource] on. *)
Definition body (m : IPCQueMsg) : bytes := le64 (nMsgSource m) ++ sBuf m.

(** The kernel copies [n] bytes out of the message, or a text into it. *)
Definition copy_out (m : IPCQueMsg) (n : Z) : option kmsg :=
  mkMsg (nMsgType m) <$> ld 0 n (body m).

Definition copy_in (text : bytes) (m : IPCQueMsg) (t : Z) : IPCQueMsg :=
  let b := text ++ drop (length text) (body m) in
  mkQueMsg t (get_i64 (take 8 b)) (drop 8 b).

Definition MsqCreate (key : Z) : prog os Z := msgget key true.
Definition MsqGet (key : Z) : prog os Z := msgget key false.

(** The result is computed in [unsigned long] and truncated to [int]. *)
Definition rcv_code (code : Z) : Z := i32 (u64 (u64 code - SIZEOF_LONG)).

Definition MsqRcv (nMsqId : Z) (ipcMsgIn : IPCQueMsg) (nMsgLen nMsgType iRcvMod : Z)
    : prog os (Z * IPCQueMsg) :=
  let nowait := iRcvMod =? MSQ_MODE_NONBLOCK in
  let* (code, text) := msgrcv nMsqId nMsgLen nMsgType nowait in
  ret (rcv_code code,
       if 0 <=? code then copy_in text ipcMsgIn nMsgType else ipcMsgIn).

Definition MsqSnd (nMsqId : Z) (ipcMsgIn : IPCQueMsg) (nMsgLen : Z) (chk : IPCChkMsq) : prog os Z :=
  let send : prog os Z :=
    if BUS_MAX_MSG_LEN <=? nMsgLen then ret (-2)
    else
      let nowait := nWaitFlag chk =? MSQ_MODE_NONBLOCK in
      let* m := deref (copy_out ipcMsgIn (nMsgLen + SIZEOF_LONG)) in
      let* code := msgsnd nMsqId m nowait in
      if code =? -1 then get o_errno else ret 0 in
  if nChkFlag chk =? MSQ_CHK_YES then
    let* stat := msgctl_stat nMsqId in
    match stat with
    | None => get o_errno
    | Some qnum =>
        let max := if nMsqMaxNum chk =? 0 then MSQ_MAX_NUM else nMsqMaxNum chk in
        if u64 max <? qnum then ret (-1) else send
    end
  else send.

Definition MsqCount (msqid : Z) : prog os Z :=
  let* stat := msgctl_stat msqid in
  match stat with
  | None => ret (-1)
  | Some qnum => ret (i32 qnum)
  end.

(** The loop of [MsqClear], [flag] messages to go. *)
Fixpoint clear_loop (flag : nat) (msqid : Z) (msgbuf : IPCQueMsg) : prog os Z :=
  match flag with
  | O => ret 0
  | S flag =>
      let* (rc, msgbuf) := MsqRcv msqid msgbuf BUS_MAX_MSG_LEN 0 MSQ_MODE_NONBLOCK in
      if rc <? 0 then ret (-1) else clear_loop flag msqid msgbuf
  end.

Definition MsqClear (msqid : Z) (msgbuf : IPCQueMsg) : prog os Z :=
  let* flag := MsqCount msqid in
  if flag <? 0 then ret (-1) else clear_loop (Z.to_nat flag) msqid msgbuf.

Definition MsqClose (msqid : Z) : prog os Z := msgctl_rmid msqid.

(** ** Lemmas *)

Lemma rcv_code_ok n : 8 <= n < 2 ^ 31 -> rcv_code n = n - 8.
Proof.
  intros. unfold rcv_code, SIZEOF_LONG. rewrite (u64_id n), u64_id, i32_id by lia. done.
Qed.

Lemma rcv_code_fail : rcv_code (-1) = -9.
Proof. reflexivity. Qed.

Lemma rcv_code_short n : 0 <= n < 8 -> rcv_code n = n - 8.
Proof.
  intros. unfold rcv_code, SIZEOF_LONG. rewrite (u64_id n) by lia. unfold u64, i32.
  replace (n - 8) with (n - 8 + 2 ^ 64 + (-1) * 2 ^ 64) at 1 by lia.
  rewrite Z.mod_add, (Z.mod_small (n - 8 + 2 ^ 64)) by lia.
  replace (n - 8 + 2 ^ 64 + 2 ^ 31) with (n - 8 + 2 ^ 31 + 2 ^ 32 * 2 ^ 32) by lia.
  rewrite Z.mod_add, Z.mod_small by lia. lia.
Qed.

Lemma length_body m : wf_msg m -> Z.of_nat (length (body m)) = 4068.
Proof.
  unfold wf_msg, body, BUS_MAX_MSG_LEN. intros. rewrite length_app. unfold le64.
  rewrite length_enc. lia.
Qed.

Lemma copy_out_ok m n :
  wf_msg m -> 0 <= n <= BUS_MAX_MSG_LEN ->
  copy_out m (n + 8) = Some (mkMsg (nMsgType m) (le64 (nMsgSource m) ++ take (Z.to_nat n) (sBuf m))).
Proof.
  intros W Hn. pose proof (length_body m W). unfold copy_out, ld.
  unfold BUS_MAX_MSG_LEN in *.
  rewrite (proj2 (Z.leb_le 0 (n + 8))), (proj2 (Z.leb_le (0 + (n + 8)) _)) by lia.
  cbn [andb Z.leb Z.compare fmap option_fmap option_map]. do 2 f_equal.
  change (Z.to_nat 0) with 0%nat. rewrite drop_0. unfold body.
  replace (Z.to_nat (n + 8)) with (length (le64 (nMsgSource m)) + Z.to_nat n)%nat
    by (unfold le64; rewrite length_enc; lia).
  apply take_app_add.
Qed.

(** Receiving a text that was copied out of a message fills the start of the buffer. *)
Lemma copy_in_out src data m t :
  wf_msg m -> Z.of_nat (length data) <= BUS_MAX_MSG_LEN -> LONG_MIN <= src <= LONG_MAX ->
  copy_in (le64 src ++ data) m t = mkQueMsg t src (data ++ drop (length data) (sBuf m)).
Proof.
  unfold LONG_MIN, LONG_MAX. intros W Hd Hs. unfold copy_in. rewrite <- app_assoc.
  rewrite take_app_length', drop_app_length' by (unfold le64; now rewrite length_enc).
  assert (E : drop (length (le64 src ++ data)) (body m) = drop (length data) (sBuf m)).
  { unfold body, le64. rewrite length_app, drop_app_ge; rewrite !length_enc; [f_equal; lia|lia]. }
  now rewrite get_i64_le64, i64_id, E by lia.
Qed.

Section QueueState.
Context (qid : Z).

(** The queue's messages. *)
Definition msgs (o : os) : list kmsg :=
  match queue qid o with Some q => q_msgs q | None => [] end.

Lemma msgrcv_found size typ nowait o q m r :
  queue qid o = Some q -> 0 < typ -> of_type typ (q_msgs q) = m :: r ->
  Z.of_nat (length (m_text m)) <= size ->
  exists l, msgrcv qid size typ nowait o
            = Ret (Z.of_nat (length (m_text m)), m_text m) (set_queue qid (set_msgs l q) o)
    /\ of_type typ l = r /\ (forall u, u <> typ -> of_type u l = of_type u (q_msgs q))
    /\ length (q_msgs q) = S (length l).
Proof.
  intros Hq Ht Hm Hs. destruct (pick_type _ _ _ _ Hm) as (l & Hp & Hr & Ho & Hl).
  exists l. split; [|done]. unfold msgrcv, try_rcv, bind, get. cbn.
  rewrite Hq. rewrite (pick_ext _ (fun m => m_type m =? typ)), Hp
    by (intros; now apply msg_match_pos).
  destruct (Z.ltb_spec size (Z.of_nat (length (m_text m)))); [lia|]. done.
Qed.

Lemma msgrcv_toobig size typ nowait o q m r :
  queue qid o = Some q -> 0 < typ -> of_type typ (q_msgs q) = m :: r ->
  size < Z.of_nat (length (m_text m)) ->
  msgrcv qid size typ nowait o = Ret (-1, []) (set_errno E2BIG o).
Proof.
  intros Hq Ht Hm Hs. destruct (pick_type _ _ _ _ Hm) as (l & Hp & _).
  unfold msgrcv, try_rcv, bind, get. cbn. rewrite Hq.
  rewrite (pick_ext _ (fun m => m_type m =? typ)), Hp by (intros; now apply msg_match_pos).
  destruct (Z.ltb_spec size (Z.of_nat (length (m_text m)))); [done|lia].
Qed.

Lemma msgrcv_nomsg size typ o q :
  queue qid o = Some q -> 0 < typ -> of_type typ (q_msgs q) = [] ->
  msgrcv qid size typ true o = Ret (-1, []) (set_errno ENOMSG o).
Proof.
  intros Hq Ht Hm. unfold msgrcv, try_rcv, bind, get. cbn. rewrite Hq.
  rewrite (pick_ext _ (fun m => m_type m =? typ)), pick_none
    by (try (intros; now apply msg_match_pos); now apply of_type_none). done.
Qed.

Lemma msgsnd_ok m nowait o q :
  queue qid o = Some q -> 1 <= m_type m -> Z.of_nat (length (m_text m)) <= MSGMAX ->
  fits m q = true ->
  msgsnd qid m nowait o = Ret 0 (set_queue qid (enqueue m q) o).
Proof.
  intros Hq Ht Hl Hf. unfold msgsnd.
  destruct (Z.ltb_spec (m_type m) 1); [lia|]. destruct (Z.ltb_spec MSGMAX (Z.of_nat (length (m_text m)))); [lia|].
  unfold try_snd, bind, get. cbn. rewrite Hq, Hf. done.
Qed.
End QueueState.

Lemma MsqRcv_of_msgrcv qid buf len t mode o code text o' :
  msgrcv qid len t (mode =? MSQ_MODE_NONBLOCK) o = Ret (code, text) o' ->
  MsqRcv qid buf len t mode o
  = Ret (rcv_code code, if 0 <=? code then copy_in text buf t else buf) o'.
Proof. intros H. unfold MsqRcv. erewrite bind_Ret by exact H. done. Qed.

(** A message whose text has a [long] and data that fit the buffer is received. *)
Lemma MsqRcv_found qid q o buf t mode src data r :
  queue qid o = Some q -> wf_msg buf -> 0 < t ->
  of_type t (q_msgs q) = mkMsg t (le64 src ++ data) :: r ->
  LONG_MIN <= src <= LONG_MAX -> Z.of_nat (length data) <= BUS_MAX_MSG_LEN - 8 ->
  exists l,
    MsqRcv qid buf BUS_MAX_MSG_LEN t mode o
    = Ret (Z.of_nat (length data), mkQueMsg t src (data ++ drop (length data) (sBuf buf)))
          (set_queue qid (set_msgs l q) o)
    /\ of_type t l = r /\ (forall u, u <> t -> of_type u l = of_type u (q_msgs q))
    /\ length (q_msgs q) = S (length l).
Proof.
  unfold BUS_MAX_MSG_LEN. intros Hq W Ht Hm Hs Hd.
  assert (L : Z.of_nat (length (le64 src ++ data)) = 8 + Z.of_nat (length data))
    by (unfold le64; rewrite length_app, length_enc; lia).
  destruct (msgrcv_found qid BUS_MAX_MSG_LEN t (mode =? MSQ_MODE_NONBLOCK) o q _ _ Hq Ht Hm)
    as (l & E & H); cbn [m_text] in *; [unfold BUS_MAX_MSG_LEN; lia|].
  exists l. split; [|done]. rewrite (MsqRcv_of_msgrcv _ _ _ _ _ _ _ _ _ E), L.
  rewrite rcv_code_ok, (proj2 (Z.leb_le 0 _)) by lia.
  rewrite copy_in_out by (done || unfold BUS_MAX_MSG_LEN; lia).
  do 2 f_equal; lia.
Qed.

Definition wire (m : IPCQueMsg) (len : Z) : kmsg :=
  mkMsg (nMsgType m) (le64 (nMsgSource m) ++ take (Z.to_nat len) (sBuf m)).

Lemma length_wire m len :
  wf_msg m -> 0 <= len <= BUS_MAX_MSG_LEN -> Z.of_nat (length (m_text (wire m len))) = 8 + len.
Proof.
  unfold wf_msg. intros W H. unfold wire, le64. cbn [m_text].
  rewrite length_app, length_enc, length_take. lia.
Qed.

(** The send path without waiting, and each refusal. *)
Lemma MsqSnd_accepts qid q o m len :
  queue qid o = Some q -> wf_msg m -> 0 <= len < BUS_MAX_MSG_LEN -> 1 <= nMsgType m ->
  Z.of_nat (length (q_msgs q)) <= MSQ_MAX_NUM -> fits (wire m len) q = true ->
  MsqSnd qid m len chk_yes o = Ret 0 (set_queue qid (enqueue (wire m len) q) o).
Proof.
  intros Hq W Hlen Ht Hn Hf. unfold MsqSnd, msgctl_stat, bind, get. cbn.
  change (queue qid o) with (queue qid o). unfold id. rewrite Hq. cbn.
  change (u64 MSQ_MAX_NUM) with MSQ_MAX_NUM.
  destruct (Z.ltb_spec MSQ_MAX_NUM (Z.of_nat (length (q_msgs q)))); [lia|].
  destruct (Z.leb_spec BUS_MAX_MSG_LEN len); [lia|].
  unfold SIZEOF_LONG. rewrite copy_out_ok by (done || lia). cbn.
  change (mkMsg _ _) with (wire m len).
  pose proof (length_wire m len W ltac:(lia)).
  rewrite (msgsnd_ok qid (wire m len) _ o q) by (done || unfold MSGMAX, BUS_MAX_MSG_LEN in *; lia).
  done.
Qed.

(** ** Properties *)

(** What [MsqSnd] with its default check does on a queue: it answers [errno] when
    the queue does not exist, -1 when more than 1024 messages wait, -2 when the data
    do not fit the buffer, and otherwise, when the kernel has room, 0 with the
    message appended behind all others; the refusals leave the queue unchanged. *)
Theorem MsqSnd_spec qid o m len :
  wf_msg m -> 0 <= len -> 1 <= nMsgType m ->
  match queue qid o with
  | None => MsqSnd qid m len chk_yes o = Ret EINVAL (set_errno EINVAL o)
  | Some q =>
      if MSQ_MAX_NUM <? Z.of_nat (length (q_msgs q)) then MsqSnd qid m len chk_yes o = Ret (-1) o
      else if BUS_MAX_MSG_LEN <=? len then MsqSnd qid m len chk_yes o = Ret (-2) o
      else fits (wire m len) q = true ->
           exists o', MsqSnd qid m len chk_yes o = Ret 0 o'
             /\ msgs qid o' = q_msgs q ++ [wire m len]
             /\ (forall qid', qid' <> qid -> queue qid' o' = queue qid' o)
  end.
Proof.
  intros W Hlen Ht. destruct (queue qid o) as [q|] eqn:Hq.
  - destruct (Z.ltb_spec MSQ_MAX_NUM (Z.of_nat (length (q_msgs q)))) as [H1|H1].
    + unfold MsqSnd, msgctl_stat, bind, get, id. cbn. rewrite Hq. cbn.
      change (u64 MSQ_MAX_NUM) with MSQ_MAX_NUM. now rewrite (proj2 (Z.ltb_lt _ _) H1).
    + destruct (Z.leb_spec BUS_MAX_MSG_LEN len) as [H2|H2].
      * unfold MsqSnd, msgctl_stat, bind, get, id. cbn. rewrite Hq. cbn.
        change (u64 MSQ_MAX_NUM) with MSQ_MAX_NUM.
        now rewrite (proj2 (Z.ltb_ge _ _) H1), (proj2 (Z.leb_le _ _) H2).
      * intros Hf. eexists. split; [apply MsqSnd_accepts; done || lia|].
        unfold msgs. rewrite queue_set_eq. split; [done|].
        intros. now apply queue_set_ne.
  - unfold MsqSnd, msgctl_stat, bind, get, id. cbn. now rewrite Hq.
Qed.

(** A message of at most 4052 data bytes that is alone of its type is received as it
    was sent, in either mode: same length, same source, same data, and the other
    types' messages are as before. *)
Theorem MsqSnd_MsqRcv qid q o m buf len mode :
  queue qid o = Some q -> wf_msg m -> wf_msg buf ->
  0 <= len <= BUS_MAX_MSG_LEN - 8 -> 1 <= nMsgType m ->
  LONG_MIN <= nMsgSource m <= LONG_MAX ->
  Z.of_nat (length (q_msgs q)) <= MSQ_MAX_NUM -> fits (wire m len) q = true ->
  of_type (nMsgType m) (q_msgs q) = [] ->
  exists o1 o2,
    MsqSnd qid m len chk_yes o = Ret 0 o1
    /\ MsqRcv qid buf BUS_MAX_MSG_LEN (nMsgType m) mode o1
       = Ret (len, mkQueMsg (nMsgType m) (nMsgSource m)
                     (take (Z.to_nat len) (sBuf m) ++ drop (Z.to_nat len) (sBuf buf))) o2
    /\ forall u, of_type u (msgs qid o2) = of_type u (q_msgs q).
Proof.
  unfold BUS_MAX_MSG_LEN. intros Hq W Wb Hlen Ht Hs Hn Hf He.
  rewrite (MsqSnd_accepts qid q) by (done || unfold BUS_MAX_MSG_LEN; lia).
  set (o1 := set_queue qid _ o).
  assert (Ld : length (take (Z.to_nat len) (sBuf m)) = Z.to_nat len).
  { unfold wf_msg, BUS_MAX_MSG_LEN in W. rewrite length_take. lia. }
  destruct (MsqRcv_found qid (enqueue (wire m len) q) o1 buf (nMsgType m) mode (nMsgSource m)
              (take (Z.to_nat len) (sBuf m)) []) as (l & E & H1 & H2 & _);
    rewrite ?Ld; unfold BUS_MAX_MSG_LEN; try done; try lia.
  - unfold o1. apply queue_set_eq.
  - cbn [enqueue q_msgs set_msgs]. rewrite of_type_app, He. unfold of_type, wire.
    cbn [List.filter m_type app]. now rewrite Z.eqb_refl.
  - exists o1, (set_queue qid (set_msgs l (enqueue (wire m len) q)) o1). split; [done|].
    split; [rewrite Ld in E; etransitivity; [exact E|]; do 2 f_equal; lia|].
    intros u. unfold msgs. rewrite queue_set_eq. cbn [q_msgs set_msgs].
    destruct (Z.eq_dec u (nMsgType m)) as [->|Hu]; [now rewrite H1|].
    rewrite H2 by done. cbn [enqueue q_msgs set_msgs]. rewrite of_type_app.
    unfold of_type at 2, wire. cbn [List.filter m_type].
    destruct (Z.eqb_spec (nMsgType m) u); [lia|]. apply app_nil_r.
Qed.

(** A message of 4053 to 4059 data bytes is accepted by [MsqSnd] but can never be
    received: [MsqRcv] asks for 4060 bytes including the eight of [nMsgSource], fails
    with [E2BIG] in either mode and leaves the message at the head of its type. *)
Theorem MsqSnd_unreceivable qid q o m buf len mode :
  queue qid o = Some q -> wf_msg m ->
  BUS_MAX_MSG_LEN - 8 < len < BUS_MAX_MSG_LEN -> 1 <= nMsgType m ->
  Z.of_nat (length (q_msgs q)) <= MSQ_MAX_NUM -> fits (wire m len) q = true ->
  of_type (nMsgType m) (q_msgs q) = [] ->
  exists o1,
    MsqSnd qid m len chk_yes o = Ret 0 o1
    /\ MsqRcv qid buf BUS_MAX_MSG_LEN (nMsgType m) mode o1 = Ret (-9, buf) (set_errno E2BIG o1).
Proof.
  unfold BUS_MAX_MSG_LEN. intros Hq W Hlen Ht Hn Hf He.
  rewrite (MsqSnd_accepts qid q) by (done || unfold BUS_MAX_MSG_LEN; lia).
  eexists. split; [done|].
  erewrite MsqRcv_of_msgrcv; [rewrite rcv_code_fail; done|].
  eapply (msgrcv_toobig qid _ _ _ _ _ (wire m len) []).
  - apply queue_set_eq.
  - lia.
  - cbn [enqueue q_msgs set_msgs]. rewrite of_type_app, He. unfold of_type, wire.
    cbn [List.filter m_type app]. now rewrite Z.eqb_refl.
  - rewrite length_wire by (done || unfold BUS_MAX_MSG_LEN; lia). unfold BUS_MAX_MSG_LEN. lia.
Qed.

Lemma clear_loop_empties qid msgbuf n o q :
  queue qid o = Some q -> length (q_msgs q) = n ->
  Forall (fun m => 8 <= Z.of_nat (length (m_text m)) <= BUS_MAX_MSG_LEN) (q_msgs q) ->
  exists o', clear_loop n qid msgbuf o = Ret 0 o' /\ queue qid o' = Some (set_msgs [] q)
    /\ forall qid', qid' <> qid -> queue qid' o' = queue qid' o.
Proof.
  unfold BUS_MAX_MSG_LEN.
  revert msgbuf o q. induction n as [|n IH]; intros buf o q Hq Hn Hf.
  - exists o. cbn. destruct q as [k l b]. cbn in *. destruct l; [|done]. auto.
  - destruct (q_msgs q) as [|m l] eqn:El; [done|]. inversion Hf as [|? ? Hm Hl]; subst.
    assert (E : msgrcv qid 4060 0 true o
                = Ret (Z.of_nat (length (m_text m)), m_text m) (set_queue qid (set_msgs l q) o)).
    { unfold msgrcv, try_rcv, bind, get, id. cbn. rewrite Hq, El. cbn.
      destruct (Z.ltb_spec 4060 (Z.of_nat (length (m_text m)))); [lia|]. done. }
    cbn [clear_loop]. erewrite bind_Ret by (apply MsqRcv_of_msgrcv; exact E).
    rewrite rcv_code_ok by lia.
    destruct (Z.ltb_spec (Z.of_nat (length (m_text m)) - 8) 0); [lia|].
    destruct (IH (if 0 <=? Z.of_nat (length (m_text m)) then copy_in (m_text m) buf 0 else buf)
                (set_queue qid (set_msgs l q) o) (set_msgs l q)) as (o' & -> & Hq' & Ho);
      [apply queue_set_eq | cbn in *; lia | done |].
    exists o'. split; [done|]. split; [now rewrite Hq'|].
    intros qid' Hne. rewrite Ho by done. now apply queue_set_ne.
Qed.

(** [MsqClear] empties a queue whose messages all came from [MsqSnd] and are
    receivable, answers 0, and touches no other queue. *)
Theorem MsqClear_empties qid o q msgbuf :
  queue qid o = Some q -> Z.of_nat (length (q_msgs q)) <= INT_MAX ->
  Forall (fun m => 8 <= Z.of_nat (length (m_text m)) <= BUS_MAX_MSG_LEN) (q_msgs q) ->
  exists o', MsqClear qid msgbuf o = Ret 0 o' /\ msgs qid o' = []
    /\ forall qid', qid' <> qid -> queue qid' o' = queue qid' o.
Proof.
  unfold INT_MAX. intros Hq Hn Hf.
  destruct (clear_loop_empties qid msgbuf _ o q Hq eq_refl Hf) as (o' & E & Hq' & Ho).
  exists o'. split; [|unfold msgs; now rewrite Hq'].
  unfold MsqClear, MsqCount, msgctl_stat, bind, get, id, ret. cbn [obind].
  rewrite Hq. cbn [obind]. rewrite i32_id by lia.
  destruct (Z.ltb_spec (Z.of_nat (length (q_msgs q))) 0); [lia|]. now rewrite Nat2Z.id.
Qed.

(** ** Instances *)

Definition demo_queue (key : Z) : kqueue := mkQueue key [] MSGMNB.

Definition demo_os : os :=
  mkOs (mkKernel (<[1 := demo_queue 601107]> (<[2 := demo_queue 601117]> ∅)) 3 ∅ ∅)
       0 [] [] 1000 4242 [] [] [] None (str "/home/sunda") [] None.

Definition demo_msg : IPCQueMsg :=
  mkQueMsg 300007 0 (str "hello" ++ zeros (BUS_MAX_MSG_LEN - 5)).

Lemma demo_msg_wf : wf_msg demo_msg.
Proof. reflexivity. Qed.

Lemma zero_msg_wf : wf_msg zero_msg.
Proof. reflexivity. Qed.

#[export] Hint Resolve demo_msg_wf zero_msg_wf : core.

Lemma MsqSnd_spec_witness :
  wf_msg demo_msg /\
  match queue 1 demo_os with
  | None => MsqSnd 1 demo_msg 5 chk_yes demo_os = Ret EINVAL (set_errno EINVAL demo_os)
  | Some q =>
      if MSQ_MAX_NUM <? Z.of_nat (length (q_msgs q)) then MsqSnd 1 demo_msg 5 chk_yes demo_os = Ret (-1) demo_os
      else if BUS_MAX_MSG_LEN <=? 5 then MsqSnd 1 demo_msg 5 chk_yes demo_os = Ret (-2) demo_os
      else fits (wire demo_msg 5) q = true ->
           exists o', MsqSnd 1 demo_msg 5 chk_yes demo_os = Ret 0 o'
             /\ msgs 1 o' = q_msgs q ++ [wire demo_msg 5]
             /\ (forall qid', qid' <> 1 -> queue qid' o' = queue qid' demo_os)
  end.
Proof. split; [reflexivity | apply (MsqSnd_spec 1 demo_os demo_msg 5); [reflexivity | lia | cbn; lia]]. Defined.

Lemma MsqSnd_MsqRcv_witness :
  exists o1 o2,
    MsqSnd 1 demo_msg 5 chk_yes demo_os = Ret 0 o1
    /\ MsqRcv 1 zero_msg BUS_MAX_MSG_LEN 300007 MSQ_MODE_BLOCK o1
       = Ret (5, mkQueMsg 300007 0
                     (take (Z.to_nat 5) (sBuf demo_msg) ++ drop (Z.to_nat 5) (sBuf zero_msg))) o2
    /\ forall u, of_type u (msgs 1 o2) = of_type u (q_msgs (demo_queue 601107)).
Proof.
  apply (MsqSnd_MsqRcv 1 (demo_queue 601107) demo_os demo_msg zero_msg 5 MSQ_MODE_BLOCK);
    try reflexivity; vm_compute; intuition congruence.
Defined.

Lemma MsqSnd_unreceivable_witness :
  exists o1,
    MsqSnd 1 demo_msg 4055 chk_yes demo_os = Ret 0 o1
    /\ MsqRcv 1 zero_msg BUS_MAX_MSG_LEN 300007 MSQ_MODE_BLOCK o1
       = Ret (-9, zero_msg) (set_errno E2BIG o1).
Proof.
  apply (MsqSnd_unreceivable 1 (demo_queue 601107) demo_os demo_msg zero_msg 4055 MSQ_MODE_BLOCK);
    try reflexivity; vm_compute; intuition congruence.
Defined.

Definition full_os : os :=
  set_queue 1 (set_msgs [wire demo_msg 5; wire demo_msg 0] (demo_queue 601107)) demo_os.

Lemma MsqClear_empties_witness :
  exists o', MsqClear 1 zero_msg full_os = Ret 0 o' /\ msgs 1 o' = []
    /\ forall qid', qid' <> 1 -> queue qid' o' = queue qid' full_os.
Proof.
  apply (MsqClear_empties 1 full_os (set_msgs [wire demo_msg 5; wire demo_msg 0] (demo_queue 601107)) zero_msg);
    [reflexivity | vm_compute; congruence |].
  repeat constructor; vm_compute; congruence.
Defined.
