(* ===== verification/Funipc.v ===== *)
(** * Semaphores and shared memory: [funsem.c], [funmem.c]

    The two files under [src/dev/src/pubfun/common] name System V objects by
    strings.  [makekey], which each of them defines, turns the name into a key.
    An attached segment is represented by its identifier; [NULL] is [None]. *)

From Stdlib Require Import ZArith Lia Bool List Ascii String.
From stdpp Require Import base list gmap.
From S2P Require Import Prelude Cstr Kernel.

Definition IPC_KEY_BASE : Z := 16843009.
Definition IPC_PRIVATE : Z := 0.

(** ** Keys *)

Definition hexval (c : ascii) : option Z :=
  let u := uchar c in
  if isdigit c then Some (u - 48)
  else if (97 <=? u) && (u <=? 102) then Some (u - 87)
  else if (65 <=? u) && (u <=? 70) then Some (u - 55)
  else None.

(** The digits read by [strtol(buf, &stop, 16)]; it saturates. *)
Fixpoint hexdigits (acc : Z) (s : bytes) : Z :=
  match s with
  | c :: s => match hexval c with Some d => hexdigits (16 * acc + d) s | None => acc end
  | [] => acc
  end.

Definition strtol16 (s : bytes) : Z := clamp_long (hexdigits 0 s).

(** [None]: the hexadecimal text does not fit [buf[128 + 1]]. *)
Definition makekey (region : option bytes) (name : bytes) : option Z :=
  let buf := List.concat (map fmt_02x name) in
  if 128 <? Z.of_nat (length buf) then None
  else
    let key := i32 (strtol16 buf) in
    let base_key := match region with None => 0 | Some r => atoi r end in
    let base_key := if (base_key <? 0) || (255 <? base_key) then 0 else base_key in
    Some (i32 (key + IPC_KEY_BASE * base_key)).

Definition name_key (name : option bytes) : prog os Z :=
  match name with
  | Some name => let* region := get o_region in deref (makekey region name)
  | None => ret IPC_PRIVATE
  end.

(** ** Semaphores *)

Definition sem_semget_internal (sem_key sem_size : Z) (creat : bool) : prog os Z :=
  semget sem_key sem_size creat.

(** [for (i = i0; i < sem_size; i++)] with [n] rounds left. *)
Fixpoint attach_loop (n : nat) (i sem_id : Z) : prog os Z :=
  match n with
  | O => ret sem_id
  | S n =>
      let* rc := semctl_setval sem_id i 1 in
      if rc =? -1 then ret (-1) else attach_loop n (i + 1) sem_id
  end.

Definition sem_attach_internal (sem_id sem_size : Z) : prog os Z :=
  attach_loop (Z.to_nat sem_size) 0 sem_id.

Definition sem_delete_internal (sem_id : Z) : prog os Z :=
  let* rc := semctl_rmid sem_id in
  if rc =? -1 then ret (-1) else ret 0.

Definition sem_getid (semname : option bytes) (semsize createflg : Z) : prog os Z :=
  let* semkey := name_key semname in
  sem_semget_internal semkey semsize (createflg =? 1).

Definition sem_call (sem_num sem_id op : Z) : prog os Z :=
  let* rc := semop sem_id sem_num op in
  if rc <? 0 then ret (-1) else ret 0.

Definition sem_create (semname : option bytes) (semsize : Z) : prog os Z :=
  let* semid := sem_getid semname semsize 1 in
  if semid <? 0 then ret (-1) else sem_attach_internal semid semsize.

Definition sem_delete (semname : option bytes) (semsize : Z) : prog os Z :=
  let* semid := sem_getid semname semsize 0 in
  if semid <? 0 then ret (-1) else sem_delete_internal semid.

Definition sem_connect (semname : option bytes) (semsize : Z) : prog os Z :=
  let* semid := sem_getid semname semsize 0 in
  if semid <? 0 then ret (-1) else sem_attach_internal semid semsize.

Definition sem_lock (sem_num sem_id : Z) : prog os Z :=
  let* rc := sem_call sem_num sem_id (-1) in
  if rc =? -1 then ret (-1) else ret 0.

Definition sem_unlock (sem_num sem_id : Z) : prog os Z :=
  let* rc := sem_call sem_num sem_id 1 in
  if rc =? -1 then ret (-1) else ret 0.

(** ** Shared memory *)

Definition shm_shmget_internal (shm_key shm_size : Z) (creat : bool) : prog os Z :=
  shmget shm_key shm_size creat.

(** [shmat] of an existing segment; the code's test for [NULL] never fires. *)
Definition shm_attach_internal (shmid : Z) : prog os (option Z) := ret (Some shmid).

Definition shm_delete_internal (shmid : Z) : prog os Z :=
  let* rc := shmctl_rmid shmid in
  if rc <? 0 then ret (-1) else ret 0.

Definition shm_getid (shmname : option bytes) (shmsize createflg : Z) : prog os Z :=
  let* shmkey := name_key shmname in
  shm_shmget_internal shmkey shmsize (createflg =? 1).

Definition shm_create (shmname : option bytes) (shmsize : Z) : prog os (option Z) :=
  let* shmid := shm_getid shmname shmsize 1 in
  if shmid <? 0 then ret None else shm_attach_internal shmid.

Definition shm_connect (shmname : option bytes) : prog os (option Z) :=
  let* shmid := shm_getid shmname 0 0 in
  if shmid <? 0 then ret None else shm_attach_internal shmid.

(** [shmdt] of an address that is attached succeeds. *)
Definition shm_delete (shmname : option bytes) (mem : option Z) : prog os Z :=
  let* memid := shm_getid shmname 0 0 in
  if memid <? 0 then ret (-1) else shm_delete_internal memid.

(** ** Finding, creating, removing by name *)

Section ByName.
Context (name : bytes) (key : Z) (o : os).
Hypothesis (Hk : makekey (o_region o) name = Some key).

Lemma name_key_ok : name_key (Some name) o = Ret key o.
Proof. unfold name_key, bind, get. cbn. now rewrite Hk. Qed.

Lemma shm_getid_absent :
  find_key h_key key (k_shm (o_kern o)) = None -> key <> 0 ->
  shm_getid (Some name) 0 0 o = Ret (-1) (set_errno ENOENT o).
Proof.
  intros Hf H0. unfold shm_getid. rewrite (bind_Ret _ _ _ _ _ name_key_ok).
  now apply ipc_get_absent.
Qed.

Lemma shm_getid_found id :
  find_key h_key key (k_shm (o_kern o)) = Some id ->
  shm_getid (Some name) 0 0 o = Ret id o.
Proof.
  intros Hf. unfold shm_getid. rewrite (bind_Ret _ _ _ _ _ name_key_ok).
  now apply ipc_get_found.
Qed.

Lemma shm_connect_absent :
  find_key h_key key (k_shm (o_kern o)) = None -> key <> 0 ->
  shm_connect (Some name) o = Ret None (set_errno ENOENT o).
Proof.
  intros Hf H0. unfold shm_connect. now rewrite (bind_Ret _ _ _ _ _ (shm_getid_absent Hf H0)).
Qed.

Lemma shm_connect_found id :
  find_key h_key key (k_shm (o_kern o)) = Some id -> 0 <= id ->
  shm_connect (Some name) o = Ret (Some id) o.
Proof.
  intros Hf H0. unfold shm_connect. rewrite (bind_Ret _ _ _ _ _ (shm_getid_found id Hf)).
  destruct (Z.ltb_spec id 0); [lia|done].
Qed.

Lemma shm_create_new size :
  find_key h_key key (k_shm (o_kern o)) = None -> 0 <= k_nextid (o_kern o) ->
  let n := k_nextid (o_kern o) in
  shm_create (Some name) size o
  = Ret (Some n) (set_kern (next_id (set_shm (<[n := mkShm key size]> (k_shm (o_kern o))) (o_kern o))) o).
Proof.
  intros Hf H0 n. unfold shm_create, shm_getid.
  erewrite bind_Ret; [|erewrite bind_Ret by apply name_key_ok; now apply ipc_get_new].
  fold n. destruct (Z.ltb_spec n 0); [lia|done].
Qed.

Lemma sem_create_new :
  find_key s_key key (k_sem (o_kern o)) = None -> 0 <= k_nextid (o_kern o) ->
  let n := k_nextid (o_kern o) in
  sem_create (Some name) 1 o
  = Ret n (set_kern (next_id (set_sem (<[n := mkSem key [1]]> (k_sem (o_kern o))) (o_kern o))) o).
Proof.
  intros Hf H0 n. unfold sem_create, sem_getid.
  erewrite bind_Ret; [|erewrite bind_Ret by apply name_key_ok; now apply ipc_get_new].
  fold n. destruct (Z.ltb_spec n 0); [lia|]. unfold sem_attach_internal. change (Z.to_nat 1) with 1%nat.
  cbn [attach_loop]. unfold semctl_setval, bind, get. cbn.
  rewrite lookup_insert_eq. cbn. unfold sem_upd. cbn. rewrite lookup_insert_eq. cbn.
  unfold set_sem, next_id, set_kern. cbn. now rewrite insert_insert_eq.
Qed.
End ByName.

(** ** Keys collide *)

Definition plain (c : ascii) : Prop := 0 < uchar c < 128.

Lemma schar_plain c : plain c -> u32 (schar c) = uchar c.
Proof.
  unfold plain. intros H. unfold schar. destruct (Z.ltb_spec (uchar c) 128); [|lia].
  apply u32_id. lia.
Qed.

Lemma hexval_hexdigit d : 0 <= d < 16 -> hexval (hexdigit d) = Some d.
Proof.
  intros H.
  assert (D : d = 0 \/ d = 1 \/ d = 2 \/ d = 3 \/ d = 4 \/ d = 5 \/ d = 6 \/ d = 7 \/ d = 8
    \/ d = 9 \/ d = 10 \/ d = 11 \/ d = 12 \/ d = 13 \/ d = 14 \/ d = 15) by lia.
  repeat destruct D as [->|D]; try reflexivity. subst. reflexivity.
Qed.

Lemma hexdigits_plain acc c s :
  plain c -> hexdigits acc (fmt_02x c ++ s) = hexdigits (256 * acc + uchar c) s.
Proof.
  intros H. unfold fmt_02x. rewrite schar_plain by done. unfold plain in H.
  destruct (Z.ltb_spec (uchar c) 256); [|lia]. cbn [app hexdigits].
  rewrite !hexval_hexdigit
    by (try apply Z.mod_pos_bound; try split; try apply Z.div_pos; try apply Z.div_lt_upper_bound; lia).
  f_equal. pose proof (Z.div_mod (uchar c) 16). lia.
Qed.

Lemma hexdigits_grow acc s :
  Forall plain s -> 0 <= acc ->
  acc * 256 ^ Z.of_nat (length s) <= hexdigits acc (List.concat (map fmt_02x s)).
Proof.
  intros H. revert acc. induction H as [|c s Hc Hs IH]; intros acc Ha; cbn [map List.concat length].
  - cbn. lia.
  - rewrite hexdigits_plain by done. unfold plain in Hc.
    rewrite Nat2Z.inj_succ, Z.pow_succ_r by lia.
    pose proof (IH (256 * acc + uchar c) ltac:(lia)).
    pose proof (Z.pow_nonneg 256 (Z.of_nat (length s)) ltac:(lia)). nia.
Qed.

Lemma length_fmt_plain s :
  Forall plain s -> length (List.concat (map fmt_02x s)) = (2 * length s)%nat.
Proof.
  induction 1 as [|c s Hc _ IH]; cbn [map List.concat length]; [done|].
  rewrite length_app, IH. unfold fmt_02x. rewrite schar_plain by done.
  unfold plain in Hc. destruct (Z.ltb_spec (uchar c) 256); [cbn; lia|lia].
Qed.

(** Every name of 9 to 64 plain characters gets the same key: its hexadecimal
    rendering exceeds a [long], [strtol] saturates, and the truncation to [key_t] is
    -1.  All names the system uses ([SD_MEM_NAME], [COMM_IPC_NAME], [SD_SEM_NAME])
    are that long. *)
Theorem makekey_collides name :
  Forall plain name -> (9 <= length name <= 64)%nat -> makekey None name = Some (-1).
Proof.
  intros Hp Hl. unfold makekey. rewrite length_fmt_plain by done.
  destruct (Z.ltb_spec 128 (Z.of_nat (2 * length name))); [lia|].
  assert (E : strtol16 (List.concat (map fmt_02x name)) = LONG_MAX).
  { destruct Hp as [|c s Hc Hs]; [cbn in Hl; lia|]. unfold strtol16. cbn [map List.concat].
    rewrite hexdigits_plain by done. unfold plain in Hc.
    pose proof (hexdigits_grow (256 * 0 + uchar c) s Hs ltac:(lia)) as G.
    assert (256 ^ 8 <= 256 ^ Z.of_nat (length s)) by (apply Z.pow_le_mono_r; cbn in Hl; lia).
    change (256 ^ 8) with (2 ^ 64) in *.
    unfold clamp_long, LONG_MIN, LONG_MAX. nia. }
  rewrite E. reflexivity.
Qed.

Lemma makekey_collides_witness :
  Forall plain (str "SD_SEM_NAME") /\ makekey None (str "SD_SEM_NAME") = Some (-1).
Proof.
  assert (H : Forall plain (str "SD_SEM_NAME")) by (repeat constructor; vm_compute; congruence).
  split; [exact H|]. apply (makekey_collides (str "SD_SEM_NAME") H). cbn. lia.
Defined.

(** ** Locking *)

Definition sem_val (sid num : Z) (o : os) : option Z :=
  s ← k_sem (o_kern o) !! sid; znth (s_vals s) num.

Lemma sem_val_upd sid num f o v :
  sem_val sid num o = Some v ->
  sem_val sid num (set_kern (sem_upd sid num f (o_kern o)) o) = Some (f v).
Proof.
  unfold sem_val, sem_upd. cbn [o_kern set_kern].
  destruct (k_sem (o_kern o) !! sid) as [s|] eqn:E; cbn; [|done]. intros H.
  cbn [k_sem set_sem]. rewrite lookup_insert_eq. cbn. now apply znth_zupd_eq.
Qed.

Lemma semop_now sid num op o v :
  sem_val sid num o = Some v -> 0 <= v + op ->
  semop sid num op o = Ret 0 (set_kern (sem_upd sid num (fun v => v + op) (o_kern o)) o).
Proof.
  unfold sem_val, semop, try_sem, bind, get. cbn. intros -> H.
  now rewrite (proj2 (Z.leb_le _ _) H).
Qed.

Lemma semctl_setval_now sid num w o v :
  sem_val sid num o = Some v ->
  semctl_setval sid num w o = Ret 0 (set_kern (sem_upd sid num (fun _ => w) (o_kern o)) o).
Proof. unfold sem_val, semctl_setval, bind, get. cbn. now intros ->. Qed.

Lemma sem_lock_free sid o v :
  sem_val sid 0 o = Some v -> 1 <= v ->
  exists o', sem_lock 0 sid o = Ret 0 o' /\ sem_val sid 0 o' = Some (v - 1)
             /\ o_sched o' = o_sched o.
Proof.
  intros Hv H. exists (set_kern (sem_upd sid 0 (fun v => v + -1) (o_kern o)) o).
  split; [|split; [now rewrite (sem_val_upd _ _ _ _ v)|done]].
  unfold sem_lock, sem_call, bind. rewrite (semop_now _ _ (-1) _ v) by (done || lia). done.
Qed.

Lemma sem_lock_waits sid o :
  sem_val sid 0 o = Some 0 -> o_sched o = [] -> sem_lock 0 sid o = Block (set_sched [] o).
Proof.
  unfold sem_val, sem_lock, sem_call, semop, try_sem, bind, get. cbn. intros -> ->. done.
Qed.

(** The lock excludes: from a free semaphore [sem_lock] succeeds, a second
    [sem_lock] then waits, and after [sem_unlock] it succeeds again. *)
Theorem sem_lock_excludes sid o :
  sem_val sid 0 o = Some 1 -> o_sched o = [] ->
  exists o1 o2 o3,
    sem_lock 0 sid o = Ret 0 o1 /\ sem_lock 0 sid o1 = Block (set_sched [] o1)
    /\ sem_unlock 0 sid o1 = Ret 0 o2 /\ sem_lock 0 sid o2 = Ret 0 o3.
Proof.
  intros Hv Hs. destruct (sem_lock_free sid o 1 Hv ltac:(lia)) as (o1 & E1 & V1 & S1).
  exists o1. set (o2 := set_kern (sem_upd sid 0 (fun v => v + 1) (o_kern o1)) o1).
  assert (V2 : sem_val sid 0 o2 = Some 1) by (apply (sem_val_upd sid 0 (fun v => v + 1) o1 0); done).
  destruct (sem_lock_free sid o2 1 V2 ltac:(lia)) as (o3 & E3 & _).
  exists o2, o3. split; [done|]. split; [apply sem_lock_waits; [exact V1 | now rewrite S1]|]. split; [|done].
  unfold sem_unlock, sem_call, bind. rewrite (semop_now _ _ 1 _ 0) by (done || lia). done.
Qed.

(** [sem_connect] breaks the exclusion: it sets the semaphore to 1 although another
    process holds it, and the connecting process can lock it at once. *)
Theorem sem_connect_unlocks name o sid s key :
  makekey (o_region o) name = Some key -> find_key s_key key (k_sem (o_kern o)) = Some sid ->
  0 <= sid -> k_sem (o_kern o) !! sid = Some s -> (0 < length (s_vals s))%nat ->
  exists o1 o2,
    sem_connect (Some name) 1 o = Ret sid o1 /\ sem_val sid 0 o1 = Some 1
    /\ sem_lock 0 sid o1 = Ret 0 o2.
Proof.
  intros Hk Hf Hpos Hs Hl. destruct (lookup_lt_is_Some_2 (s_vals s) 0 Hl) as [v Hv].
  assert (V : sem_val sid 0 o = Some v) by (unfold sem_val; rewrite Hs; exact Hv).
  set (o1 := set_kern (sem_upd sid 0 (fun _ => 1) (o_kern o)) o).
  assert (V1 : sem_val sid 0 o1 = Some 1) by (apply (sem_val_upd sid 0 (fun _ => 1) o v V)).
  destruct (sem_lock_free sid o1 1 V1 ltac:(lia)) as (o2 & E2 & _).
  exists o1, o2. split; [|done].
  unfold sem_connect, sem_getid, name_key, sem_semget_internal, semget, ipc_get, bind, get.
  cbn. rewrite Hk. cbn. rewrite Hf. cbn.
  destruct (Z.ltb_spec sid 0); [lia|].
  unfold sem_attach_internal. change (Z.to_nat 1) with 1%nat. cbn [attach_loop].
  erewrite bind_Ret by (apply (semctl_setval_now sid 0 1 o v V)). done.
Qed.

Definition demo_sem (v : Z) : os :=
  mkOs (mkKernel ∅ 8 {[7 := mkSem (-1) [v]]} ∅) 0 [] [] 0 1 [] [] [] None [] [] None.

Lemma sem_lock_excludes_witness :
  exists o1 o2 o3,
    sem_lock 0 7 (demo_sem 1) = Ret 0 o1 /\ sem_lock 0 7 o1 = Block (set_sched [] o1)
    /\ sem_unlock 0 7 o1 = Ret 0 o2 /\ sem_lock 0 7 o2 = Ret 0 o3.
Proof. apply (sem_lock_excludes 7 (demo_sem 1)); reflexivity. Defined.

Lemma sem_connect_unlocks_witness :
  exists o1 o2,
    sem_connect (Some (str "SD_SEM_NAME")) 1 (demo_sem 0) = Ret 7 o1
    /\ sem_val 7 0 o1 = Some 1 /\ sem_lock 0 7 o1 = Ret 0 o2.
Proof.
  apply (sem_connect_unlocks (str "SD_SEM_NAME") (demo_sem 0) 7 (mkSem (-1) [0]) (-1));
    first [reflexivity | vm_compute; reflexivity | lia | cbn; lia].
Defined.
