(* ===== verification/Funfile.v ===== *)
(** * The configuration file: [src/dev/src/pubfun/common/funfile.c]

    A text file read line by line with [fgets] into a 513-byte buffer.  A program
    here is a [prog (option file)]: the state is the stream [fpcfg], [None] being a
    null pointer.  The read loops run on fuel, one more than the bytes left; each
    round consumes a byte or meets the end of the file. *)

From Stdlib Require Import ZArith Lia Bool List Ascii String.
From stdpp Require Import base list.
From S2P Require Import Prelude Cstr Funstr.

(** The unread bytes, the whole file, the end-of-file indicator. *)
Record file := mkFile { f_data : bytes; f_rest : bytes; f_eof : bool }.

Abbreviation stream := (option file).

Definition LINE_SIZE : Z := 513.
Definition HASH : ascii := "#"%char.

(** ** The C library *)

(** The bytes of one [fgets] for at most [n] characters, and whether it met the end. *)
Fixpoint get_line (n : nat) (s : bytes) : bytes * bool :=
  match n with
  | O => ([], false)
  | S n =>
      match s with
      | [] => ([], true)
      | c :: s => if ceqb c LF then ([c], false)
                  else let '(l, e) := get_line n s in (c :: l, e)
      end
  end.

(** With nothing read, [fgets] leaves the buffer alone. *)
Definition fgets (bp : bytes) (size : Z) : prog stream bytes := fun fp =>
  match fp with
  | None => Fault
  | Some f =>
      let '(l, e) := get_line (Z.to_nat (size - 1)) (f_rest f) in
      let fp' := Some (mkFile (f_data f) (drop (length l) (f_rest f)) (f_eof f || e)) in
      match l with
      | [] => Ret bp fp'
      | _ => obind (deref (st 0 (l ++ [NUL]) bp) fp') (fun b s => Ret b s)
      end
  end.

Definition feof : prog stream bool := fun fp =>
  match fp with None => Fault | Some f => Ret (f_eof f) fp end.

(** ** The code *)

Definition cf_open (content : option bytes) : stream :=
  (fun d => mkFile d d false) <$> content.

Definition cf_close : prog stream Z := fun _ => Ret 0 None.

Definition cf_nextline (bp : bytes) (size : Z) : prog stream (Z * bytes) := fun fp =>
  match fp with
  | None => Ret (-1, bp) fp
  | Some _ =>
      (let* b := fgets bp size in
       let* b := deref (AllTrim b) in
       ret (0, b)) fp
  end.

Definition cf_rewind : prog stream Z := fun fp =>
  match fp with
  | None => Ret (-1) fp
  | Some f => Ret 0 (Some (mkFile (f_data f) (f_data f) false))
  end.

(** The test both readers apply to a line: a comment, or the parameter's name with a
    blank or the end of the line behind it. *)
Definition is_comment (line : bytes) : bool := ceqb (List.hd NUL line) HASH.

Definition is_param (pname line : bytes) : bool :=
  let c := List.nth (length pname) line NUL in
  (ceqb c NUL || ceqb c SP) && bool_decide (take (length pname) line = pname).

(** [while (!feof(fpcfg)) { read a line; if it is the parameter's, break }]: the loop
    of [cf_locate] and [cf_nextparm], ending with the buffer [line]. *)
Fixpoint find_line (fuel : nat) (pname line : bytes) : prog stream bytes :=
  match fuel with
  | O => spin
  | S fuel =>
      let* e := feof in
      if e then ret line
      else
        let* (_, line) := cf_nextline (zeros LINE_SIZE) LINE_SIZE in
        if is_comment line then find_line fuel pname line
        else if is_param pname line then ret line
        else find_line fuel pname line
  end.

Definition fuel_of (fp : stream) : nat :=
  match fp with None => O | Some f => length (f_rest f) + 2 end%nat.

Definition strcpy (dst src : bytes) : option bytes :=
  if terminated src then st 0 (cstr src ++ [NUL]) dst else None.

(** The return value and the buffer [value] afterwards. *)
Definition cf_locate (pname value : bytes) : prog stream (Z * bytes) := fun fp =>
  match fp with
  | None => Ret (-1, value) fp
  | Some _ =>
      (cf_rewind ;;;
       let* fuel := get fuel_of in
       let* line := find_line fuel pname (zeros LINE_SIZE) in
       let* e := feof in
       if e then ret (-1, value)
       else
         let* v := deref (strcpy value (drop (length pname) line)) in
         let* v := deref (AllTrim v) in
         ret (0, v)) fp
  end.

(** The return value and the new contents of the [int], if it is stored to. *)
Definition cf_locatenum (pname : bytes) : prog stream (Z * option Z) := fun fp =>
  match fp with
  | None => Ret (-1, None) fp
  | Some _ =>
      (let* (rc, buf) := cf_locate pname (zeros 25) in
       if rc <? 0 then ret (-1, None)
       else
         let* isd := deref (IsDigitBuf buf (Z.of_nat (length (cstr buf)))) in
         if isd =? 0 then ret (-1, None) else ret (0, Some (atoi (cstr buf)))) fp
  end.

Definition cf_nextparm (pname value : bytes) : prog stream (Z * bytes) := fun fp =>
  match fp with
  | None => Ret (-1, value) fp
  | Some _ =>
      (let* fuel := get fuel_of in
       let* line := find_line fuel pname (zeros LINE_SIZE) in
       let* e := feof in
       if e then ret (-1, value)
       else
         let n := length pname in
         let* tail := deref (LeftTrim (drop n line)) in
         let* line := deref (RightTrim (take n line ++ tail)) in
         let* v := deref (strcpy value (drop n line)) in
         ret (0, v)) fp
  end.

(** ** Text files *)

(** Bytes of a line: neither a newline nor a NUL. *)
Definition line_char (c : ascii) : Prop := c <> NUL /\ c <> LF.
Definition line_ok (l : bytes) : Prop := Forall line_char l /\ Z.of_nat (length l) < 512.

(** Lines with their newlines. *)
Definition text (ls : list bytes) : bytes := List.concat (map (fun l => l ++ [LF]) ls).

(** A text file: lines, then possibly a last line that no newline ends. *)
Definition text_file (d : bytes) : Prop :=
  exists ls last, d = text ls ++ last /\ Forall line_ok ls /\ line_ok last.

Lemma get_line_lf n l s :
  Forall line_char l -> (length l < n)%nat -> get_line n (l ++ LF :: s) = (l ++ [LF], false).
Proof.
  intros H. revert n. induction H as [|c l [_ Hc] _ IH]; intros n Hn; destruct n as [|n];
    cbn [length] in Hn; try lia; cbn [get_line app].
  - now rewrite ceqb_refl.
  - rewrite (proj2 (ceqb_neq _ _) Hc), IH by lia. done.
Qed.

Lemma get_line_eof n l :
  Forall line_char l -> (length l < n)%nat -> get_line n l = (l, true).
Proof.
  intros H. revert n. induction H as [|c l [_ Hc] _ IH]; intros n Hn; destruct n as [|n];
    cbn [length] in Hn; try lia; cbn [get_line]; [done|].
  rewrite (proj2 (ceqb_neq _ _) Hc), IH by lia. done.
Qed.

Lemma line_char_nonul l : Forall line_char l -> nonul l.
Proof. intros H. eapply Forall_impl; [exact H|]. now intros c []. Qed.

(** A string written over zeroed memory. *)
Lemma st_zeros s n b :
  st 0 (s ++ [NUL]) (zeros n) = Some b -> nonul s -> cstr b = s /\ terminated b = true.
Proof.
  unfold st. destruct (_ && _); [|done]. intros [= <-] Hs. rewrite <- app_assoc. cbn [app].
  split; [now apply cstr_app_nul|apply terminated_app].
Qed.

(** A zeroed buffer of [n] bytes that holds the string [s]. *)
Definition buf_of (n : Z) (s : bytes) : bytes := s ++ zeros (n - Z.of_nat (length s)).

Lemma st_zeros_eq s n b : st 0 (s ++ [NUL]) (zeros n) = Some b -> b = buf_of n s.
Proof.
  unfold st. destruct (_ && _) eqn:E; [|done]. intros [= <-].
  rewrite andb_true_iff, !Z.leb_le, length_app in E. cbn [length] in E. unfold buf_of.
  rewrite <- app_assoc. f_equal. unfold zeros in *. rewrite length_replicate in E.
  rewrite length_app, drop_replicate. cbn [length app]. change (NUL :: ?x) with ([NUL] ++ x).
  replace (Z.to_nat (n - Z.of_nat (length s)))
    with (S (Z.to_nat n - (Z.to_nat 0 + (length s + 1))))%nat by lia. done.
Qed.

Lemma terminated_zeros n : 0 < n -> terminated (zeros n) = true.
Proof.
  intros. unfold zeros. replace (Z.to_nat n) with (S (Z.to_nat (n - 1))) by lia. done.
Qed.

Lemma cstr_zeros n : cstr (zeros n) = [].
Proof. unfold zeros. destruct (Z.to_nat n); done. Qed.

(** One line of a text file, trimmed, is in the buffer. *)
Lemma nextline_text d l s e :
  line_ok l ->
  exists b, cf_nextline (zeros LINE_SIZE) LINE_SIZE (Some (mkFile d (l ++ LF :: s) e))
            = Ret (0, b) (Some (mkFile d s e))
    /\ cstr b = alltrim (l ++ [LF]) /\ terminated b = true /\ length b = 513%nat.
Proof.
  intros [Hl Hlen]. unfold cf_nextline, bind, fgets. cbn [f_rest f_data f_eof].
  change (Z.to_nat (LINE_SIZE - 1)) with 512%nat. rewrite get_line_lf by (done || lia).
  rewrite orb_false_r, length_app. cbn [length].
  replace (drop (length l + 1) (l ++ LF :: s)) with s
    by (rewrite drop_app_ge by lia; replace (length l + 1 - length l)%nat with 1%nat by lia; done).
  assert (Hn : nonul (l ++ [LF])).
  { apply Forall_app. split; [now apply line_char_nonul|]. constructor; [done|constructor]. }
  destruct (st_Some 0 ((l ++ [LF]) ++ [NUL]) (zeros LINE_SIZE)) as [b Hb];
    [lia|rewrite length_zeros, !length_app by (unfold LINE_SIZE; lia); cbn [length]; unfold LINE_SIZE; lia|].
  destruct (st_zeros _ _ _ Hb Hn) as [Hc Ht].
  destruct (AllTrim_spec b Ht) as (b' & Eb & Hs & Hlb & Ht').
  destruct (l ++ [LF]) eqn:El; [now destruct l|]. rewrite <- El in *.
  exists b'. rewrite Hb. cbn. rewrite Eb. cbn. split; [done|]. rewrite Hs, Hc.
  split; [done|]. split; [done|]. rewrite Hlb. apply st_length in Hb. exact Hb.
Qed.

Lemma nextline_last d l :
  line_ok l ->
  exists b, cf_nextline (zeros LINE_SIZE) LINE_SIZE (Some (mkFile d l false))
            = Ret (0, b) (Some (mkFile d [] true)).
Proof.
  intros [Hl Hlen]. unfold cf_nextline, bind, fgets. cbn [f_rest f_data f_eof].
  change (Z.to_nat (LINE_SIZE - 1)) with 512%nat. rewrite get_line_eof by (done || lia).
  rewrite drop_all. cbn [orb]. pose proof (line_char_nonul _ Hl) as Hn.
  destruct l as [|c l].
  - destruct (AllTrim_spec (zeros LINE_SIZE)) as (b & E & _); [done|]. exists b.
    cbn -[AllTrim zeros LINE_SIZE]. now rewrite E.
  - destruct (st_Some 0 ((c :: l) ++ [NUL]) (zeros LINE_SIZE)) as [b Hb];
      [lia|rewrite length_zeros, length_app by (unfold LINE_SIZE; lia); cbn [length] in *; unfold LINE_SIZE; lia|].
    destruct (st_zeros _ _ _ Hb Hn) as [Hc Ht].
    destruct (AllTrim_spec b Ht) as (b' & Eb & _).
    exists b'. rewrite Hb. cbn. now rewrite Eb.
Qed.

(** ** What the loop finds *)

(** [is_param] on the buffer, as a test of the string in it. *)
Definition names (pname s : bytes) : Prop := s = pname \/ exists r, s = pname ++ SP :: r.

Lemma is_param_names pname b :
  nonul pname -> terminated b = true -> is_param pname b = true -> names pname (cstr b).
Proof.
  intros Hp Ht. destruct (terminated_split b Ht) as [t Hb]. unfold is_param.
  rewrite andb_true_iff, orb_true_iff, !ceqb_eq, bool_decide_eq_true. intros [Hc Ht'].
  assert (E : exists u, b = pname ++ u).
  { exists (drop (length pname) b). rewrite <- Ht' at 1. now rewrite take_drop. }
  destruct E as [u ->]. rewrite app_nth2, Nat.sub_diag in Hc by lia.
  destruct u as [|c u]; cbn [List.nth] in Hc.
  - left. rewrite app_nil_r. now apply cstr_id.
  - destruct Hc as [-> | ->].
    + left. now apply cstr_app_nul.
    + right. exists (cstr u). clear -Hp. induction Hp as [|x p Hx _ IH]; cbn [app cstr]; [done|].
      rewrite (proj2 (ceqb_neq _ _) Hx). now f_equal.
Qed.

Lemma is_param_intro pname b :
  terminated b = true -> names pname (cstr b) -> is_param pname b = true.
Proof.
  intros Ht Hn. destruct (terminated_split b Ht) as [t Hb]. unfold is_param.
  rewrite andb_true_iff, orb_true_iff, !ceqb_eq, bool_decide_eq_true.
  destruct Hn as [E|[r E]]; rewrite Hb, E.
  - rewrite app_nth2, Nat.sub_diag, take_app_length by lia. auto.
  - rewrite <- app_assoc, app_nth2, Nat.sub_diag, take_app_length by lia. auto.
Qed.

Lemma is_comment_cstr b : is_comment b = is_comment (cstr b).
Proof.
  unfold is_comment. destruct b as [|c b]; [done|]. cbn [cstr List.hd].
  destruct (ceqb c NUL) eqn:E; [|done]. apply ceqb_eq in E. now subst.
Qed.

(** A line, as the readers see it after trimming. *)
Definition seen (l : bytes) : bytes := alltrim (l ++ [LF]).

Definition skipped (pname l : bytes) : Prop :=
  is_comment (seen l) = true \/ ~ names pname (seen l).

Definition selected (pname l : bytes) : Prop :=
  is_comment (seen l) = false /\ names pname (seen l).

Lemma find_line_step pname fuel line d l s :
  line_ok l ->
  exists b, cstr b = seen l /\ terminated b = true /\ length b = 513%nat
    /\ find_line (S fuel) pname line (Some (mkFile d (l ++ LF :: s) false))
       = if is_comment b then find_line fuel pname b (Some (mkFile d s false))
         else if is_param pname b then Ret b (Some (mkFile d s false))
         else find_line fuel pname b (Some (mkFile d s false)).
Proof.
  intros H. destruct (nextline_text d l s false H) as (b & E & Hs & Ht & Hl).
  exists b. split; [done|]. split; [done|]. split; [done|].
  cbn [find_line]. unfold bind at 1. cbn [feof obind f_eof].
  erewrite bind_Ret by exact E. cbn beta iota. destruct (is_comment b), (is_param pname b); done.
Qed.

(** The loop stops at the first selected line, past the skipped ones. *)
Lemma find_line_selected pname ls l d s line fuel :
  nonul pname -> Forall line_ok ls -> Forall (skipped pname) ls -> line_ok l ->
  selected pname l -> (length ls < fuel)%nat ->
  exists b, find_line fuel pname line (Some (mkFile d (text ls ++ l ++ LF :: s) false))
            = Ret b (Some (mkFile d s false))
    /\ cstr b = seen l /\ terminated b = true /\ length b = 513%nat.
Proof.
  intros Hp Hls Hsk Hl [Hc Hn]. revert line fuel.
  induction Hls as [|x ls Hx Hls IH]; intros line fuel Hf; destruct fuel as [|fuel];
    cbn [length] in Hf; try lia.
  - cbn [text map List.concat app].
    destruct (find_line_step pname fuel line d l s Hl) as (b & Hs & Ht & Hlb & ->).
    rewrite is_comment_cstr, Hs, Hc, is_param_intro by (rewrite ?Hs; done). exists b. done.
  - inversion Hsk as [|? ? Hs1 Hs2]; subst.
    change (text (x :: ls)) with ((x ++ [LF]) ++ text ls). rewrite <- !app_assoc. cbn [app].
    destruct (find_line_step pname fuel line d x (text ls ++ l ++ LF :: s) Hx) as (b & Hs & Ht & Hlb & ->).
    rewrite is_comment_cstr, Hs. destruct (is_comment (seen x)) eqn:Ec; [apply IH; done || lia|].
    destruct (is_param pname b) eqn:Ep; [|apply IH; done || lia].
    destruct Hs1 as [|Hs1]; [congruence|]. destruct Hs1. rewrite <- Hs. now apply is_param_names.
Qed.

(** Whatever the file, the loop ends: at the end of the file, or on a line of it. *)
Lemma find_line_any pname ls last d line fuel :
  nonul pname -> Forall line_ok ls -> line_ok last -> (length ls + 1 < fuel)%nat ->
  (exists b, find_line fuel pname line (Some (mkFile d (text ls ++ last) false))
             = Ret b (Some (mkFile d [] true)))
  \/ exists b l s, find_line fuel pname line (Some (mkFile d (text ls ++ last) false))
             = Ret b (Some (mkFile d s false))
    /\ cstr b = seen l /\ terminated b = true /\ length b = 513%nat /\ line_ok l
    /\ names pname (seen l) /\ l ∈ ls.
Proof.
  intros Hp Hls Hlast. revert line fuel.
  induction Hls as [|x ls Hx Hls IH]; intros line fuel Hf; destruct fuel as [|fuel];
    cbn [length] in Hf; try lia.
  - left. destruct fuel as [|fuel]; [lia|]. cbn [text map List.concat app].
    destruct (nextline_last d last Hlast) as [b E]. exists b.
    cbn [find_line]. unfold bind at 1. cbn [feof obind f_eof].
    erewrite bind_Ret by exact E. cbn beta iota.
    destruct (is_comment b), (is_param pname b); done.
  - change (text (x :: ls)) with ((x ++ [LF]) ++ text ls). rewrite <- !app_assoc. cbn [app].
    destruct (find_line_step pname fuel line d x (text ls ++ last) Hx) as (b & Hs & Ht & Hlb & ->).
    assert (IH' := IH b fuel ltac:(lia)).
    destruct (is_comment b), (is_param pname b) eqn:Ep;
      try (destruct IH' as [H|(b' & l' & s' & E & H1 & H2 & H3 & H4 & H5 & H6)];
           [now left|right; exists b', l', s'; do 6 (split; [done|]); now apply list_elem_of_further]).
    right. exists b, x, (text ls ++ last). split; [done|]. do 4 (split; [done|]).
    split; [|apply list_elem_of_here]. rewrite <- Hs. now apply is_param_names.
Qed.

Lemma seen_eq l : seen l = ltrim issp l ++ [LF].
Proof. now apply alltrim_snoc. Qed.

(** Reading numbers cannot succeed: the newline stays on the value. *)
Lemma names_seen pname l :
  LF ∉ pname -> names pname (seen l) -> exists r, seen l = pname ++ SP :: r ++ [LF].
Proof.
  intros Hp. rewrite seen_eq. set (x := ltrim issp l). intros [E|[r E]].
  - destruct Hp. rewrite <- E. apply elem_of_app. right. now left.
  - destruct (exists_last (l := pname ++ SP :: r)) as (y & c & Ey); [now destruct pname|].
    rewrite Ey in E. apply app_inj_tail in E as [<- <-].
    destruct r as [|a r] using rev_ind; [|clear IHr].
    + apply app_inj_tail in Ey as [_ [=]].
    + exists r. change (SP :: r ++ [a]) with ((SP :: r) ++ [a]) in *.
      rewrite app_assoc in Ey. apply app_inj_tail in Ey as [E ->]. now rewrite <- E, <- app_assoc.
Qed.

Lemma cstr_drop b n :
  terminated b = true -> (n <= length (cstr b))%nat ->
  cstr (drop n b) = drop n (cstr b) /\ terminated (drop n b) = true.
Proof.
  intros T Hn. destruct (terminated_split b T) as [t Ht]. rewrite Ht at 1 3.
  rewrite drop_app_le by done. split; [apply cstr_app_nul; auto|apply terminated_app].
Qed.

Lemma IsDigitBuf_cstr b :
  terminated b = true -> cstr b <> [] ->
  IsDigitBuf b (Z.of_nat (length (cstr b))) = Some (if forallb isdigit (cstr b) then 1 else 0).
Proof.
  intros T Hne. pose proof (terminated_cstr_lt b T). unfold IsDigitBuf.
  destruct (Z.eqb_spec (Z.of_nat (length (cstr b))) 0) as [E|_]; [destruct (cstr b); done|].
  unfold ld. rewrite Z.max_r, (proj2 (Z.leb_le 0 (Z.of_nat _))), (proj2 (Z.leb_le _ (Z.of_nat (length b)))) by lia.
  cbn [andb Z.leb Z.compare]. change (Z.to_nat 0) with 0%nat.
  rewrite Nat2Z.id, drop_0, take_cstr by done. now rewrite firstn_all.
Qed.

Lemma text_length ls : (length ls <= length (text ls))%nat.
Proof.
  induction ls as [|x ls IH]; cbn; [lia|]. rewrite !length_app. cbn [length].
  unfold text in IH. lia.
Qed.

(** ** Properties *)

(** A value that fits the reader's buffer of 25 bytes. *)
Definition value_fits (pname l : bytes) : Prop :=
  names pname (seen l) -> (length (seen l) < length pname + 25)%nat.

(** [cf_locatenum] never finds a number: the newline is still there. *)
Lemma locatenum_outcome pname f ls last :
  f_data f = text ls ++ last -> Forall line_ok ls -> line_ok last -> nonul pname -> LF ∉ pname ->
  (exists f', cf_locatenum pname (Some f) = Ret (-1, None) (Some f') /\ f_data f' = f_data f)
  \/ cf_locatenum pname (Some f) = Fault /\ ~ Forall (value_fits pname) ls.
Proof.
  intros Hd Hls Hlast Hp Hlf. set (d := f_data f) in *.
  unfold cf_locatenum, cf_locate, bind. cbn [cf_rewind obind get fuel_of f_rest f_data].
  fold d. pose proof (text_length ls) as Hlen.
  assert (Hfuel : (length ls + 1 < length d + 2)%nat) by (rewrite Hd, length_app; lia).
  destruct (find_line_any pname ls last d (zeros LINE_SIZE) _ Hp Hls Hlast Hfuel)
    as [[b E]|(b & l & s & E & Hs & Ht & _ & _ & Hn & Hin)]; rewrite <- Hd in E; rewrite E.
  - left. eexists. split; [reflexivity|done].
  - cbn [obind feof f_eof].
    destruct (names_seen pname l Hlf Hn) as [r Er].
    assert (Hle : (length pname <= length (cstr b))%nat)
      by (rewrite Hs, Er, length_app; lia).
    destruct (cstr_drop b (length pname) Ht Hle) as [Hc Htd].
    rewrite Hs, Er, drop_app_length in Hc.
    unfold strcpy. rewrite Htd, Hc. destruct (st _ _ _) as [v|] eqn:Ev.
    + left. exists (mkFile d s false). split; [|done]. apply st_zeros in Ev as [Hv Tv]; [|rewrite <- Hc; auto].
      destruct (AllTrim_spec v Tv) as (v' & Ev' & Hv' & _ & Tv').
      cbn [deref obind ret]. rewrite Ev'. cbn [deref obind ret].
      change (0 <? 0) with false. cbn match.
      change (SP :: r ++ [LF]) with ((SP :: r) ++ [LF]) in Hv.
      rewrite Hv, alltrim_snoc in Hv' by done.
      rewrite IsDigitBuf_cstr by (done || rewrite Hv'; now destruct (ltrim issp (SP :: r))).
      rewrite Hv', forallb_app. cbn [forallb]. change (isdigit LF) with false.
      rewrite andb_false_r. done.
    + right. split; [done|]. intros Hfit. rewrite Forall_forall in Hfit.
      specialize (Hfit l Hin Hn). rewrite Er, length_app in Hfit.
      destruct (st_Some 0 ((SP :: r ++ [LF]) ++ [NUL]) (zeros 25)) as [x Hx]; [lia| |congruence].
      rewrite length_zeros, length_app by lia. cbn [length] in *. lia.
Qed.

(** No numeric parameter is ever read: on every text file [cf_locatenum] answers -1
    and stores nothing, whatever the parameter, because [cf_locate] leaves the newline
    on the value and [IsDigitBuf] rejects it (a value too long for the 25-byte buffer
    overruns it instead). *)
Theorem cf_locatenum_fails d f pname :
  text_file d -> f_data f = d -> nonul pname -> LF ∉ pname ->
  match cf_locatenum pname (Some f) with
  | Ret (rc, v) _ => rc = -1 /\ v = None
  | Fault => True
  | _ => False
  end.
Proof.
  intros (ls & last & -> & Hls & Hlast) Hf Hp Hlf.
  now destruct (locatenum_outcome pname f ls last Hf Hls Hlast Hp Hlf) as [(f' & -> & _)|[-> _]].
Qed.

Definition demo_cfg : bytes :=
  text [str "# sunda"; str "sd.svrnum 100"; str "tsk.task testsvr SRVID=7 SRVNUM=2 RQADDR=testsvr"].

Definition demo_fp : file := mkFile demo_cfg demo_cfg false.

Ltac line_tac := repeat (split || constructor); vm_compute; congruence.

Lemma demo_lines_ok :
  Forall line_ok [str "# sunda"; str "sd.svrnum 100"; str "tsk.task testsvr SRVID=7 SRVNUM=2 RQADDR=testsvr"].
Proof. line_tac. Qed.

Lemma cf_locatenum_fails_witness :
  match cf_locatenum (str "sd.svrnum") (Some demo_fp) with
  | Ret (rc, v) _ => rc = -1 /\ v = None
  | Fault => True
  | _ => False
  end.
Proof.
  apply (cf_locatenum_fails demo_cfg demo_fp (str "sd.svrnum")).
  - exists [str "# sunda"; str "sd.svrnum 100"; str "tsk.task testsvr SRVID=7 SRVNUM=2 RQADDR=testsvr"], [].
    split; [symmetry; apply app_nil_r|]. split; [apply demo_lines_ok|]. line_tac.
  - reflexivity.
  - line_tac.
  - apply (bool_decide_unpack _). vm_compute. exact I.
Defined.

Lemma find_line_end pname ls last d line fuel :
  nonul pname -> Forall line_ok ls -> Forall (skipped pname) ls -> line_ok last ->
  (length ls + 1 < fuel)%nat ->
  exists b, find_line fuel pname line (Some (mkFile d (text ls ++ last) false))
            = Ret b (Some (mkFile d [] true)).
Proof.
  intros Hp Hls Hsk Hlast. revert line fuel.
  induction Hls as [|x ls Hx Hls IH]; intros line fuel Hf; cbn [length] in Hf.
  - destruct (find_line_any pname [] last d line fuel Hp ltac:(constructor) Hlast ltac:(cbn; lia))
      as [H|(b & l & s & E & _)]; [exact H|].
    destruct fuel as [|[|fuel]]; [lia|lia|].
    destruct (nextline_last d last Hlast) as [b' E']. exists b'. cbn [text map List.concat app].
    cbn [find_line]. unfold bind at 1. cbn [feof obind f_eof].
    erewrite bind_Ret by exact E'. cbn beta iota. destruct (is_comment b'), (is_param pname b'); done.
  - inversion Hsk as [|? ? Hs1 Hs2]; subst. destruct fuel as [|fuel]; [lia|].
    change (text (x :: ls)) with ((x ++ [LF]) ++ text ls). rewrite <- !app_assoc. cbn [app].
    destruct (find_line_step pname fuel line d x (text ls ++ last) Hx) as (b & Hs & Ht & Hlb & ->).
    rewrite is_comment_cstr, Hs. destruct (is_comment (seen x)) eqn:Ec; [apply IH; done || lia|].
    destruct (is_param pname b) eqn:Ep; [|apply IH; done || lia].
    destruct Hs1 as [|Hs1]; [congruence|]. destruct Hs1. rewrite <- Hs. now apply is_param_names.
Qed.

(** The value [cf_nextparm] extracts from the line buffer. *)
Lemma cf_nextparm_value p c line r :
  let pname := p ++ [c] in
  nonul pname -> isblank c = false -> terminated line = true -> length line = 513%nat ->
  cstr line = pname ++ r ->
  exists tail line' v,
    LeftTrim (drop (length pname) line) = Some tail
    /\ RightTrim (take (length pname) line ++ tail) = Some line'
    /\ strcpy (zeros LINE_SIZE) (drop (length pname) line') = Some v
    /\ cstr v = rtrim isblank (ltrim isblank r)
    /\ v = buf_of LINE_SIZE (cstr v) /\ (length (cstr v) < 513)%nat.
Proof.
  intros pname Hp Hc Ht Hl Hs.
  assert (Hle : (length pname <= length (cstr line))%nat) by (rewrite Hs, length_app; lia).
  destruct (cstr_drop line (length pname) Ht Hle) as [Hcd Htd].
  rewrite Hs, drop_app_length in Hcd.
  destruct (LeftTrim_spec _ Htd) as (tail & E1 & Hs1 & L1 & T1). rewrite Hcd in Hs1.
  assert (Htk : take (length pname) line = pname)
    by (rewrite take_cstr by done; rewrite Hs; apply take_app_length).
  destruct (terminated_split tail T1) as [t Et].
  assert (Hb : cstr (pname ++ tail) = pname ++ cstr tail /\ terminated (pname ++ tail) = true).
  { rewrite Et at 1 3. rewrite !app_assoc. split; [|apply terminated_app].
    apply cstr_app_nul, Forall_app. split; [exact Hp|apply cstr_nonul]. }
  destruct Hb as [Hb1 Hb2].
  destruct (RightTrim_spec _ Hb2) as (line' & E2 & Hs2 & L2 & T2).
  assert (Hs3 : cstr line' = pname ++ rtrim isblank (cstr tail)).
  { rewrite Hs2, Hb1. unfold pname. rewrite <- !app_assoc. cbn [app]. now apply rtrim_app. }
  destruct (cstr_drop line' (length pname) T2) as [Hc3 Ht3]; [rewrite Hs3, length_app; lia|].
  rewrite Hs3, drop_app_length in Hc3.
  assert (Hlen : (length (cstr (drop (length pname) line')) < 513)%nat).
  { pose proof (terminated_cstr_lt _ Ht3) as H. rewrite length_drop, L2, length_app, L1, length_drop in H. lia. }
  destruct (st_Some 0 (cstr (drop (length pname) line') ++ [NUL]) (zeros LINE_SIZE)) as [v Ev];
    [lia|rewrite length_app, length_zeros by (unfold LINE_SIZE; lia); cbn [length]; unfold LINE_SIZE; lia|].
  exists tail, line', v. split; [done|]. split; [now rewrite Htk|].
  unfold strcpy. rewrite Ht3. split; [done|].
  destruct (st_zeros _ _ _ Ev ltac:(auto)) as [-> _].
  split; [now rewrite Hc3, Hs1|]. split; [now apply st_zeros_eq|done].
Qed.

(** The values of the parameter [pname] in a list of lines. *)
Definition value_of (pname s : bytes) : option bytes :=
  if bool_decide (take (length pname) s = pname) then
    match drop (length pname) s with
    | c :: r => if ceqb c SP then Some (rtrim isblank (ltrim isblank r)) else None
    | [] => None
    end
  else None.

Definition param_of (pname l : bytes) : option bytes :=
  if is_comment (seen l) then None else value_of pname (seen l).

Definition params (pname : bytes) (ls : list bytes) : list bytes := omap (param_of pname) ls.

Lemma value_of_Some pname s v :
  value_of pname s = Some v <-> exists r, s = pname ++ SP :: r /\ v = rtrim isblank (ltrim isblank r).
Proof.
  unfold value_of. split.
  - case_bool_decide as E; [|done]. destruct (drop _ s) as [|c r] eqn:D; [done|].
    destruct (ceqb c SP) eqn:C; [|done]. apply ceqb_eq in C. subst c. intros [= <-].
    exists r. split; [|done]. now rewrite <- (take_drop (length pname) s), E, D.
  - intros (r & -> & ->). rewrite take_app_length, drop_app_length, bool_decide_true by done.
    now rewrite ceqb_refl.
Qed.

Lemma seen_not_name p c l : isblank c = false -> seen l <> p ++ [c].
Proof.
  intros Hc H. rewrite seen_eq in H. apply app_inj_tail in H as [_ H]. subst c. discriminate Hc.
Qed.

Lemma param_of_cases p c l :
  isblank c = false -> let pname := p ++ [c] in
  match param_of pname l with
  | None => skipped pname l
  | Some v => is_comment (seen l) = false
      /\ exists r, seen l = pname ++ SP :: r /\ v = rtrim isblank (ltrim isblank r)
  end.
Proof.
  intros Hc pname. unfold param_of. destruct (is_comment (seen l)) eqn:E; [now left|].
  destruct (value_of pname (seen l)) as [v|] eqn:V.
  - split; [done|]. now apply value_of_Some.
  - right. intros [H|[r H]].
    + now apply (seen_not_name p c l) in H.
    + assert (value_of pname (seen l) = Some (rtrim isblank (ltrim isblank r)))
        by (apply value_of_Some; eauto). congruence.
Qed.

Lemma params_cons p c ls v vs :
  isblank c = false -> let pname := p ++ [c] in
  params pname ls = v :: vs ->
  exists ls1 l ls2, ls = ls1 ++ l :: ls2 /\ Forall (skipped pname) ls1
    /\ param_of pname l = Some v /\ params pname ls2 = vs.
Proof.
  intros Hc pname. unfold params. induction ls as [|l ls IH]; cbn [omap list_omap]; [done|].
  pose proof (param_of_cases p c l Hc) as H. cbn zeta in H. fold pname in H.
  destruct (param_of pname l) as [u|] eqn:E.
  - intros [= -> <-]. exists [], l, ls. done.
  - intros (ls1 & l' & ls2 & -> & Hs & Hp & Hv)%IH. exists (l :: ls1), l', ls2.
    split; [done|]. split; [constructor; assumption|]. done.
Qed.

Lemma params_nil p c ls :
  isblank c = false -> params (p ++ [c]) ls = [] -> Forall (skipped (p ++ [c])) ls.
Proof.
  intros Hc. unfold params. induction ls as [|l ls IH]; cbn [omap list_omap]; [constructor|].
  pose proof (param_of_cases p c l Hc) as H. cbn zeta in H.
  destruct (param_of (p ++ [c]) l); [done|]. intros. constructor; [exact H|auto].
Qed.

(** One call, on the lines that are left. *)
Lemma cf_nextparm_params d p c ls last :
  let pname := p ++ [c] in
  nonul pname -> isblank c = false -> Forall line_ok ls -> line_ok last ->
  match params pname ls with
  | [] => cf_nextparm pname (zeros LINE_SIZE) (Some (mkFile d (text ls ++ last) false))
          = Ret (-1, zeros LINE_SIZE) (Some (mkFile d [] true))
  | v :: vs => exists ls',
      cf_nextparm pname (zeros LINE_SIZE) (Some (mkFile d (text ls ++ last) false))
      = Ret (0, buf_of LINE_SIZE v) (Some (mkFile d (text ls' ++ last) false))
      /\ params pname ls' = vs /\ Forall line_ok ls' /\ (length ls' < length ls)%nat /\ nonul v
      /\ (length v < 513)%nat
  end.
Proof.
  intros pname Hp Hc Hls Hlast. destruct (params pname ls) as [|v vs] eqn:P.
  - unfold cf_nextparm, bind. cbn [get obind fuel_of f_rest]. pose proof (text_length ls).
    destruct (find_line_end pname ls last d (zeros LINE_SIZE) (length (text ls ++ last) + 2) Hp Hls
                (params_nil p c ls Hc P) Hlast) as [b E]; [rewrite length_app; lia|].
    now rewrite E.
  - destruct (params_cons p c ls v vs Hc P) as (ls1 & l & ls2 & -> & Hsk & Hv & Hvs).
    apply Forall_app in Hls as [Hl1 Hl2]. inversion Hl2 as [|? ? Hl Hl3]; subst.
    pose proof (param_of_cases p c l Hc) as H. cbn zeta in H. rewrite Hv in H. destruct H as (Hcom & r & Hs & Ev).
    exists ls2. pose proof (text_length ls1).
    assert (T : text (ls1 ++ l :: ls2) ++ last = text ls1 ++ l ++ LF :: (text ls2 ++ last)).
    { unfold text. rewrite map_app, List.concat_app. cbn [map List.concat].
      rewrite <- !app_assoc. done. }
    rewrite T. unfold cf_nextparm, bind. cbn [get obind fuel_of f_rest].
    destruct (find_line_selected pname ls1 l d (text ls2 ++ last) (zeros LINE_SIZE)
                (length (text ls1 ++ l ++ LF :: text ls2 ++ last) + 2) Hp Hl1 Hsk Hl)
      as (b & E & Hb & Ht & Lb); [split; [done|right; eauto]|rewrite length_app; lia|].
    rewrite E. cbn [obind feof f_eof].
    destruct (cf_nextparm_value p c b (SP :: r) Hp Hc Ht Lb) as (tail & line' & w & E1 & E2 & E3 & Ew & Eb & Lw);
      [now rewrite Hb|].
    fold pname in E1, E2, E3. rewrite E1. cbn [deref obind ret]. rewrite E2. cbn [deref obind ret].
    rewrite E3. cbn [deref obind ret].
    assert (Hw : cstr w = v) by (rewrite Ew, Ev; reflexivity).
    rewrite Eb, Hw. split; [done|]. split; [done|]. split; [done|].
    split; [rewrite length_app; cbn [length]; lia|]. rewrite <- Hw. split; [apply cstr_nonul|done].
Qed.

(** On a text file [cf_nextparm] returns the value of the next line that bears the
    parameter's name, without the white space around it, and leaves the stream behind
    that line; comments and other lines are passed over.  When none is left it answers
    -1 at the end of the file. *)
Theorem cf_nextparm_spec d p c ls last :
  let pname := p ++ [c] in
  nonul pname -> isblank c = false ->
  Forall line_ok ls -> Forall (skipped pname) ls ->
  (forall l s r, line_ok l -> is_comment (seen l) = false -> seen l = pname ++ SP :: r ->
     exists v, cf_nextparm pname (zeros LINE_SIZE) (Some (mkFile d (text ls ++ l ++ LF :: s) false))
               = Ret (0, v) (Some (mkFile d s false))
       /\ cstr v = rtrim isblank (ltrim isblank r))
  /\ (line_ok last ->
      cf_nextparm pname (zeros LINE_SIZE) (Some (mkFile d (text ls ++ last) false))
      = Ret (-1, zeros LINE_SIZE) (Some (mkFile d [] true))).
Proof.
  intros pname Hp Hc Hls Hsk. pose proof (text_length ls) as Hlen. split.
  - intros l s r Hl Hcom Hseen. unfold cf_nextparm, bind. cbn [get obind fuel_of f_rest].
    destruct (find_line_selected pname ls l d s (zeros LINE_SIZE)
                (length (text ls ++ l ++ LF :: s) + 2) Hp Hls Hsk Hl) as (b & E & Hs & Ht & Lb).
    { split; [done|]. right. exists r. exact Hseen. }
    { rewrite length_app. lia. }
    rewrite E. cbn [obind feof f_eof].
    destruct (cf_nextparm_value p c b (SP :: r) Hp Hc Ht Lb) as (tail & line' & v & E1 & E2 & E3 & Ev & _);
      [now rewrite Hs|].
    fold pname in E1, E2, E3. rewrite E1. cbn [deref obind ret]. rewrite E2. cbn [deref obind ret].
    rewrite E3. exists v. split; [done|]. rewrite Ev. reflexivity.
  - intros Hlast. unfold cf_nextparm, bind. cbn [get obind fuel_of f_rest].
    destruct (find_line_end pname ls last d (zeros LINE_SIZE) (length (text ls ++ last) + 2) Hp Hls Hsk Hlast)
      as [b E]; [rewrite length_app; lia|]. rewrite E. done.
Qed.

Lemma cf_nextparm_spec_witness :
  exists v, cf_nextparm (str "tsk.task") (zeros LINE_SIZE) (Some demo_fp)
            = Ret (0, v) (Some (mkFile demo_cfg [] false))
    /\ cstr v = str "testsvr SRVID=7 SRVNUM=2 RQADDR=testsvr".
Proof.
  destruct (cf_nextparm_spec demo_cfg (str "tsk.tas") "k"%char [str "# sunda"; str "sd.svrnum 100"] [])
    as [H _].
  - line_tac.
  - reflexivity.
  - line_tac.
  - constructor; [left; reflexivity|]. constructor; [|constructor]. right.
    intros [H|[r H]]; discriminate H.
  - destruct (H (str "tsk.task testsvr SRVID=7 SRVNUM=2 RQADDR=testsvr") []
                (str "testsvr SRVID=7 SRVNUM=2 RQADDR=testsvr" ++ [LF])) as (v & E & Hv).
    + line_tac.
    + reflexivity.
    + reflexivity.
    + exists v. split; [exact E|]. rewrite Hv. reflexivity.
Defined.
