(* ===== verification/Sunda.v ===== *)
(** * Shared data: [sunda.h], [funmsq.h], [tux.h], [task.h], [errcode.h]

    The structures under [src/dev/include] and the state of one process of the
    system: the tables in shared memory it is attached to, the message head, the
    dispatcher's globals, its heap and its view of the operating system.

    A [char] array of a table that always holds a string is represented by that
    string (the bytes before its NUL); every write checks the array's size.  The
    [name] of a message head is the raw array, since it comes off the wire. *)

From Stdlib Require Import ZArith Lia Bool List Ascii String.
From stdpp Require Import base list gmap.
From S2P Require Import Prelude Cstr Kernel.

Definition TUX_NAME_LEN : Z := 32.
Definition SERVER_MAX_PARAM : Z := 128.
Definition MAX_TIMEOUT_SEC : Z := 20.
Definition COMM_S_MSG_TYPE_ROOT : Z := 100000.
Definition COMM_L_MSG_TYPE_ROOT : Z := 200000.
Definition SVR_MSG_TYPE_ROOT : Z := 300000.
Definition MNG_MSG_TYPE_ROOT : Z := 400000.
Definition DEF_REQ_QUE : Z := 601107.
Definition DEF_RSP_QUE : Z := 601117.
Definition SD_MEM_NAME : bytes := str "SD_MEN_NAME".
Definition SD_SEM_NAME : bytes := str "SD_SEM_NAME".
Definition SD_SERVER_MGR_NAME : bytes := str "Governor".
Definition SD_MANAGER_SVC_NAME : bytes := str "Governor".

Definition TUX_FAIL : Z := 1.
Definition TUX_SUCCESS : Z := 2.
Definition SYS_LIMIT : Z := -2000.
Definition SYS_INVAL : Z := -2001.
Definition SYS_OS : Z := -2002.
Definition SYS_NOENT : Z := -2003.
Definition SYS_TIMEOUT : Z := -2004.
Definition SYS_PROTO : Z := -2005.
Definition SYS_SVCFAIL : Z := -2006.
Definition SYS_EMATCH : Z := -2007.
Definition SYS_GOTSIG : Z := -2008.
Definition SYS_SYSTEM : Z := -2009.
Definition SYS_ERR_SVC : Z := -2010.
Definition SYS_DEAD_SVC : Z := -2011.

Definition SVR_PERM : Z := 1.
Definition SVR_TEMP : Z := 2.
Definition SVR_REPLY_NEED : Z := 1.
Definition SVR_REPLY_NONEED : Z := 2.
Definition SVC_INUSE : Z := 1.
Definition TUX_AVAIL : Z := 1.
Definition TUX_IDLE : Z := 2.
Definition TUX_UNAVAIL : Z := 3.
Definition TUX_DEAD : Z := 4.
Definition TSK_CMD_START : Z := 1.
Definition TSK_CMD_EXIT : Z := 2.
Definition TSK_CMD_FRESH : Z := 3.
Definition REPLY_FLAG_SYN : Z := 1.
Definition REPLY_FLAG_ASYN : Z := 2.

(** ** The tables in shared memory *)

Record mb_ctrl_t := mkCtrl {
  nsvrnum : Z;
  npidnum : Z;
  main_pid : Z;
  semid : Z;
  memid : Z;
  req_que : Z;
  rsp_que : Z;
  req_que_id : Z;
  rsp_que_id : Z;
  max_msg_len : Z;
}.
Definition set_semid (v : Z) (c : mb_ctrl_t) : mb_ctrl_t :=
  mkCtrl (nsvrnum c) (npidnum c) (main_pid c) v (memid c) (req_que c) (rsp_que c) (req_que_id c) (rsp_que_id c) (max_msg_len c).
Definition set_req_que (v : Z) (c : mb_ctrl_t) : mb_ctrl_t :=
  mkCtrl (nsvrnum c) (npidnum c) (main_pid c) (semid c) (memid c) v (rsp_que c) (req_que_id c) (rsp_que_id c) (max_msg_len c).
Definition set_rsp_que (v : Z) (c : mb_ctrl_t) : mb_ctrl_t :=
  mkCtrl (nsvrnum c) (npidnum c) (main_pid c) (semid c) (memid c) (req_que c) v (req_que_id c) (rsp_que_id c) (max_msg_len c).
Definition set_req_que_id (v : Z) (c : mb_ctrl_t) : mb_ctrl_t :=
  mkCtrl (nsvrnum c) (npidnum c) (main_pid c) (semid c) (memid c) (req_que c) (rsp_que c) v (rsp_que_id c) (max_msg_len c).
Definition set_rsp_que_id (v : Z) (c : mb_ctrl_t) : mb_ctrl_t :=
  mkCtrl (nsvrnum c) (npidnum c) (main_pid c) (semid c) (memid c) (req_que c) (rsp_que c) (req_que_id c) v (max_msg_len c).

Record server_tab_t := mkSvr {
  svrid : Z;
  name : bytes;
  svc_name : bytes;
  parm : bytes;
  pid_tot : Z;
  state : Z;
  rsp_q : Z;
  type : Z;
  msg_type : Z;
  timeout : Z;
}.
Definition set_svrid (v : Z) (t : server_tab_t) : server_tab_t :=
  mkSvr v (name t) (svc_name t) (parm t) (pid_tot t) (state t) (rsp_q t) (type t) (msg_type t) (timeout t).
Definition set_name (v : bytes) (t : server_tab_t) : server_tab_t :=
  mkSvr (svrid t) v (svc_name t) (parm t) (pid_tot t) (state t) (rsp_q t) (type t) (msg_type t) (timeout t).
Definition set_svc_name (v : bytes) (t : server_tab_t) : server_tab_t :=
  mkSvr (svrid t) (name t) v (parm t) (pid_tot t) (state t) (rsp_q t) (type t) (msg_type t) (timeout t).
Definition set_parm (v : bytes) (t : server_tab_t) : server_tab_t :=
  mkSvr (svrid t) (name t) (svc_name t) v (pid_tot t) (state t) (rsp_q t) (type t) (msg_type t) (timeout t).
Definition set_pid_tot (v : Z) (t : server_tab_t) : server_tab_t :=
  mkSvr (svrid t) (name t) (svc_name t) (parm t) v (state t) (rsp_q t) (type t) (msg_type t) (timeout t).
Definition set_state (v : Z) (t : server_tab_t) : server_tab_t :=
  mkSvr (svrid t) (name t) (svc_name t) (parm t) (pid_tot t) v (rsp_q t) (type t) (msg_type t) (timeout t).
Definition set_rsp_q (v : Z) (t : server_tab_t) : server_tab_t :=
  mkSvr (svrid t) (name t) (svc_name t) (parm t) (pid_tot t) (state t) v (type t) (msg_type t) (timeout t).
Definition set_type (v : Z) (t : server_tab_t) : server_tab_t :=
  mkSvr (svrid t) (name t) (svc_name t) (parm t) (pid_tot t) (state t) (rsp_q t) v (msg_type t) (timeout t).
Definition set_msg_type (v : Z) (t : server_tab_t) : server_tab_t :=
  mkSvr (svrid t) (name t) (svc_name t) (parm t) (pid_tot t) (state t) (rsp_q t) (type t) v (timeout t).
Definition set_timeout (v : Z) (t : server_tab_t) : server_tab_t :=
  mkSvr (svrid t) (name t) (svc_name t) (parm t) (pid_tot t) (state t) (rsp_q t) (type t) (msg_type t) v.

Record server_pid_t := mkPid {
  pid : Z;
  p_svrid : Z;
  svrpos : Z;
  seq : Z;
  restart_count_grace : Z;
  tot_restart_count : Z;
  req_done : Z;
  lastDie : Z;
  lastStart : Z;
}.
Definition set_pid (v : Z) (p : server_pid_t) : server_pid_t :=
  mkPid v (p_svrid p) (svrpos p) (seq p) (restart_count_grace p) (tot_restart_count p) (req_done p) (lastDie p) (lastStart p).
Definition set_p_svrid (v : Z) (p : server_pid_t) : server_pid_t :=
  mkPid (pid p) v (svrpos p) (seq p) (restart_count_grace p) (tot_restart_count p) (req_done p) (lastDie p) (lastStart p).
Definition set_svrpos (v : Z) (p : server_pid_t) : server_pid_t :=
  mkPid (pid p) (p_svrid p) v (seq p) (restart_count_grace p) (tot_restart_count p) (req_done p) (lastDie p) (lastStart p).
Definition set_seq (v : Z) (p : server_pid_t) : server_pid_t :=
  mkPid (pid p) (p_svrid p) (svrpos p) v (restart_count_grace p) (tot_restart_count p) (req_done p) (lastDie p) (lastStart p).
Definition set_restart_count_grace (v : Z) (p : server_pid_t) : server_pid_t :=
  mkPid (pid p) (p_svrid p) (svrpos p) (seq p) v (tot_restart_count p) (req_done p) (lastDie p) (lastStart p).
Definition set_tot_restart_count (v : Z) (p : server_pid_t) : server_pid_t :=
  mkPid (pid p) (p_svrid p) (svrpos p) (seq p) (restart_count_grace p) v (req_done p) (lastDie p) (lastStart p).
Definition set_req_done (v : Z) (p : server_pid_t) : server_pid_t :=
  mkPid (pid p) (p_svrid p) (svrpos p) (seq p) (restart_count_grace p) (tot_restart_count p) v (lastDie p) (lastStart p).
Definition set_lastDie (v : Z) (p : server_pid_t) : server_pid_t :=
  mkPid (pid p) (p_svrid p) (svrpos p) (seq p) (restart_count_grace p) (tot_restart_count p) (req_done p) v (lastStart p).
Definition set_lastStart (v : Z) (p : server_pid_t) : server_pid_t :=
  mkPid (pid p) (p_svrid p) (svrpos p) (seq p) (restart_count_grace p) (tot_restart_count p) (req_done p) (lastDie p) v.

Record service_tab_t := mkSvc {
  flags : Z;
  f_name : bytes;
  f_svrid : Z;
  sd_fun : Z;  (* a function pointer *)
}.
Definition set_flags (v : Z) (s : service_tab_t) : service_tab_t :=
  mkSvc v (f_name s) (f_svrid s) (sd_fun s).
Definition set_f_name (v : bytes) (s : service_tab_t) : service_tab_t :=
  mkSvc (flags s) v (f_svrid s) (sd_fun s).
Definition set_f_svrid (v : Z) (s : service_tab_t) : service_tab_t :=
  mkSvc (flags s) (f_name s) v (sd_fun s).
Definition set_sd_fun (v : Z) (s : service_tab_t) : service_tab_t :=
  mkSvc (flags s) (f_name s) (f_svrid s) v.

(** [memset(p, 0, sizeof *p)], [sbSvrTabClear] and [sdSvrPidClear]. *)
Definition zero_svr : server_tab_t := mkSvr 0 [] [] [] 0 0 0 0 0 0.
Definition zero_pid : server_pid_t := mkPid 0 0 0 0 0 0 0 0 0.
Definition zero_svc : service_tab_t := mkSvc 0 [] 0 0.
Definition clear_svr : server_tab_t := set_svrid (-1) zero_svr.
Definition clear_pid : server_pid_t := set_pid (-1) zero_pid.

(** ** Message heads *)

Record IPCMsgHead := mkHead {
  h_name : bytes;  (* char[33] *)
  h_ssn : Z;
  h_conn_ssn : Z;
  h_req_msg_type : Z;
  h_fd : Z;
  h_utime : Z;
  h_reply_flag : Z;
  h_note_msg_type : Z;
  h_len : Z;
}.
Definition set_h_len (v : Z) (h : IPCMsgHead) : IPCMsgHead :=
  mkHead (h_name h) (h_ssn h) (h_conn_ssn h) (h_req_msg_type h) (h_fd h) (h_utime h) (h_reply_flag h) (h_note_msg_type h) v.

Definition zero_head : IPCMsgHead := mkHead (zeros 33) 0 0 0 0 0 0 0 0.

(** Its 96 bytes; all writers clear a head before they fill it, so the padding is zero. *)
Definition SIZEOF_HEAD : Z := 96.

Definition enc_head (h : IPCMsgHead) : bytes :=
  h_name h ++ zeros 3 ++ le32 (h_ssn h) ++ le32 (h_conn_ssn h) ++ zeros 4
  ++ le64 (h_req_msg_type h) ++ le32 (h_fd h) ++ zeros 4 ++ le64 (h_utime h)
  ++ le32 (h_reply_flag h) ++ zeros 4 ++ le64 (h_note_msg_type h) ++ le64 (h_len h).

Definition field (off n : nat) (b : bytes) : bytes := take n (drop off b).

Definition dec_head (b : bytes) : IPCMsgHead :=
  mkHead (field 0 33 b) (get_u32 (field 36 4 b)) (get_u32 (field 40 4 b))
    (get_i64 (field 48 8 b)) (get_i32 (field 56 4 b)) (get_i64 (field 64 8 b))
    (get_i32 (field 72 4 b)) (get_i64 (field 80 8 b)) (get_i64 (field 88 8 b)).

Record sunda_req_head_t := mkReq { r_name : bytes; (* char[32] *) r_ssn : Z; r_err_no : Z }.

Definition zero_req : sunda_req_head_t := mkReq (zeros 32) 0 0.

Definition SIZEOF_REQ : Z := 40.

Definition enc_req (r : sunda_req_head_t) : bytes :=
  r_name r ++ le32 (r_ssn r) ++ le32 (r_err_no r).

Definition dec_req (b : bytes) : sunda_req_head_t :=
  mkReq (field 0 32 b) (get_u32 (field 32 4 b)) (get_i32 (field 36 4 b)).

Record tskcmd_t := mkCmd { t_cmd : Z; t_id : Z; t_err : Z }.

Definition SIZEOF_CMD : Z := 12.

Definition enc_cmd (c : tskcmd_t) : bytes := le32 (t_cmd c) ++ le32 (t_id c) ++ le32 (t_err c).

Definition dec_cmd (b : bytes) : tskcmd_t :=
  mkCmd (get_i32 (field 0 4 b)) (get_i32 (field 4 4 b)) (get_i32 (field 8 4 b)).

(** What a service function gets: [data] is a pointer. *)
Record sd_info_t := mkInfo { i_name : bytes; i_data : Z; i_len : Z }.

(** ** The state of a process *)

Record world := mkWorld {
  w_os : os;
  w_ctrl : mb_ctrl_t;  (* the control block of the segment *)
  attached : bool;  (* [mbctrl != NULL] *)
  tSvrTab : list server_tab_t;
  tSvrPid : list server_pid_t;
  tSvcTab : list service_tab_t;
  gipcMsgHead : IPCMsgHead;
  tux_errno : Z;
  mb_longjmp : Z;
  timer_expired : Z;
  w_heap : gmap Z bytes;  (* objects in memory, by address *)
  w_brk : Z;  (* the next address malloc returns *)
  w_mem : Z;  (* the largest object malloc grants *)
  w_junk : ascii;  (* what fresh memory holds *)
  w_eax : Z;  (* what a function that ends without a return statement returns *)
}.
Definition set_w_os (v : os) (w : world) : world :=
  mkWorld v (w_ctrl w) (attached w) (tSvrTab w) (tSvrPid w) (tSvcTab w) (gipcMsgHead w) (tux_errno w) (mb_longjmp w) (timer_expired w) (w_heap w) (w_brk w) (w_mem w) (w_junk w) (w_eax w).
Definition set_w_ctrl (v : mb_ctrl_t) (w : world) : world :=
  mkWorld (w_os w) v (attached w) (tSvrTab w) (tSvrPid w) (tSvcTab w) (gipcMsgHead w) (tux_errno w) (mb_longjmp w) (timer_expired w) (w_heap w) (w_brk w) (w_mem w) (w_junk w) (w_eax w).
Definition set_attached (v : bool) (w : world) : world :=
  mkWorld (w_os w) (w_ctrl w) v (tSvrTab w) (tSvrPid w) (tSvcTab w) (gipcMsgHead w) (tux_errno w) (mb_longjmp w) (timer_expired w) (w_heap w) (w_brk w) (w_mem w) (w_junk w) (w_eax w).
Definition set_tSvrTab (v : list server_tab_t) (w : world) : world :=
  mkWorld (w_os w) (w_ctrl w) (attached w) v (tSvrPid w) (tSvcTab w) (gipcMsgHead w) (tux_errno w) (mb_longjmp w) (timer_expired w) (w_heap w) (w_brk w) (w_mem w) (w_junk w) (w_eax w).
Definition set_tSvrPid (v : list server_pid_t) (w : world) : world :=
  mkWorld (w_os w) (w_ctrl w) (attached w) (tSvrTab w) v (tSvcTab w) (gipcMsgHead w) (tux_errno w) (mb_longjmp w) (timer_expired w) (w_heap w) (w_brk w) (w_mem w) (w_junk w) (w_eax w).
Definition set_tSvcTab (v : list service_tab_t) (w : world) : world :=
  mkWorld (w_os w) (w_ctrl w) (attached w) (tSvrTab w) (tSvrPid w) v (gipcMsgHead w) (tux_errno w) (mb_longjmp w) (timer_expired w) (w_heap w) (w_brk w) (w_mem w) (w_junk w) (w_eax w).
Definition set_gipcMsgHead (v : IPCMsgHead) (w : world) : world :=
  mkWorld (w_os w) (w_ctrl w) (attached w) (tSvrTab w) (tSvrPid w) (tSvcTab w) v (tux_errno w) (mb_longjmp w) (timer_expired w) (w_heap w) (w_brk w) (w_mem w) (w_junk w) (w_eax w).
Definition set_tux_errno (v : Z) (w : world) : world :=
  mkWorld (w_os w) (w_ctrl w) (attached w) (tSvrTab w) (tSvrPid w) (tSvcTab w) (gipcMsgHead w) v (mb_longjmp w) (timer_expired w) (w_heap w) (w_brk w) (w_mem w) (w_junk w) (w_eax w).
Definition set_mb_longjmp (v : Z) (w : world) : world :=
  mkWorld (w_os w) (w_ctrl w) (attached w) (tSvrTab w) (tSvrPid w) (tSvcTab w) (gipcMsgHead w) (tux_errno w) v (timer_expired w) (w_heap w) (w_brk w) (w_mem w) (w_junk w) (w_eax w).
Definition set_timer_expired (v : Z) (w : world) : world :=
  mkWorld (w_os w) (w_ctrl w) (attached w) (tSvrTab w) (tSvrPid w) (tSvcTab w) (gipcMsgHead w) (tux_errno w) (mb_longjmp w) v (w_heap w) (w_brk w) (w_mem w) (w_junk w) (w_eax w).
Definition set_w_heap (v : gmap Z bytes) (w : world) : world :=
  mkWorld (w_os w) (w_ctrl w) (attached w) (tSvrTab w) (tSvrPid w) (tSvcTab w) (gipcMsgHead w) (tux_errno w) (mb_longjmp w) (timer_expired w) v (w_brk w) (w_mem w) (w_junk w) (w_eax w).
Definition set_w_brk (v : Z) (w : world) : world :=
  mkWorld (w_os w) (w_ctrl w) (attached w) (tSvrTab w) (tSvrPid w) (tSvcTab w) (gipcMsgHead w) (tux_errno w) (mb_longjmp w) (timer_expired w) (w_heap w) v (w_mem w) (w_junk w) (w_eax w).

Lemma world_eq w w' :
  w_os w = w_os w' -> w_ctrl w = w_ctrl w' -> attached w = attached w' ->
  tSvrTab w = tSvrTab w' -> tSvrPid w = tSvrPid w' -> tSvcTab w = tSvcTab w' ->
  gipcMsgHead w = gipcMsgHead w' -> tux_errno w = tux_errno w' -> mb_longjmp w = mb_longjmp w' ->
  timer_expired w = timer_expired w' -> w_heap w = w_heap w' -> w_brk w = w_brk w' ->
  w_mem w = w_mem w' -> w_junk w = w_junk w' -> w_eax w = w_eax w' -> w = w'.
Proof. destruct w, w'; cbn. intros; now subst. Qed.

(** Running an operation of the system in a process.  The handlers of the signals it
    caught on the way run before it returns to the program. *)
Definition lift {A} (m : prog os A) : prog world A := fun w =>
  match m (w_os w) with
  | Ret a o => Ret a (set_w_os o w)
  | Jump v o => Jump v (set_w_os o w)
  | Exit v o => Exit v (set_w_os o w)
  | Block o => Block (set_w_os o w)
  | Spin => Spin
  | Fault => Fault
  end.

Definition set_tux_err (e : Z) : prog world unit := modify (set_tux_errno e).

(** [tux_errno = e; return r;] *)
Definition err {A} (e : Z) (r : A) : prog world A := set_tux_err e ;;; ret r.

(** [longjmp(_mb_jmpbuf, v)]: the value 0 arrives as 1. *)
Definition longjmp {A} (v : Z) : prog world A := fun w => Jump (if v =? 0 then 1 else v) w.

(** The control block, through [mbctrl]. *)
Definition ctrl : prog world mb_ctrl_t := fun w =>
  if attached w then Ret (w_ctrl w) w else Fault.

Definition upd_ctrl (f : mb_ctrl_t -> mb_ctrl_t) : prog world unit := fun w =>
  if attached w then Ret tt (set_w_ctrl (f (w_ctrl w)) w) else Fault.

Definition sdIsAttach (w : world) : bool := attached w.

(** Table entries, by index. *)
Definition entry {A} (tab : world -> list A) (i : Z) : prog world A := fun w =>
  if attached w then deref (znth (tab w) i) w else Fault.
Definition svr (i : Z) : prog world server_tab_t := entry tSvrTab i.
Definition pidt (i : Z) : prog world server_pid_t := entry tSvrPid i.
Definition svc (i : Z) : prog world service_tab_t := entry tSvcTab i.

Definition upd_entry {A} (tab : world -> list A) (set : list A -> world -> world)
    (i : Z) (f : A -> A) : prog world unit := fun w =>
  if attached w && inb (tab w) i then Ret tt (set (zupd i f (tab w)) w) else Fault.
Definition upd_svr : Z -> (server_tab_t -> server_tab_t) -> prog world unit :=
  upd_entry tSvrTab set_tSvrTab.
Definition upd_pid : Z -> (server_pid_t -> server_pid_t) -> prog world unit :=
  upd_entry tSvrPid set_tSvrPid.
Definition upd_svc : Z -> (service_tab_t -> service_tab_t) -> prog world unit :=
  upd_entry tSvcTab set_tSvcTab.

(** The entries a loop over a whole table reads: [n] of them must be there. *)
Definition whole {A} (tab : world -> list A) (n : Z) : prog world (list A) := fun w =>
  if attached w && (n <=? Z.of_nat (length (tab w))) then Ret (take (Z.to_nat n) (tab w)) w
  else Fault.
Definition svrs : prog world (list server_tab_t) :=
  let* c := ctrl in whole tSvrTab (nsvrnum c).
Definition pids : prog world (list server_pid_t) :=
  let* c := ctrl in whole tSvrPid (npidnum c).
Definition svcs : prog world (list service_tab_t) :=
  let* c := ctrl in whole tSvcTab (nsvrnum c).

(** [strcpy] into a [char[n + 1]] field. *)
Definition fit (n : Z) (s : bytes) : prog world bytes :=
  if Z.of_nat (length s) <=? n then ret s else fault.

(** ** Round trips of the wire structures *)

Definition wf_head (h : IPCMsgHead) : Prop :=
  length (h_name h) = 33%nat /\ 0 <= h_ssn h < 2 ^ 32 /\ 0 <= h_conn_ssn h < 2 ^ 32
  /\ - 2 ^ 63 <= h_req_msg_type h < 2 ^ 63 /\ - 2 ^ 31 <= h_fd h < 2 ^ 31
  /\ - 2 ^ 63 <= h_utime h < 2 ^ 63 /\ - 2 ^ 31 <= h_reply_flag h < 2 ^ 31
  /\ - 2 ^ 63 <= h_note_msg_type h < 2 ^ 63 /\ - 2 ^ 63 <= h_len h < 2 ^ 63.

Lemma field_here n (a b : bytes) : length a = n -> field 0 n (a ++ b) = a.
Proof. intros <-. unfold field. rewrite drop_0. apply take_app_length. Qed.

Lemma field_all n (a : bytes) : length a = n -> field 0 n a = a.
Proof. intros <-. unfold field. rewrite drop_0. now apply take_ge. Qed.

Lemma field_there off n k (a b : bytes) :
  length a = k -> (k <= off)%nat -> field off n (a ++ b) = field (off - k) n b.
Proof. intros <- H. unfold field. now rewrite drop_app_ge. Qed.

Lemma length_le32 z : length (le32 z) = 4%nat.
Proof. apply length_enc. Qed.
Lemma length_le64 z : length (le64 z) = 8%nat.
Proof. apply length_enc. Qed.
Lemma length_zeros_nat n : length (zeros n) = Z.to_nat n.
Proof. apply length_replicate. Qed.

(** [field_tac] finds a field in a concatenation of pieces of known length. *)
Ltac field_tac :=
  repeat first
    [ rewrite field_here by (first [apply length_le32 | apply length_le64 | apply length_zeros_nat | assumption])
    | erewrite field_there by
        (first [apply length_le32 | apply length_le64 | apply length_zeros_nat | eassumption
               | cbn; lia | vm_compute; lia]);
      cbn [Nat.sub Z.to_nat Pos.to_nat Pos.iter_op Nat.add] ].

Lemma length_enc_head h : length (h_name h) = 33%nat -> length (enc_head h) = 96%nat.
Proof.
  intros H. unfold enc_head. rewrite !length_app, !length_le32, !length_le64, !length_zeros_nat, H.
  reflexivity.
Qed.

Lemma length_enc_req r : length (r_name r) = 32%nat -> length (enc_req r) = 40%nat.
Proof. intros H. unfold enc_req. rewrite !length_app, !length_le32, H. reflexivity. Qed.

Lemma length_enc_cmd c : length (enc_cmd c) = 12%nat.
Proof. unfold enc_cmd. now rewrite !length_app, !length_le32. Qed.

Lemma field_app off n (a b : bytes) : (off + n <= length a)%nat -> field off n (a ++ b) = field off n a.
Proof.
  intros. unfold field. rewrite drop_app_le, take_app_le by (rewrite ?length_drop; lia). done.
Qed.

(** One field of an encoded structure: the pieces before it are skipped. *)
Ltac get_field :=
  field_tac;
  try (match goal with |- context [field ?k] => change k with 0%nat end;
       rewrite field_all by apply length_enc);
  first [ rewrite get_u32_le32, u32_id by assumption
        | rewrite get_i32_le32, i32_id by assumption
        | rewrite get_i64_le64, i64_id by assumption
        | idtac ].

Lemma dec_enc_head h rest : wf_head h -> dec_head (enc_head h ++ rest) = h.
Proof.
  intros (Hn & H1 & H2 & H3 & H4 & H5 & H6 & H7 & H8).
  pose proof (length_enc_head h Hn) as L. unfold dec_head.
  rewrite !field_app by lia. unfold enc_head.
  transitivity (mkHead (h_name h) (h_ssn h) (h_conn_ssn h) (h_req_msg_type h) (h_fd h)
                  (h_utime h) (h_reply_flag h) (h_note_msg_type h) (h_len h)); [|now destruct h].
  f_equal; get_field; reflexivity.
Qed.

Definition wf_req (r : sunda_req_head_t) : Prop :=
  length (r_name r) = 32%nat /\ 0 <= r_ssn r < 2 ^ 32 /\ - 2 ^ 31 <= r_err_no r < 2 ^ 31.

Lemma dec_enc_req r rest : wf_req r -> dec_req (enc_req r ++ rest) = r.
Proof.
  intros (Hn & H1 & H2). pose proof (length_enc_req r Hn) as L. unfold dec_req.
  rewrite !field_app by lia. unfold enc_req.
  transitivity (mkReq (r_name r) (r_ssn r) (r_err_no r)); [|now destruct r].
  f_equal; get_field; reflexivity.
Qed.

Definition wf_cmd (c : tskcmd_t) : Prop :=
  - 2 ^ 31 <= t_cmd c < 2 ^ 31 /\ - 2 ^ 31 <= t_id c < 2 ^ 31 /\ - 2 ^ 31 <= t_err c < 2 ^ 31.

Lemma dec_enc_cmd c rest : wf_cmd c -> dec_cmd (enc_cmd c ++ rest) = c.
Proof.
  intros (H1 & H2 & H3). pose proof (length_enc_cmd c) as L. unfold dec_cmd.
  rewrite !field_app by lia. unfold enc_cmd.
  transitivity (mkCmd (t_cmd c) (t_id c) (t_err c)); [|now destruct c].
  f_equal; get_field; reflexivity.
Qed.

(** ** Steps of programs on the world *)

Lemma lift_Ret {A} (m : prog os A) w a o :
  m (w_os w) = Ret a o -> lift m w = Ret a (set_w_os o w).
Proof. unfold lift. now intros ->. Qed.

Lemma lift_bind {A B} (m : prog os A) (k : A -> prog world B) w a o :
  m (w_os w) = Ret a o -> bind (lift m) k w = k a (set_w_os o w).
Proof. intros H. unfold bind. now rewrite (lift_Ret m w a o H). Qed.
