(* ===== verification/Tuxmem.v ===== *)
(** * Typed buffers: [tux_alloc], [tux_realloc], [tux_free], [tux_real_len]

    The first part of [src/dev/src/pubfun/tux/tuxmgr.c].  A buffer is framed by two
    copies of a [struct tpmemory]; the pointer a caller holds is one behind the
    first.  Objects of memory are byte arrays at addresses [STRIDE] apart, so that
    an address determines its object and an offset; reads and writes outside the
    object are faults.  [malloc] returns fresh addresses, [realloc] always moves,
    and what fresh memory holds is the unspecified byte [w_junk]. *)

From Stdlib Require Import ZArith Lia Bool List Ascii String.
From stdpp Require Import base list gmap.
From S2P Require Import Prelude Cstr Kernel Sunda.

Definition STRIDE : Z := 2 ^ 40.
Definition MAX_OBJECT : Z := 2 ^ 39.
Definition NULL : Z := 0.

(** ** Memory *)

Definition obj (a : Z) : Z := a - a mod STRIDE.

Definition load (a n : Z) : prog world bytes := fun w =>
  deref (b ← w_heap w !! obj a; ld (a mod STRIDE) n b) w.

Definition store (a : Z) (bs : bytes) : prog world unit := fun w =>
  match b ← w_heap w !! obj a; st (a mod STRIDE) bs b with
  | Some b => Ret tt (set_w_heap (<[obj a := b]> (w_heap w)) w)
  | None => Fault
  end.

(** [strlen] and the string itself: they stop at a NUL inside the object. *)
Definition load_str (a : Z) : prog world bytes := fun w =>
  match w_heap w !! obj a with
  | Some b =>
      let b := drop (Z.to_nat (a mod STRIDE)) b in
      if terminated b then Ret (cstr b) w else Fault
  | None => Fault
  end.

Definition new_object (b : bytes) : prog world Z := fun w =>
  Ret (w_brk w) (set_w_brk (w_brk w + STRIDE) (set_w_heap (<[w_brk w := b]> (w_heap w)) w)).

Definition granted (n : Z) (w : world) : bool := (n <=? w_mem w) && (n <=? MAX_OBJECT).

Definition junk (n : nat) (w : world) : bytes := replicate n (w_junk w).

Definition malloc (n : Z) : prog world Z :=
  let* w := get id in
  if granted n w then new_object (junk (Z.to_nat n) w) else ret NULL.

Definition object (p : Z) : prog world bytes := fun w =>
  if p mod STRIDE =? 0 then deref (w_heap w !! p) w else Fault.

Definition drop_object (p : Z) : prog world unit :=
  modify (fun w => set_w_heap (delete p (w_heap w)) w).

Definition realloc (p n : Z) : prog world Z :=
  let* old := object p in
  let* w := get id in
  if granted n w then
    drop_object p ;;;
    new_object (take (Z.to_nat n) old ++ junk (Z.to_nat n - length old) w)
  else ret NULL.

Definition free (p : Z) : prog world unit := object p ;;; drop_object p.

(** ** [struct tpmemory] and the macros of [sunda.h] *)

Record tpmemory := mkTp { tp_type : Z; tp_subtype : Z; tp_len : Z; tp_magic : Z }.

Definition SIZEOF_TP : Z := 32.
Definition MAGIC : Z := 4276195341.        (* 0xfee1900d *)
Definition NOT_MAGIC : Z := 2 ^ 32 - 1 - MAGIC.  (* ~MAGIC, an unsigned int *)

Definition ALLOC_UNITS (s : Z) : Z := u64 (u64 (u64 s + SIZEOF_TP - 1) / SIZEOF_TP + 2).

(** The addresses of the three static strings, below every object. *)
Definition emptystring : Z := 16.
Definition stringtype : Z := 17.
Definition carraytype : Z := 24.

Definition static_str (a : Z) : option bytes :=
  if a =? emptystring then Some []
  else if a =? stringtype then Some (str "STRING")
  else if a =? carraytype then Some (str "CARRAY")
  else None.

Definition enc_tp (t : tpmemory) : bytes :=
  le64 (tp_type t) ++ le64 (tp_subtype t) ++ le64 (tp_len t) ++ le64 (tp_magic t).

Arguments enc_tp : simpl never.

Definition dec_tp (b : bytes) : tpmemory :=
  mkTp (get_i64 (field 0 8 b)) (get_i64 (field 8 8 b)) (get_i64 (field 16 8 b))
       (get_i64 (field 24 8 b)).

Definition load_tp (p : Z) : prog world tpmemory :=
  let* b := load p SIZEOF_TP in ret (dec_tp b).

Definition IS_MAGIC (p : Z) : prog world bool :=
  if p =? NULL then ret false
  else let* b := load (p - 8) 8 in ret (get_i64 b =? MAGIC).

(** [p + ALLOC_UNITS(len) - 1]. *)
Definition trailer (p len : Z) : Z := u64 (p + (ALLOC_UNITS len - 1) * SIZEOF_TP).

(** The two frames of a buffer agree. *)
Definition same_tp (p p2 : tpmemory) : bool :=
  (tp_len p =? tp_len p2) && (tp_magic p =? tp_magic p2)
  && (tp_type p =? tp_type p2) && (tp_subtype p =? tp_subtype p2).

(** ** The code *)

Definition tux_alloc (type : bytes) (size : Z) : prog world Z :=
  if size <? 0 then err SYS_INVAL NULL
  else if LONG_MAX <? size + 2048 then fault
  else
    let len := size + 2048 in
    let* p := malloc (u64 (ALLOC_UNITS len * SIZEOF_TP)) in
    if p =? NULL then err SYS_OS NULL
    else
      let p2 := trailer p len in
      let ty := if streq type (str "STRING") then stringtype
                else if streq type (str "CARRAY") then carraytype else emptystring in
      let t := mkTp ty emptystring len MAGIC in
      store p2 (enc_tp t) ;;;
      store p (enc_tp t) ;;;
      ret (p + SIZEOF_TP).

Definition tux_realloc (ptr size : Z) : prog world Z :=
  let* m := IS_MAGIC ptr in
  if negb m || (size <? 0) then err SYS_INVAL NULL
  else
    let p := ptr - SIZEOF_TP in
    let* t := load_tp p in
    let* t2 := load_tp (trailer p (tp_len t)) in
    if negb (same_tp t t2) then err SYS_INVAL NULL
    else
      let* p := realloc p (u64 (ALLOC_UNITS size * SIZEOF_TP)) in
      if p =? NULL then err SYS_OS NULL
      else
        let* t := load_tp p in
        let t := mkTp (tp_type t) (tp_subtype t) size (tp_magic t) in
        store p (enc_tp t) ;;;
        store (trailer p size) (enc_tp t) ;;;
        ret (p + SIZEOF_TP).

Definition tux_free (ptr : Z) : prog world unit :=
  if ptr =? NULL then ret tt
  else
    let* m := IS_MAGIC ptr in
    if negb m then ret tt
    else
      let p := ptr - SIZEOF_TP in
      let* t := load_tp p in
      let p2 := trailer p (tp_len t) in
      let* t2 := load_tp p2 in
      if negb (same_tp t t2) then ret tt
      else
        store (p + 24) (le64 NOT_MAGIC) ;;;
        store (p2 + 24) (le64 NOT_MAGIC) ;;;
        free p.

Definition tux_real_len (bufptr : Z) : prog world Z :=
  if bufptr =? NULL then err SYS_INVAL (-1)
  else
    let* m := IS_MAGIC bufptr in
    if negb m then err SYS_INVAL (-1)
    else
      let p := bufptr - SIZEOF_TP in
      let* t := load_tp p in
      let* t2 := load_tp (trailer p (tp_len t)) in
      if negb (same_tp t t2) then err SYS_INVAL (-1)
      else
        let* ty := deref (static_str (tp_type t)) in
        if streq ty (str "STRING")
        then let* s := load_str bufptr in ret (Z.of_nat (length s) + 1)
        else ret (tp_len t).

(** ** Loads and stores at an offset *)

Lemma ld_app k n (a b c : bytes) :
  Z.of_nat (length a) = k -> Z.of_nat (length b) = n -> ld k n (a ++ b ++ c) = Some b.
Proof.
  intros <- <-. unfold ld. rewrite !length_app.
  rewrite (proj2 (Z.leb_le 0 _)), (proj2 (Z.leb_le 0 _)), (proj2 (Z.leb_le _ _)) by lia.
  cbn [andb]. now rewrite !Nat2Z.id, drop_app_length, take_app_length.
Qed.

Lemma ld_end k n (a b : bytes) :
  Z.of_nat (length a) = k -> Z.of_nat (length b) = n -> ld k n (a ++ b) = Some b.
Proof. intros. rewrite <- (app_nil_r (a ++ b)), <- app_assoc. now apply ld_app. Qed.

Lemma st_app k (a b c b' : bytes) :
  Z.of_nat (length a) = k -> length b = length b' -> st k b' (a ++ b ++ c) = Some (a ++ b' ++ c).
Proof.
  intros <- L. unfold st. rewrite !length_app.
  rewrite (proj2 (Z.leb_le 0 _)), (proj2 (Z.leb_le _ _)) by lia. cbn [andb].
  rewrite Nat2Z.id, take_app_length, <- L, <- drop_drop, drop_app_length.
  now rewrite drop_app_length.
Qed.

Lemma st_end k (a b b' : bytes) :
  Z.of_nat (length a) = k -> length b = length b' -> st k b' (a ++ b) = Some (a ++ b').
Proof.
  intros. rewrite <- (app_nil_r (a ++ b)), <- app_assoc, (st_app k) by done.
  now rewrite app_nil_r.
Qed.

Lemma obj_off p k : p mod STRIDE = 0 -> 0 <= k < STRIDE -> obj (p + k) = p /\ (p + k) mod STRIDE = k.
Proof.
  unfold obj, STRIDE. intros Hp Hk.
  assert (E : (p + k) mod 2 ^ 40 = k) by (rewrite Z.add_mod, Hp, Z.add_0_l, Z.mod_mod, Z.mod_small; lia).
  rewrite E. split; [lia|done].
Qed.

Lemma load_at p k n w b bs :
  p mod STRIDE = 0 -> 0 <= k < STRIDE -> w_heap w !! p = Some b -> ld k n b = Some bs ->
  load (p + k) n w = Ret bs w.
Proof.
  intros Hp Hk Hb Hl. unfold load. destruct (obj_off p k Hp Hk) as [-> ->].
  rewrite Hb. cbn. now rewrite Hl.
Qed.

Lemma store_at p k w b bs b' :
  p mod STRIDE = 0 -> 0 <= k < STRIDE -> w_heap w !! p = Some b -> st k bs b = Some b' ->
  store (p + k) bs w = Ret tt (set_w_heap (<[p := b']> (w_heap w)) w).
Proof.
  intros Hp Hk Hb Hl. unfold store. destruct (obj_off p k Hp Hk) as [-> ->].
  rewrite Hb. cbn. now rewrite Hl.
Qed.

Lemma object_at p w b :
  p mod STRIDE = 0 -> w_heap w !! p = Some b -> object p w = Ret b w.
Proof. intros Hp Hb. unfold object. rewrite Hp, Hb. done. Qed.

Lemma ALLOC_UNITS_eq s : 0 <= s <= MAX_OBJECT -> ALLOC_UNITS s = (s + 31) / 32 + 2.
Proof.
  unfold MAX_OBJECT. intros. unfold ALLOC_UNITS, SIZEOF_TP.
  assert (0 <= (s + 31) / 32 <= s + 31)
    by (split; [apply Z.div_pos; lia|apply Z.div_le_upper_bound; lia]).
  rewrite (u64_id s), (u64_id (s + 32 - 1)) by lia.
  replace (s + 32 - 1) with (s + 31) by lia. apply u64_id. lia.
Qed.

(** ** Buffers *)

Definition wf_tp (t : tpmemory) : Prop :=
  - 2 ^ 63 <= tp_type t < 2 ^ 63 /\ - 2 ^ 63 <= tp_subtype t < 2 ^ 63
  /\ - 2 ^ 63 <= tp_len t < 2 ^ 63 /\ - 2 ^ 63 <= tp_magic t < 2 ^ 63.

Lemma length_enc_tp t : length (enc_tp t) = 32%nat.
Proof. unfold enc_tp. now rewrite !length_app, !length_le64. Qed.

Lemma dec_enc_tp t : wf_tp t -> dec_tp (enc_tp t) = t.
Proof.
  intros (H1 & H2 & H3 & H4). unfold dec_tp, enc_tp.
  transitivity (mkTp (tp_type t) (tp_subtype t) (tp_len t) (tp_magic t)); [|now destruct t].
  f_equal; get_field; reflexivity.
Qed.

(** The data area: what [ALLOC_UNITS] leaves between the frames. *)
Definition room (len : Z) : Z := ((len + 31) / 32) * 32.

Lemma room_ge len : 0 <= len -> len <= room len < len + 32.
Proof. intros. unfold room. pose proof (Z.div_mod (len + 31) 32). pose proof (Z.mod_pos_bound (len + 31) 32). lia. Qed.

(** [buffer ptr t data t2 w]: at [ptr] lie data framed by [t] and [t2]. *)
Definition buffer (ptr : Z) (t : tpmemory) (data : bytes) (t2 : tpmemory) (w : world) : Prop :=
  (ptr - 32) mod STRIDE = 0 /\ 0 < ptr - 32 < 2 ^ 62 /\ wf_tp t /\ wf_tp t2
  /\ 0 <= tp_len t <= MAX_OBJECT /\ Z.of_nat (length data) = room (tp_len t)
  /\ w_heap w !! (ptr - 32) = Some (enc_tp t ++ data ++ enc_tp t2).

(** [live]: both frames are intact. *)
Definition live (ptr ty len : Z) (data : bytes) (w : world) : Prop :=
  let t := mkTp ty emptystring len MAGIC in buffer ptr t data t w.

Lemma trailer_eq p len :
  0 < p < 2 ^ 62 -> 0 <= len <= MAX_OBJECT -> trailer p len = p + (32 + room len).
Proof.
  unfold MAX_OBJECT. intros. unfold trailer, SIZEOF_TP, room.
  rewrite ALLOC_UNITS_eq by (unfold MAX_OBJECT; lia).
  pose proof (room_ge len ltac:(lia)) as R. unfold room in R.
  rewrite u64_id by lia. lia.
Qed.

Section Frames.
Context (ptr : Z) (t : tpmemory) (data : bytes) (t2 : tpmemory) (w : world).
Hypothesis (B : buffer ptr t data t2 w).

Lemma buffer_nonnull : (ptr =? NULL) = false.
Proof. destruct B as (_ & H & _). apply Z.eqb_neq. unfold NULL. lia. Qed.

Lemma IS_MAGIC_buffer : IS_MAGIC ptr w = Ret (tp_magic t =? MAGIC) w.
Proof.
  pose proof buffer_nonnull as N. destruct B as (Hp & Hr & Ht & _ & _ & _ & Hb).
  unfold IS_MAGIC. rewrite N.
  assert (L : load (ptr - 8) 8 w = Ret (le64 (tp_magic t)) w).
  { replace (ptr - 8) with (ptr - 32 + 24) by lia.
    eapply load_at; [done|unfold STRIDE; lia|exact Hb|].
    unfold enc_tp. rewrite (app_assoc (le64 (tp_type t))), (app_assoc (le64 (tp_type t) ++ _)), <- app_assoc.
    now apply ld_app; rewrite ?length_app, !length_le64. }
  rewrite (bind_Ret _ _ _ _ _ L), get_i64_le64, i64_id by apply Ht. done.
Qed.

Lemma load_tp_front : load_tp (ptr - SIZEOF_TP) w = Ret t w.
Proof.
  destruct B as (Hp & Hr & Ht & _ & _ & _ & Hb). unfold load_tp, SIZEOF_TP.
  assert (L : load (ptr - 32) 32 w = Ret (enc_tp t) w).
  { rewrite <- (Z.add_0_r (ptr - 32)). eapply load_at; [done|unfold STRIDE; lia|exact Hb|].
    apply (ld_app 0 32 []); cbn [length]; rewrite ?length_enc_tp; done. }
  rewrite (bind_Ret _ _ _ _ _ L). now rewrite dec_enc_tp.
Qed.

Lemma trailer_in : 0 <= 32 + room (tp_len t) < STRIDE.
Proof.
  destruct B as (_ & _ & _ & _ & Hl & _). unfold MAX_OBJECT in Hl. unfold STRIDE.
  pose proof (room_ge (tp_len t)). lia.
Qed.

Lemma load_tp_back : load_tp (trailer (ptr - SIZEOF_TP) (tp_len t)) w = Ret t2 w.
Proof.
  pose proof trailer_in as Hin.
  destruct B as (Hp & Hr & _ & Ht & Hl & Hd & Hb). unfold load_tp, SIZEOF_TP.
  rewrite trailer_eq by done.
  assert (L : load (ptr - 32 + (32 + room (tp_len t))) 32 w = Ret (enc_tp t2) w).
  { eapply load_at; [done|done|exact Hb|].
    rewrite app_assoc. apply ld_end; rewrite ?length_app, ?length_enc_tp; lia. }
  rewrite (bind_Ret _ _ _ _ _ L). now rewrite dec_enc_tp.
Qed.
End Frames.

Lemma same_tp_eq t t2 : same_tp t t2 = true <-> t = t2.
Proof.
  unfold same_tp. rewrite !andb_true_iff, !Z.eqb_eq. destruct t, t2; cbn.
  split; [intros [[[-> ->] ->] ->]; done|intros [= -> -> -> ->]; done].
Qed.

(** ** Writing frames *)

Lemma store_front p w t a rest :
  p mod STRIDE = 0 -> w_heap w !! p = Some (a ++ rest) -> length a = 32%nat ->
  store p (enc_tp t) w = Ret tt (set_w_heap (<[p := enc_tp t ++ rest]> (w_heap w)) w).
Proof.
  intros Hp Hb Ha. rewrite <- (Z.add_0_r p) at 1. eapply store_at; [done|unfold STRIDE; lia|exact Hb|].
  apply (st_app 0 []); [done|]. now rewrite length_enc_tp.
Qed.

Lemma store_back p k w t front a :
  p mod STRIDE = 0 -> w_heap w !! p = Some (front ++ a) -> length a = 32%nat ->
  Z.of_nat (length front) = k -> 0 <= k < STRIDE ->
  store (p + k) (enc_tp t) w = Ret tt (set_w_heap (<[p := front ++ enc_tp t]> (w_heap w)) w).
Proof.
  intros Hp Hb Ha Hf Hk. eapply store_at; [done|done|exact Hb|].
  apply st_end; [done|]. now rewrite length_enc_tp.
Qed.

Lemma load_tp_block p t rest w :
  p mod STRIDE = 0 -> wf_tp t -> w_heap w !! p = Some (enc_tp t ++ rest) ->
  load_tp p w = Ret t w.
Proof.
  intros Hp W Hb. unfold load_tp.
  assert (L : load p SIZEOF_TP w = Ret (enc_tp t) w).
  { rewrite <- (Z.add_0_r p). eapply load_at; [done|unfold STRIDE; lia|exact Hb|].
    apply (ld_app 0 SIZEOF_TP []); [done|]. now rewrite length_enc_tp. }
  rewrite (bind_Ret _ _ _ _ _ L). now rewrite dec_enc_tp.
Qed.

(** The heap: objects lie below [w_brk], at multiples of [STRIDE]. *)
Definition heap_ok (w : world) : Prop :=
  w_brk w mod STRIDE = 0 /\ 0 < w_brk w /\ (forall p, is_Some (w_heap w !! p) -> p < w_brk w).

Lemma objects_aligned w (b := w_brk w) : heap_ok w ->
  b mod STRIDE = 0 /\ 0 < b /\ (b + STRIDE) mod STRIDE = 0 /\ (b + STRIDE + STRIDE) mod STRIDE = 0.
Proof.
  intros (H1 & H2 & _). split; [exact H1|]. split; [exact H2|]. unfold b.
  rewrite !(Z.add_mod _ STRIDE), H1 by (unfold STRIDE; lia). done.
Qed.


(** Two stores, one behind the other, into fresh memory. *)
Lemma store_two p a d n w off :
  off = Z.of_nat (length a) -> p mod STRIDE = 0 -> w_heap w !! p = Some (zeros n) -> Z.of_nat (length a) + Z.of_nat (length d) <= n -> n < STRIDE ->
  (store p a ;;; store (p + off) d) w
  = Ret tt (set_w_heap (<[p := a ++ d ++ zeros (n - Z.of_nat (length a) - Z.of_nat (length d))]> (w_heap w)) w).
Proof.
  intros -> A Hp Hl Hn. set (la := Z.of_nat (length a)) in *. set (ld := Z.of_nat (length d)) in *.
  erewrite bind_Ret.
  2:{ rewrite <- (Z.add_0_r p) at 1. apply (store_at p 0 w (zeros n) a (a ++ zeros (n - la)) A ltac:(done) Hp).
      apply st_zeros_start. fold la. lia. }
  replace (zeros (n - la)) with (zeros ld ++ zeros (n - la - ld)) by (rewrite <- zeros_add by lia; f_equal; lia).
  erewrite store_at; [|exact A|lia|apply lookup_insert_eq|apply st_app; [done|rewrite length_zeros_nat; lia]].
  cbn [w_heap set_w_heap]. now rewrite insert_insert_eq.
Qed.

Lemma store_two_then {A} p a d n w off (k : prog world A) :
  off = Z.of_nat (length a) -> p mod STRIDE = 0 -> w_heap w !! p = Some (zeros n) -> Z.of_nat (length a) + Z.of_nat (length d) <= n -> n < STRIDE ->
  (store p a ;;; store (p + off) d ;;; k) w
  = k (set_w_heap (<[p := a ++ d ++ zeros (n - Z.of_nat (length a) - Z.of_nat (length d))]> (w_heap w)) w).
Proof.
  intros L A0 Hp Hl Hn. rewrite <- (bind_assoc (store p a) (fun _ => store (p + off) d) (fun _ => k)).
  now rewrite (bind_Ret _ _ _ _ _ (store_two p a d n w off L A0 Hp Hl Hn)).
Qed.

Lemma heap_ok_fresh w : heap_ok w -> w_heap w !! w_brk w = None.
Proof.
  intros (_ & _ & H). destruct (w_heap w !! w_brk w) eqn:E; [|done].
  specialize (H (w_brk w) ltac:(rewrite E; eauto)). lia.
Qed.

Lemma heap_ok_new w b :
  heap_ok w ->
  heap_ok (set_w_brk (w_brk w + STRIDE) (set_w_heap (<[w_brk w := b]> (w_heap w)) w)).
Proof.
  intros (H1 & H2 & H3). split; [|split]; cbn.
  - rewrite Z.add_mod, H1 by (unfold STRIDE; lia). done.
  - unfold STRIDE. lia.
  - intros p. rewrite lookup_insert_is_Some. unfold STRIDE. intros [->|[_ H%H3]]; lia.
Qed.

Lemma heap_ok_set w p b :
  heap_ok w -> is_Some (w_heap w !! p) -> heap_ok (set_w_heap (<[p := b]> (w_heap w)) w).
Proof.
  intros (H1 & H2 & H3) Hp. split; [done|]. split; [done|]. cbn.
  intros q. rewrite lookup_insert_is_Some. intros [<-|[_ H]]; now apply H3.
Qed.

Lemma heap_ok_delete w p : heap_ok w -> heap_ok (set_w_heap (delete p (w_heap w)) w).
Proof.
  intros (H1 & H2 & H3). split; [done|]. split; [done|]. cbn.
  intros q. rewrite lookup_delete_is_Some. intros [_ H]. now apply H3.
Qed.

(** The bytes [malloc] is asked for: two frames and the data area. *)
Lemma size_eq len :
  0 <= len <= MAX_OBJECT -> u64 (ALLOC_UNITS len * SIZEOF_TP) = 64 + room len.
Proof.
  intros H. rewrite ALLOC_UNITS_eq by done. pose proof (room_ge len ltac:(lia)) as R.
  unfold MAX_OBJECT in H. unfold SIZEOF_TP. unfold room in *. rewrite u64_id; lia.
Qed.

Definition type_of (type : bytes) : Z :=
  if streq type (str "STRING") then stringtype
  else if streq type (str "CARRAY") then carraytype else emptystring.

Lemma type_of_range type : - 2 ^ 63 <= type_of type < 2 ^ 63.
Proof. unfold type_of. repeat case_match; vm_compute; intuition discriminate. Qed.

(** A block of [64 + room len] bytes framed on both sides. *)
Lemma frame_block p w t len a data c :
  p mod STRIDE = 0 -> 0 < p < 2 ^ 62 -> 0 <= len <= MAX_OBJECT ->
  w_heap w !! p = Some (a ++ data ++ c) -> length a = 32%nat -> length c = 32%nat ->
  Z.of_nat (length data) = room len ->
  (store p (enc_tp t) ;;; store (trailer p len) (enc_tp t)) w
  = Ret tt (set_w_heap (<[p := enc_tp t ++ data ++ enc_tp t]> (w_heap w)) w)
  /\ (store (trailer p len) (enc_tp t) ;;; store p (enc_tp t)) w
  = Ret tt (set_w_heap (<[p := enc_tp t ++ data ++ enc_tp t]> (w_heap w)) w).
Proof.
  intros Hp Hr Hl Hb Ha Hc Hd. pose proof (room_ge len ltac:(lia)) as R.
  assert (Hk : 0 <= 32 + room len < STRIDE) by (unfold MAX_OBJECT in Hl; unfold STRIDE; lia).
  rewrite trailer_eq by done. split.
  - erewrite bind_Ret by (eapply store_front; [done|exact Hb|done]).
    erewrite (store_back p _ _ t (enc_tp t ++ data) c);
      [|done|unfold set_w_heap; cbn [w_heap]; rewrite lookup_insert_eq; now rewrite app_assoc|done
       |rewrite length_app, length_enc_tp; lia|done].
    unfold set_w_heap. cbn [w_heap]. rewrite insert_insert_eq, <- app_assoc. done.
  - erewrite bind_Ret by (eapply (store_back p _ _ t (a ++ data) c);
      [done|now rewrite <- app_assoc|done|rewrite length_app; lia|done]).
    erewrite (store_front p _ t a); [|done|unfold set_w_heap; cbn [w_heap]; rewrite lookup_insert_eq, <- app_assoc; done|done].
    unfold set_w_heap. cbn [w_heap]. rewrite insert_insert_eq. done.
Qed.

(** ** The operations on buffers *)

Lemma wf_tp_live type len : 0 <= len <= MAX_OBJECT -> wf_tp (mkTp (type_of type) emptystring len MAGIC).
Proof.
  unfold MAX_OBJECT. intros. split; [apply type_of_range|].
  unfold emptystring, MAGIC; cbn [tp_subtype tp_len tp_magic]. lia.
Qed.

Lemma tux_alloc_computes type size w :
  heap_ok w -> w_brk w < 2 ^ 62 -> 0 <= size -> size + 2048 <= MAX_OBJECT - 96 ->
  64 + room (size + 2048) <= w_mem w ->
  let data := junk (Z.to_nat (room (size + 2048))) w in
  let t := mkTp (type_of type) emptystring (size + 2048) MAGIC in
  tux_alloc type size w
  = Ret (w_brk w + 32)
      (set_w_brk (w_brk w + STRIDE)
        (set_w_heap (<[w_brk w := enc_tp t ++ data ++ enc_tp t]> (w_heap w)) w)).
Proof.
  intros Hk Hb Hs Hm Hw data t. pose proof (room_ge (size + 2048) ltac:(lia)) as R.
  assert (Hl : size + 2048 <= MAX_OBJECT) by lia.
  unfold tux_alloc. destruct (Z.ltb_spec size 0); [lia|].
  destruct (Z.ltb_spec LONG_MAX (size + 2048)); [unfold LONG_MAX, MAX_OBJECT in *; lia|].
  rewrite size_eq by lia. destruct Hk as (H1 & H2 & H3).
  set (w1 := set_w_brk (w_brk w + STRIDE)
               (set_w_heap (<[w_brk w := junk (Z.to_nat (64 + room (size + 2048))) w]> (w_heap w)) w)).
  assert (M : malloc (64 + room (size + 2048)) w = Ret (w_brk w) w1).
  { unfold malloc, bind, get, id. cbn [obind]. unfold granted.
    rewrite !(proj2 (Z.leb_le _ _)) by lia. done. }
  rewrite (bind_Ret _ _ _ _ _ M). unfold NULL. destruct (Z.eqb_spec (w_brk w) 0); [lia|].
  fold (type_of type). fold t.
  rewrite <- bind_assoc. erewrite bind_Ret; [reflexivity|].
  destruct (frame_block (w_brk w) w1 t (size + 2048) (junk 32 w) data (junk 32 w)) as [_ ->];
    try (unfold junk; apply length_replicate); try done; try lia.
  - unfold w1. cbn [w_heap set_w_brk set_w_heap]. rewrite lookup_insert_eq.
    f_equal. unfold data, junk. rewrite <- !replicate_add. f_equal. lia.
  - unfold data, junk. rewrite length_replicate. lia.
  - unfold w1, set_w_brk, set_w_heap. cbn [w_heap]. now rewrite insert_insert_eq.
Qed.

Lemma live_alloc type size w w' ptr :
  heap_ok w -> w_brk w < 2 ^ 62 -> 0 <= size -> size + 2048 <= MAX_OBJECT - 96 ->
  64 + room (size + 2048) <= w_mem w ->
  tux_alloc type size w = Ret ptr w' ->
  live ptr (type_of type) (size + 2048) (junk (Z.to_nat (room (size + 2048))) w) w'.
Proof.
  intros Hk Hb Hs Hm Hw. rewrite tux_alloc_computes by done. intros [= <- <-].
  destruct Hk as (H1 & H2 & H3). pose proof (room_ge (size + 2048) ltac:(lia)).
  unfold live, buffer. rewrite Z.add_simpl_r.
  split; [done|]. split; [lia|]. do 2 (split; [apply wf_tp_live; lia|]).
  split; [cbn; lia|]. split; [unfold junk; rewrite length_replicate; cbn; lia|].
  cbn [w_heap set_w_brk set_w_heap]. now rewrite lookup_insert_eq.
Qed.

(** The checks of [tux_realloc], [tux_free] and [tux_real_len] on a framed buffer. *)
Section Checks.
Context (ptr : Z) (t : tpmemory) (data : bytes) (t2 : tpmemory) (w : world).
Hypothesis (B : buffer ptr t data t2 w).

Lemma checks_fail :
  (tp_magic t <> MAGIC \/ t <> t2) ->
  tux_real_len ptr w = Ret (-1) (set_tux_errno SYS_INVAL w)
  /\ (forall size, tux_realloc ptr size w = Ret NULL (set_tux_errno SYS_INVAL w))
  /\ tux_free ptr w = Ret tt w.
Proof.
  intros Hbad.
  assert (S : tp_magic t = MAGIC -> same_tp t t2 = false).
  { intros E. destruct (same_tp t t2) eqn:S; [|done]. apply same_tp_eq in S.
    now destruct Hbad. }
  unfold tux_real_len, tux_realloc, tux_free. rewrite (buffer_nonnull _ _ _ _ _ B).
  repeat split; intros; rewrite (bind_Ret _ _ _ _ _ (IS_MAGIC_buffer _ _ _ _ _ B));
    (destruct (Z.eqb_spec (tp_magic t) MAGIC) as [E|]; cbn [negb orb]; [|done]);
    try (destruct (size <? 0); [done|]);
    rewrite (bind_Ret _ _ _ _ _ (load_tp_front _ _ _ _ _ B)),
      (bind_Ret _ _ _ _ _ (load_tp_back _ _ _ _ _ B)), (S E); done.
Qed.

Lemma free_computes :
  tp_magic t = MAGIC -> t = t2 ->
  tux_free ptr w = Ret tt (set_w_heap (delete (ptr - 32) (w_heap w)) w).
Proof.
  intros Hm <-. unfold tux_free. rewrite (buffer_nonnull _ _ _ _ _ B).
  rewrite (bind_Ret _ _ _ _ _ (IS_MAGIC_buffer _ _ _ _ _ B)), Hm.
  cbn [negb Z.eqb MAGIC Pos.eqb].
  rewrite (bind_Ret _ _ _ _ _ (load_tp_front _ _ _ _ _ B)),
    (bind_Ret _ _ _ _ _ (load_tp_back _ _ _ _ _ B)), (proj2 (same_tp_eq t t) eq_refl).
  cbn [negb]. pose proof (trailer_in _ _ _ _ _ B) as Hin.
  destruct B as (Hp & Hr & _ & _ & Hl & Hd & Hb). unfold SIZEOF_TP.
  pose proof (room_ge (tp_len t) ltac:(lia)) as R.
  rewrite trailer_eq by done.
  assert (S0 : exists b, st 24 (le64 NOT_MAGIC) (enc_tp t ++ data ++ enc_tp t) = Some b).
  { apply st_Some; rewrite ?length_app, ?length_enc_tp, ?length_le64; lia. }
  destruct S0 as [b1 S1].
  erewrite bind_Ret by (eapply store_at; [done|unfold STRIDE; lia|exact Hb|exact S1]).
  assert (L1 := st_length _ _ _ _ S1).
  assert (S0 : exists b, st (32 + room (tp_len t) + 24) (le64 NOT_MAGIC) b1 = Some b).
  { apply st_Some; rewrite ?L1, ?length_app, ?length_enc_tp, ?length_le64; lia. }
  destruct S0 as [b2 S2]. rewrite <- Z.add_assoc.
  erewrite bind_Ret; cycle 1.
  { eapply store_at; [done| |unfold set_w_heap; cbn [w_heap]; apply lookup_insert_eq|exact S2].
    unfold MAX_OBJECT in Hl. unfold STRIDE. lia. }
  unfold free. erewrite bind_Ret; cycle 1.
  { apply object_at; [done|]. unfold set_w_heap. cbn [w_heap]. apply lookup_insert_eq. }
  unfold drop_object, modify, set_w_heap. cbn [w_heap].
  now rewrite !delete_insert_eq.
Qed.
End Checks.

Lemma real_len_computes ptr ty len data w :
  live ptr ty len data w -> ty = carraytype \/ ty = emptystring ->
  tux_real_len ptr w = Ret len w.
Proof.
  intros B Hty. unfold tux_real_len. rewrite (buffer_nonnull _ _ _ _ _ B).
  rewrite (bind_Ret _ _ _ _ _ (IS_MAGIC_buffer _ _ _ _ _ B)). cbn [tp_magic negb Z.eqb MAGIC Pos.eqb].
  rewrite (bind_Ret _ _ _ _ _ (load_tp_front _ _ _ _ _ B)),
    (bind_Ret _ _ _ _ _ (load_tp_back _ _ _ _ _ B)), (proj2 (same_tp_eq _ _) eq_refl).
  cbn [negb tp_type tp_len]. destruct Hty as [-> | ->]; reflexivity.
Qed.

Lemma real_len_string ptr len s rest w :
  live ptr stringtype len (s ++ NUL :: rest) w -> nonul s ->
  tux_real_len ptr w = Ret (Z.of_nat (length s) + 1) w.
Proof.
  intros B Hs. unfold tux_real_len. rewrite (buffer_nonnull _ _ _ _ _ B).
  rewrite (bind_Ret _ _ _ _ _ (IS_MAGIC_buffer _ _ _ _ _ B)). cbn [tp_magic negb Z.eqb MAGIC Pos.eqb].
  rewrite (bind_Ret _ _ _ _ _ (load_tp_front _ _ _ _ _ B)),
    (bind_Ret _ _ _ _ _ (load_tp_back _ _ _ _ _ B)), (proj2 (same_tp_eq _ _) eq_refl).
  transitivity ((let* s := load_str ptr in ret (Z.of_nat (length s) + 1)) w); [reflexivity|].
  assert (L : load_str ptr w = Ret s w).
  { destruct B as (Hp & Hr & _ & _ & _ & _ & Hb). unfold load_str.
    replace ptr with (ptr - 32 + 32) by lia.
    destruct (obj_off (ptr - 32) 32 Hp ltac:(unfold STRIDE; lia)) as [-> ->].
    rewrite Hb. rewrite (drop_app_length' _ _ (Z.to_nat 32)) by (now rewrite length_enc_tp).
    rewrite <- app_assoc, <- app_comm_cons, terminated_app, cstr_app_nul; done. }
  now rewrite (bind_Ret _ _ _ _ _ L).
Qed.

(** Data written through the pointer stay within the frames. *)
Lemma live_store ptr ty len data w k bs data' :
  live ptr ty len data w -> 0 <= k -> st k bs data = Some data' ->
  exists w', store (ptr + k) bs w = Ret tt w' /\ live ptr ty len data' w'
    /\ w' = set_w_heap (w_heap w') w
    /\ (forall p, p <> ptr - 32 -> w_heap w' !! p = w_heap w !! p).
Proof.
  intros B Hk Hs. pose proof (trailer_in _ _ _ _ _ B) as Hin.
  pose proof (st_length _ _ _ _ Hs) as L.
  destruct B as (Hp & Hr & W1 & W2 & Hl & Hd & Hb). cbn [tp_len] in *.
  set (t := mkTp _ _ _ _) in *.
  assert (Hkb : k + Z.of_nat (length bs) <= Z.of_nat (length data)).
  { revert Hs. unfold st. destruct (_ && _) eqn:E; [|done].
    rewrite andb_true_iff, !Z.leb_le in E. lia. }
  assert (S : st (32 + k) bs (enc_tp t ++ data ++ enc_tp t) = Some (enc_tp t ++ data' ++ enc_tp t)).
  { revert Hs. unfold st. rewrite (proj2 (Z.leb_le 0 k)), (proj2 (Z.leb_le _ _)) by lia.
    rewrite (proj2 (Z.leb_le 0 _)), (proj2 (Z.leb_le _ _))
      by (rewrite ?length_app, ?length_enc_tp; lia).
    cbn [andb]. intros [= <-]. f_equal.
    replace (Z.to_nat (32 + k)) with (length (enc_tp t) + Z.to_nat k)%nat
      by (rewrite length_enc_tp; lia).
    rewrite take_app_add, <- Nat.add_assoc, drop_app_add, take_app_le, drop_app_le by lia.
    now rewrite <- !app_assoc. }
  exists (set_w_heap (<[ptr - 32 := enc_tp t ++ data' ++ enc_tp t]> (w_heap w)) w).
  split; [|split; [|split; [done|]]].
  - replace (ptr + k) with (ptr - 32 + (32 + k)) by lia.
    eapply store_at; [done|lia|exact Hb|exact S].
  - split; [done|]. split; [done|]. split; [done|]. split; [done|]. split; [done|].
    split; [cbn; lia|]. cbn [w_heap set_w_heap]. apply lookup_insert_eq.
  - intros p Hne. cbn [w_heap set_w_heap]. now apply lookup_insert_ne.
Qed.

(** A buffer of the message functions: [len] bytes can be read at [ptr]. *)
Lemma live_load ptr ty len data w n :
  live ptr ty len data w -> 0 <= n <= Z.of_nat (length data) ->
  load ptr n w = Ret (take (Z.to_nat n) data) w.
Proof.
  intros (Hp & Hr & _ & _ & _ & Hd & Hb) Hn.
  replace ptr with (ptr - 32 + 32) at 1 by lia.
  eapply load_at; [done|unfold STRIDE; lia|exact Hb|].
  rewrite <- (take_drop (Z.to_nat n) data) at 1. rewrite <- app_assoc.
  apply ld_app; [now rewrite length_enc_tp|]. rewrite length_take. lia.
Qed.

(** What [realloc] leaves in the new block: the front frame, a data area that starts
    like the old one, and 32 bytes where the new back frame goes. *)
Lemma cut_block (front data back fill : bytes) n :
  length front = 32%nat -> length back = 32%nat ->
  let old := front ++ data ++ back in
  length (take (64 + n) old ++ fill) = (64 + n)%nat ->
  exists mid last, take (64 + n) old ++ fill = front ++ mid ++ last
    /\ length mid = n /\ length last = 32%nat
    /\ (forall m, m <= length data -> m <= n -> take m mid = take m data)%nat.
Proof.
  intros Hf Hk old L. set (blk := take (64 + n) old ++ fill) in *.
  assert (Lo : length old = (64 + length data)%nat) by (unfold old; rewrite !length_app; lia).
  exists (take n (drop 32 blk)), (drop n (drop 32 blk)). split; [|split; [|split]].
  - rewrite take_drop, <- (take_drop 32 blk) at 1. f_equal. unfold blk.
    rewrite take_app_le by (rewrite length_take; lia).
    rewrite take_take, Nat.min_l by lia. unfold old. now rewrite take_app_length'.
  - rewrite length_take, length_drop. lia.
  - rewrite !length_drop. lia.
  - intros m H1 H2. rewrite take_take, Nat.min_l by lia. unfold blk.
    rewrite drop_app_le by (rewrite length_take; lia).
    rewrite take_app_le by (rewrite length_drop, length_take; lia).
    rewrite skipn_firstn_comm, take_take, Nat.min_l by lia.
    unfold old. rewrite drop_app_length' by done. now rewrite take_app_le by lia.
Qed.

(** The allocation step of [tux_realloc], between the checks and the new frames. *)
Lemma realloc_moves p w n b :
  heap_ok w -> p mod STRIDE = 0 -> w_heap w !! p = Some b -> granted n w = true ->
  let blk := take (Z.to_nat n) b ++ junk (Z.to_nat n - length b) w in
  exists w1, realloc p n w = Ret (w_brk w) w1 /\ heap_ok w1
    /\ w_heap w1 = <[w_brk w := blk]> (delete p (w_heap w)).
Proof.
  intros Hk Hp Hb Hg blk. unfold realloc. rewrite (bind_Ret _ _ _ _ _ (object_at _ _ _ Hp Hb)).
  unfold bind, get, id. cbn [obind]. rewrite Hg. eexists. split; [reflexivity|].
  split; [|done]. apply (heap_ok_new (set_w_heap (delete p (w_heap w)) w)). now apply heap_ok_delete.
Qed.

Lemma realloc_computes ptr ty len data w size :
  heap_ok w -> w_brk w < 2 ^ 62 -> live ptr ty len data w ->
  0 <= size <= MAX_OBJECT - 96 -> 64 + room size <= w_mem w ->
  exists w' data', tux_realloc ptr size w = Ret (w_brk w + 32) w'
    /\ live (w_brk w + 32) ty size data' w'
    /\ (forall n, n <= length data -> n <= length data' -> take n data' = take n data)%nat
    /\ heap_ok w' /\ w_heap w' !! (ptr - 32) = None
    /\ (forall p, p <> w_brk w -> p <> ptr - 32 -> w_heap w' !! p = w_heap w !! p).
Proof.
  intros Hk Hbrk B Hs Hmem. pose proof (room_ge size ltac:(lia)) as R.
  assert (HB := B). destruct HB as (Hp & Hr & (W1 & W2 & W3 & W4) & _ & Hl & Hd & Hb).
  cbn [tp_len tp_type tp_subtype tp_magic] in *. set (t := mkTp ty emptystring len MAGIC) in *.
  destruct (realloc_moves (ptr - 32) w (64 + room size) _ Hk Hp Hb) as (w1 & Rz & K1 & Hw1).
  { unfold granted. now rewrite !(proj2 (Z.leb_le _ _)) by lia. }
  assert (Hne : w_brk w <> ptr - 32) by (intros E; rewrite <- E, heap_ok_fresh in Hb; done).
  destruct Hk as (H1 & H2 & _). set (p := w_brk w) in *.
  replace (Z.to_nat (64 + room size)) with (64 + Z.to_nat (room size))%nat in Hw1 by lia.
  destruct (cut_block (enc_tp t) data (enc_tp t) (junk (64 + Z.to_nat (room size) - length (enc_tp t ++ data ++ enc_tp t)) w)
              (Z.to_nat (room size))) as (mid & last & Eb & Lm & Ll & Hpre);
    try apply length_enc_tp.
  { unfold junk. rewrite length_app, length_take, length_replicate. lia. }
  rewrite Eb in Hw1. set (t' := mkTp ty emptystring size MAGIC).
  assert (Hlk : w_heap w1 !! p = Some (enc_tp t ++ mid ++ last)) by (rewrite Hw1; apply lookup_insert_eq).
  destruct (frame_block p w1 t' size (enc_tp t) mid last) as [F _];
    [exact H1|lia|lia|exact Hlk|apply length_enc_tp|exact Ll|lia|].
  exists (set_w_heap (<[p := enc_tp t' ++ mid ++ enc_tp t']> (w_heap w1)) w1), mid.
  split; [|split; [|split; [|split; [|split]]]].
  - unfold tux_realloc.
    rewrite (bind_Ret _ _ _ _ _ (IS_MAGIC_buffer _ _ _ _ _ B)). cbn [tp_magic t negb Z.eqb MAGIC Pos.eqb orb].
    destruct (Z.ltb_spec size 0); [lia|].
    rewrite (bind_Ret _ _ _ _ _ (load_tp_front _ _ _ _ _ B)),
      (bind_Ret _ _ _ _ _ (load_tp_back _ _ _ _ _ B)), (proj2 (same_tp_eq _ _) eq_refl).
    cbn [negb]. rewrite size_eq by lia. unfold SIZEOF_TP at 1. rewrite (bind_Ret _ _ _ _ _ Rz).
    unfold NULL. destruct (Z.eqb_spec p 0); [lia|].
    rewrite (bind_Ret _ _ _ _ _ (load_tp_block p t (mid ++ last) w1 H1 ltac:(repeat split; cbn; lia) Hlk)).
    cbn [tp_type tp_subtype tp_magic t]. fold t'.
    rewrite <- bind_assoc, (bind_Ret _ _ _ _ _ F). done.
  - assert (W : wf_tp t') by (unfold MAX_OBJECT in *; repeat split; cbn; lia).
    unfold live, buffer. rewrite Z.add_simpl_r. fold t'.
    split; [exact H1|]. split; [lia|]. do 2 (split; [exact W|]).
    split; [cbn [tp_len t']; lia|]. split; [cbn [tp_len t']; lia|].
    cbn [w_heap set_w_heap]. apply lookup_insert_eq.
  - intros n Hn1 Hn2. apply Hpre; lia.
  - apply heap_ok_set; [done|]. rewrite Hlk. eauto.
  - cbn [w_heap set_w_heap]. rewrite lookup_insert_ne, Hw1, lookup_insert_ne by done.
    apply lookup_delete_eq.
  - intros q Hq1 Hq2. cbn [w_heap set_w_heap].
    rewrite lookup_insert_ne, Hw1, lookup_insert_ne, lookup_delete_ne by done. done.
Qed.

(** ** Properties *)

(** [tux_alloc] of [size] bytes returns, when memory allows, the address of a fresh
    object whose two frames agree; 2048 bytes beyond [size] can be written without
    touching a frame; [tux_real_len] of the buffer is [size + 2048], not [size]; the
    other objects are untouched, and [tux_free] of the buffer gives back the memory as
    it was. *)
Theorem tux_alloc_correct size w :
  heap_ok w -> w_brk w < 2 ^ 62 -> 0 <= size -> size + 2048 <= MAX_OBJECT - 96 ->
  64 + room (size + 2048) <= w_mem w ->
  exists ptr w' data,
    tux_alloc (str "CARRAY") size w = Ret ptr w'
    /\ heap_ok w' /\ live ptr carraytype (size + 2048) data w'
    /\ size + 2048 <= Z.of_nat (length data)
    /\ tux_real_len ptr w' = Ret (size + 2048) w'
    /\ w_heap w !! (ptr - 32) = None
    /\ (forall p, p <> ptr - 32 -> w_heap w' !! p = w_heap w !! p)
    /\ exists w'', tux_free ptr w' = Ret tt w'' /\ w_heap w'' = w_heap w.
Proof.
  intros Hk Hb Hs Hm Hw. pose proof (room_ge (size + 2048) ltac:(lia)) as R.
  pose proof (tux_alloc_computes (str "CARRAY") size w Hk Hb Hs Hm Hw) as E. cbn zeta in E.
  pose proof (live_alloc _ _ _ _ _ Hk Hb Hs Hm Hw E) as B.
  eexists _, _, _. split; [exact E|]. split; [now apply heap_ok_new|]. split; [exact B|].
  split; [unfold junk; rewrite length_replicate; lia|].
  split; [eapply real_len_computes; [exact B|now left]|].
  rewrite Z.add_simpl_r. split; [now apply heap_ok_fresh|].
  split; [intros; cbn [w_heap set_w_brk set_w_heap]; now apply lookup_insert_ne|].
  eexists. split; [eapply free_computes; [exact B|done|done]|].
  rewrite Z.add_simpl_r. cbn [w_heap set_w_brk set_w_heap].
  rewrite delete_insert_eq. apply delete_id. now apply heap_ok_fresh.
Qed.

(** [tux_realloc] of a buffer to [size] bytes returns, when memory allows, a new
    buffer of the same type whose length is [size] (without the 2048 bytes that
    [tux_alloc] adds), whose data agree with the old ones up to the shorter of the two
    areas; the old object is gone and the others are untouched. *)
Theorem tux_realloc_correct ptr ty len data w size :
  heap_ok w -> w_brk w < 2 ^ 62 -> live ptr ty len data w ->
  0 <= size <= MAX_OBJECT - 96 -> 64 + room size <= w_mem w ->
  exists ptr' w' data',
    tux_realloc ptr size w = Ret ptr' w' /\ heap_ok w'
    /\ live ptr' ty size data' w'
    /\ (forall n, n <= length data -> n <= length data' -> take n data' = take n data)%nat
    /\ w_heap w !! (ptr' - 32) = None /\ w_heap w' !! (ptr - 32) = None
    /\ (forall p, p <> ptr' - 32 -> p <> ptr - 32 -> w_heap w' !! p = w_heap w !! p).
Proof.
  intros Hk Hb B Hs Hm.
  destruct (realloc_computes ptr ty len data w size Hk Hb B Hs Hm)
    as (w' & data' & E & B' & Hd & Hk' & Hold & Hoth).
  exists (w_brk w + 32), w', data'. rewrite Z.add_simpl_r. pose proof (heap_ok_fresh w Hk). auto 10.
Qed.

(** A buffer whose frames no longer agree, or whose front frame has lost the magic
    number (an overrun or an underrun of its data), is refused by all three
    operations: [tux_real_len] and [tux_realloc] report [SYS_INVAL], [tux_free] leaves
    it allocated, and memory does not change. *)
Theorem damaged_buffer_refused ptr t data t2 w :
  buffer ptr t data t2 w -> tp_magic t <> MAGIC \/ t <> t2 ->
  tux_real_len ptr w = Ret (-1) (set_tux_errno SYS_INVAL w)
  /\ (forall size, tux_realloc ptr size w = Ret NULL (set_tux_errno SYS_INVAL w))
  /\ tux_free ptr w = Ret tt w.
Proof. intros B H. exact (checks_fail ptr t data t2 w B H). Qed.

(** *** Witnesses *)

Definition demo_ctrl : mb_ctrl_t := mkCtrl 4 6 100 0 0 601107 601117 1 2 4096.

(** A process attached to empty tables, with no memory allocated. *)
Definition demo_world (o : os) : world :=
  mkWorld o demo_ctrl true [] [] [] zero_head 0 0 0 ∅ STRIDE (2 ^ 20) "J"%char 0.

Definition demo_os0 : os :=
  mkOs (mkKernel ∅ 0 ∅ ∅) 0 [] [] 0 0 [] [] [] None [] [] None.

Lemma demo_heap_ok o : heap_ok (demo_world o).
Proof. split; [done|]. split; [done|]. intros p [b H]. cbn in H. now rewrite lookup_empty in H. Qed.

Definition demo_frame : tpmemory := mkTp carraytype emptystring 8 MAGIC.
Definition demo_data : bytes := str "12345678901234567890123456789012".
Definition demo_buffer (back : bytes) : world :=
  set_w_brk (2 * STRIDE)
    (set_w_heap {[ STRIDE := enc_tp demo_frame ++ demo_data ++ back ]} (demo_world demo_os0)).

Lemma demo_buffer_ok t : wf_tp t -> buffer (STRIDE + 32) demo_frame demo_data t (demo_buffer (enc_tp t)).
Proof.
  intros. unfold buffer. rewrite Z.add_simpl_r. split; [done|]. split; [done|].
  split; [vm_compute; intuition discriminate|]. split; [done|].
  split; [vm_compute; intuition discriminate|]. split; [done|]. apply lookup_singleton_eq.
Qed.

Lemma demo_buffer_heap t : heap_ok (demo_buffer t).
Proof.
  split; [done|]. split; [done|]. intros p [b H]. cbn [demo_buffer w_heap set_w_brk set_w_heap] in H.
  apply lookup_singleton_Some in H as [<- _]. done.
Qed.

Lemma tux_alloc_correct_witness :
  exists ptr w' data,
    tux_alloc (str "CARRAY") 100 (demo_world demo_os0) = Ret ptr w'
    /\ live ptr carraytype 2148 data w' /\ tux_real_len ptr w' = Ret 2148 w'.
Proof.
  destruct (tux_alloc_correct 100 (demo_world demo_os0) (demo_heap_ok _)) as (ptr & w' & data & H);
    [reflexivity|lia|vm_compute; discriminate|vm_compute; discriminate|].
  exists ptr, w', data. destruct H as (E & _ & B & _ & L & _). split; [exact E|split; [exact B|exact L]].
Defined.

Lemma tux_realloc_correct_witness :
  exists ptr' w' data',
    tux_realloc (STRIDE + 32) 40 (demo_buffer (enc_tp demo_frame)) = Ret ptr' w'
    /\ live ptr' carraytype 40 data' w' /\ take 32 data' = demo_data.
Proof.
  destruct (tux_realloc_correct (STRIDE + 32) carraytype 8 demo_data (demo_buffer (enc_tp demo_frame)) 40)
    as (ptr' & w' & data' & E & _ & B & P & _).
  - apply demo_buffer_heap.
  - reflexivity.
  - apply demo_buffer_ok. vm_compute. intuition discriminate.
  - vm_compute. intuition discriminate.
  - vm_compute. discriminate.
  - exists ptr', w', data'. split; [exact E|]. split; [exact B|]. rewrite (P 32%nat).
    + reflexivity.
    + cbn. lia.
    + destruct B as (_ & _ & _ & _ & _ & L & _). cbn [tp_len] in L. vm_compute (room 40) in L. lia.
Defined.

(** A terminating NUL written behind 32 data bytes lands in the back frame. *)
Definition demo_hit : tpmemory := mkTp (carraytype - 24) emptystring 8 MAGIC.

Lemma damaged_buffer_refused_witness :
  tux_free (STRIDE + 32) (demo_buffer (enc_tp demo_hit)) = Ret tt (demo_buffer (enc_tp demo_hit)).
Proof.
  apply (damaged_buffer_refused (STRIDE + 32) demo_frame demo_data demo_hit).
  - apply demo_buffer_ok. vm_compute. intuition discriminate.
  - right. discriminate.
Defined.
