(* ===== verification/Registry.v ===== *)
(** * The tables: server, process and service registration

    The part of [src/dev/src/pubfun/tux/tuxmgr.c] that creates, attaches, removes and
    searches the tables in shared memory, and that registers service functions.

    A [const char *] that may be null is an [option bytes]; a function pointer is a
    number, 0 being null.  Log output is not modelled; what [list_server] and its
    likes print is their result. *)

From Stdlib Require Import ZArith Lia Bool List Ascii String.
From stdpp Require Import base list gmap.
From S2P Require Import Prelude Cstr Funstr Kernel Funmsq Funipc Funfile Sunda Tuxmem.

Definition NAME_LEN : nat := 32.

(** [if (!f(x)) ...] on names compared with [strncmp(_, _, TUX_NAME_LEN)]. *)
Definition same_name (a b : bytes) : bool := strneq NAME_LEN a b.

(** ** Locking and queues *)

Definition tux_lock : prog world Z := let* c := ctrl in lift (sem_lock 0 (semid c)).
Definition tux_unlock : prog world Z := let* c := ctrl in lift (sem_unlock 0 (semid c)).

Definition que_remove : prog world Z :=
  let* c := ctrl in
  lift (MsqClose (req_que_id c)) ;;;
  lift (MsqClose (rsp_que_id c)) ;;;
  ret 0.

Definition SIGTERM : Z := 15.

Definition stop_system : prog world Z :=
  let* w := get id in
  if sdIsAttach w then
    let* c := ctrl in
    let pid := main_pid c in
    if pid <=? 0 then ret 0 else lift (kill pid SIGTERM) ;;; ret 0
  else ret 0.

Definition ipc_remove : prog world Z :=
  stop_system ;;;
  que_remove ;;;
  lift (sem_delete (Some SD_SEM_NAME) 1) ;;;
  let* w := get id in
  lift (shm_delete (Some SD_MEM_NAME) (if attached w then Some (memid (w_ctrl w)) else None)) ;;;
  ret 0.

Definition createqueue (req_que rsp_que : Z) : prog world Z :=
  upd_ctrl (set_req_que req_que) ;;;
  upd_ctrl (set_rsp_que rsp_que) ;;;
  let* id := lift (MsqCreate req_que) in
  upd_ctrl (set_req_que_id id) ;;;
  if id <? 0 then err SYS_OS (-1)
  else
    let* id := lift (MsqCreate rsp_que) in
    upd_ctrl (set_rsp_que_id id) ;;;
    if id <? 0 then err SYS_OS (-1) else ret 0.

(** The second test is on the key, and the function ends without a [return]. *)
Definition que_connect : prog world Z :=
  let* c := ctrl in
  let* id := lift (MsqGet (req_que c)) in
  upd_ctrl (set_req_que_id id) ;;;
  if id <? 0 then err SYS_OS (-1)
  else
    let* id := lift (MsqGet (rsp_que c)) in
    upd_ctrl (set_rsp_que_id id) ;;;
    if rsp_que c <? 0 then err SYS_OS (-1) else get w_eax.

Definition tux_createsem : prog world Z :=
  let* id := lift (sem_create (Some SD_SEM_NAME) 1) in
  upd_ctrl (set_semid id) ;;;
  if id <? 0 then err SYS_OS (-1) else ret 0.

(** ** Creating the system *)

Definition SIZEOF_CTRL : Z := 40.
Definition SIZEOF_SVR : Z := 232.
Definition SIZEOF_PID : Z := 48.
Definition SIZEOF_SVC : Z := 56.

Definition count_memory_size (nsvrnum npidnum : Z) : Z :=
  SIZEOF_CTRL + SIZEOF_SVR * nsvrnum + SIZEOF_PID * npidnum + SIZEOF_SVC * nsvrnum.

(** [if (cf_locatenum(fpcfg, key, &n) < 0 || n <= 0) n = def;] *)
Definition cfg_num (key : bytes) (def : Z) (fp : stream) : outcome stream Z :=
  (let* (rc, n) := cf_locatenum key in
   if rc <? 0 then ret def
   else let* n := deref n in if n <=? 0 then ret def else ret n) fp.

(** The five parameters, in the order they are read. *)
Definition sys_params : prog stream (Z * Z * Z * Z * Z) :=
  let* nsvrnum := cfg_num (str "sd.svrnum") 80 in
  let* npidnum := cfg_num (str "sd.pidnum") 800 in
  let* nmsglen := cfg_num (str "sd.maxmsglen") 4096 in
  let* nreq_que := cfg_num (str "sd.req_que") DEF_REQ_QUE in
  let* nrsp_que := cfg_num (str "sd.rsp_que") DEF_RSP_QUE in
  cf_close ;;;
  ret (nsvrnum, npidnum, nmsglen, nreq_que, nrsp_que).

(** Reading a file does not change the process's state. *)
Definition with_file {A} (m : prog stream A) (fp : stream) : prog world A := fun w =>
  match m fp with
  | Ret a _ => Ret a w
  | Spin => Spin
  | _ => Fault
  end.

Definition open_cfg : prog world stream := let* w := get id in ret (cf_open (o_cfg (w_os w))).

(** The fresh tables and the registration of the manager in their first entries. *)
Definition init_tables (n npid : Z) : prog world unit :=
  modify (fun w =>
    set_tSvrTab (replicate (Z.to_nat n) clear_svr)
      (set_tSvrPid (replicate (Z.to_nat npid) clear_pid)
        (set_tSvcTab (replicate (Z.to_nat n) (set_flags (-1) zero_svc)) w))).

Definition register_manager : prog world unit :=
  let* pid := lift getpid in
  let* now := lift time_ in
  upd_svr 0 (fun t => set_name SD_SERVER_MGR_NAME (set_svc_name SD_MANAGER_SVC_NAME
    (set_pid_tot 1 (set_svrid 0 (set_state TUX_IDLE t))))) ;;;
  upd_pid 0 (fun p => set_pid pid (set_p_svrid 0 (set_seq 0 (set_svrpos 0
    (set_lastStart now (set_req_done 0 p)))))) ;;;
  upd_svr 0 (fun t => set_msg_type (SVR_MSG_TYPE_ROOT + svrid t) (set_timeout (-1) t)).

Definition attach (b : bool) : prog world unit := modify (set_attached b).

Definition sys_start : prog world Z :=
  let* fpcfg := open_cfg in
  match fpcfg with
  | None => err SYS_SYSTEM (-1)
  | Some _ =>
      let* (n, npid, nmsglen, nreq_que, nrsp_que) := with_file sys_params fpcfg in
      let* m := lift (shm_connect (Some SD_MEM_NAME)) in
      match m with
      | Some _ => attach true ;;; err SYS_SYSTEM (-1)
      | None =>
          let size := count_memory_size n npid in
          let* m := lift (shm_create (Some SD_MEM_NAME) size) in
          match m with
          | None => attach false ;;; err SYS_OS (-1)
          | Some _ =>
              attach true ;;;
              let* memid := lift (shm_getid (Some SD_MEM_NAME) 0 0) in
              let* pid := lift getpid in
              modify (set_w_ctrl (mkCtrl n npid pid 0 memid 0 0 0 0 nmsglen)) ;;;
              init_tables n npid ;;;
              let* rc := createqueue nreq_que nrsp_que in
              if negb (rc =? 0) then
                lift (shm_delete (Some SD_MEM_NAME) (Some memid)) ;;; ret rc
              else
                let* id := lift (sem_create (Some SD_SEM_NAME) 1) in
                upd_ctrl (set_semid id) ;;;
                if id <? 0 then
                  set_tux_err SYS_OS ;;;
                  lift (shm_delete (Some SD_MEM_NAME) (Some memid)) ;;;
                  que_remove ;;;
                  ret (-1)
                else register_manager ;;; ret 0
          end
      end
  end.

Definition ipc_connect : prog world Z :=
  let* m := lift (shm_connect (Some SD_MEM_NAME)) in
  match m with
  | None => attach false ;;; err SYS_OS (-1)
  | Some _ =>
      attach true ;;;
      let* c := ctrl in
      if (req_que c =? 0) && (rsp_que c =? 0) then err SYS_OS (-1)
      else
        let* id := lift (sem_connect (Some SD_SEM_NAME) 1) in
        upd_ctrl (set_semid id) ;;;
        if id <? 0 then err SYS_OS (-1)
        else
          let* rc := que_connect in
          if rc <? 0 then err SYS_OS (-1) else ret 0
  end.

(** ** Searching the tables *)

Definition tux_locatemb (svr_name : bytes) : prog world Z :=
  let* l := svrs in ret (scan (fun t => same_name svr_name (svc_name t)) l 0).

Definition find_server_id (id : Z) : prog world Z :=
  let* l := svrs in ret (scan (fun t => svrid t =? id) (tl l) 1).

Definition find_svrno_by_service (svr_name : bytes) : prog world Z :=
  let* l := svrs in ret (scan (fun t => same_name (svc_name t) svr_name) l 0).

(** The loop of [tux_find_service]: the index found or -1, and the final [*pos].
    A free entry is skipped only while [*pos] is still negative. *)
Fixpoint find_service_loop (name : bytes) (l : list service_tab_t) (i pos : Z) : Z * Z :=
  match l with
  | [] => (-1, pos)
  | s :: l =>
      if (flags s =? -1) && (pos <? 0) then find_service_loop name l (i + 1) i
      else if same_name (f_name s) name then (i, pos)
      else find_service_loop name l (i + 1) pos
  end.

Definition tux_find_service (svr_name : option bytes) (pos : Z) : prog world (Z * Z) :=
  match svr_name with
  | None => ret (-1, pos)
  | Some name => let* l := svcs in ret (find_service_loop name l 0 pos)
  end.

(** ** Service functions *)

(** [tSvcTab[pos].flags == SVC_INUSE;] compares and does not assign. *)
Definition tux_new_service (svr_name : bytes) (sd_fun' : Z) : prog world Z :=
  let* (rc, pos) := tux_find_service (Some svr_name) (-1) in
  if 0 <=? rc then
    let* s := svc rc in
    if negb (sd_fun s =? sd_fun') then err SYS_EMATCH (-1) else ret rc
  else
    upd_svc pos (fun _ => zero_svc) ;;;
    upd_svc pos (fun s => set_f_name (take NAME_LEN svr_name) s) ;;;
    upd_svc pos (set_sd_fun sd_fun') ;;;
    ret pos.

Definition tux_del_service (svr_name : bytes) : prog world Z :=
  let* (rc, _) := tux_find_service (Some svr_name) (-1) in
  if rc <? 0 then err SYS_NOENT (-1)
  else upd_svc rc (fun _ => zero_svc) ;;; ret 0.

Definition tux_advertise (svr_name : option bytes) (sd_fun : Z) : prog world Z :=
  match svr_name with
  | None => err SYS_INVAL (-1)
  | Some name =>
      if sd_fun =? 0 then err SYS_INVAL (-1)
      else
        let* w := get id in
        if negb (sdIsAttach w) then err SYS_SYSTEM (-1)
        else
          let* svrno := find_svrno_by_service name in
          if svrno <? 0 then err SYS_SYSTEM (-1)
          else
            let* pos := tux_new_service name sd_fun in
            if pos <? 0 then ret pos
            else upd_svc pos (set_f_svrid svrno) ;;; ret 0
  end.

Definition tux_unadvertise (svr_name : option bytes) : prog world Z :=
  match svr_name with
  | None => err SYS_INVAL (-1)
  | Some name =>
      let* w := get id in
      if negb (sdIsAttach w) then err SYS_SYSTEM (-1)
      else
        let* rc := tux_del_service name in
        ret rc
  end.

(** [for (i = 1; ...) if (P(i)) f(i);] where the entry alone decides. *)
Definition map_svrs_from (k : nat) (f : server_tab_t -> server_tab_t) : prog world unit :=
  let* l := svrs in
  modify (fun w => set_tSvrTab (take k l ++ map f (drop k l) ++ drop (length l) (tSvrTab w)) w).

(** The argument is an index in the table; the loop compares it with server ids. *)
Definition tux_deletesvc (taskid : Z) : prog world Z :=
  svr taskid ;;;
  let* w := get id in
  if negb (sdIsAttach w) then err SYS_SYSTEM (-1)
  else
    let* rc := tux_lock in
    if negb (rc =? 0) then err SYS_OS (-1)
    else
      map_svrs_from 1 (fun t => if svrid t =? taskid then set_state TUX_UNAVAIL t else t) ;;;
      tux_unlock ;;;
      ret 0.

(** ** Timeouts of the configuration file *)

Definition BUF512 : bytes := zeros 513.
Definition blank : bytes := [SP].

Fixpoint timeout_loop (fuel : nat) (svr_name : bytes) (timeout : Z) : prog stream Z :=
  match fuel with
  | O => spin
  | S fuel =>
      let* (rc, buf) := cf_nextparm (str "sd.svc") BUF512 in
      if rc <? 0 then ret timeout
      else
        match token blank 0 buf 0 with
        | None => timeout_loop fuel svr_name timeout
        | Some name =>
            if negb (same_name (take NAME_LEN name) svr_name) then timeout_loop fuel svr_name timeout
            else match token blank 1 buf 0 with
                 | None => ret timeout
                 | Some p => ret (atoi p)
                 end
        end
  end.

Definition tux_get_timeout (svr_name : bytes) : prog world Z :=
  let* fpcfg := open_cfg in
  match fpcfg with
  | None => ret MAX_TIMEOUT_SEC
  | Some _ =>
      with_file (let* fuel := get fuel_of in
                 let* timeout := timeout_loop fuel svr_name MAX_TIMEOUT_SEC in
                 cf_close ;;; ret timeout) fpcfg
  end.

Definition tux_strerror (err : Z) : bytes :=
  if err =? SYS_LIMIT then str "system resource limit over"
  else if err =? SYS_INVAL then str "input parameter invalid"
  else if err =? SYS_OS then str "operator system error"
  else if err =? SYS_NOENT then str "service not found"
  else if err =? SYS_TIMEOUT then str "transaction timeout"
  else if err =? SYS_PROTO then str "protocol error"
  else if err =? SYS_SVCFAIL then str "service failure"
  else if err =? SYS_EMATCH then str "service match error"
  else if err =? SYS_GOTSIG then str "receive signal exit"
  else if err =? SYS_SYSTEM then str "system error"
  else if err =? SYS_ERR_SVC then str "serviece not found"
  else if err =? SYS_DEAD_SVC then str "serviece dead"
  else str "unknown error".

(** ** Listings: what is printed for each entry *)

(** [%-Nd], [%-Ns]. *)
Definition pad (w : Z) (s : bytes) : bytes := s ++ replicate (Z.to_nat w - length s) SP.

Definition state_name (state : Z) : bytes :=
  if state =? TUX_IDLE then str "idle" else if state =? TUX_DEAD then str "dead" else str "avail".

Definition server_line (t : server_tab_t) : bytes :=
  pad 4 (fmt_d (svrid t)) ++ str "   " ++ pad 16 (name t) ++ [SP] ++ pad 16 (svc_name t) ++ [SP]
  ++ pad 8 (fmt_d (pid_tot t)) ++ str "   " ++ pad 16 (state_name (state t)) ++ [LF].

Definition list_server : prog world bytes :=
  let* l := svrs in
  ret (str "SvrId  ProgName        ServiceName     Pid_Tot     Status  " ++ [LF]
       ++ replicate 77 "-"%char ++ [LF]
       ++ List.concat (map server_line (List.filter (fun t => negb (svrid t =? -1)) l))).

Definition service_line (p : server_pid_t) : prog world bytes :=
  let* t := svr (svrpos p) in
  ret (pad 4 (fmt_d (p_svrid p)) ++ str "   " ++ pad 16 (svc_name t) ++ str "  "
       ++ pad 6 (fmt_d (pid p)) ++ str "    " ++ pad 8 (fmt_d (u32 (req_done p))) ++ str "  "
       ++ pad 8 (fmt_d (tot_restart_count p)) ++ [LF]).

Fixpoint service_lines (l : list server_pid_t) : prog world bytes :=
  match l with
  | [] => ret []
  | p :: l =>
      if pid p =? -1 then service_lines l
      else let* a := service_line p in let* b := service_lines l in ret (a ++ b)
  end.

Definition list_service : prog world bytes :=
  let* l := pids in
  let* lines := service_lines l in
  ret (str "SvrId  ServiceName        PID     RqDone  Die_Count " ++ [LF]
       ++ replicate 71 "-"%char ++ [LF] ++ lines).

Definition queue_line (id num : Z) : bytes :=
  pad 8 (fmt_d (u32 id)) ++ str "              " ++ pad 8 (fmt_d num) ++ str " " ++ [LF].

Definition list_queue : prog world bytes :=
  let* c := ctrl in
  let* req_num := lift (MsqCount (req_que_id c)) in
  let* rsq_num := lift (MsqCount (rsp_que_id c)) in
  ret (str "que_id            msg_num  " ++ [LF] ++ replicate 71 "-"%char ++ [LF]
       ++ queue_line (req_que_id c) req_num ++ queue_line (rsp_que_id c) rsq_num).

(** ** Creating and attaching *)

Definition sys_keys : list bytes :=
  [str "sd.svrnum"; str "sd.pidnum"; str "sd.maxmsglen"; str "sd.req_que"; str "sd.rsp_que"].

(** A readable configuration: a text file whose system values fit the reader's buffer. *)
Definition config_ok (d : bytes) : Prop :=
  exists ls last, d = text ls ++ last /\ Forall line_ok ls /\ line_ok last
    /\ Forall (fun k => Forall (value_fits k) ls) sys_keys.

Lemma cfg_num_default key def ls last f :
  f_data f = text ls ++ last -> Forall line_ok ls -> line_ok last -> nonul key -> LF ∉ key ->
  Forall (value_fits key) ls ->
  exists f', cfg_num key def (Some f) = Ret def (Some f') /\ f_data f' = f_data f.
Proof.
  intros Hd Hls Hlast Hk Hlf Hfit.
  destruct (locatenum_outcome key f ls last Hd Hls Hlast Hk Hlf) as [(f' & E & Hf)|[_ H]]; [|done].
  exists f'. split; [|done]. unfold cfg_num. now rewrite (bind_Ret _ _ _ _ _ E).
Qed.

Ltac key_tac :=
  first [ assumption | congruence | repeat constructor; discriminate
        | apply (bool_decide_unpack _); vm_compute; exact I ].

Lemma sys_params_default d :
  config_ok d ->
  sys_params (cf_open (Some d)) = Ret (80, 800, 4096, DEF_REQ_QUE, DEF_RSP_QUE) None.
Proof.
  intros (ls & last & Hd & Hls & Hlast & Hfit). unfold sys_keys in Hfit.
  rewrite !Forall_cons in Hfit. destruct Hfit as (V1 & V2 & V3 & V4 & V5 & _).
  set (f := mkFile d d false). assert (Hf : f_data f = text ls ++ last) by exact Hd.
  change (cf_open (Some d)) with (Some f). clearbody f. unfold sys_params.
  destruct (cfg_num_default (str "sd.svrnum") 80 ls last f) as (f1 & E1 & H1); [key_tac..|].
  destruct (cfg_num_default (str "sd.pidnum") 800 ls last f1) as (f2 & E2 & H2); [key_tac..|].
  destruct (cfg_num_default (str "sd.maxmsglen") 4096 ls last f2) as (f3 & E3 & H3); [key_tac..|].
  destruct (cfg_num_default (str "sd.req_que") DEF_REQ_QUE ls last f3) as (f4 & E4 & H4); [key_tac..|].
  destruct (cfg_num_default (str "sd.rsp_que") DEF_RSP_QUE ls last f4) as (f5 & E5 & H5); [key_tac..|].
  rewrite (bind_Ret _ _ _ _ _ E1), (bind_Ret _ _ _ _ _ E2), (bind_Ret _ _ _ _ _ E3),
    (bind_Ret _ _ _ _ _ E4), (bind_Ret _ _ _ _ _ E5). done.
Qed.

(** The kernel after [sys_start] on a system without IPC objects. *)
Definition started_kernel (n size : Z) : kernel :=
  mkKernel
    (<[ n + 1 + 1 := mkQueue DEF_RSP_QUE [] MSGMNB ]> {[ n + 1 := mkQueue DEF_REQ_QUE [] MSGMNB ]})
    (n + 1 + 1 + 1 + 1) {[ n + 1 + 1 + 1 := mkSem (-1) [1] ]} {[ n := mkShm (-1) size ]}.

Definition manager_svr : server_tab_t :=
  mkSvr 0 SD_SERVER_MGR_NAME SD_MANAGER_SVC_NAME [] 1 TUX_IDLE 0 0 300000 (-1).
Definition manager_pid (pid now : Z) : server_pid_t := mkPid pid 0 0 0 0 0 0 0 now.

Definition started (w : world) : world :=
  let o := w_os w in
  let n := k_nextid (o_kern o) in
  let size := count_memory_size 80 800 in
  set_w_os (set_errno ENOENT (set_kern (started_kernel n size) o))
    (set_w_ctrl (mkCtrl 80 800 (o_pid o) (n + 1 + 1 + 1) n DEF_REQ_QUE DEF_RSP_QUE (n + 1) (n + 1 + 1) 4096)
      (set_attached true
        (set_tSvrTab (manager_svr :: replicate 79 clear_svr)
          (set_tSvrPid (manager_pid (o_pid o) (o_time o) :: replicate 799 clear_pid)
            (set_tSvcTab (replicate 80 (set_flags (-1) zero_svc)) w))))).

Lemma key_mem : makekey None SD_MEM_NAME = Some (-1).
Proof. reflexivity. Qed.
Lemma key_sem : makekey None SD_SEM_NAME = Some (-1).
Proof. reflexivity. Qed.

Lemma createqueue_new w n shm sem :
  attached w = true -> o_kern (w_os w) = mkKernel ∅ n sem shm -> 0 <= n ->
  createqueue DEF_REQ_QUE DEF_RSP_QUE w
  = Ret 0 (set_w_ctrl
             (set_rsp_que_id (n + 1) (set_req_que_id n (set_rsp_que DEF_RSP_QUE (set_req_que DEF_REQ_QUE (w_ctrl w)))))
             (set_w_os (set_kern (mkKernel
                (<[n + 1 := mkQueue DEF_RSP_QUE [] MSGMNB]> {[ n := mkQueue DEF_REQ_QUE [] MSGMNB ]})
                (n + 1 + 1) sem shm) (w_os w)) w)).
Proof.
  intros Ha Hk Hn. unfold createqueue.
  set (w1 := set_w_ctrl (set_rsp_que DEF_RSP_QUE (set_req_que DEF_REQ_QUE (w_ctrl w))) w).
  assert (E1 : (upd_ctrl (set_req_que DEF_REQ_QUE) ;;; upd_ctrl (set_rsp_que DEF_RSP_QUE)) w = Ret tt w1).
  { unfold upd_ctrl, bind. rewrite Ha. cbn [obind attached set_w_ctrl]. now rewrite Ha. }
  rewrite <- bind_assoc, (bind_Ret _ _ _ _ _ E1).
  assert (K1 : MsqCreate DEF_REQ_QUE (w_os w1)
    = Ret n (set_kern (mkKernel {[ n := mkQueue DEF_REQ_QUE [] MSGMNB ]} (n + 1) sem shm) (w_os w))).
  { unfold MsqCreate, msgget. rewrite ipc_get_new; cbn [w_os w1 set_w_ctrl]; rewrite Hk;
      [done|apply find_key_empty]. }
  rewrite (lift_bind _ _ _ _ _ K1). set (w2 := set_w_os _ w1).
  erewrite bind_Ret by (unfold upd_ctrl; replace (attached w2) with true by (symmetry; exact Ha); reflexivity).
  destruct (Z.ltb_spec n 0); [lia|].
  set (w3 := set_w_ctrl _ w2).
  assert (K2 : MsqCreate DEF_RSP_QUE (w_os w3)
    = Ret (n + 1) (set_kern (mkKernel
        (<[n + 1 := mkQueue DEF_RSP_QUE [] MSGMNB]> {[ n := mkQueue DEF_REQ_QUE [] MSGMNB ]})
        (n + 1 + 1) sem shm) (w_os w))).
  { unfold MsqCreate, msgget. rewrite ipc_get_new; [done|].
    cbn [w3 w2 w1 w_os set_w_os set_w_ctrl o_kern set_kern k_msq]. now rewrite find_key_singleton. }
  rewrite (lift_bind _ _ _ _ _ K2). set (w4 := set_w_os _ w3).
  erewrite bind_Ret by (unfold upd_ctrl; replace (attached w4) with true by (symmetry; exact Ha); reflexivity).
  destruct (Z.ltb_spec (n + 1) 0); [lia|]. unfold ret. f_equal.
Qed.

Lemma register_manager_fresh w st sp :
  attached w = true -> tSvrTab w = clear_svr :: st -> tSvrPid w = clear_pid :: sp ->
  register_manager w
  = Ret tt (set_tSvrTab (manager_svr :: st)
             (set_tSvrPid (manager_pid (o_pid (w_os w)) (o_time (w_os w)) :: sp) w)).
Proof.
  intros Ha Hs Hp. destruct w as [o c a tb pb sv g e lj te hp br me ju ex].
  cbn in Ha, Hs, Hp. subst. reflexivity.
Qed.

Lemma sys_start_computes w d n :
  o_kern (w_os w) = mkKernel ∅ n ∅ ∅ -> 0 <= n -> o_region (w_os w) = None ->
  o_cfg (w_os w) = Some d -> config_ok d ->
  sys_start w = Ret 0 (started w).
Proof.
  intros Hk Hn Hr Hd Hcfg. unfold sys_start, open_cfg.
  erewrite bind_Ret by reflexivity. cbn [id]. rewrite Hd.
  change (cf_open (Some d)) with (Some (mkFile d d false)). cbn beta iota.
  assert (P : with_file sys_params (Some (mkFile d d false)) w
              = Ret (80, 800, 4096, DEF_REQ_QUE, DEF_RSP_QUE) w)
    by (unfold with_file; rewrite (sys_params_default d Hcfg : sys_params (Some _) = _); done).
  rewrite (bind_Ret _ _ _ _ _ P).
  cbn beta iota. set (size := count_memory_size 80 800).
  assert (Kr : makekey (o_region (w_os w)) SD_MEM_NAME = Some (-1)) by (rewrite Hr; reflexivity).
  assert (Ks : makekey (o_region (w_os w)) SD_SEM_NAME = Some (-1)) by (rewrite Hr; reflexivity).
  rewrite (lift_bind _ _ _ _ _ (shm_connect_absent _ _ _ Kr
    ltac:(rewrite Hk; apply find_key_empty) ltac:(done))).
  set (o1 := set_errno ENOENT (w_os w)). cbn beta iota.
  assert (Hk1 : o_kern o1 = mkKernel ∅ n ∅ ∅) by exact Hk.
  pose proof (shm_create_new SD_MEM_NAME (-1) o1 Kr size
    ltac:(rewrite Hk1; apply find_key_empty) ltac:(rewrite Hk1; exact Hn)) as C.
  rewrite Hk1 in C. cbn [k_nextid k_shm] in C.
  rewrite (lift_bind _ _ (set_w_os o1 w) _ _ C). set (o2 := set_kern _ o1). cbn beta iota.
  erewrite bind_Ret by reflexivity.
  assert (Hk2 : o_kern o2 = mkKernel ∅ (n + 1) ∅ {[ n := mkShm (-1) size ]}) by reflexivity.
  assert (G : shm_getid (Some SD_MEM_NAME) 0 0 o2 = Ret n o2).
  { apply (shm_getid_found SD_MEM_NAME (-1)); [exact Kr|]. rewrite Hk2. cbn [k_shm].
    rewrite find_key_singleton by discriminate. reflexivity. }
  set (w2 := set_attached true _). rewrite (lift_bind _ _ w2 _ _ G).
  erewrite lift_bind by reflexivity. cbn beta iota.
  erewrite bind_Ret by reflexivity.
  erewrite bind_Ret by reflexivity.
  set (w5 := set_tSvrTab _ _).
  rewrite (bind_Ret _ _ _ _ _ (createqueue_new w5 (n + 1) {[ n := mkShm (-1) size ]} ∅
    eq_refl Hk2 ltac:(lia))).
  set (w6 := set_w_ctrl _ _). cbn [negb Z.eqb]. cbn beta iota.
  pose proof (sem_create_new SD_SEM_NAME (-1) (w_os w6) Ks ltac:(apply find_key_empty)) as S.
  cbn [w6 set_w_ctrl set_w_os w_os o_kern set_kern k_nextid k_sem] in S.
  specialize (S ltac:(lia)). cbn zeta in S.
  rewrite (lift_bind _ _ w6 _ _ S).
  erewrite bind_Ret by reflexivity.
  destruct (Z.ltb_spec (n + 1 + 1 + 1) 0); [lia|].
  set (w8 := set_w_ctrl _ _).
  rewrite (bind_Ret _ _ _ _ _ (register_manager_fresh w8 (replicate 79 clear_svr)
    (replicate 799 clear_pid) eq_refl eq_refl eq_refl)).
  unfold ret, started. rewrite Hk. f_equal.
Qed.

(** ** Well-formed tables *)

Definition svc_ok (s : service_tab_t) : Prop :=
  nonul (f_name s) /\ (flags s = -1 -> f_name s = []).

(** The tables have the sizes of the control block; names are strings; a free service
    entry has no name. *)
Record tables_ok (w : world) : Prop := {
  ok_svrs : Z.of_nat (length (tSvrTab w)) = nsvrnum (w_ctrl w);
  ok_pids : Z.of_nat (length (tSvrPid w)) = npidnum (w_ctrl w);
  ok_svcs : Z.of_nat (length (tSvcTab w)) = nsvrnum (w_ctrl w);
  ok_names : Forall (fun t => nonul (svc_name t)) (tSvrTab w);
  ok_services : Forall svc_ok (tSvcTab w);
}.

Definition free_entry (s : service_tab_t) : bool := flags s =? -1.
Definition registered (name : bytes) (s : service_tab_t) : bool := same_name (f_name s) name.

Lemma whole_eq {A} (tab : world -> list A) n w :
  attached w = true -> Z.of_nat (length (tab w)) = n -> whole tab n w = Ret (tab w) w.
Proof.
  intros Ha <-. unfold whole. rewrite Ha, Z.leb_refl, Nat2Z.id, take_ge by lia. done.
Qed.

Lemma ctrl_eq w : attached w = true -> ctrl w = Ret (w_ctrl w) w.
Proof. unfold ctrl. now intros ->. Qed.

Lemma svrs_eq w : attached w = true -> tables_ok w -> svrs w = Ret (tSvrTab w) w.
Proof.
  intros Ha K. unfold svrs. rewrite (bind_Ret _ _ _ _ _ (ctrl_eq w Ha)).
  apply whole_eq; [done|apply K].
Qed.

Lemma pids_eq w : attached w = true -> tables_ok w -> pids w = Ret (tSvrPid w) w.
Proof.
  intros Ha K. unfold pids. rewrite (bind_Ret _ _ _ _ _ (ctrl_eq w Ha)).
  apply whole_eq; [done|apply K].
Qed.

Lemma svcs_eq w : attached w = true -> tables_ok w -> svcs w = Ret (tSvcTab w) w.
Proof.
  intros Ha K. unfold svcs. rewrite (bind_Ret _ _ _ _ _ (ctrl_eq w Ha)).
  apply whole_eq; [done|apply K].
Qed.

Lemma entry_eq {A} (tab : world -> list A) i w x :
  attached w = true -> znth (tab w) i = Some x -> entry tab i w = Ret x w.
Proof. unfold entry. now intros -> ->. Qed.

Lemma upd_entry_eq {A} (tab : world -> list A) set i f w x :
  attached w = true -> znth (tab w) i = Some x ->
  upd_entry tab set i f w = Ret tt (set (zupd i f (tab w)) w).
Proof.
  intros Ha Hx. unfold upd_entry. rewrite Ha, (proj2 (znth_in (tab w) i)) by eauto. done.
Qed.

Lemma upd_entry_out {A} (tab : world -> list A) set i f w :
  i < 0 -> upd_entry tab set i f w = Fault.
Proof.
  intros. unfold upd_entry, inb. rewrite (proj2 (Z.leb_gt 0 i)) by lia. now rewrite andb_false_r.
Qed.

Lemma same_name_eq a b :
  nonul a -> nonul b -> same_name a b = true <-> take NAME_LEN a = take NAME_LEN b.
Proof. apply strneq_eq. Qed.

Lemma same_name_nil name : nonul name -> name <> [] -> same_name [] name = false.
Proof.
  intros Hn Hne. destruct (same_name [] name) eqn:E; [|done].
  apply same_name_eq in E; [|constructor|done]. now destruct name.
Qed.

Lemma same_name_take name : nonul name -> same_name (take NAME_LEN name) name = true.
Proof.
  intros. apply same_name_eq; [now apply nonul_take|done|]. now rewrite take_take, Nat.min_id.
Qed.

(** The loop of [tux_find_service] for a name that is not empty. *)
Lemma find_service_loop_pos name l i pos :
  0 <= pos -> find_service_loop name l i pos = (scan (registered name) l i, pos).
Proof.
  intros Hp. revert i. induction l as [|s l IH]; intros i; cbn [find_service_loop scan]; [done|].
  destruct (Z.ltb_spec pos 0); [lia|]. rewrite andb_false_r. unfold registered at 1.
  destruct (same_name (f_name s) name); [done|]. apply IH.
Qed.

Lemma find_service_loop_spec name l i pos :
  nonul name -> name <> [] -> Forall svc_ok l -> 0 <= i -> pos < 0 ->
  let (k, p) := find_service_loop name l i pos in
  k = scan (registered name) l i
  /\ (k = -1 -> p = if scan free_entry l i =? -1 then pos else scan free_entry l i).
Proof.
  intros Hn Hne Hl. revert i pos. induction Hl as [|s l [Hs Hf] Hl IH]; intros i pos Hi Hp;
    cbn [find_service_loop scan]; [done|].
  unfold registered at 1. unfold free_entry at 1 3. destruct (Z.eqb_spec (flags s) (-1)) as [E|E].
  - destruct (Z.ltb_spec pos 0); [|lia]. cbn [andb]. rewrite Hf, same_name_nil by done.
    rewrite find_service_loop_pos by lia. split; [done|]. intros _.
    destruct (Z.eqb_spec i (-1)); [lia|done].
  - cbn [andb]. destruct (same_name (f_name s) name).
    + split; [done|]. lia.
    + specialize (IH (i + 1) pos ltac:(lia) Hp). unfold registered, free_entry in *. exact IH.
Qed.

Section Search.
Context (w : world) (name : bytes).
Hypotheses (Ha : attached w = true) (K : tables_ok w) (Hn : nonul name).

Lemma tux_find_service_pos pos :
  0 <= pos -> tux_find_service (Some name) pos w = Ret (scan (registered name) (tSvcTab w) 0, pos) w.
Proof.
  intros Hp. unfold tux_find_service. rewrite (bind_Ret _ _ _ _ _ (svcs_eq w Ha K)).
  now rewrite find_service_loop_pos.
Qed.

Lemma tux_find_service_neg :
  name <> [] ->
  exists p, tux_find_service (Some name) (-1) w = Ret (scan (registered name) (tSvcTab w) 0, p) w
    /\ (scan (registered name) (tSvcTab w) 0 = -1 -> p = scan free_entry (tSvcTab w) 0).
Proof.
  intros Hne. unfold tux_find_service. rewrite (bind_Ret _ _ _ _ _ (svcs_eq w Ha K)).
  pose proof (find_service_loop_spec name (tSvcTab w) 0 (-1) Hn Hne (ok_services w K)
                ltac:(lia) ltac:(lia)) as H.
  destruct (find_service_loop _ _ _ _) as [k p]. destruct H as [-> Hp]. exists p. split; [done|].
  intros H. rewrite (Hp H). destruct (Z.eqb_spec (scan free_entry (tSvcTab w) 0) (-1)); congruence.
Qed.

Lemma find_svrno_eq :
  find_svrno_by_service name w = Ret (scan (fun t => same_name (svc_name t) name) (tSvrTab w) 0) w.
Proof. unfold find_svrno_by_service. now rewrite (bind_Ret _ _ _ _ _ (svrs_eq w Ha K)). Qed.

Lemma tux_locatemb_eq :
  tux_locatemb name w = Ret (scan (fun t => same_name name (svc_name t)) (tSvrTab w) 0) w.
Proof. unfold tux_locatemb. now rewrite (bind_Ret _ _ _ _ _ (svrs_eq w Ha K)). Qed.

Lemma find_server_id_eq id :
  find_server_id id w = Ret (scan (fun t => svrid t =? id) (tl (tSvrTab w)) 1) w.
Proof. unfold find_server_id. now rewrite (bind_Ret _ _ _ _ _ (svrs_eq w Ha K)). Qed.
End Search.

(** What registering does to the table of services. *)
Definition service_entry (name : bytes) (svrno fn : Z) : service_tab_t :=
  mkSvc 0 (take NAME_LEN name) svrno fn.

Lemma service_entry_ok name svrno fn : nonul name -> svc_ok (service_entry name svrno fn).
Proof. intros. split; cbn; [now apply nonul_take|lia]. Qed.

Section Advertise.
Context (w : world) (name : bytes) (fn svrno : Z).
Hypotheses (Ha : attached w = true) (K : tables_ok w) (Hn : nonul name) (Hne : name <> [])
  (Hfn : fn <> 0) (Hsvr : scan (fun t => same_name (svc_name t) name) (tSvrTab w) 0 = svrno)
  (Hpos : 0 <= svrno).

Lemma advertise_start :
  tux_advertise (Some name) fn w
  = (let* pos := tux_new_service name fn in
     if pos <? 0 then ret pos else upd_svc pos (set_f_svrid svrno) ;;; ret 0) w.
Proof.
  unfold tux_advertise. destruct (Z.eqb_spec fn 0); [done|].
  erewrite bind_Ret by reflexivity. unfold sdIsAttach. cbn [id]. rewrite Ha. cbn [negb].
  rewrite (bind_Ret _ _ _ _ _ (find_svrno_eq w name Ha K)), Hsvr.
  destruct (Z.ltb_spec svrno 0); [lia|done].
Qed.

Lemma advertise_known k s :
  scan (registered name) (tSvcTab w) 0 = k -> znth (tSvcTab w) k = Some s ->
  tux_advertise (Some name) fn w
  = if sd_fun s =? fn then Ret 0 (set_tSvcTab (zupd k (set_f_svrid svrno) (tSvcTab w)) w)
    else Ret (-1) (set_tux_errno SYS_EMATCH w).
Proof.
  intros Hk Hs. rewrite advertise_start. unfold tux_new_service. rewrite bind_assoc.
  destruct (tux_find_service_neg w name Ha K Hn Hne) as (p & E & _).
  rewrite (bind_Ret _ _ _ _ _ E), Hk. pose proof (znth_range _ _ _ Hs).
  destruct (Z.leb_spec 0 k); [|lia]. rewrite bind_assoc.
  rewrite (bind_Ret _ _ _ _ _ (entry_eq tSvcTab k w s Ha Hs)).
  destruct (sd_fun s =? fn); cbn [negb]; [|done].
  erewrite bind_Ret by reflexivity. destruct (Z.ltb_spec k 0); [lia|].
  now rewrite (bind_Ret _ _ _ _ _ (upd_entry_eq tSvcTab set_tSvcTab k _ w s Ha Hs)).
Qed.

Lemma advertise_new p s :
  scan (registered name) (tSvcTab w) 0 = -1 -> scan free_entry (tSvcTab w) 0 = p ->
  znth (tSvcTab w) p = Some s ->
  exists w', tux_advertise (Some name) fn w = Ret 0 w'
    /\ w' = set_tSvcTab (zupd p (fun _ => service_entry name svrno fn) (tSvcTab w)) w.
Proof.
  intros Hk Hp Hs. eexists. split; [|reflexivity].
  rewrite advertise_start. unfold tux_new_service. rewrite bind_assoc.
  destruct (tux_find_service_neg w name Ha K Hn Hne) as (p' & E & Hp').
  rewrite (bind_Ret _ _ _ _ _ E), Hk, (Hp' Hk), Hp. cbn [Z.leb Z.compare].
  pose proof (znth_range _ _ _ Hs). rewrite !bind_assoc.
  erewrite bind_Ret by (eapply upd_entry_eq; [exact Ha|exact Hs]). rewrite bind_assoc.
  set (w1 := set_tSvcTab _ w).
  erewrite bind_Ret by (eapply (upd_entry_eq tSvcTab _ _ _ w1); [exact Ha|apply znth_zupd_eq; exact Hs]).
  rewrite bind_assoc. set (w2 := set_tSvcTab _ w1).
  erewrite bind_Ret by (eapply (upd_entry_eq tSvcTab _ _ _ w2);
    [exact Ha|apply znth_zupd_eq, znth_zupd_eq; exact Hs]).
  erewrite bind_Ret by reflexivity. set (w3 := set_tSvcTab _ w2).
  destruct (Z.ltb_spec p 0); [lia|].
  erewrite bind_Ret by (eapply (upd_entry_eq tSvcTab _ _ _ w3);
    [exact Ha|apply znth_zupd_eq, znth_zupd_eq, znth_zupd_eq; exact Hs]).
  unfold ret. f_equal. apply world_eq; try reflexivity.
  cbn [tSvcTab w3 w2 w1 set_tSvcTab]. rewrite !zupd_zupd. reflexivity.
Qed.

Lemma advertise_full :
  scan (registered name) (tSvcTab w) 0 = -1 -> scan free_entry (tSvcTab w) 0 = -1 ->
  tux_advertise (Some name) fn w = Fault.
Proof.
  intros Hk Hp. rewrite advertise_start. unfold tux_new_service. rewrite bind_assoc.
  destruct (tux_find_service_neg w name Ha K Hn Hne) as (p' & E & Hp').
  rewrite (bind_Ret _ _ _ _ _ E), Hk, (Hp' Hk), Hp. cbn [Z.leb Z.compare].
  unfold bind, upd_svc. now rewrite upd_entry_out by lia.
Qed.
End Advertise.

Lemma unadvertise_eq w name k s :
  attached w = true -> tables_ok w -> nonul name -> name <> [] ->
  scan (registered name) (tSvcTab w) 0 = k -> znth (tSvcTab w) k = Some s ->
  tux_unadvertise (Some name) w = Ret 0 (set_tSvcTab (zupd k (fun _ => zero_svc) (tSvcTab w)) w).
Proof.
  intros Ha K Hn Hne Hk Hs. unfold tux_unadvertise, tux_del_service.
  erewrite bind_Ret by reflexivity. unfold sdIsAttach. cbn [id]. rewrite Ha. cbn [negb].
  destruct (tux_find_service_neg w name Ha K Hn Hne) as (p & E & _).
  rewrite bind_assoc, (bind_Ret _ _ _ _ _ E), Hk. pose proof (znth_range _ _ _ Hs).
  destruct (Z.ltb_spec k 0); [lia|].
  rewrite bind_assoc, (bind_Ret _ _ _ _ _ (upd_entry_eq tSvcTab set_tSvcTab k _ w s Ha Hs)). done.
Qed.

Lemma unadvertise_absent w name :
  attached w = true -> tables_ok w -> nonul name -> name <> [] ->
  scan (registered name) (tSvcTab w) 0 = -1 ->
  tux_unadvertise (Some name) w = Ret (-1) (set_tux_errno SYS_NOENT w).
Proof.
  intros Ha K Hn Hne Hk. unfold tux_unadvertise, tux_del_service.
  erewrite bind_Ret by reflexivity. unfold sdIsAttach. cbn [id]. rewrite Ha. cbn [negb].
  destruct (tux_find_service_neg w name Ha K Hn Hne) as (p & E & _).
  now rewrite bind_assoc, (bind_Ret _ _ _ _ _ E), Hk.
Qed.

(** The index a scan from 0 found. *)
Lemma scan_found {A} (P : A -> bool) (l : list A) k :
  scan P l 0 = k -> k <> -1 ->
  exists x, znth l k = Some x /\ P x = true /\ Forall (fun x => P x = false) (take (Z.to_nat k) l).
Proof.
  intros Hs Hk. destruct (scan_range P l 0 ltac:(lia)) as [H|H]; [congruence|].
  destruct (scan_eq P l 0 k) as (x & Hx & Hp & Hf); [lia|done|lia|].
  rewrite Z.sub_0_r in *. eauto.
Qed.

Lemma tables_ok_svcs w p s f :
  tables_ok w -> znth (tSvcTab w) p = Some s -> svc_ok (f s) ->
  tables_ok (set_tSvcTab (zupd p f (tSvcTab w)) w).
Proof.
  intros K Hs Hf. destruct K as [K1 K2 K3 K4 K5].
  split; cbn [tSvrTab tSvrPid tSvcTab w_ctrl set_tSvcTab]; try done.
  - now rewrite length_zupd.
  - apply Forall_lookup_2. intros i x Hi.
    destruct (decide (Z.of_nat i = p)) as [<-|Hne].
    + assert (H := znth_zupd_eq _ f _ _ Hs). unfold znth in H.
      destruct (Z.ltb_spec (Z.of_nat i) 0); [lia|]. rewrite Nat2Z.id in H. congruence.
    + assert (H := znth_zupd_ne p (Z.of_nat i) f (tSvcTab w) ltac:(done)). unfold znth in H.
      destruct (Z.ltb_spec (Z.of_nat i) 0); [lia|]. rewrite Nat2Z.id in H.
      rewrite H in Hi. eapply Forall_lookup_1; [exact K5|exact Hi].
Qed.

(** ** Operations keep the tables well formed *)

Lemma tables_ok_keep w w' :
  w_ctrl w' = w_ctrl w -> tSvrTab w' = tSvrTab w -> tSvrPid w' = tSvrPid w -> tSvcTab w' = tSvcTab w ->
  tables_ok w -> tables_ok w'.
Proof. intros E1 E2 E3 E4 []. split; rewrite ?E1, ?E2, ?E3, ?E4; assumption. Qed.

Lemma keeps_lift {A} (m : prog os A) : keeps tables_ok (lift m).
Proof.
  intros w K. unfold lift. destruct (m (w_os w)); cbn; try done;
    (eapply tables_ok_keep; [..|exact K]; reflexivity).
Qed.

Lemma keeps_set_tux_err e : keeps tables_ok (set_tux_err e).
Proof. intros w K. cbn. eapply tables_ok_keep; [..|exact K]; reflexivity. Qed.

Lemma keeps_err {A} e (r : A) : keeps tables_ok (err e r).
Proof. apply keeps_bind; [apply keeps_set_tux_err|intros; apply keeps_ret]. Qed.

Lemma keeps_attach b : keeps tables_ok (attach b).
Proof. intros w K. cbn. eapply tables_ok_keep; [..|exact K]; reflexivity. Qed.

Lemma keeps_ctrl : keeps tables_ok ctrl.
Proof. intros w K. unfold ctrl. now destruct (attached w). Qed.

Lemma keeps_entry {A} (tab : world -> list A) i : keeps tables_ok (entry tab i).
Proof. intros w K. unfold entry. destruct (attached w); [|done]. now destruct (znth _ _). Qed.

Lemma keeps_whole {A} (tab : world -> list A) n : keeps tables_ok (whole tab n).
Proof. intros w K. unfold whole. now destruct (_ && _). Qed.

Lemma keeps_with_file {A} (m : prog stream A) fp : keeps tables_ok (with_file m fp).
Proof. intros w K. unfold with_file. now destruct (m fp). Qed.

Lemma keeps_upd_ctrl f :
  (forall c, nsvrnum (f c) = nsvrnum c /\ npidnum (f c) = npidnum c) -> keeps tables_ok (upd_ctrl f).
Proof.
  intros Hf w K. unfold upd_ctrl. destruct (attached w); [|done]. cbn.
  destruct (Hf (w_ctrl w)) as [E1 E2]. destruct K. split; cbn; rewrite ?E1, ?E2; assumption.
Qed.

Lemma keeps_upd_svr i f :
  (forall t, nonul (svc_name t) -> nonul (svc_name (f t))) -> keeps tables_ok (upd_svr i f).
Proof.
  intros Hf w K. unfold upd_svr, upd_entry. destruct (_ && _); [|done]. destruct K.
  split; cbn [holds tSvrTab tSvrPid tSvcTab w_ctrl set_tSvrTab]; rewrite ?length_zupd; try assumption.
  apply Forall_zupd; [assumption|done].
Qed.

Lemma keeps_upd_pid i f : keeps tables_ok (upd_pid i f).
Proof.
  intros w K. unfold upd_pid, upd_entry. destruct (_ && _); [|done]. destruct K.
  split; cbn [holds tSvrTab tSvrPid tSvcTab w_ctrl set_tSvrPid]; rewrite ?length_zupd; assumption.
Qed.

Lemma keeps_upd_svc i f : (forall s, svc_ok s -> svc_ok (f s)) -> keeps tables_ok (upd_svc i f).
Proof.
  intros Hf w K. unfold upd_svc, upd_entry. destruct (_ && _); [|done]. destruct K.
  split; cbn [holds tSvrTab tSvrPid tSvcTab w_ctrl set_tSvcTab]; rewrite ?length_zupd; try assumption.
  apply Forall_zupd; [assumption|done].
Qed.

Lemma keeps_map_svrs k f :
  (forall t, nonul (svc_name t) -> nonul (svc_name (f t))) -> keeps tables_ok (map_svrs_from k f).
Proof.
  intros Hf w K. unfold map_svrs_from, bind.
  destruct (attached w) eqn:Ha; [|unfold svrs, bind, ctrl; now rewrite Ha].
  rewrite (svrs_eq w Ha K). cbn [obind modify holds]. rewrite drop_all, app_nil_r.
  destruct K. split; cbn [tSvrTab tSvrPid tSvcTab w_ctrl set_tSvrTab]; try assumption.
  - rewrite length_app, length_map, length_take, length_drop. lia.
  - apply Forall_app. split; [now apply Forall_take|].
    apply Forall_map. eapply Forall_impl; [apply Forall_drop; eassumption|].
    intros t Ht. now apply Hf.
Qed.

#[export] Hint Resolve keeps_lift keeps_set_tux_err keeps_err keeps_attach keeps_ctrl keeps_entry
  keeps_whole keeps_with_file keeps_upd_pid : keeps.

(** Fields that hold no names. *)
#[export] Hint Extern 1 (keeps tables_ok (upd_ctrl _)) => apply keeps_upd_ctrl; intros; split; reflexivity : keeps.
#[export] Hint Extern 1 (keeps tables_ok (upd_svr _ _)) => apply keeps_upd_svr; intros; assumption : keeps.
#[export] Hint Extern 1 (keeps tables_ok (upd_svc _ (set_f_svrid _))) =>
  apply keeps_upd_svc; intros ? [? ?]; split; assumption : keeps.

Lemma zero_svc_ok : svc_ok zero_svc.
Proof. split; [constructor|done]. Qed.

Lemma keeps_svrs : keeps tables_ok svrs. Proof. unfold svrs. keeps_tac. Qed.
Lemma keeps_pids : keeps tables_ok pids. Proof. unfold pids. keeps_tac. Qed.
Lemma keeps_svcs : keeps tables_ok svcs. Proof. unfold svcs. keeps_tac. Qed.
#[export] Hint Resolve keeps_svrs keeps_pids keeps_svcs : keeps.

Lemma keeps_find_service name pos : keeps tables_ok (tux_find_service name pos).
Proof. unfold tux_find_service. keeps_tac. Qed.

Lemma keeps_get_timeout name : keeps tables_ok (tux_get_timeout name).
Proof. unfold tux_get_timeout, open_cfg. keeps_tac. Qed.
#[export] Hint Resolve keeps_find_service keeps_get_timeout : keeps.
#[export] Hint Extern 1 (keeps tables_ok (upd_svc _ (fun _ => zero_svc))) =>
  apply keeps_upd_svc; intros; apply zero_svc_ok : keeps.

Lemma upd_svc_fuse i f g w :
  (upd_svc i f ;;; upd_svc i g) w = upd_svc i (fun s => g (f s)) w.
Proof.
  unfold upd_svc, upd_entry, bind. destruct (attached w && inb (tSvcTab w) i) eqn:E; [|done].
  cbn [obind attached tSvcTab set_tSvcTab]. unfold inb in *. rewrite length_zupd, E, zupd_zupd. done.
Qed.

Lemma keeps_new_service name fn : nonul name -> keeps tables_ok (tux_new_service name fn).
Proof.
  intros Hn. unfold tux_new_service, svc. apply keeps_bind; [auto with keeps nocore|].
  intros [rc pos]. destruct (0 <=? rc); [keeps_tac|].
  apply (keeps_ext _ _ (upd_svc pos (fun _ => service_entry name 0 fn) ;;; ret pos)).
  - intros w. rewrite <- !bind_assoc. unfold bind at 1 4. f_equal.
    unfold bind at 1. rewrite upd_svc_fuse. exact (upd_svc_fuse pos _ (set_sd_fun fn) w).
  - apply keeps_bind; [|keeps_tac]. apply keeps_upd_svc. intros. now apply service_entry_ok.
Qed.

Lemma keeps_service_lines l : keeps tables_ok (service_lines l).
Proof.
  induction l as [|p l IH]; cbn [service_lines]; keeps_tac; try exact IH.
  unfold service_line, svr. keeps_tac.
Qed.

(** ** Properties *)

(** [tux_advertise] of a service that a server is configured for.  If the name is
    registered, the call succeeds exactly when the function is the same, and otherwise
    reports [SYS_EMATCH] and leaves the tables alone.  If it is not, and an entry is
    free, the first free entry gets the name (cut to 32 bytes), the function and the
    server's index, the other entries are as before, and a search finds it there.  If
    none is free, the code clears the entry before the table. *)
Theorem tux_advertise_correct w name fn svrno :
  attached w = true -> tables_ok w -> nonul name -> name <> [] -> fn <> 0 ->
  scan (fun t => same_name (svc_name t) name) (tSvrTab w) 0 = svrno -> 0 <= svrno ->
  let k := scan (registered name) (tSvcTab w) 0 in
  let p := scan free_entry (tSvcTab w) 0 in
  if negb (k =? -1) then
    exists s, znth (tSvcTab w) k = Some s
      /\ tux_advertise (Some name) fn w
         = (if sd_fun s =? fn then Ret 0 (set_tSvcTab (zupd k (set_f_svrid svrno) (tSvcTab w)) w)
            else Ret (-1) (set_tux_errno SYS_EMATCH w))
  else if negb (p =? -1) then
    exists w', tux_advertise (Some name) fn w = Ret 0 w' /\ tables_ok w'
      /\ znth (tSvcTab w') p = Some (service_entry name svrno fn)
      /\ (forall i, i <> p -> znth (tSvcTab w') i = znth (tSvcTab w) i)
      /\ tux_find_service (Some name) 1 w' = Ret (p, 1) w'
  else tux_advertise (Some name) fn w = Fault.
Proof.
  intros Ha K Hn Hne Hfn Hs Hp0 k p.
  destruct (Z.eqb_spec k (-1)) as [Hk|Hk]; cbn [negb].
  - destruct (Z.eqb_spec p (-1)) as [Hp|Hp]; cbn [negb]; [exact (advertise_full w name fn svrno Ha K Hn Hne Hfn Hs Hp0 Hk Hp)|].
    destruct (scan_found _ _ p eq_refl Hp) as (s & Hx & Hfree & _).
    destruct (advertise_new w name fn svrno Ha K Hn Hne Hfn Hs Hp0 p s Hk eq_refl Hx) as (w' & E & Ew).
    assert (K' : tables_ok w').
    { subst w'. eapply tables_ok_svcs; [exact K|exact Hx|now apply service_entry_ok]. }
    assert (Ha' : attached w' = true) by (subst w'; exact Ha).
    exists w'. split; [exact E|]. split; [exact K'|].
    rewrite (tux_find_service_pos w' name Ha' K') by lia.
    subst w'. cbn [tSvcTab set_tSvcTab].
    split; [apply (znth_zupd_eq _ _ _ _ Hx)|]. split; [intros; now apply znth_zupd_ne|].
    do 2 f_equal. destruct (znth_range _ _ _ Hx). apply scan_zupd_first; [lia| | |eauto].
    + apply Forall_take. apply (scan_neg (registered name) (tSvcTab w) 0); [lia|fold k; lia].
    + intros. unfold registered, service_entry. cbn [f_name]. now apply same_name_take.
  - destruct (scan_found _ _ k eq_refl Hk) as (s & Hx & _). exists s. split; [exact Hx|].
    exact (advertise_known w name fn svrno Ha K Hn Hne Hfn Hs Hp0 k s eq_refl Hx).
Qed.

Definition free_slots (w : world) : nat := count free_entry (tSvcTab w).

(** Entries of the service table leak: registering a new name uses up a free entry,
    [tux_unadvertise] does not give one back (it clears the flag to 0, while a free
    entry has -1), and when the free entries are used up the next new name is written
    before the table, however many services have been removed. *)
Theorem service_slots_leak w name fn :
  attached w = true -> tables_ok w -> nonul name -> name <> [] -> fn <> 0 ->
  0 <= scan (fun t => same_name (svc_name t) name) (tSvrTab w) 0 ->
  (scan (registered name) (tSvcTab w) 0 <> -1 ->
   exists w', tux_unadvertise (Some name) w = Ret 0 w' /\ free_slots w' = free_slots w)
  /\ (scan (registered name) (tSvcTab w) 0 = -1 ->
      match free_slots w with
      | O => tux_advertise (Some name) fn w = Fault
      | S n => exists w', tux_advertise (Some name) fn w = Ret 0 w' /\ free_slots w' = n
      end).
Proof.
  intros Ha K Hn Hne Hfn Hsvr. split.
  - intros Hk. destruct (scan_found _ _ _ eq_refl Hk) as (s & Hx & Hr & _).
    eexists. split; [exact (unadvertise_eq w name _ s Ha K Hn Hne eq_refl Hx)|]. unfold free_slots. cbn [tSvcTab set_tSvcTab].
    pose proof (count_zupd free_entry _ _ s (fun _ => zero_svc) Hx) as C.
    destruct (free_entry s) eqn:F; [|cbn in C; lia]. exfalso.
    assert (Hok : svc_ok s).
    { destruct (znth_range _ _ _ Hx). unfold znth in Hx.
      destruct (Z.ltb_spec (scan (registered name) (tSvcTab w) 0) 0); [lia|].
      eapply Forall_lookup_1; [apply K|exact Hx]. }
    unfold free_entry in F. apply Z.eqb_eq in F. unfold registered in Hr.
    rewrite (proj2 Hok F), same_name_nil in Hr; done.
  - intros Hk. destruct (free_slots w) as [|n] eqn:F.
    + apply (advertise_full w name fn _ Ha K Hn Hne Hfn eq_refl Hsvr Hk). apply scan_none. now apply count_0.
    + assert (Hp : scan free_entry (tSvcTab w) 0 <> -1).
      { intros Hp. destruct (scan_neg free_entry (tSvcTab w) 0) as [_ H]; [lia|lia|].
        apply count_0 in H. unfold free_slots in F. lia. }
      destruct (scan_found _ _ _ eq_refl Hp) as (s & Hx & Hf & _).
      destruct (advertise_new w name fn _ Ha K Hn Hne Hfn eq_refl Hsvr _ s Hk eq_refl Hx) as (w' & E & ->).
      eexists. split; [exact E|]. unfold free_slots in *. cbn [tSvcTab set_tSvcTab].
      pose proof (count_zupd free_entry _ _ s (fun _ => service_entry name
        (scan (fun t => same_name (svc_name t) name) (tSvrTab w) 0) fn) Hx) as C.
      rewrite Hf in C. cbn [Nat.b2n service_entry free_entry flags Z.eqb] in C. lia.
Qed.

(** *** Unregistering a dead server *)

Lemma map_svrs_from_eq k f w :
  attached w = true -> tables_ok w ->
  map_svrs_from k f w = Ret tt (set_tSvrTab (take k (tSvrTab w) ++ map f (drop k (tSvrTab w))) w).
Proof.
  intros Ha K. unfold map_svrs_from. rewrite (bind_Ret _ _ _ _ _ (svrs_eq w Ha K)).
  unfold modify. now rewrite drop_all, app_nil_r.
Qed.

Lemma sem_unlock_now sid o v :
  sem_val sid 0 o = Some v -> 0 <= v + 1 ->
  exists o', sem_unlock 0 sid o = Ret 0 o' /\ sem_val sid 0 o' = Some (v + 1).
Proof.
  intros Hv H. exists (set_kern (sem_upd sid 0 (fun v => v + 1) (o_kern o)) o).
  split; [|now rewrite (sem_val_upd _ _ _ _ v)].
  unfold sem_unlock, sem_call, bind. now rewrite (semop_now _ _ 1 _ v).
Qed.

(** [tux_deletesvc] is given the table index of a server but compares it with server
    ids: under the lock, which it gives back, it marks as unavailable the servers whose
    id equals the index.  When no server has that id, the dead server stays as it was
    and callers still get queued for it. *)
Theorem tux_deletesvc_by_index w taskid t v :
  attached w = true -> tables_ok w -> znth (tSvrTab w) taskid = Some t ->
  sem_val (semid (w_ctrl w)) 0 (w_os w) = Some v -> 1 <= v ->
  exists w', tux_deletesvc taskid w = Ret 0 w'
    /\ tSvrTab w' = take 1 (tSvrTab w)
         ++ map (fun t => if svrid t =? taskid then set_state TUX_UNAVAIL t else t) (drop 1 (tSvrTab w))
    /\ sem_val (semid (w_ctrl w)) 0 (w_os w') = Some v
    /\ (Forall (fun t => svrid t <> taskid) (drop 1 (tSvrTab w)) -> tSvrTab w' = tSvrTab w).
Proof.
  intros Ha K Ht Hv Hv1. set (f := fun t => if svrid t =? taskid then set_state TUX_UNAVAIL t else t).
  destruct (sem_lock_free _ _ v Hv Hv1) as (o1 & L & V1 & _).
  destruct (sem_unlock_now _ _ _ V1 ltac:(lia)) as (o2 & U & V2).
  set (tab := take 1 (tSvrTab w) ++ map f (drop 1 (tSvrTab w))).
  exists (set_w_os o2 (set_tSvrTab tab (set_w_os o1 w))). split; [|split; [done|split]].
  - unfold tux_deletesvc. rewrite (bind_Ret _ _ _ _ _ (entry_eq tSvrTab taskid w t Ha Ht)).
    erewrite bind_Ret by reflexivity. unfold sdIsAttach. cbn [id]. rewrite Ha. cbn [negb].
    unfold tux_lock. rewrite bind_assoc, (bind_Ret _ _ _ _ _ (ctrl_eq w Ha)), (lift_bind _ _ w _ _ L).
    cbn [negb Z.eqb].
    rewrite (bind_Ret _ _ _ _ _ (map_svrs_from_eq 1 f (set_w_os o1 w) Ha
      ltac:(destruct K; split; assumption))).
    set (w2 := set_tSvrTab _ _). unfold tux_unlock.
    rewrite bind_assoc, (bind_Ret _ _ _ _ _ (ctrl_eq w2 Ha)).
    rewrite (lift_bind _ _ w2 _ _ U). done.
  - cbn [w_os set_w_os]. rewrite V2. f_equal. lia.
  - intros Hno. cbn [tSvrTab set_w_os set_tSvrTab]. unfold tab.
    rewrite (map_ext_in f id), map_id, take_drop; [done|].
    intros x Hx. rewrite Forall_forall in Hno. unfold f.
    destruct (Z.eqb_spec (svrid x) taskid); [|done]. exfalso.
    apply (Hno x); [now apply list_elem_of_In|done].
Qed.

(** *** Timeouts *)

(** The timeout that the values of the [sd.svc] lines give a service. *)
Fixpoint timeout_of (name : bytes) (vs : list bytes) : Z :=
  match vs with
  | [] => MAX_TIMEOUT_SEC
  | v :: vs =>
      match words blank v with
      | [] => timeout_of name vs
      | w :: r =>
          if same_name (take NAME_LEN w) name
          then match r with p :: _ => atoi p | [] => MAX_TIMEOUT_SEC end
          else timeout_of name vs
      end
  end.

Lemma token_buf n v : nonul v -> (length v < 513)%nat -> token blank n (buf_of LINE_SIZE v) 0 = nth_error (words blank v) n.
Proof.
  intros Hv Hl. unfold buf_of, LINE_SIZE.
  replace (zeros (513 - Z.of_nat (length v))) with (NUL :: zeros (512 - Z.of_nat (length v))).
  - now apply (token_words blank n [] v).
  - unfold zeros. replace (Z.to_nat (513 - Z.of_nat (length v)))
      with (S (Z.to_nat (512 - Z.of_nat (length v)))) by lia. done.
Qed.

Lemma timeout_loop_eq d name ls last fuel :
  Forall line_ok ls -> line_ok last -> (length ls < fuel)%nat ->
  exists f, timeout_loop fuel name MAX_TIMEOUT_SEC (Some (mkFile d (text ls ++ last) false))
            = Ret (timeout_of name (params (str "sd.svc") ls)) f.
Proof.
  intros Hls Hlast. revert ls Hls. induction fuel as [|fuel IH]; intros ls Hls Hf; [lia|].
  cbn [timeout_loop].
  pose proof (cf_nextparm_params d (str "sd.sv") "c"%char ls last) as H. cbn zeta in H.
  change (str "sd.sv" ++ ["c"%char]) with (str "sd.svc") in H.
  specialize (H ltac:(repeat constructor; discriminate) eq_refl Hls Hlast).
  destruct (params (str "sd.svc") ls) as [|v vs] eqn:P.
  - eexists. unfold BUF512. change 513 with LINE_SIZE. now rewrite (bind_Ret _ _ _ _ _ H).
  - destruct H as (ls' & E & Pv & Hls' & Hlen & Hv & Lv).
    specialize (IH ls' Hls' ltac:(lia)). rewrite Pv in IH.
    unfold BUF512. change 513 with LINE_SIZE. rewrite (bind_Ret _ _ _ _ _ E).
    cbn [Z.ltb Z.compare timeout_of]. rewrite !token_buf by done.
    destruct (words blank v) as [|w r]; cbn [nth_error]; [exact IH|].
    destruct (same_name (take NAME_LEN w) name); cbn [negb]; [|exact IH].
    destruct r; eexists; reflexivity.
Qed.

Lemma get_timeout_eq w ls last name :
  o_cfg (w_os w) = Some (text ls ++ last) -> Forall line_ok ls -> line_ok last ->
  tux_get_timeout name w = Ret (timeout_of name (params (str "sd.svc") ls)) w.
Proof.
  intros Hd Hls Hlast. unfold tux_get_timeout, open_cfg. erewrite bind_Ret by reflexivity.
  cbn [id]. rewrite Hd. cbn [cf_open fmap option_fmap option_map]. set (d := text ls ++ last).
  destruct (timeout_loop_eq d name ls last (length d + 2) Hls Hlast) as [f E].
  { pose proof (text_length ls). unfold d. rewrite length_app. lia. }
  unfold with_file, bind. cbn [get obind fuel_of f_rest]. fold d in E. now rewrite E.
Qed.

(** On a configuration that is a text file [tux_get_timeout] terminates and returns
    the number behind the first [sd.svc] line that names the service, or 20 seconds
    when no line names it or the first one that does has no number. *)
Theorem tux_get_timeout_correct w ls last name :
  o_cfg (w_os w) = Some (text ls ++ last) -> Forall line_ok ls -> line_ok last ->
  tux_get_timeout name w = Ret (timeout_of name (params (str "sd.svc") ls)) w.
Proof. apply get_timeout_eq. Qed.

(** *** Start *)

(** C28: [sys_start] on a system without the IPC objects, whatever values a readable
    configuration gives: it succeeds with the built-in sizes (80 servers, 800
    processes, messages of 4096 bytes, queues 601107 and 601117), empty queues, a free
    lock, and well-formed tables in which the manager is the only server and process. *)
Theorem sys_start_correct w d n :
  o_kern (w_os w) = mkKernel ∅ n ∅ ∅ -> 0 <= n -> o_region (w_os w) = None ->
  o_cfg (w_os w) = Some d -> config_ok d ->
  exists w', sys_start w = Ret 0 w' /\ attached w' = true /\ tables_ok w'
    /\ w_ctrl w' = mkCtrl 80 800 (o_pid (w_os w)) (n + 3) n 601107 601117 (n + 1) (n + 2) 4096
    /\ tSvrTab w' = manager_svr :: replicate 79 clear_svr
    /\ tSvrPid w' = manager_pid (o_pid (w_os w)) (o_time (w_os w)) :: replicate 799 clear_pid
    /\ free_slots w' = 80%nat
    /\ queue (n + 1) (w_os w') = Some (mkQueue 601107 [] MSGMNB)
    /\ queue (n + 2) (w_os w') = Some (mkQueue 601117 [] MSGMNB)
    /\ sem_val (n + 3) 0 (w_os w') = Some 1.
Proof.
  intros Hk Hn Hr Hd Hc. exists (started w).
  split; [now apply (sys_start_computes w d n)|]. unfold started. rewrite Hk. cbn [k_nextid].
  replace (n + 1 + 1 + 1) with (n + 3) by lia. replace (n + 1 + 1) with (n + 2) by lia.
  split; [done|]. split.
  { split; try reflexivity.
    - cbn [tSvrTab set_w_os set_w_ctrl set_attached set_tSvrTab]. apply Forall_cons.
      split; [repeat constructor; discriminate|]. apply Forall_replicate. constructor.
    - cbn [tSvcTab set_w_os set_w_ctrl set_attached set_tSvrTab set_tSvrPid set_tSvcTab].
      apply Forall_replicate. split; [constructor|done]. }
  do 4 (split; [done|]). unfold queue, sem_val, started_kernel.
  cbn [w_os set_w_os o_kern set_errno set_kern k_msq k_sem].
  replace (n + 1 + 1 + 1) with (n + 3) by lia. replace (n + 1 + 1) with (n + 2) by lia.
  rewrite lookup_insert_ne, lookup_insert_eq, !lookup_singleton_eq by lia. done.
Qed.

(** *** Witnesses *)

Definition demo_svr : server_tab_t :=
  mkSvr 7 (str "echo") (str "ECHO") [] 2 TUX_IDLE SVR_REPLY_NEED SVR_PERM 300007 20.

Definition free_svc : service_tab_t := set_flags (-1) zero_svc.

(** Three servers, two service entries left; the lock is semaphore 7. *)
Definition demo_tables (l : list service_tab_t) : world :=
  set_w_os (demo_sem 1)
    (set_w_ctrl (mkCtrl 3 2 100 7 0 601107 601117 1 2 4096)
      (set_tSvrTab [manager_svr; demo_svr; clear_svr]
        (set_tSvrPid [manager_pid 100 0; clear_pid]
          (set_tSvcTab l (demo_world (demo_sem 1)))))).

Lemma demo_tables_ok l :
  length l = 3%nat -> Forall svc_ok l -> tables_ok (demo_tables l).
Proof.
  intros L H. split; try done.
  - cbn [demo_tables tSvcTab w_ctrl set_w_os set_w_ctrl set_tSvrTab set_tSvrPid set_tSvcTab nsvrnum]. lia.
  - repeat constructor; discriminate.
Qed.

Definition echo_entry : service_tab_t := service_entry (str "ECHO") 1 5.

Lemma demo_svc_ok : svc_ok echo_entry /\ svc_ok free_svc.
Proof. split; (split; [repeat constructor; discriminate|done]). Qed.

Lemma tux_advertise_correct_witness :
  exists w', tux_advertise (Some (str "ECHO")) 5 (demo_tables [free_svc; free_svc; free_svc]) = Ret 0 w'
    /\ tux_find_service (Some (str "ECHO")) 1 w' = Ret (0, 1) w'.
Proof.
  destruct demo_svc_ok as [_ F].
  pose proof (tux_advertise_correct (demo_tables [free_svc; free_svc; free_svc]) (str "ECHO") 5 1
    eq_refl (demo_tables_ok [free_svc; free_svc; free_svc] eq_refl ltac:(auto))
    ltac:(repeat constructor; discriminate) ltac:(discriminate) ltac:(discriminate) eq_refl ltac:(lia)) as H.
  destruct H as (w' & E & _ & _ & _ & Hf). exists w'. split; [exact E|exact Hf].
Defined.

Lemma service_slots_leak_witness :
  (exists w', tux_unadvertise (Some (str "ECHO")) (demo_tables [echo_entry; zero_svc; zero_svc]) = Ret 0 w'
     /\ free_slots w' = 0%nat)
  /\ tux_advertise (Some (str "ECHO")) 5 (demo_tables [zero_svc; zero_svc; zero_svc]) = Fault.
Proof.
  pose proof zero_svc_ok as Z. destruct demo_svc_ok as [E _]. split.
  - apply (service_slots_leak (demo_tables [echo_entry; zero_svc; zero_svc]) (str "ECHO") 5);
      [reflexivity|apply demo_tables_ok; [reflexivity|auto]|repeat constructor; discriminate
      |discriminate|discriminate|discriminate|discriminate].
  - refine (proj2 (service_slots_leak (demo_tables [zero_svc; zero_svc; zero_svc]) (str "ECHO") 5 _ _ _ _ _ _) _);
      [reflexivity|apply demo_tables_ok; [reflexivity|auto]|repeat constructor; discriminate
      |discriminate|discriminate|discriminate|reflexivity].
Defined.

Lemma tux_deletesvc_by_index_witness :
  exists w', tux_deletesvc 1 (demo_tables [free_svc; free_svc; free_svc]) = Ret 0 w'
    /\ tSvrTab w' = [manager_svr; demo_svr; clear_svr].
Proof.
  destruct demo_svc_ok as [_ F].
  destruct (tux_deletesvc_by_index (demo_tables [free_svc; free_svc; free_svc]) 1 demo_svr 1)
    as (w' & E & _ & _ & H);
    [reflexivity|apply demo_tables_ok; [reflexivity|auto]|reflexivity|reflexivity|lia|].
  exists w'. split; [exact E|]. apply H. repeat constructor; discriminate.
Defined.

Definition demo_lines : list bytes :=
  [str "# timeouts"; str "sd.svc  ECHO 35"; str "tsk.task echo SRVID=7 SRVNUM=2 RQADDR=ECHO"].

Definition demo_os (d : bytes) : os :=
  mkOs (mkKernel ∅ 5 ∅ ∅) 0 [] [] 1000 100 [] [] [] (Some d) (str "/home/sunda") [] None.

Lemma demo_lines_text : Forall line_ok demo_lines /\ line_ok [].
Proof. split; repeat (split || constructor); vm_compute; congruence. Qed.

Lemma tux_get_timeout_correct_witness :
  let w := demo_world (demo_os (text demo_lines ++ [])) in
  tux_get_timeout (str "ECHO") w = Ret 35 w.
Proof.
  exact (tux_get_timeout_correct (demo_world (demo_os (text demo_lines ++ []))) demo_lines []
    (str "ECHO") eq_refl (proj1 demo_lines_text) (proj2 demo_lines_text)).
Defined.

Lemma demo_config_ok : config_ok (text demo_lines ++ []).
Proof.
  exists demo_lines, []. split; [done|]. destruct demo_lines_text. split; [done|]. split; [done|].
  assert (N : forall k l, (take 6 (seen l)) <> take 6 k -> (6 <= length k)%nat -> value_fits k l).
  { intros k l Hne Hk [E|[r E]]; rewrite E in Hne; [done|]. now rewrite take_app_le in Hne by lia. }
  unfold sys_keys, demo_lines.
  repeat (apply Forall_cons; split); try apply List.Forall_nil; apply N;
    first [cbn; lia | vm_compute; discriminate].
Qed.

Lemma sys_start_correct_witness :
  exists w', sys_start (set_attached false (demo_world (demo_os (text demo_lines ++ [])))) = Ret 0 w'
    /\ tables_ok w' /\ free_slots w' = 80%nat.
Proof.
  destruct (sys_start_correct (set_attached false (demo_world (demo_os (text demo_lines ++ []))))
    (text demo_lines ++ []) 5 eq_refl ltac:(lia) eq_refl eq_refl demo_config_ok)
    as (w' & E & _ & K & _ & _ & _ & F & _).
  exists w'. split; [exact E|]. split; [exact K|exact F].
Defined.
