(* ===== verification/Tuxcall.v ===== *)
(** * Calls and services

    The part of [src/dev/src/pubfun/tux/tuxmgr.c] that sends requests, waits for
    replies and dispatches requests to service functions.

    Pointers to buffers are addresses of the memory of [Tuxmem.v].  The functions are
    linked into programs that differ in their signal handlers and service functions:
    both are variables of the section.  [handler] is what the program does on a signal
    other than [SIGALRM], whose handler [tux_call] installs; [svc_call] is what a
    function pointer of the service table does with the request.  A service gets its
    [sd_info_t] by value: that it does not replace [data] in it is an assumption. *)

From Stdlib Require Import ZArith Lia Bool List Ascii String.
From stdpp Require Import base list gmap.
From S2P Require Import Prelude Cstr Kernel Funmsq Funipc Sunda Tuxmem Registry.

Definition SIGALRM : Z := 14.

(** [memcpy(msg.sBuf + off, bs, length bs)] and the fields of a request. *)
Definition fill (off : Z) (bs : bytes) (m : IPCQueMsg) : prog world IPCQueMsg :=
  let* b := deref (st off bs (sBuf m)) in
  ret (mkQueMsg (nMsgType m) (nMsgSource m) b).

Definition set_msgtype (t : Z) (m : IPCQueMsg) : IPCQueMsg := mkQueMsg t (nMsgSource m) (sBuf m).

(** ** The timer *)

Definition tux_timefunc : prog world unit := modify (set_timer_expired 1).
Definition tux_settimer : prog world unit := modify (set_timer_expired 0).
Definition tux_timer_expired : prog world Z := get timer_expired.

Section Process.
Context (handler : Z -> prog world unit).
Context (svc_call : Z -> sd_info_t -> prog world unit).

(** The handlers of the signals caught during a system call. *)
Definition run_handlers : prog world unit :=
  let* w := get id in
  let caught := o_caught (w_os w) in
  modify (fun w => set_w_os (set_caught [] (w_os w)) w) ;;;
  for_each caught (fun sig => if sig =? SIGALRM then tux_timefunc else handler sig).

Definition sys {A} (m : prog os A) : prog world A :=
  let* a := lift m in run_handlers ;;; ret a.

(** ** Replies *)

Definition tux_return_reply (rsp rsplen flags : Z) : prog world Z :=
  if flags =? -1 then ret 0
  else if rsp =? NULL then ret 0
  else
    let* rsplen := if rsplen =? 0 then tux_real_len rsp else ret rsplen in
    if rsplen <? 0 then err SYS_INVAL (-1)
    else
      let* c := ctrl in
      if max_msg_len c <? rsplen then err SYS_INVAL (-1)
      else
        modify (fun w => set_gipcMsgHead (set_h_len (i32 rsplen) (gipcMsgHead w)) w) ;;;
        let* h := get gipcMsgHead in
        let m := set_msgtype (h_req_msg_type h) zero_msg in
        let* m := fill 0 (enc_head h) m in
        let* data := load rsp (h_len h) in
        let* m := fill SIZEOF_HEAD data m in
        let* rc := sys (MsqSnd (rsp_que_id c) m (SIZEOF_HEAD + h_len h) chk_yes) in
        if negb (rc =? 0) then ret (-1) else ret 0.

Definition tux_return (rval rcode rsp rsplen flags : Z) : prog world unit :=
  let* j := get mb_longjmp in
  if j =? 0 then tux_free rsp ;;; exit_ 1
  else
    let* w := get id in
    if negb (sdIsAttach w) then set_tux_err SYS_SYSTEM ;;; longjmp SYS_SYSTEM
    else
      let* rc := tux_return_reply rsp rsplen flags in
      if negb (rc =? 0) then longjmp rc else longjmp 1.

(** ** Requests

    [tux_acall], [tux_call] and [tux_forward] read [mbctrl->max_msg_len] before they
    test whether the process is attached, so that the test always succeeds: without
    an attachment [ctrl] is a null pointer. *)

(** [ipcMsgIn] for a request: the server's message type and the data. *)
Definition request (svrno req_buf len : Z) : prog world IPCQueMsg :=
  let* t := svr svrno in
  let* data := load req_buf len in
  fill 0 data (set_msgtype (msg_type t) zero_msg).

Definition down (t : server_tab_t) : bool := (state t =? TUX_UNAVAIL) || (state t =? TUX_DEAD).

Definition tux_acall (svr_name : option bytes) (req_buf req_buflen flags : Z) : prog world Z :=
  match svr_name with
  | None => err SYS_INVAL (-1)
  | Some name =>
      if req_buf =? NULL then err SYS_INVAL (-1)
      else
        let* req_buflen := if req_buflen =? 0 then tux_real_len req_buf else ret req_buflen in
        if req_buflen <? 0 then err SYS_INVAL (-1)
        else
          let* c := ctrl in
          if max_msg_len c <? req_buflen then err SYS_INVAL (-1)
          else
            let* svrno := tux_locatemb name in
            if svrno <? 0 then err SYS_ERR_SVC (-1)
            else
              let* t := svr svrno in
              if down t then err SYS_DEAD_SVC (-1)
              else
                let* m := request svrno req_buf req_buflen in
                let* rc := sys (MsqSnd (req_que_id c) m req_buflen chk_yes) in
                if negb (rc =? 0) then err SYS_OS (-1) else ret 0
  end.

Definition tux_getreply (cd rsp_buf rsp_len flags : Z) : prog world Z :=
  let* w := get id in
  if negb (sdIsAttach w) then err SYS_SYSTEM (-1)
  else
    let* c := ctrl in
    let iRcvMod := if flags =? 0 then MSQ_MODE_BLOCK else MSQ_MODE_NONBLOCK in
    let* (iMsgLen, m) := sys (MsqRcv (rsp_que_id c) zero_msg BUS_MAX_MSG_LEN cd iRcvMod) in
    if iMsgLen <=? 0 then let* w := get id in err (o_errno (w_os w)) (-1)
    else
      let* data := deref (ld 0 iMsgLen (sBuf m)) in
      store rsp_buf data ;;;
      store rsp_len (le64 iMsgLen) ;;;
      ret 0.

Definition tux_call (svr_name : option bytes) (req_buf req_buflen rsp_buf rsp_buflen flags : Z)
    : prog world Z :=
  match svr_name with
  | None => err SYS_INVAL (-1)
  | Some name =>
      if (req_buf =? NULL) || (rsp_buf =? NULL) || (rsp_buflen =? NULL) then err SYS_INVAL (-1)
      else
        let* req_buflen := if req_buflen =? 0 then tux_real_len req_buf else ret req_buflen in
        if req_buflen <? 0 then err SYS_INVAL (-1)
        else
          let* c := ctrl in
          if max_msg_len c <? req_buflen then err SYS_INVAL (-1)
          else
            let* svrno := tux_locatemb name in
            if svrno <? 0 then err SYS_NOENT (-1)
            else
              let* t := svr svrno in
              if down t then err SYS_DEAD_SVC (-1)
              else
                let* m := request svrno req_buf req_buflen in
                let* rc := sys (MsqSnd (req_que_id c) m req_buflen chk_yes) in
                if negb (rc =? 0) then ret (-1)
                else
                  tux_settimer ;;;
                  let* h := get gipcMsgHead in
                  let* (iMsgLen, out) :=
                    sys (MsqRcv (rsp_que_id c) zero_msg BUS_MAX_MSG_LEN (h_req_msg_type h) MSQ_MODE_BLOCK) in
                  if iMsgLen <=? 0 then ret (-1)
                  else
                    let* expired := tux_timer_expired in
                    if negb (expired =? 0) then err SYS_TIMEOUT (-1)
                    else
                      let* data := deref (ld 0 iMsgLen (sBuf out)) in
                      store rsp_buf data ;;;
                      store rsp_buflen (le64 iMsgLen) ;;;
                      ret 0
  end.

Definition tux_forward (svr_name : option bytes) (data len flags : Z) : prog world Z :=
  let* j := get mb_longjmp in
  if j =? 0 then when (negb (data =? NULL)) (tux_free data) ;;; exit_ 1
  else
    match svr_name with
    | None => set_tux_err SYS_INVAL ;;; longjmp (-1)
    | Some name =>
        if data =? NULL then set_tux_err SYS_INVAL ;;; longjmp (-1)
        else
          let* len := if len =? 0 then tux_real_len data else ret len in
          if len <? 0 then set_tux_err SYS_INVAL ;;; longjmp (-1)
          else
            let* c := ctrl in
            if max_msg_len c <? len then set_tux_err SYS_INVAL ;;; longjmp (-1)
            else
              let* svrno := tux_locatemb name in
              if svrno <? 0 then set_tux_err SYS_NOENT ;;; longjmp (-1)
              else
                let* m := request svrno data len in
                let* rc := sys (MsqSnd (req_que_id c) m len chk_yes) in
                if negb (rc =? 0) then ret (-1) else longjmp 1
    end.

(** ** Dispatching *)

(** [rc = setjmp(...)]: the continuation gets 0, or the value of the jump. *)
Definition with_setjmp (m : prog world unit) (k : Z -> prog world Z) : prog world Z := fun w =>
  match m w with
  | Ret _ w => k 0 w
  | Jump v w => k v w
  | Exit v w => Exit v w
  | Block w => Block w
  | Spin => Spin
  | Fault => Fault
  end.

(** The receiving loop: an interrupted wait is repeated. *)
Fixpoint receive (fuel : nat) (que MsgType : Z) (m : IPCQueMsg) : prog world (option IPCQueMsg) :=
  match fuel with
  | O => spin
  | S fuel =>
      let* (iMsgLen, m) := sys (MsqRcv que m BUS_MAX_MSG_LEN MsgType MSQ_MODE_BLOCK) in
      if iMsgLen <=? 0 then
        let* w := get id in
        if o_errno (w_os w) =? EINTR then receive fuel que MsgType m else ret None
      else ret (Some m)
  end.

(** A call through a function pointer. *)
Definition call_fun (fn : Z) (info : sd_info_t) : prog world unit :=
  if fn =? NULL then fault else svc_call fn info.

Definition tux_service (svrid svc_pos : Z) : prog world Z :=
  let* w := get id in
  if negb (sdIsAttach w) then err SYS_SYSTEM (-1)
  else
    let* c := ctrl in
    let fuel := S (length (o_sched (w_os w))) in
    let* r := receive fuel (req_que_id c) (svrid + SVR_MSG_TYPE_ROOT) zero_msg in
    match r with
    | None => ret (-1)
    | Some m =>
        let* head := deref (ld 0 SIZEOF_HEAD (sBuf m)) in
        let h := dec_head head in
        modify (set_gipcMsgHead h) ;;;
        let* (service_index, _) := tux_find_service (Some (h_name h)) 1 in
        if service_index <? 0 then ret 0
        else
          let* data := tux_alloc (str "CARRAY") (h_len h) in
          let info := mkInfo (cstr (take NAME_LEN (h_name h))) data (h_len h) in
          let* body := deref (ld SIZEOF_HEAD (h_len h) (sBuf m)) in
          store data body ;;;
          store (data + h_len h) [NUL] ;;;
          upd_pid svc_pos (fun p => set_req_done (u32 (req_done p + 1)) p) ;;;
          modify (set_mb_longjmp 1) ;;;
          let* s := svc service_index in
          with_setjmp (call_fun (sd_fun s) info) (fun _ =>
            tux_free data ;;;
            modify (set_mb_longjmp 0) ;;;
            ret 0)
    end.

(** [while (1)]: the queue cannot hold more messages than the fuel. *)
Fixpoint clean_loop (fuel : nat) (que t : Z) (m : IPCQueMsg) : prog world Z :=
  match fuel with
  | O => spin
  | S fuel =>
      let* (rc, m) := sys (MsqRcv que m BUS_MAX_MSG_LEN t MSQ_MODE_NONBLOCK) in
      if rc <? 0 then ret 0 else clean_loop fuel que t m
  end.

Definition clean_task_msg (t : Z) : prog world Z :=
  let* c := ctrl in
  let* w := get id in
  clean_loop (S (length (msgs (req_que_id c) (w_os w)))) (req_que_id c) t zero_msg.
End Process.

(** ** System calls without signals *)

Lemma set_caught_nil o : o_caught o = [] -> set_caught [] o = o.
Proof. destruct o; cbn. now intros ->. Qed.

Section Steps.
Context (handler : Z -> prog world unit).

Lemma sys_Ret {A} (m : prog os A) w a o :
  m (w_os w) = Ret a o -> o_caught o = [] -> sys handler m w = Ret a (set_w_os o w).
Proof.
  intros H Hc. unfold sys. rewrite (lift_bind _ _ _ _ _ H). unfold run_handlers, bind, get, id.
  cbn [obind w_os set_w_os modify]. rewrite Hc. cbn [for_each]. rewrite set_caught_nil by done.
  reflexivity.
Qed.

Lemma sys_bind {A B} (m : prog os A) (k : A -> prog world B) w a o :
  m (w_os w) = Ret a o -> o_caught o = [] -> bind (sys handler m) k w = k a (set_w_os o w).
Proof. intros H Hc. now rewrite (bind_Ret _ _ _ _ _ (sys_Ret m w a o H Hc)). Qed.
End Steps.

Lemma st_zeros_none bs n : 0 <= n -> n < Z.of_nat (length bs) -> st 0 bs (zeros n) = None.
Proof.
  intros H0 H. unfold st. rewrite length_zeros by lia.
  now rewrite (proj2 (Z.leb_gt _ n)) by lia.
Qed.

Definition request_msg (t : server_tab_t) (data : bytes) : IPCQueMsg :=
  mkQueMsg (msg_type t) 0 (data ++ zeros (BUS_MAX_MSG_LEN - Z.of_nat (length data))).

Lemma request_msg_wf t data :
  Z.of_nat (length data) <= BUS_MAX_MSG_LEN -> wf_msg (request_msg t data).
Proof.
  intros. unfold wf_msg, request_msg. cbn [sBuf]. rewrite length_app, Nat2Z.inj_add, length_zeros; lia.
Qed.

Lemma wire_request t data :
  wire (request_msg t data) (Z.of_nat (length data)) = mkMsg (msg_type t) (le64 0 ++ data).
Proof.
  unfold wire, request_msg. cbn [nMsgType nMsgSource sBuf]. do 2 f_equal.
  now rewrite Nat2Z.id, take_app_length.
Qed.

Lemma request_fits w svrno t ptr len data :
  attached w = true -> znth (tSvrTab w) svrno = Some t -> load ptr len w = Ret data w ->
  Z.of_nat (length data) = len -> len <= BUS_MAX_MSG_LEN ->
  request svrno ptr len w = Ret (request_msg t data) w.
Proof.
  intros Ha Ht Hl Hd Hlen. unfold request.
  rewrite (bind_Ret _ _ _ _ _ (entry_eq tSvrTab svrno w t Ha Ht)), (bind_Ret _ _ _ _ _ Hl).
  unfold fill, set_msgtype, zero_msg. cbn [sBuf nMsgType nMsgSource].
  rewrite st_zeros_start by lia. reflexivity.
Qed.

Lemma request_overruns w svrno t ptr len data :
  attached w = true -> znth (tSvrTab w) svrno = Some t -> load ptr len w = Ret data w ->
  Z.of_nat (length data) = len -> BUS_MAX_MSG_LEN < len -> request svrno ptr len w = Fault.
Proof.
  intros Ha Ht Hl Hd Hlen. unfold request.
  rewrite (bind_Ret _ _ _ _ _ (entry_eq tSvrTab svrno w t Ha Ht)), (bind_Ret _ _ _ _ _ Hl).
  unfold fill, set_msgtype, zero_msg. cbn [sBuf].
  now rewrite st_zeros_none by (unfold BUS_MAX_MSG_LEN in *; lia).
Qed.

(** ** The common path of the callers *)

Section Requests.
Context (handler : Z -> prog world unit).
Context (w : world) (name : bytes) (ptr len svrno : Z).
Hypotheses (Ha : attached w = true) (K : tables_ok w) (Hp : ptr <> NULL) (Hlen : 0 < len)
  (Hmax : len <= max_msg_len (w_ctrl w))
  (Hs : scan (fun t => same_name name (svc_name t)) (tSvrTab w) 0 = svrno).

Definition acall_tail (svrno' : Z) : prog world Z :=
  if svrno' <? 0 then err SYS_ERR_SVC (-1)
  else
    let* t := svr svrno' in
    if down t then err SYS_DEAD_SVC (-1)
    else
      let* m := request svrno' ptr len in
      let* rc := sys handler (MsqSnd (req_que_id (w_ctrl w)) m len chk_yes) in
      if negb (rc =? 0) then err SYS_OS (-1) else ret 0.

Lemma acall_start fl : tux_acall handler (Some name) ptr len fl w = acall_tail svrno w.
Proof.
  unfold tux_acall. destruct (Z.eqb_spec ptr NULL); [done|].
  destruct (Z.eqb_spec len 0); [lia|]. erewrite bind_Ret by reflexivity.
  destruct (Z.ltb_spec len 0); [lia|]. rewrite (bind_Ret _ _ _ _ _ (ctrl_eq w Ha)).
  destruct (Z.ltb_spec (max_msg_len (w_ctrl w)) len); [lia|].
  rewrite (bind_Ret _ _ _ _ _ (tux_locatemb_eq w name Ha K)), Hs. reflexivity.
Qed.

Definition call_tail (rsp_buf rsp_buflen svrno' : Z) : prog world Z :=
  if svrno' <? 0 then err SYS_NOENT (-1)
  else
    let* t := svr svrno' in
    if down t then err SYS_DEAD_SVC (-1)
    else
      let* m := request svrno' ptr len in
      let* rc := sys handler (MsqSnd (req_que_id (w_ctrl w)) m len chk_yes) in
      if negb (rc =? 0) then ret (-1)
      else
        tux_settimer ;;;
        let* h := get gipcMsgHead in
        let* (iMsgLen, out) :=
          sys handler (MsqRcv (rsp_que_id (w_ctrl w)) zero_msg BUS_MAX_MSG_LEN (h_req_msg_type h) MSQ_MODE_BLOCK) in
        if iMsgLen <=? 0 then ret (-1)
        else
          let* expired := tux_timer_expired in
          if negb (expired =? 0) then err SYS_TIMEOUT (-1)
          else
            let* data := deref (ld 0 iMsgLen (sBuf out)) in
            store rsp_buf data ;;;
            store rsp_buflen (le64 iMsgLen) ;;;
            ret 0.

Lemma call_start rsp_buf rsp_buflen fl :
  rsp_buf <> NULL -> rsp_buflen <> NULL ->
  tux_call handler (Some name) ptr len rsp_buf rsp_buflen fl w = call_tail rsp_buf rsp_buflen svrno w.
Proof.
  intros H1 H2. unfold tux_call. rewrite !(proj2 (Z.eqb_neq _ NULL)) by done. cbn [orb].
  destruct (Z.eqb_spec len 0); [lia|]. erewrite bind_Ret by reflexivity.
  destruct (Z.ltb_spec len 0); [lia|]. rewrite (bind_Ret _ _ _ _ _ (ctrl_eq w Ha)).
  destruct (Z.ltb_spec (max_msg_len (w_ctrl w)) len); [lia|].
  rewrite (bind_Ret _ _ _ _ _ (tux_locatemb_eq w name Ha K)), Hs. reflexivity.
Qed.

Definition forward_tail (svrno' : Z) : prog world Z :=
  if svrno' <? 0 then set_tux_err SYS_NOENT ;;; longjmp (-1)
  else
    let* m := request svrno' ptr len in
    let* rc := sys handler (MsqSnd (req_que_id (w_ctrl w)) m len chk_yes) in
    if negb (rc =? 0) then ret (-1) else longjmp 1.

Lemma forward_start fl :
  mb_longjmp w <> 0 -> tux_forward handler (Some name) ptr len fl w = forward_tail svrno w.
Proof.
  intros Hj. unfold tux_forward. erewrite bind_Ret by reflexivity.
  destruct (Z.eqb_spec (mb_longjmp w) 0); [done|]. destruct (Z.eqb_spec ptr NULL); [done|].
  destruct (Z.eqb_spec len 0); [lia|]. erewrite bind_Ret by reflexivity.
  destruct (Z.ltb_spec len 0); [lia|]. rewrite (bind_Ret _ _ _ _ _ (ctrl_eq w Ha)).
  destruct (Z.ltb_spec (max_msg_len (w_ctrl w)) len); [lia|].
  rewrite (bind_Ret _ _ _ _ _ (tux_locatemb_eq w name Ha K)), Hs. reflexivity.
Qed.

(** A running server, and the message for it. *)
Context (t : server_tab_t) (data : bytes).
Hypotheses (Hpos : 0 <= svrno) (Ht : znth (tSvrTab w) svrno = Some t)
  (Hl : load ptr len w = Ret data w) (Hd : Z.of_nat (length data) = len).

(** Sending a request that fits. *)
Lemma send_request q :
  let o := w_os w in
  queue (req_que_id (w_ctrl w)) o = Some q -> Z.of_nat (length (q_msgs q)) <= MSQ_MAX_NUM ->
  len < BUS_MAX_MSG_LEN -> 1 <= msg_type t -> o_caught o = [] ->
  let m := mkMsg (msg_type t) (le64 0 ++ data) in
  fits m q = true ->
  exists o', sys handler (MsqSnd (req_que_id (w_ctrl w)) (request_msg t data) len chk_yes) w
             = Ret 0 (set_w_os o' w)
    /\ o' = set_queue (req_que_id (w_ctrl w)) (enqueue m q) o.
Proof.
  intros o Hq Hn Hlt Hty Hc m Hf. eexists. split; [|reflexivity].
  apply sys_Ret; [|exact Hc]. unfold m. rewrite <- wire_request, Hd.
  apply MsqSnd_accepts; try done; try lia.
  - apply request_msg_wf. lia.
  - rewrite <- Hd, wire_request. exact Hf.
Qed.
End Requests.

(** [tux_acall] up to the queue. *)
Lemma acall_sends handler w name ptr len svrno t data q fl :
  attached w = true -> tables_ok w -> ptr <> NULL -> 0 < len < BUS_MAX_MSG_LEN ->
  len <= max_msg_len (w_ctrl w) ->
  scan (fun t => same_name name (svc_name t)) (tSvrTab w) 0 = svrno -> 0 <= svrno ->
  znth (tSvrTab w) svrno = Some t -> down t = false -> 1 <= msg_type t ->
  load ptr len w = Ret data w -> Z.of_nat (length data) = len -> o_caught (w_os w) = [] ->
  queue (req_que_id (w_ctrl w)) (w_os w) = Some q ->
  Z.of_nat (length (q_msgs q)) <= MSQ_MAX_NUM ->
  fits (mkMsg (msg_type t) (le64 0 ++ data)) q = true ->
  tux_acall handler (Some name) ptr len fl w
  = Ret 0 (set_w_os (set_queue (req_que_id (w_ctrl w)) (enqueue (mkMsg (msg_type t) (le64 0 ++ data)) q) (w_os w)) w).
Proof.
  intros Ha K Hp [Hl0 Hl1] Hmax Hs Hpos Ht Hdown Hty Hl Hd Hc Hq Hn Hf.
  destruct (send_request handler w len Hl0 t data Hd q Hq Hn Hl1 Hty Hc Hf) as (o' & E & Eo). subst o'.
  rewrite (acall_start handler w name ptr len svrno Ha K Hp Hl0 Hmax Hs fl). unfold acall_tail.
  destruct (Z.ltb_spec svrno 0); [lia|].
  rewrite (bind_Ret _ _ _ _ _ (entry_eq tSvrTab svrno w t Ha Ht)), Hdown.
  rewrite (bind_Ret _ _ _ _ _ (request_fits w svrno t ptr len data Ha Ht Hl Hd ltac:(lia))).
  now rewrite (bind_Ret _ _ _ _ _ E).
Qed.

(** ** Properties *)

(** C4: [tux_acall] of a request of 1 to 4059 bytes to a server that is neither dead nor
    unavailable succeeds when the queue has room: one message of the server's type with
    the request's bytes is appended to the request queue.  The new state is the old one
    with that queue in the place of its former state: memory, tables, the dispatcher's
    variables, the other queues, the semaphores, the signals and [errno] are the same. *)
Theorem tux_acall_correct handler w name ptr len svrno t data q fl :
  attached w = true -> tables_ok w -> ptr <> NULL -> 0 < len < BUS_MAX_MSG_LEN ->
  len <= max_msg_len (w_ctrl w) ->
  scan (fun t => same_name name (svc_name t)) (tSvrTab w) 0 = svrno -> 0 <= svrno ->
  znth (tSvrTab w) svrno = Some t -> down t = false -> 1 <= msg_type t ->
  load ptr len w = Ret data w -> Z.of_nat (length data) = len -> o_caught (w_os w) = [] ->
  queue (req_que_id (w_ctrl w)) (w_os w) = Some q ->
  Z.of_nat (length (q_msgs q)) <= MSQ_MAX_NUM ->
  fits (mkMsg (msg_type t) (le64 0 ++ data)) q = true ->
  let m := mkMsg (msg_type t) (le64 0 ++ data) in
  exists o', tux_acall handler (Some name) ptr len fl w = Ret 0 (set_w_os o' w)
    /\ o' = set_queue (req_que_id (w_ctrl w)) (enqueue m q) (w_os w)
    /\ msgs (req_que_id (w_ctrl w)) o' = q_msgs q ++ [m]
    /\ (forall id, id <> req_que_id (w_ctrl w) -> queue id o' = queue id (w_os w)).
Proof.
  intros Ha K Hp Hl Hmax Hs Hpos Ht Hdown Hty Hld Hd Hc Hq Hn Hf m. eexists. split; [|split; [|split]].
  - now apply (acall_sends handler w name ptr len svrno t data q fl).
  - reflexivity.
  - unfold msgs. now rewrite queue_set_eq.
  - intros id Hid. now apply queue_set_ne.
Qed.

(** Requests that no server can take, and how the three callers report them:
    an unknown service is [SYS_ERR_SVC] for [tux_acall] but [SYS_NOENT] for [tux_call]
    and [tux_forward]; a dead or unavailable server is [SYS_DEAD_SVC] for the first two.
    Nothing is sent. *)
Theorem refused_requests handler w name ptr len svrno rsp_buf rsp_buflen fl :
  attached w = true -> tables_ok w -> ptr <> NULL -> rsp_buf <> NULL -> rsp_buflen <> NULL ->
  0 < len -> len <= max_msg_len (w_ctrl w) ->
  scan (fun t => same_name name (svc_name t)) (tSvrTab w) 0 = svrno ->
  (svrno = -1 ->
     tux_acall handler (Some name) ptr len fl w = Ret (-1) (set_tux_errno SYS_ERR_SVC w)
     /\ tux_call handler (Some name) ptr len rsp_buf rsp_buflen fl w = Ret (-1) (set_tux_errno SYS_NOENT w)
     /\ (mb_longjmp w <> 0 ->
         tux_forward handler (Some name) ptr len fl w = Jump (-1) (set_tux_errno SYS_NOENT w)))
  /\ (forall t, 0 <= svrno -> znth (tSvrTab w) svrno = Some t -> down t = true ->
     tux_acall handler (Some name) ptr len fl w = Ret (-1) (set_tux_errno SYS_DEAD_SVC w)
     /\ tux_call handler (Some name) ptr len rsp_buf rsp_buflen fl w
        = Ret (-1) (set_tux_errno SYS_DEAD_SVC w)).
Proof.
  intros Ha K Hp Hr1 Hr2 Hl Hmax Hs. split.
  - intros Hno. rewrite (acall_start handler w name ptr len svrno Ha K Hp Hl Hmax Hs fl),
      (call_start handler w name ptr len svrno Ha K Hp Hl Hmax Hs _ _ fl Hr1 Hr2).
    subst svrno. rewrite Hno. split; [done|]. split; [done|]. intros Hj.
    now rewrite (forward_start handler w name ptr len (-1) Ha K Hp Hl Hmax Hno fl Hj).
  - intros t Hpos Ht Hd. rewrite (acall_start handler w name ptr len svrno Ha K Hp Hl Hmax Hs fl),
      (call_start handler w name ptr len svrno Ha K Hp Hl Hmax Hs _ _ fl Hr1 Hr2).
    unfold acall_tail, call_tail. destruct (Z.ltb_spec svrno 0); [lia|].
    rewrite !(bind_Ret _ _ _ _ _ (entry_eq tSvrTab svrno w t Ha Ht)), Hd. done.
Qed.

(** The length check of the callers is against [max_msg_len], which [sys_start] sets
    to 4096, while the message buffer has 4060 bytes: every request between the two
    passes the check and overruns the buffer, in all three callers. *)
Theorem oversized_request_overruns handler w name ptr len svrno t data rsp_buf rsp_buflen fl :
  attached w = true -> tables_ok w -> ptr <> NULL -> rsp_buf <> NULL -> rsp_buflen <> NULL ->
  BUS_MAX_MSG_LEN < len -> len <= max_msg_len (w_ctrl w) ->
  scan (fun t => same_name name (svc_name t)) (tSvrTab w) 0 = svrno -> 0 <= svrno ->
  znth (tSvrTab w) svrno = Some t -> down t = false ->
  load ptr len w = Ret data w -> Z.of_nat (length data) = len ->
  tux_acall handler (Some name) ptr len fl w = Fault
  /\ tux_call handler (Some name) ptr len rsp_buf rsp_buflen fl w = Fault
  /\ (mb_longjmp w <> 0 -> tux_forward handler (Some name) ptr len fl w = Fault).
Proof.
  intros Ha K Hp Hr1 Hr2 Hlt Hmax Hs Hpos Ht Hdown Hl Hd.
  assert (H0 : 0 < len) by (unfold BUS_MAX_MSG_LEN in Hlt; lia).
  pose proof (request_overruns w svrno t ptr len data Ha Ht Hl Hd Hlt) as F.
  rewrite (acall_start handler w name ptr len svrno Ha K Hp H0 Hmax Hs fl),
    (call_start handler w name ptr len svrno Ha K Hp H0 Hmax Hs _ _ fl Hr1 Hr2).
  unfold acall_tail, call_tail. destruct (Z.ltb_spec svrno 0); [lia|].
  rewrite !(bind_Ret _ _ _ _ _ (entry_eq tSvrTab svrno w t Ha Ht)), Hdown.
  split; [unfold bind at 1; now rewrite F|]. split; [unfold bind at 1; now rewrite F|].
  intros Hj. rewrite (forward_start handler w name ptr len svrno Ha K Hp H0 Hmax Hs fl Hj).
  unfold forward_tail. destruct (Z.ltb_spec svrno 0); [lia|]. unfold bind at 1. now rewrite F.
Qed.

(** ** Dispatching a request *)

Lemma ld_0_app (a b : bytes) n : Z.of_nat (length a) = n -> ld 0 n (a ++ b) = Some a.
Proof. intros. now apply (ld_app 0 n []). Qed.

(** Data and the NUL written behind them. *)
Lemma app_prefix_store bs d d1 d2 :
  st 0 bs d = Some d1 -> st (Z.of_nat (length bs)) [NUL] d1 = Some d2 ->
  take (length bs + 1) d2 = bs ++ [NUL].
Proof.
  unfold st. destruct (_ && _); [|done]. intros [= <-].
  destruct (_ && _); [|done]. intros [= <-]. rewrite Nat2Z.id.
  rewrite take_app_length. change (NUL :: ?x) with ([NUL] ++ x). rewrite app_assoc.
  apply take_app_length'. rewrite length_app. done.
Qed.

Section Dispatch.
Context (handler : Z -> prog world unit) (svc_call : Z -> sd_info_t -> prog world unit).
Context (w : world) (svrid svc_pos : Z) (q : kqueue) (h : IPCMsgHead) (src : Z) (payload extra : bytes)
  (r : list kmsg) (k : Z) (s : service_tab_t) (p : server_pid_t).
Let T := svrid + SVR_MSG_TYPE_ROOT.
Let que := req_que_id (w_ctrl w).
Hypotheses (Ha : attached w = true) (K : tables_ok w) (Hc : o_caught (w_os w) = [])
  (Hq : queue que (w_os w) = Some q) (HT : 0 < T)
  (Hm : of_type T (q_msgs q) = mkMsg T (le64 src ++ enc_head h ++ payload ++ extra) :: r)
  (Hsrc : LONG_MIN <= src <= LONG_MAX)
  (Hh : wf_head h) (Hlen : h_len h = Z.of_nat (length payload))
  (Hfit : Z.of_nat (length (payload ++ extra)) <= BUS_MAX_MSG_LEN - 8 - SIZEOF_HEAD)
  (Hk : scan (registered (h_name h)) (tSvcTab w) 0 = k) (Hs : znth (tSvcTab w) k = Some s)
  (Hp : znth (tSvrPid w) svc_pos = Some p)
  (Hheap : heap_ok w) (Hbrk : w_brk w < 2 ^ 62) (Hmem : 64 + room (h_len h + 2048) <= w_mem w).

Definition service_info (ptr : Z) : sd_info_t :=
  mkInfo (cstr (take NAME_LEN (h_name h))) ptr (h_len h).

Definition after_service (ptr : Z) : Z -> prog world Z := fun _ =>
  tux_free ptr ;;; modify (set_mb_longjmp 0) ;;; ret 0.

(** The state in which the service function starts. *)
Definition service_state (ptr : Z) (data : bytes) (w1 : world) : Prop :=
  attached w1 = true /\ gipcMsgHead w1 = h /\ mb_longjmp w1 = 1
  /\ live ptr carraytype (h_len h + 2048) data w1
  /\ take (length payload + 1) data = payload ++ [NUL]
  /\ heap_ok w1 /\ w_heap w !! (ptr - 32) = None
  /\ w_ctrl w1 = w_ctrl w /\ tSvrTab w1 = tSvrTab w /\ tSvcTab w1 = tSvcTab w
  /\ tSvrPid w1 = zupd svc_pos (fun p => set_req_done (u32 (req_done p + 1)) p) (tSvrPid w)
  /\ of_type T (msgs que (w_os w1)) = r
  /\ (forall u, u <> T -> of_type u (msgs que (w_os w1)) = of_type u (q_msgs q))
  /\ exists l, w_os w1 = set_queue que (set_msgs l q) (w_os w).

(** The allocation and the two stores. *)
Lemma service_buffer w0 :
  heap_ok w0 -> w_brk w0 < 2 ^ 62 -> 64 + room (h_len h + 2048) <= w_mem w0 ->
  exists ptr data w1,
    (let* data := tux_alloc (str "CARRAY") (h_len h) in
     store data payload ;;; store (data + h_len h) [NUL] ;;; ret data) w0 = Ret ptr w1
    /\ w1 = set_w_brk (w_brk w1) (set_w_heap (w_heap w1) w0)
    /\ heap_ok w1 /\ live ptr carraytype (h_len h + 2048) data w1
    /\ take (length payload + 1) data = payload ++ [NUL] /\ w_heap w0 !! (ptr - 32) = None.
Proof.
  intros H1 H2 H3. unfold BUS_MAX_MSG_LEN, SIZEOF_HEAD in Hfit. rewrite length_app in Hfit.
  assert (Hsz : 0 <= h_len h /\ h_len h + 2048 <= MAX_OBJECT - 96)
    by (unfold MAX_OBJECT; lia).
  pose proof (tux_alloc_computes (str "CARRAY") (h_len h) w0 H1 H2
    ltac:(lia) ltac:(lia) H3) as E. cbn zeta in E.
  pose proof (live_alloc _ _ w0 _ _ H1 H2 (proj1 Hsz) (proj2 Hsz) H3 E) as B.
  revert E B. set (ptr := w_brk w0 + 32). set (wa := set_w_brk _ _).
  set (d := junk _ w0). intros E B.
  assert (Ld : Z.of_nat (length d) = room (h_len h + 2048))
    by (unfold d, junk; rewrite length_replicate; pose proof (room_ge (h_len h + 2048)); lia).
  pose proof (room_ge (h_len h + 2048) ltac:(lia)) as R.
  destruct (st_Some 0 payload d) as [d1 S1]; [lia|lia|].
  destruct (live_store ptr carraytype _ d wa 0 payload d1 B ltac:(lia) S1) as (wb & E1 & B1 & W1 & O1).
  pose proof (st_length _ _ _ _ S1) as L1.
  destruct (st_Some (h_len h) [NUL] d1) as [d2 S2]; [lia|cbn [length]; lia|].
  destruct (live_store ptr carraytype _ d1 wb (h_len h) [NUL] d2 B1 ltac:(lia) S2) as (wc & E2 & B2 & W2 & O2).
  exists ptr, d2, wc. rewrite Z.add_0_r in E1.
  assert (KA : heap_ok wa) by (unfold wa; now apply heap_ok_new).
  assert (HB : is_Some (w_heap wa !! (ptr - 32))) by (destruct B as (_ & _ & _ & _ & _ & _ & ->); eauto).
  split; [|split; [|split; [|split; [exact B2|split]]]].
  - rewrite (bind_Ret _ _ _ _ _ E), (bind_Ret _ _ _ _ _ E1), (bind_Ret _ _ _ _ _ E2). done.
  - rewrite W2, W1. unfold wa. reflexivity.
  - destruct KA as (A1 & A2 & A3). rewrite W2, W1. split; [exact A1|]. split; [exact A2|].
    cbn [w_heap set_w_heap w_brk]. intros a Hp'.
    destruct (decide (a = ptr - 32)) as [->|Hne]; [now apply A3|].
    apply A3. rewrite <- O1, <- O2; done.
  - rewrite (app_prefix_store payload d d1 d2); [done|exact S1|]. now rewrite <- Hlen.
  - unfold ptr. rewrite Z.add_simpl_r. now apply heap_ok_fresh.
Qed.

Lemma receive_found fuel :
  exists l o' rest,
    receive handler (S fuel) que T zero_msg w
    = Ret (Some (mkQueMsg T src ((enc_head h ++ payload ++ extra) ++ rest))) (set_w_os o' w)
    /\ o' = set_queue que (set_msgs l q) (w_os w)
    /\ of_type T l = r /\ (forall u, u <> T -> of_type u l = of_type u (q_msgs q)).
Proof.
  assert (L : length (enc_head h) = 96%nat) by (apply length_enc_head, Hh).
  destruct (MsqRcv_found que q (w_os w) zero_msg T MSQ_MODE_BLOCK src (enc_head h ++ payload ++ extra) r)
    as (l & E & Hr & Ho & _); try done.
  { unfold BUS_MAX_MSG_LEN, SIZEOF_HEAD in *. rewrite length_app. lia. }
  exists l. eexists _, _. split; [|split; [reflexivity|done]]. cbn [receive].
  rewrite (sys_bind _ _ _ _ _ _ E) by exact Hc.
  destruct (Z.leb_spec (Z.of_nat (length (enc_head h ++ payload ++ extra))) 0); [rewrite length_app in *; lia|].
  reflexivity.
Qed.

Lemma dispatch_eq :
  exists ptr data w1,
    tux_service handler svc_call svrid svc_pos w
    = with_setjmp (call_fun svc_call (sd_fun s) (service_info ptr)) (after_service ptr) w1
    /\ service_state ptr data w1.
Proof.
  assert (L : length (enc_head h) = 96%nat) by (apply length_enc_head, Hh).
  destruct (receive_found (length (o_sched (w_os w)))) as (l & o' & rest & ER & Eo & Hr & Ho).
  set (w1 := set_gipcMsgHead h (set_w_os o' w)).
  destruct (service_buffer w1) as (ptr & data & w2 & EB & W2 & K2 & B2 & T2 & F2); try assumption.
  assert (Hk0 : 0 <= k) by (destruct (znth_range _ _ _ Hs); lia).
  assert (K1 : tables_ok w1) by (eapply tables_ok_keep; [..|exact K]; reflexivity).
  apply bind_Ret_inv in EB as (p0 & wa & EA & EB). apply bind_Ret_inv in EB as ([] & wb & ES1 & EB).
  apply bind_Ret_inv in EB as ([] & wc & ES2 & EB). injection EB as -> ->.
  set (f := fun p => set_req_done (u32 (req_done p + 1)) p).
  set (w3 := set_tSvrPid (zupd svc_pos f (tSvrPid w)) w2). set (w4 := set_mb_longjmp 1 w3).
  exists ptr, data, w4. split.
  - unfold tux_service. erewrite bind_Ret by reflexivity. unfold sdIsAttach. cbn [id]. rewrite Ha. cbn [negb].
    rewrite (bind_Ret _ _ _ _ _ (ctrl_eq w Ha)), (bind_Ret _ _ _ _ _ ER).
    cbn [sBuf]. rewrite <- !app_assoc.
    rewrite (ld_0_app (enc_head h) _ SIZEOF_HEAD) by (rewrite L; reflexivity).
    erewrite bind_Ret by reflexivity.
    replace (dec_head (enc_head h)) with h
      by (symmetry; rewrite <- (app_nil_r (enc_head h)); now apply dec_enc_head).
    erewrite bind_Ret by reflexivity. fold w1.
    rewrite (bind_Ret _ _ _ _ _ (tux_find_service_pos w1 (h_name h) Ha K1 1 ltac:(lia))).
    change (tSvcTab w1) with (tSvcTab w). rewrite Hk. destruct (Z.ltb_spec k 0); [lia|].
    rewrite (bind_Ret _ _ _ _ _ EA).
    rewrite (ld_app SIZEOF_HEAD (h_len h) (enc_head h) payload (extra ++ rest)) by (rewrite ?L; done).
    erewrite bind_Ret by reflexivity.
    rewrite (bind_Ret _ _ _ _ _ ES1), (bind_Ret _ _ _ _ _ ES2).
    erewrite bind_Ret by (eapply (upd_entry_eq tSvrPid set_tSvrPid svc_pos f w2 p);
      [rewrite W2; exact Ha|rewrite W2; exact Hp]).
    assert (Hw3 : set_tSvrPid (zupd svc_pos f (tSvrPid w2)) w2 = w3) by (unfold w3; rewrite W2; reflexivity).
    rewrite Hw3. erewrite bind_Ret by reflexivity. fold w4.
    erewrite bind_Ret by (apply entry_eq; [unfold w4, w3; cbn; rewrite W2; exact Ha|];
      instantiate (1 := s); unfold w4, w3; cbn [tSvcTab set_mb_longjmp set_tSvrPid]; rewrite W2; exact Hs).
    reflexivity.
  - unfold service_state, w4, w3. cbn [attached gipcMsgHead mb_longjmp w_ctrl tSvrTab tSvcTab tSvrPid w_os set_mb_longjmp set_tSvrPid].
    assert (HW : attached w2 = true /\ gipcMsgHead w2 = h /\ w_ctrl w2 = w_ctrl w /\ tSvrTab w2 = tSvrTab w
                 /\ tSvcTab w2 = tSvcTab w /\ w_os w2 = o') by (rewrite W2; done).
    destruct HW as (A1 & A2 & A3 & A4 & A5 & A6). rewrite A1, A2, A3, A4, A5, A6.
    do 3 (split; [done|]). split; [exact B2|]. split; [exact T2|]. split; [exact K2|].
    split; [exact F2|]. do 4 (split; [done|]).
    unfold msgs. rewrite Eo, queue_set_eq. do 2 (split; [done|]). now exists l.
Qed.
End Dispatch.

(** C3: the dispatcher.  When a request whose name is registered waits for the server,
    [tux_service] takes it (and no other message) off the queue, counts it, and calls
    the registered function with the name, the data followed by a NUL and their length,
    while the head is in [gipcMsgHead]; bytes behind the length of the head are ignored.  However the function ends, by returning or by
    [tux_return]'s jump, the buffer is freed and the dispatcher returns 0. *)
Theorem tux_service_correct handler svc_call w svrid svc_pos q h src payload extra r k s p :
  attached w = true -> tables_ok w -> o_caught (w_os w) = [] ->
  queue (req_que_id (w_ctrl w)) (w_os w) = Some q -> 0 < svrid + SVR_MSG_TYPE_ROOT ->
  of_type (svrid + SVR_MSG_TYPE_ROOT) (q_msgs q)
  = mkMsg (svrid + SVR_MSG_TYPE_ROOT) (le64 src ++ enc_head h ++ payload ++ extra) :: r ->
  LONG_MIN <= src <= LONG_MAX -> wf_head h -> h_len h = Z.of_nat (length payload) ->
  Z.of_nat (length (payload ++ extra)) <= BUS_MAX_MSG_LEN - 8 - SIZEOF_HEAD ->
  scan (registered (h_name h)) (tSvcTab w) 0 = k -> znth (tSvcTab w) k = Some s ->
  sd_fun s <> NULL -> znth (tSvrPid w) svc_pos = Some p ->
  heap_ok w -> w_brk w < 2 ^ 62 -> 64 + room (h_len h + 2048) <= w_mem w ->
  exists ptr data w1,
    service_state w svrid svc_pos q h payload r ptr data w1
    /\ (forall v w2 data2,
          svc_call (sd_fun s) (service_info h ptr) w1 = Ret tt w2
          \/ svc_call (sd_fun s) (service_info h ptr) w1 = Jump v w2 ->
          live ptr carraytype (h_len h + 2048) data2 w2 ->
          tux_service handler svc_call svrid svc_pos w
          = Ret 0 (set_mb_longjmp 0 (set_w_heap (delete (ptr - 32) (w_heap w2)) w2)))
    /\ (forall v w2, svc_call (sd_fun s) (service_info h ptr) w1 = Exit v w2 ->
          tux_service handler svc_call svrid svc_pos w = Exit v w2).
Proof.
  intros Ha K Hc Hq HT Hm Hsrc Hh Hlen Hfit Hk Hs Hfun Hp Hheap Hbrk Hmem.
  destruct (dispatch_eq handler svc_call w svrid svc_pos q h src payload extra r k s p)
    as (ptr & data & w1 & E & St); try assumption.
  exists ptr, data, w1. split; [exact St|].
  unfold with_setjmp, call_fun in E. rewrite (proj2 (Z.eqb_neq _ _) Hfun) in E. split.
  - intros v w2 data2 Hcall B.
    assert (F : after_service ptr v w2
      = Ret 0 (set_mb_longjmp 0 (set_w_heap (delete (ptr - 32) (w_heap w2)) w2))
      /\ after_service ptr 0 w2
      = Ret 0 (set_mb_longjmp 0 (set_w_heap (delete (ptr - 32) (w_heap w2)) w2))).
    { unfold after_service.
      now rewrite (bind_Ret _ _ _ _ _ (free_computes _ _ _ _ _ B eq_refl eq_refl)). }
    rewrite E. destruct Hcall as [-> | ->]; apply F.
  - intros v w2 Hcall. now rewrite E, Hcall.
Qed.

(** A request with an empty name crashes a server: the search accepts any entry whose
    name is empty, free or cleared, and its function pointer is null. *)
Theorem tux_service_empty_name handler svc_call w svrid svc_pos q h src payload extra r k s p :
  attached w = true -> tables_ok w -> o_caught (w_os w) = [] ->
  queue (req_que_id (w_ctrl w)) (w_os w) = Some q -> 0 < svrid + SVR_MSG_TYPE_ROOT ->
  of_type (svrid + SVR_MSG_TYPE_ROOT) (q_msgs q)
  = mkMsg (svrid + SVR_MSG_TYPE_ROOT) (le64 src ++ enc_head h ++ payload ++ extra) :: r ->
  LONG_MIN <= src <= LONG_MAX -> wf_head h -> h_len h = Z.of_nat (length payload) ->
  Z.of_nat (length (payload ++ extra)) <= BUS_MAX_MSG_LEN - 8 - SIZEOF_HEAD ->
  cstr (h_name h) = [] ->
  Forall (fun s => f_name s <> []) (take (Z.to_nat k) (tSvcTab w)) ->
  znth (tSvcTab w) k = Some s -> f_name s = [] -> sd_fun s = NULL ->
  znth (tSvrPid w) svc_pos = Some p ->
  heap_ok w -> w_brk w < 2 ^ 62 -> 64 + room (h_len h + 2048) <= w_mem w ->
  tux_service handler svc_call svrid svc_pos w = Fault.
Proof.
  intros Ha K Hc Hq HT Hm Hsrc Hh Hlen Hfit Hname Hbefore Hs Hfname Hfun Hp Hheap Hbrk Hmem.
  assert (Hhd : List.hd NUL (h_name h) = NUL).
  { destruct (h_name h) as [|c n]; [done|]. cbn in *. destruct (ceqb c NUL) eqn:E; [|done].
    now apply ceqb_eq in E. }
  assert (R : forall x, nonul (f_name x) -> registered (h_name h) x = bool_decide (f_name x = [])).
  { intros x Hx. unfold registered, same_name, strneq, NAME_LEN. cbn [strncmp]. rewrite Hhd.
    destruct Hx as [|c n Hc0 Hx]; cbn [List.hd]; [done|].
    rewrite (proj2 (ceqb_neq c NUL) Hc0), bool_decide_false by done.
    apply Z.eqb_neq. intros Hu. apply Hc0, uchar_inj. lia. }
  assert (Hk : scan (registered (h_name h)) (tSvcTab w) 0 = k).
  { destruct (znth_range _ _ _ Hs) as [Hk0 _].
    assert (HK := ok_services w K). unfold znth in Hs.
    destruct (Z.ltb_spec k 0); [lia|].
    apply list_elem_of_split_length in Hs as (l1 & l2 & El & Ll). rewrite El in *.
    rewrite (take_app_length' l1) in Hbefore by done.
    apply Forall_app in HK as [HK1 HK2]. rewrite Forall_cons in HK2.
    rewrite scan_app; [lia| |].
    - rewrite Forall_forall in HK1, Hbefore |- *. intros x Hx. rewrite R by now apply HK1.
      apply bool_decide_false. now apply Hbefore.
    - rewrite R by apply HK2. now apply bool_decide_true. }
  destruct (dispatch_eq handler svc_call w svrid svc_pos q h src payload extra r k s p)
    as (ptr & data & w1 & E & _); try assumption.
  rewrite E, Hfun. reflexivity.
Qed.

(** Sending a reply. *)
Definition reply_msg (h : IPCMsgHead) (data : bytes) : kmsg :=
  mkMsg (h_req_msg_type h) (le64 0 ++ enc_head h ++ data).

Lemma reply_queued w h data q :
  let len := Z.of_nat (length data) in
  let m := mkQueMsg (h_req_msg_type h) 0 ((enc_head h ++ data) ++ zeros (BUS_MAX_MSG_LEN - 96 - len)) in
  0 < len -> SIZEOF_HEAD + len < BUS_MAX_MSG_LEN -> length (h_name h) = 33%nat -> 1 <= h_req_msg_type h ->
  queue (rsp_que_id (w_ctrl w)) (w_os w) = Some q -> Z.of_nat (length (q_msgs q)) <= MSQ_MAX_NUM ->
  fits (reply_msg h data) q = true ->
  MsqSnd (rsp_que_id (w_ctrl w)) m (SIZEOF_HEAD + len) chk_yes (w_os w)
  = Ret 0 (set_queue (rsp_que_id (w_ctrl w)) (enqueue (reply_msg h data) q) (w_os w)).
Proof.
  intros len m Hlen Hmax Hn Hty Hq Hcnt Hf. unfold SIZEOF_HEAD, BUS_MAX_MSG_LEN in Hmax.
  assert (L : length (enc_head h) = 96%nat) by now apply length_enc_head.
  assert (Wm : wf_msg m).
  { unfold wf_msg, m. cbn [sBuf]. rewrite !length_app, L.
    pose proof (length_zeros (BUS_MAX_MSG_LEN - 96 - len)). unfold BUS_MAX_MSG_LEN in *. lia. }
  assert (Wi : wire m (SIZEOF_HEAD + len) = reply_msg h data).
  { unfold wire, m, SIZEOF_HEAD. cbn [nMsgType nMsgSource sBuf]. unfold reply_msg. do 2 f_equal.
    apply take_app_length'. rewrite length_app, L. lia. }
  rewrite <- Wi. apply MsqSnd_accepts; try done; unfold SIZEOF_HEAD, BUS_MAX_MSG_LEN; try lia.
  change 96 with SIZEOF_HEAD. now rewrite Wi.
Qed.

(** The message that is built from the head and the data. *)
Lemma reply_filled h data w :
  let len := Z.of_nat (length data) in
  length (h_name h) = 33%nat -> SIZEOF_HEAD + len < BUS_MAX_MSG_LEN ->
  (let* m := fill 0 (enc_head h) (set_msgtype (h_req_msg_type h) zero_msg) in fill SIZEOF_HEAD data m) w
  = Ret (mkQueMsg (h_req_msg_type h) 0 ((enc_head h ++ data) ++ zeros (BUS_MAX_MSG_LEN - 96 - len))) w.
Proof.
  intros len Hn Hmax. unfold SIZEOF_HEAD, BUS_MAX_MSG_LEN in Hmax.
  assert (L : length (enc_head h) = 96%nat) by now apply length_enc_head.
  unfold fill at 1, set_msgtype, zero_msg. cbn [sBuf nMsgType nMsgSource].
  rewrite st_zeros_start by (rewrite L; done). rewrite bind_assoc. do 2 erewrite bind_Ret by reflexivity.
  unfold fill. cbn [sBuf nMsgType nMsgSource]. rewrite L, <- app_assoc.
  set (z := BUS_MAX_MSG_LEN - Z.of_nat 96).
  assert (Ez : zeros z = zeros len ++ zeros (BUS_MAX_MSG_LEN - 96 - len)).
  { unfold zeros, z, BUS_MAX_MSG_LEN. rewrite <- replicate_add. f_equal. lia. }
  rewrite Ez, (st_app SIZEOF_HEAD (enc_head h) (zeros len) _ data); [|rewrite L; done|pose proof (length_zeros len); lia].
  reflexivity.
Qed.

Lemma tux_return_sends handler w rval rcode ptr fl data q :
  let len := Z.of_nat (length data) in
  let h := set_h_len len (gipcMsgHead w) in
  attached w = true -> mb_longjmp w <> 0 -> fl <> -1 -> ptr <> NULL ->
  0 < len -> SIZEOF_HEAD + len < BUS_MAX_MSG_LEN -> len <= max_msg_len (w_ctrl w) ->
  load ptr len w = Ret data w ->
  length (h_name h) = 33%nat -> 1 <= h_req_msg_type h -> o_caught (w_os w) = [] ->
  queue (rsp_que_id (w_ctrl w)) (w_os w) = Some q -> Z.of_nat (length (q_msgs q)) <= MSQ_MAX_NUM ->
  fits (reply_msg h data) q = true ->
  tux_return handler rval rcode ptr len fl w
  = Jump 1 (set_w_os (set_queue (rsp_que_id (w_ctrl w)) (enqueue (reply_msg h data) q) (w_os w)) (set_gipcMsgHead h w)).
Proof.
  intros len h Ha Hj Hfl Hp Hlen Hmax1 Hmax2 Hl Hn Hty Hc Hq Hcnt Hf. set (w1 := set_gipcMsgHead h w).
  pose proof (reply_queued w1 h data q Hlen Hmax1 Hn Hty Hq Hcnt Hf) as S. change (w_ctrl w1) with (w_ctrl w) in S.
  unfold tux_return. erewrite bind_Ret by reflexivity.
  rewrite (proj2 (Z.eqb_neq _ 0) Hj). erewrite bind_Ret by reflexivity. unfold sdIsAttach. cbn [id]. rewrite Ha. cbn [negb].
  erewrite bind_Ret; cycle 1.
  { unfold tux_return_reply. rewrite (proj2 (Z.eqb_neq fl _) Hfl), (proj2 (Z.eqb_neq ptr _) Hp).
    destruct (Z.eqb_spec len 0); [lia|]. erewrite bind_Ret by reflexivity.
    destruct (Z.ltb_spec len 0); [lia|]. rewrite (bind_Ret _ _ _ _ _ (ctrl_eq w Ha)).
    destruct (Z.ltb_spec (max_msg_len (w_ctrl w)) len); [lia|].
    rewrite i32_id by (unfold SIZEOF_HEAD, BUS_MAX_MSG_LEN in Hmax1; lia). erewrite bind_Ret by reflexivity. fold h w1.
    erewrite bind_Ret by reflexivity. change (gipcMsgHead w1) with h.
    pose proof (reply_filled h data w1 Hn Hmax1) as F. apply bind_Ret_inv in F as (m1 & w2 & F1 & F2).
    rewrite (bind_Ret _ _ _ _ _ F1). assert (w2 = w1) as ->.
    { unfold fill, bind, deref in F1. destruct (st _ _ _); [now injection F1|discriminate]. }
    change (h_len h) with len. rewrite (bind_Ret _ _ w1 data w1); cycle 1.
    { revert Hl. unfold load, deref. change (w_heap w1) with (w_heap w). destruct (_ ≫= _); [|done]. unfold ret. now intros [= ->]. }
    rewrite (bind_Ret _ _ _ _ _ F2), (sys_bind _ _ _ w1 _ _ S) by exact Hc. reflexivity. }
  cbn [negb Z.eqb]. reflexivity.
Qed.

(** C29: [tux_return] of a reply of 1 to 3963 bytes appends to the reply queue one message
    of the type the request's head asks for: the head, with its length set, and the
    data.  The return code [rval] is not part of it: a failure looks like a success. *)
Theorem tux_return_correct handler w rval rcode ptr len fl data q :
  let h := set_h_len len (gipcMsgHead w) in
  attached w = true -> mb_longjmp w <> 0 -> fl <> -1 -> ptr <> NULL ->
  0 < len -> SIZEOF_HEAD + len < BUS_MAX_MSG_LEN -> len <= max_msg_len (w_ctrl w) ->
  load ptr len w = Ret data w -> Z.of_nat (length data) = len ->
  length (h_name h) = 33%nat -> 1 <= h_req_msg_type h -> o_caught (w_os w) = [] ->
  queue (rsp_que_id (w_ctrl w)) (w_os w) = Some q -> Z.of_nat (length (q_msgs q)) <= MSQ_MAX_NUM ->
  fits (mkMsg (h_req_msg_type h) (le64 0 ++ enc_head h ++ data)) q = true ->
  exists o', tux_return handler rval rcode ptr len fl w = Jump 1 (set_w_os o' (set_gipcMsgHead h w))
    /\ msgs (rsp_que_id (w_ctrl w)) o'
       = q_msgs q ++ [mkMsg (h_req_msg_type h) (le64 0 ++ enc_head h ++ data)]
    /\ (forall id, id <> rsp_que_id (w_ctrl w) -> queue id o' = queue id (w_os w)).
Proof.
  intros h Ha Hj Hfl Hp Hlen Hmax1 Hmax2 Hl Hd Hn Hty Hc Hq Hcnt Hf. subst len. eexists. split; [|split].
  - now apply tux_return_sends with (q := q).
  - unfold msgs. now rewrite queue_set_eq.
  - intros id Hid. now apply queue_set_ne.
Qed.

(** ** Interrupted waits *)

Lemma MsqRcv_interrupted qid q o buf t sig evs :
  queue qid o = Some q -> 0 < t -> of_type t (q_msgs q) = [] -> o_sched o = EvSignal sig :: evs ->
  MsqRcv qid buf BUS_MAX_MSG_LEN t MSQ_MODE_BLOCK o
  = Ret (-9, buf) (set_errno EINTR (set_caught (o_caught o ++ [sig]) (set_sched evs o))).
Proof.
  intros Hq Ht Hm Hs. erewrite MsqRcv_of_msgrcv; [|].
  2:{ unfold msgrcv, try_rcv, bind, get, id. cbn [obind]. rewrite Hq.
      rewrite (pick_ext _ (fun m => m_type m =? t)), pick_none
        by (try (intros; now apply msg_match_pos); now apply of_type_none).
      change (MSQ_MODE_BLOCK =? MSQ_MODE_NONBLOCK) with false. cbn match. rewrite Hs.
      cbn [rcv_wait on_event]. reflexivity. }
  reflexivity.
Qed.

(** C40: the timeout of [tux_call] is not reported: when the alarm interrupts the wait for
    the reply, the call returns -1 with [timer_expired] set, but before the test that
    would set [tux_errno] to [SYS_TIMEOUT]; the error number is that of some earlier
    call, and the request stays queued. *)
Theorem tux_call_timeout handler w name ptr len svrno t data q q2 evs rsp_buf rsp_buflen fl :
  attached w = true -> tables_ok w -> ptr <> NULL -> rsp_buf <> NULL -> rsp_buflen <> NULL ->
  0 < len < BUS_MAX_MSG_LEN -> len <= max_msg_len (w_ctrl w) ->
  scan (fun t => same_name name (svc_name t)) (tSvrTab w) 0 = svrno -> 0 <= svrno ->
  znth (tSvrTab w) svrno = Some t -> down t = false -> 1 <= msg_type t ->
  load ptr len w = Ret data w -> Z.of_nat (length data) = len -> o_caught (w_os w) = [] ->
  queue (req_que_id (w_ctrl w)) (w_os w) = Some q ->
  Z.of_nat (length (q_msgs q)) <= MSQ_MAX_NUM ->
  fits (mkMsg (msg_type t) (le64 0 ++ data)) q = true ->
  req_que_id (w_ctrl w) <> rsp_que_id (w_ctrl w) ->
  queue (rsp_que_id (w_ctrl w)) (w_os w) = Some q2 -> 0 < h_req_msg_type (gipcMsgHead w) ->
  of_type (h_req_msg_type (gipcMsgHead w)) (q_msgs q2) = [] ->
  o_sched (w_os w) = EvSignal SIGALRM :: evs ->
  exists w', tux_call handler (Some name) ptr len rsp_buf rsp_buflen fl w = Ret (-1) w'
    /\ timer_expired w' = 1 /\ tux_errno w' = tux_errno w
    /\ msgs (req_que_id (w_ctrl w)) (w_os w') = q_msgs q ++ [mkMsg (msg_type t) (le64 0 ++ data)].
Proof.
  intros Ha K Hp Hr1 Hr2 [Hl0 Hl1] Hmax Hs Hpos Ht Hdown Hty Hl Hd Hc Hq Hn Hf Hne Hq2 Ht2 Hm2 Hsched.
  destruct (send_request handler w len Hl0 t data Hd q Hq Hn Hl1 Hty Hc Hf) as (o' & E & Eo).
  set (w1 := set_timer_expired 0 (set_w_os o' w)).
  assert (R : MsqRcv (rsp_que_id (w_ctrl w)) zero_msg BUS_MAX_MSG_LEN (h_req_msg_type (gipcMsgHead w)) MSQ_MODE_BLOCK (w_os w1)
    = Ret (-9, zero_msg) (set_errno EINTR (set_caught [SIGALRM] (set_sched evs o')))).
  { assert (Hc' : o_caught o' = []) by (subst o'; exact Hc).
    change (w_os w1) with o'. rewrite (MsqRcv_interrupted _ q2 o' _ _ SIGALRM evs); try done.
    - now rewrite Hc'.
    - subst o'. now rewrite queue_set_ne.
    - now subst o'. }
  eexists. split.
  - rewrite (call_start handler w name ptr len svrno Ha K Hp Hl0 Hmax Hs _ _ fl Hr1 Hr2). unfold call_tail.
    destruct (Z.ltb_spec svrno 0); [lia|].
    rewrite (bind_Ret _ _ _ _ _ (entry_eq tSvrTab svrno w t Ha Ht)), Hdown.
    rewrite (bind_Ret _ _ _ _ _ (request_fits w svrno t ptr len data Ha Ht Hl Hd ltac:(lia))).
    rewrite (bind_Ret _ _ _ _ _ E). cbn [negb Z.eqb].
    erewrite bind_Ret by reflexivity. fold w1. erewrite bind_Ret by reflexivity.
    change (gipcMsgHead w1) with (gipcMsgHead w).
    unfold sys. rewrite bind_assoc, (lift_bind _ _ w1 _ _ R).
    unfold run_handlers, bind. cbn -[set_w_os set_errno set_caught zero_msg]. reflexivity.
  - split; [reflexivity|]. split; [reflexivity|].
    unfold msgs, queue. cbn [w_os set_timer_expired set_w_os]. subst o'.
    change (k_msq (o_kern _)) with (k_msq (o_kern (set_queue (req_que_id (w_ctrl w))
      (enqueue (mkMsg (msg_type t) (le64 0 ++ data)) q) (w_os w)))).
    unfold set_queue, set_kern, set_msq. cbn [o_kern k_msq]. now rewrite lookup_insert_eq.
Qed.

(** ** Answered calls *)

(** A wait during which another process takes a message of another queue, and then sends
    what is waited for. *)
Lemma MsqRcv_answered qid qid' typ' q o buf t src data evs :
  let m := mkMsg t (le64 src ++ data) in
  queue qid o = Some q -> qid' <> qid -> 0 < t -> of_type t (q_msgs q) = [] -> wf_msg buf ->
  LONG_MIN <= src <= LONG_MAX -> Z.of_nat (length data) <= BUS_MAX_MSG_LEN - 8 -> fits m q = true ->
  o_sched o = EvRecv qid' typ' :: EvSend qid m :: evs ->
  exists l,
    MsqRcv qid buf BUS_MAX_MSG_LEN t MSQ_MODE_BLOCK o
    = Ret (Z.of_nat (length data), mkQueMsg t src (data ++ drop (length data) (sBuf buf)))
        (set_queue qid (set_msgs l q) (set_kern (apply_event (EvRecv qid' typ') (o_kern o)) (set_sched evs o)))
    /\ of_type t l = [] /\ (forall u, u <> t -> of_type u l = of_type u (q_msgs q)).
Proof.
  intros m Hq Hne Ht Hm W Hs Hd Hf Hsched. unfold BUS_MAX_MSG_LEN in Hd.
  set (o1 := set_kern (apply_event (EvRecv qid' typ') (o_kern o)) (set_sched (EvSend qid m :: evs) o)).
  assert (Hq1 : queue qid o1 = Some q).
  { unfold queue, o1. cbn [o_kern set_kern set_sched apply_event]. destruct (k_msq (o_kern o) !! qid') as [q'|]; [|exact Hq].
    destruct (pick _ _) as [[? ?]|]; [|exact Hq]. cbn [k_msq set_msq]. now rewrite lookup_insert_ne. }
  set (o2 := set_sched evs (set_queue qid (enqueue m q) o1)).
  destruct (pick_type t (q_msgs (enqueue m q)) m []) as (l & Hp & Hr & Ho & _).
  { cbn [enqueue q_msgs set_msgs]. rewrite of_type_app, Hm. unfold of_type, m. cbn [List.filter m_type]. now rewrite Z.eqb_refl. }
  assert (Lm : Z.of_nat (length (m_text m)) = 8 + Z.of_nat (length data))
    by (unfold m, le64; cbn [m_text]; rewrite length_app, length_enc; lia).
  exists l. split; [|split; [exact Hr|]].
  - erewrite MsqRcv_of_msgrcv.
    2:{ unfold msgrcv. erewrite bind_Ret by reflexivity. rewrite Hsched.
        unfold try_rcv at 1. erewrite bind_Ret by reflexivity. cbn [id]. rewrite Hq.
        rewrite (pick_ext _ (fun m => m_type m =? t)), pick_none
          by (try (intros; now apply msg_match_pos); now apply of_type_none).
        change (MSQ_MODE_BLOCK =? MSQ_MODE_NONBLOCK) with false. cbn [rcv_wait]. erewrite bind_Ret by reflexivity.
        cbn [on_event]. erewrite bind_Ret by reflexivity.
        change (set_kern _ (set_sched _ o)) with o1.
        unfold try_rcv at 1. erewrite bind_Ret by reflexivity. cbn [id]. rewrite Hq1.
        rewrite (pick_ext _ (fun m => m_type m =? t)), pick_none
          by (try (intros; now apply msg_match_pos); now apply of_type_none).
        erewrite bind_Ret by reflexivity. cbn [on_event]. erewrite bind_Ret by reflexivity.
        assert (E2 : set_kern (apply_event (EvSend qid m) (o_kern (set_sched evs o1))) (set_sched evs o1) = o2).
        { cbn [apply_event]. change (k_msq (o_kern (set_sched evs o1)) !! qid) with (queue qid o1). now rewrite Hq1, Hf. }
        rewrite E2. unfold try_rcv. erewrite bind_Ret by reflexivity. cbn [id].
        change (queue qid o2) with (queue qid (set_queue qid (enqueue m q) o1)). rewrite queue_set_eq.
        rewrite (pick_ext _ (fun m => m_type m =? t)), Hp by (intros; now apply msg_match_pos).
        rewrite Lm, (proj2 (Z.ltb_ge _ _)) by (unfold BUS_MAX_MSG_LEN; lia). reflexivity. }
    rewrite rcv_code_ok, (proj2 (Z.leb_le 0 _)) by lia. cbn [m_text m]. rewrite copy_in_out by (done || unfold BUS_MAX_MSG_LEN; lia).
    f_equal; [f_equal; lia|]. unfold o2, o1, set_queue, set_kern, set_sched, set_msq. cbn [o_kern k_msq].
    now rewrite insert_insert_eq.
  - intros u Hu. rewrite Ho by done. cbn [enqueue q_msgs set_msgs]. rewrite of_type_app.
    assert (E : of_type u [m] = []) by (unfold of_type, m; cbn; now rewrite (proj2 (Z.eqb_neq t u)) by congruence).
    now rewrite E, app_nil_r.
Qed.

(** [tux_call] with a server that takes a request and answers. *)
Lemma call_answers handler w name ptr len svrno t data q q2 rb rbl rbuf rbuf' lbuf src reply evs fl :
  let ty := h_req_msg_type (gipcMsgHead w) in
  let req := req_que_id (w_ctrl w) in
  let rsp := rsp_que_id (w_ctrl w) in
  let m := mkMsg (msg_type t) (le64 0 ++ data) in
  attached w = true -> tables_ok w -> ptr <> NULL -> 0 < len < BUS_MAX_MSG_LEN -> len <= max_msg_len (w_ctrl w) ->
  scan (fun t => same_name name (svc_name t)) (tSvrTab w) 0 = svrno -> 0 <= svrno ->
  znth (tSvrTab w) svrno = Some t -> down t = false -> 1 <= msg_type t ->
  load ptr len w = Ret data w -> Z.of_nat (length data) = len -> o_caught (w_os w) = [] ->
  queue req (w_os w) = Some q -> Z.of_nat (length (q_msgs q)) <= MSQ_MAX_NUM -> fits m q = true ->
  req <> rsp -> queue rsp (w_os w) = Some q2 -> 0 < ty -> of_type ty (q_msgs q2) = [] ->
  fits (mkMsg ty (le64 src ++ reply)) q2 = true -> LONG_MIN <= src <= LONG_MAX ->
  0 < Z.of_nat (length reply) <= BUS_MAX_MSG_LEN - 8 ->
  o_sched (w_os w) = EvRecv req (msg_type t) :: EvSend rsp (mkMsg ty (le64 src ++ reply)) :: evs ->
  rb <> NULL -> rb mod STRIDE = 0 -> w_heap w !! rb = Some rbuf -> st 0 reply rbuf = Some rbuf' ->
  rbl <> NULL -> rbl mod STRIDE = 0 -> w_heap w !! rbl = Some lbuf -> length lbuf = 8%nat -> rb <> rbl ->
  exists l o', tux_call handler (Some name) ptr len rb rbl fl w
    = Ret 0 (set_w_heap (<[rbl := le64 (Z.of_nat (length reply))]> (<[rb := rbuf']> (w_heap w)))
               (set_timer_expired 0 (set_w_os o' w)))
    /\ o' = set_queue rsp (set_msgs l q2) (set_kern (apply_event (EvRecv req (msg_type t))
              (o_kern (set_queue req (enqueue m q) (w_os w)))) (set_sched evs (w_os w)))
    /\ of_type ty l = [] /\ (forall u, u <> ty -> of_type u l = of_type u (q_msgs q2)).
Proof.
  intros ty req rsp m Ha K Hp [Hl0 Hl1] Hmax Hs Hpos Ht Hdown Hty Hl Hd Hc Hq Hn Hf Hne Hq2 Ht2 Hm2 Hf2 Hsrc Hr Hsched
    Hb Hb0 Hbuf Sb Hr1 Hr0 Hlb Llb Hne2.
  destruct (send_request handler w len Hl0 t data Hd q Hq Hn Hl1 Hty Hc Hf) as (o' & E & Eo).
  set (w1 := set_timer_expired 0 (set_w_os o' w)).
  destruct (MsqRcv_answered rsp req (msg_type t) q2 o' zero_msg ty src reply evs) as (l & R & M1 & M2); try done.
  - subst o'. now rewrite queue_set_ne.
  - lia.
  - now rewrite Eo.
  - exists l, (set_queue rsp (set_msgs l q2) (set_kern (apply_event (EvRecv req (msg_type t)) (o_kern o')) (set_sched evs o'))).
    split; [|split; [rewrite Eo; reflexivity|split; [exact M1|exact M2]]].
    rewrite (call_start handler w name ptr len svrno Ha K Hp Hl0 Hmax Hs _ _ fl Hb Hr1). unfold call_tail.
    destruct (Z.ltb_spec svrno 0); [lia|].
    rewrite (bind_Ret _ _ _ _ _ (entry_eq tSvrTab svrno w t Ha Ht)), Hdown.
    rewrite (bind_Ret _ _ _ _ _ (request_fits w svrno t ptr len data Ha Ht Hl Hd ltac:(lia))).
    rewrite (bind_Ret _ _ _ _ _ E). cbn [negb Z.eqb].
    erewrite bind_Ret by reflexivity. fold w1. erewrite bind_Ret by reflexivity.
    change (gipcMsgHead w1) with (gipcMsgHead w). fold ty rsp.
    erewrite sys_bind by (exact R || (rewrite Eo; exact Hc)).
    cbv beta iota. destruct (Z.leb_spec (Z.of_nat (length reply)) 0); [lia|]. erewrite bind_Ret by reflexivity.
    cbn [timer_expired w1 set_w_os set_timer_expired negb Z.eqb sBuf].
    rewrite (ld_0_app reply) by done. erewrite bind_Ret by reflexivity.
    erewrite bind_Ret.
    2:{ rewrite <- (Z.add_0_r rb) at 1. eapply (store_at rb 0); [done|done|exact Hbuf|exact Sb]. }
    erewrite bind_Ret.
    2:{ rewrite <- (Z.add_0_r rbl) at 1. eapply (store_at rbl 0); [done|done| |].
        - cbn [w_heap set_w_heap set_w_os w1 set_timer_expired]. rewrite lookup_insert_ne by done. exact Hlb.
        - apply (st_end 0 [] lbuf); [done|]. now rewrite length_le64. }
    reflexivity.
Qed.

(** Nobody answers. *)
Lemma MsqRcv_blocks qid q o buf t :
  queue qid o = Some q -> 0 < t -> of_type t (q_msgs q) = [] -> o_sched o = [] ->
  MsqRcv qid buf BUS_MAX_MSG_LEN t MSQ_MODE_BLOCK o = Block (set_sched [] o).
Proof.
  intros Hq Ht Hm Hs. unfold MsqRcv, msgrcv. rewrite bind_assoc. unfold bind at 1, get. cbn [obind]. rewrite Hs.
  unfold try_rcv. unfold bind at 1, bind at 1, get. cbn [obind id]. rewrite Hq.
  rewrite (pick_ext _ (fun m => m_type m =? t)), pick_none
    by (try (intros; now apply msg_match_pos); now apply of_type_none). reflexivity.
Qed.

Lemma call_waits handler w name ptr len svrno t data q q2 rb rbl fl :
  let ty := h_req_msg_type (gipcMsgHead w) in
  let req := req_que_id (w_ctrl w) in
  let rsp := rsp_que_id (w_ctrl w) in
  let m := mkMsg (msg_type t) (le64 0 ++ data) in
  attached w = true -> tables_ok w -> ptr <> NULL -> 0 < len < BUS_MAX_MSG_LEN -> len <= max_msg_len (w_ctrl w) ->
  scan (fun t => same_name name (svc_name t)) (tSvrTab w) 0 = svrno -> 0 <= svrno ->
  znth (tSvrTab w) svrno = Some t -> down t = false -> 1 <= msg_type t ->
  load ptr len w = Ret data w -> Z.of_nat (length data) = len -> o_caught (w_os w) = [] ->
  queue req (w_os w) = Some q -> Z.of_nat (length (q_msgs q)) <= MSQ_MAX_NUM -> fits m q = true ->
  req <> rsp -> queue rsp (w_os w) = Some q2 -> 0 < ty -> of_type ty (q_msgs q2) = [] ->
  rb <> NULL -> rbl <> NULL -> o_sched (w_os w) = [] ->
  exists w', tux_call handler (Some name) ptr len rb rbl fl w = Block w'
    /\ queue req (w_os w') = Some (enqueue m q)
    /\ w' = set_timer_expired 0 (set_w_os (set_sched [] (set_queue req (enqueue m q) (w_os w))) w).
Proof.
  intros ty req rsp m Ha K Hp [Hl0 Hl1] Hmax Hs Hpos Ht Hdown Hty Hl Hd Hc Hq Hn Hf Hne Hq2 Ht2 Hm2 Hb Hr1 Hsched.
  destruct (send_request handler w len Hl0 t data Hd q Hq Hn Hl1 Hty Hc Hf) as (o' & E & Eo).
  exists (set_timer_expired 0 (set_w_os (set_sched [] o') w)). split.
  - rewrite (call_start handler w name ptr len svrno Ha K Hp Hl0 Hmax Hs _ _ fl Hb Hr1). unfold call_tail.
    destruct (Z.ltb_spec svrno 0); [lia|].
    rewrite (bind_Ret _ _ _ _ _ (entry_eq tSvrTab svrno w t Ha Ht)), Hdown.
    rewrite (bind_Ret _ _ _ _ _ (request_fits w svrno t ptr len data Ha Ht Hl Hd ltac:(lia))).
    rewrite (bind_Ret _ _ _ _ _ E). cbn [negb Z.eqb].
    erewrite bind_Ret by reflexivity. erewrite bind_Ret by reflexivity.
    cbn [gipcMsgHead set_timer_expired set_w_os]. fold ty rsp.
    unfold sys, lift. rewrite bind_assoc. unfold bind at 1. cbn [w_os set_timer_expired set_w_os].
    rewrite (MsqRcv_blocks rsp q2) by (first [done | rewrite Eo; first [exact Hsched | now rewrite queue_set_ne]]).
    reflexivity.
  - rewrite Eo. split; [apply queue_set_eq|reflexivity].
Qed.

(** ** Draining a server's requests *)

Lemma clean_loop_drains handler c w t q fuel m :
  queue c (w_os w) = Some q -> o_caught (w_os w) = [] -> 0 < t ->
  Forall (fun m => 8 <= Z.of_nat (length (m_text m)) <= BUS_MAX_MSG_LEN) (of_type t (q_msgs q)) ->
  (length (q_msgs q) < fuel)%nat ->
  exists q' e, clean_loop handler fuel c t m w
               = Ret 0 (set_w_os (set_errno e (set_queue c q' (w_os w))) w)
    /\ of_type t (q_msgs q') = [] /\ (forall u, u <> t -> of_type u (q_msgs q') = of_type u (q_msgs q)).
Proof.
  revert w q m. induction fuel as [|fuel IH]; intros w q m Hq Hc Ht HF Hfuel; [lia|].
  cbn [clean_loop]. destruct (of_type t (q_msgs q)) as [|x r] eqn:M.
  - pose proof (msgrcv_nomsg c BUS_MAX_MSG_LEN t (w_os w) q Hq Ht M) as R.
    apply (MsqRcv_of_msgrcv c m BUS_MAX_MSG_LEN t MSQ_MODE_NONBLOCK) in R.
    rewrite (sys_bind _ _ _ _ _ _ R) by exact Hc. rewrite rcv_code_fail. cbn [Z.ltb Z.compare].
    exists q, ENOMSG. split; [|done]. unfold ret. f_equal. unfold set_queue.
    rewrite insert_id by exact Hq. now destruct w as [[[]] ? ? ? ? ? ? ? ? ? ? ? ? ? ?].
  - inversion HF as [|? ? Hx HF']; subst.
    destruct (msgrcv_found c BUS_MAX_MSG_LEN t true (w_os w) q x r Hq Ht M) as (l & R & Hr & Ho & Hlen); [lia|].
    apply (MsqRcv_of_msgrcv c m BUS_MAX_MSG_LEN t MSQ_MODE_NONBLOCK) in R.
    rewrite (sys_bind _ _ _ _ _ _ R) by exact Hc.
    rewrite rcv_code_ok by (unfold BUS_MAX_MSG_LEN in Hx; lia).
    destruct (Z.ltb_spec (Z.of_nat (length (m_text x)) - 8) 0); [lia|].
    set (w1 := set_w_os (set_queue c (set_msgs l q) (w_os w)) w).
    destruct (IH w1 (set_msgs l q) (if 0 <=? Z.of_nat (length (m_text x)) then copy_in (m_text x) m t else m))
      as (q' & e & E & H1 & H2).
    + unfold w1. apply queue_set_eq.
    + exact Hc.
    + exact Ht.
    + cbn [q_msgs set_msgs]. rewrite Hr. exact HF'.
    + cbn [q_msgs set_msgs]. lia.
    + exists q', e. split; [|split; [exact H1|]].
      * rewrite E. f_equal. unfold w1, set_queue, set_w_os, set_kern, set_msq, set_errno.
        cbn [w_os o_kern k_msq]. now rewrite insert_insert_eq.
      * intros u Hu. rewrite H2 by done. cbn [q_msgs set_msgs]. now apply Ho.
Qed.

Lemma clean_task_msg_eq handler w t q :
  attached w = true -> o_caught (w_os w) = [] -> 0 < t ->
  queue (req_que_id (w_ctrl w)) (w_os w) = Some q ->
  Forall (fun m => 8 <= Z.of_nat (length (m_text m)) <= BUS_MAX_MSG_LEN) (of_type t (q_msgs q)) ->
  exists q' e, clean_task_msg handler t w
      = Ret 0 (set_w_os (set_errno e (set_queue (req_que_id (w_ctrl w)) q' (w_os w))) w)
    /\ of_type t (q_msgs q') = [] /\ (forall u, u <> t -> of_type u (q_msgs q') = of_type u (q_msgs q)).
Proof.
  intros Ha Hc Ht Hq HF. unfold clean_task_msg. rewrite (bind_Ret _ _ _ _ _ (ctrl_eq w Ha)).
  erewrite bind_Ret by reflexivity. cbn [id]. apply clean_loop_drains; try assumption.
  unfold msgs. rewrite Hq. lia.
Qed.

(** C39: [clean_task_msg] terminates and removes every request of the message type, and no
    other, when each of them is one the code could receive (8 to 4060 bytes). *)
Theorem clean_task_msg_correct handler w t q :
  attached w = true -> o_caught (w_os w) = [] -> 0 < t ->
  queue (req_que_id (w_ctrl w)) (w_os w) = Some q ->
  Forall (fun m => 8 <= Z.of_nat (length (m_text m)) <= BUS_MAX_MSG_LEN) (of_type t (q_msgs q)) ->
  exists o', clean_task_msg handler t w = Ret 0 (set_w_os o' w)
    /\ of_type t (msgs (req_que_id (w_ctrl w)) o') = []
    /\ (forall u, u <> t -> of_type u (msgs (req_que_id (w_ctrl w)) o') = of_type u (q_msgs q)).
Proof.
  intros Ha Hc Ht Hq HF. destruct (clean_task_msg_eq handler w t q Ha Hc Ht Hq HF) as (q' & e & E & H1 & H2).
  eexists. split; [exact E|]. unfold msgs. now rewrite queue_errno, queue_set_eq.
Qed.

(** *** Witnesses *)

Definition demo_reply_head : IPCMsgHead :=
  mkHead (str "ECHO" ++ zeros 29) 3 0 500001 0 0 REPLY_FLAG_SYN 0 5.

Definition demo_queues (req : list kmsg) (sched : list event) : os :=
  mkOs (mkKernel (<[ 1 := mkQueue 601107 req MSGMNB ]> {[ 2 := mkQueue 601117 [] MSGMNB ]}) 8
          {[ 7 := mkSem (-1) [1] ]} ∅) 0 sched [] 0 1 [] [] [] None [] [] None.

(** A caller's memory: a buffer of data at [STRIDE], room for a reply behind it. *)
Definition demo_process (data : bytes) (req : list kmsg) (sched : list event) (svcs : list service_tab_t)
    : world :=
  set_w_os (demo_queues req sched)
    (set_w_brk (3 * STRIDE) (set_w_heap (<[ STRIDE := data ]> {[ 2 * STRIDE := zeros 8 ]})
      (set_gipcMsgHead demo_reply_head (set_mb_longjmp 1 (demo_tables svcs))))).

Definition demo_services : list service_tab_t := [echo_entry; free_svc; free_svc].

Lemma demo_process_ok data req sched svcs :
  length svcs = 3%nat -> Forall svc_ok svcs -> tables_ok (demo_process data req sched svcs).
Proof. intros. eapply tables_ok_keep; [..|apply (demo_tables_ok svcs)]; done. Qed.

Lemma demo_services_ok : Forall svc_ok demo_services.
Proof. destruct demo_svc_ok. repeat (apply Forall_cons; split; [assumption|]). constructor. Qed.

Lemma demo_process_heap data req sched svcs : heap_ok (demo_process data req sched svcs).
Proof.
  split; [done|]. split; [done|]. intros a [b H].
  cbn [demo_process w_heap set_w_os set_w_brk set_w_heap] in H.
  apply lookup_insert_Some in H as [[<- _]|[_ H]]; [done|].
  apply lookup_singleton_Some in H as [<- _]. done.
Qed.

Lemma demo_load data req sched svcs :
  Z.of_nat (length data) <= MAX_OBJECT ->
  load STRIDE (Z.of_nat (length data)) (demo_process data req sched svcs)
  = Ret data (demo_process data req sched svcs).
Proof.
  intros. change STRIDE with (STRIDE + 0) at 1.
  eapply load_at; [done|done|apply lookup_insert_eq|].
  rewrite <- (app_nil_r data) at 2. now apply (ld_app 0 _ []).
Qed.

(** The hypotheses on the demonstration states, by evaluation. *)
Ltac demo_tac :=
  lazymatch goal with
  | |- tables_ok _ => apply demo_process_ok; [reflexivity|apply demo_services_ok]
  | |- heap_ok _ => apply demo_process_heap
  | |- wf_head _ => unfold wf_head; repeat split; vm_compute; congruence
  | |- Forall _ _ => repeat constructor; vm_compute; discriminate
  | |- load _ _ (demo_process ?d _ _ _) = _ => exact (demo_load d _ _ _ ltac:(vm_compute; discriminate))
  | |- _ <> _ => vm_compute; discriminate
  | |- _ = _ => vm_compute; reflexivity
  | |- _ < _ => vm_compute; reflexivity
  | |- _ <= _ => vm_compute; discriminate
  | |- _ /\ _ => split; demo_tac
  end.

Definition no_handler : Z -> prog world unit := fun _ => ret tt.
Definition hello : bytes := str "hello".

Lemma tux_acall_correct_witness :
  exists o', tux_acall no_handler (Some (str "ECHO")) STRIDE 5 0 (demo_process hello [] [] demo_services)
             = Ret 0 (set_w_os o' (demo_process hello [] [] demo_services))
    /\ msgs 1 o' = [mkMsg 300007 (le64 0 ++ hello)].
Proof.
  destruct (tux_acall_correct no_handler (demo_process hello [] [] demo_services) (str "ECHO") STRIDE 5 1
    demo_svr hello (mkQueue 601107 [] MSGMNB) 0) as (o' & E & _ & M & _); [demo_tac..|].
  exists o'. split; [exact E|exact M].
Defined.

Lemma refused_requests_witness :
  tux_acall no_handler (Some (str "NONE")) STRIDE 5 0 (demo_process hello [] [] demo_services)
  = Ret (-1) (set_tux_errno SYS_ERR_SVC (demo_process hello [] [] demo_services)).
Proof.
  apply (refused_requests no_handler (demo_process hello [] [] demo_services) (str "NONE") STRIDE 5 (-1)
    STRIDE STRIDE 0); demo_tac.
Defined.

Definition big : bytes := replicate 4090 "x"%char.

Lemma oversized_request_overruns_witness :
  tux_acall no_handler (Some (str "ECHO")) STRIDE 4090 0 (demo_process big [] [] demo_services) = Fault.
Proof.
  apply (oversized_request_overruns no_handler (demo_process big [] [] demo_services) (str "ECHO") STRIDE
    4090 1 demo_svr big STRIDE STRIDE 0); demo_tac.
Defined.

Definition demo_request : kmsg := mkMsg 300007 (le64 0 ++ enc_head demo_reply_head ++ hello).

Lemma demo_head_wf : wf_head demo_reply_head.
Proof. unfold wf_head. repeat split; vm_compute; congruence. Qed.

Definition demo_service : Z -> sd_info_t -> prog world unit := fun _ info =>
  tux_return no_handler TUX_SUCCESS 0 (i_data info) (i_len info) 0.

Definition idle_service : Z -> sd_info_t -> prog world unit := fun _ _ => ret tt.

Lemma tux_service_correct_witness :
  exists w', tux_service no_handler idle_service 7 0 (demo_process [] [demo_request] [] demo_services) = Ret 0 w'
    /\ mb_longjmp w' = 0.
Proof.
  destruct (tux_service_correct no_handler idle_service (demo_process [] [demo_request] [] demo_services)
    7 0 (mkQueue 601107 [demo_request] MSGMNB) demo_reply_head 0 hello [] [] 0 echo_entry (manager_pid 100 0))
    as (ptr & data & w1 & St & H & _); [demo_tac..|].
  exists (set_mb_longjmp 0 (set_w_heap (delete (ptr - 32) (w_heap w1)) w1)).
  split; [|reflexivity]. apply (H 0 w1 data); [now left|]. apply St.
Defined.

Definition nameless : kmsg :=
  mkMsg 300007 (le64 0 ++ enc_head (set_h_len 5 (mkHead (zeros 33) 3 0 0 0 0 0 0 0)) ++ hello).

Lemma tux_service_empty_name_witness :
  tux_service no_handler idle_service 7 0 (demo_process [] [nameless] [] demo_services) = Fault.
Proof.
  apply (tux_service_empty_name no_handler idle_service (demo_process [] [nameless] [] demo_services)
    7 0 (mkQueue 601107 [nameless] MSGMNB) (set_h_len 5 (mkHead (zeros 33) 3 0 0 0 0 0 0 0)) 0 hello [] [] 1
    free_svc (manager_pid 100 0)); demo_tac.
Defined.

Lemma tux_return_correct_witness :
  exists o', tux_return no_handler TUX_FAIL 0 STRIDE 5 0 (demo_process hello [] [] demo_services)
             = Jump 1 (set_w_os o' (set_gipcMsgHead demo_reply_head (demo_process hello [] [] demo_services)))
    /\ msgs 2 o' = [mkMsg 500001 (le64 0 ++ enc_head demo_reply_head ++ hello)].
Proof.
  destruct (tux_return_correct no_handler (demo_process hello [] [] demo_services) TUX_FAIL 0 STRIDE 5 0
    hello (mkQueue 601117 [] MSGMNB)) as (o' & E & M & _); [demo_tac..|].
  exists o'. split; [exact E|exact M].
Defined.

Lemma tux_call_timeout_witness :
  exists w', tux_call no_handler (Some (str "ECHO")) STRIDE 5 (2 * STRIDE) (2 * STRIDE) 0
               (demo_process hello [] [EvSignal SIGALRM] demo_services) = Ret (-1) w'
    /\ timer_expired w' = 1 /\ tux_errno w' = 0.
Proof.
  destruct (tux_call_timeout no_handler (demo_process hello [] [EvSignal SIGALRM] demo_services) (str "ECHO")
    STRIDE 5 1 demo_svr hello (mkQueue 601107 [] MSGMNB) (mkQueue 601117 [] MSGMNB) [] (2 * STRIDE) (2 * STRIDE) 0)
    as (w' & E & T & Er & _); [demo_tac..|].
  exists w'. split; [exact E|]. split; [exact T|exact Er].
Defined.

Lemma clean_task_msg_correct_witness :
  exists o', clean_task_msg no_handler 300007 (demo_process [] [demo_request; nameless] [] demo_services)
             = Ret 0 (set_w_os o' (demo_process [] [demo_request; nameless] [] demo_services))
    /\ of_type 300007 (msgs 1 o') = [].
Proof.
  destruct (clean_task_msg_correct no_handler (demo_process [] [demo_request; nameless] [] demo_services)
    300007 (mkQueue 601107 [demo_request; nameless] MSGMNB)) as (o' & E & M & _); [demo_tac..|].
  exists o'. split; [exact E|exact M].
Defined.
