(* ===== verification/Tuxcmd.v ===== *)
(** * Starting servers, management commands, the server's main program

    [src/dev/src/pubfun/tux/tuxcmd.c] and [src/dev/src/pubfun/tux/tuxmain.c].  The
    program that [execvp] starts is outside this one: [execvp] is a variable that
    either ends the process or returns -1.  A server's [tux_svrinit] and [tux_svrdone]
    are the application's and variables too. *)

From Stdlib Require Import ZArith Lia Bool List Ascii String.
From stdpp Require Import base list gmap.
From S2P Require Import Prelude Cstr Funstr Kernel Funmsq Funipc Funfile Sunda Tuxmem Registry Tuxcall.

(** ** [tuxcmd.c] *)

Definition MAX_ARGS : nat := 30.

(** [p = strtok(buf, " "); while (p) { argv[i] = p; i++; p = strtok(NULL, " "); }]: the
    loop writes into an array of 30 pointers, the last of them for the final null. *)
Fixpoint argv_loop (room : nat) (buf : bytes) (pos : nat) : option (list bytes) :=
  match room with
  | O => None
  | S room =>
      match strtok blank buf pos with
      | (None, _, _) => Some []
      | (Some p, buf, pos) => cons (cstr (drop p buf)) <$> argv_loop room buf pos
      end
  end.

Definition make_argv (buf : bytes) (usefirst : Z) : option (option (list bytes)) :=
  if usefirst <=? 0 then Some None
  else
    buf ← RightTrim buf;
    argv ← argv_loop MAX_ARGS buf 0;
    Some (Some (drop (Z.to_nat (usefirst - 1)) argv)).

Definition REPLY_TYPE (cmd : Z) : Z := cmd + MNG_MSG_TYPE_ROOT.

(** [strcpy], [strcat] and [sprintf] into [char buf[128 + 1] = {0}]. *)
Definition start_line (tskname arg : bytes) (pid : Z) : option bytes :=
  let s := tskname ++ [SP] ++ fmt_d pid ++ [SP] ++ arg in
  if Z.of_nat (length s) <=? 128 then Some (buf_of 129 s) else None.

Section Commands.
Context (execvp : bytes -> list bytes -> prog world Z).
Context (handler : Z -> prog world unit).

Definition server_load (tskname arg : bytes) : prog world Z :=
  let* pid := lift fork in
  if pid =? -1 then ret (-1)
  else if 0 <? pid then ret pid
  else
    let* me := lift getpid in
    let* buf := deref (start_line tskname arg me) in
    let* argv := deref (make_argv buf 1) in
    execvp tskname (default [] argv) ;;;
    exit_ 1.

Definition packReqHead (lMsgType : Z) : prog world unit :=
  let* now := lift time_ in
  let* now' := lift time_ in
  let* h := get gipcMsgHead in
  let* name := deref (st 0 (SD_MANAGER_SVC_NAME ++ [NUL]) (h_name h)) in
  modify (set_gipcMsgHead (mkHead name (u32 now) (h_conn_ssn h) lMsgType 0 now'
            REPLY_FLAG_SYN (h_note_msg_type h) SIZEOF_CMD)).

(** A local array: an object that lives as long as the call. *)
Definition with_local {A} (b : bytes) (m : Z -> prog world A) : prog world A :=
  let* p := new_object b in
  let* a := m p in
  drop_object p ;;;
  ret a.

Definition svr_cmd_deal (id cmd : Z) : prog world Z :=
  with_local (zeros 1025) (fun sReqBuf =>
  with_local (zeros 1025) (fun sRspBuf =>
  with_local (zeros 8) (fun rsq_len =>
    modify (set_gipcMsgHead zero_head) ;;;
    packReqHead (REPLY_TYPE cmd) ;;;
    let tTaskCmd := mkCmd cmd id 0 in
    let* h := get gipcMsgHead in
    store sReqBuf (enc_head h) ;;;
    store (sReqBuf + SIZEOF_HEAD) (enc_cmd tTaskCmd) ;;;
    let req_len := SIZEOF_CMD + SIZEOF_HEAD in
    let* rc := tux_call handler (Some SD_MANAGER_SVC_NAME) sReqBuf req_len sRspBuf rsq_len 0 in
    if negb (rc =? 0) then ret rc
    else
      let* b := load (sRspBuf + SIZEOF_HEAD) SIZEOF_CMD in
      ret (t_err (dec_cmd b))))).
End Commands.

(** ** [tuxmain.c] *)

Section Server.
Context (tux_svrinit : list bytes -> prog world Z) (tux_svrdone : prog world unit).
Context (svc_call : Z -> sd_info_t -> prog world unit).

Definition exit_handler (sig : Z) : prog world unit := tux_svrdone ;;; exit_ 0.

(** [while (1)], for at most [fuel] requests. *)
Fixpoint serve (fuel : nat) (svrid svc_pos : Z) : prog world unit :=
  match fuel with
  | O => spin
  | S fuel =>
      let* rc := tux_service exit_handler svc_call svrid svc_pos in
      if rc =? 0 then serve fuel svrid svc_pos
      else
        let* e := get tux_errno in
        if e =? SYS_NOENT then serve fuel svrid svc_pos else ret tt
  end.

Definition main (fuel : nat) (argv : list bytes) : prog world Z :=
  match argv with
  | _ :: arg1 :: arg2 :: arg3 :: _ =>
      let* me := lift getpid in
      if negb (atol arg1 =? me) then ret (-1)
      else
        let svc_pos := atoi arg2 in
        let svrid := atoi arg3 in
        let* rc := ipc_connect in
        if negb (rc =? 0) then ret rc
        else
          pidt (atoi arg2) ;;;
          let* rc := tux_svrinit argv in
          if negb (rc =? 0) then tux_svrdone ;;; ret rc
          else
            serve fuel svrid svc_pos ;;;
            tux_svrdone ;;;
            ret (-1)
  | _ => ret (-1)
  end.
End Server.
