(* ===== verification/Governor.v ===== *)
(** * The manager: [src/dev/src/Main/Governor.c]

    The process that reads the configuration, starts the servers, restarts those that
    die and executes the commands of the management tools.

    [sighold] and [sigrelse] bracket regions in which no handler runs; here handlers run
    only where a blocking call is interrupted, so the brackets have no counterpart.
    [sTuxName] of [run_task_id] always points to the name in the table entry that the
    function registers again: the alias is kept by reading the entry at each use. *)

From Stdlib Require Import ZArith Lia Bool List Ascii String.
From stdpp Require Import base list gmap.
From S2P Require Import Prelude Cstr Funstr Kernel Funmsq Funipc Funfile Sunda Tuxmem Registry.
From S2P Require Import Tuxcall Tuxcmd.

(** ** Searching the tables *)

Definition server_find_pid (n : Z) : prog world Z :=
  let* l := pids in ret (scan (fun p => pid p =? n) (tl l) 1).

Definition server_get_pidentry : prog world Z :=
  let* l := pids in ret (scan (fun p => pid p =? -1) (tl l) 1).

Definition server_get_identry : prog world Z :=
  let* l := svrs in ret (scan (fun t => svrid t =? -1) (tl l) 1).

Definition service_get_pidentry : prog world Z :=
  let* l := svcs in ret (scan (fun s => flags s =? -1) (tl l) 1).

Definition sdSvrPidClear (i : Z) : prog world unit := upd_pid i (fun _ => clear_pid).
Definition sbSvrTabClear (i : Z) : prog world unit := upd_svr i (fun _ => clear_svr).

(** ** Parsing a [tsk.task] line *)

(** The loop of [str_split] from the [pos]-th token on. *)
Fixpoint split_loop (fuel : nat) (delim temp : bytes) (off pos n : nat) : option (nat * bytes) :=
  match fuel with
  | O => None
  | S fuel =>
      match strtok delim temp off with
      | (None, _, _) => None
      | (Some p, temp, off) =>
          if Nat.eqb pos n then Some (p, cstr (drop p temp))
          else split_loop fuel delim temp off (S pos) n
      end
  end.

(** The result, and what the call leaves in [buf] when it finds the token. *)
Definition str_split (src delim : bytes) (buf_size : Z) (n : nat) : option (Z * bytes) :=
  if terminated src && (Z.of_nat (length (cstr src)) <=? 2048) then
    let temp := buf_of 2049 (cstr src) in
    match split_loop (length temp) delim temp 0 1 n with
    | Some (off, tok) => Some (Z.of_nat off, take (Z.to_nat buf_size) tok)
    | None => Some (-1, [])
    end
  else None.

Definition delims : bytes := str "= ".

(** [rc = str_split(p, "= ", temp, sizeof(temp) - 1, 1); if (rc < 0) break;] and
    [p += rc + strlen(temp) + 1;], together. *)
Definition next_word (buf : bytes) (p : nat) : prog world (option (bytes * nat)) :=
  let* (rc, temp) := deref (str_split (drop p buf) delims 128 1) in
  if rc <? 0 then ret None
  else ret (Some (temp, (p + Z.to_nat rc + length temp + 1)%nat)).

Fixpoint index_of (c : ascii) (s : bytes) : option nat :=
  match s with
  | [] => None
  | x :: s => if ceqb x c then Some O else S <$> index_of c s
  end.

(** [strchr(b + p, c)]. *)
Definition strchr (b : bytes) (p : nat) (c : ascii) : option nat :=
  (fun k => (p + k)%nat) <$> index_of c (cstr (drop p b)).

(** [strncpy(dst, src, n)] without a final NUL, over the string in [dst]. *)
Definition overwrite (s old : bytes) : bytes := s ++ drop (length s) old.

(** The sum of two [int]s. *)
Definition plus (a b : Z) : prog world Z :=
  if (INT_MIN <=? a + b) && (a + b <=? INT_MAX) then ret (a + b) else fault.

(** The loop over the keys; [p] is the offset of the pointer in [buf]. *)
Fixpoint parse_loop (fuel : nat) (svrnum : Z) (buf : bytes) (p : nat) : prog world Z :=
  match fuel with
  | O => spin
  | S fuel =>
      let* r := next_word buf p in
      match r with
      | None => ret 0
      | Some (temp, p) =>
          if streq temp (str "SRVID") then
            let* r := next_word buf p in
            match r with
            | None => ret 0
            | Some (temp, p) =>
                upd_svr svrnum (set_svrid (atoi temp)) ;;;
                let* msg_type := plus SVR_MSG_TYPE_ROOT (atoi temp) in
                upd_svr svrnum (set_msg_type msg_type) ;;;
                parse_loop fuel svrnum buf p
            end
          else if streq temp (str "SRVNUM") then
            let* r := next_word buf p in
            match r with
            | None => ret 0
            | Some (temp, p) =>
                upd_svr svrnum (set_pid_tot (atoi temp)) ;;;
                parse_loop fuel svrnum buf p
            end
          else if streq temp (str "RQADDR") then
            let* r := next_word buf p in
            match r with
            | None => ret 0
            | Some (temp, p) =>
                let* sSvcName := deref (AllTrim (buf_of 33 (take NAME_LEN temp))) in
                upd_svr svrnum (set_svc_name (cstr sSvcName)) ;;;
                parse_loop fuel svrnum buf p
            end
          else if streq temp (str "REPLYQ") then
            let* r := next_word buf p in
            match r with
            | None => ret 0
            | Some (temp, p) =>
                let c := List.hd NUL temp in
                upd_svr svrnum (set_rsp_q
                  (if ceqb c "Y"%char || ceqb c "y"%char then SVR_REPLY_NEED else SVR_REPLY_NONEED)) ;;;
                parse_loop fuel svrnum buf p
            end
          else if streq temp (str "SRVPARM") then
            if negb (terminated (drop p buf)) then fault
            else
              match strchr buf p QUOTE with
              | None => ret (-1)
              | Some p =>
                  match strchr buf (p + 1) QUOTE with
                  | None => ret (-2)
                  | Some q =>
                      let* s := fit SERVER_MAX_PARAM (take (q - p - 1) (drop (p + 1) buf)) in
                      upd_svr svrnum (fun t => set_parm (overwrite s (parm t)) t) ;;;
                      parse_loop fuel svrnum buf (q + 1)
                  end
              end
          else parse_loop fuel svrnum buf p
      end
  end.

(** [access(sFullName, F_OK)]. *)
Definition file_exists (path : bytes) : prog world bool :=
  let* w := get id in
  ret (existsb (fun f => bool_decide (f = path)) (o_files (w_os w))).

Definition register_server (svrnum : Z) (buf : bytes) : prog world Z :=
  match strtok blank buf 0 with
  | (None, _, _) => fault
  | (Some p, buf, pos) =>
      let* sSvrName := deref (AllTrim (buf_of 33 (take NAME_LEN (cstr (drop p buf))))) in
      let sSvrName := cstr sSvrName in
      let* w := get id in
      let* sFullName := fit 128 (o_home (w_os w) ++ str "/bin/" ++ sSvrName) in
      let* found := file_exists sFullName in
      if negb found then ret 1
      else
        upd_svr svrnum (fun t => set_name [] (set_svc_name [] (set_parm [] t))) ;;;
        upd_svr svrnum (set_name sSvrName) ;;;
        upd_svr svrnum (fun t => set_pid_tot 5 (set_state SVR_PERM (set_rsp_q SVR_REPLY_NEED
          (set_timeout MAX_TIMEOUT_SEC t)))) ;;;
        match strtok blank buf pos with
        | (None, _, _) => fault
        | (Some p, buf, _) => parse_loop (S (length buf)) svrnum buf p
        end
  end.

(** ** Reading the configuration between updates of the tables *)

(** [memset(buf, 0, sizeof(buf)); rc = cf_nextparm(fpcfg, pname, buf);] *)
Definition read_parm (pname : bytes) (fp : stream) : prog world (Z * bytes * stream) := fun w =>
  match cf_nextparm pname BUF512 fp with
  | Ret (rc, buf) fp => Ret (rc, buf, fp) w
  | Spin => Spin
  | _ => Fault
  end.

Definition tsk_task : bytes := str "tsk.task".

(** Lines that a stream can still give. *)
Definition lines_left (fp : stream) : nat := S (fuel_of fp).

(** [strncpy(sSvrName, sdGetSvrSvcName(i), TUX_NAME_LEN);
    sdGetSvrTimeOut(i) = tux_get_timeout(sSvrName);] *)
Definition set_timeout_of (i : Z) : prog world unit :=
  let* t := svr i in
  let* time_out := tux_get_timeout (take NAME_LEN (svc_name t)) in
  upd_svr i (set_timeout time_out).

Fixpoint reload_loop (n : nat) (i taskid : Z) (fp : stream) : prog world Z :=
  match n with
  | O => ret 0
  | S n =>
      let* (rc, buf, fp) := read_parm tsk_task fp in
      if rc <? 0 then ret 0
      else
        let* a := svr i in
        let* b := svr taskid in
        if negb (svrid a =? svrid b) then reload_loop n (i + 1) taskid fp
        else
          let* rc := register_server taskid buf in
          if rc <? 0 then ret (-1) else ret 0
  end.

Definition reload_server_param (taskid : Z) : prog world Z :=
  let* fpcfg := open_cfg in
  match fpcfg with
  | None => ret (-1)
  | Some _ =>
      let* c := ctrl in
      reload_loop (Z.to_nat (nsvrnum c - 1)) 1 taskid fpcfg
  end.

(** The first loop of [server_load_cfg]: a line whose program does not exist is skipped
    and the entry used again. *)
Fixpoint load_loop (fuel : nat) (i : Z) (fp : stream) : prog world Z :=
  match fuel with
  | O => spin
  | S fuel =>
      let* c := ctrl in
      if nsvrnum c <=? i then ret 0
      else
        let* (rc, buf, fp) := read_parm tsk_task fp in
        if rc <? 0 then ret 0
        else
          let* rc := register_server i buf in
          if rc <? 0 then ret (-1)
          else load_loop fuel (if 0 <? rc then i else i + 1) fp
  end.

Definition from_to (a b : Z) : list Z := seqZ a (b - a).

Definition server_load_cfg : prog world Z :=
  let* fpcfg := open_cfg in
  match fpcfg with
  | None => ret (-1)
  | Some _ =>
      let* rc := load_loop (lines_left fpcfg) 1 fpcfg in
      if rc <? 0 then ret (-1)
      else
        let* c := ctrl in
        for_each (from_to 1 (nsvrnum c)) (fun i =>
          let* t := svr i in
          when (negb (svrid t =? -1)) (set_timeout_of i)) ;;;
        ret 0
  end.

(** ** Processes *)

Section Manager.
Context (execvp : bytes -> list bytes -> prog world Z).

Definition server_start_pid (taskid pid_index : Z) : prog world Z :=
  let* t := svr taskid in
  let* param := fit 128 (fmt_d pid_index ++ str "  " ++ fmt_d (svrid t) ++ str "  " ++ parm t) in
  let* pid := server_load execvp (name t) param in
  if pid <? 0 then ret (-1)
  else
    upd_pid pid_index (set_pid pid) ;;;
    let* now := lift time_ in
    upd_pid pid_index (set_lastStart now) ;;;
    ret 0.

(** [for (i = 0; i < sdGetSvrNum(srvnum); ++i)], with [n] rounds left. *)
Fixpoint run_loop (n : nat) (i srvnum : Z) : prog world Z :=
  match n with
  | O => ret 0
  | S n =>
      let* pid_index := server_get_pidentry in
      if pid_index <? 0 then ret SYS_LIMIT
      else
        let* t := svr srvnum in
        upd_pid pid_index (fun p => set_svrpos srvnum (set_seq i (set_p_svrid (svrid t) p))) ;;;
        let* rc := server_start_pid srvnum pid_index in
        if negb (rc =? 0) then sdSvrPidClear pid_index ;;; ret rc
        else
          upd_svr srvnum (set_state TUX_IDLE) ;;;
          run_loop n (i + 1) srvnum
  end.

Definition server_run (srvnum : Z) : prog world Z :=
  upd_svr srvnum (set_type SVR_PERM) ;;;
  let* t := svr srvnum in
  run_loop (Z.to_nat (pid_tot t)) 0 srvnum.

Definition server_kill (taskid clear : Z) : prog world Z :=
  let* c := ctrl in
  for_each (from_to 0 (npidnum c)) (fun i =>
    let* p := pidt i in
    let* t := svr taskid in
    when ((p_svrid p =? svrid t) && negb (p_svrid p =? -1) && negb (p_svrid p =? TUX_DEAD))
      (lift (kill (pid p) SIGTERM) ;;;
       when (negb (clear =? 0)) (sdSvrPidClear i))) ;;;
  ret 0.

Definition unload_server : prog world unit :=
  let* w := get id in
  if negb (sdIsAttach w) then ret tt
  else
    let* c := ctrl in
    for_each (from_to 1 (nsvrnum c)) (fun i =>
      let* t := svr i in
      when (negb (svrid t =? -1)) (server_kill i 1 ;;; sbSvrTabClear i)).

Definition load_server : prog world unit :=
  let* c := ctrl in
  for_each (from_to 1 (nsvrnum c)) (fun i =>
    let* t := svr i in
    when (negb (svrid t =? -1)) (server_run i ;;; ret tt)).

(** One child that died: the body of the loop of [server_deatch].  The counters that
    belong to a process are indexed with the server's index in three places, and the
    server's state with the process's index in one. *)
Definition one_death (pr : Z) : prog world unit :=
  let* pid_index := server_find_pid pr in
  if pid_index <? 0 then ret tt
  else
    let* p := pidt pid_index in
    let taskid := svrpos p in
    pidt taskid ;;;
    upd_svr taskid (fun t => set_pid_tot (pid_tot t - 1) t) ;;;
    let* now := lift time_ in
    upd_pid taskid (set_lastDie now) ;;;
    upd_pid taskid (fun p => set_tot_restart_count (tot_restart_count p + 1) p) ;;;
    let* p := pidt pid_index in
    when (50 <? tot_restart_count p) (upd_svr taskid (set_type SVR_TEMP)) ;;;
    let* t := svr taskid in
    when (negb (type t =? SVR_TEMP))
      (upd_pid pid_index (fun p => set_tot_restart_count (tot_restart_count p + 1) p) ;;;
       reload_server_param taskid ;;;
       set_timeout_of taskid ;;;
       let* rc := server_start_pid taskid pid_index in
       if negb (rc =? 0) then ret tt
       else
         upd_svr pid_index (set_state TUX_AVAIL) ;;;
         let* now := lift time_ in
         upd_pid pid_index (set_lastStart now)) ;;;
    let* t := svr taskid in
    when (pid_tot t =? 0) (tux_deletesvc taskid ;;; ret tt).

(** [while ((pr = waitpid(...)) > 0)]; each round uses one entry of [o_waits]. *)
Fixpoint death_loop (fuel : nat) : prog world unit :=
  match fuel with
  | O => spin
  | S fuel =>
      let* pr := lift waitpid in
      if pr <=? 0 then ret tt else one_death pr ;;; death_loop fuel
  end.

Definition server_deatch (sig : Z) : prog world unit :=
  let* w := get id in death_loop (S (length (o_waits (w_os w)))).

(** ** Commands *)

Fixpoint run_id_loop (fuel : nat) (taskid : Z) (fp : stream) : prog world Z :=
  match fuel with
  | O => spin
  | S fuel =>
      let* (rc, temp, fp) := read_parm tsk_task fp in
      if rc <? 0 then ret 0
      else
        let* p := deref (token blank 0 temp 0) in
        let* sSvrName := deref (AllTrim (buf_of 33 (take NAME_LEN p))) in
        let* t := svr taskid in
        if negb (same_name (name t) (cstr sSvrName)) then run_id_loop fuel taskid fp
        else
          let* rc := register_server taskid temp in
          if negb (rc =? 0) then sbSvrTabClear taskid ;;; ret SYS_SYSTEM
          else
            let* rc := server_run taskid in
            if negb (rc =? 0) then sbSvrTabClear taskid ;;; ret SYS_OS
            else run_id_loop fuel taskid fp
  end.

Definition run_task_id (taskid : Z) : prog world Z :=
  let* fpcfg := open_cfg in
  match fpcfg with
  | None => sbSvrTabClear taskid ;;; ret SYS_SYSTEM
  | Some _ =>
      let* rc := run_id_loop (lines_left fpcfg) taskid fpcfg in
      if negb (rc =? 0) then ret rc
      else
        let* t := svr taskid in
        let* time_out := tux_get_timeout (name t) in
        upd_svr taskid (set_timeout time_out) ;;;
        upd_svr taskid (set_state TUX_IDLE) ;;;
        ret 0
  end.

Fixpoint run_one_loop (fuel : nat) (taskid tux_id : Z) (fp : stream) : prog world Z :=
  match fuel with
  | O => spin
  | S fuel =>
      let* (rc, buf, fp) := read_parm tsk_task fp in
      if rc <? 0 then sbSvrTabClear taskid ;;; ret SYS_NOENT
      else
        let* rc := register_server taskid buf in
        if negb (rc =? 0) then sbSvrTabClear taskid ;;; ret SYS_SYSTEM
        else
          let* t := svr taskid in
          if svrid t =? tux_id then
            let* rc := server_run taskid in
            if negb (rc =? 0) then sbSvrTabClear taskid ;;; ret SYS_OS else ret 0
          else run_one_loop fuel taskid tux_id fp
  end.

Definition run_one_task (taskid tux_id : Z) : prog world Z :=
  let* fpcfg := open_cfg in
  match fpcfg with
  | None => sbSvrTabClear taskid ;;; ret SYS_SYSTEM
  | Some _ => run_one_loop (lines_left fpcfg) taskid tux_id fpcfg
  end.

Definition exit_handler (sig : Z) : prog world unit := unload_server ;;; exit_ (-1).

Definition SIGCLD : Z := 17.

(** The handlers that [main] installs. *)
Definition handler (sig : Z) : prog world unit :=
  if sig =? SIGTERM then exit_handler sig
  else if sig =? SIGCLD then server_deatch sig
  else ret tt.

(** A server that is not in the table yet. *)
Definition start_new (id : Z) : prog world Z :=
  let* taskid := server_get_identry in
  if taskid <? 0 then ret SYS_LIMIT else run_one_task taskid id.

(** [case TSK_CMD_START]: one more process of a known server. *)
Definition cmd_start (id : Z) : prog world Z :=
  let* taskid := find_server_id id in
  if 0 <=? taskid then
    upd_svr taskid (set_type SVR_PERM) ;;;
    let* pid_index := server_get_pidentry in
    if pid_index <? 0 then ret SYS_LIMIT
    else
      let* t := svr taskid in
      upd_pid pid_index (fun p => set_svrpos taskid (set_p_svrid (svrid t) p)) ;;;
      upd_svr pid_index (set_state TUX_IDLE) ;;;
      set_timeout_of taskid ;;;
      let* rc := server_start_pid taskid pid_index in
      if negb (rc =? 0) then sdSvrPidClear pid_index ;;; ret SYS_OS
      else upd_svr taskid (fun t => set_pid_tot (pid_tot t + 1) t) ;;; ret 0
  else start_new id.

(** [case TSK_CMD_EXIT]. *)
Definition cmd_exit (id : Z) : prog world Z :=
  let* taskid := find_server_id id in
  if 0 <=? taskid then
    upd_svr taskid (fun t => set_state TUX_DEAD (set_type SVR_TEMP t)) ;;;
    let* t := svr taskid in
    server_kill taskid 1 ;;;
    clean_task_msg handler (msg_type t) ;;;
    ret 0
  else ret SYS_NOENT.

(** [case TSK_CMD_FRESH]. *)
Definition cmd_fresh (id : Z) : prog world Z :=
  let* taskid := find_server_id id in
  if 0 <=? taskid then
    upd_svr taskid (fun t => set_state TUX_DEAD (set_type SVR_TEMP t)) ;;;
    server_kill taskid 1 ;;;
    run_task_id taskid
  else start_new id.

(** The service function; the command and its error code are in the data. *)
Definition Governor (info : sd_info_t) : prog world unit :=
  let data := i_data info in
  store (data + 8) (le32 0) ;;;
  let* b := load data SIZEOF_CMD in
  let c := dec_cmd b in
  let* e :=
    if t_cmd c =? TSK_CMD_START then cmd_start (t_id c)
    else if t_cmd c =? TSK_CMD_EXIT then cmd_exit (t_id c)
    else if t_cmd c =? TSK_CMD_FRESH then cmd_fresh (t_id c)
    else ret 0 in
  store (data + 8) (le32 e) ;;;
  tux_return handler TUX_SUCCESS 0 data (i_len info) 0.

(** ** The main program *)

Definition daemonize : prog world unit :=
  let* p := lift fork in
  when (negb (p =? 0)) (exit_ 0) ;;;
  let* p := lift fork in
  when (negb (p =? 0)) (exit_ 0).

(** The address of the function [Governor]. *)
Definition GOVERNOR : Z := 4096.

Definition svc_call (fn : Z) (info : sd_info_t) : prog world unit :=
  if fn =? GOVERNOR then Governor info else fault.

(** [while (1)], for at most [fuel] requests. *)
Fixpoint serve (fuel : nat) : prog world unit :=
  match fuel with
  | O => spin
  | S fuel =>
      let* rc := tux_service handler svc_call 0 0 in
      if rc =? 0 then serve fuel
      else
        let* e := get tux_errno in
        if e =? SYS_NOENT then serve fuel else ret tt
  end.

Definition main (fuel : nat) : prog world Z :=
  daemonize ;;;
  let* rc := sys_start in
  if negb (rc =? 0) then ret (-1)
  else
    let* rc := ipc_connect in
    if negb (rc =? 0) then ret (-1)
    else
      let* rc := server_load_cfg in
      if negb (rc =? 0) then ret rc
      else
        let* rc := tux_advertise (Some SD_SERVER_MGR_NAME) GOVERNOR in
        if negb (rc =? 0) then unload_server ;;; ret rc
        else
          load_server ;;;
          serve fuel ;;;
          unload_server ;;;
          exit_ (-1).
End Manager.
