(* ===== verification/Taskline.v ===== *)
(** * The lines of [tsk.task], printed and read back

    [register_server] of [Governor.c] reads a line such as
    [echo SRVID=7 SRVNUM=2 RQADDR=ECHO SRVPARM="x y"].  A line is described here as a
    program name and a list of settings; reading the printed line gives the settings
    back. *)

From Stdlib Require Import ZArith Lia Bool List Ascii String.
From stdpp Require Import base list gmap.
From S2P Require Import Prelude Cstr Funstr Kernel Funmsq Funipc Funfile Sunda Tuxmem Registry.
From S2P Require Import Tuxcall Tuxcmd Governor.

Inductive setting : Type :=
| SrvId (id : Z)
| SrvNum (n : Z)
| RqAddr (a : bytes)
| ReplyQ (a : bytes)
| SrvParm (text : bytes).

Definition print_setting (s : setting) : bytes :=
  match s with
  | SrvId id => str "SRVID" ++ "="%char :: fmt_d id
  | SrvNum n => str "SRVNUM" ++ "="%char :: fmt_d n
  | RqAddr a => str "RQADDR" ++ "="%char :: a
  | ReplyQ a => str "REPLYQ" ++ "="%char :: a
  | SrvParm text => str "SRVPARM" ++ "="%char :: QUOTE :: text ++ [QUOTE]
  end.

(** The settings behind the first one. *)
Fixpoint more (ss : list setting) : bytes :=
  match ss with [] => [] | s :: ss => SP :: print_setting s ++ more ss end.

Definition print_line (name : bytes) (s : setting) (ss : list setting) : bytes :=
  name ++ SP :: print_setting s ++ more ss.

(** Values that fit the fields and the buffers; [atoi] reads the numbers. *)
Definition setting_ok (s : setting) : Prop :=
  match s with
  | SrvId id => INT_MIN <= id /\ SVR_MSG_TYPE_ROOT + id <= INT_MAX
  | SrvNum n => INT_MIN <= n <= INT_MAX
  | RqAddr a | ReplyQ a => is_token delims a /\ (length a <= 128)%nat
  | SrvParm text => nonul text /\ Forall (fun c => c <> QUOTE) text /\ (length text <= 128)%nat
  end.

Definition is_parm (s : setting) : bool := match s with SrvParm _ => true | _ => false end.

(** What a setting does to the entry of the server. *)
Definition apply_setting (t : server_tab_t) (s : setting) : server_tab_t :=
  match s with
  | SrvId id => set_msg_type (SVR_MSG_TYPE_ROOT + id) (set_svrid id t)
  | SrvNum n => set_pid_tot n t
  | RqAddr a => set_svc_name (take NAME_LEN a) t
  | ReplyQ a =>
      let c := List.hd NUL a in
      set_rsp_q (if ceqb c "Y"%char || ceqb c "y"%char then SVR_REPLY_NEED else SVR_REPLY_NONEED) t
  | SrvParm text => set_parm (overwrite text (parm t)) t
  end.

(** The entry of a server before its settings. *)
Definition fresh_server (name : bytes) (t : server_tab_t) : server_tab_t :=
  mkSvr (svrid t) name [] [] 5 SVR_PERM SVR_REPLY_NEED (type t) (msg_type t) MAX_TIMEOUT_SEC.

(** ** Words *)

Lemma terminated_suffix a b : terminated b = true -> terminated (a ++ b) = true.
Proof.
  unfold terminated. rewrite existsb_app. intros ->. apply orb_true_r.
Qed.

Lemma delims_nonul s : Forall (fun c => memc c delims = true) s -> nonul s.
Proof.
  intros H. eapply Forall_impl; [exact H|]. intros c Hc ->. discriminate Hc.
Qed.

Lemma cstr_app s t : nonul s -> cstr (s ++ t) = s ++ cstr t.
Proof.
  induction 1 as [|c s Hc _ IH]; cbn [app cstr]; [done|].
  now rewrite (proj2 (ceqb_neq _ _) Hc), IH.
Qed.

Lemma cstr_cons c t : c <> NUL -> cstr (c :: t) = c :: cstr t.
Proof. intros H. cbn [cstr]. now rewrite (proj2 (ceqb_neq _ _) H). Qed.

(** A string in the buffer of [str_split]. *)
Lemma buf_of_nul n s : Z.of_nat (length s) < n -> exists t, buf_of n s = s ++ NUL :: t.
Proof.
  intros H. unfold buf_of. exists (zeros (n - Z.of_nat (length s) - 1)). f_equal.
  unfold zeros. replace (Z.to_nat (n - Z.of_nat (length s)))
    with (S (Z.to_nat (n - Z.of_nat (length s) - 1))) by lia. done.
Qed.

(** The first word of a string, and what ends it. *)
Lemma str_split_first src sp tk c rest n :
  src = sp ++ tk ++ c :: rest -> Forall (fun c => memc c delims = true) sp ->
  is_token delims tk -> Z.of_nat (length tk) <= n -> (c = NUL \/ memc c delims = true) ->
  terminated (c :: rest) = true -> (length src <= 2049)%nat ->
  str_split src delims n 1 = Some (Z.of_nat (length sp), tk).
Proof.
  intros Es Hsp Htk Hn Hc Ht Hl. assert (Nsp := delims_nonul _ Hsp).
  assert (T : terminated src = true) by (rewrite Es, app_assoc; now apply terminated_suffix).
  unfold str_split. rewrite T. pose proof (terminated_cstr_lt _ T) as L.
  destruct (Z.leb_spec (Z.of_nat (length (cstr src))) 2048); [|lia]. cbn [andb].
  destruct (buf_of_nul 2049 (cstr src)) as [t0 Eb]; [lia|]. rewrite Eb.
  assert (F : exists f, length (cstr src ++ NUL :: t0) = S f).
  { rewrite length_app. cbn [length]. exists (length (cstr src) + length t0)%nat. lia. }
  destruct F as [f ->]. cbn [split_loop].
  assert (Ec : cstr src = sp ++ tk ++ cstr (c :: rest)).
  { rewrite Es, cstr_app by done. f_equal. apply cstr_app. apply Htk. }
  rewrite Ec. destruct Hc as [->|Hc].
  - cbn [cstr]. rewrite ceqb_refl, app_nil_r, <- app_assoc.
    pose proof (strtok_last delims [] sp tk t0 Hsp Nsp Htk) as E. cbn [app length] in E. rewrite E.
    cbn [Nat.add Nat.eqb]. rewrite drop_app_length, cstr_app_nul by apply Htk.
    now rewrite take_ge by lia.
  - assert (c <> NUL) by (intros ->; discriminate Hc).
    rewrite cstr_cons, <- !app_assoc by done. cbn [app].
    pose proof (strtok_token delims [] sp tk c (cstr rest ++ NUL :: t0) Hsp Nsp Htk Hc ltac:(done)) as E.
    cbn [app length] in E. rewrite E. cbn [Nat.add Nat.eqb].
    rewrite <- !app_assoc, drop_app_length. cbn [app]. rewrite cstr_app_nul by apply Htk.
    now rewrite take_ge by lia.
Qed.

Lemma next_word_token buf p sp tk c rest (w : world) :
  drop p buf = sp ++ tk ++ c :: rest -> Forall (fun c => memc c delims = true) sp ->
  is_token delims tk -> (length tk <= 128)%nat -> (c = NUL \/ memc c delims = true) ->
  terminated (c :: rest) = true -> (length buf <= 2049)%nat ->
  next_word buf p w = Ret (Some (tk, (p + length sp + length tk + 1)%nat)) w
  /\ drop (p + length sp + length tk + 1) buf = rest.
Proof.
  intros Ed Hsp Htk Hn Hc Ht Hl. split.
  - unfold next_word.
    rewrite (str_split_first _ sp tk c rest) by (done || lia || (rewrite length_drop; lia)).
    unfold bind. cbn [deref obind ret]. destruct (Z.ltb_spec (Z.of_nat (length sp)) 0); [lia|].
    now rewrite Nat2Z.id.
  - replace (p + length sp + length tk + 1)%nat with (p + length (sp ++ tk ++ [c]))%nat
      by (rewrite !length_app; cbn; lia).
    rewrite <- drop_drop, Ed.
    replace (sp ++ tk ++ c :: rest) with ((sp ++ tk ++ [c]) ++ rest) by (now rewrite <- !app_assoc).
    apply drop_app_length.
Qed.

Lemma next_word_none buf p (w : world) :
  Forall (fun c => memc c delims = true) (cstr (drop p buf)) -> terminated (drop p buf) = true ->
  (length buf <= 2049)%nat ->
  next_word buf p w = Ret None w.
Proof.
  intros Hsp T Hl. unfold next_word, str_split. rewrite T.
  pose proof (terminated_cstr_lt _ T) as L. rewrite length_drop in L.
  destruct (Z.leb_spec (Z.of_nat (length (cstr (drop p buf)))) 2048); [|lia]. cbn [andb].
  destruct (buf_of_nul 2049 (cstr (drop p buf))) as [t0 Eb]; [lia|]. rewrite Eb.
  pose proof (strtok_spec delims [] (cstr (drop p buf)) t0 (cstr_nonul _)) as HS.
  cbn [app length] in HS. destruct (length (_ ++ _)); cbn [split_loop]; [done|].
  destruct (strtok delims _ 0) as [[[q|] b'] pos']; [|done].
  destruct HS as (sp & tk & rest & E & _ & Hne & Htk & _). rewrite E in Hsp.
  apply Forall_app in Hsp as [_ Hsp]. apply Forall_app in Hsp as [Hsp _].
  destruct tk as [|c tk]; [done|]. inversion Hsp; inversion Htk; congruence.
Qed.

Lemma fmt_d_token z : is_token delims (fmt_d z) /\ (length (fmt_d z) <= 128)%nat.
Proof.
  destruct (fmt_d_chars z) as (Hne & Hc & Hl). split; [|lia].
  split; [done|]. split; (eapply Forall_impl; [exact Hc|]); intros c; cbn beta.
  - intros H. destruct (memc c delims) eqn:E; [|done]. exfalso. revert H. apply not_true_iff_false.
    unfold memc in E. apply existsb_exists in E as (d & Hd & ->%ceqb_eq).
    destruct Hd as [<-|[<-|[]]]; reflexivity.
  - intros H ->. discriminate H.
Qed.

Definition no_blank (s : bytes) : Prop := nonul s /\ Forall (fun c => issp c = false) s.

Lemma alltrim_no_blank s : Forall (fun c => issp c = false) s -> alltrim s = s.
Proof.
  intros H. destruct (alltrim_split s) as (pre & post & E & Hpre & Hpost & _).
  assert (N : forall l, Forall (fun c => issp c = true) l -> Forall (fun c => issp c = false) l -> l = []).
  { intros [|c l] H1 H2; [done|]. inversion H1; inversion H2; congruence. }
  rewrite E in H. apply Forall_app in H as [H1 H2]. apply Forall_app in H2 as [_ H2].
  rewrite E at 2. now rewrite (N pre Hpre H1), (N post Hpost H2), app_nil_r.
Qed.

(** [strncpy] to a cleared buffer and [AllTrim] of a word. *)
Lemma trim_word s : no_blank s -> (length s <= 32)%nat ->
  exists b, AllTrim (buf_of 33 s) = Some b /\ cstr b = s.
Proof.
  intros [Hn Hs] Hl. destruct (buf_of_nul 33 s) as [t0 E]; [lia|]. rewrite E.
  destruct (AllTrim_spec (s ++ NUL :: t0)) as (b & Eb & Hb & _); [apply terminated_app|].
  exists b. split; [exact Eb|]. now rewrite Hb, cstr_app_nul, alltrim_no_blank.
Qed.

Lemma no_blank_take n s : no_blank s -> no_blank (take n s).
Proof. intros [H1 H2]. split; now apply Forall_take. Qed.

Lemma token_no_blank s : is_token delims s -> no_blank s.
Proof.
  intros (_ & H & Hn). split; [done|]. eapply Forall_impl; [exact H|]. intros c Hc.
  destruct (issp c) eqn:E; [|done]. apply ceqb_eq in E. subst c. discriminate Hc.
Qed.

Ltac literal_token := split; [discriminate | split; repeat constructor; discriminate].

(** ** One setting *)

(** Comparing a key with the keys the loop knows. *)
Ltac key_tests :=
  repeat match goal with
    | |- context [streq (str ?a) (str ?b)] =>
        let v := eval vm_compute in (streq (str a) (str b)) in
        change (streq (str a) (str b)) with v
    end; cbn beta iota.

Lemma plus_in a b w : INT_MIN <= a + b <= INT_MAX -> plus a b w = Ret (a + b) w.
Proof.
  intros H. unfold plus. destruct (Z.leb_spec INT_MIN (a + b)); [|lia].
  destruct (Z.leb_spec (a + b) INT_MAX); [done|lia].
Qed.

Lemma index_of_app c a s : Forall (fun x => x <> c) a -> index_of c (a ++ c :: s) = Some (length a).
Proof.
  induction 1 as [|x a Hx _ IH]; cbn [app index_of length]; [now rewrite ceqb_refl|].
  now rewrite (proj2 (ceqb_neq _ _) Hx), IH.
Qed.

Section Setting.
Context (i : Z) (buf : bytes) (w : world) (t : server_tab_t).
Hypotheses (Hbuf : (length buf <= 2049)%nat) (Ha : attached w = true)
  (Ht : znth (tSvrTab w) i = Some t).

(** The process after an assignment to the entry. *)
Definition with_entry (f : server_tab_t -> server_tab_t) : world :=
  set_tSvrTab (zupd i f (tSvrTab w)) w.

Lemma key_and_value p sp key v c rest :
  drop p buf = sp ++ (key ++ "="%char :: v) ++ c :: rest ->
  Forall (fun c => memc c delims = true) sp ->
  is_token delims key -> (length key <= 128)%nat -> is_token delims v -> (length v <= 128)%nat ->
  (c = NUL \/ c = SP) -> terminated (c :: rest) = true ->
  exists q p', next_word buf p w = Ret (Some (key, q)) w /\ next_word buf q w = Ret (Some (v, p')) w
    /\ drop p' buf = rest.
Proof.
  intros Ed Hsp Hk Lk Hv Lv Hc T. rewrite <- !app_assoc in Ed. cbn [app] in Ed.
  destruct (next_word_token buf p sp key "="%char (v ++ c :: rest) w Ed Hsp Hk Lk) as [E1 D1];
    [now right|change ("="%char :: v ++ c :: rest) with (["="%char] ++ v ++ c :: rest);
      rewrite app_assoc; now apply terminated_suffix|done|].
  destruct (next_word_token buf _ [] v c rest w D1 ltac:(constructor) Hv Lv) as [E2 D2];
    [destruct Hc as [->| ->]; auto|done|done|]. eauto.
Qed.

(** The two words of [KEY=VALUE], read by the loop. *)
Ltac two_words key v :=
  lazymatch goal with
  | _ : drop ?p buf = ?sp ++ _ ++ ?c :: ?rest |- _ =>
      let q := fresh "q" in let p' := fresh "p" in
      let E1 := fresh "E" in let E2 := fresh "E" in let D := fresh "D" in
      destruct (key_and_value p sp key v c rest) as (q & p' & E1 & E2 & D);
      [assumption|assumption|literal_token|cbn; lia|first [apply fmt_d_token|assumption]
      |first [apply fmt_d_token|assumption]|assumption|assumption|];
      exists p'; split; [exact D|]; cbn [parse_loop];
      rewrite (bind_Ret _ _ _ _ _ E1); key_tests; rewrite (bind_Ret _ _ _ _ _ E2); cbn beta iota
  end.

Lemma upd_eq f : upd_svr i f w = Ret tt (with_entry f).
Proof. exact (upd_entry_eq tSvrTab set_tSvrTab i f w t Ha Ht). Qed.

(** A setting of the form [KEY=VALUE], ended by a blank or by the end of the string. *)
Lemma parse_keyed fuel p sp s c rest :
  drop p buf = sp ++ print_setting s ++ c :: rest ->
  Forall (fun c => memc c delims = true) sp -> setting_ok s -> is_parm s = false ->
  (c = NUL \/ c = SP) -> terminated (c :: rest) = true ->
  exists p', drop p' buf = rest
    /\ parse_loop (S fuel) i buf p w
       = parse_loop fuel i buf p' (with_entry (fun t => apply_setting t s)).
Proof.
  intros Ed Hsp Hok Hs Hc T.
  destruct s as [id|n|a|a|]; [..|discriminate Hs]; cbn [print_setting setting_ok] in Ed, Hok.
  - two_words (str "SRVID") (fmt_d id).
    rewrite atoi_fmt_d by (unfold SVR_MSG_TYPE_ROOT in Hok; lia).
    rewrite (bind_Ret _ _ _ _ _ (upd_eq _)).
    erewrite bind_Ret by (apply plus_in; unfold SVR_MSG_TYPE_ROOT in *; lia).
    set (w1 := with_entry _).
    erewrite bind_Ret by (apply (upd_entry_eq tSvrTab set_tSvrTab i _ w1 (set_svrid id t)); [exact Ha|];
      apply (znth_zupd_eq i (set_svrid id) _ _ Ht)).
    f_equal. unfold with_entry. cbn [tSvrTab w1 with_entry set_tSvrTab]. rewrite zupd_zupd. reflexivity.
  - two_words (str "SRVNUM") (fmt_d n).
    rewrite atoi_fmt_d by lia. now rewrite (bind_Ret _ _ _ _ _ (upd_eq _)).
  - destruct Hok as [Hok Hl]. two_words (str "RQADDR") a.
    destruct (trim_word (take NAME_LEN a)) as (b & Eb & Hb);
      [now apply no_blank_take, token_no_blank|rewrite length_take; unfold NAME_LEN; lia|].
    rewrite Eb. erewrite bind_Ret by reflexivity. rewrite Hb.
    now rewrite (bind_Ret _ _ _ _ _ (upd_eq _)).
  - destruct Hok as [Hok Hl]. two_words (str "REPLYQ") a.
    now rewrite (bind_Ret _ _ _ _ _ (upd_eq _)).
Qed.

(** A parameter between quotes. *)
Lemma parse_parm fuel p sp text rest :
  drop p buf = sp ++ print_setting (SrvParm text) ++ rest ->
  Forall (fun c => memc c delims = true) sp -> setting_ok (SrvParm text) ->
  terminated rest = true ->
  exists p', drop p' buf = rest
    /\ parse_loop (S fuel) i buf p w
       = parse_loop fuel i buf p' (with_entry (fun t => apply_setting t (SrvParm text))).
Proof.
  intros Ed Hsp (Hn & Hq & Hl) T. cbn [print_setting] in Ed. rewrite <- app_assoc in Ed. cbn [app] in Ed.
  rewrite <- app_assoc in Ed. cbn [app] in Ed.
  assert (T1 : terminated (QUOTE :: text ++ QUOTE :: rest) = true).
  { change (QUOTE :: text ++ QUOTE :: rest) with ((QUOTE :: text) ++ [QUOTE] ++ rest).
    rewrite app_assoc. now apply terminated_suffix. }
  destruct (next_word_token buf p sp (str "SRVPARM") "="%char _ w Ed Hsp) as [E1 D1];
    [literal_token|cbn; lia|now right|exact T1|done|].
  set (q := (_ + 1)%nat) in E1, D1. cbn [parse_loop]. rewrite (bind_Ret _ _ _ _ _ E1). key_tests.
  rewrite D1, T1. cbn [negb]. unfold strchr at 1. rewrite D1. cbn [cstr ceqb index_of].
  replace (index_of QUOTE _) with (Some O) by reflexivity.
  change (fmap _ (Some O)) with (Some (q + 0)%nat). cbn beta iota. rewrite Nat.add_0_r.
  assert (D2 : drop (q + 1) buf = text ++ QUOTE :: rest) by (rewrite <- drop_drop, D1; done).
  unfold strchr. rewrite D2, cstr_app, cstr_cons, index_of_app by (done || discriminate).
  cbn [fmap option_fmap option_map]. replace (q + 1 + length text - q - 1)%nat with (length text) by lia.
  rewrite take_app_length. erewrite bind_Ret.
  2: { unfold fit, SERVER_MAX_PARAM. destruct (Z.leb_spec (Z.of_nat (length text)) 128); [reflexivity|lia]. }
  rewrite (bind_Ret _ _ _ _ _ (upd_eq _)). eexists. split; [|reflexivity].
  replace (q + 1 + length text + 1)%nat with (q + 1 + length (text ++ [QUOTE]))%nat
    by (rewrite length_app; cbn; lia).
  rewrite <- drop_drop, D2.
  change (QUOTE :: rest) with ([QUOTE] ++ rest). rewrite app_assoc. apply drop_app_length.
Qed.
End Setting.

(** ** All the settings *)

Lemma with_entry_id i w : with_entry i w (fun t => t) = w.
Proof.
  unfold with_entry. apply world_eq; try reflexivity. cbn [tSvrTab set_tSvrTab].
  unfold zupd. destruct (i <? 0); [done|]. apply list_eq. intros j.
  destruct (decide (Z.to_nat i = j)) as [<-|Hne].
  - rewrite list_lookup_alter_eq. now destruct (_ !! _).
  - now rewrite list_lookup_alter_ne.
Qed.

Lemma with_entry_twice i w f g :
  with_entry i (with_entry i w f) g = with_entry i w (fun t => g (f t)).
Proof. unfold with_entry. apply world_eq; try reflexivity. apply zupd_zupd. Qed.

Lemma with_entry_ext i w f g : (forall t, f t = g t) -> with_entry i w f = with_entry i w g.
Proof.
  intros H. unfold with_entry. replace (zupd i g (tSvrTab w)) with (zupd i f (tSvrTab w)); [done|].
  unfold zupd. destruct (i <? 0); [done|]. apply list_eq. intros j.
  destruct (decide (Z.to_nat i = j)) as [<-|Hne].
  - rewrite !list_lookup_alter_eq. destruct (_ !! _); cbn; [now rewrite H|done].
  - now rewrite !list_lookup_alter_ne.
Qed.

Definition nuls (k : nat) : bytes := replicate k NUL.

Lemma terminated_nuls k : (1 <= k)%nat -> terminated (nuls k) = true.
Proof. intros. destruct k; [lia|done]. Qed.

(** Settings, with one blank between them. *)
Definition settings (ss : list setting) : bytes :=
  match ss with [] => [] | s :: ss => print_setting s ++ more ss end.

Lemma more_settings ss : more ss = if bool_decide (ss = []) then [] else SP :: settings ss.
Proof. now destruct ss. Qed.

Section Line.
Context (i : Z) (buf : bytes).
Hypothesis (Hbuf : (length buf <= 2049)%nat).

Lemma parse_settings ss fuel p sp k w t :
  attached w = true -> znth (tSvrTab w) i = Some t -> Forall setting_ok ss ->
  drop p buf = sp ++ settings ss ++ nuls k -> Forall (fun c => memc c delims = true) sp ->
  (1 <= k)%nat -> (ss <> [] -> (2 <= k)%nat) -> (length ss < fuel)%nat ->
  parse_loop fuel i buf p w = Ret 0 (with_entry i w (fun t => fold_left apply_setting ss t)).
Proof.
  revert fuel p sp k w t. induction ss as [|s ss IH]; intros fuel p sp k w t Ha Ht Hok Ed Hsp Hk Hk2 Hf.
  - destruct fuel as [|fuel]; [cbn in Hf; lia|]. cbn [parse_loop].
    cbn [settings app] in Ed. rewrite (bind_Ret _ _ w None w); [now rewrite (with_entry_ext i w _ (fun t => t)), with_entry_id|].
    apply next_word_none; [|rewrite Ed; now apply terminated_suffix, terminated_nuls|done].
    rewrite Ed, cstr_app by (now apply delims_nonul). destruct k; [lia|].
    cbn [nuls replicate cstr]. now rewrite ceqb_refl, app_nil_r.
  - apply Forall_cons in Hok as [Hs Hok]. specialize (Hk2 ltac:(done)).
    destruct fuel as [|fuel]; [cbn in Hf; lia|]. cbn [length] in Hf. cbn [settings] in Ed.
    assert (Next : forall p' sp' k', drop p' buf = sp' ++ settings ss ++ nuls k' ->
      Forall (fun c => memc c delims = true) sp' -> (1 <= k')%nat -> (ss <> [] -> (2 <= k')%nat) ->
      parse_loop fuel i buf p' (with_entry i w (fun t => apply_setting t s))
      = Ret 0 (with_entry i w (fun t => fold_left apply_setting (s :: ss) t))).
    { intros p' sp' k' D H1 H2 H3. rewrite (IH fuel p' sp' k' _ (apply_setting t s)); try assumption; [..|lia].
      - now rewrite with_entry_twice.
      - exact (znth_zupd_eq i (fun t => apply_setting t s) _ _ Ht). }
    rewrite <- app_assoc in Ed. destruct (is_parm s) eqn:E.
    + destruct s as [| | | |text]; try discriminate E.
      destruct (parse_parm i buf w t Hbuf Ha Ht fuel p sp text _ Ed Hsp Hs) as (p' & D & ->);
        [apply terminated_suffix, terminated_nuls; lia|].
      rewrite more_settings in D. case_bool_decide as E2; subst.
      * now apply (Next p' [] k).
      * apply (Next p' [SP] k); [now rewrite D|now constructor|lia|lia].
    + rewrite more_settings in Ed. case_bool_decide as E2.
      * subst ss. destruct k as [|k]; [lia|]. cbn [app nuls replicate] in Ed.
        destruct (parse_keyed i buf w t Hbuf Ha Ht fuel p sp s NUL _ Ed Hsp Hs E) as (p' & D & ->);
          [auto|done|]. apply (Next p' [] k); [now rewrite D|constructor|lia|done].
      * cbn [app] in Ed.
        destruct (parse_keyed i buf w t Hbuf Ha Ht fuel p sp s SP _ Ed Hsp Hs E) as (p' & D & ->);
          [auto|change (SP :: settings ss ++ nuls k) with ([SP] ++ settings ss ++ nuls k);
            rewrite app_assoc; apply terminated_suffix, terminated_nuls; lia|].
        apply (Next p' [] k); [now rewrite D|constructor|lia|lia].
Qed.
End Line.

Lemma length_settings ss : (length ss <= length (more ss))%nat.
Proof. induction ss as [|s ss IH]; cbn [more length]; [lia|]. rewrite length_app. lia. Qed.

(** A printed setting other than a parameter is one word. *)
Lemma setting_token s : setting_ok s -> is_parm s = false -> is_token blank (print_setting s).
Proof.
  assert (L : forall key v, is_token blank key -> is_token delims v -> is_token blank (key ++ "="%char :: v)).
  { intros key v (Hne & Hk & Nk) (_ & Hv & Nv). split; [now destruct key|].
    split; apply Forall_app; (split; [done|]); (constructor; [done|]); [|done].
    eapply Forall_impl; [exact Hv|]. intros c Hc. unfold memc, delims, blank in *. cbn in *.
    apply orb_false_iff in Hc as [_ Hc]. exact Hc. }
  intros Hok Hs. destruct s as [id|n|a|a|]; [..|discriminate Hs]; cbn [print_setting setting_ok] in *;
    (apply L; [literal_token|]); first [apply fmt_d_token | apply Hok].
Qed.

(** ** The whole line *)

Definition program (w : world) (name : bytes) : bytes :=
  o_home (w_os w) ++ str "/bin/" ++ take NAME_LEN name.

Lemma file_exists_eq path w :
  file_exists path w = Ret (bool_decide (path ∈ o_files (w_os w))) w.
Proof.
  unfold file_exists, bind. cbn [get obind ret id]. f_equal. generalize (o_files (w_os w)). intros l.
  induction l as [|f l IH]; cbn [existsb]; [done|]. rewrite IH.
  destruct (decide (f = path)) as [->|Hne].
  - rewrite (bool_decide_true (path = path)), (bool_decide_true (path ∈ path :: l)) by (done || apply list_elem_of_here). done.
  - rewrite (bool_decide_false (f = path)) by done. cbn [orb]. apply bool_decide_ext.
    rewrite elem_of_cons. intuition congruence.
Qed.

Lemma fit_eq n s (w : world) : Z.of_nat (length s) <= n -> fit n s w = Ret s w.
Proof. intros H. unfold fit. destruct (Z.leb_spec (Z.of_nat (length s)) n); [done|lia]. Qed.

Lemma upd_svr_then i f w t (k : prog world Z) :
  attached w = true -> znth (tSvrTab w) i = Some t ->
  (upd_svr i f ;;; k) w = k (with_entry i w f).
Proof. intros Ha Ht. now rewrite (bind_Ret _ _ _ _ _ (upd_eq i w t Ha Ht f)). Qed.

Lemma blank_token_no_blank s : is_token blank s -> no_blank s.
Proof.
  intros (_ & H & Hn). split; [done|]. eapply Forall_impl; [exact H|]. intros c Hc.
  unfold memc, blank in Hc. cbn in Hc. now apply orb_false_iff in Hc as [? _].
Qed.

(** Up to the first setting: the two words that [strtok] finds, the program's name and
    the entry with its defaults. *)
Lemma register_server_start i w t name s tail :
  attached w = true -> znth (tSvrTab w) i = Some t -> is_token blank name ->
  is_token blank (print_setting s) -> (exists c r, tail = c :: r /\ (c = NUL \/ c = SP)) ->
  Z.of_nat (length (program w name)) <= 128 ->
  register_server i (name ++ SP :: print_setting s ++ tail) w
  = if bool_decide (program w name ∈ o_files (w_os w))
    then (let buf := name ++ NUL :: print_setting s ++ NUL :: tl tail in
          parse_loop (S (length buf)) i buf (length name + 1)
            (with_entry i w (fresh_server (take NAME_LEN name))))
    else Ret 1 w.
Proof.
  intros Ha Ht Hn Hs (c & r & -> & Hc) Hp. unfold register_server.
  pose proof (strtok_token blank [] [] name SP (print_setting s ++ c :: r)
    ltac:(constructor) ltac:(constructor) Hn eq_refl ltac:(discriminate)) as E.
  cbn [app length Nat.add] in E. rewrite E. cbn [drop].
  replace ((name ++ [NUL]) ++ print_setting s ++ c :: r) with (name ++ NUL :: print_setting s ++ c :: r)
    by (now rewrite <- app_assoc).
  rewrite drop_0, cstr_app_nul by apply Hn.
  destruct (trim_word (take NAME_LEN name)) as (b & Eb & Hb);
    [apply no_blank_take; now apply blank_token_no_blank|rewrite length_take; unfold NAME_LEN; lia|].
  rewrite Eb. erewrite bind_Ret by reflexivity. rewrite Hb. erewrite bind_Ret by reflexivity. cbn [id].
  rewrite (bind_Ret _ _ _ _ _ (fit_eq 128 (program w name) w Hp)).
  rewrite (bind_Ret _ _ _ _ _ (file_exists_eq (program w name) w)).
  case_bool_decide as F; [cbn [negb]|done].
  do 3 (erewrite upd_svr_then; [|exact Ha|first [exact Ht | apply znth_zupd_eq; exact Ht
    | apply znth_zupd_eq, znth_zupd_eq; exact Ht]]). rewrite !with_entry_twice.
  assert (E2 : exists pos, strtok blank (name ++ NUL :: print_setting s ++ c :: r) (length (name ++ [NUL]))
    = (Some (length name + 1)%nat, name ++ NUL :: print_setting s ++ NUL :: r, pos)).
  { change (name ++ NUL :: print_setting s ++ c :: r)
      with (name ++ [NUL] ++ [] ++ print_setting s ++ c :: r).
    rewrite app_assoc. destruct Hc as [->| ->]; eexists.
    - rewrite strtok_last by (done || constructor). cbn [app].
      rewrite <- !app_assoc, length_app. cbn [app length]. rewrite Nat.add_0_r. reflexivity.
    - rewrite strtok_token by (done || constructor). cbn [app].
      rewrite <- !app_assoc, length_app. cbn [app length]. rewrite Nat.add_0_r. reflexivity. }
  destruct E2 as [pos ->]. cbn [tl]. f_equal.
Qed.

Lemma register_server_eq i w t name s ss k :
  attached w = true -> znth (tSvrTab w) i = Some t ->
  is_token blank name -> Forall setting_ok (s :: ss) -> is_parm s = false -> (2 <= k)%nat ->
  (length (print_line name s ss ++ nuls k) <= 2049)%nat -> Z.of_nat (length (program w name)) <= 128 ->
  register_server i (print_line name s ss ++ nuls k) w
  = if bool_decide (program w name ∈ o_files (w_os w))
    then Ret 0 (with_entry i w (fun t =>
           fold_left apply_setting (s :: ss) (fresh_server (take NAME_LEN name) t)))
    else Ret 1 w.
Proof.
  intros Ha Ht Hn Hok Hs Hk Hl Hp. unfold print_line in *. rewrite <- !app_assoc in *. cbn [app] in *.
  rewrite <- !app_assoc in *. apply Forall_cons in Hok as [Hok1 Hok].
  rewrite (register_server_start i w t name s (more ss ++ nuls k)); try assumption;
    [|now apply setting_token
     |destruct ss; [destruct k; [lia|]|]; cbn [more nuls replicate app]; eauto].
  case_bool_decide; [|done]. cbn zeta.
  set (tail := tl (more ss ++ nuls k)). set (buf := name ++ NUL :: _).
  assert (Lb : (length buf <= 2049)%nat).
  { unfold buf, tail. revert Hl. rewrite !length_app. cbn [length]. rewrite !length_app. cbn [length].
    rewrite length_tl, length_app. destruct k; [lia|]. unfold nuls. cbn [replicate length]. lia. }
  set (w1 := with_entry i w _).
  assert (Ht1 : znth (tSvrTab w1) i = Some (fresh_server (take NAME_LEN name) t))
    by (apply (znth_zupd_eq i _ _ _ Ht)).
  assert (D : drop (length name + 1) buf = [] ++ print_setting s ++ NUL :: tail).
  { unfold buf. rewrite drop_app_add. done. }
  assert (Tail : exists k', tail = settings ss ++ nuls k' /\ (1 <= k')%nat /\ (ss <> [] -> (2 <= k')%nat)).
  { unfold tail. rewrite more_settings. case_bool_decide as E2.
    - subst ss. exists (pred k). destruct k; [lia|]. cbn. split; [done|]. split; [lia|done].
    - exists k. cbn [app tl]. split; [done|]. lia. }
  destruct Tail as (k' & Et & H1 & H2).
  destruct (parse_keyed i buf w1 _ Lb Ha Ht1 (length buf) (length name + 1) [] s NUL tail D)
    as (p' & D' & ->); [constructor|done|done|auto|done|]. unfold w1 in *.
  rewrite (parse_settings i buf Lb ss (length buf) p' [] k' _
    (apply_setting (fresh_server (take NAME_LEN name) t) s)); try done.
  - now rewrite !with_entry_twice.
  - now apply (znth_zupd_eq i (fun t => apply_setting t s)).
  - now rewrite D', Et.
  - pose proof (length_settings ss) as L. unfold buf, tail. rewrite length_app. cbn [length].
    rewrite length_app. cbn [length]. rewrite length_tl, length_app.
    unfold nuls. rewrite length_replicate. lia.
Qed.

(** Reading a printed line of [tsk.task] gives the settings back.  For a program that
    is installed, [register_server] on the line of a name and settings (the first one
    not a parameter) terminates with 0, having set the entry to the defaults (5
    processes, 20 seconds, replies) under the name, cut to 32 bytes, changed by the
    settings in their order; the server's old id, type and message type stay when no
    [SRVID] is given.  For a program that is not installed it answers 1 and changes
    nothing. *)
Theorem register_server_correct i w t name s ss k :
  attached w = true -> znth (tSvrTab w) i = Some t ->
  is_token blank name -> Forall setting_ok (s :: ss) -> is_parm s = false -> (2 <= k)%nat ->
  (length (print_line name s ss ++ nuls k) <= 2049)%nat -> Z.of_nat (length (program w name)) <= 128 ->
  register_server i (print_line name s ss ++ nuls k) w
  = if bool_decide (program w name ∈ o_files (w_os w))
    then Ret 0 (with_entry i w (fun t =>
           fold_left apply_setting (s :: ss) (fresh_server (take NAME_LEN name) t)))
    else Ret 1 w.
Proof. apply register_server_eq. Qed.

(** *** Witness *)

Definition demo_home (files : list bytes) : world :=
  set_w_os (mkOs (o_kern (demo_sem 1)) 0 [] [] 1000 100 [] [] [] None (str "/home/sunda") files None)
    (demo_tables [free_svc; free_svc; free_svc]).

Definition demo_settings : list setting :=
  [SrvNum 2; RqAddr (str "ECHO"); SrvParm (str "x y"); ReplyQ (str "N")].

Lemma register_server_correct_witness :
  register_server 2 (print_line (str "echo") (SrvId 7) demo_settings ++ nuls 2)
    (demo_home [str "/home/sunda/bin/echo"])
  = Ret 0 (with_entry 2 (demo_home [str "/home/sunda/bin/echo"]) (fun _ =>
      mkSvr 7 (str "echo") (str "ECHO") (str "x y") 2 SVR_PERM SVR_REPLY_NONEED 0 300007 20)).
Proof.
  rewrite (register_server_correct 2 (demo_home [str "/home/sunda/bin/echo"]) clear_svr (str "echo")
    (SrvId 7) demo_settings 2); [reflexivity|reflexivity|reflexivity|literal_token| |reflexivity|lia|cbn; lia|cbn; lia].
  constructor; [cbn; unfold INT_MIN, INT_MAX, SVR_MSG_TYPE_ROOT; lia|].
  constructor; [cbn; unfold INT_MIN, INT_MAX; lia|].
  constructor; [split; [literal_token|cbn; lia]|].
  constructor; [split; [|split]; [repeat constructor; discriminate..|cbn; lia]|].
  constructor; [split; [literal_token|cbn; lia]|constructor].
Defined.
