(* ===== verification/Invariant.v ===== *)
(** * The tables stay well formed

    [tables_ok] is kept by every operation of the system, from the callers of
    [tuxmgr.c] to the main programs of a server and of the manager, wherever they stop:
    when they return, jump, exit or block. *)

From Stdlib Require Import ZArith Lia Bool List Ascii String.
From stdpp Require Import base list gmap.
From S2P Require Import Prelude Cstr Funstr Kernel Funmsq Funipc Funfile Sunda Tuxmem Registry.
From S2P Require Import Tuxcall Tuxcmd Governor.

Lemma keeps_bind_post {S A B} (I : S -> Prop) (P : A -> Prop) (m : prog S A) (k : A -> prog S B) :
  keeps I m -> (forall s a s', m s = Ret a s' -> P a) -> (forall a, P a -> keeps I (k a)) ->
  keeps I (bind m k).
Proof.
  intros Hm HP Hk s Hs. specialize (Hm s Hs). unfold bind.
  destruct (m s) as [a s'| | | | |] eqn:E; cbn in *; auto. apply (Hk a (HP _ _ _ E) s' Hm).
Qed.

(** ** Steps that do not touch the tables *)

Lemma keeps_same {A} (m : prog world A) :
  (forall w, holds (fun w' => w_ctrl w' = w_ctrl w /\ tSvrTab w' = tSvrTab w
     /\ tSvrPid w' = tSvrPid w /\ tSvcTab w' = tSvcTab w) (m w)) -> keeps tables_ok m.
Proof.
  intros H w K. specialize (H w). destruct (m w); cbn in *; try exact I;
    destruct H as (E1 & E2 & E3 & E4); exact (tables_ok_keep w _ E1 E2 E3 E4 K).
Qed.

Lemma keeps_modify_same f :
  (forall w, w_ctrl (f w) = w_ctrl w /\ tSvrTab (f w) = tSvrTab w
     /\ tSvrPid (f w) = tSvrPid w /\ tSvcTab (f w) = tSvcTab w) -> keeps tables_ok (modify f).
Proof. intros H. apply keeps_same. intros w. exact (H w). Qed.

Lemma keeps_store a bs : keeps tables_ok (store a bs).
Proof. apply keeps_same. intros w. unfold store. destruct (_ ≫= _); cbn; auto. Qed.

Lemma keeps_load a n : keeps tables_ok (load a n).
Proof. apply keeps_same. intros w. unfold load. destruct (_ ≫= _); cbn; auto. Qed.

Lemma keeps_load_str a : keeps tables_ok (load_str a).
Proof.
  apply keeps_same. intros w. unfold load_str. destruct (_ !! _); [|exact I].
  destruct (terminated _); cbn; auto.
Qed.

Lemma keeps_new_object b : keeps tables_ok (new_object b).
Proof. apply keeps_same. intros w. cbn. auto. Qed.

Lemma keeps_drop_object p : keeps tables_ok (drop_object p).
Proof. apply keeps_modify_same. cbn. auto. Qed.

Lemma keeps_object p : keeps tables_ok (object p).
Proof. apply keeps_same. intros w. unfold object. destruct (_ =? _); [|exact I]. destruct (_ !! _); cbn; auto. Qed.

Lemma keeps_fit n s : keeps tables_ok (fit n s).
Proof. unfold fit. keeps_tac. Qed.

Lemma keeps_longjmp {A} v : keeps tables_ok (longjmp (A := A) v).
Proof. intros w K. exact K. Qed.

#[export] Hint Resolve keeps_store keeps_load keeps_load_str keeps_new_object keeps_drop_object
  keeps_object keeps_fit keeps_longjmp : keeps.

(** Fields outside the tables. *)
#[export] Hint Extern 1 (keeps tables_ok (modify _)) =>
  apply keeps_modify_same; intros; refine (conj _ (conj _ (conj _ _))); reflexivity : keeps.

Lemma keeps_tux_alloc ty n : keeps tables_ok (tux_alloc ty n).
Proof. unfold tux_alloc, malloc. keeps_tac. Qed.

Lemma keeps_IS_MAGIC p : keeps tables_ok (IS_MAGIC p).
Proof. unfold IS_MAGIC. keeps_tac. Qed.

Lemma keeps_load_tp p : keeps tables_ok (load_tp p).
Proof. unfold load_tp. keeps_tac. Qed.
#[export] Hint Resolve keeps_tux_alloc keeps_IS_MAGIC keeps_load_tp : keeps.

Lemma keeps_tux_realloc p n : keeps tables_ok (tux_realloc p n).
Proof. unfold tux_realloc, realloc. keeps_tac. Qed.

Lemma keeps_tux_free p : keeps tables_ok (tux_free p).
Proof. unfold tux_free, free. keeps_tac. Qed.

Lemma keeps_tux_real_len p : keeps tables_ok (tux_real_len p).
Proof. unfold tux_real_len. keeps_tac. Qed.
#[export] Hint Resolve keeps_tux_realloc keeps_tux_free keeps_tux_real_len : keeps.

Lemma keeps_locatemb n : keeps tables_ok (tux_locatemb n).
Proof. unfold tux_locatemb. keeps_tac. Qed.
Lemma keeps_find_server_id n : keeps tables_ok (find_server_id n).
Proof. unfold find_server_id. keeps_tac. Qed.
Lemma keeps_svr i : keeps tables_ok (svr i).
Proof. unfold svr. keeps_tac. Qed.
Lemma keeps_pidt i : keeps tables_ok (pidt i).
Proof. unfold pidt. keeps_tac. Qed.
Lemma keeps_svc i : keeps tables_ok (svc i).
Proof. unfold svc. keeps_tac. Qed.
#[export] Hint Resolve keeps_locatemb keeps_find_server_id keeps_svr keeps_pidt keeps_svc : keeps.

(** ** Calls *)

Section Calls.
Context (handler : Z -> prog world unit) (svc_call : Z -> sd_info_t -> prog world unit).
Hypotheses (Hh : forall s, keeps tables_ok (handler s))
  (Hf : forall f info, keeps tables_ok (svc_call f info)).

Lemma keeps_sys {A} (m : prog os A) : keeps tables_ok (sys handler m).
Proof. unfold sys, run_handlers, tux_timefunc. keeps_tac. Qed.
Hint Resolve keeps_sys : keeps.

Lemma keeps_fill off bs m : keeps tables_ok (fill off bs m).
Proof. unfold fill. keeps_tac. Qed.
Hint Resolve keeps_fill : keeps.

Lemma keeps_request s b n : keeps tables_ok (request s b n).
Proof. unfold request. keeps_tac. Qed.
Hint Resolve keeps_request : keeps.

Lemma keeps_tux_acall n b l f : keeps tables_ok (tux_acall handler n b l f).
Proof. unfold tux_acall. keeps_tac. Qed.

Lemma keeps_tux_getreply cd b l f : keeps tables_ok (tux_getreply handler cd b l f).
Proof. unfold tux_getreply. keeps_tac. Qed.

Lemma keeps_tux_call n b l r rl f : keeps tables_ok (tux_call handler n b l r rl f).
Proof. unfold tux_call, tux_settimer, tux_timer_expired. keeps_tac. Qed.

Lemma keeps_tux_forward n b l f : keeps tables_ok (tux_forward handler n b l f).
Proof. unfold tux_forward. keeps_tac. Qed.

Lemma keeps_tux_return rv rc b l f : keeps tables_ok (tux_return handler rv rc b l f).
Proof. unfold tux_return, tux_return_reply. keeps_tac. Qed.

Lemma keeps_receive n q t m : keeps tables_ok (receive handler n q t m).
Proof. revert m. induction n as [|n IH]; intros m; cbn [receive]; keeps_tac; try apply IH. Qed.

Lemma keeps_setjmp m k :
  keeps tables_ok m -> (forall v, keeps tables_ok (k v)) -> keeps tables_ok (with_setjmp m k).
Proof.
  intros Hm Hk w K. specialize (Hm w K). unfold with_setjmp.
  destruct (m w); cbn in *; try exact Hm; try exact I; now apply Hk.
Qed.

Lemma keeps_tux_service svrid pos : keeps tables_ok (tux_service handler svc_call svrid pos).
Proof.
  unfold tux_service. keeps_tac; [apply keeps_receive|].
  apply keeps_setjmp; [|keeps_tac]. unfold call_fun. keeps_tac; auto.
Qed.

Lemma keeps_clean_loop n q t m : keeps tables_ok (clean_loop handler n q t m).
Proof. revert m. induction n as [|n IH]; intros m; cbn [clean_loop]; keeps_tac; try apply IH. Qed.

Lemma keeps_clean_task_msg t : keeps tables_ok (clean_task_msg handler t).
Proof. unfold clean_task_msg. keeps_tac. apply keeps_clean_loop. Qed.
End Calls.
#[export] Hint Resolve keeps_tux_acall keeps_tux_getreply keeps_tux_call keeps_tux_forward
  keeps_tux_return keeps_tux_service keeps_clean_task_msg : keeps.

(** ** Start *)

Lemma cfg_num_pos key def fp fp' n : 0 < def -> cfg_num key def fp = Ret n fp' -> 0 < n.
Proof.
  intros Hd. unfold cfg_num. intros ([rc v] & s1 & _ & H)%bind_Ret_inv.
  destruct (rc <? 0); [injection H as <- _; exact Hd|].
  apply bind_Ret_inv in H as (m & s2 & _ & H). destruct (Z.leb_spec m 0); injection H as <- _; lia.
Qed.

Lemma sys_params_pos fp n npid a b c fp' :
  sys_params fp = Ret (n, npid, a, b, c) fp' -> 0 < n /\ 0 < npid.
Proof.
  unfold sys_params. intros (n1 & s1 & E1 & H)%bind_Ret_inv. apply cfg_num_pos in E1; [|lia].
  apply bind_Ret_inv in H as (n2 & s2 & E2 & H). apply cfg_num_pos in E2; [|lia].
  do 4 (apply bind_Ret_inv in H as (? & ? & _ & H)). injection H as <- <- _ _ _ _. auto.
Qed.

Lemma fresh_tables_ok w c n npid :
  0 < n -> 0 < npid -> nsvrnum c = n -> npidnum c = npid ->
  tables_ok (set_tSvrTab (replicate (Z.to_nat n) clear_svr)
    (set_tSvrPid (replicate (Z.to_nat npid) clear_pid)
      (set_tSvcTab (replicate (Z.to_nat n) (set_flags (-1) zero_svc)) (set_w_ctrl c w)))).
Proof.
  intros Hn Hp E1 E2. split; cbn [tSvrTab tSvrPid tSvcTab w_ctrl set_tSvrTab set_tSvrPid set_tSvcTab set_w_ctrl];
    rewrite ?length_replicate; try lia; apply Forall_replicate; [constructor|split; [constructor|done]].
Qed.

Lemma keeps_createqueue a b : keeps tables_ok (createqueue a b).
Proof. unfold createqueue. keeps_tac. Qed.
#[export] Hint Resolve keeps_createqueue : keeps.

Lemma literal_nonul s : forallb (fun c => negb (ceqb c NUL)) s = true -> nonul s.
Proof.
  intros H. apply Forall_forall. intros c Hc ->. rewrite forallb_forall in H.
  apply list_elem_of_In in Hc. specialize (H NUL Hc). discriminate H.
Qed.

Lemma keeps_register_manager : keeps tables_ok register_manager.
Proof.
  unfold register_manager. keeps_tac. apply keeps_upd_svr. intros t _. now apply literal_nonul.
Qed.
#[export] Hint Resolve keeps_register_manager : keeps.

Lemma keeps_sys_start : keeps tables_ok sys_start.
Proof.
  unfold sys_start, open_cfg. apply keeps_bind; [keeps_tac|]. intros [fp|]; [|keeps_tac].
  apply (keeps_bind_post _ (fun p => 0 < (p.1.1.1.1 : Z) /\ 0 < (p.1.1.1.2 : Z))); [keeps_tac| |].
  { intros w [[[[n npid] a] b] c] w' H. unfold with_file in H.
    destruct (sys_params _) as [p fp'| | | | |] eqn:E; try discriminate H. injection H as -> _.
    exact (sys_params_pos _ _ _ _ _ _ _ E). }
  intros [[[[n npid] a] b] c] [Hn Hp]. cbn [fst snd] in Hn, Hp.
  apply keeps_bind; [keeps_tac|]. intros [m|]; [keeps_tac|].
  apply keeps_bind; [keeps_tac|]. intros [m|]; [|keeps_tac].
  do 3 (apply keeps_bind; [keeps_tac|]; intros ?).
  apply (keeps_ext _ _ (modify (fun w => set_tSvrTab (replicate (Z.to_nat n) clear_svr)
    (set_tSvrPid (replicate (Z.to_nat npid) clear_pid)
      (set_tSvcTab (replicate (Z.to_nat n) (set_flags (-1) zero_svc))
        (set_w_ctrl (mkCtrl n npid a2 0 a1 0 0 0 0 a) w)))) ;;; 
    (let* rc := createqueue b c in
      if negb (rc =? 0) then
        lift (shm_delete (Some SD_MEM_NAME) (Some a1)) ;;; ret rc
      else
        let* id := lift (sem_create (Some SD_SEM_NAME) 1) in
        upd_ctrl (set_semid id) ;;;
        if id <? 0 then
          set_tux_err SYS_OS ;;;
          lift (shm_delete (Some SD_MEM_NAME) (Some a1)) ;;;
          que_remove ;;;
          ret (-1)
        else register_manager ;;; ret 0))); [reflexivity|].
  apply keeps_bind.
  - apply keeps_modify. intros w _. now apply fresh_tables_ok.
  - unfold que_remove. keeps_tac.
Qed.

Lemma keeps_ipc_connect : keeps tables_ok ipc_connect.
Proof. unfold ipc_connect, que_connect. keeps_tac. Qed.
#[export] Hint Resolve keeps_sys_start keeps_ipc_connect : keeps.

Lemma keeps_tux_advertise name fn :
  match name with Some s => nonul s | None => True end -> keeps tables_ok (tux_advertise name fn).
Proof.
  intros Hn. unfold tux_advertise, find_svrno_by_service. destruct name as [s|]; keeps_tac.
  now apply keeps_new_service.
Qed.

Lemma keeps_tux_deletesvc taskid : keeps tables_ok (tux_deletesvc taskid).
Proof.
  unfold tux_deletesvc, tux_lock, tux_unlock. keeps_tac.
  apply keeps_map_svrs. intros t Ht. now destruct (_ =? _).
Qed.
#[export] Hint Resolve keeps_tux_deletesvc : keeps.

(** ** The manager *)

(** The fields of a server that hold names are set to strings. *)
#[export] Hint Extern 1 (keeps tables_ok (upd_svr _ (set_svc_name (cstr _)))) =>
  apply keeps_upd_svr; intros; apply cstr_nonul : keeps.
#[export] Hint Extern 1 (keeps tables_ok (upd_svr _ (fun t => set_name [] (set_svc_name [] _)))) =>
  apply keeps_upd_svr; intros; constructor : keeps.

Lemma keeps_sbSvrTabClear i : keeps tables_ok (sbSvrTabClear i).
Proof. unfold sbSvrTabClear. apply keeps_upd_svr. intros. constructor. Qed.
Lemma keeps_sdSvrPidClear i : keeps tables_ok (sdSvrPidClear i).
Proof. unfold sdSvrPidClear. keeps_tac. Qed.
#[export] Hint Resolve keeps_sbSvrTabClear keeps_sdSvrPidClear : keeps.

Lemma keeps_next_word buf p : keeps tables_ok (next_word buf p).
Proof. unfold next_word. keeps_tac. Qed.
Lemma keeps_plus a b : keeps tables_ok (plus a b).
Proof. unfold plus. keeps_tac. Qed.
#[export] Hint Resolve keeps_next_word keeps_plus : keeps.

Lemma keeps_parse_loop n i buf p : keeps tables_ok (parse_loop n i buf p).
Proof. revert p. induction n as [|n IH]; intros p; cbn [parse_loop]; keeps_tac; try apply IH. Qed.
#[export] Hint Resolve keeps_parse_loop : keeps.

Lemma keeps_register_server i buf : keeps tables_ok (register_server i buf).
Proof. unfold register_server, file_exists. keeps_tac. Qed.
#[export] Hint Resolve keeps_register_server : keeps.

Lemma keeps_read_parm pname fp : keeps tables_ok (read_parm pname fp).
Proof.
  intros w K. unfold read_parm. destruct (cf_nextparm _ _ _) as [[rc b] s| | | | |]; try exact I. exact K.
Qed.
Lemma keeps_set_timeout_of i : keeps tables_ok (set_timeout_of i).
Proof. unfold set_timeout_of. keeps_tac. Qed.
#[export] Hint Resolve keeps_read_parm keeps_set_timeout_of : keeps.

Lemma keeps_reload_loop n i taskid fp : keeps tables_ok (reload_loop n i taskid fp).
Proof. revert i fp. induction n as [|n IH]; intros; cbn [reload_loop]; keeps_tac; try apply IH. Qed.
Lemma keeps_load_loop n i fp : keeps tables_ok (load_loop n i fp).
Proof. revert i fp. induction n as [|n IH]; intros; cbn [load_loop]; keeps_tac; try apply IH. Qed.
#[export] Hint Resolve keeps_reload_loop keeps_load_loop : keeps.

Lemma keeps_reload_server_param i : keeps tables_ok (reload_server_param i).
Proof. unfold reload_server_param, open_cfg. keeps_tac. Qed.
Lemma keeps_server_load_cfg : keeps tables_ok server_load_cfg.
Proof. unfold server_load_cfg, open_cfg. keeps_tac. Qed.
#[export] Hint Resolve keeps_reload_server_param keeps_server_load_cfg : keeps.

Section Manager.
Context (execvp : bytes -> list bytes -> prog world Z).
Hypothesis Hx : forall f argv, keeps tables_ok (execvp f argv).

Lemma keeps_server_load f arg : keeps tables_ok (server_load execvp f arg).
Proof. unfold server_load. keeps_tac. Qed.
Hint Resolve keeps_server_load : keeps.

Lemma keeps_server_start_pid t i : keeps tables_ok (server_start_pid execvp t i).
Proof. unfold server_start_pid. keeps_tac. Qed.
Hint Resolve keeps_server_start_pid : keeps.

Lemma keeps_run_loop n i s : keeps tables_ok (run_loop execvp n i s).
Proof. revert i. induction n as [|n IH]; intros; cbn [run_loop]; unfold server_get_pidentry; keeps_tac; try apply IH. Qed.

Lemma keeps_server_run s : keeps tables_ok (server_run execvp s).
Proof. unfold server_run. keeps_tac. apply keeps_run_loop. Qed.
Hint Resolve keeps_server_run : keeps.

Lemma keeps_server_kill t c : keeps tables_ok (server_kill t c).
Proof. unfold server_kill. keeps_tac. Qed.
Hint Resolve keeps_server_kill : keeps.

Lemma keeps_unload_server : keeps tables_ok unload_server.
Proof. unfold unload_server. keeps_tac. Qed.
Hint Resolve keeps_unload_server : keeps.

Lemma keeps_load_server : keeps tables_ok (load_server execvp).
Proof. unfold load_server. keeps_tac. Qed.

Lemma keeps_death_loop n : keeps tables_ok (death_loop execvp n).
Proof.
  induction n as [|n IH]; cbn [death_loop]; [keeps_tac|].
  unfold one_death, server_find_pid. keeps_tac; try exact IH.
Qed.

Lemma keeps_handler sig : keeps tables_ok (handler execvp sig).
Proof.
  unfold handler, exit_handler, server_deatch. keeps_tac; try apply keeps_death_loop.
Qed.
Hint Resolve keeps_handler : keeps.

Lemma keeps_run_id_loop n t fp : keeps tables_ok (run_id_loop execvp n t fp).
Proof. revert fp. induction n as [|n IH]; intros; cbn [run_id_loop]; keeps_tac; try apply IH. Qed.

Lemma keeps_run_one_loop n t id fp : keeps tables_ok (run_one_loop execvp n t id fp).
Proof. revert fp. induction n as [|n IH]; intros; cbn [run_one_loop]; keeps_tac; try apply IH. Qed.

Lemma keeps_start_new id : keeps tables_ok (start_new execvp id).
Proof.
  unfold start_new, server_get_identry, run_one_task, open_cfg. keeps_tac; try apply keeps_run_one_loop.
Qed.
Hint Resolve keeps_start_new : keeps.

Lemma keeps_cmd_start id : keeps tables_ok (cmd_start execvp id).
Proof. unfold cmd_start, server_get_pidentry. keeps_tac. Qed.
Lemma keeps_cmd_exit id : keeps tables_ok (cmd_exit execvp id).
Proof. unfold cmd_exit. keeps_tac; auto with keeps. Qed.
Lemma keeps_cmd_fresh id : keeps tables_ok (cmd_fresh execvp id).
Proof. unfold cmd_fresh, run_task_id, open_cfg. keeps_tac; try apply keeps_run_id_loop. Qed.
Hint Resolve keeps_cmd_start keeps_cmd_exit keeps_cmd_fresh : keeps.

Lemma keeps_Governor info : keeps tables_ok (Governor execvp info).
Proof. unfold Governor. keeps_tac; auto with keeps. Qed.

Lemma keeps_svc_call fn info : keeps tables_ok (svc_call execvp fn info).
Proof. unfold svc_call. keeps_tac; try apply keeps_Governor. Qed.

Lemma keeps_manager_serve n : keeps tables_ok (Governor.serve execvp n).
Proof.
  induction n as [|n IH]; cbn [Governor.serve]; keeps_tac; try exact IH.
  apply keeps_tux_service; [apply keeps_handler|apply keeps_svc_call].
Qed.

Lemma keeps_manager n : keeps tables_ok (Governor.main execvp n).
Proof.
  unfold Governor.main, daemonize. keeps_tac.
  - apply keeps_tux_advertise. now apply literal_nonul.
  - apply keeps_load_server.
  - apply keeps_manager_serve.
Qed.
End Manager.

(** ** Servers and tools *)

Section Server.
Context (tux_svrinit : list bytes -> prog world Z) (tux_svrdone : prog world unit)
  (svc_call : Z -> sd_info_t -> prog world unit) (handler : Z -> prog world unit).
Hypotheses (Hi : forall argv, keeps tables_ok (tux_svrinit argv)) (Hd : keeps tables_ok tux_svrdone)
  (Hf : forall f info, keeps tables_ok (svc_call f info))
  (Hh : forall s, keeps tables_ok (handler s)).

Lemma keeps_server_serve n id pos : keeps tables_ok (Tuxcmd.serve tux_svrdone svc_call n id pos).
Proof.
  induction n as [|n IH]; cbn [Tuxcmd.serve]; keeps_tac; try exact IH.
  apply keeps_tux_service; [|exact Hf]. intros sig. unfold Tuxcmd.exit_handler. keeps_tac.
Qed.

Lemma keeps_server n argv : keeps tables_ok (Tuxcmd.main tux_svrinit tux_svrdone svc_call n argv).
Proof. unfold Tuxcmd.main. keeps_tac; try apply keeps_server_serve. Qed.

Lemma keeps_svr_cmd_deal id cmd : keeps tables_ok (svr_cmd_deal handler id cmd).
Proof.
  unfold svr_cmd_deal, with_local, packReqHead. keeps_tac.
Qed.
End Server.

(** ** Properties *)

(** The tables stay well formed wherever the program stops. *)
Definition safe {A} (m : prog world A) : Prop := keeps tables_ok m.

(** C8: the tables stay well formed (sizes as in the control block, names that end, no
    name in a free entry) wherever a process stops.  This holds for the calls of a
    client ([tux_call], [tux_acall], [tux_forward], [tux_getreply], [svr_cmd_deal]), for
    a server process from its [main] on, and for the manager from its [main] on,
    through configuration, commands and deaths of servers; the services, the signal
    handlers and the program that [execvp] starts are only assumed to do so too. *)
Theorem system_invariant execvp handler tux_svrinit tux_svrdone call :
  (forall f argv, safe (execvp f argv)) -> (forall s, safe (handler s)) ->
  (forall argv, safe (tux_svrinit argv)) -> safe tux_svrdone ->
  (forall f info, safe (call f info)) ->
  (forall name b l r rl fl, safe (tux_call handler name b l r rl fl)
     /\ safe (tux_acall handler name b l fl)
     /\ safe (tux_forward handler name b l fl)
     /\ safe (tux_getreply handler l r rl fl)
     /\ safe (tux_return handler fl l b rl fl))
  /\ (forall id cmd, safe (svr_cmd_deal handler id cmd))
  /\ (forall n argv, safe (Tuxcmd.main tux_svrinit tux_svrdone call n argv))
  /\ (forall n, safe (Governor.main execvp n)).
Proof.
  unfold safe. intros Hx Hh Hi Hd Hf. split; [|split; [|split]].
  - intros. repeat match goal with |- _ /\ _ => split end; auto with keeps.
  - intros. now apply keeps_svr_cmd_deal.
  - intros. now apply keeps_server.
  - intros. now apply keeps_manager.
Qed.

(** A process that is not attached, with the two forks of [daemonize] to come. *)
Definition bare_world : world :=
  set_attached false (set_w_ctrl (mkCtrl 0 0 0 0 0 0 0 0 0 0)
    (demo_world (set_forks [0; 0] (demo_os (text demo_lines ++ []))))).

Lemma system_invariant_witness :
  tables_ok bare_world /\ holds tables_ok (Governor.main (fun _ _ => ret (-1)) 1 bare_world).
Proof.
  assert (K : tables_ok bare_world) by (split; try reflexivity; constructor).
  refine (conj K _).
  refine (proj2 (proj2 (proj2 (system_invariant (fun _ _ => ret (-1)) (fun _ => ret tt) (fun _ => ret 0)
    (ret tt) (fun _ _ => ret tt) _ _ _ _ _))) 1%nat bare_world K); intros; apply keeps_ret.
Defined.
