(* ===== verification/Manager.v ===== *)
(** * What the manager does

    Starting and stopping processes, the management commands, and the configuration as a
    whole: theorems on [Governor.c] together with [tuxcmd.c] and [tuxmain.c]. *)

From Stdlib Require Import ZArith Lia Bool List Ascii String.
From stdpp Require Import base list gmap.
From S2P Require Import Prelude Cstr Funstr Kernel Funmsq Funipc Funfile Sunda Tuxmem Registry.
From S2P Require Import Tuxcall Tuxcmd Governor Taskline Invariant.

(** ** Stopping a server *)

(** The processes that [server_kill] takes for those of the server [id]. *)
Definition victim (id : Z) (p : server_pid_t) : bool :=
  (p_svrid p =? id) && negb (p_svrid p =? -1) && negb (p_svrid p =? TUX_DEAD).

(** The processes recorded for a server. *)
Definition belongs (id : Z) (p : server_pid_t) : bool := (p_svrid p =? id) && negb (id =? -1).

Definition signals (id : Z) (l : list server_pid_t) : list (Z * Z) :=
  rev (map (fun p => (pid p, SIGTERM)) (List.filter (victim id) l)).

Definition cleared (id : Z) (l : list server_pid_t) : list server_pid_t :=
  map (fun p => if victim id p then clear_pid else p) l.

(** The process after signals and with a new table of processes. *)
Definition after_kill (ks : list (Z * Z)) (l : list server_pid_t) (w : world) : world :=
  set_tSvrPid l (set_w_os (set_kills (ks ++ o_kills (w_os w)) (w_os w)) w).

Lemma set_kills_twice a b o : set_kills a (set_kills b o) = set_kills a o.
Proof. reflexivity. Qed.

Lemma set_kills_same o : set_kills (o_kills o) o = o.
Proof. now destruct o. Qed.

Lemma after_kill_none w : after_kill [] (tSvrPid w) w = w.
Proof. unfold after_kill. cbn [app]. rewrite set_kills_same. now apply world_eq. Qed.

Lemma after_kill_twice a b l l' w : after_kill a l (after_kill b l' w) = after_kill (a ++ b) l w.
Proof. unfold after_kill. rewrite <- app_assoc. now apply world_eq. Qed.

Lemma znth_middle {A} (a b : list A) x : znth (a ++ x :: b) (Z.of_nat (length a)) = Some x.
Proof.
  unfold znth. destruct (Z.ltb_spec (Z.of_nat (length a)) 0); [lia|].
  rewrite Nat2Z.id, lookup_app_r, Nat.sub_diag by lia. done.
Qed.

Lemma zupd_middle {A} (a b : list A) x f :
  zupd (Z.of_nat (length a)) f (a ++ x :: b) = a ++ f x :: b.
Proof.
  unfold zupd. destruct (Z.ltb_spec (Z.of_nat (length a)) 0); [lia|].
  rewrite Nat2Z.id, alter_app_r_alt, Nat.sub_diag by lia. done.
Qed.

(** The body of the loop of [server_kill]. *)
Definition kill_one (taskid clear i : Z) : prog world unit :=
  let* p := pidt i in
  let* t := svr taskid in
  when ((p_svrid p =? svrid t) && negb (p_svrid p =? -1) && negb (p_svrid p =? TUX_DEAD))
    (lift (kill (pid p) SIGTERM) ;;;
     when (negb (clear =? 0)) (sdSvrPidClear i)).

Lemma kill_one_eq taskid t clear a p b w :
  attached w = true -> znth (tSvrTab w) taskid = Some t -> tSvrPid w = a ++ p :: b ->
  kill_one taskid clear (Z.of_nat (length a)) w
  = Ret tt (after_kill (signals (svrid t) [p])
      (a ++ (if clear =? 0 then [p] else cleared (svrid t) [p]) ++ b) w).
Proof.
  intros Ha Ht Hp. unfold kill_one, pidt, svr.
  rewrite (bind_Ret _ _ _ _ _ (entry_eq tSvrPid _ w p Ha ltac:(rewrite Hp; apply znth_middle))).
  rewrite (bind_Ret _ _ _ _ _ (entry_eq tSvrTab _ w t Ha Ht)).
  unfold signals, cleared. cbn [List.filter map]. fold (victim (svrid t) p).
  destruct (victim (svrid t) p); cbn [when map rev app].
  - rewrite (lift_bind _ _ w 0 (set_kills ((pid p, SIGTERM) :: o_kills (w_os w)) (w_os w)))
      by reflexivity. destruct (clear =? 0); cbn [negb when app].
    + unfold ret, after_kill. f_equal. rewrite <- Hp. now apply world_eq.
    + unfold sdSvrPidClear, upd_pid. erewrite upd_entry_eq; [|exact Ha|].
      2: { cbn [tSvrPid set_w_os]. rewrite Hp. apply znth_middle. }
      cbn [tSvrPid set_w_os]. rewrite Hp, zupd_middle. f_equal.
  - replace (a ++ (if clear =? 0 then [p] else [p]) ++ b) with (tSvrPid w)
      by (rewrite Hp; now destruct (clear =? 0)).
    now rewrite after_kill_none.
Qed.

Lemma kill_loop taskid t clear a b w :
  attached w = true -> znth (tSvrTab w) taskid = Some t -> tSvrPid w = a ++ b ->
  for_each (seqZ (Z.of_nat (length a)) (Z.of_nat (length b))) (kill_one taskid clear) w
  = Ret tt (after_kill (signals (svrid t) b)
      (a ++ if clear =? 0 then b else cleared (svrid t) b) w).
Proof.
  revert a w. induction b as [|p b IH]; intros a w Ha Ht Hp.
  - cbn [length]. change (Z.of_nat 0) with 0. rewrite seqZ_nil by lia. cbn [for_each].
    replace (a ++ if clear =? 0 then [] else cleared (svrid t) []) with (tSvrPid w)
      by (rewrite Hp; now destruct (clear =? 0)).
    cbn [signals List.filter map rev]. now rewrite after_kill_none.
  - cbn [length]. rewrite seqZ_cons by lia. cbn [for_each].
    rewrite (bind_Ret _ _ _ _ _ (kill_one_eq taskid t clear a p b w Ha Ht Hp)).
    set (p1 := if clear =? 0 then [p] else cleared (svrid t) [p]).
    assert (L1 : length p1 = 1%nat) by (unfold p1; now destruct (clear =? 0)).
    replace (Z.succ (Z.of_nat (length a))) with (Z.of_nat (length (a ++ p1))) by (rewrite length_app; lia).
    replace (Z.pred (Z.of_nat (S (length b)))) with (Z.of_nat (length b)) by lia.
    rewrite IH; [|exact Ha|exact Ht|cbn [tSvrPid after_kill set_tSvrPid]; now rewrite app_assoc].
    rewrite after_kill_twice, <- app_assoc. do 2 f_equal.
    + unfold signals. cbn [List.filter]. destruct (victim (svrid t) p); cbn [map rev app]; [done|now rewrite app_nil_r].
    + unfold p1. now destruct (clear =? 0).
Qed.

Lemma server_kill_eq w taskid t clear :
  attached w = true -> tables_ok w -> znth (tSvrTab w) taskid = Some t ->
  server_kill taskid clear w
  = Ret 0 (after_kill (signals (svrid t) (tSvrPid w))
             (if clear =? 0 then tSvrPid w else cleared (svrid t) (tSvrPid w)) w).
Proof.
  intros Ha K Ht. unfold server_kill.
  rewrite (bind_Ret _ _ _ _ _ (ctrl_eq w Ha)). unfold from_to. rewrite <- (ok_pids w K), Z.sub_0_r.
  fold (kill_one taskid clear).
  now rewrite (bind_Ret _ _ _ _ _ (kill_loop taskid t clear [] (tSvrPid w) w Ha Ht eq_refl)).
Qed.

(** [server_kill] signals the recorded processes of a server, all of them and no
    others, in the table's order, and clears their entries when asked to; nothing else
    changes.  A server with id 4 is an exception: the loop compares the id with the state
    [TUX_DEAD], so that no process of it is ever signalled or cleared. *)
Theorem server_kill_correct w taskid t clear :
  attached w = true -> tables_ok w -> znth (tSvrTab w) taskid = Some t ->
  let ours := belongs (svrid t) in
  let hit := List.filter ours (tSvrPid w) in
  if svrid t =? TUX_DEAD then server_kill taskid clear w = Ret 0 w
  else server_kill taskid clear w
    = Ret 0 (set_tSvrPid
        (if clear =? 0 then tSvrPid w else map (fun p => if ours p then clear_pid else p) (tSvrPid w))
        (set_w_os (set_kills (rev (map (fun p => (pid p, SIGTERM)) hit) ++ o_kills (w_os w)) (w_os w)) w)).
Proof.
  intros Ha K Ht ours hit. rewrite (server_kill_eq w taskid t clear Ha K Ht).
  assert (V : svrid t <> TUX_DEAD -> forall p, victim (svrid t) p = ours p).
  { intros Hne p. unfold victim, ours, belongs. destruct (Z.eqb_spec (p_svrid p) (svrid t)) as [->|]; [|done].
    destruct (Z.eqb_spec (svrid t) TUX_DEAD); [congruence|]. now rewrite andb_true_r. }
  destruct (Z.eqb_spec (svrid t) TUX_DEAD) as [E|E].
  - assert (N : forall p, victim (svrid t) p = false).
    { intros p. unfold victim. destruct (Z.eqb_spec (p_svrid p) (svrid t)) as [->|]; [|done].
      destruct (Z.eqb_spec (svrid t) TUX_DEAD); [|congruence]. now rewrite andb_false_r. }
    replace (signals (svrid t) (tSvrPid w)) with (@nil (Z * Z)).
    2: { unfold signals. rewrite (List.filter_ext _ (fun _ => false)) by exact N.
         induction (tSvrPid w); [done|]. exact IHl. }
    replace (if clear =? 0 then _ else _) with (tSvrPid w); [now rewrite after_kill_none|].
    destruct (clear =? 0); [done|]. unfold cleared. rewrite (map_ext _ id), map_id; [done|].
    intros p. now rewrite N.
  - unfold after_kill, signals, cleared, hit. rewrite (List.filter_ext _ ours) by (now apply V).
    do 2 f_equal. destruct (clear =? 0); [done|]. apply map_ext. intros p. now rewrite V.
Qed.

(** ** Starting a process *)

(** The arguments that [server_start_pid] prints for the new process. *)
Definition start_param (i : Z) (t : server_tab_t) : bytes :=
  fmt_d i ++ str "  " ++ fmt_d (svrid t) ++ str "  " ++ parm t.

Definition with_forks (l : list Z) (w : world) : world := set_w_os (set_forks l (w_os w)) w.

Definition with_pid (i : Z) (f : server_pid_t -> server_pid_t) (w : world) : world :=
  set_tSvrPid (zupd i f (tSvrPid w)) w.

Lemma upd_pid_then i f w p {A} (k : prog world A) :
  attached w = true -> znth (tSvrPid w) i = Some p -> (upd_pid i f ;;; k) w = k (with_pid i f w).
Proof.
  intros Ha Hp. now rewrite (bind_Ret _ _ _ _ _ (upd_entry_eq tSvrPid set_tSvrPid i f w p Ha Hp)).
Qed.

Lemma fork_bind {A} pr l (k : Z -> prog world A) w :
  o_forks (w_os w) = pr :: l -> (let* x := lift fork in k x) w = k pr (with_forks l w).
Proof.
  intros H. apply (lift_bind fork k w pr (set_forks l (w_os w))). unfold fork, bind, get. cbn [obind].
  now rewrite H.
Qed.

Section Start.
Context (execvp : bytes -> list bytes -> prog world Z).

(** In the parent: the entry gets the process. *)
Lemma start_pid_parent w taskid t i p pr l :
  attached w = true -> znth (tSvrTab w) taskid = Some t -> znth (tSvrPid w) i = Some p ->
  Z.of_nat (length (start_param i t)) <= 128 -> o_forks (w_os w) = pr :: l -> 0 < pr ->
  server_start_pid execvp taskid i w
  = Ret 0 (with_pid i (fun p => set_lastStart (o_time (w_os w)) (set_pid pr p)) (with_forks l w)).
Proof.
  intros Ha Ht Hp Hl Hf Hpr. unfold server_start_pid, svr.
  rewrite (bind_Ret _ _ _ _ _ (entry_eq tSvrTab taskid w t Ha Ht)).
  rewrite (bind_Ret _ _ _ _ _ (fit_eq 128 (start_param i t) w Hl)).
  erewrite bind_Ret.
  2: { unfold server_load. rewrite (fork_bind pr l _ w Hf).
       destruct (Z.eqb_spec pr (-1)); [lia|]. destruct (Z.ltb_spec 0 pr); [|lia]. reflexivity. }
  destruct (Z.ltb_spec pr 0); [lia|]. set (w1 := with_forks l w).
  rewrite (upd_pid_then i _ w1 p) by done. set (w2 := with_pid i _ w1).
  rewrite (lift_bind time_ _ w2 (o_time (w_os w)) (w_os w2)) by reflexivity.
  set (w3 := set_w_os (w_os w2) w2).
  rewrite (upd_pid_then i _ w3 (set_pid pr p)).
  - unfold ret. f_equal. unfold with_pid. apply world_eq; try reflexivity.
    cbn [tSvrPid set_tSvrPid w3 w2 w1 with_pid set_w_os with_forks]. apply zupd_zupd.
  - exact Ha.
  - exact (znth_zupd_eq i (set_pid pr) (tSvrPid w) p Hp).
Qed.

(** A fork that fails. *)
Lemma start_pid_fails w taskid t i l :
  attached w = true -> znth (tSvrTab w) taskid = Some t ->
  Z.of_nat (length (start_param i t)) <= 128 -> o_forks (w_os w) = -1 :: l ->
  server_start_pid execvp taskid i w = Ret (-1) (with_forks l w).
Proof.
  intros Ha Ht Hl Hf. unfold server_start_pid, svr.
  rewrite (bind_Ret _ _ _ _ _ (entry_eq tSvrTab taskid w t Ha Ht)).
  rewrite (bind_Ret _ _ _ _ _ (fit_eq 128 (start_param i t) w Hl)).
  erewrite bind_Ret by (unfold server_load; rewrite (fork_bind (-1) l _ w Hf); reflexivity). done.
Qed.
End Start.

(** ** The new process *)

Lemma argv_loop_words room pre s t0 :
  nonul s -> (length (words blank s) < room)%nat ->
  argv_loop room (pre ++ s ++ NUL :: t0) (length pre) = Some (words blank s).
Proof.
  revert pre s. induction room as [|room IH]; intros pre s Hs Hr; [lia|]. cbn [argv_loop].
  pose proof (strtok_spec blank pre s t0 Hs) as H. cbn zeta in H.
  destruct (strtok blank _ _) as [[[p|] b'] pos']; [|now rewrite words_nil].
  destruct H as (sp & tk & rest & -> & Hsp & Hne & Htk & -> & Hc).
  rewrite words_skip in Hr |- * by done. apply Forall_app in Hs as [_ Hs]. apply Forall_app in Hs as [Nt Nr].
  destruct Hc as [(-> & -> & ->)|(c & r & -> & Hc & -> & ->)].
  - rewrite words_token in Hr |- * by auto. cbn [length tl] in Hr |- *. rewrite app_nil_r.
    replace (pre ++ (sp ++ tk) ++ NUL :: t0) with ((pre ++ sp) ++ tk ++ NUL :: t0)
      by (rewrite <- !app_assoc; done).
    rewrite <- length_app, drop_app_length, cstr_app_nul by done.
    replace ((pre ++ sp) ++ tk ++ NUL :: t0) with ((pre ++ sp ++ tk) ++ [] ++ NUL :: t0)
      by (rewrite <- !app_assoc; done).
    replace (length (pre ++ sp) + length tk)%nat with (length (pre ++ sp ++ tk)) by (rewrite !length_app; lia).
    rewrite IH by (constructor || (cbn in Hr |- *; lia)). done.
  - rewrite words_token in Hr |- * by eauto. cbn [length tl] in Hr |- *.
    apply Forall_cons in Nr as [_ Nr]. rewrite IH by (exact Nr || lia). cbn [fmap option_fmap option_map]. do 2 f_equal.
    replace ((pre ++ sp ++ tk ++ [NUL]) ++ r ++ NUL :: t0)
      with ((pre ++ sp) ++ tk ++ NUL :: r ++ NUL :: t0) by (rewrite <- !app_assoc; done).
    rewrite <- length_app, drop_app_length. now apply cstr_app_nul.
Qed.

Lemma make_argv_eq s :
  nonul s -> (length s <= 128)%nat -> (length (words blank (rtrim isblank s)) < MAX_ARGS)%nat ->
  make_argv (buf_of 129 s) 1 = Some (Some (words blank (rtrim isblank s))).
Proof.
  intros Hn Hl Hw. unfold make_argv. cbn [Z.leb Z.compare].
  destruct (buf_of_nul 129 s) as [t0 E]; [lia|]. rewrite E.
  destruct (RightTrim_spec (s ++ NUL :: t0)) as (b & Eb & Hb & _ & Tb); [apply terminated_app|].
  rewrite Eb. cbn [mbind option_bind]. rewrite cstr_app_nul in Hb by done.
  destruct (terminated_split b Tb) as [t1 E1]. rewrite Hb in E1.
  assert (Nb : nonul (rtrim isblank s)) by (now apply Forall_take).
  rewrite E1. pose proof (argv_loop_words MAX_ARGS [] (rtrim isblank s) t1 Nb Hw) as H.
  cbn [app length] in H. rewrite H. reflexivity.
Qed.

Lemma rtrim_nil P s : Forall (fun c => P c = true) s -> rtrim P s = [].
Proof.
  intros H. destruct (rtrim_split P s) as (t & E & _ & [?|(c & r & Er & Hc)]); [done|].
  exfalso. rewrite E, Er in H. apply Forall_app in H as [H _]. apply Forall_app in H as [_ H].
  inversion H. congruence.
Qed.

(** A blank in front stays only in front of something. *)
Lemma rtrim_cons P c s :
  P c = true -> rtrim P (c :: s) = if bool_decide (rtrim P s = []) then [] else c :: rtrim P s.
Proof.
  intros Hc. destruct (rtrim_split P s) as (t & E & Ht & H). case_bool_decide as N.
  - apply rtrim_nil. constructor; [done|]. now rewrite E, N.
  - destruct H as [?|(d & r & Er & Hd)]; [done|]. rewrite E at 1. rewrite Er, <- app_assoc. cbn [app].
    change (c :: r ++ d :: t) with ((c :: r) ++ d :: t). rewrite rtrim_app, (rtrim_nil P t) by done.
    reflexivity.
Qed.

Lemma words_rtrim_blanks s : words blank (rtrim isblank (SP :: s)) = words blank (rtrim isblank s).
Proof.
  rewrite rtrim_cons by reflexivity. case_bool_decide as E; [now rewrite E|].
  change (SP :: rtrim isblank s) with ([SP] ++ rtrim isblank s). apply words_skip. now constructor.
Qed.

Lemma words_cons tk s :
  is_token blank tk -> words blank (tk ++ SP :: s) = tk :: words blank s.
Proof. intros (H1 & H2 & _). rewrite words_token by eauto. done. Qed.

Lemma delims_blank tk : is_token delims tk -> is_token blank tk.
Proof.
  intros (H1 & H2 & H3). split; [done|]. split; [|done]. eapply Forall_impl; [exact H2|]. intros c Hc.
  unfold memc, delims, blank in *. cbn in *. now apply orb_false_iff in Hc as [_ ?].
Qed.

(** The last word of a string, before blanks and more words. *)
Lemma words_last tk s :
  is_token blank tk -> (exists u c, tk = u ++ [c] /\ isblank c = false) ->
  words blank (rtrim isblank (tk ++ SP :: s)) = tk :: words blank (rtrim isblank s).
Proof.
  intros Htk (u & c & -> & Hc). rewrite <- app_assoc. cbn [app]. rewrite rtrim_app by done.
  rewrite rtrim_cons by reflexivity. case_bool_decide as E.
  - rewrite E. destruct Htk as (H1 & H2 & _).
    pose proof (words_token blank (u ++ [c]) [] H1 H2 ltac:(auto)) as W. rewrite app_nil_r in W. exact W.
  - change (u ++ c :: SP :: rtrim isblank s) with (u ++ [c] ++ SP :: rtrim isblank s).
    rewrite app_assoc. now apply words_cons.
Qed.

Lemma fmt_d_last z : exists u c, fmt_d z = u ++ [c] /\ isblank c = false.
Proof.
  destruct (fmt_d_chars z) as (Hne & Hc & _). destruct (exists_last Hne) as (u & c & E).
  exists u, c. split; [done|]. rewrite E in Hc. apply Forall_app in Hc as [_ Hc]. inversion Hc as [|? ? H _]; subst.
  destruct (isblank c) eqn:B; [|done]. exfalso. revert H. unfold isblank in B.
  rewrite !orb_true_iff, !ceqb_eq in B. destruct B as [[[->| ->]| ->]| ->]; intros H; discriminate H.
Qed.

Lemma fmt_blank z : is_token blank (fmt_d z).
Proof. apply delims_blank, fmt_d_token. Qed.

(** The words of the command line of a new server. *)
Definition server_argv (me i : Z) (t : server_tab_t) : list bytes :=
  name t :: fmt_d me :: fmt_d i :: fmt_d (svrid t) :: words blank (rtrim isblank (parm t)).

Lemma rtrim_skip s t : (exists u c, t = u ++ [c] /\ isblank c = false) ->
  forall r, rtrim isblank (s ++ t ++ r) = s ++ rtrim isblank (t ++ r).
Proof.
  intros (u & c & -> & Hc) r. rewrite <- !app_assoc. cbn [app]. rewrite app_assoc.
  rewrite !rtrim_app by done. now rewrite <- app_assoc.
Qed.

Lemma start_line_words me i t :
  is_token blank (name t) ->
  words blank (rtrim isblank (name t ++ [SP] ++ fmt_d me ++ [SP] ++ start_param i t))
  = server_argv me i t.
Proof.
  intros Hn. unfold start_param, server_argv.
  change (str "  ") with [SP; SP]. cbn [app].
  replace (name t ++ SP :: fmt_d me ++ SP :: fmt_d i ++ SP :: SP :: fmt_d (svrid t) ++ SP :: SP :: parm t)
    with ((name t ++ SP :: fmt_d me ++ SP :: fmt_d i ++ [SP; SP]) ++ fmt_d (svrid t) ++ SP :: SP :: parm t)
    by (repeat (rewrite <- app_assoc || cbn [app]); done).
  rewrite rtrim_skip by apply fmt_d_last. repeat (rewrite <- app_assoc; cbn [app]).
  rewrite !words_cons by (done || apply fmt_blank). do 3 f_equal.
  change (SP :: rtrim isblank (fmt_d (svrid t) ++ SP :: SP :: parm t))
    with ([SP] ++ rtrim isblank (fmt_d (svrid t) ++ SP :: SP :: parm t)).
  rewrite words_skip by (now constructor).
  rewrite words_last by (apply fmt_blank || apply fmt_d_last). now rewrite words_rtrim_blanks.
Qed.

(** A server process once [main] has accepted its arguments: it connects, checks its
    entry in the table of processes and serves the requests of its server. *)
Definition server_process (init : list bytes -> prog world Z) (done : prog world unit)
    (call : Z -> sd_info_t -> prog world unit) (n : nat) (argv : list bytes) (id i : Z) : prog world Z :=
  let* rc := ipc_connect in
  if negb (rc =? 0) then ret rc
  else
    pidt i ;;;
    let* rc := init argv in
    if negb (rc =? 0) then done ;;; ret rc
    else Tuxcmd.serve done call n id i ;;; done ;;; ret (-1).

(** C25: the manager and the servers agree on the command line.  In the child of the fork,
    [server_start_pid] runs the server's program with its name, the child's process id,
    the index of its entry, the server's id and the words of the parameter as
    arguments; and the [main] of a server that gets these arguments in that process
    takes them back: it accepts the process id and serves that id at that entry. *)
Theorem new_server_process execvp w taskid t i me l :
  attached w = true -> znth (tSvrTab w) taskid = Some t ->
  is_token blank (name t) -> nonul (parm t) ->
  (length (words blank (rtrim isblank (parm t))) <= 25)%nat ->
  (length (name t ++ [SP] ++ fmt_d me ++ [SP] ++ start_param i t) <= 128)%nat ->
  INT_MIN <= me <= INT_MAX -> INT_MIN <= i <= INT_MAX -> INT_MIN <= svrid t <= INT_MAX ->
  o_forks (w_os w) = 0 :: l -> o_pid (w_os w) = me ->
  server_start_pid execvp taskid i w
  = (execvp (name t) (server_argv me i t) ;;; exit_ 1) (with_forks l w)
  /\ forall init done call n w', o_pid (w_os w') = me ->
       Tuxcmd.main init done call n (server_argv me i t) w'
       = server_process init done call n (server_argv me i t) (svrid t) i w'.
Proof.
  intros Ha Ht Hn Hp Hw Hl Hme Hi Hid Hf Epid. split.
  - unfold server_start_pid, svr. rewrite (bind_Ret _ _ _ _ _ (entry_eq tSvrTab taskid w t Ha Ht)).
    assert (Hl2 : Z.of_nat (length (start_param i t)) <= 128)
      by (rewrite !length_app in Hl; lia).
    rewrite (bind_Ret _ _ _ _ _ (fit_eq 128 (start_param i t) w Hl2)).
    unfold server_load. rewrite bind_assoc, (fork_bind 0 l _ w Hf). cbn [Z.eqb Z.ltb Z.compare].
    set (w1 := with_forks l w).
    rewrite bind_assoc, (lift_bind getpid _ w1 me w1.(w_os)) by (now rewrite <- Epid).
    replace (set_w_os (w_os w1) w1) with w1 by (now apply world_eq).
    unfold start_line. destruct (Z.leb_spec (Z.of_nat (length (name t ++ [SP] ++ fmt_d me ++ [SP] ++ start_param i t))) 128); [|lia].
    rewrite bind_assoc. erewrite bind_Ret by reflexivity.
    assert (Na : nonul (name t ++ [SP] ++ fmt_d me ++ [SP] ++ start_param i t)).
    { pose proof (proj2 (proj2 (fmt_blank me))). pose proof (proj2 (proj2 (fmt_blank i))).
      pose proof (proj2 (proj2 (fmt_blank (svrid t)))). unfold start_param.
      repeat (apply Forall_app; split); try assumption; try apply Hn; repeat constructor; discriminate. }
    assert (W := start_line_words me i t Hn).
    rewrite make_argv_eq by (done || (rewrite W; unfold server_argv, MAX_ARGS; cbn [length]; lia)).
    rewrite W, bind_assoc. erewrite bind_Ret by reflexivity. unfold default, bind. cbn [from_option id].
    now destruct (execvp _ _ w1).
  - intros init done call n w' Hme'. unfold Tuxcmd.main, server_argv.
    rewrite (lift_bind getpid _ w' me w'.(w_os)) by (now rewrite <- Hme').
    replace (set_w_os (w_os w') w') with w' by (now apply world_eq).
    rewrite atol_fmt_d by (unfold LONG_MIN, LONG_MAX, INT_MIN, INT_MAX in *; lia).
    rewrite Z.eqb_refl, !atoi_fmt_d by done. reflexivity.
Qed.

(** ** The command that starts one more process *)

Section Command.
Context (execvp : bytes -> list bytes -> prog world Z) (w : world) (id taskid i : Z)
  (t u : server_tab_t) (p : server_pid_t) (ls : list bytes) (last : bytes).
Hypotheses (Ha : attached w = true) (K : tables_ok w)
  (Hid : scan (fun t => svrid t =? id) (tl (tSvrTab w)) 1 = taskid)
  (Hi : scan (fun p => pid p =? -1) (tl (tSvrPid w)) 1 = i)
  (Ht : znth (tSvrTab w) taskid = Some t)
  (Hcfg : o_cfg (w_os w) = Some (text ls ++ last)) (Hls : Forall line_ok ls) (Hlast : line_ok last).

Lemma cmd_start_search :
  cmd_start execvp id w
  = (let* pid_index := server_get_pidentry in
     if pid_index <? 0 then ret SYS_LIMIT
     else
       let* t := svr taskid in
       upd_pid pid_index (fun p => set_svrpos taskid (set_p_svrid (svrid t) p)) ;;;
       upd_svr pid_index (set_state TUX_IDLE) ;;;
       set_timeout_of taskid ;;;
       let* rc := server_start_pid execvp taskid pid_index in
       if negb (rc =? 0) then sdSvrPidClear pid_index ;;; ret SYS_OS
       else upd_svr taskid (fun t => set_pid_tot (pid_tot t + 1) t) ;;; ret 0)
    (with_entry taskid w (set_type SVR_PERM)).
Proof.
  unfold cmd_start. rewrite (bind_Ret _ _ _ _ _ (find_server_id_eq w Ha K id)), Hid.
  pose proof (znth_range _ _ _ Ht). destruct (Z.leb_spec 0 taskid); [|lia].
  now rewrite (upd_svr_then taskid _ w t _ Ha Ht).
Qed.

Lemma pidentry_eq f : server_get_pidentry (with_entry taskid w f) = Ret i (with_entry taskid w f).
Proof.
  unfold server_get_pidentry. erewrite bind_Ret.
  2: { unfold pids. rewrite (bind_Ret _ _ _ _ _ (ctrl_eq (with_entry taskid w f) Ha)).
       apply whole_eq; [exact Ha|exact (ok_pids w K)]. }
  unfold ret. cbn [tSvrPid with_entry set_tSvrTab]. now rewrite Hi.
Qed.

Lemma cmd_start_full : i = -1 -> cmd_start execvp id w = Ret SYS_LIMIT (with_entry taskid w (set_type SVR_PERM)).
Proof.
  intros E. rewrite cmd_start_search, (bind_Ret _ _ _ _ _ (pidentry_eq _)), E. reflexivity.
Qed.

Lemma cmd_start_beyond :
  Z.of_nat (length (tSvrTab w)) <= i -> cmd_start execvp id w = Fault.
Proof.
  intros E. rewrite cmd_start_search, (bind_Ret _ _ _ _ _ (pidentry_eq _)).
  destruct (Z.ltb_spec i 0); [lia|]. set (w1 := with_entry _ _ _).
  unfold svr. erewrite bind_Ret by (apply (entry_eq tSvrTab taskid w1); [exact Ha|apply (znth_zupd_eq taskid _ _ t Ht)]).
  destruct (scan_range (fun p => pid p =? -1) (tl (tSvrPid w)) 1 ltac:(lia)) as [R|R];
    rewrite Hi in R; [lia|].
  destruct (proj1 (znth_in (tSvrPid w) i)) as [q Hq].
  { rewrite length_tl in R. apply andb_true_iff. rewrite Z.leb_le, Z.ltb_lt. lia. }
  rewrite (upd_pid_then i _ w1 q) by done. set (w2 := with_pid i _ w1).
  unfold bind at 1, upd_svr, upd_entry, inb. cbn [attached w2 w1 with_pid with_entry set_tSvrTab set_tSvrPid tSvrTab].
  rewrite length_zupd, Ha. cbn [andb]. rewrite (proj2 (Z.ltb_ge i _)) by lia. now rewrite andb_false_r.
Qed.
(** The table of servers while the process is being started. *)
Definition before_start (tmo : Z) : list server_tab_t :=
  zupd taskid (set_timeout tmo) (zupd i (set_state TUX_IDLE) (zupd taskid (set_type SVR_PERM) (tSvrTab w))).

Hypotheses (Hp : znth (tSvrPid w) i = Some p) (Hu : znth (tSvrTab w) i = Some u) (Hi1 : 0 <= i)
  (Hl : Z.of_nat (length (start_param i t)) <= 128).

Lemma before_start_entry tmo :
  exists t', znth (before_start tmo) taskid = Some t' /\ svrid t' = svrid t /\ parm t' = parm t
    /\ name t' = name t /\ svc_name t' = svc_name t /\ pid_tot t' = pid_tot t
    /\ state t' = if i =? taskid then TUX_IDLE else state t.
Proof using Ht.
  unfold before_start. pose proof (znth_zupd_eq taskid (set_type SVR_PERM) _ _ Ht) as H1.
  destruct (Z.eqb_spec i taskid) as [Ei|Hne].
  - rewrite Ei. pose proof (znth_zupd_eq taskid (set_state TUX_IDLE) _ _ H1) as H2.
    eexists. split; [exact (znth_zupd_eq taskid (set_timeout tmo) _ _ H2)|]. repeat split; reflexivity.
  - rewrite <- (znth_zupd_ne i taskid (set_state TUX_IDLE)) in H1 by done.
    eexists. split; [exact (znth_zupd_eq taskid (set_timeout tmo) _ _ H1)|]. repeat split; reflexivity.
Qed.

(** Up to the start itself. *)
Lemma cmd_start_prepared :
  let tmo := timeout_of (take NAME_LEN (svc_name t)) (params (str "sd.svc") ls) in
  let w1 := set_tSvrTab (before_start tmo)
              (with_pid i (fun p => set_svrpos taskid (set_p_svrid (svrid t) p)) w) in
  cmd_start execvp id w
  = (let* rc := server_start_pid execvp taskid i in
     if negb (rc =? 0) then sdSvrPidClear i ;;; ret SYS_OS
     else upd_svr taskid (fun t => set_pid_tot (pid_tot t + 1) t) ;;; ret 0) w1.
Proof.
  intros tmo w1. rewrite cmd_start_search, (bind_Ret _ _ _ _ _ (pidentry_eq _)).
  destruct (Z.ltb_spec i 0); [lia|]. set (w2 := with_entry taskid w (set_type SVR_PERM)).
  unfold svr. erewrite bind_Ret by (apply (entry_eq tSvrTab taskid w2); [exact Ha|apply (znth_zupd_eq taskid _ _ t Ht)]).
  rewrite (upd_pid_then i _ w2 p) by done. set (w3 := with_pid i _ w2).
  assert (U : exists u', znth (tSvrTab w3) i = Some u').
  { apply znth_in. unfold inb. cbn [tSvrTab w3 w2 with_pid with_entry set_tSvrPid set_tSvrTab].
    rewrite length_zupd. apply znth_in. eauto. }
  destruct U as [u' U]. rewrite (upd_svr_then i _ w3 u' _ Ha U). set (w4 := with_entry i w3 _).
  unfold set_timeout_of. rewrite bind_assoc.
  assert (T : exists t', znth (tSvrTab w4) taskid = Some t' /\ svc_name t' = svc_name t).
  { destruct (before_start_entry 0) as (t' & Ht' & _ & _ & _ & Hn & _).
    destruct (proj1 (znth_in (tSvrTab w4) taskid)) as [t2 Ht2].
    { unfold inb. cbn [tSvrTab w4 w3 w2 with_pid with_entry set_tSvrPid set_tSvrTab].
      rewrite !length_zupd. apply znth_in. eauto. }
    exists t2. split; [done|]. pose proof (znth_zupd_eq taskid (set_timeout 0) _ _ Ht2) as H2.
    assert (t' = set_timeout 0 t2) by (unfold before_start in Ht'; cbn [tSvrTab w4 w3 w2 with_pid with_entry set_tSvrPid set_tSvrTab] in H2; congruence).
    subst t'. exact Hn. }
  destruct T as (t4 & T4 & N4). unfold svr.
  rewrite (bind_Ret _ _ _ _ _ (entry_eq tSvrTab taskid w4 t4 Ha T4)), bind_assoc, N4.
  rewrite (bind_Ret _ _ _ _ _ (get_timeout_eq w4 ls last _ Hcfg Hls Hlast)). fold tmo.
  rewrite (upd_svr_then taskid _ w4 t4 _ Ha T4). f_equal.
Qed.
End Command.

(** [TSK_CMD_START] for a server of the table.  It looks for a free entry [i] of the
    table of processes and uses [i] as an index in the table of servers.  With no free
    entry it answers [SYS_LIMIT].  When [i] is not below the number of servers, it
    writes behind the table.  Otherwise, if the fork succeeds, the entry [i] belongs to
    the new process, the server has one process more, and the server whose index
    happens to be [i] becomes idle; a server that [TSK_CMD_EXIT] marked dead stays dead,
    and callers go on being refused, unless its index is [i]. *)
Theorem cmd_start_correct execvp w id taskid i t ls last pr l :
  attached w = true -> tables_ok w ->
  scan (fun t => svrid t =? id) (tl (tSvrTab w)) 1 = taskid -> znth (tSvrTab w) taskid = Some t ->
  scan (fun p => pid p =? -1) (tl (tSvrPid w)) 1 = i ->
  o_cfg (w_os w) = Some (text ls ++ last) -> Forall line_ok ls -> line_ok last ->
  Z.of_nat (length (start_param i t)) <= 128 -> o_forks (w_os w) = pr :: l -> 0 < pr ->
  if i =? -1 then cmd_start execvp id w = Ret SYS_LIMIT (with_entry taskid w (set_type SVR_PERM))
  else if nsvrnum (w_ctrl w) <=? i then cmd_start execvp id w = Fault
  else exists w' q t',
    cmd_start execvp id w = Ret 0 w'
    /\ znth (tSvrPid w') i = Some q /\ pid q = pr /\ p_svrid q = svrid t /\ svrpos q = taskid
    /\ lastStart q = o_time (w_os w)
    /\ znth (tSvrTab w') taskid = Some t' /\ pid_tot t' = pid_tot t + 1 /\ svrid t' = svrid t
    /\ state t' = (if i =? taskid then TUX_IDLE else state t)
    /\ down t' = negb (i =? taskid) && down t.
Proof.
  intros Ha K Hid Ht Hi Hcfg Hls Hlast Hl Hf Hpr.
  destruct (Z.eqb_spec i (-1)) as [E|E]; [now apply (cmd_start_full execvp w id taskid i t Ha K)|].
  rewrite <- (ok_svrs w K). destruct (Z.leb_spec (Z.of_nat (length (tSvrTab w))) i) as [B|B];
    [now apply (cmd_start_beyond execvp w id taskid i t Ha K)|].
  destruct (scan_range (fun p => pid p =? -1) (tl (tSvrPid w)) 1 ltac:(lia)) as [R|R];
    rewrite Hi in R; [lia|]. rewrite length_tl in R.
  destruct (proj1 (znth_in (tSvrPid w) i)) as [p Hp]; [apply andb_true_iff; rewrite Z.leb_le, Z.ltb_lt; lia|].
  destruct (proj1 (znth_in (tSvrTab w) i)) as [u Hu]; [apply andb_true_iff; rewrite Z.leb_le, Z.ltb_lt; lia|].
  rewrite (cmd_start_prepared execvp w id taskid i t u p ls last) by (done || lia).
  set (tmo := timeout_of _ _). set (w1 := set_tSvrTab _ _).
  destruct (before_start_entry w taskid i t Ht tmo) as (t1 & Ht1 & I1 & P1 & _ & _ & N1 & S1).
  pose proof (znth_zupd_eq i (fun p => set_svrpos taskid (set_p_svrid (svrid t) p)) _ _ Hp) as Hp1.
  assert (Hl1 : Z.of_nat (length (start_param i t1)) <= 128) by (unfold start_param; now rewrite I1, P1).
  rewrite (bind_Ret _ _ _ _ _ (start_pid_parent execvp w1 taskid t1 i _ pr l Ha Ht1 Hp1 Hl1 Hf Hpr)).
  cbn [negb Z.eqb]. set (w2 := with_pid _ _ _).
  rewrite (upd_svr_then taskid _ w2 t1 _ Ha Ht1).
  exists (with_entry taskid w2 (fun t => set_pid_tot (pid_tot t + 1) t)).
  eexists. eexists. split; [reflexivity|].
  split; [exact (znth_zupd_eq i _ _ _ Hp1)|]. do 4 (split; [reflexivity|]).
  split; [exact (znth_zupd_eq taskid (fun t => set_pid_tot (pid_tot t + 1) t) _ _ Ht1)|].
  split; [cbn; now rewrite N1|]. split; [exact I1|]. split; [exact S1|].
  unfold down. cbn [state set_pid_tot]. rewrite S1. now destruct (i =? taskid).
Qed.

(** ** Starting all the processes of a server *)

Definition free_pid (p : server_pid_t) : bool := pid p =? -1.

Definition free_pids (w : world) : nat := count free_pid (tl (tSvrPid w)).

(** The entry of a process of a server. *)
Definition process_of (srvnum id seq pr now : Z) (p : server_pid_t) : server_pid_t :=
  set_lastStart now (set_pid pr (set_svrpos srvnum (set_seq seq (set_p_svrid id p)))).

Section Run.
Context (execvp : bytes -> list bytes -> prog world Z) (srvnum : Z).

Lemma tables_ok_svr_fields w i f :
  tables_ok w -> (forall t, svc_name (f t) = svc_name t) -> tables_ok (with_entry i w f).
Proof.
  intros [] Hf. split; cbn [tSvrTab tSvrPid tSvcTab w_ctrl with_entry set_tSvrTab]; rewrite ?length_zupd; try assumption.
  apply Forall_zupd; [assumption|]. intros t Ht. now rewrite Hf.
Qed.

Lemma tables_ok_pid w i f : tables_ok w -> tables_ok (with_pid i f w).
Proof.
  intros []. split; cbn [tSvrTab tSvrPid tSvcTab w_ctrl with_pid set_tSvrPid]; rewrite ?length_zupd; assumption.
Qed.

(** The process after the round that starts [pr] at the entry [k]. *)
Definition one_started (w : world) (k id seq pr : Z) (l : list Z) : world :=
  with_entry srvnum (with_pid k (process_of srvnum id seq pr (o_time (w_os w))) (with_forks l w))
    (set_state TUX_IDLE).

Lemma run_loop_step n i w t k pr l :
  attached w = true -> tables_ok w -> znth (tSvrTab w) srvnum = Some t ->
  scan free_pid (tl (tSvrPid w)) 1 = k -> 0 <= k -> Z.of_nat (length (start_param k t)) <= 128 ->
  o_forks (w_os w) = pr :: l -> 0 < pr ->
  run_loop execvp (S n) i srvnum w = run_loop execvp n (i + 1) srvnum (one_started w k (svrid t) i pr l).
Proof.
  intros Ha K Ht Hk Hk0 Hl Hf Hpr. cbn [run_loop]. unfold server_get_pidentry at 1.
  erewrite bind_Ret by (rewrite (bind_Ret _ _ _ _ _ (pids_eq w Ha K)); reflexivity).
  change (fun p => pid p =? -1) with free_pid. rewrite Hk. destruct (Z.ltb_spec k 0); [lia|].
  destruct (scan_eq free_pid (tl (tSvrPid w)) 1 k ltac:(lia) Hk Hk0) as (p0 & Hp0 & _).
  destruct (scan_range free_pid (tl (tSvrPid w)) 1 ltac:(lia)) as [R|R]; rewrite Hk in R; [lia|].
  rewrite length_tl in R.
  destruct (proj1 (znth_in (tSvrPid w) k)) as [p Hp]; [apply andb_true_iff; rewrite Z.leb_le, Z.ltb_lt; lia|].
  unfold svr. rewrite (bind_Ret _ _ _ _ _ (entry_eq tSvrTab srvnum w t Ha Ht)).
  rewrite (upd_pid_then k _ w p _ Ha Hp). set (w1 := with_pid _ _ w).
  pose proof (znth_zupd_eq k (fun p => set_svrpos srvnum (set_seq i (set_p_svrid (svrid t) p))) _ _ Hp) as Hp1.
  rewrite (bind_Ret _ _ _ _ _ (start_pid_parent execvp w1 srvnum t k _ pr l Ha Ht Hp1 Hl Hf Hpr)).
  cbn [negb Z.eqb]. set (w2 := with_pid _ _ _). rewrite (upd_svr_then srvnum _ w2 t _ Ha Ht).
  f_equal. unfold one_started, with_entry. f_equal. apply world_eq; try reflexivity.
  cbn [tSvrPid w2 w1 with_pid set_tSvrPid with_forks set_w_os]. now rewrite zupd_zupd.
Qed.

Lemma run_loop_full n i w :
  attached w = true -> tables_ok w -> free_pids w = 0%nat ->
  run_loop execvp (S n) i srvnum w = Ret SYS_LIMIT w.
Proof.
  intros Ha K F. cbn [run_loop]. unfold server_get_pidentry at 1.
  erewrite bind_Ret by (rewrite (bind_Ret _ _ _ _ _ (pids_eq w Ha K)); reflexivity).
  change (fun p => pid p =? -1) with free_pid. apply count_0 in F. now rewrite scan_none.
Qed.

Lemma free_pids_found w : (0 < free_pids w)%nat ->
  exists k p, scan free_pid (tl (tSvrPid w)) 1 = k /\ 1 <= k < Z.of_nat (length (tSvrPid w))
    /\ znth (tSvrPid w) k = Some p /\ free_pid p = true.
Proof.
  intros F. unfold free_pids in F.
  destruct (scan_spec free_pid (tl (tSvrPid w)) 1 ltac:(lia)) as [[_ H]|(n & p & E & Hn & Hp & _)];
    [apply count_0 in H; lia|].
  assert (L : (n < length (tl (tSvrPid w)))%nat) by (now apply lookup_lt_Some in Hn). rewrite length_tl in L.
  exists (1 + Z.of_nat n), p. split; [exact E|]. split; [lia|]. split; [|exact Hp].
  unfold znth. destruct (Z.ltb_spec (1 + Z.of_nat n) 0); [lia|].
  replace (Z.to_nat (1 + Z.of_nat n)) with (S n) by lia. destruct (tSvrPid w); [done|exact Hn].
Qed.

Lemma tl_zupd {A} k f (l : list A) : 1 <= k -> tl (zupd k f l) = zupd (k - 1) f (tl l).
Proof.
  intros Hk. unfold zupd. destruct (Z.ltb_spec k 0), (Z.ltb_spec (k - 1) 0); try lia.
  replace (Z.to_nat k) with (S (Z.to_nat (k - 1))) by lia. destruct l; [|done]. now destruct (Z.to_nat (k - 1)).
Qed.

Lemma znth_tl {A} (l : list A) k : 1 <= k -> znth (tl l) (k - 1) = znth l k.
Proof.
  intros Hk. unfold znth. destruct (Z.ltb_spec k 0), (Z.ltb_spec (k - 1) 0); try lia.
  replace (Z.to_nat k) with (S (Z.to_nat (k - 1))) by lia. destruct l; [done|reflexivity].
Qed.

Lemma free_pids_started w k p id seq pr l :
  1 <= k -> znth (tSvrPid w) k = Some p -> free_pid p = true -> 0 < pr ->
  (S (free_pids (one_started w k id seq pr l)) = free_pids w)%nat.
Proof.
  intros Hk Hp Hf Hpr. unfold free_pids, one_started.
  cbn [tSvrPid with_entry set_tSvrTab with_pid set_tSvrPid with_forks set_w_os]. rewrite tl_zupd by done.
  rewrite <- znth_tl in Hp by done.
  pose proof (count_zupd free_pid _ _ p (process_of srvnum id seq pr (o_time (w_os w))) Hp) as C.
  rewrite Hf in C. unfold free_pid at 3, process_of in C. cbn [pid set_lastStart set_pid] in C.
  destruct (Z.eqb_spec pr (-1)); [lia|]. cbn [Nat.b2n] in C. unfold process_of. lia.
Qed.
(** The process table between [w] and [w']: used entries stay, and the processes [prs]
    have entries of their server, numbered from [i], as far as there is room. *)
Definition recorded (id i : Z) (prs : list Z) (w w' : world) : Prop :=
  (forall k p, znth (tSvrPid w) k = Some p -> free_pid p = false \/ k < 1 -> znth (tSvrPid w') k = Some p)
  /\ (forall j pr, prs !! j = Some pr -> (j < free_pids w)%nat ->
       exists k q, 1 <= k /\ znth (tSvrPid w') k = Some q /\ pid q = pr /\ p_svrid q = id
         /\ svrpos q = srvnum /\ seq q = i + Z.of_nat j).

Lemma recorded_step w w' k p id i pr prs l :
  1 <= k -> znth (tSvrPid w) k = Some p -> free_pid p = true -> 0 < pr ->
  recorded id (i + 1) prs (one_started w k id i pr l) w' -> recorded id i (pr :: prs) w w'.
Proof.
  intros Hk Hp Hf Hpr [H1 H2]. pose proof (free_pids_started w k p id i pr l Hk Hp Hf Hpr) as F.
  set (f := process_of srvnum id i pr (o_time (w_os w))).
  assert (E : forall k', znth (tSvrPid (one_started w k id i pr l)) k' = znth (zupd k f (tSvrPid w)) k')
    by reflexivity.
  split.
  - intros k' q Hq Hq2. apply H1; [|done]. rewrite E, znth_zupd_ne; [done|].
    intros <-. rewrite Hp in Hq. injection Hq as <-. destruct Hq2; [congruence|lia].
  - intros [|j] pr' Hj Hlt; cbn in Hj.
    + injection Hj as <-. exists k, (f p). split; [done|]. split.
      * apply H1; [rewrite E; now apply znth_zupd_eq|]. left. unfold free_pid. cbn.
        destruct (Z.eqb_spec pr (-1)); [lia|done].
      * cbn. repeat split; lia.
    + destruct (H2 j pr' Hj ltac:(lia)) as (k' & q & Hk' & Hz & Hpid & Hid & Hpos & Hseq).
      exists k', q. repeat split; try assumption. lia.
Qed.

Lemma run_loop_spec n i w t prs l :
  attached w = true -> tables_ok w -> znth (tSvrTab w) srvnum = Some t ->
  (forall k, 0 <= k < Z.of_nat (length (tSvrPid w)) -> Z.of_nat (length (start_param k t)) <= 128) ->
  o_forks (w_os w) = prs ++ l -> length prs = n -> Forall (fun pr => 0 < pr) prs ->
  exists w', run_loop execvp n i srvnum w = Ret (if (n <=? free_pids w)%nat then 0 else SYS_LIMIT) w'
    /\ free_pids w' = (free_pids w - n)%nat /\ recorded (svrid t) i prs w w'.
Proof.
  revert i w t prs. induction n as [|n IH]; intros i w t prs Ha K Ht Hl Hf Hn Hpr.
  - exists w. destruct prs; [|done]. split; [done|]. split; [lia|]. split; [done|]. intros j pr H. done.
  - destruct prs as [|pr prs]; [done|]. apply Forall_cons in Hpr as [Hpr Hprs]. injection Hn as Hn.
    destruct (Nat.eq_dec (free_pids w) 0%nat) as [F|F].
    + exists w. rewrite (run_loop_full n i w Ha K F), F. split; [done|]. split; [done|].
      split; [done|]. intros. lia.
    + destruct (free_pids_found w ltac:(lia)) as (k & p & Hk & Rk & Hp & Hfp).
      rewrite (run_loop_step n i w t k pr (prs ++ l) Ha K Ht Hk ltac:(lia) (Hl k ltac:(lia)) Hf Hpr).
      pose proof (free_pids_started w k p (svrid t) i pr (prs ++ l) ltac:(lia) Hp Hfp Hpr) as F1.
      set (w1 := one_started w k (svrid t) i pr (prs ++ l)) in *.
      destruct (IH (i + 1) w1 (set_state TUX_IDLE t) prs) as (w' & E & F' & Hr); try assumption.
      * apply tables_ok_svr_fields; [|done]. apply tables_ok_pid. exact (tables_ok_keep w (with_forks (prs ++ l) w) eq_refl eq_refl eq_refl eq_refl K).
      * exact (znth_zupd_eq srvnum (set_state TUX_IDLE) _ _ Ht).
      * intros k' Hk'. apply (Hl k').
        cbn [tSvrPid w1 one_started with_entry set_tSvrTab with_pid set_tSvrPid] in Hk'. now rewrite length_zupd in Hk'.
      * reflexivity.
      * exists w'. split; [rewrite E; f_equal; rewrite <- F1; reflexivity|]. split; [lia|].
        eapply recorded_step; [|exact Hp|exact Hfp|exact Hpr|exact Hr]. lia.
Qed.
End Run.

(** C26: [server_run] starts the configured number of processes of a server.  If every fork
    succeeds and enough entries of the table are free, it returns 0 and each child is
    recorded in an entry of its own, with the server's id and index and its number in
    the order of the starts; if entries run out, it fills the free ones and answers
    [SYS_LIMIT].  Entries in use are not touched. *)
Theorem server_run_correct execvp srvnum w t prs l :
  attached w = true -> tables_ok w -> znth (tSvrTab w) srvnum = Some t ->
  (forall k, 0 <= k < Z.of_nat (length (tSvrPid w)) -> Z.of_nat (length (start_param k t)) <= 128) ->
  o_forks (w_os w) = prs ++ l -> Z.of_nat (length prs) = pid_tot t -> Forall (fun pr => 0 < pr) prs ->
  let n := length prs in
  exists w', server_run execvp srvnum w = Ret (if (n <=? free_pids w)%nat then 0 else SYS_LIMIT) w'
    /\ free_pids w' = (free_pids w - n)%nat
    /\ (forall k p, znth (tSvrPid w) k = Some p -> pid p <> -1 -> znth (tSvrPid w') k = Some p)
    /\ (forall j pr, prs !! j = Some pr -> (j < free_pids w)%nat ->
         exists k q, znth (tSvrPid w') k = Some q /\ pid q = pr /\ p_svrid q = svrid t
           /\ svrpos q = srvnum /\ seq q = Z.of_nat j).
Proof.
  intros Ha K Ht Hl Hf Hn Hpr n. unfold server_run.
  rewrite (upd_svr_then srvnum _ w t _ Ha Ht). set (w1 := with_entry srvnum w (set_type SVR_PERM)).
  pose proof (znth_zupd_eq srvnum (set_type SVR_PERM) _ _ Ht) as Ht1.
  unfold svr. rewrite (bind_Ret _ _ _ _ _ (entry_eq tSvrTab srvnum w1 _ Ha Ht1)).
  destruct (run_loop_spec execvp srvnum n 0 w1 _ prs l Ha (tables_ok_svr_fields w srvnum (set_type SVR_PERM) K ltac:(done)) Ht1 Hl Hf eq_refl Hpr)
    as (w' & E & F & H1 & H2).
  replace (Z.to_nat (pid_tot (set_type SVR_PERM t))) with n by (cbn [pid_tot set_type]; lia).
  exists w'. split; [exact E|]. split; [exact F|]. split.
  - intros k p Hp Hne. apply (H1 k p Hp). left. unfold free_pid. now destruct (Z.eqb_spec (pid p) (-1)).
  - intros j pr Hj Hlt. destruct (H2 j pr Hj Hlt) as (k & q & _ & Hz & Hpid & Hid & Hpos & Hseq).
    exists k, q. repeat split; assumption.
Qed.

(** *** Witnesses *)

(** Three servers (the manager, [demo_svr] in the state [st], a free entry); the processes
    of the manager and one of [demo_svr], and a free entry; [forks] to come. *)
Definition demo_proc : server_pid_t := process_of 1 7 0 201 0 clear_pid.

Definition demo_farm (stat : Z) (forks : list Z) : world :=
  set_w_os (mkOs (o_kern (demo_sem 1)) 0 [] [] 1000 300 forks [] [] (Some (text demo_lines ++ []))
              (str "/home/sunda") [str "/home/sunda/bin/echo"] None)
    (set_w_ctrl (mkCtrl 3 3 100 7 0 601107 601117 1 2 4096)
      (set_tSvrTab [manager_svr; set_state stat demo_svr; clear_svr]
        (set_tSvrPid [manager_pid 100 0; demo_proc; clear_pid]
          (set_tSvcTab [free_svc; free_svc; free_svc] (demo_world (demo_sem 1)))))).

Lemma demo_farm_ok stat forks : tables_ok (demo_farm stat forks).
Proof.
  destruct demo_svc_ok as [_ F].
  split; [reflexivity..|repeat constructor; discriminate|].
  cbn [tSvcTab demo_farm set_w_os set_w_ctrl set_tSvrTab set_tSvrPid set_tSvcTab]. auto.
Qed.

Lemma server_kill_correct_witness :
  exists w', server_kill 1 1 (demo_farm TUX_IDLE []) = Ret 0 w'
    /\ o_kills (w_os w') = [(201, SIGTERM)]
    /\ tSvrPid w' = [manager_pid 100 0; clear_pid; clear_pid].
Proof.
  pose proof (server_kill_correct (demo_farm TUX_IDLE []) 1 (set_state TUX_IDLE demo_svr) 1 eq_refl
    (demo_farm_ok TUX_IDLE []) eq_refl) as H.
  cbv zeta in H. eexists. refine (conj H (conj _ _)); reflexivity.
Defined.

Lemma demo_argv_words : is_token blank (str "echo").
Proof. literal_token. Qed.

Lemma new_server_process_witness :
  server_start_pid (fun f argv => ret (Z.of_nat (length argv))) 1 2 (demo_farm TUX_IDLE [0])
  = Exit 1 (with_forks [] (demo_farm TUX_IDLE [0]))
  /\ server_argv 300 2 (set_state TUX_IDLE demo_svr) = [str "echo"; str "300"; str "2"; str "7"].
Proof.
  assert (B : forall n, -300 <= n <= 300 -> INT_MIN <= n <= INT_MAX) by (unfold INT_MIN, INT_MAX; lia).
  refine (conj (proj1 (new_server_process (fun f argv => ret (Z.of_nat (length argv)))
    (demo_farm TUX_IDLE [0]) 1 (set_state TUX_IDLE demo_svr) 2 300 [] eq_refl eq_refl demo_argv_words
    (List.Forall_nil _) _ _ (B 300 _) (B 2 _) (B 7 _) eq_refl eq_refl)) _);
    [cbn; lia|vm_compute; lia|lia|lia|lia|reflexivity].
Defined.

(** The server was stopped; the new process does not bring it back. *)
Lemma cmd_start_correct_witness :
  exists w' t', cmd_start (fun _ _ => ret (-1)) 7 (demo_farm TUX_DEAD [501]) = Ret 0 w'
    /\ znth (tSvrTab w') 1 = Some t' /\ down t' = true.
Proof.
  pose proof (cmd_start_correct (fun _ _ => ret (-1)) (demo_farm TUX_DEAD [501]) 7 1 2
    (set_state TUX_DEAD demo_svr) demo_lines [] 501 [] eq_refl (demo_farm_ok TUX_DEAD [501]) eq_refl eq_refl
    eq_refl eq_refl (proj1 demo_lines_text) (proj2 demo_lines_text) ltac:(vm_compute; discriminate) eq_refl
    ltac:(lia)) as H.
  cbn [Z.eqb Z.leb Z.compare] in H.
  destruct H as (w' & q & t' & E & _ & _ & _ & _ & _ & T & _ & _ & _ & D).
  exists w', t'. refine (conj E (conj T _)). exact D.
Defined.

Lemma server_run_correct_witness :
  exists w', server_run (fun _ _ => ret (-1)) 1 (demo_farm TUX_IDLE [501; 502]) = Ret SYS_LIMIT w'
    /\ free_pids w' = 0%nat /\ znth (tSvrPid w') 1 = Some demo_proc.
Proof.
  destruct (server_run_correct (fun _ _ => ret (-1)) 1 (demo_farm TUX_IDLE [501; 502])
    (set_state TUX_IDLE demo_svr) [501; 502] [] eq_refl (demo_farm_ok TUX_IDLE [501; 502]) eq_refl)
    as (w' & E & F & H & _).
  - intros k Hk. change (Z.of_nat _) with 3 in Hk.
    assert (E : k = 0 \/ k = 1 \/ k = 2) by lia. destruct E as [->|[->| ->]]; vm_compute; discriminate.
  - reflexivity.
  - reflexivity.
  - repeat constructor.
  - exists w'. refine (conj E (conj F _)). apply H; [reflexivity|discriminate].
Defined.
