(* ===== verification/Config.v ===== *)
(** * The configuration as a whole

    [server_load_cfg] of [Governor.c] on a configuration file: the [tsk.task] lines fill
    the table of servers, the [sd.svc] lines give the timeouts. *)

From Stdlib Require Import ZArith Lia Bool List Ascii String.
From stdpp Require Import base list gmap.
From S2P Require Import Prelude Cstr Funstr Kernel Funmsq Funipc Funfile Sunda Tuxmem Registry.
From S2P Require Import Tuxcall Tuxcmd Governor Taskline Invariant Manager.

(** A task of the configuration: the program and its settings. *)
Record task := mkTask { tk_name : bytes; tk_first : setting; tk_rest : list setting }.

Definition task_line (k : task) : bytes := print_line (tk_name k) (tk_first k) (tk_rest k).

Definition task_ok (k : task) : Prop :=
  is_token blank (tk_name k) /\ Forall setting_ok (tk_first k :: tk_rest k)
  /\ is_parm (tk_first k) = false /\ (length (task_line k) <= 511)%nat.

Definition task_entry (k : task) (t : server_tab_t) : server_tab_t :=
  fold_left apply_setting (tk_first k :: tk_rest k) (fresh_server (take NAME_LEN (tk_name k)) t).

Definition installed (w : world) (k : task) : bool := bool_decide (program w (tk_name k) ∈ o_files (w_os w)).

(** The entries from [i] on, given by the tasks in order. *)
Fixpoint put_tasks (i : Z) (ks : list task) (tab : list server_tab_t) : list server_tab_t :=
  match ks with
  | [] => tab
  | k :: ks => put_tasks (i + 1) ks (zupd i (task_entry k) tab)
  end.

Lemma length_put_tasks i ks tab : length (put_tasks i ks tab) = length tab.
Proof. revert i tab. induction ks as [|k ks IH]; intros; cbn [put_tasks]; [done|]. now rewrite IH, length_zupd. Qed.

(** Nothing is put behind the table. *)
Lemma zupd_beyond {A} i f (l : list A) : Z.of_nat (length l) <= i -> zupd i f l = l.
Proof.
  intros H. unfold zupd. destruct (i <? 0); [done|]. apply list_eq. intros j.
  destruct (decide (Z.to_nat i = j)) as [<-|Hne].
  - rewrite list_lookup_alter_eq, lookup_ge_None_2 by lia. done.
  - now rewrite list_lookup_alter_ne.
Qed.

Lemma put_tasks_beyond i ks tab : Z.of_nat (length tab) <= i -> put_tasks i ks tab = tab.
Proof.
  revert i tab. induction ks as [|k ks IH]; intros i tab H; cbn [put_tasks]; [done|].
  rewrite zupd_beyond by done. apply IH. lia.
Qed.

Lemma put_tasks_other i ks tab k :
  k < i \/ i + Z.of_nat (length ks) <= k -> znth (put_tasks i ks tab) k = znth tab k.
Proof.
  revert i tab. induction ks as [|x ks IH]; intros i tab H; cbn [put_tasks length] in *; [done|].
  rewrite IH by lia. apply znth_zupd_ne. lia.
Qed.

Lemma put_tasks_nth i ks tab j k :
  ks !! j = Some k ->
  znth (put_tasks i ks tab) (i + Z.of_nat j) = task_entry k <$> znth tab (i + Z.of_nat j).
Proof.
  revert i tab j. induction ks as [|x ks IH]; intros i tab [|j] H; cbn in H; try done.
  - injection H as ->. cbn [put_tasks]. rewrite Z.add_0_r, put_tasks_other by lia.
    destruct (znth tab i) as [t|] eqn:E; [now apply znth_zupd_eq|].
    cbn. destruct (znth (zupd i (task_entry k) tab) i) eqn:E2; [|done].
    assert (is_Some (znth tab i)) as [? ?]; [|congruence].
    apply znth_in. unfold inb. rewrite <- (length_zupd i (task_entry k) tab). apply znth_in. eauto.
  - cbn [put_tasks]. replace (i + Z.of_nat (S j)) with (i + 1 + Z.of_nat j) by lia.
    rewrite (IH (i + 1) _ j H). rewrite znth_zupd_ne by lia. done.
Qed.

(** ** The first loop *)

Definition with_tab (tab : list server_tab_t) (w : world) : world := set_tSvrTab tab w.

Lemma with_tab_same w : with_tab (tSvrTab w) w = w.
Proof. now apply world_eq. Qed.

(** One line that [cf_nextparm] returns. *)
Lemma register_task i w t k :
  attached w = true -> znth (tSvrTab w) i = Some t -> task_ok k ->
  Z.of_nat (length (program w (tk_name k))) <= 128 ->
  register_server i (buf_of LINE_SIZE (task_line k)) w
  = if installed w k then Ret 0 (with_entry i w (task_entry k)) else Ret 1 w.
Proof.
  intros Ha Ht (Hn & Hok & Hp & Hl) Hlen. unfold buf_of, task_line in *.
  change (zeros (LINE_SIZE - Z.of_nat (length (print_line (tk_name k) (tk_first k) (tk_rest k)))))
    with (nuls (Z.to_nat (LINE_SIZE - Z.of_nat (length (print_line (tk_name k) (tk_first k) (tk_rest k)))))).
  rewrite (register_server_eq i w t); try done.
  - unfold LINE_SIZE. lia.
  - rewrite length_app. unfold nuls. rewrite length_replicate. unfold LINE_SIZE. lia.
Qed.

Section Load.
Context (last d : bytes).
Hypothesis (Hlast : line_ok last).

Definition rest_of (ls : list bytes) : stream := Some (mkFile d (text ls ++ last) false).

Lemma read_task ls w :
  Forall line_ok ls ->
  match params tsk_task ls with
  | [] => exists fp, read_parm tsk_task (rest_of ls) w = Ret (-1, zeros LINE_SIZE, fp) w
  | v :: vs => exists ls', read_parm tsk_task (rest_of ls) w = Ret (0, buf_of LINE_SIZE v, rest_of ls') w
      /\ params tsk_task ls' = vs /\ Forall line_ok ls' /\ (length ls' < length ls)%nat
  end.
Proof.
  intros Hls. pose proof (cf_nextparm_params d (str "tsk.tas") "k"%char ls last) as H. cbn zeta in H.
  change (str "tsk.tas" ++ ["k"%char]) with tsk_task in H.
  specialize (H ltac:(repeat constructor; discriminate) eq_refl Hls Hlast).
  unfold read_parm, rest_of. change BUF512 with (zeros LINE_SIZE).
  destruct (params tsk_task ls) as [|v vs].
  - rewrite H. eauto.
  - destruct H as (ls' & E & Pv & Hls' & Hlen & _). rewrite E. eauto.
Qed.

Lemma load_loop_eq fuel i ls ks w :
  attached w = true -> Z.of_nat (length (tSvrTab w)) = nsvrnum (w_ctrl w) -> 0 <= i ->
  Forall line_ok ls -> params tsk_task ls = map task_line ks -> Forall task_ok ks ->
  Forall (fun k => Z.of_nat (length (program w (tk_name k))) <= 128) ks -> (length ls < fuel)%nat ->
  load_loop fuel i (rest_of ls) w
  = Ret 0 (with_tab (put_tasks i (List.filter (installed w) ks) (tSvrTab w)) w).
Proof.
  revert i ls ks w. induction fuel as [|fuel IH]; intros i ls ks w Ha Hn Hi Hls Hp Hks Hlen Hf; [lia|].
  cbn [load_loop]. rewrite (bind_Ret _ _ _ _ _ (ctrl_eq w Ha)), <- Hn.
  destruct (Z.leb_spec (Z.of_nat (length (tSvrTab w))) i) as [B|B].
  { rewrite put_tasks_beyond by done. now rewrite with_tab_same. }
  pose proof (read_task ls w Hls) as R. rewrite Hp in R. destruct ks as [|k ks]; cbn [map] in R, Hp.
  - destruct R as [fp R]. rewrite (bind_Ret _ _ _ _ _ R). cbn [Z.ltb Z.compare List.filter put_tasks].
    now rewrite with_tab_same.
  - destruct R as (ls' & R & Hp' & Hls' & L'). rewrite (bind_Ret _ _ _ _ _ R). cbn [Z.ltb Z.compare].
    apply Forall_cons in Hks as [Hk Hks]. apply Forall_cons in Hlen as [Hlk Hlen].
    destruct (proj1 (znth_in (tSvrTab w) i)) as [t Ht]; [apply andb_true_iff; rewrite Z.leb_le, Z.ltb_lt; lia|].
    pose proof (register_task i w t k Ha Ht Hk Hlk) as E. cbn [List.filter].
    destruct (installed w k).
    + rewrite (bind_Ret _ _ _ _ _ E). cbn [Z.ltb Z.compare put_tasks].
      rewrite (IH (i + 1) ls' ks (with_entry i w (task_entry k))); try assumption; [reflexivity| |lia|lia].
      cbn [tSvrTab with_entry set_tSvrTab w_ctrl]. now rewrite length_zupd.
    + rewrite (bind_Ret _ _ _ _ _ E). cbn [Z.ltb Z.compare].
      apply (IH i ls' ks w); try assumption. lia.
Qed.
End Load.

(** ** The timeouts *)

Section Timeouts.
Context (ls : list bytes) (last : bytes).
Hypotheses (Hls : Forall line_ok ls) (Hlast : line_ok last).

(** The timeout that the configuration gives the service of a server. *)
Definition retime (t : server_tab_t) : server_tab_t :=
  if svrid t =? -1 then t
  else set_timeout (timeout_of (take NAME_LEN (svc_name t)) (params (str "sd.svc") ls)) t.

Definition retime_at (i : Z) : prog world unit :=
  let* t := svr i in when (negb (svrid t =? -1)) (set_timeout_of i).

Lemma retime_at_eq w a t b :
  attached w = true -> o_cfg (w_os w) = Some (text ls ++ last) -> tSvrTab w = a ++ t :: b ->
  retime_at (Z.of_nat (length a)) w = Ret tt (with_tab (a ++ retime t :: b) w).
Proof.
  intros Ha Hc Ht. unfold retime_at, svr.
  assert (E : entry tSvrTab (Z.of_nat (length a)) w = Ret t w)
    by (apply entry_eq; [done|rewrite Ht; apply znth_middle]).
  rewrite (bind_Ret _ _ _ _ _ E). unfold retime. destruct (svrid t =? -1); cbn [negb when].
  - unfold with_tab. rewrite <- Ht. unfold ret. f_equal. now apply world_eq.
  - unfold set_timeout_of, svr. rewrite (bind_Ret _ _ _ _ _ E).
    rewrite (bind_Ret _ _ _ _ _ (get_timeout_eq w ls last _ Hc Hls Hlast)).
    unfold upd_svr. erewrite upd_entry_eq; [|done|rewrite Ht; apply znth_middle].
    rewrite Ht, zupd_middle. reflexivity.
Qed.

Lemma retime_loop w a b :
  attached w = true -> o_cfg (w_os w) = Some (text ls ++ last) -> tSvrTab w = a ++ b ->
  for_each (seqZ (Z.of_nat (length a)) (Z.of_nat (length b))) retime_at w
  = Ret tt (with_tab (a ++ map retime b) w).
Proof.
  revert a w. induction b as [|t b IH]; intros a w Ha Hc Ht.
  - cbn [length map]. change (Z.of_nat 0) with 0. rewrite seqZ_nil by lia. cbn [for_each].
    rewrite <- Ht. now rewrite with_tab_same.
  - cbn [length map]. rewrite seqZ_cons by lia. cbn [for_each].
    rewrite (bind_Ret _ _ _ _ _ (retime_at_eq w a t b Ha Hc Ht)).
    replace (Z.succ (Z.of_nat (length a))) with (Z.of_nat (length (a ++ [retime t])))
      by (rewrite length_app; cbn; lia).
    replace (Z.pred (Z.of_nat (S (length b)))) with (Z.of_nat (length b)) by lia.
    rewrite IH; [|exact Ha|exact Hc|cbn [tSvrTab with_tab set_tSvrTab]; now rewrite <- app_assoc].
    f_equal. unfold with_tab. rewrite <- app_assoc. now apply world_eq.
Qed.
End Timeouts.

Lemma znth_map {A B} (f : A -> B) (l : list A) i : znth (map f l) i = f <$> znth l i.
Proof. unfold znth. destruct (i <? 0); [done|]. apply list_lookup_fmap. Qed.

(** The table that the configuration gives. *)
Definition configured (w : world) (ls : list bytes) (ks : list task) : list server_tab_t :=
  let tab := put_tasks 1 (List.filter (installed w) ks) (tSvrTab w) in
  take 1 tab ++ map (retime ls) (drop 1 tab).

Lemma server_load_cfg_eq w ls last ks :
  attached w = true -> tables_ok w -> 1 <= nsvrnum (w_ctrl w) ->
  o_cfg (w_os w) = Some (text ls ++ last) -> Forall line_ok ls -> line_ok last ->
  params tsk_task ls = map task_line ks -> Forall task_ok ks ->
  Forall (fun k => Z.of_nat (length (program w (tk_name k))) <= 128) ks ->
  server_load_cfg w = Ret 0 (with_tab (configured w ls ks) w).
Proof.
  intros Ha K Hn Hc Hls Hlast Hp Hks Hlen. unfold server_load_cfg, open_cfg.
  erewrite bind_Ret by reflexivity. cbn [id]. rewrite Hc. cbn [cf_open fmap option_fmap option_map].
  set (d := text ls ++ last).
  assert (L : load_loop (lines_left (Some (mkFile d d false))) 1 (Some (mkFile d d false)) w
    = Ret 0 (with_tab (put_tasks 1 (List.filter (installed w) ks) (tSvrTab w)) w)).
  { apply (load_loop_eq last d Hlast _ 1 ls ks w); try assumption; [apply K|lia|].
    unfold lines_left. cbn [fuel_of f_rest]. pose proof (text_length ls). unfold d. rewrite length_app. lia. }
  rewrite (bind_Ret _ _ _ _ _ L). cbn [Z.ltb Z.compare].
  set (tab := put_tasks 1 _ _). set (w1 := with_tab tab w).
  assert (Lt : Z.of_nat (length tab) = nsvrnum (w_ctrl w)).
  { unfold tab. rewrite length_put_tasks. apply K. }
  rewrite (bind_Ret _ _ _ _ _ (ctrl_eq w1 Ha)).
  assert (Lp : length (take 1 tab) = 1%nat) by (rewrite length_take; lia).
  assert (R : for_each (from_to 1 (nsvrnum (w_ctrl w1))) retime_at w1
    = Ret tt (with_tab (take 1 tab ++ map (retime ls) (drop 1 tab)) w1)).
  { unfold from_to. change (w_ctrl w1) with (w_ctrl w). rewrite <- Lt.
    replace (seqZ 1 (Z.of_nat (length tab) - 1))
      with (seqZ (Z.of_nat (length (take 1 tab))) (Z.of_nat (length (drop 1 tab))))
      by (rewrite length_drop, Lp; f_equal; lia).
    apply (retime_loop ls last Hls Hlast w1); [exact Ha|exact Hc|]. symmetry. apply take_drop. }
  fold (retime_at). rewrite (bind_Ret _ _ _ _ _ R). reflexivity.
Qed.

(** C5: loading a configuration terminates and gives the table that the file describes.
    Let the [tsk.task] lines be printed tasks and the tasks whose program is installed
    be numbered from 1 in the order of the file.  Then [server_load_cfg] returns 0; the
    entry with a task's number, as far as there are entries, holds the task's settings
    over the defaults, with the timeout that the [sd.svc] lines give its service; a
    line whose program is missing takes no entry; the manager's entry is unchanged. *)
Theorem server_load_cfg_correct w ls last ks :
  attached w = true -> tables_ok w -> 1 <= nsvrnum (w_ctrl w) ->
  o_cfg (w_os w) = Some (text ls ++ last) -> Forall line_ok ls -> line_ok last ->
  params tsk_task ls = map task_line ks -> Forall task_ok ks ->
  Forall (fun k => Z.of_nat (length (program w (tk_name k))) <= 128) ks ->
  let found := List.filter (installed w) ks in
  exists tab, server_load_cfg w = Ret 0 (set_tSvrTab tab w)
    /\ length tab = length (tSvrTab w) /\ znth tab 0 = znth (tSvrTab w) 0
    /\ (forall j k, found !! j = Some k ->
          znth tab (1 + Z.of_nat j) = (fun t => retime ls (task_entry k t)) <$> znth (tSvrTab w) (1 + Z.of_nat j))
    /\ (forall i, 1 + Z.of_nat (length found) <= i -> znth tab i = retime ls <$> znth (tSvrTab w) i).
Proof.
  intros Ha K Hn Hc Hls Hlast Hp Hks Hlen found. exists (configured w ls ks).
  split; [now apply (server_load_cfg_eq w ls last)|]. unfold configured. fold found.
  set (tab := put_tasks 1 found (tSvrTab w)).
  assert (L : length tab = length (tSvrTab w)) by apply length_put_tasks.
  pose proof (ok_svrs w K) as Ks.
  assert (Hd : forall i, 1 <= i -> znth (take 1 tab ++ map (retime ls) (drop 1 tab)) i = retime ls <$> znth tab i).
  { intros i Hi. assert (Lp : length (take 1 tab) = 1%nat) by (rewrite length_take; lia).
    rewrite znth_app_r by lia. rewrite Lp, znth_map. f_equal. change (Z.of_nat 1) with 1.
    replace (drop 1 tab) with (tl tab) by (now destruct tab). now apply znth_tl. }
  split; [rewrite length_app, length_map, length_take, length_drop; lia|]. split.
  { rewrite <- (put_tasks_other 1 found (tSvrTab w) 0) by lia. fold tab. now destruct tab. }
  split.
  - intros j k Hj. rewrite Hd by lia. unfold tab. rewrite (put_tasks_nth 1 found _ j k Hj).
    now destruct (znth (tSvrTab w) (1 + Z.of_nat j)).
  - intros i Hi. rewrite Hd by lia. unfold tab. now rewrite put_tasks_other by lia.
Qed.

(** *** Witness *)

Definition demo_task : task :=
  mkTask (str "echo") (SrvId 7) [SrvNum 2; RqAddr (str "ECHO")].

Lemma demo_task_ok : task_ok demo_task.
Proof.
  split; [literal_token|]. split; [|split; [reflexivity|cbn; lia]].
  constructor; [cbn; unfold INT_MIN, INT_MAX, SVR_MSG_TYPE_ROOT; lia|].
  constructor; [cbn; unfold INT_MIN, INT_MAX; lia|].
  constructor; [split; [literal_token|cbn; lia]|constructor].
Qed.

Lemma server_load_cfg_correct_witness :
  exists tab, server_load_cfg (demo_farm TUX_IDLE []) = Ret 0 (set_tSvrTab tab (demo_farm TUX_IDLE []))
    /\ znth tab 1 = Some (mkSvr 7 (str "echo") (str "ECHO") [] 2 SVR_PERM SVR_REPLY_NEED SVR_PERM 300007 35).
Proof.
  destruct (server_load_cfg_correct (demo_farm TUX_IDLE []) demo_lines [] [demo_task] eq_refl
    (demo_farm_ok TUX_IDLE []) ltac:(cbn; lia) eq_refl (proj1 demo_lines_text) (proj2 demo_lines_text)
    eq_refl ltac:(constructor; [exact demo_task_ok|constructor])) as (tab & E & _ & _ & H & _).
  - constructor; [vm_compute; discriminate|constructor].
  - exists tab. refine (conj E _). exact (H 0%nat demo_task eq_refl).
Defined.
