(* ===== verification/Clients.v ===== *)
(** * The connection table of the communication server

    The data of [src/dev/src/comm/commserver/commserver.c] and the functions that only
    touch it.  [client_ctrl] is an array of 20 client entries, one per reading thread,
    each with a counter and 1000 connections.  Since [CommClearFd] copies across the
    end of an entry, the array is modelled as the memory it is: a list of 32-bit words.
    An access outside the array faults. *)

From Stdlib Require Import ZArith Lia Bool List.
From stdpp Require Import base list.
From S2P Require Import Prelude Cstr.

Definition MAX_FD_NUM : Z := 1000.
Definition MAX_TREAD_NUM : Z := 20.
Definition FD_STAT_REG : Z := 0.
Definition FD_STAT_POLL : Z := 1.
Definition FD_STAT_READ : Z := 2.
Definition FD_STAT_WRITE : Z := 3.

(** [sizeof(connect_handle_t) / 4]: [fd], [ssn], [utime], [status] with its padding. *)
Definition CONNECT : Z := 4.
Definition CLIENT : Z := 1 + CONNECT * MAX_FD_NUM.
Definition CLIENT_CTRL : Z := MAX_TREAD_NUM * CLIENT.

Record connect_handle_t := mkConn { fd : Z; ssn : Z; utime : Z; status : Z }.

(** The memory: words of 32 bits. *)
Abbreviation table := (list Z).

Definition word (k : Z) : prog table Z := fun m => deref (znth m k) m.
Definition set_word (k v : Z) : prog table unit := fun m =>
  if inb m k then Ret tt (zupd k (fun _ => u32 v) m) else Fault.

(** A [char] in the low byte of a word. *)
Definition low_char (w : Z) : Z := (w + 128) mod 256 - 128.
Definition set_low (v w : Z) : Z := w - w mod 256 + v mod 256.

Definition NUM (i : Z) : Z := i * CLIENT.
Definition CONN (i j : Z) : Z := i * CLIENT + 1 + CONNECT * j.

Definition GetCommClientNum (i : Z) : prog table Z := let* w := word (NUM i) in ret (i32 w).
Definition SetCommClientNum (i v : Z) : prog table unit := set_word (NUM i) v.
Definition GetCommClientFD (i j : Z) : prog table Z := let* w := word (CONN i j) in ret (i32 w).
Definition SetCommClientFD (i j v : Z) : prog table unit := set_word (CONN i j) v.
Definition GetCommClientSsn (i j : Z) : prog table Z := word (CONN i j + 1).
Definition SetCommClientSsn (i j v : Z) : prog table unit := set_word (CONN i j + 1) v.
Definition GetCommClientTime (i j : Z) : prog table Z := word (CONN i j + 2).
Definition SetCommClientTime (i j v : Z) : prog table unit := set_word (CONN i j + 2) v.
Definition GetCommClientStat (i j : Z) : prog table Z :=
  let* w := word (CONN i j + 3) in ret (low_char w).
Definition SetCommClientStat (i j v : Z) : prog table unit :=
  let* w := word (CONN i j + 3) in set_word (CONN i j + 3) (set_low v w).

(** [memcpy(&tClient, &client_ctrl[i].connect[j], sizeof(connect_handle_t))]. *)
Definition get_connect (i j : Z) : prog table connect_handle_t :=
  let* a := GetCommClientFD i j in
  let* b := GetCommClientSsn i j in
  let* c := GetCommClientTime i j in
  let* d := GetCommClientStat i j in
  ret (mkConn a b c d).

(** [memset(&client_ctrl[i], 0, sizeof(client_handle_t))]. *)
Definition CommHandClear (i : Z) : prog table unit := fun m =>
  let a := Z.to_nat (NUM i) in
  if (0 <=? i) && (i <? MAX_TREAD_NUM) then
    SetCommClientNum i 0 (take a m ++ replicate (Z.to_nat CLIENT) 0 ++ drop (a + Z.to_nat CLIENT) m)
  else Fault.

Definition InitConnect (i j : Z) : prog table unit :=
  SetCommClientFD i j (-1) ;;; SetCommClientStat i j (-1).

(** [memcpy] of [n] words; the areas overlap, and the copy goes upwards. *)
Definition copy_words (dst src n : Z) : prog table unit := fun m =>
  let d := Z.to_nat dst in
  let s := Z.to_nat src in
  let k := Z.to_nat n in
  if (0 <=? dst) && (0 <=? src) && (0 <=? n)
     && (src + n <=? Z.of_nat (length m)) && (dst + n <=? Z.of_nat (length m))
  then Ret tt (take d m ++ take k (drop s m) ++ drop (d + k) m)
  else Fault.

(** The count of connections to move is computed from [i], not from [j]. *)
Definition CommClearFd (i j : Z) : prog table unit :=
  copy_words (CONN i j) (CONN i (j + 1)) (CONNECT * (MAX_FD_NUM - i - 1)) ;;;
  SetCommClientFD i (MAX_FD_NUM - 1) (-1) ;;;
  SetCommClientStat i (MAX_FD_NUM - 1) (-1).

(** ** Searches *)

Definition FUEL : nat := Z.to_nat MAX_FD_NUM.

Fixpoint pos_loop (n : nat) (idx i fd : Z) : prog table Z :=
  match n with
  | O => ret (-1)
  | S n =>
      let* x := GetCommClientFD idx i in
      if x =? fd then ret i else pos_loop n idx (i + 1) fd
  end.

(** The two branches of the loop are the same test. *)
Definition get_connect_pos (idx fd : Z) : prog table Z := pos_loop FUEL idx 0 fd.

(** Behind the loop the function ends without a [return]: [junk] is what the caller
    sees then. *)
Fixpoint inf_loop (n : nat) (junk idx i ssn : Z) : prog table Z :=
  match n with
  | O => ret junk
  | S n =>
      let* x := GetCommClientFD idx i in
      if negb (x =? -1) then
        let* s := GetCommClientSsn idx i in
        if s =? ssn then ret i else inf_loop n junk idx (i + 1) ssn
      else ret (-1)
  end.

(** [a % b] of C. *)
Definition crem (a b : Z) : prog table Z := if b =? 0 then fault else ret (Z.rem a b).

Definition get_conn_inf (num junk sock_id ssn : Z) : prog table Z :=
  let* idx := crem sock_id num in inf_loop FUEL junk idx 0 ssn.

Fixpoint count_loop (n : nat) (idx i number : Z) : prog table Z :=
  match n with
  | O => ret number
  | S n =>
      let* x := GetCommClientFD idx i in
      if negb (x =? -1) then count_loop n idx (i + 1) (number + 1) else ret number
  end.

Definition getconnetcount (idx : Z) : prog table Z := count_loop FUEL idx 0 0.

Fixpoint read_fd_loop (n : nat) (idx i : Z) : prog table Z :=
  match n with
  | O => ret (-1)
  | S n =>
      let* x := GetCommClientFD idx i in
      if x <? 0 then ret (-1)
      else
        let* s := GetCommClientStat idx i in
        if s =? FD_STAT_POLL then ret i else read_fd_loop n idx (i + 1)
  end.

Definition get_read_fd (idx : Z) : prog table Z := read_fd_loop FUEL idx 0.

(** ** The wait of the main loop *)

Fixpoint wait_loop (n : nat) (i currtime idletime number diff_time : Z) : prog table (Z * Z) :=
  match n with
  | O => ret (number, diff_time)
  | S n =>
      let* x := GetCommClientFD i 0 in
      if negb (x =? -1) then
        let* t := GetCommClientTime i 0 in
        let due := u32 (t + idletime) in
        let tmp_time := if due <=? currtime then i32 (currtime - due) else 0 in
        wait_loop n (i + 1) currtime idletime (number + 1)
          (if diff_time <=? tmp_time then tmp_time else diff_time)
      else wait_loop n (i + 1) currtime idletime number diff_time
  end.

(** [*timeout]; [diff_time * 1000 + 50] is an [int]. *)
Definition get_wait_time (num currtime idletime : Z) : prog table Z :=
  let* (number, diff_time) := wait_loop (Z.to_nat num) 0 currtime idletime 0 0 in
  if number =? 0 then ret (-1)
  else if diff_time * 1000 + 50 <=? INT_MAX then ret (diff_time * 1000 + 50) else fault.

(** ** The table as a list of connections per client entry *)

Definition sized (m : table) : Prop := Z.of_nat (length m) = MAX_TREAD_NUM * CLIENT.

Definition wd (m : table) (k : Z) : Z := default 0 (znth m k).

Definition conn_at (m : table) (i j : Z) : connect_handle_t :=
  mkConn (i32 (wd m (CONN i j))) (wd m (CONN i j + 1)) (wd m (CONN i j + 2))
    (low_char (wd m (CONN i j + 3))).

Definition conns (m : table) (i : Z) : list connect_handle_t :=
  map (conn_at m i) (seqZ 0 MAX_FD_NUM).

Definition free_conn (c : connect_handle_t) : Prop := fd c = -1.
Definition used_conn (c : connect_handle_t) : Prop := 0 <= fd c.

(** The connections of an entry come first, then the free slots. *)
Definition occupied (m : table) (i : Z) (cs : list connect_handle_t) : Prop :=
  Forall used_conn cs /\ exists free, Forall free_conn free /\ conns m i = cs ++ free.

Lemma wd_range m k : sized m -> 0 <= k < MAX_TREAD_NUM * CLIENT -> znth m k = Some (wd m k).
Proof.
  intros S H. unfold wd, sized in *. destruct (znth m k) eqn:E; [done|].
  assert (inb m k = true) by (unfold inb; rewrite andb_true_iff, Z.leb_le, Z.ltb_lt; lia).
  apply znth_in in H0 as [x Hx]. congruence.
Qed.

Lemma CONN_range i j x :
  0 <= i < MAX_TREAD_NUM -> 0 <= j < MAX_FD_NUM -> 0 <= x <= 3 ->
  0 <= CONN i j + x < MAX_TREAD_NUM * CLIENT.
Proof. unfold CONN, CLIENT, CONNECT, MAX_TREAD_NUM, MAX_FD_NUM. lia. Qed.

Lemma CONN_range0 i j :
  0 <= i < MAX_TREAD_NUM -> 0 <= j < MAX_FD_NUM -> 0 <= CONN i j < MAX_TREAD_NUM * CLIENT.
Proof. intros Hi Hj. rewrite <- (Z.add_0_r (CONN i j)). now apply CONN_range. Qed.

Lemma NUM_range i : 0 <= i < MAX_TREAD_NUM -> 0 <= NUM i < MAX_TREAD_NUM * CLIENT.
Proof. unfold NUM, CLIENT, CONNECT, MAX_TREAD_NUM, MAX_FD_NUM. lia. Qed.

Lemma word_eq m k : sized m -> 0 <= k < MAX_TREAD_NUM * CLIENT -> word k m = Ret (wd m k) m.
Proof. intros S H. unfold word. now rewrite (wd_range m k S H). Qed.

Lemma set_word_eq m k v :
  sized m -> 0 <= k < MAX_TREAD_NUM * CLIENT ->
  set_word k v m = Ret tt (zupd k (fun _ => u32 v) m).
Proof.
  intros S H. unfold set_word. rewrite (proj2 (znth_in m k)); [done|].
  rewrite (wd_range m k S H). eauto.
Qed.

Lemma sized_zupd k f m : sized m -> sized (zupd k f m).
Proof. unfold sized. now rewrite length_zupd. Qed.

Lemma wd_zupd m k v k' :
  sized m -> 0 <= k < MAX_TREAD_NUM * CLIENT -> wd (zupd k (fun _ => v) m) k' = if k' =? k then v else wd m k'.
Proof.
  intros S H. unfold wd. destruct (Z.eqb_spec k' k) as [->|N].
  - now rewrite (znth_zupd_eq _ _ _ _ (wd_range m k S H)).
  - now rewrite znth_zupd_ne by done.
Qed.

#[export] Hint Resolve sized_zupd : keeps.

Section Entry.
Context (m : table) (S : sized m) (i j : Z) (Hi : 0 <= i < MAX_TREAD_NUM) (Hj : 0 <= j < MAX_FD_NUM).

Lemma GetCommClientFD_eq : GetCommClientFD i j m = Ret (fd (conn_at m i j)) m.
Proof.
  unfold GetCommClientFD. rewrite (bind_Ret _ _ _ _ _ (word_eq m (CONN i j) S (CONN_range0 i j Hi Hj))).
  reflexivity.
Qed.

Lemma GetCommClientSsn_eq : GetCommClientSsn i j m = Ret (ssn (conn_at m i j)) m.
Proof. unfold GetCommClientSsn. now rewrite (word_eq m (CONN i j + 1) S (CONN_range i j 1 Hi Hj ltac:(lia))). Qed.

Lemma GetCommClientTime_eq : GetCommClientTime i j m = Ret (utime (conn_at m i j)) m.
Proof. unfold GetCommClientTime. now rewrite (word_eq m (CONN i j + 2) S (CONN_range i j 2 Hi Hj ltac:(lia))). Qed.

Lemma GetCommClientStat_eq : GetCommClientStat i j m = Ret (status (conn_at m i j)) m.
Proof.
  unfold GetCommClientStat. rewrite (bind_Ret _ _ _ _ _ (word_eq m (CONN i j + 3) S (CONN_range i j 3 Hi Hj ltac:(lia)))).
  reflexivity.
Qed.

Lemma get_connect_eq : get_connect i j m = Ret (conn_at m i j) m.
Proof.
  unfold get_connect. rewrite (bind_Ret _ _ _ _ _ GetCommClientFD_eq), (bind_Ret _ _ _ _ _ GetCommClientSsn_eq),
    (bind_Ret _ _ _ _ _ GetCommClientTime_eq), (bind_Ret _ _ _ _ _ GetCommClientStat_eq).
  now destruct (conn_at m i j).
Qed.
End Entry.

Lemma scan_app_none {A} (P : A -> bool) l1 l2 k :
  Forall (fun x => P x = false) l2 -> scan P (l1 ++ l2) k = scan P l1 k.
Proof.
  intros H. revert k. induction l1 as [|x l1 IH]; intros k; cbn [app scan]; [now apply scan_none|].
  now rewrite IH.
Qed.

(** What is left of the entry's list from slot [k] on. *)
Definition conns_from (m : table) (i k : Z) (n : nat) : list connect_handle_t :=
  map (conn_at m i) (seqZ k (Z.of_nat n)).

Lemma conns_from_S m i k n : conns_from m i k (S n) = conn_at m i k :: conns_from m i (k + 1) n.
Proof. unfold conns_from. rewrite seqZ_cons by lia. cbn [map]. do 3 f_equal; lia. Qed.

Lemma conns_all m i : conns_from m i 0 FUEL = conns m i.
Proof. reflexivity. Qed.

Lemma conns_lookup m i (k : nat) :
  Z.of_nat k < MAX_FD_NUM -> conns m i !! k = Some (conn_at m i (Z.of_nat k)).
Proof.
  intros H. unfold conns. change (map ?f ?l) with (f <$> l). rewrite list_lookup_fmap.
  rewrite lookup_seqZ_lt by lia. reflexivity.
Qed.

Lemma FUEL_ok : 0 + Z.of_nat FUEL <= MAX_FD_NUM.
Proof. vm_compute. discriminate. Qed.

Section Searches.
Context (m : table) (S : sized m) (i : Z) (Hi : 0 <= i < MAX_TREAD_NUM).

Lemma pos_loop_eq n k x : 0 <= k -> k + Z.of_nat n <= MAX_FD_NUM ->
  pos_loop n i k x m = Ret (scan (fun c => fd c =? x) (conns_from m i k n) k) m.
Proof.
  revert k. induction n as [|n IH]; intros k Hk Hn; [reflexivity|].
  cbn [pos_loop]. rewrite (bind_Ret _ _ _ _ _ (GetCommClientFD_eq m S i k Hi ltac:(lia))), conns_from_S.
  cbn [scan]. destruct (_ =? x); [reflexivity|]. apply IH; lia.
Qed.

Lemma get_connect_pos_eq x :
  get_connect_pos i x m = Ret (scan (fun c => fd c =? x) (conns m i) 0) m.
Proof. unfold get_connect_pos. now rewrite (pos_loop_eq FUEL 0 x ltac:(lia) FUEL_ok). Qed.

(** A search that stops at the first free slot. *)
Lemma inf_loop_eq n k junk s cs free :
  0 <= k -> k + Z.of_nat n <= MAX_FD_NUM -> Forall used_conn cs -> Forall free_conn free ->
  conns_from m i k n = cs ++ free ->
  inf_loop n junk i k s m
  = Ret (let p := scan (fun c => ssn c =? s) cs k in
         if 0 <=? p then p else if bool_decide (free = []) then junk else -1) m.
Proof.
  revert k cs. induction n as [|n IH]; intros k cs Hk Hn Hu Hf E.
  - symmetry in E. apply app_eq_nil in E as [-> ->]. reflexivity.
  - cbn [inf_loop]. rewrite (bind_Ret _ _ _ _ _ (GetCommClientFD_eq m S i k Hi ltac:(lia))).
    rewrite conns_from_S in E. destruct cs as [|c cs].
    + destruct free as [|f free]; [done|]. injection E as E1 E2. inversion Hf as [|? ? F _]; subst.
      unfold free_conn in F. rewrite F. reflexivity.
    + injection E as E1 E2. inversion Hu as [|? ? U Hu']; subst. unfold used_conn in U.
      destruct (Z.eqb_spec (fd (conn_at m i k)) (-1)); [lia|]. cbn [negb].
      rewrite (bind_Ret _ _ _ _ _ (GetCommClientSsn_eq m S i k Hi ltac:(lia))). cbn [scan].
      destruct (_ =? s); [now rewrite (proj2 (Z.leb_le 0 k)) by lia|]. apply IH; try done; lia.
Qed.

Lemma read_fd_loop_eq n k cs free :
  0 <= k -> k + Z.of_nat n <= MAX_FD_NUM -> Forall used_conn cs -> Forall free_conn free ->
  conns_from m i k n = cs ++ free ->
  read_fd_loop n i k m = Ret (scan (fun c => status c =? FD_STAT_POLL) cs k) m.
Proof.
  revert k cs. induction n as [|n IH]; intros k cs Hk Hn Hu Hf E.
  - symmetry in E. apply app_eq_nil in E as [-> ->]. reflexivity.
  - cbn [read_fd_loop]. rewrite (bind_Ret _ _ _ _ _ (GetCommClientFD_eq m S i k Hi ltac:(lia))).
    rewrite conns_from_S in E. destruct cs as [|c cs].
    + destruct free as [|f free]; [done|]. injection E as E1 E2. inversion Hf as [|? ? F _]; subst.
      unfold free_conn in F. rewrite F. reflexivity.
    + injection E as E1 E2. inversion Hu as [|? ? U Hu']; subst. unfold used_conn in U.
      destruct (Z.ltb_spec (fd (conn_at m i k)) 0); [lia|].
      rewrite (bind_Ret _ _ _ _ _ (GetCommClientStat_eq m S i k Hi ltac:(lia))). cbn [scan].
      destruct (_ =? FD_STAT_POLL); [done|]. apply IH; try done; lia.
Qed.
End Searches.

(** ** Searches in an entry with connections [cs] *)

Section Occupied.
Context (m : table) (S : sized m) (i : Z) (Hi : 0 <= i < MAX_TREAD_NUM)
  (cs : list connect_handle_t) (O : occupied m i cs).

Lemma occupied_length : Z.of_nat (length cs) <= MAX_FD_NUM.
Proof.
  destruct O as (_ & free & _ & E). apply (f_equal length) in E.
  unfold conns in E. rewrite length_map, length_seqZ, length_app in E. vm_compute (Z.to_nat _) in E.
  unfold MAX_FD_NUM. lia.
Qed.

Lemma conns_app : exists free, Forall free_conn free /\ conns m i = cs ++ free
  /\ Z.of_nat (length cs + length free) = MAX_FD_NUM.
Proof.
  destruct O as (_ & free & F & E). exists free. split; [exact F|]. split; [exact E|].
  apply (f_equal length) in E. unfold conns in E. rewrite length_map, length_seqZ, length_app in E.
  rewrite <- E. reflexivity.
Qed.

(** The slot of a socket, or -1. *)
Lemma find_fd x : 0 <= x -> get_connect_pos i x m = Ret (scan (fun c => fd c =? x) cs 0) m.
Proof.
  intros Hx. rewrite (get_connect_pos_eq m S i Hi). destruct conns_app as (free & F & -> & _).
  rewrite scan_app_none; [done|]. eapply Forall_impl; [exact F|]. intros c Hc. cbn.
  unfold free_conn in Hc. apply Z.eqb_neq. lia.
Qed.

(** The first free slot, or -1 when all are used. *)
Lemma find_free : get_connect_pos i (-1) m
  = Ret (if Z.of_nat (length cs) <? MAX_FD_NUM then Z.of_nat (length cs) else -1) m.
Proof.
  rewrite (get_connect_pos_eq m S i Hi). destruct conns_app as (free & F & -> & L). f_equal.
  assert (N : Forall (fun c => (fd c =? -1) = false) cs).
  { eapply Forall_impl; [apply O|]. intros c Hc. unfold used_conn in Hc. apply Z.eqb_neq. lia. }
  destruct free as [|f free].
  - rewrite app_nil_r, scan_none by done. cbn [length] in L.
    destruct (Z.ltb_spec (Z.of_nat (length cs)) MAX_FD_NUM); [lia|done].
  - rewrite scan_app; [|done|now apply Z.eqb_eq; inversion F].
    cbn [length] in L. destruct (Z.ltb_spec (Z.of_nat (length cs)) MAX_FD_NUM); lia.
Qed.

(** The slot with a connection number, or -1; nothing certain in a full entry. *)
Lemma find_ssn junk s : Z.of_nat (length cs) < MAX_FD_NUM \/ 0 <= scan (fun c => ssn c =? s) cs 0 ->
  inf_loop FUEL junk i 0 s m = Ret (scan (fun c => ssn c =? s) cs 0) m.
Proof.
  intros H. destruct conns_app as (free & F & E & L).
  rewrite (inf_loop_eq m S i Hi FUEL 0 junk s cs free ltac:(lia) FUEL_ok (proj1 O) F E).
  f_equal. cbn zeta. destruct (Z.leb_spec 0 (scan (fun c => ssn c =? s) cs 0)); [done|].
  case_bool_decide as B.
  - subst free. cbn [length] in L. lia.
  - destruct (scan_range (fun c => ssn c =? s) cs 0); lia.
Qed.

(** The first connection with data to read, or -1. *)
Lemma find_poll : get_read_fd i m = Ret (scan (fun c => status c =? FD_STAT_POLL) cs 0) m.
Proof.
  destruct conns_app as (free & F & E & L). unfold get_read_fd.
  exact (read_fd_loop_eq m S i Hi FUEL 0 cs free ltac:(lia) FUEL_ok (proj1 O) F E).
Qed.

(** The connection in a slot. *)
Lemma conn_at_occupied k c : cs !! k = Some c -> conn_at m i (Z.of_nat k) = c /\ Z.of_nat k < MAX_FD_NUM.
Proof.
  intros H. pose proof (lookup_lt_Some _ _ _ H) as Lk. destruct conns_app as (free & _ & E & L).
  assert (H' : conns m i !! k = Some c) by (rewrite E; now apply lookup_app_l_Some).
  rewrite conns_lookup in H' by lia. injection H' as <-. split; [done|]. lia.
Qed.
End Occupied.

(** ** Updates *)

(** [m'] is [m] with the connection [c] in the slot [j] of entry [i]. *)
Definition slot_set (i j : Z) (c : connect_handle_t) (m m' : table) : Prop :=
  sized m' /\ conn_at m' i j = c
  /\ (forall k, (k < CONN i j \/ CONN i j + 3 < k) -> wd m' k = wd m k).

Ltac addr := unfold CONN, NUM, CLIENT, CONNECT, MAX_FD_NUM, MAX_TREAD_NUM in *; lia.

Lemma slot_set_trans i j c c' m m1 m2 :
  slot_set i j c m m1 -> slot_set i j c' m1 m2 -> slot_set i j c' m m2.
Proof. intros (_ & _ & F1) (S & E & F2). split; [done|]. split; [done|]. intros k Hk. now rewrite F2, F1. Qed.

Lemma slot_set_other i j c m m' i' j' :
  slot_set i j c m m' -> 0 <= j < MAX_FD_NUM -> 0 <= j' < MAX_FD_NUM -> i' <> i \/ j' <> j ->
  conn_at m' i' j' = conn_at m i' j'.
Proof. intros (_ & _ & F) Hj Hj' Hne. unfold conn_at. f_equal; rewrite ?F by addr; done. Qed.

Lemma slot_set_num i j c m m' i' :
  slot_set i j c m m' -> 0 <= j < MAX_FD_NUM -> wd m' (NUM i') = wd m (NUM i').
Proof. intros (_ & _ & F) Hj. apply F. addr. Qed.

Lemma conns_ext m m' i :
  (forall j, 0 <= j < MAX_FD_NUM -> conn_at m' i j = conn_at m i j) -> conns m' i = conns m i.
Proof.
  intros H. unfold conns. apply map_ext_in. intros j Hj. apply H.
  apply list_elem_of_In, elem_of_seqZ in Hj. lia.
Qed.

Lemma length_conns m i : length (conns m i) = FUEL.
Proof. unfold conns. now rewrite length_map, length_seqZ. Qed.

Lemma slot_set_conns i j c m m' (k : nat) :
  slot_set i j c m m' -> j = Z.of_nat k -> j < MAX_FD_NUM -> conns m' i = <[k := c]> (conns m i).
Proof.
  intros H -> Hk. apply list_eq_same_length with (n := FUEL);
    rewrite ?length_insert, ?length_conns; try done.
  intros x a b Hx Ha Hb. assert (Hx' : Z.of_nat x < MAX_FD_NUM) by (pose proof FUEL_ok; lia).
  rewrite conns_lookup in Ha by done. injection Ha as <-. destruct (decide (x = k)) as [->|N].
  - rewrite list_lookup_insert_eq in Hb by (rewrite length_conns; lia). injection Hb as <-. apply H.
  - rewrite list_lookup_insert_ne, conns_lookup in Hb by done. injection Hb as <-.
    eapply slot_set_other; [exact H|lia..].
Qed.

Lemma occupied_append i c m m' cs :
  occupied m i cs -> slot_set i (Z.of_nat (length cs)) c m m' -> Z.of_nat (length cs) < MAX_FD_NUM ->
  used_conn c -> occupied m' i (cs ++ [c]).
Proof.
  intros O H L U. destruct (conns_app m i cs O) as (free & F & E & Lf). split.
  - apply Forall_app. split; [apply O|]. now constructor.
  - destruct free as [|f free]; [cbn in Lf; lia|]. exists free. split; [now inversion F|].
    rewrite (slot_set_conns _ _ _ _ _ (length cs) H) by done. rewrite E.
    rewrite insert_app_r_alt, Nat.sub_diag by lia. cbn. now rewrite <- app_assoc.
Qed.

Lemma occupied_update i k c m m' cs :
  occupied m i cs -> (k < length cs)%nat -> slot_set i (Z.of_nat k) c m m' -> used_conn c ->
  occupied m' i (<[k := c]> cs).
Proof.
  intros O Hk H U. destruct (conns_app m i cs O) as (free & F & E & Lf). split.
  - apply Forall_insert; [apply O|done].
  - exists free. split; [done|]. rewrite (slot_set_conns _ _ _ _ _ k H) by lia.
    rewrite E. now apply insert_app_l.
Qed.

Lemma low_char_set_low v w : low_char (u32 (set_low v w)) = low_char v.
Proof.
  unfold low_char, u32, set_low. f_equal. rewrite <- (Zplus_mod_idemp_l (_ mod 2 ^ 32)), <- (Zplus_mod_idemp_l v).
  do 2 f_equal. rewrite Z.mod_mod_divide by (now exists (2 ^ 24)).
  rewrite <- Zplus_mod_idemp_l, Zminus_mod_idemp_r, Z.sub_diag. now rewrite Z.add_0_l, Z.mod_mod by lia.
Qed.

Lemma free_at_occupied m i cs (x : nat) :
  occupied m i cs -> (length cs <= x)%nat -> Z.of_nat x < MAX_FD_NUM -> fd (conn_at m i (Z.of_nat x)) = -1.
Proof.
  intros O Hx Hm. destruct (conns_app m i cs O) as (free & F & E & L).
  pose proof (conns_lookup m i x Hm) as H. rewrite E, lookup_app_r in H by done.
  exact (proj1 (Forall_lookup _ _) F _ _ H).
Qed.

Lemma occupied_intro m i cs :
  Z.of_nat (length cs) <= MAX_FD_NUM -> Forall used_conn cs ->
  (forall x c, cs !! x = Some c -> conn_at m i (Z.of_nat x) = c) ->
  (forall x, (length cs <= x)%nat -> Z.of_nat x < MAX_FD_NUM -> fd (conn_at m i (Z.of_nat x)) = -1) ->
  occupied m i cs.
Proof.
  intros L U H1 H2. split; [done|]. exists (drop (length cs) (conns m i)). split.
  - apply Forall_lookup. intros x c Hx. rewrite lookup_drop in Hx.
    assert (B : Z.of_nat (length cs + x) < MAX_FD_NUM).
    { apply lookup_lt_Some in Hx. rewrite length_conns in Hx. pose proof FUEL_ok. lia. }
    rewrite conns_lookup in Hx by done. injection Hx as <-. apply H2; [lia|done].
  - rewrite <- (take_drop (length cs) (conns m i)) at 1. f_equal.
    assert (Lt : length (take (length cs) (conns m i)) = length cs).
    { rewrite length_take, length_conns. unfold FUEL, MAX_FD_NUM in *. lia. }
    apply list_eq_same_length with (n := length cs); [done|done|].
    intros x a b Hx Ha Hb. rewrite lookup_take_lt, conns_lookup in Ha by lia. injection Ha as <-. now apply H1.
Qed.

Section Writes.
Context (m : table) (S : sized m) (i j v : Z) (Hi : 0 <= i < MAX_TREAD_NUM) (Hj : 0 <= j < MAX_FD_NUM).

Lemma slot_word x w :
  0 <= x <= 3 ->
  set_word (CONN i j + x) w m = Ret tt (zupd (CONN i j + x) (fun _ => u32 w) m)
  /\ forall k, wd (zupd (CONN i j + x) (fun _ => u32 w) m) k = if k =? CONN i j + x then u32 w else wd m k.
Proof.
  intros Hx. pose proof (CONN_range i j x Hi Hj Hx) as R. split; [now apply set_word_eq|].
  intros k. now apply wd_zupd.
Qed.

Lemma slot_write x w c :
  0 <= x <= 3 -> (forall m', (forall k, wd m' k = if k =? CONN i j + x then u32 w else wd m k) -> conn_at m' i j = c) ->
  exists m', set_word (CONN i j + x) w m = Ret tt m' /\ slot_set i j c m m'.
Proof.
  intros Hx Hc. destruct (slot_word x w Hx) as [E W]. eexists. split; [exact E|].
  split; [now apply sized_zupd|]. split; [now apply Hc|].
  intros k Hk. rewrite W. destruct (Z.eqb_spec k (CONN i j + x)); [lia|done].
Qed.

Ltac slot_tac := intros m' W; unfold conn_at; rewrite !W, ?Z.eqb_refl;
  repeat match goal with |- context [?a =? ?b] => destruct (Z.eqb_spec a b); [exfalso; lia|] end.

Lemma SetCommClientFD_eq : exists m', SetCommClientFD i j v m = Ret tt m'
  /\ slot_set i j (mkConn (i32 v) (ssn (conn_at m i j)) (utime (conn_at m i j)) (status (conn_at m i j))) m m'.
Proof.
  unfold SetCommClientFD. rewrite <- (Z.add_0_r (CONN i j)). apply slot_write; [lia|].
  rewrite Z.add_0_r. slot_tac. cbn [ssn utime status]. f_equal. apply i32_mod.
Qed.

Lemma SetCommClientSsn_eq : exists m', SetCommClientSsn i j v m = Ret tt m'
  /\ slot_set i j (mkConn (fd (conn_at m i j)) (u32 v) (utime (conn_at m i j)) (status (conn_at m i j))) m m'.
Proof. unfold SetCommClientSsn. apply slot_write; [lia|]. slot_tac. done. Qed.

Lemma SetCommClientTime_eq : exists m', SetCommClientTime i j v m = Ret tt m'
  /\ slot_set i j (mkConn (fd (conn_at m i j)) (ssn (conn_at m i j)) (u32 v) (status (conn_at m i j))) m m'.
Proof. unfold SetCommClientTime. apply slot_write; [lia|]. slot_tac. done. Qed.

Lemma SetCommClientStat_eq : exists m', SetCommClientStat i j v m = Ret tt m'
  /\ slot_set i j (mkConn (fd (conn_at m i j)) (ssn (conn_at m i j)) (utime (conn_at m i j)) (low_char v)) m m'.
Proof.
  unfold SetCommClientStat.
  rewrite (bind_Ret _ _ _ _ _ (word_eq m (CONN i j + 3) S (CONN_range i j 3 Hi Hj ltac:(lia)))).
  apply slot_write; [lia|]. slot_tac. cbn [fd ssn utime]. f_equal. apply low_char_set_low.
Qed.
End Writes.

Lemma SetCommClientNum_eq m i v : sized m -> 0 <= i < MAX_TREAD_NUM ->
  SetCommClientNum i v m = Ret tt (zupd (NUM i) (fun _ => u32 v) m).
Proof. intros S Hi. unfold SetCommClientNum. apply set_word_eq; [done|now apply NUM_range]. Qed.

Lemma GetCommClientNum_eq m i : sized m -> 0 <= i < MAX_TREAD_NUM ->
  GetCommClientNum i m = Ret (i32 (wd m (NUM i))) m.
Proof.
  intros S Hi. unfold GetCommClientNum. now rewrite (bind_Ret _ _ _ _ _ (word_eq m (NUM i) S (NUM_range i Hi))).
Qed.

Lemma conns_num m i i' v : sized m -> 0 <= i < MAX_TREAD_NUM ->
  conns (zupd (NUM i) (fun _ => v) m) i' = conns m i'.
Proof.
  intros S Hi. apply conns_ext. intros j Hj. unfold conn_at.
  f_equal; rewrite wd_zupd by (try done; now apply NUM_range);
    match goal with |- context [?a =? ?b] => destruct (Z.eqb_spec a b) as [X|X] end; try done; exfalso; addr.
Qed.

(** ** Removing a connection *)

(** The slots that [CommClearFd] moves are enough for the connections behind [j]. *)
Definition moves_all (i j : Z) (cs : list connect_handle_t) : Prop :=
  i <= j \/ Z.of_nat (length cs) <= j + MAX_FD_NUM - 1 - i.

Lemma copy_words_eq m dst src n :
  0 <= dst -> dst <= src -> 0 <= n -> src + n <= Z.of_nat (length m) ->
  exists m', copy_words dst src n m = Ret tt m' /\ length m' = length m
    /\ forall k, wd m' k = if (dst <=? k) && (k <? dst + n) then wd m (k + (src - dst)) else wd m k.
Proof.
  intros Hd Hs Hn Hl. unfold copy_words.
  rewrite !(proj2 (Z.leb_le _ _)) by lia. cbn [andb]. eexists. split; [reflexivity|].
  assert (L1 : length (take (Z.to_nat dst) m) = Z.to_nat dst) by (rewrite length_take; lia).
  assert (L2 : length (take (Z.to_nat n) (drop (Z.to_nat src) m)) = Z.to_nat n)
    by (rewrite length_take, length_drop; lia).
  split; [rewrite !length_app, L1, L2, length_drop; lia|].
  intros k. unfold wd. f_equal. unfold znth. destruct (Z.ltb_spec k 0).
  { now rewrite (proj2 (Z.leb_gt dst k)) by lia. }
  destruct (Z.leb_spec dst k); cbn [andb].
  - rewrite lookup_app_r, L1 by lia. destruct (Z.ltb_spec k (dst + n)).
    + destruct (Z.ltb_spec (k + (src - dst)) 0); [lia|].
      rewrite lookup_app_l by lia. rewrite lookup_take_lt, lookup_drop by lia. do 2 f_equal. lia.
    + rewrite lookup_app_r, L2, lookup_drop by lia. do 2 f_equal. lia.
  - rewrite lookup_app_l by lia. now rewrite lookup_take_lt by lia.
Qed.

Section Clear.
Context (m : table) (S : sized m) (i j : Z) (Hi : 0 <= i < MAX_TREAD_NUM) (Hj : 0 <= j < MAX_FD_NUM)
  (Hroom : i < MAX_TREAD_NUM - 1 \/ j < MAX_TREAD_NUM).

Let n := CONNECT * (MAX_FD_NUM - i - 1).

(** The words afterwards: shifted from the slot on, and the last slot marked free. *)
Lemma CommClearFd_words : exists m', CommClearFd i j m = Ret tt m' /\ sized m'
  /\ fd (conn_at m' i (MAX_FD_NUM - 1)) = -1
  /\ forall k, k < CONN i (MAX_FD_NUM - 1) \/ CONN i MAX_FD_NUM <= k ->
       wd m' k = if (CONN i j <=? k) && (k <? CONN i j + n) then wd m (k + 4) else wd m k.
Proof.
  destruct (copy_words_eq m (CONN i j) (CONN i (j + 1)) n) as (m1 & E1 & L1 & W1);
    [unfold n in *; unfold sized in S; addr..|].
  assert (S1 : sized m1) by (unfold sized; now rewrite L1).
  destruct (SetCommClientFD_eq m1 S1 i (MAX_FD_NUM - 1) (-1) Hi) as (m2 & E2 & B2); [unfold MAX_FD_NUM; lia|].
  destruct (SetCommClientStat_eq m2 (proj1 B2) i (MAX_FD_NUM - 1) (-1) Hi) as (m3 & E3 & B3); [unfold MAX_FD_NUM; lia|].
  exists m3. split; [|split; [apply B3|split]].
  - unfold CommClearFd. rewrite (bind_Ret _ _ _ _ _ E1), (bind_Ret _ _ _ _ _ E2). exact E3.
  - destruct B3 as (_ & -> & _). cbn [fd]. destruct B2 as (_ & -> & _). reflexivity.
  - intros k Hk. destruct B3 as (_ & _ & ->); [|addr]. destruct B2 as (_ & _ & ->); [|addr].
    rewrite W1. destruct (_ && _); [|done]. f_equal. addr.
Qed.
End Clear.

(** The slots of the entry afterwards, but for the last. *)
Lemma conn_at_cleared m m' i j x :
  (forall k, k < CONN i (MAX_FD_NUM - 1) \/ CONN i MAX_FD_NUM <= k ->
     wd m' k = if (CONN i j <=? k) && (k <? CONN i j + CONNECT * (MAX_FD_NUM - i - 1)) then wd m (k + 4) else wd m k) ->
  0 <= x < MAX_FD_NUM - 1 ->
  conn_at m' i x = if (j <=? x) && (x <? j + MAX_FD_NUM - 1 - i) then conn_at m i (x + 1) else conn_at m i x.
Proof.
  intros W Hx. unfold conn_at. rewrite !W by addr.
  destruct ((j <=? x) && (x <? j + MAX_FD_NUM - 1 - i)) eqn:B.
  - apply andb_true_iff in B as [B1%Z.leb_le B2%Z.ltb_lt].
    rewrite !(proj2 (Z.leb_le _ _)), !(proj2 (Z.ltb_lt _ _)) by addr. cbn [andb].
    replace (CONN i (x + 1)) with (CONN i x + 4) by addr.
    now rewrite <- !Z.add_assoc, !(Z.add_comm _ 4).
  - apply andb_false_iff in B. assert (B' : x < j \/ j + MAX_FD_NUM - 1 - i <= x) by (rewrite Z.leb_gt, Z.ltb_ge in B; lia).
    clear B. f_equal; match goal with |- context [if ?b then _ else _] => replace b with false; [done|] end;
      symmetry; apply andb_false_iff; rewrite Z.leb_gt, Z.ltb_ge; addr.
Qed.

(** The words outside the entry that change: none, or the beginning of the next entry. *)
Definition reach (i j : Z) : Z := Z.max (NUM (i + 1)) (CONN i j + CONNECT * (MAX_FD_NUM - i - 1)).

Lemma CommClearFd_removes m i (j : nat) cs :
  sized m -> 0 <= i < MAX_TREAD_NUM -> i < MAX_TREAD_NUM - 1 \/ Z.of_nat j < MAX_TREAD_NUM ->
  occupied m i cs -> (j < length cs)%nat -> moves_all i (Z.of_nat j) cs ->
  exists m', CommClearFd i (Z.of_nat j) m = Ret tt m' /\ sized m'
    /\ occupied m' i (delete j cs)
    /\ forall k, k < CONN i (Z.of_nat j) \/ reach i (Z.of_nat j) <= k -> wd m' k = wd m k.
Proof.
  intros S Hi Hroom O Hj Hm. pose proof (occupied_length m i cs O) as Lc.
  destruct (CommClearFd_words m S i (Z.of_nat j) Hi ltac:(lia) Hroom) as (m' & R & S' & Z' & W).
  exists m'. split; [exact R|]. split; [exact S'|]. split.
  - pose proof (conn_at_cleared m m' i (Z.of_nat j)) as A. specialize (fun x => A x W).
    apply occupied_intro.
    + rewrite length_delete by (apply lookup_lt_is_Some; lia). lia.
    + apply Forall_delete, O.
    + intros x c Hx. pose proof (lookup_lt_Some _ _ _ Hx) as Lx.
      rewrite length_delete in Lx by (apply lookup_lt_is_Some; lia).
      rewrite A by lia. destruct (decide (x < j)%nat).
      * rewrite (proj2 (Z.leb_gt _ _)) by lia. cbn [andb]. rewrite list_lookup_delete_lt in Hx by done.
        now apply (conn_at_occupied m i cs O).
      * rewrite list_lookup_delete_ge in Hx by lia.
        rewrite (proj2 (Z.leb_le _ _)), (proj2 (Z.ltb_lt _ _)) by (destruct Hm; lia). cbn [andb].
        replace (Z.of_nat x + 1) with (Z.of_nat (Datatypes.S x)) by lia. now apply (conn_at_occupied m i cs O).
    + intros x Hx Hx'. rewrite length_delete in Hx by (apply lookup_lt_is_Some; lia).
      destruct (decide (Z.of_nat x = MAX_FD_NUM - 1)) as [->|Hne]; [exact Z'|]. rewrite A by lia.
      destruct (Z.leb_spec (Z.of_nat j) (Z.of_nat x)); cbn [andb]; [|lia].
      destruct (Z.ltb_spec (Z.of_nat x) (Z.of_nat j + MAX_FD_NUM - 1 - i)).
      * replace (Z.of_nat x + 1) with (Z.of_nat (Datatypes.S x)) by lia. apply (free_at_occupied m i cs); [done|lia..].
      * apply (free_at_occupied m i cs); [done|destruct Hm; lia|lia].
  - intros k Hk. rewrite W by (unfold reach in Hk; addr).
    destruct (_ && _) eqn:B; [|done]. apply andb_true_iff in B as [B1%Z.leb_le B2%Z.ltb_lt].
    unfold reach in Hk. exfalso. addr.
Qed.

(** ** Properties *)

(** Closing a connection removes exactly its slot: the others of the entry stay in
    order, and no other entry changes, when the slot is at most one behind the index of
    the entry ([j <= i + 1]) and the entry is not nearly full.  [CommClearFd] computes how
    much to move from the entry's index instead of the slot's. *)
Theorem CommClearFd_correct m i (j : nat) cs :
  sized m -> 0 <= i < MAX_TREAD_NUM -> occupied m i cs -> (j < length cs)%nat ->
  Z.of_nat j <= i + 1 -> moves_all i (Z.of_nat j) cs -> Z.of_nat j < MAX_TREAD_NUM ->
  exists m', CommClearFd i (Z.of_nat j) m = Ret tt m' /\ sized m'
    /\ occupied m' i (delete j cs)
    /\ (forall i', 0 <= i' < MAX_TREAD_NUM -> i' <> i -> conns m' i' = conns m i')
    /\ (forall i', 0 <= i' < MAX_TREAD_NUM -> GetCommClientNum i' m' = Ret (i32 (wd m (NUM i'))) m').
Proof.
  intros S Hi O Hj Hn Hm Hr.
  destruct (CommClearFd_removes m i j cs S Hi ltac:(lia) O Hj Hm) as (m' & R & S' & O' & W).
  assert (B : reach i (Z.of_nat j) = NUM (i + 1)) by (unfold reach; addr).
  rewrite B in W. exists m'. split; [exact R|]. split; [exact S'|]. split; [exact O'|]. split.
  - intros i' Hi' Hne. apply conns_ext. intros x Hx. unfold conn_at. f_equal; rewrite ?W by addr; done.
  - intros i' Hi'. rewrite GetCommClientNum_eq by done. now rewrite W by addr.
Qed.

(** A connection closed further back damages the next entry: its first connection is
    found nowhere any more, so that its socket can no longer be read, answered or timed
    out, and its counter becomes the status word of that connection. *)
Theorem CommClearFd_next_entry m i j x :
  sized m -> 0 <= i < MAX_TREAD_NUM - 1 -> i + 2 <= j < MAX_FD_NUM ->
  fd (conn_at m (i + 1) 0) = x -> 0 <= x ->
  (forall k, 1 <= k < MAX_FD_NUM -> fd (conn_at m (i + 1) k) <> x) ->
  exists m', CommClearFd i j m = Ret tt m'
    /\ get_connect_pos (i + 1) x m = Ret 0 m
    /\ get_connect_pos (i + 1) x m' = Ret (-1) m'
    /\ GetCommClientNum (i + 1) m' = Ret (i32 (wd m (CONN (i + 1) 0 + 3))) m'.
Proof.
  intros S Hi Hj Hx0 Hx Hk.
  destruct (CommClearFd_words m S i j ltac:(lia) ltac:(unfold MAX_FD_NUM in *; lia) (or_introl (proj2 Hi)))
    as (m' & R & S' & _ & W).
  exists m'. split; [exact R|]. split; [|split].
  - rewrite (get_connect_pos_eq m S) by lia. rewrite <- conns_all. unfold FUEL.
    change (Z.to_nat MAX_FD_NUM) with (Datatypes.S 999). rewrite conns_from_S. cbn [scan].
    now rewrite Hx0, Z.eqb_refl.
  - rewrite (get_connect_pos_eq m' S') by lia. f_equal. apply scan_none.
    apply Forall_lookup. intros k c Hc.
    assert (B : Z.of_nat k < MAX_FD_NUM).
    { apply lookup_lt_Some in Hc. rewrite length_conns in Hc. pose proof FUEL_ok. lia. }
    rewrite conns_lookup in Hc by done. injection Hc as <-. apply Z.eqb_neq.
    cbn [conn_at fd]. rewrite W by addr.
    destruct (_ && _) eqn:E.
    + apply andb_true_iff in E as [_ E%Z.ltb_lt].
      replace (CONN (i + 1) (Z.of_nat k) + 4) with (CONN (i + 1) (Z.of_nat k + 1)) by addr.
      apply (Hk (Z.of_nat k + 1)). addr.
    + apply (Hk (Z.of_nat k)). apply andb_false_iff in E. rewrite Z.leb_gt, Z.ltb_ge in E. addr.
  - rewrite GetCommClientNum_eq by (try done; lia). rewrite W by addr.
    rewrite (proj2 (Z.leb_le _ _)), (proj2 (Z.ltb_lt _ _)) by addr. cbn [andb].
    now replace (NUM (i + 1) + 4) with (CONN (i + 1) 0 + 3) by addr.
Qed.

(** How long the oldest connection of an entry is overdue. *)
Definition overdue (m : table) (currtime idletime i : Z) : Z :=
  let c := conn_at m i 0 in
  if (fd c =? -1) || (currtime <? utime c + idletime) then 0 else currtime - (utime c + idletime).

Lemma wait_loop_eq m n i currtime idletime number d :
  sized m -> 0 <= i -> i + Z.of_nat n <= MAX_TREAD_NUM -> 0 <= currtime < 2 ^ 31 -> 0 <= idletime ->
  0 <= d ->
  (forall k, i <= k < i + Z.of_nat n -> 0 <= utime (conn_at m k 0) /\ utime (conn_at m k 0) + idletime < 2 ^ 32) ->
  exists number', wait_loop n i currtime idletime number d m
    = Ret (number', fold_left Z.max (map (overdue m currtime idletime) (seqZ i (Z.of_nat n))) d) m
    /\ number <= number'
    /\ (number' = number <-> forall k, i <= k < i + Z.of_nat n -> fd (conn_at m k 0) = -1).
Proof.
  intros S. revert i number d. induction n as [|n IH]; intros i number d Hi Hn Hc Hid Hd Hu.
  - exists number. split; [reflexivity|]. split; [lia|]. split; [|done]. intros _ k Hk. lia.
  - cbn [wait_loop]. rewrite (bind_Ret _ _ _ _ _ (GetCommClientFD_eq m S i 0 ltac:(lia) ltac:(unfold MAX_FD_NUM; lia))).
    destruct (Hu i ltac:(lia)) as [U1 U2].
    assert (St : forall number d, 0 <= d -> exists number',
      wait_loop n (i + 1) currtime idletime number d m
      = Ret (number', fold_left Z.max (map (overdue m currtime idletime) (seqZ (i + 1) (Z.of_nat n))) d) m
      /\ number <= number' /\ (number' = number <-> forall k, i + 1 <= k < i + 1 + Z.of_nat n -> fd (conn_at m k 0) = -1)).
    { intros nu e He. apply IH; try lia. intros k Hk. apply Hu. lia. }
    rewrite seqZ_cons by lia. cbn [map fold_left].
    replace (Z.succ i) with (i + 1) by lia. replace (Z.pred (Z.of_nat (Datatypes.S n))) with (Z.of_nat n) by lia.
    assert (Od : 0 <= overdue m currtime idletime i).
    { unfold overdue. destruct (_ || _) eqn:B; [lia|]. apply orb_false_iff in B as [_ B%Z.ltb_ge]. lia. }
    destruct (Z.eqb_spec (fd (conn_at m i 0)) (-1)) as [F|F]; cbn [negb].
    + destruct (St number d Hd) as (nu & E & L & X). exists nu. rewrite E.
      assert (overdue m currtime idletime i = 0) as -> by (unfold overdue; now rewrite F).
      rewrite Z.max_l by lia. split; [done|]. split; [done|]. rewrite X. split.
      * intros H k Hk. destruct (decide (k = i)) as [->|]; [done|]. apply H. lia.
      * intros H k Hk. apply H. lia.
    + rewrite (bind_Ret _ _ _ _ _ (GetCommClientTime_eq m S i 0 ltac:(lia) ltac:(unfold MAX_FD_NUM; lia))).
      rewrite u32_id by lia.
      replace (if (_ <=? currtime) then i32 _ else 0) with (overdue m currtime idletime i).
      2:{ unfold overdue. rewrite (proj2 (Z.eqb_neq _ _) F). cbn [orb].
          destruct (Z.ltb_spec currtime (utime (conn_at m i 0) + idletime)), (Z.leb_spec (utime (conn_at m i 0) + idletime) currtime);
            try lia. now rewrite i32_id by lia. }
      replace (if d <=? _ then _ else d) with (Z.max d (overdue m currtime idletime i))
        by (destruct (Z.leb_spec d (overdue m currtime idletime i)); lia).
      destruct (St (number + 1) (Z.max d (overdue m currtime idletime i)) ltac:(lia)) as (nu & E & L & X).
      exists nu. split; [exact E|]. split; [lia|]. split; [lia|]. intros H. now specialize (H i ltac:(lia)).
Qed.

Lemma fold_max_le l d b : d <= b -> Forall (fun z => z <= b) l -> fold_left Z.max l d <= b.
Proof. intros Hd H. revert d Hd. induction H as [|z l Hz _ IH]; intros d Hd; cbn; [done|]. apply IH. lia. Qed.

(** The wait of the main loop: for ever without connections; otherwise 50 milliseconds,
    even when nothing is due for long, plus a second for each second that the oldest
    connections are overdue, so that an expired connection is waited for the longer the
    later it is. *)
Theorem get_wait_time_correct m num currtime idletime :
  sized m -> 0 <= num <= MAX_TREAD_NUM -> 0 <= currtime < 2 ^ 31 -> 0 <= idletime ->
  (forall k, 0 <= k < num -> 0 <= utime (conn_at m k 0) /\ utime (conn_at m k 0) + idletime < 2 ^ 32
     /\ overdue m currtime idletime k <= 2147483) ->
  get_wait_time num currtime idletime m
  = Ret (if forallb (fun k => fd (conn_at m k 0) =? -1) (seqZ 0 num) then -1
         else 1000 * fold_left Z.max (map (overdue m currtime idletime) (seqZ 0 num)) 0 + 50) m.
Proof.
  intros S Hn Hc Hid Hu. unfold get_wait_time.
  destruct (wait_loop_eq m (Z.to_nat num) 0 currtime idletime 0 0 S) as (nu & E & L & X); try lia.
  { intros k Hk. destruct (Hu k ltac:(lia)) as (U1 & U2 & _). done. }
  rewrite Z2Nat.id in E, X by lia. rewrite (bind_Ret _ _ _ _ _ E).
  destruct (forallb _ _) eqn:F.
  - rewrite forallb_forall in F. rewrite (proj2 X); [done|]. intros k Hk. apply Z.eqb_eq, F.
    apply list_elem_of_In, elem_of_seqZ. lia.
  - destruct (Z.eqb_spec nu 0) as [->|].
    + exfalso. rewrite <- not_true_iff_false in F. apply F, forallb_forall. intros k Hk%list_elem_of_In.
      apply elem_of_seqZ in Hk. apply Z.eqb_eq, (proj1 X eq_refl). lia.
    + set (l := map _ _). assert (B : fold_left Z.max l 0 <= 2147483).
      { apply fold_max_le; [lia|]. apply Forall_forall. intros z Hz. unfold l in Hz.
        apply list_elem_of_In, in_map_iff in Hz as (k & <- & Hk%list_elem_of_In).
        apply elem_of_seqZ in Hk. now apply Hu. }
      rewrite (proj2 (Z.leb_le _ _)) by (unfold INT_MAX; lia). unfold ret. f_equal. lia.
Qed.

(** *** Witnesses *)

(** A table written out: per entry the counter and the connections. *)
Definition conn_words (c : connect_handle_t) : list Z :=
  [u32 (fd c); ssn c; utime c; status c mod 256].

Definition unused : connect_handle_t := mkConn (-1) 0 0 (-1).

Definition entry_conns (cs : list connect_handle_t) : list connect_handle_t :=
  cs ++ replicate (FUEL - length cs) unused.

Definition entry_words (e : Z * list connect_handle_t) : list Z :=
  fst e :: flat_map conn_words (entry_conns (snd e)).

Definition table_of (es : list (Z * list connect_handle_t)) : table :=
  flat_map entry_words es
  ++ replicate ((Z.to_nat MAX_TREAD_NUM - length es) * Z.to_nat CLIENT) 0.

(** Values that fit their fields. *)
Definition conn_ok (c : connect_handle_t) : Prop :=
  -1 <= fd c < 2 ^ 31 /\ -1 <= status c <= 3.

Lemma lookup_blocks {A B} (f : A -> list B) n l a (k x : nat) rest :
  (forall b, b ∈ l -> length (f b) = n) -> l !! k = Some a -> (x < n)%nat ->
  (flat_map f l ++ rest) !! (n * k + x)%nat = f a !! x.
Proof.
  intros Hn. revert k. induction l as [|b l IH]; intros k Hk Hx; [done|].
  pose proof (Hn b ltac:(left)) as L. cbn [flat_map]. rewrite <- app_assoc.
  destruct k as [|k]; cbn in Hk.
  - injection Hk as ->. rewrite lookup_app_l by lia. f_equal. lia.
  - rewrite lookup_app_r by lia. rewrite L. replace (n * S k + x - n)%nat with (n * k + x)%nat by lia.
    apply IH; [|done|done]. intros c Hc. apply Hn. now right.
Qed.

Lemma length_blocks {A B} (f : A -> list B) n l :
  (forall b, b ∈ l -> length (f b) = n) -> length (flat_map f l) = (n * length l)%nat.
Proof.
  induction l as [|b l IH]; intros Hn; cbn [flat_map length]; [lia|].
  rewrite length_app, IH by (intros; apply Hn; now right). rewrite (Hn b) by left. lia.
Qed.

Lemma length_entry_words e : (length (snd e) <= FUEL)%nat -> length (entry_words e) = Z.to_nat CLIENT.
Proof.
  intros H. unfold entry_words. cbn [length]. rewrite (length_blocks conn_words 4) by done.
  unfold entry_conns. rewrite length_app, length_replicate. replace (length (snd e) + _)%nat with FUEL by lia.
  reflexivity.
Qed.

Section Written.
Context (es : list (Z * list connect_handle_t))
  (Hes : Forall (fun e => (length (snd e) <= FUEL)%nat /\ Forall conn_ok (snd e)) es)
  (Les : Z.of_nat (length es) <= MAX_TREAD_NUM).

Lemma table_of_blocks e : e ∈ es -> length (entry_words e) = Z.to_nat CLIENT.
Proof. intros H. apply length_entry_words. rewrite Forall_forall in Hes. now apply Hes. Qed.

Lemma table_of_sized : sized (table_of es).
Proof.
  unfold sized, table_of. rewrite length_app, length_replicate, (length_blocks _ _ _ table_of_blocks).
  unfold CLIENT, CONNECT, MAX_FD_NUM, MAX_TREAD_NUM in *. nia.
Qed.

Context (i : nat) (n : Z) (cs : list connect_handle_t) (Hi : es !! i = Some (n, cs)).

Lemma table_of_word (x : nat) : (x < Z.to_nat CLIENT)%nat ->
  wd (table_of es) (Z.of_nat i * CLIENT + Z.of_nat x) = default 0 (entry_words (n, cs) !! x).
Proof.
  intros Hx. unfold wd, znth. destruct (Z.ltb_spec (Z.of_nat i * CLIENT + Z.of_nat x) 0) as [B|_].
  { exfalso. unfold CLIENT, CONNECT, MAX_FD_NUM in *. lia. }
  f_equal. unfold table_of. replace (Z.to_nat (_ + Z.of_nat x)) with (Z.to_nat CLIENT * i + x)%nat
    by (unfold CLIENT, CONNECT, MAX_FD_NUM in *; lia).
  apply lookup_blocks; [exact table_of_blocks|exact Hi|exact Hx].
Qed.

Lemma table_of_counter : wd (table_of es) (NUM (Z.of_nat i)) = n.
Proof.
  unfold NUM. rewrite <- (Z.add_0_r (_ * CLIENT)). change 0 with (Z.of_nat 0).
  now rewrite table_of_word by (vm_compute; lia).
Qed.

Lemma table_of_conn (k : nat) c : entry_conns cs !! k = Some c -> conn_ok c ->
  conn_at (table_of es) (Z.of_nat i) (Z.of_nat k) = mkConn (fd c) (ssn c) (utime c) (status c).
Proof.
  intros Hk (Hf & Hst). pose proof (lookup_lt_Some _ _ _ Hk) as Lk.
  destruct (proj1 (Forall_lookup _ _) Hes _ _ Hi) as [Lc _]. cbn [snd] in Lc.
  unfold entry_conns in Lk. rewrite length_app, length_replicate in Lk.
  assert (W : forall x : nat, (x < 4)%nat ->
    wd (table_of es) (CONN (Z.of_nat i) (Z.of_nat k) + Z.of_nat x) = default 0 (conn_words c !! x)).
  { intros x Hx. replace (CONN (Z.of_nat i) (Z.of_nat k) + Z.of_nat x)
      with (Z.of_nat i * CLIENT + Z.of_nat (S (4 * k + x))) by (unfold CONN, CONNECT; lia).
    assert (Lw : (4 * k + x < 4000)%nat) by (unfold FUEL, MAX_FD_NUM in *; lia).
    rewrite table_of_word by (unfold CLIENT, CONNECT, MAX_FD_NUM; lia). unfold entry_words. cbn [fst snd lookup list_lookup].
    f_equal. rewrite <- (app_nil_r (flat_map _ _)). now apply lookup_blocks. }
  unfold conn_at. pose proof (W 0%nat ltac:(lia)) as W0. rewrite Z.add_0_r in W0.
  change 1 with (Z.of_nat 1) at 1. change 2 with (Z.of_nat 2) at 1. change 3 with (Z.of_nat 3) at 1.
  rewrite W0, !W by lia. cbn [conn_words lookup list_lookup default from_option id].
  f_equal; unfold i32, u32, low_char.
  - destruct (Z.eq_dec (fd c) (-1)) as [->|]; [reflexivity|]. rewrite (Z.mod_small (fd c)), Z.mod_small; lia.
  - destruct (Z.eq_dec (status c) (-1)) as [->|]; [reflexivity|]. rewrite (Z.mod_small (status c)), Z.mod_small; lia.
Qed.

Lemma table_of_occupied : Forall used_conn cs -> occupied (table_of es) (Z.of_nat i) cs.
Proof.
  intros U. destruct (proj1 (Forall_lookup _ _) Hes _ _ Hi) as [Lc Ok]. cbn [snd] in Lc, Ok.
  assert (L : Z.of_nat (length cs) <= MAX_FD_NUM) by (pose proof FUEL_ok; lia).
  apply occupied_intro; [done|done| |].
  - intros x c Hx. rewrite (table_of_conn x c); [now destruct c| |exact (proj1 (Forall_lookup _ _) Ok _ _ Hx)].
    unfold entry_conns. now apply lookup_app_l_Some.
  - intros x Lx Hx. rewrite (table_of_conn x unused); [done| |done].
    unfold entry_conns. rewrite lookup_app_r by done. apply lookup_replicate_2.
    unfold FUEL, MAX_FD_NUM in *. lia.
Qed.
End Written.

Definition a_conn (x s : Z) : connect_handle_t := mkConn x s 1000 FD_STAT_REG.

(** Three connections of the first thread, one of the second, which has data to read. *)
Definition demo_conns : list connect_handle_t := [a_conn 4 0; a_conn 6 1; a_conn 8 2].

Definition demo_entries : list (Z * list connect_handle_t) :=
  [(0, demo_conns); (1, [mkConn 9 3 1000 FD_STAT_POLL])].

Lemma demo_entries_ok :
  Forall (fun e => (length (snd e) <= FUEL)%nat /\ Forall conn_ok (snd e)) demo_entries.
Proof.
  repeat (apply Forall_cons; split); try apply Forall_nil; cbn [snd length demo_conns]; try done;
    (split; [unfold FUEL, MAX_FD_NUM; lia|]); repeat (apply Forall_cons; split); try apply Forall_nil;
    unfold conn_ok; cbn [fd status a_conn]; unfold FD_STAT_REG, FD_STAT_POLL; lia.
Qed.

Definition demo_table : table := table_of demo_entries.

Lemma demo_sized : sized demo_table.
Proof. exact (table_of_sized demo_entries demo_entries_ok ltac:(done)). Qed.

Lemma demo_occupied : occupied demo_table 0 demo_conns.
Proof.
  apply (table_of_occupied demo_entries demo_entries_ok 0 0 demo_conns eq_refl).
  repeat constructor; vm_compute; discriminate.
Qed.

Lemma demo_second (k : nat) c :
  entry_conns [mkConn 9 3 1000 FD_STAT_POLL] !! k = Some c -> conn_ok c -> conn_at demo_table 1 (Z.of_nat k) = c.
Proof.
  intros H Ok. unfold demo_table.
  change 1 with (Z.of_nat 1) at 1.
  rewrite (table_of_conn demo_entries demo_entries_ok 1 1 _ eq_refl k c H Ok). now destruct c.
Qed.

Lemma CommClearFd_correct_witness :
  exists m', CommClearFd 0 1 demo_table = Ret tt m' /\ occupied m' 0 [a_conn 4 0; a_conn 8 2].
Proof.
  destruct (CommClearFd_correct demo_table 0 1 demo_conns demo_sized ltac:(done) demo_occupied ltac:(cbn; lia)
    ltac:(lia) ltac:(left; lia) ltac:(done)) as (m' & R & _ & O & _).
  exists m'. refine (conj R O).
Defined.

Lemma CommClearFd_next_entry_witness :
  exists m', CommClearFd 0 2 demo_table = Ret tt m'
    /\ get_connect_pos 1 9 demo_table = Ret 0 demo_table /\ get_connect_pos 1 9 m' = Ret (-1) m'.
Proof.
  destruct (CommClearFd_next_entry demo_table 0 2 9 demo_sized ltac:(done) ltac:(done)) as (m' & R & P & P' & _).
  - exact (f_equal fd (demo_second 0 _ eq_refl ltac:(vm_compute; intuition discriminate))).
  - done.
  - intros k Hk. rewrite <- (Z2Nat.id k) by lia. change (0 + 1) with 1.
    rewrite (demo_second (Z.to_nat k) unused).
    + discriminate.
    + unfold entry_conns. rewrite lookup_app_r by (cbn; lia). apply lookup_replicate_2.
      unfold FUEL, MAX_FD_NUM in *. cbn [length]. lia.
    + vm_compute. intuition discriminate.
  - exists m'. refine (conj R (conj P P')).
Defined.

Lemma get_wait_time_correct_witness :
  get_wait_time 1 1100 60 demo_table = Ret 40050 demo_table.
Proof.
  pose proof (conn_at_occupied demo_table 0 demo_conns demo_occupied 0 (a_conn 4 0) eq_refl) as [E _].
  change (Z.of_nat 0) with 0 in E.
  rewrite (get_wait_time_correct demo_table 1 1100 60 demo_sized ltac:(done) ltac:(done) ltac:(done)).
  - change (seqZ 0 1) with [0]. cbn [map forallb fold_left].
    unfold overdue. rewrite E. reflexivity.
  - intros k Hk. replace k with 0 by lia. unfold overdue. rewrite E. vm_compute. intuition discriminate.
Defined.
