(* ===== verification/Commserver.v ===== *)
(** * The communication server: [src/dev/src/comm/commserver/commserver.c]

    A process that owns the sockets of the clients: a main loop over epoll events, one
    reading thread per client entry, which turns the requests of the clients into
    messages for the servers, and a writing thread, which returns the replies.

    [comm] is the state that the threads share: the process's view of the system
    ([world]), its sockets ([net]) and the connection table of [Clients.v].  The loops of
    the threads are cut where a lock is released: [read_take] and [read_forward] are the
    two halves of a round of [read_task].  [new_accept] and [clean_time_out_connect] take
    no lock; they are cut where they have looked at the table and not yet changed it.  The events that [epoll_wait] reports and the
    time come from the environment; [epoll_create] and [epoll_ctl] do not fail.  A signal ends the process through [main_exit]. *)

From Stdlib Require Import ZArith Lia Bool List Ascii String.
From stdpp Require Import base list gmap.
From S2P Require Import Prelude Cstr Funstr Kernel Funsock Funmsq Funipc Funfile Sunda Tuxmem Registry Tuxcall Tuxcmd Clients.

Definition SOCKET_MSG_HEAD_LEN : Z := 4.

(** [EPOLLIN] is in the event, or is not. *)
Definition epoll_event : Type := Z * bool.

(** A thread of the process: [read_task] for an entry of the table, or [write_task]. *)
Inductive thread := ReadTask (idx : Z) | WriteTask.

Record comm := mkComm {
  g_world : world;
  g_net : net;
  g_tab : table;                      (* client_ctrl *)
  g_num : Z;                          (* num *)
  g_idletime : Z;
  g_port : Z;
  g_listen : Z;                       (* listen_socket *)
  g_svrid : Z;                        (* giSvrId *)
  g_gssn : Z;
  g_epoll : list Z;                   (* the sockets registered with epfd *)
  g_events : list (list epoll_event); (* what the next calls of epoll_wait report *)
  g_threads : list thread;            (* started besides the main one *)
}.

Definition set_g_world (v : world) (g : comm) : comm :=
  mkComm v (g_net g) (g_tab g) (g_num g) (g_idletime g) (g_port g) (g_listen g) (g_svrid g) (g_gssn g) (g_epoll g) (g_events g) (g_threads g).
Definition set_g_net (v : net) (g : comm) : comm :=
  mkComm (g_world g) v (g_tab g) (g_num g) (g_idletime g) (g_port g) (g_listen g) (g_svrid g) (g_gssn g) (g_epoll g) (g_events g) (g_threads g).
Definition set_g_tab (v : table) (g : comm) : comm :=
  mkComm (g_world g) (g_net g) v (g_num g) (g_idletime g) (g_port g) (g_listen g) (g_svrid g) (g_gssn g) (g_epoll g) (g_events g) (g_threads g).
Definition set_g_num (v : Z) (g : comm) : comm :=
  mkComm (g_world g) (g_net g) (g_tab g) v (g_idletime g) (g_port g) (g_listen g) (g_svrid g) (g_gssn g) (g_epoll g) (g_events g) (g_threads g).
Definition set_g_idletime (v : Z) (g : comm) : comm :=
  mkComm (g_world g) (g_net g) (g_tab g) (g_num g) v (g_port g) (g_listen g) (g_svrid g) (g_gssn g) (g_epoll g) (g_events g) (g_threads g).
Definition set_g_port (v : Z) (g : comm) : comm :=
  mkComm (g_world g) (g_net g) (g_tab g) (g_num g) (g_idletime g) v (g_listen g) (g_svrid g) (g_gssn g) (g_epoll g) (g_events g) (g_threads g).
Definition set_g_listen (v : Z) (g : comm) : comm :=
  mkComm (g_world g) (g_net g) (g_tab g) (g_num g) (g_idletime g) (g_port g) v (g_svrid g) (g_gssn g) (g_epoll g) (g_events g) (g_threads g).
Definition set_g_svrid (v : Z) (g : comm) : comm :=
  mkComm (g_world g) (g_net g) (g_tab g) (g_num g) (g_idletime g) (g_port g) (g_listen g) v (g_gssn g) (g_epoll g) (g_events g) (g_threads g).
Definition set_g_gssn (v : Z) (g : comm) : comm :=
  mkComm (g_world g) (g_net g) (g_tab g) (g_num g) (g_idletime g) (g_port g) (g_listen g) (g_svrid g) v (g_epoll g) (g_events g) (g_threads g).
Definition set_g_epoll (v : list Z) (g : comm) : comm :=
  mkComm (g_world g) (g_net g) (g_tab g) (g_num g) (g_idletime g) (g_port g) (g_listen g) (g_svrid g) (g_gssn g) v (g_events g) (g_threads g).
Definition set_g_events (v : list (list epoll_event)) (g : comm) : comm :=
  mkComm (g_world g) (g_net g) (g_tab g) (g_num g) (g_idletime g) (g_port g) (g_listen g) (g_svrid g) (g_gssn g) (g_epoll g) v (g_threads g).
Definition set_g_threads (v : list thread) (g : comm) : comm :=
  mkComm (g_world g) (g_net g) (g_tab g) (g_num g) (g_idletime g) (g_port g) (g_listen g) (g_svrid g) (g_gssn g) (g_epoll g) (g_events g) v.

(** Running a program on a part of the state. *)
Definition within {S T A} (part : T -> S) (put : S -> T -> T) (m : prog S A) : prog T A := fun t =>
  match m (part t) with
  | Ret a s => Ret a (put s t)
  | Jump v s => Jump v (put s t)
  | Exit v s => Exit v (put s t)
  | Block s => Block (put s t)
  | Spin => Spin
  | Fault => Fault
  end.

Definition in_net {A} : prog net A -> prog comm A := within g_net set_g_net.
Definition in_tab {A} : prog table A -> prog comm A := within g_tab set_g_tab.

(** [epoll_ctl] with [EPOLL_CTL_ADD] and [EPOLL_CTL_DEL]. *)
Definition epoll_add (fd : Z) : prog comm unit := modify (fun g => set_g_epoll (fd :: g_epoll g) g).
Definition epoll_del (fd : Z) : prog comm unit :=
  modify (fun g => set_g_epoll (List.filter (fun x => negb (x =? fd)) (g_epoll g)) g).

(** ** Ending *)

Fixpoint exit_loop (n : nat) (i j : Z) : prog comm unit :=
  match n with
  | O => ret tt
  | S n =>
      let* x := in_tab (GetCommClientFD i j) in
      if x =? -1 then ret tt
      else in_net (CloseSocket x) ;;; exit_loop n i (j + 1)
  end.

Definition main_exit {A} (sig : Z) : prog comm A :=
  let* g := get id in
  epoll_del (g_listen g) ;;;
  for_each (seqZ 0 (g_num g)) (fun i => exit_loop FUEL i 0) ;;;
  in_net (close (g_listen g)) ;;;
  exit_ 0.

(** The handler of [SIGTERM] runs at the end of a system call and does not return: the
    calls of the library only see that the process ends. *)
Definition handler (sig : Z) : prog world unit := if sig =? SIGTERM then exit_ 0 else ret tt.

Definition in_world {A} (m : prog world A) : prog comm A := fun g =>
  match within g_world set_g_world m g with
  | Exit _ g => main_exit SIGTERM g
  | o => o
  end.

Definition get_curr_time : prog comm Z := let* t := in_world (lift time_) in ret (u32 t).

(** ** Connections *)

(** [new_accept] runs without the lock, whose calls are commented out.  Its two halves are
    cut where another thread's change of the table matters: a free slot is found, then it
    is filled. *)
Definition accept_find : prog comm (option (Z * Z * Z)) :=
  let* (iRet, sockfd) := in_net AcceptSocket in
  if iRet <? 0 then ret None
  else
    let* rc := in_net (set_fl sockfd false) in
    if rc =? -1 then in_net (CloseSocket sockfd) ;;; ret None
    else
      let* num := get g_num in
      let* idx := in_tab (crem sockfd num) in
      let* pos := in_tab (get_connect_pos idx (-1)) in
      if pos <? 0 then in_net (CloseSocket sockfd) ;;; ret None
      else ret (Some (sockfd, idx, pos)).

Definition accept_store (sockfd idx pos : Z) : prog comm Z :=
  epoll_add sockfd ;;;
  in_tab (SetCommClientFD idx pos sockfd) ;;;
  let* gssn := get g_gssn in
  in_tab (SetCommClientSsn idx pos gssn) ;;;
  (if gssn =? INT_MAX then fault else modify (set_g_gssn (gssn + 1))) ;;;
  let* now := get_curr_time in
  in_tab (SetCommClientTime idx pos now) ;;;
  in_tab (SetCommClientStat idx pos FD_STAT_REG) ;;;
  ret 0.

Definition new_accept : prog comm Z :=
  let* r := accept_find in
  match r with
  | None => ret (-1)
  | Some (sockfd, idx, pos) => accept_store sockfd idx pos
  end.

(** The slot's index takes the place of the entry's in the counter. *)
Definition clear_slot (idx i : Z) : prog comm unit :=
  let* s := in_tab (GetCommClientStat idx i) in
  when (s =? FD_STAT_POLL)
    (let* n := in_tab (GetCommClientNum i) in
     in_tab (SetCommClientNum i (if n =? 0 then 0 else n - 1))) ;;;
  in_tab (CommClearFd idx i).

Fixpoint del_loop (n : nat) (idx i fd : Z) : prog comm unit :=
  match n with
  | O => ret tt
  | S n =>
      let* x := in_tab (GetCommClientFD idx i) in
      if x =? -1 then ret tt
      else if x =? fd then clear_slot idx i
      else del_loop n idx (i + 1) fd
  end.

Definition del_connect_fd (fd : Z) : prog comm Z :=
  let* num := get g_num in
  let* idx := in_tab (crem fd num) in
  epoll_del fd ;;;
  in_net (CloseSocket fd) ;;;
  del_loop FUEL idx 0 fd ;;;
  ret 0.

(** The timeouts run without the lock too.  One slot, up to the closing of the socket of a
    connection that has expired; the slot is cleared afterwards. *)
Definition expire_look (currtime i j : Z) : prog comm bool :=
  let* x := in_tab (GetCommClientFD i j) in
  if x =? -1 then ret false
  else
    let* t := in_tab (GetCommClientTime i j) in
    let* g := get id in
    if u32 (g_idletime g) <=? u32 (currtime - t) then
      epoll_del x ;;;
      in_net (CloseSocket x) ;;;
      ret true
    else ret false.

(** After a removal the same slot is looked at again ([j = j - 1] and [j++]). *)
Fixpoint expire_loop (fuel : nat) (currtime i j : Z) : prog comm unit :=
  match fuel with
  | O => spin
  | S fuel =>
      if MAX_FD_NUM <=? j then ret tt
      else
        let* found := expire_look currtime i j in
        if (found : bool) then
          in_tab (CommClearFd i j) ;;;
          expire_loop fuel currtime i (j - 1 + 1)
        else ret tt
  end.

Definition clean_time_out_connect : prog comm unit :=
  let* currtime := get_curr_time in
  let* num := get g_num in
  for_each (seqZ 0 num) (fun i => expire_loop (S FUEL) currtime i 0).

(** ** Requests *)

(** [sprintf(iLen, "%0*d", SOCKET_MSG_HEAD_LEN, sizeof(sunda_req_head_t))], and the frame. *)
Definition response_err_req (socketid : Z) (req_head : sunda_req_head_t) : prog comm Z :=
  let* sRspBuf := deref (st 0 (fmt_0d SOCKET_MSG_HEAD_LEN SIZEOF_REQ) (zeros 1025)) in
  let* sRspBuf := deref (st SOCKET_MSG_HEAD_LEN (enc_req req_head) sRspBuf) in
  let* iRet := in_net (WriteSocket socketid sRspBuf (SIZEOF_REQ + SOCKET_MSG_HEAD_LEN)) in
  if iRet <? 0 then ret (-1) else ret 0.

(** The first half of a round of [read_task], under the lock: the socket to read and a
    copy of its connection.  With the counter at 0 the thread waits. *)
Definition read_take (idx : Z) : prog comm (option (Z * connect_handle_t)) :=
  let* n := in_tab (GetCommClientNum idx) in
  if n =? 0 then (fun g => Block g)
  else
    let* pos := in_tab (get_read_fd idx) in
    if pos =? -1 then in_tab (SetCommClientNum idx 0) ;;; ret None
    else
      let* socketid := in_tab (GetCommClientFD idx pos) in
      in_tab (SetCommClientStat idx pos FD_STAT_READ) ;;;
      let* tClient := in_tab (get_connect idx pos) in
      let* n := in_tab (GetCommClientNum idx) in
      in_tab (SetCommClientNum idx (n - 1)) ;;;
      ret (Some (socketid, tClient)).

(** The head of the message for a request. *)
Definition forward_head (sSvcName : bytes) (socketid ssn len : Z) (c : connect_handle_t) : IPCMsgHead :=
  mkHead (buf_of 33 sSvcName) ssn (Clients.ssn c) COMM_S_MSG_TYPE_ROOT socketid (utime c)
    REPLY_FLAG_ASYN 0 len.

(** The second half; [sReqBuf] is the thread's buffer. *)
Definition read_forward (sReqBuf socketid : Z) (tClient : connect_handle_t) : prog comm unit :=
  let* (iRet, sSrcBuf, iBufLen) := in_net (RcvTxnMsg socketid SOCKET_MSG_HEAD_LEN (zeros 8097) 0) in
  if negb (iRet =? 0) then del_connect_fd socketid ;;; ret tt
  else
    let* b := deref (ld SOCKET_MSG_HEAD_LEN SIZEOF_REQ sSrcBuf) in
    let req_head := dec_req b in
    let* sSvcName := deref (AllTrim (r_name req_head ++ [NUL])) in
    let sSvcName := cstr sSvcName in
    let h := forward_head sSvcName socketid (r_ssn req_head)
               (iBufLen - SOCKET_MSG_HEAD_LEN - SIZEOF_REQ) tClient in
    let* body := deref (ld (SOCKET_MSG_HEAD_LEN + SIZEOF_REQ) iBufLen sSrcBuf) in
    let lReqLen := iBufLen + SIZEOF_HEAD in
    let* iRet := in_world (
      store sReqBuf (enc_head h) ;;;
      store (sReqBuf + SIZEOF_HEAD) body ;;;
      tux_acall handler (Some sSvcName) sReqBuf lReqLen 0) in
    if negb (iRet =? 0) then
      let* e := in_world (get tux_errno) in
      response_err_req socketid (mkReq (r_name req_head) (r_ssn req_head) e) ;;; ret tt
    else ret tt.

Definition read_round (sReqBuf idx : Z) : prog comm unit :=
  let* r := read_take idx in
  match r with
  | None => ret tt
  | Some (socketid, tClient) => read_forward sReqBuf socketid tClient
  end.

(** The thread, for at most [fuel] rounds. *)
Fixpoint read_rounds (fuel : nat) (sReqBuf idx : Z) : prog comm unit :=
  match fuel with
  | O => spin
  | S fuel => read_round sReqBuf idx ;;; read_rounds fuel sReqBuf idx
  end.

Definition read_task (fuel : nat) (idx : Z) : prog comm unit :=
  let* sReqBuf := in_world (new_object (zeros 10241)) in
  read_rounds fuel sReqBuf idx.

(** ** Replies *)

Definition SIZEOF_BUF : Z := 10241.

(** What a round of [write_task] sends: the frame of a reply, from the [iBufLen] bytes
    received in [sSrcBuf]. *)
Definition reply_frame (sSrcBuf : bytes) (iBufLen : Z) (h : IPCMsgHead) : option (bytes * Z) :=
  let iRspLen := i32 (iBufLen - SIZEOF_HEAD + SIZEOF_REQ) in
  sRspBuf ← st 0 (fmt_0d SOCKET_MSG_HEAD_LEN iRspLen ++ [NUL]) (zeros SIZEOF_BUF);
  sRspBuf ← st SOCKET_MSG_HEAD_LEN (enc_req (mkReq (take NAME_LEN (h_name h)) (h_ssn h) 0)) sRspBuf;
  data ← ld SIZEOF_HEAD iRspLen sSrcBuf;
  sRspBuf ← st (SIZEOF_REQ + SOCKET_MSG_HEAD_LEN) data sRspBuf;
  Some (sRspBuf, iRspLen + SOCKET_MSG_HEAD_LEN).

(** The part under the lock: the connection of the reply, marked as answered, or -1. *)
Definition write_mark (h : IPCMsgHead) : prog comm Z :=
  let* g := get id in
  let* idx := in_tab (crem (h_fd h) (g_num g)) in
  let* pos := in_tab (get_conn_inf (g_num g) (w_eax (g_world g)) (h_fd h) (h_conn_ssn h)) in
  if pos <? 0 then ret (-1)
  else in_tab (SetCommClientStat idx pos FD_STAT_WRITE) ;;; ret pos.

(** One round of [write_task]; [false] ends the thread. *)
Definition write_step (sSrcBuf iBufLen : Z) : prog comm bool :=
  let* iRet := in_world (
    store sSrcBuf (zeros SIZEOF_BUF) ;;;
    tux_getreply handler COMM_S_MSG_TYPE_ROOT sSrcBuf iBufLen 0) in
  let* e := in_world (get tux_errno) in
  if negb (iRet =? 0) && (e =? SYS_SYSTEM) then ret false
  else if negb (iRet =? 0) && (e =? ENOMSG) then ret true
  else
    let* src := in_world (load sSrcBuf SIZEOF_BUF) in
    let* len := in_world (load iBufLen 8) in
    let* head := deref (ld 0 SIZEOF_HEAD src) in
    let h := dec_head head in
    let* (sRspBuf, iRspLen) := deref (reply_frame src (get_i64 len) h) in
    let* pos := write_mark h in
    if pos <? 0 then ret true
    else in_net (WriteSocket (h_fd h) sRspBuf iRspLen) ;;; ret true.

Fixpoint write_rounds (fuel : nat) (sSrcBuf iBufLen : Z) : prog comm unit :=
  match fuel with
  | O => spin
  | S fuel =>
      let* go := write_step sSrcBuf iBufLen in
      if go then write_rounds fuel sSrcBuf iBufLen else ret tt
  end.

Definition write_task (fuel : nat) : prog comm unit :=
  let* sSrcBuf := in_world (new_object (zeros SIZEOF_BUF)) in
  let* iBufLen := in_world (new_object (le64 0)) in
  write_rounds fuel sSrcBuf iBufLen.

(** ** The main program *)

(** One turn of the [switch]; [false] is [return -1]. *)
Definition option_ (o : option (ascii * bytes)) : prog comm bool :=
  match o with
  | Some (c, optarg) =>
      if ceqb c "p" then modify (set_g_port (atoi optarg)) ;;; ret true
      else if ceqb c "n" then
        modify (set_g_num (atoi optarg)) ;;;
        if atoi optarg <=? 0 then ret false
        else
          when (MAX_TREAD_NUM <=? atoi optarg) (modify (set_g_num MAX_TREAD_NUM)) ;;;
          ret true
      else modify (set_g_idletime (atoi optarg)) ;;; ret true
  | None => ret true
  end.

Fixpoint options (l : list (option (ascii * bytes))) : prog comm bool :=
  match l with
  | [] => ret true
  | o :: l => let* ok := option_ o in if ok then options l else ret false
  end.

Definition comm_init (argv : list bytes) : prog comm Z :=
  match argv with
  | _ :: arg1 :: _ :: arg3 :: _ =>
      let* me := in_world (lift getpid) in
      if negb (atol arg1 =? me) then ret (-1)
      else
        modify (set_g_svrid (atoi arg3)) ;;;
        let words := drop 3 argv in           (* getopt(argc - 2, argv + 2, "p:n:t:") *)
        let* ok := options (getopt_all (str "pnt") words) in
        if negb ok then ret (-1)
        else
          modify (set_g_gssn 0) ;;;
          let* iRet := in_world ipc_connect in
          if negb (iRet =? 0) then ret (-1)
          else
            let* num := get g_num in
            for_each (seqZ 0 num) (fun i =>
              in_tab (CommHandClear i) ;;;
              for_each (seqZ 0 MAX_FD_NUM) (fun j => in_tab (InitConnect i j))) ;;;
            ret 0
  | _ => ret (-1)
  end.

(** The threads are only started here; starting one does not fail. *)
Definition init_thread_pool : prog comm Z :=
  let* num := get g_num in
  modify (set_g_threads (map ReadTask (seqZ 0 num) ++ [WriteTask])) ;;;
  ret 0.

(** The body of the loop over the events. *)
Definition on_event (e : epoll_event) : prog comm unit :=
  let '(fd, epollin) := e in
  let* g := get id in
  let* idx := in_tab (crem fd (g_num g)) in
  if fd =? g_listen g then new_accept ;;; ret tt
  else if (epollin : bool) then
    let* pos := in_tab (get_connect_pos idx fd) in
    if pos <? 0 then del_connect_fd fd ;;; ret tt
    else
      in_tab (SetCommClientStat idx pos FD_STAT_POLL) ;;;
      let* n := in_tab (GetCommClientNum idx) in
      (if n =? INT_MAX then fault else in_tab (SetCommClientNum idx (n + 1)))
  else del_connect_fd fd ;;; ret tt.

Definition epoll_wait (timeout : Z) : prog comm (list epoll_event) := fun g =>
  match g_events g with
  | [] => Block g
  | l :: ls => Ret l (set_g_events ls g)
  end.

Definition main_round : prog comm unit :=
  let* now := get_curr_time in
  let* g := get id in
  let* timeout := in_tab (get_wait_time (g_num g) now (g_idletime g)) in
  let* events := epoll_wait timeout in
  for_each events on_event ;;;
  clean_time_out_connect.

Fixpoint main_loop (fuel : nat) : prog comm unit :=
  match fuel with
  | O => spin
  | S fuel => main_round ;;; main_loop fuel
  end.

Definition main (fuel : nat) (argv : list bytes) : prog comm Z :=
  let* iRet := comm_init argv in
  if negb (iRet =? 0) then ret (-1)
  else
    let* (iRet, listen_socket) := in_net (CreateSocket 9999 1) in
    modify (set_g_listen listen_socket) ;;;
    if negb (iRet =? 0) then exit_ 2
    else
      epoll_add listen_socket ;;;
      let* iRet := init_thread_pool in
      if negb (iRet =? 0) then ret (-1)
      else main_loop fuel ;;; ret 0.
