(* ===== verification/Gateway.v ===== *)
(** * The communication server with one reading thread

    With the option [-n 1] the server keeps one entry of the connection table.  This file
    shows that the threads then maintain a list of open connections: every piece of a
    thread ([Commserver.v]) is a step on that list.  The condition is that no other thread
    takes the lock while the main thread is inside [new_accept] or
    [clean_time_out_connect]: those change the table, but the code of their lock is
    commented out or missing.  [accept_race] and [timeout_race] are runs that break the
    condition and leave a table that is no such list, or a connection that is lost. *)

From Stdlib Require Import ZArith Lia Bool List Ascii String.
From stdpp Require Import base list gmap relations.
From S2P Require Import Prelude Cstr Kernel Funsock Funmsq Sunda Tuxmem Tuxcall Clients Commserver.

(** ** The table *)

Definition poll (c : connect_handle_t) : bool := status c =? FD_STAT_POLL.

(** The entries behind the first have not been used. *)
Definition quiet (m : table) : Prop := forall k, CLIENT <= k < MAX_TREAD_NUM * CLIENT -> wd m k = 0.

(** Entry 0 holds [cs], its counter covers the connections with data to read, and the
    rest of the array has not been used. *)
Definition single_tab (m : table) (cs : list connect_handle_t) : Prop :=
  sized m /\ occupied m 0 cs
  /\ quiet m /\ Z.of_nat (count poll cs) <= wd m (NUM 0) < 2 ^ 31.

(** Setting the counter. *)
Lemma counted m cs n :
  sized m -> occupied m 0 cs -> quiet m ->
  let m' := zupd (NUM 0) (fun _ => n) m in
  sized m' /\ occupied m' 0 cs /\ quiet m' /\ wd m' (NUM 0) = n.
Proof.
  intros S (U & free & F & E) Q m'. pose proof (NUM_range 0 ltac:(done)) as R0. unfold m'.
  split; [now apply sized_zupd|]. split; [|split].
  - split; [exact U|]. exists free. split; [exact F|]. now rewrite conns_num.
  - intros k Hk. rewrite wd_zupd by done. destruct (Z.eqb_spec k (NUM 0)); [exfalso; addr|now apply Q].
  - now rewrite wd_zupd, Z.eqb_refl.
Qed.

Lemma single_slot m m' cs cs' j c :
  single_tab m cs -> slot_set 0 j c m m' -> 0 <= j < MAX_FD_NUM -> occupied m' 0 cs' ->
  Z.of_nat (count poll cs') <= wd m (NUM 0) -> single_tab m' cs'.
Proof.
  intros (S & O & Q & N) H Hj O' C. split; [apply H|]. split; [exact O'|]. split.
  - intros k Hk. destruct H as (_ & _ & F). rewrite F by addr. now apply Q.
  - rewrite (slot_set_num _ _ _ _ _ 0 H Hj). lia.
Qed.

Lemma single_counter m cs n :
  single_tab m cs -> Z.of_nat (count poll cs) <= n < 2 ^ 31 ->
  SetCommClientNum 0 n m = Ret tt (zupd (NUM 0) (fun _ => n) m)
  /\ single_tab (zupd (NUM 0) (fun _ => n) m) cs /\ wd (zupd (NUM 0) (fun _ => n) m) (NUM 0) = n.
Proof.
  intros (S & O & Q & N) Hn. destruct (counted m cs n S O Q) as (S' & O' & Q' & W).
  split; [rewrite (SetCommClientNum_eq m 0 n S ltac:(done)); now rewrite u32_id by lia|].
  split; [|exact W]. split; [done|]. split; [done|]. split; [done|]. now rewrite W.
Qed.

Lemma single_num m cs : single_tab m cs -> GetCommClientNum 0 m = Ret (wd m (NUM 0)) m.
Proof. intros (S & O & Q & N). rewrite GetCommClientNum_eq by done. now rewrite i32_id by lia. Qed.

Lemma count_insert (P : connect_handle_t -> bool) cs (k : nat) c c' :
  cs !! k = Some c -> (count P (<[k := c']> cs) + Nat.b2n (P c) = count P cs + Nat.b2n (P c'))%nat.
Proof.
  intros H. rewrite <- (count_zupd P cs (Z.of_nat k) c (fun _ => c')).
  - unfold zupd. destruct (Z.ltb_spec (Z.of_nat k) 0); [lia|]. rewrite Nat2Z.id.
    now rewrite list_insert_alter.
  - unfold znth. destruct (Z.ltb_spec (Z.of_nat k) 0); [lia|]. now rewrite Nat2Z.id.
Qed.

Lemma count_delete (P : connect_handle_t -> bool) cs (k : nat) c :
  cs !! k = Some c -> (count P (delete k cs) + Nat.b2n (P c) = count P cs)%nat.
Proof.
  intros H. apply list_elem_of_split_length in H as (l1 & l2 & -> & ->).
  rewrite delete_middle. change (c :: l2) with ([c] ++ l2). rewrite !count_app.
  assert (E : count P [c] = Nat.b2n (P c)) by (unfold count; cbn; now destruct (P c)). lia.
Qed.

Definition with_status (v : Z) (c : connect_handle_t) : connect_handle_t :=
  mkConn (fd c) (ssn c) (utime c) v.

Definition a_status (v : Z) : Prop := 0 <= v <= 3.

Lemma low_char_small v : a_status v -> low_char v = v.
Proof. unfold a_status, low_char. intros. rewrite Z.mod_small; lia. Qed.

(** Marking the connection of a slot. *)
Lemma single_status m cs (k : nat) c v :
  single_tab m cs -> cs !! k = Some c -> a_status v ->
  exists m', SetCommClientStat 0 (Z.of_nat k) v m = Ret tt m'
    /\ occupied m' 0 (<[k := with_status v c]> cs) /\ slot_set 0 (Z.of_nat k) (with_status v c) m m'
    /\ wd m' (NUM 0) = wd m (NUM 0).
Proof.
  intros T Hk Hv. destruct T as (S & O & Q & N). pose proof (conn_at_occupied m 0 cs O k c Hk) as [E L].
  destruct (SetCommClientStat_eq m S 0 (Z.of_nat k) v ltac:(done) ltac:(lia)) as (m' & R & H).
  rewrite E, low_char_small in H by done. change (slot_set 0 (Z.of_nat k) (with_status v c) m m') in H.
  exists m'. split; [exact R|]. split; [|split; [exact H|]].
  - eapply occupied_update; [exact O|now apply lookup_lt_Some in Hk|exact H|].
    exact (proj1 (Forall_lookup _ _) (proj1 O) _ _ Hk).
  - eapply slot_set_num; [exact H|lia].
Qed.

Lemma slot_removed m cs (k : nat) :
  sized m -> occupied m 0 cs -> quiet m -> (k < length cs)%nat ->
  exists m', CommClearFd 0 (Z.of_nat k) m = Ret tt m' /\ sized m' /\ occupied m' 0 (delete k cs)
    /\ quiet m' /\ wd m' (NUM 0) = wd m (NUM 0).
Proof.
  intros S O Q Hk. pose proof (occupied_length m 0 cs O) as L.
  destruct (CommClearFd_removes m 0 k cs S ltac:(done) ltac:(left; done) O Hk ltac:(left; lia))
    as (m' & R & S' & O' & W).
  destruct (CommClearFd_words m S 0 (Z.of_nat k) ltac:(done) ltac:(lia) ltac:(left; done)) as (m2 & R2 & _ & _ & W2).
  rewrite R in R2. injection R2 as <-. exists m'. split; [exact R|].
  split; [exact S'|]. split; [exact O'|]. split; [|now apply W; addr].
  intros x Hx. rewrite W2 by addr. destruct (_ && _) eqn:B; [|now apply Q].
  apply andb_true_iff in B as [_ B%Z.ltb_lt]. apply Q. addr.
Qed.

(** ** The state of the server *)

Lemma within_bind {S T A B} (part : T -> S) (put : S -> T -> T) (m : prog S A) (k : A -> prog T B) t a s :
  m (part t) = Ret a s -> bind (within part put m) k t = k a (put s t).
Proof. intros H. unfold bind, within. now rewrite H. Qed.

Definition opened (n : net) (x : Z) : Prop := is_Some (n_socks n !! x).

(** [cs] is the list of connections: distinct open sockets and distinct numbers. *)
Definition conns_ok (g : comm) (cs : list connect_handle_t) : Prop :=
  g_num g = 1
  /\ NoDup (map fd cs) /\ Forall (fun c => opened (g_net g) (fd c)) cs
  /\ NoDup (map ssn cs) /\ Forall (fun c => ssn c < g_gssn g) cs
  /\ 0 <= g_gssn g <= INT_MAX.

(** The table holds that list. *)
Definition single (g : comm) (cs : list connect_handle_t) : Prop :=
  single_tab (g_tab g) cs /\ conns_ok g cs.

Lemma crem_1 x m : crem x 1 m = Ret 0 m.
Proof. unfold crem. cbn. now rewrite Z.rem_1_r. Qed.

Lemma set_g_world_same g : set_g_world (g_world g) g = g.
Proof. now destruct g. Qed.

Lemma set_g_tab_same g : set_g_tab (g_tab g) g = g.
Proof. now destruct g. Qed.

Lemma in_tab_read {A B} (m : prog table A) (k : A -> prog comm B) g a :
  m (g_tab g) = Ret a (g_tab g) -> bind (in_tab m) k g = k a g.
Proof. intros H. unfold in_tab. rewrite (within_bind _ _ _ _ _ _ _ H). now rewrite set_g_tab_same. Qed.

Lemma in_tab_write {A B} (m : prog table A) (k : A -> prog comm B) g a m' :
  m (g_tab g) = Ret a m' -> bind (in_tab m) k g = k a (set_g_tab m' g).
Proof. apply within_bind. Qed.

Lemma in_net_step {A B} (m : prog net A) (k : A -> prog comm B) g a n :
  m (g_net g) = Ret a n -> bind (in_net m) k g = k a (set_g_net n g).
Proof. apply within_bind. Qed.

Lemma get_curr_time_run g : get_curr_time g = Ret (u32 (o_time (w_os (g_world g)))) g.
Proof. now destruct g as [[] ? ? ? ? ? ? ? ? ? ? ?]. Qed.

Lemma get_curr_time_eq {B} (k : Z -> prog comm B) g :
  bind get_curr_time k g = k (u32 (o_time (w_os (g_world g)))) g.
Proof. exact (bind_Ret _ _ _ _ _ (get_curr_time_run g)). Qed.

Lemma single_forall g cs P : single g cs -> (forall c, used_conn c -> P c) -> Forall P cs.
Proof. intros ((_ & (U & _) & _) & _) H. eapply Forall_impl; [exact U|done]. Qed.

(** ** Accepting a connection *)

Lemma AcceptSocket_eq n bad x e rest :
  n_accept n = bad ++ (x, e) :: rest -> Forall (fun p => fst p < 0) bad -> 0 <= x ->
  AcceptSocket n = Ret (0, x) (set_sock x closed_sock (set_n_accept rest (set_n_errno e n))).
Proof.
  intros E Hb Hx. unfold AcceptSocket. unfold bind at 1, get. cbn [obind]. rewrite E. clear E.
  assert (L : forall n, accept_loop (bad ++ (x, e) :: rest) n
    = Ret x (set_sock x closed_sock (set_n_accept rest (set_n_errno e n)))).
  { induction Hb as [|[y f] bad Hy _ IH]; intros n0; cbn [app accept_loop].
    - erewrite bind_Ret by reflexivity. rewrite (proj2 (Z.leb_le 0 x)) by done. reflexivity.
    - erewrite bind_Ret by reflexivity. cbn [fst] in Hy. rewrite (proj2 (Z.leb_gt 0 y)) by done.
      rewrite IH. reflexivity. }
  now rewrite (bind_Ret _ _ _ _ _ (L n)).
Qed.

Lemma set_fl_eq n x s b : n_socks n !! x = Some s -> set_fl x b n = Ret 0 (set_sock x (set_block b s) n).
Proof. intros H. unfold set_fl. now rewrite H. Qed.

Lemma CloseSocket_eq n x s : n_socks n !! x = Some s ->
  exists n', CloseSocket x n = Ret 0 n' /\ n_socks n' = delete x (n_socks n)
    /\ n_accept n' = n_accept n.
Proof.
  intros H. unfold CloseSocket. rewrite (bind_Ret _ _ _ _ _ (set_fl_eq n x s false H)). cbn [Z.ltb Z.compare].
  eexists. split; [reflexivity|]. split; [|done]. cbn [n_socks set_socks set_sock]. apply delete_insert_eq.
Qed.

(** The connection that [new_accept] registers. *)
Definition accepted (g : comm) (x : Z) : connect_handle_t :=
  mkConn x (g_gssn g) (u32 (o_time (w_os (g_world g)))) FD_STAT_REG.

Lemma fill_slot m (k : Z) c0 :
  sized m -> 0 <= k < MAX_FD_NUM -> 0 <= fd c0 < 2 ^ 31 -> a_status (status c0) ->
  exists m1 m2 m3 m4, SetCommClientFD 0 k (fd c0) m = Ret tt m1 /\ SetCommClientSsn 0 k (ssn c0) m1 = Ret tt m2
    /\ SetCommClientTime 0 k (utime c0) m2 = Ret tt m3 /\ SetCommClientStat 0 k (status c0) m3 = Ret tt m4
    /\ slot_set 0 k (mkConn (fd c0) (u32 (ssn c0)) (u32 (utime c0)) (status c0)) m m4.
Proof.
  intros S Hk Hf Hst.
  destruct (SetCommClientFD_eq m S 0 k (fd c0) ltac:(done) Hk) as (m1 & E1 & H1).
  destruct (SetCommClientSsn_eq m1 (proj1 H1) 0 k (ssn c0) ltac:(done) Hk) as (m2 & E2 & H2).
  destruct (SetCommClientTime_eq m2 (proj1 H2) 0 k (utime c0) ltac:(done) Hk) as (m3 & E3 & H3).
  destruct (SetCommClientStat_eq m3 (proj1 H3) 0 k (status c0) ltac:(done) Hk) as (m4 & E4 & H4).
  exists m1, m2, m3, m4. repeat (split; [assumption|]).
  pose proof (slot_set_trans _ _ _ _ _ _ _ (slot_set_trans _ _ _ _ _ _ _ (slot_set_trans _ _ _ _ _ _ _ H1 H2) H3) H4) as H.
  destruct H1 as (_ & C1 & _), H2 as (_ & C2 & _), H3 as (_ & C3 & _). rewrite C3, C2, C1 in H. cbn in H.
  now rewrite i32_id, low_char_small in H by (try done; lia).
Qed.

Lemma NoDup_snoc {A B} (f : A -> B) l a :
  NoDup (map f l) -> Forall (fun b => f b <> f a) l -> NoDup (map f (l ++ [a])).
Proof.
  intros D H. rewrite map_app. apply NoDup_app. split; [done|]. split; [|apply NoDup_singleton].
  intros y Hy Hy'%list_elem_of_singleton. subst y. apply list_elem_of_In, in_map_iff in Hy as (c & Ec & Hc).
  apply list_elem_of_In in Hc. rewrite Forall_forall in H. now apply (H c).
Qed.

Lemma opened_insert x s n y : opened n y -> opened (set_sock x s n) y.
Proof.
  unfold opened. cbn. intros H. destruct (decide (y = x)) as [->|Ne]; [rewrite lookup_insert_eq; eauto|].
  now rewrite lookup_insert_ne.
Qed.

(** The invariant with a new connection at the end. *)
Lemma single_append g cs c m ep :
  single g cs -> Z.of_nat (length cs) < MAX_FD_NUM -> 0 <= fd c -> poll c = false ->
  slot_set 0 (Z.of_nat (length cs)) c (g_tab g) m -> ssn c = g_gssn g ->
  Forall (fun b => fd b <> fd c) cs -> opened (g_net g) (fd c) -> g_gssn g < INT_MAX ->
  single (set_g_tab m (set_g_gssn (g_gssn g + 1) (set_g_epoll ep g))) (cs ++ [c]).
Proof.
  intros ((S & O & Q & N) & N1 & D & Op & Ds & Ls & G0) Hl Hf Hp W Hs Hn Ho Hg.
  assert (Hc : count poll (cs ++ [c]) = count poll cs) by (rewrite count_app; unfold count at 2; cbn; rewrite Hp; cbn; lia).
  split; [|split; [exact N1|]].
  - eapply single_slot; [exact (conj S (conj O (conj Q N)))|exact W|lia|exact (occupied_append 0 c _ m cs O W Hl Hf)|].
    rewrite Hc. lia.
  - cbn [g_net g_gssn set_g_tab set_g_gssn set_g_epoll].
    split; [|split; [|split; [|split]]].
    + now apply NoDup_snoc.
    + apply Forall_app. split; [exact Op|now constructor].
    + apply NoDup_snoc; [done|]. eapply Forall_impl; [exact Ls|]. cbn. lia.
    + apply Forall_app. split; [|constructor; [lia|constructor]].
      eapply Forall_impl; [exact Ls|]. cbn. lia.
    + lia.
Qed.

(** A state with a further open socket, and the search for a slot. *)
Definition admitted (g : comm) (x e : Z) (rest : list (Z * Z)) : comm :=
  set_g_net (set_sock x (set_block false closed_sock)
    (set_sock x closed_sock (set_n_accept rest (set_n_errno e (g_net g))))) g.

Lemma admitted_single g cs x e rest :
  single g cs -> n_socks (g_net g) !! x = None ->
  single (admitted g x e rest) cs /\ opened (g_net (admitted g x e rest)) x
  /\ Forall (fun c => fd c <> x) cs.
Proof.
  intros (T & N1 & D & Op & R) Hn. split; [|split].
  - split; [exact T|]. split; [exact N1|]. split; [exact D|]. split; [|exact R].
    eapply Forall_impl; [exact Op|]. intros c Hc. now apply opened_insert, opened_insert.
  - unfold opened. cbn. rewrite lookup_insert_eq. eauto.
  - eapply Forall_impl; [exact Op|]. intros c [s Hc] E. congruence.
Qed.

Lemma accept_find_eq g cs bad x e rest :
  single g cs -> n_accept (g_net g) = bad ++ (x, e) :: rest -> Forall (fun p => fst p < 0) bad -> 0 <= x ->
  accept_find g
  = (if Z.of_nat (length cs) <? MAX_FD_NUM then ret (Some (x, 0, Z.of_nat (length cs)))
     else in_net (CloseSocket x) ;;; ret None) (admitted g x e rest).
Proof.
  intros ((S & O & _) & N1 & _) Ea Hb Hx. unfold accept_find.
  rewrite (in_net_step _ _ _ _ _ (AcceptSocket_eq _ bad x e rest Ea Hb Hx)). cbn [Z.ltb Z.compare].
  erewrite in_net_step by (apply set_fl_eq; apply lookup_insert_eq). cbn [Z.eqb].
  erewrite bind_Ret by reflexivity. cbn [g_num set_g_net]. rewrite N1. fold (admitted g x e rest).
  erewrite in_tab_read by apply crem_1.
  erewrite in_tab_read by exact (find_free (g_tab g) S 0 ltac:(done) cs O).
  destruct (_ <? MAX_FD_NUM); [|reflexivity]. now rewrite (proj2 (Z.ltb_ge _ 0)) by lia.
Qed.

(** The slot is filled. *)
Definition stored (g : comm) (x : Z) (m : table) : comm :=
  set_g_tab m (set_g_gssn (g_gssn g + 1) (set_g_epoll (x :: g_epoll g) g)).

Lemma accept_store_eq g x k :
  sized (g_tab g) -> 0 <= k < MAX_FD_NUM -> 0 <= x < 2 ^ 31 -> 0 <= g_gssn g <= INT_MAX ->
  if g_gssn g =? INT_MAX then accept_store x 0 k g = Fault
  else exists m, accept_store x 0 k g = Ret 0 (stored g x m) /\ slot_set 0 k (accepted g x) (g_tab g) m.
Proof.
  intros S Hk Hx Hg.
  destruct (fill_slot (g_tab g) k (accepted g x) S Hk ltac:(done) ltac:(done))
    as (m1 & m2 & m3 & m4 & W1 & W2 & W3 & W4 & W). cbn [accepted fd ssn utime status] in W1, W2, W3, W4, W.
  rewrite (u32_id (g_gssn g)), (u32_id (u32 _)) in W by (try apply u32_range; unfold INT_MAX in Hg; lia).
  assert (E : accept_store x 0 k g
    = ((if g_gssn g =? INT_MAX then fault else modify (set_g_gssn (g_gssn g + 1))) ;;;
       let* now := get_curr_time in
       in_tab (SetCommClientTime 0 k now) ;;; in_tab (SetCommClientStat 0 k FD_STAT_REG) ;;; ret 0)
      (set_g_tab m2 (set_g_epoll (x :: g_epoll g) g))).
  { unfold accept_store. erewrite bind_Ret by reflexivity. erewrite in_tab_write by exact W1.
    erewrite bind_Ret by reflexivity. cbn [g_gssn set_g_tab set_g_epoll]. now erewrite in_tab_write by exact W2. }
  rewrite E. destruct (g_gssn g =? INT_MAX); [reflexivity|]. exists m4. split; [|exact W].
  erewrite bind_Ret by reflexivity. rewrite get_curr_time_eq.
  cbn [g_world set_g_tab set_g_epoll set_g_gssn].
  erewrite in_tab_write by exact W3. erewrite in_tab_write by exact W4. reflexivity.
Qed.

Lemma accept_store_single g cs x r g' :
  single g cs -> Z.of_nat (length cs) < MAX_FD_NUM -> 0 <= x < 2 ^ 31 -> opened (g_net g) x ->
  Forall (fun c => fd c <> x) cs -> accept_store x 0 (Z.of_nat (length cs)) g = Ret r g' ->
  single g' (cs ++ [accepted g x]).
Proof.
  intros I Hl Hx Ho Hn R. pose proof I as ((S & _) & _ & _ & _ & _ & _ & G0).
  pose proof (accept_store_eq g x (Z.of_nat (length cs)) S ltac:(lia) Hx G0) as E.
  destruct (Z.eqb_spec (g_gssn g) INT_MAX) as [Eq|Ne]; [congruence|]. destruct E as (m & E & W).
  rewrite R in E. injection E as _ ->. apply single_append; try done; [cbn; lia|lia].
Qed.

(** ** The other steps on the table *)

Lemma single_opened g cs : single g cs -> Forall (fun c => opened (g_net g) (fd c)) cs.
Proof. now intros (_ & _ & _ & H & _). Qed.

(** A step that leaves the connections open and the numbers alone. *)
Lemma single_step g g' cs cs' :
  single g cs -> single_tab (g_tab g') cs' -> g_num g' = g_num g -> g_gssn g' = g_gssn g ->
  map fd cs' = map fd cs -> map ssn cs' = map ssn cs ->
  Forall (fun c => opened (g_net g') (fd c)) cs -> single g' cs'.
Proof.
  intros (T & N1 & D & Op & Ds & Ls & G0) T' En Eg Ef Es Hop. split; [exact T'|].
  split; [congruence|]. rewrite Ef, Es, Eg.
  assert (F : forall (f : connect_handle_t -> Z) (P : Z -> Prop) l l', map f l' = map f l -> Forall (fun c => P (f c)) l -> Forall (fun c => P (f c)) l').
  { intros f P l l' E H. apply Forall_map. rewrite E. now apply Forall_map. }
  split; [done|]. split.
  - exact (F fd (opened (g_net g')) cs cs' Ef Hop).
  - split; [done|]. split; [|done]. exact (F ssn (fun z => z < g_gssn g) cs cs' Es Ls).
Qed.

Lemma map_insert_same {A B} (f : A -> B) l (k : nat) a b :
  l !! k = Some a -> f b = f a -> map f (<[k := b]> l) = map f l.
Proof.
  intros H E. change (map f ?l) with (f <$> l). rewrite list_fmap_insert, E.
  apply list_insert_id. rewrite list_lookup_fmap. now rewrite H.
Qed.

Lemma count_mark cs (k : nat) c v : cs !! k = Some c ->
  (count poll (<[k := with_status v c]> cs) + Nat.b2n (poll c) = count poll cs + Nat.b2n (v =? FD_STAT_POLL)%Z)%nat.
Proof. apply (count_insert poll cs k c (with_status v c)). Qed.

(** Marking a connection and setting the counter. *)
Lemma single_mark m cs (k : nat) c v n :
  single_tab m cs -> cs !! k = Some c -> a_status v ->
  Z.of_nat (count poll (<[k := with_status v c]> cs)) <= n < 2 ^ 31 ->
  exists m1 m2, SetCommClientStat 0 (Z.of_nat k) v m = Ret tt m1
    /\ conn_at m1 0 (Z.of_nat k) = with_status v c /\ sized m1
    /\ GetCommClientNum 0 m1 = Ret (wd m (NUM 0)) m1
    /\ SetCommClientNum 0 n m1 = Ret tt m2
    /\ single_tab m2 (<[k := with_status v c]> cs) /\ wd m2 (NUM 0) = n.
Proof.
  intros T Hc Hv Hn. pose proof T as (S & O & Q & N).
  destruct (single_status _ cs k c v T Hc Hv) as (m1 & E1 & O1 & W1 & M1).
  pose proof (conn_at_occupied _ 0 cs O k c Hc) as [_ Lk]. assert (S1 : sized m1) by apply W1.
  assert (Q1 : quiet m1) by (intros y Hy; destruct W1 as (_ & _ & ->); [now apply Q|addr]).
  destruct (counted m1 _ n S1 O1 Q1) as (S2 & O2 & Q2 & W2).
  exists m1, (zupd (NUM 0) (fun _ => n) m1). split; [exact E1|]. split; [apply W1|]. split; [exact S1|].
  split; [rewrite (GetCommClientNum_eq m1 0 S1 ltac:(done)), M1; now rewrite i32_id by lia|].
  split; [rewrite (SetCommClientNum_eq m1 0 _ S1 ltac:(done)); now rewrite u32_id by lia|].
  split; [|exact W2]. split; [done|]. split; [done|]. split; [done|]. now rewrite W2.
Qed.

Lemma single_marked g g' cs (k : nat) c v :
  single g cs -> cs !! k = Some c -> single_tab (g_tab g') (<[k := with_status v c]> cs) ->
  g_num g' = g_num g -> g_gssn g' = g_gssn g ->
  (forall y, opened (g_net g) y -> opened (g_net g') y) -> single g' (<[k := with_status v c]> cs).
Proof.
  intros I Hc T' En Eg Ho. apply (single_step g g' cs); try done.
  - now apply (map_insert_same fd _ _ c).
  - now apply (map_insert_same ssn _ _ c).
  - eapply Forall_impl; [exact (single_opened g cs I)|]. intros b. apply Ho.
Qed.

(** Data on a connection: it is marked and counted. *)
Lemma event_in_single g cs x k c :
  single g cs -> 0 <= x -> x <> g_listen g -> scan (fun c => fd c =? x) cs 0 = Z.of_nat k -> cs !! k = Some c ->
  wd (g_tab g) (NUM 0) < INT_MAX ->
  exists m', on_event (x, true) g = Ret tt (set_g_tab m' g)
    /\ single (set_g_tab m' g) (<[k := with_status FD_STAT_POLL c]> cs)
    /\ wd m' (NUM 0) = wd (g_tab g) (NUM 0) + 1.
Proof.
  intros I Hx Hl Hk Hc Hn. pose proof I as (T & N1 & _). pose proof T as (S & O & Q & N).
  pose proof (count_mark cs k c FD_STAT_POLL Hc) as Ci. change (Nat.b2n (FD_STAT_POLL =? _)) with 1%nat in Ci.
  destruct (single_mark (g_tab g) cs k c FD_STAT_POLL (wd (g_tab g) (NUM 0) + 1) T Hc ltac:(done))
    as (m1 & m2 & E1 & _ & S1 & G1 & E2 & T2 & W2); [unfold INT_MAX in Hn; lia|].
  exists m2. split; [|split; [|exact W2]].
  - unfold on_event. erewrite bind_Ret by reflexivity. cbn [id]. rewrite N1.
    erewrite in_tab_read by apply crem_1. rewrite (proj2 (Z.eqb_neq x (g_listen g)) Hl).
    erewrite in_tab_read by exact (find_fd (g_tab g) S 0 ltac:(done) cs O x Hx). rewrite Hk.
    rewrite (proj2 (Z.ltb_ge _ 0)) by lia. erewrite in_tab_write by exact E1.
    erewrite in_tab_read by exact G1. rewrite (proj2 (Z.eqb_neq _ INT_MAX)) by lia.
    unfold in_tab, within. cbn [g_tab set_g_tab]. rewrite E2. reflexivity.
  - now apply (single_marked g _ cs k c).
Qed.

(** The reading thread takes a connection with data. *)
Lemma read_take_single g cs k c :
  single g cs -> scan poll cs 0 = Z.of_nat k -> cs !! k = Some c -> poll c = true ->
  exists m', read_take 0 g = Ret (Some (fd c, with_status FD_STAT_READ c)) (set_g_tab m' g)
    /\ single (set_g_tab m' g) (<[k := with_status FD_STAT_READ c]> cs)
    /\ wd m' (NUM 0) = wd (g_tab g) (NUM 0) - 1.
Proof.
  intros I Hk Hc Hp. pose proof I as (T & N1 & _). pose proof T as (S & O & Q & N).
  pose proof (count_mark cs k c FD_STAT_READ Hc) as Ci. rewrite Hp in Ci.
  change (Nat.b2n (FD_STAT_READ =? _)) with 0%nat in Ci. cbn [Nat.b2n] in Ci.
  pose proof (conn_at_occupied _ 0 cs O k c Hc) as [Ec Lk].
  destruct (single_mark (g_tab g) cs k c FD_STAT_READ (wd (g_tab g) (NUM 0) - 1) T Hc ltac:(done))
    as (m1 & m2 & E1 & C1 & S1 & G1 & E2 & T2 & W2); [lia|].
  exists m2. split; [|split; [|exact W2]].
  - unfold read_take. erewrite in_tab_read by exact (single_num _ _ T).
    rewrite (proj2 (Z.eqb_neq (wd (g_tab g) (NUM 0)) 0)) by lia.
    erewrite in_tab_read by exact (find_poll (g_tab g) S 0 ltac:(done) cs O).
    change (fun c => status c =? FD_STAT_POLL) with poll. rewrite Hk, (proj2 (Z.eqb_neq _ (-1))) by lia.
    erewrite in_tab_read by exact (GetCommClientFD_eq (g_tab g) S 0 (Z.of_nat k) ltac:(done) ltac:(lia)).
    erewrite in_tab_write by exact E1.
    erewrite in_tab_read by exact (get_connect_eq m1 S1 0 (Z.of_nat k) ltac:(done) ltac:(lia)).
    erewrite in_tab_read by exact G1. erewrite in_tab_write by exact E2.
    rewrite Ec, C1. reflexivity.
  - now apply (single_marked g _ cs k c).
Qed.

(** With nothing to read the thread clears the counter, or waits. *)
Lemma read_take_idle g cs :
  single g cs -> scan poll cs 0 = -1 ->
  if wd (g_tab g) (NUM 0) =? 0 then read_take 0 g = Block g
  else exists m', read_take 0 g = Ret None (set_g_tab m' g) /\ single (set_g_tab m' g) cs
    /\ wd m' (NUM 0) = 0.
Proof.
  intros I Hk. pose proof I as (T & N1 & _). pose proof T as (S & O & Q & N).
  unfold read_take. erewrite in_tab_read by exact (single_num _ _ T).
  destruct (_ =? 0) eqn:E0; [reflexivity|].
  assert (C0 : count poll cs = 0%nat).
  { apply count_0. destruct (scan_neg poll cs 0 ltac:(done) ltac:(lia)) as [_ H]. exact H. }
  destruct (single_counter (g_tab g) cs 0 T) as (E2 & T2 & W2); [rewrite C0; done|].
  eexists. split; [|split; [|exact W2]].
  - erewrite in_tab_read by exact (find_poll (g_tab g) S 0 ltac:(done) cs O).
    change (fun c => status c =? FD_STAT_POLL) with poll. rewrite Hk, Z.eqb_refl.
    erewrite in_tab_write by exact E2. reflexivity.
  - apply (single_step g _ cs); try done. exact (single_opened g cs I).
Qed.

(** Finding the connection of a reply by its number. *)
Lemma write_mark_single g cs h k c :
  single g cs -> scan (fun c => ssn c =? h_conn_ssn h) cs 0 = Z.of_nat k -> cs !! k = Some c ->
  exists m', write_mark h g = Ret (Z.of_nat k) (set_g_tab m' g)
    /\ single (set_g_tab m' g) (<[k := with_status FD_STAT_WRITE c]> cs)
    /\ wd m' (NUM 0) = wd (g_tab g) (NUM 0).
Proof.
  intros I Hk Hc. pose proof I as (T & N1 & _). pose proof T as (S & O & Q & N).
  destruct (single_status _ cs k c FD_STAT_WRITE T Hc ltac:(done)) as (m1 & E1 & O1 & W1 & M1).
  pose proof (count_mark cs k c FD_STAT_WRITE Hc) as Ci. change (Nat.b2n (FD_STAT_WRITE =? _)) with 0%nat in Ci.
  pose proof (conn_at_occupied _ 0 cs O k c Hc) as [Ec Lk].
  exists m1. split; [|split; [|exact M1]].
  - unfold write_mark. erewrite bind_Ret by reflexivity. cbn [id]. rewrite N1.
    erewrite in_tab_read by apply crem_1. 
    erewrite in_tab_read.
    2:{ unfold get_conn_inf. rewrite (bind_Ret _ _ _ _ _ (crem_1 _ _)).
        apply (find_ssn (g_tab g) S 0 ltac:(done) cs O). right. rewrite Hk. lia. }
    rewrite Hk, (proj2 (Z.ltb_ge _ 0)) by lia. erewrite in_tab_write by exact E1. reflexivity.
  - apply (single_marked g _ cs k c); try done. eapply single_slot; [exact T|exact W1|lia|exact O1|lia].
Qed.

(** A reply for a connection that is gone. *)
Lemma write_mark_gone g cs h :
  single g cs -> scan (fun c => ssn c =? h_conn_ssn h) cs 0 = -1 -> Z.of_nat (length cs) < MAX_FD_NUM ->
  write_mark h g = Ret (-1) g.
Proof.
  intros (T & N1 & _) Hk Hl. pose proof T as (S & O & Q & N).
  unfold write_mark. erewrite bind_Ret by reflexivity. cbn [id]. rewrite N1.
  erewrite in_tab_read by apply crem_1.
  erewrite in_tab_read.
  2:{ unfold get_conn_inf. rewrite (bind_Ret _ _ _ _ _ (crem_1 _ _)).
      apply (find_ssn (g_tab g) S 0 ltac:(done) cs O). now left. }
  rewrite Hk. reflexivity.
Qed.

(** *** Closing *)

Lemma CloseSocket_any n x : exists r n', CloseSocket x n = Ret r n'
  /\ n_socks n' !! x = None /\ (forall y, y <> x -> n_socks n' !! y = n_socks n !! y)
  /\ n_accept n' = n_accept n.
Proof.
  destruct (n_socks n !! x) as [s|] eqn:E.
  - destruct (CloseSocket_eq n x s E) as (n' & R & Hs & Ha). exists 0, n'. rewrite Hs.
    split; [done|]. split; [apply lookup_delete_eq|]. split; [|done]. intros. now apply lookup_delete_ne.
  - exists 1. eexists. split; [unfold CloseSocket, set_fl, bind, fails; rewrite E; reflexivity|]. done.
Qed.

Lemma del_loop_eq g n i x cs free :
  sized (g_tab g) -> 0 <= i -> i + Z.of_nat n <= MAX_FD_NUM -> 0 <= x -> Forall used_conn cs ->
  Forall free_conn free -> conns_from (g_tab g) 0 i n = cs ++ free ->
  del_loop n 0 i x g
  = (let k := scan (fun c => fd c =? x) cs i in if 0 <=? k then clear_slot 0 k g else Ret tt g).
Proof.
  intros S. revert i cs. induction n as [|n IH]; intros i cs Hi Hn Hx Hu Hf E.
  - symmetry in E. apply app_eq_nil in E as [-> ->]. reflexivity.
  - cbn [del_loop]. erewrite in_tab_read by exact (GetCommClientFD_eq (g_tab g) S 0 i ltac:(done) ltac:(lia)).
    rewrite conns_from_S in E. destruct cs as [|c cs].
    + destruct free as [|f free]; [done|]. injection E as E1 E2. inversion Hf as [|? ? F _]; subst.
      unfold free_conn in F. rewrite F. reflexivity.
    + injection E as E1 E2. inversion Hu as [|? ? U Hu']; subst. unfold used_conn in U.
      rewrite (proj2 (Z.eqb_neq (fd (conn_at (g_tab g) 0 i)) (-1))) by lia. cbn [scan].
      destruct (_ =? x); [now rewrite (proj2 (Z.leb_le 0 i)) by lia|]. apply IH; try done; lia.
Qed.

Lemma zupd_same {A} (l : list A) k a : znth l k = Some a -> zupd k (fun _ => a) l = l.
Proof.
  unfold znth, zupd. destruct (k <? 0); [done|]. intros H. rewrite <- list_insert_alter.
  now apply list_insert_id.
Qed.

(** The counter of an entry that is not used. *)
Lemma idle_counter m cs i :
  single_tab m cs -> 0 < i < MAX_TREAD_NUM ->
  GetCommClientNum i m = Ret 0 m /\ SetCommClientNum i 0 m = Ret tt m.
Proof.
  intros (S & O & Q & N) Hi. assert (W : wd m (NUM i) = 0) by (apply Q; addr). split.
  - rewrite GetCommClientNum_eq by (try done; lia). now rewrite W.
  - rewrite SetCommClientNum_eq by (try done; lia). f_equal. apply zupd_same.
    change (u32 0) with 0. rewrite <- W. apply wd_range; [done|]. apply NUM_range. lia.
Qed.

Lemma clear_slot_single g cs (k : nat) c :
  single_tab (g_tab g) cs -> cs !! k = Some c -> (poll c = true -> Z.of_nat k < MAX_TREAD_NUM) ->
  exists m', clear_slot 0 (Z.of_nat k) g = Ret tt (set_g_tab m' g) /\ single_tab m' (delete k cs)
    /\ wd m' (NUM 0) <= wd (g_tab g) (NUM 0).
Proof.
  intros T Hc Hp. pose proof T as (S & O & Q & N). pose proof (lookup_lt_Some _ _ _ Hc) as Lt.
  pose proof (conn_at_occupied _ 0 cs O k c Hc) as [Ec Lk]. pose proof (count_delete poll cs k c Hc) as Cd.
  unfold clear_slot. erewrite in_tab_read by exact (GetCommClientStat_eq (g_tab g) S 0 (Z.of_nat k) ltac:(done) ltac:(lia)).
  rewrite Ec. fold (poll c). unfold when.
  assert (St : forall m, sized m -> occupied m 0 cs -> quiet m ->
    Z.of_nat (count poll (delete k cs)) <= wd m (NUM 0) < 2 ^ 31 ->
    exists m', in_tab (CommClearFd 0 (Z.of_nat k)) (set_g_tab m g) = Ret tt (set_g_tab m' g)
      /\ single_tab m' (delete k cs) /\ wd m' (NUM 0) = wd m (NUM 0)).
  { intros m S' O' Q' N'. destruct (slot_removed m cs k S' O' Q' Lt) as (m' & R & S2 & O2 & Q2 & W2).
    exists m'. unfold in_tab, within. cbn [g_tab set_g_tab]. rewrite R. split; [done|].
    split; [|exact W2]. split; [done|]. split; [done|]. split; [done|]. now rewrite W2. }
  assert (St' : forall m (l : Z), sized m -> occupied m 0 cs -> quiet m ->
    Z.of_nat (count poll (delete k cs)) <= wd m (NUM 0) < 2 ^ 31 -> wd m (NUM 0) <= l ->
    exists m', in_tab (CommClearFd 0 (Z.of_nat k)) (set_g_tab m g) = Ret tt (set_g_tab m' g)
      /\ single_tab m' (delete k cs) /\ wd m' (NUM 0) <= l).
  { intros m l S' O' Q' N' Hl. destruct (St m S' O' Q' N') as (m' & R & T' & W). exists m'. rewrite W. done. }
  destruct (poll c) eqn:P; cbn [Nat.b2n] in Cd.
  - destruct k as [|k'].
    + rewrite bind_assoc. erewrite in_tab_read by exact (single_num _ _ T).
      rewrite (proj2 (Z.eqb_neq (wd (g_tab g) (NUM 0)) 0)) by lia.
      erewrite in_tab_write.
      2:{ rewrite (SetCommClientNum_eq (g_tab g) 0 _ S ltac:(done)). rewrite u32_id by lia. reflexivity. }
      destruct (counted (g_tab g) cs (wd (g_tab g) (NUM 0) - 1) S O Q) as (S2 & O2 & Q2 & W2).
      apply St'; try done; rewrite W2; lia.
    + specialize (Hp eq_refl). destruct (idle_counter (g_tab g) cs (Z.of_nat (Datatypes.S k')) T ltac:(lia)) as [E1 E2].
      rewrite bind_assoc. erewrite in_tab_read by exact E1. cbn [Z.eqb].
      erewrite in_tab_write by exact E2. apply St'; try done; lia.
  - rewrite bind_ret_l. pose proof (St' (g_tab g) (wd (g_tab g) (NUM 0)) S O Q ltac:(lia) ltac:(lia)) as X. now rewrite set_g_tab_same in X.
Qed.

(** The connections of the other sockets. *)
Definition without (x : Z) (cs : list connect_handle_t) : list connect_handle_t :=
  List.filter (fun c => negb (fd c =? x)) cs.

Lemma filter_all {A} (P : A -> bool) l : Forall (fun a => P a = true) l -> List.filter P l = l.
Proof. induction 1 as [|a l Ha _ IH]; cbn; [done|]. now rewrite Ha, IH. Qed.

Lemma NoDup_map_filter {A B} (f : A -> B) (P : A -> bool) l :
  NoDup (map f l) -> NoDup (map f (List.filter P l)).
Proof.
  induction l as [|a l IH]; cbn; [done|]. intros [Ha Hl]%NoDup_cons. destruct (P a); [|now apply IH].
  cbn. apply NoDup_cons. split; [|now apply IH]. intros H. apply Ha.
  apply list_elem_of_In, in_map_iff in H as (b & Eb & [Hb _]%filter_In). apply list_elem_of_In, in_map_iff.
  now exists b.
Qed.

Lemma Forall_filter {A} (Q : A -> Prop) (P : A -> bool) l : Forall Q l -> Forall Q (List.filter P l).
Proof. induction 1 as [|a l Ha _ IH]; cbn; [done|]. destruct (P a); [now constructor|done]. Qed.

Lemma delete_without cs x k :
  NoDup (map fd cs) -> scan (fun c => fd c =? x) cs 0 = Z.of_nat k -> delete k cs = without x cs.
Proof.
  intros D H. destruct (scan_eq _ cs 0 (Z.of_nat k) ltac:(lia) H ltac:(lia)) as (c & Hc & Ec & Hb).
  rewrite Z.sub_0_r in Hc, Hb. unfold znth in Hc. rewrite (proj2 (Z.ltb_ge _ 0)) in Hc by lia. rewrite Nat2Z.id in Hc, Hb.
  apply list_elem_of_split_length in Hc as (l1 & l2 & -> & L). subst k. rewrite take_app_length in Hb. rewrite delete_middle.
  unfold without. rewrite List.filter_app. cbn [List.filter]. rewrite Ec. cbn [negb].
  rewrite map_app in D. apply NoDup_app in D as (_ & _ & D). cbn [map] in D. apply NoDup_cons in D as [D _].
  rewrite !filter_all; [done| |].
  - apply Forall_forall. intros b Hb'. apply negb_true_iff, Z.eqb_neq. intros Eb. apply D.
    apply Z.eqb_eq in Ec. rewrite Ec, <- Eb. apply list_elem_of_In, in_map, list_elem_of_In. exact Hb'.
  - eapply Forall_impl; [exact Hb|]. intros b Eb. cbn in Eb. now rewrite Eb.
Qed.

Lemma without_none cs x : scan (fun c => fd c =? x) cs 0 = -1 -> without x cs = cs.
Proof.
  intros H. destruct (scan_neg (fun c => fd c =? x) cs 0 ltac:(lia) ltac:(lia)) as [_ F].
  apply filter_all. eapply Forall_impl; [exact F|]. intros b Eb. cbn in Eb. now rewrite Eb.
Qed.

(** The invariant without the connections of a closed socket. *)
Lemma single_without g g' cs x :
  single g cs -> single_tab (g_tab g') (without x cs) -> g_num g' = g_num g -> g_gssn g' = g_gssn g ->
  (forall y, y <> x -> opened (g_net g) y -> opened (g_net g') y) -> single g' (without x cs).
Proof.
  intros (T & N1 & D & Op & Ds & Ls & G0) T' En Eg Ho. split; [exact T'|]. split; [congruence|]. rewrite Eg.
  split; [now apply NoDup_map_filter|]. split.
  - apply Forall_forall. intros c Hc. apply list_elem_of_In, filter_In in Hc as [Hc Ne].
    apply negb_true_iff, Z.eqb_neq in Ne. apply Ho; [exact Ne|]. apply list_elem_of_In in Hc.
    exact (proj1 (Forall_forall _ _) Op c Hc).
  - split; [now apply NoDup_map_filter|]. split; [now apply Forall_filter|done].
Qed.

(** The state with a socket closed and no longer watched. *)
Definition closed (x : Z) (n : net) (g : comm) : comm :=
  set_g_net n (set_g_epoll (List.filter (fun y => negb (y =? x)) (g_epoll g)) g).

Lemma del_connect_start g cs x :
  single_tab (g_tab g) cs -> g_num g = 1 -> 0 <= x ->
  exists n', n_socks n' !! x = None /\ (forall y, y <> x -> n_socks n' !! y = n_socks (g_net g) !! y)
    /\ del_connect_fd x g
       = ((if 0 <=? scan (fun c => fd c =? x) cs 0 then clear_slot 0 (scan (fun c => fd c =? x) cs 0) else ret tt) ;;;
          ret 0) (closed x n' g).
Proof.
  intros (S & O & _) N1 Hx. destruct (CloseSocket_any (g_net g) x) as (r & n' & Rc & Hn & Ho & _).
  exists n'. split; [exact Hn|]. split; [exact Ho|]. destruct (conns_app (g_tab g) 0 cs O) as (free & F & E & L).
  unfold del_connect_fd. erewrite bind_Ret by reflexivity. rewrite N1. erewrite in_tab_read by apply crem_1.
  erewrite bind_Ret by reflexivity. erewrite in_net_step by exact Rc. fold (closed x n' g). unfold bind at 1.
  rewrite (del_loop_eq (closed x n' g) FUEL 0 x cs free S ltac:(lia) FUEL_ok Hx (proj1 O) F E). cbn zeta.
  unfold bind. now destruct (0 <=? _).
Qed.

Lemma del_connect_single g cs x :
  single g cs -> 0 <= x ->
  (forall k c, scan (fun c => fd c =? x) cs 0 = Z.of_nat k -> cs !! k = Some c -> poll c = true ->
     Z.of_nat k < MAX_TREAD_NUM) ->
  exists g', del_connect_fd x g = Ret 0 g' /\ single g' (without x cs)
    /\ g_world g' = g_world g /\ n_socks (g_net g') !! x = None.
Proof.
  intros I Hx Hp. pose proof I as (T & N1 & D & _).
  destruct (del_connect_start g cs x T N1 Hx) as (n' & Hn & Ho & ->).
  assert (Hop : forall y, y <> x -> opened (g_net g) y -> opened n' y) by (intros y Hy; unfold opened; now rewrite Ho).
  destruct (Z.leb_spec 0 (scan (fun c => fd c =? x) cs 0)) as [B|B].
  - destruct (Z_of_nat_complete _ B) as [k Hk]. rewrite Hk.
    destruct (scan_eq _ cs 0 (Z.of_nat k) ltac:(lia) Hk ltac:(lia)) as (c & Hc & _).
    rewrite Z.sub_0_r in Hc. unfold znth in Hc. rewrite (proj2 (Z.ltb_ge _ 0)) in Hc by lia. rewrite Nat2Z.id in Hc.
    destruct (clear_slot_single (closed x n' g) cs k c T Hc (Hp k c Hk Hc)) as (m' & R & T' & _).
    rewrite (bind_Ret _ _ _ _ _ R). exists (set_g_tab m' (closed x n' g)). split; [reflexivity|].
    rewrite (delete_without cs x k D Hk) in T'. split; [now apply (single_without g)|]. split; [reflexivity|exact Hn].
  - exists (closed x n' g). split; [reflexivity|]. split; [|split; [reflexivity|exact Hn]].
    assert (W : without x cs = cs) by (apply without_none; destruct (scan_range (fun c => fd c =? x) cs 0); lia).
    apply (single_without g); try done. now rewrite W.
Qed.

(** *** Timeouts *)

Definition expired (idletime currtime : Z) (c : connect_handle_t) : bool :=
  u32 idletime <=? u32 (currtime - utime c).

(** A look at the first slot: the socket of an expired connection is closed. *)
Lemma expire_look_eq g now cs :
  single_tab (g_tab g) cs ->
  match cs with
  | c :: _ =>
      if expired (g_idletime g) now c then
        exists n', expire_look now 0 0 g = Ret true (closed (fd c) n' g)
          /\ n_socks n' !! fd c = None /\ (forall y, y <> fd c -> n_socks n' !! y = n_socks (g_net g) !! y)
      else expire_look now 0 0 g = Ret false g
  | [] => expire_look now 0 0 g = Ret false g
  end.
Proof.
  intros (S & O & Q & N). unfold expire_look.
  erewrite in_tab_read by exact (GetCommClientFD_eq (g_tab g) S 0 0 ltac:(done) ltac:(done)).
  destruct cs as [|c cs].
  - pose proof (free_at_occupied _ 0 [] 0%nat O ltac:(cbn; lia) ltac:(done)) as F.
    change (Z.of_nat 0) with 0 in F. now rewrite F.
  - pose proof (conn_at_occupied _ 0 (c :: cs) O 0%nat c eq_refl) as [Ec _]. change (Z.of_nat 0) with 0 in Ec.
    pose proof (proj1 O) as U. apply Forall_cons in U as [U _]. unfold used_conn in U.
    rewrite Ec, (proj2 (Z.eqb_neq (fd c) (-1))) by lia.
    erewrite in_tab_read by exact (GetCommClientTime_eq (g_tab g) S 0 0 ltac:(done) ltac:(done)). rewrite Ec.
    erewrite bind_Ret by reflexivity. cbn [id]. fold (expired (g_idletime g) now c).
    destruct (expired (g_idletime g) now c); [|done].
    destruct (CloseSocket_any (g_net g) (fd c)) as (r & n' & Rc & Hn & Ho & _).
    exists n'. split; [|done]. erewrite bind_Ret by reflexivity. erewrite in_net_step by exact Rc. reflexivity.
Qed.

(** The first slot is cleared. *)
Lemma first_removed m c cs :
  single_tab m (c :: cs) -> exists m', CommClearFd 0 0 m = Ret tt m' /\ single_tab m' cs.
Proof.
  intros (S & O & Q & N). destruct (slot_removed m (c :: cs) 0 S O Q ltac:(cbn; lia)) as (m' & R & S' & O' & Q' & W').
  pose proof (count_delete poll (c :: cs) 0 c eq_refl) as Cd. change (delete 0%nat (c :: cs)) with cs in *.
  exists m'. split; [exact R|]. split; [done|]. split; [done|]. split; [done|]. rewrite W'. lia.
Qed.

(** Once the oldest connection is closed the others are as they were. *)
Lemma conns_ok_tail g g' c cs :
  conns_ok g (c :: cs) -> g_num g' = g_num g -> g_gssn g' = g_gssn g ->
  (forall y, y <> fd c -> n_socks (g_net g') !! y = n_socks (g_net g) !! y) -> conns_ok g' cs.
Proof.
  intros (N1 & D & Op & Ds & Ls & G0) En Eg Ho. cbn [map] in D, Ds. apply NoDup_cons in D as [Dc D], Ds as [_ Ds].
  apply Forall_cons in Op as [_ Op], Ls as [_ Ls]. split; [congruence|]. rewrite Eg. split; [done|].
  split; [|done]. apply Forall_forall. intros b Hb. unfold opened. rewrite Ho.
  - exact (proj1 (Forall_forall _ _) Op b Hb).
  - intros E. apply Dc. rewrite <- E. apply list_elem_of_In, in_map, list_elem_of_In. exact Hb.
Qed.

(** ** Reading and writing leave the sockets open *)

Section Open.
Context (D : Z -> Prop).
Let I (n : net) : Prop := forall y, D y -> opened n y.

Lemma keeps_set_sock x s : forall n, I n -> I (set_sock x s n).
Proof. intros n H y Hy. apply opened_insert. now apply H. Qed.

Lemma keeps_waits {A} (r : A) : keeps I (waits r).
Proof.
  intros n H. unfold waits. destruct (g_armed _); [|exact H]. destruct (g_action _); [exact H|easy|].
  now destruct (g_restart _).
Qed.

Lemma keeps_read x len : keeps I (read x len).
Proof.
  intros n H. unfold read. destruct (n_socks n !! x) as [s|]; [|exact H].
  destruct (s_in s); [destruct (s_eof s); [exact H|]; destruct (s_block s); [now apply keeps_waits|exact H]|]. now apply keeps_set_sock.
Qed.

Lemma keeps_write x bs : keeps I (write x bs).
Proof.
  intros n H. unfold write. destruct (n_socks n !! x) as [s|]; [|exact H].
  destruct (s_room s) as [|k l]; [now apply keeps_set_sock|]. destruct (k <=? 0); [|now apply keeps_set_sock].
  exact (keeps_set_sock x _ n H).
Qed.

#[local] Hint Resolve keeps_read keeps_write : keeps.

Lemma keeps_read_loop n x b len off : keeps I (read_loop n x b len off).
Proof. revert b off. induction n as [|n IH]; intros; cbn [read_loop]; keeps_tac. Qed.

Lemma keeps_write_loop n x b len off : keeps I (write_loop n x b len off).
Proof. revert off. induction n as [|n IH]; intros; cbn [write_loop]; keeps_tac. Qed.

#[local] Hint Resolve keeps_read_loop keeps_write_loop : keeps.

Lemma keeps_RcvTxnMsg x h b l : keeps I (RcvTxnMsg x h b l).
Proof. unfold RcvTxnMsg, ReadSocket. keeps_tac. Qed.

Lemma keeps_WriteSocket x b l : keeps I (WriteSocket x b l).
Proof. unfold WriteSocket. keeps_tac. Qed.
End Open.

(** ** The abstract system

    The specification: a list of connections.  One appears at the end, one is marked, the
    connections of a closed socket disappear, or the oldest one does. *)

Inductive conn_step : list connect_handle_t -> list connect_handle_t -> Prop :=
  | Accepted c cs :
      status c = FD_STAT_REG -> Forall (fun b => fd b <> fd c /\ ssn b < ssn c) cs ->
      conn_step cs (cs ++ [c])
  | Marked k c v cs : cs !! k = Some c -> a_status v -> conn_step cs (<[k := with_status v c]> cs)
  | Closed x cs : conn_step cs (without x cs)
  | Expired c cs : conn_step (c :: cs) cs.

(** ** The threads

    The lock protects the table in the reading and the writing thread and where the main
    thread handles an event of a client.  [new_accept] and [clean_time_out_connect] change
    the table without it, so the state says how far the main thread is in them: it has
    found a slot for a new connection; it looks at the first slot of an entry; it has
    closed the socket of that slot and will clear it. *)

Inductive main_at :=
  | AtLoop
  | Storing (sockfd idx pos : Z)
  | Looking (now i : Z)
  | Clearing (now i : Z).

Definition after_find (r : option (Z * Z * Z)) : main_at :=
  match r with Some (sockfd, idx, pos) => Storing sockfd idx pos | None => AtLoop end.

Definition after_look (now i : Z) (found : bool) : main_at :=
  if found then Clearing now i else Looking now (i + 1).

(** What [accept] gives is a descriptor that is not in use. *)
Definition accepts_fresh (n : net) : Prop :=
  forall bad x e rest, n_accept n = bad ++ (x, e) :: rest -> Forall (fun p => fst p < 0) bad -> 0 <= x ->
    x < 2 ^ 31 /\ n_socks n !! x = None.

(** The other threads under the lock: the reading thread at the table or closing a
    connection, the writing thread at the table (with a slot free: [get_conn_inf] returns
    nothing certain for a number it does not find in a full entry). *)
Inductive locked_step (g : comm) : comm -> Prop :=
  | ReaderTake r g' : read_take 0 g = Ret r g' -> locked_step g g'
  | ReaderClose x r g' : 0 <= x -> del_connect_fd x g = Ret r g' -> locked_step g g'
  | WriterMark h r g' :
      fd (conn_at (g_tab g) 0 (MAX_FD_NUM - 1)) = -1 -> write_mark h g = Ret r g' -> locked_step g g'.

(** Everything that leaves the table alone and closes no connection: the calls of the
    system's library and the traffic on the sockets. *)
Inductive free_step (g : comm) : comm -> Prop :=
  | Elsewhere w n evs :
      (forall y, opened (g_net g) y -> opened n y) ->
      free_step g (set_g_events evs (set_g_net n (set_g_world w g))).

Definition thread_step (g g' : comm) : Prop := locked_step g g' \/ free_step g g'.

(** The server, one piece of a thread at a time.  Without [unlocked] the other threads take
    the lock only while the main thread is in neither of the two functions.  With it they
    also do so at the cuts inside them, where nothing in the code keeps them out. *)
Inductive gateway_step (unlocked : bool) : main_at * comm -> main_at * comm -> Prop :=
  | MainEvent e g g' :
      0 <= fst e -> fst e <> g_listen g -> on_event e g = Ret tt g' ->
      gateway_step unlocked (AtLoop, g) (AtLoop, g')
  | AcceptFind r g g' :
      accepts_fresh (g_net g) -> accept_find g = Ret r g' ->
      gateway_step unlocked (AtLoop, g) (after_find r, g')
  | AcceptStore sockfd idx pos r g g' :
      accept_store sockfd idx pos g = Ret r g' ->
      gateway_step unlocked (Storing sockfd idx pos, g) (AtLoop, g')
  | CleanStart now g g' :
      get_curr_time g = Ret now g' -> gateway_step unlocked (AtLoop, g) (Looking now 0, g')
  | CleanLook now i found g g' :
      i < g_num g -> expire_look now i 0 g = Ret found g' ->
      gateway_step unlocked (Looking now i, g) (after_look now i found, g')
  | CleanClear now i g g' :
      in_tab (CommClearFd i 0) g = Ret tt g' -> gateway_step unlocked (Clearing now i, g) (Looking now i, g')
  | CleanEnd now i g : g_num g <= i -> gateway_step unlocked (Looking now i, g) (AtLoop, g)
  | OtherLocked p g g' : unlocked = true \/ p = AtLoop -> locked_step g g' -> gateway_step unlocked (p, g) (p, g')
  | OtherFree p g g' : free_step g g' -> gateway_step unlocked (p, g) (p, g').

(** The list that the state stands for. *)
Definition stands_for (p : main_at) (g : comm) (cs : list connect_handle_t) : Prop :=
  match p with
  | AtLoop => single g cs
  | Storing sockfd idx pos =>
      single g cs /\ idx = 0 /\ pos = Z.of_nat (length cs) /\ pos < MAX_FD_NUM
      /\ 0 <= sockfd < 2 ^ 31 /\ opened (g_net g) sockfd /\ Forall (fun c => fd c <> sockfd) cs
  | Looking _ i => single g cs /\ 0 <= i
  | Clearing _ i => i = 0 /\ (exists c, single_tab (g_tab g) (c :: cs)) /\ conns_ok g cs
  end.

(** ** The refinement *)

Lemma accept_cases l :
  Forall (fun p : Z * Z => fst p < 0) l
  \/ exists bad x e rest, l = bad ++ (x, e) :: rest /\ Forall (fun p => fst p < 0) bad /\ 0 <= x.
Proof.
  induction l as [|[x e] l IH]; [now left|]. destruct (Z_lt_le_dec x 0) as [Hx|Hx].
  - destruct IH as [H|(bad & y & f & rest & -> & Hb & Hy)]; [left; now constructor|].
    right. exists ((x, e) :: bad), y, f, rest. split; [done|]. split; [now constructor|done].
  - right. now exists [], x, e, l.
Qed.

Lemma accept_waits n r n' : Forall (fun p => fst p < 0) (n_accept n) -> AcceptSocket n <> Ret r n'.
Proof.
  intros H. unfold AcceptSocket. unfold bind at 1, get. cbn [obind].
  revert H. generalize (n_accept n). intros l H.
  assert (L : exists n1, accept_loop l n = Block n1).
  { revert n. induction H as [|[y f] l Hy _ IH]; intros n; [now exists n|]. cbn [accept_loop].
    erewrite bind_Ret by reflexivity. cbn [fst] in Hy. rewrite (proj2 (Z.leb_gt 0 y)) by done. apply IH. }
  destruct L as [n1 L]. unfold bind. now rewrite L.
Qed.

(** Deleting a marked connection in a slot behind the 20 entries reads a counter that does
    not exist. *)
Lemma clear_slot_faults g cs (k : nat) c :
  single_tab (g_tab g) cs -> cs !! k = Some c -> poll c = true -> MAX_TREAD_NUM <= Z.of_nat k ->
  clear_slot 0 (Z.of_nat k) g = Fault.
Proof.
  intros (S & O & _) Hc P Hk. pose proof (conn_at_occupied _ 0 cs O k c Hc) as [Ec Lk].
  unfold clear_slot. erewrite in_tab_read by exact (GetCommClientStat_eq (g_tab g) S 0 (Z.of_nat k) ltac:(done) ltac:(lia)).
  rewrite Ec. fold (poll c). rewrite P. unfold when, bind at 1, bind at 1.
  assert (F : GetCommClientNum (Z.of_nat k) (g_tab g) = Fault).
  { unfold GetCommClientNum, bind, word. destruct (znth (g_tab g) (NUM (Z.of_nat k))) eqn:E; [|done].
    apply znth_range in E. unfold sized in S. exfalso. addr. }
  unfold in_tab, within. rewrite F. reflexivity.
Qed.

(** Whatever [del_connect_fd] finds, if it returns. *)
Lemma del_connect_returns g cs x r g' :
  single g cs -> 0 <= x -> del_connect_fd x g = Ret r g' -> single g' (without x cs).
Proof.
  intros I Hx R. destruct (del_connect_start g cs x (proj1 I) (proj1 (proj2 I)) Hx) as (n' & Hn & Ho & E).
  destruct (del_connect_single g cs x I Hx) as (g2 & R2 & I2 & _).
  - intros k c Hk Hc P. destruct (Z.ltb_spec (Z.of_nat k) MAX_TREAD_NUM) as [|B]; [done|]. exfalso.
    rewrite E, Hk, (proj2 (Z.leb_le 0 _)) in R by lia. unfold bind in R.
    now rewrite (clear_slot_faults (closed x n' g) cs k c (proj1 I) Hc P B) in R.
  - rewrite R in R2. now injection R2 as _ <-.
Qed.

Lemma scan_nth {A} (P : A -> bool) l k : scan P l 0 = k -> 0 <= k ->
  exists n a, k = Z.of_nat n /\ l !! n = Some a /\ P a = true.
Proof.
  intros H Hk. destruct (scan_eq P l 0 k ltac:(lia) H Hk) as (a & Ha & Pa & _). exists (Z.to_nat k), a.
  rewrite Z.sub_0_r in Ha. unfold znth in Ha. rewrite (proj2 (Z.ltb_ge k 0)) in Ha by lia.
  split; [lia|]. done.
Qed.

(** What a step does to the list. *)
Definition refined (cs : list connect_handle_t) (p : main_at) (g' : comm) : Prop :=
  exists cs', stands_for p g' cs' /\ rtc conn_step cs cs'.

Lemma refined_step p g' cs cs' : stands_for p g' cs' -> conn_step cs cs' -> refined cs p g'.
Proof. intros I H. exists cs'. split; [exact I|now apply rtc_once]. Qed.

Lemma refined_same p g' cs : stands_for p g' cs -> refined cs p g'.
Proof. intros I. now exists cs. Qed.

Lemma find_refines g cs r g' :
  single g cs -> accepts_fresh (g_net g) -> accept_find g = Ret r g' -> refined cs (after_find r) g'.
Proof.
  intros I Hfr R. pose proof I as ((S & O & _) & _). pose proof (occupied_length _ 0 cs O) as L.
  destruct (accept_cases (n_accept (g_net g))) as [H|(bad & x & e & rest & Ea & Hb & Hx)].
  - exfalso. unfold accept_find in R. apply bind_Ret_inv in R as ([z1 z2] & g2 & R2 & _).
    unfold in_net, within in R2. destruct (AcceptSocket (g_net g)) eqn:Ac; try discriminate. now apply accept_waits in Ac.
  - destruct (Hfr bad x e rest Ea Hb Hx) as [Hx2 Hn]. rewrite (accept_find_eq g cs bad x e rest I Ea Hb Hx) in R.
    destruct (admitted_single g cs x e rest I Hn) as (I' & Ho & Hne). apply refined_same.
    destruct (Z.ltb_spec (Z.of_nat (length cs)) MAX_FD_NUM) as [Hl|_].
    + injection R as <- <-. cbn [after_find stands_for]. repeat (split; [done|]). done.
    + destruct (CloseSocket_any (g_net (admitted g x e rest)) x) as (rc & n3 & Rc & _ & Hs & _).
      erewrite in_net_step in R by exact Rc. injection R as <- <-. cbn [after_find stands_for].
      apply (single_step (admitted g x e rest) _ cs cs); try done; [exact (proj1 I')|].
      pose proof (conj Hne (single_opened _ cs I')) as F. rewrite <- Forall_and in F.
      eapply Forall_impl; [exact F|]. intros c [Nc Hc]. unfold opened. cbn [g_net set_g_net]. now rewrite Hs.
Qed.

Lemma store_refines g cs x idx pos r g' :
  stands_for (Storing x idx pos) g cs -> accept_store x idx pos g = Ret r g' -> refined cs AtLoop g'.
Proof.
  intros (I & -> & -> & Hl & Hx & Ho & Hn) R. pose proof I as (_ & _ & _ & _ & _ & Ls & _).
  apply (refined_step AtLoop g' cs (cs ++ [accepted g x])); [now apply accept_store_single with (r := r)|].
  constructor; [done|]. apply Forall_and. split; [exact Hn|exact Ls].
Qed.

Lemma look_refines g cs now i found g' :
  stands_for (Looking now i) g cs -> i < g_num g -> expire_look now i 0 g = Ret found g' ->
  refined cs (after_look now i found) g'.
Proof.
  intros (I & Hi) Hn R. pose proof I as (T & C). rewrite (proj1 C) in Hn. assert (i = 0) as -> by lia.
  pose proof (expire_look_eq g now cs T) as E. destruct cs as [|c cs].
  - rewrite R in E. injection E as -> ->. apply refined_same. split; [exact I|lia].
  - destruct (expired _ now c).
    + destruct E as (n' & E & _ & Ho). rewrite R in E. injection E as -> ->.
      apply (refined_step _ _ (c :: cs) cs); [|constructor]. split; [done|]. split; [now exists c|].
      now apply (conns_ok_tail g _ c).
    + rewrite R in E. injection E as -> ->. apply refined_same. split; [exact I|lia].
Qed.

Lemma clear_refines g cs now i g' :
  stands_for (Clearing now i) g cs -> in_tab (CommClearFd i 0) g = Ret tt g' -> refined cs (Looking now i) g'.
Proof.
  intros (-> & (c & T) & C) R. destruct (first_removed (g_tab g) c cs T) as (m' & E & T').
  unfold in_tab, within in R. rewrite E in R. injection R as <-. apply refined_same.
  split; [|lia]. split; [exact T'|exact C].
Qed.

Lemma close_refines g cs x g' :
  single g cs -> 0 <= x -> (del_connect_fd x ;;; ret tt) g = Ret tt g' -> refined cs AtLoop g'.
Proof.
  intros I Hx (r & g1 & R1 & [= <-])%bind_Ret_inv.
  apply (refined_step AtLoop _ _ (without x cs)); [exact (del_connect_returns g cs x r g1 I Hx R1)|constructor].
Qed.

Lemma data_refines g cs x g' :
  single g cs -> 0 <= x -> x <> g_listen g -> on_event (x, true) g = Ret tt g' -> refined cs AtLoop g'.
Proof.
  intros I Hx Ex R. pose proof I as (T & N1 & _). pose proof T as (S & O & _ & N). assert (R0 := R).
  unfold on_event in R. erewrite bind_Ret in R by reflexivity. cbn [id] in R. rewrite N1 in R.
  erewrite in_tab_read in R by apply crem_1. rewrite (proj2 (Z.eqb_neq x (g_listen g)) Ex) in R.
  erewrite in_tab_read in R by exact (find_fd (g_tab g) S 0 ltac:(done) cs O x Hx).
  destruct (Z.ltb_spec (scan (fun c => fd c =? x) cs 0) 0) as [B|B]; [now apply (close_refines g cs x g')|].
  destruct (scan_nth _ cs _ eq_refl B) as (k & c & Hk & Hc & _).
  assert (Hn : wd (g_tab g) (NUM 0) < INT_MAX).
  { destruct (Z.ltb_spec (wd (g_tab g) (NUM 0)) INT_MAX) as [|B']; [done|]. exfalso.
    destruct (single_status _ cs k c FD_STAT_POLL T Hc ltac:(done)) as (m1 & E1 & _ & W1 & M1).
    rewrite Hk in R. erewrite in_tab_write in R by exact E1.
    erewrite in_tab_read in R by (cbn [g_tab set_g_tab]; exact (GetCommClientNum_eq m1 0 (proj1 W1) ltac:(done))).
    rewrite M1, i32_id in R by lia. rewrite (proj2 (Z.eqb_eq _ INT_MAX)) in R by (unfold INT_MAX in *; lia). discriminate. }
  destruct (event_in_single g cs x k c I Hx Ex Hk Hc Hn) as (m' & E1 & I1 & _).
  rewrite R0 in E1. injection E1 as ->. apply (refined_step AtLoop _ _ _ I1). now constructor.
Qed.

Lemma event_refines g cs e g' :
  single g cs -> 0 <= fst e -> fst e <> g_listen g -> on_event e g = Ret tt g' -> refined cs AtLoop g'.
Proof.
  intros I Hx Ex R. destruct e as [x b]. cbn [fst] in Hx, Ex. pose proof I as (_ & N1 & _).
  destruct b; [now apply (data_refines g cs x)|]. unfold on_event in R. erewrite bind_Ret in R by reflexivity.
  cbn [id] in R. rewrite N1 in R. erewrite in_tab_read in R by apply crem_1.
  rewrite (proj2 (Z.eqb_neq x _) Ex) in R. now apply (close_refines g cs x g').
Qed.

Lemma take_refines g cs r g' : single g cs -> read_take 0 g = Ret r g' -> refined cs AtLoop g'.
Proof.
  intros I R. destruct (Z.ltb_spec (scan poll cs 0) 0) as [B|B].
  - pose proof (read_take_idle g cs I ltac:(destruct (scan_range poll cs 0); lia)) as H.
    destruct (_ =? 0); [congruence|]. destruct H as (m' & E & I' & _). rewrite R in E. injection E as _ ->. now exists cs.
  - destruct (scan_nth poll cs _ eq_refl B) as (k & c & Hk & Hc & Pc).
    destruct (read_take_single g cs k c I Hk Hc Pc) as (m' & E & I' & _). rewrite R in E. injection E as _ ->.
    apply (refined_step AtLoop _ _ _ I'). now constructor.
Qed.

Lemma mark_refines g cs h r g' :
  single g cs -> Z.of_nat (length cs) < MAX_FD_NUM -> write_mark h g = Ret r g' -> refined cs AtLoop g'.
Proof.
  intros I L R. destruct (Z.ltb_spec (scan (fun c => ssn c =? h_conn_ssn h) cs 0) 0) as [B|B].
  - assert (E : scan (fun c => ssn c =? h_conn_ssn h) cs 0 = -1)
      by (destruct (scan_range (fun c => ssn c =? h_conn_ssn h) cs 0); lia).
    rewrite (write_mark_gone g cs h I E L) in R. injection R as _ <-. now exists cs.
  - destruct (scan_nth _ cs _ eq_refl B) as (k & c & Hk & Hc & _).
    destruct (write_mark_single g cs h k c I Hk Hc) as (m' & E & I' & _). rewrite R in E. injection E as _ ->.
    apply (refined_step AtLoop _ _ _ I'). now constructor.
Qed.

Lemma not_full g cs :
  single g cs -> fd (conn_at (g_tab g) 0 (MAX_FD_NUM - 1)) = -1 -> Z.of_nat (length cs) < MAX_FD_NUM.
Proof.
  intros ((S & O & _) & _) F. pose proof (occupied_length _ 0 cs O) as L.
  destruct (Z.eq_dec (Z.of_nat (length cs)) MAX_FD_NUM) as [E|]; [|lia]. exfalso.
  destruct (lookup_lt_is_Some_2 cs 999) as [c Hc]; [unfold MAX_FD_NUM in E; lia|].
  pose proof (conn_at_occupied _ 0 cs O 999 c Hc) as [Ec _].
  pose proof (proj1 (Forall_lookup _ _) (proj1 O) _ _ Hc) as U. unfold used_conn in U.
  change (Z.of_nat 999) with (MAX_FD_NUM - 1) in Ec. rewrite Ec in F. lia.
Qed.

(** *** Rounds of the threads *)

Lemma Elsewhere_world g w : thread_step g (set_g_world w g).
Proof.
  right. replace (set_g_world w g) with (set_g_events (g_events g) (set_g_net (g_net g) (set_g_world w g))) by reflexivity.
  now constructor.
Qed.

Lemma Elsewhere_net g n : (forall y, opened (g_net g) y -> opened n y) -> thread_step g (set_g_net n g).
Proof.
  intros H. right.
  replace (set_g_net n g) with (set_g_events (g_events g) (set_g_net n (set_g_world (g_world g) g))) by reflexivity.
  now constructor.
Qed.

Lemma main_exit_never {A} sig g (a : A) g' : main_exit sig g <> Ret a g'.
Proof.
  intros H. unfold main_exit in H. repeat (apply bind_Ret_inv in H as (? & ? & _ & H)). discriminate.
Qed.

Lemma in_world_step {A} (m : prog world A) g a g' : in_world m g = Ret a g' -> thread_step g g' /\ g_tab g' = g_tab g.
Proof.
  unfold in_world, within. destruct (m (g_world g)); try discriminate.
  - intros [= _ <-]. split; [apply Elsewhere_world|done].
  - intros H. now apply main_exit_never in H.
Qed.

Lemma in_net_keeps {A} (m : prog net A) g a g' :
  (forall D : Z -> Prop, keeps (fun n => forall y, D y -> opened n y) m) -> in_net m g = Ret a g' ->
  thread_step g g' /\ g_tab g' = g_tab g.
Proof.
  intros K H. specialize (K (opened (g_net g)) (g_net g) (fun _ Hy => Hy)). unfold in_net, within in H.
  destruct (m (g_net g)); try discriminate. injection H as _ <-. split; [now apply Elsewhere_net|done].
Qed.

Lemma deref_Ret {S A} (o : option A) (s : S) a s' : deref o s = Ret a s' -> s' = s.
Proof. unfold deref. destruct o; [now intros [= _ <-]|discriminate]. Qed.

Lemma read_forward_steps p x c g r g' : 0 <= x -> read_forward p x c g = Ret r g' -> rtc thread_step g g'.
Proof.
  intros Hx H. unfold read_forward in H.
  apply bind_Ret_inv in H as ([[iRet b] l] & g1 & R1 & H).
  eapply rtc_l; [exact (proj1 (in_net_keeps _ _ _ _ (fun D => keeps_RcvTxnMsg D _ _ _ _) R1))|].
  destruct (negb (iRet =? 0)).
  { apply bind_Ret_inv in H as (r2 & g2 & R2 & [= _ <-]). apply rtc_once. left. now apply (ReaderClose g1 x r2). }
  apply bind_Ret_inv in H as (b1 & g2 & ->%deref_Ret & H). apply bind_Ret_inv in H as (b2 & g3 & ->%deref_Ret & H).
  cbn zeta in H. apply bind_Ret_inv in H as (b3 & g4 & ->%deref_Ret & H).
  apply bind_Ret_inv in H as (rc & g5 & R5 & H). eapply rtc_l; [exact (proj1 (in_world_step _ _ _ _ R5))|].
  destruct (negb (rc =? 0)); [|now injection H as _ <-].
  apply bind_Ret_inv in H as (e & g6 & R6 & H). eapply rtc_l; [exact (proj1 (in_world_step _ _ _ _ R6))|].
  apply bind_Ret_inv in H as (r7 & g7 & R7 & [= _ <-]). unfold response_err_req in R7.
  apply bind_Ret_inv in R7 as (? & ? & ->%deref_Ret & R7). apply bind_Ret_inv in R7 as (? & ? & ->%deref_Ret & R7).
  apply bind_Ret_inv in R7 as (r8 & g8 & R8 & R7). replace g7 with g8 by (destruct (r8 <? 0); now injection R7).
  apply rtc_once. exact (proj1 (in_net_keeps _ _ _ _ (fun D => keeps_WriteSocket D _ _ _) R8)).
Qed.

Lemma read_round_steps p g cs g' : single g cs -> read_round p 0 g = Ret tt g' -> rtc thread_step g g'.
Proof.
  intros I H. unfold read_round in H. apply bind_Ret_inv in H as (r & g1 & R1 & H).
  eapply rtc_l; [exact (or_introl (ReaderTake _ _ _ R1))|]. destruct r as [[x c]|]; [|now injection H as <-].
  apply (read_forward_steps p x c g1 tt); [|exact H].
  destruct (Z.ltb_spec (scan poll cs 0) 0) as [B|B].
  - pose proof (read_take_idle g cs I ltac:(destruct (scan_range poll cs 0); lia)) as X.
    destruct (_ =? 0); [congruence|]. destruct X as (? & X & _). congruence.
  - destruct (scan_nth poll cs _ eq_refl B) as (k & d & Hk & Hd & Pd).
    destruct (read_take_single g cs k d I Hk Hd Pd) as (m' & X & _). rewrite R1 in X. injection X as -> _ _.
    exact (proj1 (Forall_lookup _ _) (proj1 (proj1 (proj2 (proj1 I)))) _ _ Hd).
Qed.

Lemma write_step_steps p q g b g' :
  fd (conn_at (g_tab g) 0 (MAX_FD_NUM - 1)) = -1 -> write_step p q g = Ret b g' -> rtc thread_step g g'.
Proof.
  intros F H. unfold write_step in H. apply bind_Ret_inv in H as (rc & g1 & R1%in_world_step & H).
  apply bind_Ret_inv in H as (e & g2 & R2%in_world_step & H).
  eapply rtc_l; [exact (proj1 R1)|]. eapply rtc_l; [exact (proj1 R2)|].
  destruct (negb (rc =? 0) && (e =? SYS_SYSTEM)); [now injection H as _ <-|].
  destruct (negb (rc =? 0) && (e =? ENOMSG)); [now injection H as _ <-|].
  apply bind_Ret_inv in H as (src & g3 & R3%in_world_step & H).
  apply bind_Ret_inv in H as (len & g4 & R4%in_world_step & H).
  eapply rtc_l; [exact (proj1 R3)|]. eapply rtc_l; [exact (proj1 R4)|].
  apply bind_Ret_inv in H as (hd & g5 & ->%deref_Ret & H). apply bind_Ret_inv in H as ([s l] & g6 & ->%deref_Ret & H).
  apply bind_Ret_inv in H as (pos & g7 & R7 & H). eapply rtc_l.
  { left. apply (WriterMark g4 (dec_head hd) pos g7); [|exact R7].
    now rewrite (proj2 R4), (proj2 R3), (proj2 R2), (proj2 R1). }
  destruct (pos <? 0); [now injection H as _ <-|]. apply bind_Ret_inv in H as (r8 & g8 & R8 & [= _ <-]).
  apply rtc_once. exact (proj1 (in_net_keeps _ _ _ _ (fun D => keeps_WriteSocket D _ _ _) R8)).
Qed.

(** The pieces that do not use the table keep the list, wherever the main thread is. *)
Lemma free_holds p g g' cs : stands_for p g cs -> free_step g g' -> stands_for p g' cs.
Proof.
  intros H F. destruct F as [w n evs Ho].
  assert (C : forall cs, conns_ok g cs -> conns_ok (set_g_events evs (set_g_net n (set_g_world w g))) cs).
  { intros ds (N1 & D & Op & R). split; [exact N1|]. split; [exact D|]. split; [|exact R].
    eapply Forall_impl; [exact Op|]. intros c. apply Ho. }
  assert (S : forall cs, single g cs -> single (set_g_events evs (set_g_net n (set_g_world w g))) cs).
  { intros ds (T & R). split; [exact T|now apply C]. }
  destruct p; cbn [stands_for] in *.
  - now apply S.
  - destruct H as (I & Hi & Hp & Hl & Hx & Hop & Hn). split; [now apply S|]. repeat (split; [done|]).
    split; [now apply Ho|exact Hn].
  - split; [now apply S|apply H].
  - destruct H as (Hi & T & R). split; [exact Hi|]. split; [exact T|now apply C].
Qed.

Lemma locked_refines g g' cs : single g cs -> locked_step g g' -> refined cs AtLoop g'.
Proof.
  intros I H. destruct H as [r g' H|x r g' Hx H|h r g' F H].
  - now apply (take_refines g cs r).
  - apply (refined_step AtLoop _ _ (without x cs)); [now apply (del_connect_returns g cs x r)|constructor].
  - apply (mark_refines g cs h r); try done. now apply (not_full g).
Qed.

Lemma step_refined p g p' g' cs : stands_for p g cs -> gateway_step false (p, g) (p', g') -> refined cs p' g'.
Proof.
  intros I H. inversion H as [e ? ? H1 H2 H3|r ? ? H1 H2|x idx pos r ? ? H1|now ? ? H1|now i found ? ? H1 H2
    |now i ? ? H1|now i ? H1|? ? ? H1 H2|? ? ? H1]; subst.
  - now apply (event_refines g cs e).
  - now apply (find_refines g cs r).
  - now apply (store_refines g cs x idx pos r).
  - rewrite get_curr_time_run in H1. injection H1 as _ <-. apply refined_same. split; [exact I|lia].
  - now apply (look_refines g cs now i found).
  - now apply (clear_refines g cs now i).
  - apply refined_same. apply I.
  - destruct H1 as [H1| ->]; [done|]. now apply (locked_refines g).
  - apply refined_same. now apply (free_holds p' g).
Qed.

(** What the main thread does without the lock, run in one piece. *)
Lemma new_accept_steps u g r g' :
  accepts_fresh (g_net g) -> new_accept g = Ret r g' -> rtc (gateway_step u) (AtLoop, g) (AtLoop, g').
Proof.
  intros Hf H. unfold new_accept in H. apply bind_Ret_inv in H as (o & g1 & R1 & H).
  eapply rtc_l; [exact (AcceptFind u o g g1 Hf R1)|]. destruct o as [[[x idx] pos]|].
  - apply rtc_once. exact (AcceptStore u x idx pos r g1 g' H).
  - now injection H as _ <-.
Qed.

Lemma keeps_within {S T A} (I : T -> Prop) (part : T -> S) (put : S -> T -> T) (m : prog S A) :
  (forall s t, I t -> I (put s t)) -> keeps I (within part put m).
Proof. intros H t Ht. unfold within. destruct (m (part t)); cbn; auto. Qed.

Lemma expire_look_num n now i : keeps (fun g => g_num g = n) (expire_look now i 0).
Proof.
  unfold expire_look, in_tab, in_net, epoll_del.
  repeat first [progress keeps_tac | apply keeps_within; easy | apply keeps_modify; easy].
Qed.

Lemma expire_loop_steps u fuel now i g g' :
  i < g_num g -> expire_loop fuel now i 0 g = Ret tt g' ->
  rtc (gateway_step u) (Looking now i, g) (Looking now (i + 1), g') /\ g_num g' = g_num g.
Proof.
  revert g. induction fuel as [|fuel IH]; intros g Hi H; [discriminate|]. cbn [expire_loop] in H.
  change (MAX_FD_NUM <=? 0) with false in H. cbn match in H. apply bind_Ret_inv in H as (found & g1 & R1 & H).
  pose proof (expire_look_num (g_num g) now i g eq_refl) as N1. rewrite R1 in N1. cbn in N1.
  pose proof (CleanLook u now i found g g1 Hi R1) as St. destruct found.
  - apply bind_Ret_inv in H as ([] & g2 & R2 & H).
    assert (N2 : g_num g2 = g_num g).
    { rewrite <- N1. unfold in_tab, within in R2. destruct (CommClearFd i 0 (g_tab g1)); try discriminate.
      now injection R2 as _ <-. }
    destruct (IH g2 ltac:(lia) H) as [St2 N3]. split; [|lia].
    eapply rtc_l; [exact St|]. eapply rtc_l; [exact (CleanClear u now i g1 g2 R2)|exact St2].
  - injection H as <-. split; [|exact N1]. now apply rtc_once.
Qed.

Lemma clean_steps u g g' :
  clean_time_out_connect g = Ret tt g' -> rtc (gateway_step u) (AtLoop, g) (AtLoop, g').
Proof.
  intros H. unfold clean_time_out_connect in H. rewrite get_curr_time_eq in H. erewrite bind_Ret in H by reflexivity.
  set (now := u32 _) in H. eapply rtc_l; [exact (CleanStart u now g g (get_curr_time_run g))|].
  enough (L : forall n i g g', i + Z.of_nat n = Z.max i (g_num g) ->
    for_each (seqZ i (Z.of_nat n)) (fun i => expire_loop (S FUEL) now i 0) g = Ret tt g' ->
    rtc (gateway_step u) (Looking now i, g) (AtLoop, g')).
  { apply (L (Z.to_nat (g_num g)) 0); [lia|]. destruct (Z.leb_spec 0 (g_num g)).
    - now rewrite Z2Nat.id by done.
    - rewrite (seqZ_nil 0 (g_num g)) in H by lia. now rewrite seqZ_nil by lia. }
  clearbody now. clear H g g'. induction n as [|n IH]; intros i g g' Hn H.
  - rewrite seqZ_nil in H by lia. injection H as <-. apply rtc_once, CleanEnd. lia.
  - rewrite seqZ_cons in H by lia. cbn [for_each] in H. apply bind_Ret_inv in H as ([] & g1 & R1 & H).
    destruct (expire_loop_steps u _ now i g g1 ltac:(lia) R1) as [St N]. etransitivity; [exact St|].
    apply IH; [lia|]. replace (Z.of_nat n) with (Z.pred (Z.of_nat (S n))) by lia.
    now replace (i + 1) with (Z.succ i) by lia.
Qed.

Lemma steps_refined x y : rtc (gateway_step false) x y -> forall cs, stands_for (fst x) (snd x) cs ->
  exists cs', stands_for (fst y) (snd y) cs' /\ rtc conn_step cs cs'.
Proof.
  induction 1 as [x|[p g] [p1 g1] y St _ IH]; intros cs I; [now exists cs|].
  destruct (step_refined p g p1 g1 cs I St) as (cs1 & I1 & R1). destruct (IH cs1 I1) as (cs2 & I2 & R2).
  exists cs2. split; [exact I2|]. transitivity cs1; assumption.
Qed.

Lemma scan_unique (f : connect_handle_t -> Z) cs (k : nat) c :
  NoDup (map f cs) -> cs !! k = Some c -> scan (fun b => f b =? f c) cs 0 = Z.of_nat k.
Proof.
  intros D H. apply list_elem_of_split_length in H as (l1 & l2 & -> & ->).
  rewrite map_app in D. apply NoDup_app in D as (_ & D & _).
  rewrite scan_app; [lia| |apply Z.eqb_refl]. apply Forall_forall. intros b Hb. apply Z.eqb_neq. intros E.
  apply (D (f b)); [|rewrite E; now left]. apply list_elem_of_In, in_map, list_elem_of_In. exact Hb.
Qed.

(** ** Properties *)

(** C9: with one reading thread, and as long as no other thread takes the lock while the
    main thread is inside [new_accept] or [clean_time_out_connect], which change the table
    without it, the server implements the list of connections: in any interleaving of the
    pieces of the main, reading and writing threads that respects this, the table stands
    for a list of distinct sockets with distinct numbers, all open, and every piece makes
    steps of that list (a connection appended, marked, closed or timed out).  Between the
    closing of an expired connection's socket and the clearing of its slot the table holds
    that connection and then the list.  The rounds of the reading and the writing thread and
    the two unlocked functions are made of such pieces.  [accept] is taken to give
    descriptors that are not in use, and the entry to have a free slot when the writing
    thread looks up a reply.  Where another thread takes the lock inside the two functions
    this is false ([accept_race], [timeout_race]). *)
Theorem gateway_refines g cs :
  single g cs ->
  (forall p g', rtc (gateway_step false) (AtLoop, g) (p, g') ->
     exists cs', stands_for p g' cs' /\ rtc conn_step cs cs')
  /\ (forall p g', read_round p 0 g = Ret tt g' -> rtc thread_step g g')
  /\ (fd (conn_at (g_tab g) 0 (MAX_FD_NUM - 1)) = -1 ->
       forall p q b g', write_step p q g = Ret b g' -> rtc thread_step g g')
  /\ (forall r g', accepts_fresh (g_net g) -> new_accept g = Ret r g' ->
       rtc (gateway_step false) (AtLoop, g) (AtLoop, g'))
  /\ (forall g', clean_time_out_connect g = Ret tt g' -> rtc (gateway_step false) (AtLoop, g) (AtLoop, g')).
Proof.
  intros I. split; [|split; [|split; [|split]]].
  - intros p g' H. exact (steps_refined _ _ H cs I).
  - intros p g' H. now apply (read_round_steps p g cs).
  - intros F p q b g' H. now apply (write_step_steps p q g b).
  - intros r g'. apply new_accept_steps.
  - intros g'. apply clean_steps.
Qed.

(** C34: a request can be lost although its bytes have arrived: when a client sends it while
    the reply to its previous one is on the way, the writing thread replaces the mark of
    the main thread.  The reading thread then finds nothing and waits, and since the
    events are edge-triggered the main thread is not told again. *)
Theorem lost_request g cs k c h :
  single g cs -> cs !! k = Some c -> fd c <> g_listen g -> h_conn_ssn h = ssn c ->
  count poll cs = 0%nat -> wd (g_tab g) (NUM 0) < INT_MAX ->
  exists g1 g2 g3, on_event (fd c, true) g = Ret tt g1 /\ write_mark h g1 = Ret (Z.of_nat k) g2
    /\ read_take 0 g2 = Ret None g3 /\ read_take 0 g3 = Block g3 /\ g_net g3 = g_net g.
Proof.
  intros I Hc Hl Hh C0 Hn. pose proof (proj1 (Forall_lookup _ _) (proj1 (proj1 (proj2 (proj1 I)))) _ _ Hc) as U.
  pose proof I as ((_ & _ & _ & N) & _ & D & _ & Ds & _).
  destruct (event_in_single g cs (fd c) k c I U Hl (scan_unique fd cs k c D Hc) Hc Hn) as (m1 & E1 & I1 & W1).
  pose proof (count_mark cs k c FD_STAT_POLL Hc) as C1. set (c1 := with_status FD_STAT_POLL c) in *. set (cs1 := <[k := c1]> cs) in *.
  assert (Hc1 : cs1 !! k = Some c1) by (apply list_lookup_insert_eq; now apply lookup_lt_Some in Hc).
  pose proof I1 as (_ & _ & _ & _ & Ds1 & _).
  pose proof (scan_unique ssn cs1 k c1 Ds1 Hc1) as Hk. change (ssn c1) with (ssn c) in Hk. rewrite <- Hh in Hk.
  destruct (write_mark_single _ cs1 h k c1 I1 Hk Hc1) as (m2 & E2 & I2 & W2).
  pose proof (count_mark cs1 k c1 FD_STAT_WRITE Hc1) as C2. set (cs2 := <[k := _]> cs1) in *.
  assert (Z2 : count poll cs2 = 0%nat).
  { change (poll c1) with true in C2. change (Nat.b2n (FD_STAT_WRITE =? _)) with 0%nat in C2.
    change (Nat.b2n (FD_STAT_POLL =? _)) with 1%nat in C1. cbn [Nat.b2n] in C2. lia. }
  apply count_0, scan_none with (i := 0) in Z2.
  pose proof (read_take_idle _ cs2 I2 Z2) as R2. cbn [g_tab set_g_tab] in R2, W1, W2.
  rewrite W2, W1, (proj2 (Z.eqb_neq _ 0)) in R2 by lia. destruct R2 as (m3 & E3 & I3 & W3).
  pose proof (read_take_idle _ cs2 I3 Z2) as R3. cbn [g_tab set_g_tab] in R3. rewrite W3 in R3.
  eexists _, _, _. refine (conj E1 (conj E2 (conj E3 (conj R3 _)))). reflexivity.
Qed.

(** ** What the missing lock allows *)

(** The connections that [del_connect_fd] leaves, when the first one's socket is given. *)
Lemma del_first g c cs :
  single_tab (g_tab g) (c :: cs) -> g_num g = 1 ->
  exists n' m', del_connect_fd (fd c) g = Ret 0 (set_g_tab m' (closed (fd c) n' g)) /\ single_tab m' cs
    /\ wd m' (NUM 0) <= wd (g_tab g) (NUM 0) /\ (forall y, y <> fd c -> n_socks n' !! y = n_socks (g_net g) !! y).
Proof.
  intros T N1. pose proof (proj1 (proj1 (proj2 T))) as U. apply Forall_cons in U as [U _].
  destruct (del_connect_start g (c :: cs) (fd c) T N1 U) as (n' & _ & Ho & ->).
  cbn [scan]. rewrite Z.eqb_refl. change (0 <=? 0) with true. cbn match.
  destruct (clear_slot_single (closed (fd c) n' g) (c :: cs) 0 c T eq_refl ltac:(done)) as (m' & R & T' & W).
  exists n', m'. change (Z.of_nat 0) with 0 in R. rewrite (bind_Ret _ _ _ _ _ R). split; [reflexivity|]. done.
Qed.

(** A search of the first slots, when the first is free and the second is not. *)
Lemma hole_found m x :
  sized m -> 0 <= x -> fd (conn_at m 0 0) = -1 -> fd (conn_at m 0 1) = x ->
  get_connect_pos 0 x m = Ret 1 m /\ get_read_fd 0 m = Ret (-1) m /\ (forall cs, ~ occupied m 0 cs).
Proof.
  intros S Hx H0 H1. split; [|split].
  - rewrite (get_connect_pos_eq m S 0) by done. rewrite <- conns_all. unfold FUEL.
    change (Z.to_nat MAX_FD_NUM) with (Datatypes.S (Datatypes.S 998)). do 2 rewrite conns_from_S. cbn [scan].
    rewrite H0, (proj2 (Z.eqb_neq (-1) x)) by lia. change (0 + 1) with 1. now rewrite H1, Z.eqb_refl.
  - unfold get_read_fd, FUEL. change (Z.to_nat MAX_FD_NUM) with (Datatypes.S 999). cbn [read_fd_loop].
    rewrite (bind_Ret _ _ _ _ _ (GetCommClientFD_eq m S 0 0 ltac:(done) ltac:(done))). now rewrite H0.
  - intros [|c cs] O.
    + pose proof (free_at_occupied m 0 [] 1%nat O ltac:(cbn; lia) ltac:(done)) as F. change (Z.of_nat 1) with 1 in F. lia.
    + pose proof (conn_at_occupied m 0 (c :: cs) O 0%nat c eq_refl) as [E _]. change (Z.of_nat 0) with 0 in E.
      pose proof (proj1 O) as U. apply Forall_cons in U as [U _]. unfold used_conn in U. rewrite E in H0. lia.
Qed.

(** Counting a connection behind a hole: the reading thread clears the counter and waits. *)
Lemma hole_waits g x :
  sized (g_tab g) -> 0 <= x -> fd (conn_at (g_tab g) 0 0) = -1 -> fd (conn_at (g_tab g) 0 1) = x ->
  0 <= wd (g_tab g) (NUM 0) < INT_MAX ->
  exists m1 m2,
    (let* n := in_tab (GetCommClientNum 0) in
     if n =? INT_MAX then fault else in_tab (SetCommClientNum 0 (n + 1))) g = Ret tt (set_g_tab m1 g)
    /\ read_take 0 (set_g_tab m1 g) = Ret None (set_g_tab m2 g)
    /\ read_take 0 (set_g_tab m2 g) = Block (set_g_tab m2 g).
Proof.
  intros S Hx H0 H1 Hn. set (n := wd (g_tab g) (NUM 0)) in *.
  assert (Up : forall m v, sized m -> 0 <= v < 2 ^ 31 ->
    SetCommClientNum 0 v m = Ret tt (zupd (NUM 0) (fun _ => v) m) /\ sized (zupd (NUM 0) (fun _ => v) m)
    /\ GetCommClientNum 0 (zupd (NUM 0) (fun _ => v) m) = Ret v (zupd (NUM 0) (fun _ => v) m)
    /\ conns (zupd (NUM 0) (fun _ => v) m) 0 = conns m 0).
  { intros m v Sm Hv. assert (Sz : sized (zupd (NUM 0) (fun _ => v) m)) by now apply sized_zupd.
    split; [rewrite (SetCommClientNum_eq m 0 v Sm ltac:(done)); now rewrite u32_id by lia|]. split; [exact Sz|].
    split; [|now apply conns_num]. rewrite (GetCommClientNum_eq _ 0 Sz ltac:(done)).
    rewrite wd_zupd by (try done; now apply NUM_range). rewrite Z.eqb_refl. now rewrite i32_id by lia. }
  destruct (Up (g_tab g) (n + 1) S ltac:(unfold INT_MAX in Hn; lia)) as (E1 & S1 & G1 & C1). set (m1 := zupd _ _ _) in *.
  destruct (Up m1 0 S1 ltac:(lia)) as (E2 & S2 & G2 & _). set (m2 := zupd (NUM 0) (fun _ => 0) m1) in *.
  assert (F : forall j : nat, Z.of_nat j < MAX_FD_NUM -> conn_at m1 0 (Z.of_nat j) = conn_at (g_tab g) 0 (Z.of_nat j)).
  { intros j Hj. pose proof (conns_lookup m1 0 j Hj) as A. rewrite C1, conns_lookup in A by done. congruence. }
  pose proof (F 0%nat ltac:(done)) as F0. pose proof (F 1%nat ltac:(done)) as F1.
  change (Z.of_nat 0) with 0 in F0. change (Z.of_nat 1) with 1 in F1.
  destruct (hole_found m1 x S1 Hx ltac:(now rewrite F0) ltac:(now rewrite F1)) as (_ & P & _).
  exists m1, m2. split; [|split].
  - erewrite in_tab_read by exact (GetCommClientNum_eq (g_tab g) 0 S ltac:(done)).
    fold n. rewrite i32_id by (unfold INT_MAX in Hn; lia). rewrite (proj2 (Z.eqb_neq n _)) by lia.
    unfold in_tab, within. now rewrite E1.
  - unfold read_take. erewrite in_tab_read by exact G1. rewrite (proj2 (Z.eqb_neq (n + 1) 0)) by lia.
    erewrite in_tab_read by exact P. change (-1 =? -1) with true. cbn match. erewrite in_tab_write by exact E2. reflexivity.
  - unfold read_take. now erewrite in_tab_read by exact G2.
Qed.

(** The main thread has found the slot behind the only connection for a new one; the
    reading thread closes that connection before the slot is filled.  The table then has
    a hole in front of the new connection: it stands for no list, and when data arrives
    the connection is marked but the reading thread stops at the hole, clears the counter
    and waits. *)
Theorem accept_race g c bad x e rest :
  single g [c] -> n_accept (g_net g) = bad ++ (x, e) :: rest -> Forall (fun p => fst p < 0) bad ->
  0 <= x -> accepts_fresh (g_net g) -> x <> g_listen g ->
  g_gssn g < INT_MAX -> wd (g_tab g) (NUM 0) < INT_MAX ->
  exists g1 g2 g3 g4 g5,
    accept_find g = Ret (Some (x, 0, 1)) g1 /\ del_connect_fd (fd c) g1 = Ret 0 g2
    /\ accept_store x 0 1 g2 = Ret 0 g3 /\ rtc (gateway_step true) (AtLoop, g) (AtLoop, g3)
    /\ (forall cs, ~ single g3 cs)
    /\ on_event (x, true) g3 = Ret tt g4 /\ read_take 0 g4 = Ret None g5 /\ read_take 0 g5 = Block g5.
Proof.
  intros I Ea Hb Hx Hf Hl Hg Hn. pose proof (Hf bad x e rest Ea Hb Hx) as [Hx2 Hs].
  pose proof I as (T & N1 & _ & _ & _ & _ & G0). set (g1 := admitted g x e rest).
  assert (E1 : accept_find g = Ret (Some (x, 0, 1)) g1) by exact (accept_find_eq g [c] bad x e rest I Ea Hb Hx).
  destruct (del_first g1 c [] T N1) as (n2 & m2 & E2 & T2 & W2 & _). set (g2 := set_g_tab m2 _) in E2.
  pose proof T2 as (S2 & O2 & _ & N2).
  pose proof (accept_store_eq g2 x 1 S2 ltac:(done) ltac:(lia) G0) as E3.
  change (g_gssn g2) with (g_gssn g) in E3. rewrite (proj2 (Z.eqb_neq (g_gssn g) _)) in E3 by lia.
  destruct E3 as (m3 & E3 & W3). set (g3 := stored g2 x m3) in E3. pose proof W3 as (S3 & C3 & _).
  assert (F0 : fd (conn_at m3 0 0) = -1).
  { rewrite (slot_set_other _ _ _ _ _ 0 0 W3) by (try done; lia). exact (free_at_occupied m2 0 [] 0%nat O2 ltac:(cbn; lia) ltac:(done)). }
  destruct (hole_found m3 x S3 Hx F0 ltac:(now rewrite C3)) as (P3 & _ & Z3).
  destruct (SetCommClientStat_eq m3 S3 0 1 FD_STAT_POLL ltac:(done) ltac:(done)) as (m4 & E4 & W4).
  pose proof (slot_set_num _ _ _ _ _ 0 W3 ltac:(done)) as M3. pose proof (slot_set_num _ _ _ _ _ 0 W4 ltac:(done)) as M4.
  change (g_tab g1) with (g_tab g) in W2. change (g_tab g2) with m2 in M3.
  assert (F4 : forall j, 0 <= j < MAX_FD_NUM -> fd (conn_at m4 0 j) = fd (conn_at m3 0 j)).
  { intros j Hj. destruct (Z.eq_dec j 1) as [->|Ne]; [now rewrite (proj1 (proj2 W4))|].
    now rewrite (slot_set_other _ _ _ _ _ 0 j W4) by (try done; now right). }
  assert (Hn4 : 0 <= wd m4 (NUM 0) < INT_MAX) by lia.
  destruct (hole_waits (set_g_tab m4 g3) x (proj1 W4) Hx ltac:(now rewrite F4) ltac:(now rewrite F4, C3) Hn4)
    as (m5 & m6 & E5 & E6 & E7).
  exists g1, g2, g3, (set_g_tab m5 g3), (set_g_tab m6 g3). split; [exact E1|]. split; [exact E2|]. split; [exact E3|].
  split; [|split; [intros cs (TT & _); apply (Z3 cs), TT|split; [|split; [exact E6|exact E7]]]].
  - eapply rtc_l; [exact (AcceptFind true _ g g1 Hf E1)|].
    eapply rtc_l; [apply (OtherLocked true (Storing x 0 1) g1 g2); [now left|]|].
    + apply (ReaderClose g1 (fd c) 0 g2); [|exact E2]. exact (Forall_inv (proj1 (proj1 (proj2 T)))).
    + apply rtc_once. exact (AcceptStore true x 0 1 0 g2 g3 E3).
  - unfold on_event. erewrite bind_Ret by reflexivity. cbn [id]. change (g_num g3) with (g_num g). rewrite N1.
    erewrite in_tab_read by apply crem_1. change (g_listen g3) with (g_listen g). rewrite (proj2 (Z.eqb_neq x _) Hl).
    erewrite in_tab_read by exact P3. change (1 <? 0) with false. cbn match. erewrite in_tab_write by exact E4. exact E5.
Qed.

(** The main thread has closed the socket of the oldest connection, which has expired; the
    reading thread, whose read of that socket fails, removes the connection before the main
    thread clears the slot.  The next connection, which has moved into the slot, is cleared
    instead: its socket stays open and registered, but no part of the server knows it. *)
Theorem timeout_race g c d :
  single g [c; d] -> expired (g_idletime g) (u32 (o_time (w_os (g_world g)))) c = true ->
  let now := u32 (o_time (w_os (g_world g))) in
  exists g1 g2 g3,
    expire_look now 0 0 g = Ret true g1 /\ del_connect_fd (fd c) g1 = Ret 0 g2
    /\ in_tab (CommClearFd 0 0) g2 = Ret tt g3 /\ rtc (gateway_step true) (AtLoop, g) (Looking now 0, g3)
    /\ single g3 [] /\ opened (g_net g3) (fd d) /\ (In (fd d) (g_epoll g) -> In (fd d) (g_epoll g3)).
Proof.
  intros I Hexp now. pose proof I as (T & C). pose proof C as (N1 & D & Op & _ & _ & G0).
  apply Forall_cons in Op as [_ Op]. apply Forall_cons in Op as [[s Hd] _].
  assert (Ne : fd d <> fd c) by (intros E; cbn in D; rewrite E in D; apply NoDup_cons in D as [D _]; apply D; now left).
  pose proof (expire_look_eq g now [c; d] T) as E1. cbn match in E1. change (expired (g_idletime g) now c = true) in Hexp. rewrite Hexp in E1.
  destruct E1 as (n1 & E1 & _ & Ho1). set (g1 := closed (fd c) n1 g) in E1.
  destruct (del_first g1 c [d] T N1) as (n2 & m2 & E2 & T2 & _ & Ho2). set (g2 := set_g_tab m2 _) in E2.
  destruct (first_removed m2 d [] T2) as (m3 & E3 & T3).
  exists g1, g2, (set_g_tab m3 g2). split; [exact E1|]. split; [exact E2|].
  assert (E3' : in_tab (CommClearFd 0 0) g2 = Ret tt (set_g_tab m3 g2)) by (unfold in_tab, within; cbn [g_tab g2 set_g_tab]; now rewrite E3).
  split; [exact E3'|]. split; [|split; [|split]].
  - eapply rtc_l; [exact (CleanStart true now g g (get_curr_time_run g))|].
    eapply rtc_l; [apply (CleanLook true now 0 true g g1); [lia|exact E1]|].
    eapply rtc_l; [apply (OtherLocked true (Clearing now 0) g1 g2); [now left|]|apply rtc_once].
    + apply (ReaderClose g1 (fd c) 0 g2); [|exact E2]. exact (Forall_inv (proj1 (proj1 (proj2 T)))).
    + exact (CleanClear true now 0 g2 _ E3').
  - split; [exact T3|]. split; [exact N1|]. split; [constructor|]. split; [constructor|]. split; [constructor|].
    split; [constructor|exact G0].
  - exists s. cbn [g_net set_g_tab g2 g1 closed set_g_net set_g_epoll] in *. now rewrite Ho2, Ho1.
  - cbn [g_epoll set_g_tab g2 g1 closed set_g_net set_g_epoll]. intros Hin.
    assert (B : negb (fd d =? fd c) = true) by (apply negb_true_iff; now apply Z.eqb_neq).
    apply filter_In. split; [|exact B]. now apply filter_In.
Qed.

(** *** Witnesses *)

Lemma table_of_quiet n cs : (length cs <= FUEL)%nat -> quiet (table_of [(n, cs)]).
Proof.
  intros L k Hk. unfold wd, znth. rewrite (proj2 (Z.ltb_ge k 0)) by addr.
  unfold table_of. cbn [flat_map]. rewrite app_nil_r, lookup_app_r by (rewrite length_entry_words by exact L; addr).
  rewrite length_entry_words by exact L. rewrite lookup_replicate_2; [done|].
  cbn [length]. unfold CLIENT, CONNECT, MAX_FD_NUM, MAX_TREAD_NUM in *. lia.
Qed.

Lemma table_of_single n cs :
  (length cs <= FUEL)%nat -> Forall conn_ok cs -> Forall used_conn cs ->
  Z.of_nat (count poll cs) <= n < 2 ^ 31 -> single_tab (table_of [(n, cs)]) cs.
Proof.
  intros L Ok U N.
  assert (H : Forall (fun e : Z * list connect_handle_t => (length (snd e) <= FUEL)%nat /\ Forall conn_ok (snd e)) [(n, cs)]).
  { apply Forall_cons. split; [exact (conj L Ok)|constructor]. }
  split; [exact (table_of_sized _ H ltac:(done))|].
  split; [exact (table_of_occupied _ H 0 n cs eq_refl U)|]. split; [now apply table_of_quiet|].
  change 0 with (Z.of_nat 0). now rewrite (table_of_counter _ H 0 n cs eq_refl).
Qed.

(** A gateway with three connections, in the environment [w]. *)
Definition client_sock (data : list bytes) : sock := mkSock data false false [] [] [].

Definition demo_sockets (data : list bytes) : net :=
  mkNet (<[4 := client_sock []]> (<[6 := client_sock data]> {[8 := client_sock []]})) 0 [] [] [] [] 0 0 no_alarm.

Definition demo_gateway (w : world) (data : list bytes) (n : Z) : comm :=
  mkComm w (demo_sockets data) (table_of [(n, demo_conns)]) 1 30 9999 3 200 5 [8; 6; 4; 3] [] [ReadTask 0; WriteTask].

Lemma demo_conns_ok n :
  Forall (fun e : Z * list connect_handle_t => (length (snd e) <= FUEL)%nat /\ Forall conn_ok (snd e)) [(n, demo_conns)].
Proof.
  apply Forall_cons; split; [|constructor]. split; [unfold FUEL, MAX_FD_NUM; cbn [length demo_conns snd]; lia|].
  repeat (apply Forall_cons; split); try (apply Forall_nil; exact I); unfold conn_ok; cbn [fd status a_conn]; unfold FD_STAT_REG; lia.
Qed.

Lemma demo_gateway_single w data n : 0 <= n < 2 ^ 31 -> single (demo_gateway w data n) demo_conns.
Proof.
  intros Hn. split; [|split; [done|split; [|split; [|split; [|split; [|done]]]]]].
  - apply table_of_single; try done; [unfold FUEL, MAX_FD_NUM; cbn [length demo_conns]; lia| |];
      repeat (apply Forall_cons; split); try (apply Forall_nil; exact I); unfold conn_ok, used_conn; cbn [fd status a_conn]; unfold FD_STAT_REG; lia.
  - apply (bool_decide_unpack _). reflexivity.
  - repeat (apply Forall_cons; split); try (apply Forall_nil; exact I); unfold opened; cbn; eauto.
  - apply (bool_decide_unpack _). reflexivity.
  - repeat (apply Forall_cons; split); try (apply Forall_nil; exact I); cbn; lia.
Qed.

Lemma demo_gateway_socket w data n : n_socks (g_net (demo_gateway w data n)) !! 6 = Some (client_sock data).
Proof. reflexivity. Qed.

Lemma demo_gateway_counter w data n :
  n < INT_MAX -> wd (g_tab (demo_gateway w data n)) (NUM 0) < INT_MAX.
Proof.
  intros Hn. cbn [g_tab demo_gateway]. change (NUM 0) with (NUM (Z.of_nat 0)).
  rewrite (table_of_counter [(n, demo_conns)] (demo_conns_ok n) 0 n demo_conns eq_refl). exact Hn.
Qed.

(** The connection 6 has data and is marked; then the main thread looks for timeouts. *)
Lemma gateway_refines_witness :
  exists g' cs', on_event (6, true) (demo_gateway (demo_world demo_os0) [] 0) = Ret tt g'
    /\ stands_for (Looking 0 0) g' cs' /\ rtc conn_step demo_conns cs'.
Proof.
  pose proof (demo_gateway_single (demo_world demo_os0) [] 0 ltac:(done)) as I.
  destruct (event_in_single _ demo_conns 6 1 (a_conn 6 1) I ltac:(done) ltac:(done) eq_refl eq_refl
    (demo_gateway_counter _ _ 0 ltac:(done)))
    as (m' & E & _ & _).
  destruct (gateway_refines _ demo_conns I) as (H & _).
  destruct (H (Looking 0 0) (set_g_tab m' (demo_gateway (demo_world demo_os0) [] 0))) as (cs' & I' & R).
  - eapply rtc_l; [|apply rtc_once].
    + apply (MainEvent false (6, true)) with (3 := E); done.
    + apply CleanStart. reflexivity.
  - eexists _, cs'. refine (conj E (conj I' R)).
Defined.

Lemma lost_request_witness :
  exists g1 g2 g3, on_event (6, true) (demo_gateway (demo_world demo_os0) [] 0) = Ret tt g1
    /\ write_mark (mkHead [] 0 1 0 0 0 0 0 0) g1 = Ret 1 g2
    /\ read_take 0 g2 = Ret None g3 /\ read_take 0 g3 = Block g3.
Proof.
  destruct (lost_request (demo_gateway (demo_world demo_os0) [] 0) demo_conns 1 (a_conn 6 1)
    (mkHead [] 0 1 0 0 0 0 0 0) (demo_gateway_single _ _ 0 ltac:(done)) eq_refl ltac:(done) eq_refl eq_refl
    (demo_gateway_counter _ _ 0 ltac:(done))) as (g1 & g2 & g3 & E1 & E2 & E3 & E4 & _).
  exists g1, g2, g3. refine (conj E1 (conj E2 (conj E3 E4))).
Defined.
