(* ===== verification/Exchange.v ===== *)
(** * Requests and replies through the communication server

    What the reading and the writing thread of [Commserver.v] do with the bytes: a frame
    from a client becomes a message for a server, a reply message becomes a frame for the
    client, and the two ends meet in the server's dispatcher ([Tuxcall.v]). *)

From Stdlib Require Import ZArith Lia Bool List Ascii String.
From stdpp Require Import base list gmap.
From S2P Require Import Prelude Cstr Funstr Kernel Funsock Funmsq Funfile Sunda Tuxmem Registry Tuxcall.
From S2P Require Import Clients Commserver Gateway.

(** A request on the wire: a frame with its head and the data. *)
Definition request_body (rq : sunda_req_head_t) (payload : bytes) : bytes := enc_req rq ++ payload.

(** ** A request *)

Section Request.
Context (x : Z) (s : sock) (n : net) (rq : sunda_req_head_t) (payload rest : bytes).
Let len := Z.of_nat (length payload).
Hypotheses (Hs : n_socks n !! x = Some s) (Hps : pieces_ok (s_in s))
  (Hin : List.concat (s_in s) = frame (request_body rq payload) ++ rest)
  (Hrq : wf_req rq) (Hlen : len <= 3919).

Lemma length_request : Z.of_nat (length (request_body rq payload)) = SIZEOF_REQ + len.
Proof. unfold request_body, SIZEOF_REQ, len. rewrite length_app, length_enc_req by apply Hrq. lia. Qed.

(** The bytes received, in the thread's buffer. *)
Definition received : bytes :=
  frame (request_body rq payload) ++ zeros (8097 - (4 + SIZEOF_REQ + len)).

Lemma length_frame b : Z.of_nat (length b) <= 9999 -> Z.of_nat (length (frame b)) = 4 + Z.of_nat (length b).
Proof.
  intros H. destruct (header_chars (Z.of_nat (length b)) ltac:(lia)) as (L & _).
  unfold frame. rewrite length_app. lia.
Qed.

Lemma request_read : exists ps,
  RcvTxnMsg x SOCKET_MSG_HEAD_LEN (zeros 8097) 0 n
  = Ret (0, received, 4 + (SIZEOF_REQ + len)) (left_over x s ps n) /\ List.concat ps = rest.
Proof.
  pose proof length_request as L. unfold SIZEOF_REQ in L.
  destruct (RcvTxnMsg_frame x s n (zeros 8097) 0 (request_body rq payload) rest received Hs Hps Hin)
    as (ps & E & R & _); [unfold len in *; lia| |].
  - rewrite st_zeros_start by (rewrite length_frame; unfold len in *; lia). unfold received. do 3 f_equal.
    rewrite length_frame by (unfold len in *; lia). unfold SIZEOF_REQ. lia.
  - exists ps. split; [|exact R]. rewrite <- length_request. exact E.
Qed.

(** The two copies out of the buffer. *)
Lemma request_head : ld SOCKET_MSG_HEAD_LEN SIZEOF_REQ received = Some (enc_req rq).
Proof.
  unfold received, frame, request_body. rewrite <- !app_assoc. apply ld_app.
  - destruct (header_chars (Z.of_nat (length (enc_req rq ++ payload)))) as (-> & _); [|done].
    pose proof length_request as L. unfold request_body, SIZEOF_REQ in L. unfold len in *. lia.
  - rewrite length_enc_req by apply Hrq. done.
Qed.

(** Too much is copied: the 44 bytes of the two heads are counted again. *)
Lemma request_data :
  ld (SOCKET_MSG_HEAD_LEN + SIZEOF_REQ) (4 + (SIZEOF_REQ + len)) received = Some (payload ++ zeros 44).
Proof.
  pose proof length_request as L. unfold request_body, SIZEOF_REQ in L. unfold received, frame, request_body.
  assert (Z0 : 0 <= len) by (unfold len; lia).
  replace (zeros (8097 - (4 + SIZEOF_REQ + len))) with (zeros 44 ++ zeros (8009 - len)).
  2:{ unfold zeros, SIZEOF_REQ. rewrite <- replicate_add. f_equal. lia. }
  rewrite <- !app_assoc, (app_assoc (fmt_0d 4 _)), (app_assoc payload). apply ld_app.
  - rewrite length_app, length_enc_req by apply Hrq.
    destruct (header_chars (Z.of_nat (length (enc_req rq ++ payload)))) as (-> & _); [unfold len in *; lia|done].
  - rewrite length_app. unfold SIZEOF_REQ, len. unfold zeros. rewrite length_replicate. lia.
Qed.

(** The data alone. *)
Lemma request_payload : ld (SOCKET_MSG_HEAD_LEN + SIZEOF_REQ) len received = Some payload.
Proof.
  pose proof request_data as D. unfold ld in *. destruct (_ && _) eqn:E in D; [|done].
  rewrite !andb_true_iff, !Z.leb_le in E.
  rewrite (proj2 (Z.leb_le 0 _)), (proj2 (Z.leb_le 0 len)), (proj2 (Z.leb_le _ (Z.of_nat _))) by (unfold SIZEOF_REQ, len in *; lia).
  injection D as D. f_equal. apply (f_equal (take (length payload))) in D. rewrite take_take, take_app_length in D.
  unfold len. rewrite Nat2Z.id. unfold SIZEOF_REQ, len in *.
  now replace (length payload `min` Z.to_nat _)%nat with (length payload) in D by lia.
Qed.
End Request.

Lemma length_name rq nb : wf_req rq -> AllTrim (r_name rq ++ [NUL]) = Some nb -> (length (cstr nb) <= 32)%nat.
Proof.
  intros Hrq Hnm. destruct (AllTrim_spec (r_name rq ++ [NUL]) (terminated_app _ [])) as (b & E & _ & L & Tb).
  rewrite Hnm in E. injection E as <-. rewrite length_app, (proj1 Hrq) in L.
  pose proof (terminated_cstr_lt nb Tb) as H. cbn [length] in L. lia.
Qed.

Lemma length_named_head nm ssn cs ty fd ut fl nt len : (length nm <= 32)%nat ->
  length (enc_head (mkHead (buf_of 33 nm) ssn cs ty fd ut fl nt len)) = 96%nat.
Proof. intros H. apply length_enc_head. cbn [h_name]. unfold buf_of. rewrite length_app, length_zeros_nat. lia. Qed.

(** ** Forwarding it *)

(** A message with the head [h] for a server, built in the buffer at [p] and sent. *)
Section Forward.
Context (hdl : Z -> prog world unit) (w : world) (p : Z) (nm : bytes) (h : IPCMsgHead) (payload : bytes).
Context (t : server_tab_t) (svrno : Z) (q : kqueue) (buf : bytes).
Let len := Z.of_nat (length payload).
Let m := mkMsg (msg_type t) (le64 0 ++ enc_head h ++ payload ++ zeros 44).
Hypotheses (Lh : length (enc_head h) = 96%nat) (Hlen : len <= 3919)
  (Ha : attached w = true) (K : tables_ok w) (Hc : o_caught (w_os w) = [])
  (Hsv : scan (fun t => same_name nm (svc_name t)) (tSvrTab w) 0 = svrno) (Hpos : 0 <= svrno)
  (Ht : znth (tSvrTab w) svrno = Some t) (Hdown : down t = false) (Hty : 1 <= msg_type t)
  (Hmax : SIZEOF_HEAD + 4 + SIZEOF_REQ + len <= max_msg_len (w_ctrl w))
  (Hq : queue (req_que_id (w_ctrl w)) (w_os w) = Some q) (Hcnt : Z.of_nat (length (q_msgs q)) <= MSQ_MAX_NUM)
  (Hfits : fits m q = true)
  (Hp0 : p mod STRIDE = 0) (Hp : p <> NULL) (Hbuf : w_heap w !! p = Some buf) (Lbuf : Z.of_nat (length buf) = SIZEOF_BUF).

Lemma request_sent : exists buf',
  (store p (enc_head h) ;;; store (p + SIZEOF_HEAD) (payload ++ zeros 44) ;;;
   tux_acall hdl (Some nm) p (4 + (SIZEOF_REQ + len) + SIZEOF_HEAD) 0) w
  = Ret 0 (set_w_os (set_queue (req_que_id (w_ctrl w)) (enqueue m q) (w_os w))
      (set_w_heap (<[p := buf']> (w_heap w)) w)).
Proof.
  set (data := enc_head h ++ payload ++ zeros 44).
  assert (Ld : Z.of_nat (length data) = 4 + (SIZEOF_REQ + len) + SIZEOF_HEAD).
  { unfold data. rewrite !length_app, Lh. unfold SIZEOF_REQ, SIZEOF_HEAD, len, zeros. rewrite length_replicate. lia. }
  assert (Z0 : 0 <= len) by (unfold len; lia).
  destruct (st_Some 0 (enc_head h) buf) as [b1 S1]; [lia|rewrite Lh; unfold SIZEOF_BUF in Lbuf; lia|].
  destruct (st_Some 0 data buf) as [b2 S2]; [lia|unfold SIZEOF_REQ, SIZEOF_HEAD, SIZEOF_BUF in *; lia|].
  pose proof (st_append 0 _ (payload ++ zeros 44) buf b1 S1) as SA. fold data in SA. rewrite S2, Lh in SA.
  exists b2. set (w1 := set_w_heap (<[p := b1]> (w_heap w)) w). set (w2 := set_w_heap (<[p := b2]> (w_heap w)) w).
  rewrite (bind_Ret _ _ w tt w1).
  2:{ rewrite <- (Z.add_0_r p) at 1. now apply (store_at p 0 w buf (enc_head h)). }
  rewrite (bind_Ret _ _ w1 tt w2).
  2:{ rewrite (store_at p SIZEOF_HEAD w1 b1 _ b2) by (try done; apply lookup_insert_eq).
      unfold w1, w2. f_equal. cbn [w_heap set_w_heap]. rewrite insert_insert_eq. reflexivity. }
  apply (acall_sends hdl w2 nm p _ svrno t data q 0); try done.
  - eapply tables_ok_keep; [..|exact K]; reflexivity.
  - unfold SIZEOF_REQ, SIZEOF_HEAD, BUS_MAX_MSG_LEN. lia.
  - unfold SIZEOF_HEAD, SIZEOF_REQ in *. change (w_ctrl w2) with (w_ctrl w). lia.
  - rewrite <- (Z.add_0_r p). apply (load_at p 0 _ w2 b2); [done|done|apply lookup_insert_eq|].
    rewrite <- Ld. exact (ld_st_eq 0 data buf b2 S2).
Qed.
End Forward.

Lemma in_world_Ret {A B} (m : prog world A) (k : A -> prog comm B) g a w :
  m (g_world g) = Ret a w -> bind (in_world m) k g = k a (set_g_world w g).
Proof. intros H. unfold bind, in_world, within. now rewrite H. Qed.

(** The whole of [read_forward]. *)
Lemma read_forward_sends g p x c s rq payload rest nb t svrno q buf :
  let w := g_world g in
  let nm := cstr nb in
  let len := Z.of_nat (length payload) in
  let m := mkMsg (msg_type t) (le64 0 ++ enc_head (forward_head nm x (r_ssn rq) len c) ++ payload ++ zeros 44) in
  n_socks (g_net g) !! x = Some s -> pieces_ok (s_in s) ->
  List.concat (s_in s) = frame (request_body rq payload) ++ rest -> wf_req rq ->
  AllTrim (r_name rq ++ [NUL]) = Some nb -> len <= 3919 ->
  attached w = true -> tables_ok w -> o_caught (w_os w) = [] ->
  scan (fun t => same_name nm (svc_name t)) (tSvrTab w) 0 = svrno -> 0 <= svrno ->
  znth (tSvrTab w) svrno = Some t -> down t = false -> 1 <= msg_type t ->
  SIZEOF_HEAD + 4 + SIZEOF_REQ + len <= max_msg_len (w_ctrl w) ->
  queue (req_que_id (w_ctrl w)) (w_os w) = Some q -> Z.of_nat (length (q_msgs q)) <= MSQ_MAX_NUM ->
  fits m q = true ->
  p mod STRIDE = 0 -> p <> NULL -> w_heap w !! p = Some buf -> Z.of_nat (length buf) = SIZEOF_BUF ->
  exists ps buf', List.concat ps = rest
    /\ read_forward p x c g
       = Ret tt (set_g_world (set_w_os (set_queue (req_que_id (w_ctrl w)) (enqueue m q) (w_os w))
                   (set_w_heap (<[p := buf']> (w_heap w)) w)) (set_g_net (left_over x s ps (g_net g)) g)).
Proof.
  intros w nm len m Hs Hps Hin Hrq Hnm Hlen Ha K Hc Hsv Hpos Ht Hdown Hty Hmax Hq Hcnt Hf Hp0 Hp Hbuf Lbuf.
  destruct (request_read x s (g_net g) rq payload rest Hs Hps Hin Hrq Hlen) as (ps & E & R).
  destruct (request_sent handler w p nm (forward_head nm x (r_ssn rq) len c) payload t svrno q buf) as (buf' & S); try assumption.
  { apply length_named_head. exact (length_name rq nb Hrq Hnm). }
  exists ps, buf'. split; [exact R|]. unfold read_forward. rewrite (in_net_step _ _ _ _ _ E). cbn [negb Z.eqb].
  rewrite (request_head rq payload Hrq Hlen). erewrite bind_Ret by reflexivity.
  replace (dec_req (enc_req rq)) with rq by (symmetry; rewrite <- (app_nil_r (enc_req rq)); now apply dec_enc_req).
  rewrite Hnm. erewrite bind_Ret by reflexivity. cbn zeta.
  rewrite (request_data rq payload Hrq Hlen). erewrite bind_Ret by reflexivity.
  replace (4 + (SIZEOF_REQ + Z.of_nat (length payload)) - SOCKET_MSG_HEAD_LEN - SIZEOF_REQ) with len
    by (unfold SOCKET_MSG_HEAD_LEN, len; lia).
  erewrite in_world_Ret by exact S. reflexivity.
Qed.

(** ** A reply *)

(** The head that the client gets. *)
Definition reply_head (h : IPCMsgHead) : sunda_req_head_t := mkReq (take NAME_LEN (h_name h)) (h_ssn h) 0.

Definition reply_body (h : IPCMsgHead) (payload : bytes) : bytes := enc_req (reply_head h) ++ payload.

Lemma WriteSocket_all x s n b len :
  n_socks n !! x = Some s -> 0 < len <= Z.of_nat (length b) -> Forall (fun k => 0 < k) (s_room s) ->
  exists ks n', WriteSocket x b len n = Ret 0 n'
    /\ n_socks n' !! x = Some (set_out (s_out s ++ take (Z.to_nat len) b) ks s)
    /\ (forall y, y <> x -> n_socks n' !! y = n_socks n !! y).
Proof.
  intros Hs Hn Hr. unfold WriteSocket. destruct (Z.leb_spec len 0); [lia|].
  destruct (write_loop_eq (Z.to_nat len) x s n b len 0 Hs ltac:(lia) ltac:(lia) ltac:(lia))
    as (r & m & ks & n' & E & H1 & H2 & C).
  rewrite Z.sub_0_r in H1, C. change (Z.to_nat 0) with 0%nat in H1, C. rewrite drop_0 in H1, C.
  destruct C as [[-> Hm]|(_ & _ & X)].
  - exists ks, n'. split; [exact E|]. split; [|exact H2]. rewrite H1, Hm. do 3 f_equal. apply take_ge. lia.
  - exfalso. apply Exists_exists in X as (k & Hk & Hk'). rewrite Forall_forall in Hr. specialize (Hr k Hk). cbn in Hr. lia.
Qed.

Section Reply.
Context (g : comm) (p r x : Z) (h : IPCMsgHead) (payload pbuf rbuf : bytes) (src : Z) (q : kqueue) (ms : list kmsg).
Let w := g_world g.
Let que := rsp_que_id (w_ctrl w).
Let len := Z.of_nat (length payload).
Let data := enc_head h ++ payload.
Hypotheses (Ha : attached w = true) (Hc : o_caught (w_os w) = []) (Hq : queue que (w_os w) = Some q)
  (Hm : of_type COMM_S_MSG_TYPE_ROOT (q_msgs q) = mkMsg COMM_S_MSG_TYPE_ROOT (le64 src ++ data) :: ms)
  (Hsrc : LONG_MIN <= src <= LONG_MAX) (Hh : wf_head h)
  (Hlen : len <= BUS_MAX_MSG_LEN - 8 - SIZEOF_HEAD)
  (Hp0 : p mod STRIDE = 0) (Hp : w_heap w !! p = Some pbuf) (Lp : Z.of_nat (length pbuf) = SIZEOF_BUF)
  (Hr0 : r mod STRIDE = 0) (Hr : w_heap w !! r = Some rbuf) (Lr : length rbuf = 8%nat) (Hpr : p <> r).

Lemma length_data : Z.of_nat (length data) = SIZEOF_HEAD + len.
Proof. unfold data. rewrite length_app, length_enc_head by apply Hh. unfold SIZEOF_HEAD, len. lia. Qed.

(** The reply is taken off the queue into the thread's buffer. *)
Lemma reply_received : exists l,
  (store p (zeros SIZEOF_BUF) ;;; tux_getreply handler COMM_S_MSG_TYPE_ROOT p r 0) w
  = Ret 0 (set_w_os (set_queue que (set_msgs l q) (w_os w))
      (set_w_heap (<[r := le64 (SIZEOF_HEAD + len)]> (<[p := data ++ zeros (SIZEOF_BUF - (SIZEOF_HEAD + len))]> (w_heap w))) w))
  /\ of_type COMM_S_MSG_TYPE_ROOT l = ms /\ (forall u, u <> COMM_S_MSG_TYPE_ROOT -> of_type u l = of_type u (q_msgs q)).
Proof.
  pose proof length_data as Ld. assert (Z0 : 0 <= len) by (unfold len; lia).
  destruct (MsqRcv_found que q (w_os w) zero_msg COMM_S_MSG_TYPE_ROOT MSQ_MODE_BLOCK src data ms)
    as (l & E & Hl & Ho & _); try done.
  { unfold BUS_MAX_MSG_LEN, SIZEOF_HEAD in *. lia. }
  exists l. split; [|done]. set (w1 := set_w_heap (<[p := zeros SIZEOF_BUF]> (w_heap w)) w).
  rewrite (bind_Ret _ _ w tt w1).
  2:{ rewrite <- (Z.add_0_r p) at 1. apply (store_at p 0 w pbuf); try done.
      apply (st_end 0 [] pbuf (zeros SIZEOF_BUF)); [done|]. rewrite length_zeros_nat. lia. }
  unfold tux_getreply. erewrite bind_Ret by reflexivity. unfold sdIsAttach. cbn [id]. change (attached w1) with (attached w).
  rewrite Ha. cbn [negb]. rewrite (bind_Ret _ _ _ _ _ (ctrl_eq w1 Ha)). cbn zeta.
  change (if 0 =? 0 then MSQ_MODE_BLOCK else MSQ_MODE_NONBLOCK) with MSQ_MODE_BLOCK. change (w_ctrl w1) with (w_ctrl w). fold que.
  erewrite sys_bind by (exact E || exact Hc). rewrite Ld.
  destruct (Z.leb_spec (SIZEOF_HEAD + len) 0); [unfold SIZEOF_HEAD in *; lia|].
  cbn [sBuf]. rewrite (ld_0_app data _ (SIZEOF_HEAD + len) Ld). erewrite bind_Ret by reflexivity.
  assert (S1 : st 0 data (zeros SIZEOF_BUF) = Some (data ++ zeros (SIZEOF_BUF - (SIZEOF_HEAD + len)))).
  { rewrite st_zeros_start, Ld; [done|]. unfold SIZEOF_BUF, SIZEOF_HEAD, BUS_MAX_MSG_LEN in *. lia. }
  erewrite bind_Ret.
  2:{ rewrite <- (Z.add_0_r p) at 1. apply (store_at p 0 _ (zeros SIZEOF_BUF) data); [done|done|apply lookup_insert_eq|exact S1]. }
  assert (S2 : st 0 (le64 (SIZEOF_HEAD + len)) rbuf = Some (le64 (SIZEOF_HEAD + len))).
  { apply (st_end 0 [] rbuf); [done|]. now rewrite length_le64. }
  erewrite bind_Ret.
  2:{ rewrite <- (Z.add_0_r r) at 1. apply (store_at r 0 _ rbuf); [done|done| |exact S2].
      cbn [w_heap set_w_os set_w_heap w1]. now rewrite !lookup_insert_ne. }
  unfold ret. f_equal. unfold w1. cbn [w_heap set_w_heap set_w_os]. now rewrite insert_insert_eq.
Qed.

(** The frame for the client. *)
Lemma length_reply_head : length (enc_req (reply_head h)) = 40%nat.
Proof. apply length_enc_req. unfold reply_head. cbn [r_name]. rewrite length_take, (proj1 Hh). done. Qed.

Lemma reply_framed : exists b,
  reply_frame (data ++ zeros (SIZEOF_BUF - (SIZEOF_HEAD + len))) (SIZEOF_HEAD + len) h
  = Some (b, 4 + (SIZEOF_REQ + len))
  /\ take (Z.to_nat (4 + (SIZEOF_REQ + len))) b = frame (reply_body h payload)
  /\ 4 + (SIZEOF_REQ + len) <= Z.of_nat (length b).
Proof.
  pose proof length_reply_head as Lr'. assert (Z0 : 0 <= len) by (unfold len; lia).
  unfold SIZEOF_BUF, SIZEOF_HEAD, SIZEOF_REQ, BUS_MAX_MSG_LEN in *.
  assert (Lb : Z.of_nat (length (reply_body h payload)) = 40 + len) by (unfold reply_body, len; rewrite length_app, Lr'; lia).
  destruct (header_chars (40 + len) ltac:(lia)) as (L4 & _ & _). set (hdr := fmt_0d 4 (40 + len)) in *.
  set (e := enc_req (reply_head h)) in *.
  exists (hdr ++ e ++ (payload ++ zeros 40) ++ zeros (10157 - len)). split; [|split].
  - unfold reply_frame. change SIZEOF_HEAD with 96. change SIZEOF_REQ with 40. change SOCKET_MSG_HEAD_LEN with 4. change SIZEOF_BUF with 10241.
    rewrite i32_id by lia. replace (96 + len - 96 + 40) with (40 + len) by lia. fold hdr.
    rewrite st_zeros_start by (rewrite length_app; cbn; lia). cbn [mbind option_bind].
    replace (10241 - Z.of_nat (length (hdr ++ [NUL]))) with 10236 by (rewrite length_app, L4; done).
    replace ((hdr ++ [NUL]) ++ zeros 10236) with (hdr ++ zeros 40 ++ zeros 10197)
      by (rewrite <- app_assoc; change [NUL] with (zeros 1); now rewrite <- !zeros_add).
    fold (reply_head h). fold e. rewrite (st_app 4 hdr (zeros 40) _ e) by (rewrite ?length_zeros_nat; lia). cbn [mbind option_bind].
    replace (data ++ zeros (10241 - (96 + len))) with (enc_head h ++ (payload ++ zeros 40) ++ zeros (10105 - len)).
    2:{ unfold data. rewrite <- !app_assoc. do 2 f_equal. rewrite <- zeros_add by lia. f_equal. lia. }
    rewrite (ld_app 96 (40 + len)).
    2:{ rewrite length_enc_head by apply Hh. done. }
    2:{ rewrite length_app, length_zeros_nat. unfold len. lia. }
    cbn [mbind option_bind]. replace (zeros 10197) with (zeros (len + 40) ++ zeros (10157 - len)) by (rewrite <- zeros_add by lia; f_equal; lia).
    rewrite (app_assoc hdr), (st_app (40 + 4)).
    2:{ rewrite length_app. lia. }
    2:{ rewrite !length_app, !length_zeros_nat. unfold len. lia. }
    cbn [mbind option_bind]. rewrite <- !app_assoc. replace (40 + len + 4) with (4 + (40 + len)) by lia. reflexivity.
  - rewrite <- !app_assoc. rewrite (app_assoc e), (app_assoc hdr). unfold frame. rewrite Lb. fold hdr. change (reply_body h payload) with (e ++ payload).
    apply take_app_length'. rewrite !length_app, L4, Lr'. unfold len. lia.
  - rewrite !length_app, !length_zeros_nat, L4, Lr'. unfold len in *. lia.
Qed.

(** What the thread finds in its buffers afterwards. *)
Lemma reply_loaded l :
  let w1 := set_w_os (set_queue que (set_msgs l q) (w_os w))
      (set_w_heap (<[r := le64 (SIZEOF_HEAD + len)]> (<[p := data ++ zeros (SIZEOF_BUF - (SIZEOF_HEAD + len))]> (w_heap w))) w) in
  load p SIZEOF_BUF w1 = Ret (data ++ zeros (SIZEOF_BUF - (SIZEOF_HEAD + len))) w1
  /\ load r 8 w1 = Ret (le64 (SIZEOF_HEAD + len)) w1.
Proof.
  intros w1. pose proof length_data as Ld. assert (Z0 : 0 <= len) by (unfold len; lia). split.
  - rewrite <- (Z.add_0_r p). eapply (load_at p 0); [done|done| |].
    + cbn [w1 w_heap set_w_os set_w_heap]. rewrite lookup_insert_ne by done. apply lookup_insert_eq.
    + apply (ld_end 0 SIZEOF_BUF []); [done|]. rewrite length_app. unfold SIZEOF_BUF, SIZEOF_HEAD, BUS_MAX_MSG_LEN in *.
      rewrite Nat2Z.inj_add, Ld, length_zeros; lia.
  - rewrite <- (Z.add_0_r r). eapply (load_at r 0); [done|done|apply lookup_insert_eq|].
    apply (ld_end 0 8 []); [done|]. now rewrite length_le64.
Qed.

Lemma write_step_sends cs k c s :
  single g cs -> cs !! k = Some c -> h_fd h = fd c -> h_conn_ssn h = ssn c ->
  n_socks (g_net g) !! fd c = Some s -> Forall (fun k => 0 < k) (s_room s) ->
  exists g' ks l, write_step p r g = Ret true g' /\ single g' (<[k := with_status FD_STAT_WRITE c]> cs)
    /\ n_socks (g_net g') !! fd c = Some (set_out (s_out s ++ frame (reply_body h payload)) ks s)
    /\ (forall y, y <> fd c -> n_socks (g_net g') !! y = n_socks (g_net g) !! y)
    /\ w_os (g_world g') = set_queue que (set_msgs l q) (w_os w)
    /\ of_type COMM_S_MSG_TYPE_ROOT l = ms
    /\ (forall u, u <> COMM_S_MSG_TYPE_ROOT -> of_type u l = of_type u (q_msgs q)).
Proof.
  intros I Hk Hf Hn Hs Hroom. assert (Z0 : 0 <= len) by (unfold len; lia).
  assert (Hhd : forall z, ld 0 SIZEOF_HEAD (data ++ z) = Some (enc_head h)).
  { intros z. unfold data. rewrite <- app_assoc. apply ld_0_app. now rewrite length_enc_head by apply Hh. }
  assert (Hdec : dec_head (enc_head h) = h) by (rewrite <- (app_nil_r (enc_head h)); now apply dec_enc_head).
  destruct reply_received as (l & R1 & Hl1 & Hl2). destruct (reply_loaded l) as [R2 R3].
  destruct reply_framed as (b & R4 & Fb & Lb). set (w1 := set_w_os _ _) in R1, R2, R3. set (g1 := set_g_world w1 g).
  assert (I1 : single g1 cs) by (apply (single_step g g1 cs cs); try done; [exact (proj1 I)|exact (single_opened g cs I)]).
  pose proof I as (_ & _ & _ & _ & Ds & _).
  pose proof (scan_unique ssn cs k c Ds Hk) as Sc. rewrite <- Hn in Sc.
  destruct (write_mark_single g1 cs h k c I1 Sc Hk) as (m' & R5 & I2 & _).
  destruct (WriteSocket_all (fd c) s (g_net g) b (4 + (SIZEOF_REQ + len)) Hs) as (ks & n' & R6 & S6 & O6);
    [unfold SIZEOF_REQ in *; lia|done|].
  exists (set_g_net n' (set_g_tab m' g1)), ks, l. split; [|split; [|split; [|split; [exact O6|done]]]].
  - unfold write_step. erewrite in_world_Ret by exact R1. erewrite in_world_Ret by reflexivity. cbn [negb Z.eqb andb].
    change (set_g_world (g_world (set_g_world w1 g)) (set_g_world w1 g)) with g1.
    erewrite in_world_Ret by exact R2. erewrite in_world_Ret by exact R3.
    change (set_g_world w1 (set_g_world w1 g1)) with g1.
    rewrite get_i64_le64, i64_id by (unfold SIZEOF_HEAD, BUS_MAX_MSG_LEN in *; lia).
    rewrite Hhd. erewrite bind_Ret by reflexivity. rewrite Hdec.
    rewrite R4. erewrite bind_Ret by reflexivity.
    cbv beta iota. rewrite (bind_Ret _ _ _ _ _ R5).
    rewrite (proj2 (Z.ltb_ge _ 0)) by lia. rewrite Hf. erewrite in_net_step by exact R6. reflexivity.
  - apply (single_step (set_g_tab m' g1) _ (<[k := with_status FD_STAT_WRITE c]> cs)); try done; [exact (proj1 I2)|].
    eapply Forall_impl; [exact (single_opened _ _ I2)|]. intros d Hd. unfold opened in *. cbn [g_net set_g_net set_g_tab] in *.
    destruct (decide (fd d = fd c)) as [->|Ne]; [rewrite S6; eauto|]. rewrite O6 by done. exact Hd.
  - cbn [g_net set_g_net]. rewrite S6, Fb. reflexivity.
Qed.
End Reply.

(** ** Properties *)

(** C6: a client's request reaches the servers: the reading thread takes one frame off the
    connection, in whatever pieces it came, and appends one message of the server's type
    to the request queue.  Its head has the service's name without blanks, the client's
    number for the request, the connection and its number (by which the reply is
    returned) and the length of the data, which follow; 44 zero bytes are sent behind
    them.  The table and what else has arrived do not change. *)
Theorem request_forwarded g p x c s rq payload rest nb t svrno q buf :
  let w := g_world g in
  let nm := cstr nb in
  let len := Z.of_nat (length payload) in
  let h := mkHead (buf_of 33 nm) (r_ssn rq) (ssn c) COMM_S_MSG_TYPE_ROOT x (utime c) REPLY_FLAG_ASYN 0 len in
  let m := mkMsg (msg_type t) (le64 0 ++ enc_head h ++ payload ++ zeros 44) in
  n_socks (g_net g) !! x = Some s -> pieces_ok (s_in s) ->
  List.concat (s_in s) = frame (request_body rq payload) ++ rest -> wf_req rq ->
  AllTrim (r_name rq ++ [NUL]) = Some nb -> len <= 3919 ->
  attached w = true -> tables_ok w -> o_caught (w_os w) = [] ->
  scan (fun t => same_name nm (svc_name t)) (tSvrTab w) 0 = svrno -> 0 <= svrno ->
  znth (tSvrTab w) svrno = Some t -> down t = false -> 1 <= msg_type t ->
  SIZEOF_HEAD + 4 + SIZEOF_REQ + len <= max_msg_len (w_ctrl w) ->
  queue (req_que_id (w_ctrl w)) (w_os w) = Some q -> Z.of_nat (length (q_msgs q)) <= MSQ_MAX_NUM ->
  fits m q = true ->
  p mod STRIDE = 0 -> p <> NULL -> w_heap w !! p = Some buf -> Z.of_nat (length buf) = SIZEOF_BUF ->
  exists ps buf', List.concat ps = rest
    /\ read_forward p x c g
       = Ret tt (set_g_world (set_w_os (set_queue (req_que_id (w_ctrl w)) (enqueue m q) (w_os w))
                   (set_w_heap (<[p := buf']> (w_heap w)) w)) (set_g_net (left_over x s ps (g_net g)) g)).
Proof. apply read_forward_sends. Qed.

(** C7: a reply reaches the client that asked: the writing thread takes the first message of
    its type off the reply queue and sends one frame, with the service's name, the
    client's number for the request and the data, to the socket of the request, after it
    has found the request's connection number in the table.  Nothing else is sent, and
    messages of other types stay. *)
Theorem reply_delivered g p r h payload pbuf rbuf src q ms cs k c s :
  let w := g_world g in
  let que := rsp_que_id (w_ctrl w) in
  attached w = true -> o_caught (w_os w) = [] -> queue que (w_os w) = Some q ->
  of_type COMM_S_MSG_TYPE_ROOT (q_msgs q)
  = mkMsg COMM_S_MSG_TYPE_ROOT (le64 src ++ enc_head h ++ payload) :: ms ->
  LONG_MIN <= src <= LONG_MAX -> wf_head h ->
  Z.of_nat (length payload) <= BUS_MAX_MSG_LEN - 8 - SIZEOF_HEAD ->
  p mod STRIDE = 0 -> w_heap w !! p = Some pbuf -> Z.of_nat (length pbuf) = SIZEOF_BUF ->
  r mod STRIDE = 0 -> w_heap w !! r = Some rbuf -> length rbuf = 8%nat -> p <> r ->
  single g cs -> cs !! k = Some c -> h_fd h = fd c -> h_conn_ssn h = ssn c ->
  n_socks (g_net g) !! fd c = Some s -> Forall (fun k => 0 < k) (s_room s) ->
  exists g' ks l, write_step p r g = Ret true g' /\ single g' (<[k := with_status FD_STAT_WRITE c]> cs)
    /\ n_socks (g_net g') !! fd c = Some (set_out (s_out s ++ frame (reply_body h payload)) ks s)
    /\ (forall y, y <> fd c -> n_socks (g_net g') !! y = n_socks (g_net g) !! y)
    /\ w_os (g_world g') = set_queue que (set_msgs l q) (w_os w)
    /\ of_type COMM_S_MSG_TYPE_ROOT l = ms
    /\ (forall u, u <> COMM_S_MSG_TYPE_ROOT -> of_type u l = of_type u (q_msgs q)).
Proof.
  intros w que Ha Hc Hq Hm Hsrc Hh Hlen Hp0 Hp Lp Hr0 Hr Lr Hpr I Hk Hf Hn Hs Hroom.
  now apply (write_step_sends g p r h payload pbuf rbuf src q ms) with (c := c).
Qed.

(** C38: a request that arrives in two pieces costs the client the connection: the sockets
    do not wait, so the read of the rest fails, and the reading thread closes the socket,
    drops the connection from the table and sends nothing. *)
Theorem incomplete_request_closes g cs k c s p :
  single g cs -> cs !! k = Some c -> poll c = false -> n_socks (g_net g) !! fd c = Some s ->
  pieces_ok (s_in s) -> s_block s = false -> incomplete (List.concat (s_in s)) ->
  exists g', read_forward p (fd c) c g = Ret tt g' /\ single g' (delete k cs)
    /\ n_socks (g_net g') !! fd c = None /\ g_world g' = g_world g.
Proof.
  intros I Hk Pc Hs Hps Hb Hin. pose proof I as (_ & _ & D & _).
  pose proof (proj1 (Forall_lookup _ _) (proj1 (proj1 (proj2 (proj1 I)))) _ _ Hk) as U.
  destruct (RcvTxnMsg_short (fd c) s (g_net g) (zeros 8097) 0 Hs Hps Hb Hin) as (n' & E & Hx & Ho).
  set (g1 := set_g_net n' g). pose proof (scan_unique fd cs k c D Hk) as Sc.
  assert (I1 : single g1 cs).
  { apply (single_step g g1 cs cs); try done; [exact (proj1 I)|]. eapply Forall_impl; [exact (single_opened g cs I)|].
    intros d Hd. unfold opened in *. cbn [g1 g_net set_g_net]. destruct (decide (fd d = fd c)) as [->|Ne]; [done|].
    now rewrite Ho. }
  destruct (del_connect_single g1 cs (fd c) I1 U) as (g' & R & I' & W & Hn).
  { intros k' c' Hk' Hc' Pc'. rewrite Sc in Hk'. apply Nat2Z.inj in Hk'. subst k'. congruence. }
  exists g'. split; [|split; [|split; [exact Hn|exact W]]].
  - unfold read_forward. erewrite in_net_step by exact E. cbn [negb]. change (-1 =? 0) with false. cbn [negb].
    fold g1. now rewrite (bind_Ret _ _ _ _ _ R).
  - now rewrite (delete_without cs (fd c) k D Sc).
Qed.

(** *** Witnesses *)

Definition echo_req : sunda_req_head_t := mkReq (str " ECHO" ++ zeros 27) 77 0.

(** A thread's memory: its buffer, and 8 bytes for a length. *)
Definition demo_threads : world := demo_process (zeros SIZEOF_BUF) [] [] demo_services.

Lemma demo_threads_buffer : w_heap demo_threads !! STRIDE = Some (zeros SIZEOF_BUF).
Proof. apply lookup_insert_eq. Qed.

Definition echo_frame : bytes := frame (request_body echo_req hello).

(** The hypotheses on these states. *)
Ltac threads_tac :=
  lazymatch goal with
  | |- single (demo_gateway _ _ _) _ => apply demo_gateway_single; lia
  | |- pieces_ok _ => repeat constructor; vm_compute; discriminate
  | |- wf_req _ => unfold wf_req; repeat split; vm_compute; congruence
  | |- w_heap _ !! STRIDE = _ => exact demo_threads_buffer
  | |- _ = SIZEOF_BUF => apply length_zeros; discriminate
  | |- _ => demo_tac
  end.

(** The frame arrives in two pieces. *)
Lemma request_forwarded_witness :
  exists g', read_forward STRIDE 6 (a_conn 6 1)
      (demo_gateway demo_threads [take 10 echo_frame; drop 10 echo_frame] 0) = Ret tt g'
    /\ msgs 1 (w_os (g_world g'))
       = [mkMsg 300007 (le64 0 ++ enc_head (forward_head (str "ECHO") 6 77 5 (a_conn 6 1)) ++ hello ++ zeros 44)].
Proof.
  destruct (request_forwarded (demo_gateway demo_threads [take 10 echo_frame; drop 10 echo_frame] 0)
    STRIDE 6 (a_conn 6 1) (client_sock [take 10 echo_frame; drop 10 echo_frame]) echo_req hello []
    (str "ECHO" ++ zeros 29) demo_svr 1 (mkQueue 601107 [] MSGMNB) (zeros SIZEOF_BUF)) as (ps & buf & _ & E);
    [threads_tac..|].
  eexists. split; [exact E|]. reflexivity.
Defined.

Definition echo_reply_head : IPCMsgHead := forward_head (str "ECHO") 6 77 5 (a_conn 6 1).
Definition echo_reply : kmsg := mkMsg COMM_S_MSG_TYPE_ROOT (le64 0 ++ enc_head echo_reply_head ++ hello).
Definition demo_replied : world :=
  set_w_os (set_queue 2 (mkQueue 601117 [echo_reply] MSGMNB) (w_os demo_threads)) demo_threads.

Lemma reply_delivered_witness :
  exists g', write_step STRIDE (2 * STRIDE) (demo_gateway demo_replied [] 0) = Ret true g'
    /\ exists s, n_socks (g_net g') !! 6 = Some s /\ s_out s = frame (enc_req (mkReq (str "ECHO" ++ zeros 28) 77 0) ++ hello).
Proof.
  destruct (reply_delivered (demo_gateway demo_replied [] 0) STRIDE (2 * STRIDE) echo_reply_head hello
    (zeros SIZEOF_BUF) (zeros 8) 0 (mkQueue 601117 [echo_reply] MSGMNB) [] demo_conns 1 (a_conn 6 1) (client_sock []))
    as (g' & ks & l & E & _ & S & _); [..|exists g'; split; [exact E|eexists; split; [exact S|reflexivity]]].
  all: threads_tac.
Defined.

Lemma incomplete_request_closes_witness :
  exists g', read_forward STRIDE 6 (a_conn 6 1) (demo_gateway demo_threads [take 10 echo_frame] 0) = Ret tt g'
    /\ single g' [a_conn 4 0; a_conn 8 2] /\ n_socks (g_net g') !! 6 = None.
Proof.
  destruct (incomplete_request_closes (demo_gateway demo_threads [take 10 echo_frame] 0) demo_conns 1 (a_conn 6 1)
    (client_sock [take 10 echo_frame]) STRIDE) as (g' & E & I & N & _);
    [..|exists g'; refine (conj E (conj I N))].
  all: lazymatch goal with |- incomplete _ => idtac | |- _ => threads_tac end.
  right. exists 45, (str " ECHO" ++ zeros 1). split; [reflexivity|vm_compute; split; [reflexivity|discriminate]].
Defined.
