(* ===== verification/Testclients.v ===== *)
(** * The test clients: [src/dev/src/client/client.c] and [simu.c]

    [client.c] sends one request to the communication server and logs the answer;
    [simu.c] does so twenty times and logs two counters.  What the peer sends on a
    connection depends on what it has got there: the function [peer] gives the pieces and
    whether it closes then.  The result of a [main] is what its last line in the log shows;
    the other lines are not modelled.  The programs install [time_out] for [SIGALRM] and
    set an alarm before they write and before they read; the action of the signal and the
    timer are part of the state ([Funsock.sigs]), so that what an alarm does depends on
    what [OpenSocket] has left of the action. *)

From Stdlib Require Import ZArith Lia Bool List Ascii String.
From stdpp Require Import base list gmap.
From S2P Require Import Prelude Cstr Funstr Kernel Funsock Funtime Sunda Tuxmem.
From S2P Require Import Clients Commserver Gateway Exchange.

Definition set_giTimeOut (v : Z) : prog net unit :=
  modify (fun n => let g := n_sig n in set_n_sig (mkSigs (g_action g) (g_armed g) v (g_restart g)) n).

Definition test_data : bytes := str "test111111".

(** [memcpy(req_head.name, "testsvr", 7)] over zeros; [ssn] has 32 bits. *)
Definition test_head (ssn : Z) : sunda_req_head_t := mkReq (str "testsvr" ++ zeros 25) (u32 ssn) 0.

(** From the filling of the head to [WriteSocket], which has [sec] seconds: the result and
    [sReqBuf]. *)
Definition client_send (sec sock_id ssn : Z) (sBuf sReqBuf : bytes) : prog net (Z * bytes) :=
  let* sBuf := deref (st 0 (enc_req (test_head ssn)) sBuf) in
  let* sBuf := deref (st SIZEOF_REQ test_data sBuf) in
  let iLen := SIZEOF_REQ + 10 in
  let* sReqBuf := deref (sprintf (fmt_0d 4 iLen) sReqBuf) in
  let* data := deref (ld 0 iLen sBuf) in
  let* sReqBuf := deref (st 4 data sReqBuf) in
  alarm sec ;;;
  let* iRet := WriteSocket sock_id sReqBuf (iLen + 4) in
  alarm 0 ;;;
  ret (iRet, sReqBuf).

(** From [RcvTxnMsg] on: the head and [sRspBuf].  The length of the data is of the type
    [size_t]. *)
Definition client_receive (sec sock_id iLen : Z) (sRspBuf : bytes) : prog net (sunda_req_head_t * bytes) :=
  alarm sec ;;;
  let* (iRet, sBuf, iLen) := RcvTxnMsg sock_id 4 (zeros 257) iLen in
  alarm 0 ;;;
  if negb (iRet =? 0) then close sock_id ;;; exit_ 2
  else
    close sock_id ;;;
    let* head := deref (ld 4 SIZEOF_REQ sBuf) in
    let* data := deref (ld (4 + SIZEOF_REQ) (u64 (iLen - SIZEOF_REQ - 4)) sBuf) in
    let* sRspBuf := deref (st 0 data sRspBuf) in
    ret (dec_req head, sRspBuf).

Section Clients.
Context (peer : bytes -> list bytes * bool).

(** What the peer does between the write and the read. *)
Definition peer_turn (fd : Z) : prog net unit :=
  modify (fun n =>
    match n_socks n !! fd with
    | Some s => let '(ps, eof) := peer (s_out s) in set_sock fd (mkSock (s_in s ++ ps) eof (s_block s) (s_out s) (s_room s) (s_opts s)) n
    | None => n
    end).

(** [main] of [client.c], at the time [now]. *)
Definition client_main (now : Z) : prog net bytes :=
  set_giTimeOut 0 ;;;
  signal_alarm On_time_out ;;;
  let* (iRet, sock_id) := OpenSocket 99 1 in
  if negb (iRet =? 0) then exit_ 2
  else
    let* (iRet, _) := client_send 5 sock_id now (zeros 257) (zeros 257) in
    if negb (iRet =? 0) then close sock_id ;;; exit_ 2
    else
      peer_turn sock_id ;;;
      let* (_, sRspBuf) := client_receive 5 sock_id (SIZEOF_REQ + 10) (zeros 257) in
      if terminated sRspBuf then ret (cstr sRspBuf) else fault.

(** The variables of [main] of [simu.c] that live from round to round. *)
Record simu := mkSimu { u_ssn : Z; ret_tot : Z; icount : Z; sReqBuf : bytes; sRspBuf : bytes }.

(** One round, at the time [now]. *)
Definition simu_round (now : Z) (u : simu) : prog net simu :=
  set_giTimeOut 0 ;;;
  let* (iRet, sock_id) := OpenSocket 99 1 in
  if negb (iRet =? 0) then ret u
  else
    let* (iRet, sReqBuf) := client_send 2 sock_id (now + u_ssn u) (zeros 257) (sReqBuf u) in
    let u := mkSimu (u_ssn u + 1) (ret_tot u + 1) (icount u) sReqBuf (sRspBuf u) in
    if negb (iRet =? 0) then close sock_id ;;; ret u
    else
      set_giTimeOut 0 ;;;
      peer_turn sock_id ;;;
      let* (_, sRspBuf) := client_receive 3 sock_id (SIZEOF_REQ + 10) (sRspBuf u) in
      ret (mkSimu (u_ssn u) (ret_tot u) (icount u + 1) sReqBuf sRspBuf).

Context (time : nat -> Z).

Fixpoint simu_loop (rounds i : nat) (u : simu) : prog net simu :=
  match rounds with
  | O => ret u
  | S rounds => let* u := simu_round (time i) u in simu_loop rounds (S i) u
  end.

Definition simu_main : prog net (Z * Z) :=
  set_giTimeOut 0 ;;;
  signal_alarm On_time_out ;;;
  let* u := simu_loop 20 0 (mkSimu 0 0 0 (zeros 257) (zeros 257)) in
  ret (ret_tot u, icount u).
End Clients.

(** ** The request *)

Definition test_request (ssn : Z) : bytes := frame (request_body (test_head ssn) test_data).

Lemma test_head_wf ssn : wf_req (test_head ssn).
Proof. unfold wf_req. cbn [r_ssn r_err_no test_head]. pose proof (u32_range ssn). split; [reflexivity|]. lia. Qed.

Lemma length_test_head ssn : length (enc_req (test_head ssn)) = 40%nat.
Proof. apply length_enc_req. reflexivity. Qed.

Lemma length_test_request ssn : length (test_request ssn) = 54%nat.
Proof. unfold test_request, frame, request_body. rewrite !length_app, length_test_head. reflexivity. Qed.

(** What is left for later calls of [socket] and [connect], and the signals. *)
Definition left_env (a : list Z) (b : list attempt) (g : sigs) (n : net) : Prop :=
  n_socket n = a /\ n_connect n = b /\ n_sig n = g.

(** The state after [alarm(sec)]. *)
Definition with_timer (sec : Z) (n : net) : net :=
  let g := n_sig n in set_n_sig (mkSigs (g_action g) (negb (sec =? 0)) (g_giTimeOut g) (g_restart g)) n.

Lemma alarm_eq {B} sec (k : unit -> prog net B) n : bind (alarm sec) k n = k tt (with_timer sec n).
Proof. reflexivity. Qed.

Lemma keeps_env_write a b g fd bs : keeps (left_env a b g) (write fd bs).
Proof.
  intros n Hn. unfold write. destruct (n_socks n !! fd) as [s|]; [|exact Hn]. destruct (s_room s) as [|k l]; [exact Hn|]. now destruct (k <=? 0).
Qed.

Lemma keeps_env_WriteSocket a b g fd buf len : keeps (left_env a b g) (WriteSocket fd buf len).
Proof.
  unfold WriteSocket. apply keeps_if; [apply keeps_ret|]. generalize (Z.to_nat len) 0. intros fuel.
  induction fuel as [|fuel IH]; intros off; cbn [write_loop]; [apply keeps_spin|].
  apply keeps_bind; [apply keeps_deref|]. intros data. apply keeps_bind; [apply keeps_env_write|]. intros nNum.
  apply keeps_if; [apply keeps_ret|]. apply keeps_if; [apply keeps_ret|]. apply IH.
Qed.

(** The frame ends up at the start of [sReqBuf], whatever that held. *)
Lemma client_send_eq sec fd s ssn buf n :
  n_socks n !! fd = Some s -> Forall (fun k => 0 < k) (s_room s) -> length buf = 257%nat ->
  exists ks n' buf', client_send sec fd ssn (zeros 257) buf n = Ret (0, buf') n' /\ left_env (n_socket n) (n_connect n) (n_sig (with_timer 0 n)) n'
    /\ n_socks n' !! fd = Some (set_out (s_out s ++ test_request ssn) ks s)
    /\ (forall y, y <> fd -> n_socks n' !! y = n_socks n !! y) /\ length buf' = 257%nat.
Proof.
  intros Hs Hr Lb. pose proof (length_test_head ssn) as Lh. set (e := enc_req (test_head ssn)) in *. unfold client_send. fold e.
  destruct (st_Some 0 e (zeros 257)) as [b1 S1]; [lia|rewrite Lh; vm_compute; discriminate|].
  pose proof (st_append 0 e test_data (zeros 257) b1 S1) as SA. rewrite Lh in SA. change (0 + Z.of_nat 40) with SIZEOF_REQ in SA.
  rewrite S1. cbn [deref]. rewrite bind_ret_l, SA, st_zeros_start by (rewrite length_app, Lh; vm_compute; discriminate). cbn [deref]. rewrite bind_ret_l.
  destruct (st_Some 0 (fmt_0d 4 (SIZEOF_REQ + 10) ++ [NUL]) buf) as [b2 S2]; [lia|rewrite Lb; vm_compute; discriminate|].
  unfold sprintf. rewrite S2. cbn [deref]. rewrite bind_ret_l.
  assert (Ed : Z.of_nat (length (e ++ test_data)) = SIZEOF_REQ + 10) by (rewrite length_app, Lh; done).
  pose proof (ld_prefix (e ++ test_data) (zeros (257 - Z.of_nat (length (e ++ test_data))))) as E0. rewrite Ed in E0 |- *. rewrite E0. cbn [deref]. rewrite bind_ret_l.
  pose proof (st_length _ _ _ _ S2) as L2. unfold st at 1. rewrite L2, Lb, Ed. cbn [Z.leb Z.compare andb].
  change (4 + (SIZEOF_REQ + 10) <=? Z.of_nat 257) with true. cbn match. cbn [deref]. rewrite bind_ret_l.
  assert (E4 : take (Z.to_nat 4) b2 = fmt_0d 4 (SIZEOF_REQ + 10)).
  { revert S2. unfold st. destruct (_ && _); [|done]. intros [= <-]. reflexivity. }
  rewrite E4. set (buf' := fmt_0d 4 (SIZEOF_REQ + 10) ++ (e ++ test_data) ++ _).
  assert (Lb' : length buf' = 257%nat).
  { unfold buf'. rewrite !length_app, length_drop, Lh, L2, Lb. reflexivity. }
  destruct (WriteSocket_all fd s (with_timer sec n) buf' (SIZEOF_REQ + 10 + 4) Hs) as (ks & n' & E & Hn & Ho); [rewrite Lb'; vm_compute; split; [reflexivity|discriminate]|done|].
  exists ks, (with_timer 0 n'), buf'. rewrite alarm_eq, (bind_Ret _ _ _ _ _ E), alarm_eq. split; [done|].
  pose proof (keeps_env_WriteSocket (n_socket n) (n_connect n) (n_sig (with_timer sec n)) fd buf' (SIZEOF_REQ + 10 + 4) (with_timer sec n) (conj eq_refl (conj eq_refl eq_refl))) as K.
  rewrite E in K. destruct K as (K1 & K2 & K3). split; [|split; [|done]].
  - split; [done|]. split; [done|]. unfold with_timer. cbn [n_sig set_n_sig]. now rewrite K3.
  - cbn [n_socks with_timer set_n_sig]. rewrite Hn. do 3 f_equal.
Qed.

(** ** The answer *)

(** An answer: its head and its data. *)
Definition answer_frame (h : sunda_req_head_t) (d : bytes) : bytes := frame (enc_req h ++ d).

Lemma client_receive_eq sec fd s h d rest old buf n :
  n_socks n !! fd = Some s -> pieces_ok (s_in s) -> List.concat (s_in s) = answer_frame h d ++ rest -> wf_req h ->
  Z.of_nat (length d) <= 9959 -> length buf = 257%nat ->
  client_receive sec fd old buf n
  = if Z.of_nat (length d) <=? 213 then Ret (h, d ++ drop (length d) buf) (set_socks (delete fd (n_socks n)) (with_timer 0 n)) else Fault.
Proof.
  intros Hs Hp Hc Hh Hd Lb. pose proof (length_enc_req h (proj1 Hh)) as Lh. set (body := enc_req h ++ d).
  assert (Lbody : Z.of_nat (length body) = 40 + Z.of_nat (length d)) by (unfold body; rewrite length_app; lia).
  destruct (RcvTxnMsg_reads fd s (with_timer sec n) (zeros 257) old body rest Hs Hp Hc ltac:(lia)) as (ps & E & _).
  destruct (header_chars (Z.of_nat (length body)) ltac:(lia)) as (L4 & _).
  unfold client_receive. rewrite alarm_eq. unfold bind at 1. rewrite E.
  destruct (st_Some 0 (fmt_0d 4 (Z.of_nat (length body))) (zeros 257)) as [b1 S1]; [lia|rewrite L4; vm_compute; discriminate|].
  pose proof (st_append 0 _ body (zeros 257) b1 S1) as SA. rewrite L4 in SA. change (0 + Z.of_nat 4) with 4 in SA.
  rewrite S1. cbn [deref]. rewrite bind_ret_l, SA. fold (frame body).
  assert (Lf : Z.of_nat (length (frame body)) = 4 + Z.of_nat (length body)) by (unfold frame; rewrite length_app, L4; lia).
  destruct (Z.leb_spec (Z.of_nat (length d)) 213).
  - rewrite st_zeros_start by lia. cbn [deref]. rewrite bind_ret_l. cbn [obind ret]. rewrite alarm_eq. cbn [negb Z.eqb].
    unfold bind at 1. unfold close, modify. cbn [obind].
    replace (frame body) with (fmt_0d 4 (Z.of_nat (length body)) ++ enc_req h ++ d) by done. rewrite <- !app_assoc.
    rewrite ld_app by (unfold SIZEOF_REQ; lia). cbn [deref]. rewrite bind_ret_l.
    replace (u64 (4 + Z.of_nat (length body) - SIZEOF_REQ - 4)) with (Z.of_nat (length d)) by (unfold SIZEOF_REQ; rewrite u64_id; lia).
    rewrite (app_assoc (fmt_0d 4 _)), ld_app by (rewrite ?length_app; unfold SIZEOF_REQ; lia). cbn [deref]. rewrite bind_ret_l.
    destruct (st_Some 0 d buf) as [b2 S2]; [lia|lia|]. rewrite S2. cbn [deref]. rewrite bind_ret_l.
    rewrite <- (app_nil_r (enc_req h)), dec_enc_req by done. unfold st in S2. destruct (_ && _) in S2; [|done]. injection S2 as <-.
    unfold ret, left_over, set_sock, set_socks, with_timer. cbn. now rewrite delete_insert_eq.
  - destruct (st 0 (frame body) (zeros 257)) as [b2|] eqn:S2; [|reflexivity]. apply st_bounds in S2. rewrite length_zeros in S2; lia.
Qed.

(** ** The whole of the clients *)

(** What [OpenSocket] leaves of the environment. *)
Definition connected_to (fd : Z) (n n1 : net) : Prop :=
  left_env (tl (n_socket n)) (tl (n_connect n)) (mkSigs SIG_DFL false (g_giTimeOut (n_sig n)) (g_restart (n_sig n))) n1
  /\ (forall y, y <> fd -> n_socks n1 !! y = n_socks n !! y)
  /\ exists o, n_socks n1 !! fd = Some (mkSock [] false true [] [] o).

Lemma OpenSocket_connects fd l lc n :
  n_socket n = fd :: l -> 0 <= fd -> n_connect n = Connected :: lc ->
  exists n1, OpenSocket 99 1 n = Ret (0, fd) n1 /\ connected_to fd n n1.
Proof.
  intros Hf H0 Hc. unfold OpenSocket. do 3 (erewrite bind_Ret by reflexivity). cbn [n_sig set_n_sig set_n_timeout].
  generalize (Z.to_nat 99) as k. intros k. cbn [open_loop]. change (99 =? 0) with false. cbn match. unfold bind at 1. unfold socket at 1. cbn [n_socket set_n_timeout set_n_sig]. rewrite Hf.
  destruct (Z.ltb_spec fd 0); [lia|]. cbn [obind]. destruct (Z.ltb_spec fd 0); [lia|].
  unfold bind at 1. unfold connect at 1. cbn [obind n_connect set_sock set_socks set_n_socket set_n_timeout set_n_sig]. rewrite Hc.
  cbn [obind]. change (0 <? 0) with false. cbn match. unfold alarm, signal_alarm, modify. unfold bind at 1. cbn [obind].
  unfold Setsokopt, setsockopt, bind, set_n_connect, set_sock, set_socks. cbn. rewrite !lookup_insert_eq. cbn.
  rewrite lookup_insert_eq. cbn. rewrite lookup_insert_eq. cbn. eexists. split; [reflexivity|]. unfold connected_to, left_env. cbn. rewrite Hf, Hc.
  split; [done|]. split.
  - intros y Hy. now rewrite !lookup_insert_ne.
  - eexists. apply lookup_insert_eq.
Qed.

Section Answered.
Context (peer : bytes -> list bytes * bool).

(** The peer answers a request with one frame, of which the data fit in [sRspBuf]. *)
Definition peer_answers (ssn : Z) (h : sunda_req_head_t) (d : bytes) : Prop :=
  exists ps eof rest, peer (test_request ssn) = (ps, eof) /\ pieces_ok ps
    /\ List.concat ps = answer_frame h d ++ rest /\ wf_req h /\ Z.of_nat (length d) <= 213.

(** A socket over which a request has been sent. *)
Definition asked (fd ssn : Z) (n : net) : Prop :=
  exists ks o, n_socks n !! fd = Some (mkSock [] false true (test_request ssn) ks o).

Lemma sends_request sec fd o ssn n buf :
  n_socks n !! fd = Some (mkSock [] false true [] [] o) -> length buf = 257%nat ->
  exists n1 buf', client_send sec fd ssn (zeros 257) buf n = Ret (0, buf') n1 /\ length buf' = 257%nat
    /\ left_env (n_socket n) (n_connect n) (n_sig (with_timer 0 n)) n1 /\ asked fd ssn n1
    /\ (forall y, y <> fd -> n_socks n1 !! y = n_socks n !! y).
Proof.
  intros Hs Lb. destruct (client_send_eq sec fd _ ssn buf n Hs ltac:(constructor) Lb) as (ks & n1 & buf' & E & K & Hn & Ho & Lb').
  exists n1, buf'. split; [exact E|]. split; [exact Lb'|]. split; [exact K|]. split; [now exists ks, o|exact Ho].
Qed.

Lemma takes_answer sec fd ssn rsp n h d :
  asked fd ssn n -> peer_answers ssn h d -> length rsp = 257%nat ->
  exists n', (peer_turn peer fd ;;; client_receive sec fd (SIZEOF_REQ + 10) rsp) n = Ret (h, d ++ drop (length d) rsp) n'
    /\ n_socket n' = n_socket n /\ n_connect n' = n_connect n
    /\ (forall y, y <> fd -> n_socks n' !! y = n_socks n !! y) /\ n_socks n' !! fd = None.
Proof.
  intros (ks & o & Hs) (ps & eof & rest & Ep & Pp & Ec & Hh & Hd) Lr. eexists. split.
  - unfold bind at 1. unfold peer_turn, modify. rewrite Hs. cbn [s_out app s_in s_block s_room s_opts]. rewrite Ep. cbn [obind].
    rewrite (client_receive_eq sec fd (mkSock ps eof true (test_request ssn) ks o) h d rest); try done; [|apply lookup_insert_eq|lia].
    rewrite (proj2 (Z.leb_le _ 213)) by lia. reflexivity.
  - cbn [n_socks n_socket n_connect set_socks set_sock with_timer set_n_sig]. split; [done|]. split; [done|].
    split; [intros y Hy; now rewrite lookup_delete_ne, lookup_insert_ne by done|apply lookup_delete_eq].
Qed.

(** The program's handler is installed. *)
Definition prepared (n : net) : net :=
  set_n_sig (mkSigs On_time_out (g_armed (n_sig n)) 0 (g_restart (n_sig n))) n.

Lemma prepare_eq {B} (k : unit -> prog net B) n :
  bind (set_giTimeOut 0) (fun _ => bind (signal_alarm On_time_out) k) n = k tt (prepared n).
Proof. reflexivity. Qed.

(** [client.c] logs the data of the answer. *)
Lemma client_main_logs fd l lc now n h d :
  n_socket n = fd :: l -> 0 <= fd -> n_connect n = Connected :: lc -> peer_answers now h d -> nonul d ->
  exists n', client_main peer now n = Ret d n' /\ (forall y, y <> fd -> n_socks n' !! y = n_socks n !! y) /\ n_socks n' !! fd = None.
Proof.
  intros Hf H0 Hc Ha Nd. destruct (OpenSocket_connects fd l lc (prepared n) Hf H0 Hc) as (n0 & E0 & _ & Ho & (o & Hs)).
  destruct (sends_request 5 fd o now n0 (zeros 257) Hs eq_refl) as (n1 & buf' & E1 & _ & _ & A1 & O1).
  destruct (takes_answer 5 fd now (zeros 257) n1 h d A1 Ha eq_refl) as (n2 & E2 & _ & _ & O2 & D2).
  assert (Hd : Z.of_nat (length d) <= 213) by (destruct Ha as (? & ? & ? & _ & _ & _ & _ & H); exact H).
  exists n2. split; [|split; [|exact D2]].
  - unfold client_main. rewrite prepare_eq, (bind_Ret _ _ _ _ _ E0). cbn [negb Z.eqb]. rewrite (bind_Ret _ _ _ _ _ E1). cbn [negb Z.eqb].
    rewrite <- bind_assoc, (bind_Ret _ _ _ _ _ E2). unfold zeros. rewrite drop_replicate. change (Z.to_nat 257) with 257%nat.
    replace (257 - length d)%nat with (S (256 - length d)) by lia. cbn [replicate].
    rewrite terminated_app, cstr_app_nul by done. done.
  - intros y Hy. rewrite O2, O1 by done. now apply Ho.
Qed.

Context (time : nat -> Z).

Definition no_timeout (n : net) : net :=
  let g := n_sig n in set_n_sig (mkSigs (g_action g) (g_armed g) 0 (g_restart g)) n.

Lemma giTimeOut_eq {B} (k : unit -> prog net B) n : bind (set_giTimeOut 0) k n = k tt (no_timeout n).
Proof. reflexivity. Qed.

Lemma simu_loop_counts rounds : forall i u n,
  (rounds <= length (n_socket n))%nat -> Forall (fun fd => 0 <= fd) (n_socket n) ->
  n_connect n = replicate rounds Connected -> length (sReqBuf u) = 257%nat -> length (sRspBuf u) = 257%nat ->
  (forall ssn, exists h d, peer_answers ssn h d) ->
  exists u' n', simu_loop peer time rounds i u n = Ret u' n'
    /\ ret_tot u' = ret_tot u + Z.of_nat rounds /\ icount u' = icount u + Z.of_nat rounds.
Proof.
  induction rounds as [|k IH]; intros i u n Hl Hf Hc Lb Lr Ha; [exists u, n; cbn; split; [done|lia]|].
  destruct (n_socket n) as [|fd l] eqn:En; [cbn in Hl; lia|]. apply Forall_cons in Hf as [H0 Hf].
  destruct (OpenSocket_connects fd l (replicate k Connected) (no_timeout n) En H0 Hc) as (n0 & E0 & (S0 & C0 & _) & Ho & (o & Hs)).
  destruct (Ha (time i + u_ssn u)) as (h & d & A).
  destruct (sends_request 2 fd o (time i + u_ssn u) n0 (sReqBuf u) Hs Lb) as (n1 & buf' & E1 & Lb' & (S1 & C1 & _) & A1 & _).
  destruct (takes_answer 3 fd _ (sRspBuf u) (no_timeout n1) h d A1 A Lr) as (n2 & E2 & S2 & C2 & _).
  assert (Lr' : length (d ++ drop (length d) (sRspBuf u)) = 257%nat).
  { destruct A as (? & ? & ? & _ & _ & _ & _ & H). rewrite length_app, length_drop. lia. }
  assert (R : simu_round peer (time i) u n = Ret (mkSimu (u_ssn u + 1) (ret_tot u + 1) (icount u + 1) buf' (d ++ drop (length d) (sRspBuf u))) n2).
  { unfold simu_round. rewrite giTimeOut_eq, (bind_Ret _ _ _ _ _ E0). cbn [negb Z.eqb]. rewrite (bind_Ret _ _ _ _ _ E1). cbn [negb Z.eqb u_ssn ret_tot icount sRspBuf].
    rewrite giTimeOut_eq, <- bind_assoc, (bind_Ret _ _ _ _ _ E2). done. }
  cbn [simu_loop]. rewrite (bind_Ret _ _ _ _ _ R).
  assert (Sn : n_socket n2 = l) by (rewrite S2; cbn [n_socket no_timeout set_n_sig]; rewrite S1, S0; cbn [n_socket no_timeout set_n_sig]; now rewrite En).
  assert (Cn : n_connect n2 = replicate k Connected) by (rewrite C2; cbn [n_connect no_timeout set_n_sig]; rewrite C1, C0; cbn [n_connect no_timeout set_n_sig]; now rewrite Hc).
  destruct (IH (S i) (mkSimu (u_ssn u + 1) (ret_tot u + 1) (icount u + 1) buf' (d ++ drop (length d) (sRspBuf u))) n2) as (u' & n' & E & T1 & T2);
    rewrite ?Sn, ?Cn; try done; [cbn [length] in *; lia|].
  exists u', n'. cbn [ret_tot icount] in *. split; [exact E|]. lia.
Qed.

(** [simu.c] counts twenty requests and twenty answers, when the server answers each
    request, whatever the pieces in which the answers arrive. *)
Theorem simu_main_counts n :
  (20 <= length (n_socket n))%nat -> Forall (fun fd => 0 <= fd) (n_socket n) -> n_connect n = replicate 20 Connected ->
  (forall ssn, exists h d, peer_answers ssn h d) ->
  exists n', simu_main peer time n = Ret (20, 20) n'.
Proof.
  intros Hl Hf Hc Ha. destruct (simu_loop_counts 20 0 (mkSimu 0 0 0 (zeros 257) (zeros 257)) (prepared n) Hl Hf Hc eq_refl eq_refl Ha) as (u & n' & E & T1 & T2).
  exists n'. unfold simu_main. rewrite prepare_eq, (bind_Ret _ _ _ _ _ E). unfold ret. rewrite T1, T2. reflexivity.
Qed.
End Answered.



(** ** Witnesses *)

Definition demo_connects : net := mkNet ∅ 0 (map Z.of_nat (List.seq 5 20)) [] (replicate 20 Connected) [] 0 0 no_alarm.

Definition demo_peer (r : bytes) : list bytes * bool :=
  ([take 7 (answer_frame (test_head 1) (str "done")); drop 7 (answer_frame (test_head 1) (str "done"))], true).

Lemma simu_main_counts_witness : exists n', simu_main demo_peer (fun i => 100 + Z.of_nat i) demo_connects = Ret (20, 20) n'.
Proof.
  apply (simu_main_counts demo_peer (fun i => 100 + Z.of_nat i) demo_connects).
  - vm_compute. lia.
  - apply Forall_forall. intros x Hx. cbn [n_socket demo_connects] in Hx. apply list_elem_of_In, in_map_iff in Hx as (k & <- & _). lia.
  - reflexivity.
  - intros ssn. exists (test_head 1), (str "done"). eexists _, _, []. split; [reflexivity|]. split; [repeat constructor; vm_compute; discriminate|].
    split; [vm_compute; reflexivity|]. split; [apply test_head_wf|vm_compute; discriminate].
Defined.

