(* ===== verification/Roundtrip.v ===== *)
(** * A request from the client to a server and back

    The communication server and a server process together: the reading thread queues a
    client's request ([Exchange.v]), a server process takes it off, calls the service,
    which returns data ([Tuxcall.v]), and the writing thread sends the reply to the client.
    Each process runs on its own memory and on what all share: the kernel and the tables. *)

From Stdlib Require Import ZArith Lia Bool List Ascii String.
From stdpp Require Import base list gmap.
From S2P Require Import Prelude Cstr Funstr Kernel Funsock Funmsq Funfile Sunda Tuxmem Registry Tuxcall.
From S2P Require Import Clients Commserver Gateway Exchange Testclients.

(** The process [v] after the process [w] has changed the kernel and the shared tables. *)
Definition see (w v : world) : world :=
  set_w_os (set_kern (o_kern (w_os w)) (w_os v))
    (set_w_ctrl (w_ctrl w) (set_tSvrTab (tSvrTab w) (set_tSvrPid (tSvrPid w) (set_tSvcTab (tSvcTab w) v)))).

(** ** The server *)

(** [src/dev/src/onlsvr/testsvr/testsvr.c]: the example of a service. *)
Definition testsvr (trans : sd_info_t) : prog world unit :=
  store (i_data trans) (str "test222222 111111112") ;;;
  tux_return no_handler TUX_SUCCESS 0 (i_data trans) 20 0.

(** A service that writes the answer [f data] to the data [data] over them and returns it. *)
Definition answers (handler : Z -> prog world unit) (svc : sd_info_t -> prog world unit)
    (f : bytes -> bytes) : Prop :=
  forall info data w, load (i_data info) (i_len info) w = Ret data w ->
    svc info w = (store (i_data info) (f data) ;;;
                  tux_return handler TUX_SUCCESS 0 (i_data info) (Z.of_nat (length (f data))) 0) w.

Lemma testsvr_answers : answers no_handler testsvr (fun _ => str "test222222 111111112").
Proof. intros info data w _. reflexivity. Qed.

(** The service on its buffer. *)
Lemma service_replies handler svc f w1 ptr n h data payload q2 :
  let d := f payload in
  let len := Z.of_nat (length d) in
  let h' := set_h_len len h in
  answers handler svc f -> attached w1 = true -> gipcMsgHead w1 = h -> mb_longjmp w1 = 1 ->
  live ptr carraytype n data w1 -> 0 <= n <= MAX_OBJECT ->
  take (length payload) data = payload -> (length payload <= length data)%nat ->
  0 < len <= n -> SIZEOF_HEAD + len < BUS_MAX_MSG_LEN -> len <= max_msg_len (w_ctrl w1) ->
  length (h_name h) = 33%nat -> 1 <= h_req_msg_type h -> o_caught (w_os w1) = [] ->
  queue (rsp_que_id (w_ctrl w1)) (w_os w1) = Some q2 -> Z.of_nat (length (q_msgs q2)) <= MSQ_MAX_NUM ->
  fits (reply_msg h' d) q2 = true ->
  exists w2 data2, live ptr carraytype n data2 w2
    /\ svc (mkInfo (cstr (take NAME_LEN (h_name h))) ptr (Z.of_nat (length payload))) w1 = Jump 1 w2
    /\ w2 = set_w_os (set_queue (rsp_que_id (w_ctrl w1)) (enqueue (reply_msg h' d) q2) (w_os w1))
              (set_gipcMsgHead h' (set_w_heap (w_heap w2) w1)).
Proof.
  intros d len h' A Ha Hg Hj B Hn Ht Hld Hlen Hb Hmax Hname Hty Hc Hq2 Hcnt Hf.
  assert (Hdata : n <= Z.of_nat (length data)).
  { destruct B as (_ & _ & _ & _ & _ & Hd & _). cbn [tp_len] in Hd. rewrite Hd. now apply room_ge. }
  destruct (st_Some 0 d data) as [data2 S]; [lia|unfold len in Hlen; lia|].
  destruct (live_store ptr carraytype n data w1 0 d data2 B ltac:(lia) S) as (wa & E1 & B1 & W1 & _).
  rewrite Z.add_0_r in E1.
  assert (L1 : load ptr (Z.of_nat (length payload)) w1 = Ret payload w1).
  { rewrite (live_load ptr carraytype n data w1 _ B) by lia. now rewrite Nat2Z.id, Ht. }
  assert (L2 : load ptr len wa = Ret d wa).
  { rewrite (live_load ptr carraytype n data2 wa _ B1) by (rewrite (st_length _ _ _ _ S); lia).
    unfold len. rewrite Nat2Z.id. pose proof (ld_st_eq 0 d data data2 S) as L. unfold ld in L.
    destruct (_ && _) in L; [|done]. rewrite Nat2Z.id in L. change (Z.to_nat 0) with 0%nat in L. rewrite drop_0 in L. injection L as L. now rewrite L. }
  exists (set_w_os (set_queue (rsp_que_id (w_ctrl w1)) (enqueue (reply_msg h' d) q2) (w_os w1))
    (set_gipcMsgHead h' wa)), data2. split; [exact B1|]. split; [|cbn [w_heap set_w_os set_gipcMsgHead]; now rewrite <- W1].
  rewrite (A _ payload) by exact L1. cbn [i_data i_len]. rewrite (bind_Ret _ _ _ _ _ E1).
  pose proof (buffer_nonnull _ _ _ _ _ B) as Hp. apply Z.eqb_neq in Hp.
  subst h. assert (Eq : attached wa = true /\ mb_longjmp wa = 1 /\ w_ctrl wa = w_ctrl w1 /\ w_os wa = w_os w1
    /\ gipcMsgHead wa = gipcMsgHead w1) by (rewrite W1; done).
  destruct Eq as (A1 & A2 & A3 & A4 & A5). unfold h'. rewrite <- A5, <- A4, <- A3. fold d len.
  apply tux_return_sends; rewrite ?A1, ?A2, ?A3, ?A4, ?A5; try done. lia.
Qed.

(** The process that serves the request. *)
Section Serve.
Context (handler : Z -> prog world unit) (svc_call : Z -> sd_info_t -> prog world unit).
Context (v : world) (svrid svc_pos : Z) (q q2 : kqueue) (h : IPCMsgHead) (src : Z) (payload extra : bytes)
  (r : list kmsg) (k : Z) (s : service_tab_t) (p : server_pid_t) (f : bytes -> bytes).
Let T := svrid + SVR_MSG_TYPE_ROOT.
Let req := req_que_id (w_ctrl v).
Let rsp := rsp_que_id (w_ctrl v).
Let d := f payload.
Let len := Z.of_nat (length d).
Let h' := set_h_len len h.
Hypotheses (Ha : attached v = true) (K : tables_ok v) (Hc : o_caught (w_os v) = [])
  (Hq : queue req (w_os v) = Some q) (HT : 0 < T)
  (Hm : of_type T (q_msgs q) = mkMsg T (le64 src ++ enc_head h ++ payload ++ extra) :: r)
  (Hsrc : LONG_MIN <= src <= LONG_MAX)
  (Hh : wf_head h) (Hlen : h_len h = Z.of_nat (length payload))
  (Hfit : Z.of_nat (length (payload ++ extra)) <= BUS_MAX_MSG_LEN - 8 - SIZEOF_HEAD)
  (Hk : scan (registered (h_name h)) (tSvcTab v) 0 = k) (Hs : znth (tSvcTab v) k = Some s)
  (Hfun : sd_fun s <> NULL) (Hp : znth (tSvrPid v) svc_pos = Some p)
  (Hheap : heap_ok v) (Hbrk : w_brk v < 2 ^ 62) (Hmem : 64 + room (h_len h + 2048) <= w_mem v)
  (Hans : answers handler (svc_call (sd_fun s)) f)
  (Hd : 0 < len <= h_len h + 2048) (Hd1 : SIZEOF_HEAD + len < BUS_MAX_MSG_LEN) (Hd2 : len <= max_msg_len (w_ctrl v))
  (Hne : req <> rsp) (Hty : 1 <= h_req_msg_type h)
  (Hq2 : queue rsp (w_os v) = Some q2) (Hcnt : Z.of_nat (length (q_msgs q2)) <= MSQ_MAX_NUM)
  (Hf : fits (reply_msg h' d) q2 = true).

(** It takes the request off, and leaves the reply; nothing else that is shared changes,
    but the count of requests served. *)
Lemma server_answers : exists v' l,
  tux_service handler svc_call svrid svc_pos v = Ret 0 v'
  /\ w_os v' = set_queue rsp (enqueue (reply_msg h' d) q2) (set_queue req (set_msgs l q) (w_os v))
  /\ of_type T l = r /\ (forall u, u <> T -> of_type u l = of_type u (q_msgs q))
  /\ w_ctrl v' = w_ctrl v /\ tSvrTab v' = tSvrTab v /\ tSvcTab v' = tSvcTab v
  /\ tSvrPid v' = zupd svc_pos (fun p => set_req_done (u32 (req_done p + 1)) p) (tSvrPid v).
Proof.
  destruct (dispatch_eq handler svc_call v svrid svc_pos q h src payload extra r k s p)
    as (ptr & data & w1 & E & (A1 & A2 & A3 & B & D & _ & _ & C & S1 & S2 & S3 & M1 & M2 & l & Eo)); try assumption.
  assert (El : msgs req (w_os w1) = l) by (unfold msgs; now rewrite Eo, queue_set_eq).
  fold req in M1, M2. rewrite El in M1, M2. rewrite length_app in Hfit. unfold BUS_MAX_MSG_LEN, SIZEOF_HEAD in Hfit.
  assert (Lp : length (take (length payload + 1) data) = (length payload + 1)%nat)
    by (rewrite D, length_app; done).
  rewrite length_take in Lp.
  destruct (service_replies handler (svc_call (sd_fun s)) f w1 ptr (h_len h + 2048) h data payload q2)
    as (w2 & data2 & B2 & R & W2); rewrite ?C; try assumption; try lia.
  - unfold MAX_OBJECT. lia.
  - apply (f_equal (take (length payload))) in D. rewrite take_take, take_app_length in D.
    now replace (length payload `min` (length payload + 1))%nat with (length payload) in D by lia.
  - apply Hh.
  - now rewrite Eo.
  - rewrite Eo, queue_set_ne; done.
  - exists (set_mb_longjmp 0 (set_w_heap (delete (ptr - 32) (w_heap w2)) w2)), l. split; [|split; [|split; [exact M1|split; [exact M2|]]]].
    + rewrite E. unfold with_setjmp, call_fun. rewrite (proj2 (Z.eqb_neq _ _) Hfun). unfold service_info.
      rewrite Hlen, R. unfold after_service.
      now rewrite (bind_Ret _ _ _ _ _ (free_computes _ _ _ _ _ B2 eq_refl eq_refl)).
    + cbn [w_os set_mb_longjmp set_w_heap]. rewrite W2. cbn [w_os set_w_os]. now rewrite C, Eo.
    + cbn [w_ctrl tSvrTab tSvcTab tSvrPid set_mb_longjmp set_w_heap]. rewrite W2.
      cbn [w_ctrl tSvrTab tSvcTab tSvrPid set_w_os set_gipcMsgHead set_w_heap]. done.
Qed.
End Serve.

(** ** The way of a request *)

Section Answer.
Context (hv : Z -> prog world unit) (svc_call : Z -> sd_info_t -> prog world unit) (f : bytes -> bytes).
Context (g : comm) (cs : list connect_handle_t) (j : nat) (c : connect_handle_t) (s : sock) (p p2 r : Z)
  (buf buf2 rbuf : bytes) (rq : sunda_req_head_t) (payload rest nb : bytes).
Context (v : world) (t : server_tab_t) (svrno svc_pos ks : Z) (e : service_tab_t) (pe : server_pid_t) (q q2 : kqueue).
Let w := g_world g.
Let x := fd c.
Let nm := cstr nb.
Let len := Z.of_nat (length payload).
Let d := f payload.
Let req := req_que_id (w_ctrl w).
Let rsp := rsp_que_id (w_ctrl w).
Let T := svrid t + SVR_MSG_TYPE_ROOT.
Let h := forward_head nm x (r_ssn rq) len c.
Let m := mkMsg T (le64 0 ++ enc_head h ++ payload ++ zeros 44).
Let h' := set_h_len (Z.of_nat (length d)) h.

(** A client has sent a request to a connection of the table. *)
Hypotheses (I : single g cs) (Hj : cs !! j = Some c)
  (Hs : n_socks (g_net g) !! x = Some s) (Hps : pieces_ok (s_in s))
  (Hin : List.concat (s_in s) = frame (request_body rq payload) ++ rest) (Hroom : Forall (fun k => 0 < k) (s_room s))
  (Hrq : wf_req rq) (Hnm : AllTrim (r_name rq ++ [NUL]) = Some nb) (Hlen : len <= 3912)
  (Hc : conn_ok c) (Hssn : 0 <= ssn c < 2 ^ 32) (Htime : 0 <= utime c < 2 ^ 32).

(** The gateway, with the buffers of its two threads. *)
Hypotheses (Ha : attached w = true) (K : tables_ok w) (Hcaught : o_caught (w_os w) = [])
  (Hp0 : p mod STRIDE = 0) (Hp : p <> NULL) (Hbuf : w_heap w !! p = Some buf) (Lbuf : Z.of_nat (length buf) = SIZEOF_BUF)
  (Hp20 : p2 mod STRIDE = 0) (Hp2 : p2 <> p) (Hbuf2 : w_heap w !! p2 = Some buf2) (Lbuf2 : Z.of_nat (length buf2) = SIZEOF_BUF)
  (Hr0 : r mod STRIDE = 0) (Hr : r <> p) (Hrbuf : w_heap w !! r = Some rbuf) (Lrbuf : length rbuf = 8%nat) (Hp2r : p2 <> r).

(** The server that the tables name for the request, and its service. *)
Hypotheses (Hsv : scan (fun t => same_name nm (svc_name t)) (tSvrTab w) 0 = svrno) (Hpos : 0 <= svrno)
  (Ht : znth (tSvrTab w) svrno = Some t) (Hdown : down t = false) (HT : msg_type t = T) (HT1 : 1 <= T)
  (Hk : scan (registered (buf_of 33 nm)) (tSvcTab w) 0 = ks) (He : znth (tSvcTab w) ks = Some e) (Hfun : sd_fun e <> NULL)
  (Hpe : znth (tSvrPid w) svc_pos = Some pe) (Hans : answers hv (svc_call (sd_fun e)) f)
  (Hav : attached v = true) (Hcv : o_caught (w_os v) = [])
  (Hheap : heap_ok v) (Hbrk : w_brk v < 2 ^ 62) (Hmem : 64 + room (len + 2048) <= w_mem v)
  (Hd : 0 < Z.of_nat (length d) <= len + 2048) (Hd1 : SIZEOF_HEAD + Z.of_nat (length d) < BUS_MAX_MSG_LEN - 8)
  (Hd2 : Z.of_nat (length d) <= max_msg_len (w_ctrl w)).

(** The queues hold nothing for the two of them, and have room. *)
Hypotheses (Hne : req <> rsp) (Hmax : SIZEOF_HEAD + 4 + SIZEOF_REQ + len <= max_msg_len (w_ctrl w))
  (Hq : queue req (w_os w) = Some q) (Hcnt : Z.of_nat (length (q_msgs q)) <= MSQ_MAX_NUM)
  (Hfits : fits m q = true) (Hmt : of_type T (q_msgs q) = [])
  (Hq2 : queue rsp (w_os w) = Some q2) (Hcnt2 : Z.of_nat (length (q_msgs q2)) <= MSQ_MAX_NUM)
  (Hfits2 : fits (reply_msg h' d) q2 = true) (Hmt2 : of_type COMM_S_MSG_TYPE_ROOT (q_msgs q2) = []).

Lemma name_fits : (length nm <= 32)%nat.
Proof. exact (length_name rq nb Hrq Hnm). Qed.

Lemma forward_head_wf : wf_head h.
Proof.
  pose proof name_fits as L. destruct Hc as [Hf _]. destruct Hrq as (_ & Hr2 & _). unfold wf_head, h, forward_head.
  cbn [h_name h_ssn h_conn_ssn h_req_msg_type h_fd h_utime h_reply_flag h_note_msg_type h_len]. unfold buf_of.
  rewrite length_app, length_zeros_nat. unfold COMM_S_MSG_TYPE_ROOT, REPLY_FLAG_ASYN, x, len in *. lia.
Qed.

Lemma reply_head_name n : n = 32%nat -> take n (buf_of 33 nm) = buf_of 32 nm.
Proof.
  intros ->. pose proof name_fits as L. unfold buf_of. rewrite take_app_ge by lia. f_equal.
  unfold zeros. rewrite take_replicate. f_equal. lia.
Qed.

Lemma of_type_one ty ty' b : of_type ty [mkMsg ty' b] = if ty' =? ty then [mkMsg ty' b] else [].
Proof. reflexivity. Qed.

(** The server's turn: it finds the request, and leaves the reply. *)
Lemma turn_of_server buf' :
  let w1 := set_w_os (set_queue req (enqueue m q) (w_os w)) (set_w_heap (<[p := buf']> (w_heap w)) w) in
  exists v' l, tux_service hv svc_call (svrid t) svc_pos (see w1 v) = Ret 0 v'
    /\ w_os v' = set_queue rsp (enqueue (reply_msg h' d) q2) (set_queue req (set_msgs l q) (w_os (see w1 v)))
    /\ of_type T l = [] /\ w_ctrl v' = w_ctrl w.
Proof.
  intros w1. pose proof name_fits as Ln. pose proof forward_head_wf as Wh.
  destruct (server_answers hv svc_call (see w1 v) (svrid t) svc_pos (enqueue m q) q2 h 0 payload (zeros 44) [] ks e pe f)
    as (v' & l & E & Eo & M1 & _ & C & _); try done.
  - eapply tables_ok_keep; [..|exact K]; reflexivity.
  - change (queue req (set_queue req (enqueue m q) (w_os w)) = Some (enqueue m q)). apply queue_set_eq.
  - fold T. lia.
  - cbn [enqueue q_msgs set_msgs]. fold T. rewrite of_type_app, Hmt. unfold m. rewrite of_type_one, Z.eqb_refl. reflexivity.
  - rewrite length_app, length_zeros_nat. unfold BUS_MAX_MSG_LEN, SIZEOF_HEAD, len in *. lia.
  - fold d. unfold BUS_MAX_MSG_LEN, SIZEOF_HEAD in *. lia.
  - change (queue rsp (set_queue req (enqueue m q) (w_os w)) = Some q2). now rewrite queue_set_ne.
  - exists v', l. refine (conj E (conj _ (conj M1 C))). exact Eo.
Qed.

Lemma reply_head_wf : wf_head h'.
Proof.
  destruct forward_head_wf as (W1 & W2 & W3 & W4 & W5 & W6 & W7 & W8 & _).
  unfold wf_head, h'. unfold BUS_MAX_MSG_LEN, SIZEOF_HEAD in *.
  cbn [h_name h_ssn h_conn_ssn h_req_msg_type h_fd h_utime h_reply_flag h_note_msg_type h_len set_h_len].
  repeat (split; [assumption|]). unfold d in *. lia.
Qed.

(** The gateway's turn: the writing thread finds the reply. *)
Lemma turn_of_writer buf' v' l ps :
  let g1 := set_g_world (set_w_os (set_queue req (enqueue m q) (w_os w)) (set_w_heap (<[p := buf']> (w_heap w)) w))
              (set_g_net (left_over x s ps (g_net g)) g) in
  List.concat ps = rest -> w_ctrl v' = w_ctrl w -> of_type T l = [] ->
  w_os v' = set_queue rsp (enqueue (reply_msg h' d) q2) (set_queue req (set_msgs l q) (w_os (see (g_world g1) v))) ->
  exists g3, write_step p2 r (set_g_world (see v' (g_world g1)) g1) = Ret true g3
    /\ (exists s3, n_socks (g_net g3) !! x = Some s3
         /\ s_out s3 = s_out s ++ frame (enc_req (mkReq (buf_of 32 nm) (r_ssn rq) 0) ++ d)
         /\ List.concat (s_in s3) = rest)
    /\ (forall y, y <> x -> n_socks (g_net g3) !! y = n_socks (g_net g) !! y)
    /\ single g3 (<[j := with_status FD_STAT_WRITE c]> cs)
    /\ of_type T (msgs req (w_os (g_world g3))) = []
    /\ of_type COMM_S_MSG_TYPE_ROOT (msgs rsp (w_os (g_world g3))) = [].
Proof.
  intros g1 Hrest C M1 Eo. set (g2 := set_g_world (see v' (g_world g1)) g1).
  assert (I2 : single g2 cs).
  { apply (single_step g g2 cs cs); try done; [exact (proj1 I)|]. eapply Forall_impl; [exact (single_opened g cs I)|].
    intros b Hb. now apply opened_insert. }
  assert (Qr : queue (rsp_que_id (w_ctrl (g_world g2))) (w_os (g_world g2)) = Some (enqueue (reply_msg h' d) q2)).
  { cbn [g2 g_world set_g_world see w_ctrl set_w_os set_w_ctrl w_os]. rewrite C.
    change (queue rsp (w_os v') = Some (enqueue (reply_msg h' d) q2)). rewrite Eo. apply queue_set_eq. }
  assert (Qs : queue req (w_os (g_world g2)) = Some (set_msgs l q)).
  { change (queue req (w_os v') = Some (set_msgs l q)). rewrite Eo, queue_set_ne by done. apply queue_set_eq. }
  destruct (write_step_sends g2 p2 r h' d buf2 rbuf 0 (enqueue (reply_msg h' d) q2) [])
    with (cs := cs) (k := j) (c := c) (s := set_in ps s) as (g3 & kr & l3 & E & I3 & S3 & O3 & W3 & N3 & _); try done.
  - cbn [enqueue q_msgs set_msgs]. rewrite of_type_app, Hmt2. unfold reply_msg. now rewrite of_type_one.
  - exact reply_head_wf.
  - unfold BUS_MAX_MSG_LEN, SIZEOF_HEAD in *. lia.
  - change (<[p := buf']> (w_heap w) !! p2 = Some buf2). now rewrite lookup_insert_ne.
  - change (<[p := buf']> (w_heap w) !! r = Some rbuf). rewrite lookup_insert_ne; [exact Hrbuf|congruence].
  - apply lookup_insert_eq.
  - exists g3. split; [exact E|]. split; [|split; [|split; [exact I3|split]]].
    + eexists. split; [exact S3|]. split; [|exact Hrest]. unfold reply_body, reply_head.
      cbn [s_out set_out set_in h' h_name h_ssn set_h_len h forward_head]. now rewrite reply_head_name.
    + intros y Hy. rewrite O3 by done. now apply lookup_insert_ne.
    + rewrite W3. unfold msgs. rewrite queue_set_ne, Qs; [exact M1|].
      cbn [g2 g_world set_g_world see w_ctrl set_w_os set_w_ctrl]. rewrite C. exact (not_eq_sym Hne).
    + rewrite W3. unfold msgs.
      replace (rsp_que_id (w_ctrl (g_world g2))) with rsp
        by (cbn [g2 g_world set_g_world see w_ctrl set_w_os set_w_ctrl]; now rewrite C).
      rewrite queue_set_eq. exact N3.
Qed.

(** C1: a client's request is answered.  With one reading thread, when the request of a
    connection is for a service that a running server has registered, the reading thread queues it, the server process
    takes it, calls the service and queues the answer, and the writing thread sends the
    client one frame: the service's name, the number the client gave to the request, and
    the answer to its data.  Other clients get nothing, the connection stays open, and no
    message is left behind. *)
Theorem request_answered : exists g1 v' g3,
  read_forward p x c g = Ret tt g1
  /\ tux_service hv svc_call (svrid t) svc_pos (see (g_world g1) v) = Ret 0 v'
  /\ write_step p2 r (set_g_world (see v' (g_world g1)) g1) = Ret true g3
  /\ (exists s3, n_socks (g_net g3) !! x = Some s3
       /\ s_out s3 = s_out s ++ frame (enc_req (mkReq (buf_of 32 nm) (r_ssn rq) 0) ++ d)
       /\ List.concat (s_in s3) = rest)
  /\ (forall y, y <> x -> n_socks (g_net g3) !! y = n_socks (g_net g) !! y)
  /\ single g3 (<[j := with_status FD_STAT_WRITE c]> cs)
  /\ of_type T (msgs req (w_os (g_world g3))) = []
  /\ of_type COMM_S_MSG_TYPE_ROOT (msgs rsp (w_os (g_world g3))) = [].
Proof.
  destruct (read_forward_sends g p x c s rq payload rest nb t svrno q buf) as (ps & buf' & R & E1); try done.
  - unfold len in Hlen. lia.
  - rewrite HT. lia.
  - destruct (turn_of_server buf') as (v' & l & E2 & Eo & M1 & C).
    destruct (turn_of_writer buf' v' l ps R C M1 Eo) as (g3 & E3).
    rewrite HT in E1. eexists _, v', g3. refine (conj E1 (conj E2 E3)).
Qed.

(** What the gateway takes for the name of the service. *)
Lemma test_name now : rq = test_head now -> buf_of 32 nm = str "testsvr" ++ zeros 25.
Proof. intros E. unfold nm. revert Hnm. rewrite E. cbn [r_name test_head]. vm_compute (AllTrim _). now intros [= <-]. Qed.

(** C2: from the test client to the server and back.  With one reading thread in the gateway,
    when the request on its socket is the one that [client.c] sends, the gateway and the server answer it, and
    the client that gets the bytes that the gateway has sent, in whatever pieces, logs the
    service's answer. *)
Theorem client_answered now :
  rq = test_head now -> payload = test_data -> rest = [] -> Z.of_nat (length d) <= 213 -> nonul d ->
  List.concat (s_in s) = test_request now
  /\ exists g1 v' g3 s3,
    read_forward p x c g = Ret tt g1
    /\ tux_service hv svc_call (svrid t) svc_pos (see (g_world g1) v) = Ret 0 v'
    /\ write_step p2 r (set_g_world (see v' (g_world g1)) g1) = Ret true g3
    /\ n_socks (g_net g3) !! x = Some s3 /\ s_out s3 = s_out s ++ answer_frame (test_head now) d
    /\ forall peer ps eof fd l lc n,
         peer (test_request now) = (ps, eof) -> pieces_ok ps -> s_out s ++ List.concat ps = s_out s3 ->
         n_socket n = fd :: l -> 0 <= fd -> n_connect n = Connected :: lc ->
         exists n', client_main peer now n = Ret d n'.
Proof.
  intros Erq Epl Er Hd213 Nd. split; [now rewrite Hin, Erq, Epl, Er, app_nil_r|].
  destruct (read_forward_sends g p x c s rq payload rest nb t svrno q buf) as (ps & buf' & R & E1); try done.
  - unfold len in Hlen. lia.
  - rewrite HT. lia.
  - destruct (turn_of_server buf') as (v' & l & E2 & Eo & M1 & C).
    destruct (turn_of_writer buf' v' l ps R C M1 Eo) as (g3 & E3 & (s3 & S3 & O3 & _) & _).
    rewrite HT in E1. eexists _, v', g3, s3. rewrite (test_name now Erq), Erq in O3.
    refine (conj E1 (conj E2 (conj E3 (conj S3 (conj O3 _))))).
    intros peer ps3 eof fd3 l3 lc n Hpe3 P3 Ec Hf H0 Hcn. rewrite O3 in Ec. apply app_inv_head in Ec.
    destruct (client_main_logs peer fd3 l3 lc now n (test_head now) d Hf H0 Hcn) as (n' & E & _); [|exact Nd|now exists n'].
    exists ps3, eof, []. split; [exact Hpe3|]. split; [exact P3|]. split; [|split; [apply test_head_wf|exact Hd213]].
    rewrite Ec, app_nil_r. reflexivity.
Qed.
End Answer.

(** *** Witnesses *)

(** The gateway's memory: the buffer of the reading thread, then the length and the buffer
    of the writing thread. *)
Definition demo_two_threads : world :=
  set_w_heap (<[3 * STRIDE := zeros SIZEOF_BUF]> (w_heap demo_threads)) demo_threads.

Definition demo_server : world := demo_process [] [] [] demo_services.

Lemma demo_two_threads_heap :
  w_heap demo_two_threads !! STRIDE = Some (zeros SIZEOF_BUF)
  /\ w_heap demo_two_threads !! (2 * STRIDE) = Some (zeros 8)
  /\ w_heap demo_two_threads !! (3 * STRIDE) = Some (zeros SIZEOF_BUF).
Proof.
  unfold demo_two_threads, demo_threads, demo_process. cbn [w_heap set_w_heap set_w_os set_w_brk].
  split; [|split; [|apply lookup_insert_eq]].
  - rewrite lookup_insert_ne by done. apply lookup_insert_eq.
  - rewrite !lookup_insert_ne by done. apply lookup_singleton_eq.
Qed.

Lemma request_answered_witness :
  exists g1 v' g3,
    read_forward STRIDE 6 (a_conn 6 1) (demo_gateway demo_two_threads [take 10 echo_frame; drop 10 echo_frame] 0) = Ret tt g1
    /\ tux_service no_handler (fun _ => testsvr) 7 0 (see (g_world g1) demo_server) = Ret 0 v'
    /\ write_step (3 * STRIDE) (2 * STRIDE) (set_g_world (see v' (g_world g1)) g1) = Ret true g3
    /\ exists s3, n_socks (g_net g3) !! 6 = Some s3
       /\ s_out s3 = frame (enc_req (mkReq (str "ECHO" ++ zeros 28) 77 0) ++ str "test222222 111111112").
Proof.
  destruct demo_two_threads_heap as (H1 & H2 & H3).
  destruct (request_answered no_handler (fun _ => testsvr) (fun _ => str "test222222 111111112")
    (demo_gateway demo_two_threads [take 10 echo_frame; drop 10 echo_frame] 0) demo_conns 1 (a_conn 6 1)
    (client_sock [take 10 echo_frame; drop 10 echo_frame]) STRIDE (3 * STRIDE) (2 * STRIDE)
    (zeros SIZEOF_BUF) (zeros SIZEOF_BUF) (zeros 8) echo_req hello [] (str "ECHO" ++ zeros 29)
    demo_server demo_svr 1 0 0 echo_entry (manager_pid 100 0) (mkQueue 601107 [] MSGMNB) (mkQueue 601117 [] MSGMNB))
    as (g1 & v' & g3 & E1 & E2 & E3 & (s3 & S & O & _) & _);
    [..|exists g1, v', g3; refine (conj E1 (conj E2 (conj E3 _))); exists s3; split; [exact S|exact O]].
  all: lazymatch goal with
    | |- tables_ok _ => apply (tables_ok_keep demo_threads); [reflexivity..|apply demo_process_ok; [reflexivity|apply demo_services_ok]]
    | |- conn_ok _ => unfold conn_ok; vm_compute; intuition discriminate
    | |- answers _ _ _ => exact testsvr_answers
    | |- w_heap _ !! STRIDE = _ => exact H1
    | |- w_heap _ !! (2 * STRIDE) = _ => exact H2
    | |- w_heap _ !! (3 * STRIDE) = _ => exact H3
    | |- _ => threads_tac
    end.
Defined.

(** The test server in the tables, with its service. *)
Definition test_svr : server_tab_t :=
  mkSvr 7 (str "testsvr") (str "testsvr") [] 2 TUX_IDLE SVR_REPLY_NEED SVR_PERM 300007 20.
Definition test_entry : service_tab_t := service_entry (str "testsvr") 1 5.
Definition test_services : list service_tab_t := [test_entry; free_svc; free_svc].
Definition test_process (data : bytes) : world :=
  set_tSvrTab [manager_svr; test_svr; clear_svr] (demo_process data [] [] test_services).
Definition test_threads : world :=
  set_w_heap (<[3 * STRIDE := zeros SIZEOF_BUF]> (w_heap (test_process (zeros SIZEOF_BUF)))) (test_process (zeros SIZEOF_BUF)).

Lemma test_process_ok data : tables_ok (test_process data).
Proof.
  assert (Hs : svc_ok test_entry) by (split; [repeat constructor; discriminate|done]). destruct demo_svc_ok as [_ F].
  split; [reflexivity|reflexivity|reflexivity| |].
  - change (Forall (fun t => nonul (svc_name t)) [manager_svr; test_svr; clear_svr]). repeat constructor; discriminate.
  - change (Forall svc_ok test_services). repeat (apply Forall_cons; split; [assumption|]). constructor.
Qed.

Lemma test_process_heap data : heap_ok (test_process data).
Proof.
  split; [done|]. split; [done|]. intros a [b H].
  cbn [test_process demo_process w_heap set_w_os set_w_brk set_w_heap set_tSvrTab] in H.
  apply lookup_insert_Some in H as [[<- _]|[_ H]]; [done|].
  apply lookup_singleton_Some in H as [<- _]. done.
Qed.

Lemma test_threads_heap :
  w_heap test_threads !! STRIDE = Some (zeros SIZEOF_BUF)
  /\ w_heap test_threads !! (2 * STRIDE) = Some (zeros 8)
  /\ w_heap test_threads !! (3 * STRIDE) = Some (zeros SIZEOF_BUF).
Proof.
  unfold test_threads, test_process, demo_process. cbn [w_heap set_w_heap set_w_os set_w_brk set_tSvrTab].
  split; [|split; [|apply lookup_insert_eq]].
  - rewrite lookup_insert_ne by done. apply lookup_insert_eq.
  - rewrite !lookup_insert_ne by done. apply lookup_singleton_eq.
Qed.

Lemma client_answered_witness :
  let g := demo_gateway test_threads [take 10 (test_request 100); drop 10 (test_request 100)] 0 in
  exists g1 v' g3 s3,
    read_forward STRIDE 6 (a_conn 6 1) g = Ret tt g1
    /\ tux_service no_handler (fun _ => testsvr) 7 0 (see (g_world g1) (test_process [])) = Ret 0 v'
    /\ write_step (3 * STRIDE) (2 * STRIDE) (set_g_world (see v' (g_world g1)) g1) = Ret true g3
    /\ n_socks (g_net g3) !! 6 = Some s3
    /\ exists n', client_main (fun _ => ([s_out s3], false)) 100 demo_connects = Ret (str "test222222 111111112") n'.
Proof.
  destruct test_threads_heap as (H1 & H2 & H3).
  destruct (client_answered no_handler (fun _ => testsvr) (fun _ => str "test222222 111111112")
    (demo_gateway test_threads [take 10 (test_request 100); drop 10 (test_request 100)] 0) demo_conns 1 (a_conn 6 1)
    (client_sock [take 10 (test_request 100); drop 10 (test_request 100)]) STRIDE (3 * STRIDE) (2 * STRIDE)
    (zeros SIZEOF_BUF) (zeros SIZEOF_BUF) (zeros 8) (test_head 100) test_data [] (str "testsvr" ++ zeros 26)
    (test_process []) test_svr 1 0 0 test_entry (manager_pid 100 0) (mkQueue 601107 [] MSGMNB) (mkQueue 601117 [] MSGMNB))
    with (now := 100) as (_ & g1 & v' & g3 & s3 & E1 & E2 & E3 & S3 & O3 & P).
  all: lazymatch goal with
    | |- tables_ok _ => apply (tables_ok_keep (test_process (zeros SIZEOF_BUF))); [reflexivity..|apply test_process_ok]
    | |- conn_ok _ => unfold conn_ok; vm_compute; intuition discriminate
    | |- answers _ _ _ => exact testsvr_answers
    | |- w_heap _ !! STRIDE = _ => exact H1
    | |- w_heap _ !! (2 * STRIDE) = _ => exact H2
    | |- w_heap _ !! (3 * STRIDE) = _ => exact H3
    | |- nonul _ => repeat constructor; discriminate
    | |- let _ := _ in _ => idtac
    | |- heap_ok _ => apply test_process_heap
    | |- _ => threads_tac
    end.
  intros g. exists g1, v', g3, s3. refine (conj E1 (conj E2 (conj E3 (conj S3 _)))).
  apply (P (fun _ => ([s_out s3], false)) [s_out s3] false 5 (map Z.of_nat (List.seq 6 19)) (replicate 19 Connected) demo_connects).
  - reflexivity.
  - constructor; [|constructor]. rewrite O3. discriminate.
  - cbn [List.concat]. now rewrite app_nil_r.
  - reflexivity.
  - discriminate.
  - reflexivity.
Defined.
