(* ===== verification/Tools.v ===== *)
(** * The management tools: [tmstart], [tmexit], [tmfresh], [tmdown], [tmlook], [tmclear]

    The main programs under [src/dev/src/Main] but the manager's.  Their results are the
    exit codes and, for [tmlook], what it prints; the other messages are not modelled.
    [argv] has the program's name first. *)

From Stdlib Require Import ZArith Lia Bool List Ascii String.
From stdpp Require Import base list gmap.
From S2P Require Import Prelude Cstr Funstr Kernel Funmsq Funipc Funfile Sunda Tuxmem Registry.
From S2P Require Import Tuxcall Tuxcmd Governor Taskline Invariant Manager Roundtrip.

Section Tools.
Context (handler : Z -> prog world unit).

(** [getopt(argc, argv, "i:")], called once: [None] for -1 and for [?]. *)
Definition svr_id_option (argv : list bytes) : option bytes :=
  match getopt_all (str "i") (tl argv) with
  | Some (_, optarg) :: _ => Some optarg
  | _ => None
  end.

Definition tmstart (argv : list bytes) : prog world Z :=
  match svr_id_option argv with
  | None => ret (-1)
  | Some optarg =>
      let* rc := ipc_connect in
      if negb (rc =? 0) then ret (-1)
      else
        let* rc := svr_cmd_deal handler (atoi optarg) TSK_CMD_START in
        if negb (rc =? 0) then ret (-1) else ret 0
  end.

Definition tmexit (argv : list bytes) : prog world Z :=
  match svr_id_option argv with
  | None => ret (-1)
  | Some optarg =>
      let* rc := ipc_connect in
      if negb (rc =? 0) then ret (-1)
      else
        let* rc := svr_cmd_deal handler (atoi optarg) TSK_CMD_EXIT in
        if negb (rc =? 0) then ret (-1) else ret 0
  end.

Definition tmfresh (argv : list bytes) : prog world Z :=
  match svr_id_option argv with
  | None => ret (-1)
  | Some optarg =>
      let* rc := ipc_connect in
      if negb (rc =? 0) then ret (-1)
      else
        let* rc := svr_cmd_deal handler (atoi optarg) TSK_CMD_FRESH in
        if negb (rc =? 0) then ret (-1) else ret 0
  end.

Definition tmdown : prog world Z :=
  let* rc := ipc_connect in
  if negb (rc =? 0) then ret (-1)
  else
    let* rc := ipc_remove in
    if negb (rc =? 0) then ret (-2) else ret 0.

(** The listing that is printed; [flag] is a buffer of three bytes. *)
Definition list_info (flag : bytes) : prog world bytes :=
  if bool_decide (take 2 flag = str "-r") then list_server
  else if bool_decide (take 2 flag = str "-s") then list_service
  else if bool_decide (take 2 flag = str "-q") then list_queue
  else ret [].

(** What [tmlook] prints before it ends with 0. *)
Definition tmlook (argv : list bytes) : prog world bytes :=
  let flag := match argv with
    | _ :: arg :: _ => if Z.of_nat (length arg) =? 2 then buf_of 3 arg else zeros 3
    | _ => zeros 3
    end in
  let* rc := ipc_connect in
  if negb (rc =? 0) then exit_ 1 else list_info flag.

Definition tmclear : prog world Z :=
  let* rc := ipc_connect in
  if negb (rc =? 0) then ret (-1)
  else
    let* c := ctrl in
    lift (MsqClear (req_que_id c) zero_msg) ;;;
    lift (MsqClear (rsp_que_id c) zero_msg) ;;;
    ret 0.
End Tools.

(** ** A command, from the tool to the manager and back *)

(** The head of a command, and its message. *)
Definition cmd_head (cmd now : Z) : IPCMsgHead :=
  mkHead (buf_of 33 SD_MANAGER_SVC_NAME) (u32 now) 0 (REPLY_TYPE cmd) 0 now REPLY_FLAG_SYN 0 SIZEOF_CMD.

Lemma cmd_head_wf cmd now : - 2 ^ 31 <= REPLY_TYPE cmd < 2 ^ 31 -> - 2 ^ 63 <= now < 2 ^ 63 -> wf_head (cmd_head cmd now).
Proof.
  intros H1 H2. unfold wf_head, cmd_head.
  cbn [h_name h_ssn h_conn_ssn h_req_msg_type h_fd h_utime h_reply_flag h_note_msg_type h_len].
  pose proof (u32_range now). unfold SIZEOF_CMD, REPLY_FLAG_SYN. cbn [length buf_of]. repeat split; try lia; reflexivity.
Qed.

Lemma with_local_then {A B} bs (m : Z -> prog world A) (k : A -> prog world B) w :
  let p := w_brk w in
  bind (with_local bs m) k w
  = (let* a := m p in drop_object p ;;; k a) (set_w_brk (p + STRIDE) (set_w_heap (<[p := bs]> (w_heap w)) w)).
Proof.
  intros p. unfold with_local. rewrite bind_assoc. erewrite bind_Ret by reflexivity. rewrite bind_assoc.
  fold p. unfold bind at 1 4. now destruct (m p _).
Qed.

Lemma pack_cmd_head cmd w : gipcMsgHead w = zero_head ->
  packReqHead (REPLY_TYPE cmd) w = Ret tt (set_gipcMsgHead (cmd_head cmd (o_time (w_os w))) w).
Proof.
  intros H. assert (T : lift time_ w = Ret (o_time (w_os w)) w) by now destruct w.
  unfold packReqHead. do 2 rewrite (bind_Ret _ _ _ _ _ T).
  erewrite bind_Ret by reflexivity. rewrite H. reflexivity.
Qed.

(** What is left of [svr_cmd_deal] behind the call. *)
Definition deal_result (rsp rc : Z) : prog world Z :=
  if negb (rc =? 0) then ret rc
  else let* b := load (rsp + SIZEOF_HEAD) SIZEOF_CMD in ret (t_err (dec_cmd b)).

Section Deal.
Context (handler : Z -> prog world unit) (w : world) (id cmd : Z).
Let b := w_brk w.
Let h := cmd_head cmd (o_time (w_os w)).
Let data := enc_head h ++ enc_cmd (mkCmd cmd id 0).

(** The memory when [tux_call] is called. *)
Definition deal_world : world :=
  set_gipcMsgHead h (set_w_brk (b + STRIDE + STRIDE + STRIDE)
    (set_w_heap (<[b := data ++ zeros 917]> (<[b + STRIDE + STRIDE := zeros 8]> (<[b + STRIDE := zeros 1025]>
       (<[b := zeros 1025]> (w_heap w))))) w)).

Definition deal_drop (e : Z) : prog world Z :=
  drop_object (b + STRIDE + STRIDE) ;;; drop_object (b + STRIDE) ;;; drop_object b ;;; ret e.

Lemma length_cmd_head : length (enc_head h) = 96%nat.
Proof. now apply length_enc_head. Qed.

Lemma bind_head {A B} (m n : prog world A) (k : A -> prog world B) s s' :
  m s = n s' -> bind m k s = bind n k s'.
Proof. unfold bind. now intros ->. Qed.

Lemma svr_cmd_deal_eq : heap_ok w ->
  svr_cmd_deal handler id cmd w
  = (let* e := (let* rc := tux_call handler (Some SD_MANAGER_SVC_NAME) b 108 (b + STRIDE) (b + STRIDE + STRIDE) 0 in
                deal_result (b + STRIDE) rc) in
     deal_drop e) deal_world.
Proof.
  intros Hheap. pose proof (objects_aligned w Hheap) as (A1 & A2 & _). pose proof length_cmd_head as Lh.
  unfold svr_cmd_deal. unfold with_local at 1. erewrite bind_Ret by reflexivity. fold b.
  rewrite with_local_then. cbn zeta. cbn [w_brk set_w_brk]. fold b.
  rewrite with_local_then. cbn zeta. cbn [w_brk set_w_brk w_heap set_w_heap].
  rewrite bind_assoc. erewrite bind_Ret by reflexivity. rewrite bind_assoc.
  erewrite bind_Ret by (apply pack_cmd_head; reflexivity). cbn [w_os set_gipcMsgHead set_w_brk set_w_heap]. fold h.
  rewrite bind_assoc. erewrite bind_Ret by reflexivity. cbn [gipcMsgHead set_gipcMsgHead].
  apply bind_head. rewrite (store_two_then b _ _ 1025); [|now rewrite Lh|exact A1| | |done].
  - rewrite Lh, length_enc_cmd. unfold deal_world, data. rewrite <- app_assoc.
    reflexivity.
  - cbn [w_heap set_gipcMsgHead set_w_brk set_w_heap]. rewrite !lookup_insert_ne by (unfold STRIDE; lia). apply lookup_insert_eq.
  - rewrite Lh, length_enc_cmd. lia.
Qed.

Lemma length_cmd_data : Z.of_nat (length data) = 108.
Proof. unfold data. now rewrite length_app, length_cmd_head, length_enc_cmd. Qed.

Lemma deal_request : heap_ok w -> load b 108 deal_world = Ret data deal_world.
Proof.
  intros Hheap. pose proof (objects_aligned w Hheap) as (A1 & _).
  rewrite <- (Z.add_0_r b). eapply (load_at b 0); [exact A1|done|apply lookup_insert_eq|].
  apply (ld_app 0 108 []); [done|exact length_cmd_data].
Qed.

(** The server that the tables name for commands: the manager. *)
Context (t : server_tab_t) (svrno : Z) (q q2 : kqueue).
Let req := req_que_id (w_ctrl w).
Let rsp := rsp_que_id (w_ctrl w).
Let m := mkMsg (msg_type t) (le64 0 ++ data).
Let ty := REPLY_TYPE cmd.
Hypotheses (Hheap : heap_ok w) (Ha : attached w = true) (K : tables_ok w) (Hc : o_caught (w_os w) = [])
  (Hsv : scan (fun t => same_name SD_MANAGER_SVC_NAME (svc_name t)) (tSvrTab w) 0 = svrno) (Hpos : 0 <= svrno)
  (Ht : znth (tSvrTab w) svrno = Some t) (Hdown : down t = false) (Hty : 1 <= msg_type t)
  (Hmax : 108 <= max_msg_len (w_ctrl w)) (Hne : req <> rsp)
  (Hq : queue req (w_os w) = Some q) (Hcnt : Z.of_nat (length (q_msgs q)) <= MSQ_MAX_NUM) (Hfits : fits m q = true)
  (Hq2 : queue rsp (w_os w) = Some q2) (Hmt : of_type ty (q_msgs q2) = [])
  (Hcmd : 0 < ty < 2 ^ 31) (Hid : - 2 ^ 31 <= id < 2 ^ 31).

Lemma cmd_range : - 2 ^ 31 <= cmd < 2 ^ 31.
Proof. unfold ty, REPLY_TYPE, MNG_MSG_TYPE_ROOT in Hcmd. lia. Qed.

(** Until it is answered, the command is queued and the caller waits. *)
Lemma deal_waits : o_sched (w_os w) = [] ->
  svr_cmd_deal handler id cmd w
  = Block (set_timer_expired 0 (set_w_os (set_sched [] (set_queue req (enqueue m q) (w_os w))) deal_world)).
Proof.
  intros Hs. pose proof (objects_aligned w Hheap) as (A1 & A2 & _). rewrite svr_cmd_deal_eq by exact Hheap.
  destruct (call_waits handler deal_world SD_MANAGER_SVC_NAME b 108 svrno t data q q2 (b + STRIDE) (b + STRIDE + STRIDE) 0)
    as (w' & E & _ & W); try done.
  - eapply tables_ok_keep; [..|exact K]; reflexivity.
  - unfold NULL, b. lia.
  - now apply deal_request.
  - apply Hcmd.
  - unfold NULL, STRIDE, b. lia.
  - unfold NULL, STRIDE, b. lia.
  - unfold bind. rewrite E, W. reflexivity.
Qed.

(** The result is the error code in the answer. *)
Lemma deal_answered hd e evs :
  let a := mkMsg ty (le64 0 ++ hd ++ enc_cmd (mkCmd cmd id e)) in
  o_sched (w_os w) = EvRecv req (msg_type t) :: EvSend rsp a :: evs -> fits a q2 = true ->
  length hd = 96%nat -> - 2 ^ 31 <= e < 2 ^ 31 ->
  exists w', svr_cmd_deal handler id cmd w = Ret e w' /\ of_type ty (msgs rsp (w_os w')) = [].
Proof.
  intros a Hs Hf Lh He. pose proof (objects_aligned w Hheap) as (A1 & A2 & A3 & A4). rewrite svr_cmd_deal_eq by exact Hheap.
  assert (Lr : length (hd ++ enc_cmd (mkCmd cmd id e)) = 108%nat) by (rewrite length_app, Lh, length_enc_cmd; done).
  destruct (call_answers handler deal_world SD_MANAGER_SVC_NAME b 108 svrno t data q q2 (b + STRIDE) (b + STRIDE + STRIDE)
    (zeros 1025) (hd ++ enc_cmd (mkCmd cmd id e) ++ zeros 917) (zeros 8) 0 (hd ++ enc_cmd (mkCmd cmd id e)) evs 0)
    as (l & o' & E & Eo & Hl & _); try done.
  - eapply tables_ok_keep; [..|exact K]; reflexivity.
  - unfold NULL, b. lia.
  - now apply deal_request.
  - apply Hcmd.
  - rewrite Lr. unfold BUS_MAX_MSG_LEN. lia.
  - unfold NULL, STRIDE, b. lia.
  - cbn [deal_world w_heap set_gipcMsgHead set_w_brk set_w_heap]. rewrite !lookup_insert_ne by (unfold STRIDE; lia). apply lookup_insert_eq.
  - rewrite st_zeros_start by (rewrite Lr; lia). rewrite Lr, <- app_assoc. reflexivity.
  - unfold NULL, STRIDE, b. lia.
  - cbn [deal_world w_heap set_gipcMsgHead set_w_brk set_w_heap]. rewrite !lookup_insert_ne by (unfold STRIDE; lia). apply lookup_insert_eq.
  - unfold STRIDE. lia.
  - rewrite bind_assoc, (bind_Ret _ _ _ _ _ E). unfold deal_result. cbn [negb Z.eqb]. rewrite bind_assoc.
    erewrite bind_Ret.
    2:{ eapply load_at; [exact A3|done| |apply ld_app; [now rewrite Lh|now rewrite length_enc_cmd]].
        cbn [w_heap set_w_heap]. rewrite lookup_insert_ne by (unfold STRIDE; lia). apply lookup_insert_eq. }
    erewrite bind_Ret by reflexivity. eexists. split; [unfold deal_drop; rewrite <- (app_nil_r (enc_cmd _)), dec_enc_cmd|].
    + reflexivity.
    + pose proof cmd_range. now repeat split.
    + cbn [w_os set_w_heap set_timer_expired set_w_os]. unfold msgs. rewrite Eo.
      change (rsp_que_id (w_ctrl deal_world)) with rsp. now rewrite queue_set_eq.
Qed.
End Deal.

(** *** The manager's turn *)

Section Answer.
Context (execvp : bytes -> list bytes -> prog world Z).

(** What [Governor] does for a command. *)
Definition run_cmd (c : tskcmd_t) : prog world Z :=
  if t_cmd c =? TSK_CMD_START then cmd_start execvp (t_id c)
  else if t_cmd c =? TSK_CMD_EXIT then cmd_exit execvp (t_id c)
  else if t_cmd c =? TSK_CMD_FRESH then cmd_fresh execvp (t_id c)
  else ret 0.

Lemma st_cmd_err cmd id x e rest :
  st 8 (le32 e) (enc_cmd (mkCmd cmd id x) ++ rest) = Some (enc_cmd (mkCmd cmd id e) ++ rest).
Proof.
  unfold enc_cmd. cbn [t_cmd t_id t_err]. rewrite (app_assoc (le32 cmd)), <- !(app_assoc (le32 cmd ++ le32 id)).
  apply st_app; [now rewrite length_app, !length_le32|now rewrite !length_le32].
Qed.

Lemma live_same_heap ptr ty len data w w' :
  live ptr ty len data w -> live ptr ty len data w' ->
  (forall p, p <> ptr - 32 -> w_heap w' !! p = w_heap w !! p) -> w_heap w' = w_heap w.
Proof.
  intros (_ & _ & _ & _ & _ & _ & B) (_ & _ & _ & _ & _ & _ & B') H. apply map_eq. intros p.
  destruct (decide (p = ptr - 32)) as [->|N]; [congruence|now apply H].
Qed.

Lemma live_heap ptr ty len data w w' : w_heap w' = w_heap w -> live ptr ty len data w -> live ptr ty len data w'.
Proof. unfold live, buffer. now intros ->. Qed.

(** The service function, when the command ends with [e] and leaves the memory alone. *)
Lemma governor_answers info cmd id e rest n w1 w2 q2 :
  let c := mkCmd cmd id 0 in
  let h' := set_h_len SIZEOF_CMD (gipcMsgHead w2) in
  let d := enc_cmd (mkCmd cmd id e) in
  let rsp := rsp_que_id (w_ctrl w2) in
  live (i_data info) carraytype n (enc_cmd c ++ rest) w1 -> i_len info = SIZEOF_CMD -> wf_cmd c ->
  run_cmd c w1 = Ret e w2 -> w_heap w2 = w_heap w1 ->
  attached w2 = true -> mb_longjmp w2 <> 0 -> SIZEOF_CMD <= max_msg_len (w_ctrl w2) -> length (h_name h') = 33%nat ->
  1 <= h_req_msg_type h' -> o_caught (w_os w2) = [] -> queue rsp (w_os w2) = Some q2 ->
  Z.of_nat (length (q_msgs q2)) <= MSQ_MAX_NUM -> fits (reply_msg h' d) q2 = true ->
  exists w3, Governor execvp info w1
      = Jump 1 (set_w_os (set_queue rsp (enqueue (reply_msg h' d) q2) (w_os w2)) (set_gipcMsgHead h' w3))
    /\ w3 = set_w_heap (w_heap w3) w2 /\ live (i_data info) carraytype n (d ++ rest) w3.
Proof.
  intros c h' d rsp B Hlen Wc R Hh Ha Hj Hmax Hn Hty Hc Hq2 Hcnt Hf. unfold Governor. cbn zeta. set (ptr := i_data info) in *.
  assert (Ld : length d = 12%nat) by apply length_enc_cmd.
  destruct (live_store ptr carraytype n _ w1 8 (le32 0) _ B ltac:(lia) (st_cmd_err cmd id 0 0 rest)) as (wa & E1 & B1 & W1 & O1).
  rewrite (live_same_heap _ _ _ _ _ _ B B1 O1) in W1. assert (wa = w1) as -> by (rewrite W1; now destruct w1).
  rewrite (bind_Ret _ _ _ _ _ E1). erewrite bind_Ret.
  2:{ apply (live_load ptr carraytype n _ w1 SIZEOF_CMD B). rewrite length_app, length_enc_cmd. unfold SIZEOF_CMD. lia. }
  rewrite (take_app_length' (enc_cmd c)) by (now rewrite length_enc_cmd).
  rewrite <- (app_nil_r (enc_cmd c)), dec_enc_cmd by exact Wc. cbn zeta. fold (run_cmd c). rewrite (bind_Ret _ _ _ _ _ R).
  pose proof (live_heap _ _ _ _ _ _ Hh B) as B2.
  destruct (live_store ptr carraytype n _ w2 8 (le32 e) _ B2 ltac:(lia) (st_cmd_err cmd id 0 e rest)) as (w3 & E3 & B3 & W3 & _).
  rewrite (bind_Ret _ _ _ _ _ E3). rewrite Hlen.
  exists w3. split; [|split; [exact W3|exact B3]].
  assert (L : load ptr (Z.of_nat (length d)) w3 = Ret d w3).
  { fold d in B3. rewrite (live_load ptr carraytype n _ w3 _ B3) by (rewrite length_app; lia). now rewrite Nat2Z.id, take_app_length. }
  replace SIZEOF_CMD with (Z.of_nat (length d)) by (now rewrite Ld).
  pose proof (buffer_nonnull _ _ _ _ _ B3) as Hp. apply Z.eqb_neq in Hp.
  assert (X : attached w3 = true /\ mb_longjmp w3 = mb_longjmp w2 /\ w_ctrl w3 = w_ctrl w2 /\ w_os w3 = w_os w2
    /\ gipcMsgHead w3 = gipcMsgHead w2) by (rewrite W3; done).
  destruct X as (A1 & A2 & A3 & A4 & A5).
  rewrite (tux_return_sends (handler execvp) w3 TUX_SUCCESS 0 ptr 0 d q2); rewrite ?A1, ?A2, ?A3, ?A4, ?A5; rewrite ?Ld; try done.
Qed.

(** The state in which [TSK_CMD_EXIT] leaves the process. *)
Definition stopped (t : server_tab_t) : server_tab_t := set_state TUX_DEAD (set_type SVR_TEMP t).

Definition after_exit (k : Z) (t : server_tab_t) (q : kqueue) (err : Z) (w : world) : world :=
  let w := after_kill (signals (svrid t) (tSvrPid w)) (cleared (svrid t) (tSvrPid w)) (with_entry k w stopped) in
  set_w_os (set_errno err (set_queue (req_que_id (w_ctrl w)) q (w_os w))) w.

(** Requests that [clean_task_msg] can take off the queue. *)
Definition receivable (m : kmsg) : Prop := 8 <= Z.of_nat (length (m_text m)) <= BUS_MAX_MSG_LEN.

Lemma cmd_exit_runs w id k t q :
  attached w = true -> tables_ok w -> scan (fun t => svrid t =? id) (tl (tSvrTab w)) 1 = k -> 0 <= k ->
  znth (tSvrTab w) k = Some t -> o_caught (w_os w) = [] -> 0 < msg_type t ->
  queue (req_que_id (w_ctrl w)) (w_os w) = Some q -> Forall receivable (of_type (msg_type t) (q_msgs q)) ->
  exists q' err, cmd_exit execvp id w = Ret 0 (after_exit k t q' err w)
    /\ of_type (msg_type t) (q_msgs q') = []
    /\ (forall u, u <> msg_type t -> of_type u (q_msgs q') = of_type u (q_msgs q)).
Proof.
  intros Ha K Hid Hk Ht Hc Hty Hq HF. set (w1 := with_entry k w stopped).
  assert (K1 : tables_ok w1) by (now apply tables_ok_svr_fields).
  assert (Ht1 : znth (tSvrTab w1) k = Some (stopped t)) by (exact (znth_zupd_eq k stopped _ _ Ht)).
  set (w2 := after_kill (signals (svrid t) (tSvrPid w)) (cleared (svrid t) (tSvrPid w)) w1).
  destruct (clean_task_msg_eq (handler execvp) w2 (msg_type t) q) as (q' & err & E & H); try done.
  exists q', err. split; [|exact H]. unfold cmd_exit.
  rewrite (bind_Ret _ _ _ _ _ (find_server_id_eq w Ha K id)), Hid, (proj2 (Z.leb_le 0 k)) by done.
  rewrite (upd_svr_then k stopped w t _ Ha Ht). fold w1. unfold svr.
  rewrite (bind_Ret _ _ _ _ _ (entry_eq tSvrTab k w1 (stopped t) Ha Ht1)).
  rewrite (bind_Ret _ _ _ _ _ (server_kill_eq w1 k (stopped t) 1 Ha K1 Ht1)). cbn [Z.eqb].
  change (after_kill _ _ w1) with w2. change (msg_type (stopped t)) with (msg_type t).
  now rewrite (bind_Ret _ _ _ _ _ E).
Qed.
End Answer.

(** ** Stopping a server *)

(** For goals that are in the context: [done] takes long in a large one. *)
Ltac direct := first [assumption | reflexivity].

Lemma exit_cmd_wf id : - 2 ^ 31 <= id < 2 ^ 31 -> wf_cmd (mkCmd TSK_CMD_EXIT id 0).
Proof. now repeat split. Qed.

Lemma exit_reply_type : - 2 ^ 31 <= REPLY_TYPE TSK_CMD_EXIT < 2 ^ 31.
Proof. easy. Qed.

Section Exit.
Context (execvp : bytes -> list bytes -> prog world Z) (hd : Z -> prog world unit) (prog_name : bytes).
Context (w0 w v : world) (id : Z) (t0 t : server_tab_t) (svrno k ks : Z) (e : service_tab_t) (pe : server_pid_t) (q q2 : kqueue).
Let argv := [prog_name; str "-i"; fmt_d id].
Let req := req_que_id (w_ctrl w).
Let rsp := rsp_que_id (w_ctrl w).
Let T := 0 + SVR_MSG_TYPE_ROOT.
Let ty := REPLY_TYPE TSK_CMD_EXIT.
Let h := cmd_head TSK_CMD_EXIT (o_time (w_os w)).
Let d := enc_cmd (mkCmd TSK_CMD_EXIT id 0).
Let m := mkMsg T (le64 0 ++ enc_head h ++ d).
Let a := reply_msg h d.
Let pids := zupd 0 (fun p => set_req_done (u32 (req_done p + 1)) p) (tSvrPid w).

(** The tool connects to a running system. *)
Hypotheses (Hconn : ipc_connect w0 = Ret 0 w) (Hid : - 2 ^ 31 <= id < 2 ^ 31)
  (Hheap : heap_ok w) (Ha : attached w = true) (K : tables_ok w) (Hc : o_caught (w_os w) = [])
  (Htime : - 2 ^ 63 <= o_time (w_os w) < 2 ^ 63) (Hmax : 108 <= max_msg_len (w_ctrl w)).

(** The manager [v] is the server of the commands. *)
Hypotheses (Hsv : scan (fun t => same_name SD_MANAGER_SVC_NAME (svc_name t)) (tSvrTab w) 0 = svrno) (Hpos : 0 <= svrno)
  (Ht0 : znth (tSvrTab w) svrno = Some t0) (Hdown : down t0 = false) (HT : msg_type t0 = T)
  (Hks : scan (registered (h_name h)) (tSvcTab w) 0 = ks) (He : znth (tSvcTab w) ks = Some e) (Hfun : sd_fun e = GOVERNOR)
  (Hpe : znth (tSvrPid w) 0 = Some pe) (Hav : attached v = true) (Hcv : o_caught (w_os v) = [])
  (Hhv : heap_ok v) (Hbrk : w_brk v < 2 ^ 62) (Hmem : 64 + room (SIZEOF_CMD + 2048) <= w_mem v).

(** The server [t], its requests, and room in the queues. *)
Hypotheses (Hk : scan (fun t => svrid t =? id) (tl (tSvrTab w)) 1 = k) (Hk0 : 0 <= k) (Ht : znth (tSvrTab w) k = Some t)
  (Hty : 0 < msg_type t) (HtT : msg_type t <> T) (Hne : req <> rsp)
  (Hq : queue req (w_os w) = Some q) (Hcnt : Z.of_nat (length (q_msgs q)) <= MSQ_MAX_NUM) (Hfits : fits m q = true)
  (HqT : of_type T (q_msgs q) = []) (HF : Forall receivable (of_type (msg_type t) (q_msgs q)))
  (Hq2 : queue rsp (w_os w) = Some q2) (Hcnt2 : Z.of_nat (length (q_msgs q2)) <= MSQ_MAX_NUM)
  (Hfits2 : fits a q2 = true) (Hmt : of_type ty (q_msgs q2) = []).

Lemma take_prefix {A} (l x : list A) y n : take n l = x ++ y -> exists rest, l = x ++ rest.
Proof. intros H. exists (y ++ drop n l). now rewrite app_assoc, <- H, take_drop. Qed.

Lemma tmexit_eq : tmexit hd argv w0
  = (let* rc := svr_cmd_deal hd id TSK_CMD_EXIT in if negb (rc =? 0) then ret (-1) else ret 0) w.
Proof.
  unfold tmexit. change (svr_id_option argv) with (Some (fmt_d id)). cbn match.
  rewrite (bind_Ret _ _ _ _ _ Hconn). cbn [negb Z.eqb]. now rewrite atoi_fmt_d by (unfold INT_MIN, INT_MAX; lia).
Qed.

(** The manager's turn. *)
Lemma manager_stops w1 :
  o_kern (w_os w1) = o_kern (set_queue req (enqueue m q) (w_os w)) ->
  w_ctrl w1 = w_ctrl w -> tSvrTab w1 = tSvrTab w -> tSvrPid w1 = tSvrPid w -> tSvcTab w1 = tSvcTab w ->
  exists v', tux_service (handler execvp) (svc_call execvp) 0 0 (see w1 v) = Ret 0 v'
    /\ tSvrTab v' = zupd k stopped (tSvrTab w) /\ tSvrPid v' = cleared (svrid t) pids
    /\ o_kills (w_os v') = signals (svrid t) pids ++ o_kills (w_os v)
    /\ of_type (msg_type t) (msgs req (w_os v')) = [] /\ queue rsp (w_os v') = Some (enqueue a q2).
Proof.
  intros Ek Ec E1 E2 E3. set (v1 := see w1 v).
  assert (X : attached v1 = true /\ w_ctrl v1 = w_ctrl w /\ tSvrTab v1 = tSvrTab w /\ tSvrPid v1 = tSvrPid w /\ tSvcTab v1 = tSvcTab w
    /\ o_caught (w_os v1) = []) by (unfold v1, see; cbn; rewrite Ec, E1, E2, E3; repeat split; assumption).
  destruct X as (A1 & A2 & A3 & A4 & A5 & A6).
  assert (K1 : tables_ok v1) by (eapply tables_ok_keep; [..|exact K]; assumption).
  assert (Qk : forall i, queue i (w_os v1) = queue i (set_queue req (enqueue m q) (w_os w))).
  { intros i. unfold v1, see, queue. cbn. now rewrite Ek. }
  pose proof (cmd_head_wf TSK_CMD_EXIT (o_time (w_os w)) exit_reply_type Htime : wf_head h) as Wh.
  pose proof (exit_cmd_wf id Hid) as Wc.
  destruct (dispatch_eq (handler execvp) (svc_call execvp) v1 0 0 (enqueue m q) h 0 d [] [] ks e pe)
    as (ptr & data & ws & E & (B1 & B2 & B3 & B4 & B5 & B6 & _ & B7 & B8 & B9 & B10 & B11 & B12 & l & B13)).
  all: rewrite ?A1, ?A2, ?A3, ?A4, ?A5, ?A6; try direct.
  { rewrite Qk. apply queue_set_eq. }
  { cbn [enqueue q_msgs set_msgs]. fold T. rewrite of_type_app, HqT, app_nil_r. unfold m. rewrite of_type_one, Z.eqb_refl. reflexivity. }
  { clear. easy. }
  { rewrite app_nil_r. unfold d. rewrite length_enc_cmd. clear. easy. }
  rewrite A2 in B7, B11, B12, B13. rewrite A3 in B8. rewrite A4 in B10. fold req in B11, B12, B13. fold T in B11, B12. fold pids in B10.
  destruct (take_prefix _ _ _ _ B5) as [rest Hd]. rewrite Hd in B4. clear B5 Hd data.
  assert (Kw : tables_ok ws).
  { destruct K. split; rewrite ?B7, ?B8, ?B9, ?B10, ?A5; try assumption. unfold pids. now rewrite length_zupd. }
  assert (El : msgs req (w_os ws) = l) by (unfold msgs; now rewrite B13, queue_set_eq).
  rewrite El in B11, B12.
  destruct (cmd_exit_runs execvp ws id k t (set_msgs l (enqueue m q))) as (q' & err & R & M1 & M2);
    rewrite ?B7, ?B8, ?B13; try direct.
  { apply queue_set_eq. }
  { cbn [q_msgs set_msgs]. rewrite B12 by exact HtT. cbn [enqueue q_msgs set_msgs].
    rewrite of_type_app. unfold m. rewrite of_type_one, (proj2 (Z.eqb_neq T _)) by congruence. now rewrite app_nil_r. }
  set (w2 := after_exit k t q' err ws) in *.
  assert (Q2 : queue rsp (w_os w2) = Some q2).
  { unfold w2, after_exit. cbn [w_os w_ctrl set_w_os after_kill set_tSvrPid with_entry set_tSvrTab]. rewrite queue_errno, B7.
    fold req. rewrite queue_set_ne by done. change (queue rsp (w_os ws) = Some q2). rewrite B13, queue_set_ne, Qk, queue_set_ne; done. }
  assert (X : gipcMsgHead w2 = h /\ w_ctrl w2 = w_ctrl w /\ mb_longjmp w2 = 1 /\ o_caught (w_os w2) = [])
    by (repeat split; first [exact B2 | exact B7 | exact B3 | cbn; now rewrite B13]).
  destruct X as (X1 & X2 & X3 & X4).
  destruct (governor_answers execvp (service_info h ptr) TSK_CMD_EXIT id 0 rest (h_len h + 2048) ws w2 q2)
    as (w3 & G & W3 & L3); rewrite ?X1, ?X2, ?X3; try direct.
  { discriminate. }
  { unfold SIZEOF_CMD. lia. }
  { clear. easy. }
  rewrite X1, X2 in G. fold rsp d in G. change (set_h_len SIZEOF_CMD h) with h in G. fold a in G.
  set (w4 := set_w_os _ _) in G. pose proof (live_heap _ _ _ _ w3 w4 eq_refl L3) as L4. cbn [i_data service_info] in L4.
  eexists. split; [|split; [|split; [|split; [|split]]]].
  - fold v1. rewrite E. unfold with_setjmp, call_fun. rewrite Hfun. change (GOVERNOR =? NULL) with false.
    unfold svc_call. change (GOVERNOR =? GOVERNOR) with true. cbn match. rewrite G. unfold after_service.
    rewrite (bind_Ret _ _ _ _ _ (free_computes _ _ _ _ _ L4 eq_refl eq_refl)). reflexivity.
  - change (tSvrTab w3 = zupd k stopped (tSvrTab w)). rewrite W3. change (zupd k stopped (tSvrTab ws) = zupd k stopped (tSvrTab w)).
    now rewrite B8.
  - change (tSvrPid w3 = cleared (svrid t) pids). rewrite W3. change (cleared (svrid t) (tSvrPid ws) = cleared (svrid t) pids).
    now rewrite B10.
  - change (signals (svrid t) (tSvrPid ws) ++ o_kills (w_os ws) = signals (svrid t) pids ++ o_kills (w_os v)).
    now rewrite B10, B13.
  - change (of_type (msg_type t) (msgs req (set_queue rsp (enqueue a q2) (w_os w2))) = []).
    unfold msgs. rewrite queue_set_ne by congruence. unfold w2, after_exit.
    cbn [w_os w_ctrl set_w_os after_kill set_tSvrPid with_entry set_tSvrTab]. rewrite queue_errno, B7. fold req.
    now rewrite queue_set_eq.
  - apply queue_set_eq.
Qed.

(** C10: stopping a server with [tmexit].  The tool's command waits in the request queue; the
    manager takes it, marks the server dead and temporary, signals its processes and frees
    their entries (but for the server 4, see [server_kill]), discards the requests that
    wait for it and answers; with this answer the tool ends with 0. *)
Theorem exit_command :
  (o_sched (w_os w) = [] -> exists w1 v', tmexit hd argv w0 = Block w1
     /\ queue req (w_os w1) = Some (enqueue m q)
     /\ tux_service (handler execvp) (svc_call execvp) 0 0 (see w1 v) = Ret 0 v'
     /\ tSvrTab v' = zupd k stopped (tSvrTab w) /\ tSvrPid v' = cleared (svrid t) pids
     /\ o_kills (w_os v') = signals (svrid t) pids ++ o_kills (w_os v)
     /\ of_type (msg_type t) (msgs req (w_os v')) = [] /\ queue rsp (w_os v') = Some (enqueue a q2))
  /\ (forall evs, o_sched (w_os w) = EvRecv req T :: EvSend rsp a :: evs -> exists w1, tmexit hd argv w0 = Ret 0 w1).
Proof.
  assert (Hm : mkMsg (msg_type t0) (le64 0 ++ enc_head h ++ d) = m) by (now rewrite HT).
  assert (Hty0 : 1 <= msg_type t0) by (rewrite HT; unfold T, SVR_MSG_TYPE_ROOT; lia).
  split.
  - intros Hs. pose proof (deal_waits hd w id TSK_CMD_EXIT t0 svrno q q2) as D. cbn zeta in D. fold h d req rsp in D. rewrite Hm in D.
    specialize (D Hheap Ha K Hc Hsv Hpos Ht0 Hdown Hty0 Hmax Hne Hq Hcnt Hfits Hq2 Hmt (conj eq_refl eq_refl) Hs).
    set (w1 := set_timer_expired _ _) in D. destruct (manager_stops w1) as (v' & E & P); try direct.
    exists w1, v'. split; [|split; [apply queue_set_eq|exact (conj E P)]].
    rewrite tmexit_eq. unfold bind. now rewrite D.
  - intros evs Hs.
    destruct (deal_answered hd w id TSK_CMD_EXIT t0 svrno q q2) with (hd := enc_head h) (e := 0) (evs := evs) as (w1 & E & _); try direct.
    + clear. easy.
    + rewrite HT. exact Hs.
    + clear. easy.
    + exists w1. rewrite tmexit_eq, (bind_Ret _ _ _ _ _ E). reflexivity.
Qed.
End Exit.

(** *** Witnesses *)

Definition demo_system_os (req : list kmsg) (sched : list event) : os :=
  set_sched sched (set_kern (mkKernel (<[1 := mkQueue 601107 req MSGMNB]> {[2 := mkQueue 601117 [] MSGMNB]}) 10
    {[7 := mkSem (-1) [1]]} {[8 := mkShm (-1) 100000]}) (w_os (demo_farm TUX_IDLE []))).

Definition governor_entry : service_tab_t := service_entry SD_SERVER_MGR_NAME 0 GOVERNOR.

(** A running system in which a request waits for the server 7, that has one process. *)
Definition demo_system (req : list kmsg) (sched : list event) : world :=
  set_w_os (demo_system_os req sched)
    (set_w_brk STRIDE (set_tSvcTab [governor_entry; free_svc; free_svc] (demo_farm TUX_IDLE []))).

Definition demo_waiting : list kmsg := [mkMsg 300007 (le64 0 ++ zeros 96)].

Definition demo_exit : list bytes := [str "tmexit"; str "-i"; fmt_d 7].

Definition no_exec : bytes -> list bytes -> prog world Z := fun _ _ => ret (-1).

Lemma demo_system_heap req sched : heap_ok (demo_system req sched).
Proof. exact (demo_heap_ok (demo_sem 1)). Qed.

Lemma demo_system_ok req sched : tables_ok (demo_system req sched).
Proof.
  destruct (demo_farm_ok TUX_IDLE []). split; try assumption.
  repeat constructor; discriminate.
Qed.

Ltac exit_tac :=
  lazymatch goal with
  | |- heap_ok _ => apply demo_system_heap
  | |- tables_ok _ => apply demo_system_ok
  | |- Forall _ _ => repeat constructor; discriminate
  | |- _ => first [reflexivity | discriminate | split; [discriminate|reflexivity] | split; discriminate]
  end.

Definition exit_answer : kmsg :=
  reply_msg (cmd_head TSK_CMD_EXIT 1000) (enc_cmd (mkCmd TSK_CMD_EXIT 7 0)).

Lemma exit_command_witness :
  (exists w1 v', tmexit no_handler demo_exit (set_attached false (demo_system demo_waiting [])) = Block w1
    /\ tux_service (handler no_exec) (svc_call no_exec) 0 0 (see w1 (demo_system [] [])) = Ret 0 v'
    /\ o_kills (w_os v') = [(201, SIGTERM)] /\ of_type 300007 (msgs 1 (w_os v')) = [])
  /\ (exists w1, tmexit no_handler demo_exit
       (set_attached false (demo_system demo_waiting [EvRecv 1 300000; EvSend 2 exit_answer])) = Ret 0 w1).
Proof.
  split.
  - destruct (exit_command no_exec no_handler (str "tmexit") (set_attached false (demo_system demo_waiting []))
      (demo_system demo_waiting []) (demo_system [] []) 7 manager_svr (set_state TUX_IDLE demo_svr) 0 1 0 governor_entry
      (manager_pid 100 0) (mkQueue 601107 demo_waiting MSGMNB) (mkQueue 601117 [] MSGMNB)) as [H _]; [exit_tac..|].
    destruct (H eq_refl) as (w1 & v' & E1 & _ & E2 & _ & _ & E3 & E4 & _).
    exists w1, v'. refine (conj E1 (conj E2 (conj E3 E4))).
  - destruct (exit_command no_exec no_handler (str "tmexit")
      (set_attached false (demo_system demo_waiting [EvRecv 1 300000; EvSend 2 exit_answer]))
      (demo_system demo_waiting [EvRecv 1 300000; EvSend 2 exit_answer]) (demo_system [] []) 7 manager_svr (set_state TUX_IDLE demo_svr) 0 1 0 governor_entry
      (manager_pid 100 0) (mkQueue 601107 demo_waiting MSGMNB) (mkQueue 601117 [] MSGMNB)) as [_ H]; [exit_tac..|].
    exact (H [] eq_refl).
Defined.
