(* ===== verification/C001.v ===== *)
(** * The short-connection gateway: [src/dev/src/comm/C001/C001.c]

    A process that accepts connections and forks a child for each: the child reads one
    request, calls the service, writes the reply and ends.  The parent keeps the
    children's process ids and sockets in a table.

    The child of a [fork] goes on in the model on the parent's state, its own copy.
    SIGCLD is a step of its own ([child_exit]); SIGTERM ends parent and children through
    [main_exit].  The alarm around the child's [WriteSocket] is not modelled. *)

From Stdlib Require Import ZArith Lia Bool List Ascii String.
From stdpp Require Import base list gmap.
From S2P Require Import Prelude Cstr Funstr Kernel Funsock Funmsq Funfile Sunda Tuxmem Registry Tuxcall.
From S2P Require Import Clients Commserver Gateway Exchange Roundtrip.

Definition MAX_CHILD_NUM : Z := 5000.

Record gpidSonPidDef := mkSon { son_pid : Z; socket_id : Z }.

Record c001 := mkC001 {
  q_world : world;
  q_net : net;
  gpidSonPid : list gpidSonPidDef;
  giLocPort : Z;
  giLstnScktId : Z;
  giConnScktId : Z;
  nChdNum : Z;
  gSvrId : Z;
}.

Definition set_q_world (v : world) (c : c001) : c001 :=
  mkC001 v (q_net c) (gpidSonPid c) (giLocPort c) (giLstnScktId c) (giConnScktId c) (nChdNum c) (gSvrId c).
Definition set_q_net (v : net) (c : c001) : c001 :=
  mkC001 (q_world c) v (gpidSonPid c) (giLocPort c) (giLstnScktId c) (giConnScktId c) (nChdNum c) (gSvrId c).
Definition set_gpidSonPid (v : list gpidSonPidDef) (c : c001) : c001 :=
  mkC001 (q_world c) (q_net c) v (giLocPort c) (giLstnScktId c) (giConnScktId c) (nChdNum c) (gSvrId c).
Definition set_giLocPort (v : Z) (c : c001) : c001 :=
  mkC001 (q_world c) (q_net c) (gpidSonPid c) v (giLstnScktId c) (giConnScktId c) (nChdNum c) (gSvrId c).
Definition set_giLstnScktId (v : Z) (c : c001) : c001 :=
  mkC001 (q_world c) (q_net c) (gpidSonPid c) (giLocPort c) v (giConnScktId c) (nChdNum c) (gSvrId c).
Definition set_giConnScktId (v : Z) (c : c001) : c001 :=
  mkC001 (q_world c) (q_net c) (gpidSonPid c) (giLocPort c) (giLstnScktId c) v (nChdNum c) (gSvrId c).
Definition set_nChdNum (v : Z) (c : c001) : c001 :=
  mkC001 (q_world c) (q_net c) (gpidSonPid c) (giLocPort c) (giLstnScktId c) (giConnScktId c) v (gSvrId c).
Definition set_gSvrId (v : Z) (c : c001) : c001 :=
  mkC001 (q_world c) (q_net c) (gpidSonPid c) (giLocPort c) (giLstnScktId c) (giConnScktId c) (nChdNum c) v.

Definition on_net {A} : prog net A -> prog c001 A := within q_net set_q_net.
Definition on_os {A} (m : prog os A) : prog c001 A := within q_world set_q_world (lift m).

(** ** The table of the children *)

(** Static data: every entry starts with the process id 0. *)
Definition no_children : list gpidSonPidDef := replicate (Z.to_nat MAX_CHILD_NUM) (mkSon 0 0).

(** Every way through the body of the [while] loop ends the function. *)
Definition child_exit (sig : Z) : prog c001 unit :=
  let* nPid := on_os waitpid in
  if nPid <=? 0 then ret tt
  else
    let* l := get gpidSonPid in
    let i := scan (fun e => son_pid e =? nPid) l 0 in
    if i <? 0 then ret tt else modify (set_gpidSonPid (zupd i (fun _ => mkSon (-1) (-1)) l)).

Definition main_exit {A} (sig : Z) : prog c001 A :=
  let* l := get gpidSonPid in
  for_each l (fun e =>
    when (0 <? son_pid e)
      (on_os (kill (son_pid e) SIGTERM) ;;;
       on_net (CloseSocket (socket_id e)) ;;; ret tt)) ;;;
  let* lstn := get giLstnScktId in
  on_net (CloseSocket lstn) ;;;
  exit_ 1.

(** The loop has no [break]: every free entry is filled. *)
Definition reg_child (nPid sock : Z) : prog c001 unit :=
  modify (fun c => set_gpidSonPid (map (fun e => if son_pid e =? -1 then mkSon nPid sock else e) (gpidSonPid c)) c).

(** The library's calls; the handler of SIGTERM, when one of them is interrupted. *)
Definition on_world {A} (m : prog world A) : prog c001 A := fun c =>
  match within q_world set_q_world m c with
  | Exit _ c => main_exit SIGTERM c
  | o => o
  end.

(** ** The child *)

(** The answer to a request that failed: the buffer and [*iRspLen]. *)
Definition pack_err_rsp (sDestBuf : bytes) (req_head : sunda_req_head_t) : option (bytes * Z) :=
  let req_head := mkReq (r_name req_head) (r_ssn req_head) 99 in
  sDestBuf ← st 0 (fmt_0d SOCKET_MSG_HEAD_LEN SIZEOF_REQ ++ [NUL]) sDestBuf;
  sDestBuf ← st SOCKET_MSG_HEAD_LEN (enc_req req_head) sDestBuf;
  Some (sDestBuf, SIZEOF_REQ + SOCKET_MSG_HEAD_LEN).

(** The head that is sent with the request. *)
Definition call_head (sSvcName : bytes) (pid ssn now len : Z) : IPCMsgHead :=
  mkHead (buf_of 33 sSvcName) ssn 0 pid 0 now REPLY_FLAG_ASYN 0 len.

(** The answer to a request that succeeded. *)
Definition pack_rsp (sDestBuf sRspBuf : bytes) (lRspLen : Z) (req_head : sunda_req_head_t) : option (bytes * Z) :=
  let req_head := mkReq (r_name req_head) (r_ssn req_head) 0 in
  let iLen := i32 (lRspLen - SIZEOF_HEAD + SIZEOF_REQ) in
  sDestBuf ← st 0 (fmt_0d SOCKET_MSG_HEAD_LEN iLen ++ [NUL]) sDestBuf;
  sDestBuf ← st SOCKET_MSG_HEAD_LEN (enc_req req_head) sDestBuf;
  data ← ld SIZEOF_HEAD (lRspLen - SIZEOF_HEAD) sRspBuf;
  sDestBuf ← st (SIZEOF_REQ + SOCKET_MSG_HEAD_LEN) data sDestBuf;
  Some (sDestBuf, iLen + SOCKET_MSG_HEAD_LEN).

(** Behind the call. *)
Definition call_result (iRet sRspBuf lRspLen : Z) (sDestBuf : bytes) (req_head : sunda_req_head_t)
    : prog c001 (Z * bytes * Z) :=
  if negb (iRet =? 0) then
    let* (sDestBuf, iRspLen) := deref (pack_err_rsp sDestBuf req_head) in
    ret (-1, sDestBuf, iRspLen)
  else
    let* len := on_world (load lRspLen 8) in
    let* rsp := on_world (load sRspBuf 10241) in
    let* (sDestBuf, iRspLen) := deref (pack_rsp sDestBuf rsp (get_i64 len) req_head) in
    ret (0, sDestBuf, iRspLen).

(** The result, [sDestBuf] and [*iRspLen]. *)
Definition call_svr (sSrcBuf : bytes) (iBufLen : Z) (sDestBuf : bytes) : prog c001 (Z * bytes * Z) :=
  let* sReqBuf := on_world (new_object (zeros 10241)) in
  let* sRspBuf := on_world (new_object (zeros 10241)) in
  let* lRspLen := on_world (new_object (le64 0)) in
  let* pid := on_os getpid in
  let* b := deref (ld SOCKET_MSG_HEAD_LEN SIZEOF_REQ sSrcBuf) in
  let req_head := dec_req b in
  let* sSvcName := deref (AllTrim (r_name req_head ++ [NUL])) in
  let sSvcName := cstr sSvcName in
  let* now := on_os time_ in
  let h := call_head sSvcName pid (r_ssn req_head) now (i32 (iBufLen - SOCKET_MSG_HEAD_LEN - SIZEOF_REQ)) in
  let* data := deref (ld (SOCKET_MSG_HEAD_LEN + SIZEOF_REQ) (h_len h) sSrcBuf) in
  let* iRet := on_world (
    modify (set_gipcMsgHead h) ;;;
    store sReqBuf (enc_head h) ;;;
    store (sReqBuf + SIZEOF_HEAD) data ;;;
    tux_call handler (Some sSvcName) sReqBuf (h_len h + SIZEOF_HEAD) sRspBuf lRspLen 0) in
  call_result iRet sRspBuf lRspLen sDestBuf req_head.

Definition child_proc (sock_id : Z) : prog c001 Z :=
  let* (iRet, sSrcBuf, iBufLen) := on_net (RcvTxnMsg sock_id SOCKET_MSG_HEAD_LEN (zeros 8097) 0) in
  if negb (iRet =? 0) then ret (-1)
  else
    let* (iRet, sDestBuf, iRspLen) := call_svr sSrcBuf iBufLen (zeros 8097) in
    if negb (iRet =? 0) then ret (-1)
    else
      let* iRet := on_net (WriteSocket sock_id sDestBuf iRspLen) in
      if iRet <? 0 then ret (-1) else ret 0.

(** ** The parent *)

Definition comm_init (argv : list bytes) : prog c001 Z :=
  match argv with
  | _ :: arg1 :: _ :: arg3 :: words =>
      let* me := on_os getpid in
      if negb (atol arg1 =? me) then ret (-1)
      else
        modify (set_gSvrId (atoi arg3)) ;;;
        for_each (getopt_all (str "p") words) (fun o =>
          match o with
          | Some (c, optarg) => modify (set_giLocPort (atoi optarg))
          | None => ret tt
          end) ;;;
        let* iRet := on_world ipc_connect in
        if negb (iRet =? 0) then ret (-1) else modify (set_nChdNum 0) ;;; ret 0
  | _ => ret (-1)
  end.

(** The body of the loop; in the child it ends with [exit(0)]. *)
Definition accept_one : prog c001 unit :=
  let* (iRet, conn) := on_net AcceptSocket in
  modify (set_giConnScktId conn) ;;;
  if negb (iRet =? 0) then on_net (close conn)
  else
    let* nPid := on_os fork in
    if nPid <? 0 then on_net (close conn)
    else if nPid =? 0 then
      child_proc conn ;;;
      on_net (close conn) ;;;
      exit_ 0
    else
      let* n := get nChdNum in
      (if n =? INT_MAX then fault else modify (set_nChdNum (n + 1))) ;;;
      reg_child nPid conn ;;;
      on_net (close conn).

Fixpoint accept_all (fuel : nat) : prog c001 unit :=
  match fuel with
  | O => spin
  | S fuel => accept_one ;;; accept_all fuel
  end.

Definition main (fuel : nat) (argv : list bytes) : prog c001 Z :=
  let* iRet := comm_init argv in
  if negb (iRet =? 0) then exit_ 1
  else
    let* (iRet, lstn) := on_net (CreateSocket 9999 0) in
    modify (set_giLstnScktId lstn) ;;;
    if negb (iRet =? 0) then exit_ (-1)
    else accept_all fuel ;;; ret 0.

(** ** The children's table *)

Lemma on_world_Ret {A B} (m : prog world A) (k : A -> prog c001 B) c a w :
  m (q_world c) = Ret a w -> bind (on_world m) k c = k a (set_q_world w c).
Proof. intros H. unfold bind, on_world, within. now rewrite H. Qed.

Lemma on_net_step {A B} (m : prog net A) (k : A -> prog c001 B) c a n :
  m (q_net c) = Ret a n -> bind (on_net m) k c = k a (set_q_net n c).
Proof. apply within_bind. Qed.

Lemma on_net_inv {A} (m : prog net A) c a c' : on_net m c = Ret a c' -> gpidSonPid c' = gpidSonPid c.
Proof. unfold on_net, within. destruct (m (q_net c)); try discriminate. now intros [= _ <-]. Qed.

Lemma on_os_inv {A} (m : prog os A) c a c' : on_os m c = Ret a c' -> gpidSonPid c' = gpidSonPid c.
Proof.
  unfold on_os, within, lift. destruct (m (w_os (q_world c))); try discriminate. now intros [= _ <-].
Qed.

(** What the parent does between two points where a signal can arrive: a connection, or
    the handler of SIGCLD. *)
Inductive parent_step (c : c001) : c001 -> Prop :=
  | Accept c' : accept_one c = Ret tt c' -> parent_step c c'
  | Sigcld sig c' : child_exit sig c = Ret tt c' -> parent_step c c'.

(** Nobody is in the table, and none of its entries is free. *)
Definition nobody (l : list gpidSonPidDef) : Prop := Forall (fun e => son_pid e = 0) l.

Lemma child_exit_nobody sig c c' : nobody (gpidSonPid c) -> child_exit sig c = Ret tt c' -> gpidSonPid c' = gpidSonPid c.
Proof.
  intros N H. unfold child_exit in H. apply bind_Ret_inv in H as (nPid & c1 & E1%on_os_inv & H).
  destruct (Z.leb_spec nPid 0); [now injection H as <-|]. unfold bind at 1, get in H. cbn [obind] in H.
  rewrite scan_none in H; [now injection H as <-|]. rewrite E1. eapply Forall_impl; [exact N|].
  intros e He. apply Z.eqb_neq. cbn in He. lia.
Qed.

Lemma map_nobody nPid sock l : nobody l -> map (fun e => if son_pid e =? -1 then mkSon nPid sock else e) l = l.
Proof.
  induction 1 as [|e l He _ IH]; [done|]. cbn [map]. rewrite IH, (proj2 (Z.eqb_neq _ _)); [done|]. lia.
Qed.

Lemma accept_one_nobody c c' : nobody (gpidSonPid c) -> accept_one c = Ret tt c' -> gpidSonPid c' = gpidSonPid c.
Proof.
  intros N H. unfold accept_one in H. apply bind_Ret_inv in H as ([iRet conn] & c1 & E1%on_net_inv & H).
  apply bind_Ret_inv in H as (u & c2 & E2 & H). injection E2 as _ <-.
  assert (N1 : gpidSonPid (set_giConnScktId conn c1) = gpidSonPid c) by exact E1.
  destruct (negb (iRet =? 0)); [apply on_net_inv in H; congruence|].
  apply bind_Ret_inv in H as (nPid & c3 & E3%on_os_inv & H).
  destruct (nPid <? 0); [apply on_net_inv in H; congruence|].
  destruct (nPid =? 0).
  { apply bind_Ret_inv in H as (? & ? & _ & H). apply bind_Ret_inv in H as (? & ? & _ & H). discriminate. }
  apply bind_Ret_inv in H as (k & c4 & E4 & H). injection E4 as <- <-.
  apply bind_Ret_inv in H as (u5 & c5 & E5 & H). assert (E5' : gpidSonPid c5 = gpidSonPid c3).
  { destruct (_ =? INT_MAX) in E5; [discriminate|]. now injection E5 as _ <-. }
  apply bind_Ret_inv in H as (u6 & c6 & E6 & H). injection E6 as _ <-. apply on_net_inv in H. rewrite H.
  cbn [gpidSonPid set_gpidSonPid]. rewrite map_nobody by (rewrite E5', E3, N1; exact N). congruence.
Qed.

Lemma parent_nobody c c' : nobody (gpidSonPid c) -> rtc parent_step c c' -> gpidSonPid c' = gpidSonPid c.
Proof.
  intros N H. induction H as [|c c1 c' H _ IH]; [done|].
  assert (E : gpidSonPid c1 = gpidSonPid c) by (destruct H; [now apply accept_one_nobody|now apply (child_exit_nobody sig)]).
  rewrite IH; [done|]. now rewrite E.
Qed.

Lemma signal_nobody {A} l (body : gpidSonPidDef -> prog c001 unit) (k : prog c001 A) c :
  nobody l -> (for_each l (fun e => when (0 <? son_pid e) (body e)) ;;; k) c = k c.
Proof.
  intros N. assert (E : for_each l (fun e => when (0 <? son_pid e) (body e)) c = Ret tt c).
  { induction N as [|e l He _ IH]; [done|]. cbn [for_each]. rewrite He. exact IH. }
  unfold bind. now rewrite E.
Qed.

(** The children are never registered.  The table starts with the process ids 0, but
    [reg_child] fills only the entries with -1; so no step of the parent changes it, and
    when the parent is ended no child gets the signal and no child's socket is closed. *)
Theorem no_child_registered c c' :
  gpidSonPid c = no_children -> rtc parent_step c c' ->
  gpidSonPid c' = no_children
  /\ forall sig, exists n, main_exit (A := unit) sig c' = Exit 1 (set_q_net n c')
       /\ (forall y, y <> giLstnScktId c' -> n_socks n !! y = n_socks (q_net c') !! y).
Proof.
  intros E H. assert (N : nobody (gpidSonPid c)).
  { rewrite E. now apply Forall_replicate. }
  pose proof (parent_nobody c c' N H) as P. split; [congruence|]. intros sig.
  unfold main_exit. erewrite bind_Ret by reflexivity. rewrite signal_nobody by (rewrite P; exact N).
  erewrite bind_Ret by reflexivity.
  destruct (CloseSocket_any (q_net c') (giLstnScktId c')) as (r & n' & R & _ & Ho & _).
  exists n'. split; [now rewrite (on_net_step _ _ _ _ _ R)|exact Ho].
Qed.

(** ** The child's request *)

Lemma on_world_eq {A B} (m n : prog world A) (k : A -> prog c001 B) c w1 w2 :
  m w1 = n w2 -> bind (on_world m) k (set_q_world w1 c) = bind (on_world n) k (set_q_world w2 c).
Proof. intros H. unfold bind, on_world, within. cbn [q_world set_q_world]. rewrite H. now destruct (n w2). Qed.

Section Call.
Context (c : c001) (rq : sunda_req_head_t) (payload nb : bytes).
Let w := q_world c.
Let nm := cstr nb.
Let len := Z.of_nat (length payload).
Let b := w_brk w.
Let h := call_head nm (o_pid (w_os w)) (r_ssn rq) (o_time (w_os w)) len.
Hypotheses (Hrq : wf_req rq) (Hnm : AllTrim (r_name rq ++ [NUL]) = Some nb) (Hlen : len <= 3919) (Hheap : heap_ok w).

(** The child's memory before the call. *)
Definition three_objects : world :=
  set_w_brk (b + STRIDE + STRIDE + STRIDE)
    (set_w_heap (<[b + STRIDE + STRIDE := le64 0]> (<[b + STRIDE := zeros 10241]> (<[b := zeros 10241]> (w_heap w)))) w).

Definition before_call : world :=
  set_gipcMsgHead h
    (set_w_heap (<[b := enc_head h ++ payload ++ zeros (10241 - SIZEOF_HEAD - len)]> (w_heap three_objects)) three_objects).

Lemma length_call_head : length (enc_head h) = 96%nat.
Proof. apply length_named_head. exact (length_name rq nb Hrq Hnm). Qed.

Lemma call_svr_calls dest :
  call_svr (received rq payload) (4 + (SIZEOF_REQ + len)) dest c
  = (let* iRet := on_world (tux_call handler (Some nm) b (len + SIZEOF_HEAD) (b + STRIDE) (b + STRIDE + STRIDE) 0) in
     call_result iRet (b + STRIDE) (b + STRIDE + STRIDE) dest rq) (set_q_world before_call c).
Proof.
  assert (Z0 : 0 <= len) by (unfold len; lia). pose proof length_call_head as Lh. pose proof (objects_aligned w Hheap) as (A1 & A0 & _).
  set (c3 := set_q_world three_objects c).
  unfold call_svr. do 3 (erewrite on_world_Ret by reflexivity).
  match goal with |- _ ?st = _ => change st with c3 end. cbn [q_world set_q_world w_brk set_w_brk]. fold w b.
  rewrite (bind_Ret _ _ c3 (o_pid (w_os w)) c3) by reflexivity.
  rewrite (request_head rq payload Hrq Hlen). erewrite bind_Ret by reflexivity.
  replace (dec_req (enc_req rq)) with rq by (symmetry; rewrite <- (app_nil_r (enc_req rq)); now apply dec_enc_req).
  rewrite Hnm. erewrite bind_Ret by reflexivity. cbn zeta. fold nm.
  rewrite (bind_Ret _ _ c3 (o_time (w_os w)) c3) by reflexivity.
  replace (i32 (4 + (SIZEOF_REQ + len) - SOCKET_MSG_HEAD_LEN - SIZEOF_REQ)) with len
    by (unfold SOCKET_MSG_HEAD_LEN, SIZEOF_REQ; rewrite i32_id; lia).
  fold h. change (h_len h) with len. pose proof (request_payload rq payload Hrq Hlen) as P. fold len in P.
  rewrite P. erewrite bind_Ret by reflexivity.
  set (mem1 := w_heap three_objects). set (hb := enc_head h ++ payload ++ zeros (10241 - SIZEOF_HEAD - len)).
  assert (S1 : st 0 (enc_head h ++ payload) (zeros 10241) = Some hb).
  { rewrite st_zeros_start; rewrite length_app, Lh; [|unfold len in *; lia]. unfold hb. rewrite <- app_assoc.
    do 3 f_equal. unfold SIZEOF_HEAD, len. f_equal. lia. }
  destruct (st_Some 0 (enc_head h) (zeros 10241)) as [b1 S0]; [lia|rewrite Lh, length_zeros; lia|].
  pose proof (st_append 0 (enc_head h) payload (zeros 10241) b1 S0) as S2. rewrite Lh, S1 in S2.
  apply (on_world_eq _ _ _ c three_objects before_call).
  erewrite bind_Ret by reflexivity. set (w3 := set_gipcMsgHead h three_objects).
  assert (Hb : w_heap w3 !! b = Some (zeros 10241)).
  { cbn [w3 w_heap set_gipcMsgHead three_objects set_w_brk set_w_heap].
    rewrite !lookup_insert_ne by (unfold STRIDE; lia). apply lookup_insert_eq. }
  erewrite bind_Ret.
  2:{ rewrite <- (Z.add_0_r b) at 1. apply (store_at b 0 w3 _ _ _ A1 ltac:(done) Hb S0). }
  erewrite bind_Ret.
  2:{ apply (store_at b SIZEOF_HEAD _ b1 payload hb A1 ltac:(done)); [apply lookup_insert_eq|exact S2]. }
  f_equal. unfold before_call, w3. cbn [w_heap set_w_heap set_gipcMsgHead]. now rewrite insert_insert_eq.
Qed.

Lemma before_call_request : load b (len + SIZEOF_HEAD) before_call = Ret (enc_head h ++ payload) before_call.
Proof.
  assert (Z0 : 0 <= len) by (unfold len; lia). pose proof length_call_head as Lh. pose proof (objects_aligned w Hheap) as (A1 & A0 & _).
  rewrite <- (Z.add_0_r b). eapply (load_at b 0); [exact A1|done|apply lookup_insert_eq|].
  rewrite app_assoc. apply (ld_app 0 _ []); [done|]. rewrite length_app, Lh. unfold SIZEOF_HEAD, len. lia.
Qed.

Lemma before_call_heap :
  w_heap before_call !! (b + STRIDE) = Some (zeros 10241) /\ w_heap before_call !! (b + STRIDE + STRIDE) = Some (le64 0).
Proof.
  unfold before_call, three_objects. cbn [w_heap set_gipcMsgHead set_w_heap set_w_brk]. unfold STRIDE. split.
  - rewrite !lookup_insert_ne by lia. apply lookup_insert_eq.
  - rewrite lookup_insert_ne by lia. apply lookup_insert_eq.
Qed.

End Call.

Section Child.
Context (c : c001) (x : Z) (s : sock) (rq : sunda_req_head_t) (payload rest nb : bytes).
Context (t : server_tab_t) (svrno : Z) (q q2 : kqueue).
Let w := q_world c.
Let nm := cstr nb.
Let len := Z.of_nat (length payload).
Let b := w_brk w.
Let h := call_head nm (o_pid (w_os w)) (r_ssn rq) (o_time (w_os w)) len.
Let req := req_que_id (w_ctrl w).
Let rsp := rsp_que_id (w_ctrl w).
Let m := mkMsg (msg_type t) (le64 0 ++ enc_head h ++ payload).

(** A request has arrived on the child's socket. *)
Hypotheses (Hs : n_socks (q_net c) !! x = Some s) (Hps : pieces_ok (s_in s))
  (Hin : List.concat (s_in s) = frame (request_body rq payload) ++ rest) (Hroom : Forall (fun k => 0 < k) (s_room s))
  (Hrq : wf_req rq) (Hnm : AllTrim (r_name rq ++ [NUL]) = Some nb) (Hlen : len <= 3919).

(** The child, a server for the request, and the queues. *)
Hypotheses (Ha : attached w = true) (K : tables_ok w) (Hc : o_caught (w_os w) = []) (Hheap : heap_ok w)
  (Hsv : scan (fun t => same_name nm (svc_name t)) (tSvrTab w) 0 = svrno) (Hpos : 0 <= svrno)
  (Ht : znth (tSvrTab w) svrno = Some t) (Hdown : down t = false) (Hty : 1 <= msg_type t)
  (Hmsg : SIZEOF_HEAD + len < BUS_MAX_MSG_LEN) (Hmax : SIZEOF_HEAD + len <= max_msg_len (w_ctrl w)) (Hpid : 0 < o_pid (w_os w))
  (Hne : req <> rsp) (Hq : queue req (w_os w) = Some q) (Hcnt : Z.of_nat (length (q_msgs q)) <= MSQ_MAX_NUM)
  (Hf : fits m q = true)
  (Hq2 : queue rsp (w_os w) = Some q2) (Hm2 : of_type (o_pid (w_os w)) (q_msgs q2) = []).

Let w2 := before_call c rq payload nb.

Lemma child_head : length (enc_head h) = 96%nat.
Proof. exact (length_call_head c rq payload nb Hrq Hnm). Qed.

(** While nobody answers, the request is queued and the child waits. *)
Lemma child_queues : o_sched (w_os w) = [] ->
  exists c1, child_proc x c = Block c1 /\ queue req (w_os (q_world c1)) = Some (enqueue m q).
Proof.
  intros Hsched. pose proof (objects_aligned w Hheap) as (A1 & A2 & A3 & A4).
  destruct (request_read x s (q_net c) rq payload rest Hs Hps Hin Hrq Hlen) as (ps & R & Hrest).
  destruct (call_waits handler w2 nm b (len + SIZEOF_HEAD) svrno t (enc_head h ++ payload) q q2
    (b + STRIDE) (b + STRIDE + STRIDE) 0) as (w' & E & Q & _); try done.
  - eapply tables_ok_keep; [..|exact K]; reflexivity.
  - unfold NULL. lia.
  - unfold SIZEOF_HEAD, len in *. lia.
  - change (w_ctrl w2) with (w_ctrl w). lia.
  - exact (before_call_request c rq payload nb Hrq Hnm Hheap).
  - rewrite length_app, child_head. unfold SIZEOF_HEAD, len. lia.
  - unfold STRIDE, NULL. lia.
  - unfold STRIDE, NULL. lia.
  - exists (set_q_world w' (set_q_net (left_over x s ps (q_net c)) c)). split; [|exact Q].
    unfold child_proc. rewrite (on_net_step _ _ _ _ _ R). cbn [negb Z.eqb].
    unfold bind at 1. rewrite (call_svr_calls (set_q_net (left_over x s ps (q_net c)) c) rq payload nb Hrq Hnm Hlen Hheap).
    unfold bind, on_world, within. cbn [q_world set_q_world set_q_net].
    change (before_call (set_q_net _ c) rq payload nb) with w2. fold w b nm len. now rewrite E.
Qed.

(** The frame for the client. *)
Lemma answer_packed hd answer (la := Z.of_nat (length answer)) :
  length hd = 96%nat -> 0 < la -> SIZEOF_HEAD + la <= BUS_MAX_MSG_LEN - 8 ->
  exists bb, pack_rsp (zeros 8097) (hd ++ answer ++ zeros (10241 - (SIZEOF_HEAD + la))) (SIZEOF_HEAD + la) rq
    = Some (bb, 4 + (SIZEOF_REQ + la))
  /\ take (Z.to_nat (4 + (SIZEOF_REQ + la))) bb = frame (enc_req (mkReq (r_name rq) (r_ssn rq) 0) ++ answer)
  /\ 4 + (SIZEOF_REQ + la) <= Z.of_nat (length bb).
Proof.
  intros Lh Hla0 Hla. unfold SIZEOF_HEAD, SIZEOF_REQ, BUS_MAX_MSG_LEN in *. set (e := enc_req (mkReq (r_name rq) (r_ssn rq) 0)).
  assert (Le : length e = 40%nat) by (apply length_enc_req; apply Hrq).
  destruct (header_chars (40 + la) ltac:(lia)) as (L4 & _ & _). set (hdr := fmt_0d 4 (40 + la)) in *.
  exists (hdr ++ e ++ answer ++ zeros (8053 - la)). split; [|split].
  - unfold pack_rsp. change SIZEOF_HEAD with 96. change SIZEOF_REQ with 40. change SOCKET_MSG_HEAD_LEN with 4.
    rewrite i32_id by lia. replace (96 + la - 96 + 40) with (40 + la) by lia. fold hdr.
    rewrite st_zeros_start by (rewrite length_app; cbn; lia). cbn [mbind option_bind].
    replace (8097 - Z.of_nat (length (hdr ++ [NUL]))) with 8092 by (rewrite length_app, L4; done).
    replace ((hdr ++ [NUL]) ++ zeros 8092) with (hdr ++ zeros 40 ++ zeros 8053)
      by (rewrite <- app_assoc; change [NUL] with (zeros 1); now rewrite <- !zeros_add).
    fold e. rewrite (st_app 4 hdr (zeros 40) _ e) by (rewrite ?length_zeros_nat; lia). cbn [mbind option_bind].
    replace (96 + la - 96) with la by lia. rewrite (ld_app 96 la hd answer) by (rewrite ?Lh; done). cbn [mbind option_bind].
    replace (zeros 8053) with (zeros la ++ zeros (8053 - la)) by (rewrite <- zeros_add by lia; f_equal; lia).
    rewrite (app_assoc hdr), (st_app (40 + 4)) by (rewrite ?length_app, ?length_zeros_nat; unfold la in *; lia).
    cbn [mbind option_bind]. rewrite <- !app_assoc. replace (40 + la + 4) with (4 + (40 + la)) by lia. reflexivity.
  - unfold frame. rewrite length_app, Le. replace (Z.of_nat (40 + length answer)) with (40 + la) by (unfold la; lia). fold hdr.
    rewrite (app_assoc e), (app_assoc hdr). apply take_app_length'. rewrite !length_app, L4, Le. unfold la. lia.
  - rewrite !length_app, !length_zeros_nat, L4, Le. unfold la in *. lia.
Qed.

(** A server takes the request and answers with a head and [answer]. *)
Lemma child_answered src hd answer evs (la := Z.of_nat (length answer)) :
  let a := mkMsg (o_pid (w_os w)) (le64 src ++ hd ++ answer) in
  o_sched (w_os w) = EvRecv req (msg_type t) :: EvSend rsp a :: evs -> fits a q2 = true ->
  LONG_MIN <= src <= LONG_MAX -> length hd = 96%nat -> 0 < la -> SIZEOF_HEAD + la <= BUS_MAX_MSG_LEN - 8 ->
  exists c', child_proc x c = Ret 0 c'
    /\ (exists s', n_socks (q_net c') !! x = Some s'
         /\ s_out s' = s_out s ++ frame (enc_req (mkReq (r_name rq) (r_ssn rq) 0) ++ answer))
    /\ (forall y, y <> x -> n_socks (q_net c') !! y = n_socks (q_net c) !! y)
    /\ of_type (o_pid (w_os w)) (msgs rsp (w_os (q_world c'))) = [].
Proof.
  intros a Hsched Hfa Hsrc Lh Hla0 Hla. pose proof (objects_aligned w Hheap) as (A1 & A2 & A3 & A4).
  destruct (request_read x s (q_net c) rq payload rest Hs Hps Hin Hrq Hlen) as (ps & R & Hrest).
  destruct (before_call_heap c rq payload nb) as [Hb1 Hb2].
  assert (Lr : Z.of_nat (length (hd ++ answer)) = SIZEOF_HEAD + la) by (rewrite length_app, Lh; unfold SIZEOF_HEAD, la; lia).
  set (rb := hd ++ answer ++ zeros (10241 - (SIZEOF_HEAD + la))).
  destruct (call_answers handler w2 nm b (len + SIZEOF_HEAD) svrno t (enc_head h ++ payload) q q2
    (b + STRIDE) (b + STRIDE + STRIDE) (zeros 10241) rb (le64 0) src (hd ++ answer) evs 0) as (l & o' & E & Eo & Hl & _); try done.
  - eapply tables_ok_keep; [..|exact K]; reflexivity.
  - unfold NULL. lia.
  - unfold SIZEOF_HEAD, len in *. lia.
  - change (w_ctrl w2) with (w_ctrl w). lia.
  - exact (before_call_request c rq payload nb Hrq Hnm Hheap).
  - rewrite length_app, child_head. unfold SIZEOF_HEAD, len. lia.
  - rewrite Lr. unfold SIZEOF_HEAD in *. lia.
  - unfold STRIDE, NULL. lia.
  - rewrite st_zeros_start by (rewrite Lr; unfold SIZEOF_HEAD, BUS_MAX_MSG_LEN in *; lia). rewrite Lr. unfold rb. now rewrite <- app_assoc.
  - unfold STRIDE, NULL. lia.
  - unfold STRIDE. lia.
  - set (w' := set_w_heap _ _) in E. set (cn := set_q_net (left_over x s ps (q_net c)) c).
    destruct (answer_packed hd answer Lh Hla0 Hla) as (bb & P & F & B).
    assert (Hsx : n_socks (q_net (set_q_world w' cn)) !! x = Some (set_in ps s)) by apply lookup_insert_eq.
    destruct (WriteSocket_all x (set_in ps s) (q_net (set_q_world w' cn)) bb (4 + (SIZEOF_REQ + la)) Hsx)
      as (ks & n' & R6 & S6 & O6); [unfold la in *; fold la in B; unfold SIZEOF_REQ in *; lia|exact Hroom|].
    exists (set_q_net n' (set_q_world w' cn)). split; [|split; [|split]].
    + unfold child_proc. rewrite (on_net_step _ _ _ _ _ R). cbn [negb Z.eqb]. fold cn.
      erewrite bind_Ret.
      2:{ rewrite (call_svr_calls cn rq payload nb Hrq Hnm Hlen Hheap). change (w_brk (q_world cn)) with b.
          erewrite on_world_Ret by exact E. unfold call_result. cbn [negb Z.eqb].
          erewrite on_world_Ret.
          2:{ rewrite <- (Z.add_0_r (b + STRIDE + STRIDE)). eapply (load_at _ 0 8); [exact A4|done|apply lookup_insert_eq|].
              apply (ld_end 0 8 [] (le64 (Z.of_nat (length (hd ++ answer))))); [done|]. now rewrite length_le64. }
          erewrite on_world_Ret.
          2:{ rewrite <- (Z.add_0_r (b + STRIDE)). eapply (load_at _ 0 10241); [exact A3|done| |].
              - cbn [q_world set_q_world w' w_heap set_w_heap]. rewrite lookup_insert_ne by (unfold STRIDE; lia). apply lookup_insert_eq.
              - apply (ld_end 0 10241 [] rb); [done|]. unfold rb. rewrite app_assoc, length_app, length_zeros_nat.
                unfold SIZEOF_HEAD, BUS_MAX_MSG_LEN in *. lia. }
          rewrite get_i64_le64, i64_id by (unfold SIZEOF_HEAD, BUS_MAX_MSG_LEN in *; lia).
          rewrite Lr. unfold rb. fold la in P. rewrite P. erewrite bind_Ret by reflexivity. reflexivity. }
      cbv beta iota. cbn [negb Z.eqb]. change (set_q_world _ (set_q_world _ _)) with (set_q_world w' cn).
      rewrite (on_net_step _ _ _ _ _ R6). reflexivity.
    + eexists. split; [exact S6|]. cbn [s_out set_out set_in]. fold la in F. now rewrite F.
    + intros y Hy. rewrite O6 by done. now apply lookup_insert_ne.
    + cbn [q_world set_q_net set_q_world w' w_os set_w_heap set_timer_expired set_w_os]. unfold msgs. rewrite Eo, queue_set_eq. exact Hl.
Qed.

(** C27: a child serves one request.  The request is queued for the server that the tables
    name: its head has the service, the client's number for the request and the child's
    process id as the type of the reply; and the child waits.  When a server answers, the
    child sends the client one frame: the head of the request with the error number 0, and
    the answer. *)
Theorem child_proc_correct :
  (o_sched (w_os w) = [] ->
     exists c1, child_proc x c = Block c1 /\ queue req (w_os (q_world c1)) = Some (enqueue m q))
  /\ (forall src hd answer evs,
       let a := mkMsg (o_pid (w_os w)) (le64 src ++ hd ++ answer) in
       o_sched (w_os w) = EvRecv req (msg_type t) :: EvSend rsp a :: evs -> fits a q2 = true ->
       LONG_MIN <= src <= LONG_MAX -> length hd = 96%nat -> answer <> [] ->
       SIZEOF_HEAD + Z.of_nat (length answer) <= BUS_MAX_MSG_LEN - 8 ->
       exists c', child_proc x c = Ret 0 c'
         /\ (exists s', n_socks (q_net c') !! x = Some s'
              /\ s_out s' = s_out s ++ frame (enc_req (mkReq (r_name rq) (r_ssn rq) 0) ++ answer))
         /\ (forall y, y <> x -> n_socks (q_net c') !! y = n_socks (q_net c) !! y)
         /\ of_type (o_pid (w_os w)) (msgs rsp (w_os (q_world c'))) = []).
Proof.
  split; [exact child_queues|]. intros src hd answer evs a Hsched Hfa Hsrc Lh Hne0 Hla.
  apply (child_answered src hd answer evs); try done. destruct answer; [done|cbn [length]; lia].
Qed.
End Child.

(** A request that fails is not answered.  For an unknown service the child prepares
    the answer with the error number 99 and ends without sending it. *)
Theorem failed_request_unanswered c x s rq payload rest nb :
  let w := q_world c in
  let len := Z.of_nat (length payload) in
  n_socks (q_net c) !! x = Some s -> pieces_ok (s_in s) ->
  List.concat (s_in s) = frame (request_body rq payload) ++ rest -> wf_req rq ->
  AllTrim (r_name rq ++ [NUL]) = Some nb -> len <= 3919 ->
  attached w = true -> tables_ok w -> heap_ok w -> SIZEOF_HEAD + len <= max_msg_len (w_ctrl w) ->
  scan (fun t => same_name (cstr nb) (svc_name t)) (tSvrTab w) 0 = -1 ->
  exists c', child_proc x c = Ret (-1) c' /\ tux_errno (q_world c') = SYS_NOENT
    /\ (exists s', n_socks (q_net c') !! x = Some s' /\ s_out s' = s_out s)
    /\ w_os (q_world c') = w_os w.
Proof.
  intros w len Hs Hps Hin Hrq Hnm Hlen Ha K Hheap Hmax Hsv. pose proof (objects_aligned w Hheap) as (A1 & A2 & _).
  destruct (request_read x s (q_net c) rq payload rest Hs Hps Hin Hrq Hlen) as (ps & R & _).
  set (cn := set_q_net (left_over x s ps (q_net c)) c). set (w2 := before_call c rq payload nb).
  assert (E : tux_call handler (Some (cstr nb)) (w_brk w) (len + SIZEOF_HEAD) (w_brk w + STRIDE) (w_brk w + STRIDE + STRIDE) 0 w2
    = Ret (-1) (set_tux_errno SYS_NOENT w2)).
  { rewrite (call_start handler w2 (cstr nb) _ _ (-1)); try done.
    - eapply tables_ok_keep; [..|exact K]; reflexivity.
    - unfold NULL. lia.
    - unfold SIZEOF_HEAD, len. lia.
    - change (w_ctrl w2) with (w_ctrl w). lia.
    - unfold STRIDE, NULL. lia.
    - unfold STRIDE, NULL. lia. }
  assert (L0 : length (enc_req (mkReq (r_name rq) (r_ssn rq) 99)) = 40%nat) by (apply length_enc_req; apply Hrq).
  destruct (st_Some SOCKET_MSG_HEAD_LEN (enc_req (mkReq (r_name rq) (r_ssn rq) 99))
    ((fmt_0d 4 40 ++ [NUL]) ++ zeros 8092)) as [b2 S2]; [done|rewrite L0; vm_compute; discriminate|].
  assert (P : pack_err_rsp (zeros 8097) rq = Some (b2, 44)).
  { unfold pack_err_rsp. rewrite st_zeros_start by (vm_compute; discriminate). cbn [mbind option_bind].
    change (8097 - _) with 8092. change (fmt_0d SOCKET_MSG_HEAD_LEN SIZEOF_REQ) with (fmt_0d 4 40). now rewrite S2. }
  exists (set_q_world (set_tux_errno SYS_NOENT w2) cn). split; [|split; [done|split; [|done]]].
  - unfold child_proc. rewrite (on_net_step _ _ _ _ _ R). cbn [negb Z.eqb]. fold cn.
    rewrite (bind_Ret _ _ cn (-1, b2, 44) (set_q_world (set_tux_errno SYS_NOENT w2) cn)); [reflexivity|].
    rewrite (call_svr_calls cn rq payload nb Hrq Hnm Hlen Hheap).
    erewrite on_world_Ret by exact E. unfold call_result. cbn [negb Z.eqb]. rewrite P. reflexivity.
  - exists (set_in ps s). split; [apply lookup_insert_eq|done].
Qed.

(** *** Witnesses *)

(** The gateway with a connection to accept and a process for it, and one of its children. *)
Definition demo_parent : c001 :=
  mkC001 (set_w_os (set_forks [500] (w_os demo_server)) demo_server)
    (mkNet {[3 := closed_sock]} 0 [] [] [] [(6, 0)] 0 0 no_alarm) no_children 9001 3 0 0 8.

Definition demo_child (data : list bytes) (sched : list event) : c001 :=
  mkC001 (demo_process [] [] sched demo_services)
    (mkNet {[6 := mkSock data false true [] [] []]} 0 [] [] [] [] 0 0 no_alarm) no_children 9001 3 6 0 8.

Lemma no_child_registered_witness :
  exists c' c'', accept_one demo_parent = Ret tt c' /\ nChdNum c' = 1 /\ gpidSonPid c' = no_children
    /\ main_exit (A := unit) SIGTERM c' = Exit 1 c''.
Proof.
  assert (E : exists c', accept_one demo_parent = Ret tt c' /\ nChdNum c' = 1)
    by (eexists; split; [reflexivity|reflexivity]).
  destruct E as (c' & E & E1).
  destruct (no_child_registered demo_parent c' eq_refl (rtc_once _ _ (Accept _ _ E))) as [G H].
  destruct (H SIGTERM) as (n & X & _). exists c'. eexists. refine (conj E (conj E1 (conj G X))).
Defined.

Definition two_pieces : list bytes := [take 10 echo_frame; drop 10 echo_frame].

Definition echo_answer : kmsg := mkMsg 1 (le64 0 ++ zeros 96 ++ hello).

Ltac child_tac :=
  lazymatch goal with
  | |- heap_ok _ => apply demo_process_heap
  | |- _ => threads_tac
  end.

Lemma child_proc_correct_witness :
  exists c', child_proc 6 (demo_child two_pieces [EvRecv 1 300007; EvSend 2 echo_answer]) = Ret 0 c'
    /\ exists s', n_socks (q_net c') !! 6 = Some s'
      /\ s_out s' = frame (enc_req (mkReq (str " ECHO" ++ zeros 27) 77 0) ++ hello).
Proof.
  destruct (child_proc_correct (demo_child two_pieces [EvRecv 1 300007; EvSend 2 echo_answer]) 6
    (mkSock two_pieces false true [] [] []) echo_req hello [] (str "ECHO" ++ zeros 29) demo_svr 1
    (mkQueue 601107 [] MSGMNB) (mkQueue 601117 [] MSGMNB)) as [_ H]; [child_tac..|].
  destruct (H 0 (zeros 96) hello []) as (c' & E & (s' & S & O) & _); [child_tac..|].
  exists c'. split; [exact E|]. exists s'. split; [exact S|exact O].
Defined.

Definition lost_req : sunda_req_head_t := mkReq (str "NONE" ++ zeros 28) 77 0.

Lemma failed_request_unanswered_witness :
  exists c', child_proc 6 (demo_child [frame (request_body lost_req hello)] []) = Ret (-1) c'
    /\ tux_errno (q_world c') = SYS_NOENT.
Proof.
  destruct (failed_request_unanswered (demo_child [frame (request_body lost_req hello)] []) 6
    (mkSock [frame (request_body lost_req hello)] false true [] [] []) lost_req hello [] (str "NONE" ++ zeros 29))
    as (c' & E & T & _); [child_tac..|].
  exists c'. refine (conj E T).
Defined.
