(* ===== verification/C002.v ===== *)
(** * The long-connection gateway: [src/dev/src/comm/C002/C002.c]

    A process with one connection from, and one connection to, the same remote system, and
    two children: [ChdDoSvr] forwards the requests that arrive on the first connection,
    [ChdDoClt] sends the replies over the second.  The parent forks a child again when it
    has ended.

    The child of a [fork] goes on in the model on the parent's state, its own copy.  The
    addresses of the peers, and whether the parent still lives, come from the environment.
    The alarm around [WriteSocket] is not modelled: [giTimeOut] stays 0 in [ChdDoClt]. *)

From Stdlib Require Import ZArith Lia Bool List Ascii String.
From stdpp Require Import base list gmap.
From S2P Require Import Prelude Cstr Funstr Kernel Funsock Funmsq Funfile Sunda Tuxmem Registry Tuxcall.
From S2P Require Import Clients Commserver Gateway Exchange Roundtrip.

Record gpidSonPidDef := mkSon { son_pid : Z; son_seq : Z }.

Record c002 := mkC002 {
  l_world : world;
  l_net : net;
  gpidSonPid : list gpidSonPidDef;   (* two of them *)
  gsCltIP : bytes;
  giLocPort : Z;
  giRmtPort : Z;
  giLstnScktId : Z;
  giConnScktId : Z;
  giClntScktId : Z;
  gSvrId : Z;
  giTimeOut : Z;
  l_peers : list bytes;              (* addresses of the clients that will be accepted *)
  l_orphan : list bool;              (* for the next tests: the parent has died *)
}.

Definition set_l_world (v : world) (c : c002) : c002 :=
  mkC002 v (l_net c) (gpidSonPid c) (gsCltIP c) (giLocPort c) (giRmtPort c) (giLstnScktId c) (giConnScktId c) (giClntScktId c) (gSvrId c) (giTimeOut c) (l_peers c) (l_orphan c).
Definition set_l_net (v : net) (c : c002) : c002 :=
  mkC002 (l_world c) v (gpidSonPid c) (gsCltIP c) (giLocPort c) (giRmtPort c) (giLstnScktId c) (giConnScktId c) (giClntScktId c) (gSvrId c) (giTimeOut c) (l_peers c) (l_orphan c).
Definition set_gpidSonPid (v : list gpidSonPidDef) (c : c002) : c002 :=
  mkC002 (l_world c) (l_net c) v (gsCltIP c) (giLocPort c) (giRmtPort c) (giLstnScktId c) (giConnScktId c) (giClntScktId c) (gSvrId c) (giTimeOut c) (l_peers c) (l_orphan c).
Definition set_options (ip : bytes) (loc rmt : Z) (c : c002) : c002 :=
  mkC002 (l_world c) (l_net c) (gpidSonPid c) ip loc rmt (giLstnScktId c) (giConnScktId c) (giClntScktId c) (gSvrId c) (giTimeOut c) (l_peers c) (l_orphan c).
Definition set_sockets (lstn conn clnt : Z) (c : c002) : c002 :=
  mkC002 (l_world c) (l_net c) (gpidSonPid c) (gsCltIP c) (giLocPort c) (giRmtPort c) lstn conn clnt (gSvrId c) (giTimeOut c) (l_peers c) (l_orphan c).
Definition set_gSvrId (v : Z) (c : c002) : c002 :=
  mkC002 (l_world c) (l_net c) (gpidSonPid c) (gsCltIP c) (giLocPort c) (giRmtPort c) (giLstnScktId c) (giConnScktId c) (giClntScktId c) v (giTimeOut c) (l_peers c) (l_orphan c).
Definition set_giTimeOut (v : Z) (c : c002) : c002 :=
  mkC002 (l_world c) (l_net c) (gpidSonPid c) (gsCltIP c) (giLocPort c) (giRmtPort c) (giLstnScktId c) (giConnScktId c) (giClntScktId c) (gSvrId c) v (l_peers c) (l_orphan c).
Definition set_l_peers (v : list bytes) (c : c002) : c002 :=
  mkC002 (l_world c) (l_net c) (gpidSonPid c) (gsCltIP c) (giLocPort c) (giRmtPort c) (giLstnScktId c) (giConnScktId c) (giClntScktId c) (gSvrId c) (giTimeOut c) v (l_orphan c).
Definition set_l_orphan (v : list bool) (c : c002) : c002 :=
  mkC002 (l_world c) (l_net c) (gpidSonPid c) (gsCltIP c) (giLocPort c) (giRmtPort c) (giLstnScktId c) (giConnScktId c) (giClntScktId c) (gSvrId c) (giTimeOut c) (l_peers c) v.

Definition on_net {A} : prog net A -> prog c002 A := within l_net set_l_net.
Definition on_os {A} (m : prog os A) : prog c002 A := within l_world set_l_world (lift m).

Definition set_conn (fd : Z) (c : c002) : c002 := set_sockets (giLstnScktId c) fd (giClntScktId c) c.
Definition set_clnt (fd : Z) (c : c002) : c002 := set_sockets (giLstnScktId c) (giConnScktId c) fd c.
Definition set_lstn (fd : Z) (c : c002) : c002 := set_sockets fd (giConnScktId c) (giClntScktId c) c.

(** ** Signals of the children *)

Definition clt_child_kill : prog c002 unit := let* fd := get giClntScktId in on_net (close fd).
Definition svr_child_kill : prog c002 unit := let* fd := get giConnScktId in on_net (close fd).

(** The library's calls in a child.  They do not touch the sockets, so that what the
    handler of a SIGTERM does can be done behind them; the other signals have none. *)
Definition no_effect : Z -> prog world unit := fun _ => ret tt.

Definition consumed (before after : world) : list event :=
  take (length (o_sched (w_os before)) - length (o_sched (w_os after))) (o_sched (w_os before)).

Definition is_sigterm (e : event) : bool := match e with EvSignal sig => sig =? SIGTERM | _ => false end.

Definition on_world {A} (kill : prog c002 unit) (m : prog world A) : prog c002 A :=
  let* before := get l_world in
  let* a := within l_world set_l_world m in
  let* after := get l_world in
  when (existsb is_sigterm (consumed before after)) kill ;;;
  ret a.

(** [ppid != getppid()]. *)
Definition parent_died : prog c002 bool :=
  let* l := get l_orphan in
  match l with
  | b :: l => modify (set_l_orphan l) ;;; ret b
  | [] => ret false
  end.

(** ** The child that reads the requests *)

(** The head of a request.  [COMM_L_MSG_TYPE_ROOT] is subtracted from its length in place
    of [SOCKET_MSG_HEAD_LEN]. *)
Definition request_head (sSvcName : bytes) (fd ssn now iBufLen : Z) : IPCMsgHead :=
  mkHead (buf_of 33 sSvcName) ssn 0 COMM_L_MSG_TYPE_ROOT fd now REPLY_FLAG_ASYN 0
    (i32 (iBufLen - COMM_L_MSG_TYPE_ROOT - SIZEOF_REQ)).

(** One turn of the loop of [ChdDoSvr], with the thread's buffer [sReqBuf].  [exit_] ends
    the child. *)
Definition svr_turn (sReqBuf : Z) : prog c002 unit :=
  modify (set_giTimeOut 0) ;;;
  let* died := parent_died in
  if (died : bool) then svr_child_kill ;;; exit_ 1
  else
    let* conn := get giConnScktId in
    let* (iRet, sSrcBuf, iBufLen) := on_net (RcvTxnMsg conn SOCKET_MSG_HEAD_LEN (zeros 8097) 0) in
    if negb (iRet =? 0) then
      let* n := get l_net in
      if (n_errno n =? EINTR) || (0 <? iRet) then ret tt
      else svr_child_kill ;;; exit_ 1
    else
      let* b := deref (ld SOCKET_MSG_HEAD_LEN SIZEOF_REQ sSrcBuf) in
      let req_head := dec_req b in
      let* sSvcName := deref (AllTrim (r_name req_head ++ [NUL])) in
      let sSvcName := cstr sSvcName in
      let* now := on_os time_ in
      let h := request_head sSvcName conn (r_ssn req_head) now iBufLen in
      let* body := deref (ld (SOCKET_MSG_HEAD_LEN + SIZEOF_REQ) iBufLen sSrcBuf) in
      let* iRet := on_world svr_child_kill (
        store sReqBuf (enc_head h) ;;;
        store (sReqBuf + SIZEOF_HEAD) body ;;;
        tux_acall no_effect (Some sSvcName) sReqBuf (iBufLen + SIZEOF_HEAD) 0) in
      if negb (iRet =? 0) then
        let* w := get l_world in
        if tux_errno w =? SYS_SYSTEM then svr_child_kill ;;; exit_ 1 else ret tt
      else ret tt.

Fixpoint svr_turns (fuel : nat) (sReqBuf : Z) : prog c002 unit :=
  match fuel with
  | O => spin
  | S fuel => svr_turn sReqBuf ;;; svr_turns fuel sReqBuf
  end.

Definition ChdDoSvr (fuel : nat) : prog c002 unit :=
  let* sReqBuf := on_world (ret tt) (new_object (zeros 10241)) in
  svr_turns fuel sReqBuf.

(** ** The child that sends the replies *)

(** [tux_getreply] until it is not interrupted. *)
Fixpoint get_reply (fuel : nat) (msg_type sSrcBuf iBufLen : Z) : prog c002 unit :=
  match fuel with
  | O => spin
  | S fuel =>
      let* iRet := on_world clt_child_kill (tux_getreply no_effect msg_type sSrcBuf iBufLen 0) in
      if negb (iRet =? 0) then
        let* w := get l_world in
        if o_errno (w_os w) =? EINTR then get_reply fuel msg_type sSrcBuf iBufLen
        else clt_child_kill ;;; exit_ 1
      else ret tt
  end.

(** What is sent for the [iBufLen] bytes received in [sSrcBuf]: no length in front. *)
Definition reply_data (sSrcBuf : bytes) (iBufLen : Z) : option (bytes * Z) :=
  b ← ld 0 SIZEOF_HEAD sSrcBuf;
  let h := dec_head b in
  let iRspLen := i32 (iBufLen - SIZEOF_HEAD) in
  sRspBuf ← st 0 (enc_req (mkReq (take NAME_LEN (h_name h)) (h_ssn h) 0)) (zeros 10241);
  data ← ld SIZEOF_HEAD iRspLen sSrcBuf;
  sRspBuf ← st SIZEOF_REQ data sRspBuf;
  Some (sRspBuf, iRspLen + SIZEOF_REQ).

Definition clt_turn (sSrcBuf iBufLen : Z) : prog c002 unit :=
  let* died := parent_died in
  if (died : bool) then clt_child_kill ;;; exit_ 1
  else
    let* svrid := get gSvrId in
    on_world clt_child_kill (store sSrcBuf (zeros 10241)) ;;;
    let* w := get l_world in
    get_reply (S (length (o_sched (w_os w)))) (COMM_L_MSG_TYPE_ROOT + svrid) sSrcBuf iBufLen ;;;
    let* src := on_world clt_child_kill (load sSrcBuf 10241) in
    let* len := on_world clt_child_kill (load iBufLen 8) in
    let* (sRspBuf, iRspLen) := deref (reply_data src (get_i64 len)) in
    let* clnt := get giClntScktId in
    let* iRet := on_net (WriteSocket clnt sRspBuf iRspLen) in
    if iRet <? 0 then
      let* late := get giTimeOut in
      if late =? 1 then ret tt else clt_child_kill ;;; exit_ 1
    else ret tt.

Fixpoint clt_turns (fuel : nat) (sSrcBuf iBufLen : Z) : prog c002 unit :=
  match fuel with
  | O => spin
  | S fuel => clt_turn sSrcBuf iBufLen ;;; clt_turns fuel sSrcBuf iBufLen
  end.

Definition ChdDoClt (fuel : nat) : prog c002 unit :=
  let* sSrcBuf := on_world (ret tt) (new_object (zeros 10241)) in
  let* iBufLen := on_world (ret tt) (new_object (le64 0)) in
  clt_turns fuel sSrcBuf iBufLen.

Definition ChdMainProc (fuel : nat) (iChdNum : Z) : prog c002 unit :=
  modify (set_giTimeOut 0) ;;;
  if Z.rem iChdNum 2 =? 0 then ChdDoSvr fuel else ChdDoClt fuel.

(** ** The parent *)

Definition main_exit {A} (sig : Z) : prog c002 A :=
  let* l := get gpidSonPid in
  for_each l (fun e => when (0 <? son_pid e) (on_os (kill (son_pid e) SIGTERM) ;;; ret tt)) ;;;
  let* lstn := get giLstnScktId in
  on_net (CloseSocket lstn) ;;;
  exit_ 1.

(** A child in the place [i] of the table; [fuel] bounds the turns of the child. *)
Definition start_child (fuel : nat) (i : Z) : prog c002 unit :=
  let* pid := on_os fork in
  if pid =? -1 then main_exit 1
  else if pid =? 0 then
    let* lstn := get giLstnScktId in
    on_net (close lstn) ;;;
    ChdMainProc fuel (i + 1) ;;;
    exit_ 0
  else
    let* l := get gpidSonPid in
    modify (set_gpidSonPid (zupd i (fun _ => mkSon pid (i + 1)) l)).

(** [fuel] is more than the number of children that have ended. *)
Fixpoint child_exit (fuel turns : nat) (sig : Z) : prog c002 unit :=
  match fuel with
  | O => spin
  | S fuel =>
      let* nPid := on_os waitpid in
      if nPid <=? 0 then ret tt
      else
        let* l := get gpidSonPid in
        let i := scan (fun e => son_pid e =? nPid) l 0 in
        if i <? 0 then child_exit fuel turns sig
        else start_child turns i ;;; child_exit fuel turns sig
  end.

(** [strncpy(gsCltIP, optarg, 12)]. *)
Definition one_option (o : option (ascii * bytes)) : prog c002 unit :=
  match o with
  | Some (c, optarg) =>
      modify (fun s =>
        if ceqb c "p" then set_options (gsCltIP s) (atoi optarg) (giRmtPort s) s
        else if ceqb c "i" then
          set_options (buf_of 12 (take 12 optarg) ++ drop 12 (gsCltIP s)) (giLocPort s) (giRmtPort s) s
        else set_options (gsCltIP s) (giLocPort s) (atoi optarg) s)
  | None => ret tt
  end.

Definition comm_init (argv : list bytes) : prog c002 Z :=
  match argv with
  | _ :: arg1 :: _ :: arg3 :: words =>
      let* me := on_os getpid in
      if negb (atol arg1 =? me) then ret (-1)
      else
        modify (set_gSvrId (atoi arg3)) ;;;
        for_each (getopt_all (str "pio") words) one_option ;;;
        let* l := get gpidSonPid in
        modify (set_gpidSonPid (map (fun e => mkSon (-1) (son_seq e)) l)) ;;;
        let* iRet := on_world (ret tt) ipc_connect in
        if negb (iRet =? 0) then ret (-1) else ret 0
  | _ => ret (-1)
  end.

(** Connections are accepted until one comes from the remote system. *)
Fixpoint accept_peer (fuel : nat) : prog c002 unit :=
  match fuel with
  | O => spin
  | S fuel =>
      let* (iRet, conn) := on_net AcceptSocket in
      modify (set_conn conn) ;;;
      if negb (iRet =? 0) then on_net (close conn) ;;; accept_peer fuel
      else
        let* peers := get l_peers in
        match peers with
        | [] => fun c => Block c
        | sRmtCltAddr :: peers =>
            modify (set_l_peers peers) ;;;
            let* c := get id in
            if negb (bool_decide (cstr (gsCltIP c) = sRmtCltAddr)) then on_net (close conn) ;;; accept_peer fuel
            else ret tt
        end
  end.

(** Eleven attempts to connect. *)
Fixpoint open_peer (n : nat) : prog c002 unit :=
  match n with
  | O =>
      let* c := get id in
      on_net (close (giConnScktId c)) ;;; on_net (close (giLstnScktId c)) ;;; exit_ (-1)
  | S n =>
      let* (iRet, clnt) := on_net (OpenSocket 9999 10) in
      modify (set_clnt clnt) ;;;
      if iRet =? 0 then ret tt else open_peer n
  end.

Definition main (fuel : nat) (argv : list bytes) : prog c002 unit :=
  let* iRet := comm_init argv in
  if negb (iRet =? 0) then exit_ 1
  else
    let* (iRet, lstn) := on_net (CreateSocket 9999 0) in
    modify (set_lstn lstn) ;;;
    if negb (iRet =? 0) then exit_ (-1)
    else
      accept_peer fuel ;;;
      open_peer 11 ;;;
      start_child fuel 0 ;;;
      start_child fuel 1 ;;;
      (fun c => Block c).

(** ** Steps *)

Lemma on_net_steps {A B} (m : prog net A) (k : A -> prog c002 B) c a n :
  m (l_net c) = Ret a n -> bind (on_net m) k c = k a (set_l_net n c).
Proof. apply within_bind. Qed.

(** A call of the library that does not wait. *)
Lemma on_world_step {A B} kill (m : prog world A) (k : A -> prog c002 B) c a w :
  m (l_world c) = Ret a w -> o_sched (w_os w) = o_sched (w_os (l_world c)) ->
  bind (on_world kill m) k c = k a (set_l_world w c).
Proof.
  intros H Hs. unfold on_world. rewrite bind_assoc. erewrite bind_Ret by reflexivity.
  rewrite bind_assoc. rewrite (within_bind _ _ _ _ _ _ _ H).
  unfold consumed. unfold bind, get. cbn [obind l_world set_l_world]. rewrite Hs, Nat.sub_diag. reflexivity.
Qed.

Lemma parent_alive {B} (k : bool -> prog c002 B) c : l_orphan c = [] -> bind parent_died k c = k false c.
Proof. intros H. unfold parent_died. rewrite bind_assoc. unfold bind, get. cbn [obind]. now rewrite H. Qed.

(** ** Requests *)

(** A server that finds a negative length in the head. *)
Lemma negative_length handler svc_call v svrid svc_pos q h src data r k :
  attached v = true -> tables_ok v -> o_caught (w_os v) = [] ->
  queue (req_que_id (w_ctrl v)) (w_os v) = Some q -> 0 < svrid + SVR_MSG_TYPE_ROOT ->
  of_type (svrid + SVR_MSG_TYPE_ROOT) (q_msgs q) = mkMsg (svrid + SVR_MSG_TYPE_ROOT) (le64 src ++ enc_head h ++ data) :: r ->
  LONG_MIN <= src <= LONG_MAX -> wf_head h -> Z.of_nat (length data) <= BUS_MAX_MSG_LEN - 8 - SIZEOF_HEAD ->
  scan (registered (h_name h)) (tSvcTab v) 0 = k -> 0 <= k -> h_len h < 0 ->
  tux_service handler svc_call svrid svc_pos v = Fault.
Proof.
  intros Ha K Hc Hq HT Hm Hsrc Hh Hd Hk Hk0 Hneg.
  destruct (receive_found handler v svrid q h src data [] r) with (fuel := length (o_sched (w_os v)))
    as (l & o' & rest & E & _); rewrite ?app_nil_r; try done.
  rewrite app_nil_r in E. assert (L : length (enc_head h) = 96%nat) by (apply length_enc_head, Hh).
  unfold tux_service. erewrite bind_Ret by reflexivity. unfold sdIsAttach. cbn [id]. rewrite Ha. cbn [negb].
  rewrite (bind_Ret _ _ _ _ _ (ctrl_eq v Ha)), (bind_Ret _ _ _ _ _ E). cbn [sBuf]. rewrite <- app_assoc.
  rewrite (ld_0_app (enc_head h) _ SIZEOF_HEAD) by (rewrite L; reflexivity). erewrite bind_Ret by reflexivity.
  replace (dec_head (enc_head h)) with h by (symmetry; rewrite <- (app_nil_r (enc_head h)); now apply dec_enc_head).
  erewrite bind_Ret by reflexivity. set (w1 := set_gipcMsgHead h (set_w_os o' v)).
  rewrite (bind_Ret _ _ _ _ _ (tux_find_service_pos w1 (h_name h) Ha
    (tables_ok_keep v w1 eq_refl eq_refl eq_refl eq_refl K) 1 ltac:(lia))).
  change (tSvcTab w1) with (tSvcTab v). rewrite Hk, (proj2 (Z.ltb_ge k 0)) by done.
  unfold tux_alloc. rewrite (proj2 (Z.ltb_lt (h_len h) 0)) by done. erewrite bind_Ret by reflexivity.
  unfold ld. rewrite (proj2 (Z.leb_gt 0 (h_len h))) by done. rewrite andb_false_r. reflexivity.
Qed.

Section Request.
Context (c : c002) (p : Z) (s : sock) (rq : sunda_req_head_t) (payload rest nb : bytes).
Context (t : server_tab_t) (svrno : Z) (q : kqueue) (buf : bytes).
Let w := l_world c.
Let conn := giConnScktId c.
Let nm := cstr nb.
Let len := Z.of_nat (length payload).
Let req := req_que_id (w_ctrl w).
Let h := mkHead (buf_of 33 nm) (r_ssn rq) 0 COMM_L_MSG_TYPE_ROOT conn (o_time (w_os w)) REPLY_FLAG_ASYN 0 (len - 199996).
Let m := mkMsg (msg_type t) (le64 0 ++ enc_head h ++ payload ++ zeros 44).

(** A request arrives for a server that runs. *)
Hypotheses (Hlive : l_orphan c = []) (Hs : n_socks (l_net c) !! conn = Some s) (Hps : pieces_ok (s_in s))
  (Hin : List.concat (s_in s) = frame (request_body rq payload) ++ rest)
  (Hrq : wf_req rq) (Hnm : AllTrim (r_name rq ++ [NUL]) = Some nb) (Hlen : len <= 3912)
  (Ha : attached w = true) (K : tables_ok w) (Hc : o_caught (w_os w) = [])
  (Hsv : scan (fun t => same_name nm (svc_name t)) (tSvrTab w) 0 = svrno) (Hpos : 0 <= svrno)
  (Ht : znth (tSvrTab w) svrno = Some t) (Hdown : down t = false) (Hty : 1 <= msg_type t)
  (Hmax : SIZEOF_HEAD + 4 + SIZEOF_REQ + len <= max_msg_len (w_ctrl w))
  (Hq : queue req (w_os w) = Some q) (Hcnt : Z.of_nat (length (q_msgs q)) <= MSQ_MAX_NUM) (Hfits : fits m q = true)
  (Hp0 : p mod STRIDE = 0) (Hp : p <> NULL) (Hbuf : w_heap w !! p = Some buf) (Lbuf : Z.of_nat (length buf) = SIZEOF_BUF).

Lemma svr_turn_queues : exists ps buf', List.concat ps = rest
  /\ svr_turn p c = Ret tt (set_l_world (set_w_os (set_queue req (enqueue m q) (w_os w)) (set_w_heap (<[p := buf']> (w_heap w)) w))
                         (set_l_net (left_over conn s ps (l_net c)) (set_giTimeOut 0 c))).
Proof.
  assert (Z0 : 0 <= len) by (unfold len; lia). assert (Hlen' : len <= 3919) by lia.
  destruct (request_read conn s (l_net c) rq payload rest Hs Hps Hin Hrq Hlen') as (ps & R & Hrest).
  destruct (request_sent no_effect w p nm h payload t svrno q buf) as (buf' & E); try assumption.
  { apply length_named_head. exact (length_name rq nb Hrq Hnm). }
  exists ps, buf'. split; [exact Hrest|]. unfold svr_turn. erewrite bind_Ret by reflexivity.
  rewrite parent_alive by exact Hlive. erewrite bind_Ret by reflexivity. cbn [giConnScktId set_giTimeOut].
  rewrite (on_net_steps _ _ (set_giTimeOut 0 c) _ _ R). cbn [negb Z.eqb].
  rewrite (Exchange.request_head rq payload Hrq Hlen'). erewrite bind_Ret by reflexivity.
  replace (dec_req (enc_req rq)) with rq by (symmetry; rewrite <- (app_nil_r (enc_req rq)); now apply dec_enc_req).
  rewrite Hnm. erewrite bind_Ret by reflexivity. cbn zeta. fold nm.
  set (c1 := set_l_net (left_over conn s ps (l_net c)) (set_giTimeOut 0 c)).
  rewrite (bind_Ret _ _ c1 (o_time (w_os w)) c1).
  2:{ unfold on_os, within, lift, time_, get. cbn. unfold c1, w. now destruct c as [[] ? ? ? ? ? ? ? ? ? ? ? ?]. }
  rewrite (request_data rq payload Hrq Hlen'). erewrite bind_Ret by reflexivity.
  unfold C002.request_head. fold len. fold len in E. replace (i32 (4 + (SIZEOF_REQ + len) - COMM_L_MSG_TYPE_ROOT - SIZEOF_REQ)) with (len - 199996)
    by (unfold COMM_L_MSG_TYPE_ROOT, SIZEOF_REQ; rewrite i32_id; lia).
  fold conn. fold h. rewrite (on_world_step _ _ _ c1 0 _ E) by reflexivity. reflexivity.
Qed.

(** The server process [v]. *)
Context (hv : Z -> prog world unit) (svc_call : Z -> sd_info_t -> prog world unit) (v : world) (svc_pos ks : Z).
Hypotheses (Hav : attached v = true) (Hcv : o_caught (w_os v) = [])
  (HT : msg_type t = svrid t + SVR_MSG_TYPE_ROOT) (Hmt : of_type (msg_type t) (q_msgs q) = [])
  (Hk : scan (registered (buf_of 33 nm)) (tSvcTab w) 0 = ks) (Hks : 0 <= ks)
  (Hconn : - 2 ^ 31 <= conn < 2 ^ 31) (Htime : - 2 ^ 63 <= o_time (w_os w) < 2 ^ 63).

(** C35: a request through the long-connection gateway crashes the server.  [ChdDoSvr]
    computes the length in the head with the type of its replies in place of the size of
    the frame's header; it is negative for every request, and the server that takes the
    request copies that many bytes. *)
Theorem request_crashes_server : exists c', svr_turn p c = Ret tt c'
  /\ queue req (w_os (l_world c')) = Some (enqueue m q)
  /\ tux_service hv svc_call (svrid t) svc_pos (see (l_world c') v) = Fault.
Proof.
  destruct svr_turn_queues as (ps & buf' & _ & E). eexists. split; [exact E|]. split; [apply queue_set_eq|].
  assert (Wh : wf_head h).
  { pose proof (length_name rq nb Hrq Hnm) as Ln. destruct Hrq as (_ & Hr2 & _). unfold wf_head, h.
    cbn [h_name h_ssn h_conn_ssn h_req_msg_type h_fd h_utime h_reply_flag h_note_msg_type h_len]. unfold buf_of.
    rewrite length_app, length_zeros_nat. unfold COMM_L_MSG_TYPE_ROOT, REPLY_FLAG_ASYN, nm, len in *. lia. }
  apply (negative_length hv svc_call _ (svrid t) svc_pos (enqueue m q) h 0 (payload ++ zeros 44) [] ks); try done.
  - eapply tables_ok_keep; [..|exact K]; reflexivity.
  - change (queue req (set_queue req (enqueue m q) (w_os w)) = Some (enqueue m q)). apply queue_set_eq.
  - lia.
  - rewrite <- HT. cbn [enqueue q_msgs set_msgs]. rewrite of_type_app, Hmt. unfold m. rewrite of_type_one, Z.eqb_refl. reflexivity.
  - rewrite length_app, length_zeros_nat. unfold BUS_MAX_MSG_LEN, SIZEOF_HEAD, len in *. lia.
  - unfold h. cbn [h_len]. lia.
Qed.
End Request.

(** ** Replies *)

Lemma of_type_other ty ty' l : Forall (fun m => m_type m = ty) l -> ty' <> ty -> of_type ty' l = [].
Proof.
  intros F N. induction F as [|m l Hm _ IH]; [done|]. unfold of_type in *. cbn [List.filter].
  now rewrite Hm, (proj2 (Z.eqb_neq ty ty')) by congruence.
Qed.

(** The replies are never sent.  The requests ask for replies of the type
    [COMM_L_MSG_TYPE_ROOT], but [ChdDoClt] waits for that type plus the id of the server,
    which is positive: whatever number of replies lies in the queue, it waits, and sends
    nothing. *)
Theorem replies_not_fetched c p r pbuf q :
  let w := l_world c in
  let rsp := rsp_que_id (w_ctrl w) in
  l_orphan c = [] -> attached w = true -> o_caught (w_os w) = [] -> o_sched (w_os w) = [] ->
  p mod STRIDE = 0 -> w_heap w !! p = Some pbuf -> Z.of_nat (length pbuf) = 10241 ->
  queue rsp (w_os w) = Some q -> Forall (fun m => m_type m = COMM_L_MSG_TYPE_ROOT) (q_msgs q) -> 0 < gSvrId c ->
  exists c', clt_turn p r c = Block c' /\ l_net c' = l_net c /\ queue rsp (w_os (l_world c')) = Some q.
Proof.
  intros w rsp Hlive Ha Hc Hs Hp0 Hp Lp Hq F Hid.
  set (w1 := set_w_heap (<[p := zeros 10241]> (w_heap w)) w). set (c1 := set_l_world w1 c).
  assert (St : store p (zeros 10241) w = Ret tt w1).
  { rewrite <- (Z.add_0_r p) at 1. apply (store_at p 0 w pbuf); [done|done|exact Hp|].
    apply (st_end 0 [] pbuf); [done|]. rewrite length_zeros_nat. lia. }
  assert (G : within l_world set_l_world (tux_getreply no_effect (COMM_L_MSG_TYPE_ROOT + gSvrId c) p r 0) c1
    = Block (set_l_world (set_w_os (set_sched [] (w_os w)) w1) c1)).
  { unfold within. cbn [l_world set_l_world c1]. unfold tux_getreply. erewrite bind_Ret by reflexivity.
    unfold sdIsAttach. cbn [id]. change (attached w1) with (attached w). rewrite Ha. cbn [negb].
    rewrite (bind_Ret _ _ _ _ _ (ctrl_eq w1 Ha)). cbn zeta.
    change (if 0 =? 0 then MSQ_MODE_BLOCK else MSQ_MODE_NONBLOCK) with MSQ_MODE_BLOCK.
    unfold sys, lift. rewrite bind_assoc. unfold bind at 1. change (w_os w1) with (w_os w). change (w_ctrl w1) with (w_ctrl w).
    rewrite (MsqRcv_blocks rsp q) by (first [done | unfold COMM_L_MSG_TYPE_ROOT; lia | apply (of_type_other _ _ _ F); lia]).
    reflexivity. }
  exists (set_l_world (set_w_os (set_sched [] (w_os w)) w1) c1). split; [|split; [reflexivity|exact Hq]].
  unfold clt_turn. rewrite parent_alive by exact Hlive. erewrite bind_Ret by reflexivity.
  rewrite (on_world_step _ _ _ c tt w1 St eq_refl). erewrite bind_Ret by reflexivity. fold c1.
  cbn [get_reply]. rewrite bind_assoc. unfold on_world at 1. rewrite bind_assoc. erewrite bind_Ret by reflexivity.
  rewrite bind_assoc. unfold bind at 1. now rewrite G.
Qed.

(** *** Witnesses *)

Definition demo_long (data : list bytes) : c002 :=
  mkC002 demo_threads (mkNet {[6 := mkSock data false true [] [] []]} 0 [] [] [] [] 0 0 no_alarm)
    [mkSon 501 1; mkSon 502 2] (str "10.1.1.1") 9002 9003 3 6 7 9 0 [] [].

Lemma request_crashes_server_witness :
  exists c', svr_turn STRIDE (demo_long [echo_frame]) = Ret tt c'
    /\ tux_service no_handler (fun _ => testsvr) 7 0 (see (l_world c') demo_server) = Fault.
Proof.
  destruct (request_crashes_server (demo_long [echo_frame]) STRIDE (mkSock [echo_frame] false true [] [] []) echo_req hello []
    (str "ECHO" ++ zeros 29) demo_svr 1 (mkQueue 601107 [] MSGMNB) (zeros SIZEOF_BUF) eq_refl) with
    (hv := no_handler) (svc_call := fun _ : Z => testsvr) (v := demo_server) (svc_pos := 0) (ks := 0)
    as (c' & E & _ & F); [threads_tac..|].
  exists c'. refine (conj E F).
Defined.

Lemma replies_not_fetched_witness :
  exists c', clt_turn STRIDE (2 * STRIDE)
      (set_l_world (set_w_os (set_queue 2 (mkQueue 601117 [mkMsg COMM_L_MSG_TYPE_ROOT (le64 0 ++ zeros 96 ++ hello)] MSGMNB)
                                (w_os demo_threads)) demo_threads) (demo_long [])) = Block c'
    /\ n_socks (l_net c') = n_socks (l_net (demo_long [])).
Proof.
  edestruct (replies_not_fetched (set_l_world (set_w_os (set_queue 2 (mkQueue 601117 [mkMsg COMM_L_MSG_TYPE_ROOT (le64 0 ++ zeros 96 ++ hello)] MSGMNB)
    (w_os demo_threads)) demo_threads) (demo_long [])) STRIDE (2 * STRIDE) (zeros 10241)
    (mkQueue 601117 [mkMsg COMM_L_MSG_TYPE_ROOT (le64 0 ++ zeros 96 ++ hello)] MSGMNB)) as (c' & E & N & _);
    [reflexivity|threads_tac..| | |exists c'; refine (conj E (f_equal n_socks N))].
  - repeat constructor.
  - reflexivity.
Defined.
