(* ===== verification/Mxmlentity.v ===== *)
(** * Entities: [src/dev/src/pubfun/xml/mxml-entity.c]

    The names of characters in XML text.  A name is looked up by binary search in a sorted
    table, a character that must not stand for itself has one of four names.  Callbacks are
    never added or removed by the program, so that the table is the only one. *)

From Stdlib Require Import ZArith Lia Bool List Ascii String.
From stdpp Require Import base list.
From S2P Require Import Prelude Cstr.

Definition entities : list (string * Z) :=
  [("AElig", 198); ("Aacute", 193); ("Acirc", 194); ("Agrave", 192); ("Alpha", 913);
   ("Aring", 197); ("Atilde", 195); ("Auml", 196); ("Beta", 914); ("Ccedil", 199); ("Chi", 935);
   ("Dagger", 8225); ("Delta", 916); ("Dstrok", 208); ("ETH", 208); ("Eacute", 201);
   ("Ecirc", 202); ("Egrave", 200); ("Epsilon", 917); ("Eta", 919); ("Euml", 203);
   ("Gamma", 915); ("Iacute", 205); ("Icirc", 206); ("Igrave", 204); ("Iota", 921);
   ("Iuml", 207); ("Kappa", 922); ("Lambda", 923); ("Mu", 924); ("Ntilde", 209); ("Nu", 925);
   ("OElig", 338); ("Oacute", 211); ("Ocirc", 212); ("Ograve", 210); ("Omega", 937);
   ("Omicron", 927); ("Oslash", 216); ("Otilde", 213); ("Ouml", 214); ("Phi", 934); ("Pi", 928);
   ("Prime", 8243); ("Psi", 936); ("Rho", 929); ("Scaron", 352); ("Sigma", 931); ("THORN", 222);
   ("Tau", 932); ("Theta", 920); ("Uacute", 218); ("Ucirc", 219); ("Ugrave", 217);
   ("Upsilon", 933); ("Uuml", 220); ("Xi", 926); ("Yacute", 221); ("Yuml", 376); ("Zeta", 918);
   ("aacute", 225); ("acirc", 226); ("acute", 180); ("aelig", 230); ("agrave", 224);
   ("alefsym", 8501); ("alpha", 945); ("amp", 38); ("and", 8743); ("ang", 8736); ("apos", 39);
   ("aring", 229); ("asymp", 8776); ("atilde", 227); ("auml", 228); ("bdquo", 8222);
   ("beta", 946); ("brkbar", 166); ("brvbar", 166); ("bull", 8226); ("cap", 8745);
   ("ccedil", 231); ("cedil", 184); ("cent", 162); ("chi", 967); ("circ", 710); ("clubs", 9827);
   ("cong", 8773); ("copy", 169); ("crarr", 8629); ("cup", 8746); ("curren", 164);
   ("dArr", 8659); ("dagger", 8224); ("darr", 8595); ("deg", 176); ("delta", 948);
   ("diams", 9830); ("die", 168); ("divide", 247); ("eacute", 233); ("ecirc", 234);
   ("egrave", 232); ("empty", 8709); ("emsp", 8195); ("ensp", 8194); ("epsilon", 949);
   ("equiv", 8801); ("eta", 951); ("eth", 240); ("euml", 235); ("euro", 8364); ("exist", 8707);
   ("fnof", 402); ("forall", 8704); ("frac12", 189); ("frac14", 188); ("frac34", 190);
   ("frasl", 8260); ("gamma", 947); ("ge", 8805); ("gt", 62); ("hArr", 8660); ("harr", 8596);
   ("hearts", 9829); ("hellip", 8230); ("hibar", 175); ("iacute", 237); ("icirc", 238);
   ("iexcl", 161); ("igrave", 236); ("image", 8465); ("infin", 8734); ("int", 8747);
   ("iota", 953); ("iquest", 191); ("isin", 8712); ("iuml", 239); ("kappa", 954); ("lArr", 8656);
   ("lambda", 955); ("lang", 9001); ("laquo", 171); ("larr", 8592); ("lceil", 8968);
   ("ldquo", 8220); ("le", 8804); ("lfloor", 8970); ("lowast", 8727); ("loz", 9674);
   ("lrm", 8206); ("lsaquo", 8249); ("lsquo", 8216); ("lt", 60); ("macr", 175); ("mdash", 8212);
   ("micro", 181); ("middot", 183); ("minus", 8722); ("mu", 956); ("nabla", 8711); ("nbsp", 160);
   ("ndash", 8211); ("ne", 8800); ("ni", 8715); ("not", 172); ("notin", 8713); ("nsub", 8836);
   ("ntilde", 241); ("nu", 957); ("oacute", 243); ("ocirc", 244); ("oelig", 339);
   ("ograve", 242); ("oline", 8254); ("omega", 969); ("omicron", 959); ("oplus", 8853);
   ("or", 8744); ("ordf", 170); ("ordm", 186); ("oslash", 248); ("otilde", 245);
   ("otimes", 8855); ("ouml", 246); ("para", 182); ("part", 8706); ("permil", 8240);
   ("perp", 8869); ("phi", 966); ("pi", 960); ("piv", 982); ("plusmn", 177); ("pound", 163);
   ("prime", 8242); ("prod", 8719); ("prop", 8733); ("psi", 968); ("quot", 34); ("rArr", 8658);
   ("radic", 8730); ("rang", 9002); ("raquo", 187); ("rarr", 8594); ("rceil", 8969);
   ("rdquo", 8221); ("real", 8476); ("reg", 174); ("rfloor", 8971); ("rho", 961); ("rlm", 8207);
   ("rsaquo", 8250); ("rsquo", 8217); ("sbquo", 8218); ("scaron", 353); ("sdot", 8901);
   ("sect", 167); ("shy", 173); ("sigma", 963); ("sigmaf", 962); ("sim", 8764); ("spades", 9824);
   ("sub", 8834); ("sube", 8838); ("sum", 8721); ("sup", 8835); ("sup1", 185); ("sup2", 178);
   ("sup3", 179); ("supe", 8839); ("szlig", 223); ("tau", 964); ("there4", 8756); ("theta", 952);
   ("thetasym", 977); ("thinsp", 8201); ("thorn", 254); ("tilde", 732); ("times", 215);
   ("trade", 8482); ("uArr", 8657); ("uacute", 250); ("uarr", 8593); ("ucirc", 251);
   ("ugrave", 249); ("uml", 168); ("upsih", 978); ("upsilon", 965); ("uuml", 252);
   ("weierp", 8472); ("xi", 958); ("yacute", 253); ("yen", 165); ("yuml", 255); ("zeta", 950);
   ("zwj", 8205); ("zwnj", 8204)]%string.

Definition entity (i : Z) : option (bytes * Z) := match znth entities i with Some (n, v) => Some (str n, v) | None => None end.

(** [while ((last - first) > 1)]; the interval halves, so that the length of the table is
    fuel enough. *)
Fixpoint entity_loop (fuel : nat) (name : bytes) (first last : Z) : option (Z + Z * Z) :=
  match fuel with
  | O => None
  | S fuel =>
      if 1 <? last - first then
        let current := (first + last) / 2 in
        match entity current with
        | None => None
        | Some (n, v) =>
            let diff := strcmp name n in
            if diff =? 0 then Some (inl v)
            else if diff <? 0 then entity_loop fuel name first current
            else entity_loop fuel name current last
        end
      else Some (inr (first, last))
  end.

(** [None] does not happen: [entity_cb_total]. *)
Definition _mxml_entity_cb (name : bytes) : option Z :=
  match entity_loop (length entities) name 0 (Z.of_nat (length entities) - 1) with
  | None => None
  | Some (inl v) => Some v
  | Some (inr (first, last)) =>
      match entity first, entity last with
      | Some (n1, v1), Some (n2, v2) =>
          if streq name n1 then Some v1 else if streq name n2 then Some v2 else Some (-1)
      | _, _ => None
      end
  end.

Definition entity_cbs : list (bytes -> option Z) := [_mxml_entity_cb].

Fixpoint get_value (cbs : list (bytes -> option Z)) (name : bytes) : option Z :=
  match cbs with
  | [] => Some (-1)
  | cb :: cbs =>
      match cb name with
      | None => None
      | Some ch => if 0 <=? ch then Some ch else get_value cbs name
      end
  end.

Definition mxmlEntityGetValue (name : bytes) : option Z := get_value entity_cbs name.

Definition mxmlEntityGetName (val : Z) : option bytes :=
  if val =? 38 then Some (str "amp")
  else if val =? 60 then Some (str "lt")
  else if val =? 62 then Some (str "gt")
  else if val =? 34 then Some (str "quot")
  else None.

(** ** The search finds what is in the table *)

Definition entity_name (i : Z) : bytes := match entity i with Some (n, _) => n | None => [] end.

Lemma entity_inb i : 0 <= i < Z.of_nat (length entities) -> exists v, entity i = Some (entity_name i, v).
Proof.
  intros H. unfold entity_name, entity. destruct (znth entities i) as [[n v]|] eqn:E; [eauto|].
  unfold znth in E. rewrite (proj2 (Z.ltb_ge i 0)) in E by lia. apply lookup_ge_None in E. lia.
Qed.

Lemma nonul_entity i : nonul (entity_name i).
Proof.
  unfold entity_name, entity. destruct (znth entities i) as [[n v]|] eqn:E; [|constructor].
  assert (F : forallb (fun e => bool_decide (nonul (str (fst e)))) entities = true) by (vm_compute; reflexivity).
  rewrite forallb_forall in F. specialize (F (n, v)). apply bool_decide_eq_true in F; [exact F|].
  unfold znth in E. destruct (i <? 0); [discriminate|]. apply list_elem_of_In. now apply list_elem_of_lookup_2 in E.
Qed.

(** The table is sorted. *)
Fixpoint sorted (l : list (string * Z)) : bool :=
  match l with
  | a :: (b :: _) as l => (strcmp (str (fst a)) (str (fst b)) <? 0) && sorted l
  | _ => true
  end.

Lemma entities_sorted : sorted entities = true.
Proof. vm_compute. reflexivity. Qed.

Lemma sorted_tail l k a b : sorted l = true -> l !! k = Some a -> l !! S k = Some b -> strcmp (str (fst a)) (str (fst b)) < 0.
Proof.
  revert k. induction l as [|x l IH]; intros k S Ha Hb; [done|]. destruct l as [|y l]; [now destruct k|].
  cbn [sorted] in S. apply andb_prop in S as [H S]. destruct k as [|k].
  - injection Ha as <-. injection Hb as <-. now apply Z.ltb_lt.
  - exact (IH k S Ha Hb).
Qed.

Lemma entity_next k : Z.of_nat (S k) < Z.of_nat (length entities) -> strcmp (entity_name (Z.of_nat k)) (entity_name (Z.of_nat (S k))) < 0.
Proof.
  intros H. destruct (entity_inb (Z.of_nat k) ltac:(lia)) as [v E1], (entity_inb (Z.of_nat (S k)) ltac:(lia)) as [w E2].
  unfold entity, znth in E1, E2. rewrite (proj2 (Z.ltb_ge _ 0)), Nat2Z.id in E1 by lia. rewrite (proj2 (Z.ltb_ge _ 0)), Nat2Z.id in E2 by lia.
  destruct (entities !! k) as [[n v']|] eqn:L1; [|discriminate]. destruct (entities !! S k) as [[n' w']|] eqn:L2; [|discriminate].
  injection E1 as <- _. injection E2 as <- _. exact (sorted_tail _ _ _ _ entities_sorted L1 L2).
Qed.

(** The names at two positions compare as the positions. *)
Lemma entity_below i j : 0 <= i < j -> j < Z.of_nat (length entities) -> strcmp (entity_name i) (entity_name j) < 0.
Proof.
  intros Hi. assert (N : forall k, 0 <= k -> exists n, k = Z.of_nat n) by (intros k Hk; exists (Z.to_nat k); lia).
  destruct (N i ltac:(lia)) as [m ->]. destruct (N (j - Z.of_nat m - 1) ltac:(lia)) as [d Hd].
  replace j with (Z.of_nat (S m + d)) by lia. clear Hi Hd j N. induction d as [|d IH]; intros Hj.
  - rewrite Nat.add_0_r. apply entity_next. lia.
  - apply (strcmp_trans _ (entity_name (Z.of_nat (S m + d)))); try apply nonul_entity; [apply IH; lia|].
    rewrite Nat.add_succ_r. apply entity_next. lia.
Qed.

Lemma strcmp_position i j :
  0 <= i < Z.of_nat (length entities) -> 0 <= j < Z.of_nat (length entities) ->
  Z.sgn (strcmp (entity_name i) (entity_name j)) = Z.sgn (i - j).
Proof.
  intros Hi Hj. destruct (Z.lt_trichotomy i j) as [H|[->|H]].
  - pose proof (entity_below i j ltac:(lia) ltac:(lia)). lia.
  - assert (E : strcmp (entity_name j) (entity_name j) = 0) by (apply Z.eqb_eq; apply streq_eq; try apply nonul_entity; done). lia.
  - pose proof (strcmp_antisym _ _ (nonul_entity j) (nonul_entity i) (entity_below j i ltac:(lia) ltac:(lia))). lia.
Qed.

(** What [first] and [last] are when the search stops without a match. *)
Definition stopped (name : bytes) (r : option (Z + Z * Z)) : Prop :=
  (exists i, 0 <= i < Z.of_nat (length entities) /\ name = entity_name i /\ exists v, entity i = Some (name, v) /\ r = Some (inl v))
  \/ exists first last, r = Some (inr (first, last)) /\ 0 <= first <= last /\ last < Z.of_nat (length entities) /\ last - first <= 1
       /\ forall i, 0 <= i < Z.of_nat (length entities) -> name = entity_name i -> i = first \/ i = last.

Lemma entity_loop_stops name fuel first last :
  nonul name -> 0 <= first <= last -> last < Z.of_nat (length entities) -> last - first <= Z.of_nat fuel -> (1 <= fuel)%nat ->
  (forall i, 0 <= i < Z.of_nat (length entities) -> name = entity_name i -> first <= i <= last) ->
  stopped name (entity_loop fuel name first last).
Proof.
  intros Hn. revert first last. induction fuel as [|fuel IH]; intros first last Hf Hl Hd H1 Hin; [lia|]. cbn [entity_loop].
  destruct (Z.ltb_spec 1 (last - first)) as [Hlt|Hge].
  - set (c := (first + last) / 2). assert (Hc : first < c < last) by (unfold c; Z.to_euclidean_division_equations; lia).
    destruct (entity_inb c ltac:(lia)) as [v Ec]. rewrite Ec. destruct (Z.eqb_spec (strcmp name (entity_name c)) 0) as [E0|E0].
    + left. exists c. apply Z.eqb_eq in E0. change (streq name (entity_name c) = true) in E0.
      apply streq_eq in E0; [|exact Hn|apply nonul_entity]. split; [lia|]. split; [exact E0|]. exists v. now rewrite E0.
    + assert (P : forall i, 0 <= i < Z.of_nat (length entities) -> name = entity_name i -> Z.sgn (strcmp name (entity_name c)) = Z.sgn (i - c)).
      { intros i Hi ->. apply strcmp_position; lia. }
      destruct (Z.ltb_spec (strcmp name (entity_name c)) 0) as [Hneg|Hpos]; apply IH; try lia; intros i Hi Ei;
        specialize (P i Hi Ei); specialize (Hin i Hi Ei); lia.
  - right. exists first, last. split; [done|]. split; [exact Hf|]. split; [exact Hl|]. split; [lia|].
    intros i Hi Ei. specialize (Hin i Hi Ei). lia.
Qed.

(** The search ends whatever the name is. *)
Lemma entity_loop_ends name fuel : forall first last,
  0 <= first <= last -> last < Z.of_nat (length entities) -> last - first <= Z.of_nat fuel -> (1 <= fuel)%nat ->
  match entity_loop fuel name first last with
  | Some (inl _) => True
  | Some (inr (f, l)) => 0 <= f < Z.of_nat (length entities) /\ 0 <= l < Z.of_nat (length entities)
  | None => False
  end.
Proof.
  induction fuel as [|fuel IH]; intros first last Hf Hl Hd H1; [lia|]. cbn [entity_loop].
  destruct (Z.ltb_spec 1 (last - first)) as [Hlt|Hge]; [|lia].
  set (c := (first + last) / 2). assert (Hc : first < c < last) by (unfold c; Z.to_euclidean_division_equations; lia).
  destruct (entity_inb c ltac:(lia)) as [v ->]. destruct (_ =? 0); [done|]. destruct (_ <? 0); apply IH; lia.
Qed.

Lemma entity_cb_total name : exists v, _mxml_entity_cb name = Some v.
Proof.
  unfold _mxml_entity_cb.
  pose proof (entity_loop_ends name (length entities) 0 (Z.of_nat (length entities) - 1) ltac:(cbn; lia) ltac:(lia) ltac:(lia) ltac:(cbn; lia)) as H.
  destruct (entity_loop _ _ _ _) as [[v|[f l]]|]; [eauto| |done]. destruct H as [Hf Hl].
  destruct (entity_inb f Hf) as [v1 ->], (entity_inb l Hl) as [v2 ->]. destruct (streq _ _); [eauto|]. destruct (streq _ _); eauto.
Qed.

Lemma get_value_total name : exists v, mxmlEntityGetValue name = Some v.
Proof.
  unfold mxmlEntityGetValue. cbn [entity_cbs get_value]. destruct (entity_cb_total name) as [v ->]. destruct (0 <=? v); eauto.
Qed.

(** The value of a name, [-1] for a name that is not in the table. *)
Definition entity_value (name : bytes) : Z :=
  match List.find (fun e => bool_decide (str (fst e) = name)) entities with Some (_, v) => v | None => -1 end.

Lemma entity_value_at i v : 0 <= i < Z.of_nat (length entities) -> entity i = Some (entity_name i, v) -> entity_value (entity_name i) = v.
Proof.
  intros Hi E. unfold entity_value. destruct (List.find _ _) as [[n w]|] eqn:F.
  - apply List.find_some in F as [Hin Hb]. cbn [fst] in Hb. apply bool_decide_eq_true in Hb.
    apply list_elem_of_In, list_elem_of_lookup_1 in Hin as [j Hj]. pose proof (lookup_lt_Some _ _ _ Hj) as Lj.
    assert (Ej : entity (Z.of_nat j) = Some (str n, w)).
    { unfold entity, znth. rewrite (proj2 (Z.ltb_ge _ 0)) by lia. now rewrite Nat2Z.id, Hj. }
    pose proof (strcmp_position (Z.of_nat j) i ltac:(lia) Hi) as P. unfold entity_name in P at 1. rewrite Ej, Hb in P.
    assert (Z0 : strcmp (entity_name i) (entity_name i) = 0) by (apply Z.eqb_eq; now apply streq_eq; try apply nonul_entity).
    rewrite Z0 in P. assert (Z.of_nat j = i) by lia. subst i. congruence.
  - exfalso. unfold entity_name in F. rewrite E in F. unfold entity in E. destruct (znth entities i) as [[n w]|] eqn:En; [|discriminate].
    injection E as En' <-. apply (List.find_none _ _) with (x := (n, w)) in F.
    + cbn [fst] in F. apply bool_decide_eq_false in F. now apply F.
    + unfold znth in En. destruct (i <? 0); [discriminate|]. apply list_elem_of_In. now apply list_elem_of_lookup_2 in En.
Qed.

Lemma entity_value_absent name : (forall i, 0 <= i < Z.of_nat (length entities) -> name <> entity_name i) -> entity_value name = -1.
Proof.
  intros H. unfold entity_value. destruct (List.find _ _) as [[n w]|] eqn:F; [|done].
  apply List.find_some in F as [Hin Hb]. cbn [fst] in Hb. apply bool_decide_eq_true in Hb.
  apply list_elem_of_In, list_elem_of_lookup_1 in Hin as [j Hj]. pose proof (lookup_lt_Some _ _ _ Hj) as Lj.
  destruct (H (Z.of_nat j) ltac:(lia)). unfold entity_name, entity, znth. rewrite (proj2 (Z.ltb_ge _ 0)) by lia. now rewrite Nat2Z.id, Hj.
Qed.

(** C18: the binary search for the name of an entity ends for every name and finds exactly
    what a search through the whole table finds; a name that is not in the table has the
    value -1. *)
Theorem entity_cb_correct name : nonul name -> _mxml_entity_cb name = Some (entity_value name).
Proof.
  intros Hn. unfold _mxml_entity_cb.
  pose proof (entity_loop_stops name (length entities) 0 (Z.of_nat (length entities) - 1) Hn ltac:(cbn; lia) ltac:(lia) ltac:(lia) ltac:(cbn; lia)
    ltac:(intros; lia)) as S.
  destruct S as [(i & Hi & En & v & Ev & ->)|(first & last & -> & Hf & Hl & Hd & Hin)].
  - subst name. rewrite (entity_value_at i v); [done|exact Hi|exact Ev].
  - destruct (entity_inb first ltac:(lia)) as [v1 E1]. destruct (entity_inb last ltac:(lia)) as [v2 E2]. rewrite E1, E2.
    destruct (streq name (entity_name first)) eqn:S1; [|destruct (streq name (entity_name last)) eqn:S2].
    + apply streq_eq in S1 as ->; [|exact Hn|apply nonul_entity]. rewrite (entity_value_at first v1); [done|lia|exact E1].
    + apply streq_eq in S2 as ->; [|exact Hn|apply nonul_entity]. rewrite (entity_value_at last v2); [done|lia|exact E2].
    + rewrite entity_value_absent; [done|]. intros i Hi E. destruct (Hin i Hi E) as [-> | ->]; subst name;
        rewrite (proj2 (streq_eq _ _ Hn Hn) eq_refl) in *; discriminate.
Qed.

Lemma entity_cb_correct_witness : _mxml_entity_cb (str "euro") = Some 8364.
Proof.
  rewrite (entity_cb_correct (str "euro")) by (vm_compute; repeat constructor; discriminate). vm_compute. reflexivity.
Defined.

(** The four names that are written are read back. *)
Lemma entity_names_read c name : mxmlEntityGetName c = Some name -> mxmlEntityGetValue name = Some c.
Proof.
  unfold mxmlEntityGetName. 
  repeat (match goal with |- context [c =? ?k] => destruct (Z.eqb_spec c k) as [->|_]; [intros [= <-]; vm_compute; reflexivity|] end).
  discriminate.
Qed.
