(* ===== verification/Mxmlprivate.v ===== *)
(** * The globals of the XML library: [src/dev/src/pubfun/xml/mxml-private.c]

    Every thread has globals of its own, made at its first call and freed when it ends:
    the callback for messages, the callbacks for entities, the wrap margin and the handlers
    of custom data.  With them the functions that set them, of [mxml-entity.c] and
    [mxml-file.c].  The program only sets the callback for messages ([Mxmltree.mxml_error]
    keeps it as a flag).  The theorem: the entity callbacks are a list that is asked in the
    order in which it grew, and a thread does not change what another one has. *)

From Stdlib Require Import ZArith Lia Bool List Ascii String.
From stdpp Require Import base list gmap.
From S2P Require Import Prelude Cstr Mxmlentity.

(** Functions are numbers, 0 the null pointer. *)
Record mxml_global := mkGlobal {
  error_cb : Z;
  num_entity_cbs : Z;
  g_entity_cbs : list Z;      (* entity_cbs[100] *)
  g_wrap : Z;
  custom_load_cb : Z;
  custom_save_cb : Z;
}.

Definition NUM_CBS : Z := 100.

(** [_mxml_entity_cb] *)
Definition STD_CB : Z := 1.

(** The globals of the threads, and whether the next allocations succeed; those behind the
    end do. *)
Record threads := mkThreads { h_globals : gmap Z mxml_global; h_allocs : list bool }.

Definition set_h_globals (m : gmap Z mxml_global) (h : threads) : threads := mkThreads m (h_allocs h).

Definition calloc : prog threads bool := fun h =>
  match h_allocs h with [] => Ret true h | b :: l => Ret b (mkThreads (h_globals h) l) end.

Definition set_num (n : Z) (g : mxml_global) : mxml_global := mkGlobal (error_cb g) n (g_entity_cbs g) (g_wrap g) (custom_load_cb g) (custom_save_cb g).
Definition set_cbs (l : list Z) (g : mxml_global) : mxml_global := mkGlobal (error_cb g) (num_entity_cbs g) l (g_wrap g) (custom_load_cb g) (custom_save_cb g).
Definition set_error_cb (cb : Z) (g : mxml_global) : mxml_global := mkGlobal cb (num_entity_cbs g) (g_entity_cbs g) (g_wrap g) (custom_load_cb g) (custom_save_cb g).
Definition set_g_wrap (w : Z) (g : mxml_global) : mxml_global := mkGlobal (error_cb g) (num_entity_cbs g) (g_entity_cbs g) w (custom_load_cb g) (custom_save_cb g).
Definition set_custom (load save : Z) (g : mxml_global) : mxml_global := mkGlobal (error_cb g) (num_entity_cbs g) (g_entity_cbs g) (g_wrap g) load save.

(** What [calloc] leaves, and what [_mxml_global] sets. *)
Definition new_global : mxml_global := mkGlobal 0 1 (STD_CB :: replicate 99 0) 72 0 0.

Section Thread.
(** The thread, what the other callbacks for entities answer, and what a callback for
    messages does. *)
Context (self : Z) (entity_cb : Z -> bytes -> Z).

(** The result of [calloc] is not tested. *)
Definition _mxml_global : prog threads mxml_global :=
  let* m := get h_globals in
  match m !! self with
  | Some g => ret g
  | None =>
      let* ok := calloc in
      if (ok : bool) then modify (fun h => set_h_globals (<[self := new_global]> (h_globals h)) h) ;;; ret new_global
      else fault
  end.

Definition upd_global (f : mxml_global -> mxml_global) : prog threads unit :=
  modify (fun h => set_h_globals (alter f self (h_globals h)) h).

(** When the thread ends. *)
Definition _mxml_destructor : prog threads unit := modify (fun h => set_h_globals (delete self (h_globals h)) h).

(** The message that is shown: by the callback, or on [stderr] for the null pointer. *)
Definition entity_error : prog threads (Z * bytes) :=
  let* g := _mxml_global in ret (error_cb g, str "Unable to add entity callback!").

Definition mxmlEntityAddCallback (cb : Z) : prog threads Z :=
  let* g := _mxml_global in
  if num_entity_cbs g <? NUM_CBS then
    deref (znth (g_entity_cbs g) (num_entity_cbs g)) ;;;
    upd_global (fun g => set_num (num_entity_cbs g + 1) (set_cbs (zupd (num_entity_cbs g) (fun _ => cb) (g_entity_cbs g)) g)) ;;;
    ret 0
  else entity_error ;;; ret (-1).

Definition ask (cb : Z) (name : bytes) : option Z := if cb =? STD_CB then _mxml_entity_cb name else Some (entity_cb cb name).

(** [n] turns of the loop from [i] on. *)
Fixpoint ask_all (n : nat) (i : Z) (cbs : list Z) (name : bytes) : prog threads Z :=
  match n with
  | O => ret (-1)
  | S n =>
      let* cb := deref (znth cbs i) in
      if cb =? 0 then fault
      else let* ch := deref (ask cb name) in if 0 <=? ch then ret ch else ask_all n (i + 1) cbs name
  end.

Definition mxmlEntityGetValue (name : bytes) : prog threads Z :=
  let* g := _mxml_global in ask_all (Z.to_nat (num_entity_cbs g)) 0 (g_entity_cbs g) name.

(** [memmove(cbs + i, cbs + i + 1, n * sizeof(cbs[0]))] *)
Definition move_down (i n : Z) (cbs : list Z) : option (list Z) :=
  if (0 <=? i) && (0 <=? n) && (i + 1 + n <=? Z.of_nat (length cbs)) then
    Some (take (Z.to_nat i) cbs ++ take (Z.to_nat n) (drop (Z.to_nat (i + 1)) cbs) ++ drop (Z.to_nat (i + n)) cbs)
  else None.

(** [n] turns of the loop from [i] on: the first entry that is [cb] is removed. *)
Fixpoint remove_loop (n : nat) (i cb : Z) (g : mxml_global) : prog threads unit :=
  match n with
  | O => ret tt
  | S n =>
      let* c := deref (znth (g_entity_cbs g) i) in
      if c =? cb then
        let num := num_entity_cbs g - 1 in
        let* cbs := deref (if i <? num then move_down i (num - i) (g_entity_cbs g) else Some (g_entity_cbs g)) in
        upd_global (fun g => set_num num (set_cbs cbs g))
      else remove_loop n (i + 1) cb g
  end.

Definition mxmlEntityRemoveCallback (cb : Z) : prog threads unit :=
  let* g := _mxml_global in remove_loop (Z.to_nat (num_entity_cbs g)) 0 cb g.

(** Of [mxml-file.c]. *)
Definition mxmlSetCustomHandlers (load save : Z) : prog threads unit := _mxml_global ;;; upd_global (set_custom load save).
Definition mxmlSetErrorCallback (cb : Z) : prog threads unit := _mxml_global ;;; upd_global (set_error_cb cb).
Definition mxmlSetWrapMargin (column : Z) : prog threads unit :=
  _mxml_global ;;; upd_global (set_g_wrap (if column <=? 0 then 2147483647 else column)).
End Thread.

(** ** Callbacks as a list *)

(** The first occurrence is left out. *)
Fixpoint remove_first (cb : Z) (l : list Z) : list Z :=
  match l with [] => [] | c :: l => if c =? cb then l else c :: remove_first cb l end.

Definition active (g : mxml_global) : list Z := take (Z.to_nat (num_entity_cbs g)) (g_entity_cbs g).

Definition callbacks_ok (g : mxml_global) : Prop :=
  Z.of_nat (length (g_entity_cbs g)) = NUM_CBS /\ 0 <= num_entity_cbs g <= NUM_CBS /\ Forall (fun cb => cb <> 0) (active g).

Lemma active_length g : callbacks_ok g -> Z.of_nat (length (active g)) = num_entity_cbs g.
Proof. intros (L & N & _). unfold active. rewrite length_take. lia. Qed.

Lemma znth_active g (k : nat) c : callbacks_ok g -> active g !! k = Some c -> znth (g_entity_cbs g) (Z.of_nat k) = Some c.
Proof.
  intros _ E. unfold active in E. apply lookup_take_Some in E as [E _]. unfold znth. rewrite (proj2 (Z.ltb_ge _ 0)) by lia. now rewrite Nat2Z.id.
Qed.

Section List.
Context (self : Z) (entity_cb : Z -> bytes -> Z).

(** The thread has the callbacks [l]. *)
Definition callbacks (h : threads) (l : list Z) : Prop :=
  exists g, h_globals h !! self = Some g /\ callbacks_ok g /\ active g = l.

(** The other threads have what they had. *)
Definition others (h h' : threads) : Prop := forall t, t <> self -> h_globals h' !! t = h_globals h !! t.

Lemma global_there h g : h_globals h !! self = Some g -> _mxml_global self h = Ret g h.
Proof. intros E. unfold _mxml_global, bind, get. cbn [obind]. now rewrite E. Qed.

Lemma upd_global_eq f h g : h_globals h !! self = Some g ->
  exists h', upd_global self f h = Ret tt h' /\ h_globals h' !! self = Some (f g) /\ others h h'.
Proof.
  intros E. exists (set_h_globals (alter f self (h_globals h)) h). split; [reflexivity|]. split.
  - unfold set_h_globals. cbn [h_globals]. now rewrite lookup_alter_eq, E.
  - intros t Ht. unfold set_h_globals. cbn [h_globals]. now rewrite lookup_alter_ne.
Qed.

Lemma ask_total cb name : exists v, ask entity_cb cb name = Some v.
Proof. unfold ask. destruct (cb =? STD_CB); [apply entity_cb_total|eauto]. Qed.

Lemma ask_all_eq h g name : callbacks_ok g -> forall (n k : nat), (k + n)%nat = length (active g) ->
  exists v, ask_all entity_cb n (Z.of_nat k) (g_entity_cbs g) name h = Ret v h
    /\ get_value (map (ask entity_cb) (drop k (active g))) name = Some v.
Proof.
  intros G n. induction n as [|n IH]; intros k Hk.
  - exists (-1). split; [done|]. rewrite drop_ge by lia. done.
  - destruct (lookup_lt_is_Some_2 (active g) k ltac:(lia)) as [c E]. cbn [ask_all]. rewrite (znth_active g k c G E).
    destruct G as (L & N & F) eqn:EG. pose proof (Forall_lookup_1 _ _ _ _ F E) as Hc. unfold bind at 1. cbn [deref ret obind].
    rewrite (proj2 (Z.eqb_neq c 0) Hc). destruct (ask_total c name) as [v Ev]. rewrite Ev. unfold bind. cbn [deref ret obind].
    rewrite (drop_S _ c k E). cbn [map get_value]. rewrite Ev. destruct (0 <=? v); [now exists v|].
    replace (Z.of_nat k + 1) with (Z.of_nat (S k)) by lia. apply IH. lia.
Qed.

Lemma take_split_next {A} (l : list A) (k n : nat) c : l !! k = Some c -> (k < n)%nat -> take n l = take k l ++ c :: take (n - S k) (drop (S k) l).
Proof.
  intros E H. replace n with (k + S (n - S k))%nat at 1 by lia. rewrite <- take_take_drop. now rewrite (drop_S l c k E).
Qed.

Lemma remove_loop_eq h g cb : h_globals h !! self = Some g -> callbacks_ok g -> forall (n k : nat), (k + n)%nat = length (active g) ->
  exists h', remove_loop self n (Z.of_nat k) cb g h = Ret tt h' /\ callbacks h' (take k (active g) ++ remove_first cb (drop k (active g))) /\ others h h'.
Proof.
  intros Eg G n. induction n as [|n IH]; intros k Hk.
  - exists h. split; [done|]. split; [|now intros]. rewrite take_ge, drop_ge by lia. rewrite app_nil_r. now exists g.
  - destruct (lookup_lt_is_Some_2 (active g) k ltac:(lia)) as [c E]. cbn [remove_loop]. rewrite (znth_active g k c G E).
    unfold bind at 1. cbn [deref ret obind]. rewrite (drop_S _ c k E). cbn [remove_first]. pose proof (active_length g G) as La. destruct (c =? cb).
    + set (num := num_entity_cbs g - 1). pose proof G as (L & N & F). set (cbs := g_entity_cbs g) in *.
      assert (M : exists cbs', (if Z.of_nat k <? num then move_down (Z.of_nat k) (num - Z.of_nat k) cbs else Some cbs) = Some cbs'
        /\ length cbs' = length cbs /\ take (Z.to_nat num) cbs' = take k (active g) ++ drop (S k) (active g)).
      { assert (A : active g = take (S (Z.to_nat num)) cbs) by (unfold active; fold cbs; f_equal; lia).
        destruct (Z.ltb_spec (Z.of_nat k) num) as [Hlt|Hge].
        - unfold move_down. rewrite (proj2 (Z.leb_le 0 (Z.of_nat k))), (proj2 (Z.leb_le 0 (num - Z.of_nat k))), (proj2 (Z.leb_le _ _)) by lia.
          eexists. split; [reflexivity|]. split; [rewrite !length_app, !length_take, !length_drop; lia|].
          rewrite app_assoc, take_app_length' by (rewrite length_app, !length_take, length_drop; lia).
          rewrite A, take_take, Nat.min_l by lia. rewrite skipn_firstn_comm. rewrite Nat2Z.id. do 2 f_equal; [lia|]. f_equal. lia.
        - exists cbs. split; [done|]. split; [done|]. assert (k = Z.to_nat num) as -> by lia. rewrite A, take_take, Nat.min_l by lia.
          rewrite (drop_ge (take _ _)) by (rewrite length_take; lia). now rewrite app_nil_r. }
      destruct M as (cbs' & -> & Lc & Tc). unfold bind. cbn [deref ret obind].
      destruct (upd_global_eq (fun g => set_num num (set_cbs cbs' g)) h g Eg) as (h' & E1 & E2 & O). exists h'. split; [exact E1|]. split; [|exact O].
      exists (set_num num (set_cbs cbs' g)). split; [exact E2|]. unfold callbacks_ok, active in *. cbn [set_num set_cbs num_entity_cbs g_entity_cbs].
      split; [|exact Tc]. split; [congruence|]. split; [unfold num; lia|]. rewrite Tc. apply Forall_app. split; [now apply Forall_take|now apply Forall_drop].
    + replace (Z.of_nat k + 1) with (Z.of_nat (S k)) by lia. destruct (IH (S k) ltac:(lia)) as (h' & E1 & E2 & O). exists h'. split; [exact E1|]. split; [|exact O].
      rewrite (take_S_r _ _ _ E), <- app_assoc in E2. exact E2.
Qed.

(** The globals of a thread, once it has them, are a list of callbacks: [mxmlEntityAddCallback]
    adds one at the end, if there are less than a hundred, [mxmlEntityRemoveCallback]
    removes its first occurrence, and [mxmlEntityGetValue] gives the first answer that is
    not negative, in the order of the list; other threads keep theirs. *)
Theorem entity_callbacks_refine h l :
  callbacks h l ->
  (forall cb, cb <> 0 ->
    exists h', mxmlEntityAddCallback self cb h = Ret (if Z.of_nat (length l) <? NUM_CBS then 0 else -1) h'
      /\ callbacks h' (if Z.of_nat (length l) <? NUM_CBS then l ++ [cb] else l) /\ others h h')
  /\ (forall cb, exists h', mxmlEntityRemoveCallback self cb h = Ret tt h' /\ callbacks h' (remove_first cb l) /\ others h h')
  /\ (forall name, exists v, mxmlEntityGetValue self entity_cb name h = Ret v h /\ get_value (map (ask entity_cb) l) name = Some v).
Proof.
  intros (g & Eg & G & <-). pose proof (active_length g G) as La. pose proof (global_there h g Eg) as Gl. split; [|split].
  - intros cb Hcb. unfold mxmlEntityAddCallback. rewrite (bind_Ret _ _ _ _ _ Gl). rewrite La. pose proof G as (L & N & F).
    destruct (Z.ltb_spec (num_entity_cbs g) NUM_CBS) as [Hn|Hn].
    + destruct (lookup_lt_is_Some_2 (g_entity_cbs g) (Z.to_nat (num_entity_cbs g)) ltac:(unfold NUM_CBS in *; lia)) as [c Ec].
      assert (Ez : znth (g_entity_cbs g) (num_entity_cbs g) = Some c) by (unfold znth; now rewrite (proj2 (Z.ltb_ge _ 0)) by lia).
      rewrite Ez. unfold bind at 1. cbn [deref ret obind]. set (g' := set_num (num_entity_cbs g + 1) (set_cbs (zupd (num_entity_cbs g) (fun _ => cb) (g_entity_cbs g)) g)).
      destruct (upd_global_eq (fun g => set_num (num_entity_cbs g + 1) (set_cbs (zupd (num_entity_cbs g) (fun _ => cb) (g_entity_cbs g)) g)) h g Eg) as (h' & E1 & E2 & O).
      exists h'. rewrite (bind_Ret _ _ _ _ _ E1). split; [done|]. split; [|exact O]. exists g'. split; [exact E2|].
      assert (A : active g' = active g ++ [cb]).
      { unfold active, g'. cbn [set_num set_cbs num_entity_cbs g_entity_cbs]. unfold zupd. rewrite (proj2 (Z.ltb_ge _ 0)) by lia.
        replace (Z.to_nat (num_entity_cbs g + 1)) with (S (Z.to_nat (num_entity_cbs g))) by lia.
        rewrite (take_S_r _ _ cb) by (rewrite list_lookup_alter_eq, Ec; done). f_equal. apply take_alter_ge. lia. }
      split; [|exact A]. split; [|split].
      * unfold g'. cbn [set_num set_cbs g_entity_cbs]. now rewrite length_zupd.
      * unfold g'. cbn [set_num num_entity_cbs]. lia.
      * rewrite A. apply Forall_app. split; [exact F|]. now apply Forall_cons.
    + unfold entity_error. rewrite bind_assoc. rewrite (bind_Ret _ _ _ _ _ Gl). exists h. split; [done|]. split; [now exists g|]. now intros t.
  - intros cb. unfold mxmlEntityRemoveCallback. rewrite (bind_Ret _ _ _ _ _ Gl).
    exact (remove_loop_eq h g cb Eg G (Z.to_nat (num_entity_cbs g)) 0 ltac:(lia)).
  - intros name. unfold mxmlEntityGetValue. rewrite (bind_Ret _ _ _ _ _ Gl).
    exact (ask_all_eq h g name G (Z.to_nat (num_entity_cbs g)) 0 ltac:(lia)).
Qed.

(** A thread starts with the standard names. *)
Lemma global_new h : h_globals h !! self = None -> h_allocs h = [] ->
  exists h', _mxml_global self h = Ret new_global h' /\ callbacks h' [STD_CB] /\ others h h'.
Proof.
  intros E A. unfold _mxml_global, bind, get, calloc. cbn [obind]. rewrite E. cbn [obind]. rewrite A. cbn [obind]. eexists. split; [reflexivity|].
  split; [|intros t Ht; cbn; now rewrite lookup_insert_ne].
  exists new_global. split; [cbn; apply lookup_insert_eq|]. split; [|done]. split; [done|]. split; [unfold NUM_CBS, new_global; cbn; lia|]. now repeat constructor.
Qed.
End List.
