(* ===== verification/Mxmltree.v ===== *)
(** * XML trees: [src/dev/src/pubfun/xml], [mxml-node.c], [mxml-attr.c], [mxml-search.c]

    The part of Mini-XML under [src] that keeps a document as a tree of nodes linked by
    pointers.  The nodes are the objects of a heap, addressed by numbers; reading or
    writing a node that is not there, because the pointer is null or the node was freed,
    is a fault.  Strings are values: [strdup] may fail, and freeing a string has no
    counterpart.  The attributes of an element are a list.  Which allocations succeed
    comes from the environment. *)

From Stdlib Require Import ZArith Lia Bool List Ascii String.
From stdpp Require Import base list gmap.
From S2P Require Import Prelude Cstr.

Definition NULL : Z := 0.

(** ** Data *)

Record mxml_attr_t := mkAttr { a_name : bytes; a_value : option bytes }.

(** [type] and [value]; [Real] holds the representation of the number, [Custom] the two
    pointers. *)
Inductive mxml_value_t :=
  | Ignore
  | Element (name : option bytes) (attrs : list mxml_attr_t)
  | Integer (integer : Z)
  | Opaque (opaque : option bytes)
  | Real (real : Z)
  | Text (whitespace : Z) (string : option bytes)
  | Custom (data destroy : Z).

Record mxml_node_t := mkNode {
  next : Z;
  prev : Z;
  parent : Z;
  child : Z;
  last_child : Z;
  value : mxml_value_t;
  ref_count : Z;
}.

Definition set_next (x : Z) (n : mxml_node_t) : mxml_node_t :=
  mkNode x (prev n) (parent n) (child n) (last_child n) (value n) (ref_count n).
Definition set_prev (x : Z) (n : mxml_node_t) : mxml_node_t :=
  mkNode (next n) x (parent n) (child n) (last_child n) (value n) (ref_count n).
Definition set_parent (x : Z) (n : mxml_node_t) : mxml_node_t :=
  mkNode (next n) (prev n) x (child n) (last_child n) (value n) (ref_count n).
Definition set_child (x : Z) (n : mxml_node_t) : mxml_node_t :=
  mkNode (next n) (prev n) (parent n) x (last_child n) (value n) (ref_count n).
Definition set_last_child (x : Z) (n : mxml_node_t) : mxml_node_t :=
  mkNode (next n) (prev n) (parent n) (child n) x (value n) (ref_count n).
Definition set_value (x : mxml_value_t) (n : mxml_node_t) : mxml_node_t :=
  mkNode (next n) (prev n) (parent n) (child n) (last_child n) x (ref_count n).
Definition set_ref_count (x : Z) (n : mxml_node_t) : mxml_node_t :=
  mkNode (next n) (prev n) (parent n) (child n) (last_child n) (value n) x.

(** The process: the nodes, the outcomes of the next allocations (those behind the end
    succeed), whether an error callback is installed, and the variables of [xml.c]. *)
Record xml := mkXml {
  x_heap : gmap Z mxml_node_t;
  x_brk : Z;
  x_allocs : list bool;
  x_callback : bool;
  l_pIntXml : Z;
  l_sXmlError : bytes;
}.

Definition set_x_heap (h : gmap Z mxml_node_t) (x : xml) : xml :=
  mkXml h (x_brk x) (x_allocs x) (x_callback x) (l_pIntXml x) (l_sXmlError x).
Definition set_x_brk (b : Z) (x : xml) : xml :=
  mkXml (x_heap x) b (x_allocs x) (x_callback x) (l_pIntXml x) (l_sXmlError x).
Definition set_x_allocs (l : list bool) (x : xml) : xml :=
  mkXml (x_heap x) (x_brk x) l (x_callback x) (l_pIntXml x) (l_sXmlError x).
Definition set_x_callback (b : bool) (x : xml) : xml :=
  mkXml (x_heap x) (x_brk x) (x_allocs x) b (l_pIntXml x) (l_sXmlError x).
Definition set_l_pIntXml (p : Z) (x : xml) : xml :=
  mkXml (x_heap x) (x_brk x) (x_allocs x) (x_callback x) p (l_sXmlError x).
Definition set_l_sXmlError (s : bytes) (x : xml) : xml :=
  mkXml (x_heap x) (x_brk x) (x_allocs x) (x_callback x) (l_pIntXml x) s.

Definition node_at (p : Z) : prog xml mxml_node_t := fun x => deref (x_heap x !! p) x.

Definition upd_node (p : Z) (f : mxml_node_t -> mxml_node_t) : prog xml unit :=
  let* n := node_at p in
  modify (fun x => set_x_heap (<[p := f n]> (x_heap x)) x).

Definition free_node (p : Z) : prog xml unit :=
  node_at p ;;; modify (fun x => set_x_heap (delete p (x_heap x)) x).

Definition granted : prog xml bool :=
  let* l := get x_allocs in
  match l with
  | [] => ret true
  | b :: l => modify (set_x_allocs l) ;;; ret b
  end.

Definition strdup (s : bytes) : prog xml (option bytes) :=
  let* ok := granted in ret (if (ok : bool) then Some s else None).

(** ** Errors *)

(** The callback: [strlen(l_sXmlError)] is taken after the buffer has been cleared. *)
Definition XmlSaveError (psMessage : bytes) : prog xml unit :=
  modify (set_l_sXmlError (if 1024 <=? Z.of_nat (length psMessage) then take 1023 psMessage ++ [NUL] else zeros 1024)).

(** [format] is the formatted message; without a callback it goes to [stderr]. *)
Definition mxml_error (format : bytes) : prog xml unit :=
  let* cb := get x_callback in
  if (cb : bool) then XmlSaveError (take 1023 format) else ret tt.

(** ** Nodes: [mxml-node.c] *)

Definition mxmlRemove (node : Z) : prog xml unit :=
  if node =? NULL then ret tt
  else
    let* n := node_at node in
    if parent n =? NULL then ret tt
    else
      (if negb (prev n =? NULL) then upd_node (prev n) (set_next (next n))
       else upd_node (parent n) (set_child (next n))) ;;;
      let* n := node_at node in
      (if negb (next n =? NULL) then upd_node (next n) (set_prev (prev n))
       else upd_node (parent n) (set_last_child (prev n))) ;;;
      upd_node node (fun n => set_next NULL (set_prev NULL (set_parent NULL n))).

Definition MXML_ADD_BEFORE : Z := 0.
Definition MXML_ADD_AFTER : Z := 1.
Definition MXML_ADD_TO_PARENT : Z := NULL.
Definition MXML_NO_PARENT : Z := NULL.

(** [!child || child == end || child->parent != parent]. *)
Definition at_end (par chd last : Z) : prog xml bool :=
  if chd =? NULL then ret true
  else if chd =? last then ret true
  else let* c := node_at chd in ret (negb (parent c =? par)).

Definition mxmlAdd (par where_ chd node : Z) : prog xml unit :=
  if (par =? NULL) || (node =? NULL) then ret tt
  else
    let* n := node_at node in
    when (negb (parent n =? NULL)) (mxmlRemove node) ;;;
    upd_node node (set_parent par) ;;;
    let* p := node_at par in
    if where_ =? MXML_ADD_BEFORE then
      let* first := at_end par chd (child p) in
      if (first : bool) then
        upd_node node (set_next (child p)) ;;;
        (if negb (child p =? NULL) then upd_node (child p) (set_prev node)
         else upd_node par (set_last_child node)) ;;;
        upd_node par (set_child node)
      else
        let* c := node_at chd in
        upd_node node (fun n => set_prev (prev c) (set_next chd n)) ;;;
        (if negb (prev c =? NULL) then upd_node (prev c) (set_next node)
         else upd_node par (set_child node)) ;;;
        upd_node chd (set_prev node)
    else if where_ =? MXML_ADD_AFTER then
      let* last := at_end par chd (last_child p) in
      if (last : bool) then
        upd_node node (fun n => set_prev (last_child p) (set_parent par n)) ;;;
        (if negb (last_child p =? NULL) then upd_node (last_child p) (set_next node)
         else upd_node par (set_child node)) ;;;
        upd_node par (set_last_child node)
      else
        let* c := node_at chd in
        upd_node node (fun n => set_next (next c) (set_prev chd n)) ;;;
        (if negb (next c =? NULL) then upd_node (next c) (set_prev node)
         else upd_node par (set_last_child node)) ;;;
        upd_node chd (set_next node)
    else ret tt.

(** [value] is the zeroed value of the type. *)
Definition mxml_new (par : Z) (v : mxml_value_t) : prog xml Z :=
  let* ok := granted in
  if negb ok then ret NULL
  else
    let* node := get x_brk in
    modify (fun x => set_x_brk (node + 1) (set_x_heap (<[node := mkNode NULL NULL NULL NULL NULL v 1]> (x_heap x)) x)) ;;;
    when (negb (par =? NULL)) (mxmlAdd par MXML_ADD_AFTER MXML_ADD_TO_PARENT node) ;;;
    ret node.

(** A node of a new type, whose string is [s]. *)
Definition new_string_node (par : Z) (f : option bytes -> mxml_value_t) (s : bytes) : prog xml Z :=
  let* node := mxml_new par (f None) in
  if node =? NULL then ret NULL
  else let* d := strdup s in upd_node node (set_value (f d)) ;;; ret node.

Definition mxmlNewElement (par : Z) (name : option bytes) : prog xml Z :=
  match name with
  | None => ret NULL
  | Some name => new_string_node par (fun d => Element d []) name
  end.

Definition mxmlNewOpaque (par : Z) (opaque : option bytes) : prog xml Z :=
  match opaque with
  | None => ret NULL
  | Some opaque => new_string_node par Opaque opaque
  end.

Definition mxmlNewText (par whitespace : Z) (string : option bytes) : prog xml Z :=
  match string with
  | None => ret NULL
  | Some string => new_string_node par (Text whitespace) string
  end.

Definition mxmlNewInteger (par integer : Z) : prog xml Z :=
  let* node := mxml_new par (Integer 0) in
  if node =? NULL then ret NULL else upd_node node (set_value (Integer integer)) ;;; ret node.

Definition mxmlNewReal (par real : Z) : prog xml Z :=
  let* node := mxml_new par (Real 0) in
  if node =? NULL then ret NULL else upd_node node (set_value (Real real)) ;;; ret node.

Definition mxmlNewCustom (par data destroy : Z) : prog xml Z :=
  let* node := mxml_new par (Custom 0 0) in
  if node =? NULL then ret NULL else upd_node node (set_value (Custom data destroy)) ;;; ret node.

(** [snprintf] into 1024 bytes. *)
Definition mxmlNewXML (version : option bytes) : prog xml Z :=
  let version := default (str "1.0") version in
  mxmlNewElement NULL (Some (take 1023 (str "?xml version=" ++ [QUOTE] ++ version ++ [QUOTE] ++ str "?"))).

Section Delete.
(** The destructors of custom data. *)
Context (destroy_cb : Z -> Z -> prog xml unit).

(** [while (node->child) mxmlDelete(node->child)]. *)
Fixpoint delete_children (fuel : nat) (delete_one : Z -> prog xml unit) (node : Z) : prog xml unit :=
  match fuel with
  | O => spin
  | S fuel =>
      let* n := node_at node in
      if child n =? NULL then ret tt
      else delete_one (child n) ;;; delete_children fuel delete_one node
  end.

(** [fuel] is more than the number of nodes. *)
Fixpoint delete_node (fuel : nat) (node : Z) : prog xml unit :=
  match fuel with
  | O => spin
  | S fuel =>
      if node =? NULL then ret tt
      else
        mxmlRemove node ;;;
        delete_children (S fuel) (delete_node fuel) node ;;;
        let* n := node_at node in
        match value n with
        | Custom data destroy => when (negb (data =? NULL) && negb (destroy =? NULL)) (destroy_cb destroy data)
        | _ => ret tt
        end ;;;
        free_node node
  end.

Definition mxmlDelete (node : Z) : prog xml unit :=
  let* h := get x_heap in delete_node (S (size h)) node.

Definition mxmlRetain (node : Z) : prog xml Z :=
  if node =? NULL then ret (-1)
  else
    upd_node node (fun n => set_ref_count (i32 (ref_count n + 1)) n) ;;;
    let* n := node_at node in ret (ref_count n).

Definition mxmlRelease (node : Z) : prog xml Z :=
  if node =? NULL then ret (-1)
  else
    upd_node node (fun n => set_ref_count (i32 (ref_count n - 1)) n) ;;;
    let* n := node_at node in
    if ref_count n <=? 0 then mxmlDelete node ;;; ret 0 else ret (ref_count n).
End Delete.

(** ** Attributes: [mxml-attr.c] *)

Definition has_name (name : bytes) (a : mxml_attr_t) : bool := streq (a_name a) name.

Definition mxmlElementGetAttr (node : Z) (name : option bytes) : prog xml (option bytes) :=
  if node =? NULL then ret None
  else
    let* n := node_at node in
    match value n, name with
    | Element _ attrs, Some name =>
        match List.find (has_name name) attrs with
        | Some a => ret (a_value a)
        | None => ret None
        end
    | _, _ => ret None
    end.

Fixpoint delete_attr (name : bytes) (attrs : list mxml_attr_t) : list mxml_attr_t :=
  match attrs with
  | [] => []
  | a :: attrs => if has_name name a then attrs else a :: delete_attr name attrs
  end.

Definition mxmlElementDeleteAttr (node : Z) (name : option bytes) : prog xml unit :=
  if node =? NULL then ret tt
  else
    let* n := node_at node in
    match value n, name with
    | Element e attrs, Some name => upd_node node (set_value (Element e (delete_attr name attrs)))
    | _, _ => ret tt
    end.

Definition attr_error (name : bytes) (e : option bytes) : bytes :=
  str "Unable to allocate memory for attribute '" ++ name ++ str "' in element " ++ default (str "(null)") e ++ str "!".

(** The loop and what follows it. *)
Fixpoint replace_attr (name : bytes) (v : option bytes) (attrs : list mxml_attr_t) : option (list mxml_attr_t) :=
  match attrs with
  | [] => None
  | a :: attrs =>
      if has_name name a then Some (mkAttr (a_name a) v :: attrs) else cons a <$> replace_attr name v attrs
  end.

Definition mxml_set_attr (node : Z) (name : bytes) (v : option bytes) : prog xml Z :=
  let* n := node_at node in
  match value n with
  | Element e attrs =>
      match replace_attr name v attrs with
      | Some attrs => upd_node node (set_value (Element e attrs)) ;;; ret 0
      | None =>
          let* ok := granted in
          if negb ok then mxml_error (attr_error name e) ;;; ret (-1)
          else
            let* d := strdup name in
            match d with
            | None => mxml_error (attr_error name e) ;;; ret (-1)
            | Some d => upd_node node (set_value (Element e (attrs ++ [mkAttr d v]))) ;;; ret 0
            end
      end
  | _ => fault
  end.

Definition mxmlElementSetAttr (node : Z) (name v : option bytes) : prog xml unit :=
  if node =? NULL then ret tt
  else
    let* n := node_at node in
    match value n, name with
    | Element _ _, Some name =>
        let* valuec := match v with Some v => strdup v | None => ret None end in
        mxml_set_attr node name valuec ;;; ret tt
    | _, _ => ret tt
    end.

(** ** Walking and searching: [mxml-search.c] *)

Definition MXML_DESCEND : Z := 1.
Definition MXML_NO_DESCEND : Z := 0.
Definition MXML_DESCEND_FIRST : Z := -1.

(** [while (!node->next)] of [mxmlWalkNext]. *)
Fixpoint climb (fuel : nat) (node top : Z) : prog xml Z :=
  match fuel with
  | O => spin
  | S fuel =>
      let* n := node_at node in
      if negb (next n =? NULL) then ret (next n)
      else if (parent n =? top) || (parent n =? NULL) then ret NULL
      else climb fuel (parent n) top
  end.

Definition mxmlWalkNext (node top descend : Z) : prog xml Z :=
  if node =? NULL then ret NULL
  else
    let* n := node_at node in
    if negb (child n =? NULL) && negb (descend =? 0) then ret (child n)
    else if node =? top then ret NULL
    else if negb (next n =? NULL) then ret (next n)
    else if negb (parent n =? NULL) && negb (parent n =? top) then
      let* h := get x_heap in climb (S (size h)) (parent n) top
    else ret NULL.

(** [while (node->last_child)] of [mxmlWalkPrev]. *)
Fixpoint last_leaf (fuel : nat) (node : Z) : prog xml Z :=
  match fuel with
  | O => spin
  | S fuel =>
      let* n := node_at node in
      if last_child n =? NULL then ret node else last_leaf fuel (last_child n)
  end.

Definition mxmlWalkPrev (node top descend : Z) : prog xml Z :=
  if (node =? NULL) || (node =? top) then ret NULL
  else
    let* n := node_at node in
    if negb (prev n =? NULL) then
      let* p := node_at (prev n) in
      if negb (last_child p =? NULL) && negb (descend =? 0) then
        let* h := get x_heap in last_leaf (S (size h)) (last_child p)
      else ret (prev n)
    else if negb (parent n =? top) then ret (parent n)
    else ret NULL.

(** The tests of the loop on one node. *)
Definition matches (name attr v : option bytes) (val : mxml_value_t) : bool :=
  match val with
  | Element (Some e) attrs =>
      match name with Some name => streq e name | None => true end
      && match attr with
         | None => true
         | Some attr =>
             match List.find (has_name attr) attrs with
             | Some (mkAttr _ (Some temp)) => match v with Some v => streq v temp | None => true end
             | _ => false
             end
         end
  | _ => false
  end.

Fixpoint find_loop (fuel : nat) (node top : Z) (name attr v : option bytes) (descend : Z) : prog xml Z :=
  match fuel with
  | O => spin
  | S fuel =>
      if node =? NULL then ret NULL
      else
        let* n := node_at node in
        if matches name attr v (value n) then ret node
        else if descend =? MXML_DESCEND then
          let* node := mxmlWalkNext node top MXML_DESCEND in find_loop fuel node top name attr v descend
        else find_loop fuel (next n) top name attr v descend
  end.

Definition mxmlFindElement (node top : Z) (name attr v : option bytes) (descend : Z) : prog xml Z :=
  if (node =? NULL) || (top =? NULL) || match attr, v with None, Some _ => true | _, _ => false end then ret NULL
  else
    let* node := mxmlWalkNext node top descend in
    let* h := get x_heap in
    find_loop (S (S (size h))) node top name attr v descend.

(** ** Trees in the heap *)

(** A tree with the addresses of its nodes. *)
Inductive ptree := PT (p : Z) (v : mxml_value_t) (ts : list ptree).

Definition root (t : ptree) : Z := match t with PT p _ _ => p end.
Definition val (t : ptree) : mxml_value_t := match t with PT _ v _ => v end.
Definition subs (t : ptree) : list ptree := match t with PT _ _ ts => ts end.

Lemma ptree_ind' (P : ptree -> Prop) :
  (forall p v ts, Forall P ts -> P (PT p v ts)) -> forall t, P t.
Proof.
  intros H. fix IH 1. intros [p v ts]. apply H. induction ts as [|t ts IHs]; constructor; [apply IH|exact IHs].
Qed.

Fixpoint ptrs (t : ptree) : list Z :=
  match t with PT p _ ts => p :: (fix all ts := match ts with [] => [] | t :: ts => ptrs t ++ all ts end) ts end.
Definition all_ptrs (ts : list ptree) : list Z := List.concat (map ptrs ts).

(** The first node of a list of siblings, and the last one. *)
Definition first (nxt : Z) (ts : list ptree) : Z := match ts with [] => nxt | t :: _ => root t end.
Fixpoint final (prv : Z) (ts : list ptree) : Z := match ts with [] => prv | t :: ts => final (root t) ts end.

Fixpoint rep (h : gmap Z mxml_node_t) (par prv nxt : Z) (t : ptree) : Prop :=
  match t with
  | PT p v ts =>
      p <> NULL /\ (exists rc, h !! p = Some (mkNode nxt prv par (first NULL ts) (final NULL ts) v rc))
      /\ (fix seg prv ts := match ts with
          | [] => True
          | t :: ts => rep h p prv (first NULL ts) t /\ seg (root t) ts
          end) NULL ts
  end.

(** Siblings between two nodes. *)
Fixpoint seg (h : gmap Z mxml_node_t) (par prv : Z) (ts : list ptree) (nxt : Z) : Prop :=
  match ts with
  | [] => True
  | t :: ts => rep h par prv (first nxt ts) t /\ seg h par (root t) ts nxt
  end.

Lemma ptrs_eq p v ts : ptrs (PT p v ts) = p :: all_ptrs ts.
Proof. cbn [ptrs]. f_equal. unfold all_ptrs. induction ts as [|t ts IH]; [done|]. cbn [map List.concat]. now rewrite <- IH. Qed.

Lemma rep_eq h par prv nxt p v ts :
  rep h par prv nxt (PT p v ts)
  <-> p <> NULL /\ (exists rc, h !! p = Some (mkNode nxt prv par (first NULL ts) (final NULL ts) v rc)) /\ seg h p NULL ts NULL.
Proof.
  cbn [rep]. enough (E : forall q, (fix seg prv ts := match ts with
    | [] => True | t :: ts => rep h p prv (first NULL ts) t /\ seg (root t) ts end) q ts <-> seg h p q ts NULL) by (rewrite E; tauto).
  induction ts as [|t ts IH]; intros q; [done|]. cbn [seg]. now rewrite IH.
Qed.

Lemma all_ptrs_app a b : all_ptrs (a ++ b) = all_ptrs a ++ all_ptrs b.
Proof. unfold all_ptrs. now rewrite map_app, concat_app. Qed.

Lemma all_ptrs_one t : all_ptrs [t] = ptrs t.
Proof. unfold all_ptrs. cbn [map List.concat]. apply app_nil_r. Qed.

Lemma first_app nxt a b : first nxt (a ++ b) = first (first nxt b) a.
Proof. now destruct a. Qed.

Lemma final_app prv a b : final prv (a ++ b) = final (final prv a) b.
Proof. revert prv. induction a as [|t a IH]; intros; [done|]. apply IH. Qed.

Lemma seg_app h par prv a b nxt :
  seg h par prv (a ++ b) nxt <-> seg h par prv a (first nxt b) /\ seg h par (final prv a) b nxt.
Proof.
  revert prv. induction a as [|t a IH]; intros; cbn [app seg final]; [tauto|]. rewrite IH, first_app. tauto.
Qed.

Lemma root_in_ptrs t : root t ∈ ptrs t.
Proof. destruct t. rewrite ptrs_eq. cbn [root]. left. Qed.

Lemma rep_root h par prv nxt t :
  rep h par prv nxt t -> root t <> NULL /\ exists rc, h !! root t = Some (mkNode nxt prv par (first NULL (subs t)) (final NULL (subs t)) (val t) rc).
Proof. destruct t. rewrite rep_eq. tauto. Qed.

Lemma seg_Forall h par ts : forall prv nxt, seg h par prv ts nxt -> Forall (fun t => exists a b, rep h par a b t) ts.
Proof.
  induction ts as [|t ts IH]; intros prv nxt H; [constructor|]. destruct H as [H1 H2]. constructor; eauto.
Qed.

(** The addresses of a tree are nodes. *)
Lemma rep_dom h t : forall par prv nxt p, rep h par prv nxt t -> p ∈ ptrs t -> p <> NULL /\ is_Some (h !! p).
Proof.
  induction t as [q v ts IH] using ptree_ind'. intros par prv nxt p H Hp. rewrite rep_eq in H. destruct H as (Hq & (rc & E) & Hs).
  rewrite ptrs_eq in Hp. apply elem_of_cons in Hp as [->|Hp]; [eauto|].
  apply seg_Forall in Hs. unfold all_ptrs in Hp. apply list_elem_of_In, in_concat in Hp as (l & Hl & Hp).
  apply in_map_iff in Hl as (t & <- & Ht). rewrite List.Forall_forall in IH, Hs.
  destruct (Hs t Ht) as (a & b & R). apply list_elem_of_In in Hp. exact (IH t Ht q a b p R Hp).
Qed.

(** A tree depends on its own nodes only. *)
Lemma rep_frame h h' t : forall par prv nxt, (forall p, p ∈ ptrs t -> h' !! p = h !! p) -> rep h par prv nxt t -> rep h' par prv nxt t.
Proof.
  induction t as [q v ts IH] using ptree_ind'. intros par prv nxt E H. rewrite rep_eq in H |- *.
  destruct H as (Hq & (rc & R) & Hs). rewrite ptrs_eq in E. split; [done|].
  split; [exists rc; rewrite E; [done|left]|]. assert (E' : forall p, p ∈ all_ptrs ts -> h' !! p = h !! p) by (intros p Hp; apply E; now right).
  clear E R. revert Hs. generalize NULL at 1 3. induction IH as [|t ts Ht _ IHs]; intros prv' Hs; [done|].
  destruct Hs as [H1 H2]. unfold all_ptrs in E'. cbn [map List.concat] in E'. split.
  - apply Ht; [|exact H1]. intros p Hp. apply E'. apply elem_of_app. now left.
  - apply IHs; [|exact H2]. intros p Hp. apply E'. apply elem_of_app. now right.
Qed.

Lemma seg_frame h h' par prv ts nxt : (forall p, p ∈ all_ptrs ts -> h' !! p = h !! p) -> seg h par prv ts nxt -> seg h' par prv ts nxt.
Proof.
  revert prv. induction ts as [|t ts IH]; intros prv E H; [done|]. destruct H as [H1 H2].
  unfold all_ptrs in E. cbn [map List.concat] in E. split.
  - apply (rep_frame h); [|exact H1]. intros p Hp. apply E, elem_of_app. now left.
  - apply IH; [|exact H2]. intros p Hp. apply E, elem_of_app. now right.
Qed.

(** ** Well-formed trees, and what an operation does to them *)

Definition bounded (x : xml) : Prop := 0 < x_brk x /\ forall p, is_Some (x_heap x !! p) -> 0 < p < x_brk x.

Record wf (x : xml) (par prv nxt : Z) (t : ptree) : Prop := {
  wf_bounded : bounded x;
  wf_nodup : NoDup (ptrs t);
  wf_rep : rep (x_heap x) par prv nxt t;
}.

(** The tree [t] has become [t']; nodes outside of it have not changed. *)
Record edit (x x' : xml) (t t' : ptree) : Prop := {
  e_wf : forall par prv nxt, wf x par prv nxt t -> wf x' par prv nxt t';
  e_root : root t' = root t;
  e_frame : forall p, p ∉ ptrs t -> p < x_brk x -> x_heap x' !! p = x_heap x !! p;
  e_new : forall p, p ∈ ptrs t' -> p ∈ ptrs t \/ x_brk x <= p;
  e_brk : x_brk x <= x_brk x';
}.

Lemma edit_refl x t : edit x x t t.
Proof. split; auto. lia. Qed.

Lemma edit_trans x y z t u w : edit x y t u -> edit y z u w -> edit x z t w.
Proof.
  intros [W1 R1 F1 N1 B1] [W2 R2 F2 N2 B2]. split; [auto|congruence| | |lia].
  - intros p Hp Hlt. rewrite F2, F1; [done|done|done| |lia]. intros Hu. destruct (N1 p Hu); [done|lia].
  - intros p Hp. destruct (N2 p Hp) as [Hu|]; [apply N1 in Hu; tauto|right; lia].
Qed.

Lemma edit_eq x x' t u t' u' : edit x x' t u -> t = t' -> u = u' -> edit x x' t' u'.
Proof. now intros H <- <-. Qed.

Lemma wf_child x par prv nxt p v a t b :
  wf x par prv nxt (PT p v (a ++ t :: b)) -> wf x p (final NULL a) (first NULL b) t.
Proof.
  intros [B N R]. rewrite rep_eq in R. destruct R as (_ & _ & S). apply seg_app in S as [_ [S _]].
  rewrite ptrs_eq, all_ptrs_app in N. apply NoDup_cons in N as [_ N]. apply NoDup_app in N as (_ & _ & N).
  change (all_ptrs (t :: b)) with (ptrs t ++ all_ptrs b) in N. apply NoDup_app in N as (N & _). now split.
Qed.

Lemma wf_below x par prv nxt t p : wf x par prv nxt t -> p ∈ ptrs t -> 0 < p < x_brk x.
Proof. intros [B _ R] Hp. apply B. now apply (rep_dom _ _ _ _ _ _ R Hp). Qed.

(** An operation on one child is an operation on the parent. *)
Lemma edit_child x x' p v a t t' b :
  edit x x' t t' -> edit x x' (PT p v (a ++ t :: b)) (PT p v (a ++ t' :: b)).
Proof.
  intros E. assert (Ein : forall q u, q ∈ ptrs (PT p v (a ++ u :: b)) <-> q = p \/ q ∈ all_ptrs a \/ q ∈ ptrs u \/ q ∈ all_ptrs b).
  { intros q u. rewrite ptrs_eq, all_ptrs_app. change (all_ptrs (u :: b)) with (ptrs u ++ all_ptrs b). rewrite elem_of_cons, !elem_of_app. tauto. }
  split; [|done| | |exact (e_brk _ _ _ _ E)].
  - intros par prv nxt W. pose proof (wf_child _ _ _ _ _ _ _ _ _ W) as Wt. pose proof (e_wf _ _ _ _ E _ _ _ Wt) as Wt'.
    pose proof (fun q => wf_below _ _ _ _ _ q W) as Bq. destruct W as [B N R]. destruct Wt' as [B' N' R'].
    rewrite rep_eq in R. destruct R as (Hp & (rc & Hh) & S). apply seg_app in S as [Sa [_ Sb]].
    rewrite ptrs_eq, all_ptrs_app in N. change (all_ptrs (t :: b)) with (ptrs t ++ all_ptrs b) in N.
    apply NoDup_cons in N as [Np N]. apply NoDup_app in N as (Na & Nab & N). apply NoDup_app in N as (_ & Ntb & Nb).
    assert (F : forall q, q = p \/ q ∈ all_ptrs a \/ q ∈ all_ptrs b -> (q ∉ ptrs t') /\ x_heap x' !! q = x_heap x !! q).
    { intros q Hq. assert (Hnt : q ∉ ptrs t).
      { destruct Hq as [->|[Hq|Hq]].
        - intros Ht. apply Np. rewrite !elem_of_app. tauto.
        - intros Ht. apply (Nab q Hq). rewrite elem_of_app. tauto.
        - intros Ht. exact (Ntb q Ht Hq). }
      assert (Hlt : q < x_brk x) by (apply Bq, Ein; tauto). split; [|now apply (e_frame _ _ _ _ E)].
      intros Ht. destruct (e_new _ _ _ _ E q Ht); [done|lia]. }
    split; [exact B'| |].
    + rewrite ptrs_eq, all_ptrs_app. change (all_ptrs (t' :: b)) with (ptrs t' ++ all_ptrs b).
      apply NoDup_cons. split.
      { rewrite !elem_of_app. intros [H|[H|H]]; [apply Np; rewrite elem_of_app; tauto|now apply (F p); [left|]|
          apply Np; rewrite !elem_of_app; tauto]. }
      apply NoDup_app. split; [exact Na|]. split.
      { intros q Hq. rewrite elem_of_app. intros [H|H]; [now apply (F q); [tauto|]|apply (Nab q Hq), elem_of_app; tauto]. }
      apply NoDup_app. split; [exact N'|]. split; [|exact Nb]. intros q Hq Hb. now apply (F q); [tauto|].
    + rewrite rep_eq. split; [exact Hp|]. split.
      { exists rc. rewrite (proj2 (F p ltac:(tauto))), Hh. rewrite !first_app, !final_app. cbn [first final].
        now rewrite (e_root _ _ _ _ E). }
      apply seg_app. cbn [first]. rewrite (e_root _ _ _ _ E). split; [|split; [exact R'|]].
      * apply (seg_frame (x_heap x)); [|exact Sa]. intros q Hq. apply F. tauto.
      * rewrite (e_root _ _ _ _ E). apply (seg_frame (x_heap x)); [|exact Sb]. intros q Hq. apply F. tauto.
  - intros q Hq Hlt. apply (e_frame _ _ _ _ E); [|exact Hlt]. intros H. apply Hq, Ein. tauto.
  - intros q Hq. apply Ein in Hq. destruct Hq as [->|[Hq|[Hq|Hq]]].
    + left. apply Ein. tauto.
    + left. apply Ein. tauto.
    + destruct (e_new _ _ _ _ E q Hq); [left; apply Ein; tauto|tauto].
    + left. apply Ein. tauto.
Qed.

(** *** One node *)

Lemma node_at_then {A} p (k : mxml_node_t -> prog xml A) x n : x_heap x !! p = Some n -> bind (node_at p) k x = k n x.
Proof. intros H. unfold bind, node_at. now rewrite H. Qed.

Lemma upd_node_then {A} p f (k : prog xml A) x n :
  x_heap x !! p = Some n -> (upd_node p f ;;; k) x = k (set_x_heap (<[p := f n]> (x_heap x)) x).
Proof. intros H. unfold upd_node. rewrite bind_assoc, (node_at_then p _ x n H). reflexivity. Qed.

Lemma bounded_insert x p n : bounded x -> is_Some (x_heap x !! p) -> bounded (set_x_heap (<[p := n]> (x_heap x)) x).
Proof.
  intros [B1 B2] Hp. split; [exact B1|]. intros q. cbn [x_heap set_x_heap x_brk].
  destruct (decide (q = p)) as [->|Hne]; [auto|rewrite lookup_insert_ne by congruence; auto].
Qed.

(** Another reference count for the root of a tree. *)
Lemma recount_wf x t n n' :
  wf x NULL NULL NULL t -> x_heap x !! root t = Some n -> n' = set_ref_count (ref_count n') n ->
  wf (set_x_heap (<[root t := n']> (x_heap x)) x) NULL NULL NULL t.
Proof.
  destruct t as [p v ts]. cbn [root]. intros [B N R] Hn E. split; [apply bounded_insert; eauto|exact N|].
  rewrite rep_eq in R |- *. destruct R as (Hp & (rc & E0) & S). split; [exact Hp|]. split.
  - exists (ref_count n'). cbn. rewrite lookup_insert_eq, E. rewrite Hn in E0. injection E0 as ->. reflexivity.
  - apply (seg_frame (x_heap x)); [|exact S]. intros q Hq. apply lookup_insert_ne.
    rewrite ptrs_eq in N. apply NoDup_cons in N as [N _]. congruence.
Qed.

(** Another value for the root of a tree. *)
Lemma value_edit x par prv nxt p v v' ts n :
  wf x par prv nxt (PT p v ts) -> x_heap x !! p = Some n ->
  edit x (set_x_heap (<[p := set_value v' n]> (x_heap x)) x) (PT p v ts) (PT p v' ts).
Proof.
  intros W Hn. split; [|done| | |cbn; lia].
  - intros par' prv' nxt' [B N R]. split; [apply bounded_insert; eauto| |].
    + rewrite ptrs_eq in *. exact N.
    + rewrite rep_eq in R |- *. destruct R as (Hp & (rc & E) & S). split; [exact Hp|].
      rewrite Hn in E. injection E as ->. cbn [x_heap set_x_heap]. split.
      { exists rc. now rewrite lookup_insert_eq. }
      apply (seg_frame (x_heap x)); [|exact S]. intros q Hq. apply lookup_insert_ne.
      rewrite ptrs_eq in N. apply NoDup_cons in N as [N _]. congruence.
  - intros q Hq _. cbn [x_heap set_x_heap]. apply lookup_insert_ne. intros ->. apply Hq. rewrite ptrs_eq. left.
  - intros q Hq. left. rewrite ptrs_eq in *. exact Hq.
Qed.

(** *** A new last child *)

Definition new_node (par prv : Z) (v : mxml_value_t) : mxml_node_t := mkNode NULL prv par NULL NULL v 1.

(** The siblings [ts] when the node [nxt] follows them. *)
Lemma seg_next h h' par prv ts nxt0 nxt :
  NoDup (all_ptrs ts) -> seg h par prv ts nxt0 ->
  (forall p, p ∈ all_ptrs ts -> p <> final NULL ts -> h' !! p = h !! p) ->
  (forall n, h !! final NULL ts = Some n -> ts <> [] -> h' !! final NULL ts = Some (set_next nxt n)) ->
  seg h' par prv ts nxt.
Proof.
  induction ts as [|l ts _] using rev_ind; intros N S H1 H2; [done|].
  apply seg_app in S as [S1 [S2 _]]. rewrite all_ptrs_app in N. apply NoDup_app in N as (N1 & N2 & N3).
  rewrite final_app in *. cbn [final] in *. rewrite all_ptrs_one in N2, N3.
  assert (I : forall p, p ∈ all_ptrs (ts ++ [l]) <-> p ∈ all_ptrs ts \/ p ∈ ptrs l).
  { intros p. now rewrite all_ptrs_app, elem_of_app, all_ptrs_one. }
  apply seg_app. split; [|split; [|done]].
  - cbn [first] in *. apply (seg_frame h); [|exact S1]. intros p Hp. apply H1; [apply I; tauto|].
    intros ->. apply (N2 _ Hp), root_in_ptrs.
  - destruct l as [q v us]. cbn [root] in *. rewrite rep_eq in S2 |- *. destruct S2 as (Hq & (rc & E) & S). split; [exact Hq|]. split.
    + exists rc. rewrite (H2 _ E) by (now destruct ts). reflexivity.
    + apply (seg_frame h); [|exact S]. intros p Hp. apply H1.
      * apply I. rewrite ptrs_eq. right. now right.
      * intros ->. rewrite ptrs_eq in N3. now apply NoDup_cons in N3 as [N3 _].
Qed.

Lemma final_in ts : ts <> [] -> final NULL ts ∈ all_ptrs ts.
Proof.
  induction ts as [|l ts _] using rev_ind; [done|]. intros _. rewrite final_app, all_ptrs_app, all_ptrs_one. cbn [final].
  apply elem_of_app. right. apply root_in_ptrs.
Qed.

(** The heap when [node] is added behind the children [ts] of [q]. *)
Definition added (q node : Z) (nv : mxml_value_t) (nq : mxml_node_t) (h : gmap Z mxml_node_t) : gmap Z mxml_node_t :=
  let h := <[node := new_node q (last_child nq) nv]> h in
  if last_child nq =? NULL then <[q := set_last_child node (set_child node nq)]> h
  else
    match h !! last_child nq with
    | Some nl => <[q := set_last_child node nq]> (<[last_child nq := set_next node nl]> h)
    | None => h
    end.

Lemma upd_node_eq p f x n :
  x_heap x !! p = Some n -> upd_node p f x = Ret tt (set_x_heap (<[p := f n]> (x_heap x)) x).
Proof. intros H. unfold upd_node. now rewrite (node_at_then p _ x n H). Qed.

Lemma add_last_eq x q node nv nq :
  x_heap x !! node = Some (mkNode NULL NULL NULL NULL NULL nv 1) -> x_heap x !! q = Some nq ->
  q <> NULL -> node <> NULL -> q <> node -> last_child nq <> q -> last_child nq <> node ->
  (last_child nq <> NULL -> is_Some (x_heap x !! last_child nq)) ->
  mxmlAdd q MXML_ADD_AFTER MXML_ADD_TO_PARENT node x = Ret tt (set_x_heap (added q node nv nq (x_heap x)) x).
Proof.
  intros Hn Hq Hq0 Hn0 Hqn Hlq Hln Hl. unfold mxmlAdd.
  rewrite (proj2 (Z.eqb_neq q NULL)), (proj2 (Z.eqb_neq node NULL)) by done. cbn [orb].
  rewrite (node_at_then node _ x _ Hn). cbn [parent]. change (NULL =? NULL) with true. cbn [negb when]. erewrite bind_Ret by reflexivity.
  rewrite (upd_node_then node _ _ x _ Hn). set (x1 := set_x_heap _ x).
  assert (E1 : x_heap x1 !! q = Some nq) by (cbn; now rewrite lookup_insert_ne by congruence).
  rewrite (node_at_then q _ x1 nq E1). change (MXML_ADD_AFTER =? MXML_ADD_BEFORE) with false.
  change (MXML_ADD_AFTER =? MXML_ADD_AFTER) with true. cbn match.
  rewrite (bind_Ret (at_end _ _ _) _ x1 true x1) by reflexivity.
  rewrite (upd_node_then node _ _ x1 _ (lookup_insert_eq _ _ _)). set (x2 := set_x_heap _ x1).
  assert (H2 : x_heap x2 = <[node := new_node q (last_child nq) nv]> (x_heap x)).
  { unfold x2, x1. cbn [x_heap set_x_heap]. now rewrite insert_insert_eq. }
  assert (E2 : x_heap x2 !! q = Some nq) by (rewrite H2; now rewrite lookup_insert_ne by congruence).
  unfold added. destruct (Z.eqb_spec (last_child nq) NULL) as [E|E]; cbn [negb].
  - rewrite (upd_node_then q _ _ x2 nq E2), (upd_node_eq q _ _ _ (lookup_insert_eq _ _ _)).
    cbn [x_heap set_x_heap]. rewrite insert_insert_eq, H2. reflexivity.
  - destruct (Hl E) as [nl Hnl]. assert (E3 : x_heap x2 !! last_child nq = Some nl) by (rewrite H2; now rewrite lookup_insert_ne by congruence).
    rewrite (upd_node_then _ _ _ x2 nl E3), (upd_node_eq q _ _ nq).
    + cbn [x_heap set_x_heap]. rewrite H2. rewrite lookup_insert_ne, Hnl by congruence. reflexivity.
    + cbn [x_heap set_x_heap]. now rewrite lookup_insert_ne by congruence.
Qed.

Lemma granted_eq x : x_allocs x = [] -> granted x = Ret true x.
Proof. intros H. unfold granted, bind, get. cbn [obind]. now rewrite H. Qed.

Lemma mxml_new_eq x q nv nq :
  bounded x -> x_allocs x = [] -> x_heap x !! q = Some nq -> q <> NULL -> last_child nq <> q ->
  (last_child nq <> NULL -> is_Some (x_heap x !! last_child nq)) ->
  let raw := <[x_brk x := mkNode NULL NULL NULL NULL NULL nv 1]> (x_heap x) in
  mxml_new q nv x = Ret (x_brk x) (set_x_brk (x_brk x + 1) (set_x_heap (added q (x_brk x) nv nq raw) x)).
Proof.
  intros [B1 B2] Hal Hq Hq0 Hlq Hl raw. set (node := x_brk x) in *.
  assert (Hqn : q <> node) by (pose proof (B2 q ltac:(eauto)); unfold node; lia).
  assert (Hln : last_child nq <> node).
  { destruct (decide (last_child nq = NULL)) as [->|E]; [unfold NULL, node; lia|]. pose proof (B2 _ (Hl E)). unfold node. lia. }
  unfold mxml_new. rewrite (bind_Ret _ _ _ _ _ (granted_eq x Hal)). cbn [negb].
  erewrite bind_Ret by reflexivity. fold node. erewrite bind_Ret by reflexivity. fold raw.
  rewrite (proj2 (Z.eqb_neq q NULL)) by done. cbn [negb when].
  erewrite bind_Ret; [|apply (add_last_eq (set_x_brk (node + 1) (set_x_heap raw x)) q node nv nq); try done].
  - reflexivity.
  - apply lookup_insert_eq.
  - cbn [x_heap set_x_heap set_x_brk]. unfold raw. now rewrite lookup_insert_ne by congruence.
  - unfold NULL, node. lia.
  - intros E. cbn [x_heap set_x_heap set_x_brk]. unfold raw. rewrite lookup_insert_ne by congruence. now apply Hl.
Qed.

Section Append.
Context (x : xml) (par prv nxt q : Z) (v nv : mxml_value_t) (ts : list ptree).
Hypothesis (W : wf x par prv nxt (PT q v ts)).
Let node := x_brk x.
Let last := final NULL ts.

Lemma last_child_ok : ts <> [] -> last <> NULL /\ last <> q /\ is_Some (x_heap x !! last) /\ last < node.
Proof.
  intros Hts. pose proof (final_in ts Hts) as Hin. fold last in Hin.
  assert (Hp : last ∈ ptrs (PT q v ts)) by (rewrite ptrs_eq; now right).
  pose proof (wf_below _ _ _ _ _ _ W Hp). destruct W as [B N R].
  destruct (rep_dom _ _ _ _ _ _ R Hp) as [H1 H2]. split; [exact H1|]. split; [|split; [exact H2|unfold node; lia]].
  intros ->. rewrite ptrs_eq in N. now apply NoDup_cons in N as [N _].
Qed.

Lemma added_other nq raw p :
  p <> q -> p <> node -> last_child nq = NULL \/ p <> last_child nq -> added q node nv nq raw !! p = raw !! p.
Proof.
  intros H1 H2 H3. unfold added. destruct (Z.eqb_spec (last_child nq) NULL).
  - now rewrite !lookup_insert_ne by congruence.
  - destruct H3; [done|]. destruct (_ !! last_child nq); now rewrite !lookup_insert_ne by congruence.
Qed.

Lemma append_edit nq :
  x_heap x !! q = Some nq ->
  let raw := <[node := mkNode NULL NULL NULL NULL NULL nv 1]> (x_heap x) in
  let x' := set_x_brk (node + 1) (set_x_heap (added q node nv nq raw) x) in
  edit x x' (PT q v ts) (PT q v (ts ++ [PT node nv []]))
  /\ exists n, x_heap x' !! node = Some n.
Proof.
  intros Hq raw x'.
  assert (Hqn : 0 < q < node) by (apply (wf_below _ _ _ _ _ _ W); rewrite ptrs_eq; left).
  assert (Hqq : exists rc, nq = mkNode nxt prv par (first NULL ts) last v rc).
  { destruct W as [_ _ R]. rewrite rep_eq in R. destruct R as (_ & (rc & E) & _). exists rc. rewrite Hq in E. now injection E. }
  assert (Hl : last_child nq = last) by (destruct Hqq as [rc ->]; reflexivity).
  assert (Fr : forall p, p <> q -> last = NULL \/ p <> last -> p <> node -> x_heap x' !! p = x_heap x !! p).
  { intros p H1 H2 H3. cbn [x' x_heap set_x_brk set_x_heap]. rewrite added_other by (rewrite ?Hl; done).
    unfold raw. now rewrite lookup_insert_ne by congruence. }
  assert (Lk : x_heap x' !! node = Some (new_node q last nv)
    /\ x_heap x' !! q = Some (set_last_child node (set_child (first node ts) nq))
    /\ (ts <> [] -> exists nl, x_heap x !! last = Some nl /\ x_heap x' !! last = Some (set_next node nl))).
  { cbn [x' x_heap set_x_brk set_x_heap]. unfold added. rewrite Hl. destruct (list_eq_nil_dec ts) as [->|Hts].
    - change last with NULL. change (NULL =? NULL) with true. cbn match. rewrite lookup_insert_ne by lia.
      rewrite !lookup_insert_eq. split; [done|]. split; [done|]. done.
    - destruct (last_child_ok Hts) as (L1 & L2 & [nl L3] & L4). rewrite (proj2 (Z.eqb_neq last NULL)) by done.
      assert (Lr : <[node := new_node q last nv]> raw !! last = Some nl).
      { unfold raw. rewrite !lookup_insert_ne by lia. exact L3. }
      rewrite Lr. split; [|split].
      + rewrite !lookup_insert_ne by lia. apply lookup_insert_eq.
      + rewrite lookup_insert_eq. destruct Hqq as [rc ->]. destruct ts; [done|]. reflexivity.
      + intros _. exists nl. split; [exact L3|]. rewrite lookup_insert_ne by congruence. apply lookup_insert_eq. }
  destruct Lk as (Ln & Lq & Ll). split; [|eauto]. split; [|done| | |cbn; lia].
  - intros par' prv' nxt' [B N R]. rewrite ptrs_eq in N. apply NoDup_cons in N as [Nq N]. rewrite rep_eq in R. destruct R as (Hq0 & (rc & E) & S).
    assert (Bt : forall p, p ∈ all_ptrs ts -> p < node).
    { intros p Hp. apply (wf_below _ _ _ _ _ _ W). rewrite ptrs_eq. now right. }
    split.
    + destruct B as [B1 B2]. split; [cbn; lia|]. intros p [n Hp]. cbn [x' x_brk set_x_brk].
      destruct (decide (p = node)) as [->|]; [unfold node; lia|]. enough (is_Some (x_heap x !! p)) by (pose proof (B2 p ltac:(done)); unfold node; lia).
      destruct (decide (p = q)) as [->|]; [eauto|]. destruct (list_eq_nil_dec ts) as [Ets|Hts].
      * rewrite Fr in Hp by (first [done | left; unfold last; now rewrite Ets]). eauto.
      * destruct (decide (p = last)) as [->|]; [destruct (Ll Hts) as (nl & L & _); eauto|]. rewrite Fr in Hp by auto. eauto.
    + rewrite ptrs_eq, all_ptrs_app, all_ptrs_one, ptrs_eq. change (all_ptrs []) with (@nil Z). apply NoDup_cons. split.
      { rewrite elem_of_app, elem_of_cons. intros [H|[H|H]]; [done|lia|now apply elem_of_nil in H]. }
      apply NoDup_app. split; [exact N|]. split; [|apply NoDup_singleton].
      intros p Hp. rewrite elem_of_cons. intros [H|H]; [apply Bt in Hp; lia|now apply elem_of_nil in H].
    + rewrite rep_eq. split; [exact Hq0|]. split.
      { exists rc. rewrite Lq. rewrite Hq in E. injection E as ->. rewrite first_app, final_app. reflexivity. }
      apply seg_app. split.
      * apply (seg_next (x_heap x) _ _ _ _ NULL); [exact N|exact S| |].
        -- intros p Hp Hpl. apply Fr; [congruence|now right|]. apply Bt in Hp. lia.
        -- intros n Hn Hts. destruct (Ll Hts) as (nl & L1 & L2). fold last in Hn |- *. rewrite L1 in Hn. injection Hn as <-. exact L2.
      * cbn [seg]. split; [|done]. rewrite rep_eq. split; [unfold NULL; lia|]. split; [|done]. exists 1. exact Ln.
  - intros p Hp Hlt. rewrite ptrs_eq in Hp. apply Fr; [| |unfold node; lia].
    + intros ->. apply Hp. left.
    + destruct (list_eq_nil_dec ts) as [Ets|Hts]; [left; unfold last; now rewrite Ets|right].
      intros ->. apply Hp. right. now apply final_in.
  - intros p Hp. rewrite ptrs_eq, all_ptrs_app, all_ptrs_one, ptrs_eq in Hp. rewrite ptrs_eq.
    rewrite elem_of_cons, elem_of_app, elem_of_cons in Hp. rewrite elem_of_cons.
    destruct Hp as [Hp|[Hp|[Hp|Hp]]]; [tauto|tauto|right; unfold node in Hp; lia|now apply elem_of_nil in Hp].
Qed.
End Append.

(** *** What the operations do to a tree *)

Definition same_vars (x x' : xml) : Prop :=
  x_allocs x' = x_allocs x /\ x_callback x' = x_callback x /\ l_pIntXml x' = l_pIntXml x /\ l_sXmlError x' = l_sXmlError x.

Lemma same_vars_trans x y z : same_vars x y -> same_vars y z -> same_vars x z.
Proof. unfold same_vars. intuition congruence. Qed.

Lemma strdup_eq s x : x_allocs x = [] -> strdup s x = Ret (Some s) x.
Proof. intros H. unfold strdup. now rewrite (bind_Ret _ _ _ _ _ (granted_eq x H)). Qed.

Lemma wf_node x par prv nxt p v ts :
  wf x par prv nxt (PT p v ts) ->
  p <> NULL /\ exists rc, x_heap x !! p = Some (mkNode nxt prv par (first NULL ts) (final NULL ts) v rc).
Proof. intros [_ _ R]. rewrite rep_eq in R. tauto. Qed.

Lemma new_string_edit x par prv nxt q v ts f name :
  wf x par prv nxt (PT q v ts) -> x_allocs x = [] ->
  exists node x', new_string_node q f name x = Ret node x'
    /\ edit x x' (PT q v ts) (PT q v (ts ++ [PT node (f (Some name)) []]))
    /\ same_vars x x' /\ node <> NULL.
Proof.
  intros W Hal. destruct (wf_node _ _ _ _ _ _ _ W) as (Hq & rc & Hn). set (nq := mkNode _ _ _ _ _ _ _) in Hn. set (node := x_brk x).
  pose proof (wf_bounded _ _ _ _ _ W) as B.
  destruct (append_edit x par prv nxt q v (f None) ts W nq Hn) as (E1 & n & Hn1).
  set (x1 := set_x_brk _ _) in *. pose proof (e_wf _ _ _ _ E1 _ _ _ W) as W1. fold node in E1, W1, Hn1.
  pose proof (wf_child _ _ _ _ _ _ ts (PT node (f None) []) [] W1) as Wc.
  pose proof (value_edit _ _ _ _ _ _ (f (Some name)) _ _ Wc Hn1) as E2. set (x2 := set_x_heap _ x1) in E2.
  exists node, x2. split; [|split; [|split]].
  - unfold new_string_node. erewrite bind_Ret.
    2:{ apply (mxml_new_eq x q (f None) nq); try assumption; cbn [last_child nq].
        - destruct (list_eq_nil_dec ts) as [->|Hts]; [cbn [final]; congruence|]. now apply (last_child_ok x par prv nxt q v ts W).
        - destruct (list_eq_nil_dec ts) as [->|Hts]; [done|]. intros _. now apply (last_child_ok x par prv nxt q v ts W). }
    fold node. rewrite (proj2 (Z.eqb_neq node NULL)) by (destruct B; unfold node, NULL; lia).
    rewrite (bind_Ret _ _ _ _ _ (strdup_eq name x1 Hal)), (upd_node_then _ _ _ _ _ Hn1). reflexivity.
  - eapply edit_trans; [exact E1|]. now apply edit_child.
  - done.
  - destruct B. unfold node, NULL. lia.
Qed.

Lemma new_element_edit x par prv nxt q v ts name :
  wf x par prv nxt (PT q v ts) -> x_allocs x = [] ->
  exists node x', mxmlNewElement q (Some name) x = Ret node x'
    /\ edit x x' (PT q v ts) (PT q v (ts ++ [PT node (Element (Some name) []) []]))
    /\ same_vars x x' /\ node <> NULL.
Proof. apply (new_string_edit x par prv nxt q v ts (fun d => Element d [])). Qed.

(** A new tree. *)
Lemma mxml_new_root x v y :
  granted x = Ret true y ->
  mxml_new NULL v x
  = Ret (x_brk y) (set_x_brk (x_brk y + 1) (set_x_heap (<[x_brk y := mkNode NULL NULL NULL NULL NULL v 1]> (x_heap y)) y)).
Proof. intros H. unfold mxml_new. now rewrite (bind_Ret _ _ _ _ _ H). Qed.

Lemma bounded_new x y n :
  bounded x -> x_heap y = <[x_brk x := n]> (x_heap x) -> x_brk y = x_brk x + 1 -> bounded y.
Proof.
  intros [B1 B2] Hh Hb. split; [lia|]. intros q. rewrite Hh, Hb. destruct (decide (q = x_brk x)) as [->|Hq]; [lia|].
  rewrite lookup_insert_ne by congruence. intros Hs%B2. lia.
Qed.

Lemma single_wf x p v rc : bounded x -> x_heap x !! p = Some (mkNode NULL NULL NULL NULL NULL v rc) -> wf x NULL NULL NULL (PT p v []).
Proof.
  intros B E. split; [exact B|apply NoDup_singleton|]. rewrite rep_eq. split; [|split; [now exists rc|done]].
  destruct B as [_ B2]. specialize (B2 p ltac:(eauto)). unfold NULL. lia.
Qed.

Lemma new_string_root x f name :
  bounded x -> x_allocs x = [] ->
  exists x', new_string_node NULL f name x = Ret (x_brk x) x'
    /\ wf x' NULL NULL NULL (PT (x_brk x) (f (Some name)) []) /\ same_vars x x' /\ x_brk x < x_brk x'
    /\ forall q, q <> x_brk x -> x_heap x' !! q = x_heap x !! q.
Proof.
  intros [B1 B2] Hal. set (node := x_brk x). set (n0 := mkNode NULL NULL NULL NULL NULL (f None) 1).
  set (x1 := set_x_brk (node + 1) (set_x_heap (<[node := n0]> (x_heap x)) x)).
  assert (Hn : node <> NULL) by (unfold node, NULL; lia). assert (H1 : x_heap x1 !! node = Some n0) by apply lookup_insert_eq.
  exists (set_x_heap (<[node := set_value (f (Some name)) n0]> (x_heap x1)) x1). split; [|split; [|split; [done|split]]].
  - unfold new_string_node. rewrite (bind_Ret _ _ _ _ _ (mxml_new_root x _ x (granted_eq x Hal))).
    fold node. fold n0. fold x1. rewrite (proj2 (Z.eqb_neq node NULL)) by exact Hn.
    rewrite (bind_Ret _ _ _ _ _ (strdup_eq name x1 Hal)), (upd_node_then _ _ _ _ _ H1). reflexivity.
  - apply (single_wf _ _ _ 1); [|apply lookup_insert_eq]. apply (bounded_new x _ (set_value (f (Some name)) n0)); [now split| |done].
    cbn. now rewrite insert_insert_eq.
  - cbn. lia.
  - intros q Hq. cbn. now rewrite !lookup_insert_ne by congruence.
Qed.

Lemma new_root x name :
  bounded x -> x_allocs x = [] ->
  exists x', mxmlNewElement NULL (Some name) x = Ret (x_brk x) x'
    /\ wf x' NULL NULL NULL (PT (x_brk x) (Element (Some name) []) []) /\ same_vars x x' /\ x_brk x < x_brk x'
    /\ forall q, q <> x_brk x -> x_heap x' !! q = x_heap x !! q.
Proof. apply (new_string_root x (fun d => Element d [])). Qed.

Definition put_attr (name : bytes) (s : bytes) (attrs : list mxml_attr_t) : list mxml_attr_t :=
  match replace_attr name (Some s) attrs with Some attrs => attrs | None => attrs ++ [mkAttr name (Some s)] end.

Lemma set_attr_edit x par prv nxt p e attrs ts name s :
  wf x par prv nxt (PT p (Element e attrs) ts) -> x_allocs x = [] ->
  exists x', mxmlElementSetAttr p (Some name) (Some s) x = Ret tt x'
    /\ edit x x' (PT p (Element e attrs) ts) (PT p (Element e (put_attr name s attrs)) ts) /\ same_vars x x'.
Proof.
  intros W Hal. destruct (wf_node _ _ _ _ _ _ _ W) as (Hp & rc & Hn). eexists. split; [|split; [exact (value_edit _ _ _ _ _ _ _ _ _ W Hn)|done]].
  unfold mxmlElementSetAttr. rewrite (proj2 (Z.eqb_neq p NULL)) by done. rewrite (node_at_then _ _ _ _ Hn). cbn [value].
  rewrite (bind_Ret _ _ _ _ _ (strdup_eq s x Hal)). unfold mxml_set_attr. rewrite bind_assoc, (node_at_then _ _ _ _ Hn). cbn [value].
  unfold put_attr. destruct (replace_attr name (Some s) attrs).
  - rewrite bind_assoc, (upd_node_then _ _ _ _ _ Hn). reflexivity.
  - rewrite bind_assoc, (bind_Ret _ _ _ _ _ (granted_eq x Hal)). cbn [negb].
    rewrite bind_assoc, (bind_Ret _ _ _ _ _ (strdup_eq name x Hal)), bind_assoc, (upd_node_then _ _ _ _ _ Hn). reflexivity.
Qed.

Lemma get_attr_eq x par prv nxt p e attrs ts name :
  wf x par prv nxt (PT p (Element e attrs) ts) ->
  mxmlElementGetAttr p (Some name) x
  = Ret (match List.find (has_name name) attrs with Some a => a_value a | None => None end) x.
Proof.
  intros W. destruct (wf_node _ _ _ _ _ _ _ W) as (Hp & rc & Hn). unfold mxmlElementGetAttr.
  rewrite (proj2 (Z.eqb_neq p NULL)) by done. rewrite (node_at_then _ _ _ _ Hn). cbn [value]. now destruct (List.find _ _).
Qed.

(** *** Searching among the children *)

Definition found (t : option ptree) : Z := match t with Some t => root t | None => NULL end.

Lemma find_siblings x par top name attr s ts : forall prv fuel,
  (length ts < fuel)%nat -> seg (x_heap x) par prv ts NULL ->
  find_loop fuel (first NULL ts) top name attr s MXML_DESCEND_FIRST x
  = Ret (found (List.find (fun t => matches name attr s (val t)) ts)) x.
Proof.
  induction ts as [|t ts IH]; intros prv fuel Hf S; (destruct fuel as [|fuel]; [cbn in Hf; lia|]); [reflexivity|].
  destruct S as [R S]. destruct (rep_root _ _ _ _ _ R) as (Hr & rc & Hn). cbn [find_loop first List.find].
  rewrite (proj2 (Z.eqb_neq (root t) NULL)) by done. rewrite (node_at_then _ _ _ _ Hn). cbn [value next].
  destruct (matches name attr s (val t)); [reflexivity|]. change (MXML_DESCEND_FIRST =? MXML_DESCEND) with false. cbn match.
  apply (IH (root t)); [cbn in Hf; lia|exact S].
Qed.

Lemma nodup_heap (h : gmap Z mxml_node_t) (l : list Z) : NoDup l -> (forall q, q ∈ l -> is_Some (h !! q)) -> (length l <= size h)%nat.
Proof.
  intros N H. rewrite <- size_dom, <- (size_list_to_set (C := gset Z) _ N). apply subseteq_size.
  intros q Hq%elem_of_list_to_set. now apply elem_of_dom, H.
Qed.

Lemma roots_in_heap h par ts : forall prv nxt, seg h par prv ts nxt -> NoDup (all_ptrs ts) -> (length ts <= size h)%nat.
Proof.
  intros prv nxt S N. assert (Hn : NoDup (map root ts)).
  { clear S. induction ts as [|t ts IH]; [constructor|]. change (all_ptrs (t :: ts)) with (ptrs t ++ all_ptrs ts) in N.
    apply NoDup_app in N as (_ & N1 & N2). cbn [map]. apply NoDup_cons. split; [|now apply IH]. intros H.
    apply list_elem_of_In, in_map_iff in H as (u & Hu & Hin). apply (N1 (root t) (root_in_ptrs t)). rewrite <- Hu.
    unfold all_ptrs. apply list_elem_of_In, in_concat. exists (ptrs u). split; [now apply in_map|apply list_elem_of_In, root_in_ptrs]. }
  rewrite <- (length_map root). apply (nodup_heap _ _ Hn). intros p Hp. apply list_elem_of_In, in_map_iff in Hp as (u & <- & Hin).
  apply seg_Forall in S. rewrite List.Forall_forall in S. destruct (S u Hin) as (a & b & R).
  destruct (rep_root _ _ _ _ _ R) as (_ & rc & Hn'). eauto.
Qed.

(** A search that does not descend finds the first child that matches. *)
Lemma find_child x par prv nxt q v ts name attr s :
  wf x par prv nxt (PT q v ts) -> (attr = None -> s = None) ->
  mxmlFindElement q q name attr s MXML_DESCEND_FIRST x
  = Ret (found (List.find (fun t => matches name attr s (val t)) ts)) x.
Proof.
  intros W Has. destruct (wf_node _ _ _ _ _ _ _ W) as (Hq & rc & Hn). destruct W as [_ N R].
  rewrite rep_eq in R. destruct R as (_ & _ & S). rewrite ptrs_eq in N. apply NoDup_cons in N as [_ N].
  unfold mxmlFindElement. rewrite !(proj2 (Z.eqb_neq q NULL)) by done. cbn [orb].
  replace (match attr, s with None, Some _ => true | _, _ => false end) with false by (destruct attr, s; try done; discriminate (Has eq_refl)).
  assert (E : mxmlWalkNext q q MXML_DESCEND_FIRST x = Ret (first NULL ts) x).
  { unfold mxmlWalkNext. rewrite (proj2 (Z.eqb_neq q NULL)) by done. rewrite (node_at_then _ _ _ _ Hn). cbn [child next parent].
    destruct ts as [|t ts]; cbn [first].
    - change (NULL =? NULL) with true. cbn [negb andb]. now rewrite Z.eqb_refl.
    - destruct S as [R _]. destruct (rep_root _ _ _ _ _ R) as (Hr & _). now rewrite (proj2 (Z.eqb_neq (root t) NULL)). }
  rewrite (bind_Ret _ _ _ _ _ E). erewrite bind_Ret by reflexivity. apply (find_siblings x q q name attr s ts NULL); [|exact S].
  pose proof (roots_in_heap _ _ _ _ _ S N). lia.
Qed.

(** ** Deleting *)

Section Deleting.
Context (destroy_cb : Z -> Z -> prog xml unit).

Definition undestroyed (v : mxml_value_t) : bool :=
  match v with Custom data destroy => (data =? NULL) || (destroy =? NULL) | _ => true end.

(** No custom data with a destructor. *)
Fixpoint plain (t : ptree) : bool := match t with PT _ v ts => undestroyed v && forallb plain ts end.

(** What follows [mxmlRemove]. *)
Definition delete_rest (fuel : nat) (node : Z) : prog xml unit :=
  delete_children (S fuel) (delete_node destroy_cb fuel) node ;;;
  let* n := node_at node in
  match value n with
  | Custom data destroy => when (negb (data =? NULL) && negb (destroy =? NULL)) (destroy_cb destroy data)
  | _ => ret tt
  end ;;;
  free_node node.

Lemma delete_node_eq fuel node x :
  delete_node destroy_cb (S fuel) node x = if node =? NULL then Ret tt x else (mxmlRemove node ;;; delete_rest fuel node) x.
Proof. cbn [delete_node]. now destruct (node =? NULL). Qed.

(** The siblings [ts] when they are the first ones. *)
Lemma seg_prev h h' par prv ts nxt :
  NoDup (all_ptrs ts) -> seg h par prv ts nxt ->
  (forall p, p ∈ all_ptrs ts -> p <> first NULL ts -> h' !! p = h !! p) ->
  (forall n, h !! first NULL ts = Some n -> ts <> [] -> h' !! first NULL ts = Some (set_prev NULL n)) ->
  seg h' par NULL ts nxt.
Proof.
  destruct ts as [|[q v us] ts]; intros N S H1 H2; [done|]. destruct S as [R S]. cbn [first root seg] in *.
  change (all_ptrs (PT q v us :: ts)) with (ptrs (PT q v us) ++ all_ptrs ts) in N, H1. apply NoDup_app in N as (N1 & N2 & _).
  rewrite ptrs_eq in *. rewrite rep_eq in R |- *. destruct R as (Hq & (rc & E) & Su). split.
  - split; [exact Hq|]. split; [exists rc; now rewrite (H2 _ E)|]. apply (seg_frame h); [|exact Su].
    intros p Hp. apply H1; [apply elem_of_app; left; now right|]. intros ->. now apply NoDup_cons in N1 as [N1 _].
  - apply (seg_frame h); [|exact S]. intros p Hp. apply H1; [apply elem_of_app; now right|]. intros ->. apply (N2 q); [left|exact Hp].
Qed.

(** The first child [r] of [p] is unlinked from its parent and from its next sibling. *)
Lemma unlink_first x p r np nt :
  x_heap x !! p = Some np -> x_heap x !! r = Some nt -> p <> NULL -> r <> NULL -> r <> p ->
  parent nt = p -> prev nt = NULL ->
  (next nt = NULL \/ next nt <> NULL /\ next nt <> r /\ next nt <> p /\ is_Some (x_heap x !! next nt)) ->
  exists h, mxmlRemove r x = Ret tt (set_x_heap h x)
    /\ h !! p = Some ((if next nt =? NULL then set_last_child NULL else id) (set_child (next nt) np))
    /\ h !! r = Some (set_next NULL (set_prev NULL (set_parent NULL nt)))
    /\ (forall n, next nt <> NULL -> x_heap x !! next nt = Some n -> h !! next nt = Some (set_prev NULL n))
    /\ (forall q, q <> p -> q <> r -> q <> next nt \/ next nt = NULL -> h !! q = x_heap x !! q).
Proof.
  intros Ep Et Hp Hr Hrp Hpar Hprv Hnx. unfold mxmlRemove. rewrite (proj2 (Z.eqb_neq r NULL)) by exact Hr.
  rewrite (node_at_then r _ x nt Et), Hpar, Hprv, (proj2 (Z.eqb_neq p NULL)) by exact Hp. change (NULL =? NULL) with true. cbn [negb].
  rewrite (upd_node_then p _ _ x np Ep). set (x1 := set_x_heap _ x).
  assert (E1 : x_heap x1 !! r = Some nt) by (cbn; now rewrite lookup_insert_ne by congruence).
  rewrite (node_at_then r _ x1 nt E1), Hpar, Hprv. destruct Hnx as [Hnx|(Hx & Hxr & Hxp & nn & Enn)].
  - rewrite Hnx. change (NULL =? NULL) with true. cbn [negb].
    rewrite (upd_node_then p _ _ x1 _ (lookup_insert_eq _ _ _)). set (x2 := set_x_heap _ x1).
    assert (E2 : x_heap x2 !! r = Some nt) by (cbn; now rewrite !lookup_insert_ne by congruence).
    rewrite (upd_node_eq r _ x2 nt E2). eexists. split; [reflexivity|]. cbn [x_heap x2 x1 set_x_heap].
    split; [rewrite lookup_insert_ne, lookup_insert_eq by congruence; now rewrite Hnx|]. split; [apply lookup_insert_eq|].
    split; [done|]. intros q H1 H2 _. now rewrite !lookup_insert_ne by congruence.
  - rewrite (proj2 (Z.eqb_neq (next nt) NULL)) by exact Hx. cbn [negb].
    assert (E1x : x_heap x1 !! next nt = Some nn) by (cbn; now rewrite lookup_insert_ne by congruence).
    rewrite (upd_node_then (next nt) _ _ x1 nn E1x). set (x2 := set_x_heap _ x1).
    assert (E2 : x_heap x2 !! r = Some nt) by (cbn; now rewrite !lookup_insert_ne by congruence).
    rewrite (upd_node_eq r _ x2 nt E2). eexists. split; [reflexivity|]. cbn [x_heap x2 x1 set_x_heap].
    split; [rewrite !lookup_insert_ne, lookup_insert_eq by congruence; reflexivity|]. split; [apply lookup_insert_eq|]. split.
    + intros n _ Hn. rewrite lookup_insert_ne, lookup_insert_eq by congruence. congruence.
    + intros q H1 H2 [H3|H3]; [|done]. now rewrite !lookup_insert_ne by congruence.
Qed.

(** The first child of a node is taken away. *)
Lemma remove_first x par prv nxt p v t ts :
  NoDup (ptrs (PT p v (t :: ts))) -> rep (x_heap x) par prv nxt (PT p v (t :: ts)) ->
  exists h, mxmlRemove (root t) x = Ret tt (set_x_heap h x)
    /\ rep h par prv nxt (PT p v ts) /\ rep h NULL NULL NULL t
    /\ (forall q, q ∉ ptrs (PT p v (t :: ts)) -> h !! q = x_heap x !! q).
Proof.
  intros N R. rewrite ptrs_eq in *. change (all_ptrs (t :: ts)) with (ptrs t ++ all_ptrs ts) in *.
  rewrite rep_eq in R. destruct R as (Hp & (rc & Ep) & [Rt Sts]). apply NoDup_cons in N as [Np N]. apply NoDup_app in N as (Nt & Nts & N).
  destruct (rep_root _ _ _ _ _ Rt) as (Hr & rct & Et). set (nt := mkNode _ _ _ _ _ _ _) in Et.
  assert (Hrp : root t <> p) by (intros E; apply Np; rewrite <- E; apply elem_of_app; left; apply root_in_ptrs).
  assert (Hnx : ts <> [] -> first NULL ts ∈ all_ptrs ts /\ first NULL ts <> NULL /\ is_Some (x_heap x !! first NULL ts)).
  { intros Hts. destruct ts as [|u ts]; [done|]. destruct Sts as [Ru _]. destruct (rep_root _ _ _ _ _ Ru) as (Hu & rcu & Eu).
    split; [|split; [exact Hu|eauto]]. change (all_ptrs (u :: ts)) with (ptrs u ++ all_ptrs ts). apply elem_of_app. left. apply root_in_ptrs. }
  assert (Hin : forall q, q ∈ all_ptrs ts -> q <> root t /\ q <> p).
  { intros q Hq. split; intros ->; [apply (Nts _ (root_in_ptrs t) Hq)|apply Np, elem_of_app; now right]. }
  destruct (unlink_first x p (root t) _ nt Ep Et Hp Hr Hrp eq_refl eq_refl) as (h & E & Hhp & Hhr & Hhx & Hho).
  { change (next nt) with (first NULL ts). destruct (list_eq_nil_dec ts) as [->|Hts]; [now left|right].
    destruct (Hnx Hts) as (Hi & Hx & Hs). destruct (Hin _ Hi). auto. }
  change (next nt) with (first NULL ts) in *. exists h. split; [exact E|].
  assert (Hot : forall q, q <> p -> q <> root t -> (q ∈ all_ptrs ts -> q <> first NULL ts) -> h !! q = x_heap x !! q).
  { intros q H1 H2 H3. apply Hho; [done|done|]. destruct (list_eq_nil_dec ts) as [->|Hts]; [now right|left].
    intros ->. now apply H3; [apply Hnx|]. }
  assert (Hop : forall q, q ∈ ptrs t -> q <> root t -> h !! q = x_heap x !! q).
  { intros q Hq Hqr. apply Hot; [intros ->; apply Np, elem_of_app; now left|exact Hqr|]. intros Hi. destruct (Nts q Hq Hi). }
  split; [|split].
  - rewrite rep_eq. split; [exact Hp|]. split.
    + exists rc. rewrite Hhp. destruct (list_eq_nil_dec ts) as [->|Hts]; [done|].
      rewrite (proj2 (Z.eqb_neq _ _)) by apply (Hnx Hts). destruct ts; [done|reflexivity].
    + apply (seg_prev (x_heap x) h p (root t) ts NULL N Sts); [intros q Hq Hne; destruct (Hin q Hq); now apply Hot|].
      intros n Hn Hts. apply Hhx; [now apply Hnx|exact Hn].
  - destruct t as [r' vt us]. cbn [root] in *. rewrite rep_eq in Rt |- *. destruct Rt as (_ & _ & Su). split; [exact Hr|].
    split; [exists rct; exact Hhr|]. rewrite ptrs_eq in Nt, Hop. apply NoDup_cons in Nt as [Nr _].
    apply (seg_frame (x_heap x)); [|exact Su]. intros q Hq. apply Hop; [now right|]. intros ->. exact (Nr Hq).
  - intros q Hq. rewrite elem_of_cons, elem_of_app in Hq. apply Hot; [tauto|intros ->; apply Hq; right; left; apply root_in_ptrs|tauto].
Qed.

(** The last child [n] of [q], which has no children, is unlinked. *)
Lemma unlink_last x q n nq nn :
  x_heap x !! q = Some nq -> x_heap x !! n = Some nn -> q <> NULL -> n <> NULL -> n <> q ->
  parent nn = q -> next nn = NULL ->
  (prev nn = NULL \/ prev nn <> NULL /\ prev nn <> n /\ prev nn <> q /\ is_Some (x_heap x !! prev nn)) ->
  exists h, mxmlRemove n x = Ret tt (set_x_heap h x)
    /\ h !! q = Some (set_last_child (prev nn) ((if prev nn =? NULL then set_child NULL else id) nq))
    /\ h !! n = Some (set_next NULL (set_prev NULL (set_parent NULL nn)))
    /\ (forall m, prev nn <> NULL -> x_heap x !! prev nn = Some m -> h !! prev nn = Some (set_next NULL m))
    /\ (forall p, p <> q -> p <> n -> p <> prev nn \/ prev nn = NULL -> h !! p = x_heap x !! p).
Proof.
  intros Eq En Hq Hn Hnq Hpar Hnxt Hpv. unfold mxmlRemove. rewrite (proj2 (Z.eqb_neq n NULL)) by exact Hn.
  rewrite (node_at_then n _ x nn En), Hpar, Hnxt, (proj2 (Z.eqb_neq q NULL)) by exact Hq. destruct Hpv as [Hpv|(Hp & Hpn & Hpq & nl & El)].
  - rewrite Hpv. change (NULL =? NULL) with true. cbn [negb]. rewrite (upd_node_then q _ _ x nq Eq). set (x1 := set_x_heap _ x).
    assert (E1 : x_heap x1 !! n = Some nn) by (cbn; now rewrite lookup_insert_ne by congruence).
    rewrite (node_at_then n _ x1 nn E1), Hpar, Hnxt. change (NULL =? NULL) with true. cbn [negb].
    rewrite (upd_node_then q _ _ x1 _ (lookup_insert_eq _ _ _)). set (x2 := set_x_heap _ x1).
    assert (E2 : x_heap x2 !! n = Some nn) by (cbn; now rewrite !lookup_insert_ne by congruence).
    rewrite (upd_node_eq n _ x2 nn E2). eexists. split; [reflexivity|]. cbn [x_heap x2 x1 set_x_heap].
    split; [rewrite lookup_insert_ne, lookup_insert_eq by congruence; now rewrite Hpv|]. split; [apply lookup_insert_eq|].
    split; [done|]. intros p H1 H2 _. now rewrite !lookup_insert_ne by congruence.
  - rewrite (proj2 (Z.eqb_neq (prev nn) NULL)) by exact Hp. cbn [negb]. rewrite (upd_node_then (prev nn) _ _ x nl El). set (x1 := set_x_heap _ x).
    assert (E1 : x_heap x1 !! n = Some nn) by (cbn; now rewrite lookup_insert_ne by congruence).
    rewrite (node_at_then n _ x1 nn E1), Hpar, Hnxt. change (NULL =? NULL) with true. cbn [negb].
    assert (E1q : x_heap x1 !! q = Some nq) by (cbn; now rewrite lookup_insert_ne by congruence).
    rewrite (upd_node_then q _ _ x1 nq E1q). set (x2 := set_x_heap _ x1).
    assert (E2 : x_heap x2 !! n = Some nn) by (cbn; now rewrite !lookup_insert_ne by congruence).
    rewrite (upd_node_eq n _ x2 nn E2). eexists. split; [reflexivity|]. cbn [x_heap x2 x1 set_x_heap].
    split; [rewrite lookup_insert_ne, lookup_insert_eq by congruence; reflexivity|]. split; [apply lookup_insert_eq|]. split.
    + intros m _ Hm. rewrite !lookup_insert_ne, lookup_insert_eq by congruence. congruence.
    + intros p H1 H2 [H3|H3]; [|done]. now rewrite !lookup_insert_ne by congruence.
Qed.

(** Deleting a node without children, once it is unlinked. *)
Lemma delete_leaf x n h m :
  mxmlRemove n x = Ret tt (set_x_heap h x) -> n <> NULL -> h !! n = Some m -> child m = NULL -> undestroyed (value m) = true ->
  mxmlDelete destroy_cb n x = Ret tt (set_x_heap (delete n h) x).
Proof.
  intros E Hn Hm Hc Pv. unfold mxmlDelete. erewrite bind_Ret by reflexivity. rewrite delete_node_eq, (proj2 (Z.eqb_neq n NULL)) by exact Hn.
  rewrite (bind_Ret _ _ _ _ _ E). unfold delete_rest. set (x1 := set_x_heap h x). cbn [delete_children].
  rewrite bind_assoc, (node_at_then n _ x1 _ Hm), Hc. change (NULL =? NULL) with true. cbn match.
  rewrite bind_ret_l, (node_at_then n _ x1 _ Hm).
  destruct (value m) as [| | | | | |data destroy]; try (rewrite bind_ret_l; unfold free_node; now rewrite (node_at_then n _ x1 _ Hm)).
  cbn [undestroyed] in Pv. rewrite <- negb_orb, Pv. cbn [negb when]. rewrite bind_ret_l. unfold free_node. now rewrite (node_at_then n _ x1 _ Hm).
Qed.

(** Deleting a leaf that has just been added. *)
Lemma delete_last x par prv nxt q v ts n nv :
  wf x par prv nxt (PT q v (ts ++ [PT n nv []])) -> undestroyed nv = true ->
  exists h, mxmlDelete destroy_cb n x = Ret tt (set_x_heap h x)
    /\ edit x (set_x_heap h x) (PT q v (ts ++ [PT n nv []])) (PT q v ts).
Proof.
  intros W Pv. pose proof (wf_node _ _ _ _ _ _ _ W) as (Hq & rc & Eq). set (nq := mkNode _ _ _ _ _ _ _) in Eq.
  pose proof (wf_child _ _ _ _ _ _ ts (PT n nv []) [] W) as Wn. pose proof (wf_node _ _ _ _ _ _ _ Wn) as (Hn & rcn & En). set (nn := mkNode _ _ _ _ _ _ _) in En.
  destruct W as [B N R]. rewrite ptrs_eq, all_ptrs_app, all_ptrs_one, ptrs_eq in N. change (all_ptrs []) with (@nil Z) in N.
  apply NoDup_cons in N as [Nq N]. apply NoDup_app in N as (Nt & Ntn & _).
  assert (Hnq : n <> q) by (intros ->; apply Nq, elem_of_app; right; left).
  assert (Hnt : n ∉ all_ptrs ts) by (intros H; apply (Ntn n H); left).
  assert (Hqt : q ∉ all_ptrs ts) by (intros H; apply Nq, elem_of_app; now left).
  rewrite rep_eq in R. destruct R as (_ & _ & S). apply seg_app in S as [S _]. cbn [first root] in S. set (l := final NULL ts) in *.
  assert (Hl : ts <> [] -> l ∈ all_ptrs ts /\ l <> NULL /\ is_Some (x_heap x !! l)).
  { intros Hts. pose proof (final_in ts Hts) as Hi. split; [exact Hi|].
    apply seg_Forall in S. clear -S Hi. unfold all_ptrs in Hi. fold l in Hi. apply list_elem_of_In, in_concat in Hi as (ps & Hps & Hi).
    apply in_map_iff in Hps as (t & <- & Ht). rewrite List.Forall_forall in S. destruct (S t Ht) as (a & b & R). apply list_elem_of_In in Hi.
    exact (rep_dom _ _ _ _ _ _ R Hi). }
  destruct (unlink_last x q n nq nn Eq En Hq Hn Hnq eq_refl eq_refl) as (h & E & Hhq & Hhn & Hhl & Hho).
  { change (prev nn) with l. destruct (list_eq_nil_dec ts) as [Ets|Hts]; [left; unfold l; now rewrite Ets|right].
    destruct (Hl Hts) as (Hi & H1 & H2). split; [exact H1|]. split; [intros ->; exact (Hnt Hi)|]. split; [intros ->; exact (Hqt Hi)|exact H2]. }
  change (prev nn) with l in *. exists (delete n h).
  assert (Ed : mxmlDelete destroy_cb n x = Ret tt (set_x_heap (delete n h) x)).
  { now apply (delete_leaf x n h _ E Hn Hhn). }
  split; [exact Ed|]. set (x' := set_x_heap (delete n h) x).
  assert (Fr : forall p, p <> q -> p <> n -> (p ∈ all_ptrs ts -> p <> l) -> x_heap x' !! p = x_heap x !! p).
  { intros p H1 H2 H3. cbn. rewrite lookup_delete_ne by congruence. apply Hho; [done|done|]. destruct (list_eq_nil_dec ts) as [Ets|Hts].
    - right. unfold l. now rewrite Ets.
    - left. intros ->. apply H3; [now apply Hl|done]. }
  split; [|done| | |cbn; lia].
  - intros par' prv' nxt' [B' N' R']. split.
    + destruct B as [B1 B2]. split; [exact B1|]. intros p [m Hp]. cbn in Hp. apply B2. destruct (decide (p = n)) as [->|]; [eauto|].
      destruct (decide (p = q)) as [->|]; [eauto|]. destruct (decide (p = l /\ ts <> [])) as [[-> Hts]|Hno]; [now apply Hl|].
      rewrite lookup_delete_ne in Hp by congruence. rewrite Hho in Hp; [eauto|done|done|].
      destruct (list_eq_nil_dec ts) as [Ets|Hts]; [right; unfold l; now rewrite Ets|left; intros ->; now apply Hno].
    + rewrite ptrs_eq. now apply NoDup_cons.
    + rewrite rep_eq in R' |- *. destruct R' as (_ & (rc' & E') & _). split; [exact Hq|]. split.
      * exists rc'. cbn. rewrite lookup_delete_ne, Hhq by congruence. rewrite Eq in E'. injection E' as <- <- <- <-.
        unfold nq. destruct (list_eq_nil_dec ts) as [Ets|Hts].
        -- unfold l. rewrite Ets. reflexivity.
        -- rewrite (proj2 (Z.eqb_neq l NULL)) by now apply Hl. destruct ts; [done|reflexivity].
      * apply (seg_next (x_heap x) _ _ _ _ n); [exact Nt|exact S| |].
        -- intros p Hp Hpl. apply Fr; [congruence|congruence|done].
        -- intros m Hm Hts. fold l in Hm |- *. cbn. rewrite lookup_delete_ne by (intros ->; now apply Hnt, Hl). apply Hhl; [now apply Hl|exact Hm].
  - intros p Hp _. rewrite ptrs_eq, all_ptrs_app, all_ptrs_one, ptrs_eq in Hp. rewrite elem_of_cons, elem_of_app, elem_of_cons in Hp.
    apply Fr; [tauto|tauto|]. intros Hi. tauto.
  - intros p Hp. left. rewrite ptrs_eq in *. rewrite all_ptrs_app. apply elem_of_cons in Hp as [->|Hp]; [left|right; apply elem_of_app; now left].
Qed.

(** The nodes [ps] are gone, and the other ones but [p] are as they were. *)
Definition freed (ps : list Z) (p : Z) (h h' : gmap Z mxml_node_t) : Prop :=
  (forall q, q ∈ ps -> h' !! q = None) /\ (forall q, q ∉ ps -> q <> p -> h' !! q = h !! q).

Lemma length_all_ptrs ts : (length ts <= length (all_ptrs ts))%nat.
Proof.
  induction ts as [|[q v us] ts IH]; [done|]. change (all_ptrs (PT q v us :: ts)) with (ptrs (PT q v us) ++ all_ptrs ts).
  rewrite ptrs_eq, length_app. cbn [length]. lia.
Qed.

(** What deleting a tree that has no parent comes to. *)
Definition deletes (t : ptree) : Prop := forall fuel x,
  NoDup (ptrs t) -> rep (x_heap x) NULL NULL NULL t -> plain t = true -> (length (ptrs t) <= S fuel)%nat ->
  exists h, delete_rest fuel (root t) x = Ret tt (set_x_heap h x) /\ freed (ptrs t) (root t) (x_heap x) h.

Lemma delete_children_frees p v ts fuel :
  Forall deletes ts -> forall x n, NoDup (ptrs (PT p v ts)) -> rep (x_heap x) NULL NULL NULL (PT p v ts) ->
  forallb plain ts = true -> (length ts < n)%nat -> (length (all_ptrs ts) <= fuel)%nat ->
  exists h, delete_children n (delete_node destroy_cb fuel) p x = Ret tt (set_x_heap h x)
    /\ rep h NULL NULL NULL (PT p v []) /\ freed (all_ptrs ts) p (x_heap x) h.
Proof.
  intros D. induction D as [|t ts Dt _ IH]; intros x n N R P Hn Hf; (destruct n as [|n]; [cbn in Hn; lia|]); cbn [delete_children].
  - pose proof R as R0. rewrite rep_eq in R0. destruct R0 as (Hp & (rc & E) & _). rewrite (node_at_then _ _ _ _ E). cbn [child first].
    change (NULL =? NULL) with true. exists (x_heap x). split; [now destruct x|]. split; [exact R|]. now split; [intros q Hq%elem_of_nil|].
  - destruct (remove_first x _ _ _ p v t ts N R) as (h1 & E1 & R1 & Rt & F1). cbn [forallb] in P. apply andb_prop in P as [Pt P].
    rewrite rep_eq in R. destruct R as (Hp & (rc & E) & [Rt0 _]). rewrite (node_at_then _ _ _ _ E). cbn [child first].
    destruct (rep_root _ _ _ _ _ Rt0) as (Hr & _). rewrite (proj2 (Z.eqb_neq (root t) NULL)) by exact Hr.
    rewrite ptrs_eq in N, F1. change (all_ptrs (t :: ts)) with (ptrs t ++ all_ptrs ts) in *.
    apply NoDup_cons in N as [Np N]. apply NoDup_app in N as (Nt & Nts & N). rewrite length_app in Hf.
    assert (L1 : (1 <= length (ptrs t))%nat) by (destruct t; rewrite ptrs_eq; cbn; lia).
    destruct fuel as [|fuel]; [lia|]. destruct (Dt fuel (set_x_heap h1 x) Nt Rt Pt ltac:(lia)) as (h2 & E2 & G2 & F2).
    rewrite (bind_Ret _ _ _ tt (set_x_heap h2 x)).
    2:{ rewrite delete_node_eq, (proj2 (Z.eqb_neq (root t) NULL)) by exact Hr. rewrite (bind_Ret _ _ _ _ _ E1), E2. reflexivity. }
    assert (K2 : forall q, q ∈ ptrs (PT p v ts) -> h2 !! q = h1 !! q).
    { intros q Hq. enough (Ht : q ∉ ptrs t) by (apply F2; [exact Ht|intros ->; apply Ht, root_in_ptrs]).
      intros Ht. rewrite ptrs_eq in Hq. apply elem_of_cons in Hq as [->|Hq].
      - apply Np, elem_of_app. now left.
      - exact (Nts q Ht Hq). }
    destruct (IH (set_x_heap h2 x) n) as (h3 & E3 & R3 & G3 & F3);
      [rewrite ptrs_eq; apply NoDup_cons; split; [intros H; apply Np, elem_of_app; now right|exact N]
      |exact (rep_frame h1 h2 _ _ _ _ K2 R1)|exact P|cbn in Hn; lia|lia|].
    exists h3. split; [exact E3|]. split; [exact R3|]. split.
    + intros q [Hq|Hq]%elem_of_app; [|now apply G3]. rewrite F3; [now apply G2|exact (Nts q Hq)|]. intros ->. apply Np, elem_of_app. now left.
    + intros q Hq Hqp. rewrite elem_of_app in Hq. rewrite F3; [|tauto|done]. cbn.
      rewrite F2; [|tauto|intros ->; apply Hq; left; apply root_in_ptrs]. apply F1. rewrite elem_of_cons, elem_of_app. tauto.
Qed.

Lemma delete_rest_frees t : deletes t.
Proof.
  induction t as [p v ts IH] using ptree_ind'. intros fuel x N R P Hf. cbn [root plain] in *. apply andb_prop in P as [Pv P].
  rewrite ptrs_eq in Hf. cbn [length] in Hf. pose proof (length_all_ptrs ts) as L.
  destruct (delete_children_frees p v ts fuel IH x (S fuel) N R P) as (h & E & Rh & G & F); [lia|lia|].
  rewrite rep_eq in Rh. destruct Rh as (Hp & (rc & En) & _). exists (delete p h). split.
  - unfold delete_rest. rewrite (bind_Ret _ _ _ _ _ E), (node_at_then p _ (set_x_heap h x) _ En). cbn [value].
    erewrite bind_Ret; [unfold free_node; rewrite (node_at_then p _ (set_x_heap h x) _ En); reflexivity|].
    destruct v as [| | | | | |data destroy]; try reflexivity. cbn [undestroyed] in Pv. rewrite <- negb_orb, Pv. reflexivity.
  - rewrite ptrs_eq in *. apply NoDup_cons in N as [Np N]. split.
    + intros q [->|Hq]%elem_of_cons; [apply lookup_delete_eq|]. rewrite lookup_delete_ne by (intros ->; contradiction). now apply G.
    + intros q Hq Hqp. rewrite lookup_delete_ne by done. apply F; [|done]. intros H. apply Hq. now right.
Qed.

(** [mxmlDelete] of the root of a tree frees each of its nodes, and no other one. *)
Lemma delete_tree x t :
  wf x NULL NULL NULL t -> plain t = true ->
  exists h, mxmlDelete destroy_cb (root t) x = Ret tt (set_x_heap h x)
    /\ (forall q, q ∈ ptrs t -> h !! q = None) /\ (forall q, q ∉ ptrs t -> h !! q = x_heap x !! q).
Proof.
  intros [B N R] P. destruct (rep_root _ _ _ _ _ R) as (Hr & rc & E).
  pose proof (nodup_heap _ _ N (fun q Hq => proj2 (rep_dom _ _ _ _ _ q R Hq))) as L.
  destruct (delete_rest_frees t (size (x_heap x)) x N R P) as (h & Ed & G & F); [lia|]. exists h. split; [|split; [exact G|]].
  - unfold mxmlDelete. erewrite bind_Ret by reflexivity. rewrite delete_node_eq, (proj2 (Z.eqb_neq _ _)) by exact Hr.
    erewrite bind_Ret; [exact Ed|]. unfold mxmlRemove. rewrite (proj2 (Z.eqb_neq _ _)) by exact Hr.
    rewrite (node_at_then _ _ _ _ E). reflexivity.
  - intros q Hq. apply F; [exact Hq|]. intros ->. apply Hq, root_in_ptrs.
Qed.

(** C23: a tree is freed when its last reference is released: [mxmlRelease] of the root of a
    tree returns 0 and frees every node of the tree, each once and no other node, when one
    reference is left; with more of them it returns how many are left and only counts down.
    Deleting terminates for a tree of any shape. *)
Theorem mxmlRelease_correct x t n :
  wf x NULL NULL NULL t -> plain t = true -> x_heap x !! root t = Some n -> 1 <= ref_count n <= INT_MAX ->
  exists h, mxmlRelease destroy_cb (root t) x = Ret (ref_count n - 1) (set_x_heap h x)
    /\ if ref_count n =? 1 then freed (ptrs t) (root t) (x_heap x) h
       else h = <[root t := set_ref_count (ref_count n - 1) n]> (x_heap x).
Proof.
  intros W P Hn Hrc. destruct (rep_root _ _ _ _ _ (wf_rep _ _ _ _ _ W)) as (Hr & _). unfold INT_MAX in Hrc.
  unfold mxmlRelease. rewrite (proj2 (Z.eqb_neq _ _) Hr), (upd_node_then _ _ _ _ _ Hn).
  set (n' := set_ref_count _ n). set (x1 := set_x_heap _ x).
  rewrite (node_at_then (root t) _ x1 n' (lookup_insert_eq _ _ _)). cbn [ref_count n' set_ref_count]. rewrite i32_id by lia.
  destruct (Z.eqb_spec (ref_count n) 1) as [E|E].
  - rewrite (proj2 (Z.leb_le _ 0)) by lia. destruct (delete_tree x1 t (recount_wf x t n n' W Hn eq_refl) P) as (h & Ed & G & F).
    exists h. split; [rewrite (bind_Ret _ _ _ _ _ Ed), E; reflexivity|]. split; [exact G|].
    intros q Hq Hqr. rewrite (F q Hq). cbn. now rewrite lookup_insert_ne by congruence.
  - rewrite (proj2 (Z.leb_gt _ 0)) by lia. exists (x_heap x1). split; [done|]. cbn. unfold n'. now rewrite i32_id by lia.
Qed.
End Deleting.

(** *** An example: an element with a text *)

Definition demo_tree : ptree := PT 1 (Element (Some (str "a")) []) [PT 2 (Text 0 (Some (str "b"))) []].
Definition demo_xml : xml :=
  mkXml (<[1 := mkNode 0 0 0 2 2 (Element (Some (str "a")) []) 1]> {[2 := mkNode 0 0 1 0 0 (Text 0 (Some (str "b"))) 1]}) 3 [] false 0 [].

Lemma demo_tree_wf : wf demo_xml NULL NULL NULL demo_tree.
Proof.
  split.
  - split; [done|]. intros p [n H]. cbn in H. apply lookup_insert_Some in H as [[<- _]|[_ H]]; [done|]. apply lookup_singleton_Some in H as [<- _]. done.
  - apply (bool_decide_unpack _). now vm_compute.
  - repeat (split; [first [done|now exists 1]|]). repeat (first [split|done|now exists 1]).
Qed.

Lemma mxmlRelease_correct_witness :
  exists h, mxmlRelease (fun _ _ => ret tt) 1 demo_xml = Ret 0 (set_x_heap h demo_xml) /\ h !! 1 = None /\ h !! 2 = None.
Proof.
  destruct (mxmlRelease_correct (fun _ _ => ret tt) demo_xml demo_tree _ demo_tree_wf eq_refl eq_refl) as (h & E & [G _]); [now vm_compute|].
  exists h. split; [exact E|]. split; apply G; cbn; rewrite !elem_of_cons; tauto.
Defined.
