(* ===== verification/Mxmlset.v ===== *)
(** * Setting values and formatted text: [mxml-set.c], [mxml-string.c]

    The functions of [src/dev/src/pubfun/xml] that change the value of a node, and those
    of [mxml-node.c] and [mxml-attr.c] that format a text.  A format with its arguments
    appears as the text it stands for. *)

From Stdlib Require Import ZArith Lia Bool List Ascii String.
From stdpp Require Import base list gmap.
From S2P Require Import Prelude Cstr Mxmltree.

(** ** Formatted text

    [_mxml_vstrdupf] formats into 256 bytes first.  A longer text is formatted again with
    the arguments that the first call has used up, which is undefined. *)

Definition _mxml_vstrdupf (text : bytes) : prog xml (option bytes) :=
  if Z.of_nat (length text) <? 256 then strdup text
  else let* ok := granted in if (ok : bool) then fault else ret None.

Definition cdata_text (data : bytes) : bytes := str "![CDATA[" ++ data ++ str "]]".

(** A new node with a formatted text. *)
Definition new_text_node (par : Z) (f : option bytes -> mxml_value_t) (text : bytes) : prog xml Z :=
  let* node := mxml_new par (f None) in
  if node =? NULL then ret NULL
  else let* d := _mxml_vstrdupf text in upd_node node (set_value (f d)) ;;; ret node.

Definition mxmlNewCDATA (par : Z) (data : option bytes) : prog xml Z :=
  match data with None => ret NULL | Some data => new_text_node par (fun d => Element d []) (cdata_text data) end.

Definition mxmlNewTextf (par whitespace : Z) (format : option bytes) : prog xml Z :=
  match format with None => ret NULL | Some text => new_text_node par (Text whitespace) text end.

Definition mxmlElementSetAttrf (node : Z) (name format : option bytes) : prog xml unit :=
  if node =? NULL then ret tt
  else
    let* n := node_at node in
    match value n, name, format with
    | Element e _, Some name, Some text =>
        let* d := _mxml_vstrdupf text in
        match d with
        | None => mxml_error (attr_error name e)
        | Some _ => mxml_set_attr node name d ;;; ret tt
        end
    | _, _, _ => ret tt
    end.

(** ** Setters *)

(** [f] gives the action for a value, unless it has the wrong type. *)
Definition set_node (node : Z) (f : mxml_value_t -> option (prog xml mxml_value_t)) : prog xml Z :=
  if node =? NULL then ret (-1)
  else
    let* n := node_at node in
    match f (value n) with
    | None => ret (-1)
    | Some m => let* v := m in upd_node node (set_value v) ;;; ret 0
    end.

Section Destroy.
Context (destroy_cb : Z -> Z -> prog xml unit).

Definition mxmlSetCustom (node data destroy : Z) : prog xml Z :=
  set_node node (fun v =>
    match v with
    | Custom old old_destroy => Some (when (negb (old =? NULL) && negb (old_destroy =? NULL)) (destroy_cb old_destroy old) ;;; ret (Custom data destroy))
    | _ => None
    end).
End Destroy.

(** Comparing the name of an element that has none is a fault. *)
Definition mxmlSetCDATA (node : Z) (data : option bytes) : prog xml Z :=
  set_node node (fun v =>
    match v, data with
    | Element (Some e) attrs, Some data =>
        if strneq 8 e (str "![CDATA[") then Some (let* d := _mxml_vstrdupf (cdata_text data) in ret (Element d attrs)) else None
    | Element None _, Some _ => Some fault
    | _, _ => None
    end).

Definition mxmlSetElement (node : Z) (name : option bytes) : prog xml Z :=
  set_node node (fun v =>
    match v, name with Element _ attrs, Some name => Some (let* d := strdup name in ret (Element d attrs)) | _, _ => None end).

Definition mxmlSetInteger (node integer : Z) : prog xml Z :=
  set_node node (fun v => match v with Integer _ => Some (ret (Integer integer)) | _ => None end).

Definition mxmlSetOpaque (node : Z) (opaque : option bytes) : prog xml Z :=
  set_node node (fun v =>
    match v, opaque with Opaque _, Some opaque => Some (let* d := strdup opaque in ret (Opaque d)) | _, _ => None end).

Definition mxmlSetReal (node real : Z) : prog xml Z :=
  set_node node (fun v => match v with Real _ => Some (ret (Real real)) | _ => None end).

Definition mxmlSetText (node whitespace : Z) (string : option bytes) : prog xml Z :=
  set_node node (fun v =>
    match v, string with Text _ _, Some string => Some (let* d := strdup string in ret (Text whitespace d)) | _, _ => None end).

(** A format without conversions: [None] when it takes an argument. *)
Fixpoint expand (format : bytes) : option bytes :=
  match format with
  | [] => Some []
  | "%"%char :: "%"%char :: s => cons "%"%char <$> expand s
  | "%"%char :: _ => None
  | c :: s => cons c <$> expand s
  end.

(** The list of arguments is passed where the first argument of the format is expected:
    only a format that takes none works. *)
Definition mxmlSetTextf (node whitespace : Z) (format : option bytes) : prog xml Z :=
  set_node node (fun v =>
    match v, format with
    | Text _ _, Some format =>
        Some (let* text := deref (expand format) in let* d := _mxml_vstrdupf text in ret (Text whitespace d))
    | _, _ => None
    end).

(** ** What they do *)

Lemma set_node_eq x par prv nxt p v ts f m v' :
  wf x par prv nxt (PT p v ts) -> f v = Some m -> m x = Ret v' x ->
  exists x', set_node p f x = Ret 0 x' /\ edit x x' (PT p v ts) (PT p v' ts) /\ same_vars x x'.
Proof.
  intros W E Em. destruct (wf_node _ _ _ _ _ _ _ W) as (Hp & rc & Hn). eexists. split; [|split; [exact (value_edit _ _ _ _ _ _ v' _ _ W Hn)|done]].
  unfold set_node. rewrite (proj2 (Z.eqb_neq p NULL) Hp), (node_at_then _ _ _ _ Hn). cbn [value]. rewrite E, (bind_Ret _ _ _ _ _ Em), (upd_node_then _ _ _ _ _ Hn). reflexivity.
Qed.

Lemma set_node_none x par prv nxt p v ts f : wf x par prv nxt (PT p v ts) -> f v = None -> set_node p f x = Ret (-1) x.
Proof.
  intros W E. destruct (wf_node _ _ _ _ _ _ _ W) as (Hp & rc & Hn). unfold set_node. rewrite (proj2 (Z.eqb_neq p NULL) Hp), (node_at_then _ _ _ _ Hn). cbn [value]. now rewrite E.
Qed.

(** The setters that take a string or a number. *)
Inductive setter := SetElement (name : bytes) | SetInteger (integer : Z) | SetOpaque (opaque : bytes) | SetReal (real : Z) | SetText (whitespace : Z) (string : bytes).

Definition run_setter (s : setter) (node : Z) : prog xml Z :=
  match s with
  | SetElement name => mxmlSetElement node (Some name)
  | SetInteger integer => mxmlSetInteger node integer
  | SetOpaque opaque => mxmlSetOpaque node (Some opaque)
  | SetReal real => mxmlSetReal node real
  | SetText whitespace string => mxmlSetText node whitespace (Some string)
  end.

Definition new_value (s : setter) (v : mxml_value_t) : option mxml_value_t :=
  match s, v with
  | SetElement name, Element _ attrs => Some (Element (Some name) attrs)
  | SetInteger integer, Integer _ => Some (Integer integer)
  | SetOpaque opaque, Opaque _ => Some (Opaque (Some opaque))
  | SetReal real, Real _ => Some (Real real)
  | SetText whitespace string, Text _ _ => Some (Text whitespace (Some string))
  | _, _ => None
  end.

(** A setter replaces the value of a node of its type, and leaves the rest of the tree;
    on any other node it fails and changes nothing. *)
Theorem setters_correct s x par prv nxt p v ts :
  wf x par prv nxt (PT p v ts) -> x_allocs x = [] ->
  match new_value s v with
  | Some v' => exists x', run_setter s p x = Ret 0 x' /\ edit x x' (PT p v ts) (PT p v' ts) /\ same_vars x x'
  | None => run_setter s p x = Ret (-1) x
  end.
Proof.
  intros W Hal. destruct s, v; cbn [new_value run_setter]; (apply (set_node_none _ _ _ _ _ _ _ _ W); reflexivity) || (eapply (set_node_eq _ _ _ _ _ _ _ _ _ _ W); [reflexivity|]);
    (reflexivity || now rewrite (bind_Ret _ _ _ _ _ (strdup_eq _ x Hal))).
Qed.

(** A formatted text of 256 bytes or more is not handled: an attribute of that length
    makes the program use a list of arguments twice. *)
Theorem long_text_faults x par prv nxt p e attrs ts name text :
  wf x par prv nxt (PT p (Element e attrs) ts) -> x_allocs x = [] -> (256 <= length text)%nat ->
  mxmlElementSetAttrf p (Some name) (Some text) x = Fault.
Proof.
  intros W Hal L. destruct (wf_node _ _ _ _ _ _ _ W) as (Hp & rc & Hn). unfold mxmlElementSetAttrf.
  rewrite (proj2 (Z.eqb_neq p NULL) Hp), (node_at_then _ _ _ _ Hn). cbn [value]. unfold _mxml_vstrdupf. rewrite (proj2 (Z.ltb_ge _ 256)) by lia.
  now rewrite bind_assoc, (bind_Ret _ _ _ _ _ (granted_eq x Hal)).
Qed.

(** A shorter one is set as it is. *)
Theorem short_text_set x par prv nxt p e attrs ts name text :
  wf x par prv nxt (PT p (Element e attrs) ts) -> x_allocs x = [] -> (length text < 256)%nat ->
  mxmlElementSetAttrf p (Some name) (Some text) x = mxmlElementSetAttr p (Some name) (Some text) x.
Proof.
  intros W Hal L. destruct (wf_node _ _ _ _ _ _ _ W) as (Hp & rc & Hn). unfold mxmlElementSetAttrf, mxmlElementSetAttr, _mxml_vstrdupf.
  rewrite (proj2 (Z.eqb_neq p NULL) Hp), !(node_at_then _ _ _ _ Hn), (proj2 (Z.ltb_lt _ 256)) by lia. cbn [value].
  now rewrite !(bind_Ret _ _ _ _ _ (strdup_eq text x Hal)).
Qed.

Example formats : expand (str "100%%") = Some (str "100%") /\ expand (str "%d") = None.
Proof. now split. Qed.
