(* ===== verification/Xml.v ===== *)
(** * The XML wrapper: [src/dev/src/pubfun/xml/xml.c]

    The document of a process and the calls that write and read it: single fields under
    [<Message><Public>], and lists of records under [<Message><RecordSet>].  The strings
    passed are C strings; texts are formatted into [l_sXmlError], where one that does not
    fit is a fault.  [XmlSaveString] and [XmlShow]
    are in [Mxmlsave], [XmlLoadString] is in [Mxmlload]. *)

From Stdlib Require Import ZArith Lia Bool List Ascii String.
From stdpp Require Import base list gmap strings.
From S2P Require Import Prelude Cstr Mxmltree.

(** ** Errors *)

Definition XmlSetError (msg : bytes) : prog xml unit :=
  let* buf := get l_sXmlError in
  let* buf := deref (st 0 (str "error: " ++ [NUL]) buf) in
  let* buf := deref (st 7 (msg ++ [NUL]) buf) in
  modify (set_l_sXmlError buf).

Definition XmlError : prog xml bytes := get l_sXmlError.
Definition XmlPointer : prog xml Z := get l_pIntXml.

Definition mxmlSetErrorCallback (cb : bool) : prog xml unit := modify (set_x_callback cb).

(** [k] runs on the result; without one the call returns [r]. *)
Definition or_return {A B} (r : B) (m : prog xml (option A)) (k : A -> prog xml B) : prog xml B :=
  let* o := m in match o with None => ret r | Some a => k a end.

(** The texts. *)
Definition quoted (s : bytes) : bytes := [QUOTE] ++ s ++ [QUOTE].
Definition unable_to_find (what : bytes) : bytes := str "Unable to find <" ++ what ++ str "> element in XML tree!".
Definition unable_to_add (what : bytes) : bytes := str "Unable to add <" ++ what ++ str "> element in XML tree!".
Definition no_value (tag : bytes) : bytes := str "<" ++ tag ++ str "> element 'value' attribute not exists!".

(** [if( node == NULL ) { XmlSetError( msg ); return (-1); }]. *)
Definition not_null (msg : bytes) (node : Z) : prog xml (option Z) :=
  if node =? NULL then XmlSetError msg ;;; ret None else ret (Some node).

(** ** Finding and adding elements *)

(** What an element is looked up by: its name, and for some an attribute. *)
Inductive key :=
  | Tag (name : bytes)
  | RecordSet (name : bytes)
  | Record_ (sRecID : bytes).

Definition key_name (k : key) : bytes :=
  match k with Tag name => name | RecordSet _ => str "RecordSet" | Record_ _ => str "Record" end.

Definition key_attr (k : key) : option (bytes * bytes) :=
  match k with Tag _ => None | RecordSet name => Some (str "name", name) | Record_ id => Some (str "RecID", id) end.

Definition find_key (tree : Z) (k : key) : prog xml Z :=
  mxmlFindElement tree tree (Some (key_name k)) (fst <$> key_attr k) (snd <$> key_attr k) MXML_DESCEND_FIRST.

(** Text of the element in an error message. *)
Definition key_text (k : key) : bytes :=
  match k with
  | Tag name => name
  | RecordSet name => str "RecordSet name=" ++ quoted name
  | Record_ id => str "Record RecID=" ++ quoted id
  end.

Definition find (tree : Z) (k : key) : prog xml (option Z) :=
  let* node := find_key tree k in not_null (unable_to_find (key_text k)) node.

Definition find_or_add (tree : Z) (k : key) : prog xml (option Z) :=
  let* node := find_key tree k in
  if node =? NULL then
    let* node := mxmlNewElement tree (Some (key_name k)) in
    or_return None (not_null (unable_to_add (key_name k)) node) (fun node =>
    match key_attr k with
    | Some (attr, v) => mxmlElementSetAttr node (Some attr) (Some v)
    | None => ret tt
    end ;;;
    ret (Some node))
  else ret (Some node).

Definition find_message : prog xml (option Z) :=
  let* tree := get l_pIntXml in find tree (Tag (str "Message")).

Definition find_public : prog xml (option Z) :=
  or_return None find_message (fun tree => find tree (Tag (str "Public"))).

(** [sprintf( buf, "%d", n )] into eleven bytes, whose contents before do not matter. *)
Definition sprintf_d (n : Z) : prog xml bytes :=
  let* buf := deref (st 0 (fmt_d n ++ [NUL]) (zeros 11)) in ret (cstr buf).

(** The [value] attribute of an element. *)
Definition value_of (psTagName : bytes) (node : Z) : prog xml (option bytes) :=
  let* psAttrValue := mxmlElementGetAttr node (Some (str "value")) in
  match psAttrValue with
  | None => XmlSetError (no_value psTagName) ;;; ret None
  | Some v => ret (Some v)
  end.

Definition tag_value (psTagName : bytes) : prog xml (option bytes) :=
  or_return None find_public (fun tree =>
  or_return None (find tree (Tag psTagName)) (value_of psTagName)).

(** The end of [XmlGet] and [XmlFetchList]; the sizes are [size_t]. *)
Definition copy_value (nBuffSize : Z) (psData psAttrValue : bytes) : prog xml (Z * bytes) :=
  let n := Z.of_nat (length psAttrValue) in
  let* part := deref (ld 0 (if u64 nBuffSize <=? n then u64 (nBuffSize - 1) else n) (psAttrValue ++ [NUL])) in
  let* psData := deref (st 0 part psData) in
  ret (i32 n, psData).

(** ** The calls *)

Section Init.
Context (destroy_cb : Z -> Z -> prog xml unit).

Definition version : bytes :=
  str "?xml version=" ++ quoted (str "1.0") ++ [SP] ++ quoted (str "encoding") ++ str "=" ++ quoted (str "GB18030") ++ str "?".

(** [XmlInit] after the old document is gone. *)
Definition new_document : prog xml Z :=
  let* root := mxmlNewElement NULL (Some version) in
  modify (set_l_pIntXml root) ;;;
  if root =? NULL then XmlSetError (str "Unable to initialize XML tree!") ;;; ret (-1)
  else
    let* node := mxmlNewElement root (Some (str "Message")) in
    if node =? NULL then
      mxmlDelete destroy_cb root ;;; XmlSetError (unable_to_add (str "Message")) ;;; ret (-1)
    else
      let* node := mxmlNewElement node (Some (str "Public")) in
      if node =? NULL then
        mxmlDelete destroy_cb root ;;; XmlSetError (unable_to_add (str "Public")) ;;; ret (-1)
      else ret 0.

Definition XmlInit : prog xml Z :=
  mxmlSetErrorCallback true ;;;
  let* old := get l_pIntXml in
  when (negb (old =? NULL)) (mxmlDelete destroy_cb old) ;;;
  new_document.

Definition XmlFree : prog xml unit :=
  let* root := get l_pIntXml in mxmlDelete destroy_cb root ;;; modify (set_l_pIntXml NULL).
End Init.

(** The result and the buffer. *)
Definition XmlGet (psTagName psData : bytes) (nBuffSize : Z) : prog xml (Z * bytes) :=
  let* psData := deref (st 0 (zeros (u64 nBuffSize)) psData) in
  or_return (-1, psData) (tag_value psTagName) (copy_value nBuffSize psData).

(** The result and [*pnData]. *)
Definition XmlIntGet (psTagName : bytes) (pnData : Z) : prog xml (Z * Z) :=
  or_return (-1, pnData) (tag_value psTagName) (fun psAttrValue => ret (0, atoi psAttrValue)).

Definition XmlSet (psTagName : bytes) (psData : option bytes) : prog xml Z :=
  or_return (-1) find_public (fun tree =>
  or_return (-1) (find_or_add tree (Tag psTagName)) (fun node =>
  mxmlElementSetAttr node (Some (str "value")) psData ;;; ret 0)).

Definition XmlCharSet (psTagName : bytes) (cData : ascii) : prog xml Z :=
  or_return (-1) find_public (fun tree =>
  or_return (-1) (find_or_add tree (Tag psTagName)) (fun node =>
  mxmlElementSetAttr node (Some (str "value")) (Some (cstr [cData; NUL])) ;;; ret 0)).

Definition XmlIntSet (psTagName : bytes) (nData : Z) : prog xml Z :=
  or_return (-1) find_public (fun tree =>
  or_return (-1) (find_or_add tree (Tag psTagName)) (fun node =>
  let* sData := sprintf_d nData in
  mxmlElementSetAttr node (Some (str "value")) (Some sData) ;;; ret 0)).

(** The element of a list of records. *)
Definition list_node (psRecordSetName : bytes) (nRecID : Z) (psEmName : bytes) : prog xml (option Z) :=
  or_return None find_message (fun tree =>
  or_return None (find_or_add tree (RecordSet psRecordSetName)) (fun recordset =>
  let* sRecID := sprintf_d nRecID in
  or_return None (find_or_add recordset (Record_ sRecID)) (fun record =>
  find_or_add record (Tag psEmName)))).

Definition XmlAddList (psRecordSetName : bytes) (nRecID : Z) (psEmName : bytes) (psData : option bytes) : prog xml Z :=
  or_return (-1) (list_node psRecordSetName nRecID psEmName) (fun node =>
  mxmlElementSetAttr node (Some (str "value")) psData ;;; ret 0).

Definition XmlAddIntList (psRecordSetName : bytes) (nRecID : Z) (psEmName : bytes) (nData : Z) : prog xml Z :=
  or_return (-1) (list_node psRecordSetName nRecID psEmName) (fun node =>
  let* sData := sprintf_d nData in
  mxmlElementSetAttr node (Some (str "value")) (Some sData) ;;; ret 0).

(** What [XmlFetchList] looks up. *)
Definition list_value (psRecordSetName : bytes) (nRecID : Z) (psEmName : bytes) : prog xml (option bytes) :=
  or_return None find_message (fun tree =>
  or_return None (find tree (RecordSet psRecordSetName)) (fun recordset =>
  let* sRecID := sprintf_d nRecID in
  or_return None (find recordset (Record_ sRecID)) (fun record =>
  or_return None (find record (Tag psEmName)) (value_of psEmName)))).

Definition XmlFetchList (psRecordSetName : bytes) (nRecID : Z) (psEmName psData : bytes) (nBuffSize : Z) : prog xml (Z * bytes) :=
  let* psData := deref (st 0 (zeros (u64 nBuffSize)) psData) in
  or_return (-1, psData) (list_value psRecordSetName nRecID psEmName) (copy_value nBuffSize psData).

Definition XmlStringCmp (psTagName psData : bytes) : prog xml Z :=
  or_return (-1) (tag_value psTagName) (fun psAttrValue => ret (strcmp psAttrValue psData)).

Definition XmlElementCmp (psTagName1 psTagName2 : bytes) : prog xml Z :=
  or_return (-1) find_public (fun tree =>
  or_return (-1) (find tree (Tag psTagName1)) (fun node =>
  or_return (-1) (value_of psTagName1 node) (fun psAttrValue1 =>
  or_return (-1) (find tree (Tag psTagName2)) (fun node =>
  or_return (-1) (value_of psTagName2 node) (fun psAttrValue2 =>
  ret (strcmp psAttrValue1 psAttrValue2)))))).
