(* ===== verification/Xmlpath.v ===== *)
(** * Paths in an XML document, for [xml.c]

    An element is reached by a path of keys.  Setting the value at the end of a path, with
    the elements that are missing added, is the relation [upserted] on trees, with its
    laws; the calls of [Xml] that set a value are shown to follow it ([writes]), those that
    look one up to find the end of a path ([looks]). *)

From Stdlib Require Import ZArith Lia Bool List Ascii String.
From stdpp Require Import base list gmap strings.
From S2P Require Import Prelude Cstr Mxmltree Xml.

(** ** Paths in a tree *)

Definition named (k : key) (t : ptree) : bool :=
  matches (Some (key_name k)) (fst <$> key_attr k) (snd <$> key_attr k) (val t).

Definition sub (k : key) (t : ptree) : option ptree := List.find (named k) (subs t).

Fixpoint at_path (ks : list key) (t : ptree) : option ptree :=
  match ks with [] => Some t | k :: ks => sub k t ≫= at_path ks end.

Definition attr_value (name : bytes) (attrs : list mxml_attr_t) : option bytes :=
  match List.find (has_name name) attrs with Some a => a_value a | None => None end.

Definition field (t : ptree) : option bytes :=
  match val t with Element _ attrs => attr_value (str "value") attrs | _ => None end.

Definition value_at (ks : list key) (t : ptree) : option bytes := at_path ks t ≫= field.

(** No element is found by both keys. *)
Definition apart (j k : key) : Prop :=
  cstr (key_name j) <> cstr (key_name k)
  \/ exists a v w, key_attr j = Some (a, v) /\ key_attr k = Some (a, w) /\ cstr v <> cstr w.

Fixpoint apart_paths (js ks : list key) : Prop :=
  match js, ks with
  | j :: js, k :: ks => apart j k \/ j = k /\ apart_paths js ks
  | _, _ => False
  end.

Lemma apart_named j k t : apart j k -> named k t = true -> named j t = false.
Proof.
  intros H K. destruct (named j t) eqn:J; [exfalso|done]. unfold named, matches in *.
  destruct (val t) as [|[e|] attrs| | | | |]; try discriminate. apply andb_prop in J as [J1 J2], K as [K1 K2].
  apply streq_cstr in J1, K1. destruct H as [H|(a & v & w & Ej & Ek & H)]; [congruence|].
  rewrite Ej in J2. rewrite Ek in K2. cbn [fmap option_fmap option_map fst snd] in *.
  destruct (List.find _ _) as [[n [z|]]|]; try discriminate. apply streq_cstr in J2, K2. congruence.
Qed.

(** *** Setting a value at the end of a path *)

Definition key_attrs (k : key) : list mxml_attr_t := match key_attr k with Some (a, v) => [mkAttr a (Some v)] | None => [] end.

Definition fresh (k : key) (u : ptree) : Prop := exists p, u = PT p (Element (Some (key_name k)) (key_attrs k)) [].

(** [u] is the child for [k], already there or just added. *)
Definition reached (k : key) (ts a : list ptree) (u : ptree) (b : list ptree) : Prop :=
  List.find (named k) a = None /\ named k u = true /\ (ts = a ++ u :: b \/ ts = a /\ b = [] /\ fresh k u).

Inductive upserted (d : bytes) : list key -> ptree -> ptree -> Prop :=
  | upserted_here p e attrs ts :
      upserted d [] (PT p (Element e attrs) ts) (PT p (Element e (put_attr (str "value") d attrs)) ts)
  | upserted_below k ks p v ts a u u' b :
      reached k ts a u b -> upserted d ks u u' -> upserted d (k :: ks) (PT p v ts) (PT p v (a ++ u' :: b)).

Lemma put_attr_same name d attrs : attr_value name (put_attr name d attrs) = Some d.
Proof.
  unfold put_attr, attr_value. assert (R : forall l, match replace_attr name (Some d) l with
    | Some l' => List.find (has_name name) l' <> None /\ (match List.find (has_name name) l' with Some a => a_value a | None => None end) = Some d
    | None => List.find (has_name name) l = None end).
  { induction l as [|a l IH]; [done|]. cbn [replace_attr List.find]. destruct (has_name name a) eqn:E.
    - cbn [List.find]. rewrite (E : has_name name (mkAttr (a_name a) (Some d)) = true). done.
    - destruct (replace_attr name (Some d) l); cbn [fmap option_fmap option_map]; [cbn [List.find]; now rewrite E|exact IH]. }
  specialize (R attrs). destruct (replace_attr name (Some d) attrs); [tauto|]. rewrite find_app, R. cbn [List.find].
  unfold has_name. cbn [a_name]. now rewrite (proj2 (streq_cstr name name) eq_refl).
Qed.

Lemma put_attr_other n name d attrs : cstr n <> cstr name -> List.find (has_name n) (put_attr name d attrs) = List.find (has_name n) attrs.
Proof.
  intros H. assert (X : forall a, has_name name a = true -> has_name n a = false).
  { unfold has_name. intros a E. destruct (streq (a_name a) n) eqn:F; [|done]. apply streq_cstr in E, F. congruence. }
  assert (R : forall l, match replace_attr name (Some d) l with
    | Some l' => List.find (has_name n) l' = List.find (has_name n) l | None => True end).
  { induction l as [|a l IH]; [done|]. cbn [replace_attr]. destruct (has_name name a) eqn:E.
    - cbn [List.find]. rewrite (X a E). now rewrite (X a E : has_name n (mkAttr (a_name a) (Some d)) = false).
    - destruct (replace_attr name (Some d) l); [|done]. cbn [fmap option_fmap option_map List.find]. now rewrite IH. }
  specialize (R attrs). unfold put_attr. destruct (replace_attr name (Some d) attrs); [exact R|]. rewrite find_app. cbn [List.find].
  rewrite X by (unfold has_name; cbn [a_name]; now apply streq_cstr). now destruct (List.find _ attrs).
Qed.

Lemma key_attr_value k a v : key_attr k = Some (a, v) -> cstr a <> cstr (str "value").
Proof. destruct k; cbn [key_attr]; intros H; try discriminate; injection H as <- _; discriminate. Qed.

Section Upserted.
Context (d : bytes).

(** Elements are found as before, *)
Lemma upserted_named ks t t' j : upserted d ks t t' -> named j t' = named j t.
Proof.
  destruct 1; [|done]. unfold named. cbn [val matches]. destruct e as [e|]; [|done]. f_equal.
  destruct (key_attr j) as [[a v]|] eqn:E; cbn [fmap option_fmap option_map fst snd]; [|done].
  now rewrite put_attr_other by now apply (key_attr_value j a v).
Qed.

(** the value is there, *)
Lemma upserted_value ks t t' : upserted d ks t t' -> value_at ks t' = Some d.
Proof.
  unfold value_at. induction 1 as [|k ks p v ts a u u' b (Ha & Hu & _) U IH]; [apply put_attr_same|].
  cbn [at_path]. unfold sub. cbn [subs]. rewrite find_app, Ha. cbn [List.find].
  now rewrite (upserted_named _ _ _ k U), Hu.
Qed.

(** other paths lead where they did, *)
Lemma upserted_apart ks t t' js : upserted d ks t t' -> apart_paths js ks -> at_path js t' = at_path js t.
Proof.
  intros U. revert js. induction U as [|k ks p v ts a u u' b (Ha & Hu & Hts) U IH]; intros js H; [now destruct js|].
  destruct js as [|j js]; [done|]. cbn [apart_paths at_path] in *. unfold sub. cbn [subs]. rewrite find_app. cbn [List.find].
  rewrite (upserted_named _ _ _ j U). destruct H as [H|[-> H]].
  - rewrite (apart_named j k u H Hu). destruct Hts as [->|(-> & -> & _)].
    + rewrite find_app. cbn [List.find]. now rewrite (apart_named j k u H Hu).
    + cbn [List.find]. now destruct (List.find (named j) a).
  - rewrite Ha, Hu. cbn [mbind option_bind]. rewrite (IH js H). destruct Hts as [->|(-> & -> & q & ->)].
    + rewrite find_app, Ha. cbn [List.find]. now rewrite Hu.
    + rewrite Ha. now destruct js, ks.
Qed.

(** and what was on the path still is. *)
Lemma upserted_prefix ks t t' js : upserted d ks t t' -> js `prefix_of` ks -> is_Some (at_path js t) -> is_Some (at_path js t').
Proof.
  intros U. revert js. induction U as [|k ks p v ts a u u' b (Ha & Hu & Hts) U IH]; intros js [ls E].
  - destruct js; [now eexists|discriminate].
  - destruct js as [|j js]; [now eexists|]. injection E as <- ->. cbn [at_path]. unfold sub. cbn [subs].
    rewrite find_app, Ha. cbn [List.find]. rewrite (upserted_named _ _ _ k U), Hu. cbn [mbind option_bind].
    destruct Hts as [->|(-> & -> & _)].
    + rewrite find_app, Ha. cbn [List.find]. rewrite Hu. apply IH. now exists ls.
    + rewrite Ha. now intros [? ?].
Qed.

Lemma upserted_plain ks t t' : upserted d ks t t' -> plain t = true -> plain t' = true.
Proof.
  induction 1 as [|k ks p v ts a u u' b (_ & _ & Hts) U IH]; [done|]. cbn [plain].
  intros [Hv H]%andb_prop. rewrite Hv. destruct Hts as [->|(-> & -> & q & ->)].
  - rewrite List.forallb_app in *. cbn [forallb] in *. apply andb_prop in H as [H1 H2]. apply andb_prop in H2 as [H2 H3].
    now rewrite H1, IH, H3.
  - rewrite List.forallb_app. cbn [forallb]. now rewrite H, IH.
Qed.
End Upserted.

(** ** The calls on a tree *)

Lemma or_return_assoc {A B C} (r : C) (m : prog xml (option A)) (f : A -> prog xml (option B)) (k : B -> prog xml C) x :
  or_return r (or_return None m f) k x = or_return r m (fun a => or_return r (f a) k) x.
Proof. unfold or_return. rewrite bind_assoc. unfold bind. destruct (m x) as [[a|] s| | | | |]; reflexivity. Qed.

Lemma or_return_Some {A B} (r : B) m (k : A -> prog xml B) x a x' : m x = Ret (Some a) x' -> or_return r m k x = k a x'.
Proof. intros H. unfold or_return. now rewrite (bind_Ret _ _ _ _ _ H). Qed.

Lemma or_return_None {A B} (r : B) m (k : A -> prog xml B) x x' : m x = Ret None x' -> or_return r m k x = Ret r x'.
Proof. intros H. unfold or_return. now rewrite (bind_Ret _ _ _ _ _ H). Qed.

Lemma find_key_eq x par prv nxt t k :
  wf x par prv nxt t -> find_key (root t) k x = Ret (found (sub k t)) x.
Proof.
  destruct t as [p v ts]. intros W. unfold find_key. cbn [root]. rewrite (find_child x par prv nxt p v ts _ _ _ W); [done|].
  now destruct (key_attr k) as [[a z]|].
Qed.

Lemma sub_wf x par prv nxt p v ts k u :
  wf x par prv nxt (PT p v ts) -> sub k (PT p v ts) = Some u ->
  exists a b, ts = a ++ u :: b /\ reached k ts a u b /\ wf x p (final NULL a) (first NULL b) u /\ root u <> NULL.
Proof.
  intros W H. destruct (find_split _ _ _ H) as (a & b & E & Ha & Hu). cbn [subs] in E. exists a, b. split; [exact E|].
  split; [split; [exact Ha|split; [exact Hu|now left]]|]. rewrite E in W. pose proof (wf_child _ _ _ _ _ _ _ _ _ W) as Wu.
  split; [exact Wu|]. destruct Wu as [_ _ R]. now apply (rep_root _ _ _ _ _ R).
Qed.

(** The element a key asks for. *)
Lemma added_named k p attrs attr :
  key_attr k = attr ->
  (match attr with Some (a, v) => attrs = [mkAttr a (Some v)] | None => attrs = [] end) ->
  named k (PT p (Element (Some (key_name k)) attrs) []) = true.
Proof.
  intros Ek H. unfold named, matches. cbn [val]. rewrite Ek, (proj2 (streq_cstr _ _) eq_refl). destruct attr as [[a v]|]; [|done].
  subst attrs. cbn [fmap option_fmap option_map fst snd List.find andb]. unfold has_name. cbn [a_name].
  now rewrite (proj2 (streq_cstr a a) eq_refl), (proj2 (streq_cstr v v) eq_refl).
Qed.

Lemma find_or_add_edit x par prv nxt p v ts k :
  wf x par prv nxt (PT p v ts) -> x_allocs x = [] ->
  exists a u b x', find_or_add p k x = Ret (Some (root u)) x'
    /\ edit x x' (PT p v ts) (PT p v (a ++ u :: b)) /\ same_vars x x' /\ reached k ts a u b.
Proof.
  intros W Hal. unfold find_or_add. rewrite (bind_Ret _ _ _ _ _ (find_key_eq _ _ _ _ _ k W : find_key p k x = _)).
  destruct (sub k (PT p v ts)) as [u|] eqn:S; cbn [found].
  - destruct (sub_wf _ _ _ _ _ _ _ _ _ W S) as (a & b & E & Hr & _ & Hn). rewrite (proj2 (Z.eqb_neq _ _) Hn).
    exists a, u, b, x. split; [done|]. split; [rewrite <- E; apply edit_refl|]. now split.
  - change (NULL =? NULL) with true. cbn match.
    destruct (new_element_edit x par prv nxt p v ts (key_name k) W Hal) as (node & x1 & E1 & Ed1 & V1 & Hn).
    rewrite (bind_Ret _ _ _ _ _ E1). unfold not_null. rewrite (proj2 (Z.eqb_neq _ _) Hn).
    rewrite (or_return_Some _ _ _ _ node x1) by reflexivity. destruct (key_attr k) as [[a z]|] eqn:Ek.
    + pose proof (wf_child _ _ _ _ _ _ _ _ _ (e_wf _ _ _ _ Ed1 _ _ _ W)) as Wc.
      assert (Hal1 : x_allocs x1 = []) by (destruct V1; congruence).
      destruct (set_attr_edit x1 _ _ _ _ _ _ _ a z Wc Hal1) as (x2 & E2 & Ed2 & V2). rewrite (bind_Ret _ _ _ _ _ E2).
      exists ts, (PT node (Element (Some (key_name k)) (put_attr a z [])) []), [], x2. split; [done|].
      split; [eapply edit_trans; [exact Ed1|now apply edit_child]|]. split; [now apply (same_vars_trans _ x1)|].
      split; [exact S|]. split; [now apply (added_named k _ _ _ Ek)|]. right. split; [done|]. split; [done|].
      exists node. unfold key_attrs. now rewrite Ek.
    + exists ts, (PT node (Element (Some (key_name k)) []) []), [], x1. split; [done|]. split; [exact Ed1|]. split; [exact V1|].
      split; [exact S|]. split; [now apply (added_named k _ _ _ Ek)|]. right. split; [done|]. split; [done|]. exists node. unfold key_attrs. now rewrite Ek.
Qed.

(** *** Calls that set a value *)

Section Writes.
Context (d : bytes).

(** [m] sets the value at the end of [ks] below [t]. *)
Definition writes (m : prog xml Z) (ks : list key) (x : xml) (t : ptree) : Prop :=
  exists x' t', m x = Ret 0 x' /\ edit x x' t t' /\ upserted d ks t t' /\ same_vars x x'.

Lemma writes_here x par prv nxt t k :
  wf x par prv nxt t -> x_allocs x = [] -> named k t = true ->
  writes (mxmlElementSetAttr (root t) (Some (str "value")) (Some d) ;;; ret 0) [] x t.
Proof.
  destruct t as [p v ts]. intros W Hal Hk. unfold named in Hk. cbn [val] in Hk. destruct v as [|e attrs| | | | |]; try discriminate.
  destruct (set_attr_edit x _ _ _ _ _ _ _ (str "value") d W Hal) as (x' & E & Ed & V). exists x'. eexists.
  split; [cbn [root]; rewrite (bind_Ret _ _ _ _ _ E); reflexivity|]. split; [exact Ed|]. split; [constructor|exact V].
Qed.

Lemma writes_below m0 m x x1 p v ts k ks a u b :
  m0 x = m x1 -> edit x x1 (PT p v ts) (PT p v (a ++ u :: b)) -> same_vars x x1 -> reached k ts a u b ->
  writes m ks x1 u -> writes m0 (k :: ks) x (PT p v ts).
Proof.
  intros E Ed V Hr (x2 & u' & E2 & Ed2 & U & V2). exists x2, (PT p v (a ++ u' :: b)). split; [congruence|].
  split; [eapply edit_trans; [exact Ed|now apply edit_child]|]. split; [now apply (upserted_below d k ks p v ts a u)|].
  now apply (same_vars_trans _ x1).
Qed.

Lemma writes_find x par prv nxt t k ks u (f : Z -> prog xml Z) :
  wf x par prv nxt t -> sub k t = Some u ->
  (forall par prv nxt, wf x par prv nxt u -> writes (f (root u)) ks x u) ->
  writes (or_return (-1) (find (root t) k) f) (k :: ks) x t.
Proof.
  destruct t as [p v ts]. intros W S H. destruct (sub_wf _ _ _ _ _ _ _ _ _ W S) as (a & b & E & Hr & Wu & Hn).
  eapply (writes_below _ (f (root u)) x x); [|rewrite <- E; apply edit_refl|done|exact Hr|eauto].
  apply or_return_Some. unfold find. rewrite (bind_Ret _ _ _ _ _ (find_key_eq _ _ _ _ _ k W)), S. cbn [found].
  unfold not_null. now rewrite (proj2 (Z.eqb_neq _ _) Hn).
Qed.

Lemma writes_find_or_add x par prv nxt t k ks (f : Z -> prog xml Z) :
  wf x par prv nxt t -> x_allocs x = [] ->
  (forall x1 par prv nxt u, wf x1 par prv nxt u -> x_allocs x1 = [] -> named k u = true -> writes (f (root u)) ks x1 u) ->
  writes (or_return (-1) (find_or_add (root t) k) f) (k :: ks) x t.
Proof.
  destruct t as [p v ts]. intros W Hal H. destruct (find_or_add_edit x _ _ _ p v ts k W Hal) as (a & u & b & x1 & E & Ed & V & Hr).
  eapply (writes_below _ (f (root u)) x x1); [|exact Ed|exact V|exact Hr|].
  - now apply or_return_Some.
  - eapply H; [exact (wf_child _ _ _ _ _ _ _ _ _ (e_wf _ _ _ _ Ed _ _ _ W))|destruct V; congruence|apply Hr].
Qed.
End Writes.

(** *** Calls that look values up *)

(** The error buffer has its size, and no allocation fails. *)
Definition ready (x : xml) : Prop := x_allocs x = [] /\ length (l_sXmlError x) = 1024%nat.

(** [m] gives [o]; when there is nothing, it only leaves an error text. *)
Definition looks {A} (m : prog xml (option A)) (o : option A) (x : xml) : Prop :=
  match o with
  | Some a => m x = Ret (Some a) x
  | None => exists err, length err = 1024%nat /\ m x = Ret None (set_l_sXmlError err x)
  end.

Lemma XmlSetError_eq msg x :
  length (l_sXmlError x) = 1024%nat -> (length msg <= 1016)%nat ->
  exists err, length err = 1024%nat /\ XmlSetError msg x = Ret tt (set_l_sXmlError err x).
Proof.
  intros L H. unfold XmlSetError. erewrite bind_Ret by reflexivity.
  destruct (st_Some 0 (str "error: " ++ [NUL]) (l_sXmlError x)) as [b Eb]; [lia|rewrite L; cbn; lia|].
  pose proof (st_length _ _ _ _ Eb) as Lb. rewrite Eb. erewrite bind_Ret by reflexivity.
  destruct (st_Some 7 (msg ++ [NUL]) b) as [c Ec]; [lia|rewrite length_app; cbn [length]; lia|].
  pose proof (st_length _ _ _ _ Ec) as Lc. rewrite Ec. exists c. split; [lia|reflexivity].
Qed.

Lemma looks_none {A} msg x (m : prog xml (option A)) :
  length (l_sXmlError x) = 1024%nat -> (length msg <= 1016)%nat -> m x = (XmlSetError msg ;;; ret None) x -> looks m None x.
Proof.
  intros L H E. destruct (XmlSetError_eq msg x L H) as (err & Le & Ee). exists err. split; [exact Le|].
  now rewrite E, (bind_Ret _ _ _ _ _ Ee).
Qed.

Lemma looks_find x par prv nxt t k :
  wf x par prv nxt t -> length (l_sXmlError x) = 1024%nat -> (length (key_text k) <= 900)%nat ->
  looks (find (root t) k) (root <$> sub k t) x.
Proof.
  intros W L Hk. pose proof (find_key_eq _ _ _ _ _ k W) as E. destruct (sub k t) as [u|] eqn:S; cbn [fmap option_fmap option_map found] in *.
  - unfold looks, find. rewrite (bind_Ret _ _ _ _ _ E). unfold not_null. destruct t as [p v ts].
    destruct (sub_wf _ _ _ _ _ _ _ _ _ W S) as (a & b & _ & _ & _ & Hn). now rewrite (proj2 (Z.eqb_neq _ _) Hn).
  - apply (looks_none (unable_to_find (key_text k))); [exact L| |].
    + unfold unable_to_find. rewrite !length_app. cbn. lia.
    + unfold find. now rewrite (bind_Ret _ _ _ _ _ E).
Qed.

Lemma looks_value x par prv nxt u k tag :
  wf x par prv nxt u -> named k u = true -> length (l_sXmlError x) = 1024%nat -> (length tag <= 900)%nat ->
  looks (value_of tag (root u)) (field u) x.
Proof.
  intros W Hk L Ht. destruct u as [p v ts]. unfold named in Hk. cbn [val] in Hk. destruct v as [|e attrs| | | | |]; try discriminate.
  pose proof (get_attr_eq _ _ _ _ _ _ _ _ (str "value") W) as E. unfold field, attr_value. cbn [val root].
  set (o := match List.find _ _ with Some a => _ | None => _ end) in *.
  destruct o as [d|] eqn:Eo; [unfold looks, value_of; now rewrite (bind_Ret _ _ _ _ _ E)|].
  apply (looks_none (no_value tag)); [exact L| |].
  - unfold no_value. rewrite !length_app. cbn. lia.
  - unfold value_of. now rewrite (bind_Ret _ _ _ _ _ E).
Qed.

Lemma looks_bind {A B} (m : prog xml (option A)) o x (f : A -> prog xml (option B)) g :
  looks m o x -> (forall a, o = Some a -> looks (f a) (g a) x) -> looks (or_return None m f) (o ≫= g) x.
Proof.
  intros H F. destruct o as [a|]; cbn [mbind option_bind].
  - specialize (F a eq_refl). unfold looks in *. rewrite (or_return_Some _ _ _ _ _ _ H). exact F.
  - destruct H as (err & Le & E). exists err. split; [exact Le|]. now apply or_return_None.
Qed.

(** The end of a path, from the element on top. *)
Lemma looks_below {B} x par prv nxt t k (f : Z -> prog xml (option B)) (g : ptree -> option B) :
  wf x par prv nxt t -> length (l_sXmlError x) = 1024%nat -> (length (key_text k) <= 900)%nat ->
  (forall par prv nxt u, wf x par prv nxt u -> named k u = true -> looks (f (root u)) (g u) x) ->
  looks (or_return None (find (root t) k) f) (sub k t ≫= g) x.
Proof.
  intros W L Hk H. pose proof (looks_find x _ _ _ t k W L Hk) as F. destruct t as [p v ts].
  destruct (sub k (PT p v ts)) as [u|] eqn:S.
  - destruct (sub_wf _ _ _ _ _ _ _ _ _ W S) as (a & b & _ & (_ & Hu & _) & Wu & _).
    apply (looks_bind _ (Some (root u)) x f (fun _ => g u) F). intros r [= <-]. now apply (H p (final NULL a) (first NULL b)).
  - apply (looks_bind _ None x f (fun _ => None) F). discriminate.
Qed.
