(* ===== verification/Xmldoc.v ===== *)
(** * What a document of [xml.c] means

    The abstract state of a document is a [message]: its fields and the fields of the
    records of its record sets.  The calls that write refine its updates, the calls that
    read are look-ups in it, and [XmlInit] makes the empty one and frees the old tree.  The
    calls are those of [Xml]. *)

From Stdlib Require Import ZArith Lia Bool List Ascii String.
From stdpp Require Import base list gmap strings.
From S2P Require Import Prelude Cstr Mxmltree Xml Xmlpath.

(** ** What a document means *)

(** The fields, and the fields of the records of the record sets. *)
Record message := mkMessage {
  public : gmap bytes bytes;
  records : gmap (bytes * Z * bytes) bytes;
}.

Definition set_public (f : gmap bytes bytes -> gmap bytes bytes) (m : message) : message := mkMessage (f (public m)) (records m).
Definition set_records (f : gmap (bytes * Z * bytes) bytes -> gmap (bytes * Z * bytes) bytes) (m : message) : message :=
  mkMessage (public m) (f (records m)).

Definition public_tag : list key := [Tag (str "Message"); Tag (str "Public")].
Definition public_path (tag : bytes) : list key := public_tag ++ [Tag tag].
Definition record_path (set : bytes) (id : Z) (em : bytes) : list key :=
  [Tag (str "Message"); RecordSet set; Record_ (fmt_d id); Tag em].

(** [%d] in eleven bytes: a sign and ten digits leave no room for the NUL. *)
Definition fits_d (n : Z) : Prop := - 10 ^ 9 < n <= INT_MAX.

Record document (x : xml) (m : message) (t : ptree) : Prop := {
  d_wf : wf x NULL NULL NULL t;
  d_root : root t = l_pIntXml x;
  d_plain : plain t = true;
  d_public : is_Some (at_path public_tag t);
  d_fields : forall tag, nonul tag -> value_at (public_path tag) t = public m !! tag;
  d_records : forall set id em, nonul set -> nonul em -> fits_d id -> value_at (record_path set id em) t = records m !! (set, id, em);
}.

Definition holds_message (x : xml) (m : message) : Prop := ready x /\ exists t, document x m t.

Lemma nonul_fmt_d n : nonul (fmt_d n).
Proof.
  unfold nonul. eapply Forall_impl; [apply fmt_d_chars|]. cbn. intros c H ->. discriminate.
Qed.

Lemma fmt_d_inj a b : fits_d a -> fits_d b -> fmt_d a = fmt_d b -> a = b.
Proof.
  unfold fits_d, INT_MIN, INT_MAX. intros Ha Hb H.
  rewrite <- (atoi_fmt_d a), <- (atoi_fmt_d b), H by (unfold INT_MIN, INT_MAX; lia). reflexivity.
Qed.

Lemma apart_tags a b : nonul a -> nonul b -> a <> b -> apart (Tag a) (Tag b).
Proof. intros Ha Hb H. left. cbn [key_name]. now rewrite !cstr_id. Qed.

Lemma apart_fields a b : nonul a -> nonul b -> a <> b -> apart_paths (public_path a) (public_path b).
Proof. intros. do 2 (right; split; [reflexivity|]). left. now apply apart_tags. Qed.

Lemma apart_field_record a s i e : apart_paths (public_path a) (record_path s i e).
Proof. right. split; [reflexivity|]. left. left. discriminate. Qed.

Lemma apart_record_field a s i e : apart_paths (record_path s i e) (public_path a).
Proof. right. split; [reflexivity|]. left. left. discriminate. Qed.

Lemma apart_records s i e s' i' e' :
  nonul s -> nonul s' -> nonul e -> nonul e' -> fits_d i -> fits_d i' -> (s, i, e) <> (s', i', e') ->
  apart_paths (record_path s i e) (record_path s' i' e').
Proof.
  intros Hs Hs' He He' Hi Hi' H. right. split; [reflexivity|]. destruct (decide (s = s')) as [->|Hne].
  - right. split; [reflexivity|]. destruct (decide (i = i')) as [->|Hne].
    + right. split; [reflexivity|]. left. apply apart_tags; congruence.
    + left. right. exists (str "RecID"), (fmt_d i), (fmt_d i'). split; [done|]. split; [done|].
      rewrite !cstr_id by apply nonul_fmt_d. intros E. now apply fmt_d_inj in E.
  - left. right. exists (str "name"), s, s'. split; [done|]. split; [done|]. now rewrite !cstr_id.
Qed.

(** *** A value that has been set *)

Lemma document_field x x' m t t' tag d :
  document x m t -> nonul tag -> edit x x' t t' -> l_pIntXml x' = l_pIntXml x -> upserted d (public_path tag) t t' ->
  document x' (set_public (insert tag d) m) t'.
Proof.
  intros [W R P Pu F Rs] Ht E L U. split.
  - exact (e_wf _ _ _ _ E _ _ _ W).
  - rewrite (e_root _ _ _ _ E). congruence.
  - exact (upserted_plain _ _ _ _ U P).
  - apply (upserted_prefix _ _ _ _ _ U); [now exists [Tag tag]|exact Pu].
  - intros tag' Ht'. cbn [public set_public]. destruct (decide (tag' = tag)) as [->|Hne].
    + rewrite lookup_insert_eq. exact (upserted_value _ _ _ _ U).
    + rewrite lookup_insert_ne by congruence. rewrite <- F by done. unfold value_at.
      now rewrite (upserted_apart _ _ _ _ _ U) by now apply apart_fields.
  - intros set id em Hs He Hi. cbn [records set_public]. rewrite <- Rs by done. unfold value_at.
    now rewrite (upserted_apart _ _ _ _ _ U) by apply apart_record_field.
Qed.

Lemma document_record x x' m t t' set id em d :
  document x m t -> nonul set -> nonul em -> fits_d id -> edit x x' t t' -> l_pIntXml x' = l_pIntXml x ->
  upserted d (record_path set id em) t t' -> document x' (set_records (insert (set, id, em) d) m) t'.
Proof.
  intros [W R P Pu F Rs] Hs He Hi E L U. split.
  - exact (e_wf _ _ _ _ E _ _ _ W).
  - rewrite (e_root _ _ _ _ E). congruence.
  - exact (upserted_plain _ _ _ _ U P).
  - rewrite (upserted_apart _ _ _ _ public_tag U); [exact Pu|]. right. split; [reflexivity|]. left. left. discriminate.
  - intros tag Ht. cbn [public set_records]. rewrite <- F by done. unfold value_at.
    now rewrite (upserted_apart _ _ _ _ _ U) by apply apart_field_record.
  - intros set' id' em' Hs' He' Hi'. cbn [records set_records]. destruct (decide ((set', id', em') = (set, id, em))) as [[= -> -> ->]|Hne].
    + rewrite lookup_insert_eq. exact (upserted_value _ _ _ _ U).
    + rewrite lookup_insert_ne by congruence. rewrite <- Rs by done. unfold value_at.
      now rewrite (upserted_apart _ _ _ _ _ U) by now apply apart_records.
Qed.

(** *** Numbers in eleven bytes *)

(** A negative number of ten digits. *)
Lemma length_fmt_d_long n : INT_MIN <= n <= - 10 ^ 9 -> (11 <= length (fmt_d n))%nat.
Proof.
  unfold INT_MIN. intros H. unfold fmt_d. rewrite (proj2 (Z.ltb_lt n 0)) by lia. cbn [length].
  pose proof (digits_lt (udec 20 (- n)) 0 ltac:(lia) (udec_digits 20 (- n) ltac:(lia))) as L.
  rewrite digits_udec in L by (change (10 ^ Z.of_nat 20) with 100000000000000000000; lia).
  destruct (le_lt_dec 10 (length (udec 20 (- n)))) as [|Hlt]; [lia|].
  assert (10 ^ Z.of_nat (length (udec 20 (- n))) <= 10 ^ 9) by (apply Z.pow_le_mono_r; lia). lia.
Qed.

Lemma length_fmt_d_fits n : fits_d n -> (length (fmt_d n) <= 10)%nat.
Proof.
  unfold fits_d, INT_MAX. intros H. unfold fmt_d. destruct (Z.ltb_spec n 0); cbn [length].
  - pose proof (length_udec_le 20 (- n) 9 ltac:(change (10 ^ Z.of_nat 9) with (10 ^ 9); lia)). lia.
  - apply length_udec_le; [change (10 ^ Z.of_nat 10) with (10 ^ 10); lia|lia].
Qed.

Lemma sprintf_d_eq n x : fits_d n -> sprintf_d n x = Ret (fmt_d n) x.
Proof.
  intros H. pose proof (length_fmt_d_fits n H) as L. unfold sprintf_d.
  rewrite st_zeros_start by (rewrite length_app; cbn [length]; lia). erewrite bind_Ret by reflexivity.
  unfold ret. f_equal. rewrite <- app_assoc. apply cstr_app_nul, nonul_fmt_d.
Qed.

Lemma sprintf_d_overflow n x : INT_MIN <= n <= - 10 ^ 9 -> sprintf_d n x = Fault.
Proof.
  intros H. pose proof (length_fmt_d_long n H) as L. unfold sprintf_d, st.
  rewrite length_zeros by lia. rewrite (proj2 (Z.leb_gt _ 11)) by (rewrite length_app; cbn [length]; lia). now rewrite andb_false_r.
Qed.

(** ** The writing calls refine the updates of a message *)

Inductive write :=
  | DoSet (tag d : bytes)
  | DoCharSet (tag : bytes) (c : ascii)
  | DoIntSet (tag : bytes) (n : Z)
  | DoAddList (set : bytes) (id : Z) (em d : bytes)
  | DoAddIntList (set : bytes) (id : Z) (em : bytes) (n : Z).

Definition run_write (w : write) : prog xml Z :=
  match w with
  | DoSet tag d => XmlSet tag (Some d)
  | DoCharSet tag c => XmlCharSet tag c
  | DoIntSet tag n => XmlIntSet tag n
  | DoAddList set id em d => XmlAddList set id em (Some d)
  | DoAddIntList set id em n => XmlAddIntList set id em n
  end.

Definition apply_write (w : write) (m : message) : message :=
  match w with
  | DoSet tag d => set_public (insert tag d) m
  | DoCharSet tag c => set_public (insert tag (cstr [c; NUL])) m
  | DoIntSet tag n => set_public (insert tag (fmt_d n)) m
  | DoAddList set id em d => set_records (insert (set, id, em) d) m
  | DoAddIntList set id em n => set_records (insert (set, id, em) (fmt_d n)) m
  end.

Definition write_ok (w : write) : Prop :=
  match w with
  | DoSet tag _ | DoCharSet tag _ => nonul tag
  | DoIntSet tag n => nonul tag /\ fits_d n
  | DoAddList set id em _ => nonul set /\ nonul em /\ fits_d id
  | DoAddIntList set id em n => nonul set /\ nonul em /\ fits_d id /\ fits_d n
  end.

(** A call that ends by setting the value [d] of the element found or added last. *)
Definition sets (k : Z -> prog xml Z) (d : bytes) : Prop :=
  forall p x, k p x = (mxmlElementSetAttr p (Some (str "value")) (Some d) ;;; ret 0) x.

Lemma writes_eq d (m m' : prog xml Z) ks x t : m x = m' x -> writes d m' ks x t -> writes d m ks x t.
Proof. intros E (x' & t' & H). exists x', t'. now rewrite E. Qed.

Lemma writes_end x par prv nxt t k f d :
  wf x par prv nxt t -> x_allocs x = [] -> sets f d -> writes d (or_return (-1) (find_or_add (root t) k) f) [k] x t.
Proof.
  intros W Hal F. apply (writes_find_or_add d x par prv nxt); [exact W|exact Hal|]. intros x1 par1 prv1 nxt1 u W1 Hal1 Hk.
  eapply writes_eq; [apply F|]. now apply (writes_here d x1 par1 prv1 nxt1 u k).
Qed.

Lemma writes_field x m t tag f d :
  document x m t -> x_allocs x = [] -> sets f d ->
  writes d (or_return (-1) find_public (fun tree => or_return (-1) (find_or_add tree (Tag tag)) f)) (public_path tag) x t.
Proof.
  intros D Hal F. destruct (d_public _ _ _ D) as [pu Hpu]. unfold public_tag in Hpu. cbn [at_path] in Hpu.
  destruct (sub (Tag (str "Message")) t) as [me|] eqn:Sm; [|discriminate]. cbn [mbind option_bind] in Hpu.
  destruct (sub (Tag (str "Public")) me) as [pu'|] eqn:Sp; [|discriminate].
  eapply writes_eq; [unfold find_public; apply or_return_assoc|].
  eapply writes_eq; [unfold find_message, or_return; rewrite bind_assoc; erewrite bind_Ret by reflexivity; rewrite <- (d_root _ _ _ D); reflexivity|].
  apply (writes_find d x NULL NULL NULL t _ _ me _ (d_wf _ _ _ D) Sm). intros par prv nxt Wm.
  apply (writes_find d x par prv nxt me _ _ pu' _ Wm Sp). intros par' prv' nxt' Wp. now apply (writes_end x par' prv' nxt').
Qed.

Lemma writes_record x m t set id em f d :
  document x m t -> x_allocs x = [] -> fits_d id -> sets f d ->
  writes d (or_return (-1) (list_node set id em) f) (record_path set id em) x t.
Proof.
  intros D Hal Hi F. destruct (d_public _ _ _ D) as [pu Hpu]. unfold public_tag in Hpu. cbn [at_path] in Hpu.
  destruct (sub (Tag (str "Message")) t) as [me|] eqn:Sm; [|discriminate].
  eapply writes_eq; [unfold list_node; apply or_return_assoc|].
  eapply writes_eq; [unfold find_message, or_return; rewrite bind_assoc; erewrite bind_Ret by reflexivity; rewrite <- (d_root _ _ _ D); reflexivity|].
  apply (writes_find d x NULL NULL NULL t _ _ me _ (d_wf _ _ _ D) Sm). intros par prv nxt Wm.
  eapply writes_eq; [apply or_return_assoc|].
  apply (writes_find_or_add d x par prv nxt me); [exact Wm|exact Hal|]. intros x1 par1 prv1 nxt1 rs W1 Hal1 _.
  eapply writes_eq; [unfold or_return at 1; rewrite bind_assoc, (bind_Ret _ _ _ _ _ (sprintf_d_eq id x1 Hi)); apply or_return_assoc|].
  apply (writes_find_or_add d x1 par1 prv1 nxt1 rs); [exact W1|exact Hal1|]. intros x2 par2 prv2 nxt2 r W2 Hal2 _.
  now apply (writes_end x2 par2 prv2 nxt2).
Qed.

Lemma ready_vars x x' : same_vars x x' -> ready x -> ready x' /\ l_pIntXml x' = l_pIntXml x.
Proof. unfold same_vars, ready. intros (H1 & _ & H2 & H3) [H4 H5]. now rewrite H1, H3. Qed.

Lemma message_field x m tag f d :
  holds_message x m -> nonul tag -> sets f d ->
  exists x', or_return (-1) find_public (fun tree => or_return (-1) (find_or_add tree (Tag tag)) f) x = Ret 0 x'
    /\ holds_message x' (set_public (insert tag d) m).
Proof.
  intros [R [t D]] Ht F. destruct (writes_field x m t tag f d D (proj1 R) F) as (x' & t' & E & Ed & U & V).
  destruct (ready_vars _ _ V R) as [R' Hl]. exists x'. split; [exact E|]. split; [exact R'|]. exists t'.
  now apply (document_field x x' m t).
Qed.

Lemma message_record x m set id em f d :
  holds_message x m -> nonul set -> nonul em -> fits_d id -> sets f d ->
  exists x', or_return (-1) (list_node set id em) f x = Ret 0 x' /\ holds_message x' (set_records (insert (set, id, em) d) m).
Proof.
  intros [R [t D]] Hs He Hi F. destruct (writes_record x m t set id em f d D (proj1 R) Hi F) as (x' & t' & E & Ed & U & V).
  destruct (ready_vars _ _ V R) as [R' Hl]. exists x'. split; [exact E|]. split; [exact R'|]. exists t'.
  now apply (document_record x x' m t).
Qed.

Lemma sets_d n : fits_d n -> sets (fun node => let* sData := sprintf_d n in mxmlElementSetAttr node (Some (str "value")) (Some sData) ;;; ret 0) (fmt_d n).
Proof. intros H p x. now rewrite (bind_Ret _ _ _ _ _ (sprintf_d_eq n x H)). Qed.

Lemma write_step w x m :
  holds_message x m -> write_ok w ->
  exists x', run_write w x = Ret 0 x' /\ holds_message x' (apply_write w m).
Proof.
  intros H Hw. destruct w; cbn [write_ok run_write apply_write] in *.
  - now apply message_field.
  - now apply message_field.
  - destruct Hw as [Ht Hn]. apply message_field; [exact H|exact Ht|]. now apply sets_d.
  - destruct Hw as (Hs & He & Hi). now apply message_record.
  - destruct Hw as (Hs & He & Hi & Hn). apply message_record; [exact H|exact Hs|exact He|exact Hi|]. now apply sets_d.
Qed.

(** The results of some calls, in order. *)
Fixpoint run_writes (ws : list write) : prog xml (list Z) :=
  match ws with
  | [] => ret []
  | w :: ws => let* rc := run_write w in let* rcs := run_writes ws in ret (rc :: rcs)
  end.

(** C11: writing calls, in any number and order, on a document that holds a message, while no
    allocation fails, all return 0 and leave a document that holds the message with exactly the fields they name,
    and the fields of the records they name, set to the last value given: elements that are
    missing are added, existing ones overwritten, all other fields keep their values.  The
    numbers must print in ten characters. *)
Theorem writes_refine ws x m :
  holds_message x m -> Forall write_ok ws ->
  exists x', run_writes ws x = Ret (replicate (length ws) 0) x' /\ holds_message x' (fold_left (fun m w => apply_write w m) ws m).
Proof.
  intros H F. revert x m H. induction F as [|w ws Hw F IH]; intros x m H; [now exists x|].
  destruct (write_step w x m H Hw) as (x1 & E1 & H1). destruct (IH x1 _ H1) as (x2 & E2 & H2).
  exists x2. split; [|exact H2]. cbn [run_writes]. now rewrite (bind_Ret _ _ _ _ _ E1), (bind_Ret _ _ _ _ _ E2).
Qed.

(** ** The reading calls are look-ups *)

(** What [psData] holds after a value was copied into [n] bytes. *)
Definition filled (n : Z) (d : bytes) : bytes :=
  let part := take (Z.to_nat (n - 1)) d in part ++ zeros (n - Z.of_nat (length part)).

Lemma copy_value_eq n d x :
  0 < n <= INT_MAX -> Z.of_nat (length d) <= INT_MAX ->
  copy_value n (zeros n) d x = Ret (Z.of_nat (length d), filled n d) x.
Proof.
  unfold INT_MAX. intros Hn Hd. unfold copy_value, filled, ld. rewrite length_app. cbn [length].
  rewrite !u64_id by lia. set (part := take _ d).
  assert (E : (if n <=? Z.of_nat (length d) then n - 1 else Z.of_nat (length d)) = Z.of_nat (length part)).
  { unfold part. rewrite length_take. destruct (Z.leb_spec n (Z.of_nat (length d))); lia. }
  rewrite E. assert (L : (length part <= length d)%nat) by (unfold part; rewrite length_take; lia).
  rewrite (proj2 (Z.leb_le 0 0)), (proj2 (Z.leb_le 0 (Z.of_nat (length part)))), (proj2 (Z.leb_le (0 + _) _)) by lia. cbn [andb].
  change (Z.to_nat 0) with 0%nat. rewrite drop_0, Nat2Z.id, take_app_le by exact L.
  replace (take (length part) d) with part by (unfold part; now rewrite length_take, <- take_take, (take_ge d (length d)) by lia).
  erewrite bind_Ret by reflexivity.
  rewrite st_zeros_start by (unfold part; rewrite length_take; lia). erewrite bind_Ret by reflexivity. unfold ret.
  now rewrite i32_id by lia.
Qed.

Lemma value_at_cons k ks t : value_at (k :: ks) t = sub k t ≫= value_at ks.
Proof. unfold value_at. cbn [at_path]. now destruct (sub k t). Qed.

Lemma looks_eq {A} (m m' : prog xml (option A)) o x : m x = m' x -> looks m' o x -> looks m o x.
Proof. intros E. unfold looks. now rewrite E. Qed.

Lemma looks_message {B} x m t (f : Z -> prog xml (option B)) g :
  document x m t -> length (l_sXmlError x) = 1024%nat ->
  (forall par prv nxt u, wf x par prv nxt u -> looks (f (root u)) (g u) x) ->
  looks (or_return None find_message f) (sub (Tag (str "Message")) t ≫= g) x.
Proof.
  intros D L H. eapply looks_eq; [unfold find_message, or_return; rewrite bind_assoc; erewrite bind_Ret by reflexivity; rewrite <- (d_root _ _ _ D); reflexivity|].
  apply (looks_below x NULL NULL NULL); [apply (d_wf _ _ _ D)|exact L|cbn; lia|]. eauto.
Qed.

Lemma looks_end x par prv nxt t tag :
  wf x par prv nxt t -> length (l_sXmlError x) = 1024%nat -> (length tag <= 900)%nat ->
  looks (or_return None (find (root t) (Tag tag)) (value_of tag)) (value_at [Tag tag] t) x.
Proof.
  intros W L Hl. rewrite value_at_cons. apply (looks_below x par prv nxt); [exact W|exact L|exact Hl|].
  intros par' prv' nxt' u Wu Hu. now apply (looks_value x par' prv' nxt' u (Tag tag)).
Qed.

(** The element [<Public>] and its fields. *)
Lemma public_node x m t :
  document x m t -> length (l_sXmlError x) = 1024%nat ->
  exists par prv nxt u, wf x par prv nxt u /\ find_public x = Ret (Some (root u)) x
    /\ forall tag, nonul tag -> value_at [Tag tag] u = public m !! tag.
Proof.
  intros D L. pose proof (d_wf _ _ _ D) as W. destruct (d_public _ _ _ D) as [pu Hpu].
  pose proof (d_fields _ _ _ D) as F. unfold public_path, public_tag in *.
  cbn [app at_path] in *. destruct t as [p v ts]. destruct (sub (Tag (str "Message")) (PT p v ts)) as [me|] eqn:Sm; [|discriminate].
  cbn [mbind option_bind] in Hpu. destruct (sub (Tag (str "Public")) me) as [u|] eqn:Sp; [|discriminate].
  destruct (sub_wf _ _ _ _ _ _ _ _ _ W Sm) as (a & b & _ & _ & Wm & _). destruct me as [pm vm ms].
  destruct (sub_wf _ _ _ _ _ _ _ _ _ Wm Sp) as (a' & b' & _ & _ & Wu & _). do 3 eexists. exists u. split; [exact Wu|]. split.
  - pose proof (looks_find x _ _ _ _ (Tag (str "Message")) W L ltac:(cbn; lia)) as E1. rewrite Sm in E1.
    pose proof (looks_find x _ _ _ _ (Tag (str "Public")) Wm L ltac:(cbn; lia)) as E2. rewrite Sp in E2.
    unfold find_public, find_message. erewrite or_return_Some; [exact E2|]. erewrite bind_Ret by reflexivity.
    rewrite <- (d_root _ _ _ D). exact E1.
  - intros tag Ht. rewrite <- (F tag Ht), (value_at_cons (Tag (str "Message"))), Sm. cbn [mbind option_bind].
    now rewrite (value_at_cons (Tag (str "Public"))), Sp.
Qed.

Lemma looks_tag x m t tag :
  document x m t -> ready x -> nonul tag -> (length tag <= 900)%nat -> looks (tag_value tag) (public m !! tag) x.
Proof.
  intros D [_ L] Ht Hl. destruct (public_node x m t D L) as (par & prv & nxt & u & W & E & F).
  rewrite <- (F tag Ht). eapply looks_eq; [unfold tag_value; apply (or_return_Some _ _ _ _ _ _ E)|]. now apply (looks_end x par prv nxt).
Qed.

Lemma looks_record x m t set id em :
  document x m t -> ready x -> nonul set -> nonul em -> fits_d id -> (length set <= 800)%nat -> (length em <= 900)%nat ->
  looks (list_value set id em) (records m !! (set, id, em)) x.
Proof.
  intros D [_ L] Hs He Hi Ls Le. rewrite <- (d_records _ _ _ D set id em Hs He Hi). unfold record_path. rewrite value_at_cons.
  apply (looks_message x m t _ _ D L). intros par prv nxt u W. rewrite value_at_cons.
  apply (looks_below x par prv nxt); [exact W|exact L|cbn [key_text]; unfold quoted; rewrite !length_app; cbn; lia|].
  intros par1 prv1 nxt1 rs W1 _. rewrite value_at_cons. eapply looks_eq; [apply (bind_Ret _ _ _ _ _ (sprintf_d_eq id x Hi))|].
  pose proof (length_fmt_d_fits id Hi).
  apply (looks_below x par1 prv1 nxt1); [exact W1|exact L|cbn [key_text]; unfold quoted; rewrite !length_app; cbn; lia|].
  intros par2 prv2 nxt2 r W2 _. now apply (looks_end x par2 prv2 nxt2).
Qed.

(** *** The calls *)

(** [m] answers from [o]; when there is nothing, with [none] and an error text. *)
Definition answers {A} (m : prog xml A) (o : option A) (none : A) (x : xml) : Prop :=
  match o with
  | Some a => m x = Ret a x
  | None => exists err, length err = 1024%nat /\ m x = Ret none (set_l_sXmlError err x)
  end.

Lemma looks_answers {A B} (m : prog xml (option A)) o x (r : B) (k : A -> prog xml B) (g : A -> B) :
  looks m o x -> (forall a, o = Some a -> k a x = Ret (g a) x) -> answers (or_return r m k) (g <$> o) r x.
Proof.
  intros L K. destruct o as [a|]; cbn [fmap option_fmap option_map].
  - unfold answers. rewrite (or_return_Some _ _ _ _ _ _ L). now apply K.
  - destruct L as (err & Le & E). exists err. split; [exact Le|]. now apply or_return_None.
Qed.

(** A buffer of [n] bytes, cleared and then filled. *)
Lemma copy_answers x psData n (m : prog xml (option bytes)) o :
  0 < n <= INT_MAX -> Z.of_nat (length psData) = n -> (forall d, o = Some d -> Z.of_nat (length d) <= INT_MAX) -> looks m o x ->
  answers (let* psData := deref (st 0 (zeros (u64 n)) psData) in or_return (-1, psData) m (copy_value n psData))
    ((fun d => (Z.of_nat (length d), filled n d)) <$> o) (-1, zeros n) x.
Proof.
  intros Hn Hp Hd L. assert (E : deref (st 0 (zeros (u64 n)) psData) x = Ret (zeros n) x).
  { unfold INT_MAX in Hn. rewrite u64_id by lia. rewrite st_whole; [done|].
    apply Nat2Z.inj. rewrite length_zeros; lia. }
  pose proof (looks_answers m o x (-1, zeros n) (copy_value n (zeros n)) _ L (fun d H => copy_value_eq n d x Hn (Hd d H))) as A.
  unfold answers in *. now rewrite (bind_Ret _ _ _ _ _ E).
Qed.

Definition tag_ok (tag : bytes) : Prop := nonul tag /\ (length tag <= 800)%nat.

(** C12: on a document that holds a message every reading call is a look-up in the message: a
    value is copied, cut to the buffer, and its full length returned; read as a number;
    compared with a string or another field.  Without the field the result is -1, the
    buffer is zeroed, [*pnData] is untouched, and only the error text of the process has
    changed. *)
Theorem reads_correct x m :
  holds_message x m -> (forall tag d, public m !! tag = Some d -> Z.of_nat (length d) <= INT_MAX) ->
  (forall r d, records m !! r = Some d -> Z.of_nat (length d) <= INT_MAX) ->
  (forall tag psData n, tag_ok tag -> 0 < n <= INT_MAX -> Z.of_nat (length psData) = n ->
    answers (XmlGet tag psData n) ((fun d => (Z.of_nat (length d), filled n d)) <$> public m !! tag) (-1, zeros n) x)
  /\ (forall set id em psData n, tag_ok set -> tag_ok em -> fits_d id -> 0 < n <= INT_MAX -> Z.of_nat (length psData) = n ->
    answers (XmlFetchList set id em psData n) ((fun d => (Z.of_nat (length d), filled n d)) <$> records m !! (set, id, em)) (-1, zeros n) x)
  /\ (forall tag k, tag_ok tag -> answers (XmlIntGet tag k) ((fun d => (0, atoi d)) <$> public m !! tag) (-1, k) x)
  /\ (forall tag s, tag_ok tag -> answers (XmlStringCmp tag s) ((fun d => strcmp d s) <$> public m !! tag) (-1) x)
  /\ (forall t1 t2, tag_ok t1 -> tag_ok t2 ->
    answers (XmlElementCmp t1 t2) (d1 ← public m !! t1; d2 ← public m !! t2; Some (strcmp d1 d2)) (-1) x).
Proof.
  intros [R [t D]] Hp Hr. assert (T : forall tag, tag_ok tag -> looks (tag_value tag) (public m !! tag) x).
  { intros tag [H1 H2]. apply (looks_tag x m t); [exact D|exact R|exact H1|lia]. }
  split; [|split; [|split; [|split]]].
  - intros tag psData n Ht Hn Hl. apply copy_answers; [exact Hn|exact Hl|apply Hp|now apply T].
  - intros set id em psData n [Hs Ls] [He Le] Hi Hn Hl. apply copy_answers; [exact Hn|exact Hl|apply Hr|].
    apply (looks_record x m t); try assumption. lia.
  - intros tag k Ht. now apply (looks_answers _ _ x (-1, k) _ (fun d => (0, atoi d)) (T tag Ht)).
  - intros tag s Ht. now apply (looks_answers _ _ x (-1) _ (fun d => strcmp d s) (T tag Ht)).
  - intros t1 t2 [H1 L1] [H2 L2]. destruct (public_node x m t D (proj2 R)) as (par & prv & nxt & u & W & E & F).
    pose proof (looks_end x par prv nxt u t1 W (proj2 R) ltac:(lia)) as A1. rewrite (F t1 H1) in A1.
    pose proof (looks_end x par prv nxt u t2 W (proj2 R) ltac:(lia)) as A2. rewrite (F t2 H2) in A2.
    unfold answers, XmlElementCmp. rewrite (or_return_Some _ _ _ _ _ _ E), <- or_return_assoc.
    destruct (public m !! t1) as [d1|]; cbn [mbind option_bind].
    + rewrite (or_return_Some _ _ _ _ _ _ A1), <- or_return_assoc.
      pose proof (looks_answers _ _ x (-1) (fun d2 => ret (strcmp d1 d2)) (strcmp d1) A2 (fun _ _ => eq_refl)) as A.
      now destruct (public m !! t2).
    + destruct A1 as (err & Le & E1). exists err. split; [exact Le|]. now apply or_return_None.
Qed.

(** ** Making a document and freeing it *)

Section Documents.
Context (destroy_cb : Z -> Z -> prog xml unit).

(** The nodes [ps] are those of the document of the process, if it has one. *)
Definition owned (x : xml) (ps : list Z) : Prop :=
  bounded x /\ (ps = [] /\ l_pIntXml x = NULL
                \/ exists t, wf x NULL NULL NULL t /\ root t = l_pIntXml x /\ plain t = true /\ ps = ptrs t).

Lemma wf_ext x y par prv nxt t : x_heap y = x_heap x -> x_brk y = x_brk x -> wf x par prv nxt t -> wf y par prv nxt t.
Proof. intros Hh Hb [[B1 B2] N R]. split; [split; rewrite ?Hh, Hb|exact N|now rewrite Hh]; assumption. Qed.

Lemma free_document x ps :
  owned x ps ->
  exists h, mxmlDelete destroy_cb (l_pIntXml x) x = Ret tt (set_x_heap h x) /\ bounded (set_x_heap h x)
    /\ (forall q, q ∈ ps -> h !! q = None) /\ (forall q, q ∉ ps -> h !! q = x_heap x !! q).
Proof.
  intros [B [[-> E]|(t & W & <- & P & ->)]].
  - exists (x_heap x). rewrite E. split; [now destruct x|]. split; [now destruct x|]. split; [|done]. now intros q H%elem_of_nil.
  - destruct (delete_tree destroy_cb x t W P) as (h & E & G & F). exists h. split; [exact E|]. split; [|now split].
    destruct B as [B1 B2]. split; [exact B1|]. intros q. cbn. destruct (decide (q ∈ ptrs t)) as [Hq|Hq].
    + rewrite G by exact Hq. now intros [? ?].
    + rewrite F by exact Hq. apply B2.
Qed.

(** The document [XmlInit] makes. *)
Definition empty_tree (r m p : Z) : ptree :=
  PT r (Element (Some version) []) [PT m (Element (Some (str "Message")) []) [PT p (Element (Some (str "Public")) []) []]].

Lemma empty_document x r m p :
  wf x NULL NULL NULL (empty_tree r m p) -> l_pIntXml x = r -> document x (mkMessage ∅ ∅) (empty_tree r m p).
Proof.
  intros W E. split; [exact W|exact (eq_sym E)|reflexivity|now eexists| |]; intros; cbn [public records]; rewrite lookup_empty; reflexivity.
Qed.

Definition holds_nothing (x : xml) : Prop := ready x /\ exists r m p, document x (mkMessage ∅ ∅) (empty_tree r m p).

Lemma holds_empty x : holds_nothing x -> holds_message x (mkMessage ∅ ∅).
Proof. intros (R & r & m & p & D). split; eauto. Qed.

Lemma XmlInit_new x :
  bounded x -> ready x ->
  exists x', new_document destroy_cb x = Ret 0 x'
    /\ holds_nothing x' /\ forall q, q < x_brk x -> x_heap x' !! q = x_heap x !! q.
Proof.
  intros B [Hal L]. unfold new_document.
  destruct (new_root x version B Hal) as (x1 & E1 & W1 & V1 & Hb1 & F1). rewrite (bind_Ret _ _ _ _ _ E1).
  set (r := x_brk x) in *. erewrite bind_Ret by reflexivity. set (x2 := set_l_pIntXml r x1).
  pose proof (wf_ext x1 x2 _ _ _ _ eq_refl eq_refl W1) as W2. destruct B as [B1 B2].
  rewrite (proj2 (Z.eqb_neq r NULL)) by (unfold r, NULL; lia).
  destruct V1 as (V1a & V1b & V1c & V1d). assert (Hal2 : x_allocs x2 = []) by (cbn; congruence).
  destruct (new_element_edit x2 _ _ _ _ _ [] (str "Message") W2 Hal2) as (m & x3 & E3 & Ed3 & V3 & Hm).
  rewrite (bind_Ret _ _ _ _ _ E3), (proj2 (Z.eqb_neq m NULL)) by exact Hm. cbn [app] in Ed3.
  pose proof (e_wf _ _ _ _ Ed3 _ _ _ W2) as W3. destruct V3 as (V3a & V3b & V3c & V3d).
  pose proof (wf_child _ _ _ _ _ _ [] _ [] W3) as Wm. assert (Hal3 : x_allocs x3 = []) by congruence.
  destruct (new_element_edit x3 _ _ _ _ _ [] (str "Public") Wm Hal3) as (p & x4 & E4 & Ed4 & V4 & Hp).
  rewrite (bind_Ret _ _ _ _ _ E4), (proj2 (Z.eqb_neq p NULL)) by exact Hp. cbn [app] in Ed4.
  pose proof (edit_child _ _ r (Element (Some version) []) [] _ _ [] Ed4) as Ed5. cbn [app] in Ed5.
  destruct V4 as (V4a & V4b & V4c & V4d). exists x4. split; [done|]. split.
  - split; [split; [congruence|rewrite V4d, V3d; cbn; congruence]|].
    exists r, m, p. apply empty_document; [exact (e_wf _ _ _ _ Ed5 _ _ _ W3)|rewrite V4c, V3c; reflexivity].
  - intros q Hq. pose proof (edit_trans _ _ _ _ _ _ Ed3 Ed5) as Ed. rewrite (e_frame _ _ _ _ Ed); [cbn; apply F1; lia| |cbn; lia].
    rewrite ptrs_eq. intros [->|H]%elem_of_cons; [lia|]. now apply elem_of_nil in H.
Qed.

Lemma XmlInit_eq x ps :
  owned x ps -> ready x ->
  exists x', XmlInit destroy_cb x = Ret 0 x' /\ holds_nothing x'
    /\ (forall q, q ∈ ps -> x_heap x' !! q = None)
    /\ (forall q, q < x_brk x -> q ∉ ps -> x_heap x' !! q = x_heap x !! q).
Proof.
  intros O R. unfold XmlInit. erewrite bind_Ret by reflexivity. set (x1 := set_x_callback true x).
  erewrite bind_Ret by reflexivity. assert (O1 : owned x1 ps).
  { destruct O as [B [O|(t & W & H)]]; split; try exact B; [now left|right]. exists t. split; [exact (wf_ext x x1 _ _ _ _ eq_refl eq_refl W)|exact H]. }
  destruct (free_document x1 ps O1) as (h & E & B & G & F). assert (D : when (negb (l_pIntXml x1 =? NULL)) (mxmlDelete destroy_cb (l_pIntXml x1)) x1 = Ret tt (set_x_heap h x1)).
  { destruct (Z.eqb_spec (l_pIntXml x1) NULL) as [E0|]; [|exact E]. rewrite E0 in E. exact E. }
  rewrite (bind_Ret _ _ _ _ _ D). destruct (XmlInit_new (set_x_heap h x1) B R) as (x' & E' & H' & F').
  exists x'. split; [exact E'|]. split; [exact H'|]. split.
  - intros q Hq. assert (Hlt : q < x_brk x).
    { destruct O as [_ [[-> _]|(t & W & _ & _ & ->)]]; [now apply elem_of_nil in Hq|]. now apply (wf_below _ _ _ _ _ q W). }
    rewrite F' by exact Hlt. now apply G.
  - intros q Hlt Hq. rewrite F' by exact Hlt. now apply F.
Qed.

(** C13: whether or not the process had a document, and while no allocation fails, [XmlInit]
    returns 0 and leaves a document
    that holds the empty message; every node of the old document has been freed, once, and
    every other node is as it was. *)
Theorem XmlInit_correct x ps :
  owned x ps -> ready x ->
  exists x', XmlInit destroy_cb x = Ret 0 x' /\ holds_message x' (mkMessage ∅ ∅)
    /\ (forall q, q ∈ ps -> x_heap x' !! q = None)
    /\ (forall q, q < x_brk x -> q ∉ ps -> x_heap x' !! q = x_heap x !! q).
Proof.
  intros O R. destruct (XmlInit_eq x ps O R) as (x' & E & H & F). exists x'. split; [exact E|]. split; [now apply holds_empty|exact F].
Qed.

Lemma XmlFree_correct x ps :
  owned x ps ->
  exists h, XmlFree destroy_cb x = Ret tt (set_l_pIntXml NULL (set_x_heap h x))
    /\ (forall q, q ∈ ps -> h !! q = None) /\ (forall q, q ∉ ps -> h !! q = x_heap x !! q)
    /\ owned (set_l_pIntXml NULL (set_x_heap h x)) [].
Proof.
  intros O. destruct (free_document x ps O) as (h & E & B & G & F). exists h. split; [|split; [exact G|split; [exact F|]]].
  - unfold XmlFree. erewrite bind_Ret by reflexivity. now rewrite (bind_Ret _ _ _ _ _ E).
  - split; [exact B|now left].
Qed.

Lemma granted_next x b l : x_allocs x = b :: l -> granted x = Ret b (set_x_allocs l x).
Proof. intros H. unfold granted, bind, get. cbn [obind]. now rewrite H. Qed.

(** Deleting a node that is not there. *)
Lemma delete_missing p x : p <> NULL -> x_heap x !! p = None -> mxmlDelete destroy_cb p x = Fault.
Proof.
  intros Hp H. unfold mxmlDelete. erewrite bind_Ret by reflexivity. cbn [delete_node].
  rewrite (proj2 (Z.eqb_neq p NULL)) by exact Hp. unfold mxmlRemove. rewrite (proj2 (Z.eqb_neq p NULL)) by exact Hp.
  unfold bind, node_at. now rewrite H.
Qed.

(** The root of a document was made and then nothing more. *)
Lemma new_document_fails x b rest :
  bounded x -> length (l_sXmlError x) = 1024%nat -> x_allocs x = true :: b :: false :: rest ->
  exists x', new_document destroy_cb x = Ret (-1) x' /\ l_pIntXml x' = x_brk x /\ x_heap x' !! x_brk x = None.
Proof.
  intros B L Hal. pose proof (bounded_new x) as BN. set (r := x_brk x) in *. set (n0 := mkNode NULL NULL NULL NULL NULL (Element None []) 1).
  set (d := if b then Some version else None). set (n1 := set_value (Element d []) n0).
  assert (Hr : r <> NULL) by (destruct B; unfold r, NULL; lia).
  set (y := set_x_allocs (b :: false :: rest) x). set (x1 := set_x_brk (r + 1) (set_x_heap (<[r := n0]> (x_heap x)) y)).
  set (x2 := set_x_allocs (false :: rest) x1). set (x3 := set_x_heap (<[r := n1]> (x_heap x2)) x2).
  assert (E1 : mxmlNewElement NULL (Some version) x = Ret r x3).
  { unfold mxmlNewElement, new_string_node. rewrite (bind_Ret _ _ _ _ _ (mxml_new_root x _ y (granted_next x true _ Hal))).
    change (x_brk y) with r. rewrite (proj2 (Z.eqb_neq r NULL)) by exact Hr. fold n0.
    change (set_x_brk _ _) with x1. rewrite (bind_Ret (strdup version) _ x1 d x2).
    2:{ unfold strdup. now rewrite (bind_Ret _ _ _ _ _ (granted_next x1 b (false :: rest) eq_refl)). }
    rewrite (upd_node_then r _ _ x2 n0 (lookup_insert_eq _ _ _)). reflexivity. }
  unfold new_document. rewrite (bind_Ret _ _ _ _ _ E1). erewrite bind_Ret by reflexivity.
  rewrite (proj2 (Z.eqb_neq r NULL)) by exact Hr. set (x4 := set_l_pIntXml r x3).
  rewrite (bind_Ret (mxmlNewElement r _) _ x4 NULL (set_x_allocs rest x4)).
  2:{ unfold mxmlNewElement, new_string_node, mxml_new. rewrite bind_assoc, (bind_Ret _ _ _ _ _ (granted_next x4 false rest eq_refl)). reflexivity. }
  change (NULL =? NULL) with true. cbn match. set (x5 := set_x_allocs rest x4).
  assert (W : wf x5 NULL NULL NULL (PT r (Element d []) [])).
  { apply (single_wf _ _ _ 1); [|apply lookup_insert_eq]. apply (BN x5 n1 B); [|done]. cbn. now rewrite insert_insert_eq. }
  destruct (delete_tree destroy_cb x5 _ W eq_refl) as (h & Ed & G & _). rewrite (bind_Ret _ _ _ _ _ Ed).
  destruct (XmlSetError_eq (unable_to_add (str "Message")) (set_x_heap h x5)) as (err & _ & Ee); [exact L|cbn; lia|].
  rewrite (bind_Ret _ _ _ _ _ Ee). eexists. split; [reflexivity|]. split; [done|]. apply G. rewrite ptrs_eq. left.
Qed.

(** C24: when the allocation of the element below the root fails, [XmlInit] frees the root
    and returns -1 but keeps the pointer to it: the next call of [XmlInit], as of
    [XmlFree], deletes the freed node again. *)
Theorem XmlInit_dangling x b rest :
  bounded x -> l_pIntXml x = NULL -> length (l_sXmlError x) = 1024%nat -> x_allocs x = true :: b :: false :: rest ->
  exists x', XmlInit destroy_cb x = Ret (-1) x' /\ XmlInit destroy_cb x' = Fault /\ XmlFree destroy_cb x' = Fault.
Proof.
  intros B E L Hal. destruct (new_document_fails (set_x_callback true x) b rest B L Hal) as (x' & E' & Hl & Hh). exists x'.
  assert (Hr : x_brk x <> NULL) by (destruct B; unfold NULL; lia). split; [|split].
  - unfold XmlInit. erewrite bind_Ret by reflexivity. erewrite bind_Ret by reflexivity. cbn [l_pIntXml set_x_callback]. rewrite E. exact E'.
  - unfold XmlInit. erewrite bind_Ret by reflexivity. erewrite bind_Ret by reflexivity. cbn [l_pIntXml set_x_callback]. rewrite Hl.
    rewrite (proj2 (Z.eqb_neq (x_brk _) NULL)) by exact Hr. cbn [negb when]. unfold bind.
    now rewrite (delete_missing (x_brk x)).
  - unfold XmlFree. erewrite bind_Ret by reflexivity. rewrite Hl. unfold bind. now rewrite (delete_missing (x_brk x)).
Qed.
End Documents.

(** ** What the calls do not promise *)

(** The buffer of [XmlIntSet] does not hold every [int]. *)
Lemma XmlIntSet_overflow x m tag n :
  holds_message x m -> INT_MIN <= n <= - 10 ^ 9 -> XmlIntSet tag n x = Fault.
Proof.
  intros [R [t D]] Hn. destruct (public_node x m t D (proj2 R)) as (par & prv & nxt & u & W & E & _). destruct u as [p v ts].
  destruct (find_or_add_edit x _ _ _ p v ts (Tag tag) W (proj1 R)) as (a & u & b & x1 & E1 & _).
  unfold XmlIntSet. rewrite (or_return_Some _ _ _ _ _ _ E), (or_return_Some _ _ _ _ _ _ E1). unfold bind. now rewrite sprintf_d_overflow.
Qed.

(** ** Examples *)

Definition no_destructor (destroy data : Z) : prog xml unit := ret tt.
Definition before_init : xml := mkXml ∅ 1 [] false NULL (zeros 1024).
Definition after_init : xml := match XmlInit no_destructor before_init with Ret _ x => x | _ => before_init end.

Lemma before_init_owned : owned before_init [].
Proof.
  split; [|now left]. split; [done|]. intros p. cbn. rewrite lookup_empty. now intros [? ?].
Qed.

Lemma before_init_ready : ready before_init.
Proof. split; [reflexivity|]. apply Nat2Z.inj. exact (length_zeros 1024 ltac:(lia)). Qed.

Lemma after_init_empty : holds_message after_init (mkMessage ∅ ∅).
Proof.
  pose proof (XmlInit_new no_destructor (set_x_callback true before_init) (proj1 before_init_owned) before_init_ready) as (x' & E & H & _).
  unfold after_init, XmlInit. erewrite bind_Ret by reflexivity. erewrite bind_Ret by reflexivity. cbn [l_pIntXml set_x_callback before_init].
  change (NULL =? NULL) with true. cbn [negb when]. rewrite bind_ret_l, E. now apply holds_empty.
Qed.

Definition demo_writes : list write :=
  [DoSet (str "TransCode") (str "1001"); DoIntSet (str "Count") 2; DoAddList (str "Items") 1 (str "Name") (str "first");
   DoCharSet (str "Flag") "Y"%char; DoAddIntList (str "Items") 2 (str "Amount") (-5); DoSet (str "TransCode") (str "1002")].

Lemma demo_writes_ok : Forall write_ok demo_writes.
Proof.
  repeat constructor; unfold fits_d, INT_MAX; try lia; discriminate.
Qed.

Lemma writes_refine_witness :
  exists x', run_writes demo_writes after_init = Ret [0; 0; 0; 0; 0; 0] x'
    /\ holds_message x' (fold_left (fun m w => apply_write w m) demo_writes (mkMessage ∅ ∅)).
Proof. exact (writes_refine demo_writes after_init _ after_init_empty demo_writes_ok). Defined.

Definition demo_document : xml := match run_writes demo_writes after_init with Ret _ x => x | _ => after_init end.

Lemma reads_correct_witness :
  exists x, XmlGet (str "TransCode") (zeros 3) 3 x = Ret (4, str "10" ++ [NUL]) x.
Proof.
  destruct (write_step (DoSet (str "TransCode") (str "1001")) after_init _ after_init_empty) as (x & _ & H); [repeat constructor; discriminate|].
  exists x. refine (proj1 (reads_correct x _ H _ _) (str "TransCode") (zeros 3) 3 _ _ _).
  - cbn. intros tag d [[_ <-]|[_ Hd]]%lookup_insert_Some; [now vm_compute|]. now rewrite lookup_empty in Hd.
  - cbn. intros r d Hd. now rewrite lookup_empty in Hd.
  - split; [repeat constructor; discriminate|cbn; lia].
  - unfold INT_MAX. lia.
  - reflexivity.
Defined.

Lemma document_owned x m : holds_message x m -> exists t, owned x (ptrs t).
Proof.
  intros [_ [t [W R P _ _ _]]]. exists t. split; [apply (wf_bounded _ _ _ _ _ W)|]. right. exists t. split; [exact W|]. split; [exact R|]. now split.
Qed.

Lemma XmlInit_correct_witness :
  exists t x', XmlInit no_destructor after_init = Ret 0 x' /\ holds_message x' (mkMessage ∅ ∅)
    /\ forall q, q ∈ ptrs t -> x_heap x' !! q = None.
Proof.
  destruct (document_owned _ _ after_init_empty) as [t O].
  destruct (XmlInit_correct no_destructor after_init (ptrs t) O (proj1 after_init_empty)) as (x' & E & H & G & _).
  exists t, x'. exact (conj E (conj H G)).
Defined.

Lemma XmlInit_dangling_witness :
  exists x', XmlInit no_destructor (set_x_allocs [true; true; false] before_init) = Ret (-1) x'
    /\ XmlInit no_destructor x' = Fault /\ XmlFree no_destructor x' = Fault.
Proof.
  apply (XmlInit_dangling no_destructor (set_x_allocs [true; true; false] before_init) true []);
    [apply before_init_owned|reflexivity|apply before_init_ready|reflexivity].
Defined.

(** A value that could not be copied is lost, and the call succeeds. *)
Lemma XmlSet_loses_value :
  match (let* rc := XmlSet (str "TransCode") (Some (str "1003")) in let* got := XmlGet (str "TransCode") (zeros 5) 5 in ret (rc, got))
    (set_x_allocs [false] demo_document) with
  | Ret r _ => r = (0, (-1, zeros 5))
  | _ => False
  end.
Proof. vm_compute. reflexivity. Qed.
