(* ===== verification/Mxmlsave.v ===== *)
(** * Writing XML: the saving half of [src/dev/src/pubfun/xml/mxml-file.c]

    A tree is written character by character through a callback, into a string whose size
    is given ([mxmlSaveString]) or to a file ([mxmlSaveFile]).  A character is an [int]: a
    byte of the text with its sign.  [None] stands for [return (-1)].  The columns counted
    are those of the text written so far, which is shorter than the wrap margin
    0x7F000000.  No custom callback is ever installed. *)

From Stdlib Require Import ZArith Lia Bool List Ascii String.
From stdpp Require Import base list gmap.
From S2P Require Import Prelude Cstr Mxmlentity Mxmltree Xml.

(** ** Characters *)

(** The bytes of a character: one below 0x80, else UTF-8. *)
Definition utf8 (ch : Z) : bytes :=
  if ch <? 128 then [to_char ch]
  else if ch <? 2048 then [to_char (Z.lor 192 (Z.shiftr ch 6)); to_char (Z.lor 128 (Z.land ch 63))]
  else if ch <? 65536 then
    [to_char (Z.lor 224 (Z.shiftr ch 12)); to_char (Z.lor 128 (Z.land (Z.shiftr ch 6) 63)); to_char (Z.lor 128 (Z.land ch 63))]
  else
    [to_char (Z.lor 240 (Z.shiftr ch 18)); to_char (Z.lor 128 (Z.land (Z.shiftr ch 12) 63));
     to_char (Z.lor 128 (Z.land (Z.shiftr ch 6) 63)); to_char (Z.lor 128 (Z.land ch 63))].

(** The two pointers of [mxmlSaveString] as offsets, and the memory they point into. *)
Record sink := mkSink { k_buffer : bytes; k_pos : Z; k_end : Z }.

Definition set_k_buffer (b : bytes) (k : sink) : sink := mkSink b (k_pos k) (k_end k).
Definition set_k_pos (p : Z) (k : sink) : sink := mkSink (k_buffer k) p (k_end k).

(** The last case tests for room for three bytes and writes four. *)
Definition mxml_string_putc (ch : Z) : prog sink Z :=
  let* k := get id in
  let room := if ch <? 128 then 0 else if ch <? 2048 then 1 else 2 in
  when (k_pos k + room <? k_end k)
    (let* b := deref (st (k_pos k) (utf8 ch) (k_buffer k)) in modify (set_k_buffer b)) ;;;
  modify (set_k_pos (k_pos k + Z.of_nat (length (utf8 ch)))) ;;;
  ret 0.

(** A file, and which of the next writes succeed; those behind the end do. *)
Record file := mkFile { f_written : bytes; f_outcomes : list bool }.

Definition write_file (bs : bytes) : prog file bool :=
  let* f := get id in
  match f_outcomes f with
  | [] => modify (fun f => mkFile (f_written f ++ bs) []) ;;; ret true
  | true :: l => modify (fun f => mkFile (f_written f ++ bs) l) ;;; ret true
  | false :: l => modify (fun f => mkFile (f_written f) l) ;;; ret false
  end.

Definition mxml_file_putc (ch : Z) : prog file Z :=
  let* ok := write_file (utf8 ch) in ret (if (ok : bool) then 0 else -1).

(** ** The writer *)

Definition wrap : Z := 0x7F000000.
Definition MXML_TAB : Z := 8.
Definition MXML_WS_BEFORE_OPEN : Z := 0.
Definition MXML_WS_AFTER_OPEN : Z := 1.
Definition MXML_WS_BEFORE_CLOSE : Z := 2.
Definition MXML_WS_AFTER_CLOSE : Z := 3.

Section Write.
(** The output, the tree, the whitespace callback if there is one, and [%f]. *)
Context {S : Type} (putc_cb : Z -> prog S Z) (heap : gmap Z mxml_node_t) (cb : option (Z -> Z -> prog S (option bytes))) (fmt_f : Z -> bytes).

(** The call of [putc_cb] and the test of its result. *)
Definition put {A} (ch : Z) (k : prog S (option A)) : prog S (option A) :=
  let* rc := putc_cb ch in if rc <? 0 then ret None else k.

Fixpoint put_all {A} (s : bytes) (k : prog S (option A)) : prog S (option A) :=
  match s with [] => k | c :: s => put (schar c) (put_all s k) end.

(** [return (-1)] is passed on. *)
Definition or_fail {A B} (m : prog S (option A)) (k : A -> prog S (option B)) : prog S (option B) :=
  let* o := m in match o with None => ret None | Some a => k a end.

Fixpoint mxml_write_string (s : bytes) : prog S (option Z) :=
  match s with
  | [] => ret (Some 0)
  | c :: s =>
      match mxmlEntityGetName (schar c) with
      | Some name => put (uchar "&"%char) (put_all name (put (uchar ";"%char) (mxml_write_string s)))
      | None => put (schar c) (mxml_write_string s)
      end
  end.

Definition is_quote (c : ascii) : bool := ceqb c QUOTE || ceqb c "'"%char.

Fixpoint write_quoted (quote : ascii) (s : bytes) : prog S (option Z) :=
  match s with
  | [] => put (schar quote) (ret (Some 0))
  | c :: s =>
      if ceqb c quote then put (schar quote) (ret (Some 0))
      else
        match mxmlEntityGetName (schar c) with
        | Some name => put (uchar "&"%char) (put_all name (put (uchar ";"%char) (write_quoted quote s)))
        | None => put (schar c) (write_quoted quote s)
        end
  end.

Definition mxml_write_name (s : bytes) : prog S (option Z) :=
  match s with
  | c :: s' => if is_quote c then put (schar c) (write_quoted c s') else put_all s (ret (Some 0))
  | [] => ret (Some 0)
  end.

Fixpoint write_ws (s : bytes) (col : Z) : prog S Z :=
  match s with
  | [] => ret col
  | c :: s =>
      let* rc := putc_cb (schar c) in
      if rc <? 0 then ret (-1)
      else write_ws s (if ceqb c LF then 0 else if ceqb c TAB then col + MXML_TAB - Z.rem (col + MXML_TAB) MXML_TAB else col + 1)
  end.

Definition mxml_write_ws (node ws col : Z) : prog S Z :=
  match cb with
  | Some cb => let* o := cb node ws in match o with Some s => write_ws s col | None => ret col end
  | None => ret col
  end.

(** The separator in front of a value: a newline behind the margin, else a blank. *)
Definition separator {A} (col : Z) (k : Z -> prog S (option A)) : prog S (option A) :=
  if wrap <? col then put (uchar LF) (k 0) else put (uchar SP) (k (col + 1)).

Definition len (s : bytes) : Z := Z.of_nat (length s).

(** The loop over the attributes. *)
Fixpoint write_attrs (attrs : list mxml_attr_t) (col : Z) : prog S (option Z) :=
  match attrs with
  | [] => ret (Some col)
  | a :: attrs =>
      let width := len (a_name a) + match a_value a with Some v => len v + 3 | None => 0 end in
      let continue (col : Z) :=
        or_fail (mxml_write_name (a_name a)) (fun _ =>
        match a_value a with
        | Some v =>
            put (uchar "="%char) (put (uchar QUOTE) (or_fail (mxml_write_string v) (fun _ => put (uchar QUOTE)
              (write_attrs attrs (col + width)))))
        | None => write_attrs attrs (col + width)
        end) in
      if wrap <? col + width then put (uchar LF) (continue 0) else put (uchar SP) (continue (col + 1))
  end.

(** [!strncmp(name, prefix, n)]. *)
Definition starts_with (prefix name : bytes) : bool := strneq (length prefix) name prefix.
Definition first_char (s : bytes) : ascii := List.hd NUL s.

Definition write_open_name (name : bytes) : prog S (option Z) :=
  if ceqb (first_char name) "?"%char || starts_with (str "!--") name || starts_with (str "![CDATA[") name
  then put_all name (ret (Some 0))
  else mxml_write_name name.

(** The case [MXML_ELEMENT]; [write_children] writes from the first child on. *)
Definition write_element (write_children : Z -> Z -> prog S (option Z)) (node : Z) (n : mxml_node_t)
    (name : bytes) (attrs : list mxml_attr_t) (col : Z) : prog S (option Z) :=
  let* col := mxml_write_ws node MXML_WS_BEFORE_OPEN col in
  put (uchar "<"%char) (
  or_fail (write_open_name name) (fun _ =>
  or_fail (write_attrs attrs (col + len name + 1)) (fun col =>
  let special := ceqb (first_char name) "!"%char || ceqb (first_char name) "?"%char in
  if negb (child n =? NULL) then
    put (uchar ">"%char) (
    let* col := mxml_write_ws node MXML_WS_AFTER_OPEN (col + 1) in
    or_fail (write_children (child n) col) (fun col =>
    if negb special then
      let* col := mxml_write_ws node MXML_WS_BEFORE_CLOSE col in
      put (uchar "<"%char) (put (uchar "/"%char) (
      or_fail (mxml_write_string name) (fun _ =>
      put (uchar ">"%char) (
      let* col := mxml_write_ws node MXML_WS_AFTER_CLOSE (col + len name + 3) in ret (Some col)))))
    else ret (Some col)))
  else if special then
    put (uchar ">"%char) (let* col := mxml_write_ws node MXML_WS_AFTER_CLOSE (col + 1) in ret (Some col))
  else
    put (uchar SP) (put (uchar "/"%char) (put (uchar ">"%char) (
    let* col := mxml_write_ws node MXML_WS_AFTER_CLOSE (col + 3) in ret (Some col))))))).

Definition write_value (s : bytes) (col : Z) : prog S (option Z) :=
  or_fail (mxml_write_string s) (fun _ => ret (Some (col + len s))).

(** [sprintf( s, ... ); mxml_write_string( s )] with the 255 bytes of [s]. *)
Definition write_number (s : bytes) (col : Z) : prog S (option Z) :=
  let* s := deref (if len s <? 255 then Some s else None) in write_value s col.

(** The loop over the siblings.  Every call and every turn is for another node, so that
    more fuel than there are nodes is enough. *)
Fixpoint mxml_write_node (fuel : nat) (node col : Z) : prog S (option Z) :=
  match fuel with
  | O => spin
  | Datatypes.S fuel =>
      if node =? NULL then ret (Some col)
      else
        let* n := deref (heap !! node) in
        or_fail
          match value n with
          | Element None _ | Opaque None | Text _ None => fault
          | Element (Some name) attrs =>
              write_element (fun node col =>
                or_fail (mxml_write_node fuel node col) (fun col => ret (if col <? 0 then None else Some col)))
                node n name attrs col
          | Integer integer =>
              if negb (prev n =? NULL) then separator col (write_number (fmt_d integer)) else write_number (fmt_d integer) col
          | Opaque (Some opaque) => write_value opaque col
          | Real real =>
              if negb (prev n =? NULL) then separator col (write_number (fmt_f real)) else write_number (fmt_f real) col
          | Text whitespace (Some string) =>
              if negb (whitespace =? 0) && (0 <? col) then separator col (write_value string) else write_value string col
          | Custom _ _ | Ignore => ret None
          end
          (fun col => mxml_write_node fuel (next n) col)
  end.

Definition write_tree (node : Z) : prog S Z :=
  let* o := mxml_write_node (Datatypes.S (size heap)) node 0 in ret (default (-1) o).
End Write.

(** ** Indentation for files *)

Section Whitespace.
Context {S : Type} (heap : gmap Z mxml_node_t).

Definition at_node (p : Z) : prog S mxml_node_t := deref (heap !! p).

(** [strcat] to the 100 bytes of [fill]. *)
Definition fill_cat (s fill : bytes) : prog S bytes := deref (if len (fill ++ s) <? 100 then Some (fill ++ s) else None).

(** [level] counts from 1 to 30. *)
Fixpoint indent (turns : nat) (node : Z) (fill : bytes) : prog S bytes :=
  match turns with
  | O => ret fill
  | Datatypes.S turns =>
      if node =? NULL then ret fill
      else
        let* n := at_node node in
        if parent n =? NULL then ret fill
        else let* fill := fill_cat (str "  ") fill in indent turns (parent n) fill
  end.

(** The first element from [node] on, along [next] or [prev]. *)
Fixpoint find_element (step : mxml_node_t -> Z) (fuel : nat) (node : Z) : prog S Z :=
  match fuel with
  | O => spin
  | Datatypes.S fuel =>
      if node =? NULL then ret NULL
      else
        let* n := at_node node in
        match value n with
        | Element _ _ => ret node
        | _ => find_element step fuel (step n)
        end
  end.

Definition _write_ws_cb (tree where_ : Z) : prog S (option bytes) :=
  if where_ =? MXML_WS_AFTER_CLOSE then let* fill := fill_cat [LF] [] in ret (Some fill)
  else if where_ =? MXML_WS_BEFORE_CLOSE then
    let* n := at_node tree in
    let* node := find_element next (Datatypes.S (size heap)) (child n) in
    if negb (node =? NULL) then let* fill := indent 29 (parent n) [] in ret (Some fill) else ret (Some [])
  else if where_ =? MXML_WS_BEFORE_OPEN then
    let* n := at_node tree in
    let* node := find_element prev (Datatypes.S (size heap)) (prev n) in
    let* fill := if (node =? NULL) && negb (parent n =? NULL) then fill_cat [LF] [] else ret [] in
    let* fill := indent 29 (parent n) fill in ret (Some fill)
  else ret (Some []).
End Whitespace.

(** ** Saving *)

(** [m] runs with a state of its own, which is its second result. *)
Definition with_state {X S A} (m : prog S A) (s : S) : prog X (A * S) := fun x =>
  match m s with
  | Ret a s => Ret (a, s) x
  | Jump v _ => Jump v x
  | Exit v _ => Exit v x
  | Block _ => Block x
  | Spin => Spin
  | Fault => Fault
  end.

Section Save.
Context (fmt_f : Z -> bytes).

Definition save_string (heap : gmap Z mxml_node_t) (cb : option (Z -> Z -> prog sink (option bytes))) (node bufsize : Z) : prog sink Z :=
  let* col := write_tree mxml_string_putc heap cb fmt_f node in
  if col <? 0 then ret (-1)
  else
    when (0 <? col) (mxml_string_putc (uchar LF) ;;; ret tt) ;;;
    let* k := get id in
    let* b := deref (st (if k_end k <=? k_pos k then bufsize - 1 else k_pos k) [NUL] (k_buffer k)) in
    modify (set_k_buffer b) ;;;
    ret (k_pos k).

(** The result and the buffer. *)
Definition mxmlSaveString (node : Z) (buffer : bytes) (bufsize : Z) (cb : option (Z -> Z -> prog sink (option bytes))) : prog xml (Z * bytes) :=
  let* h := get x_heap in
  let* (rc, k) := with_state (save_string h cb node bufsize) (mkSink buffer 0 bufsize) in
  ret (rc, k_buffer k).

Definition save_file (heap : gmap Z mxml_node_t) (cb : option (Z -> Z -> prog file (option bytes))) (node : Z) : prog file Z :=
  let cb := match cb with None => _write_ws_cb heap | Some cb => cb end in
  let* col := write_tree mxml_file_putc heap (Some cb) fmt_f node in
  if col <? 0 then ret (-1)
  else if 0 <? col then let* ok := write_file [LF] in ret (if (ok : bool) then 0 else -1)
  else ret 0.

(** The result and the file. *)
Definition mxmlSaveFile (node : Z) (fp : file) (cb : option (Z -> Z -> prog file (option bytes))) : prog xml (Z * file) :=
  let* h := get x_heap in with_state (save_file h cb node) fp.

Definition XmlSaveString (psData : bytes) (nSize : Z) : prog xml (Z * bytes) :=
  let* root := get l_pIntXml in mxmlSaveString root psData nSize None.

Definition XmlShow (fp : file) : prog xml (Z * file) :=
  let* root := get l_pIntXml in mxmlSaveFile root fp None.
End Save.
