(* ===== verification/Mxmlload.v ===== *)
(** * Reading XML: the loading half of [src/dev/src/pubfun/xml/mxml-file.c]

    [mxml_load_data] reads character by character and builds the tree.  It is the loader
    without a type callback and without a SAX callback, which is how [xml.c] calls it, so
    that the type of a value is always text.  The class [Source] is what it is told of the
    input: the function [getc_cb] with its pointer.  [mxmlLoadString] reads a string;
    files and descriptors follow in Mxmlstream.v.  A character is an [int] from 0 to 255:
    the condition in front of the UTF-8 and UTF-16 cases of the readers and of
    [mxml_add_char] holds for every byte, so that the encoding never changes.  The string
    buffers grow by [realloc]; writing behind the end of one and freeing one twice are
    faults. *)

From Stdlib Require Import ZArith Lia Bool List Ascii String.
From stdpp Require Import base list gmap.
From S2P Require Import Prelude Cstr Mxmlentity Mxmltree Xml Mxmlsave.

Definition EOF : Z := -1.

(** The process and what is read from. *)
Record loader (T : Type) := mkLoader { o_xml : xml; o_source : T }.
Arguments mkLoader {T} o_xml o_source.
Arguments o_xml {T} _.
Arguments o_source {T} _.

Definition set_o_source {T} (s : T) (o : loader T) : loader T := mkLoader (o_xml o) s.

Definition in_xml {T A} (m : prog xml A) : prog (loader T) A := fun o =>
  match m (o_xml o) with
  | Ret a x => Ret a (mkLoader x (o_source o))
  | Jump v x => Jump v (mkLoader x (o_source o))
  | Exit v x => Exit v (mkLoader x (o_source o))
  | Block x => Block (mkLoader x (o_source o))
  | Spin => Spin
  | Fault => Fault
  end.

Definition load_error {T} (format : bytes) : prog (loader T) unit := in_xml (mxml_error format).

(** ** Characters *)

Definition mxml_bad_char (ch : Z) : bool := (ch <? 32) && negb (ch =? 10) && negb (ch =? 13) && negb (ch =? 9).
Definition mxml_isspace (ch : Z) : bool := (ch =? 32) || (ch =? 9) || (ch =? 13) || (ch =? 10).

(** [%02x] of a character that is below 32. *)
Definition fmt_02x_int (ch : Z) : bytes :=
  if 0 <=? ch then [hexdigit (ch / 16); hexdigit (ch mod 16)]
  else map (fun k => hexdigit (Z.shiftr (u32 ch) (4 * k) mod 16)) [7; 6; 5; 4; 3; 2; 1; 0].

Definition mxml_string_getc : prog (loader bytes) Z :=
  let* s := get o_source in
  match s with
  | [] => ret EOF
  | c :: s =>
      modify (set_o_source s) ;;;
      let ch := uchar c in
      if mxml_bad_char ch then
        load_error (str "Bad control character 0x" ++ fmt_02x_int ch ++ str " not allowed by XML standard!") ;;; ret EOF
      else ret ch
  end.

(** What [getc_cb] and [p] stand for: the next character, and how many are left. *)
Class Source (T : Type) := {
  getc : prog (loader T) Z;
  unread : T -> nat
}.

#[export] Instance string_source : Source bytes := {| getc := mxml_string_getc; unread := length |}.

Section Reader.
Context {T : Type} `{Src : Source T}.

(** ** Loops

    The body of a loop goes on with [inl] and leaves it with [inr].  A turn that goes on
    has read a character, or found the end, which the next turn sees: two
    turns more than there are characters are enough. *)

Fixpoint loop {V R} (fuel : nat) (body : V -> prog (loader T) (V + R)) (v : V) : prog (loader T) R :=
  match fuel with
  | O => spin
  | S fuel => let* o := body v in match o with inl v => loop fuel body v | inr r => ret r end
  end.

Definition while_ {V R} (body : V -> prog (loader T) (V + R)) (v : V) : prog (loader T) R :=
  let* s := get o_source in loop (S (S (unread s))) body v.

(** [while ((ch = getc_cb(p, encoding)) != EOF) body], where [at_eof] is what the end of the
    string leaves. *)
Definition each_char {V R} (body : Z -> V -> prog (loader T) (V + R)) (at_eof : V -> R) (v : V) : prog (loader T) (V + R) :=
  let* ch := getc in if ch =? EOF then ret (inr (at_eof v)) else body ch v.

Definition while_getc {V R} (body : Z -> V -> prog (loader T) (V + R)) (at_eof : V -> R) (v : V) : prog (loader T) R :=
  while_ (each_char body at_eof) v.

(** ** Buffers *)

(** The characters in front of [bufptr], the allocated size, and whether it is. *)
Record strbuf := mkBuf { b_text : bytes; b_size : Z; b_live : bool }.

Definition clear (b : strbuf) : strbuf := mkBuf [] (b_size b) (b_live b).

Definition malloc64 : prog (loader T) (option strbuf) :=
  let* ok := in_xml granted in ret (if (ok : bool) then Some (mkBuf [] 64 true) else None).

Definition free_buf (b : strbuf) : prog (loader T) unit := if b_live b then ret tt else fault.

(** Characters are stored at [bufptr]. *)
Definition store (bs : bytes) (b : strbuf) : prog (loader T) strbuf :=
  deref (if len (b_text b ++ bs) <=? b_size b then Some (mkBuf (b_text b ++ bs) (b_size b) (b_live b)) else None).

(** [*bufptr = '\0'] *)
Definition terminate (b : strbuf) : prog (loader T) unit := store [NUL] b ;;; ret tt.

Definition char_bytes (ch : Z) : bytes := if (ch <? 128) || negb (Z.land ch 128 =? 0) then [to_char ch] else utf8 ch.

(** 0 or -1, and the buffer: when it cannot grow it has been freed. *)
Definition mxml_add_char (ch : Z) (b : strbuf) : prog (loader T) (Z * strbuf) :=
  if b_size b - 4 <=? len (b_text b) then
    let bufsize := if b_size b <? 1024 then b_size b * 2 else b_size b + 1024 in
    let* ok := in_xml granted in
    if (ok : bool) then let* b := store (char_bytes ch) (mkBuf (b_text b) bufsize (b_live b)) in ret (0, b)
    else
      free_buf b ;;; load_error (str "Unable to expand string buffer to " ++ fmt_d bufsize ++ str " bytes!") ;;;
      ret (-1, mkBuf (b_text b) bufsize false)
  else let* b := store (char_bytes ch) b in ret (0, b).

(** ** Entities *)

(** The name of an element in a message. *)
Definition element_name (null : bytes) (node : Z) : prog (loader T) bytes :=
  if node =? NULL then ret null
  else
    let* n := in_xml (node_at node) in
    match value n with Element e _ => ret (default (str "(null)") e) | _ => fault end.

Definition error_at (node : Z) (a b : bytes) : prog (loader T) unit :=
  let* e := element_name (str "null") node in load_error (a ++ str " parent <" ++ e ++ str ">" ++ b).

Definition isalnum (c : ascii) : bool :=
  isdigit c || ((65 <=? uchar c) && (uchar c <=? 90)) || ((97 <=? uchar c) && (uchar c <=? 122)).

Definition hex_value (c : ascii) : option Z :=
  if isdigit c then Some (uchar c - 48)
  else if (65 <=? uchar c) && (uchar c <=? 70) then Some (uchar c - 55)
  else if (97 <=? uchar c) && (uchar c <=? 102) then Some (uchar c - 87)
  else None.

Fixpoint hex_digits (acc : Z) (s : bytes) : Z :=
  match s with
  | c :: s => match hex_value c with Some d => hex_digits (16 * acc + d) s | None => acc end
  | [] => acc
  end.

(** [strtol(s, NULL, 16)] of letters, digits and number signs: the prefix [0x] is skipped
    in front of a digit. *)
Definition strtol16 (s : bytes) : Z :=
  clamp_long
    match s with
    | "0"%char :: x :: c :: s' =>
        if (ceqb x "x"%char || ceqb x "X"%char) && bool_decide (is_Some (hex_value c)) then hex_digits 0 (c :: s') else hex_digits 0 s
    | _ => hex_digits 0 s
    end.

(** The characters of a name and the one behind them. *)
Definition read_entity (par : Z) : prog (loader T) (Z * bytes) :=
  while_getc (fun ch entity =>
    if (126 <? ch) || (negb (isalnum (to_char ch)) && negb (ch =? uchar "#"%char)) then ret (inr (ch, entity))
    else if len entity <? 63 then ret (inl (entity ++ [to_char ch]))
    else error_at par (str "Entity name too long under") (str "!") ;;; ret (inr (ch, entity)))
  (fun entity => (EOF, entity)) [].

Definition mxml_get_entity (par : Z) : prog (loader T) Z :=
  let* (ch, entity) := read_entity par in
  if negb (ch =? uchar ";"%char) then
    error_at par (str "Character entity " ++ quoted entity ++ str " not terminated under") (str "!") ;;; ret EOF
  else
    let* ch :=
      match entity with
      | "#"%char :: "x"%char :: s => ret (i32 (strtol16 s))
      | "#"%char :: s => ret (i32 (atol s))
      | _ =>
          let* ch := deref (mxmlEntityGetValue entity) in
          when (ch <? 0) (error_at par (str "Entity name " ++ quoted (entity ++ str ";") ++ str " not supported under") (str "!")) ;;;
          ret ch
      end in
    if mxml_bad_char ch then
      error_at par (str "Bad control character 0x" ++ fmt_02x_int ch ++ str " under") (str " not allowed by XML standard!") ;;; ret EOF
    else ret ch.

(** The next character of a text: an entity is decoded and the character added.  [None]
    stands for [goto error]; [ch] is not [EOF]. *)
Definition take_char (node ch : Z) (b : strbuf) : prog (loader T) (option Z * strbuf) :=
  let* ch := if ch =? uchar "&"%char then mxml_get_entity node else ret ch in
  if ch =? EOF then ret (None, b)
  else let* (rc, b) := mxml_add_char ch b in ret (if rc =? 0 then Some ch else None, b).

(** Characters are taken up to one that [stop] holds for, given the text so far. *)
Definition take_until (stop : Z -> bytes -> bool) (node : Z) (b : strbuf) : prog (loader T) (option Z * strbuf) :=
  while_getc (fun ch b =>
    if stop ch (b_text b) then ret (inr (Some ch, b))
    else
      let* (o, b) := take_char node ch b in
      match o with None => ret (inr (None, b)) | Some _ => ret (inl b) end)
  (fun b => (Some EOF, b)) b.

(** [while (ch != EOF && mxml_isspace(ch)) ch = (getc_cb)(p, encoding)] *)
Definition skip_blanks (ch : Z) : prog (loader T) Z :=
  while_ (fun ch => if mxml_isspace ch then let* ch := getc in ret (inl ch) else ret (inr ch)) ch.

(** ** The attributes of an element *)

Definition is_ch (c : ascii) (ch : Z) : bool := ch =? uchar c.

(** A quoted name keeps its quotes. *)
Definition quoted_name (node quote : Z) (b : strbuf) : prog (loader T) (option Z * strbuf) :=
  while_getc (fun ch b =>
    let* (o, b) := take_char node ch b in
    match o with
    | None => ret (inr (None, b))
    | Some ch => if ch =? quote then ret (inr (Some ch, b)) else ret (inl b)
    end) (fun b => (Some EOF, b)) b.

Definition name_end (ch : Z) (_ : bytes) : bool :=
  mxml_isspace ch || is_ch "="%char ch || is_ch "/"%char ch || is_ch ">"%char ch || is_ch "?"%char ch.
Definition value_end (ch : Z) (_ : bytes) : bool :=
  mxml_isspace ch || is_ch "="%char ch || is_ch "/"%char ch || is_ch ">"%char ch.

(** [name[0] = ch; ptr = name + 1] *)
Definition start (ch : Z) (b : strbuf) : prog (loader T) strbuf := store [to_char ch] (clear b).

Definition read_name (node ch : Z) (name : strbuf) : prog (loader T) (option Z * strbuf) :=
  let* name := start ch name in
  if is_ch QUOTE ch || is_ch "'"%char ch then quoted_name node ch name else take_until name_end node name.

(** The value behind the equals sign, from its first character on. *)
Definition read_value (node ch : Z) (value : strbuf) : prog (loader T) (option Z * strbuf) :=
  let* (o, value) :=
    if is_ch "'"%char ch || is_ch QUOTE ch then take_until (fun c _ => c =? ch) node (clear value)
    else let* value := start ch value in take_until value_end node value in
  match o with
  | None => ret (None, value)
  | Some ch => terminate value ;;; ret (Some ch, value)
  end.

Definition element_error (node : Z) (a b : bytes) : prog (loader T) unit :=
  let* e := element_name (str "(null)") node in load_error (a ++ e ++ b).

Definition missing_value (node : Z) (name : bytes) : prog (loader T) unit :=
  element_error node (str "Missing value for attribute '" ++ name ++ str "' in element ") (str "!").

(** [Expected '>']: the result is whether it is there. *)
Definition grab_end (node ch : Z) : prog (loader T) bool :=
  let* quote := getc in
  if is_ch ">"%char quote then ret true
  else
    element_error node (str "Expected '>' after '" ++ [to_char ch] ++ str "' for element ") (str ", but got '" ++ [to_char quote] ++ str "'!") ;;;
    ret false.

(** One turn of the loop over the attributes; the result of the loop is the terminating
    character or [EOF]. *)
Definition parse_attr (node ch : Z) (bufs : strbuf * strbuf) : prog (loader T) ((strbuf * strbuf) + (Z * strbuf * strbuf)) :=
  let '(name, value) := bufs in
  let leave (ch : Z) (name value : strbuf) := ret (inr (ch, name, value)) in
  let error (name value : strbuf) := leave EOF name value in
  if mxml_isspace ch then ret (inl (name, value))
  else if is_ch "/"%char ch || is_ch "?"%char ch then
    let* ok := grab_end node ch in if (ok : bool) then leave ch name value else error name value
  else if is_ch "<"%char ch then element_error node (str "Bare < in element ") (str "!") ;;; error name value
  else if is_ch ">"%char ch then leave ch name value
  else
    let* (o, name) := read_name node ch name in
    match o with
    | None => error name value
    | Some ch =>
        terminate name ;;;
        let* old := in_xml (mxmlElementGetAttr node (Some (b_text name))) in
        match old with
        | Some _ => error name value
        | None =>
            let* ch := skip_blanks ch in
            if negb (is_ch "="%char ch) then missing_value node (b_text name) ;;; error name value
            else
              let* ch := getc in
              let* ch := skip_blanks ch in
              if ch =? EOF then missing_value node (b_text name) ;;; error name value
              else
                let* (o, value) := read_value node ch value in
                match o with
                | None => error name value
                | Some ch =>
                    in_xml (mxmlElementSetAttr node (Some (b_text name)) (Some (b_text value))) ;;;
                    if is_ch "/"%char ch || is_ch "?"%char ch then
                      let* ok := grab_end node ch in leave (if (ok : bool) then ch else EOF) name value
                    else if is_ch ">"%char ch then leave ch name value
                    else ret (inl (name, value))
                end
        end
    end.

Definition mxml_parse_element (node : Z) : prog (loader T) Z :=
  let* name := malloc64 in
  match name with
  | None => load_error (str "Unable to allocate memory for name!") ;;; ret EOF
  | Some name =>
      let* value := malloc64 in
      match value with
      | None => free_buf name ;;; load_error (str "Unable to allocate memory for value!") ;;; ret EOF
      | Some value =>
          let* (ch, name, value) :=
            while_getc (parse_attr node) (fun '(name, value) => (EOF, name, value)) (name, value) in
          free_buf name ;;; free_buf value ;;; ret ch
      end
  end.

(** ** The document *)

(** The variables of the loop. *)
Record vars := mkVars { v_first : Z; v_parent : Z; v_whitespace : Z; v_buffer : strbuf }.

Definition set_v_first (p : Z) (v : vars) : vars := mkVars p (v_parent v) (v_whitespace v) (v_buffer v).
Definition set_v_parent (p : Z) (v : vars) : vars := mkVars (v_first v) p (v_whitespace v) (v_buffer v).
Definition set_v_whitespace (w : Z) (v : vars) : vars := mkVars (v_first v) (v_parent v) w (v_buffer v).
Definition set_v_buffer (b : strbuf) (v : vars) : vars := mkVars (v_first v) (v_parent v) (v_whitespace v) b.

(** [if (!first && node) first = node] *)
Definition note_first (node : Z) (v : vars) : vars :=
  if (v_first v =? NULL) && negb (node =? NULL) then set_v_first node v else v.

(** How the loop is left. *)
Inductive leaving := Break | GotoError.

Definition turn : Type := vars + (leaving * vars).
Definition continue (v : vars) : prog (loader T) turn := ret (inl v).
Definition break (v : vars) : prog (loader T) turn := ret (inr (Break, v)).
Definition goto_error (v : vars) : prog (loader T) turn := ret (inr (GotoError, v)).

(** The value in front of a blank or a tag: [None] is [goto error]. *)
Definition value_node (ch : Z) (v : vars) : prog (loader T) (option vars) :=
  let par := v_parent v in
  if (is_ch "<"%char ch || mxml_isspace ch) && negb (len (b_text (v_buffer v)) =? 0) then
    terminate (v_buffer v) ;;;
    let* node := in_xml (mxmlNewText par (v_whitespace v) (Some (b_text (v_buffer v)))) in
    let v := set_v_whitespace (if mxml_isspace ch then 1 else 0) (set_v_buffer (clear (v_buffer v)) v) in
    if node =? NULL then
      error_at par (str "Unable to add value node of type MXML_TEXT to") (str "!") ;;; ret None
    else ret (Some (note_first node v))
  else if mxml_isspace ch then ret (Some (set_v_whitespace 1 v))
  else ret (Some v).

(** A lone blank in front of a tag. *)
Definition blank_node (ch : Z) (v : vars) : prog (loader T) vars :=
  if is_ch "<"%char ch && negb (v_whitespace v =? 0) then
    let* node := in_xml (mxmlNewText (v_parent v) (v_whitespace v) (Some [])) in
    ret (set_v_whitespace 0 (note_first node v))
  else ret v.

Definition comment_open : bytes := str "!--".
Definition cdata_open : bytes := str "![CDATA[".

Definition special_open (s : bytes) : bool :=
  (len s =? 1) && ceqb (List.hd NUL s) "?"%char
  || (len s =? 3) && starts_with comment_open s
  || (len s =? 8) && starts_with cdata_open s.

(** The name of a tag and the character behind it. *)
Definition read_tag (par : Z) (b : strbuf) : prog (loader T) (option Z * strbuf) :=
  while_getc (fun ch b =>
    if mxml_isspace ch || is_ch ">"%char ch || is_ch "/"%char ch && negb (len (b_text b) =? 0) then ret (inr (Some ch, b))
    else if is_ch "<"%char ch then load_error (str "Bare < in element!") ;;; ret (inr (None, b))
    else
      let* (o, b) := take_char par ch b in
      match o with
      | None => ret (inr (None, b))
      | Some c => if negb (is_ch "&"%char ch) && special_open (b_text b) then ret (inr (Some c, b)) else ret (inl b)
      end) (fun b => (Some EOF, b)) b.

(** [bufptr[-k]] *)
Definition back (k : nat) (s : bytes) : ascii := List.nth (length s - k) s NUL.

Definition comment_end (ch : Z) (s : bytes) : bool :=
  is_ch ">"%char ch && (4 <? len s) && negb (ceqb (back 3 s) "-"%char) && ceqb (back 2 s) "-"%char && ceqb (back 1 s) "-"%char.
Definition cdata_end (ch : Z) (s : bytes) : bool := is_ch ">"%char ch && ceqb (back 2 s) "]"%char && ceqb (back 1 s) "]"%char.
Definition instruction_end (ch : Z) (s : bytes) : bool := is_ch ">"%char ch && negb (len s =? 0) && ceqb (back 1 s) "?"%char.

(** The rest of a comment, of a CDATA section or of a processing instruction. *)
Definition gather (stop : Z -> bytes -> bool) (b : strbuf) : prog (loader T) (option Z * strbuf) :=
  while_getc (fun ch b =>
    if stop ch (b_text b) then ret (inr (Some ch, b))
    else let* (rc, b) := mxml_add_char ch b in if rc =? 0 then ret (inl b) else ret (inr (None, b)))
  (fun b => (Some EOF, b)) b.

(** The rest of a declaration, from the character [ch] on, which may be [EOF]. *)
Definition gather_declaration (par ch : Z) (b : strbuf) : prog (loader T) (option Z * strbuf) :=
  while_ (fun '(ch, b) =>
    if is_ch ">"%char ch then ret (inr (Some ch, b))
    else
      let* c := if is_ch "&"%char ch then mxml_get_entity par else ret ch in
      if is_ch "&"%char ch && (c =? EOF) then ret (inr (None, b))
      else
        let* (rc, b) := mxml_add_char c b in
        if negb (rc =? 0) then ret (inr (None, b))
        else let* ch := getc in if ch =? EOF then ret (inr (Some ch, b)) else ret (inl (ch, b))) (ch, b).

(** What is gathered becomes an element under the current parent.  [descend] says whether
    it is the parent of what follows if there is none, [leave] how the loop is left when
    the node cannot be made. *)
Definition add_special (kind : bytes) (descend : bool) (leave : leaving) (v : vars) (m : prog (loader T) (option Z * strbuf)) : prog (loader T) turn :=
  let* (o, b) := m in
  let v := set_v_buffer b v in
  let par := v_parent v in
  match o with
  | None => goto_error v
  | Some ch =>
      if negb (is_ch ">"%char ch) then load_error (str "Early EOF in " ++ kind ++ str " node!") ;;; goto_error v
      else
        terminate b ;;;
        let* node := in_xml (mxmlNewElement par (Some (b_text b))) in
        if node =? NULL then
          error_at par (str "Unable to add " ++ kind ++ str " node to") (str "!") ;;; ret (inr (leave, v))
        else
          let v := note_first node v in
          continue (set_v_buffer (clear b) (if descend && (par =? NULL) then set_v_parent node v else v))
  end.

(** [while (ch != '>' && ch != EOF) ch = (getc_cb)(p, &encoding)] *)
Definition skip_tag (ch : Z) : prog (loader T) unit :=
  while_ (fun ch => if is_ch ">"%char ch || (ch =? EOF) then ret (inr tt) else let* ch := getc in ret (inl ch)) ch.

Definition close_tag (ch : Z) (b : strbuf) (v : vars) : prog (loader T) turn :=
  let par := v_parent v in
  let mismatched :=
    let* e := element_name (str "(null)") par in
    load_error (str "Mismatched close tag <" ++ b_text b ++ str "> under parent <" ++ e ++ str ">!") ;;;
    goto_error (set_v_buffer b v) in
  if par =? NULL then mismatched
  else
    let* n := in_xml (node_at par) in
    match value n with
    | Element (Some e) _ =>
        if negb (streq (tl (b_text b)) e) then mismatched
        else skip_tag ch ;;; continue (set_v_buffer (clear b) (set_v_parent (parent n) v))
    | _ => fault
    end.

Section Load.
(** The destructors of custom data, for [mxmlDelete]. *)
Context (destroy_cb : Z -> Z -> prog xml unit).

Definition open_tag (ch : Z) (b : strbuf) (v : vars) : prog (loader T) turn :=
  let par := v_parent v in
  let v := set_v_buffer b v in
  let* node := in_xml (mxmlNewElement par (Some (b_text b))) in
  if node =? NULL then error_at par (str "Unable to add element node to") (str "!") ;;; goto_error v
  else
    let* end_ :=
      if mxml_isspace ch then
        let* ch := mxml_parse_element node in ret (if ch =? EOF then None else Some ch)
      else if is_ch "/"%char ch then
        let* ch := getc in
        if negb (is_ch ">"%char ch) then
          load_error (str "Expected > but got '" ++ [to_char ch] ++ str "' instead for element <" ++ b_text b ++ str "/>!") ;;;
          in_xml (mxmlDelete destroy_cb node) ;;; ret None
        else ret (Some (uchar "/"%char))
      else ret (Some ch) in
    match end_ with
    | None => goto_error v
    | Some ch =>
        let v := note_first node v in
        if ch =? EOF then break v
        else continue (set_v_buffer (clear b) (if is_ch "/"%char ch then v else set_v_parent node v))
    end.

(** [if (ch == '<')] *)
Definition tag (v : vars) : prog (loader T) turn :=
  let* (o, b) := read_tag (v_parent v) (clear (v_buffer v)) in
  match o with
  | None => goto_error (set_v_buffer b v)
  | Some ch =>
      terminate b ;;;
      let c := List.hd NUL (b_text b) in
      if streq (b_text b) comment_open then add_special (str "comment") false Break v (gather comment_end b)
      else if streq (b_text b) cdata_open then add_special (str "CDATA") false GotoError v (gather cdata_end b)
      else if ceqb c "?"%char then add_special (str "processing instruction") true GotoError v (gather instruction_end b)
      else if ceqb c "!"%char then add_special (str "declaration") true GotoError v (gather_declaration (v_parent v) ch b)
      else if ceqb c "/"%char then close_tag ch b v
      else open_tag ch b v
  end.

(** One turn of the loop. *)
Definition load_char (ch : Z) (v : vars) : prog (loader T) turn :=
  let* o := value_node ch v in
  match o with
  | None => goto_error (set_v_buffer (clear (v_buffer v)) v)
  | Some v =>
      let* v := blank_node ch v in
      if is_ch "<"%char ch then tag v
      else if is_ch "&"%char ch || negb (mxml_isspace ch) then
        let* (o, b) := take_char (v_parent v) ch (v_buffer v) in
        match o with None => goto_error (set_v_buffer b v) | Some _ => continue (set_v_buffer b v) end
      else continue v
  end.

(** [while (parent->parent != top && parent->parent) parent = parent->parent] *)
Fixpoint find_top (fuel : nat) (top par : Z) : prog xml Z :=
  match fuel with
  | O => spin
  | S fuel =>
      let* n := node_at par in
      if negb (parent n =? top) && negb (parent n =? NULL) then find_top fuel top (parent n) else ret par
  end.

Definition missing_close (node : Z) : prog (loader T) unit :=
  let* e := element_name (str "(null)") node in
  let* n := in_xml (node_at node) in
  let* u := element_name (str "(null)") (parent n) in
  load_error (str "Missing close tag </" ++ e ++ str "> under parent <" ++ u ++ str ">!").

Definition mxml_load_data (top : Z) : prog (loader T) Z :=
  let* buffer := malloc64 in
  match buffer with
  | None => load_error (str "Unable to allocate string buffer!") ;;; ret NULL
  | Some buffer =>
      let* (how, v) := while_getc load_char (fun v => (Break, v)) (mkVars NULL top 0 buffer) in
      match how with
      | GotoError => in_xml (mxmlDelete destroy_cb (v_first v)) ;;; free_buf (v_buffer v) ;;; ret NULL
      | Break =>
          free_buf (v_buffer v) ;;;
          if v_parent v =? NULL then ret (v_first v)
          else
            let* h := in_xml (get x_heap) in
            let* par := in_xml (find_top (S (size h)) top (v_parent v)) in
            if negb (v_parent v =? par) then
              missing_close (v_parent v) ;;; in_xml (mxmlDelete destroy_cb (v_first v)) ;;; ret NULL
            else ret par
      end
  end.

(** Loading from [p], which is gone when the function returns. *)
Definition load_from (top : Z) (p : T) : prog xml Z := fun x =>
  match mxml_load_data top (mkLoader x p) with
  | Ret a o => Ret a (o_xml o)
  | Jump v o => Jump v (o_xml o)
  | Exit v o => Exit v (o_xml o)
  | Block o => Block (o_xml o)
  | Spin => Spin
  | Fault => Fault
  end.
End Load.
End Reader.

Section LoadString.
Context (destroy_cb : Z -> Z -> prog xml unit).

Definition mxmlLoadString (top : Z) (s : bytes) : prog xml Z := load_from destroy_cb top s.

(** [xml.c]: the string is stored where the old document was. *)
Definition XmlLoadString (psData : bytes) : prog xml Z :=
  mxmlSetErrorCallback true ;;;
  let* p := mxmlLoadString NULL (cstr psData) in
  modify (set_l_pIntXml p) ;;;
  ret (if p =? NULL then -1 else 0).
End LoadString.
