(* ===== verification/Mxmltext.v ===== *)
(** * The text of an XML document

    The trees the wrapper makes consist of elements.  [text] is the text of such a tree,
    [doc_text] that of a document; the theorems say that this is what [Mxmlsave] writes,
    whatever the output is, and what it leaves in a buffer of a given size. *)

From Stdlib Require Import ZArith Lia Bool List Ascii String.
From stdpp Require Import base list gmap.
From S2P Require Import Prelude Cstr Mxmlentity Mxmltree Xml Mxmlsave.

(** ** Trees that can be written and read back *)

Definition name_char (c : ascii) : bool := (32 <? uchar c) && negb (memc c (str "<>&'/=?!" ++ [QUOTE])).
Definition text_char (c : ascii) : bool := (32 <=? uchar c) || memc c [TAB; LF; CR].

Definition good_name (s : bytes) : bool := negb (bool_decide (s = [])) && forallb name_char s.
Definition good_attr (a : mxml_attr_t) : bool :=
  good_name (a_name a) && match a_value a with Some v => forallb text_char v | None => false end.
Definition good_value (v : mxml_value_t) : bool :=
  match v with
  | Element (Some e) attrs => good_name e && forallb good_attr attrs && bool_decide (NoDup (a_name <$> attrs))
  | _ => false
  end.

Fixpoint good (t : ptree) : bool := match t with PT _ v ts => good_value v && forallb good ts end.

(** The root holds the XML declaration. *)
Definition good_doc (t : ptree) : Prop := exists r ts, t = PT r (Element (Some version) []) ts /\ forallb good ts = true.

(** ** Text *)

Definition escape_char (c : ascii) : bytes :=
  match mxmlEntityGetName (schar c) with Some name => str "&" ++ name ++ str ";" | None => [c] end.
Definition escape (s : bytes) : bytes := List.concat (map escape_char s).

Definition attr_text (a : mxml_attr_t) : bytes :=
  [SP] ++ a_name a ++ str "=" ++ [QUOTE] ++ escape (default [] (a_value a)) ++ [QUOTE].
Definition attrs_text (attrs : list mxml_attr_t) : bytes := List.concat (map attr_text attrs).

Definition open_text (e : bytes) (attrs : list mxml_attr_t) : bytes := str "<" ++ e ++ attrs_text attrs.

Fixpoint text (t : ptree) : bytes :=
  match t with
  | PT _ (Element (Some e) attrs) ts =>
      open_text e attrs
      ++ match ts with
         | [] => str " />"
         | _ => str ">" ++ List.concat (map text ts) ++ str "</" ++ e ++ str ">"
         end
  | _ => []
  end.
Definition texts (ts : list ptree) : bytes := List.concat (map text ts).

Definition doc_text (ts : list ptree) : bytes := str "<" ++ version ++ str ">" ++ texts ts.

(** ** Characters *)

Lemma schar_small c : schar c < 128.
Proof. unfold schar. pose proof (uchar_range c). destruct (Z.ltb_spec (uchar c) 128); lia. Qed.

Lemma to_char_schar c : to_char (schar c) = c.
Proof.
  unfold schar. pose proof (uchar_range c). destruct (Z.ltb_spec (uchar c) 128); [apply to_char_uchar|].
  rewrite <- (to_char_uchar c) at 2. unfold to_char. do 2 f_equal. rewrite <- (Z_mod_plus_full (uchar c - 256) 1 256). f_equal. lia.
Qed.

Lemma utf8_char c : utf8 (schar c) = [c].
Proof. unfold utf8. rewrite (proj2 (Z.ltb_lt _ 128)) by apply schar_small. now rewrite to_char_schar. Qed.

Lemma name_char_plain c : name_char c = true -> escape_char c = [c] /\ is_quote c = false.
Proof.
  unfold name_char, escape_char. intros H. apply andb_prop in H as [H1 H2]. apply negb_true_iff in H2. unfold memc in H2.
  assert (N : forall d, In d (str "<>&'/=?!" ++ [QUOTE]) -> c <> d).
  { intros d Hd ->. assert (E : existsb (ceqb d) (str "<>&'/=?!" ++ [QUOTE]) = true) by (apply existsb_exists; exists d; split; [exact Hd|apply ceqb_refl]).
    congruence. }
  assert (U : forall d, In d (str "<>&'/=?!" ++ [QUOTE]) -> (schar c =? uchar d) = false).
  { intros d Hd. apply Z.eqb_neq. intros E. apply (N d Hd). rewrite <- (to_char_schar c), E. apply to_char_uchar. }
  split.
  - assert (V : forall d k, uchar d = k -> In d (str "<>&'/=?!" ++ [QUOTE]) -> (schar c =? k) = false) by (intros d k <-; apply U).
    unfold mxmlEntityGetName. rewrite (V "&"%char 38), (V "<"%char 60), (V ">"%char 62), (V QUOTE 34) by (try reflexivity; cbn; tauto). done.
  - unfold is_quote. rewrite (proj2 (ceqb_neq c QUOTE)) by (apply N; cbn; tauto). now rewrite (proj2 (ceqb_neq c "'"%char)) by (apply N; cbn; tauto).
Qed.

Lemma name_char_not c d : name_char c = true -> In d (str "<>&'/=?!" ++ [QUOTE]) -> ceqb c d = false.
Proof.
  unfold name_char. intros H Hd. apply andb_prop in H as [_ H]. apply negb_true_iff in H. destruct (ceqb c d) eqn:E; [|done].
  apply ceqb_eq in E as ->. assert (existsb (ceqb d) (str "<>&'/=?!" ++ [QUOTE]) = true) by (apply existsb_exists; exists d; split; [exact Hd|apply ceqb_refl]).
  unfold memc in H. congruence.
Qed.

Lemma escape_name s : forallb name_char s = true -> escape s = s.
Proof.
  unfold escape. induction s as [|c s IH]; [done|]. cbn [forallb map List.concat]. intros [Hc H]%andb_prop.
  now rewrite (proj1 (name_char_plain c Hc)), IH.
Qed.

Lemma escape_length s : len s <= len (escape s).
Proof.
  unfold len, escape. induction s as [|c s IH]; [done|]. cbn [map List.concat length]. rewrite length_app.
  assert (1 <= length (escape_char c))%nat by (unfold escape_char; destruct (mxmlEntityGetName _); cbn; lia). lia.
Qed.

(** ** What is written *)

Section Writing.
(** Characters of bytes are written without an error, in states that [I] describes. *)
Context {S : Type} (putc_cb : Z -> prog S Z) (I : S -> Prop) (step : ascii -> S -> S).
Context (putc_ok : forall c s, I s -> putc_cb (schar c) s = Ret 0 (step c s) /\ I (step c s)).

Definition emit (t : bytes) (s : S) : S := fold_left (fun s c => step c s) t s.

Lemma emit_ok t s : I s -> I (emit t s).
Proof. unfold emit. revert s. induction t as [|c t IH]; intros s H; [done|]. apply IH. now apply putc_ok. Qed.

Lemma emit_app a b s : emit (a ++ b) s = emit b (emit a s).
Proof. apply fold_left_app. Qed.

Lemma put_eq {A} c (k : prog S (option A)) s : I s -> put putc_cb (schar c) k s = k (step c s).
Proof. intros H. unfold put. now rewrite (bind_Ret _ _ _ _ _ (proj1 (putc_ok c s H))). Qed.

(** The literal characters of the writer. *)
Lemma put_lit {A} c (k : prog S (option A)) s : schar c = uchar c -> I s -> put putc_cb (uchar c) k s = k (step c s).
Proof. intros <-. apply put_eq. Qed.

Lemma put_all_eq {A} t (k : prog S (option A)) s : I s -> put_all putc_cb t k s = k (emit t s).
Proof.
  revert s. induction t as [|c t IH]; intros s H; [done|]. cbn [put_all]. rewrite put_eq by exact H. apply IH. now apply putc_ok.
Qed.

Lemma or_fail_eq {A B} (m : prog S (option A)) (k : A -> prog S (option B)) s a s' : m s = Ret (Some a) s' -> or_fail m k s = k a s'.
Proof. intros H. unfold or_fail. now rewrite (bind_Ret _ _ _ _ _ H). Qed.

Lemma write_string_eq t s : I s -> mxml_write_string putc_cb t s = Ret (Some 0) (emit (escape t) s).
Proof.
  unfold escape. revert s. induction t as [|c t IH]; intros s H; [done|]. cbn [mxml_write_string map List.concat]. rewrite emit_app.
  unfold escape_char. destruct (mxmlEntityGetName (schar c)) as [name|].
  - rewrite put_lit by done. pose proof (proj2 (putc_ok "&"%char s H)) as H1. rewrite put_all_eq by exact H1.
    pose proof (emit_ok name _ H1) as H2. rewrite put_lit by done. rewrite IH by now apply putc_ok.
    change (str "&" ++ name ++ str ";") with (["&"%char] ++ name ++ [";"%char]). now rewrite !emit_app.
  - rewrite put_eq by exact H. now apply IH, putc_ok.
Qed.

Lemma write_name_eq t s : forallb name_char t = true -> I s -> mxml_write_name putc_cb t s = Ret (Some 0) (emit t s).
Proof.
  destruct t as [|c t]; intros Ht H; [done|]. cbn [mxml_write_name]. cbn [forallb] in Ht. apply andb_prop in Ht as [Hc _].
  rewrite (proj2 (name_char_plain c Hc)). now rewrite put_all_eq.
Qed.

Lemma good_attr_value a : good_attr a = true -> exists v, a_value a = Some v /\ forallb name_char (a_name a) = true /\ forallb text_char v = true.
Proof.
  unfold good_attr, good_name. intros [[_ H1]%andb_prop H2]%andb_prop. destruct (a_value a) as [v|]; [|discriminate]. now exists v.
Qed.

Lemma write_attrs_eq attrs : forall col s,
  forallb good_attr attrs = true -> I s -> 0 <= col -> col + len (attrs_text attrs) <= wrap ->
  exists col', write_attrs putc_cb attrs col s = Ret (Some col') (emit (attrs_text attrs) s)
    /\ col <= col' <= col + len (attrs_text attrs).
Proof.
  induction attrs as [|a attrs IH]; intros col s G H Hc Hw; [exists col; split; [done|unfold len; cbn; lia]|].
  cbn [forallb] in G. apply andb_prop in G as [Ga G]. destruct (good_attr_value a Ga) as (v & Ev & Hn & Hv).
  change (attrs_text (a :: attrs)) with (attr_text a ++ attrs_text attrs) in *. cbn [write_attrs].
  unfold attr_text in *. rewrite Ev in *. cbn [default id] in *.
  assert (L : len (([SP] ++ a_name a ++ str "=" ++ [QUOTE] ++ escape v ++ [QUOTE]) ++ attrs_text attrs)
              = len (a_name a) + len (escape v) + 4 + len (attrs_text attrs)).
  { unfold len. rewrite !length_app. cbn [length]. change (length (str "=")) with 1%nat. lia. }
  rewrite L in Hw |- *. pose proof (escape_length v) as Le. unfold len in *.
  rewrite (proj2 (Z.ltb_ge wrap _)) by lia. rewrite put_lit by done. pose proof (proj2 (putc_ok SP s H)) as H1.
  rewrite (or_fail_eq _ _ _ _ _ (write_name_eq _ _ Hn H1)). pose proof (emit_ok (a_name a) _ H1) as H2.
  rewrite put_lit by done. pose proof (proj2 (putc_ok "="%char _ H2)) as H3. rewrite put_lit by done.
  pose proof (proj2 (putc_ok QUOTE _ H3)) as H4. rewrite (or_fail_eq _ _ _ _ _ (write_string_eq v _ H4)).
  pose proof (emit_ok (escape v) _ H4) as H5. rewrite put_lit by done. pose proof (proj2 (putc_ok QUOTE _ H5)) as H6.
  destruct (IH (col + 1 + (Z.of_nat (length (a_name a)) + (Z.of_nat (length v) + 3))) _ G H6) as (col' & E & B); [lia|lia|].
  exists col'. split; [|lia]. rewrite E. change (str "=") with ["="%char]. now rewrite !emit_app.
Qed.

Lemma good_name_cons e : good_name e = true -> exists c e', e = c :: e' /\ name_char c = true /\ forallb name_char e = true.
Proof.
  unfold good_name. intros [H1 H2]%andb_prop. destruct e as [|c e]; [discriminate|]. exists c, e. split; [done|].
  split; [|exact H2]. cbn [forallb] in H2. now apply andb_prop in H2 as [H2 _].
Qed.

Lemma starts_with_other c d p e : c <> d -> d <> NUL -> starts_with (d :: p) (c :: e) = false.
Proof.
  intros H Hd. unfold starts_with, strneq. cbn [length strncmp List.hd]. rewrite (proj2 (ceqb_neq c d) H). apply Z.eqb_neq.
  intros E. apply H, uchar_inj. lia.
Qed.

Lemma write_open_name_eq e s : good_name e = true -> I s -> write_open_name putc_cb e s = Ret (Some 0) (emit e s).
Proof.
  intros He H. destruct (good_name_cons e He) as (c & e' & -> & Hc & Hn). unfold write_open_name. cbn [first_char List.hd].
  rewrite (name_char_not c "?"%char Hc) by (cbn; tauto). pose proof (name_char_not c "!"%char Hc ltac:(cbn; tauto)) as N. apply ceqb_neq in N.
  change (str "!--") with ("!"%char :: str "--"). change (str "![CDATA[") with ("!"%char :: str "[CDATA[").
  rewrite !starts_with_other by (exact N || discriminate). cbn [orb]. now apply write_name_eq.
Qed.

Section Nodes.
Context (h : gmap Z mxml_node_t) (fmt_f : Z -> bytes).

(** An element whose children, if there are any, are written as [inner]. *)
Lemma write_element_eq wc p n e attrs inner col s :
  good_name e = true -> forallb good_attr attrs = true -> I s -> 0 <= col ->
  let full := open_text e attrs ++ if child n =? NULL then str " />" else str ">" ++ inner ++ str "</" ++ e ++ str ">" in
  col + len full <= wrap ->
  (forall col s, I s -> 0 <= col -> col + len inner <= wrap -> child n <> NULL ->
    exists col', wc (child n) col s = Ret (Some col') (emit inner s) /\ col <= col' <= col + len inner) ->
  exists col', write_element putc_cb None wc p n e attrs col s = Ret (Some col') (emit full s) /\ col <= col' <= col + len full.
Proof.
  intros He Ga H Hc full Hw WC. destruct (good_name_cons e He) as (c & e' & Ee & Hcc & Hn).
  unfold write_element, mxml_write_ws. rewrite bind_ret_l, put_lit by done. pose proof (proj2 (putc_ok "<"%char s H)) as H1.
  rewrite (or_fail_eq _ _ _ _ _ (write_open_name_eq e _ He H1)). pose proof (emit_ok e _ H1) as H2.
  assert (Sp : ceqb (first_char e) "!"%char || ceqb (first_char e) "?"%char = false).
  { rewrite Ee. cbn [first_char List.hd]. now rewrite !(name_char_not c) by (exact Hcc || (cbn; tauto)). }
  assert (Lo : len (open_text e attrs) = len e + 1 + len (attrs_text attrs)).
  { unfold open_text, len. rewrite !length_app. change (length (str "<")) with 1%nat. lia. }
  assert (Lf : len full = len (open_text e attrs) + if child n =? NULL then 3 else len inner + len e + 4).
  { unfold full, len. destruct (child n =? NULL); rewrite !length_app; cbn [length str list_ascii_of_string]; lia. }
  assert (Ln : 0 <= len inner) by (unfold len; lia). assert (Le : 0 <= len e) by (unfold len; lia).
  destruct (write_attrs_eq attrs (col + len e + 1) _ Ga H2) as (c1 & E1 & B1); [lia|revert Lf; destruct (child n =? NULL); lia|].
  rewrite (or_fail_eq _ _ _ _ _ E1), Sp. pose proof (emit_ok (attrs_text attrs) _ H2) as H3.
  revert Lf. destruct (Z.eqb_spec (child n) NULL) as [E0|E0]; intros Lf; cbn [negb].
  - rewrite put_lit by done. pose proof (proj2 (putc_ok SP _ H3)) as H4. rewrite put_lit by done.
    pose proof (proj2 (putc_ok "/"%char _ H4)) as H5. rewrite put_lit by done. rewrite bind_ret_l. exists (c1 + 3). split; [|lia].
    unfold full, open_text. change (str "<") with ["<"%char]. change (str " />") with ([SP] ++ ["/"%char] ++ [">"%char]). now rewrite !emit_app.
  - rewrite put_lit by done. pose proof (proj2 (putc_ok ">"%char _ H3)) as H4. rewrite bind_ret_l.
    destruct (WC (c1 + 1) _ H4) as (c2 & E2 & B2); [lia|lia|exact E0|]. rewrite (or_fail_eq _ _ _ _ _ E2). rewrite bind_ret_l.
    pose proof (emit_ok inner _ H4) as H5. rewrite put_lit by done. pose proof (proj2 (putc_ok "<"%char _ H5)) as H6.
    rewrite put_lit by done. pose proof (proj2 (putc_ok "/"%char _ H6)) as H7.
    rewrite (or_fail_eq _ _ _ _ _ (write_string_eq e _ H7)), escape_name by exact Hn. pose proof (emit_ok e _ H7) as H8.
    rewrite put_lit by done. rewrite bind_ret_l. exists (c2 + len e + 3). split; [|lia].
    unfold full, open_text. change (str "<") with ["<"%char]. change (str ">") with [">"%char]. change (str "</") with (["<"%char] ++ ["/"%char]). now rewrite !emit_app.
Qed.

Lemma write_node_eq fuel : forall ts par prv col s,
  (length (all_ptrs ts) < fuel)%nat -> seg h par prv ts NULL -> forallb good ts = true -> I s -> 0 <= col -> col + len (texts ts) <= wrap ->
  exists col', mxml_write_node putc_cb h None fmt_f fuel (first NULL ts) col s = Ret (Some col') (emit (texts ts) s)
    /\ col <= col' <= col + len (texts ts).
Proof.
  induction fuel as [|fuel IH]; intros ts par prv col s Hf Sg G H Hc Hw; [lia|]. destruct ts as [|[p v us] ts].
  { exists col. split; [done|unfold len; cbn; lia]. }
  change (all_ptrs (PT p v us :: ts)) with (ptrs (PT p v us) ++ all_ptrs ts) in Hf. rewrite ptrs_eq, length_app in Hf. cbn [length] in Hf.
  cbn [forallb good] in G. apply andb_prop in G as [Gt G]. apply andb_prop in Gt as [Gv Gu].
  unfold good_value in Gv. destruct v as [|[e|] attrs| | | | |]; try discriminate. apply andb_prop in Gv as [Gv _]. apply andb_prop in Gv as [Ge Ga].
  destruct Sg as [R Sg]. rewrite rep_eq in R. destruct R as (Hp & (rc & En) & Su). cbn [first root mxml_write_node].
  rewrite (proj2 (Z.eqb_neq p NULL)) by exact Hp. rewrite En. cbn [deref]. rewrite bind_ret_l. cbn [value next].
  set (n := mkNode _ _ _ _ _ _ _). change (texts (PT p (Element (Some e) attrs) us :: ts)) with (text (PT p (Element (Some e) attrs) us) ++ texts ts) in *.
  assert (Ef : text (PT p (Element (Some e) attrs) us) = open_text e attrs ++ if child n =? NULL then str " />" else str ">" ++ texts us ++ str "</" ++ e ++ str ">").
  { cbn [text]. f_equal. destruct us as [|u us]; [done|]. cbn [n child first]. destruct Su as [Ru _].
    now rewrite (proj2 (Z.eqb_neq (root u) NULL)) by apply (rep_root _ _ _ _ _ Ru). }
  set (t := text _) in *. assert (La : len (t ++ texts ts) = len t + len (texts ts)) by (unfold len; rewrite length_app; lia).
  assert (L0 : 0 <= len (texts ts)) by (unfold len; lia).
  destruct (write_element_eq (fun node col => or_fail (mxml_write_node putc_cb h None fmt_f fuel node col)
    (fun col => ret (if col <? 0 then None else Some col))) p n e attrs (texts us) col s Ge Ga H Hc) as (c1 & E1 & B1); [rewrite <- Ef; lia| |].
  { intros c0 s0 H0 Hc0 Hw0 _. destruct (IH us p NULL c0 s0) as (c2 & E2 & B2); [lia|exact Su|exact Gu|exact H0|exact Hc0|exact Hw0|].
    exists c2. split; [|exact B2]. cbn [n child]. rewrite (or_fail_eq _ _ _ _ _ E2). now rewrite (proj2 (Z.ltb_ge c2 0)) by lia. }
  rewrite <- Ef in E1, B1. rewrite (or_fail_eq _ _ _ _ _ E1). pose proof (emit_ok t s H) as H1.
  destruct (IH ts par p c1 _ ltac:(lia) Sg G H1) as (c2 & E2 & B2); [lia|lia|]. exists c2. split; [|lia]. rewrite E2. now rewrite emit_app.
Qed.

(** The whole document. *)
Lemma write_root_eq r ts s fuel :
  rep h NULL NULL NULL (PT r (Element (Some version) []) ts) -> forallb good ts = true -> (length (all_ptrs ts) < fuel)%nat ->
  I s -> len (doc_text ts) <= wrap ->
  exists c, mxml_write_node putc_cb h None fmt_f (Datatypes.S fuel) r 0 s = Ret (Some c) (emit (doc_text ts) s) /\ 0 < c.
Proof.
  intros R G Hf H Hw. rewrite rep_eq in R. destruct R as (Hr & (rc & En) & Su). unfold doc_text in *.
  assert (L : len (str "<" ++ version ++ str ">" ++ texts ts) = len version + 2 + len (texts ts)) by (unfold len; rewrite !length_app; cbn; lia).
  rewrite L in Hw. assert (Lv : 0 <= len version) by (unfold len; lia). assert (L0 : 0 <= len (texts ts)) by (unfold len; lia).
  cbn [mxml_write_node]. rewrite (proj2 (Z.eqb_neq r NULL)) by exact Hr. rewrite En. cbn [deref]. rewrite bind_ret_l. cbn [value next].
  set (n := mkNode _ _ _ _ _ _ _).
  enough (E : exists c, write_element putc_cb None (fun node col => or_fail (mxml_write_node putc_cb h None fmt_f fuel node col)
    (fun col => ret (if col <? 0 then None else Some col))) r n version [] 0 s = Ret (Some c) (emit (str "<" ++ version ++ str ">" ++ texts ts) s) /\ 0 < c).
  { destruct E as (c & E & Hc). exists c. split; [|exact Hc]. rewrite (or_fail_eq _ _ _ _ _ E). destruct fuel; [lia|]. reflexivity. }
  unfold write_element, mxml_write_ws. rewrite bind_ret_l, put_lit by done. pose proof (proj2 (putc_ok "<"%char s H)) as H1.
  assert (E1 : write_open_name putc_cb version (step "<"%char s) = Ret (Some 0) (emit version (step "<"%char s))) by (unfold write_open_name; replace (ceqb (first_char version) "?"%char) with true by reflexivity; cbn [orb]; now rewrite put_all_eq).
  rewrite (or_fail_eq _ _ _ _ _ E1). pose proof (emit_ok version _ H1) as H2. cbn [write_attrs].
  rewrite (or_fail_eq _ _ _ (0 + len version + 1) _ eq_refl). change (ceqb (first_char version) "!"%char || ceqb (first_char version) "?"%char) with true.
  cbn [negb n child]. destruct (Z.eqb_spec (first NULL ts) NULL) as [E0|E0]; cbn [negb].
  - destruct ts as [|u ts]; [|destruct Su as [Ru _]; now destruct (proj1 (rep_root _ _ _ _ _ Ru))].
    rewrite put_lit by done. rewrite bind_ret_l. exists (0 + len version + 1 + 1). split; [|lia].
    change (str "<") with ["<"%char]. change (str ">" ++ texts []) with [">"%char]. now rewrite !emit_app.
  - rewrite put_lit by done. rewrite bind_ret_l. pose proof (proj2 (putc_ok ">"%char _ H2)) as H3.
    destruct (write_node_eq fuel ts r NULL (0 + len version + 1 + 1) _ Hf Su G H3) as (c & E & B); [lia|lia|].
    erewrite or_fail_eq; [|rewrite (or_fail_eq _ _ _ _ _ E); rewrite (proj2 (Z.ltb_ge c 0)) by lia; reflexivity].
    exists c. split; [|lia]. change (str "<") with ["<"%char]. change (str ">") with [">"%char]. now rewrite !emit_app.
Qed.
End Nodes.
End Writing.

(** ** No text holds a NUL *)

Lemma name_nonul s : forallb name_char s = true -> nonul s.
Proof.
  intros H. apply List.Forall_forall. intros c Hc ->. rewrite forallb_forall in H. now specialize (H NUL Hc).
Qed.

Lemma good_attr_eq a : good_attr a = true ->
  exists c n v, a = mkAttr (c :: n) (Some v) /\ name_char c = true /\ forallb name_char (c :: n) = true /\ forallb text_char v = true.
Proof.
  intros H. destruct a as [n [v|]]; [|unfold good_attr in H; cbn in H; now rewrite andb_false_r in H].
  unfold good_attr in H. cbn [a_name a_value] in H. apply andb_prop in H as [Hn Hv]. destruct (good_name_cons n Hn) as (c & n' & -> & Hc & Hn').
  now exists c, n', v.
Qed.

Lemma good_element t : good t = true -> exists p e attrs us, t = PT p (Element (Some e) attrs) us
  /\ good_name e = true /\ forallb good_attr attrs = true /\ NoDup (a_name <$> attrs) /\ forallb good us = true.
Proof.
  destruct t as [p v us]. cbn [good]. intros [Gv Gu]%andb_prop. destruct v as [|[e|] attrs| | | | |]; try discriminate.
  cbn [good_value] in Gv. apply andb_prop in Gv as [[Ge Ga]%andb_prop N]. apply bool_decide_eq_true in N. now exists p, e, attrs, us.
Qed.

Lemma nonul_escape v : forallb text_char v = true -> nonul (escape v).
Proof.
  unfold escape. intros H. induction v as [|c v IH]; [constructor|]. cbn [forallb map List.concat] in *. apply andb_prop in H as [Hc H].
  apply Forall_app. split; [|now apply IH]. unfold escape_char, mxmlEntityGetName.
  assert (Hn : c <> NUL) by (intros ->; discriminate).
  repeat (destruct (_ =? _); [repeat constructor; discriminate|]). now repeat constructor.
Qed.

Lemma nonul_attrs attrs : forallb good_attr attrs = true -> nonul (attrs_text attrs).
Proof.
  induction attrs as [|a attrs IH]; [constructor|]. cbn [forallb]. intros [Ga G]%andb_prop.
  change (attrs_text (a :: attrs)) with (attr_text a ++ attrs_text attrs). apply Forall_app. split; [|now apply IH].
  destruct (good_attr_eq a Ga) as (c & n & v & -> & _ & Hn & Hv). unfold attr_text. cbn [a_name a_value default id].
  repeat (apply Forall_app; split); try (now apply nonul_escape); try (now apply name_nonul); repeat constructor; discriminate.
Qed.

Lemma nonul_texts_of ts : Forall (fun t => good t = true -> nonul (text t)) ts -> forallb good ts = true -> nonul (texts ts).
Proof.
  unfold texts. induction 1 as [|t ts Ht _ IH]; [constructor|]. cbn [forallb map List.concat]. intros [Gt G]%andb_prop.
  apply Forall_app. split; [now apply Ht|now apply IH].
Qed.

Lemma nonul_text t : good t = true -> nonul (text t).
Proof.
  induction t as [p v us IH] using ptree_ind'. intros G. destruct (good_element _ G) as (q & e & attrs & ts & E & Ge & Ga & _ & Gu).
  injection E as <- -> <-. destruct (good_name_cons e Ge) as (_ & _ & _ & _ & Hn). cbn [text]. unfold open_text.
  repeat (apply Forall_app; split); try (now apply name_nonul); try (now apply nonul_attrs); [repeat constructor; discriminate|].
  destruct us as [|u us]; [repeat constructor; discriminate|].
  pose proof (nonul_texts_of (u :: us) IH Gu) as H. change (List.concat (map text (u :: us))) with (texts (u :: us)).
  revert H. generalize (texts (u :: us)). intros w H.
  repeat (apply Forall_app; split); try exact H; try (now apply name_nonul); repeat constructor; discriminate.
Qed.

Lemma nonul_document ts : forallb good ts = true -> nonul (doc_text ts ++ [LF]).
Proof.
  intros G. unfold doc_text. assert (H : nonul (texts ts)).
  { apply nonul_texts_of; [|exact G]. apply List.Forall_forall. intros t _. apply nonul_text. }
  repeat (apply Forall_app; split); try exact H; repeat constructor; discriminate.
Qed.

(** ** Into a string *)

Definition sink_ok (k : sink) : Prop := 0 <= k_pos k /\ len (k_buffer k) = k_end k.

Definition sink_step (c : ascii) (k : sink) : sink :=
  mkSink (if k_pos k <? k_end k then <[Z.to_nat (k_pos k) := c]> (k_buffer k) else k_buffer k) (k_pos k + 1) (k_end k).

Lemma st_one p c b : 0 <= p < len b -> st p [c] b = Some (<[Z.to_nat p := c]> b).
Proof.
  unfold len. intros H. unfold st. cbn [length]. rewrite (proj2 (Z.leb_le 0 p)), (proj2 (Z.leb_le (p + _) _)) by lia. cbn [andb].
  rewrite insert_take_drop by lia. cbn [app]. now rewrite Nat.add_1_r.
Qed.

Lemma string_putc_ok c k : sink_ok k -> mxml_string_putc (schar c) k = Ret 0 (sink_step c k) /\ sink_ok (sink_step c k).
Proof.
  intros [Hp Hl]. split.
  - unfold mxml_string_putc. erewrite bind_Ret by reflexivity. rewrite utf8_char. cbn [id length].
    rewrite (proj2 (Z.ltb_lt _ 128)) by apply schar_small. rewrite Z.add_0_r. unfold sink_step.
    destruct (Z.ltb_spec (k_pos k) (k_end k)); cbn [when]; [|reflexivity].
    rewrite st_one by lia. reflexivity.
  - split; cbn; [lia|]. destruct (_ <? _); unfold len in *; [rewrite length_insert|]; exact Hl.
Qed.

(** [t] written at [p], as far as it goes. *)
Definition overlay (p : nat) (t b : bytes) : bytes := take p b ++ take (length b - p) t ++ drop (p + length t) b.

Lemma overlay_behind p t b : (length b <= p)%nat -> overlay p t b = b.
Proof.
  intros H. unfold overlay. rewrite (take_ge b), (drop_ge b) by lia. replace (length b - p)%nat with 0%nat by lia. now rewrite !app_nil_r.
Qed.

Lemma emit_sink t : forall b p n, 0 <= p -> len b = n ->
  emit sink_step t (mkSink b p n) = mkSink (overlay (Z.to_nat p) t b) (p + len t) n.
Proof.
  induction t as [|c t IH]; intros b p n Hp Hn.
  - cbn. unfold overlay, len. cbn [length]. rewrite take_nil, Nat.add_0_r, Z.add_0_r. cbn [app]. now rewrite take_drop.
  - change (emit sink_step (c :: t) (mkSink b p n)) with (emit sink_step t (sink_step c (mkSink b p n))). unfold sink_step. cbn [k_pos k_end k_buffer].
    rewrite IH by (try lia; destruct (p <? n); unfold len in *; rewrite ?length_insert; exact Hn).
    assert (El : p + 1 + len t = p + len (c :: t)) by (unfold len; cbn [length]; lia). rewrite El. f_equal. unfold overlay.
    replace (Z.to_nat (p + 1)) with (S (Z.to_nat p)) by lia. set (q := Z.to_nat p). unfold len in Hn. cbn [length].
    destruct (Z.ltb_spec p n) as [Hlt|Hge].
    + rewrite length_insert. destruct (length b - q)%nat as [|m] eqn:Em; [lia|]. cbn [take].
      rewrite (take_S_r _ q c) by (apply list_lookup_insert_eq; lia). rewrite take_insert_ge by lia.
      rewrite drop_insert_lt by lia. replace (length b - S q)%nat with m by lia. rewrite <- app_assoc. cbn [app].
      now replace (q + S (length t))%nat with (S q + length t)%nat by lia.
    + fold (overlay (S q) t b). rewrite overlay_behind by (unfold q; lia). symmetry. apply (overlay_behind q (c :: t)). unfold q. lia.
Qed.

(** What [mxmlSaveString] leaves in a buffer of [n] bytes for a text: the text, cut when it
    does not fit, and a NUL; bytes behind that are as they were. *)
Definition saved (t b : bytes) : bytes :=
  if len t <? len b then t ++ [NUL] ++ drop (S (length t)) b else take (length b - 1) t ++ [NUL].

Lemma len_saved t b : 0 < len b -> len (saved t b) = len b.
Proof.
  unfold saved, len. intros H. destruct (Z.ltb_spec (Z.of_nat (length t)) (Z.of_nat (length b))); rewrite !length_app, ?length_drop, ?length_take; cbn [length]; lia.
Qed.

Lemma cstr_saved t b : nonul t -> cstr (saved t b) = take (Z.to_nat (len b - 1)) t.
Proof.
  unfold saved, len. intros H. destruct (Z.ltb_spec (Z.of_nat (length t)) (Z.of_nat (length b))) as [L|L].
  - change ([NUL] ++ drop (S (length t)) b) with (NUL :: drop (S (length t)) b). rewrite cstr_app_nul by exact H. symmetry. apply take_ge. lia.
  - rewrite cstr_app_nul by now apply Forall_take. f_equal. lia.
Qed.

Lemma terminate_saved t b n :
  0 < n -> len b = n ->
  st (if n <=? len t then n - 1 else len t) [NUL] (overlay 0 t b) = Some (saved t b).
Proof.
  unfold len, saved. intros Hn Hl. unfold overlay. rewrite take_0, Nat.sub_0_r, Nat.add_0_l. cbn [app].
  fold (len t). fold (len b). destruct (Z.leb_spec n (len t)) as [H|H]; unfold len in *.
  - rewrite (proj2 (Z.ltb_ge _ _)) by lia. rewrite drop_ge, app_nil_r by lia. unfold st. rewrite length_take. cbn [length].
    rewrite (proj2 (Z.leb_le 0 (n - 1))), (proj2 (Z.leb_le (n - 1 + _) _)) by lia. cbn [andb]. rewrite take_take, drop_ge by (rewrite length_take; lia).
    do 2 f_equal. f_equal. lia.
  - rewrite (proj2 (Z.ltb_lt _ _)) by lia. rewrite (take_ge t) by lia. unfold st. rewrite length_app, length_drop. cbn [length].
    rewrite (proj2 (Z.leb_le 0 (Z.of_nat _))), (proj2 (Z.leb_le (Z.of_nat (length t) + _) _)) by lia. cbn [andb]. rewrite Nat2Z.id.
    rewrite take_app_length, Nat.add_1_r, drop_app_ge by lia. do 3 f_equal. rewrite drop_drop. f_equal. lia.
Qed.

Section Saving.
Context (fmt_f : Z -> bytes).

Lemma save_string_eq h r ts psData n :
  NoDup (ptrs (PT r (Element (Some version) []) ts)) -> rep h NULL NULL NULL (PT r (Element (Some version) []) ts) ->
  forallb good ts = true -> 0 < n -> len psData = n -> len (doc_text ts) <= wrap ->
  let full := doc_text ts ++ [LF] in
  save_string fmt_f h None r n (mkSink psData 0 n) = Ret (len full) (mkSink (saved full psData) (len full) n).
Proof.
  intros N R G Hn Hl Hw full. unfold save_string.
  pose proof (nodup_heap _ _ N (fun q Hq => proj2 (rep_dom _ _ _ _ _ q R Hq))) as L. rewrite ptrs_eq in L. cbn [length] in L.
  set (k0 := mkSink psData 0 n). assert (K0 : sink_ok k0) by (split; [cbn; lia|exact Hl]).
  destruct (write_root_eq mxml_string_putc sink_ok sink_step string_putc_ok h fmt_f r ts k0 (size h) R G) as (c & E & Hc); [lia|exact K0|exact Hw|].
  assert (EW : write_tree mxml_string_putc h None fmt_f r k0 = Ret c (emit sink_step (doc_text ts) k0)) by (unfold write_tree; now rewrite (bind_Ret _ _ _ _ _ E)).
  rewrite (bind_Ret _ _ _ _ _ EW), (proj2 (Z.ltb_ge c 0)), (proj2 (Z.ltb_lt 0 c)) by lia. cbn [when]. rewrite bind_assoc.
  pose proof (emit_ok mxml_string_putc sink_ok sink_step string_putc_ok (doc_text ts) k0 K0) as K1.
  rewrite (bind_Ret _ _ _ _ _ (proj1 (string_putc_ok LF _ K1) : mxml_string_putc (uchar LF) _ = _)), bind_ret_l.
  change (sink_step LF (emit sink_step (doc_text ts) k0)) with (emit sink_step [LF] (emit sink_step (doc_text ts) k0)).
  rewrite <- emit_app. fold full. unfold k0. rewrite emit_sink by (exact Hl || lia). rewrite Z.add_0_l.
  erewrite bind_Ret by reflexivity. cbn [id k_end k_pos k_buffer]. change (Z.to_nat 0) with 0%nat.
  rewrite (terminate_saved full psData n Hn Hl). reflexivity.
Qed.

Lemma mxmlSaveString_eq x ts r psData n :
  wf x NULL NULL NULL (PT r (Element (Some version) []) ts) -> forallb good ts = true ->
  0 < n -> len psData = n -> len (doc_text ts) <= wrap ->
  let full := doc_text ts ++ [LF] in
  mxmlSaveString fmt_f r psData n None x = Ret (len full, saved full psData) x.
Proof.
  intros [_ N R] G Hn Hl Hw full.
  assert (E : with_state (save_string fmt_f (x_heap x) None r n) (mkSink psData 0 n) x
              = Ret (len full, mkSink (saved full psData) (len full) n) x).
  { unfold with_state. now rewrite (save_string_eq (x_heap x) r ts psData n N R G Hn Hl Hw). }
  unfold mxmlSaveString. rewrite (bind_Ret _ _ _ _ _ (eq_refl : get x_heap x = Ret (x_heap x) x)).
  now rewrite (bind_Ret _ _ _ _ _ E).
Qed.

Lemma save_document_eq x ts r psData n :
  wf x NULL NULL NULL (PT r (Element (Some version) []) ts) -> forallb good ts = true -> l_pIntXml x = r ->
  0 < n -> len psData = n -> len (doc_text ts) <= wrap ->
  let full := doc_text ts ++ [LF] in
  XmlSaveString fmt_f psData n x = Ret (len full, saved full psData) x.
Proof.
  intros W G Er Hn Hl Hw full. unfold XmlSaveString. erewrite bind_Ret by reflexivity. rewrite Er. now apply mxmlSaveString_eq.
Qed.

(** C17: saving a document in [n] bytes returns the full length of its text, whether it fits
    or not, and leaves in the buffer a string of the first [n - 1] bytes of the text.  The
    text is the tree's: the declaration, the elements with their attributes, values escaped,
    and a newline.  Nothing outside the [n] bytes is written. *)
Theorem XmlSaveString_correct x ts r psData n :
  wf x NULL NULL NULL (PT r (Element (Some version) []) ts) -> forallb good ts = true -> l_pIntXml x = r ->
  0 < n -> len psData = n -> len (doc_text ts) <= wrap ->
  exists psData', XmlSaveString fmt_f psData n x = Ret (len (doc_text ts ++ [LF]), psData') x
    /\ len psData' = n /\ cstr psData' = take (Z.to_nat (n - 1)) (doc_text ts ++ [LF]).
Proof.
  intros W G Er Hn Hl Hw. exists (saved (doc_text ts ++ [LF]) psData). split; [now apply (save_document_eq x ts r)|].
  split; [rewrite <- Hl; apply len_saved; lia|]. rewrite cstr_saved by (now apply nonul_document). now rewrite Hl.
Qed.
End Saving.

(** A document that is a declaration only. *)
Lemma XmlSaveString_correct_witness :
  exists x b, XmlSaveString (fun _ => []) (zeros 10) 10 x = Ret (43, b) x /\ cstr b = str "<?xml ver".
Proof.
  destruct (new_root (mkXml ∅ 1 [] false 1 []) version) as (x & _ & W & V & _); [|reflexivity|].
  { split; [done|]. intros p. cbn. rewrite lookup_empty. now intros [? ?]. }
  destruct (XmlSaveString_correct (fun _ => []) x [] 1 (zeros 10) 10 W eq_refl) as (b & E & _ & Hb).
  - apply V.
  - lia.
  - reflexivity.
  - vm_compute. congruence.
  - exists x, b. split; [exact E|exact Hb].
Defined.
