(* ===== verification/Mxmlread.v ===== *)
(** * The loader on the text of a document

    [Mxmltext] says what the writer makes of a tree of elements; here it is shown what
    [Mxmlload] makes of that text: the same tree, at other addresses, below the node that is
    being filled.  All allocations succeed. *)

From Stdlib Require Import ZArith Lia Bool List Ascii String.
From stdpp Require Import base list gmap.
From S2P Require Import Prelude Cstr Mxmlentity Mxmltree Xml Mxmlsave Mxmlload Mxmltext.

(** ** Loops *)

Lemma loop_next {V R} f (body : V -> prog (loader bytes) (V + R)) v o v' o' :
  body v o = Ret (inl v') o' -> loop (S f) body v o = loop f body v' o'.
Proof. intros H. cbn [loop]. now rewrite (bind_Ret _ _ _ _ _ H). Qed.

Lemma loop_done {V R} f (body : V -> prog (loader bytes) (V + R)) v o r o' :
  body v o = Ret (inr r) o' -> loop (S f) body v o = Ret r o'.
Proof. intros H. cbn [loop]. now rewrite (bind_Ret _ _ _ _ _ H). Qed.

Lemma in_xml_Ret {T A} (m : prog xml A) x (s : T) a x' : m x = Ret a x' -> in_xml m (mkLoader x s) = Ret a (mkLoader x' s).
Proof. intros H. unfold in_xml. cbn [o_xml o_source]. now rewrite H. Qed.

(** ** Characters *)

Lemma text_char_good c : text_char c = true -> mxml_bad_char (uchar c) = false.
Proof.
  unfold text_char, memc, mxml_bad_char. intros H. apply orb_prop in H as [H|H]; [lia|].
  apply existsb_exists in H as (d & Hd & E). apply ceqb_eq in E as ->. destruct Hd as [<-|[<-|[<-|[]]]]; reflexivity.
Qed.

Lemma getc_eq x c s : text_char c = true -> getc (mkLoader x (c :: s)) = Ret (uchar c) (mkLoader x s).
Proof.
  intros H. cbn [getc string_source]. unfold mxml_string_getc. erewrite bind_Ret by reflexivity. cbn [o_source unread string_source]. erewrite bind_Ret by reflexivity.
  now rewrite text_char_good.
Qed.

Lemma not_eof c : (uchar c =? EOF) = false.
Proof. apply Z.eqb_neq. pose proof (uchar_range c). unfold EOF. lia. Qed.

(** A turn of a loop that reads. *)
Lemma getc_turn {V R} (body : Z -> V -> prog (loader bytes) (V + R)) (at_eof : V -> R) v x c s :
  text_char c = true ->
  each_char body at_eof v (mkLoader x (c :: s)) = body (uchar c) v (mkLoader x s).
Proof. intros H. unfold each_char. rewrite (bind_Ret _ _ _ _ _ (getc_eq x c s H)). now rewrite not_eof. Qed.

Lemma is_ch_char d c : is_ch d (uchar c) = ceqb c d.
Proof.
  unfold is_ch. destruct (ceqb c d) eqn:E; [apply ceqb_eq in E as ->; apply Z.eqb_refl|].
  apply Z.eqb_neq. intros H. apply uchar_inj in H as ->. now rewrite ceqb_refl in E.
Qed.

Definition special : bytes := str "<>&'/=?!" ++ [QUOTE].

Lemma name_is_ch c d : name_char c = true -> In d special -> is_ch d (uchar c) = false.
Proof. intros H Hd. rewrite is_ch_char. now apply name_char_not. Qed.

Lemma name_not_space c : name_char c = true -> mxml_isspace (uchar c) = false.
Proof. unfold name_char, mxml_isspace. intros [H _]%andb_prop. lia. Qed.

Lemma name_text c : name_char c = true -> text_char c = true.
Proof. unfold name_char, text_char. intros [H _]%andb_prop. apply orb_true_iff. left. lia. Qed.

(** ** Buffers *)

Definition buf (t : bytes) (b : strbuf) : Prop := b_live b = true /\ 64 <= b_size b /\ b_text b = t /\ len t < b_size b.

Lemma buf_clear t b : buf t b -> buf [] (clear b).
Proof. intros (H1 & H2 & _ & _). split; [exact H1|]. split; [exact H2|]. split; [done|]. unfold len. cbn. lia. Qed.

Lemma len_snoc (t : bytes) c : len (t ++ [c]) = len t + 1.
Proof. unfold len. rewrite length_app. cbn. lia. Qed.

Lemma terminate_eq {T} t b (o : loader T) : buf t b -> terminate b o = Ret tt o.
Proof.
  intros (_ & _ & E & L). unfold terminate, store. rewrite E, len_snoc. now rewrite (proj2 (Z.leb_le _ _)) by lia.
Qed.

Lemma free_buf_eq {T} t b (o : loader T) : buf t b -> free_buf b o = Ret tt o.
Proof. intros (H & _). unfold free_buf. now rewrite H. Qed.

Lemma malloc64_eq {T} x (s : T) : x_allocs x = [] -> malloc64 (mkLoader x s) = Ret (Some (mkBuf [] 64 true)) (mkLoader x s).
Proof. intros H. unfold malloc64. now rewrite (bind_Ret _ _ _ _ _ (in_xml_Ret _ _ s _ _ (granted_eq x H))). Qed.

Lemma char_bytes_char c : char_bytes (uchar c) = [c].
Proof. now destruct c as [[] [] [] [] [] [] [] []]. Qed.

Lemma add_char_eq {T} x (s : T) c t b :
  x_allocs x = [] -> buf t b ->
  exists b', mxml_add_char (uchar c) b (mkLoader x s) = Ret (0, b') (mkLoader x s) /\ buf (t ++ [c]) b'.
Proof.
  intros Hal (H1 & H2 & H3 & H4). unfold mxml_add_char, store. rewrite char_bytes_char, H3. cbn [b_text b_size b_live]. rewrite !len_snoc.
  destruct (Z.leb_spec (b_size b - 4) (len t)) as [Hg|Hg].
  - rewrite (bind_Ret _ _ _ _ _ (in_xml_Ret _ _ s _ _ (granted_eq x Hal))). set (size := if b_size b <? 1024 then _ else _).
    assert (Hs : b_size b + 64 <= size) by (unfold size; destruct (b_size b <? 1024); lia).
    rewrite (proj2 (Z.leb_le _ _)) by lia. eexists. split; [reflexivity|]. unfold buf. cbn [b_live b_size b_text]. rewrite len_snoc. repeat split; (exact H1 || lia).
  - rewrite (proj2 (Z.leb_le _ _)) by lia. eexists. split; [reflexivity|]. unfold buf. cbn [b_live b_size b_text]. rewrite len_snoc. repeat split; (exact H1 || lia).
Qed.

(** ** Entities *)

Lemma get_entity_eq node x s c name :
  mxmlEntityGetName (schar c) = Some name -> mxml_get_entity node (mkLoader x (name ++ ";"%char :: s)) = Ret (uchar c) (mkLoader x s).
Proof.
  unfold mxmlEntityGetName. intros H.
  assert (E : forall d, schar c = uchar d -> to_char (uchar d) = c) by (intros d <-; apply to_char_schar).
  destruct (Z.eqb_spec (schar c) 38) as [Ec|]; [injection H as <-; rewrite <- (E "&"%char Ec); vm_compute; reflexivity|].
  destruct (Z.eqb_spec (schar c) 60) as [Ec|]; [injection H as <-; rewrite <- (E "<"%char Ec); vm_compute; reflexivity|].
  destruct (Z.eqb_spec (schar c) 62) as [Ec|]; [injection H as <-; rewrite <- (E ">"%char Ec); vm_compute; reflexivity|].
  destruct (Z.eqb_spec (schar c) 34) as [Ec|]; [injection H as <-; rewrite <- (E QUOTE Ec); vm_compute; reflexivity|discriminate].
Qed.

(** An escaped character: its first character, and what is taken from there on. *)
Definition escape_head (c : ascii) : ascii := List.hd NUL (escape_char c).

Lemma escape_char_cons c : escape_char c = escape_head c :: tl (escape_char c).
Proof. unfold escape_head, escape_char. now destruct (mxmlEntityGetName (schar c)). Qed.

Lemma escape_head_text c : text_char c = true -> text_char (escape_head c) = true.
Proof. intros H. unfold escape_head, escape_char. now destruct (mxmlEntityGetName (schar c)). Qed.

Lemma take_char_eq node x s c t b :
  x_allocs x = [] -> text_char c = true -> buf t b ->
  exists b', take_char node (uchar (escape_head c)) b (mkLoader x (tl (escape_char c) ++ s)) = Ret (Some (uchar c), b') (mkLoader x s)
    /\ buf (t ++ [c]) b'.
Proof.
  intros Hal Hc Hb. destruct (add_char_eq x s c t b Hal Hb) as (b' & E & Hb'). exists b'. split; [|exact Hb'].
  unfold take_char, escape_head, escape_char. destruct (mxmlEntityGetName (schar c)) as [name|] eqn:N.
  - change (str "&" ++ name ++ str ";") with ("&"%char :: name ++ [";"%char]). cbn [List.hd tl]. change (uchar "&"%char =? uchar "&"%char) with true. cbn match.
    rewrite <- app_assoc. cbn [app]. rewrite (bind_Ret _ _ _ _ _ (get_entity_eq node x s c name N)), not_eof.
    now rewrite (bind_Ret _ _ _ _ _ E).
  - cbn [List.hd tl app]. destruct (Z.eqb_spec (uchar c) (uchar "&"%char)) as [Ec|].
    { apply uchar_inj in Ec as ->. discriminate N. }
    rewrite bind_ret_l, not_eof. now rewrite (bind_Ret _ _ _ _ _ E).
Qed.

(** ** Names and values *)

Lemma take_until_eq stop node x s v e : forall t b,
  x_allocs x = [] -> forallb text_char v = true -> text_char e = true -> buf t b ->
  (forall c t, In c v -> stop (uchar (escape_head c)) t = false) -> (forall t, stop (uchar e) t = true) ->
  exists b', take_until stop node b (mkLoader x (escape v ++ e :: s)) = Ret (Some (uchar e), b') (mkLoader x s) /\ buf (t ++ v) b'.
Proof.
  unfold take_until, while_getc, while_. intros t b Hal Hv He Hb Hs Hst. erewrite bind_Ret by reflexivity. cbn [o_source unread string_source].
  assert (Hf : (length v < S (S (length (escape v ++ e :: s))))%nat).
  { rewrite length_app. pose proof (escape_length v). unfold len in *. lia. }
  revert Hf. generalize (S (S (length (escape v ++ e :: s)))). intros fuel. revert fuel t b Hb.
  induction v as [|c v IH]; intros fuel t b Hb Hf; (destruct fuel as [|fuel]; [cbn in Hf; lia|]).
  - exists b. rewrite app_nil_r. split; [|exact Hb]. change (escape [] ++ e :: s) with (e :: s). apply loop_done. rewrite getc_turn by exact He. now rewrite Hst.
  - cbn [forallb] in Hv. apply andb_prop in Hv as [Hc Hv].
    change (escape (c :: v)) with (escape_char c ++ escape v). rewrite <- app_assoc, escape_char_cons. cbn [app].
    destruct (take_char_eq node x (escape v ++ e :: s) c t b Hal Hc Hb) as (b1 & E1 & Hb1).
    destruct (IH Hv (fun c' t' H => Hs c' t' (or_intror H)) fuel (t ++ [c]) b1 Hb1) as (b2 & E2 & Hb2); [cbn in Hf; lia|].
    exists b2. rewrite <- app_assoc in Hb2. split; [|exact Hb2]. rewrite <- E2. apply loop_next.
    rewrite getc_turn by now apply escape_head_text. rewrite Hs by now left. now rewrite (bind_Ret _ _ _ _ _ E1).
Qed.

(** A quoted value. *)
Lemma read_value_eq node x s v t b :
  x_allocs x = [] -> forallb text_char v = true -> buf t b ->
  exists b', read_value node (uchar QUOTE) b (mkLoader x (escape v ++ QUOTE :: s)) = Ret (Some (uchar QUOTE), b') (mkLoader x s) /\ buf v b'.
Proof.
  intros Hal Hv Hb. destruct (take_until_eq (fun c _ => c =? uchar QUOTE) node x s v QUOTE [] (clear b) Hal Hv eq_refl (buf_clear t b Hb)) as (b' & E & Hb').
  - intros c _ _. apply Z.eqb_neq. intros H%uchar_inj. unfold escape_head, escape_char in H.
    destruct (mxmlEntityGetName (schar c)) eqn:N; [discriminate|]. cbn in H. now subst c.
  - intros _. apply Z.eqb_refl.
  - exists b'. split; [|exact Hb']. unfold read_value. change (is_ch "'"%char (uchar QUOTE) || is_ch QUOTE (uchar QUOTE)) with true. cbn match.
    rewrite (bind_Ret _ _ _ _ _ E). now rewrite (bind_Ret _ _ _ _ _ (terminate_eq _ _ _ Hb')).
Qed.

(** A name in front of an equals sign. *)
Lemma read_name_eq node x s c n t b :
  x_allocs x = [] -> forallb name_char (c :: n) = true -> buf t b ->
  exists b', read_name node (uchar c) b (mkLoader x (n ++ "="%char :: s)) = Ret (Some (uchar "="%char), b') (mkLoader x s) /\ buf (c :: n) b'.
Proof.
  intros Hal H Hb. cbn [forallb] in H. apply andb_prop in H as [Hc Hn]. destruct (buf_clear t b Hb) as (H1 & H2 & H3 & H4).
  assert (Hs : start (uchar c) b (mkLoader x (n ++ "="%char :: s)) = Ret (mkBuf [c] (b_size b) (b_live b)) (mkLoader x (n ++ "="%char :: s))).
  { unfold start, store. cbn [clear b_text app b_size b_live] in *. rewrite (proj2 (Z.leb_le _ _)) by (unfold len; cbn; lia). now rewrite to_char_uchar. }
  destruct (take_until_eq name_end node x s n "="%char [c] (mkBuf [c] (b_size b) (b_live b)) Hal) as (b' & E & Hb').
  - rewrite forallb_forall in *. intros d Hd. now apply name_text, Hn.
  - reflexivity.
  - split; [exact H1|]. split; [exact H2|]. split; [done|]. cbn [clear b_size] in *. unfold len. cbn [length]. lia.
  - intros d u Hd. rewrite forallb_forall in Hn. specialize (Hn d Hd). unfold escape_head. rewrite (proj1 (name_char_plain d Hn)). cbn [List.hd].
    unfold name_end. now rewrite name_not_space, !name_is_ch by (exact Hn || (cbn; tauto)).
  - reflexivity.
  - exists b'. split; [|exact Hb']. unfold read_name. rewrite (bind_Ret _ _ _ _ _ Hs), !name_is_ch by (exact Hc || (cbn; tauto)). cbn [orb].
    rewrite <- E. now rewrite escape_name by exact Hn.
Qed.

Lemma skip_blanks_eq c o : mxml_isspace (uchar c) = false -> skip_blanks (uchar c) o = Ret (uchar c) o.
Proof. intros H. unfold skip_blanks, while_. erewrite bind_Ret by reflexivity. cbn [loop]. now rewrite H. Qed.

(** ** Tags *)

Definition tag_end (c : ascii) : Prop := c = SP \/ c = ">"%char.

Lemma not_special d t : d <> "?"%char -> d <> "!"%char -> special_open (d :: t) = false.
Proof.
  intros H1 H2. unfold special_open. cbn [List.hd]. rewrite (proj2 (ceqb_neq _ _) H1), andb_false_r. unfold comment_open, cdata_open.
  change (str "!--") with ("!"%char :: str "--"). change (str "![CDATA[") with ("!"%char :: str "[CDATA[").
  rewrite !starts_with_other by (exact H2 || discriminate). now rewrite !andb_false_r.
Qed.

Definition plain_text (t : bytes) : Prop := match t with [] => True | d :: _ => d <> "?"%char /\ d <> "!"%char end.

Lemma name_neq c d : name_char c = true -> In d special -> c <> d.
Proof. intros H Hd. apply ceqb_neq. now apply name_char_not. Qed.

(** The body of the loop of [read_tag]. *)
Definition tag_body (par : Z) (ch : Z) (b : strbuf) : prog (loader bytes) (strbuf + (option Z * strbuf)) :=
  if mxml_isspace ch || is_ch ">"%char ch || is_ch "/"%char ch && negb (len (b_text b) =? 0) then ret (inr (Some ch, b))
  else if is_ch "<"%char ch then load_error (str "Bare < in element!") ;;; ret (inr (None, b))
  else
    let* (o, b) := take_char par ch b in
    match o with
    | None => ret (inr (None, b))
    | Some c => if negb (is_ch "&"%char ch) && special_open (b_text b) then ret (inr (Some c, b)) else ret (inl b)
    end.

(** A character that goes on with a name. *)
Lemma tag_next par x s c t b :
  x_allocs x = [] -> buf t b -> plain_text t -> name_char c = true \/ c = "/"%char /\ t = [] ->
  exists b', each_char (tag_body par) (fun b => (Some EOF, b)) b (mkLoader x (c :: s)) = Ret (inl b') (mkLoader x s)
    /\ buf (t ++ [c]) b' /\ plain_text (t ++ [c]).
Proof.
  intros Hal Hb Ht Hc. assert (Hx : text_char c = true) by (destruct Hc as [Hc|[-> _]]; [now apply name_text|done]).
  destruct (take_char_eq par x s c t b Hal Hx Hb) as (b' & E & Hb').
  assert (Hesc : escape_char c = [c]) by (destruct Hc as [Hc|[-> _]]; [apply (name_char_plain c Hc)|reflexivity]).
  unfold escape_head in E. rewrite Hesc in E. cbn [List.hd tl app] in E.
  assert (Hp : plain_text (t ++ [c])).
  { destruct t as [|d t]; [|exact Ht]. cbn. destruct Hc as [Hc|[-> _]]; [|now split]. split; apply (name_neq c _ Hc); cbn; tauto. }
  exists b'. split; [|split; [exact Hb'|exact Hp]]. rewrite getc_turn by exact Hx. unfold tag_body.
  destruct (Hb) as (_ & _ & Et & _). rewrite Et.
  assert (H0 : mxml_isspace (uchar c) || is_ch ">"%char (uchar c) || is_ch "/"%char (uchar c) && negb (len t =? 0) = false).
  { destruct Hc as [Hc|[-> ->]]; [|reflexivity]. now rewrite name_not_space, !name_is_ch by (exact Hc || (cbn; tauto)). }
  assert (H1 : is_ch "<"%char (uchar c) = false) by (destruct Hc as [Hc|[-> _]]; [apply (name_is_ch c _ Hc); cbn; tauto|done]).
  rewrite H0, H1, (bind_Ret _ _ _ _ _ E). destruct Hb' as (_ & _ & -> & _).
  destruct (t ++ [c]) as [|d u] eqn:Eu; [now destruct t|]. destruct Hp as [P1 P2]. now rewrite not_special, andb_false_r.
Qed.

Lemma tag_loop par x s c e : forall fuel t b,
  x_allocs x = [] -> forallb name_char e = true -> tag_end c -> buf t b -> plain_text t -> (length e < fuel)%nat ->
  exists b', loop fuel (each_char (tag_body par) (fun b => (Some EOF, b))) b (mkLoader x (e ++ c :: s)) = Ret (Some (uchar c), b') (mkLoader x s)
    /\ buf (t ++ e) b'.
Proof.
  induction e as [|d e IH]; intros fuel t b Hal He Hc Hb Ht Hf; (destruct fuel as [|fuel]; [cbn in Hf; lia|]).
  - exists b. rewrite app_nil_r. split; [|exact Hb]. apply loop_done. cbn [app]. unfold tag_body.
    destruct Hc as [-> | ->]; rewrite getc_turn by reflexivity; reflexivity.
  - cbn [forallb] in He. apply andb_prop in He as [Hd He]. cbn [app].
    destruct (tag_next par x (e ++ c :: s) d t b Hal Hb Ht (or_introl Hd)) as (b1 & E1 & Hb1 & Ht1).
    destruct (IH fuel (t ++ [d]) b1 Hal He Hc Hb1 Ht1) as (b2 & E2 & Hb2); [cbn in Hf; lia|].
    exists b2. rewrite <- app_assoc in Hb2. split; [|exact Hb2]. rewrite <- E2. now apply loop_next.
Qed.

Lemma read_tag_eq par x s c e b :
  x_allocs x = [] -> forallb name_char e = true -> tag_end c -> buf [] b ->
  exists b', read_tag par b (mkLoader x (e ++ c :: s)) = Ret (Some (uchar c), b') (mkLoader x s) /\ buf e b'.
Proof.
  intros Hal He Hc Hb. unfold read_tag, while_getc, while_. erewrite bind_Ret by reflexivity.
  apply (tag_loop par x s c e _ [] b); try assumption; [done|]. cbn [o_source unread string_source]. rewrite length_app. lia.
Qed.

Lemma read_close_eq par x s e b :
  x_allocs x = [] -> forallb name_char e = true -> buf [] b ->
  exists b', read_tag par b (mkLoader x ("/"%char :: e ++ ">"%char :: s)) = Ret (Some (uchar ">"%char), b') (mkLoader x s) /\ buf ("/"%char :: e) b'.
Proof.
  intros Hal He Hb. destruct (tag_next par x (e ++ ">"%char :: s) "/"%char [] b Hal Hb I) as (b1 & E1 & Hb1 & Ht1); [now right|].
  unfold read_tag, while_getc, while_. erewrite bind_Ret by reflexivity. cbn [o_source unread string_source].
  destruct (tag_loop par x s ">"%char e (S (length ("/"%char :: e ++ ">"%char :: s))) ["/"%char] b1 Hal He (or_intror eq_refl) Hb1 Ht1) as (b2 & E2 & Hb2).
  { cbn [length]. rewrite length_app. lia. }
  exists b2. split; [|exact Hb2]. rewrite <- E2. now apply loop_next.
Qed.

(** ** Attributes *)

Lemma has_name_eq n a : nonul n -> nonul (a_name a) -> has_name n a = true <-> a_name a = n.
Proof. intros Hn Ha. unfold has_name. rewrite streq_cstr, !cstr_id by assumption. done. Qed.

Lemma find_absent n l : nonul n -> Forall (fun a => nonul (a_name a)) l -> n ∉ a_name <$> l -> List.find (has_name n) l = None.
Proof.
  intros Hn F H. induction F as [|a l Ha F IH]; [done|]. cbn [List.find fmap list_fmap] in *. apply not_elem_of_cons in H as [H1 H2].
  destruct (has_name n a) eqn:E; [|now apply IH]. apply has_name_eq in E; congruence.
Qed.

Lemma put_absent n v l : List.find (has_name n) l = None -> put_attr n v l = l ++ [mkAttr n (Some v)].
Proof.
  intros H. unfold put_attr. assert (E : replace_attr n (Some v) l = None); [|now rewrite E].
  induction l as [|a l IH]; [done|]. cbn [List.find replace_attr] in *. destruct (has_name n a); [discriminate|]. now rewrite IH.
Qed.

Lemma good_attrs_nonul attrs : forallb good_attr attrs = true -> Forall (fun a => nonul (a_name a)) attrs.
Proof.
  rewrite forallb_forall, List.Forall_forall. intros H a Ha. destruct (good_attr_eq a (H a Ha)) as (c & n & v & -> & _ & Hn & _).
  now apply name_nonul.
Qed.

Lemma parse_attr_eq node x s a b1 b2 t1 t2 e done :
  good_attr a = true -> x_allocs x = [] -> buf t1 b1 -> buf t2 b2 -> forallb good_attr done = true -> a_name a ∉ a_name <$> done ->
  (exists par prv nxt, wf x par prv nxt (PT node (Element (Some e) done) [])) ->
  exists b1' b2' t1' t2' x',
    each_char (parse_attr node) (fun '(name, value) => (EOF, name, value)) (b1, b2) (mkLoader x (tl (attr_text a) ++ s))
    = Ret (inl (b1', b2')) (mkLoader x' s) /\ buf t1' b1' /\ buf t2' b2'
    /\ edit x x' (PT node (Element (Some e) done) []) (PT node (Element (Some e) (done ++ [a])) []) /\ same_vars x x'.
Proof.
  intros Ga Hal H1 H2 Gd Hn (par & prv & nxt & W). destruct (good_attr_eq a Ga) as (c & n & v & -> & Hc & Hcn & Hv). cbn [a_name] in Hn.
  unfold attr_text. change (str "=") with ["="%char]. cbn [app tl a_name a_value default id]. do 2 (rewrite <- !app_assoc; cbn [app]).
  destruct (read_name_eq node x (QUOTE :: escape v ++ QUOTE :: s) c n t1 b1 Hal Hcn H1) as (b1' & E1 & H1').
  destruct (read_value_eq node x s v t2 b2 Hal Hv H2) as (b2' & E2 & H2').
  destruct (set_attr_edit x par prv nxt node (Some e) done [] (c :: n) v W Hal) as (x' & E3 & Ed & V).
  assert (F : List.find (has_name (c :: n)) done = None) by (apply find_absent; [now apply name_nonul|now apply good_attrs_nonul|exact Hn]).
  rewrite put_absent in Ed by exact F. exists b1', b2', (c :: n), v, x'. split; [|now split; [|split; [|split]]].
  cbn [app]. rewrite getc_turn by now apply name_text. unfold parse_attr.
  rewrite name_not_space, !name_is_ch by (exact Hc || (cbn; tauto)). cbn [orb]. rewrite (bind_Ret _ _ _ _ _ E1).
  rewrite (bind_Ret _ _ _ _ _ (terminate_eq _ _ _ H1')). destruct H1' as (_ & _ & T1 & _). destruct H2' as (_ & _ & T2 & _).
  rewrite T1. pose proof (get_attr_eq x par prv nxt node (Some e) done [] (c :: n) W) as G. rewrite F in G.
  rewrite (bind_Ret _ _ _ _ _ (in_xml_Ret _ _ _ _ _ G)). rewrite (bind_Ret _ _ _ _ _ (skip_blanks_eq "="%char _ eq_refl)).
  change (is_ch "="%char (uchar "="%char)) with true. cbn [negb].
  rewrite (bind_Ret _ _ _ _ _ (getc_eq x QUOTE _ eq_refl)). rewrite (bind_Ret _ _ _ _ _ (skip_blanks_eq QUOTE _ eq_refl)).
  rewrite not_eof, (bind_Ret _ _ _ _ _ E2), T2. now rewrite (bind_Ret _ _ _ _ _ (in_xml_Ret _ _ _ _ _ E3)).
Qed.

(** The end of an opening tag: the character that ends it, and its text. *)
Definition tail_char (empty : bool) : ascii := if empty then "/"%char else ">"%char.
Definition tail_text (empty : bool) : bytes := if empty then str " />" else str ">".

Definition attr_loop (node : Z) : strbuf * strbuf -> prog (loader bytes) ((strbuf * strbuf) + (Z * strbuf * strbuf)) :=
  each_char (parse_attr node) (fun '(name, value) => (EOF, name, value)).

Lemma blank_turn node x s bufs : attr_loop node bufs (mkLoader x (SP :: s)) = Ret (inl bufs) (mkLoader x s).
Proof. unfold attr_loop. rewrite getc_turn by reflexivity. now destruct bufs. Qed.

Lemma tail_loop node x s f bufs empty :
  loop (S (S f)) (attr_loop node) bufs (mkLoader x (tail_text empty ++ s)) = Ret (uchar (tail_char empty), fst bufs, snd bufs) (mkLoader x s).
Proof.
  destruct bufs as [b1 b2]. destruct empty; cbn [tail_text tail_char].
  - change (str " />" ++ s) with (SP :: "/"%char :: ">"%char :: s). rewrite (loop_next _ _ _ _ _ _ (blank_turn _ _ _ _)). apply loop_done.
    unfold attr_loop. rewrite getc_turn by reflexivity. unfold parse_attr. change (mxml_isspace (uchar "/"%char)) with false.
    change (is_ch "/"%char (uchar "/"%char)) with true. cbn [orb]. unfold grab_end.
    now rewrite bind_assoc, (bind_Ret _ _ _ _ _ (getc_eq x ">"%char s eq_refl)).
  - apply loop_done. change (str ">" ++ s) with (">"%char :: s). unfold attr_loop. now rewrite getc_turn.
Qed.

Lemma attrs_loop node e empty s attrs : forall done x b1 b2 t1 t2 fuel,
  forallb good_attr done = true -> forallb good_attr attrs = true -> NoDup (a_name <$> done ++ attrs) ->
  x_allocs x = [] -> buf t1 b1 -> buf t2 b2 -> (2 * length attrs + 2 <= fuel)%nat ->
  (exists par prv nxt, wf x par prv nxt (PT node (Element (Some e) done) [])) ->
  exists b1' b2' t1' t2' x',
    loop fuel (attr_loop node) (b1, b2) (mkLoader x (attrs_text attrs ++ tail_text empty ++ s))
    = Ret (uchar (tail_char empty), b1', b2') (mkLoader x' s) /\ buf t1' b1' /\ buf t2' b2'
    /\ edit x x' (PT node (Element (Some e) done) []) (PT node (Element (Some e) (done ++ attrs)) []) /\ same_vars x x'.
Proof.
  induction attrs as [|a attrs IH]; intros done x b1 b2 t1 t2 fuel Gd Ga N Hal H1 H2 Hf W.
  - destruct fuel as [|[|fuel]]; [cbn in Hf; lia|cbn in Hf; lia|]. exists b1, b2, t1, t2, x. rewrite app_nil_r.
    split; [exact (tail_loop node x s fuel (b1, b2) empty)|]. split; [exact H1|]. split; [exact H2|]. split; [apply edit_refl|done].
  - destruct fuel as [|[|fuel]]; [cbn in Hf; lia|cbn in Hf; lia|]. cbn [forallb] in Ga. apply andb_prop in Ga as [Ga Gs].
    assert (Hn : a_name a ∉ a_name <$> done).
    { intros H. rewrite fmap_app in N. apply NoDup_app in N as (_ & N & _). apply (N _ H). cbn [fmap list_fmap]. left. }
    destruct (parse_attr_eq node x (attrs_text attrs ++ tail_text empty ++ s) a b1 b2 t1 t2 e done Ga Hal H1 H2 Gd Hn W)
      as (c1 & c2 & u1 & u2 & x1 & E1 & K1 & K2 & Ed1 & V1).
    destruct W as (par & prv & nxt & W).
    destruct (IH (done ++ [a]) x1 c1 c2 u1 u2 fuel) as (b1' & b2' & t1' & t2' & x2 & E2 & K1' & K2' & Ed2 & V2).
    + rewrite List.forallb_app, Gd. cbn [forallb]. now rewrite Ga.
    + exact Gs.
    + now rewrite <- app_assoc.
    + destruct V1; congruence.
    + exact K1.
    + exact K2.
    + cbn [length] in Hf. lia.
    + exists par, prv, nxt. exact (e_wf _ _ _ _ Ed1 _ _ _ W).
    + exists b1', b2', t1', t2', x2. rewrite <- app_assoc in Ed2. split; [|split; [exact K1'|split; [exact K2'|split; [|now apply (same_vars_trans _ x1)]]]].
      2: now apply (edit_trans _ x1 _ _ (PT node (Element (Some e) (done ++ [a])) [])).
      change (attrs_text (a :: attrs)) with (attr_text a ++ attrs_text attrs). rewrite <- app_assoc.
      change (attr_text a) with (SP :: tl (attr_text a)). cbn [app].
      rewrite (loop_next _ _ _ _ _ _ (blank_turn _ _ _ _)), <- E2. now apply loop_next.
Qed.

Lemma length_attrs attrs : (2 * length attrs <= length (attrs_text attrs))%nat.
Proof.
  induction attrs as [|a attrs IH]; [done|]. change (attrs_text (a :: attrs)) with (attr_text a ++ attrs_text attrs).
  rewrite length_app. unfold attr_text. rewrite !length_app. cbn. lia.
Qed.

(** An opening tag behind a name that a blank ends: the attributes are added and the tag's
    end is read. *)
Lemma parse_element_eq node e attrs empty x r s par prv nxt :
  SP :: r = attrs_text attrs ++ tail_text empty ++ s -> forallb good_attr attrs = true -> NoDup (a_name <$> attrs) -> x_allocs x = [] ->
  wf x par prv nxt (PT node (Element (Some e) []) []) ->
  exists x', mxml_parse_element node (mkLoader x r) = Ret (uchar (tail_char empty)) (mkLoader x' s)
    /\ edit x x' (PT node (Element (Some e) []) []) (PT node (Element (Some e) attrs) []) /\ same_vars x x'.
Proof.
  intros Er Ga N Hal W. assert (B0 : buf [] (mkBuf [] 64 true)) by (repeat split; cbn; lia).
  assert (Lr : (2 * length attrs + 1 <= length (SP :: r))%nat).
  { rewrite Er, !length_app. pose proof (length_attrs attrs). destruct empty; cbn; lia. }
  destruct (attrs_loop node e empty s attrs [] x _ _ [] [] (S (S (S (length r)))) eq_refl Ga N Hal B0 B0) as (b1 & b2 & t1 & t2 & x' & E & H1 & H2 & Ed & V).
  { cbn [length] in Lr. lia. }
  { now exists par, prv, nxt. }
  exists x'. split; [|now split]. unfold mxml_parse_element. rewrite (bind_Ret _ _ _ _ _ (malloc64_eq x r Hal)), (bind_Ret _ _ _ _ _ (malloc64_eq x r Hal)).
  rewrite <- Er, (loop_next _ _ _ _ _ _ (blank_turn _ _ _ _)) in E.
  assert (Ew : while_getc (parse_attr node) (fun '(name, value) => (EOF, name, value)) (mkBuf [] 64 true, mkBuf [] 64 true) (mkLoader x r)
               = Ret (uchar (tail_char empty), b1, b2) (mkLoader x' s)).
  { unfold while_getc, while_. erewrite bind_Ret by reflexivity. exact E. }
  rewrite (bind_Ret _ _ _ _ _ Ew). now rewrite (bind_Ret _ _ _ _ _ (free_buf_eq _ _ _ H1)), (bind_Ret _ _ _ _ _ (free_buf_eq _ _ _ H2)).
Qed.

(** ** Elements *)

(** The same tree without its addresses. *)
Fixpoint erase (t : ptree) : ptree := match t with PT _ v ts => PT NULL v (map erase ts) end.

(** The loop stands in front of a tag below [q]. *)
Record at_node (v : vars) (q : Z) : Prop := {
  an_parent : v_parent v = q;
  an_first : v_first v <> NULL;
  an_blank : v_whitespace v = 0;
  an_buffer : buf [] (v_buffer v);
}.

Lemma streq_other e p d : nonul e -> List.hd NUL e <> d -> d <> NUL -> streq e (d :: p) = false.
Proof.
  intros He Hd Hn. destruct (streq e (d :: p)) eqn:E; [exfalso|done]. apply streq_cstr in E. rewrite (cstr_id e He) in E.
  cbn [cstr] in E. rewrite (proj2 (ceqb_neq _ _) Hn) in E. now subst e.
Qed.

(** What follows the name of an opening tag. *)
Lemma behind_name attrs empty s :
  exists c r, attrs_text attrs ++ tail_text empty ++ s = c :: r /\ tag_end c
    /\ (c = SP \/ c = ">"%char /\ attrs = [] /\ empty = false /\ r = s).
Proof.
  destruct attrs as [|a attrs].
  - destruct empty; cbn [tail_text].
    + exists SP, ("/"%char :: ">"%char :: s). split; [reflexivity|]. split; now left.
    + exists ">"%char, s. split; [reflexivity|]. split; [now right|]. right. now repeat split.
  - change (attrs_text (a :: attrs)) with (attr_text a ++ attrs_text attrs). rewrite <- app_assoc.
    change (attr_text a) with (SP :: tl (attr_text a)). cbn [app]. do 2 eexists. split; [reflexivity|]. split; now left.
Qed.

Section Load.
Context (destroy_cb : Z -> Z -> prog xml unit).

Definition doc_loop : vars -> prog (loader bytes) turn := each_char (load_char destroy_cb) (fun v => (Break, v)).

(** An opening angle bracket behind nothing else. *)
Lemma tag_turn v x s : v_whitespace v = 0 -> buf [] (v_buffer v) -> doc_loop v (mkLoader x ("<"%char :: s)) = tag destroy_cb v (mkLoader x s).
Proof.
  intros Hw (_ & _ & Ht & _). unfold doc_loop. rewrite getc_turn by reflexivity. unfold load_char, value_node. rewrite Ht.
  change (is_ch "<"%char (uchar "<"%char)) with true. change (mxml_isspace (uchar "<"%char)) with false. change (negb (len [] =? 0)) with false.
  cbn [orb andb]. rewrite bind_ret_l. unfold blank_node. now rewrite Hw.
Qed.

Lemma note_first_same n v : v_first v <> NULL -> note_first n v = v.
Proof. intros H. unfold note_first. now rewrite (proj2 (Z.eqb_neq _ _) H). Qed.

(** The result of an opening tag. *)
Lemma open_tag_eq x q qv us par prv nxt v s e attrs empty c r b :
  forallb good_attr attrs = true -> NoDup (a_name <$> attrs) -> wf x par prv nxt (PT q qv us) -> x_allocs x = [] ->
  at_node v q -> buf e b -> attrs_text attrs ++ tail_text empty ++ s = c :: r ->
  c = SP \/ c = ">"%char /\ attrs = [] /\ empty = false /\ r = s ->
  exists node x' v', open_tag destroy_cb (uchar c) b v (mkLoader x r) = Ret (inl v') (mkLoader x' s)
    /\ edit x x' (PT q qv us) (PT q qv (us ++ [PT node (Element (Some e) attrs) []])) /\ same_vars x x'
    /\ at_node v' (if empty then q else node) /\ v_first v' = v_first v.
Proof.
  intros Ga N W Hal [Vp Vf Vw Vb] Hb Er Hc. destruct (new_element_edit x par prv nxt q qv us e W Hal) as (node & x1 & E1 & Ed1 & V1 & Hn).
  pose proof (wf_child _ _ _ _ _ _ us _ [] (e_wf _ _ _ _ Ed1 _ _ _ W)) as Wc. assert (Hal1 : x_allocs x1 = []) by (destruct V1; congruence).
  unfold open_tag. rewrite Vp. assert (Eb : b_text b = e) by apply Hb. rewrite Eb. rewrite (bind_Ret _ _ _ _ _ (in_xml_Ret _ _ r _ _ E1)).
  rewrite (proj2 (Z.eqb_neq node NULL)) by exact Hn. destruct Hc as [->|(-> & -> & -> & ->)].
  - change (mxml_isspace (uchar SP)) with true. cbn match. destruct (parse_element_eq node e attrs empty x1 r s _ _ _ (eq_sym Er) Ga N Hal1 Wc) as (x2 & E2 & Ed2 & V2).
    rewrite bind_assoc, (bind_Ret _ _ _ _ _ E2), not_eof, bind_ret_l, not_eof. rewrite is_ch_char, (note_first_same node (set_v_buffer b v)) by exact Vf.
    exists node, x2. eexists. split; [reflexivity|]. split; [|split; [|split]].
    + eapply edit_trans; [exact Ed1|now apply edit_child].
    + now apply (same_vars_trans _ x1).
    + destruct empty; cbn; (split; [first [exact Vp|done]|exact Vf|exact Vw|exact (buf_clear _ _ Hb)]).
    + now destruct empty.
  - change (mxml_isspace (uchar ">"%char)) with false. change (is_ch "/"%char (uchar ">"%char)) with false. cbn match. rewrite bind_ret_l, not_eof.
    rewrite (note_first_same node (set_v_buffer b v)) by exact Vf. exists node, x1. eexists. split; [reflexivity|]. split; [exact Ed1|]. split; [exact V1|].
    split; [|done]. split; [done|exact Vf|exact Vw|exact (buf_clear _ _ Hb)].
Qed.

Lemma open_turn x q qv us par prv nxt v s e attrs empty :
  good_name e = true -> forallb good_attr attrs = true -> NoDup (a_name <$> attrs) ->
  wf x par prv nxt (PT q qv us) -> x_allocs x = [] -> at_node v q ->
  exists node x' v', doc_loop v (mkLoader x (open_text e attrs ++ tail_text empty ++ s)) = Ret (inl v') (mkLoader x' s)
    /\ edit x x' (PT q qv us) (PT q qv (us ++ [PT node (Element (Some e) attrs) []])) /\ same_vars x x'
    /\ at_node v' (if empty then q else node) /\ v_first v' = v_first v.
Proof.
  intros He Ga N W Hal A. destruct (behind_name attrs empty s) as (c & r & Er & Hc & Hr). destruct (good_name_cons e He) as (d & e' & Ee & Hd & Hn).
  destruct (read_tag_eq (v_parent v) x r c e (clear (v_buffer v)) Hal Hn Hc (buf_clear _ _ (an_buffer _ _ A))) as (b & Eb & Hb).
  destruct (open_tag_eq x q qv us par prv nxt v s e attrs empty c r b Ga N W Hal A Hb Er Hr) as (node & x' & v' & Eo & H).
  exists node, x', v'. split; [|exact H]. rewrite <- Eo. unfold open_text. rewrite <- !app_assoc, Er. change (str "<") with ["<"%char]. cbn [app].
  rewrite tag_turn by apply A. unfold tag. rewrite (bind_Ret _ _ _ _ _ Eb). rewrite (bind_Ret _ _ _ _ _ (terminate_eq _ _ _ Hb)).
  assert (Et : b_text b = e) by apply Hb. rewrite Et. pose proof (name_nonul e Hn) as He0.
  assert (Hh : forall k, In k special -> ceqb (List.hd NUL e) k = false) by (intros k Hk; rewrite Ee; now apply name_char_not).
  unfold comment_open, cdata_open. change (str "!--") with ("!"%char :: str "--"). change (str "![CDATA[") with ("!"%char :: str "[CDATA[").
  assert (H1 : List.hd NUL e <> "!"%char) by (apply ceqb_neq, Hh; cbn; tauto).
  rewrite !streq_other by (assumption || discriminate). now rewrite !Hh by (cbn; tauto).
Qed.

Lemma close_turn x par prv nxt q e attrs us v s :
  good_name e = true -> wf x par prv nxt (PT q (Element (Some e) attrs) us) -> x_allocs x = [] -> at_node v q ->
  exists v', doc_loop v (mkLoader x (str "</" ++ e ++ str ">" ++ s)) = Ret (inl v') (mkLoader x s) /\ at_node v' par /\ v_first v' = v_first v.
Proof.
  intros He W Hal [Vp Vf Vw Vb]. destruct (good_name_cons e He) as (d & e' & Ee & Hd & Hn). destruct (wf_node _ _ _ _ _ _ _ W) as (Hq & rc & En).
  destruct (read_close_eq (v_parent v) x s e (clear (v_buffer v)) Hal Hn (buf_clear _ _ Vb)) as (b & Eb & Hb).
  assert (Et : b_text b = "/"%char :: e) by apply Hb. change (str "</" ++ e ++ str ">" ++ s) with ("<"%char :: "/"%char :: e ++ ">"%char :: s).
  eexists. rewrite (tag_turn v) by assumption. unfold tag. rewrite (bind_Ret _ _ _ _ _ Eb), (bind_Ret _ _ _ _ _ (terminate_eq _ _ _ Hb)), Et. cbn [List.hd].
  assert (H0 : nonul ("/"%char :: e)) by (constructor; [discriminate|now apply name_nonul]).
  unfold comment_open, cdata_open. change (str "!--") with ("!"%char :: str "--"). change (str "![CDATA[") with ("!"%char :: str "[CDATA[").
  rewrite !streq_other by (assumption || discriminate). change (ceqb "/"%char "?"%char) with false. change (ceqb "/"%char "!"%char) with false. change (ceqb "/"%char "/"%char) with true.
  cbn match. unfold close_tag. rewrite Vp, (proj2 (Z.eqb_neq q NULL)) by exact Hq.
  assert (Ein : in_xml (node_at q) (mkLoader x s) = Ret (mkNode nxt prv par (first NULL us) (final NULL us) (Element (Some e) attrs) rc) (mkLoader x s)).
  { apply in_xml_Ret. unfold node_at. now rewrite En. }
  rewrite (bind_Ret _ _ _ _ _ Ein). cbn [value parent]. rewrite Et. cbn [tl]. rewrite (proj2 (streq_cstr e e) eq_refl). cbn [negb].
  split; [reflexivity|]. cbn. split; [|done]. split; [done|exact Vf|exact Vw|exact (buf_clear _ _ Hb)].
Qed.

(** *** Trees *)

(** Reading the text [w] in front of anything adds the trees [ts], at new addresses, below
    the node being filled. *)
Definition reads (w : bytes) (ts : list ptree) : Prop := forall x q qv us par prv nxt v s,
  wf x par prv nxt (PT q qv us) -> x_allocs x = [] -> at_node v q ->
  exists k x' v' ts',
    (forall f, loop (k + f) doc_loop v (mkLoader x (w ++ s)) = loop f doc_loop v' (mkLoader x' s)) /\ (k <= length w)%nat
    /\ edit x x' (PT q qv us) (PT q qv (us ++ ts')) /\ same_vars x x' /\ at_node v' q /\ v_first v' = v_first v
    /\ map erase ts' = map erase ts.

Lemma reads_nil : reads [] [].
Proof.
  intros x q qv us par prv nxt v s W Hal A. exists 0%nat, x, v, []. rewrite app_nil_r. split; [done|]. split; [done|].
  split; [apply edit_refl|]. now split.
Qed.

Lemma reads_app w1 w2 t ts : reads w1 [t] -> reads w2 ts -> reads (w1 ++ w2) (t :: ts).
Proof.
  intros R1 R2 x q qv us par prv nxt v s W Hal A.
  destruct (R1 x q qv us par prv nxt v (w2 ++ s) W Hal A) as (k1 & x1 & v1 & ts1 & E1 & L1 & Ed1 & V1 & A1 & F1 & S1).
  destruct (R2 x1 q qv (us ++ ts1) par prv nxt v1 s (e_wf _ _ _ _ Ed1 _ _ _ W)) as (k2 & x2 & v2 & ts2 & E2 & L2 & Ed2 & V2 & A2 & F2 & S2).
  { destruct V1; congruence. }
  { exact A1. }
  exists (k1 + k2)%nat, x2, v2, (ts1 ++ ts2). rewrite app_assoc. split.
  { intros f. rewrite <- app_assoc, <- Nat.add_assoc, E1. apply E2. }
  split; [rewrite length_app; lia|]. split; [now apply (edit_trans _ x1 _ _ (PT q qv (us ++ ts1)))|].
  split; [now apply (same_vars_trans _ x1)|]. split; [exact A2|]. split; [congruence|]. rewrite map_app, S1, S2. reflexivity.
Qed.

Lemma reads_element p e attrs us :
  good_name e = true -> forallb good_attr attrs = true -> NoDup (a_name <$> attrs) -> reads (texts us) us ->
  reads (text (PT p (Element (Some e) attrs) us)) [PT p (Element (Some e) attrs) us].
Proof.
  intros Ge Ga N R x q qv ws par prv nxt v s W Hal A. cbn [text]. destruct us as [|u us].
  - destruct (open_turn x q qv ws par prv nxt v s e attrs true Ge Ga N W Hal A) as (node & x' & v' & E & Ed & V & A' & F').
    exists 1%nat, x', v', [PT node (Element (Some e) attrs) []]. split.
    { intros f. cbn [Nat.add]. rewrite <- app_assoc. now apply loop_next. }
    split; [unfold open_text; rewrite !length_app; cbn; lia|]. now split.
  - set (ts := u :: us) in *. change (List.concat (map text ts)) with (texts ts).
    replace ((open_text e attrs ++ str ">" ++ texts ts ++ str "</" ++ e ++ str ">") ++ s)
      with (open_text e attrs ++ tail_text false ++ texts ts ++ str "</" ++ e ++ str ">" ++ s) by now rewrite <- !app_assoc.
    destruct (open_turn x q qv ws par prv nxt v (texts ts ++ str "</" ++ e ++ str ">" ++ s) e attrs false Ge Ga N W Hal A) as (node & x1 & v1 & E1 & Ed1 & V1 & A1 & F1).
    pose proof (wf_child _ _ _ _ _ _ ws _ [] (e_wf _ _ _ _ Ed1 _ _ _ W)) as Wc. assert (Hal1 : x_allocs x1 = []) by (destruct V1; congruence).
    destruct (R x1 node _ [] _ _ _ v1 (str "</" ++ e ++ str ">" ++ s) Wc Hal1 A1) as (k & x2 & v2 & ts' & E2 & L2 & Ed2 & V2 & A2 & F2 & S2).
    pose proof (e_wf _ _ _ _ Ed2 _ _ _ Wc) as Wc2. assert (Hal2 : x_allocs x2 = []) by (destruct V2; congruence).
    destruct (close_turn x2 _ _ _ node e attrs _ v2 s Ge Wc2 Hal2 A2) as (v3 & E3 & A3 & F3).
    exists (S (k + 1))%nat, x2, v3, [PT node (Element (Some e) attrs) ts']. split.
    { intros f. cbn [Nat.add]. rewrite (loop_next _ _ _ _ _ _ E1), <- Nat.add_assoc, E2. cbn [Nat.add]. now apply loop_next. }
    split; [unfold open_text; rewrite !length_app; cbn [length str list_ascii_of_string]; lia|].
    split; [eapply edit_trans; [exact Ed1|now apply edit_child]|]. split; [now apply (same_vars_trans _ x1)|].
    split; [exact A3|]. split; [congruence|]. cbn [map erase]. now rewrite S2.
Qed.

Lemma reads_good t : good t = true -> reads (text t) [t].
Proof.
  induction t as [p v ts IH] using ptree_ind'. intros G. destruct (good_element _ G) as (q & e & attrs & us & E & Ge & Ga & N & Gu).
  injection E as -> -> ->. apply reads_element; try assumption. clear G. induction IH as [|t ts Ht _ IHs]; [apply reads_nil|].
  cbn [forallb] in Gu. apply andb_prop in Gu as [Gt Gu]. change (texts (t :: ts)) with (text t ++ texts ts). apply reads_app; auto.
Qed.

Lemma reads_texts ts : forallb good ts = true -> reads (texts ts) ts.
Proof.
  induction ts as [|t ts IH]; intros G; [apply reads_nil|]. cbn [forallb] in G. apply andb_prop in G as [Gt G].
  change (texts (t :: ts)) with (text t ++ texts ts). apply reads_app; [now apply reads_good|now apply IH].
Qed.

(** *** The document *)

(** A processing instruction, when no angle bracket closes before its end. *)
Lemma gather_eq x s w : forall t b,
  x_allocs x = [] -> buf t b -> forallb text_char w = true -> ~ In ">"%char w -> t ++ w <> [] -> List.last (t ++ w) NUL = "?"%char ->
  exists b', gather instruction_end b (mkLoader x (w ++ ">"%char :: s)) = Ret (Some (uchar ">"%char), b') (mkLoader x s) /\ buf (t ++ w) b'.
Proof.
  unfold gather, while_getc, while_. intros t b Hal Hb Hw Hn Ht Hl. erewrite bind_Ret by reflexivity. cbn [o_source unread string_source].
  assert (Hf : (length w < S (S (length (w ++ ">"%char :: s))))%nat) by (rewrite length_app; lia).
  revert Hf. generalize (S (S (length (w ++ ">"%char :: s)))). intros fuel. revert fuel t b Hb Ht Hl.
  induction w as [|c w IH]; intros fuel t b Hb Ht Hl Hf; (destruct fuel as [|fuel]; [cbn in Hf; lia|]).
  - exists b. rewrite app_nil_r in *. split; [|exact Hb]. apply loop_done. cbn [app]. rewrite getc_turn by reflexivity.
    assert (Et : b_text b = t) by apply Hb. rewrite Et. unfold instruction_end, back. change (is_ch ">"%char (uchar ">"%char)) with true.
    assert (Hlen : (len t =? 0) = false) by (apply Z.eqb_neq; unfold len; destruct t; [done|cbn; lia]). rewrite Hlen. cbn [negb andb].
    assert (El : nth (length t - 1) t NUL = "?"%char).
    { rewrite <- Hl. clear -Ht. destruct (exists_last Ht) as (u & d & ->). rewrite last_last, length_app. cbn [length].
      rewrite app_nth2 by lia. now replace (length u + 1 - 1 - length u)%nat with 0%nat by lia. }
    now rewrite El.
  - cbn [forallb] in Hw. apply andb_prop in Hw as [Hc Hw].
    destruct (add_char_eq x (w ++ ">"%char :: s) c t b Hal Hb) as (b1 & E1 & Hb1).
    destruct (IH Hw (fun H => Hn (or_intror H)) fuel (t ++ [c]) b1 Hb1) as (b2 & E2 & Hb2).
    { now destruct t. }
    { now rewrite <- app_assoc. }
    { cbn in Hf. lia. }
    exists b2. rewrite <- app_assoc in Hb2. split; [|exact Hb2]. rewrite <- E2. cbn [app]. apply loop_next. rewrite getc_turn by exact Hc.
    unfold instruction_end. rewrite is_ch_char, (proj2 (ceqb_neq c ">"%char)) by (intros ->; apply Hn; now left). cbn [andb].
    now rewrite (bind_Ret _ _ _ _ _ E1).
Qed.

(** The declaration becomes the root. *)
Lemma declaration_turn x s b0 :
  bounded x -> x_allocs x = [] -> buf [] b0 ->
  exists x' v', doc_loop (mkVars NULL NULL 0 b0) (mkLoader x (str "<" ++ version ++ str ">" ++ s)) = Ret (inl v') (mkLoader x' s)
    /\ wf x' NULL NULL NULL (PT (x_brk x) (Element (Some version) []) []) /\ same_vars x x' /\ at_node v' (x_brk x)
    /\ v_first v' = x_brk x /\ forall q, q < x_brk x -> x_heap x' !! q = x_heap x !! q.
Proof.
  intros B Hal Hb. destruct (new_root x version B Hal) as (x' & E & W & V & _ & F). set (r := x_brk x) in *.
  assert (Hr : r <> NULL) by (destruct B; unfold r, NULL; lia).
  change (str "<" ++ version ++ str ">" ++ s) with ("<"%char :: version ++ ">"%char :: s). rewrite tag_turn by done. unfold tag.
  cbn [v_parent v_buffer]. change (version ++ ">"%char :: s) with ("?"%char :: tl version ++ ">"%char :: s).
  pose proof (buf_clear _ _ Hb) as Hb0. destruct (take_char_eq NULL x (tl version ++ ">"%char :: s) "?"%char [] (clear b0) Hal eq_refl Hb0) as (b1 & E1 & Hb1).
  assert (Er : read_tag NULL (clear b0) (mkLoader x ("?"%char :: tl version ++ ">"%char :: s)) = Ret (Some (uchar "?"%char), b1) (mkLoader x (tl version ++ ">"%char :: s))).
  { unfold read_tag, while_getc, while_. erewrite bind_Ret by reflexivity. apply loop_done. rewrite getc_turn by reflexivity.
    change (escape_head "?"%char) with "?"%char in E1. cbn [tl app] in E1.
    change (mxml_isspace (uchar "?"%char)) with false. change (is_ch ">"%char (uchar "?"%char)) with false. change (is_ch "/"%char (uchar "?"%char)) with false.
    change (is_ch "<"%char (uchar "?"%char)) with false. cbn [orb andb]. rewrite (bind_Ret _ _ _ _ _ (E1 : _ = Ret _ (mkLoader x (tl version ++ ">"%char :: s)))).
    destruct Hb1 as (_ & _ & -> & _). reflexivity. }
  rewrite (bind_Ret _ _ _ _ _ Er), (bind_Ret _ _ _ _ _ (terminate_eq _ _ _ Hb1)).
  assert (Et : b_text b1 = ["?"%char]) by apply Hb1. rewrite Et.
  change (streq ["?"%char] comment_open) with false. change (streq ["?"%char] cdata_open) with false. change (ceqb (hd NUL ["?"%char]) "?"%char) with true. cbn match.
  destruct (gather_eq x s (tl version) ["?"%char] b1 Hal Hb1) as (b2 & E2 & Hb2); [reflexivity| |discriminate|reflexivity|].
  { intros H. assert (existsb (ceqb ">"%char) (tl version) = true) by (apply existsb_exists; exists ">"%char; split; [exact H|reflexivity]). discriminate. }
  change (["?"%char] ++ tl version) with version in Hb2.
  unfold add_special. rewrite (bind_Ret _ _ _ _ _ E2). change (is_ch ">"%char (uchar ">"%char)) with true. cbn [negb].
  rewrite (bind_Ret _ _ _ _ _ (terminate_eq _ _ _ Hb2)). assert (Et2 : b_text b2 = version) by apply Hb2. rewrite Et2. cbn [v_parent set_v_buffer].
  rewrite (bind_Ret _ _ _ _ _ (in_xml_Ret _ _ s _ _ E)). rewrite (proj2 (Z.eqb_neq r NULL)) by exact Hr.
  unfold note_first. cbn [v_first set_v_buffer]. change (NULL =? NULL) with true. rewrite (proj2 (Z.eqb_neq r NULL)) by exact Hr. cbn [negb andb].
  exists x'. eexists. split; [reflexivity|]. split; [exact W|]. split; [exact V|]. split; [|split; [reflexivity|]].
  - split; [reflexivity|exact Hr|reflexivity|exact (buf_clear _ _ Hb2)].
  - intros q Hq. apply F. lia.
Qed.

(** The newline behind the document and the end. *)
Lemma end_turns x v q f : at_node v q ->
  loop (S (S f)) doc_loop v (mkLoader x [LF]) = Ret (Break, set_v_whitespace 1 v) (mkLoader x []).
Proof.
  intros A. assert (E : doc_loop v (mkLoader x [LF]) = Ret (inl (set_v_whitespace 1 v)) (mkLoader x [])).
  { unfold doc_loop. rewrite getc_turn by reflexivity. unfold load_char, value_node. destruct (an_buffer _ _ A) as (_ & _ & -> & _). reflexivity. }
  now rewrite (loop_next _ _ _ _ _ _ E).
Qed.

(** Loading the text of a document into a process makes that document and leaves all other
    nodes as they are. *)
Lemma load_document y ts :
  bounded y -> x_allocs y = [] -> forallb good ts = true ->
  exists y' ts', XmlLoadString destroy_cb (doc_text ts ++ [LF]) y = Ret 0 y'
    /\ wf y' NULL NULL NULL (PT (x_brk y) (Element (Some version) []) ts') /\ map erase ts' = map erase ts
    /\ l_pIntXml y' = x_brk y /\ x_allocs y' = [] /\ l_sXmlError y' = l_sXmlError y /\ x_callback y' = true
    /\ forall q, q < x_brk y -> x_heap y' !! q = x_heap y !! q.
Proof.
  intros B Hal G. set (y0 := set_x_callback true y). set (r := x_brk y).
  assert (Hr : r <> NULL) by (destruct B; unfold r, NULL; lia).
  assert (B0 : buf [] (mkBuf [] 64 true)) by (repeat split; cbn; lia).
  destruct (declaration_turn y0 (texts ts ++ [LF]) _ B Hal B0) as (y1 & v1 & E1 & W1 & V1 & A1 & F1 & H1).
  assert (Hal1 : x_allocs y1 = []) by (destruct V1 as [-> _]; exact Hal).
  destruct (reads_texts ts G y1 _ _ [] _ _ _ v1 [LF] W1 Hal1 A1) as (k & y2 & v2 & ts' & E2 & L2 & Ed2 & V2 & A2 & F2 & S2).
  pose proof (e_wf _ _ _ _ Ed2 _ _ _ W1) as W2. cbn [app] in W2, Ed2.
  set (full := doc_text ts ++ [LF]). assert (Ef : full = str "<" ++ version ++ str ">" ++ texts ts ++ [LF]) by (unfold full, doc_text; now rewrite <- !app_assoc).
  assert (El : while_getc (load_char destroy_cb) (fun v => (Break, v)) (mkVars NULL NULL 0 (mkBuf [] 64 true)) (mkLoader y0 full)
               = Ret (Break, set_v_whitespace 1 v2) (mkLoader y2 [])).
  { unfold while_getc, while_. erewrite bind_Ret by reflexivity. cbn [o_source unread string_source]. fold doc_loop.
    assert (Hk : (k + 2 <= S (length full))%nat) by (rewrite Ef, !length_app; cbn [length]; lia).
    rewrite Ef at 2. rewrite (loop_next _ _ _ _ _ _ E1). replace (S (length full)) with (k + S (S (S (length full) - k - 2)))%nat by lia.
    rewrite E2. exact (end_turns _ _ _ _ A2). }
  assert (Ed : mxml_load_data destroy_cb NULL (mkLoader y0 full) = Ret r (mkLoader y2 [])).
  { unfold mxml_load_data. rewrite (bind_Ret _ _ _ _ _ (malloc64_eq y0 full Hal)). rewrite (bind_Ret _ _ _ _ _ El). cbn [v_buffer set_v_whitespace].
    rewrite (bind_Ret _ _ _ _ _ (free_buf_eq _ _ _ (an_buffer _ _ A2))). cbn [v_parent set_v_whitespace]. rewrite (an_parent _ _ A2).
    rewrite (proj2 (Z.eqb_neq (x_brk y0) NULL) Hr). erewrite bind_Ret by reflexivity. cbn [o_xml].
    destruct (wf_node _ _ _ _ _ _ _ W2) as (_ & rc & En). cbn [find_top].
    erewrite bind_Ret; [|apply in_xml_Ret; rewrite (node_at_then _ _ _ _ En); reflexivity]. now rewrite Z.eqb_refl. }
  assert (V : same_vars y0 y2) by now apply (same_vars_trans _ y1). destruct V as (Va & Vb & Vc & Vd).
  exists (set_l_pIntXml r y2), ts'. split; [|split; [|split; [exact S2|split; [done|split; [exact (eq_trans Va Hal)|split; [exact Vd|split; [exact Vb|]]]]]]].
  - unfold XmlLoadString. erewrite bind_Ret by reflexivity. fold y0. rewrite cstr_id by now apply nonul_document. fold full.
    assert (Em : mxmlLoadString destroy_cb NULL full y0 = Ret r y2) by (unfold mxmlLoadString, load_from; now rewrite Ed).
    rewrite (bind_Ret _ _ _ _ _ Em). erewrite bind_Ret by reflexivity. now rewrite (proj2 (Z.eqb_neq r NULL) Hr).
  - destruct W2 as [B2 N2 R2]. now split.
  - intros q Hq. cbn. rewrite (e_frame _ _ _ _ Ed2); [now apply H1| |].
    + rewrite ptrs_eq. intros [->|H]%elem_of_cons; [cbn in Hq; lia|now apply elem_of_nil in H].
    + pose proof (wf_below _ _ _ _ _ _ W1 (root_in_ptrs _)) as Hb. cbn [root] in Hb. cbn in Hb. lia.
Qed.
End Load.
