(* ===== verification/Mxmlwalk.v ===== *)
(** * Walking through XML trees

    [mxmlWalkNext] and [mxmlFindElement] of [Mxmltree], when they descend, go through a
    well-formed tree in document order, which is the order of [ptrs]. *)

From Stdlib Require Import ZArith Lia Bool List Ascii String.
From stdpp Require Import base list gmap.
From S2P Require Import Prelude Cstr Mxmltree.

(** ** The next node *)

Section Walk.
Context (x : xml) (top : Z).

(** [climb] from [q] gives [s] in [d] turns. *)
Definition climbs (q s : Z) (d : nat) : Prop := forall fuel, (d <= fuel)%nat -> climb fuel q top x = Ret s x.

Lemma climbs_next q n : x_heap x !! q = Some n -> next n <> NULL -> climbs q (next n) 1.
Proof.
  intros E H [|fuel] Hf; [lia|]. cbn [climb]. rewrite (node_at_then _ _ _ _ E). now rewrite (proj2 (Z.eqb_neq _ NULL) H).
Qed.

Lemma climbs_top q n : x_heap x !! q = Some n -> next n = NULL -> parent n = top -> climbs q NULL 1.
Proof.
  intros E H Hp [|fuel] Hf; [lia|]. cbn [climb]. rewrite (node_at_then _ _ _ _ E), H, Hp. now rewrite !Z.eqb_refl.
Qed.

Lemma climbs_parent q n s d : x_heap x !! q = Some n -> next n = NULL -> parent n <> top -> parent n <> NULL -> climbs (parent n) s d -> climbs q s (S d).
Proof.
  intros E H Hp Hn C [|fuel] Hf; [lia|]. cbn [climb]. rewrite (node_at_then _ _ _ _ E), H, Z.eqb_refl, (proj2 (Z.eqb_neq _ top) Hp), (proj2 (Z.eqb_neq _ NULL) Hn).
  apply C. lia.
Qed.

Lemma walk_child p n : p <> NULL -> x_heap x !! p = Some n -> child n <> NULL -> mxmlWalkNext p top MXML_DESCEND x = Ret (child n) x.
Proof.
  intros Hp E H. unfold mxmlWalkNext. rewrite (proj2 (Z.eqb_neq p NULL) Hp), (node_at_then _ _ _ _ E), (proj2 (Z.eqb_neq _ NULL) H). reflexivity.
Qed.

Lemma walk_leaf p n s d :
  p <> NULL -> p <> top -> x_heap x !! p = Some n -> child n = NULL -> climbs p s d -> (d <= S (S (size (x_heap x))))%nat ->
  mxmlWalkNext p top MXML_DESCEND x = Ret s x.
Proof.
  intros Hp Ht E H C Hd. rewrite <- (C _ Hd). unfold mxmlWalkNext. cbn [climb].
  rewrite (proj2 (Z.eqb_neq p NULL) Hp), !(node_at_then _ _ _ _ E), H, (proj2 (Z.eqb_neq p top) Ht). cbn [negb andb Z.eqb NULL].
  destruct (next n =? NULL); cbn [negb]; [|reflexivity]. destruct (parent n =? NULL), (parent n =? top); reflexivity.
Qed.

(** The trees between a node and the end of its children. *)
Lemma walk_siblings p s d ts : forall prv,
  (forall q n, x_heap x !! q = Some n -> next n = NULL -> parent n = p -> climbs q s d) ->
  Forall (fun t => forall par prv nxt s d, rep (x_heap x) par prv nxt t -> top ∉ ptrs t -> climbs (root t) s d ->
    (d + length (ptrs t) <= S (S (size (x_heap x))))%nat ->
    forall a q b, ptrs t = a ++ q :: b -> mxmlWalkNext q top MXML_DESCEND x = Ret (List.hd s b) x) ts ->
  seg (x_heap x) p prv ts NULL -> top ∉ all_ptrs ts -> (1 <= d)%nat -> (d + length (all_ptrs ts) <= S (S (size (x_heap x))))%nat ->
  forall a q b, all_ptrs ts = a ++ q :: b -> mxmlWalkNext q top MXML_DESCEND x = Ret (List.hd s b) x.
Proof.
  induction ts as [|t ts IH]; intros prv Hlast F S Ht H1 Hd a q b E; [now destruct a|]. apply Forall_cons in F as [Ft F]. destruct S as [R S].
  change (all_ptrs (t :: ts)) with (ptrs t ++ all_ptrs ts) in *. rewrite length_app in Hd. rewrite elem_of_app in Ht.
  assert (C : exists dt, climbs (root t) (List.hd s (all_ptrs ts)) dt /\ (dt <= d)%nat).
  { destruct (rep_root _ _ _ _ _ R) as (_ & rc & En). destruct ts as [|t' ts].
    - exists d. split; [|lia]. now apply (Hlast _ _ En).
    - exists 1%nat. split; [|exact H1]. destruct S as [R' _]. destruct (rep_root _ _ _ _ _ R') as (Hr' & _).
      change (all_ptrs (t' :: ts)) with (ptrs t' ++ all_ptrs ts). destruct t' as [p' v' us]. rewrite ptrs_eq. cbn [List.hd app root] in *. exact (climbs_next _ _ En Hr'). }
  destruct C as (dt & C & Hdt). apply app_eq_app in E as (m & [[E1 E2]|[E1 E2]]).
  - destruct m as [|q' m].
    + rewrite app_nil_r in E1. cbn [app] in E2. apply (IH (root t) Hlast F S) with (a := []); [tauto|exact H1|lia|done].
    + cbn [app] in E2. injection E2 as -> ->. rewrite (Ft _ _ _ _ _ R ltac:(tauto) C ltac:(lia) a q' m E1). now destruct m.
  - apply (IH (root t) Hlast F S) with (a := m); [tauto|exact H1|lia|exact E2].
Qed.

Lemma walk_sub t : forall par prv nxt s d,
  rep (x_heap x) par prv nxt t -> top ∉ ptrs t -> climbs (root t) s d -> (d + length (ptrs t) <= S (S (size (x_heap x))))%nat ->
  forall a q b, ptrs t = a ++ q :: b -> mxmlWalkNext q top MXML_DESCEND x = Ret (List.hd s b) x.
Proof.
  induction t as [p v ts IH] using ptree_ind'. intros par prv nxt s d R Ht C Hd a q b E. rewrite rep_eq in R. destruct R as (Hp & (rc & En) & S).
  rewrite ptrs_eq in *. cbn [length root] in *. apply not_elem_of_cons in Ht as [Hpt Ht]. destruct a as [|p' a]; cbn [app] in E; injection E as <- E.
  - subst b. destruct ts as [|t ts].
    + apply (walk_leaf p _ s d Hp ltac:(congruence) En eq_refl C). lia.
    + destruct S as [R _]. destruct (rep_root _ _ _ _ _ R) as (Hr & _). rewrite (walk_child p _ Hp En Hr). cbn [child first].
      change (all_ptrs (t :: ts)) with (ptrs t ++ all_ptrs ts). destruct t. rewrite ptrs_eq. reflexivity.
  - apply (walk_siblings p s (Datatypes.S d) ts NULL) with (a := a); try assumption; [|lia|lia].
    intros r n Er Hn Hpar. apply (climbs_parent r n); try assumption; rewrite Hpar; [congruence|exact Hp|exact C].
Qed.
End Walk.

(** From a node of a tree to the one behind it. *)
Lemma walk_next x par prv nxt t a p b :
  wf x par prv nxt t -> ptrs t = a ++ p :: b -> mxmlWalkNext p (root t) MXML_DESCEND x = Ret (List.hd NULL b) x.
Proof.
  intros W E. pose proof W as [_ N R]. pose proof (nodup_heap _ _ N (fun q Hq => proj2 (rep_dom _ _ _ _ _ q R Hq))) as L.
  destruct t as [q v ts]. rewrite rep_eq in R. destruct R as (Hq & (rc & En) & S). rewrite ptrs_eq in *. apply NoDup_cons in N as [Nq N]. cbn [root length] in *.
  destruct a as [|q' a]; cbn [app] in E; injection E as <- E.
  - subst b. destruct ts as [|t ts].
    + unfold mxmlWalkNext. rewrite (proj2 (Z.eqb_neq q NULL) Hq), (node_at_then _ _ _ _ En). cbn [child first negb andb Z.eqb NULL]. now rewrite Z.eqb_refl.
    + destruct S as [R _]. destruct (rep_root _ _ _ _ _ R) as (Hr & _). rewrite (walk_child x q q _ Hq En Hr). cbn [child first].
      change (all_ptrs (t :: ts)) with (ptrs t ++ all_ptrs ts). destruct t. rewrite ptrs_eq. reflexivity.
  - apply (walk_siblings x q q NULL 1 ts NULL) with (a := a); try assumption; [|apply Forall_forall; intros t _; exact (walk_sub x q t)|lia|lia].
    intros r n Er Hn Hpar. exact (climbs_top x q r n Er Hn Hpar).
Qed.

(** ** Searching *)

(** The tests of a search at a node. *)
Definition matching (x : xml) (name attr v : option bytes) (p : Z) : bool :=
  match x_heap x !! p with Some n => matches name attr v (value n) | None => false end.

Definition found_in (x : xml) (name attr v : option bytes) (ps : list Z) : Z := default NULL (List.find (matching x name attr v) ps).

Lemma find_walk x par prv nxt t name attr v : wf x par prv nxt t -> forall b a fuel,
  ptrs t = a ++ b -> (length b < fuel)%nat ->
  find_loop fuel (List.hd NULL b) (root t) name attr v MXML_DESCEND x = Ret (found_in x name attr v b) x.
Proof.
  intros W b. pose proof W as [_ _ R]. induction b as [|p b IH]; intros a fuel E Hf; (destruct fuel as [|fuel]; [cbn in Hf; lia|]); [done|].
  destruct (rep_dom _ _ _ _ _ p R) as (Hp & n & En); [rewrite E; apply elem_of_app; right; left|]. cbn [List.hd find_loop].
  rewrite (proj2 (Z.eqb_neq p NULL) Hp), (node_at_then _ _ _ _ En). unfold found_in. cbn [List.find].
  assert (M : matching x name attr v p = matches name attr v (value n)) by (unfold matching; now rewrite En). rewrite M.
  destruct (matches name attr v (value n)); [done|]. change (MXML_DESCEND =? MXML_DESCEND) with true. cbn match.
  rewrite (bind_Ret _ _ _ _ _ (walk_next x par prv nxt t a p b W E)). apply (IH (a ++ [p])); [now rewrite <- app_assoc|cbn in Hf; lia].
Qed.

(** A search that descends finds the first node behind [p] that matches. *)
Lemma find_descend x par prv nxt t a p b name attr v :
  wf x par prv nxt t -> ptrs t = a ++ p :: b -> (attr = None -> v = None) ->
  mxmlFindElement p (root t) name attr v MXML_DESCEND x = Ret (found_in x name attr v b) x.
Proof.
  intros W E Hv. pose proof W as [_ N R]. destruct (rep_dom _ _ _ _ _ p R) as (Hp & _); [rewrite E; apply elem_of_app; right; left|].
  destruct (rep_root _ _ _ _ _ R) as (Hr & _). unfold mxmlFindElement. rewrite (proj2 (Z.eqb_neq p NULL) Hp), (proj2 (Z.eqb_neq _ NULL) Hr). cbn [orb].
  replace (match attr, v with None, Some _ => true | _, _ => false end) with false by (destruct attr, v; try done; now specialize (Hv eq_refl)).
  rewrite (bind_Ret _ _ _ _ _ (walk_next x par prv nxt t a p b W E)). erewrite bind_Ret by reflexivity.
  apply (find_walk x par prv nxt t name attr v W b (a ++ [p])); [now rewrite <- app_assoc|].
  pose proof (nodup_heap _ _ N (fun q Hq => proj2 (rep_dom _ _ _ _ _ q R Hq))) as L. rewrite E, length_app in L. cbn [length] in L. lia.
Qed.
