(* ===== verification/Mxmlindex.v ===== *)
(** * Indices of XML trees: [src/dev/src/pubfun/xml/mxml-index.c]

    An index holds the nodes of a tree that have a name or an attribute, sorted by name
    and attribute value with a quicksort in place; a look-up is a binary search.  The
    operations work on the index as a value, a null pointer is [None]; [indices] has the
    indices that are alive by their addresses, for [mxmlIndexDelete].  The nodes are read from the heap of [Mxmltree] whenever they are compared: a node
    without a name, or without the attribute, is a fault. *)

From Stdlib Require Import ZArith Lia Bool List Ascii String.
From stdpp Require Import base list gmap sorting.
From S2P Require Import Prelude Cstr Mxmltree Mxmlwalk.

(** ** Data *)

Record mxml_index_t := mkIndex {
  i_attr : option bytes;
  i_alloc_nodes : Z;
  i_cur_node : Z;
  i_nodes : list Z;
}.

Definition num_nodes (i : mxml_index_t) : Z := Z.of_nat (length (i_nodes i)).
Definition set_i_cur_node (k : Z) (i : mxml_index_t) : mxml_index_t := mkIndex (i_attr i) (i_alloc_nodes i) k (i_nodes i).
Definition set_i_nodes (l : list Z) (i : mxml_index_t) : mxml_index_t := mkIndex (i_attr i) (i_alloc_nodes i) (i_cur_node i) l.
Definition set_i_alloc_nodes (n : Z) (i : mxml_index_t) : mxml_index_t := mkIndex (i_attr i) n (i_cur_node i) (i_nodes i).

(** [nodes[k]] *)
Definition entry (l : list Z) (k : Z) : option Z := if 0 <=? k then l !! Z.to_nat k else None.

(** [nodes[k] = p] *)
Definition put (k p : Z) (l : list Z) : prog xml (list Z) :=
  deref (if (0 <=? k) && (k <? Z.of_nat (length l)) then Some (<[Z.to_nat k := p]> l) else None).

(** ** Comparing *)

(** [node->value.element.name] *)
Definition element_at (node : Z) : prog xml bytes :=
  let* n := node_at node in
  match value n with Element (Some e) _ => ret e | _ => fault end.

Definition attr_at (node : Z) (attr : bytes) : prog xml bytes :=
  let* v := mxmlElementGetAttr node (Some attr) in deref v.

Definition index_compare (attr : option bytes) (first second : Z) : prog xml Z :=
  let* a := element_at first in
  let* b := element_at second in
  let diff := strcmp a b in
  if negb (diff =? 0) then ret diff
  else
    match attr with
    | None => ret 0
    | Some attr =>
        let* u := attr_at first attr in
        let* v := attr_at second attr in
        ret (strcmp u v)
    end.

Definition index_find (attr element v : option bytes) (node : Z) : prog xml Z :=
  let* diff :=
    match element with
    | None => ret 0
    | Some element => let* e := element_at node in ret (strcmp element e)
    end in
  if negb (diff =? 0) then ret diff
  else
    match v with
    | None => ret 0
    | Some v =>
        match attr with
        | None => fault
        | Some attr => let* u := attr_at node attr in ret (strcmp v u)
        end
    end.

(** ** Sorting *)

Section Sort.
Context (attr : option bytes).

(** [while (templ < right && index_compare(ind, ind->nodes[templ], pivot) <= 0) templ ++] *)
Fixpoint scan_up (fuel : nat) (pivot right : Z) (l : list Z) (templ : Z) : prog xml Z :=
  match fuel with
  | O => spin
  | S fuel =>
      if templ <? right then
        let* p := deref (entry l templ) in
        let* d := index_compare attr p pivot in
        if d <=? 0 then scan_up fuel pivot right l (templ + 1) else ret templ
      else ret templ
  end.

Fixpoint scan_down (fuel : nat) (pivot left : Z) (l : list Z) (tempr : Z) : prog xml Z :=
  match fuel with
  | O => spin
  | S fuel =>
      if left <? tempr then
        let* p := deref (entry l tempr) in
        let* d := index_compare attr p pivot in
        if 0 <? d then scan_down fuel pivot left l (tempr - 1) else ret tempr
      else ret tempr
  end.

(** The loop of the partition: [tempr] and the nodes. *)
Fixpoint partition_loop (fuel : nat) (pivot left right templ tempr : Z) (l : list Z) : prog xml (Z * list Z) :=
  match fuel with
  | O => spin
  | S fuel =>
      if templ <? tempr then
        let* templ := scan_up (Z.to_nat (right - templ + 1)) pivot right l templ in
        let* tempr := scan_down (Z.to_nat (tempr - left + 1)) pivot left l tempr in
        if templ <? tempr then
          let* temp := deref (entry l templ) in
          let* r := deref (entry l tempr) in
          let* l := put templ r l in
          let* l := put tempr temp l in
          partition_loop fuel pivot left right templ tempr l
        else ret (tempr, l)
      else ret (tempr, l)
  end.

(** What is between [left] and [right] is partitioned around the node at [tempr]. *)
Definition partition (left right : Z) (l : list Z) : prog xml (Z * list Z) :=
  let* pivot := deref (entry l left) in
  let* (tempr, l) := partition_loop (Z.to_nat (right - left + 2)) pivot left right left right l in
  let* r := deref (entry l tempr) in
  let* d := index_compare attr pivot r in
  if 0 <? d then
    let* l := put left r l in
    let* l := put tempr pivot l in
    ret (tempr, l)
  else ret (tempr, l).

(** The next turn of the [do] loop is a call with a new [left]. *)
Fixpoint index_sort (fuel : nat) (left right : Z) (l : list Z) : prog xml (list Z) :=
  match fuel with
  | O => spin
  | S fuel =>
      let* (tempr, l) := partition left right l in
      let* l := if left <? tempr - 1 then index_sort fuel left (tempr - 1) l else ret l in
      if tempr + 1 <? right then index_sort fuel (tempr + 1) right l else ret l
  end.
End Sort.

(** ** Making an index *)

(** The text of the error after an allocation failed. *)
Definition index_error (size : Z) : bytes :=
  str "Unable to allocate " ++ fmt_d size ++ str " bytes for index: Cannot allocate memory".

(** [while (current)] *)
Fixpoint index_fill (fuel : nat) (node : Z) (element attr : option bytes) (current : Z) (i : mxml_index_t) : prog xml (option mxml_index_t) :=
  match fuel with
  | O => spin
  | S fuel =>
      if current =? NULL then ret (Some i)
      else
        let* room :=
          if i_alloc_nodes i <=? num_nodes i then
            let* ok := granted in
            if (ok : bool) then ret (Some (set_i_alloc_nodes (i_alloc_nodes i + 64) i))
            else mxml_error (index_error ((i_alloc_nodes i + 64) * 8)) ;;; ret None
          else ret (Some i) in
        match room with
        | None => ret None
        | Some i =>
            let* next := mxmlFindElement current node element attr None MXML_DESCEND in
            index_fill fuel node element attr next (set_i_nodes (i_nodes i ++ [current]) i)
        end
  end.

Definition mxmlIndexNew (node : Z) (element attr : option bytes) : prog xml (option mxml_index_t) :=
  if node =? NULL then ret None
  else
    let* ok := granted in
    if negb ok then mxml_error (str "Unable to allocate 32 bytes for index - Cannot allocate memory") ;;; ret None
    else
      let* a := match attr with Some attr => strdup attr | None => ret None end in
      let* current :=
        match element, attr with
        | None, None => ret node
        | _, _ => mxmlFindElement node node element attr None MXML_DESCEND
        end in
      let* h := get x_heap in
      let* o := index_fill (S (S (size h))) node element attr current (mkIndex a 0 0 []) in
      match o with
      | None => ret None
      | Some i =>
          if 1 <? num_nodes i then
            let* l := index_sort (i_attr i) (length (i_nodes i)) 0 (num_nodes i - 1) (i_nodes i) in
            ret (Some (set_i_nodes l i))
          else ret (Some i)
      end.

(** ** Reading an index *)

Definition mxmlIndexReset (ind : option mxml_index_t) : prog xml (Z * option mxml_index_t) :=
  match ind with
  | None => ret (NULL, None)
  | Some i =>
      let i := set_i_cur_node 0 i in
      if negb (num_nodes i =? 0) then let* p := deref (entry (i_nodes i) 0) in ret (p, Some i) else ret (NULL, Some i)
  end.

(** [ind->cur_node = k + 1; return (ind->nodes[k])] *)
Definition yield (k : Z) (i : mxml_index_t) : prog xml (Z * option mxml_index_t) :=
  let* p := deref (entry (i_nodes i) k) in ret (p, Some (set_i_cur_node (k + 1) i)).

Definition mxmlIndexEnum (ind : option mxml_index_t) : prog xml (Z * option mxml_index_t) :=
  match ind with
  | None => ret (NULL, None)
  | Some i => if i_cur_node i <? num_nodes i then yield (i_cur_node i) i else ret (NULL, ind)
  end.

Section Find.
Context (i : mxml_index_t) (element v : option bytes).

Definition find_at (k : Z) : prog xml Z :=
  let* p := deref (entry (i_nodes i) k) in index_find (i_attr i) element v p.

(** A match, or the two entries that may be one. *)
Fixpoint bisect (fuel : nat) (first last : Z) : prog xml (Z + Z * Z) :=
  match fuel with
  | O => spin
  | S fuel =>
      if 1 <? last - first then
        let current := (first + last) / 2 in
        let* diff := find_at current in
        if diff =? 0 then ret (inl current)
        else if diff <? 0 then bisect fuel first current
        else bisect fuel current last
      else ret (inr (first, last))
  end.

(** [while (current > 0 && !index_find(...)) current --] *)
Fixpoint back_up (fuel : nat) (current : Z) : prog xml Z :=
  match fuel with
  | O => spin
  | S fuel =>
      if 0 <? current then
        let* d := find_at (current - 1) in
        if d =? 0 then back_up fuel (current - 1) else ret current
      else ret current
  end.

(** [for (current = first; current <= last; current ++)] *)
Fixpoint scan_matches (fuel : nat) (current last : Z) : prog xml (option Z) :=
  match fuel with
  | O => spin
  | S fuel =>
      if current <=? last then
        let* d := find_at current in
        if d =? 0 then ret (Some current) else scan_matches fuel (current + 1) last
      else ret None
  end.
End Find.

(** [ind->cur_node = ind->num_nodes; return (NULL)] *)
Definition exhausted (i : mxml_index_t) : prog xml (Z * option mxml_index_t) := ret (NULL, Some (set_i_cur_node (num_nodes i) i)).

Definition mxmlIndexFind (ind : option mxml_index_t) (element v : option bytes) : prog xml (Z * option mxml_index_t) :=
  match ind with
  | None => ret (NULL, None)
  | Some i =>
      if match i_attr i, v with None, Some _ => true | _, _ => false end then ret (NULL, ind)
      else
        match element, v with
        | None, None => mxmlIndexEnum ind
        | _, _ =>
            let n := num_nodes i in
            if n =? 0 then ret (NULL, ind)
            else if i_cur_node i =? 0 then
              let* r := bisect i element v (length (i_nodes i)) 0 (n - 1) in
              match r with
              | inl current => let* k := back_up i element v (S (length (i_nodes i))) current in yield k i
              | inr (first, last) =>
                  let* o := scan_matches i element v 3 first last in
                  match o with Some k => yield k i | None => exhausted i end
              end
            else if i_cur_node i <? n then
              let* d := find_at i element v (i_cur_node i) in
              if d =? 0 then yield (i_cur_node i) i else exhausted i
            else exhausted i
        end
  end.

(** ** Indices by their addresses *)

Record indices := mkIndices { is_xml : xml; is_tab : gmap Z mxml_index_t; is_next : Z }.

Definition set_is_xml (x : xml) (s : indices) : indices := mkIndices x (is_tab s) (is_next s).
Definition set_is_tab (m : gmap Z mxml_index_t) (s : indices) : indices := mkIndices (is_xml s) m (is_next s).

Definition in_xml {A} (m : prog xml A) : prog indices A := fun s =>
  match m (is_xml s) with
  | Ret a x => Ret a (set_is_xml x s)
  | Jump v x => Jump v (set_is_xml x s)
  | Exit v x => Exit v (set_is_xml x s)
  | Block x => Block (set_is_xml x s)
  | Spin => Spin
  | Fault => Fault
  end.

(** The index behind a pointer, which is null or alive. *)
Definition index_at (ind : Z) : prog indices (option mxml_index_t) :=
  if ind =? NULL then ret None
  else let* m := get is_tab in let* i := deref (m !! ind) in ret (Some i).

(** A call through the pointer [ind]. *)
Definition through (ind : Z) (op : option mxml_index_t -> prog xml (Z * option mxml_index_t)) : prog indices Z :=
  let* o := index_at ind in
  let* (r, o) := in_xml (op o) in
  match o with
  | Some i => modify (fun s => set_is_tab (<[ind := i]> (is_tab s)) s) ;;; ret r
  | None => ret r
  end.

Definition index_new (node : Z) (element attr : option bytes) : prog indices Z :=
  let* o := in_xml (mxmlIndexNew node element attr) in
  match o with
  | None => ret NULL
  | Some i => fun s => Ret (is_next s) (mkIndices (is_xml s) (<[is_next s := i]> (is_tab s)) (is_next s + 1))
  end.

Definition mxmlIndexDelete (ind : Z) : prog indices unit :=
  let* o := index_at ind in
  match o with
  | None => ret tt
  | Some _ => modify (fun s => set_is_tab (delete ind (is_tab s)) s)
  end.

(** ** Arrays *)

Lemma entry_range l k p : entry l k = Some p -> 0 <= k < Z.of_nat (length l).
Proof. unfold entry. destruct (Z.leb_spec 0 k) as [H|H]; [|done]. intros E%lookup_lt_Some. lia. Qed.

Lemma entry_Some l k : 0 <= k < Z.of_nat (length l) -> exists p, entry l k = Some p.
Proof. intros H. unfold entry. rewrite (proj2 (Z.leb_le 0 k)) by lia. apply lookup_lt_is_Some. lia. Qed.

Lemma entry_in l k p : entry l k = Some p -> p ∈ l.
Proof. unfold entry. destruct (0 <=? k); [|done]. apply list_elem_of_lookup_2. Qed.

Lemma entry_nil l k : Z.of_nat (length l) <= k -> entry l k = None.
Proof. intros H. destruct (entry l k) as [p|] eqn:E; [|done]. apply entry_range in E. lia. Qed.

Lemma store_eq k p l x : 0 <= k < Z.of_nat (length l) -> put k p l x = Ret (<[Z.to_nat k := p]> l) x.
Proof. intros H. unfold put. now rewrite (proj2 (Z.leb_le 0 k)), (proj2 (Z.ltb_lt k _)) by lia. Qed.

Lemma entry_put l k p j : 0 <= k < Z.of_nat (length l) -> entry (<[Z.to_nat k := p]> l) j = if j =? k then Some p else entry l j.
Proof.
  intros H. unfold entry. destruct (Z.leb_spec 0 j) as [Hj|Hj]; destruct (Z.eqb_spec j k) as [->|Hn]; try lia; [| |done].
  - apply list_lookup_insert_eq. lia.
  - apply list_lookup_insert_ne. lia.
Qed.

(** Only what is between [lo] and [hi] has changed, and only its order. *)
Record within (lo hi : Z) (l l' : list Z) : Prop := {
  w_perm : l' ≡ₚ l;
  w_in : forall k p, lo <= k <= hi -> entry l' k = Some p -> exists j, lo <= j <= hi /\ entry l j = Some p;
  w_out : forall k, ~ lo <= k <= hi -> entry l' k = entry l k;
}.

Lemma within_refl lo hi l : within lo hi l l.
Proof. split; eauto. Qed.

Lemma within_trans lo hi l1 l2 l3 : within lo hi l1 l2 -> within lo hi l2 l3 -> within lo hi l1 l3.
Proof.
  intros [P1 I1 O1] [P2 I2 O2]. split.
  - now rewrite P2.
  - intros k p Hk E. destruct (I2 k p Hk E) as (j & Hj & E'). now apply (I1 j).
  - intros k Hk. now rewrite O2, O1.
Qed.

Lemma within_wider lo hi lo' hi' l l' : lo <= lo' -> hi' <= hi -> within lo' hi' l l' -> within lo hi l l'.
Proof.
  intros Hl Hh [P I O]. split; [exact P| |].
  - intros k p Hk E. destruct (decide (lo' <= k <= hi')) as [Hi|Hi]; [destruct (I k p Hi E) as (j & ? & ?); exists j; split; [lia|done]|].
    exists k. now rewrite <- (O k Hi).
  - intros k Hk. apply O. lia.
Qed.

Lemma within_length lo hi l l' : within lo hi l l' -> length l' = length l.
Proof. intros [P _ _]. now rewrite P. Qed.

Lemma swap_entry l i j p q k :
  entry l i = Some p -> entry l j = Some q ->
  entry (<[Z.to_nat j := p]> (<[Z.to_nat i := q]> l)) k = if k =? j then Some p else if k =? i then Some q else entry l k.
Proof.
  intros Hi%entry_range Hj%entry_range. rewrite entry_put by (rewrite length_insert; lia). destruct (k =? j); [done|]. now apply entry_put.
Qed.

Lemma within_swap lo hi l i j p q :
  lo <= i <= hi -> lo <= j <= hi -> entry l i = Some p -> entry l j = Some q ->
  within lo hi l (<[Z.to_nat j := p]> (<[Z.to_nat i := q]> l)).
Proof.
  intros Hi Hj Ei Ej. split.
  - apply Permutation_insert_swap; [revert Ei|revert Ej]; unfold entry; now destruct (0 <=? _).
  - intros k r Hk. rewrite (swap_entry _ _ _ _ _ _ Ei Ej). destruct (k =? j); [intros [= <-]; eauto|]. destruct (k =? i); [intros [= <-]; eauto|eauto].
  - intros k Hk. rewrite (swap_entry _ _ _ _ _ _ Ei Ej). rewrite !(proj2 (Z.eqb_neq k _)) by lia. done.
Qed.

(** ** The quicksort *)

Section Sorting.
Context (attr : option bytes) (x : xml) (good : Z -> Prop) (cmp : Z -> Z -> Z).
(** The nodes that can be compared, and their order. *)
Hypothesis compare_eq : forall p q, good p -> good q -> index_compare attr p q x = Ret (cmp p q) x.
Hypothesis cmp_total : forall p q, good p -> good q -> 0 < cmp p q -> cmp q p <= 0.
Hypothesis cmp_trans : forall p q r, good p -> good q -> good r -> cmp p q <= 0 -> cmp q r <= 0 -> cmp p r <= 0.

Definition le (p q : Z) : Prop := cmp p q <= 0.

Lemma cmp_refl p : good p -> cmp p p <= 0.
Proof using cmp_total. intros H. destruct (Z_lt_le_dec 0 (cmp p p)) as [Hl|Hl]; [now apply cmp_total|exact Hl]. Qed.

Lemma good_entry l k p : Forall good l -> entry l k = Some p -> good p.
Proof using. intros H E%entry_in. rewrite Forall_forall in H. now apply H. Qed.

(** [l] at the places from [lo] to [hi] satisfies [P]. *)
Definition range (l : list Z) (lo hi : Z) (P : Z -> Prop) : Prop := forall k p, lo <= k <= hi -> entry l k = Some p -> P p.

Lemma scan_up_eq pivot right l : forall fuel templ,
  Forall good l -> good pivot -> 0 <= templ <= right -> right < Z.of_nat (length l) -> (Z.to_nat (right - templ) < fuel)%nat ->
  exists t, scan_up attr fuel pivot right l templ x = Ret t x /\ templ <= t <= right /\ range l templ (t - 1) (fun p => le p pivot)
    /\ (t < right -> forall p, entry l t = Some p -> 0 < cmp p pivot).
Proof using compare_eq.
  induction fuel as [|fuel IH]; intros templ Hl Hp Ht Hr Hf; [lia|]. cbn [scan_up].
  assert (Nil : range l templ (templ - 1) (fun p => le p pivot)) by (intros k p Hk; lia).
  destruct (Z.ltb_spec templ right) as [H|H]; [|exists templ; split; [done|]; split; [lia|]; split; [exact Nil|lia]].
  destruct (entry_Some l templ) as (p & E); [lia|]. pose proof (good_entry _ _ _ Hl E) as G. rewrite E. cbn [deref]. erewrite bind_Ret by reflexivity.
  rewrite (bind_Ret _ _ _ _ _ (compare_eq p pivot G Hp)). destruct (Z.leb_spec (cmp p pivot) 0) as [Hc|Hc].
  - destruct (IH (templ + 1) Hl Hp ltac:(lia) Hr ltac:(lia)) as (t & E1 & H1 & H2 & H3). exists t. split; [exact E1|]. split; [lia|]. split; [|exact H3].
    intros k q Hk Eq. destruct (Z.eq_dec k templ) as [->|Hn]; [congruence|]. apply (H2 k); [lia|exact Eq].
  - exists templ. split; [done|]. split; [lia|]. split; [exact Nil|]. intros _ q Eq. congruence.
Qed.

Lemma scan_down_eq pivot left l : forall fuel tempr,
  Forall good l -> good pivot -> 0 <= left <= tempr -> tempr < Z.of_nat (length l) -> (Z.to_nat (tempr - left) < fuel)%nat ->
  exists t, scan_down attr fuel pivot left l tempr x = Ret t x /\ left <= t <= tempr /\ range l (t + 1) tempr (fun p => 0 < cmp p pivot)
    /\ (left < t -> forall p, entry l t = Some p -> le p pivot).
Proof using compare_eq.
  induction fuel as [|fuel IH]; intros tempr Hl Hp Ht Hr Hf; [lia|]. cbn [scan_down].
  assert (Nil : range l (tempr + 1) tempr (fun p => 0 < cmp p pivot)) by (intros k p Hk; lia).
  destruct (Z.ltb_spec left tempr) as [H|H]; [|exists tempr; split; [done|]; split; [lia|]; split; [exact Nil|lia]].
  destruct (entry_Some l tempr) as (p & E); [lia|]. pose proof (good_entry _ _ _ Hl E) as G. rewrite E. cbn [deref]. erewrite bind_Ret by reflexivity.
  rewrite (bind_Ret _ _ _ _ _ (compare_eq p pivot G Hp)). destruct (Z.ltb_spec 0 (cmp p pivot)) as [Hc|Hc].
  - destruct (IH (tempr - 1) Hl Hp ltac:(lia) ltac:(lia) ltac:(lia)) as (t & E1 & H1 & H2 & H3). exists t. split; [exact E1|]. split; [lia|]. split; [|exact H3].
    intros k q Hk Eq. destruct (Z.eq_dec k tempr) as [->|Hn]; [congruence|]. apply (H2 k); [lia|exact Eq].
  - exists tempr. split; [done|]. split; [lia|]. split; [exact Nil|]. intros _ q Eq. unfold le. congruence.
Qed.

Lemma good_within lo hi l l' : within lo hi l l' -> Forall good l -> Forall good l'.
Proof using. intros [P _ _]. now rewrite P. Qed.

(** What is at most as large as the pivot, and what is larger. *)
Definition parted (left right templ tempr pivot : Z) (l : list Z) : Prop :=
  entry l left = Some pivot /\ range l left templ (fun p => le p pivot) /\ range l (tempr + 1) right (fun p => 0 < cmp p pivot).

Lemma partition_loop_eq pivot left right : forall fuel templ tempr l,
  Forall good l -> 0 <= left <= templ -> templ <= tempr <= right -> right < Z.of_nat (length l) ->
  parted left right templ tempr pivot l -> (Z.to_nat (right - templ) < fuel)%nat ->
  exists r l', partition_loop attr fuel pivot left right templ tempr l x = Ret (r, l') x /\ left <= r <= right
    /\ within left right l l' /\ parted left right r r pivot l'.
Proof using compare_eq.
  induction fuel as [|fuel IH]; intros templ tempr l Hl Ht Hr Hn P Hf; [lia|]. cbn [partition_loop].
  pose proof P as (Ep & Hlo & Hhi). pose proof (good_entry _ _ _ Hl Ep) as G.
  destruct (Z.ltb_spec templ tempr) as [H|H].
  2:{ assert (templ = tempr) as -> by lia. exists tempr, l. split; [done|]. split; [lia|]. split; [apply within_refl|exact P]. }
  destruct (scan_up_eq pivot right l (Z.to_nat (right - templ + 1)) templ Hl G ltac:(lia) Hn ltac:(lia)) as (t & Et & H1 & H2 & H3).
  rewrite (bind_Ret _ _ _ _ _ Et).
  destruct (scan_down_eq pivot left l (Z.to_nat (tempr - left + 1)) tempr Hl G ltac:(lia) ltac:(lia) ltac:(lia)) as (r & Er & R1 & R2 & R3).
  rewrite (bind_Ret _ _ _ _ _ Er).
  assert (Hlo' : range l left (t - 1) (fun p => le p pivot)).
  { intros k p Hk. destruct (Z_le_dec k templ); [apply Hlo; lia|apply H2; lia]. }
  assert (Hhi' : range l (r + 1) right (fun p => 0 < cmp p pivot)).
  { intros k p Hk. destruct (Z_le_dec k tempr); [apply R2; lia|apply Hhi; lia]. }
  destruct (Z.ltb_spec t r) as [Htr|Htr].
  - destruct (entry_Some l t) as (temp & Etemp); [lia|]. destruct (entry_Some l r) as (q & Eq); [lia|].
    rewrite Etemp, Eq. cbn [deref]. erewrite bind_Ret by reflexivity. erewrite bind_Ret by reflexivity.
    rewrite (bind_Ret _ _ _ _ _ (store_eq t q l x ltac:(lia))). rewrite (bind_Ret _ _ _ _ _ (store_eq r temp (<[Z.to_nat t := q]> l) x ltac:(rewrite length_insert; lia))).
    set (l2 := <[Z.to_nat r := temp]> (<[Z.to_nat t := q]> l)).
    assert (W : within left right l l2) by (apply within_swap; (lia || done)).
    assert (Htt : templ < t).
    { destruct (Z.eq_dec t templ) as [->|]; [|lia]. specialize (H3 ltac:(lia) _ Etemp). specialize (Hlo templ temp ltac:(lia) Etemp). unfold le in Hlo. lia. }
    assert (E2 : forall k, entry l2 k = if k =? r then Some temp else if k =? t then Some q else entry l k) by (intros k; now apply swap_entry).
    destruct (IH t r l2) as (r' & l' & E & B & W' & P').
    + exact (good_within _ _ _ _ W Hl).
    + lia.
    + lia.
    + now rewrite (within_length _ _ _ _ W).
    + split; [|split]; [rewrite E2, (proj2 (Z.eqb_neq left r)), (proj2 (Z.eqb_neq left t)) by lia; exact Ep| |]; intros k p Hk; rewrite E2, (proj2 (Z.eqb_neq k r)) by lia.
      * destruct (Z.eqb_spec k t) as [->|Hkt]; [intros [= <-]; apply R3; [lia|exact Eq]|apply Hlo'; lia].
      * rewrite (proj2 (Z.eqb_neq k t)) by lia. now apply Hhi'.
    + lia.
    + exists r', l'. split; [exact E|]. split; [exact B|]. split; [exact (within_trans _ _ _ _ _ W W')|exact P'].
  - exists r, l. split; [done|]. split; [lia|]. split; [apply within_refl|]. split; [exact Ep|]. split; [|exact Hhi'].
    intros k p Hk E. destruct (Z.eq_dec k left) as [->|]; [apply (Hlo left p); [lia|exact E]|].
    destruct (Z.eq_dec k r) as [->|]; [apply R3; [lia|exact E]|apply (Hlo' k p); [lia|exact E]].
Qed.

(** The node at [r] separates the smaller from the larger ones. *)
Definition separated (left right r : Z) (l : list Z) : Prop :=
  forall m, entry l r = Some m -> range l left r (fun p => le p m) /\ range l r right (fun p => le m p).

Lemma partition_eq left right l :
  Forall good l -> 0 <= left <= right -> right < Z.of_nat (length l) ->
  exists r l', partition attr left right l x = Ret (r, l') x /\ left <= r <= right /\ within left right l l' /\ separated left right r l'.
Proof using compare_eq cmp_total cmp_trans.
  intros Hl Hlr Hn. unfold partition. destruct (entry_Some l left) as (pivot & Ep); [lia|]. rewrite Ep. cbn [deref]. erewrite bind_Ret by reflexivity.
  assert (G : good pivot) by exact (good_entry _ _ _ Hl Ep).
  destruct (partition_loop_eq pivot left right (Z.to_nat (right - left + 2)) left right l Hl ltac:(lia) ltac:(lia) Hn) as (r & l1 & E & B & W & E1 & Hlo & Hhi); [|lia|].
  { split; [exact Ep|]. split; intros k p Hk E; [|lia]. assert (k = left) as -> by lia. unfold le. rewrite Ep in E. injection E as <-. now apply cmp_refl. }
  rewrite (bind_Ret _ _ _ _ _ E). clear E. destruct (entry_Some l1 r) as (q & Eq); [rewrite (within_length _ _ _ _ W); lia|].
  rewrite Eq. cbn [deref]. erewrite bind_Ret by reflexivity. pose proof (good_within _ _ _ _ W Hl) as Hl1.
  assert (Gq : good q) by exact (good_entry _ _ _ Hl1 Eq). rewrite (bind_Ret _ _ _ _ _ (compare_eq pivot q G Gq)).
  assert (Up : range l1 (r + 1) right (fun p => le pivot p)).
  { intros k p Hk Ek. apply cmp_total; [exact (good_entry _ _ _ Hl1 Ek)|exact G|exact (Hhi k p Hk Ek)]. }
  destruct (Z.ltb_spec 0 (cmp pivot q)) as [Hc|Hc].
  - rewrite (bind_Ret _ _ _ _ _ (store_eq left q l1 x ltac:(rewrite (within_length _ _ _ _ W); lia))).
    rewrite (bind_Ret _ _ _ _ _ (store_eq r pivot (<[Z.to_nat left := q]> l1) x ltac:(rewrite length_insert, (within_length _ _ _ _ W); lia))).
    set (l2 := <[Z.to_nat r := pivot]> (<[Z.to_nat left := q]> l1)).
    assert (E2 : forall k, entry l2 k = if k =? r then Some pivot else if k =? left then Some q else entry l1 k) by (intros k; now apply swap_entry).
    exists r, l2. split; [done|]. split; [lia|]. split; [apply (within_trans _ _ _ _ _ W), within_swap; (lia || done)|].
    intros m. rewrite E2, Z.eqb_refl. intros [= <-]. split; intros k p Hk; rewrite E2.
    + destruct (k =? r); [intros [= <-]; now apply cmp_refl|]. destruct (k =? left); [intros [= <-]; apply (Hlo r q); [lia|exact Eq]|]. apply Hlo. lia.
    + destruct (Z.eqb_spec k r) as [|Hkr]; [intros [= <-]; now apply cmp_refl|]. rewrite (proj2 (Z.eqb_neq k left)) by lia. apply Up. lia.
  - exists r, l1. split; [done|]. split; [lia|]. split; [exact W|]. intros m. rewrite Eq. intros [= <-]. split; intros k p Hk Ek.
    + apply (cmp_trans p pivot q); [exact (good_entry _ _ _ Hl1 Ek)|exact G|exact Gq|exact (Hlo k p Hk Ek)|exact Hc].
    + destruct (Z.eq_dec k r) as [->|]; [rewrite Eq in Ek; injection Ek as <-; now apply cmp_refl|].
      apply (cmp_trans q pivot p); [exact Gq|exact G|exact (good_entry _ _ _ Hl1 Ek)|apply (Hlo r q); [lia|exact Eq]|apply (Up k p); [lia|exact Ek]].
Qed.

Definition sorted (l : list Z) (lo hi : Z) : Prop := forall i j p q, lo <= i <= j -> j <= hi -> entry l i = Some p -> entry l j = Some q -> le p q.

(** The two halves are sorted without moving the node between them. *)
Lemma sorted_halves left right r l1 l2 l3 :
  Forall good l1 -> left <= r <= right -> right < Z.of_nat (length l1) -> 0 <= left -> separated left right r l1 ->
  within left (r - 1) l1 l2 -> sorted l2 left (r - 1) -> within (r + 1) right l2 l3 -> sorted l3 (r + 1) right -> sorted l3 left right.
Proof using cmp_total cmp_trans.
  intros Hl B Hn H0 S W2 S2 W3 S3. destruct (entry_Some l1 r) as (m & Em); [lia|]. destruct (S m Em) as [Lo Hi].
  assert (Hl3 : Forall good l3) by exact (good_within _ _ _ _ W3 (good_within _ _ _ _ W2 Hl)). pose proof (good_entry _ _ _ Hl Em) as Gm.
  assert (L3 : range l3 left r (fun p => le p m)).
  { intros k p Hk. rewrite (w_out _ _ _ _ W3) by lia. destruct (Z.eq_dec k r) as [->|].
    - rewrite (w_out _ _ _ _ W2) by lia. apply Lo. lia.
    - intros E. destruct (w_in _ _ _ _ W2 k p ltac:(lia) E) as (j & Hj & Ej). apply (Lo j p); [lia|exact Ej]. }
  assert (R3 : range l3 r right (fun p => le m p)).
  { intros k p Hk E. destruct (Z.eq_dec k r) as [->|].
    - rewrite (w_out _ _ _ _ W3), (w_out _ _ _ _ W2) in E by lia. apply (Hi r p); [lia|exact E].
    - destruct (w_in _ _ _ _ W3 k p ltac:(lia) E) as (j & Hj & Ej). rewrite (w_out _ _ _ _ W2) in Ej by lia. apply (Hi j p); [lia|exact Ej]. }
  intros i j p q Hij Hj Ei Ej. destruct (Z_lt_le_dec j r) as [Hjr|Hjr].
  - rewrite (w_out _ _ _ _ W3) in Ei, Ej by lia. apply (S2 i j); [lia|lia|done|done].
  - destruct (Z_lt_le_dec r i) as [Hri|Hri]; [apply (S3 i j); (lia || done)|].
    apply (cmp_trans p m q); [exact (good_entry _ _ _ Hl3 Ei)|exact Gm|exact (good_entry _ _ _ Hl3 Ej)|apply (L3 i p); [lia|exact Ei]|apply (R3 j q); [lia|exact Ej]].
Qed.

Lemma index_sort_eq : forall fuel left right l,
  Forall good l -> 0 <= left <= right -> right < Z.of_nat (length l) -> (Z.to_nat (right - left) < fuel)%nat ->
  exists l', index_sort attr fuel left right l x = Ret l' x /\ within left right l l' /\ sorted l' left right.
Proof using compare_eq cmp_total cmp_trans.
  induction fuel as [|fuel IH]; intros left right l Hl Hlr Hn Hf; [lia|].
  assert (Half : forall lo hi l, Forall good l -> 0 <= lo -> hi < Z.of_nat (length l) -> (Z.to_nat (hi - lo) < fuel)%nat \/ hi <= lo ->
    exists l', (if lo <? hi then index_sort attr fuel lo hi l else ret l) x = Ret l' x /\ within lo hi l l' /\ sorted l' lo hi).
  { intros lo hi l' Hl' H0 Hn' Hf'. destruct (Z.ltb_spec lo hi) as [H|H]; [apply IH; (lia || done)|].
    exists l'. split; [done|]. split; [apply within_refl|]. intros i j p q Hi Hj Ei Ej. assert (j = i) as -> by lia. rewrite Ei in Ej. injection Ej as <-.
    now apply cmp_refl, (good_entry l' i). }
  cbn [index_sort]. destruct (partition_eq left right l Hl Hlr Hn) as (r & l1 & E & B & W1 & S). rewrite (bind_Ret _ _ _ _ _ E). clear E.
  pose proof (good_within _ _ _ _ W1 Hl) as Hl1. pose proof (within_length _ _ _ _ W1) as L1.
  destruct (Half left (r - 1) l1 Hl1) as (l2 & E2 & W2 & S2); [lia|lia|lia|]. rewrite (bind_Ret _ _ _ _ _ E2).
  pose proof (good_within _ _ _ _ W2 Hl1) as Hl2. pose proof (within_length _ _ _ _ W2) as L2.
  destruct (Half (r + 1) right l2 Hl2) as (l3 & E3 & W3 & S3); [lia|lia|lia|]. exists l3. split; [exact E3|]. split.
  - apply (within_trans _ _ _ _ _ W1). apply (within_trans _ _ _ l2); [apply (within_wider _ _ _ _ _ _) with (3 := W2); lia|apply (within_wider _ _ _ _ _ _) with (3 := W3); lia].
  - apply (sorted_halves left right r l1 l2 l3); (lia || assumption).
Qed.
End Sorting.

(** ** The order of the nodes *)

Lemma strcmp_opp a b : nonul a -> nonul b -> strcmp b a = - strcmp a b.
Proof.
  intros Ha. revert b. induction Ha as [|y a Hy Ha IH]; intros b Hb; destruct Hb as [|z b Hz Hb]; [done| | |].
  - unfold strcmp. cbn [length strncmp List.hd tl]. rewrite !(proj2 (ceqb_neq _ _)) by congruence. lia.
  - unfold strcmp. cbn [length strncmp List.hd tl]. rewrite !(proj2 (ceqb_neq _ _)) by congruence. lia.
  - rewrite !strcmp_cons by done. destruct (ceqb y z) eqn:E.
    + apply ceqb_eq in E as ->. rewrite ceqb_refl. now apply IH.
    + apply ceqb_neq in E. rewrite (proj2 (ceqb_neq z y)) by congruence. lia.
Qed.

Lemma strcmp_0 a b : nonul a -> nonul b -> strcmp a b = 0 <-> a = b.
Proof. intros Ha Hb. rewrite <- (streq_eq a b Ha Hb). unfold streq. now rewrite Z.eqb_eq. Qed.

(** Name and value. *)
Definition key : Type := bytes * bytes.
Definition proper (k : key) : Prop := nonul (fst k) /\ nonul (snd k).

Definition then_ (d d' : Z) : Z := if negb (d =? 0) then d else d'.
Definition key_cmp (k l : key) : Z := then_ (strcmp (fst k) (fst l)) (strcmp (snd k) (snd l)).

Lemma then_neg d d' : then_ d d' <= 0 <-> d < 0 \/ d = 0 /\ d' <= 0.
Proof. unfold then_. destruct (Z.eqb_spec d 0); cbn [negb]; lia. Qed.

Lemma key_cmp_opp k l : proper k -> proper l -> key_cmp l k = - key_cmp k l.
Proof.
  intros [H1 H2] [H3 H4]. unfold key_cmp, then_. rewrite (strcmp_opp (fst k)), (strcmp_opp (snd k)) by done.
  destruct (Z.eqb_spec (strcmp (fst k) (fst l)) 0) as [->|]; [done|]. now rewrite (proj2 (Z.eqb_neq _ 0)) by lia.
Qed.

Lemma strcmp_le_trans a b c : nonul a -> nonul b -> nonul c -> strcmp a b <= 0 -> strcmp b c <= 0 -> strcmp a c <= 0.
Proof.
  intros Ha Hb Hc H1 H2. destruct (Z.eq_dec (strcmp a b) 0) as [->%strcmp_0|]; [exact H2|done|done|].
  destruct (Z.eq_dec (strcmp b c) 0) as [<-%strcmp_0|]; [exact H1|done|done|]. pose proof (strcmp_trans a b c Ha Hb Hc). lia.
Qed.

Lemma key_cmp_trans k l m : proper k -> proper l -> proper m -> key_cmp k l <= 0 -> key_cmp l m <= 0 -> key_cmp k m <= 0.
Proof.
  destruct k as [a u], l as [b v], m as [c w]. intros [Ha Hu] [Hb Hv] [Hc Hw]. unfold key_cmp. cbn [fst snd] in *. rewrite !then_neg. intros [H1|[H1 H1']] [H2|[H2 H2']].
  - left. now apply (strcmp_trans a b c).
  - apply strcmp_0 in H2 as <-; [now left|done|done].
  - apply strcmp_0 in H1 as <-; [now left|done|done].
  - apply strcmp_0 in H1 as <-; [|done|done]. right. split; [exact H2|exact (strcmp_le_trans u v w Hu Hv Hw H1' H2')].
Qed.

(** The key of a node in an index on [attr]. *)
Definition key_of (attr : option bytes) (v : mxml_value_t) : option key :=
  match v with
  | Element (Some e) attrs =>
      match attr with
      | None => Some (e, [])
      | Some attr => match List.find (has_name attr) attrs with Some (mkAttr _ (Some u)) => Some (e, u) | _ => None end
      end
  | _ => None
  end.

Section Keys.
Context (attr : option bytes) (x : xml).

Definition node_key (p : Z) : option key := n ← x_heap x !! p; key_of attr (value n).
Definition keyed (p : Z) : Prop := p <> NULL /\ exists k, node_key p = Some k /\ proper k.
Definition key_at (p : Z) : key := default ([], []) (node_key p).
Definition node_cmp (p q : Z) : Z := key_cmp (key_at p) (key_at q).

Lemma keyed_at p : keyed p -> proper (key_at p) /\ element_at p x = Ret (fst (key_at p)) x
  /\ match attr with Some a => attr_at p a x = Ret (snd (key_at p)) x | None => snd (key_at p) = [] end.
Proof.
  intros (Hp & k & Ek & Pk). unfold key_at, attr_at, mxmlElementGetAttr, element_at. rewrite Ek. cbn [default]. split; [exact Pk|]. revert Ek. unfold node_key.
  destruct (x_heap x !! p) as [n|] eqn:En; [|done]. cbn [mbind option_bind]. rewrite (node_at_then _ _ _ _ En), (proj2 (Z.eqb_neq p NULL) Hp).
  unfold key_of. destruct (value n) as [|[e|] attrs| | | | |] eqn:Ev; try done. destruct attr as [a|].
  - destruct (List.find (has_name a) attrs) as [[an [u|]]|] eqn:F; try done. intros [= <-]. split; [done|].
    erewrite bind_Ret; [|rewrite (node_at_then _ _ _ _ En), Ev, F; reflexivity]. reflexivity.
  - intros [= <-]. now split.
Qed.

Lemma index_compare_eq p q : keyed p -> keyed q -> index_compare attr p q x = Ret (node_cmp p q) x.
Proof.
  intros (_ & E1 & F1)%keyed_at (_ & E2 & F2)%keyed_at. unfold index_compare, node_cmp, key_cmp, then_. rewrite (bind_Ret _ _ _ _ _ E1), (bind_Ret _ _ _ _ _ E2).
  destruct (negb _); [done|]. destruct attr as [a|].
  - now rewrite (bind_Ret _ _ _ _ _ F1), (bind_Ret _ _ _ _ _ F2).
  - now rewrite F1, F2.
Qed.

Lemma node_cmp_total p q : keyed p -> keyed q -> 0 < node_cmp p q -> node_cmp q p <= 0.
Proof. intros (Hp & _)%keyed_at (Hq & _)%keyed_at. unfold node_cmp. rewrite (key_cmp_opp (key_at p) (key_at q)) by done. lia. Qed.

Lemma node_cmp_trans p q r : keyed p -> keyed q -> keyed r -> node_cmp p q <= 0 -> node_cmp q r <= 0 -> node_cmp p r <= 0.
Proof. intros (Hp & _)%keyed_at (Hq & _)%keyed_at (Hr & _)%keyed_at. unfold node_cmp. now apply key_cmp_trans. Qed.

(** What a look-up compares with a key. *)
Definition find_cmp (element v : option bytes) (k : key) : Z :=
  then_ (match element with Some e => strcmp e (fst k) | None => 0 end) (match v with Some v => strcmp v (snd k) | None => 0 end).

Lemma index_find_eq element v p : keyed p -> (attr = None -> v = None) -> index_find attr element v p x = Ret (find_cmp element v (key_at p)) x.
Proof.
  intros (_ & E & F)%keyed_at Hv. unfold index_find, find_cmp, then_.
  assert (D : (match element with None => ret 0 | Some element => let* e := element_at p in ret (strcmp element e) end) x
    = Ret (match element with Some e => strcmp e (fst (key_at p)) | None => 0 end) x) by (destruct element; [now rewrite (bind_Ret _ _ _ _ _ E)|reflexivity]).
  rewrite (bind_Ret _ _ _ _ _ D). destruct (negb _); [done|]. destruct v as [v|]; [|done]. destruct attr as [a|]; [|now specialize (Hv eq_refl)]. now rewrite (bind_Ret _ _ _ _ _ F).
Qed.
End Keys.

(** A look-up by name, and value if there is one, goes through the order of the keys. *)
Lemma find_cmp_mono e v k l :
  nonul e -> (forall u, v = Some u -> nonul u) -> proper k -> proper l -> key_cmp k l <= 0 ->
  (find_cmp (Some e) v k <= 0 -> find_cmp (Some e) v l <= 0) /\ (find_cmp (Some e) v k < 0 -> find_cmp (Some e) v l < 0).
Proof.
  destruct k as [a u], l as [b w]. intros He Hv [Ha Hu] [Hb Hw]. unfold key_cmp, find_cmp. cbn [fst snd] in *. rewrite then_neg. intros H.
  assert (V : strcmp u w <= 0 -> let d u := match v with Some v => strcmp v u | None => 0 end in (d u <= 0 -> d w <= 0) /\ (d u < 0 -> d w < 0)).
  { intros Huw. destruct v as [v|]; [|split; lia]. specialize (Hv v eq_refl). cbn zeta. split; intros H1; [now apply (strcmp_le_trans v u w)|].
    destruct (Z.eq_dec (strcmp u w) 0) as [<-%strcmp_0|]; [exact H1|done|done|]. apply (strcmp_trans v u w); (lia || done). }
  unfold then_. destruct H as [H|[->%strcmp_0 H]]; [| |done|done].
  - destruct (Z.eqb_spec (strcmp e a) 0) as [->%strcmp_0|Hn]; cbn [negb]; [|done|done|].
    + rewrite (proj2 (Z.eqb_neq (strcmp a b) 0)) by lia. cbn [negb]. lia.
    + assert (T : strcmp e a < 0 -> strcmp e b < 0) by (intros; now apply (strcmp_trans e a b)).
      split; intros H1; assert (L : strcmp e b < 0) by (apply T; lia); rewrite (proj2 (Z.eqb_neq (strcmp e b) 0)) by lia; cbn [negb]; lia.
  - destruct (negb _); [lia|]. destruct (V H) as [V1 V2]. now split.
Qed.

(** ** Looking up *)

Lemma entry_app l1 l2 k : entry (l1 ++ l2) k = if k <? Z.of_nat (length l1) then entry l1 k else entry l2 (k - Z.of_nat (length l1)).
Proof.
  unfold entry. destruct (Z.leb_spec 0 k) as [H|H].
  - destruct (Z.ltb_spec k (Z.of_nat (length l1))) as [H1|H1]; [now rewrite lookup_app_l by lia|].
    rewrite (proj2 (Z.leb_le 0 _)) by lia. rewrite lookup_app_r by lia. f_equal. lia.
  - now rewrite (proj2 (Z.ltb_lt k _)) by lia.
Qed.

Section Lookup.
Context (x : xml) (i : mxml_index_t) (element v : option bytes) (hi eq lo : list Z).
Let attr := i_attr i.
Let d (p : Z) : Z := find_cmp element v (key_at attr x p).

(** The nodes in front of those looked for, those, and the ones behind. *)
Hypothesis nodes_eq : i_nodes i = hi ++ eq ++ lo.
Hypothesis nodes_keyed : Forall (keyed attr x) (i_nodes i).
Hypothesis attr_value : attr = None -> v = None.
Hypothesis hi_d : Forall (fun p => 0 < d p) hi.
Hypothesis eq_d : Forall (fun p => d p = 0) eq.
Hypothesis lo_d : Forall (fun p => d p < 0) lo.

Let a : Z := Z.of_nat (length hi).
Let b : Z := Z.of_nat (length hi) + Z.of_nat (length eq).
Let n : Z := num_nodes i.

Lemma n_eq : n = b + Z.of_nat (length lo).
Proof using nodes_eq. unfold n, num_nodes, b. rewrite nodes_eq, !length_app. lia. Qed.

Lemma find_at_eq k : 0 <= k < n -> exists p, entry (i_nodes i) k = Some p /\ p <> NULL /\ find_at i element v k x = Ret (d p) x
  /\ (k < a -> 0 < d p) /\ (a <= k < b -> d p = 0) /\ (b <= k -> d p < 0).
Proof using nodes_eq nodes_keyed attr_value hi_d eq_d lo_d.
  intros Hk. destruct (entry_Some (i_nodes i) k Hk) as (p & E). pose proof (good_entry _ _ _ _ nodes_keyed E) as G. exists p. split; [exact E|].
  split; [apply G|]. split; [unfold find_at; rewrite E; cbn [deref]; erewrite bind_Ret by reflexivity; now apply index_find_eq|].
  rewrite nodes_eq, entry_app in E. destruct (Z.ltb_spec k (Z.of_nat (length hi))) as [H|H].
  - unfold a, b. rewrite Forall_forall in hi_d. pose proof (hi_d p (entry_in _ _ _ E)). lia.
  - rewrite entry_app in E. destruct (Z.ltb_spec (k - Z.of_nat (length hi)) (Z.of_nat (length eq))) as [H2|H2]; unfold a, b.
    + rewrite Forall_forall in eq_d. pose proof (eq_d p (entry_in _ _ _ E)). lia.
    + rewrite Forall_forall in lo_d. pose proof (lo_d p (entry_in _ _ _ E)). lia.
Qed.

Lemma bisect_eq : forall fuel first last,
  0 <= first <= last -> last < n -> first <= a -> b <= last + 1 -> (Z.to_nat (last - first) < fuel)%nat ->
  (exists c, bisect i element v fuel first last x = Ret (inl c) x /\ a <= c < b)
  \/ exists f l, bisect i element v fuel first last x = Ret (inr (f, l)) x /\ 0 <= f <= l /\ l < n /\ l - f <= 1 /\ f <= a /\ b <= l + 1.
Proof using nodes_eq nodes_keyed attr_value hi_d eq_d lo_d.
  induction fuel as [|fuel IH]; intros first last H Hn Ha Hb Hf; [lia|]. cbn [bisect].
  destruct (Z.ltb_spec 1 (last - first)) as [H1|H1]; [|right; exists first, last; split; [done|lia]].
  pose proof (Z.div_mod (first + last) 2 ltac:(lia)). pose proof (Z.mod_pos_bound (first + last) 2 ltac:(lia)). set (c := (first + last) / 2) in *.
  destruct (find_at_eq c ltac:(lia)) as (p & _ & _ & E & D1 & D2 & D3). rewrite (bind_Ret _ _ _ _ _ E).
  destruct (Z.eqb_spec (d p) 0) as [E0|E0]; [left; exists c; split; [done|lia]|]. destruct (Z.ltb_spec (d p) 0) as [L|L]; apply IH; lia.
Qed.

Lemma back_up_eq : forall fuel c, a <= c < b -> (Z.to_nat (c - a) < fuel)%nat -> back_up i element v fuel c x = Ret a x.
Proof using nodes_eq nodes_keyed attr_value hi_d eq_d lo_d.
  pose proof n_eq. induction fuel as [|fuel IH]; intros c Hc Hf; [lia|]. cbn [back_up]. destruct (Z.ltb_spec 0 c) as [H0|H0]; [|unfold ret; f_equal; unfold a in *; lia].
  destruct (find_at_eq (c - 1)) as (p & _ & _ & E & D1 & D2 & D3); [lia|]. rewrite (bind_Ret _ _ _ _ _ E).
  destruct (Z.eqb_spec (d p) 0) as [E0|E0]; [apply IH; [destruct (Z_lt_le_dec (c - 1) a); lia|lia]|].
  assert (c = a) as -> by (destruct (Z_lt_le_dec (c - 1) a); lia). done.
Qed.

Lemma scan_first_eq last : last < n -> b <= last + 1 -> forall fuel c, 0 <= c -> c <= a \/ a = b -> (Z.to_nat (last + 1 - c) < fuel)%nat ->
  scan_matches i element v fuel c last x = Ret (if a <? b then Some a else None) x.
Proof using nodes_eq nodes_keyed attr_value hi_d eq_d lo_d.
  intros Hn Hb. induction fuel as [|fuel IH]; intros c H0 Hc Hf; [lia|]. cbn [scan_matches]. destruct (Z.leb_spec c last) as [H|H].
  - destruct (find_at_eq c) as (p & _ & _ & E & D1 & D2 & D3); [lia|]. rewrite (bind_Ret _ _ _ _ _ E). destruct (Z.eqb_spec (d p) 0) as [E0|E0].
    + assert (c = a /\ a < b) as [-> Hab] by lia. now rewrite (proj2 (Z.ltb_lt a b) Hab).
    + apply IH; lia.
  - destruct (Z.ltb_spec a b); [lia|done].
Qed.

Lemma entry_matches j : 0 <= j -> entry (i_nodes i) (a + j) = if a + j <? b then entry eq j else entry lo (j - Z.of_nat (length eq)).
Proof using nodes_eq.
  intros H. unfold a, b. rewrite nodes_eq, entry_app, (proj2 (Z.ltb_ge _ _)), entry_app by lia.
  replace (Z.of_nat (length hi) + j - Z.of_nat (length hi)) with j by lia.
  destruct (Z.ltb_spec j (Z.of_nat (length eq))); destruct (Z.ltb_spec (Z.of_nat (length hi) + j) (Z.of_nat (length hi) + Z.of_nat (length eq))); try lia; done.
Qed.

Lemma yield_eq k p : entry (i_nodes i) k = Some p -> yield k i x = Ret (p, Some (set_i_cur_node (k + 1) i)) x.
Proof using. intros E. unfold yield. now rewrite E. Qed.

Hypothesis looks : element <> None \/ v <> None.

(** The checks in front of the search. *)
Lemma find_eq : mxmlIndexFind (Some i) element v x =
  (if n =? 0 then ret (NULL, Some i)
   else if i_cur_node i =? 0 then
     let* r := bisect i element v (length (i_nodes i)) 0 (n - 1) in
     match r with
     | inl current => let* k := back_up i element v (S (length (i_nodes i))) current in yield k i
     | inr (first, last) =>
         let* o := scan_matches i element v 3 first last in
         match o with Some k => yield k i | None => exhausted i end
     end
   else if i_cur_node i <? n then
     let* d := find_at i element v (i_cur_node i) in
     if d =? 0 then yield (i_cur_node i) i else exhausted i
   else exhausted i) x.
Proof using nodes_eq nodes_keyed attr_value hi_d eq_d lo_d looks.
  unfold mxmlIndexFind. replace (match i_attr i, v with None, Some _ => true | _, _ => false end) with false.
  - destruct element, v; try done. now destruct looks.
  - fold attr. destruct attr, v; try done. now specialize (attr_value eq_refl).
Qed.

Lemma find_first_eq :
  i_cur_node i = 0 -> mxmlIndexFind (Some i) element v x =
    match entry eq 0 with Some p => Ret (p, Some (set_i_cur_node (a + 1) i)) x | None => Ret (NULL, Some (set_i_cur_node n i)) x end.
Proof using nodes_eq nodes_keyed attr_value hi_d eq_d lo_d looks.
  intros Hc. pose proof n_eq as Hn. rewrite find_eq. destruct (Z.eqb_spec n 0) as [E0|E0].
  { rewrite entry_nil by (unfold b in Hn; lia). rewrite E0, <- Hc. now destruct i. }
  rewrite Hc, Z.eqb_refl. unfold exhausted. fold n.
  assert (Y : a < b -> exists p, entry eq 0 = Some p /\ yield a i x = Ret (p, Some (set_i_cur_node (a + 1) i)) x).
  { intros Hab. destruct (entry_Some eq 0) as (p & Ep); [unfold a, b in Hab; lia|]. exists p. split; [done|]. apply yield_eq.
    pose proof (entry_matches 0 ltac:(lia)) as En. rewrite Z.add_0_r, (proj2 (Z.ltb_lt a b)) in En by exact Hab. congruence. }
  destruct (bisect_eq (length (i_nodes i)) 0 (n - 1)) as [(c & E & C)|(f & l & E & F)]; try (unfold a, b, n, num_nodes in *; lia); rewrite (bind_Ret _ _ _ _ _ E).
  - destruct (Y ltac:(lia)) as (p & -> & Ey).
    rewrite (bind_Ret _ _ _ _ _ (back_up_eq (S (length (i_nodes i))) c C ltac:(unfold a, b, n, num_nodes in *; lia))). exact Ey.
  - rewrite (bind_Ret _ _ _ _ _ (scan_first_eq l ltac:(lia) ltac:(lia) 3 f ltac:(lia) ltac:(lia) ltac:(lia))). destruct (Z.ltb_spec a b) as [H|H].
    + destruct (Y H) as (p & -> & Ey). exact Ey.
    + rewrite entry_nil by (unfold a, b in H; lia). done.
Qed.

Lemma find_next_eq j :
  0 < j <= Z.of_nat (length eq) -> i_cur_node i = a + j -> mxmlIndexFind (Some i) element v x =
    match entry eq j with Some p => Ret (p, Some (set_i_cur_node (a + (j + 1)) i)) x | None => Ret (NULL, Some (set_i_cur_node n i)) x end.
Proof using nodes_eq nodes_keyed attr_value hi_d eq_d lo_d looks.
  intros Hj Hc. pose proof n_eq as Hn. rewrite find_eq. rewrite Hc. unfold exhausted. fold n. rewrite !(proj2 (Z.eqb_neq _ 0)) by (unfold a, b in *; lia).
  destruct (Z.ltb_spec (a + j) n) as [H|H].
  - destruct (find_at_eq (a + j)) as (p & En & _ & E & D1 & D2 & D3); [unfold a; lia|]. rewrite (bind_Ret _ _ _ _ _ E). pose proof (entry_matches j ltac:(lia)) as Ee.
    destruct (Z.ltb_spec (a + j) b) as [Hb|Hb].
    + rewrite (D2 ltac:(lia)), Z.eqb_refl, <- Ee, En. rewrite (yield_eq _ _ En). do 4 f_equal. lia.
    + rewrite (proj2 (Z.eqb_neq (d p) 0)) by lia. destruct (entry eq j) as [q|] eqn:Ej; [|done]. apply entry_range in Ej. unfold a, b in Hb. lia.
  - destruct (entry eq j) as [q|] eqn:Ej; [|done]. apply entry_range in Ej. unfold a, b in *. lia.
Qed.
End Lookup.

(** [while ((node = mxmlIndexFind(ind, element, value)) != NULL)]: the nodes in order. *)
Fixpoint find_all (fuel : nat) (ind : option mxml_index_t) (element v : option bytes) : prog xml (list Z) :=
  match fuel with
  | O => spin
  | S fuel =>
      let* (p, ind) := mxmlIndexFind ind element v in
      if p =? NULL then ret [] else let* ps := find_all fuel ind element v in ret (p :: ps)
  end.

Lemma entry_cons p l k : 0 <= k -> entry (p :: l) (k + 1) = entry l k.
Proof.
  intros H. change (p :: l) with ([p] ++ l). rewrite entry_app. cbn [length]. rewrite (proj2 (Z.ltb_ge _ _)) by lia. f_equal. lia.
Qed.

Lemma sorted_Strongly cmp l : sorted cmp l 0 (Z.of_nat (length l) - 1) -> StronglySorted (le cmp) l.
Proof.
  induction l as [|p l IH]; intros S; constructor.
  - apply IH. intros i j q r Hi Hj Ei Ej. apply (S (i + 1) (j + 1) q r); [lia|cbn [length]; lia| |]; now rewrite entry_cons by lia.
  - apply Forall_forall. intros q Hq. apply list_elem_of_lookup in Hq as [k Hk]. pose proof (lookup_lt_Some _ _ _ Hk).
    apply (S 0 (Z.of_nat (Datatypes.S k)) p q); [lia|cbn [length]; lia|done|]. unfold entry. rewrite (proj2 (Z.leb_le 0 _)), Nat2Z.id by lia. exact Hk.
Qed.

(** A list in the order of a search splits into three. *)
Lemma split_sorted (d : Z -> Z) (R : Z -> Z -> Prop) l :
  (forall p q, p ∈ l -> q ∈ l -> R p q -> (d p <= 0 -> d q <= 0) /\ (d p < 0 -> d q < 0)) -> StronglySorted R l ->
  exists hi lo, l = hi ++ List.filter (fun p => d p =? 0) l ++ lo
    /\ Forall (fun p => 0 < d p) hi /\ Forall (fun p => d p = 0) (List.filter (fun p => d p =? 0) l) /\ Forall (fun p => d p < 0) lo.
Proof.
  intros H S. induction S as [|p l S IH F]; [exists [], []; split; [done|]; split; [constructor|]; split; constructor|].
  destruct IH as (hi & lo & E & Hh & He & Hl); [intros q r Hq Hr; apply H; now right|]. rewrite Forall_forall in F.
  assert (D : forall q, q ∈ l -> (d p <= 0 -> d q <= 0) /\ (d p < 0 -> d q < 0)) by (intros q Hq; apply (H p q); [left|now right|now apply F]).
  cbn [List.filter]. destruct (Z_lt_le_dec 0 (d p)) as [Hp|Hp].
  - exists (p :: hi), lo. rewrite (proj2 (Z.eqb_neq (d p) 0)) by lia. split; [cbn [app]; now f_equal|]. split; [now constructor|]. now split.
  - assert (hi = []) as ->.
    { destruct hi as [|q hi]; [done|]. apply Forall_cons in Hh as [Hq _]. destruct (D q) as [Dq _]; [rewrite E; left|]. specialize (Dq Hp). lia. }
    cbn [app] in E. destruct (Z.eqb_spec (d p) 0) as [Hp0|Hp0].
    + exists [], lo. split; [cbn [app]; now f_equal|]. split; [constructor|]. split; [now constructor|exact Hl].
    + destruct (List.filter (fun q => d q =? 0) l) as [|q m] eqn:Ef.
      * exists [], (p :: lo). split; [cbn [app] in *; now f_equal|]. split; [constructor|]. split; [constructor|]. constructor; [lia|exact Hl].
      * apply Forall_cons in He as [Hq _]. destruct (D q) as [_ Dq]; [rewrite E; left|]. specialize (Dq ltac:(lia)). lia.
Qed.

(** The nodes an index gives, one call after the other. *)
Lemma find_all_rest x i element v hi lo : forall rest front,
  i_nodes i = hi ++ (front ++ rest) ++ lo -> Forall (keyed (i_attr i) x) (i_nodes i) -> (i_attr i = None -> v = None) ->
  Forall (fun p => 0 < find_cmp element v (key_at (i_attr i) x p)) hi ->
  Forall (fun p => find_cmp element v (key_at (i_attr i) x p) = 0) (front ++ rest) ->
  Forall (fun p => find_cmp element v (key_at (i_attr i) x p) < 0) lo -> element <> None \/ v <> None ->
  i_cur_node i = 0 /\ front = [] \/ i_cur_node i = Z.of_nat (length hi) + Z.of_nat (length front) /\ front <> [] ->
  find_all (S (length rest)) (Some i) element v x = Ret rest x.
Proof.
  intros rest. revert i. induction rest as [|p rest IH]; intros i front En K Hv Hh He Hl Hs Hc; cbn [length find_all].
  - rewrite app_nil_r in *. assert (E : mxmlIndexFind (Some i) element v x = Ret (NULL, Some (set_i_cur_node (num_nodes i) i)) x); [|now rewrite (bind_Ret _ _ _ _ _ E)].
    destruct Hc as [[Hc ->]|[Hc Hf]].
    + now rewrite (find_first_eq x i element v hi [] lo En K Hv Hh He Hl Hs Hc).
    + rewrite (find_next_eq x i element v hi front lo En K Hv Hh He Hl Hs (Z.of_nat (length front))); [|destruct front; [done|cbn [length]; lia]|exact Hc].
      now rewrite entry_nil by lia.
  - assert (Ep : entry (front ++ p :: rest) (Z.of_nat (length front)) = Some p).
    { rewrite entry_app, (proj2 (Z.ltb_ge _ _)), Z.sub_diag by lia. reflexivity. }
    set (i' := set_i_cur_node (Z.of_nat (length hi) + (Z.of_nat (length front) + 1)) i).
    assert (E : mxmlIndexFind (Some i) element v x = Ret (p, Some i') x).
    { destruct Hc as [[Hc ->]|[Hc Hf]].
      - now rewrite (find_first_eq x i element v hi _ lo En K Hv Hh He Hl Hs Hc).
      - rewrite (find_next_eq x i element v hi _ lo En K Hv Hh He Hl Hs (Z.of_nat (length front))); [now rewrite Ep| |exact Hc].
        rewrite length_app. destruct front; [done|cbn [length]; lia]. }
    rewrite (bind_Ret _ _ _ _ _ E). assert (Hp : keyed (i_attr i) x p).
    { rewrite Forall_forall in K. apply K. rewrite En. apply elem_of_app. right. apply elem_of_app. left. exact (entry_in _ _ _ Ep). }
    rewrite (proj2 (Z.eqb_neq p NULL)) by apply Hp. change (p :: rest) with ([p] ++ rest) in En, He. rewrite (app_assoc front) in En, He.
    rewrite (bind_Ret _ _ _ _ _ (IH i' (front ++ [p]) En K Hv Hh He Hl Hs ltac:(right; rewrite length_app, Nat2Z.inj_add; split; [reflexivity|now destruct front]))).
    reflexivity.
Qed.

Lemma find_all_sorted x i e v :
  StronglySorted (le (node_cmp (i_attr i) x)) (i_nodes i) -> Forall (keyed (i_attr i) x) (i_nodes i) -> i_cur_node i = 0 ->
  nonul e -> (forall u, v = Some u -> nonul u) -> (i_attr i = None -> v = None) ->
  let ps := List.filter (fun p => find_cmp (Some e) v (key_at (i_attr i) x p) =? 0) (i_nodes i) in
  find_all (S (length ps)) (Some i) (Some e) v x = Ret ps x.
Proof.
  intros S K Hc He Hv Ha ps. set (d := fun p => find_cmp (Some e) v (key_at (i_attr i) x p)).
  destruct (split_sorted d (le (node_cmp (i_attr i) x)) (i_nodes i)) as (hi & lo & E & Hh & Hm & Hl); [|exact S|].
  - intros p q Hp Hq Hpq. rewrite Forall_forall in K. destruct (keyed_at _ _ _ (K p Hp)) as [Pp _], (keyed_at _ _ _ (K q Hq)) as [Pq _].
    unfold d. now apply find_cmp_mono.
  - apply (find_all_rest x i (Some e) v hi lo ps []); try assumption; [now left|]. now left.
Qed.

(** ** Making an index *)

Lemma found_split x element attr v b :
  found_in x element attr v b = NULL /\ List.filter (matching x element attr v) b = []
  \/ exists b1 c b2, b = b1 ++ c :: b2 /\ found_in x element attr v b = c /\ List.filter (matching x element attr v) b = c :: List.filter (matching x element attr v) b2.
Proof.
  unfold found_in. induction b as [|p b IH]; [now left|]. cbn [List.find List.filter]. destruct (matching x element attr v p).
  - right. now exists [], p, b.
  - destruct IH as [IH|(b1 & c & b2 & -> & E1 & E2)]; [now left|]. right. now exists (p :: b1), c, b2.
Qed.

(** One turn stores a node and goes to the next that matches. *)
Lemma index_fill_step x par prv nxt t element attr a c b fuel i :
  wf x par prv nxt t -> x_allocs x = [] -> ptrs t = a ++ c :: b ->
  exists al, index_fill (S fuel) (root t) element attr c i x
    = index_fill fuel (root t) element attr (found_in x element attr None b) (set_i_nodes (i_nodes i ++ [c]) (set_i_alloc_nodes al i)) x.
Proof.
  intros W Hal E. pose proof W as [_ _ R].
  assert (Hc : c <> NULL) by (apply (rep_dom _ _ _ _ _ c R); rewrite E, !elem_of_app; right; left). cbn [index_fill]. rewrite (proj2 (Z.eqb_neq c NULL) Hc).
  assert (Room : exists al, (if i_alloc_nodes i <=? num_nodes i then
      let* ok := granted in
      if (ok : bool) then ret (Some (set_i_alloc_nodes (i_alloc_nodes i + 64) i))
      else mxml_error (index_error ((i_alloc_nodes i + 64) * 8)) ;;; ret None
    else ret (Some i)) x = Ret (Some (set_i_alloc_nodes al i)) x).
  { destruct (_ <=? _); [rewrite (bind_Ret _ _ _ _ _ (granted_eq x Hal)); now eexists|exists (i_alloc_nodes i); now destruct i]. }
  destruct Room as (al & Er). exists al. rewrite (bind_Ret _ _ _ _ _ Er).
  now rewrite (bind_Ret _ _ _ _ _ (find_descend x par prv nxt t a c b element attr None W E ltac:(done))).
Qed.

(** The nodes behind [a] that match are put behind those that are there. *)
Lemma index_fill_eq x par prv nxt t element attr :
  wf x par prv nxt t -> x_allocs x = [] -> forall fuel b a i,
  ptrs t = a ++ b -> (length b < fuel)%nat ->
  exists al, index_fill fuel (root t) element attr (found_in x element attr None b) i x
    = Ret (Some (mkIndex (i_attr i) al (i_cur_node i) (i_nodes i ++ List.filter (matching x element attr None) b))) x.
Proof.
  intros W Hal fuel. induction fuel as [|fuel IH]; intros b a i E Hf; [lia|].
  destruct (found_split x element attr None b) as [[E1 E2]|(b1 & c & b2 & -> & E1 & E2)]; rewrite E1, E2.
  - exists (i_alloc_nodes i). rewrite app_nil_r. now destruct i.
  - assert (E' : ptrs t = (a ++ b1) ++ c :: b2) by now rewrite <- app_assoc.
    destruct (index_fill_step x par prv nxt t element attr (a ++ b1) c b2 fuel i W Hal E') as (al & ->).
    destruct (IH b2 ((a ++ b1) ++ [c]) (set_i_nodes (i_nodes i ++ [c]) (set_i_alloc_nodes al i))) as (al' & ->); [now rewrite <- app_assoc|rewrite length_app in Hf; cbn [length] in Hf; lia|].
    exists al'. cbn [i_nodes set_i_nodes i_attr i_cur_node set_i_alloc_nodes]. now rewrite <- app_assoc.
Qed.

(** The nodes of an index, in document order: without a name and an attribute the root is
    one of them. *)
Definition indexed (x : xml) (t : ptree) (element attr : option bytes) : list Z :=
  match element, attr with None, None => [root t] | _, _ => [] end ++ List.filter (matching x element attr None) (tl (ptrs t)).

Lemma ptrs_root t : ptrs t = root t :: tl (ptrs t).
Proof. destruct t. now rewrite ptrs_eq. Qed.

(** The nodes are found in document order. *)
Lemma indexed_then {B} x par prv nxt t element attr :
  wf x par prv nxt t -> x_allocs x = [] ->
  exists al, forall g : option mxml_index_t -> prog xml B,
    (let* current :=
       match element, attr with None, None => ret (root t) | _, _ => mxmlFindElement (root t) (root t) element attr None MXML_DESCEND end in
     let* h := get x_heap in
     let* o := index_fill (S (S (size h))) (root t) element attr current (mkIndex attr 0 0 []) in g o) x
    = g (Some (mkIndex attr al 0 (indexed x t element attr))) x.
Proof.
  intros W Hal. pose proof W as [_ N R]. pose proof (nodup_heap _ _ N (fun q Hq => proj2 (rep_dom _ _ _ _ _ q R Hq))) as L.
  unfold indexed. pose proof (ptrs_root t) as Ep. set (ts := tl (ptrs t)) in *. rewrite Ep in L. cbn [length] in L.
  pose proof (find_descend x par prv nxt t [] (root t) ts element attr None W Ep ltac:(done)) as Fd.
  destruct (index_fill_eq x par prv nxt t element attr W Hal (S (S (size (x_heap x)))) ts [root t] (mkIndex attr 0 0 []) Ep ltac:(lia)) as (al & E).
  destruct element as [e|]; [|destruct attr as [at'|]];
    try (exists al; intros g; rewrite (bind_Ret _ _ _ _ _ Fd); erewrite bind_Ret by reflexivity; now rewrite (bind_Ret _ _ _ _ _ E)).
  destruct (index_fill_step x par prv nxt t None None [] (root t) ts (S (size (x_heap x))) (mkIndex None 0 0 []) W Hal Ep) as (al1 & E1).
  destruct (index_fill_eq x par prv nxt t None None W Hal (S (size (x_heap x))) ts [root t] (mkIndex None al1 0 [root t]) Ep ltac:(lia)) as (al2 & E2).
  exists al2. intros g. erewrite bind_Ret by reflexivity. erewrite bind_Ret by reflexivity. now rewrite (bind_Ret _ _ _ _ _ (eq_trans E1 E2)).
Qed.

Lemma mxmlIndexNew_eq x par prv nxt t element attr :
  wf x par prv nxt t -> x_allocs x = [] -> Forall (keyed attr x) (indexed x t element attr) ->
  exists al l, mxmlIndexNew (root t) element attr x = Ret (Some (mkIndex attr al 0 l)) x
    /\ l ≡ₚ indexed x t element attr /\ StronglySorted (le (node_cmp attr x)) l.
Proof.
  intros W Hal K. destruct (rep_root _ _ _ _ _ (wf_rep _ _ _ _ _ W)) as (Hr & _). destruct (indexed_then (B := option mxml_index_t) x par prv nxt t element attr W Hal) as (al & F).
  exists al. unfold mxmlIndexNew. rewrite (proj2 (Z.eqb_neq _ NULL) Hr), (bind_Ret _ _ _ _ _ (granted_eq x Hal)). cbn [negb].
  assert (A : (match attr with Some attr => strdup attr | None => ret None end) x = Ret attr x).
  { destruct attr; [|done]. unfold strdup. now rewrite (bind_Ret _ _ _ _ _ (granted_eq x Hal)). }
  rewrite (bind_Ret _ _ _ _ _ A), F. clear F A. set (ps := indexed x t element attr) in *. unfold num_nodes. cbn [i_nodes i_attr].
  destruct (Z.ltb_spec 1 (Z.of_nat (length ps))) as [H|H].
  - destruct (index_sort_eq attr x (keyed attr x) (node_cmp attr x) (index_compare_eq attr x) (node_cmp_total attr x) (node_cmp_trans attr x)
      (length ps) 0 (Z.of_nat (length ps) - 1) ps K) as (l & E & Wl & S); [lia|lia|lia|]. rewrite (bind_Ret _ _ _ _ _ E). exists l. split; [reflexivity|].
    split; [exact (w_perm _ _ _ _ Wl)|]. apply sorted_Strongly. now rewrite (within_length _ _ _ _ Wl).
  - exists ps. split; [done|]. split; [done|]. destruct ps as [|p [|q ps]]; [constructor|constructor; constructor|cbn [length] in H; lia].
Qed.

(** ** Searching with an index *)

(** A look-up finds the nodes of an index that a search for the name and the value does. *)
Lemma find_cmp_matching x attr e v p :
  keyed attr x p -> nonul e -> (forall u, v = Some u -> nonul u) -> (attr = None -> v = None) ->
  (find_cmp (Some e) v (key_at attr x p) =? 0) = matching x (Some e) attr v p.
Proof.
  intros (Hp & k & Ek & Pk) He Hv Ha. unfold key_at. rewrite Ek. change (default ([], []) (Some k)) with k. revert Ek. unfold node_key, matching. destruct (x_heap x !! p) as [n|]; [|done].
  cbn [mbind option_bind]. unfold key_of, matches. destruct (value n) as [|[f|] attrs| | | | |]; try done.
  assert (S : forall f, nonul f -> (strcmp e f =? 0) = streq f e).
  { intros f' Hf. unfold streq. rewrite (strcmp_opp f' e) by done. destruct (Z.eqb_spec (- strcmp f' e) 0), (Z.eqb_spec (strcmp f' e) 0); (lia || done). }
  destruct attr as [a|].
  - destruct (List.find (has_name a) attrs) as [[an [u|]]|]; try done. intros [= <-]. destruct Pk as [Pf Pu]. cbn [fst snd] in *. unfold find_cmp, then_. cbn [fst snd].
    rewrite <- (S f Pf). destruct (strcmp e f =? 0) eqn:E; cbn [negb andb]; [|exact E]. now destruct v.
  - intros [= <-]. destruct Pk as [Pf _]. rewrite (Ha eq_refl). unfold find_cmp, then_. cbn [fst snd] in *. rewrite <- (S f Pf).
    destruct (strcmp e f =? 0) eqn:E; cbn [negb andb]; [done|exact E].
Qed.

Lemma filter_perm (f : Z -> bool) l l' : l ≡ₚ l' -> List.filter f l ≡ₚ List.filter f l'.
Proof.
  induction 1 as [|a l l' _ IH|a b l|l l' l'' _ IH1 _ IH2]; cbn [List.filter]; [done| | |now rewrite IH1].
  - destruct (f a); [now apply perm_skip|exact IH].
  - destruct (f a), (f b); try done. apply perm_swap.
Qed.

(** C22: when no allocation fails and every element in question has a name and, if there is
    an attribute, a value of it, both C strings, [mxmlIndexNew] gives an index of the elements with the name and the attribute, in the
    order of their names and the values of the attribute, none lost or taken twice; and
    repeated calls of [mxmlIndexFind] with a name, and a value if there is an attribute,
    give the elements that a search through the whole tree would find, each once, and then
    the null pointer. *)
Theorem index_search x par prv nxt t element attr :
  wf x par prv nxt t -> x_allocs x = [] -> Forall (keyed attr x) (indexed x t element attr) ->
  exists i, mxmlIndexNew (root t) element attr x = Ret (Some i) x
    /\ i_nodes i ≡ₚ indexed x t element attr /\ StronglySorted (le (node_cmp attr x)) (i_nodes i)
    /\ forall e v, nonul e -> (forall u, v = Some u -> nonul u) -> (attr = None -> v = None) ->
       exists l, find_all (S (length l)) (Some i) (Some e) v x = Ret l x
         /\ l ≡ₚ List.filter (matching x (Some e) attr v) (indexed x t element attr).
Proof.
  intros W Hal K. destruct (mxmlIndexNew_eq x par prv nxt t element attr W Hal K) as (al & l & E & P & S). eexists. split; [exact E|]. split; [exact P|]. split; [exact S|].
  intros e v He Hv Ha. assert (K' : Forall (keyed attr x) l) by now rewrite P.
  pose proof (find_all_sorted x (mkIndex attr al 0 l) e v S K' eq_refl He Hv Ha) as F. cbn zeta in F. cbn [i_attr i_nodes] in F. eexists. split; [exact F|].
  rewrite (filter_ext_in _ (matching x (Some e) attr v)); [now apply filter_perm|]. intros p Hp%list_elem_of_In. rewrite Forall_forall in K'.
  now apply find_cmp_matching; [apply K'| | |].
Qed.

(** *** An example *)

Definition demo_k (v : string) : list mxml_attr_t := [mkAttr (str "k") (Some (str v))].
Definition demo_index_tree : ptree :=
  PT 1 (Element (Some (str "r")) [])
    [PT 2 (Element (Some (str "b")) (demo_k "1")) []; PT 3 (Element (Some (str "a")) (demo_k "2")) []; PT 4 (Element (Some (str "b")) (demo_k "1")) []].
Definition demo_index_xml : xml :=
  mkXml (<[1 := mkNode 0 0 0 2 4 (Element (Some (str "r")) []) 1]>
    (<[2 := mkNode 3 0 1 0 0 (Element (Some (str "b")) (demo_k "1")) 1]>
    (<[3 := mkNode 4 2 1 0 0 (Element (Some (str "a")) (demo_k "2")) 1]>
    {[4 := mkNode 0 3 1 0 0 (Element (Some (str "b")) (demo_k "1")) 1]}))) 5 [] false 0 [].

Lemma demo_index_wf : wf demo_index_xml NULL NULL NULL demo_index_tree.
Proof.
  split.
  - split; [done|]. intros p [n H]. cbn in H. repeat (apply lookup_insert_Some in H as [[<- _]|[_ H]]; [done|]). apply lookup_singleton_Some in H as [<- _]. done.
  - apply (bool_decide_unpack _). now vm_compute.
  - repeat (split; [first [done|now exists 1]|]). repeat (first [split|done|now exists 1]).
Qed.

Lemma demo_indexed_keyed : Forall (keyed (Some (str "k")) demo_index_xml) (indexed demo_index_xml demo_index_tree None (Some (str "k"))).
Proof.
  change (indexed _ _ _ _) with [2; 3; 4]. repeat constructor; try done; eexists; (split; [reflexivity|]); split; repeat constructor; discriminate.
Qed.

Lemma index_search_witness :
  exists i, mxmlIndexNew 1 None (Some (str "k")) demo_index_xml = Ret (Some i) demo_index_xml /\ i_nodes i ≡ₚ [2; 3; 4]
    /\ exists l, find_all (S (length l)) (Some i) (Some (str "b")) None demo_index_xml = Ret l demo_index_xml /\ l ≡ₚ [2; 4].
Proof.
  destruct (index_search demo_index_xml NULL NULL NULL demo_index_tree None (Some (str "k")) demo_index_wf eq_refl demo_indexed_keyed) as (i & E & P & _ & F).
  exists i. split; [exact E|]. split; [exact P|]. destruct (F (str "b") None) as (l & El & Pl); [repeat constructor; discriminate|done|done|]. now exists l.
Defined.

(** Without a name the look-up goes through the index as if it were in the order of the
    values: the node 3, the first one, has the value but is not found. *)
Example value_lookup_misses :
  exists i, mxmlIndexNew 1 None (Some (str "k")) demo_index_xml = Ret (Some i) demo_index_xml /\ hd_error (i_nodes i) = Some 3
    /\ matching demo_index_xml None (Some (str "k")) (Some (str "2")) 3 = true
    /\ find_all 1 (Some i) None (Some (str "2")) demo_index_xml = Ret [] demo_index_xml.
Proof. eexists. split; [vm_compute; reflexivity|]. repeat split. Qed.

(** ** The life of an index *)

Lemma through_eq ind op s i r i' x' :
  ind <> NULL -> is_tab s !! ind = Some i -> op (Some i) (is_xml s) = Ret (r, Some i') x' ->
  through ind op s = Ret r (mkIndices x' (<[ind := i']> (is_tab s)) (is_next s)).
Proof.
  intros Hn Hi E. unfold through, index_at. rewrite (proj2 (Z.eqb_neq _ _) Hn). unfold bind, get, in_xml. cbn [obind].
  rewrite Hi. cbn [deref ret obind]. rewrite E. reflexivity.
Qed.

Lemma through_dead ind op s : ind <> NULL -> is_tab s !! ind = None -> through ind op s = Fault.
Proof. intros Hn Hi. unfold through, index_at. rewrite (proj2 (Z.eqb_neq _ _) Hn). unfold bind, get. cbn [obind]. now rewrite Hi. Qed.

(** The matches that repeated calls of [mxmlIndexFind] give through a pointer. *)
Fixpoint find_all_at (fuel : nat) (ind : Z) (element v : option bytes) : prog indices (list Z) :=
  match fuel with
  | O => spin
  | S fuel =>
      let* p := through ind (fun o => mxmlIndexFind o element v) in
      if p =? NULL then ret []
      else let* l := find_all_at fuel ind element v in ret (p :: l)
  end.

Lemma mxmlIndexFind_Some i element v x r o x' :
  mxmlIndexFind (Some i) element v x = Ret (r, o) x' -> exists i', o = Some i'.
Proof.
  assert (Y : forall k y, yield k i y = Ret (r, o) x' -> exists i', o = Some i').
  { intros k y H. unfold yield in H. apply bind_Ret_inv in H as (p & y1 & _ & H). injection H as _ <- _. eauto. }
  assert (X : forall y, exhausted i y = Ret (r, o) x' -> exists i', o = Some i') by (intros y H; injection H as _ <- _; eauto).
  assert (N : forall y, ret (NULL, Some i) y = Ret (r, o) x' -> exists i', o = Some i') by (intros y H; injection H as _ <- _; eauto).
  assert (En : forall y, mxmlIndexEnum (Some i) y = Ret (r, o) x' -> exists i', o = Some i').
  { intros y H. unfold mxmlIndexEnum in H. destruct (_ <? _); eauto. }
  unfold mxmlIndexFind. destruct (match i_attr i, v with None, Some _ => true | _, _ => false end); [apply N|].
  assert (B : (if num_nodes i =? 0 then ret (NULL, Some i)
     else if i_cur_node i =? 0 then
       let* r := bisect i element v (length (i_nodes i)) 0 (num_nodes i - 1) in
       match r with
       | inl current => let* k := back_up i element v (S (length (i_nodes i))) current in yield k i
       | inr (first, last) =>
           let* o := scan_matches i element v 3 first last in
           match o with Some k => yield k i | None => exhausted i end
       end
     else if i_cur_node i <? num_nodes i then
       let* d := find_at i element v (i_cur_node i) in
       if d =? 0 then yield (i_cur_node i) i else exhausted i
     else exhausted i) x = Ret (r, o) x' -> exists i', o = Some i').
  { destruct (num_nodes i =? 0); [apply N|]. destruct (i_cur_node i =? 0).
    - intros ([current|[first last]] & y & _ & H)%bind_Ret_inv.
      + apply bind_Ret_inv in H as (k & y1 & _ & H). eauto.
      + apply bind_Ret_inv in H as ([k|] & y1 & _ & H); eauto.
    - destruct (_ <? _); [|apply X]. intros (d & y & _ & H)%bind_Ret_inv. destruct (d =? 0); eauto. }
  destruct element, v; try exact B. apply En.
Qed.

Lemma find_all_at_eq ind element v : ind <> NULL -> forall fuel i s l x',
  is_tab s !! ind = Some i -> find_all fuel (Some i) element v (is_xml s) = Ret l x' ->
  exists i', find_all_at fuel ind element v s = Ret l (mkIndices x' (<[ind := i']> (is_tab s)) (is_next s)).
Proof.
  intros Hn. induction fuel as [|fuel IH]; intros i s l x' Hi E; cbn [find_all find_all_at] in *; [done|].
  apply bind_Ret_inv in E as ([p o] & x1 & E1 & E). destruct (mxmlIndexFind_Some _ _ _ _ _ _ _ E1) as [i1 ->].
  rewrite (bind_Ret _ _ _ _ _ (through_eq ind _ s i p i1 x1 Hn Hi E1)). destruct (p =? NULL).
  - injection E as <- <-. eauto.
  - apply bind_Ret_inv in E as (ps & x2 & E2 & E). injection E as <- <-.
    destruct (IH i1 (mkIndices x1 (<[ind := i1]> (is_tab s)) (is_next s)) ps x2 (lookup_insert_eq _ _ _) E2) as (i2 & E3).
    rewrite (bind_Ret _ _ _ _ _ E3). cbn [is_tab is_next]. rewrite insert_insert_eq. unfold ret. eauto.
Qed.

(** An index is made, searched and deleted through its address: it gives what the value
    gives ([index_search]), the other indices and the tree stay as they are, and a use or a
    second deletion afterwards is undefined. *)
Lemma index_life s node element attr i e v fuel l :
  mxmlIndexNew node element attr (is_xml s) = Ret (Some i) (is_xml s) ->
  find_all fuel (Some i) e v (is_xml s) = Ret l (is_xml s) ->
  is_next s <> NULL -> is_tab s !! is_next s = None ->
  let ind := is_next s in
  exists s1 s2 s3, index_new node element attr s = Ret ind s1
    /\ find_all_at fuel ind e v s1 = Ret l s2
    /\ mxmlIndexDelete ind s2 = Ret tt s3
    /\ is_tab s3 = is_tab s /\ is_xml s3 = is_xml s
    /\ (forall op, through ind op s3 = Fault) /\ mxmlIndexDelete ind s3 = Fault.
Proof.
  intros E1 E2 Hn Hf ind. fold ind in Hn, Hf. set (s1 := mkIndices (is_xml s) (<[ind := i]> (is_tab s)) (ind + 1)).
  destruct (find_all_at_eq ind e v Hn fuel i s1 l (is_xml s) (lookup_insert_eq _ _ _) E2) as (i' & E3).
  exists s1. eexists _, _. split; [unfold index_new, bind, in_xml; now rewrite E1|]. split; [exact E3|].
  cbn [s1 is_tab is_next]. rewrite insert_insert_eq. split.
  - unfold mxmlIndexDelete, index_at. rewrite (proj2 (Z.eqb_neq _ _) Hn). unfold bind, get. cbn [obind is_tab]. rewrite lookup_insert_eq. reflexivity.
  - cbn [is_tab is_xml set_is_tab]. rewrite delete_insert_eq, delete_id by done. split; [done|]. split; [done|]. split.
    + intros op. now apply through_dead.
    + unfold mxmlIndexDelete, index_at. rewrite (proj2 (Z.eqb_neq _ _) Hn). unfold bind, get. cbn [obind is_tab]. cbn [is_tab set_is_tab]. now rewrite Hf.
Qed.
