(* ===== verification/Mxmlsafe.v ===== *)
(** * The loader on any string

    [XmlLoadString] is given whatever another process sent.  As long as no allocation fails
    it returns, makes no invalid access, frees nothing twice, and leaves a well-formed
    document or none.  When the buffer cannot grow it is freed twice.  First the loops that only read, then the tree that grows; both
    for any source that keeps the promise [Good_source]. *)

From Stdlib Require Import ZArith Lia Bool List Ascii String.
From stdpp Require Import base list gmap.
From S2P Require Import Prelude Cstr Mxmlentity Mxmltree Xml Xmlpath Xmldoc Mxmlsave Mxmlload Mxmltext Mxmlread.

Section Reading.
Context {T : Type} `{Src : Source T}.
Implicit Types o : loader T.

(** ** Programs that return *)

Definition ends {A} (m : prog (loader T) A) (o : loader T) (Q : A -> loader T -> Prop) : Prop := exists a o', m o = Ret a o' /\ Q a o'.

Lemma ends_ret {A} (a : A) o (Q : A -> loader T -> Prop) : Q a o -> ends (ret a) o Q.
Proof. intros H. now exists a, o. Qed.

Lemma ends_bind {A B} (m : prog (loader T) A) (k : A -> prog (loader T) B) o Q R :
  ends m o Q -> (forall a o', Q a o' -> ends (k a) o' R) -> ends (bind m k) o R.
Proof. intros (a & o' & E & H) K. destruct (K a o' H) as (b & o2 & E2 & H2). exists b, o2. split; [|exact H2]. now rewrite (bind_Ret _ _ _ _ _ E). Qed.

Lemma ends_weaken {A} (m : prog (loader T) A) o (Q R : A -> loader T -> Prop) : ends m o Q -> (forall a o', Q a o' -> R a o') -> ends m o R.
Proof. intros (a & o' & E & H) K. exists a, o'. split; [exact E|now apply K]. Qed.

Lemma ends_in_xml {A} (m : prog xml A) o a x' Q : m (o_xml o) = Ret a x' -> Q a (mkLoader x' (o_source o)) -> ends (in_xml m) o Q.
Proof. intros E H. exists a. eexists. split; [|exact H]. unfold in_xml. now rewrite E. Qed.

Definition left_in (o : loader T) : nat := unread (o_source o).

Lemma loop_ends {V R} (body : V -> prog (loader T) (V + R)) (I : V -> loader T -> Prop) (mu : V -> loader T -> nat) (Q : R -> loader T -> Prop) :
  (forall v o, I v o -> ends (body v) o (fun r o' => match r with inl v' => I v' o' /\ (mu v' o' < mu v o)%nat | inr r => Q r o' end)) ->
  forall fuel v o, I v o -> (mu v o < fuel)%nat -> ends (loop fuel body v) o Q.
Proof.
  intros H fuel. induction fuel as [|fuel IH]; intros v o Hv Hf; [lia|]. cbn [loop].
  apply (ends_bind _ _ _ _ _ (H v o Hv)). intros [v'|r] o' Hr; [|now apply ends_ret]. destruct Hr as [Hv' Hm]. apply IH; [exact Hv'|lia].
Qed.

(** ** What reading leaves *)

Definition same_nodes (x x' : xml) : Prop := x_heap x' = x_heap x /\ x_brk x' = x_brk x /\ x_allocs x' = x_allocs x.

(** Nothing has happened to the tree, and no more is left of the string. *)
Definition after (o o' : loader T) : Prop := same_nodes (o_xml o) (o_xml o') /\ (left_in o' <= left_in o)%nat.

Lemma after_refl o : after o o.
Proof. split; [now split|lia]. Qed.

Lemma after_trans o1 o2 o3 : after o1 o2 -> after o2 o3 -> after o1 o3.
Proof. unfold after, same_nodes. intuition (congruence || lia). Qed.

(** An element with a name, or no node. *)
Definition named_at (x : xml) (node : Z) : Prop :=
  node = NULL \/ exists n e attrs, x_heap x !! node = Some n /\ value n = Element (Some e) attrs.

(** Allocations succeed, and [node] can be named in a message. *)
Definition able (node : Z) (o : loader T) : Prop := x_allocs (o_xml o) = [] /\ named_at (o_xml o) node.

Lemma able_after node o o' : able node o -> after o o' -> able node o'.
Proof. unfold able, named_at. intros [H1 H2] [(E1 & E2 & E3) _]. rewrite E1, E3. now split. Qed.

Lemma able_null node o : able node o -> able NULL o.
Proof. intros [H _]. split; [exact H|now left]. Qed.

Definition usable (b : strbuf) : Prop := exists t, buf t b.

Lemma usable_clear b : usable b -> usable (clear b).
Proof. intros [t H]. exists []. exact (buf_clear t b H). Qed.

Lemma load_error_ends s o : ends (load_error s) o (fun _ => after o).
Proof.
  unfold load_error, ends, in_xml, mxml_error, XmlSaveError, bind, get. cbn [obind].
  destruct (x_callback (o_xml o)); cbn; do 2 eexists; (split; [reflexivity|]); (split; [now split|unfold left_in; cbn; lia]).
Qed.

Lemma element_name_ends null node o : able node o -> ends (element_name null node) o (fun _ => after o).
Proof.
  intros [_ H]. unfold element_name. destruct (Z.eqb_spec node NULL) as [|E0]; [apply ends_ret, after_refl|].
  destruct H as [|(n & e & attrs & En & Ev)]; [contradiction|].
  apply (ends_bind _ _ _ (fun a o' => a = n /\ o' = o)).
  - eapply ends_in_xml; [unfold node_at; rewrite En; reflexivity|]. now destruct o.
  - intros a o' [-> ->]. rewrite Ev. apply ends_ret, after_refl.
Qed.

(** Messages: nothing but the text of the last error changes. *)
Lemma error_at_ends node a b o : able node o -> ends (error_at node a b) o (fun _ => after o).
Proof.
  intros H. unfold error_at. eapply ends_bind; [apply element_name_ends, H|]. intros e o1 H1.
  eapply ends_weaken; [apply load_error_ends|]. intros ? o2. now apply after_trans.
Qed.

Lemma element_error_ends node a b o : able node o -> ends (element_error node a b) o (fun _ => after o).
Proof.
  intros H. unfold element_error. eapply ends_bind; [apply element_name_ends, H|]. intros e o1 H1.
  eapply ends_weaken; [apply load_error_ends|]. intros ? o2. now apply after_trans.
Qed.

(** A message and then a result. *)
Lemma error_then {A} (m : prog (loader T) unit) (a : A) o : ends m o (fun _ => after o) -> ends (m ;;; ret a) o (fun r o' => after o o' /\ r = a).
Proof. intros H. eapply ends_bind; [exact H|]. intros ? o' H'. now apply ends_ret. Qed.

End Reading.

(** What a source promises to the loader: the next character is none of the bad ones, or
    the source has ended. *)
Class Good_source (T : Type) {Src : Source T} : Prop :=
  getc_ends (o : loader T) : ends getc o (fun ch o' => after o o' /\ (ch <> EOF -> mxml_bad_char ch = false /\ (left_in o' < left_in o)%nat)).

#[export] Instance string_good : Good_source bytes.
Proof.
  intros o. destruct o as [x [|c s]]; cbn [getc string_source]; unfold mxml_string_getc.
  - eexists _, _. split; [reflexivity|]. split; [apply after_refl|]. now intros [].
  - set (o := mkLoader x (c :: s)). set (o1 := mkLoader x s). assert (H1 : after o o1) by (split; [now split|cbn; lia]).
    destruct (mxml_bad_char (uchar c)) eqn:B.
    + destruct (error_then (load_error (str "Bad control character 0x" ++ fmt_02x_int (uchar c) ++ str " not allowed by XML standard!")) EOF o1) as (a & o2 & E & H2 & ->);
        [apply load_error_ends|]. exists EOF, o2. split; [|split; [now apply (after_trans _ o1)|now intros []]].
      erewrite bind_Ret by reflexivity. cbn [o_source o]. erewrite bind_Ret by reflexivity. rewrite B. exact E.
    + exists (uchar c), o1. split; [|split; [exact H1|intros _; split; [exact B|cbn; lia]]].
      erewrite bind_Ret by reflexivity. cbn [o_source o]. erewrite bind_Ret by reflexivity. now rewrite B.
Qed.

Section Safe.
Context {T : Type} `{Src : Source T} {Good : Good_source T}.
Implicit Types o : loader T.

(** A loop over the characters. *)
Lemma while_getc_ends {V R} (body : Z -> V -> prog (loader T) (V + R)) at_eof (I : V -> loader T -> Prop) (Q : R -> loader T -> Prop) v o :
  (forall v o1 ch o2, I v o1 -> after o1 o2 ->
    (ch = EOF -> Q (at_eof v) o2)
    /\ (ch <> EOF -> mxml_bad_char ch = false ->
        ends (body ch v) o2 (fun r o' => match r with inl v' => I v' o' /\ (left_in o' <= left_in o2)%nat | inr r => Q r o' end))) ->
  I v o -> ends (while_getc body at_eof v) o Q.
Proof.
  intros H Hv. unfold while_getc, while_. apply (ends_bind _ _ _ (fun s o' => s = o_source o' /\ o' = o)); [now exists (o_source o), o|]. intros s o' [-> ->].
  apply (loop_ends _ I (fun _ o => left_in o)); [|exact Hv|unfold left_in; lia].
  clear v o Hv. intros v o Hv. unfold each_char. eapply ends_bind; [apply getc_ends|]. cbn beta. intros ch o2 [Ha Hl].
  destruct (H v o ch o2 Hv Ha) as [He Hb]. destruct (Z.eqb_spec ch EOF) as [E|E]; [apply ends_ret; now apply He|].
  destruct (Hl E) as [Hc Hlt]. eapply ends_weaken; [exact (Hb E Hc)|]. intros [v'|r] o' Hr; [|exact Hr]. destruct Hr as [Hr1 Hr2]. split; [exact Hr1|lia].
Qed.

(** The same for a loop that only reads. *)
Lemma while_getc_reads {V R} node (body : Z -> V -> prog (loader T) (V + R)) at_eof (I : V -> Prop) (P : R -> Prop) v o :
  (forall v ch o, able node o -> I v -> ch <> EOF -> mxml_bad_char ch = false ->
    ends (body ch v) o (fun r o' => after o o' /\ match r with inl v' => I v' | inr r => P r end)) ->
  (forall v, I v -> P (at_eof v)) -> able node o -> I v ->
  ends (while_getc body at_eof v) o (fun r o' => after o o' /\ P r).
Proof.
  intros H He Ho Hv. apply (while_getc_ends _ _ (fun v o' => after o o' /\ I v)); [|split; [apply after_refl|exact Hv]].
  clear v Hv. intros v o1 ch o2 [Ha Hv] Hg. pose proof (after_trans _ _ _ Ha Hg) as Ha2. split; [intros _; split; [exact Ha2|now apply He]|].
  intros Hc Hb. eapply ends_weaken; [apply (H v ch o2); [now apply (able_after _ o)|exact Hv|exact Hc|exact Hb]|].
  intros [v'|r] o' [Hr1 Hr2]; pose proof (after_trans _ _ _ Ha2 Hr1) as Hr; [|now split].
  split; [now split|apply Hr1].
Qed.

(** ** Buffers *)

Lemma char_bytes_length ch : (1 <= length (char_bytes ch) <= 4)%nat.
Proof.
  unfold char_bytes, utf8. destruct (_ || _); [cbn; lia|]. destruct (ch <? 128); [cbn; lia|]. destruct (ch <? 2048); [cbn; lia|].
  destruct (ch <? 65536); cbn; lia.
Qed.

Lemma add_char_ends ch b o :
  x_allocs (o_xml o) = [] -> usable b -> ends (mxml_add_char ch b) o (fun r o' => o' = o /\ fst r = 0 /\ usable (snd r)).
Proof.
  intros Hal [t (H1 & H2 & H3 & H4)]. pose proof (char_bytes_length ch) as L. unfold mxml_add_char, store. rewrite H3. cbn [b_text b_size b_live].
  unfold len in *. rewrite length_app. destruct (Z.leb_spec (b_size b - 4) (Z.of_nat (length t))) as [Hg|Hg].
  - destruct o as [x s]. eexists _, _. split.
    { rewrite (bind_Ret _ _ _ _ _ (in_xml_Ret _ _ s _ _ (granted_eq x Hal))). set (size := if b_size b <? 1024 then _ else _).
      rewrite (proj2 (Z.leb_le _ size)) by (unfold size; destruct (b_size b <? 1024); lia). reflexivity. }
    split; [done|]. split; [done|]. exists (t ++ char_bytes ch). unfold buf, len. cbn [snd b_live b_size b_text]. rewrite length_app.
    repeat split; [exact H1| |]; destruct (b_size b <? 1024); lia.
  - eexists _, _. split; [rewrite (proj2 (Z.leb_le _ (b_size b))) by lia; reflexivity|].
    split; [done|]. split; [done|]. exists (t ++ char_bytes ch). unfold buf, len. cbn [snd b_live b_size b_text]. rewrite length_app.
    repeat split; [exact H1|lia|lia].
Qed.

Lemma start_ends ch b o : usable b -> ends (start ch b) o (fun b o' => o' = o /\ usable b).
Proof.
  intros [t (H1 & H2 & H3 & H4)]. unfold start, store. cbn [clear b_text app b_size b_live]. unfold len. cbn [length].
  rewrite (proj2 (Z.leb_le _ (b_size b))) by lia. eexists _, _. split; [reflexivity|]. split; [done|]. exists [to_char ch].
  unfold buf, len. cbn [b_live b_size b_text length]. repeat split; (exact H1 || lia).
Qed.

Lemma terminate_ends b o : usable b -> ends (terminate b) o (fun _ o' => o' = o).
Proof. intros [t H]. exists tt, o. split; [exact (terminate_eq t b o H)|done]. Qed.

Lemma free_ends b o : usable b -> ends (free_buf b) o (fun _ o' => o' = o).
Proof. intros [t H]. exists tt, o. split; [exact (free_buf_eq t b o H)|done]. Qed.

Lemma malloc_usable : usable (mkBuf [] 64 true).
Proof. exists []. repeat split; cbn; lia. Qed.

(** ** Entities *)

Lemma read_entity_ends node o : able node o -> ends (read_entity node) o (fun _ => after o).
Proof.
  intros H. unfold read_entity. eapply ends_weaken; [apply (while_getc_reads node _ _ (fun _ => True) (fun _ => True)); [|done|exact H|done]|].
  2:{ intros r o' [Ha _]. exact Ha. }
  clear o H. intros v ch o H _ _ _. destruct (_ || _); [apply ends_ret; split; [apply after_refl|done]|].
  destruct (_ <? _); [apply ends_ret; split; [apply after_refl|done]|].
  eapply ends_weaken; [apply error_then, error_at_ends, H|]. intros r o' [Ha ->]. now split.
Qed.

Lemma get_entity_ends node o : able node o -> ends (mxml_get_entity node) o (fun _ => after o).
Proof.
  intros H. unfold mxml_get_entity. eapply ends_bind; [apply read_entity_ends, H|]. intros [ch entity] o1 H1. pose proof (able_after _ _ _ H H1) as A1.
  destruct (negb _).
  { eapply ends_weaken; [apply error_then, error_at_ends, A1|]. intros r o2 [Ha _]. now apply (after_trans _ o1). }
  assert (E : ends (match entity with
      | "#"%char :: "x"%char :: s => ret (i32 (strtol16 s))
      | "#"%char :: s => ret (i32 (atol s))
      | _ => let* ch := deref (mxmlEntityGetValue entity) in
             when (ch <? 0) (error_at node (str "Entity name " ++ quoted (entity ++ str ";") ++ str " not supported under") (str "!")) ;;; ret ch
      end) o1 (fun _ => after o1)).
  { assert (D : ends (let* ch := deref (mxmlEntityGetValue entity) in
             when (ch <? 0) (error_at node (str "Entity name " ++ quoted (entity ++ str ";") ++ str " not supported under") (str "!")) ;;; ret ch) o1 (fun _ => after o1)).
    { destruct (get_value_total entity) as [v ->]. cbn [deref]. eapply ends_bind; [now apply ends_ret with (Q := fun a o' => o' = o1)|]. intros a o2 ->.
      eapply ends_bind; [destruct (a <? 0); cbn [when]; [apply error_at_ends, A1|apply ends_ret, after_refl]|]. intros ? o2 Ha. now apply ends_ret. }
    repeat (match goal with |- ends (match ?s with _ => _ end) _ _ => destruct s end; try exact D; try (apply ends_ret, after_refl)). }
  eapply ends_bind; [exact E|]. intros c o2 H2. pose proof (after_trans _ _ _ H1 H2) as H12. pose proof (able_after _ _ _ H H12) as A2.
  destruct (mxml_bad_char c); [|now apply ends_ret].
  eapply ends_weaken; [apply error_then, error_at_ends, A2|]. intros r o3 [Ha _]. now apply (after_trans _ o2).
Qed.

(** ** Names, values and other text *)

(** A reader of text that leaves a usable buffer. *)
Definition reads_text (node : Z) (m : prog (loader T) (option Z * strbuf)) : Prop :=
  forall o, able node o -> ends m o (fun r o' => after o o' /\ usable (snd r)).

Lemma take_char_ends node ch b : usable b -> reads_text node (take_char node ch b).
Proof.
  intros Hb o H. unfold take_char. apply (ends_bind _ _ _ (fun _ => after o)).
  { destruct (_ =? _); [apply get_entity_ends, H|apply ends_ret, after_refl]. }
  intros c o1 H1. destruct (c =? EOF); [now apply ends_ret|].
  eapply ends_bind; [apply (add_char_ends c b o1); [apply (able_after _ _ _ H H1)|exact Hb]|]. intros [rc b'] o2 (-> & _ & Hb'). now apply ends_ret.
Qed.

(** A turn that takes a character and goes on, unless it failed. *)
Lemma take_turn {R} node ch b (r : strbuf -> R) (k : Z -> strbuf -> prog (loader T) (strbuf + R)) (P : R -> Prop) o :
  usable b -> able node o -> (forall b, usable b -> P (r b)) ->
  (forall c b o, usable b -> ends (k c b) o (fun r o' => after o o' /\ match r with inl b => usable b | inr r => P r end)) ->
  ends (let* (c, b) := take_char node ch b in match c with None => ret (inr (r b)) | Some c => k c b end) o
    (fun r o' => after o o' /\ match r with inl b => usable b | inr r => P r end).
Proof.
  intros Hb Ho Hr Hk. eapply ends_bind; [apply (take_char_ends node ch b Hb), Ho|]. intros [[c|] b'] o1 [H1 Hb']; cbn [snd] in Hb'.
  - eapply ends_weaken; [apply Hk, Hb'|]. intros x o2 [H2 Hx]. split; [now apply (after_trans _ o1)|exact Hx].
  - apply ends_ret. split; [exact H1|now apply Hr].
Qed.

Lemma take_until_ends stop node b : usable b -> reads_text node (take_until stop node b).
Proof.
  intros Hb o H. unfold take_until. apply (while_getc_reads node _ _ usable (fun r => usable (snd r))); [|done|exact H|exact Hb].
  clear b Hb o H. intros b ch o H Hb _ _. destruct (stop ch (b_text b)); [apply ends_ret; split; [apply after_refl|exact Hb]|].
  apply (take_turn node ch b (fun b => (None, b)) (fun _ b => ret (inl b)) (fun r => usable (snd r))); [exact Hb|exact H|done|].
  intros _ b' o' Hb'. apply ends_ret. split; [apply after_refl|exact Hb'].
Qed.

Lemma quoted_name_ends node quote b : usable b -> reads_text node (quoted_name node quote b).
Proof.
  intros Hb o H. unfold quoted_name. apply (while_getc_reads node _ _ usable (fun r => usable (snd r))); [|done|exact H|exact Hb].
  clear b Hb o H. intros b ch o H Hb _ _.
  apply (take_turn node ch b (fun b => (None, b)) (fun ch b => if ch =? quote then ret (inr (Some ch, b)) else ret (inl b)) (fun r => usable (snd r)));
    [exact Hb|exact H|done|].
  intros c b' o' Hb'. destruct (c =? quote); apply ends_ret; (split; [apply after_refl|exact Hb']).
Qed.

Lemma read_name_ends node ch b : usable b -> reads_text node (read_name node ch b).
Proof.
  intros Hb o H. unfold read_name. eapply ends_bind; [apply (start_ends ch b o Hb)|]. intros b' o' [-> Hb'].
  destruct (_ || _); [now apply quoted_name_ends|now apply take_until_ends].
Qed.

Lemma read_value_ends node ch b : usable b -> reads_text node (read_value node ch b).
Proof.
  intros Hb o H. unfold read_value. apply (ends_bind _ _ _ (fun r o' => after o o' /\ usable (snd r))).
  - destruct (_ || _); [now apply take_until_ends; [apply usable_clear|]|].
    eapply ends_bind; [apply (start_ends ch b o Hb)|]. intros b' o' [-> Hb']. now apply take_until_ends.
  - intros [[c|] b'] o1 [H1 Hb']; cbn [snd] in Hb'; [|now apply ends_ret].
    eapply ends_bind; [apply terminate_ends, Hb'|]. cbn beta. intros _ o2 ->. now apply ends_ret.
Qed.

Lemma read_tag_ends node b : usable b -> reads_text node (read_tag node b).
Proof.
  intros Hb o H. unfold read_tag. apply (while_getc_reads node _ _ usable (fun r => usable (snd r))); [|done|exact H|exact Hb].
  clear b Hb o H. intros b ch o H Hb _ _. destruct (_ || _); [apply ends_ret; split; [apply after_refl|exact Hb]|].
  destruct (is_ch "<"%char ch).
  { eapply ends_weaken; [apply error_then, load_error_ends|]. intros r o' [Ha ->]. now split. }
  apply (take_turn node ch b (fun b => (None, b)) (fun c b => if negb (is_ch "&"%char ch) && special_open (b_text b) then ret (inr (Some c, b)) else ret (inl b))
    (fun r => usable (snd r))); [exact Hb|exact H|done|].
  intros c b' o' Hb'. destruct (_ && _); apply ends_ret; (split; [apply after_refl|exact Hb']).
Qed.

Lemma gather_ends stop node b : usable b -> reads_text node (gather stop b).
Proof.
  intros Hb o H. unfold gather. apply (while_getc_reads node _ _ usable (fun r => usable (snd r))); [|done|exact H|exact Hb].
  clear b Hb o H. intros b ch o H Hb _ _. destruct (stop ch (b_text b)); [apply ends_ret; split; [apply after_refl|exact Hb]|].
  eapply ends_bind; [apply (add_char_ends ch b o); [apply H|exact Hb]|]. intros [rc b'] o2 (-> & E & Hb'). cbn [fst snd] in *. rewrite E.
  apply ends_ret. split; [apply after_refl|exact Hb'].
Qed.

Lemma gather_declaration_ends node ch b : usable b -> reads_text node (gather_declaration node ch b).
Proof.
  intros Hb o H. unfold gather_declaration, while_.
  apply (ends_bind _ _ _ (fun s o' => s = o_source o' /\ o' = o)); [now exists (o_source o), o|]. intros s o' [-> ->].
  apply (loop_ends _ (fun v o' => after o o' /\ usable (snd v)) (fun _ o => left_in o)); [|split; [apply after_refl|exact Hb]|unfold left_in; lia].
  clear ch b Hb. intros [ch b] o1 [H1 Hb]. cbn [snd] in Hb. pose proof (able_after _ _ _ H H1) as A1.
  destruct (is_ch ">"%char ch); [now apply ends_ret|]. apply (ends_bind _ _ _ (fun _ => after o1)).
  { destruct (is_ch "&"%char ch); [apply get_entity_ends, A1|apply ends_ret, after_refl]. }
  intros c o2 H2. pose proof (after_trans _ _ _ H1 H2) as H12. destruct (_ && _); [now apply ends_ret|].
  eapply ends_bind; [apply (add_char_ends c b o2); [apply (able_after _ _ _ A1 H2)|exact Hb]|]. intros [rc b'] o3 (-> & E & Hb'). cbn [fst snd] in *.
  rewrite E. cbn [negb Z.eqb]. eapply ends_bind; [apply getc_ends|]. cbn beta. intros c' o4 [H4 Hlt]. pose proof (after_trans _ _ _ H12 H4) as H14.
  destruct (Z.eqb_spec c' EOF) as [Ec|Ec]; apply ends_ret; [now split|]. split; [now split|]. destruct (Hlt Ec) as [_ Hl]. destruct H2 as [_ H2]. lia.
Qed.

(** Loops whose variable is the character. *)
Lemma char_loop_ends {R} (body : Z -> prog (loader T) (Z + R)) (go : Z -> bool) (r : Z -> R) ch o :
  (forall ch, body ch = if go ch then let* ch := getc in ret (inl ch) else ret (inr (r ch))) -> go EOF = false ->
  ends (while_ body ch) o (fun _ => after o).
Proof.
  intros Hb He. unfold while_. apply (ends_bind _ _ _ (fun s o' => s = o_source o' /\ o' = o)); [now exists (o_source o), o|]. intros s o' [-> ->].
  apply (loop_ends _ (fun _ => after o) (fun ch o => if ch =? EOF then 0%nat else S (left_in o))); [|apply after_refl|destruct (ch =? EOF); unfold left_in; lia].
  clear ch. intros ch o1 H1. rewrite Hb. destruct (go ch) eqn:G; [|now apply ends_ret].
  assert (Ec : (ch =? EOF) = false) by (apply Z.eqb_neq; intros ->; congruence). rewrite Ec.
  eapply ends_bind; [apply getc_ends|]. cbn beta. intros c o2 [H2 Hl]. apply ends_ret. split; [now apply (after_trans _ o1)|].
  destruct (Z.eqb_spec c EOF) as [|E]; [lia|]. destruct (Hl E) as [_ Hlt]. lia.
Qed.

Lemma skip_blanks_ends ch o : ends (skip_blanks ch) o (fun _ => after o).
Proof. apply (char_loop_ends _ mxml_isspace (fun c => c)); [now intros c; destruct (mxml_isspace c)|reflexivity]. Qed.

Lemma skip_tag_ends ch o : ends (skip_tag ch) o (fun _ => after o).
Proof.
  apply (char_loop_ends _ (fun ch => negb (is_ch ">"%char ch || (ch =? EOF))) (fun _ => tt)); [|reflexivity].
  intros c. now destruct (is_ch ">"%char c || (c =? EOF)).
Qed.

Lemma grab_end_ends node ch o : able node o -> ends (grab_end node ch) o (fun _ => after o).
Proof.
  intros H. unfold grab_end. eapply ends_bind; [apply getc_ends|]. cbn beta. intros q o1 [H1 _]. destruct (is_ch _ _); [now apply ends_ret|].
  eapply ends_weaken; [apply error_then, element_error_ends, (able_after _ _ _ H H1)|]. intros r o2 [H2 _]. now apply (after_trans _ o1).
Qed.

(** ** The attributes of an element *)

Lemma wf_same x y par prv nxt t : same_nodes x y -> wf x par prv nxt t -> wf y par prv nxt t.
Proof. intros (H1 & H2 & _). now apply wf_ext. Qed.

Lemma edit_same x y z t u : edit x y t u -> same_nodes y z -> edit x z t u.
Proof.
  intros [W R F N B] S. pose proof S as (H1 & H2 & _). split; [|exact R| |exact N|lia].
  - intros par prv nxt Wt. exact (wf_same y z _ _ _ _ S (W _ _ _ Wt)).
  - intros p Hp Hl. rewrite H1. now apply F.
Qed.

Lemma named_wf x par prv nxt p e attrs ts : wf x par prv nxt (PT p (Element (Some e) attrs) ts) -> named_at x p.
Proof. intros W. destruct (wf_node _ _ _ _ _ _ _ W) as (_ & rc & E). right. eexists _, e, attrs. split; [exact E|done]. Qed.

Section Attributes.
Context (node : Z) (e : bytes) (x0 : xml) (par prv nxt : Z) (n0 : nat).
Hypothesis (W : wf x0 par prv nxt (PT node (Element (Some e) []) [])).

Definition with_attrs (attrs : list mxml_attr_t) : ptree := PT node (Element (Some e) attrs) [].

(** The node has got some attributes, and at most [n0] characters are left. *)
Definition element_read (o : loader T) : Prop :=
  x_allocs (o_xml o) = [] /\ (left_in o <= n0)%nat /\ exists attrs, edit x0 (o_xml o) (with_attrs []) (with_attrs attrs).

Lemma element_read_after o o' : element_read o -> after o o' -> element_read o'.
Proof.
  intros (Hal & Hl & attrs & Ed) [S Hl']. split; [destruct S as (_ & _ & ->); exact Hal|]. split; [lia|]. exists attrs. exact (edit_same _ _ _ _ _ Ed S).
Qed.

Lemma element_read_able o : element_read o -> able node o.
Proof. intros (Hal & _ & attrs & Ed). split; [exact Hal|]. exact (named_wf _ _ _ _ _ _ _ _ (e_wf _ _ _ _ Ed _ _ _ W)). Qed.

Lemma set_attr_ends name v o : element_read o -> ends (in_xml (mxmlElementSetAttr node (Some name) (Some v))) o (fun _ o' => element_read o' /\ left_in o' = left_in o).
Proof.
  intros (Hal & Hl & attrs & Ed). destruct (set_attr_edit (o_xml o) _ _ _ _ _ _ _ name v (e_wf _ _ _ _ Ed _ _ _ W) Hal) as (x' & E & Ed' & V).
  eapply ends_in_xml; [exact E|]. split; [|done]. split; [cbn; destruct V; congruence|]. split; [exact Hl|]. exists (put_attr name v attrs).
  exact (edit_trans _ _ _ _ _ _ Ed Ed').
Qed.

Lemma get_attr_ends name o : element_read o -> ends (in_xml (mxmlElementGetAttr node (Some name))) o (fun _ o' => o' = o).
Proof.
  intros (_ & _ & attrs & Ed). eapply ends_in_xml; [exact (get_attr_eq _ _ _ _ _ _ _ _ name (e_wf _ _ _ _ Ed _ _ _ W))|]. now destruct o.
Qed.

(** What a turn of the loop leaves. *)
Definition turn_read (o : loader T) (r : (strbuf * strbuf) + (Z * strbuf * strbuf)) (o' : loader T) : Prop :=
  match r with
  | inl (b1, b2) => (usable b1 /\ usable b2 /\ element_read o') /\ (left_in o' <= left_in o)%nat
  | inr (_, b1, b2) => usable b1 /\ usable b2 /\ element_read o'
  end.

Lemma leave_ends ch b1 b2 o o1 : usable b1 -> usable b2 -> element_read o1 -> ends (ret (inr (ch, b1, b2))) o1 (turn_read o).
Proof. intros H1 H2 H. now apply ends_ret. Qed.

(** What follows the equals sign. *)
Lemma attr_value_ends name value o o1 :
  usable name -> usable value -> element_read o1 -> (left_in o1 <= left_in o)%nat ->
  ends (let* ch := getc in
        let* ch := skip_blanks ch in
        if ch =? EOF then missing_value node (b_text name) ;;; ret (inr (EOF, name, value))
        else
          let* (o, value) := read_value node ch value in
          match o with
          | None => ret (inr (EOF, name, value))
          | Some ch =>
              in_xml (mxmlElementSetAttr node (Some (b_text name)) (Some (b_text value))) ;;;
              if is_ch "/"%char ch || is_ch "?"%char ch then
                let* ok := grab_end node ch in ret (inr (if (ok : bool) then ch else EOF, name, value))
              else if is_ch ">"%char ch then ret (inr (ch, name, value))
              else ret (inl (name, value))
          end) o1 (turn_read o).
Proof.
  intros H1 H2 H Hl. eapply ends_bind; [apply getc_ends|]. cbn beta. intros c o2 [A2 _]. pose proof (element_read_after _ _ H A2) as R2.
  eapply ends_bind; [apply skip_blanks_ends|]. intros d o3 A3. pose proof (element_read_after _ _ R2 A3) as R3. pose proof (element_read_able _ R3) as Ab3.
  destruct (d =? EOF).
  { eapply ends_bind; [apply element_error_ends, Ab3|]. intros ? o4 A4. apply leave_ends; [exact H1|exact H2|exact (element_read_after _ _ R3 A4)]. }
  eapply ends_bind; [apply (read_value_ends node d value H2), Ab3|]. intros [[c'|] v'] o4 [A4 Hv']; cbn [snd] in Hv';
    pose proof (element_read_after _ _ R3 A4) as R4; [|now apply leave_ends].
  eapply ends_bind; [apply set_attr_ends, R4|]. cbn beta. intros _ o5 [R5 L5]. destruct (_ || _).
  - eapply ends_bind; [apply grab_end_ends, element_read_able, R5|]. intros ok o6 A6. apply leave_ends; [exact H1|exact Hv'|exact (element_read_after _ _ R5 A6)].
  - destruct (is_ch _ _); [now apply leave_ends|]. apply ends_ret. split; [now split|]. destruct A2 as [_ A2], A3 as [_ A3], A4 as [_ A4]. lia.
Qed.

Lemma parse_attr_ends ch name value o :
  usable name -> usable value -> element_read o -> ends (parse_attr node ch (name, value)) o (turn_read o).
Proof.
  intros H1 H2 H. pose proof (element_read_able o H) as Ab. unfold parse_attr.
  destruct (mxml_isspace ch); [apply ends_ret; now split|]. destruct (_ || _).
  { eapply ends_bind; [apply grab_end_ends, Ab|]. intros ok o1 A1. pose proof (element_read_after _ _ H A1). destruct ok; now apply leave_ends. }
  destruct (is_ch _ _).
  { eapply ends_bind; [apply element_error_ends, Ab|]. intros ? o1 A1. apply leave_ends; [exact H1|exact H2|exact (element_read_after _ _ H A1)]. }
  destruct (is_ch _ _); [now apply leave_ends|].
  eapply ends_bind; [apply (read_name_ends node ch name H1), Ab|]. intros [[c|] n'] o1 [A1 Hn']; cbn [snd] in Hn';
    pose proof (element_read_after _ _ H A1) as R1; [|now apply leave_ends].
  eapply ends_bind; [apply terminate_ends, Hn'|]. cbn beta. intros _ o2 ->. eapply ends_bind; [apply get_attr_ends, R1|]. cbn beta. intros [old|] o2 ->; [now apply leave_ends|].
  eapply ends_bind; [apply skip_blanks_ends|]. intros d o2 A2. pose proof (element_read_after _ _ R1 A2) as R2. destruct (negb _).
  { eapply ends_bind; [apply element_error_ends, element_read_able, R2|]. intros ? o3 A3. apply leave_ends; [exact Hn'|exact H2|exact (element_read_after _ _ R2 A3)]. }
  apply attr_value_ends; [exact Hn'|exact H2|exact R2|]. destruct A1 as [_ A1], A2 as [_ A2]. lia.
Qed.

Lemma malloc_ends o : x_allocs (o_xml o) = [] -> ends malloc64 o (fun r o' => o' = o /\ r = Some (mkBuf [] 64 true)).
Proof. intros H. destruct o as [x s]. eexists _, _. split; [exact (malloc64_eq x s H)|]. now split. Qed.

Lemma parse_element_ends o : element_read o -> ends (mxml_parse_element node) o (fun _ => element_read).
Proof.
  intros H. unfold mxml_parse_element. eapply ends_bind; [apply malloc_ends, H|]. cbn beta. intros r o1 [-> ->]. cbn match.
  eapply ends_bind; [apply malloc_ends, H|]. cbn beta. intros r o1 [-> ->]. cbn match.
  apply (ends_bind _ _ _ (fun r o' => usable (snd (fst r)) /\ usable (snd r) /\ element_read o')).
  - apply (while_getc_ends _ _ (fun b o' => usable (fst b) /\ usable (snd b) /\ element_read o')); [|split; [apply malloc_usable|split; [apply malloc_usable|exact H]]].
    intros [b1 b2] o1 ch o2 (H1 & H2 & R1) A. cbn [fst snd] in *. pose proof (element_read_after _ _ R1 A) as R2. split; [now intros _|]. intros _ _.
    eapply ends_weaken; [apply (parse_attr_ends ch b1 b2 o2); assumption|]. intros [[c1 c2]|[[c d1] d2]] o3 Ht; exact Ht.
  - intros [[ch b1] b2] o1 (H1 & H2 & R1). cbn [fst snd] in *. eapply ends_bind; [apply free_ends, H1|]. cbn beta. intros _ o2 ->.
    eapply ends_bind; [apply free_ends, H2|]. cbn beta. intros _ o2 ->. now apply ends_ret.
Qed.
End Attributes.

(** ** The trees under construction *)

Inductive inside (u : ptree) : ptree -> Prop :=
  | inside_here : inside u u
  | inside_below p v a t b : inside u t -> inside u (PT p v (a ++ t :: b)).

Definition is_named (v : mxml_value_t) : bool := match v with Element (Some _) _ => true | _ => false end.

(** Nodes with children have a name, and nothing has a destructor. *)
Fixpoint shaped (t : ptree) : bool :=
  match t with PT _ v ts => (is_named v || match ts with [] => true | _ => false end) && undestroyed v && forallb shaped ts end.

Lemma shaped_plain t : shaped t = true -> plain t = true.
Proof.
  induction t as [p v ts IH] using ptree_ind'. cbn [shaped plain]. intros [[_ ->]%andb_prop H]%andb_prop. cbn [andb].
  clear v. induction IH as [|t ts Ht _ IHs]; [done|]. cbn [forallb] in *. apply andb_prop in H as [H1 H2]. now rewrite Ht, IHs.
Qed.

Lemma inside_wf u t : inside u t -> forall x par prv nxt, wf x par prv nxt t -> exists par' prv' nxt', wf x par' prv' nxt' u.
Proof.
  induction 1 as [|p v a t b _ IH]; intros x par prv nxt W; [eauto|]. exact (IH _ _ _ _ (wf_child _ _ _ _ _ _ _ _ _ W)).
Qed.

Lemma inside_edit x x' u u' t :
  inside u t -> edit x x' u u' -> exists t', edit x x' t t' /\ inside u' t' /\ (shaped t = true -> shaped u' = true -> shaped t' = true).
Proof.
  induction 1 as [|p v a t b _ IH]; intros E; [exists u'; split; [exact E|]; split; [constructor|done]|].
  destruct (IH E) as (t' & E' & I & S). exists (PT p v (a ++ t' :: b)). split; [now apply edit_child|]. split; [now constructor|].
  cbn [shaped]. rewrite !List.forallb_app. cbn [forallb]. intros [[H1 H2]%andb_prop H3]%andb_prop Hu. apply andb_prop in H3 as [H3 H4]. apply andb_prop in H4 as [H4 H5].
  rewrite H2, H3, H5, S by assumption. replace (match a ++ t' :: b with [] => true | _ => false end) with (match a ++ t :: b with [] => true | _ => false end) by now destruct a.
  now rewrite H1.
Qed.

Lemma inside_shaped u t : inside u t -> shaped t = true -> shaped u = true.
Proof.
  induction 1 as [|p v a t b _ IH]; [done|]. cbn [shaped]. rewrite List.forallb_app. cbn [forallb]. intros H. apply IH.
  apply andb_prop in H as [_ H]. apply andb_prop in H as [_ H]. now apply andb_prop in H as [H _].
Qed.

Lemma inside_trans u w t : inside u w -> inside w t -> inside u t.
Proof. intros Hu. induction 1 as [|p v a t b _ IH]; [exact Hu|now constructor]. Qed.

(** The root, or the child of a node. *)
Lemma inside_parent u t : inside u t -> u = t \/ exists q qv a b, inside (PT q qv (a ++ u :: b)) t.
Proof.
  induction 1 as [|p v a t b H [->|(q & qv & a' & b' & I)]]; [now left| |].
  - right. exists p, v, a, b. constructor.
  - right. exists q, qv, a', b'. now constructor.
Qed.

(** *** Several of them, next to the nodes the process had *)

Section Forest.
Context (b0 : Z) (h0 : gmap Z mxml_node_t).

Record kept (ts : list ptree) (x : xml) : Prop := {
  k_bounded : bounded x;
  k_nodup : NoDup (all_ptrs ts);
  k_rep : Forall (rep (x_heap x) NULL NULL NULL) ts;
  k_shaped : forallb shaped ts = true;
  k_new : forall q, q ∈ all_ptrs ts -> b0 <= q;
  k_brk : b0 <= x_brk x;
  k_old : forall q, q < b0 -> x_heap x !! q = h0 !! q;
}.

Lemma all_ptrs_cons t ts : all_ptrs (t :: ts) = ptrs t ++ all_ptrs ts.
Proof. reflexivity. Qed.

Lemma all_ptrs_below ts x : bounded x -> Forall (rep (x_heap x) NULL NULL NULL) ts -> forall q, q ∈ all_ptrs ts -> q < x_brk x.
Proof.
  intros B R q Hq. unfold all_ptrs in Hq. apply list_elem_of_In, in_concat in Hq as (ps & Hps & Hq). apply in_map_iff in Hps as (u & <- & Hu).
  rewrite List.Forall_forall in R. apply list_elem_of_In in Hq. apply B. exact (proj2 (rep_dom _ _ _ _ _ _ (R u Hu) Hq)).
Qed.

Lemma kept_wf a t b x : kept (a ++ t :: b) x -> wf x NULL NULL NULL t /\ shaped t = true.
Proof.
  intros [B N R S _ _ _]. rewrite all_ptrs_app, all_ptrs_cons in N. apply NoDup_app in N as (_ & _ & N). apply NoDup_app in N as (N & _).
  apply Forall_app in R as [_ R]. apply Forall_cons in R as [R _]. rewrite List.forallb_app in S. cbn [forallb] in S.
  apply andb_prop in S as [_ S]. apply andb_prop in S as [S _]. split; [now split|exact S].
Qed.

Lemma kept_same ts x y : kept ts x -> same_nodes x y -> kept ts y.
Proof.
  intros [B N R S M K O] (H1 & H2 & _). split; rewrite ?H1, ?H2; try assumption. destruct B as [B1 B2]. split; rewrite ?H1, ?H2; assumption.
Qed.

Lemma kept_edit a t b x x' t' : kept (a ++ t :: b) x -> edit x x' t t' -> shaped t' = true -> kept (a ++ t' :: b) x'.
Proof.
  intros Kx E St. destruct (kept_wf _ _ _ _ Kx) as [W _]. destruct Kx as [B N R S M K O]. pose proof (e_wf _ _ _ _ E _ _ _ W) as [B' N' R'].
  rewrite all_ptrs_app, all_ptrs_cons in N, M. apply NoDup_app in N as (Na & Nat & N). apply NoDup_app in N as (Nt & Ntb & Nb).
  apply Forall_app in R as [Ra R]. apply Forall_cons in R as [Rt Rb].
  assert (Bl : forall u, rep (x_heap x) NULL NULL NULL u -> forall q, q ∈ ptrs u -> q < x_brk x).
  { intros u Ru q Hq. apply B. exact (proj2 (rep_dom _ _ _ _ _ _ Ru Hq)). }
  assert (Bs : forall us, Forall (rep (x_heap x) NULL NULL NULL) us -> forall q, q ∈ all_ptrs us -> q < x_brk x) by (intros us; now apply all_ptrs_below).
  assert (Fr : forall us, Forall (rep (x_heap x) NULL NULL NULL) us -> (forall q, q ∈ all_ptrs us -> q ∉ ptrs t) -> Forall (rep (x_heap x') NULL NULL NULL) us).
  { intros us Fu Hd. induction Fu as [|u us Ru Fu IH]; constructor.
    - apply (rep_frame (x_heap x)); [|exact Ru]. intros q Hq. apply (e_frame _ _ _ _ E); [apply Hd; rewrite all_ptrs_cons, elem_of_app; now left|exact (Bl u Ru q Hq)].
    - apply IH. intros q Hq. apply Hd. rewrite all_ptrs_cons, elem_of_app. now right. }
  split; [exact B'| | | | |pose proof (e_brk _ _ _ _ E); lia|].
  - rewrite all_ptrs_app, all_ptrs_cons. apply NoDup_app. split; [exact Na|]. split.
    + intros q Hq. rewrite elem_of_app. intros [H|H]; [|apply (Nat q Hq), elem_of_app; now right].
      destruct (e_new _ _ _ _ E q H) as [Ht|Hge]; [apply (Nat q Hq), elem_of_app; now left|]. pose proof (Bs a Ra q Hq). lia.
    + apply NoDup_app. split; [exact N'|]. split; [|exact Nb]. intros q H Hq. destruct (e_new _ _ _ _ E q H) as [Ht|Hge]; [exact (Ntb q Ht Hq)|].
      pose proof (Bs b Rb q Hq). lia.
  - apply Forall_app. split; [apply Fr; [exact Ra|]|constructor; [exact R'|apply Fr; [exact Rb|]]].
    + intros q Hq Ht. apply (Nat q Hq), elem_of_app. now left.
    + intros q Hq Ht. exact (Ntb q Ht Hq).
  - rewrite List.forallb_app in *. cbn [forallb] in *. apply andb_prop in S as [S1 S]. apply andb_prop in S as [_ S2]. now rewrite S1, St, S2.
  - intros q. rewrite all_ptrs_app, all_ptrs_cons, !elem_of_app. intros [H|[H|H]].
    + apply M. rewrite elem_of_app. tauto.
    + destruct (e_new _ _ _ _ E q H) as [Ht|Hge]; [apply M; rewrite !elem_of_app; tauto|lia].
    + apply M. rewrite !elem_of_app. tauto.
  - intros q Hq. rewrite (e_frame _ _ _ _ E); [now apply O| |lia]. intros Ht. pose proof (M q). rewrite !elem_of_app in *. specialize (H ltac:(tauto)). lia.
Qed.

(** One of the trees is freed. *)
Lemma kept_drop a t b x h :
  kept (a ++ t :: b) x -> (forall q, q ∈ ptrs t -> h !! q = None) -> (forall q, q ∉ ptrs t -> h !! q = x_heap x !! q) -> kept (a ++ b) (set_x_heap h x).
Proof.
  intros [B N R S M K O] G F. rewrite all_ptrs_app, all_ptrs_cons in N, M. apply NoDup_app in N as (Na & Nat & N). apply NoDup_app in N as (Nt & Ntb & Nb).
  apply Forall_app in R as [Ra R]. apply Forall_cons in R as [Rt Rb].
  assert (Fr : forall us, Forall (rep (x_heap x) NULL NULL NULL) us -> (forall q, q ∈ all_ptrs us -> q ∉ ptrs t) -> Forall (rep h NULL NULL NULL) us).
  { intros us Fu Hd. induction Fu as [|u us Ru Fu IH]; constructor.
    - apply (rep_frame (x_heap x)); [|exact Ru]. intros q Hq. apply F, Hd. rewrite all_ptrs_cons, elem_of_app. now left.
    - apply IH. intros q Hq. apply Hd. rewrite all_ptrs_cons, elem_of_app. now right. }
  assert (Da : forall q, q ∈ all_ptrs a -> q ∉ ptrs t) by (intros q Hq Ht; apply (Nat q Hq), elem_of_app; now left).
  split; cbn [x_heap set_x_heap x_brk].
  - destruct B as [B1 B2]. split; [exact B1|]. intros q Hq. cbn in Hq. destruct (decide (q ∈ ptrs t)) as [Ht|Ht]; [rewrite (G q Ht) in Hq; now destruct Hq|].
    apply B2. now rewrite <- (F q Ht).
  - rewrite all_ptrs_app. apply NoDup_app. split; [exact Na|]. split; [|exact Nb]. intros q Hq Hb. apply (Nat q Hq), elem_of_app. now right.
  - apply Forall_app. split; apply Fr; try assumption. intros q Hq Ht. exact (Ntb q Ht Hq).
  - rewrite List.forallb_app in *. cbn [forallb] in S. apply andb_prop in S as [S1 S]. apply andb_prop in S as [_ S2]. now rewrite S1, S2.
  - intros q. rewrite all_ptrs_app, elem_of_app. intros H. apply M. rewrite !elem_of_app. tauto.
  - exact K.
  - intros q Hq. rewrite F; [now apply O|]. intros Ht. pose proof (M q) as H. rewrite !elem_of_app in H. specialize (H ltac:(tauto)). lia.
Qed.

Lemma kept_new ts x x' v :
  kept ts x -> wf x' NULL NULL NULL (PT (x_brk x) v []) -> undestroyed v = true -> x_brk x < x_brk x' ->
  (forall q, q <> x_brk x -> x_heap x' !! q = x_heap x !! q) -> kept (ts ++ [PT (x_brk x) v []]) x'.
Proof.
  intros [B N R S M K O] [B' N' R'] P Hb F.
  pose proof (all_ptrs_below ts x B R) as Bs.
  split; [exact B'| | | | |lia|].
  - rewrite all_ptrs_app, all_ptrs_one. apply NoDup_app. split; [exact N|]. split; [|exact N']. intros q Hq. rewrite ptrs_eq.
    intros [->|H]%elem_of_cons; [pose proof (Bs _ Hq); lia|now apply elem_of_nil in H].
  - apply Forall_app. split; [|now constructor]. clear -R F Bs. induction R as [|u us Ru R IH]; constructor.
    + apply (rep_frame (x_heap x)); [|exact Ru]. intros q Hq. apply F. pose proof (Bs q). rewrite all_ptrs_cons, elem_of_app in H. specialize (H (or_introl Hq)). lia.
    + apply IH. intros q Hq. apply Bs. rewrite all_ptrs_cons, elem_of_app. now right.
  - rewrite List.forallb_app, S. cbn [forallb shaped]. now rewrite P, orb_true_r.
  - intros q. rewrite all_ptrs_app, all_ptrs_one, ptrs_eq, elem_of_app. intros [H|[->|H]%elem_of_cons]; [now apply M|exact K|now apply elem_of_nil in H].
  - intros q Hq. rewrite F by lia. now apply O.
Qed.

(** *** Where the loader stands *)

(** [p] is no node or an element of one of the trees. *)
Definition stands (ts : list ptree) (p : Z) : Prop :=
  p = NULL \/ exists a t b u, ts = a ++ t :: b /\ inside u t /\ root u = p /\ is_named (val u) = true.

(** The variables [first] and [parent]. *)
Definition loading (fst par : Z) (o : loader T) : Prop :=
  x_allocs (o_xml o) = [] /\ (fst = NULL -> par = NULL)
  /\ exists ts, kept ts (o_xml o) /\ (fst = NULL \/ In fst (map root ts)) /\ stands ts par.

(** [node] has just been added below [parent], or as a new tree. *)
Definition added_leaf (fst par node : Z) (v : mxml_value_t) (o : loader T) : Prop :=
  x_allocs (o_xml o) = [] /\ (fst = NULL -> par = NULL) /\ node <> NULL
  /\ exists a t b, kept (a ++ t :: b) (o_xml o) /\ (fst = NULL \/ In fst (map root (a ++ t :: b)))
      /\ (par = NULL /\ t = PT node v [] /\ fst <> node \/ exists pv us, inside (PT par pv (us ++ [PT node v []])) t /\ is_named pv = true).

Definition next_first (fst node : Z) : Z := if fst =? NULL then node else fst.

Lemma loading_after fst par o o' : loading fst par o -> after o o' -> loading fst par o'.
Proof.
  intros (Hal & Hf & ts & Kx & H) [S _]. split; [destruct S as (_ & _ & ->); exact Hal|]. split; [exact Hf|]. exists ts. split; [exact (kept_same _ _ _ Kx S)|exact H].
Qed.

Lemma stands_able ts par o : x_allocs (o_xml o) = [] -> kept ts (o_xml o) -> stands ts par -> able par o.
Proof.
  intros Hal Kx [->|(a & t & b & u & -> & I & <- & Hv)]; (split; [exact Hal|]); [now left|].
  destruct (kept_wf _ _ _ _ Kx) as [W _]. destruct (inside_wf u t I _ _ _ _ W) as (par' & prv & nxt & Wu). destruct u as [p [|[e|] attrs| | | | |] us]; try discriminate.
  exact (named_wf _ _ _ _ _ _ _ _ Wu).
Qed.

Lemma loading_able fst par o : loading fst par o -> able par o.
Proof. intros (Hal & _ & ts & Kx & _ & St). exact (stands_able ts par o Hal Kx St). Qed.

Lemma roots_same a t t' b : root t' = root t -> map root (a ++ t' :: b) = map root (a ++ t :: b).
Proof. intros E. rewrite !map_app. cbn [map]. now rewrite E. Qed.

(** An edit at an element of one of the trees. *)
Lemma kept_inside a t b u u' x x' :
  kept (a ++ t :: b) x -> inside u t -> edit x x' u u' -> (shaped u = true -> shaped u' = true) ->
  exists t', kept (a ++ t' :: b) x' /\ inside u' t' /\ root t' = root t.
Proof.
  intros Kx I E Hs. destruct (kept_wf _ _ _ _ Kx) as [_ St]. destruct (inside_edit _ _ _ _ _ I E) as (t' & E' & I' & S').
  exists t'. split; [apply (kept_edit _ _ _ _ _ _ Kx E'), S'; [exact St|apply Hs, (inside_shaped _ _ I St)]|]. split; [exact I'|exact (e_root _ _ _ _ E')].
Qed.

Lemma new_leaf_ends fst par f s o :
  loading fst par o -> undestroyed (f (Some s)) = true ->
  ends (in_xml (new_string_node par f s)) o (fun node o' => added_leaf fst par node (f (Some s)) o' /\ left_in o' = left_in o).
Proof.
  intros (Hal & Hf & ts & Kx & H1 & [->|(a & t & b & u & -> & I & <- & Hv)]) P.
  - destruct (new_string_root (o_xml o) f s (k_bounded _ _ Kx) Hal) as (x' & E & W & V & Hb & F). eapply ends_in_xml; [exact E|]. split; [|done].
    split; [cbn; destruct V; congruence|]. split; [done|]. split; [pose proof (k_bounded _ _ Kx) as [B _]; unfold NULL; lia|].
    exists ts, (PT (x_brk (o_xml o)) (f (Some s)) []), []. split; [exact (kept_new _ _ _ _ Kx W P Hb F)|].
    assert (Hlt : fst = NULL \/ In fst (map root ts) -> fst <> x_brk (o_xml o)).
    { intros [->|(t & <- & Ht)%in_map_iff]; [pose proof (k_bounded _ _ Kx) as [B _]; unfold NULL; lia|].
      enough (root t < x_brk (o_xml o)) by lia. apply (all_ptrs_below ts _ (k_bounded _ _ Kx) (k_rep _ _ Kx)).
      apply list_elem_of_In, in_concat. exists (ptrs t). split; [now apply in_map|]. apply list_elem_of_In, root_in_ptrs. }
    split; [|left; split; [done|split; [done|now apply Hlt]]].
    destruct H1 as [H1|H1]; [now left|right]. rewrite map_app. apply in_or_app. now left.
  - destruct u as [p v us]. cbn [root val] in *. destruct (kept_wf _ _ _ _ Kx) as [W _]. destruct (inside_wf _ t I _ _ _ _ W) as (par' & prv & nxt & Wu).
    destruct (new_string_edit (o_xml o) _ _ _ _ _ _ f s Wu Hal) as (node & x' & E & Ed & V & Hn). eapply ends_in_xml; [exact E|]. split; [|done].
    split; [cbn; destruct V; congruence|]. split; [exact Hf|]. split; [exact Hn|].
    destruct (kept_inside a t b _ _ _ x' Kx I Ed) as (t' & Kx' & I' & Er).
    { cbn [shaped]. rewrite Hv, List.forallb_app. cbn [orb forallb shaped]. intros [-> ->]%andb_prop. now rewrite P, orb_true_r. }
    exists a, t', b. split; [exact Kx'|]. split; [now rewrite (roots_same a t t' b Er)|]. right. now exists v, us.
Qed.

Lemma leaf_roots fst par node v a t b x :
  kept (a ++ t :: b) x -> (fst = NULL -> par = NULL) -> fst = NULL \/ In fst (map root (a ++ t :: b)) ->
  par = NULL /\ t = PT node v [] /\ fst <> node \/ (exists pv us, inside (PT par pv (us ++ [PT node v []])) t /\ is_named pv = true) ->
  next_first fst node = NULL \/ In (next_first fst node) (map root (a ++ t :: b)).
Proof.
  intros Kx Hf H1 H2. unfold next_first. destruct (Z.eqb_spec fst NULL) as [E|E]; [|exact H1]. right. destruct H2 as [(_ & -> & _)|(pv & us & I & _)].
  - rewrite map_app. apply in_or_app. right. now left.
  - specialize (Hf E). subst par. destruct (kept_wf _ _ _ _ Kx) as [W _]. destruct (inside_wf _ t I _ _ _ _ W) as (par' & prv & nxt & Wu).
    now destruct (wf_node _ _ _ _ _ _ _ Wu) as [Hp _].
Qed.

(** The leaf is there to stay. *)
Lemma leaf_loading fst par node v o : added_leaf fst par node v o -> loading fst par o /\ loading (next_first fst node) par o.
Proof.
  intros (Hal & Hf & Hn & a & t & b & Kx & H1 & H2).
  assert (St : stands (a ++ t :: b) par).
  { destruct H2 as [(-> & _)|(pv & us & I & Hv)]; [now left|]. right. exists a, t, b. eexists. split; [done|]. split; [exact I|]. now split. }
  split; (split; [exact Hal|]); [split; [exact Hf|]; exists (a ++ t :: b); now split|]. split.
  { unfold next_first. destruct (Z.eqb_spec fst NULL); [done|exact Hf]. }
  exists (a ++ t :: b). split; [exact Kx|]. split; [exact (leaf_roots _ _ _ _ _ _ _ _ Kx Hf H1 H2)|exact St].
Qed.

(** It becomes the parent. *)
Lemma leaf_parent fst par node v o : added_leaf fst par node v o -> is_named v = true -> loading (next_first fst node) node o.
Proof.
  intros (Hal & Hf & Hn & a & t & b & Kx & H1 & H2) Hv. split; [exact Hal|]. split.
  { unfold next_first. now destruct (Z.eqb_spec fst NULL). }
  exists (a ++ t :: b). split; [exact Kx|]. split; [exact (leaf_roots _ _ _ _ _ _ _ _ Kx Hf H1 H2)|].
  right. exists a, t, b, (PT node v []). split; [done|]. split; [|now split]. destruct H2 as [(_ & -> & _)|(pv & us & I & _)]; [constructor|].
  refine (inside_trans _ _ _ _ I). constructor. constructor.
Qed.

Lemma leaf_wf fst par node v o : added_leaf fst par node v o -> exists par' prv nxt, wf (o_xml o) par' prv nxt (PT node v []).
Proof.
  intros (_ & _ & _ & a & t & b & Kx & _ & H2). destruct (kept_wf _ _ _ _ Kx) as [W _]. destruct H2 as [(_ & -> & _)|(pv & us & I & _)]; [eauto|].
  apply (inside_wf _ t) with (2 := W). refine (inside_trans _ _ _ _ I). constructor. constructor.
Qed.

(** Its value may change. *)
Lemma leaf_edit fst par node v v' o o' :
  added_leaf fst par node v o -> edit (o_xml o) (o_xml o') (PT node v []) (PT node v' []) -> undestroyed v' = true -> x_allocs (o_xml o') = [] ->
  added_leaf fst par node v' o'.
Proof.
  intros (_ & Hf & Hn & a & t & b & Kx & H1 & H2) E P Hal. split; [exact Hal|]. split; [exact Hf|]. split; [exact Hn|].
  destruct H2 as [(-> & -> & Hne)|(pv & us & I & Hv)].
  - exists a, (PT node v' []), b. split; [apply (kept_edit _ _ _ _ _ _ Kx E); cbn; now rewrite P, orb_true_r|].
    split; [now rewrite (roots_same a (PT node v []) (PT node v' []) b eq_refl)|]. left. now split.
  - destruct (kept_inside a t b _ _ _ (o_xml o') Kx I (edit_child _ _ par pv us _ _ [] E)) as (t' & Kx' & I' & Er).
    { cbn [shaped]. rewrite !List.forallb_app. cbn [forallb shaped]. rewrite P, Hv, !orb_true_r. cbn [orb andb].
      intros [-> [-> _]%andb_prop]%andb_prop. done. }
    exists a, t', b. split; [exact Kx'|]. split; [now rewrite (roots_same a t t' b Er)|]. right. now exists pv, us.
Qed.

(** Deleting the leaf leaves what was there before. *)
Lemma leaf_delete destroy_cb fst par node v o :
  added_leaf fst par node v o -> undestroyed v = true ->
  ends (in_xml (mxmlDelete destroy_cb node)) o (fun _ o' => loading fst par o' /\ left_in o' = left_in o).
Proof.
  intros (Hal & Hf & Hn & a & t & b & Kx & H1 & H2) P. destruct (kept_wf _ _ _ _ Kx) as [W St]. destruct H2 as [(-> & -> & Hne)|(pv & us & I & Hv)].
  - destruct (delete_tree destroy_cb (o_xml o) (PT node v []) W (shaped_plain _ St)) as (h & E & G & F). eapply ends_in_xml; [exact E|]. split; [|done].
    split; [exact Hal|]. split; [exact Hf|]. exists (a ++ b). split; [exact (kept_drop _ _ _ _ _ Kx G F)|]. split; [|now left].
    destruct H1 as [H1|H1]; [now left|right]. rewrite map_app in *. cbn [map root] in H1. apply in_or_app. apply in_app_or in H1 as [H1|[H1|H1]]; [tauto|congruence|tauto].
  - destruct (inside_wf _ t I _ _ _ _ W) as (par' & prv & nxt & Wu). destruct (delete_last destroy_cb _ _ _ _ _ _ _ _ _ Wu P) as (h & E & Ed).
    eapply ends_in_xml; [exact E|]. split; [|done]. destruct (kept_inside a t b _ _ _ _ Kx I Ed) as (t' & Kx' & I' & Er).
    { cbn [shaped]. rewrite List.forallb_app, Hv. cbn [orb]. intros [-> [-> _]%andb_prop]%andb_prop. done. }
    split; [exact Hal|]. split; [exact Hf|]. exists (a ++ t' :: b). split; [exact Kx'|]. split; [now rewrite (roots_same a t t' b Er)|].
    right. exists a, t', b. eexists. split; [done|]. split; [exact I'|]. now split.
Qed.

(** ** The loop *)

Definition inv (v : vars) (o : loader T) : Prop := loading (v_first v) (v_parent v) o /\ usable (v_buffer v).

Definition turn_ok (o : loader T) (r : turn) (o' : loader T) : Prop :=
  match r with inl v => inv v o' /\ (left_in o' <= left_in o)%nat | inr (_, v) => inv v o' end.

Lemma inv_after v o o' : inv v o -> after o o' -> inv v o'.
Proof. intros [L U] A. split; [exact (loading_after _ _ _ _ L A)|exact U]. Qed.

Lemma note_first_eq node v : node <> NULL -> note_first node v = set_v_first (next_first (v_first v) node) v.
Proof.
  intros H. unfold note_first, next_first. rewrite (proj2 (Z.eqb_neq node NULL) H). destruct (Z.eqb_spec (v_first v) NULL) as [E|E]; [done|]. now destruct v.
Qed.

Lemma leaf_after fst par node v o o' : added_leaf fst par node v o -> undestroyed v = true -> after o o' -> added_leaf fst par node v o'.
Proof.
  intros A P [S _]. apply (leaf_edit _ _ _ _ _ _ _ A); [exact (edit_same _ _ _ _ _ (edit_refl _ _) S)|exact P|]. destruct A as (Hal & _), S as (_ & _ & ->). exact Hal.
Qed.

Lemma error_leave (m : prog (loader T) unit) (w : leaving) v o o0 : ends m o (fun _ => after o) -> inv v o -> ends (m ;;; ret (inr (w, v))) o (turn_ok o0).
Proof. intros H I. eapply ends_bind; [exact H|]. intros ? o1 A. apply ends_ret. exact (inv_after _ _ _ I A). Qed.

(** A text node, and what it leaves of the variables. *)
Lemma new_text_ends ws s v o :
  inv v o -> ends (in_xml (mxmlNewText (v_parent v) ws (Some s))) o
    (fun node o' => node <> NULL /\ inv (note_first node v) o' /\ left_in o' = left_in o).
Proof.
  intros [L U]. eapply ends_weaken; [apply (new_leaf_ends _ _ (Text ws) s o L eq_refl)|]. cbn beta. intros node o' [A Hl].
  assert (Hn : node <> NULL) by apply A. split; [exact Hn|]. split; [|exact Hl]. rewrite note_first_eq by exact Hn. split; [|exact U].
  exact (proj2 (leaf_loading _ _ _ _ _ A)).
Qed.

Lemma value_node_ends ch v o : inv v o -> ends (value_node ch v) o (fun r o' => (exists v', r = Some v' /\ inv v' o') /\ left_in o' = left_in o).
Proof.
  intros I. unfold value_node. destruct (_ && _).
  - eapply ends_bind; [apply terminate_ends, I|]. cbn beta. intros _ o1 ->. eapply ends_bind; [apply new_text_ends, I|]. cbn beta. intros node o1 (Hn & [L U] & Hl).
    rewrite (proj2 (Z.eqb_neq node NULL) Hn). apply ends_ret. split; [|exact Hl]. eexists. split; [reflexivity|].
    rewrite note_first_eq in * by exact Hn. split; [exact L|]. cbn. exact (usable_clear _ (proj2 I)).
  - destruct (mxml_isspace ch); apply ends_ret; (split; [|done]); eexists; (split; [reflexivity|]); [|exact I]. exact I.
Qed.

Lemma blank_node_ends ch v o : inv v o -> ends (blank_node ch v) o (fun v' o' => inv v' o' /\ left_in o' = left_in o).
Proof.
  intros I. unfold blank_node. destruct (_ && _); [|now apply ends_ret].
  eapply ends_bind; [apply new_text_ends, I|]. cbn beta. intros node o1 (_ & [L U] & Hl). now apply ends_ret.
Qed.

Lemma add_special_ends kind descend w v m o :
  inv v o -> reads_text (v_parent v) m -> ends (add_special kind descend w v m) o (turn_ok o).
Proof.
  intros [L U] Hm. unfold add_special. eapply ends_bind; [apply Hm, (loading_able _ _ _ L)|]. intros [[ch|] b] o1 [A Hb]; cbn [snd] in Hb;
    pose proof (loading_after _ _ _ _ L A) as L1; [|apply ends_ret; now split].
  destruct (negb _); [apply error_leave; [apply load_error_ends|now split]|].
  eapply ends_bind; [apply terminate_ends, Hb|]. cbn beta. intros _ o2 ->. cbn [v_parent set_v_buffer].
  eapply ends_bind; [apply (new_leaf_ends _ _ (fun d => Element d []) (b_text b) o1 L1 eq_refl)|]. cbn beta. intros node o2 [Al Hl].
  assert (Hn : node <> NULL) by apply Al. rewrite (proj2 (Z.eqb_neq node NULL) Hn), note_first_eq by exact Hn.
  destruct A as [_ A]. apply ends_ret. split; [|lia]. split; [|destruct (_ && _); exact (usable_clear _ Hb)].
  destruct (_ && _); cbn; [exact (leaf_parent _ _ _ _ _ Al eq_refl)|exact (proj2 (leaf_loading _ _ _ _ _ Al))].
Qed.

(** The element the loader stands at, and its parent. *)
Lemma stands_parent ts x p :
  kept ts x -> stands ts p -> p <> NULL ->
  exists n e attrs, x_heap x !! p = Some n /\ value n = Element (Some e) attrs /\ stands ts (parent n).
Proof.
  intros Kx [->|(a & t & b & u & -> & I & <- & Hv)] Hp; [done|]. destruct (kept_wf _ _ _ _ Kx) as [W St].
  destruct (inside_parent u t I) as [->|(q & qv & c & d & I')].
  - destruct t as [p v us]. destruct (wf_node _ _ _ _ _ _ _ W) as (_ & rc & En). destruct v as [|[e|] attrs| | | | |]; try discriminate.
    eexists _, e, attrs. split; [exact En|]. split; [done|now left].
  - destruct (inside_wf _ t I' _ _ _ _ W) as (par' & prv & nxt & Wq). pose proof (wf_child _ _ _ _ _ _ _ _ _ Wq) as Wu.
    destruct u as [p v us]. destruct (wf_node _ _ _ _ _ _ _ Wu) as (_ & rc & En). cbn [val] in Hv. destruct v as [|[e|] attrs| | | | |]; try discriminate.
    eexists _, e, attrs. split; [exact En|]. split; [done|]. right. exists a, t, b. eexists. split; [done|]. split; [exact I'|]. split; [done|].
    pose proof (inside_shaped _ _ I' St) as Sq. cbn [shaped val] in *. apply andb_prop in Sq as [[Sq _]%andb_prop _]. apply orb_prop in Sq as [Sq|Sq]; [exact Sq|].
    now destruct c.
Qed.

Lemma mismatched_ends b v o o0 :
  inv v o -> usable b ->
  ends (let* e := element_name (str "(null)") (v_parent v) in
        load_error (str "Mismatched close tag <" ++ b_text b ++ str "> under parent <" ++ e ++ str ">!") ;;;
        goto_error (set_v_buffer b v)) o (turn_ok o0).
Proof.
  intros [L U] Hb. eapply ends_bind; [apply element_name_ends, (loading_able _ _ _ L)|]. intros e o1 A.
  apply error_leave; [apply load_error_ends|]. split; [exact (loading_after _ _ _ _ L A)|exact Hb].
Qed.

Lemma close_tag_ends ch b v o : inv v o -> usable b -> ends (close_tag ch b v) o (turn_ok o).
Proof.
  intros I Hb. unfold close_tag. destruct (Z.eqb_spec (v_parent v) NULL) as [E|E]; [now apply mismatched_ends|].
  pose proof I as [(Hal & Hf & ts & Kx & H1 & H2) _]. destruct (stands_parent ts _ _ Kx H2 E) as (n & e & attrs & En & Ev & Hs).
  apply (ends_bind _ _ _ (fun m o' => m = n /\ o' = o)); [eapply ends_in_xml; [unfold node_at; rewrite En; reflexivity|now destruct o]|].
  intros m o' [-> ->]. rewrite Ev. destruct (negb _); [now apply mismatched_ends|].
  eapply ends_bind; [apply skip_tag_ends|]. intros ? o1 A. apply ends_ret. split; [|apply A]. apply (inv_after _ o); [|exact A].
  split; [|exact (usable_clear _ Hb)]. split; [exact Hal|]. split; [intros E0; now destruct (E (Hf E0))|]. now exists ts.
Qed.

Section Load.
Context (destroy_cb : Z -> Z -> prog xml unit).

(** What follows the name: the character the tag ends with, if all is well. *)
Lemma tag_rest_ends fst par node e ch o :
  added_leaf fst par node (Element (Some e) []) o ->
  ends (if mxml_isspace ch then
          let* ch := mxml_parse_element node in ret (if ch =? EOF then None else Some ch)
        else if is_ch "/"%char ch then
          let* ch := getc in
          if negb (is_ch ">"%char ch) then
            load_error (str "Expected > but got '" ++ [to_char ch] ++ str "' instead for element <" ++ e ++ str "/>!") ;;;
            in_xml (mxmlDelete destroy_cb node) ;;; ret None
          else ret (Some (uchar "/"%char))
        else ret (Some ch)) o
    (fun r o' => (left_in o' <= left_in o)%nat /\ match r with
      | None => loading fst par o'
      | Some _ => exists attrs, added_leaf fst par node (Element (Some e) attrs) o'
      end).
Proof.
  intros A. destruct (mxml_isspace ch); [|destruct (is_ch "/"%char ch); [|apply ends_ret; split; [lia|eauto]]].
  - destruct (leaf_wf _ _ _ _ _ A) as (par' & prv & nxt & W).
    assert (R : element_read node e (o_xml o) (left_in o) o) by (split; [apply A|split; [lia|exists []; apply edit_refl]]).
    eapply ends_bind; [apply (parse_element_ends node e (o_xml o) par' prv nxt (left_in o) W o R)|]. intros c o1 (Hal & Hl & attrs & Ed).
    apply ends_ret. split; [exact Hl|]. pose proof (leaf_edit _ _ _ _ (Element (Some e) attrs) _ _ A Ed eq_refl Hal) as A1.
    destruct (c =? EOF); [exact (proj1 (leaf_loading _ _ _ _ _ A1))|eauto].
  - eapply ends_bind; [apply getc_ends|]. cbn beta. intros c o1 [A1 _]. pose proof (leaf_after _ _ _ _ _ _ A eq_refl A1) as L1.
    destruct (negb _); [|apply ends_ret; split; [apply A1|eauto]].
    eapply ends_bind; [apply load_error_ends|]. intros ? o2 A2. pose proof (leaf_after _ _ _ _ _ _ L1 eq_refl A2) as L2.
    eapply ends_bind; [exact (leaf_delete destroy_cb _ _ _ _ _ L2 eq_refl)|]. cbn beta. intros _ o3 [L3 E3]. apply ends_ret.
    destruct A1 as [_ A1], A2 as [_ A2]. split; [lia|exact L3].
Qed.

Lemma open_tag_ends ch b v o : inv v o -> usable b -> ends (open_tag destroy_cb ch b v) o (turn_ok o).
Proof.
  intros [L U] Hb. unfold open_tag. cbn [v_parent set_v_buffer].
  eapply ends_bind; [apply (new_leaf_ends _ _ (fun d => Element d []) (b_text b) o L eq_refl)|]. cbn beta. intros node o1 [Al Hl].
  assert (Hn : node <> NULL) by apply Al. rewrite (proj2 (Z.eqb_neq node NULL) Hn).
  eapply ends_bind; [exact (tag_rest_ends _ _ _ _ ch o1 Al)|]. cbn beta. intros [c|] o2 [H2 H].
  2:{ apply ends_ret. split; [exact H|exact Hb]. }
  destruct H as [attrs A2]. rewrite note_first_eq by exact Hn. cbn [v_first set_v_buffer].
  pose proof (proj2 (leaf_loading _ _ _ _ _ A2)) as L2. destruct (c =? EOF); [apply ends_ret; now split|].
  apply ends_ret. split; [|lia]. split; [|destruct (is_ch _ _); exact (usable_clear _ Hb)].
  destruct (is_ch _ _); cbn; [exact L2|exact (leaf_parent _ _ _ _ _ A2 eq_refl)].
Qed.

Lemma tag_ends v o : inv v o -> ends (tag destroy_cb v) o (turn_ok o).
Proof.
  intros [L U]. unfold tag. eapply ends_bind; [apply (read_tag_ends (v_parent v) _ (usable_clear _ U)), (loading_able _ _ _ L)|].
  intros [[ch|] b] o1 [A Hb]; cbn [snd] in Hb; pose proof (loading_after _ _ _ _ L A) as L1; [|apply ends_ret; now split].
  eapply ends_bind; [apply terminate_ends, Hb|]. cbn beta. intros _ o2 ->.
  assert (I : inv v o1) by now split.
  assert (W : forall m, ends m o1 (turn_ok o1) -> ends m o1 (turn_ok o)).
  { intros m H. eapply ends_weaken; [exact H|]. intros [v'|[w v']] o3 Ht; [|exact Ht]. destruct Ht as [Ht1 Ht2]. split; [exact Ht1|]. destruct A as [_ A]. lia. }
  apply W. destruct (streq _ _); [apply add_special_ends; [exact I|now apply gather_ends]|].
  destruct (streq _ _); [apply add_special_ends; [exact I|now apply gather_ends]|].
  destruct (ceqb _ _); [apply add_special_ends; [exact I|now apply gather_ends]|].
  destruct (ceqb _ _); [apply add_special_ends; [exact I|now apply gather_declaration_ends]|].
  destruct (ceqb _ _); [now apply close_tag_ends|now apply open_tag_ends].
Qed.

Lemma load_char_ends ch v o : inv v o -> ends (load_char destroy_cb ch v) o (turn_ok o).
Proof.
  intros I. unfold load_char. eapply ends_bind; [apply value_node_ends, I|]. cbn beta. intros r o1 [(v1 & -> & I1) E1].
  eapply ends_bind; [apply blank_node_ends, I1|]. cbn beta. intros v2 o2 [I2 E2].
  assert (W : forall m, ends m o2 (turn_ok o2) -> ends m o2 (turn_ok o)).
  { intros m H. eapply ends_weaken; [exact H|]. intros [v'|[w v']] o3 Ht; [|exact Ht]. destruct Ht as [Ht1 Ht2]. split; [exact Ht1|lia]. }
  apply W. destruct (is_ch _ _); [now apply tag_ends|]. destruct (_ || _); [|apply ends_ret; now split].
  eapply ends_bind; [apply (take_char_ends _ ch _ (proj2 I2)), (loading_able _ _ _ (proj1 I2))|]. intros [[c|] b] o3 [A Hb]; cbn [snd] in Hb;
    apply ends_ret; [split; [|apply A]|]; (split; [exact (loading_after _ _ _ _ (proj1 I2) A)|exact Hb]).
Qed.

(** ** The end *)

(** A document, or none. *)
Definition delivered (p : Z) (o : loader T) : Prop :=
  exists ts, kept ts (o_xml o) /\ (p = NULL \/ In p (map root ts)).

Lemma find_top_inside x u t : inside u t -> forall par prv nxt, wf x par prv nxt t ->
  exists k, (k < length (ptrs t))%nat /\ forall fuel, find_top (k + fuel) NULL (root u) x = find_top fuel NULL (root t) x.
Proof.
  induction 1 as [|p v a t b I IH]; intros par prv nxt W; [exists 0%nat; split; [destruct u; cbn; lia|done]|].
  pose proof (wf_child _ _ _ _ _ _ _ _ _ W) as Wt. destruct (wf_node _ _ _ _ _ _ _ W) as (Hp & _).
  destruct (IH _ _ _ Wt) as (k & Hk & E). exists (S k). split.
  { rewrite ptrs_eq, all_ptrs_app, all_ptrs_cons. cbn [length]. rewrite !length_app. lia. }
  intros fuel. replace (S k + fuel)%nat with (k + S fuel)%nat by lia. rewrite E. cbn [find_top]. destruct t as [q w us]. cbn [root].
  destruct (wf_node _ _ _ _ _ _ _ Wt) as (_ & rc & En). rewrite (node_at_then _ _ _ _ En). cbn [parent].
  now rewrite (proj2 (Z.eqb_neq p NULL) Hp).
Qed.

(** From an element of a document its root is found. *)
Lemma find_top_root x u t : inside u t -> wf x NULL NULL NULL t -> find_top (S (size (x_heap x))) NULL (root u) x = Ret (root t) x.
Proof.
  intros I W. destruct (find_top_inside x u t I _ _ _ W) as (k & Hk & E). pose proof W as [_ N R].
  pose proof (nodup_heap _ _ N (fun q Hq => proj2 (rep_dom _ _ _ _ _ q R Hq))) as L.
  replace (S (size (x_heap x))) with (k + S (size (x_heap x) - k))%nat by lia. rewrite E. cbn [find_top]. destruct t as [p v ts]. cbn [root].
  destruct (wf_node _ _ _ _ _ _ _ W) as (_ & rc & En). now rewrite (node_at_then _ _ _ _ En).
Qed.

(** When loading fails the first tree is freed. *)
Lemma discard_ends fst par o : loading fst par o -> ends (in_xml (mxmlDelete destroy_cb fst)) o (fun _ => delivered NULL).
Proof.
  intros (Hal & _ & ts & Kx & [->|Hf] & _).
  - eapply ends_in_xml; [unfold mxmlDelete; erewrite bind_Ret by reflexivity; now rewrite delete_node_eq|].
    exists ts. split; [exact Kx|now left].
  - apply in_map_iff in Hf as (t & <- & Ht). apply in_split in Ht as (a & b & ->). destruct (kept_wf _ _ _ _ Kx) as [W St].
    destruct (delete_tree destroy_cb _ t W (shaped_plain _ St)) as (h & E & G & F). eapply ends_in_xml; [exact E|].
    exists (a ++ b). split; [exact (kept_drop _ _ _ _ _ Kx G F)|now left].
Qed.

Lemma missing_close_ends fst par o : loading fst par o -> par <> NULL -> ends (missing_close par) o (fun _ => after o).
Proof.
  intros L Hp. pose proof L as (Hal & _ & ts & Kx & _ & H2). destruct (stands_parent _ _ _ Kx H2 Hp) as (n & e & attrs & En & _ & Hs). unfold missing_close.
  eapply ends_bind; [apply element_name_ends, (loading_able _ _ _ L)|]. intros s o1 A1.
  apply (ends_bind _ _ _ (fun m o' => m = n /\ o' = o1)).
  { eapply ends_in_xml; [unfold node_at; pose proof A1 as [(H & _) _]; rewrite H, En; reflexivity|now destruct o1]. }
  intros m o' [-> ->]. pose proof (stands_able _ _ _ Hal Kx Hs) as Ab.
  eapply ends_bind; [apply element_name_ends, (able_after _ _ _ Ab A1)|]. intros u o2 A2. eapply ends_weaken; [apply load_error_ends|].
  intros ? o3 A3. exact (after_trans _ _ _ A1 (after_trans _ _ _ A2 A3)).
Qed.

Lemma load_data_ends o : loading NULL NULL o -> ends (mxml_load_data destroy_cb NULL) o delivered.
Proof.
  intros L. unfold mxml_load_data. eapply ends_bind; [apply malloc_ends, L|]. cbn beta. intros r o1 [-> ->]. cbn match.
  apply (ends_bind _ _ _ (fun r => inv (snd r))).
  { apply (while_getc_ends _ _ inv); [|split; [exact L|apply malloc_usable]]. clear o L. intros v o1 ch o2 I A. pose proof (inv_after _ _ _ I A) as I2.
    split; [now intros _|]. intros _ _. eapply ends_weaken; [apply load_char_ends, I2|]. now intros [v'|[w v']] o3 H. }
  intros [[|] v] o1 [L1 U]; cbn [snd] in *.
  - eapply ends_bind; [apply free_ends, U|]. cbn beta. intros _ o2 ->. pose proof L1 as (Hal & Hf & ts & Kx & H1 & H2).
    destruct (Z.eqb_spec (v_parent v) NULL) as [E|E].
    { apply ends_ret. now exists ts. }
    destruct H2 as [H2|(a & t & b & u & -> & I & Eu & Hv)]; [contradiction|]. destruct (kept_wf _ _ _ _ Kx) as [W St].
    apply (ends_bind _ _ _ (fun h o' => h = x_heap (o_xml o1) /\ o' = o1)); [eapply ends_in_xml; [reflexivity|now destruct o1]|]. intros h o' [-> ->].
    apply (ends_bind _ _ _ (fun p o' => p = root t /\ o' = o1)).
    { rewrite <- Eu. eapply ends_in_xml; [exact (find_top_root _ u t I W)|now destruct o1]. }
    intros p o' [-> ->]. destruct (negb _).
    + eapply ends_bind; [apply (missing_close_ends _ _ _ L1 E)|]. intros ? o2 A.
      eapply ends_bind; [apply (discard_ends _ _ _ (loading_after _ _ _ _ L1 A))|]. intros ? o3 D. now apply ends_ret.
    + apply ends_ret. eexists. split; [exact Kx|]. right. rewrite map_app. apply in_or_app. right. now left.
  - eapply ends_bind; [apply (discard_ends _ _ _ L1)|]. intros ? o2 D. eapply ends_bind; [apply free_ends, U|]. cbn beta. intros _ o3 ->. now apply ends_ret.
Qed.
End Load.
End Forest.
End Safe.

(** ** [XmlLoadString] *)

Lemma kept_nothing x : bounded x -> kept (x_brk x) (x_heap x) [] x.
Proof. intros B. split; try done; [apply NoDup_nil_2|]. intros q Hq. now apply elem_of_nil in Hq. Qed.

(** Loading from any source that is good. *)
Lemma load_from_safe {T} {Src : Source T} {Good : Good_source T} destroy_cb (p : T) y :
  bounded y -> x_allocs y = [] ->
  exists r y' ts, load_from destroy_cb NULL p y = Ret r y' /\ kept (x_brk y) (x_heap y) ts y' /\ (r = NULL \/ In r (map root ts)).
Proof.
  intros B Hal. destruct (load_data_ends (x_brk y) (x_heap y) destroy_cb (mkLoader y p)) as (r & o' & E & ts & Kx & H).
  { split; [exact Hal|]. split; [done|]. exists []. split; [now apply kept_nothing|]. split; now left. }
  exists r, (o_xml o'), ts. split; [|now split]. unfold load_from. now rewrite E.
Qed.

(** C16: [XmlLoadString] on any string, as long as no allocation fails: it returns, and nothing
    that is freed is used or freed again; the result is 0 and a well-formed document, or -1
    and none; the nodes there were before are as they were.  When the buffer of the reader
    cannot grow this is false: it is freed twice ([XmlLoadString_frees_twice]). *)
Theorem XmlLoadString_safe destroy_cb psData y :
  bounded y -> x_allocs y = [] ->
  exists rc y' ps, XmlLoadString destroy_cb psData y = Ret rc y'
    /\ (rc = 0 /\ l_pIntXml y' <> NULL \/ rc = -1 /\ l_pIntXml y' = NULL)
    /\ owned y' ps /\ (forall q, q ∈ ps -> x_heap y !! q = None)
    /\ (forall q, is_Some (x_heap y !! q) -> x_heap y' !! q = x_heap y !! q).
Proof.
  intros B Hal. destruct (load_from_safe destroy_cb (cstr psData) (set_x_callback true y)) as (p & x & ts & E & Kx & H); [exact B|exact Hal|].
  pose proof Kx as [B' N R S M K O]. cbn [set_x_callback x_brk x_heap] in M, O.
  assert (Old : forall q, is_Some (x_heap y !! q) -> x_heap x !! q = x_heap y !! q) by (intros q Hq; apply O; now apply B).
  assert (Ex : XmlLoadString destroy_cb psData y = Ret (if p =? NULL then -1 else 0) (set_l_pIntXml p x)).
  { unfold XmlLoadString, mxmlLoadString. erewrite bind_Ret by reflexivity. now rewrite (bind_Ret _ _ _ _ _ E). }
  destruct (Z.eqb_spec p NULL) as [Ep|Ep]; eexists _, _.
  - exists []. split; [exact Ex|]. split; [right; now split|]. split; [split; [exact B'|left; now split]|]. split; [|exact Old].
    intros q Hq. now apply elem_of_nil in Hq.
  - destruct H as [H|H]; [contradiction|]. apply in_map_iff in H as (t & Er & Ht). apply in_split in Ht as (a & b & ->).
    destruct (kept_wf _ _ _ _ _ _ Kx) as [W St]. exists (ptrs t). split; [exact Ex|]. split; [left; now split|]. split; [split; [exact B'|right]|split; [|exact Old]].
    + exists t. split; [now apply (wf_ext x)|]. split; [exact Er|]. split; [exact (shaped_plain _ St)|done].
    + intros q Hq. assert (Hn : x_brk y <= q) by (apply M; rewrite all_ptrs_app, all_ptrs_cons, !elem_of_app; tauto).
      destruct (x_heap y !! q) as [n|] eqn:En; [|done]. destruct B as [_ B2]. specialize (B2 q (ex_intro _ n En)). lia.
Qed.

(** When a text, a name or a value has more than 59 characters and [realloc] fails,
    [mxml_add_char] frees the buffer, and so does the error path of its callers: the text is
    freed twice.  A failure of the first allocation is only an error. *)
Theorem XmlLoadString_frees_twice :
  let long := replicate 61 "x"%char in
  let starved := set_x_allocs [true; false] before_init in
  Forall (fun s => XmlLoadString no_destructor s starved = Fault
      /\ exists rc y, XmlLoadString no_destructor s before_init = Ret rc y)
    [long; str "<" ++ long; str "<!--" ++ long]
  /\ exists y, XmlLoadString no_destructor long (set_x_allocs [false] before_init) = Ret (-1) y.
Proof.
  cbn zeta. split; [|eexists; vm_compute; reflexivity].
  repeat (apply Forall_cons; split; [split; [vm_compute; reflexivity|eexists _, _; vm_compute; reflexivity]|]). constructor.
Qed.

(** A closing tag that closes nothing. *)
Lemma XmlLoadString_safe_witness :
  exists rc y' ps, XmlLoadString no_destructor (str "<a>b</c>") before_init = Ret rc y'
    /\ (rc = 0 /\ l_pIntXml y' <> NULL \/ rc = -1 /\ l_pIntXml y' = NULL) /\ owned y' ps.
Proof.
  destruct (XmlLoadString_safe no_destructor (str "<a>b</c>") before_init) as (rc & y' & ps & H1 & H2 & H3 & _);
    [apply before_init_owned|reflexivity|]. exact (ex_intro _ rc (ex_intro _ y' (ex_intro _ ps (conj H1 (conj H2 H3))))).
Defined.

(** What a string leaves: the result, the document's value and how many nodes there are. *)
Definition loaded (s : string) : option (Z * option mxml_value_t * nat) :=
  match XmlLoadString no_destructor (str s) before_init with
  | Ret rc y => Some (rc, value <$> x_heap y !! l_pIntXml y, size (x_heap y))
  | _ => None
  end.

(** The element that is closed is not the one that is open. *)
Example mismatched_rejected : loaded "<a>b</c>" = Some (-1, None, 0%nat).
Proof. vm_compute. reflexivity. Qed.

(** The root, and only the root, need not be closed. *)
Example open_root_accepted : loaded "<a>" = Some (0, Some (Element (Some (str "a")) []), 1%nat) /\ loaded "<a><b>" = Some (-1, None, 0%nat).
Proof. vm_compute. now split. Qed.

(** A blank in front of the root is a node of its own and becomes the document: the
    elements behind it are loaded, but nothing points to them. *)
Example blank_hides_document : loaded " <a><b/></a>" = Some (0, Some (Text 1 (Some [])), 3%nat).
Proof. vm_compute. reflexivity. Qed.
