(* ===== verification/Mxmlstream.v ===== *)
(** * Characters of files and descriptors: a part of [src/dev/src/pubfun/xml/mxml-file.c]

    The three readers of characters, for strings, files and descriptors, with their
    encodings, and the loading from files and descriptors.  [mxml-file-utf8.c], a copy that
    the Makefile does not compile, differs in the condition in front of the multi-byte
    cases: [bytewise] is true for the file that is compiled, where each byte is a
    character, and false for the copy (Mxmlutf8.v).  The theorems on loading are in
    Mxmlfile.v. *)

From Stdlib Require Import ZArith Lia Bool List Ascii String.
From stdpp Require Import base list gmap.
From S2P Require Import Prelude Cstr Mxmlentity Mxmltree Xml Mxmlsave Mxmlload Mxmltext.

Definition ENCODE_UTF8 : Z := 0.
Definition ENCODE_UTF16BE : Z := 1.
Definition ENCODE_UTF16LE : Z := 2.

(** [mxml_error(...); return (EOF);] *)
Definition bad_char {T} (ch e : Z) : prog (loader T) (Z * Z) :=
  load_error (str "Bad control character 0x" ++ fmt_02x_int ch ++ str " not allowed by XML standard!") ;;; ret (EOF, e).

(** ** The readers

    The result is a character, or [EOF], and the encoding that is left in [*encoding]. *)

Section Getc.
Context (bytewise : bool).

(** [!(ch & 0x80)], and [|| (ch & 0x80)] in the compiled file. *)
Definition single (ch : Z) : bool := (Z.land ch 128 =? 0) || (bytewise && negb (Z.land ch 128 =? 0)).

Definition surrogate (ch : Z) : bool := (0xd800 <=? ch) && (ch <=? 0xdbff).

(** The second word of a pair. *)
Definition pair {T} (ch lch e : Z) : prog (loader T) (Z * Z) :=
  if (lch <? 0xdc00) || (0xdfff <=? lch) then ret (EOF, e)
  else ret (Z.lor (Z.shiftl (Z.land ch 0x3ff) 10) (Z.land lch 0x3ff) + 0x10000, e).

Section Bytes.
(** The next byte, or the end. *)
Context {T : Type} (next : prog (loader T) (option Z)).

Definition eof (e : Z) : prog (loader T) (Z * Z) := ret (EOF, e).

Definition with_byte (e : Z) (k : Z -> prog (loader T) (Z * Z)) : prog (loader T) (Z * Z) :=
  let* o := next in match o with Some b => k b | None => eof e end.

(** A byte that goes on with a character. *)
Definition with_more (e ch : Z) (k : Z -> prog (loader T) (Z * Z)) : prog (loader T) (Z * Z) :=
  with_byte e (fun temp =>
    if negb (Z.land temp 0xc0 =? 0x80) then eof e else k (Z.lor (Z.shiftl ch 6) (Z.land temp 0x3f))).

Definition at_least (e low ch : Z) : prog (loader T) (Z * Z) := if ch <? low then eof e else ret (ch, e).

(** The two-, three- and four-byte values. *)
Definition multi_byte (e ch : Z) : prog (loader T) (Z * Z) :=
  if Z.land ch 0xe0 =? 0xc0 then with_more e (Z.land ch 0x1f) (at_least e 0x80)
  else if Z.land ch 0xf0 =? 0xe0 then
    with_more e (Z.land ch 0x0f) (fun ch => with_more e ch (at_least e 0x800))
  else if Z.land ch 0xf8 =? 0xf0 then
    with_more e (Z.land ch 0x07) (fun ch => with_more e ch (fun ch => with_more e ch (at_least e 0x10000)))
  else eof e.

(** The UTF-16 cases of [mxml_fd_getc], behind the first byte. *)
Definition fd_word (e : Z) (join : Z -> Z -> Z) (ch : Z) : prog (loader T) (Z * Z) :=
  with_byte e (fun temp =>
    let ch := join ch temp in
    if mxml_bad_char ch then bad_char ch e
    else if surrogate ch then
      with_byte e (fun lch => with_byte e (fun temp => pair ch (join lch temp) e))
    else ret (ch, e)).

(** The UTF-16 cases of [mxml_file_getc]; [getc] gives -1 at the end.  The two calls of
    [getc] in one expression are made from the left to the right. *)
Definition getc_int : prog (loader T) Z := let* o := next in ret (match o with Some b => b | None => EOF end).

Definition file_word (e : Z) (join : Z -> Z -> Z) (ch : Z) : prog (loader T) (Z * Z) :=
  let* temp := getc_int in
  let ch := join ch temp in
  if mxml_bad_char ch then bad_char ch e
  else if surrogate ch then
    let* lch := getc_int in let* temp := getc_int in pair ch (join lch temp) e
  else ret (ch, e).

Definition join_be (a b : Z) : Z := Z.lor (Z.shiftl a 8) b.
Definition join_le (a b : Z) : Z := Z.lor a (Z.shiftl b 8).

(** The switch over the encoding; a byte order mark sets it, and the function calls
    itself for the first character. *)
Definition getc_with (word : Z -> (Z -> Z -> Z) -> Z -> prog (loader T) (Z * Z)) (e : Z) : prog (loader T) (Z * Z) :=
  with_byte e (fun ch =>
    if e =? ENCODE_UTF8 then
      if single ch then if mxml_bad_char ch then bad_char ch e else ret (ch, e)
      else if ch =? 0xfe then
        with_byte e (fun ch =>
          if negb (ch =? 0xff) then eof e else with_byte ENCODE_UTF16BE (word ENCODE_UTF16BE join_be))
      else if ch =? 0xff then
        with_byte e (fun ch =>
          if negb (ch =? 0xfe) then eof e else with_byte ENCODE_UTF16LE (word ENCODE_UTF16LE join_le))
      else multi_byte e ch
    else if e =? ENCODE_UTF16BE then word e join_be ch
    else if e =? ENCODE_UTF16LE then word e join_le ch
    else ret (ch, e)).
End Bytes.

(** *** Files *)

(** What is left of a file that is read. *)
Record filein := mkFilein { in_rest : bytes }.

Definition file_byte : prog (loader filein) (option Z) := fun z =>
  match in_rest (o_source z) with
  | [] => Ret None z
  | c :: s => Ret (Some (uchar c)) (mkLoader (o_xml z) (mkFilein s))
  end.

Definition file_getc : Z -> prog (loader filein) (Z * Z) := getc_with file_byte (file_word file_byte).

(** *** Descriptors *)

(** What a [read] finds: data, a signal or nothing yet, an error; behind the list the end. *)
Inductive arrival : Type := Data (bs : bytes) | Again | Failed.

(** The bytes from [current] to [end], and the reads to come. *)
Record fdin := mkFdin { n_buffer : bytes; n_reads : list arrival }.

(** [sizeof(buf->buffer)] *)
Definition FDBUF : Z := 8192.

(** The loop of [mxml_fd_read]: the bytes read, none at the end, [None] for an error. *)
Fixpoint read_again (l : list arrival) : option bytes * list arrival :=
  match l with
  | [] => (Some [], [])
  | Again :: l => read_again l
  | Failed :: l => (None, l)
  | Data bs :: l =>
      let k := Z.to_nat FDBUF in
      (Some (take k bs), if bool_decide (drop k bs = []) then l else Data (drop k bs) :: l)
  end.

Definition mxml_fd_read : prog (loader fdin) Z := fun z =>
  match read_again (n_reads (o_source z)) with
  | (None, l) | (Some [], l) => Ret (-1) (mkLoader (o_xml z) (mkFdin (n_buffer (o_source z)) l))
  | (Some bs, l) => Ret 0 (mkLoader (o_xml z) (mkFdin bs l))
  end.

(** [if (buf->current >= buf->end) if (mxml_fd_read(buf) < 0) return (EOF);] and the byte. *)
Definition fd_byte : prog (loader fdin) (option Z) :=
  let* b := get (fun z => n_buffer (o_source z)) in
  let* rc := match b with [] => mxml_fd_read | _ => ret 0 end in
  if rc <? 0 then ret None
  else
    let* b := get (fun z => n_buffer (o_source z)) in
    match b with
    | [] => fault
    | c :: b => modify (fun z => mkLoader (o_xml z) (mkFdin b (n_reads (o_source z)))) ;;; ret (Some (uchar c))
    end.

Definition fd_getc : Z -> prog (loader fdin) (Z * Z) := getc_with fd_byte (fd_word fd_byte).

(** *** Strings *)

(** [( *s)[k] & 255], from the memory behind the pointer. *)
Definition peek (k : Z) : prog (loader bytes) Z := fun z =>
  match znth (o_source z) k with Some c => Ret (uchar c) z | None => Fault end.

Definition advance (k : Z) : prog (loader bytes) unit := modify (fun z => mkLoader (o_xml z) (drop (Z.to_nat k) (o_source z))).

Definition is_more (b : Z) : bool := Z.land b 0xc0 =? 0x80.
Definition add_bits (ch b : Z) : Z := Z.lor (Z.shiftl ch 6) (Z.land b 0x3f).

(** The multi-byte cases: all bytes are tested before the pointer moves; the tests stop at
    the first byte that does not go on. *)
Fixpoint peek_more (n : nat) (k ch : Z) : prog (loader bytes) (option Z) :=
  match n with
  | O => ret (Some ch)
  | S n =>
      let* b := peek k in
      if is_more b then peek_more n (k + 1) (add_bits ch b) else ret None
  end.

Definition string_multi (n : nat) (ch low e : Z) : prog (loader bytes) (Z * Z) :=
  let* o := peek_more n 0 ch in
  match o with
  | None => ret (EOF, e)
  | Some ch => advance (Z.of_nat n) ;;; if ch <? low then ret (EOF, e) else ret (ch, e)
  end.

(** The UTF-16 cases, behind the first byte: [second] is the byte that must not be zero. *)
Definition string_word (e second : Z) (join : Z -> Z -> Z) (ch : Z) : prog (loader bytes) (Z * Z) :=
  advance 1 ;;;
  if mxml_bad_char ch then bad_char ch e
  else if surrogate ch then
    let* z := peek second in
    if z =? 0 then ret (EOF, e)
    else
      let* a := peek 0 in
      let* b := peek 1 in
      advance 2 ;;; pair ch (join a b) e
  else ret (ch, e).

Definition string_be (ch : Z) : prog (loader bytes) (Z * Z) :=
  let* b := peek 0 in string_word ENCODE_UTF16BE 0 join_be (join_be ch b).

(** A zero word is the end: the pointer goes back in front of it. *)
Definition string_le (z0 : bytes) (ch : Z) : prog (loader bytes) (Z * Z) :=
  let* b := peek 0 in
  if join_le ch b =? 0 then modify (fun z => mkLoader (o_xml z) z0) ;;; ret (EOF, ENCODE_UTF16LE)
  else string_word ENCODE_UTF16LE 1 join_le (join_le ch b).

(** The call after a byte order mark. *)
Definition string_first (e : Z) : prog (loader bytes) (Z * Z) :=
  let* ch := peek 0 in
  let* z0 := get o_source in
  if negb (ch =? 0) || (e =? ENCODE_UTF16LE) then
    advance 1 ;;; if e =? ENCODE_UTF16BE then string_be ch else string_le z0 ch
  else ret (EOF, e).

Definition string_getc (e : Z) : prog (loader bytes) (Z * Z) :=
  let* ch := peek 0 in
  let* z0 := get o_source in
  if negb (ch =? 0) || (e =? ENCODE_UTF16LE) then
    advance 1 ;;;
    if e =? ENCODE_UTF8 then
      if single ch then if mxml_bad_char ch then bad_char ch e else ret (ch, e)
      else if ch =? 0xfe then
        let* b := peek 0 in
        if negb (b =? 0xff) then ret (EOF, e) else advance 1 ;;; string_first ENCODE_UTF16BE
      else if ch =? 0xff then
        let* b := peek 0 in
        if negb (b =? 0xfe) then ret (EOF, e) else advance 1 ;;; string_first ENCODE_UTF16LE
      else if Z.land ch 0xe0 =? 0xc0 then string_multi 1 (Z.land ch 0x1f) 0x80 e
      else if Z.land ch 0xf0 =? 0xe0 then string_multi 2 (Z.land ch 0x0f) 0x800 e
      else if Z.land ch 0xf8 =? 0xf0 then string_multi 3 (Z.land ch 0x07) 0x10000 e
      else ret (EOF, e)
    else if e =? ENCODE_UTF16BE then string_be ch
    else if e =? ENCODE_UTF16LE then string_le z0 ch
    else ret (EOF, e)
  else ret (EOF, e).
End Getc.

(** The compiled file. *)
Definition mxml_fd_getc : Z -> prog (loader fdin) (Z * Z) := fd_getc true.
Definition mxml_file_getc : Z -> prog (loader filein) (Z * Z) := file_getc true.

(** ** Loading

    The encoding is [ENCODE_UTF8] at the start, and in the compiled file it stays so
    ([encoding_stays]). *)

(** The bytes that reads still give. *)
Definition pending (l : list arrival) : bytes := List.concat (map (fun a => match a with Data bs => bs | _ => [] end) l).
Definition fd_rest (d : fdin) : bytes := n_buffer d ++ pending (n_reads d).

#[export] Instance file_source : Source filein :=
  {| getc := let* (ch, _) := mxml_file_getc ENCODE_UTF8 in ret ch; unread f := length (in_rest f) |}.
#[export] Instance fd_source : Source fdin :=
  {| getc := let* (ch, _) := mxml_fd_getc ENCODE_UTF8 in ret ch; unread d := length (fd_rest d) |}.

Section Loads.
Context (destroy_cb : Z -> Z -> prog xml unit).

(** [fp] is the rest of the file. *)
Definition mxmlLoadFile (top : Z) (fp : bytes) : prog xml Z := load_from destroy_cb top (mkFilein fp).

(** [fd] is what its reads will find. *)
Definition mxmlLoadFd (top : Z) (fd : list arrival) : prog xml Z := load_from destroy_cb top (mkFdin [] fd).
End Loads.

(** ** Bytes are characters *)

Lemma mxml_error_ends m x : exists x', mxml_error m x = Ret tt x'.
Proof. unfold mxml_error, XmlSaveError, bind, get. cbn [obind]. destruct (x_callback x); cbn; eauto. Qed.

Lemma single_byte ch : single true ch = true.
Proof. unfold single. now destruct (Z.land ch 128 =? 0). Qed.

(** What a reader of the compiled file comes to. *)
Definition byte_getc {T} (next : prog (loader T) (option Z)) : prog (loader T) Z :=
  let* o := next in
  match o with
  | None => ret EOF
  | Some ch =>
      if mxml_bad_char ch then
        load_error (str "Bad control character 0x" ++ fmt_02x_int ch ++ str " not allowed by XML standard!") ;;; ret EOF
      else ret ch
  end.

Lemma getc_with_eq {T} (next : prog (loader T) (option Z)) word z :
  getc_with true next word ENCODE_UTF8 z = (let* ch := byte_getc next in ret (ch, ENCODE_UTF8)) z.
Proof.
  unfold getc_with, with_byte, byte_getc, bad_char, bind. destruct (next z) as [[ch|] z'| | | | |]; cbn [obind]; try done.
  change (ENCODE_UTF8 =? ENCODE_UTF8) with true. cbn match. rewrite single_byte. destruct (mxml_bad_char ch); [|done].
  now destruct (load_error _ z').
Qed.

Lemma encoding_stays {T} (next : prog (loader T) (option Z)) word z ch e z' :
  getc_with true next word ENCODE_UTF8 z = Ret (ch, e) z' -> e = ENCODE_UTF8.
Proof. rewrite getc_with_eq. intros (c & z1 & _ & [= _ <- _])%bind_Ret_inv. done. Qed.

Lemma getc_byte {T} (next : prog (loader T) (option Z)) word z :
  (let* (ch, _) := getc_with true next word ENCODE_UTF8 in ret ch) z = byte_getc next z.
Proof.
  unfold bind at 1. rewrite getc_with_eq. unfold bind. now destruct (byte_getc next z).
Qed.

Definition string_byte : prog (loader bytes) (option Z) := fun z =>
  match o_source z with [] => Ret None z | c :: s => Ret (Some (uchar c)) (mkLoader (o_xml z) s) end.

Lemma string_getc_byte z : mxml_string_getc z = byte_getc string_byte z.
Proof. destruct z as [x [|c s]]; [done|]. reflexivity. Qed.

(** The memory of a string. *)
Lemma string_getc_memory x s t : nonul s ->
  match mxml_string_getc (mkLoader x s) with
  | Ret ch (mkLoader x' s') => string_getc true ENCODE_UTF8 (mkLoader x (s ++ NUL :: t)) = Ret (ch, ENCODE_UTF8) (mkLoader x' (s' ++ NUL :: t))
  | _ => False
  end.
Proof.
  intros Hs. destruct s as [|c s]; [done|]. apply Forall_cons in Hs as [Hc Hs].
  assert (U : uchar c <> 0) by (intros H0; apply Hc; now apply uchar_inj).
  unfold string_getc, mxml_string_getc, bind, get, modify, peek, advance. cbn [obind o_source app]. change (znth (c :: s ++ NUL :: t) 0) with (Some c).
  cbn [obind]. rewrite (proj2 (Z.eqb_neq _ _) U). cbn [negb orb obind]. change (ENCODE_UTF8 =? ENCODE_UTF8) with true. cbn match. rewrite single_byte.
  unfold modify. cbn [obind o_xml o_source]. change (drop (Z.to_nat 1) (c :: s ++ NUL :: t)) with (s ++ NUL :: t).
  destruct (mxml_bad_char (uchar c)); [|done]. destruct (mxml_error_ends (str "Bad control character 0x" ++ fmt_02x_int (uchar c) ++ str " not allowed by XML standard!") x) as (xe & Ee).
  unfold bad_char, bind, load_error, in_xml, set_o_source. cbn [obind o_xml o_source]. rewrite Ee. done.
Qed.

(** ** What the encodings miss *)

(** The compiled file takes a character of two bytes apart. *)
Example utf8_taken_apart x :
  mxml_file_getc ENCODE_UTF8 (mkLoader x (mkFilein (utf8 233))) = Ret (195, ENCODE_UTF8) (mkLoader x (mkFilein (tl (utf8 233)))).
Proof. reflexivity. Qed.

(** *** Pairs of words *)

Definition high (ch : Z) : Z := 0xd800 + (ch - 0x10000) / 1024.
Definition low (ch : Z) : Z := 0xdc00 + (ch - 0x10000) mod 1024.
Definition word_be (w : Z) : bytes := [to_char (w / 256); to_char (w mod 256)].
Definition word_le (w : Z) : bytes := [to_char (w mod 256); to_char (w / 256)].

(** The last character of each block of 1024 is refused: 0xdfff is a low word. *)
Example pair_refused x :
  mxml_file_getc ENCODE_UTF16BE (mkLoader x (mkFilein (word_be (high 0x103fe) ++ word_be (low 0x103fe)))) = Ret (0x103fe, ENCODE_UTF16BE) (mkLoader x (mkFilein []))
  /\ mxml_file_getc ENCODE_UTF16BE (mkLoader x (mkFilein (word_be (high 0x103ff) ++ word_be (low 0x103ff)))) = Ret (EOF, ENCODE_UTF16BE) (mkLoader x (mkFilein []))
  /\ mxml_file_getc ENCODE_UTF16LE (mkLoader x (mkFilein (word_le (high 0x103ff) ++ word_le (low 0x103ff)))) = Ret (EOF, ENCODE_UTF16LE) (mkLoader x (mkFilein [])).
Proof. split; [reflexivity|]. split; reflexivity. Qed.

(** *** Witnesses *)

Definition demo_fd : fdin := mkFdin (str "a") [Again; Data (str "b<"); Data (str "c")].

Definition demo_stream_xml : xml :=
  mkXml (<[1 := mkNode 0 0 0 2 2 (Element (Some (str "r")) []) 1]> {[2 := mkNode 0 0 1 0 0 (Element (Some (str "a")) []) 1]}) 3 [] false 0 [].

