(* ===== verification/Mxmlfile.v ===== *)
(** * Loading from files and descriptors

    [mxmlLoadFile] and [mxmlLoadFd] (Mxmlstream.v) are [mxml_load_data] (Mxmlload.v) with
    other readers.  A simulation between two sources, along the definitions of the loader,
    shows that they do what [mxmlLoadString] does with the same bytes; the laws of a source
    (Mxmlsafe.v) show that loading from a descriptor is safe whatever its reads find. *)

From Stdlib Require Import ZArith Lia Bool List Ascii String.
From stdpp Require Import base list gmap.
From S2P Require Import Prelude Cstr Mxmlentity Mxmltree Xml Xmlpath Xmldoc Mxmlsave Mxmlload Mxmltext Mxmlread Mxmlsafe Mxmlstream.

(** ** Two sources

    [P] relates sources that give the same characters. *)

Section Alike.
Context {T1 T2 : Type} {Src1 : Source T1} {Src2 : Source T2} (P : T1 -> T2 -> Prop).

Definition alike (o1 : loader T1) (o2 : loader T2) : Prop := o_xml o1 = o_xml o2 /\ P (o_source o1) (o_source o2).

Context (unread_alike : forall p q, P p q -> unread p = unread q) (getc_alike : sim alike getc getc).

#[local] Hint Resolve getc_alike : sim.

Lemma sim_in_xml {A} (m : prog xml A) : sim alike (in_xml m) (in_xml m).
Proof. intros [x p] [y q] [E H]. cbn in E. subst y. unfold in_xml. cbn [o_xml o_source]. now destruct (m x). Qed.

#[local] Hint Resolve sim_in_xml : sim.

Lemma sim_load_error s : sim alike (load_error s) (load_error s).
Proof. apply sim_in_xml. Qed.

Lemma sim_while {V R} (b1 : V -> prog (loader T1) (V + R)) b2 v :
  (forall v, sim alike (b1 v) (b2 v)) -> sim alike (while_ b1 v) (while_ b2 v).
Proof.
  intros H o1 o2 Ho. unfold while_, bind at 1 2, get. cbn [obind]. rewrite (unread_alike _ _ (proj2 Ho)).
  generalize (S (S (unread (o_source o2)))). intros fuel. revert v o1 o2 Ho. induction fuel as [|fuel IH]; intros v; [easy|]. cbn [loop].
  apply sim_bind; [apply H|]. intros [v'|r]; [exact (IH v')|apply sim_ret].
Qed.

Lemma sim_while_getc {V R} (b1 : Z -> V -> prog (loader T1) (V + R)) b2 e v :
  (forall ch v, sim alike (b1 ch v) (b2 ch v)) -> sim alike (while_getc b1 e v) (while_getc b2 e v).
Proof. intros H. apply sim_while. intros w. unfold each_char. sim_tac. Qed.

(** [load_tac] also enters loops. *)
Ltac load_tac :=
  repeat match goal with
    | |- sim _ (while_getc _ _ _) _ => apply sim_while_getc
    | |- sim _ (while_ _ _) _ => apply sim_while
    | _ => progress sim_tac
    end.

#[local] Hint Resolve sim_load_error : sim.

Lemma sim_malloc64 : sim alike malloc64 malloc64.
Proof. unfold malloc64. load_tac. Qed.
Lemma sim_free_buf b : sim alike (free_buf b) (free_buf b).
Proof. unfold free_buf. load_tac. Qed.
Lemma sim_store bs b : sim alike (store bs b) (store bs b).
Proof. unfold store. load_tac. Qed.
#[local] Hint Resolve sim_malloc64 sim_free_buf sim_store : sim.

Lemma sim_terminate b : sim alike (terminate b) (terminate b).
Proof. unfold terminate. load_tac. Qed.
Lemma sim_add_char ch b : sim alike (mxml_add_char ch b) (mxml_add_char ch b).
Proof. unfold mxml_add_char. load_tac. Qed.
Lemma sim_element_name null node : sim alike (element_name null node) (element_name null node).
Proof. unfold element_name. load_tac. Qed.
#[local] Hint Resolve sim_terminate sim_add_char sim_element_name : sim.

Lemma sim_error_at node a b : sim alike (error_at node a b) (error_at node a b).
Proof. unfold error_at. load_tac. Qed.
#[local] Hint Resolve sim_error_at : sim.

Lemma sim_get_entity node : sim alike (mxml_get_entity node) (mxml_get_entity node).
Proof. unfold mxml_get_entity, read_entity. load_tac. Qed.
#[local] Hint Resolve sim_get_entity : sim.

Lemma sim_take_char node ch b : sim alike (take_char node ch b) (take_char node ch b).
Proof. unfold take_char. load_tac. Qed.
#[local] Hint Resolve sim_take_char : sim.

Lemma sim_take_until stop node b : sim alike (take_until stop node b) (take_until stop node b).
Proof. unfold take_until. load_tac. Qed.
Lemma sim_skip_blanks ch : sim alike (skip_blanks ch) (skip_blanks ch).
Proof. unfold skip_blanks. load_tac. Qed.
Lemma sim_quoted_name node q b : sim alike (quoted_name node q b) (quoted_name node q b).
Proof. unfold quoted_name. load_tac. Qed.
#[local] Hint Resolve sim_take_until sim_skip_blanks sim_quoted_name : sim.

Lemma sim_read_name node ch b : sim alike (read_name node ch b) (read_name node ch b).
Proof. unfold read_name, start. load_tac. Qed.
Lemma sim_read_value node ch b : sim alike (read_value node ch b) (read_value node ch b).
Proof. unfold read_value, start. load_tac. Qed.
Lemma sim_element_error node a b : sim alike (element_error node a b) (element_error node a b).
Proof. unfold element_error. load_tac. Qed.
#[local] Hint Resolve sim_read_name sim_read_value sim_element_error : sim.

Lemma sim_grab_end node ch : sim alike (grab_end node ch) (grab_end node ch).
Proof. unfold grab_end. load_tac. Qed.
#[local] Hint Resolve sim_grab_end : sim.

Lemma sim_parse_attr node ch bufs : sim alike (parse_attr node ch bufs) (parse_attr node ch bufs).
Proof. unfold parse_attr, missing_value. load_tac. Qed.
#[local] Hint Resolve sim_parse_attr : sim.

Lemma sim_parse_element node : sim alike (mxml_parse_element node) (mxml_parse_element node).
Proof. unfold mxml_parse_element. load_tac. Qed.
Lemma sim_value_node ch v : sim alike (value_node ch v) (value_node ch v).
Proof. unfold value_node. cbn zeta. load_tac. Qed.
Lemma sim_blank_node ch v : sim alike (blank_node ch v) (blank_node ch v).
Proof. unfold blank_node. load_tac. Qed.
Lemma sim_read_tag node b : sim alike (read_tag node b) (read_tag node b).
Proof. unfold read_tag. load_tac. Qed.
Lemma sim_gather stop b : sim alike (gather stop b) (gather stop b).
Proof. unfold gather. load_tac. Qed.
Lemma sim_gather_declaration node ch b : sim alike (gather_declaration node ch b) (gather_declaration node ch b).
Proof. unfold gather_declaration. load_tac. Qed.
#[local] Hint Resolve sim_parse_element sim_value_node sim_blank_node sim_read_tag sim_gather sim_gather_declaration : sim.

Lemma sim_add_special kind d l v m1 m2 : sim alike m1 m2 -> sim alike (add_special kind d l v m1) (add_special kind d l v m2).
Proof. intros H. unfold add_special, continue, goto_error. load_tac. Qed.
Lemma sim_close_tag ch b v : sim alike (close_tag ch b v) (close_tag ch b v).
Proof. unfold close_tag, skip_tag, continue, goto_error. cbn zeta. load_tac. Qed.

Section Destroy.
Context (destroy_cb : Z -> Z -> prog xml unit).

Lemma sim_open_tag ch b v : sim alike (open_tag destroy_cb ch b v) (open_tag destroy_cb ch b v).
Proof. unfold open_tag, continue, goto_error, break. cbn zeta. load_tac. Qed.
#[local] Hint Resolve sim_add_special sim_close_tag sim_open_tag : sim.

Lemma sim_tag v : sim alike (tag destroy_cb v) (tag destroy_cb v).
Proof. unfold tag, goto_error. load_tac. Qed.
#[local] Hint Resolve sim_tag : sim.

Lemma sim_load_char ch v : sim alike (load_char destroy_cb ch v) (load_char destroy_cb ch v).
Proof. unfold load_char, continue, goto_error. load_tac. Qed.
#[local] Hint Resolve sim_load_char : sim.

Lemma sim_load_data top : sim alike (mxml_load_data destroy_cb top) (mxml_load_data destroy_cb top).
Proof. unfold mxml_load_data, missing_close. load_tac. apply sim_load_char. Qed.

(** Sources that are alike are loaded alike. *)
Lemma load_from_alike top p q x : P p q -> load_from destroy_cb top p x = load_from destroy_cb top q x.
Proof.
  intros H. unfold load_from. pose proof (sim_load_data top (mkLoader x p) (mkLoader x q) (conj eq_refl H)) as S.
  destruct (mxml_load_data _ _ (mkLoader x p)), (mxml_load_data _ _ (mkLoader x q)); cbn in S; try done; unfold alike in S; intuition congruence.
Qed.
End Destroy.
End Alike.

(** ** The same characters *)

(** The reads of a descriptor find data, or are interrupted, until the end. *)
Definition reads_ok (l : list arrival) : Prop :=
  Forall (fun a => match a with Data bs => bs <> [] | Again => True | Failed => False end) l.

Lemma read_again_eq l : reads_ok l ->
  exists bs l', read_again l = (Some bs, l') /\ bs ++ pending l' = pending l /\ reads_ok l' /\ (bs = [] -> pending l = []).
Proof.
  induction 1 as [|a l Ha Hl IH]; [exists [], []; repeat (split; [done|]); split; [constructor|done]|]. destruct a as [bs| |]; [|exact IH|destruct Ha].
  cbn [read_again]. set (k := Z.to_nat FDBUF). exists (take k bs). eexists. split; [reflexivity|].
  assert (N : take k bs <> []) by (intros E; apply (f_equal length) in E; rewrite length_take in E; unfold k, FDBUF in E; destruct bs; [done|]; cbn [length] in E; lia).
  unfold pending at 2. cbn [map List.concat]. fold (pending l). case_bool_decide as E.
  - rewrite <- (take_drop k bs) at 2. now rewrite E, app_nil_r.
  - unfold pending. cbn [map List.concat]. rewrite app_assoc, take_drop. split; [done|]. split; [now constructor|done].
Qed.

Lemma fd_byte_eq x d : reads_ok (n_reads d) ->
  exists d', reads_ok (n_reads d')
    /\ fd_byte (mkLoader x d) = Ret (match fd_rest d with [] => None | c :: _ => Some (uchar c) end) (mkLoader x d')
    /\ fd_rest d' = tl (fd_rest d).
Proof.
  intros H. destruct d as [b l]. unfold fd_rest. cbn [n_buffer n_reads] in *. unfold fd_byte, bind, get. cbn [obind o_source n_buffer].
  destruct b as [|c b].
  - destruct (read_again_eq l H) as (bs & l' & E & Ep & Hl & Hn). unfold mxml_fd_read. cbn [o_source n_reads n_buffer o_xml]. rewrite E.
    destruct bs as [|c bs].
    + exists (mkFdin [] l'). rewrite (Hn eq_refl) in *. cbn [app] in *. split; [done|]. split; [reflexivity|]. exact Ep.
    + exists (mkFdin bs l'). cbn [app]. rewrite <- Ep. split; [done|]. split; reflexivity.
  - exists (mkFdin b l). split; [done|]. split; reflexivity.
Qed.

(** A string, and a file or a descriptor that has the same bytes. *)
Definition file_has (f : filein) (s : bytes) : Prop := in_rest f = s.
Definition fd_has (d : fdin) (s : bytes) : Prop := reads_ok (n_reads d) /\ fd_rest d = s.

Lemma sim_byte_getc {T1 T2} (P : T1 -> T2 -> Prop) n1 n2 : sim (alike P) n1 n2 -> sim (alike P) (byte_getc n1) (byte_getc n2).
Proof. intros H. unfold byte_getc. sim_tac; apply sim_load_error. Qed.

Lemma sim_ext {S1 S2 A} (R : S1 -> S2 -> Prop) (m1 m1' : prog S1 A) m2 m2' :
  (forall s, m1 s = m1' s) -> (forall s, m2 s = m2' s) -> sim R m1' m2' -> sim R m1 m2.
Proof. intros E1 E2 H s t Hst. rewrite E1, E2. now apply H. Qed.

Lemma file_alike : sim (alike file_has) getc getc.
Proof.
  eapply sim_ext; [exact (getc_byte _ _)|exact string_getc_byte|]. apply sim_byte_getc.
  intros [x [[|c s]]] [y t] [E H]; cbn in E, H; unfold file_has in H; cbn in H; subst; done.
Qed.

Lemma fd_alike : sim (alike fd_has) getc getc.
Proof.
  eapply sim_ext; [exact (getc_byte _ _)|exact string_getc_byte|]. apply sim_byte_getc.
  intros [x d] [y t] [E [H Er]]; cbn in E, H, Er. subst y. destruct (fd_byte_eq x d H) as (d' & Hd & E & Er'). rewrite E, Er.
  unfold string_byte. cbn [o_source o_xml]. rewrite Er in Er'. now destruct t.
Qed.

(** C20: loading from a file, and loading from a descriptor in whatever pieces its reads find
    the bytes and however often they are interrupted, give what loading from a string
    with these bytes gives: the same tree, result, messages and allocations. *)
Theorem loads_agree destroy_cb top s fd x :
  reads_ok fd -> pending fd = s ->
  mxmlLoadFile destroy_cb top s x = mxmlLoadString destroy_cb top s x
  /\ mxmlLoadFd destroy_cb top fd x = mxmlLoadString destroy_cb top s x.
Proof.
  intros H E. split.
  - apply (load_from_alike file_has); [|exact file_alike|done]. now intros [q] p <-.
  - apply (load_from_alike fd_has); [|exact fd_alike|now split]. intros d p [_ Hp]. now rewrite <- Hp.
Qed.

(** ** Any reads *)

Lemma read_again_rest l : forall o l', read_again l = (o, l') -> default [] o ++ pending l' = pending l.
Proof.
  induction l as [|[bs| |] l IH]; intros o l'; cbn [read_again]; [now intros [= <- <-]| |exact (IH o l')|now intros [= <- <-]].
  set (k := Z.to_nat FDBUF). intros [= <- <-]. cbn [default]. unfold id. unfold pending at 2. cbn [map List.concat]. fold (pending l). case_bool_decide as E.
  - rewrite <- (take_drop k bs) at 2. now rewrite E, app_nil_r.
  - unfold pending. cbn [map List.concat]. now rewrite app_assoc, take_drop.
Qed.

(** A byte at a time is a good source. *)
Lemma byte_getc_ends {T} {Src : Source T} (next : prog (loader T) (option Z)) o :
  (exists b o', next o = Ret b o' /\ o_xml o' = o_xml o /\ (unread (o_source o') + match b with Some _ => 1 | None => 0 end <= unread (o_source o))%nat) ->
  ends (byte_getc next) o (fun ch o' => after o o' /\ (ch <> EOF -> mxml_bad_char ch = false /\ (left_in o' < left_in o)%nat)).
Proof.
  intros (b & o1 & E & Ex & Hl). assert (A : after o o1) by (split; [rewrite Ex; now split|unfold left_in; destruct b; lia]).
  unfold byte_getc. apply (ends_bind _ _ _ (fun b' o' => b' = b /\ o' = o1)); [now exists b, o1|]. intros b' o' [-> ->].
  destruct b as [ch|]; [|apply ends_ret; split; [exact A|now intros []]]. destruct (mxml_bad_char ch) eqn:B.
  - eapply ends_bind; [apply load_error_ends|]. intros ? o2 A2. apply ends_ret. split; [exact (after_trans _ _ _ A A2)|now intros []].
  - apply ends_ret. split; [exact A|]. intros _. split; [exact B|]. unfold left_in. lia.
Qed.

#[export] Instance fd_good : Good_source fdin.
Proof.
  intros [x d]. destruct (byte_getc_ends fd_byte (mkLoader x d)) as (ch & o' & E & H).
  - destruct d as [b l]. cbn [unread fd_source o_source o_xml]. unfold fd_byte, bind, get, fd_rest. cbn [obind o_source n_buffer n_reads].
    destruct b as [|c b]; [|exists (Some (uchar c)), (mkLoader x (mkFdin b l)); split; [done|]; split; [done|unfold fd_rest; cbn [unread fd_source o_source n_buffer n_reads app length]; lia]].
    unfold mxml_fd_read. cbn [o_source o_xml n_buffer n_reads]. destruct (read_again l) as [o l'] eqn:R. pose proof (read_again_rest _ _ _ R) as Er.
    destruct o as [[|c b]|]; cbn [default] in Er; unfold id in Er; cbn [app] in Er.
    + exists None, (mkLoader x (mkFdin [] l')). split; [done|]. split; [done|]. unfold fd_rest. cbn [unread fd_source o_source n_buffer n_reads app]. rewrite Er. lia.
    + exists (Some (uchar c)), (mkLoader x (mkFdin b l')). split; [done|]. split; [done|]. unfold fd_rest. cbn [unread fd_source o_source n_buffer n_reads app]. rewrite <- Er. cbn [length]. lia.
    + exists None, (mkLoader x (mkFdin [] l')). split; [done|]. split; [done|]. unfold fd_rest. cbn [unread fd_source o_source n_buffer n_reads app]. rewrite Er. lia.
  - exists ch, o'. split; [|exact H]. rewrite <- E. exact (getc_byte _ _ _).
Qed.

(** Loading from a descriptor is safe whatever its reads find: data in any pieces and with
    any bytes, interruptions and errors.  It returns no node, or the root of a well-formed
    tree; the nodes there were before are as they were. *)
Theorem mxmlLoadFd_safe destroy_cb fd y :
  bounded y -> x_allocs y = [] ->
  exists p y', mxmlLoadFd destroy_cb NULL fd y = Ret p y'
    /\ (p = NULL \/ exists t, wf y' NULL NULL NULL t /\ root t = p)
    /\ (forall q, is_Some (x_heap y !! q) -> x_heap y' !! q = x_heap y !! q).
Proof.
  intros B Hal. destruct (load_from_safe destroy_cb (mkFdin [] fd) y B Hal) as (p & y' & ts & E & Kx & H). pose proof Kx as [_ _ _ _ _ _ O].
  exists p, y'. split; [exact E|]. split; [|intros q Hq; apply O; now apply B]. destruct H as [H|H]; [now left|right].
  apply in_map_iff in H as (t & Er & Ht). apply in_split in Ht as (a & b & ->). exists t. split; [exact (proj1 (kept_wf _ _ _ _ _ _ Kx))|exact Er].
Qed.

(** *** Witnesses *)

Definition demo_reads : list arrival := [Data (str "<a x='1'>b"); Again; Data (str "</"); Data (str "a>")].

Lemma loads_agree_witness :
  exists p y, mxmlLoadFd no_destructor NULL demo_reads before_init = Ret p y
    /\ value <$> x_heap y !! p = Some (Element (Some (str "a")) [mkAttr (str "x") (Some (str "1"))]).
Proof.
  destruct (loads_agree no_destructor NULL (str "<a x='1'>b</a>") demo_reads before_init) as [_ E];
    [repeat constructor; discriminate|reflexivity|].
  rewrite E. assert (L : exists p y, mxmlLoadString no_destructor NULL (str "<a x='1'>b</a>") before_init = Ret p y
    /\ value <$> x_heap y !! p = Some (Element (Some (str "a")) [mkAttr (str "x") (Some (str "1"))])); [|exact L].
  eexists _, _. split; vm_compute; reflexivity.
Defined.

(** An error of a read in the middle of a tag. *)
Lemma mxmlLoadFd_safe_witness :
  exists p y, mxmlLoadFd no_destructor NULL [Data (str "<a"); Failed] before_init = Ret p y /\ (p = NULL \/ exists t, wf y NULL NULL NULL t /\ root t = p).
Proof.
  destruct (mxmlLoadFd_safe no_destructor [Data (str "<a"); Failed] before_init) as (p & y & E & H & _); [apply before_init_owned|reflexivity|].
  exact (ex_intro _ p (ex_intro _ y (conj E H))).
Defined.
