(* ===== verification/Mxmlfd.v ===== *)
(** * Saving to descriptors and allocated strings: a part of [src/dev/src/pubfun/xml/mxml-file.c]

    [mxmlSaveFd] writes through a buffer that is flushed when fewer than four bytes are
    free; [mxmlSaveAllocString] saves into a string of the right length.  The theorems:
    whatever the writes take, a descriptor gets what a file gets, and the buffer does not
    overflow; an allocated string is the whole text of a document. *)

From Stdlib Require Import ZArith Lia Bool List Ascii String.
From stdpp Require Import base list gmap.
From S2P Require Import Prelude Cstr Mxmlentity Mxmltree Xml Mxmlsave Mxmlload Mxmltext Mxmlstream.

(** ** The writer to a descriptor *)

(** The bytes in front of [current], what has been written, and how the next writes end:
    a negative result is an error, another one the most that is taken. *)
Record fdout := mkFdout { o_buffer : bytes; o_written : bytes; o_writes : list Z }.

Definition set_o_buffer (b : bytes) (o : fdout) : fdout := mkFdout b (o_written o) (o_writes o).

Definition fd_write (bs : bytes) : prog fdout Z := fun o =>
  match o_writes o with
  | [] => Ret (len bs) (mkFdout (o_buffer o) (o_written o ++ bs) [])
  | k :: l =>
      if k <? 0 then Ret k (mkFdout (o_buffer o) (o_written o) l)
      else let d := take (Z.to_nat k) bs in Ret (len d) (mkFdout (o_buffer o) (o_written o ++ d) l)
  end.

(** The loop over what is left.  Every turn uses up a result; behind those one is enough. *)
Fixpoint write_rest (fuel : nat) (ptr : bytes) : prog fdout Z :=
  match fuel with
  | O => spin
  | S fuel =>
      match ptr with
      | [] => ret 0
      | _ => let* bytes := fd_write ptr in if bytes <? 0 then ret (-1) else write_rest fuel (drop (Z.to_nat bytes) ptr)
      end
  end.

Definition mxml_fd_write : prog fdout Z :=
  let* o := get id in
  if bool_decide (o_buffer o = []) then ret 0
  else
    let* rc := write_rest (S (S (length (o_writes o)))) (o_buffer o) in
    if rc <? 0 then ret (-1) else modify (set_o_buffer []) ;;; ret 0.

(** [buf.end] leaves four bytes. *)
Definition mxml_fd_putc (ch : Z) : prog fdout Z :=
  let* b := get o_buffer in
  let* rc := if FDBUF - 4 <=? len b then mxml_fd_write else ret 0 in
  if rc <? 0 then ret (-1)
  else
    let* b := get o_buffer in
    let* b := deref (if len (b ++ utf8 ch) <=? FDBUF then Some (b ++ utf8 ch) else None) in
    modify (set_o_buffer b) ;;; ret 0.

Section SaveFd.
Context (fmt_f : Z -> bytes).

Definition save_fd (heap : gmap Z mxml_node_t) (cb : option (Z -> Z -> prog fdout (option bytes))) (node : Z) : prog fdout Z :=
  let cb := match cb with None => _write_ws_cb heap | Some cb => cb end in
  let* col := write_tree mxml_fd_putc heap (Some cb) fmt_f node in
  if col <? 0 then ret (-1)
  else
    let* rc := if 0 <? col then mxml_fd_putc (uchar LF) else ret 0 in
    if rc <? 0 then ret (-1) else mxml_fd_write.

(** The result and what the descriptor has got; [writes] are the results of the writes. *)
Definition mxmlSaveFd (node : Z) (writes : list Z) (cb : option (Z -> Z -> prog fdout (option bytes))) : prog xml (Z * fdout) :=
  let* h := get x_heap in with_state (save_fd h cb node) (mkFdout [] [] writes).
End SaveFd.

(** ** Allocated strings *)

Section SaveAlloc.
(** [%f], and what new memory of a length holds. *)
Context (fmt_f : Z -> bytes) (junk : Z -> bytes).

(** The string at a pointer. *)
Definition string_at (s : bytes) : prog xml bytes := if terminated s then ret (cstr s) else fault.

(** The string that the result points to, or the null pointer. *)
Definition mxmlSaveAllocString (node : Z) (cb : option (Z -> Z -> prog sink (option bytes))) : prog xml (option bytes) :=
  let* (bytes, buffer) := mxmlSaveString fmt_f node (junk 8192) 8192 cb in
  if bytes <=? 0 then ret None
  else if bytes <? 8192 - 1 then let* s := string_at buffer in strdup s
  else
    let* ok := granted in
    if negb ok then ret None
    else
      let* (_, s) := mxmlSaveString fmt_f node (junk (bytes + 1)) (bytes + 1) cb in
      let* s := string_at s in ret (Some s).

Context (junk_length : forall n, 0 <= n -> len (junk n) = n).

Lemma string_at_saved t b x : nonul t -> len t < len b -> string_at (saved t b) x = Ret t x.
Proof.
  intros Ht Hl. unfold string_at. rewrite cstr_saved by done. rewrite take_ge by (unfold len in *; lia).
  replace (terminated (saved t b)) with true; [done|]. symmetry. unfold saved. rewrite (proj2 (Z.ltb_lt _ _) Hl).
  unfold terminated. apply existsb_exists. exists NUL. split; [apply in_or_app; right; now left|apply ceqb_refl].
Qed.

(** [mxmlSaveAllocString] gives the whole text of a document, however long it is. *)
Theorem mxmlSaveAllocString_correct x ts r :
  wf x NULL NULL NULL (PT r (Element (Some version) []) ts) -> forallb good ts = true -> len (doc_text ts) <= wrap -> x_allocs x = [] ->
  mxmlSaveAllocString r None x = Ret (Some (doc_text ts ++ [LF])) x.
Proof.
  intros W G Hw Hal. set (full := doc_text ts ++ [LF]). pose proof (nonul_document ts G : nonul full) as N.
  assert (L : 0 < len full) by (unfold full, len; rewrite length_app; cbn [length]; lia).
  unfold mxmlSaveAllocString. rewrite (bind_Ret _ _ _ _ _ (mxmlSaveString_eq fmt_f x ts r (junk 8192) 8192 W G eq_refl (junk_length 8192 ltac:(lia)) Hw)).
  fold full. rewrite (proj2 (Z.leb_gt (len full) 0)) by done. destruct (Z.ltb_spec (len full) (8192 - 1)) as [H|H].
  - rewrite (bind_Ret _ _ _ _ _ (string_at_saved full (junk 8192) x N ltac:(rewrite junk_length; lia))). now apply strdup_eq.
  - rewrite (bind_Ret _ _ _ _ _ (granted_eq x Hal)). cbn [negb]. assert (J : len (junk (len full + 1)) = len full + 1) by (apply junk_length; lia).
    rewrite (bind_Ret _ _ _ _ _ (mxmlSaveString_eq fmt_f x ts r (junk (len full + 1)) (len full + 1) W G ltac:(lia) J Hw)).
    fold full. now rewrite (bind_Ret _ _ _ _ _ (string_at_saved full (junk (len full + 1)) x N ltac:(rewrite J; lia))).
Qed.
End SaveAlloc.

(** ** Two outputs, the same text *)

Section Put.
Context {S1 S2 : Type} (R : S1 -> S2 -> Prop).
Context (putc1 : Z -> prog S1 Z) (putc2 : Z -> prog S2 Z) (sim_putc : forall ch, sim R (putc1 ch) (putc2 ch)).

Lemma sim_put {A} ch (k1 : prog S1 (option A)) k2 : sim R k1 k2 -> sim R (put putc1 ch k1) (put putc2 ch k2).
Proof. intros H. apply sim_bind; [apply sim_putc|]. intros rc. destruct (rc <? 0); [apply sim_ret|exact H]. Qed.

Lemma sim_put_all {A} s (k1 : prog S1 (option A)) k2 : sim R k1 k2 -> sim R (put_all putc1 s k1) (put_all putc2 s k2).
Proof. intros H. induction s as [|c s IH]; [exact H|]. now apply sim_put. Qed.

Lemma sim_or_fail {A B} (m1 : prog S1 (option A)) m2 (k1 : A -> prog S1 (option B)) k2 :
  sim R m1 m2 -> (forall a, sim R (k1 a) (k2 a)) -> sim R (or_fail m1 k1) (or_fail m2 k2).
Proof. intros Hm Hk. apply sim_bind; [exact Hm|]. intros [a|]; [apply Hk|apply sim_ret]. Qed.

(** The same for programs that put characters. *)
Ltac put_tac :=
  repeat first
    [ assumption
    | apply sim_ret | apply sim_putc | apply sim_deref
    | apply sim_put | apply sim_put_all
    | apply sim_or_fail; [|intros ?]
    | apply sim_bind; [|intros ?]
    | match goal with
      | |- sim _ (if ?b then _ else _) _ => destruct b
      | |- sim _ (match ?o with _ => _ end) _ => destruct o
      end ].

Lemma sim_write_string s : sim R (mxml_write_string putc1 s) (mxml_write_string putc2 s).
Proof. induction s as [|c s IH]; cbn [mxml_write_string]; put_tac. Qed.

Lemma sim_write_quoted q s : sim R (write_quoted putc1 q s) (write_quoted putc2 q s).
Proof. induction s as [|c s IH]; cbn [write_quoted]; put_tac. Qed.

Lemma sim_write_name s : sim R (mxml_write_name putc1 s) (mxml_write_name putc2 s).
Proof. unfold mxml_write_name. destruct s as [|c s]; [apply sim_ret|]. destruct (is_quote c); put_tac. apply sim_write_quoted. Qed.

Lemma sim_write_ws s : forall col, sim R (write_ws putc1 s col) (write_ws putc2 s col).
Proof. induction s as [|c s IH]; intros col; cbn [write_ws]; put_tac; apply IH. Qed.

Context (heap : gmap Z mxml_node_t) (fmt_f : Z -> bytes).
Context (cb1 : Z -> Z -> prog S1 (option bytes)) (cb2 : Z -> Z -> prog S2 (option bytes)) (sim_cb : forall p w, sim R (cb1 p w) (cb2 p w)).

Lemma sim_mxml_write_ws p ws col : sim R (mxml_write_ws putc1 (Some cb1) p ws col) (mxml_write_ws putc2 (Some cb2) p ws col).
Proof. unfold mxml_write_ws. apply sim_bind; [apply sim_cb|]. intros [s|]; [apply sim_write_ws|apply sim_ret]. Qed.

Lemma sim_separator {A} col (k1 : Z -> prog S1 (option A)) k2 : (forall c, sim R (k1 c) (k2 c)) -> sim R (separator putc1 col k1) (separator putc2 col k2).
Proof. intros H. unfold separator. destruct (wrap <? col); apply sim_put, H. Qed.

Lemma sim_write_attrs attrs : forall col, sim R (write_attrs putc1 attrs col) (write_attrs putc2 attrs col).
Proof.
  induction attrs as [|a attrs IH]; intros col; cbn [write_attrs]; [apply sim_ret|].
  assert (C : forall c, sim R
    (or_fail (mxml_write_name putc1 (a_name a)) (fun _ => match a_value a with
      | Some v => put putc1 (uchar "="%char) (put putc1 (uchar QUOTE) (or_fail (mxml_write_string putc1 v) (fun _ => put putc1 (uchar QUOTE)
          (write_attrs putc1 attrs (c + (len (a_name a) + match a_value a with Some v => len v + 3 | None => 0 end))))))
      | None => write_attrs putc1 attrs (c + (len (a_name a) + match a_value a with Some v => len v + 3 | None => 0 end)) end))
    (or_fail (mxml_write_name putc2 (a_name a)) (fun _ => match a_value a with
      | Some v => put putc2 (uchar "="%char) (put putc2 (uchar QUOTE) (or_fail (mxml_write_string putc2 v) (fun _ => put putc2 (uchar QUOTE)
          (write_attrs putc2 attrs (c + (len (a_name a) + match a_value a with Some v => len v + 3 | None => 0 end))))))
      | None => write_attrs putc2 attrs (c + (len (a_name a) + match a_value a with Some v => len v + 3 | None => 0 end)) end))).
  { intros c. apply sim_or_fail; [apply sim_write_name|]. intros _. destruct (a_value a) as [v|]; [|apply IH].
    do 2 apply sim_put. apply sim_or_fail; [apply sim_write_string|]. intros _. apply sim_put, IH. }
  destruct (wrap <? _); apply sim_put, C.
Qed.

Lemma sim_write_open_name s : sim R (write_open_name putc1 s) (write_open_name putc2 s).
Proof. unfold write_open_name. destruct (_ || _); [put_tac|apply sim_write_name]. Qed.

Lemma sim_write_element wc1 wc2 p n e attrs col :
  (forall q c, sim R (wc1 q c) (wc2 q c)) ->
  sim R (write_element putc1 (Some cb1) wc1 p n e attrs col) (write_element putc2 (Some cb2) wc2 p n e attrs col).
Proof.
  intros H. unfold write_element. cbn zeta.
  repeat first
    [ apply sim_ret | apply sim_mxml_write_ws | apply sim_write_open_name | apply sim_write_attrs | apply sim_write_string | apply H
    | apply sim_put | apply sim_or_fail; [|intros ?] | apply sim_bind; [|intros ?]
    | match goal with |- sim _ (if ?b then _ else _) _ => destruct b end ].
Qed.

Lemma sim_write_value s col : sim R (write_value putc1 s col) (write_value putc2 s col).
Proof. apply sim_or_fail; [apply sim_write_string|]. intros _. apply sim_ret. Qed.

Lemma sim_write_number s col : sim R (write_number putc1 s col) (write_number putc2 s col).
Proof. apply sim_bind; [apply sim_deref|]. intros t. apply sim_write_value. Qed.

Lemma sim_write_node fuel : forall p col,
  sim R (mxml_write_node putc1 heap (Some cb1) fmt_f fuel p col) (mxml_write_node putc2 heap (Some cb2) fmt_f fuel p col).
Proof.
  induction fuel as [|fuel IH]; intros p col; cbn [mxml_write_node]; [easy|]. destruct (p =? NULL); [apply sim_ret|].
  apply sim_bind; [apply sim_deref|]. intros n. apply sim_or_fail; [|intros c; apply IH].
  destruct (value n) as [|[e|] attrs|k|[o|]|r|w [s|]|? ?]; try easy.
  - apply sim_write_element. intros q c. apply sim_or_fail; [apply IH|]. intros c'. apply sim_ret.
  - destruct (negb _); [apply sim_separator; intros c|]; apply sim_write_number.
  - apply sim_write_value.
  - destruct (negb _); [apply sim_separator; intros c|]; apply sim_write_number.
  - destruct (_ && _); [apply sim_separator; intros c|]; apply sim_write_value.
Qed.

Lemma sim_write_tree p : sim R (write_tree putc1 heap (Some cb1) fmt_f p) (write_tree putc2 heap (Some cb2) fmt_f p).
Proof. apply sim_bind; [apply sim_write_node|]. intros o. apply sim_ret. Qed.
End Put.

Section SimWs.
Context {S1 S2 : Type} (R : S1 -> S2 -> Prop) (heap : gmap Z mxml_node_t).

Lemma sim_at_node p : sim R (at_node heap p) (at_node heap p).
Proof. apply sim_deref. Qed.

Lemma sim_fill_cat s fill : sim R (fill_cat s fill) (fill_cat s fill).
Proof. apply sim_deref. Qed.

Lemma sim_indent turns : forall p fill, sim R (indent heap turns p fill) (indent heap turns p fill).
Proof.
  induction turns as [|turns IH]; intros p fill; cbn [indent]; [apply sim_ret|]. destruct (p =? NULL); [apply sim_ret|].
  apply sim_bind; [apply sim_at_node|]. intros n. destruct (parent n =? NULL); [apply sim_ret|].
  apply sim_bind; [apply sim_fill_cat|]. intros f. apply IH.
Qed.

Lemma sim_find_element step fuel : forall p, sim R (find_element heap step fuel p) (find_element heap step fuel p).
Proof.
  induction fuel as [|fuel IH]; intros p; cbn [find_element]; [easy|]. destruct (p =? NULL); [apply sim_ret|].
  apply sim_bind; [apply sim_at_node|]. intros n. destruct (value n); (apply sim_ret || apply IH).
Qed.

Lemma sim_write_ws_cb p w : sim R (_write_ws_cb heap p w) (_write_ws_cb heap p w).
Proof.
  unfold _write_ws_cb. destruct (w =? MXML_WS_AFTER_CLOSE); [apply sim_bind; [apply sim_fill_cat|intros; apply sim_ret]|].
  destruct (w =? MXML_WS_BEFORE_CLOSE).
  - apply sim_bind; [apply sim_at_node|]. intros n. apply sim_bind; [apply sim_find_element|]. intros q.
    destruct (negb _); [|apply sim_ret]. apply sim_bind; [apply sim_indent|]. intros f. apply sim_ret.
  - destruct (w =? MXML_WS_BEFORE_OPEN); [|apply sim_ret].
    apply sim_bind; [apply sim_at_node|]. intros n. apply sim_bind; [apply sim_find_element|]. intros q.
    apply sim_bind; [destruct (_ && _); [apply sim_fill_cat|apply sim_ret]|]. intros f.
    apply sim_bind; [apply sim_indent|]. intros g. apply sim_ret.
Qed.
End SimWs.

(** A file that takes everything, and a descriptor: the same bytes, of which the last ones
    may still be in the buffer. *)
Definition same_text (f : file) (o : fdout) : Prop :=
  f_outcomes f = [] /\ f_written f = o_written o ++ o_buffer o /\ len (o_buffer o) < FDBUF /\ Forall (fun k => 0 <= k) (o_writes o).

Lemma write_rest_eq fuel : forall ptr o,
  Forall (fun k => 0 <= k) (o_writes o) -> (length (o_writes o) + 2 <= fuel)%nat ->
  exists l, write_rest fuel ptr o = Ret 0 (mkFdout (o_buffer o) (o_written o ++ ptr) l) /\ Forall (fun k => 0 <= k) l.
Proof.
  induction fuel as [|fuel IH]; intros ptr o Hk Hf; [lia|]. cbn [write_rest]. destruct ptr as [|c ptr].
  - exists (o_writes o). split; [|done]. destruct o. cbn. now rewrite app_nil_r.
  - set (p := c :: ptr). destruct o as [b w l]. cbn [o_writes o_buffer o_written] in *. destruct Hk as [|k l Hk Hl].
    + unfold bind, fd_write. cbn [o_writes o_written o_buffer obind]. rewrite (proj2 (Z.ltb_ge (len p) 0)) by (unfold len; lia).
      replace (drop (Z.to_nat (len p)) p) with (@nil ascii) by (symmetry; apply drop_ge; unfold len; lia).
      destruct fuel as [|fuel]; [cbn in Hf; lia|]. cbn [write_rest]. exists []. split; [done|constructor].
    + unfold bind, fd_write. cbn [o_writes o_written o_buffer]. rewrite (proj2 (Z.ltb_ge k 0)) by done. cbn [obind].
      set (d := take (Z.to_nat k) p). rewrite (proj2 (Z.ltb_ge (len d) 0)) by (unfold len; lia).
      destruct (IH (drop (Z.to_nat (len d)) p) (mkFdout b (w ++ d) l)) as (l' & E & Hl'); [done|cbn in Hf; cbn; lia|].
      rewrite E. exists l'. split; [|done]. cbn [o_buffer o_written]. do 2 f_equal.
      assert (Ed : d = take (Z.to_nat (len d)) p).
      { unfold len, d. rewrite Nat2Z.id, length_take. destruct (le_lt_dec (Z.to_nat k) (length p)).
        - f_equal. lia.
        - rewrite Nat.min_r by lia. rewrite !take_ge by lia. done. }
      rewrite Ed at 1. rewrite <- app_assoc. f_equal. apply take_drop.
Qed.

Lemma fd_write_flushes o : Forall (fun k => 0 <= k) (o_writes o) ->
  exists l, mxml_fd_write o = Ret 0 (mkFdout [] (o_written o ++ o_buffer o) l) /\ Forall (fun k => 0 <= k) l.
Proof.
  intros Hk. unfold mxml_fd_write. unfold bind at 1. unfold get at 1. cbn [obind id]. case_bool_decide as E.
  - exists (o_writes o). split; [|done]. destruct o as [b w l]. cbn in *. subst. unfold ret. now rewrite app_nil_r.
  - destruct (write_rest_eq (S (S (length (o_writes o)))) (o_buffer o) o Hk ltac:(lia)) as (l & El & Hl).
    rewrite (bind_Ret _ _ _ _ _ El). exists l. split; [reflexivity|done].
Qed.

Lemma length_utf8 ch : 1 <= len (utf8 ch) <= 4.
Proof. unfold utf8, len. destruct (ch <? 128); [cbn; lia|]. destruct (ch <? 2048); [cbn; lia|]. destruct (ch <? 65536); cbn; lia. Qed.

Lemma sim_fd_putc ch : sim same_text (mxml_file_putc ch) (mxml_fd_putc ch).
Proof.
  intros f o (Ho & Hw & Hb & Hk). pose proof (length_utf8 ch) as Lu.
  assert (F : exists b w l, (if FDBUF - 4 <=? len (o_buffer o) then mxml_fd_write else ret 0) o = Ret 0 (mkFdout b w l)
    /\ w ++ b = o_written o ++ o_buffer o /\ len b < FDBUF - 4 /\ Forall (fun k => 0 <= k) l).
  { destruct (Z.leb_spec (FDBUF - 4) (len (o_buffer o))).
    - destruct (fd_write_flushes o Hk) as (l & E & Hl). exists [], (o_written o ++ o_buffer o), l. rewrite app_nil_r. split; [done|]. split; [done|]. split; [reflexivity|done].
    - exists (o_buffer o), (o_written o), (o_writes o). split; [now destruct o|]. done. }
  destruct F as (b & w & l & E & Ew & Lb & Hl).
  assert (P : mxml_fd_putc ch o = Ret 0 (mkFdout (b ++ utf8 ch) w l)).
  { unfold mxml_fd_putc. unfold bind at 1. unfold get at 1. cbn [obind]. rewrite (bind_Ret _ _ _ _ _ E). cbn [Z.ltb Z.compare].
    unfold bind, get, modify, ret. cbn [obind o_buffer]. rewrite (proj2 (Z.leb_le (len (b ++ utf8 ch)) FDBUF)) by (unfold len in *; rewrite length_app; lia).
    reflexivity. }
  rewrite P. unfold mxml_file_putc, write_file, bind, get, modify, ret. cbn [obind id]. rewrite Ho. cbn [obind same]. split; [done|].
  unfold same_text. cbn [f_outcomes f_written o_written o_buffer o_writes].
  split; [done|]. split; [now rewrite Hw, <- Ew, app_assoc|]. split; [unfold len in *; rewrite length_app; unfold FDBUF in *; lia|done].
Qed.

Lemma save_fd_eq fmt_f h p o : Forall (fun k => 0 <= k) (o_writes o) -> o_buffer o = [] ->
  match save_file fmt_f h None p (mkFile (o_written o) []) with
  | Ret r f => exists o', save_fd fmt_f h None p o = Ret r o' /\ f_written f = o_written o' ++ o_buffer o' /\ (r = 0 -> o_buffer o' = [])
  | Jump v f => exists o', save_fd fmt_f h None p o = Jump v o'
  | Exit v f => exists o', save_fd fmt_f h None p o = Exit v o'
  | Block f => exists o', save_fd fmt_f h None p o = Block o'
  | Spin => save_fd fmt_f h None p o = Spin
  | Fault => save_fd fmt_f h None p o = Fault
  end.
Proof.
  intros Hk Hb. assert (R0 : same_text (mkFile (o_written o) []) o).
  { split; [done|]. cbn [f_written]. rewrite Hb, app_nil_r. split; [done|]. split; [reflexivity|done]. }
  pose proof (sim_write_tree same_text mxml_file_putc mxml_fd_putc sim_fd_putc h fmt_f (_write_ws_cb h) (_write_ws_cb h)
    (sim_write_ws_cb same_text h) p _ _ R0) as T.
  unfold save_file, save_fd, bind.
  destruct (write_tree mxml_file_putc h (Some (_write_ws_cb h)) fmt_f p (mkFile (o_written o) [])) as [col f| | | | |];
    destruct (write_tree mxml_fd_putc h (Some (_write_ws_cb h)) fmt_f p o) as [col' o'| | | | |]; cbn [same obind] in *; try done;
    [|destruct T as [-> _]; eauto|destruct T as [-> _]; eauto|eauto].
  destruct T as [<- T]. destruct (col <? 0).
  - unfold ret. exists o'. split; [done|]. destruct T as (_ & T & _). split; [exact T|discriminate].
  - destruct (0 <? col).
    + pose proof (sim_fd_putc (uchar LF) f o' T) as T1. unfold mxml_file_putc, bind in T1.
      change (utf8 (uchar LF)) with [LF] in T1. destruct T as (Ho & _).
      unfold write_file, bind, get, modify, ret in T1 |- *. cbn [obind id] in T1 |- *. rewrite Ho in T1 |- *. cbn [obind] in T1 |- *.
      destruct (mxml_fd_putc (uchar LF) o') as [rc o''| | | | |]; cbn [same obind] in *; try done.
      destruct T1 as [<- (_ & T2 & _ & T3)]. cbn [Z.ltb Z.compare]. destruct (fd_write_flushes o'' T3) as (l & E & _). rewrite E.
      eexists. split; [reflexivity|]. cbn [o_written o_buffer]. rewrite app_nil_r. done.
    + unfold ret. cbn [obind Z.ltb Z.compare]. destruct T as (_ & T2 & _ & T3). destruct (fd_write_flushes o' T3) as (l & E & _). rewrite E.
      eexists. split; [reflexivity|]. cbn [o_written o_buffer]. rewrite app_nil_r. done.
Qed.

(** C19: saving a tree to a descriptor: when no write fails, however little each of them
    takes, the descriptor gets the bytes that [mxmlSaveFile] writes to a file, all of
    them, and the result is the same.  The buffer never overflows: a fault is one of the
    tree. *)
Theorem mxmlSaveFd_correct fmt_f node writes x :
  Forall (fun k => 0 <= k) writes ->
  match mxmlSaveFile fmt_f node (mkFile [] []) None x, mxmlSaveFd fmt_f node writes None x with
  | Ret (r, f) x1, Ret (r', o) x2 => r' = r /\ x2 = x1 /\ f_written f = o_written o ++ o_buffer o /\ (r = 0 -> o_buffer o = [])
  | Jump _ _, Jump _ _ | Exit _ _, Exit _ _ | Block _, Block _ | Spin, Spin | Fault, Fault => True
  | _, _ => False
  end.
Proof.
  intros Hk. pose proof (save_fd_eq fmt_f (x_heap x) node (mkFdout [] [] writes) Hk eq_refl) as H. cbn [o_written] in H.
  unfold mxmlSaveFile, mxmlSaveFd, bind, get, with_state. cbn [obind].
  destruct (save_file fmt_f (x_heap x) None node (mkFile [] [])) as [r f| | | | |].
  - destruct H as (o' & -> & Ho). done.
  - destruct H as (o' & ->). exact I.
  - destruct H as (o' & ->). exact I.
  - destruct H as (o' & ->). exact I.
  - now rewrite H.
  - now rewrite H.
Qed.

(** *** A witness *)

Lemma mxmlSaveFd_correct_witness :
  Forall (fun k => 0 <= k) [3; 0; 2]
  /\ exists o, mxmlSaveFd (fun _ => []) 1 [3; 0; 2] None demo_stream_xml = Ret (0, o) demo_stream_xml
     /\ o_written o = str "<r>" ++ [LF] ++ str "<a />" ++ [LF] ++ str "</r>" ++ [LF].
Proof.
  assert (H : Forall (fun k => 0 <= k) [3; 0; 2]) by (repeat (apply Forall_cons_2; [lia|]); apply Forall_nil_2). split; [exact H|].
  pose proof (mxmlSaveFd_correct (fun _ => []) 1 [3; 0; 2] demo_stream_xml H) as P.
  assert (E : exists f, mxmlSaveFile (fun _ => []) 1 (mkFile [] []) None demo_stream_xml = Ret (0, f) demo_stream_xml
    /\ f_written f = str "<r>" ++ [LF] ++ str "<a />" ++ [LF] ++ str "</r>" ++ [LF]) by (eexists; split; [vm_compute; reflexivity|reflexivity]).
  destruct E as (f & E & F). rewrite E in P.
  destruct (mxmlSaveFd (fun _ => []) 1 [3; 0; 2] None demo_stream_xml) as [[r' o] x2| | | | |]; [|destruct P..].
  destruct P as (-> & -> & W & B). exists o. split; [reflexivity|]. rewrite <- F, W, (B eq_refl). symmetry. apply app_nil_r.
Defined.
