(* ===== verification/Mxmlutf8.v ===== *)
(** * The copy of the XML files: the readers of [src/dev/src/pubfun/xml/mxml-file-utf8.c]

    The Makefile does not compile this copy of [mxml-file.c].  It tells bytes from the
    multi-byte characters of UTF-8, which the compiled file does not; its three readers of
    characters are those of Mxmlstream.v with [bytewise] false.  The theorem: what the
    writers have written as UTF-8 is read back. *)

From Stdlib Require Import ZArith Lia Bool List Ascii String.
From stdpp Require Import base list gmap.
From S2P Require Import Prelude Cstr Mxmlentity Mxmltree Xml Mxmlsave Mxmlload Mxmltext Mxmlstream Mxmlfile.

Definition mxml_fd_getc : Z -> prog (loader fdin) (Z * Z) := fd_getc false.
Definition mxml_file_getc : Z -> prog (loader filein) (Z * Z) := file_getc false.
Definition mxml_string_getc : Z -> prog (loader bytes) (Z * Z) := string_getc false.

(** ** Bytes and bits *)

Lemma below (n : nat) (P : Z -> bool) : forallb P (map Z.of_nat (List.seq 0 n)) = true -> forall k, 0 <= k < Z.of_nat n -> P k = true.
Proof.
  intros H k Hk. rewrite forallb_forall in H. apply H. apply in_map_iff. exists (Z.to_nat k). split; [lia|]. apply in_seq. lia.
Qed.

(** The first byte of each length, with the bits [k], and a byte that goes on. *)
Definition lead2 (k : Z) : bool :=
  (Z.lor 192 k =? 192 + k) && negb (single false (192 + k)) && negb (192 + k =? 0xfe) && negb (192 + k =? 0xff)
  && (Z.land (192 + k) 0xe0 =? 0xc0) && (Z.land (192 + k) 0x1f =? k).
Definition lead3 (k : Z) : bool :=
  (Z.lor 224 k =? 224 + k) && negb (single false (224 + k)) && negb (224 + k =? 0xfe) && negb (224 + k =? 0xff)
  && negb (Z.land (224 + k) 0xe0 =? 0xc0) && (Z.land (224 + k) 0xf0 =? 0xe0) && (Z.land (224 + k) 0x0f =? k).
Definition lead4 (k : Z) : bool :=
  (Z.lor 240 k =? 240 + k) && negb (single false (240 + k)) && negb (240 + k =? 0xfe) && negb (240 + k =? 0xff)
  && negb (Z.land (240 + k) 0xe0 =? 0xc0) && negb (Z.land (240 + k) 0xf0 =? 0xe0) && (Z.land (240 + k) 0xf8 =? 0xf0) && (Z.land (240 + k) 0x07 =? k).
Definition more_ok (k : Z) : bool := (Z.lor 128 k =? 128 + k) && (Z.land (128 + k) 0xc0 =? 0x80) && (Z.land (128 + k) 0x3f =? k).
Definition ascii_ok (k : Z) : bool := single false k.

Lemma lead2_all k : 0 <= k < 32 -> lead2 k = true.
Proof. apply (below 32). reflexivity. Qed.
Lemma lead3_all k : 0 <= k < 16 -> lead3 k = true.
Proof. apply (below 16). reflexivity. Qed.
Lemma lead4_all k : 0 <= k < 8 -> lead4 k = true.
Proof. apply (below 8). reflexivity. Qed.
Lemma more_all k : 0 <= k < 64 -> more_ok k = true.
Proof. apply (below 64). reflexivity. Qed.
Lemma ascii_all k : 0 <= k < 128 -> ascii_ok k = true.
Proof. apply (below 128). reflexivity. Qed.

(** [a << 6 | b] *)
Lemma shift_or a b : 0 <= b < 64 -> Z.lor (Z.shiftl a 6) b = a * 64 + b.
Proof.
  intros Hb. rewrite <- Z.lxor_lor, <- Z.add_nocarry_lxor.
  - rewrite Z.shiftl_mul_pow2 by lia. reflexivity.
  - apply Z.bits_inj'. intros n Hn. rewrite Z.land_spec, Z.bits_0. destruct (Z.lt_ge_cases n 6).
    + rewrite Z.shiftl_spec_low by done. reflexivity.
    + rewrite <- (Z.mod_small b (2 ^ 6)) by done. rewrite Z.mod_pow2_bits_high by lia. apply andb_false_r.
  - apply Z.bits_inj'. intros n Hn. rewrite Z.land_spec, Z.bits_0. destruct (Z.lt_ge_cases n 6).
    + rewrite Z.shiftl_spec_low by done. reflexivity.
    + rewrite <- (Z.mod_small b (2 ^ 6)) by done. rewrite Z.mod_pow2_bits_high by lia. apply andb_false_r.
Qed.

(** The four forms of a character, with its bits. *)
Inductive form (ch : Z) : Prop :=
  | Form1 (H : 0 <= ch < 128) (E : utf8 ch = [to_char ch])
  | Form2 a b (Ha : 2 <= a < 32) (Hb : 0 <= b < 64) (E : utf8 ch = [to_char (192 + a); to_char (128 + b)]) (Ec : ch = a * 64 + b)
  | Form3 a b c (Ha : 0 <= a < 16) (Hb : 0 <= b < 64) (Hc : 0 <= c < 64)
      (E : utf8 ch = [to_char (224 + a); to_char (128 + b); to_char (128 + c)]) (Ec : ch = (a * 64 + b) * 64 + c) (Hl : 2048 <= ch)
  | Form4 a b c d (Ha : 0 <= a < 8) (Hb : 0 <= b < 64) (Hc : 0 <= c < 64) (Hd : 0 <= d < 64)
      (E : utf8 ch = [to_char (240 + a); to_char (128 + b); to_char (128 + c); to_char (128 + d)]) (Ec : ch = ((a * 64 + b) * 64 + c) * 64 + d) (Hl : 65536 <= ch).

Lemma low_bits k : Z.land k 63 = k mod 64.
Proof. change 63 with (Z.ones 6). now rewrite Z.land_ones by lia. Qed.

Lemma more_lit k : 0 <= k < 64 -> Z.lor 128 k = 128 + k.
Proof. intros Hk. pose proof (more_all k Hk) as H. unfold more_ok in H. rewrite !andb_true_iff, !Z.eqb_eq in H. tauto. Qed.

Lemma utf8_form ch : 0 <= ch < 0x110000 -> form ch.
Proof.
  intros Hc. pose proof (Z.mod_pos_bound ch 64 eq_refl) as M0. pose proof (Z.div_mod ch 64 ltac:(lia)) as D0.
  set (q := ch / 64) in *. pose proof (Z.mod_pos_bound q 64 eq_refl) as M1. pose proof (Z.div_mod q 64 ltac:(lia)) as D1.
  set (r := q / 64) in *. pose proof (Z.mod_pos_bound r 64 eq_refl) as M2. pose proof (Z.div_mod r 64 ltac:(lia)) as D2.
  set (u := r / 64) in *.
  assert (S6 : Z.shiftr ch 6 = q) by (rewrite Z.shiftr_div_pow2 by lia; done).
  assert (S12 : Z.shiftr ch 12 = r) by (rewrite Z.shiftr_div_pow2 by lia; unfold r, q; rewrite Z.div_div by lia; done).
  assert (S18 : Z.shiftr ch 18 = u) by (rewrite Z.shiftr_div_pow2 by lia; unfold u, r, q; rewrite !Z.div_div by lia; done).
  destruct (Z.lt_ge_cases ch 128); [apply Form1; [lia|unfold utf8; now rewrite (proj2 (Z.ltb_lt ch 128)) by done]|].
  assert (U : utf8 ch = if ch <? 2048 then [to_char (Z.lor 192 q); to_char (128 + ch mod 64)]
    else if ch <? 65536 then [to_char (Z.lor 224 r); to_char (128 + q mod 64); to_char (128 + ch mod 64)]
    else [to_char (Z.lor 240 u); to_char (128 + r mod 64); to_char (128 + q mod 64); to_char (128 + ch mod 64)]).
  { unfold utf8. rewrite (proj2 (Z.ltb_ge ch 128)) by done. rewrite S6, S12, S18, !low_bits, !more_lit by done. done. }
  destruct (Z.ltb_spec ch 2048).
  - apply (Form2 _ q (ch mod 64)); [lia|lia| |lia]. rewrite U. pose proof (lead2_all q ltac:(lia)) as L. unfold lead2 in L.
    rewrite !andb_true_iff, Z.eqb_eq in L. destruct L as [[[[[-> _] _] _] _] _]. done.
  - destruct (Z.ltb_spec ch 65536).
    + apply (Form3 _ r (q mod 64) (ch mod 64)); [lia|lia|lia| |lia|lia]. rewrite U. pose proof (lead3_all r ltac:(lia)) as L. unfold lead3 in L.
      rewrite !andb_true_iff, Z.eqb_eq in L. destruct L as [[[[[[-> _] _] _] _] _] _]. done.
    + apply (Form4 _ u (r mod 64) (q mod 64) (ch mod 64)); [lia|lia|lia|lia| |lia|lia]. rewrite U. pose proof (lead4_all u ltac:(lia)) as L. unfold lead4 in L.
      rewrite !andb_true_iff, Z.eqb_eq in L. destruct L as [[[[[[[-> _] _] _] _] _] _] _]. done.
Qed.

Lemma uchar_small k : 0 <= k < 256 -> uchar (to_char k) = k.
Proof. intros Hk. rewrite uchar_to_char. now apply Z.mod_small. Qed.

(** Splits the facts on a byte into equations. *)
Ltac byte_facts H := rewrite ?andb_true_iff, ?negb_true_iff in H; decompose [and] H; clear H.

Section Decode.
Context {T : Type} (next : prog (loader T) (option Z)) (word : Z -> (Z -> Z -> Z) -> Z -> prog (loader T) (Z * Z)).
(** The states in which the text [s] is still to be read. *)
Context (src : xml -> loader T -> bytes -> Prop).
Context (next_ok : forall x z c s, src x z (c :: s) -> exists z', next z = Ret (Some (uchar c)) z' /\ src x z' s).

Lemma with_more_eq x z e a k s (f : Z -> prog (loader T) (Z * Z)) :
  0 <= k < 64 -> src x z (to_char (128 + k) :: s) ->
  exists z', with_more next e a f z = f (a * 64 + k) z' /\ src x z' s.
Proof.
  intros Hk Hs. destruct (next_ok _ _ _ _ Hs) as (z' & E & Hz). exists z'. split; [|done].
  pose proof (more_all k Hk) as H. unfold more_ok in H. byte_facts H. unfold with_more, with_byte.
  rewrite (bind_Ret _ _ _ _ _ E), uchar_small by lia.
  repeat match goal with H : (_ =? _) = true |- _ => apply Z.eqb_eq in H end.
  replace (Z.land (128 + k) 192) with 128 by congruence. cbn [negb Z.eqb Pos.eqb].
  replace (Z.land (128 + k) 63) with k by congruence. now rewrite shift_or.
Qed.

Lemma decode x z ch rest :
  0 <= ch < 0x110000 -> mxml_bad_char ch = false -> src x z (utf8 ch ++ rest) ->
  exists z', getc_with false next word ENCODE_UTF8 z = Ret (ch, ENCODE_UTF8) z' /\ src x z' rest.
Proof.
  intros Hc Hbad Hs. destruct (utf8_form ch Hc) as [H E|a b Ha Hb E Ec|a b c Ha Hb Hc' E Ec Hl|a b c d Ha Hb Hc' Hd E Ec Hl];
    rewrite E in Hs; cbn [app] in Hs; destruct (next_ok _ _ _ _ Hs) as (z1 & E1 & Hs1); unfold getc_with, with_byte;
    rewrite (bind_Ret _ _ _ _ _ E1), uchar_small by lia; change (ENCODE_UTF8 =? ENCODE_UTF8) with true; cbn match.
  - pose proof (ascii_all ch H) as A. unfold ascii_ok in A. rewrite A, Hbad. exists z1. done.
  - pose proof (lead2_all a ltac:(lia)) as F. unfold lead2 in F. byte_facts F.
    repeat match goal with H : _ = false |- _ => rewrite H; clear H end.
    unfold multi_byte. replace (Z.land (192 + a) 224 =? 192) with true by congruence.
    replace (Z.land (192 + a) 31) with a by (symmetry; now apply Z.eqb_eq).
    destruct (with_more_eq x z1 ENCODE_UTF8 a b rest (at_least ENCODE_UTF8 128) Hb Hs1) as (z2 & -> & Hs2).
    exists z2. split; [|done]. unfold at_least. rewrite <- Ec. destruct (Z.ltb_spec ch 128); [lia|done].
  - pose proof (lead3_all a ltac:(lia)) as F. unfold lead3 in F. byte_facts F.
    unfold multi_byte.
    repeat match goal with H : _ = false |- _ => rewrite H; clear H end.
    replace (Z.land (224 + a) 240 =? 224) with true by congruence.
    replace (Z.land (224 + a) 15) with a by (symmetry; now apply Z.eqb_eq).
    destruct (with_more_eq x z1 ENCODE_UTF8 a b (to_char (128 + c) :: rest) (fun ch => with_more next ENCODE_UTF8 ch (at_least ENCODE_UTF8 2048)) Hb Hs1) as (z2 & -> & Hs2).
    destruct (with_more_eq x z2 ENCODE_UTF8 (a * 64 + b) c rest (at_least ENCODE_UTF8 2048) Hc' Hs2) as (z3 & -> & Hs3).
    exists z3. split; [|done]. unfold at_least. rewrite <- Ec. destruct (Z.ltb_spec ch 2048); [lia|done].
  - pose proof (lead4_all a ltac:(lia)) as F. unfold lead4 in F. byte_facts F.
    unfold multi_byte.
    repeat match goal with H : _ = false |- _ => rewrite H; clear H end.
    replace (Z.land (240 + a) 248 =? 240) with true by congruence.
    replace (Z.land (240 + a) 7) with a by (symmetry; now apply Z.eqb_eq).
    destruct (with_more_eq x z1 ENCODE_UTF8 a b (to_char (128 + c) :: to_char (128 + d) :: rest) (fun ch => with_more next ENCODE_UTF8 ch (fun ch => with_more next ENCODE_UTF8 ch (at_least ENCODE_UTF8 65536))) Hb Hs1) as (z2 & -> & Hs2).
    destruct (with_more_eq x z2 ENCODE_UTF8 (a * 64 + b) c (to_char (128 + d) :: rest) (fun ch => with_more next ENCODE_UTF8 ch (at_least ENCODE_UTF8 65536)) Hc' Hs2) as (z3 & -> & Hs3).
    destruct (with_more_eq x z3 ENCODE_UTF8 ((a * 64 + b) * 64 + c) d rest (at_least ENCODE_UTF8 65536) Hd Hs3) as (z4 & -> & Hs4).
    exists z4. split; [|done]. unfold at_least. rewrite <- Ec. destruct (Z.ltb_spec ch 65536); [lia|done].
Qed.
End Decode.

(** Strings. *)
Lemma peek_more_eq bs : forall x k ch pre rest,
  Forall (fun b => 0 <= b < 64) bs -> k = Z.of_nat (length pre) ->
  peek_more (length bs) k ch (mkLoader x (pre ++ map (fun b => to_char (128 + b)) bs ++ rest))
  = Ret (Some (fold_left (fun ch b => ch * 64 + b) bs ch)) (mkLoader x (pre ++ map (fun b => to_char (128 + b)) bs ++ rest)).
Proof.
  induction bs as [|b bs IH]; intros x k ch pre rest H ->; [done|]. apply Forall_cons in H as [Hb H]. cbn [length peek_more map fold_left app].
  unfold bind, peek. cbn [o_source]. unfold znth. rewrite (proj2 (Z.ltb_ge _ 0)), Nat2Z.id by lia.
  rewrite list_lookup_middle by done. cbn [obind]. rewrite uchar_small by lia.
  pose proof (more_all b Hb) as F. unfold more_ok in F. byte_facts F. unfold is_more.
  match goal with H : (Z.land _ 192 =? 128) = true |- _ => rewrite H end.
  unfold add_bits. replace (Z.land (128 + b) 63) with b by (symmetry; now apply Z.eqb_eq). rewrite shift_or by done.
  replace (pre ++ to_char (128 + b) :: map (fun b => to_char (128 + b)) bs ++ rest)
    with ((pre ++ [to_char (128 + b)]) ++ map (fun b => to_char (128 + b)) bs ++ rest) by (now rewrite <- app_assoc).
  apply IH; [done|]. rewrite length_app. cbn [length]. lia.
Qed.

Lemma string_multi_eq x bs ch low e rest :
  Forall (fun b => 0 <= b < 64) bs -> low <= fold_left (fun ch b => ch * 64 + b) bs ch ->
  string_multi (length bs) ch low e (mkLoader x (map (fun b => to_char (128 + b)) bs ++ rest))
  = Ret (fold_left (fun ch b => ch * 64 + b) bs ch, e) (mkLoader x rest).
Proof.
  intros H Hl. unfold string_multi. rewrite (bind_Ret _ _ _ _ _ (peek_more_eq bs x 0 ch [] rest H eq_refl)). unfold bind, advance, modify. cbn [obind o_xml o_source app].
  rewrite Nat2Z.id, drop_app_length' by (now rewrite length_map). now rewrite (proj2 (Z.ltb_ge _ low)).
Qed.

(** The first byte of a character. *)
Definition string_tail (ch : Z) : prog (loader bytes) (Z * Z) :=
  if single false ch then if mxml_bad_char ch then bad_char ch ENCODE_UTF8 else ret (ch, ENCODE_UTF8)
  else if ch =? 0xfe then
    let* b := peek 0 in
    if negb (b =? 0xff) then ret (EOF, ENCODE_UTF8) else advance 1 ;;; string_first ENCODE_UTF16BE
  else if ch =? 0xff then
    let* b := peek 0 in
    if negb (b =? 0xfe) then ret (EOF, ENCODE_UTF8) else advance 1 ;;; string_first ENCODE_UTF16LE
  else if Z.land ch 0xe0 =? 0xc0 then string_multi 1 (Z.land ch 0x1f) 0x80 ENCODE_UTF8
  else if Z.land ch 0xf0 =? 0xe0 then string_multi 2 (Z.land ch 0x0f) 0x800 ENCODE_UTF8
  else if Z.land ch 0xf8 =? 0xf0 then string_multi 3 (Z.land ch 0x07) 0x10000 ENCODE_UTF8
  else ret (EOF, ENCODE_UTF8).

Lemma string_step x c s : uchar c <> 0 ->
  mxml_string_getc ENCODE_UTF8 (mkLoader x (c :: s)) = string_tail (uchar c) (mkLoader x s).
Proof.
  intros Hc. unfold mxml_string_getc, string_getc. unfold bind at 1. unfold peek at 1. cbn [o_source]. change (znth (c :: s) 0) with (Some c).
  cbn [obind]. unfold bind at 1. unfold get at 1. cbn [obind]. rewrite (proj2 (Z.eqb_neq _ 0) Hc). cbn [negb orb].
  unfold bind at 1. unfold advance at 1. unfold modify. cbn [obind o_xml o_source]. reflexivity.
Qed.

Lemma string_decode x ch rest :
  0 <= ch < 0x110000 -> mxml_bad_char ch = false ->
  mxml_string_getc ENCODE_UTF8 (mkLoader x (utf8 ch ++ rest)) = Ret (ch, ENCODE_UTF8) (mkLoader x rest).
Proof.
  intros Hc Hbad. destruct (utf8_form ch Hc) as [H E|a b Ha Hb E Ec|a b c Ha Hb Hc' E Ec Hl|a b c d Ha Hb Hc' Hd E Ec Hl]; rewrite E; cbn [app].
  - assert (ch <> 0) by (intros ->; discriminate Hbad). rewrite string_step by (rewrite uchar_small; lia). rewrite uchar_small by lia.
    pose proof (ascii_all ch H) as A. unfold ascii_ok in A. unfold string_tail. now rewrite A, Hbad.
  - rewrite string_step by (rewrite uchar_small; lia). rewrite uchar_small by lia. unfold string_tail.
    pose proof (lead2_all a ltac:(lia)) as F. unfold lead2 in F. byte_facts F.
    repeat match goal with H : _ = false |- _ => rewrite H; clear H end. replace (Z.land (192 + a) 224 =? 192) with true by congruence.
    replace (Z.land (192 + a) 31) with a by (symmetry; now apply Z.eqb_eq).
    pose proof (string_multi_eq x [b] a 128 ENCODE_UTF8 rest ltac:(repeat first [apply Forall_nil_2|apply Forall_cons_2; [assumption|]]) ltac:(cbn [fold_left]; lia)) as M.
    cbn [length map app fold_left] in M. now rewrite M, <- Ec.
  - rewrite string_step by (rewrite uchar_small; lia). rewrite uchar_small by lia. unfold string_tail.
    pose proof (lead3_all a ltac:(lia)) as F. unfold lead3 in F. byte_facts F.
    repeat match goal with H : _ = false |- _ => rewrite H; clear H end. replace (Z.land (224 + a) 240 =? 224) with true by congruence.
    replace (Z.land (224 + a) 15) with a by (symmetry; now apply Z.eqb_eq).
    pose proof (string_multi_eq x [b; c] a 2048 ENCODE_UTF8 rest ltac:(repeat first [apply Forall_nil_2|apply Forall_cons_2; [assumption|]]) ltac:(cbn [fold_left]; lia)) as M.
    cbn [length map app fold_left] in M. now rewrite M, <- Ec.
  - rewrite string_step by (rewrite uchar_small; lia). rewrite uchar_small by lia. unfold string_tail.
    pose proof (lead4_all a ltac:(lia)) as F. unfold lead4 in F. byte_facts F.
    repeat match goal with H : _ = false |- _ => rewrite H; clear H end. replace (Z.land (240 + a) 248 =? 240) with true by congruence.
    replace (Z.land (240 + a) 7) with a by (symmetry; now apply Z.eqb_eq).
    pose proof (string_multi_eq x [b; c; d] a 65536 ENCODE_UTF8 rest ltac:(repeat first [apply Forall_nil_2|apply Forall_cons_2; [assumption|]]) ltac:(cbn [fold_left]; lia)) as M.
    cbn [length map app fold_left] in M. now rewrite M, <- Ec.
Qed.

(** C21: in the copy a character that [mxml_file_putc], [mxml_fd_putc] or [mxml_string_putc]
    has written as UTF-8 is read back by all three readers, whatever the pieces in which a
    descriptor gives its bytes; what follows is left. *)
Theorem utf8_read_back x ch rest d :
  0 <= ch < 0x110000 -> mxml_bad_char ch = false -> reads_ok (n_reads d) -> fd_rest d = utf8 ch ++ rest ->
  mxml_string_getc ENCODE_UTF8 (mkLoader x (utf8 ch ++ rest)) = Ret (ch, ENCODE_UTF8) (mkLoader x rest)
  /\ mxml_file_getc ENCODE_UTF8 (mkLoader x (mkFilein (utf8 ch ++ rest))) = Ret (ch, ENCODE_UTF8) (mkLoader x (mkFilein rest))
  /\ exists d', mxml_fd_getc ENCODE_UTF8 (mkLoader x d) = Ret (ch, ENCODE_UTF8) (mkLoader x d')
     /\ reads_ok (n_reads d') /\ fd_rest d' = rest.
Proof.
  intros Hc Hb Hd Er. split; [now apply string_decode|]. split.
  - destruct (decode file_byte (file_word file_byte) (fun x z s => z = mkLoader x (mkFilein s))) with (x := x) (z := mkLoader x (mkFilein (utf8 ch ++ rest))) (ch := ch) (rest := rest) as (z' & E & ->); try done.
    intros y z c s ->. exists (mkLoader y (mkFilein s)). done.
  - destruct (decode fd_byte (fd_word fd_byte) (fun x z s => o_xml z = x /\ reads_ok (n_reads (o_source z)) /\ fd_rest (o_source z) = s))
      with (x := x) (z := mkLoader x d) (ch := ch) (rest := rest) as (z' & E & Ex & Hr & Hs); try done.
    + intros y [y' d0] c s (Ey & H0 & Hr). cbn in Ey, H0, Hr. subst y'. destruct (fd_byte_eq y d0 H0) as (d' & Hd' & E & Er'). rewrite Hr in E, Er'.
      exists (mkLoader y d'). split; [exact E|]. done.
    + destruct z' as [x' d']. cbn in Ex, Hr, Hs. subst x'. exists d'. split; [exact E|]. done.
Qed.

(** A string in UTF-16 that begins with a letter seems to be empty: its high byte is 0. *)
Example string_be_empty x :
  mxml_string_getc ENCODE_UTF8 (mkLoader x ([to_char 0xfe; to_char 0xff] ++ word_be 65 ++ word_be 0)) = Ret (EOF, ENCODE_UTF16BE) (mkLoader x (word_be 65 ++ word_be 0)).
Proof. reflexivity. Qed.

(** *** A witness *)

(** The euro sign, of which the descriptor gives the bytes one by one. *)
Definition demo_euro : fdin := mkFdin [to_char 226] [Data [to_char 130]; Again; Data [to_char 172]; Data (str "x")].

Lemma utf8_read_back_witness :
  exists d', mxml_fd_getc ENCODE_UTF8 (mkLoader demo_stream_xml demo_euro) = Ret (0x20ac, ENCODE_UTF8) (mkLoader demo_stream_xml d') /\ fd_rest d' = str "x".
Proof.
  destruct (utf8_read_back demo_stream_xml 0x20ac (str "x") demo_euro) as (_ & _ & d' & E & _ & R);
    [lia|reflexivity|repeat constructor; discriminate|reflexivity|].
  exists d'. split; [exact E|exact R].
Defined.
