(* ===== verification/Xmltransfer.v ===== *)
(** * A message from one process to another

    The document of a process is saved into a buffer ([XmlSaveString]) and loaded by another
    process ([XmlLoadString]): the message it holds is the same.  The documents for which
    this is so are those of the writing calls of [Xml] when the names and values they are
    given can be written ([sendable]). *)

From Stdlib Require Import ZArith Lia Bool List Ascii String.
From stdpp Require Import base list gmap.
From S2P Require Import Prelude Cstr Mxmlentity Mxmltree Xml Xmlpath Xmldoc Mxmlsave Mxmlload Mxmltext Mxmlread.

(** ** What is read does not depend on addresses *)

Lemma val_erase t : val (erase t) = val t.
Proof. now destruct t. Qed.

Lemma sub_erase k t : sub k (erase t) = erase <$> sub k t.
Proof.
  destruct t as [p v ts]. unfold sub. cbn [erase subs]. induction ts as [|t ts IH]; [done|]. cbn [map List.find].
  assert (E : named k (erase t) = named k t) by (unfold named; now rewrite val_erase). rewrite E. now destruct (named k t).
Qed.

Lemma at_path_erase ks t : at_path ks (erase t) = erase <$> at_path ks t.
Proof.
  revert t. induction ks as [|k ks IH]; intros t; [done|]. cbn [at_path]. rewrite sub_erase. destruct (sub k t) as [u|]; [|done].
  cbn [fmap option_fmap option_map mbind option_bind]. apply IH.
Qed.

Lemma value_at_erase ks t : value_at ks (erase t) = value_at ks t.
Proof.
  unfold value_at. rewrite at_path_erase. destruct (at_path ks t) as [u|]; [|done]. cbn [fmap option_fmap option_map mbind option_bind].
  unfold field. now rewrite val_erase.
Qed.

Lemma plain_erase t : plain (erase t) = plain t.
Proof.
  induction t as [p v ts IH] using ptree_ind'. cbn [erase plain]. f_equal. induction IH as [|t ts Ht _ IHs]; [done|].
  cbn [map forallb]. now rewrite Ht, IHs.
Qed.

Lemma good_erase t : good (erase t) = good t.
Proof.
  induction t as [p v ts IH] using ptree_ind'. cbn [erase good]. f_equal. induction IH as [|t ts Ht _ IHs]; [done|].
  cbn [map forallb]. now rewrite Ht, IHs.
Qed.

Lemma forallb_good_erase ts : forallb good (map erase ts) = forallb good ts.
Proof. induction ts as [|t ts IH]; [done|]. cbn [map forallb]. now rewrite good_erase, IH. Qed.

(** A tree of the same shape in another process is the same document. *)
Lemma document_erase x y m t u :
  document x m t -> erase u = erase t -> wf y NULL NULL NULL u -> root u = l_pIntXml y -> document y m u.
Proof.
  intros [W R P Pu F Rs] E Wu Ru.
  assert (V : forall ks, value_at ks u = value_at ks t) by (intros ks; rewrite <- value_at_erase, E; apply value_at_erase).
  split; [exact Wu|exact Ru| | | |].
  - rewrite <- plain_erase, E, plain_erase. exact P.
  - pose proof (at_path_erase public_tag u) as E1. rewrite E, at_path_erase in E1. destruct Pu as [w Pu]. rewrite Pu in E1.
    destruct (at_path public_tag u); [eauto|discriminate].
  - intros tag Ht. rewrite V. now apply F.
  - intros set id em Hs He Hi. rewrite V. now apply Rs.
Qed.

(** ** Documents that can be sent *)

Definition sendable (x : xml) (m : message) : Prop :=
  ready x /\ exists r ts, document x m (PT r (Element (Some version) []) ts) /\ forallb good ts = true.

Definition good_key (k : key) : bool :=
  good_name (key_name k) && match key_attr k with Some (_, v) => forallb text_char v | None => true end.

Lemma good_put name d attrs :
  good_name name = true -> forallb text_char d = true ->
  forallb good_attr attrs = true -> NoDup (a_name <$> attrs) ->
  forallb good_attr (put_attr name d attrs) = true /\ NoDup (a_name <$> put_attr name d attrs).
Proof.
  intros Hn Hd G N. unfold put_attr.
  assert (R : forall l, forallb good_attr l = true -> match replace_attr name (Some d) l with
    | Some l' => forallb good_attr l' = true /\ a_name <$> l' = a_name <$> l
    | None => List.find (has_name name) l = None end).
  { induction l as [|a l IH]; [done|]. cbn [forallb replace_attr List.find]. intros [Ga Gl]%andb_prop. destruct (has_name name a).
    - split; [|done]. cbn [forallb]. rewrite Gl, andb_true_r. unfold good_attr in *. cbn [a_name a_value] in *. apply andb_prop in Ga as [-> _]. exact Hd.
    - specialize (IH Gl). destruct (replace_attr name (Some d) l); cbn [fmap option_fmap option_map]; [|exact IH].
      destruct IH as [I1 I2]. cbn [forallb]. rewrite Ga, I1. split; [done|]. cbn [fmap list_fmap]. now f_equal. }
  specialize (R attrs G). destruct (replace_attr name (Some d) attrs) as [l|]; [destruct R as [R1 R2]; now rewrite R2|].
  rewrite List.forallb_app, G. cbn [forallb]. unfold good_attr at 1. cbn [a_name a_value]. rewrite Hn, Hd. split; [done|].
  rewrite fmap_app. apply NoDup_app. split; [exact N|]. split; [|apply NoDup_singleton]. intros n H1 H2.
  cbn [fmap list_fmap a_name] in H2. apply list_elem_of_singleton in H2 as ->.
  apply list_elem_of_fmap in H1 as (a & Ea & Ha). apply list_elem_of_In in Ha. pose proof (find_none _ _ R a Ha) as Hf. cbn in Hf.
  unfold has_name in Hf. rewrite <- Ea in Hf. now rewrite (proj2 (streq_cstr name name) eq_refl) in Hf.
Qed.

Lemma good_fresh k u : good_key k = true -> fresh k u -> good u = true.
Proof.
  unfold good_key, key_attrs. intros [Hn Ha]%andb_prop [p ->]. cbn [good good_value]. rewrite Hn. unfold key_attrs.
  destruct k; cbn [key_attr] in *; cbn [forallb]; unfold good_attr; cbn [a_name a_value]; rewrite ?Ha; reflexivity.
Qed.

Lemma upserted_good d ks t t' :
  upserted d ks t t' -> forallb good_key ks = true -> forallb text_char d = true -> good t = true -> good t' = true.
Proof.
  induction 1 as [p e attrs ts|k ks p v ts a u u' b (_ & _ & Hts) U IH]; intros Hk Hd G.
  - destruct (good_element _ G) as (q & e' & attrs' & us & E & Ge & Ga & N & Gu). injection E as <- -> <- <-.
    destruct (good_put (str "value") d attrs eq_refl Hd Ga N) as [Ga' N']. cbn [good good_value]. rewrite Ge, Ga', Gu. now rewrite bool_decide_eq_true_2.
  - cbn [forallb] in Hk. apply andb_prop in Hk as [Hk Hks]. cbn [good] in *. apply andb_prop in G as [Gv G]. rewrite Gv.
    assert (H : forallb good a = true /\ good u = true /\ forallb good b = true).
    { destruct Hts as [->|(-> & -> & Hf)].
      - rewrite List.forallb_app in G. cbn [forallb] in G. apply andb_prop in G as [G1 G]. apply andb_prop in G as [G2 G3]. now split.
      - split; [exact G|]. split; [now apply (good_fresh k)|done]. }
    destruct H as (Ha & Hu & Hb). rewrite List.forallb_app. cbn [forallb]. now rewrite Ha, Hb, IH.
Qed.

(** Below the root, which is not an element of that kind. *)
Lemma upserted_good_root d k ks r v ts t' :
  upserted d (k :: ks) (PT r v ts) t' -> forallb good_key (k :: ks) = true -> forallb text_char d = true -> forallb good ts = true ->
  exists ts', t' = PT r v ts' /\ forallb good ts' = true.
Proof.
  intros U Hk Hd G. pose (w := Element (Some (str "a")) []). assert (U' : exists ts', t' = PT r v ts' /\ upserted d (k :: ks) (PT r w ts) (PT r w ts')).
  { inversion U; subst. eexists. split; [reflexivity|]. econstructor; eassumption. }
  destruct U' as (ts' & -> & U'). exists ts'. split; [done|].
  assert (G' : good (PT r w ts') = true) by (apply (upserted_good _ _ _ _ U' Hk Hd); exact G). exact G'.
Qed.

(** The arguments of a writing call can be written. *)
Definition write_good (w : write) : bool :=
  match w with
  | DoSet tag d => good_name tag && forallb text_char d
  | DoCharSet tag c => good_name tag && forallb text_char (cstr [c; NUL])
  | DoIntSet tag _ => good_name tag
  | DoAddList set _ em d => forallb text_char set && good_name em && forallb text_char d
  | DoAddIntList set _ em _ => forallb text_char set && good_name em
  end.

Lemma text_fmt_d n : forallb text_char (fmt_d n) = true.
Proof.
  apply forallb_forall. intros c Hc. destruct (fmt_d_chars n) as (_ & F & _). rewrite List.Forall_forall in F. specialize (F c Hc).
  unfold text_char. apply orb_true_iff. left. apply Z.leb_le. unfold isdigit in F. apply orb_prop in F as [F|F]; [lia|].
  apply ceqb_eq in F as ->. now vm_compute.
Qed.

Lemma good_public_path tag : good_name tag = true -> forallb good_key (public_path tag) = true.
Proof. intros H. cbn. unfold good_key. cbn. now rewrite H. Qed.

Lemma good_record_path set id em : forallb text_char set = true -> good_name em = true -> forallb good_key (record_path set id em) = true.
Proof. intros Hs He. cbn. unfold good_key. cbn [key_name key_attr]. now rewrite Hs, He, text_fmt_d. Qed.

Lemma sendable_holds x m : sendable x m -> holds_message x m.
Proof. intros (R & r & ts & D & _). split; eauto. Qed.

(** The two kinds of writing calls. *)
Lemma sendable_field x m tag f d :
  sendable x m -> nonul tag -> good_name tag = true -> forallb text_char d = true -> sets f d ->
  exists x', or_return (-1) find_public (fun tree => or_return (-1) (find_or_add tree (Tag tag)) f) x = Ret 0 x'
    /\ sendable x' (set_public (insert tag d) m).
Proof.
  intros (R & r & ts & D & G) Ht Hg Hd F. destruct (writes_field x m _ tag f d D (proj1 R) F) as (x' & t' & E & Ed & U & V).
  destruct (ready_vars _ _ V R) as [R' Hl]. exists x'. split; [exact E|]. split; [exact R'|].
  destruct (upserted_good_root _ _ _ _ _ _ _ U (good_public_path tag Hg) Hd G) as (ts' & -> & G').
  exists r, ts'. split; [|exact G']. exact (document_field x x' m _ _ tag d D Ht Ed Hl U).
Qed.

Lemma sendable_record x m set id em f d :
  sendable x m -> nonul set -> nonul em -> fits_d id -> forallb text_char set = true -> good_name em = true -> forallb text_char d = true ->
  sets f d ->
  exists x', or_return (-1) (list_node set id em) f x = Ret 0 x' /\ sendable x' (set_records (insert (set, id, em) d) m).
Proof.
  intros (R & r & ts & D & G) Hs He Hi Gs Ge Hd F. destruct (writes_record x m _ set id em f d D (proj1 R) Hi F) as (x' & t' & E & Ed & U & V).
  destruct (ready_vars _ _ V R) as [R' Hl]. exists x'. split; [exact E|]. split; [exact R'|].
  destruct (upserted_good_root _ _ _ _ _ _ _ U (good_record_path set id em Gs Ge) Hd G) as (ts' & -> & G').
  exists r, ts'. split; [|exact G']. exact (document_record x x' m _ _ set id em d D Hs He Hi Ed Hl U).
Qed.

Lemma sendable_step w x m :
  sendable x m -> write_ok w -> write_good w = true -> exists x', run_write w x = Ret 0 x' /\ sendable x' (apply_write w m).
Proof.
  intros H Hw Gw. destruct w; cbn [write_ok write_good run_write apply_write] in *; rewrite ?andb_true_iff in Gw.
  - now apply sendable_field.
  - now apply sendable_field.
  - destruct Hw as [Ht Hn]. apply sendable_field; try assumption; [apply text_fmt_d|now apply sets_d].
  - destruct Hw as (Hs & He & Hi), Gw as [[Gs Ge] Gd]. now apply sendable_record.
  - destruct Hw as (Hs & He & Hi & Hn), Gw as [Gs Ge]. apply sendable_record; try assumption; [apply text_fmt_d|now apply sets_d].
Qed.

Lemma XmlInit_sendable destroy_cb x ps :
  owned x ps -> ready x -> exists x', XmlInit destroy_cb x = Ret 0 x' /\ sendable x' (mkMessage ∅ ∅).
Proof.
  intros O R. destruct (XmlInit_eq destroy_cb x ps O R) as (x' & E & (R' & r & m & p & D) & _). exists x'. split; [exact E|].
  split; [exact R'|]. exists r. eexists. split; [exact D|reflexivity].
Qed.

(** C15: the documents the wrapper builds, while no allocation fails, are well formed for
    sending: [XmlInit] makes one, and
    writing calls in any number and order, whose tags and element names are names of XML and
    whose values have no control characters, all succeed and keep it one: a declaration
    above elements with distinct attribute names, nothing but elements, and every name and
    value writable.  It holds the fields the calls named. *)
Theorem writes_sendable destroy_cb x0 ps ws :
  owned x0 ps -> ready x0 -> Forall write_ok ws -> forallb write_good ws = true ->
  exists x, (let* rc := XmlInit destroy_cb in let* rcs := run_writes ws in ret (rc, rcs)) x0 = Ret (0, replicate (length ws) 0) x
    /\ sendable x (fold_left (fun m w => apply_write w m) ws (mkMessage ∅ ∅)).
Proof.
  intros O R F G. destruct (XmlInit_sendable destroy_cb x0 ps O R) as (x1 & E1 & S1). rewrite (bind_Ret _ _ _ _ _ E1).
  enough (H : exists x, run_writes ws x1 = Ret (replicate (length ws) 0) x /\ sendable x (fold_left (fun m w => apply_write w m) ws (mkMessage ∅ ∅))).
  { destruct H as (x & E & S). exists x. split; [|exact S]. now rewrite (bind_Ret _ _ _ _ _ E). }
  clear E1. revert x1 S1 G. generalize (mkMessage ∅ ∅). induction F as [|w ws Hw F IH]; intros m x1 S1 G; [now exists x1|].
  cbn [forallb] in G. apply andb_prop in G as [Gw G]. destruct (sendable_step w x1 m S1 Hw Gw) as (x2 & E2 & S2).
  destruct (IH _ x2 S2 G) as (x3 & E3 & S3). exists x3. split; [|exact S3]. cbn [run_writes].
  now rewrite (bind_Ret _ _ _ _ _ E2), (bind_Ret _ _ _ _ _ E3).
Qed.

(** ** Sending *)

(** C14: a document that can be sent, saved in a buffer that has room for its text and the NUL
    and loaded by another process, holds there the message it held here.  Saving returns the
    length of the text and changes nothing but the buffer; loading returns 0, whatever the
    process had loaded before, and leaves every node it had as it was. *)
Theorem XmlString_transfers fmt_f destroy_cb x m r ts psData n y :
  ready x -> document x m (PT r (Element (Some version) []) ts) -> forallb good ts = true ->
  len psData = n -> len (doc_text ts) + 1 < n <= wrap -> bounded y -> ready y ->
  exists psData' y',
    XmlSaveString fmt_f psData n x = Ret (len (doc_text ts) + 1, psData') x
    /\ XmlLoadString destroy_cb psData' y = Ret 0 y'
    /\ sendable y' m /\ forall q, q < x_brk y -> x_heap y' !! q = x_heap y !! q.
Proof.
  intros R D G Hl Hw B Ry. set (full := doc_text ts ++ [LF]).
  assert (Lf : len full = len (doc_text ts) + 1) by (unfold full, len; rewrite length_app; cbn; lia).
  destruct (load_document destroy_cb y ts B (proj1 Ry) G) as (y' & ts' & E & W & S & P & Hal & Er & _ & F).
  exists (saved full psData), y'. split; [|split; [|split; [|exact F]]].
  - rewrite <- Lf. apply (save_document_eq fmt_f x ts r); try assumption; [exact (d_wf _ _ _ D)|exact (eq_sym (d_root _ _ _ D))|unfold len in *; lia|lia].
  - unfold XmlLoadString in *. rewrite cstr_saved by (now apply nonul_document). rewrite take_ge by (unfold len in *; lia).
    rewrite cstr_id in E by (now apply nonul_document). exact E.
  - split; [split; [exact Hal|rewrite Er; apply Ry]|]. exists (x_brk y), ts'. split.
    + apply (document_erase x y' m _ _ D); [|exact W|exact (eq_sym P)]. cbn [erase]. now rewrite S.
    + now rewrite <- forallb_good_erase, S, forallb_good_erase.
Qed.

(** ** Examples *)

Lemma before_init_bounded : bounded before_init.
Proof. apply before_init_owned. Qed.

Lemma demo_writes_good : forallb write_good demo_writes = true.
Proof. vm_compute. reflexivity. Qed.

Lemma writes_sendable_witness :
  exists x, (let* rc := XmlInit no_destructor in let* rcs := run_writes demo_writes in ret (rc, rcs)) before_init = Ret (0, [0; 0; 0; 0; 0; 0]) x
    /\ sendable x (fold_left (fun m w => apply_write w m) demo_writes (mkMessage ∅ ∅)).
Proof. exact (writes_sendable no_destructor before_init [] demo_writes before_init_owned before_init_ready demo_writes_ok demo_writes_good). Defined.

(** The empty document of a process. *)
Lemma empty_document_example : exists x r m p, ready x /\ document x (mkMessage ∅ ∅) (empty_tree r m p).
Proof.
  destruct (XmlInit_eq no_destructor before_init [] before_init_owned before_init_ready) as (x & _ & (R & r & m & p & D) & _).
  now exists x, r, m, p.
Qed.

Lemma XmlString_transfers_witness :
  exists x psData y, XmlSaveString (fun _ => []) (zeros 100) 100 x = Ret (72, psData) x
    /\ XmlLoadString no_destructor psData before_init = Ret 0 y /\ sendable y (mkMessage ∅ ∅).
Proof.
  destruct empty_document_example as (x & r & m & p & R & D).
  destruct (XmlString_transfers (fun _ => []) no_destructor x _ _ _ (zeros 100) 100 before_init R D eq_refl eq_refl) as (b & y & E1 & E2 & S & _).
  - split; vm_compute; congruence.
  - exact before_init_bounded.
  - exact before_init_ready.
  - exists x, b, y. split; [exact E1|]. split; [exact E2|exact S].
Defined.

(** A document is built, saved, loaded by a fresh process and read. *)
Lemma transfer_example :
  match
    (let* (n, b) := XmlSaveString (fun _ => []) (zeros 500) 500 in ret b) demo_document with
  | Ret b _ =>
      match (XmlLoadString no_destructor b ;;; let* (rc, d) := XmlGet (str "TransCode") (zeros 20) 20 in
             let* (rc', d') := XmlFetchList (str "Items") 1 (str "Name") (zeros 20) 20 in ret (cstr d, cstr d')) before_init with
      | Ret r _ => r = (str "1002", str "first")
      | _ => False
      end
  | _ => False
  end.
Proof. vm_compute. reflexivity. Qed.
